(* ===== verification/_CoqProject ===== *)
-Q . S2P
Prelude.v
PackData.v
TypeNames.v
Search.v
TypeTable.v
CtpTypes.v
Modules.v
Utf8.v
World.v
Runtime.v
ClientData.v
SwigObject.v
Conversions.v
TypeQuery.v
Iconv.v
Layout.v
Accessor.v
DataTypes.v
Constants.v
ModuleInit.v
Structs1.v
Structs2.v
Structs3.v
Wraps1.v
Wraps2.v
Wraps3.v
CtpStructs.v
Director.v
Lifecycle.v
Frames.v
Classes.v
Ownership.v
Callbacks.v
Api.v
Packed.v
Session.v
OwnerMap.v
Upcalls.v
Requests.v
Exchange.v
