(* ===== verification/Prelude.v ===== *)
(** * Verification of the native CTP binding of bt_api_ctp

    ** The program

    bt_api_ctp is a Python package for the CTP futures interface.  Its native
    part is one extension module, [_ctp]: src/src/bt_api_ctp/ctp/ctp_wrap.cpp
    with ctp_wrap.h, generated by SWIG from ctp.i together with the project's
    own code (text conversion, list arguments, error handling of callbacks, the
    audited login).  It links the CTP client library, whose interface is in
    api/6.7.7.  The parts and how they meet:

    - Python calls a wrapper.  It unpacks its arguments, converts objects to
      pointers and values, releases the interpreter lock around the call into
      C++ and turns the outcome into a Python object or a Python error.
    - CTP threads call the director objects.  A callback takes the lock, wraps
      its arguments, calls the Python method of its name and reports an
      exception to the method [pyError].
    - Both rest on the runtime: the table of types with its cast arrays, the
      [SwigPyObject] that wraps a pointer, and the conversions.

    ** Files

    - Prelude: bytes, machine integers, C strings; tactics, hints, shared lemmas.
    - PackData: SWIG_PackData, SWIG_UnpackData and the four functions on them.
    - TypeNames: SWIG_TypeNameComp, TypeCmp, TypeEquiv, Hash, TypePrettyName.
    - Search: the binary search the runtime shares and SWIG_CastHashSort.
    - TypeTable: SWIG_MangledTypeQueryModule, TypeQueryModule, TypeCheck,
      TypeCheckStruct, and the cast arrays of SWIG_InitializeModule.
    - CtpTypes: the 529 types of the module, [_swigt_], [SWIGTYPE], [_swigc_].
    - Modules: the modules of a process with their descriptors, the list of an
      interpreter, and SWIG_InitializeModule, which merges the types.
    - Utf8: the Unicode and floating-point functions of Python/C in use.
    - World: the state of the interpreter and the process, the monad, the lock
      scopes SWIG_Python_Thread_Block and SWIG_Python_Thread_Allow, C memory.
    - Runtime: status codes, SWIG_Python_UnpackTuple, SwigPyObject,
      SWIG_Python_ConvertPtrAndOwn, NewPointerObj, InitShadowInstance.
    - ClientData: SwigPyClientData, SWIG_TypeClientData, the registration of
      classes, SWIG_PropagateClientData, SWIG_Python_DestroyModule.
    - SwigObject: SwigPyObject_dealloc, own, compare, repr.
    - Conversions: SWIG_AsVal_*, SWIG_AsCharPtrAndSize, SWIG_AsCharArray, SWIG_From*.
    - TypeQuery: SWIG_Python_TypeQuery with its cache, SWIG_pchar_descriptor.
    - Iconv: _ctp_get_iconv, the typemap of text getters, the Windows iconv.
    - Layout, DataTypes, Structs1 to Structs3: the field types with their codes,
      the CTP structures and their layout.
    - Constants: the constants the module sets and those ctp.i ignores.
    - ModuleInit: SWIG_mod_exec with the shared module, the singletons,
      SWIG_Python_SetModule and SWIG_Python_SetConstant.
    - Accessor, Wraps1 to Wraps3, CtpStructs: the accessors of all structures.
    - Director, Callbacks: Swig::Director, the callback template, all callbacks.
    - Lifecycle: creating, disowning and deleting callback objects.
    - Frames: what accessors and conversions leave alone.
    - Classes: constructor, destructor and registration of every structure.
    - Ownership: all sequences of operations on structure objects, as a step
      relation on the world and as a ledger of owners that it refines.
    - Api: request and subscription wrappers, the audited login.
    - Packed: SwigPyPacked, pointers to functions, SwigVarLink, SWIG_TypeDynamicCast.
    - Session: creating an API object with its overloads, and the virtual
      methods that are no requests.
    - OwnerMap: the pointers a director owns, [GCItem] and its classes.
    - Upcalls: [_wrap_*Spi_On*], the callback methods called from Python.
    - Requests: the requests of both API classes, the virtual methods they wrap.
    - Exchange: a structure as a record of fields, from its constructor through
      its setters to a request, and from a callback to its getters.

    Each file is one module.  A definition has the name of the function it
    models; the parts of a function and its templates have names of their own,
    and the comment before them says which code they are.  Code of
    ctp_wrap.cpp that repeats a template is an instance of it; the comment
    before a template names the lines of one of its copies.

    ** The model

    A native frame is a value of [World.M A]: a function of a [world] that
    returns, throws a C++ exception or is stuck at an operation that is
    undefined, so that "not stuck" is a safety claim.  The world holds the
    Python heap, the references native code owns, the error indicator, the lock,
    C memory with its live blocks, the directors, the conversion handle and the
    calls the frame has made into Python and into the library.  Every function
    of the Python/C interface is stuck without the lock.  Integers have the width of their C type
    where it matters; a [long] has 64 bits, or 32 on Windows, as a parameter.
    [refs] counts the references native code owns, so that a balanced function
    leaves it as it was, up to what it returns.

    Code outside the repository is a parameter with its documented contract as
    a class: the interpreter [Director.PyEnv]/[PyLaws], the CTP library
    [Api.CtpEnv]/[CtpLaws], the text conversion [Iconv.IconvEnv]/[IconvLaws];
    the attributes of classes and the import of the module capsule are
    functions the definitions take.
    What the type table promises to the conversions is [Runtime.TypeEnv] and
    [ExactTypes]; CtpTypes discharges it for the module's own table and
    [ModuleInit.merged_exact] for the table merged with other modules.  Every
    contract has an instance in the witnesses.

    Fuel: loops whose end is not structural take a bound that the code cannot
    exceed: a chain or a search of objects visits each heap object once, a C
    string each mapped byte, a binary search halves its interval, a name
    comparison consumes its names.  Running out is the outcome [Endless] or
    [None], never a silent result, and the theorems that claim a result prove
    it is reached.  A read outside a table, or through a null type, is [None] too.

    ** The theorems

    - Records (C1, C2): what a client assigns to a new structure is what the
      library reads in a request, field by field, whatever else the client does
      and whatever is refused; what the library passes to a callback is what the
      getters give to the Python method.
    - Callbacks (C3 to C5, C13, C14, C28): the Python method is called once with
      the right arguments, the lock is given back, references balance, and
      exceptions reach [pyError] or leave as C++ exceptions; the tables cover
      every callback the library declares; an override that calls its base
      method does not come back to itself.
    - Memory of structures (C6 to C8, C17): every sequence of creating,
      reading, writing, disowning, acquiring, deleting and deallocating structure
      objects that comes back refines a ledger of owners and live structures.
      [delete_X] does not ask who owns the structure, nor [acquire] whether it
      can be owned: unless one of the two took a structure from its owner, the
      structure of an owner is live, can be read, written and deleted, and is
      freed once; otherwise its deallocation can be a double free.  Without such
      operations nothing owned is left after the last deallocation.
      Deallocation keeps the pending error and the references.
    - Fields (C9, C22, C27): a setter stores the converted value in its field
      and nowhere else and the getter gives the value of the bytes, which is the
      one assigned for numbers and ASCII text; values that do not fit are
      refused without effect; the accessors match the declared structures.
    - API wrappers (C10 to C12, C23 to C26, C29): requests, subscriptions, session
      methods and the login pass exactly the given values, report every outcome,
      the refusals of the login included, and free what they allocate, except that a list with an item that is no
      string is freed twice; the overloads of [CreateFtdc*Api] call the library
      once or raise a TypeError that lists them; every virtual method is wrapped.
    - Loading (C15, C16, C30, C33): when no allocation fails the module joins the list of its interpreter,
      shares the types other modules have, sets the constants of the header and
      keeps only the references its variables hold; a second interpreter can
      make a walk over the list endless.
    - Classes and types (C18 to C21, C34 to C36): class data reaches exactly
      the equivalent types and is released once; the cache of type queries is
      not observable; conversion accepts exactly the registered type; the cast
      search by name comes back with the right entry and reads nothing outside
      the arrays; own(), acquire() and disown() unbalance the module
      capsule.
    - Callback objects (C31, C32, C40): disowning counts a reference without the
      lock, deleting a director is undefined, and what a director owns is
      deleted once.
    - Values and text (C37 to C39): ranges, array bounds, and the text a getter
      gives on every branch of the GBK conversion, with what its fallback loses.

    ** Not modelled

    The model is sequential: no other Python thread runs between the release
    of the lock around a call into C++ and the moment it is taken again, so that
    the heap, the references and the blocks are then as the call left them
    ([Api.left_]); callbacks on CTP threads are frames of their own.  A block
    address is never used again after it is freed.  Storing the attribute
    [this] in an instance succeeds: hooks of user classes on it are not
    modelled, since they are Python code the extension only triggers.  Nor are
    weak references and the references objects hold to their types, failing
    allocations (but see [ModuleInit.PyModule_AddObject]), the error
    helpers nothing calls (SWIG_Python_AddErrorMsg, AddErrMesg, ArgFail,
    MustGetPtr, CheckNoKeywords), the table [SwigMethods], which pairs each
    wrapper with its name, and [SWIG_init], which hands it to the interpreter,
    code for Python 2 and for builtin types, the vendor library, and the Python
    sources.  The headers of the other platforms under api/6.7.7 and in the
    frameworks declare the same types, structures and classes as those of Linux,
    which the files here follow. *)

From Stdlib Require Export ZArith Lia List Bool.
From stdpp Require Export base tactics numbers list gmap strings.

Global Open Scope Z_scope.

(** ** Bytes, machine integers and C strings *)

(** An object of type [unsigned char] is its value in [0, 256); memory and
    strings are lists of them. *)
Definition byte_ok (b : Z) : Prop := 0 <= b < 256.
Definition bytes_ok (l : list Z) : Prop := Forall byte_ok l.

(** Reduction to [w] unsigned bits, and the two's complement reading. *)
Definition wrapu (w z : Z) : Z := z mod 2 ^ w.
Definition wraps (w z : Z) : Z :=
  let u := wrapu w z in if u <? 2 ^ (w - 1) then u else u - 2 ^ w.

(** [char] is signed on every platform the extension is built for. *)
Definition schar (b : Z) : Z := wraps 8 b.

(** The characters of a C string: those before the first NUL. *)
Fixpoint cstr (l : list Z) : list Z :=
  match l with
  | [] => []
  | c :: l' => if c =? 0 then [] else c :: cstr l'
  end.

(** A C string as a list without its terminator: no NUL inside. *)
Definition no_nul (l : list Z) : Prop := Forall (fun c => c <> 0) l.

(** [strcmp], which compares as [unsigned char]. *)
Fixpoint strcmp (a b : list Z) : Z :=
  match a, b with
  | [], [] => 0
  | [], _ :: _ => -1
  | _ :: _, [] => 1
  | x :: a', y :: b' =>
      if x <? y then -1 else if y <? x then 1 else strcmp a' b'
  end.

(** The characters of a Rocq string literal. *)
Fixpoint chars (s : string) : list Z :=
  match s with
  | EmptyString => []
  | String c s' => Z.of_N (Ascii.N_of_ascii c) :: chars s'
  end.

(** Little-endian objects of [n] bytes. *)
Fixpoint le_bytes (n : nat) (z : Z) : list Z :=
  match n with
  | O => []
  | S n' => z mod 256 :: le_bytes n' (z / 256)
  end.

Fixpoint le_value (l : list Z) : Z :=
  match l with
  | [] => 0
  | b :: l' => b + 256 * le_value l'
  end.

(** ** Tactics *)

Create HintDb ctp discriminated.
Create Rewrite HintDb ctp_len.

(** Splits the boolean tests of the goal and of the hypotheses that lia reads. *)
Ltac zbool :=
  repeat match goal with
  | H : (_ =? _) = true |- _ => apply Z.eqb_eq in H
  | H : (_ =? _) = false |- _ => apply Z.eqb_neq in H
  | H : (_ <? _) = true |- _ => apply Z.ltb_lt in H
  | H : (_ <? _) = false |- _ => apply Z.ltb_ge in H
  | H : (_ <=? _) = true |- _ => apply Z.leb_le in H
  | H : (_ <=? _) = false |- _ => apply Z.leb_gt in H
  | H : (_ && _)%bool = true |- _ => apply andb_true_iff in H; destruct H
  | H : (_ || _)%bool = false |- _ => apply orb_false_iff in H; destruct H
  end.

(** [lia] with the quotients and remainders of the goal given by their equations. *)
Ltac dlia := Z.div_mod_to_equations; lia.

(** Case analysis on the tests of a conditional, keeping the equations. *)
Ltac case_if :=
  match goal with
  | |- context [if ?b then _ else _] => destruct b eqn:?
  | H : context [if ?b then _ else _] |- _ => destruct b eqn:?
  end.

(** ** Shared lemmas *)

Lemma byte_forall (P : Z -> bool) :
  forallb P (map Z.of_nat (seq 0 256)) = true -> forall b, byte_ok b -> P b = true.
Proof.
  rewrite forallb_forall. intros H b [Hl Hh]. apply H.
  rewrite in_map_iff. exists (Z.to_nat b). rewrite in_seq. lia.
Qed.

Lemma wrapu_range w z : 0 <= w -> 0 <= wrapu w z < 2 ^ w.
Proof. intros. apply Z.mod_pos_bound. lia. Qed.

Lemma wrapu_small w z : 0 <= z < 2 ^ w -> wrapu w z = z.
Proof. apply Z.mod_small. Qed.

Lemma wraps_small w z : 0 < w -> - 2 ^ (w - 1) <= z < 2 ^ (w - 1) -> wraps w z = z.
Proof.
  intros Hw Hz. unfold wraps, wrapu.
  assert (E : 2 ^ w = 2 * 2 ^ (w - 1)) by (rewrite <- Z.pow_succ_r by lia; f_equal; lia).
  assert (0 < 2 ^ (w - 1)) by lia. rewrite E.
  set (m := 2 ^ (w - 1)) in *. clearbody m.
  destruct (Z.leb_spec 0 z).
  - rewrite Z.mod_small by lia. case_if; zbool; lia.
  - rewrite <- (Z.mod_unique z (2 * m) (-1) (z + 2 * m)) by lia.
    case_if; zbool; lia.
Qed.

Lemma lor_shiftl_add a n b : 0 <= n -> 0 <= b < 2 ^ n -> Z.lor (Z.shiftl a n) b = a * 2 ^ n + b.
Proof.
  intros Hn Hb.
  assert (E : Z.land (Z.shiftl a n) b = 0).
  { apply Z.bits_inj'. intros i Hi. rewrite Z.land_spec, Z.shiftl_spec, Z.bits_0 by done.
    destruct (Z.lt_ge_cases i n); [by rewrite Z.testbit_neg_r by lia|].
    rewrite <- (Z.mod_small b (2 ^ n)), Z.mod_pow2_bits_high by lia. apply andb_false_r. }
  rewrite <- Z.lxor_lor, <- Z.add_nocarry_lxor, Z.shiftl_mul_pow2 by done. done.
Qed.

Lemma cstr_no_nul l : no_nul (cstr l).
Proof. induction l as [|c l IH]; simpl; [constructor|]. case_if; zbool; repeat constructor; auto. Qed.

Lemma no_nul_app l r : no_nul l -> no_nul r -> no_nul (l ++ r).
Proof. intros. by apply Forall_app. Qed.

Lemma cstr_app_nul l r : no_nul l -> cstr (l ++ 0 :: r) = l.
Proof.
  induction 1 as [|c l Hc Hl IH]; simpl; [done|].
  case_if; zbool; [lia|by rewrite IH].
Qed.

Lemma cstr_id l : no_nul l -> cstr l = l.
Proof. induction 1 as [|c l Hc Hl IH]; simpl; [done|]. case_if; zbool; [lia|by rewrite IH]. Qed.

(** A C string is followed by its terminator. *)
Lemma cstr_split l : (length (cstr l) < length l)%nat -> exists r, l = cstr l ++ 0 :: r.
Proof.
  induction l as [|c l IH]; simpl; [lia|]. case_if; zbool; [by exists l; subst|].
  intros Hl. destruct IH as [r Hr]; [simpl in Hl; lia|]. exists r. simpl. by rewrite <- Hr.
Qed.

Lemma strcmp_refl a : strcmp a a = 0.
Proof. induction a; simpl; [done|]. by rewrite Z.ltb_irrefl. Qed.

Lemma strcmp_eq a b : strcmp a b = 0 <-> a = b.
Proof.
  split; [|intros ->; apply strcmp_refl].
  revert b; induction a as [|x a IH]; intros [|y b]; simpl; try lia; [done|].
  repeat case_if; try lia. zbool. intros H. f_equal; [lia|auto].
Qed.

Lemma strcmp_antisym a b : strcmp b a = - strcmp a b.
Proof.
  revert b; induction a as [|x a IH]; intros [|y b]; simpl; try lia.
  repeat case_if; zbool; lia || auto.
Qed.

Lemma strcmp_trans a b c : strcmp a b < 0 -> strcmp b c < 0 -> strcmp a c < 0.
Proof.
  revert b c; induction a as [|x a IH]; intros [|y b] [|z c]; simpl; try lia.
  repeat case_if; zbool; try lia; eauto.
Qed.

#[export] Instance chars_inj : Inj (=) (=) chars.
Proof.
  intros s; induction s as [|c s IH]; intros [|d t] E; simpl in E; try done.
  injection E as E1 E2. f_equal; [|auto].
  apply N2Z.inj in E1. apply (f_equal Ascii.ascii_of_N) in E1.
  by rewrite !Ascii.ascii_N_embedding in E1.
Qed.

Lemma length_le_bytes n z : length (le_bytes n z) = n.
Proof. revert z; induction n; intros; simpl; auto. Qed.

Lemma le_bytes_ok n z : bytes_ok (le_bytes n z).
Proof.
  revert z; induction n; intros; simpl; constructor; [|apply IHn].
  apply Z.mod_pos_bound; lia.
Qed.

Lemma le_value_bytes n z : le_value (le_bytes n z) = z mod 256 ^ Z.of_nat n.
Proof.
  revert z; induction n as [|n IH]; intros z; simpl; [by rewrite Z.mod_1_r|].
  rewrite IH. rewrite Nat2Z.inj_succ, Z.pow_succ_r by lia.
  rewrite Z.rem_mul_r by lia. lia.
Qed.

Lemma le_value_range l : bytes_ok l -> 0 <= le_value l < 256 ^ Z.of_nat (length l).
Proof.
  induction 1 as [|b l Hb Hl IH]; simpl length; [simpl; lia|].
  rewrite Nat2Z.inj_succ, Z.pow_succ_r by lia. simpl. unfold byte_ok in Hb. lia.
Qed.

Lemma le_bytes_value l : bytes_ok l -> le_bytes (length l) (le_value l) = l.
Proof.
  induction 1 as [|b l Hb Hl IH]; simpl; [done|]. unfold byte_ok in Hb.
  rewrite (Z.mul_comm 256), Z.mod_add, Z.mod_small by lia.
  by rewrite Z.div_add, Z.div_small, Z.add_0_l, IH by lia.
Qed.

#[export] Hint Resolve cstr_no_nul le_bytes_ok : ctp.
#[export] Hint Rewrite length_le_bytes @length_app @length_map @length_take @length_drop : ctp_len.
