(* ===== verification/PackData.v ===== *)
(** * Packed data: the hexadecimal text form of raw bytes and pointers

    Models [SWIG_PackData], [SWIG_UnpackData], [SWIG_PackVoidPtr],
    [SWIG_UnpackVoidPtr], [SWIG_PackDataName] and [SWIG_UnpackDataName] of
    ctp_wrap.cpp.  A buffer the code writes through a pointer is the list of
    the bytes written, in order; a C string that is read is the list of its
    characters without the terminator, and reading past the last character
    reads the NUL. *)

From S2P Require Import Prelude.

Module PackData.

(** [static const char hex[17]]. *)
Definition hex (i : Z) : Z := nth (Z.to_nat i) (chars "0123456789abcdef") 0.

(** The characters written at [c]; the returned pointer is just past them. *)
Fixpoint SWIG_PackData (u : list Z) : list Z :=
  match u with
  | [] => []
  | uu :: u' =>
      hex (Z.shiftr (Z.land uu 240) 4) :: hex (Z.land uu 15) :: SWIG_PackData u'
  end.

(** [*c] on a C string, and [c + 1]. *)
Definition deref (c : list Z) : Z := match c with [] => 0 | d :: _ => d end.
Definition advance (c : list Z) : list Z := match c with [] => [] | _ :: c' => c' end.

(** The two digit tests of the loop body, the first shifted into the high nibble. *)
Definition hi_nibble (d : Z) : option Z :=
  if (48 <=? d) && (d <=? 57) then Some (wrapu 8 (Z.shiftl (d - 48) 4))
  else if (97 <=? d) && (d <=? 102) then Some (wrapu 8 (Z.shiftl (d - (97 - 10)) 4))
  else None.

Definition lo_nibble (d : Z) : option Z :=
  if (48 <=? d) && (d <=? 57) then Some (wrapu 8 (d - 48))
  else if (97 <=? d) && (d <=? 102) then Some (wrapu 8 (d - (97 - 10)))
  else None.

(** The bytes stored at [ptr] before the function returned, and the returned
    pointer ([None] for the null pointer). *)
Fixpoint SWIG_UnpackData (c : list Z) (sz : nat) : list Z * option (list Z) :=
  match sz with
  | O => ([], Some c)
  | S sz' =>
      match hi_nibble (deref c) with
      | None => ([], None)
      | Some hi =>
          let c1 := advance c in
          match lo_nibble (deref c1) with
          | None => ([], None)
          | Some lo =>
              let '(u, r) := SWIG_UnpackData (advance c1) sz' in
              (Z.lor hi lo :: u, r)
          end
      end
  end.

Definition sizeof_voidp : Z := 8.

(** What is stored in [buff], and whether [buff] (true) or null is returned. *)
Definition SWIG_PackVoidPtr (ptr : Z) (name : list Z) (bsz : Z) : list Z * bool :=
  if 2 * sizeof_voidp + 2 >? bsz then ([], false)
  else
    let r := 95 :: SWIG_PackData (le_bytes 8 ptr) in
    if Z.of_nat (length name) + 1 >? bsz - Z.of_nat (length r) then (r, false)
    else (r ++ name ++ [0], true).

(** [old] is the object [*ptr] before the call; the pair is the object after
    it and the returned string. *)
Definition SWIG_UnpackVoidPtr (c : list Z) (old : list Z) (name : list Z)
    : list Z * option (list Z) :=
  if negb (deref c =? 95) then
    if strcmp c (chars "NULL") =? 0 then (le_bytes 8 0, Some name) else (old, None)
  else
    let '(u, r) := SWIG_UnpackData (advance c) 8 in
    (u ++ drop (length u) old, r).

Definition SWIG_PackDataName (ptr : list Z) (name : option (list Z)) (bsz : Z)
    : list Z * bool :=
  let sz := Z.of_nat (length ptr) in
  let lname := match name with Some n => Z.of_nat (length n) | None => 0 end in
  if 2 * sz + 2 + lname >? bsz then ([], false)
  else
    let r := 95 :: SWIG_PackData ptr in
    match name with
    | Some n => if lname =? 0 then (r ++ [0], true) else (r ++ n ++ [0], true)
    | None => (r ++ [0], true)
    end.

Definition SWIG_UnpackDataName (c : list Z) (old : list Z) (sz : nat) (name : list Z)
    : list Z * option (list Z) :=
  if negb (deref c =? 95) then
    if strcmp c (chars "NULL") =? 0 then (replicate sz 0, Some name) else (old, None)
  else
    let '(u, r) := SWIG_UnpackData (advance c) sz in
    (u ++ drop (length u) old, r).

(** ** Lemmas *)

Lemma length_SWIG_PackData u : length (SWIG_PackData u) = (2 * length u)%nat.
Proof. induction u; simpl; lia. Qed.

Definition byte_roundtrip (b : Z) : bool :=
  match hi_nibble (hex (Z.shiftr (Z.land b 240) 4)), lo_nibble (hex (Z.land b 15)) with
  | Some hi, Some lo => (Z.lor hi lo =? b) && negb (hex (Z.shiftr (Z.land b 240) 4) =? 0)
                        && negb (hex (Z.land b 15) =? 0)
  | _, _ => false
  end.

Lemma byte_roundtrip_all b : byte_ok b -> byte_roundtrip b = true.
Proof. apply (byte_forall byte_roundtrip). vm_compute. reflexivity. Qed.

(** The digits the two tests accept are exactly those [hex] produces. *)
Definition digit_ok (c : Z) : bool :=
  match hi_nibble c, lo_nibble c with
  | Some hi, Some lo => (hi =? 16 * lo) && (hex lo =? c) && (0 <=? lo) && (lo <? 16)
  | None, None => true
  | _, _ => false
  end.

Lemma digit_ok_all c : digit_ok c = true.
Proof.
  destruct (decide (byte_ok c)) as [Hc|Hc].
  - apply (byte_forall digit_ok); [vm_compute; reflexivity|done].
  - unfold digit_ok, hi_nibble, lo_nibble, byte_ok in *.
    repeat case_if; zbool; lia.
Qed.

Definition nibbles_ok (n : Z) : bool :=
  let hi := n / 16 in let lo := n mod 16 in
  let b := Z.lor (16 * hi) lo in
  (Z.shiftr (Z.land b 240) 4 =? hi) && (Z.land b 15 =? lo) && (0 <=? b) && (b <? 256).

Lemma nibbles_ok_all hi lo : 0 <= hi < 16 -> 0 <= lo < 16 ->
  let b := Z.lor (16 * hi) lo in
  Z.shiftr (Z.land b 240) 4 = hi /\ Z.land b 15 = lo /\ byte_ok b.
Proof.
  intros Hh Hl.
  assert (H : nibbles_ok (16 * hi + lo) = true).
  { apply (byte_forall nibbles_ok); [vm_compute; reflexivity|unfold byte_ok; lia]. }
  unfold nibbles_ok in H.
  rewrite <- (Z.div_unique (16 * hi + lo) 16 hi lo), <- (Z.mod_unique (16 * hi + lo) 16 hi lo)
    in H by lia.
  zbool. unfold byte_ok. auto.
Qed.

Lemma unpack_byte b c n : byte_ok b ->
  SWIG_UnpackData (hex (Z.shiftr (Z.land b 240) 4) :: hex (Z.land b 15) :: c) (S n)
  = let '(u, r) := SWIG_UnpackData c n in (b :: u, r).
Proof.
  intros Hb. pose proof (byte_roundtrip_all b Hb) as H. unfold byte_roundtrip in H.
  cbn [SWIG_UnpackData deref advance].
  destruct (hi_nibble _); [|done]. destruct (lo_nibble _); [|done].
  zbool. by subst.
Qed.

(** The two digit characters of an accepted byte are those of its text form. *)
Lemma unpack_digits c c1 hi lo : hi_nibble c = Some hi -> lo_nibble c1 = Some lo ->
  byte_ok (Z.lor hi lo) /\ hex (Z.shiftr (Z.land (Z.lor hi lo) 240) 4) = c
  /\ hex (Z.land (Z.lor hi lo) 15) = c1.
Proof.
  intros H1 H2. pose proof (digit_ok_all c) as D1. pose proof (digit_ok_all c1) as D2.
  unfold digit_ok in *. rewrite H1 in D1. rewrite H2 in D2.
  destruct (lo_nibble c) as [l1|]; [|done]. destruct (hi_nibble c1); [|done].
  zbool. subst hi.
  destruct (nibbles_ok_all l1 lo) as (E1 & E2 & E3); [lia|lia|].
  rewrite E1, E2. auto.
Qed.

Lemma SWIG_PackData_no_nul u : bytes_ok u -> no_nul (SWIG_PackData u).
Proof.
  induction 1 as [|b u Hb Hu IH]; simpl; [constructor|].
  pose proof (byte_roundtrip_all b Hb) as H. unfold byte_roundtrip in H.
  destruct (hi_nibble _); [|done]. destruct (lo_nibble _); [|done].
  zbool. rewrite !negb_true_iff in *. zbool.
  repeat constructor; auto.
Qed.

Lemma unpack_pack u rest : bytes_ok u ->
  SWIG_UnpackData (SWIG_PackData u ++ rest) (length u) = (u, Some rest).
Proof.
  induction 1 as [|b u Hb Hu IH]; [done|].
  cbn [SWIG_PackData app length]. rewrite unpack_byte by done. by rewrite IH.
Qed.

Lemma deref_nonzero c : deref c <> 0 -> c = deref c :: advance c.
Proof. destruct c; simpl; congruence. Qed.

Lemma nibble_nonzero d x : hi_nibble d = Some x \/ lo_nibble d = Some x -> d <> 0.
Proof.
  unfold hi_nibble, lo_nibble. intros H ->. by destruct H.
Qed.

Lemma pack_unpack c sz u rest : SWIG_UnpackData c sz = (u, Some rest) ->
  c = SWIG_PackData u ++ rest /\ length u = sz /\ bytes_ok u.
Proof.
  revert c u; induction sz as [|sz IH]; intros c u; cbn [SWIG_UnpackData].
  { intros [= <- <-]. repeat constructor. }
  destruct (hi_nibble (deref c)) as [hi|] eqn:Eh; [|done].
  destruct (lo_nibble (deref (advance c))) as [lo|] eqn:El; [|done].
  destruct (SWIG_UnpackData _ sz) as [u' r] eqn:Er. intros [= <- ->].
  destruct (IH _ _ Er) as (E & Hlen & Hok).
  destruct (unpack_digits _ _ _ _ Eh El) as (Hb & E1 & E2).
  cbn [SWIG_PackData]. rewrite E1, E2. simpl app. rewrite <- E.
  repeat split; [|simpl; lia|by constructor].
  rewrite <- deref_nonzero by eauto using nibble_nonzero.
  apply deref_nonzero. eauto using nibble_nonzero.
Qed.

(** ** Properties *)

(** Text form round trip: unpacking the text form of a byte sequence gives
    back exactly these bytes and leaves the rest of the string, and conversely
    every text the unpacker accepts is the text form of the bytes it stores:
    the two functions are inverse and no second spelling is accepted. *)
Lemma unpack_pack_iff u c rest sz :
  bytes_ok u /\ length u = sz /\ c = SWIG_PackData u ++ rest
  <-> SWIG_UnpackData c sz = (u, Some rest).
Proof.
  split.
  - intros (Hu & <- & ->). by apply unpack_pack.
  - intros H. destruct (pack_unpack _ _ _ _ H) as (? & ? & ?). auto.
Qed.

(** Pointer round trip within the buffer: packing a 64-bit pointer with a
    type name never stores more than the [bsz] bytes of the buffer, succeeds
    exactly when the underscore, sixteen digits, the name and the terminator
    fit, and the string then stored unpacks to the same pointer and name,
    whatever the pointer object held before. *)
Lemma pack_void_ptr_roundtrip ptr name bsz old :
  0 <= ptr < 2 ^ 64 -> no_nul name -> length old = 8%nat ->
  let '(w, ok) := SWIG_PackVoidPtr ptr name bsz in
  (w = [] \/ Z.of_nat (length w) <= bsz)
  /\ (ok = true <-> 17 + Z.of_nat (length name) + 1 <= bsz)
  /\ (ok = true ->
      SWIG_UnpackVoidPtr (cstr w) old name = (le_bytes 8 ptr, Some name)
      /\ le_value (le_bytes 8 ptr) = ptr).
Proof.
  intros Hptr Hname Hold. unfold SWIG_PackVoidPtr, sizeof_voidp.
  assert (Hlen : Z.of_nat (length (95 :: SWIG_PackData (le_bytes 8 ptr))) = 17).
  { cbn [length]. rewrite length_SWIG_PackData, length_le_bytes. lia. }
  rewrite Hlen.
  destruct (Z.gtb_spec (2 * 8 + 2) bsz).
  { repeat split; [by left|done|lia|done|done]. }
  destruct (Z.gtb_spec (Z.of_nat (length name) + 1) (bsz - 17)).
  { repeat split; [right; lia|done|lia|done|done]. }
  split; [right; rewrite !length_app; cbn [length] in *; lia|].
  split; [split; [lia|done]|]. intros _.
  assert (Hc : cstr ((95 :: SWIG_PackData (le_bytes 8 ptr)) ++ name ++ [0])
               = 95 :: SWIG_PackData (le_bytes 8 ptr) ++ name).
  { rewrite app_assoc. apply cstr_app_nul.
    apply (no_nul_app (95 :: SWIG_PackData _) name); [|done].
    constructor; [done|]. apply SWIG_PackData_no_nul, le_bytes_ok. }
  rewrite Hc. unfold SWIG_UnpackVoidPtr. cbn [deref advance negb Z.eqb Pos.eqb].
  pose proof (unpack_pack (le_bytes 8 ptr) name (le_bytes_ok _ _)) as Hu.
  rewrite length_le_bytes in Hu. rewrite Hu, length_le_bytes, drop_ge, app_nil_r by lia.
  split; [done|]. rewrite le_value_bytes. change (256 ^ Z.of_nat 8) with (2 ^ 64).
  by apply Z.mod_small.
Qed.

(** Named data round trip: the packed form of a byte block with an optional
    name stays within the buffer, is written exactly when it fits, and
    unpacks to the same bytes followed by the name. *)
Lemma pack_data_name_roundtrip data name bsz old :
  bytes_ok data -> no_nul (default [] name) -> length old = length data ->
  let '(w, ok) := SWIG_PackDataName data name bsz in
  Z.of_nat (length w) <= Z.max 0 bsz
  /\ (ok = true <-> 2 * Z.of_nat (length data) + 2 + Z.of_nat (length (default [] name)) <= bsz)
  /\ (ok = true ->
      SWIG_UnpackDataName (cstr w) old (length data) (default [] name)
      = (data, Some (default [] name))).
Proof.
  intros Hd Hn Hold.
  assert (E : SWIG_PackDataName data name bsz
    = if 2 * Z.of_nat (length data) + 2 + Z.of_nat (length (default [] name)) >? bsz
      then ([], false)
      else ((95 :: SWIG_PackData data) ++ default [] name ++ [0], true)).
  { unfold SWIG_PackDataName. destruct name as [[|x n]|]; reflexivity. }
  rewrite E. destruct (Z.gtb_spec (2 * Z.of_nat (length data) + 2
                                   + Z.of_nat (length (default [] name))) bsz).
  { simpl. repeat split; [lia|done|lia|done]. }
  split. { rewrite !length_app. cbn [length]. rewrite length_SWIG_PackData. lia. }
  split; [split; [lia|done]|]. intros _.
  rewrite app_assoc, cstr_app_nul.
  2:{ apply (no_nul_app (95 :: SWIG_PackData _)); [|done]. constructor; [done|]. by apply SWIG_PackData_no_nul. }
  unfold SWIG_UnpackDataName. cbn [app deref advance negb Z.eqb Pos.eqb].
  by rewrite unpack_pack, drop_ge, app_nil_r by (done || lia).
Qed.

End PackData.
