(* ===== verification/TypeNames.v ===== *)
(** * Type names of the SWIG runtime: comparison, equivalence, hash

    Models [SWIG_TypeNameComp], [SWIG_TypeCmp], [SWIG_TypeEquiv], [SWIG_Hash]
    and [SWIG_TypePrettyName] of ctp_wrap.cpp.  A [const char *] is the suffix
    of its NUL-terminated buffer that starts at the pointer, so that reading
    at the end of the list is a read outside the buffer ([None]); a pair of
    pointers [f], [l] into one buffer is that suffix with the distance
    [l - f]. *)

From S2P Require Import Prelude.

Module TypeNames.

Definition space : Z := 32.
Definition bar : Z := 124.

(** The inner loop: while [*f] is a space and [f != l], [++f]. *)
Fixpoint skip_spaces (f : list Z) (n : Z) : option (list Z * Z) :=
  match f with
  | [] => None
  | x :: f' => if (x =? space) && negb (n =? 0) then skip_spaces f' (n - 1) else Some (f, n)
  end.

(** The [for] loop; [fuel] bounds the iterations. *)
Fixpoint name_comp_loop (fuel : nat) (f1 : list Z) (n1 : Z) (f2 : list Z) (n2 : Z)
    : option Z :=
  if (n1 =? 0) || (n2 =? 0) then Some (wraps 32 (n1 - n2))
  else
    match fuel with
    | O => None
    | S fuel' =>
        match skip_spaces f1 n1, skip_spaces f2 n2 with
        | Some (c1 :: f1', n1'), Some (c2 :: f2', n2') =>
            if negb (c1 =? c2) then Some (if schar c1 >? schar c2 then 1 else -1)
            else name_comp_loop fuel' f1' (n1' - 1) f2' (n2' - 1)
        | _, _ => None
        end
    end.

Definition SWIG_TypeNameComp (f1 : list Z) (n1 : Z) (f2 : list Z) (n2 : Z) : option Z :=
  name_comp_loop (length f1) f1 n1 f2 n2.

(** The inner loop that stops [ne] at the next bar or at the terminator: how far it moves. *)
Fixpoint scan_bar (ne : list Z) : nat :=
  match ne with
  | [] => O
  | c :: ne' => if (c =? 0) || (c =? bar) then O else S (scan_bar ne')
  end.

(** The [while] loop over the alternatives; the buffers end with a NUL. *)
Fixpoint type_cmp_loop (fuel : nat) (equiv : Z) (ne : list Z) (tb : list Z) : option Z :=
  match ne with
  | [] => None
  | c :: _ =>
      if (equiv =? 0) || (c =? 0) then Some equiv
      else
        match fuel with
        | O => None
        | S fuel' =>
            let k := scan_bar ne in
            match SWIG_TypeNameComp ne (Z.of_nat k) tb (Z.of_nat (length tb) - 1) with
            | None => None
            | Some equiv' =>
                let ne' := drop k ne in
                type_cmp_loop fuel' equiv'
                  (match ne' with x :: r => if x =? 0 then ne' else r | [] => [] end) tb
            end
        end
  end.

(** [nb] and [tb] are given without their terminators. *)
Definition SWIG_TypeCmp (nb tb : list Z) : option Z :=
  type_cmp_loop (S (length nb)) 1 (nb ++ [0]) (tb ++ [0]).

Definition SWIG_TypeEquiv (nb tb : list Z) : option Z :=
  match SWIG_TypeCmp nb tb with
  | Some r => Some (if r =? 0 then 1 else 0)
  | None => None
  end.

(** One round of the hash: [k += i++; hash ^= k; hash *= 171717]. *)
Definition hash_round (hash i k : Z) : Z :=
  wrapu 32 (Z.lxor hash (wrapu 32 (k + i)) * 171717).

(** The [while] loop over whole words: data, remaining length, [i] and [hash]. *)
Fixpoint hash_loop (data : list Z) (rem i hash : Z) : list Z * Z * Z * Z :=
  match data with
  | b0 :: b1 :: b2 :: b3 :: data' =>
      if 4 <=? rem
      then hash_loop data' (rem - 4) (wrapu 32 (i + 1))
             (hash_round hash i (le_value [b0; b1; b2; b3]))
      else (data, rem, i, hash)
  | _ => (data, rem, i, hash)
  end.

(** [SWIG_Hash(str, strlen(str))]. *)
Definition SWIG_Hash (str : list Z) : Z :=
  let len := wrapu 32 (Z.of_nat (length str)) in
  let '(data, rem, i, hash) := hash_loop str (wraps 32 len) 0 len in
  let d j := nth j data 0 in
  if rem =? 3 then
    hash_round hash i (Z.lor (Z.lor (Z.shiftl (d 2%nat) 16) (Z.shiftl (d 1%nat) 8)) (d 0%nat))
  else if rem =? 2 then hash_round hash i (Z.lor (Z.shiftl (d 1%nat) 8) (d 0%nat))
  else if rem =? 1 then hash_round hash i (d 0%nat)
  else hash.

(** The loop of [SWIG_TypePrettyName] over [type->str]. *)
Fixpoint pretty_loop (last_name s : list Z) : list Z :=
  match s with
  | [] => last_name
  | c :: s' => if c =? 0 then last_name
               else pretty_loop (if c =? bar then s' else last_name) s'
  end.

(** [type] is null ([None]) or its [name] and its possibly null [str]. *)
Definition SWIG_TypePrettyName (type : option (list Z * option (list Z))) : option (list Z) :=
  match type with
  | None => None
  | Some (_, Some str) => Some (pretty_loop str str)
  | Some (name, None) => Some name
  end.

(** ** Reference definitions *)

(** A name without its spaces. *)
Definition despace (s : list Z) : list Z := List.filter (fun c => negb (c =? space)) s.

(** A type name as SWIG generates them: not ending with a space. *)
Definition no_trailing_space (s : list Z) : Prop := last s <> Some space.

Definition plain_name (s : list Z) : Prop :=
  s <> [] /\ no_nul s /\ Forall (fun c => c <> bar) s /\ no_trailing_space s.

(** The [name1|name2|...] list. *)
Fixpoint join (names : list (list Z)) : list Z :=
  match names with
  | [] => []
  | [n] => n
  | n :: names' => n ++ bar :: join names'
  end.

(** The words of the hash: whole little-endian words and the rest of the string. *)
Fixpoint hash_words (str : list Z) : list Z :=
  match str with
  | [] => []
  | b0 :: b1 :: b2 :: b3 :: str' => le_value [b0; b1; b2; b3] :: hash_words str'
  | rest => [le_value rest]
  end.

Fixpoint hash_fold (words : list Z) (i hash : Z) : Z :=
  match words with
  | [] => hash
  | k :: words' => hash_fold words' (wrapu 32 (i + 1)) (hash_round hash i k)
  end.

(** ** Lemmas *)

Lemma no_trailing_space_cons x s : no_trailing_space (x :: s) -> no_trailing_space s.
Proof. unfold no_trailing_space. destruct s; [done|]. by rewrite !last_cons_cons. Qed.

Lemma lead_split s : s <> [] -> no_trailing_space s ->
  exists p x s', s = p ++ x :: s' /\ Forall (fun c => c = space) p /\ x <> space
    /\ no_trailing_space s' /\ despace s = x :: despace s'.
Proof.
  induction s as [|c s IH]; [done|]. intros _ Hlast.
  destruct (decide (c = space)) as [->|Hc].
  - destruct s as [|c' s]; [by elim Hlast|].
    destruct IH as (p & x & s' & E & Hp & Hx & Ht & Hd);
      [done|by apply no_trailing_space_cons in Hlast|].
    exists (space :: p), x, s'. rewrite E in *. repeat split; auto.
  - exists [], c, s. apply no_trailing_space_cons in Hlast. repeat split; auto.
    unfold despace. cbn [List.filter]. by rewrite (proj2 (Z.eqb_neq c space) Hc).
Qed.

Lemma skip_spaces_lead p x r n : Forall (fun c => c = space) p -> x <> space -> 0 < n ->
  skip_spaces (p ++ x :: r) (Z.of_nat (length p) + n) = Some (x :: r, n).
Proof.
  intros Hp Hx Hn. induction Hp as [|c p -> Hp IH]; cbn [app skip_spaces].
  - by rewrite (proj2 (Z.eqb_neq x space) Hx).
  - rewrite Z.eqb_refl.
    rewrite (proj2 (Z.eqb_neq (Z.of_nat (length (space :: p)) + n) 0)) by (simpl length; lia).
    cbn [negb andb]. rewrite <- IH. f_equal. simpl length. lia.
Qed.

Lemma skip_spaces_spec s t : s <> [] -> no_trailing_space s ->
  exists x s', skip_spaces (s ++ t) (Z.of_nat (length s))
               = Some (x :: s' ++ t, Z.of_nat (length (x :: s')))
    /\ x <> space /\ no_trailing_space s' /\ despace s = x :: despace s'
    /\ (length s' < length s)%nat.
Proof.
  intros Hne Hs. destruct (lead_split s Hne Hs) as (p & x & s' & -> & Hp & Hx & Ht & Hd).
  exists x, s'. rewrite <- app_assoc, length_app, Nat2Z.inj_add. cbn [app].
  rewrite skip_spaces_lead by (simpl length; auto; lia).
  repeat split; auto. simpl; lia.
Qed.

(** A common prefix is consumed on both sides. *)
Lemma name_comp_common s t1 t2 k1 k2 fuel : no_trailing_space s -> 0 <= k1 -> 0 <= k2 ->
  (length s <= fuel)%nat ->
  exists m, (m <= length s)%nat /\
    name_comp_loop fuel (s ++ t1) (Z.of_nat (length s) + k1) (s ++ t2) (Z.of_nat (length s) + k2)
    = name_comp_loop (fuel - m) t1 k1 t2 k2.
Proof.
  revert s; induction fuel as [|fuel IH]; intros s Hs H1 H2 Hf.
  { destruct s; [|simpl in Hf; lia]. by exists O. }
  destruct (decide (s = [])) as [->|Hne]; [by exists O|].
  destruct (lead_split s Hne Hs) as (p & x & s' & -> & Hp & Hx & Ht & _).
  rewrite length_app in Hf. simpl length in Hf.
  destruct (IH s' Ht H1 H2) as (m & Hm & E); [lia|].
  exists (S m). split; [rewrite length_app; simpl; lia|].
  rewrite Nat.sub_succ, <- E. cbn [name_comp_loop].
  rewrite <- !app_assoc, length_app, Nat2Z.inj_add, <- !Z.add_assoc. cbn [app].
  rewrite !(proj2 (Z.eqb_neq _ 0)) by (simpl length; lia). cbn [orb].
  rewrite !skip_spaces_lead by (auto; simpl length; lia).
  rewrite Z.eqb_refl. cbn [negb]. f_equal; simpl length; lia.
Qed.

Lemma despace_nil s : no_trailing_space s -> despace s = [] -> s = [].
Proof.
  intros Hs Hd. destruct s as [|c s]; [done|].
  destruct (skip_spaces_spec (c :: s) []) as (? & ? & _ & _ & _ & E & _); [done|done|].
  congruence.
Qed.

Lemma name_comp_loop_spec fuel s1 t1 s2 t2 :
  (length s1 <= fuel)%nat -> no_trailing_space s1 -> no_trailing_space s2 ->
  Z.of_nat (length s1) < 2 ^ 31 -> Z.of_nat (length s2) < 2 ^ 31 ->
  exists r, name_comp_loop fuel (s1 ++ t1) (Z.of_nat (length s1))
              (s2 ++ t2) (Z.of_nat (length s2)) = Some r
    /\ (r = 0 <-> despace s1 = despace s2).
Proof.
  revert s1 s2; induction fuel as [|fuel IH]; intros s1 s2 Hf H1 H2 L1 L2;
    cbn [name_comp_loop].
  - destruct s1; [|simpl in Hf; lia]. simpl (_ =? 0). cbn [orb].
    eexists; split; [done|]. rewrite wraps_small by (simpl; lia).
    split; intros E.
    + destruct s2; [done|simpl in E; lia].
    + symmetry in E. apply despace_nil in E; [by subst|done].
  - destruct (_ || _) eqn:E.
    + eexists; split; [done|]. rewrite wraps_small by lia.
      apply orb_true_iff in E. split; intros E'.
      * assert (length s1 = 0 /\ length s2 = 0)%nat as [?%nil_length_inv ?%nil_length_inv].
        { destruct E; zbool; lia. }
        by subst.
      * destruct E; zbool.
        -- destruct s1; [|simpl in *; lia]. symmetry in E'.
           apply despace_nil in E'; [by subst|done].
        -- destruct s2; [|simpl in *; lia].
           apply despace_nil in E'; [by subst|done].
    + zbool.
      destruct (skip_spaces_spec s1 t1) as (x & s1' & -> & Hx & Ht1 & Hd1 & Hl1);
        [by intros ->|done|].
      destruct (skip_spaces_spec s2 t2) as (y & s2' & -> & Hy & Ht2 & Hd2 & Hl2);
        [by intros ->|done|].
      rewrite Hd1, Hd2. destruct (x =? y) eqn:Exy; zbool; cbn [negb].
      * subst y.
        replace (Z.of_nat (length (x :: s1')) - 1) with (Z.of_nat (length s1')) by (simpl; lia).
        replace (Z.of_nat (length (x :: s2')) - 1) with (Z.of_nat (length s2')) by (simpl; lia).
        destruct (IH s1' s2') as (r & -> & Hr); [lia|done|done|lia|lia|].
        exists r. split; [done|]. rewrite Hr. split; [by intros ->|by intros [=]].
      * eexists; split; [done|]. split; [case_if; lia|congruence].
Qed.

Lemma type_name_comp_spec s1 t1 s2 t2 :
  no_trailing_space s1 -> no_trailing_space s2 ->
  Z.of_nat (length s1) < 2 ^ 31 -> Z.of_nat (length s2) < 2 ^ 31 ->
  exists r, SWIG_TypeNameComp (s1 ++ t1) (Z.of_nat (length s1))
              (s2 ++ t2) (Z.of_nat (length s2)) = Some r
    /\ (r = 0 <-> despace s1 = despace s2).
Proof. intros. apply name_comp_loop_spec; auto. rewrite length_app. lia. Qed.

Lemma scan_bar_app s c t : no_nul s -> Forall (fun c => c <> bar) s -> c = 0 \/ c = bar ->
  scan_bar (s ++ c :: t) = length s.
Proof.
  induction 1 as [|x s Hx Hs IH]; intros Hb Hc; simpl.
  - destruct Hc as [->| ->]; done.
  - inversion Hb; subst.
    destruct (x =? 0) eqn:E; zbool; [lia|].
    destruct (x =? bar) eqn:E'; zbool; [lia|]. simpl. by rewrite IH.
Qed.

Lemma join_cons n n' names : join (n :: n' :: names) = n ++ bar :: join (n' :: names).
Proof. done. Qed.

Lemma join_nonempty n names : plain_name n -> exists c r, join (n :: names) = c :: r /\ c <> 0.
Proof.
  intros (Hne & Hnn & _). destruct n as [|c n]; [done|].
  exists c. inversion Hnn; subst.
  destruct names; [exists n|exists (n ++ bar :: join (l :: names))]; done.
Qed.

(** The loop from any alternative on, entered with a non-zero [equiv]. *)
Lemma type_cmp_loop_spec tb names : no_trailing_space tb ->
  Z.of_nat (length tb) < 2 ^ 31 -> forall fuel equiv, equiv <> 0 -> names <> [] ->
  Forall plain_name names -> Forall (fun n => Z.of_nat (length n) < 2 ^ 31) names ->
  (length (join names) < fuel)%nat ->
  exists r, type_cmp_loop fuel equiv (join names ++ [0]) (tb ++ [0]) = Some r
    /\ (r = 0 <-> Exists (fun n => despace n = despace tb) names).
Proof.
  intros Htb Ltb. induction names as [|n names IH]; [done|].
  intros fuel equiv Heq _ Hpl Hlen Hf.
  inversion Hpl as [|? ? Hn Hns]; subst. inversion Hlen as [|? ? Ln Lns]; subst.
  destruct (join_nonempty n names Hn) as (c & r & Ej & Hc).
  destruct fuel as [|fuel]; [lia|].
  destruct Hn as (Hne & Hnn & Hbar & Hts).
  assert (Etb : Z.of_nat (length (tb ++ [0])) - 1 = Z.of_nat (length tb)).
  { rewrite length_app. simpl. lia. }
  rewrite Ej. simpl app. cbn [type_cmp_loop].
  rewrite (proj2 (Z.eqb_neq equiv 0) Heq), (proj2 (Z.eqb_neq c 0) Hc). cbn [orb].
  change (c :: r ++ [0]) with ((c :: r) ++ [0]). rewrite <- Ej, Etb.
  destruct names as [|n' names].
  - cbn [join]. rewrite scan_bar_app by auto.
    destruct (type_name_comp_spec n [0] tb [0]) as (q & -> & Hq); auto.
    rewrite drop_app_length. cbn [Z.eqb].
    exists q. split.
    + destruct fuel; cbn [type_cmp_loop]; by rewrite orb_true_r.
    + rewrite Hq, Exists_cons, Exists_nil. tauto.
  - rewrite join_cons in *. set (J := join (n' :: names)) in *.
    rewrite <- app_assoc. change ((bar :: J) ++ [0]) with (bar :: (J ++ [0])).
    rewrite scan_bar_app by auto.
    destruct (type_name_comp_spec n (bar :: (J ++ [0])) tb [0]) as (q & -> & Hq); auto.
    rewrite drop_app_length.
    destruct (decide (q = 0)) as [->|Hq0].
    + exists 0. split.
      * destruct J, fuel; done.
      * rewrite Exists_cons. tauto.
    + destruct (IH fuel q) as (q' & E' & Hq'); auto.
      { rewrite length_app in Hf. simpl length in Hf. lia. }
      exists q'. split; [exact E'|].
      rewrite Exists_cons. rewrite Hq'. rewrite Hq in Hq0. tauto.
Qed.

Lemma hash_round_range h i k : 0 <= hash_round h i k < 2 ^ 32.
Proof. by apply wrapu_range. Qed.

Lemma hash_fold_range words i h : 0 <= h < 2 ^ 32 -> 0 <= hash_fold words i h < 2 ^ 32.
Proof.
  revert i h; induction words; intros i h Hh; simpl; [done|].
  apply IHwords, hash_round_range.
Qed.

(** The partial word the [switch] assembles. *)
Lemma partial_word3 a b c : byte_ok a -> byte_ok b -> byte_ok c ->
  Z.lor (Z.lor (Z.shiftl c 16) (Z.shiftl b 8)) a = le_value [a; b; c].
Proof.
  unfold byte_ok. intros. rewrite <- Z.lor_assoc, (lor_shiftl_add b 8 a), lor_shiftl_add by lia.
  simpl. lia.
Qed.

Lemma partial_word2 a b : byte_ok a -> byte_ok b -> Z.lor (Z.shiftl b 8) a = le_value [a; b].
Proof. unfold byte_ok. intros. rewrite lor_shiftl_add by lia. simpl. lia. Qed.

(** The state the loop leaves, and the rounds it has not yet done. *)
Lemma hash_loop_spec n str i h : (length str <= n)%nat ->
  exists data i' h',
    hash_loop str (Z.of_nat (length str)) i h = (data, Z.of_nat (length data), i', h')
    /\ (length data < 4)%nat /\ (forall P : Z -> Prop, Forall P str -> Forall P data)
    /\ hash_fold (hash_words str) i h = hash_fold (hash_words data) i' h'.
Proof.
  revert str i h; induction n as [|n IH]; intros str i h Hn.
  { destruct str; [|simpl in Hn; lia]. exists [], i, h. repeat split; auto. }
  destruct str as [|b0 [|b1 [|b2 [|b3 str]]]];
    try (eexists _, i, h; repeat split; [simpl; lia|done]).
  cbn [hash_loop]. rewrite (proj2 (Z.leb_le 4 (Z.of_nat (length (b0 :: b1 :: b2 :: b3 :: str)))))
    by (simpl length; lia).
  replace (Z.of_nat (length (b0 :: b1 :: b2 :: b3 :: str)) - 4) with (Z.of_nat (length str))
    by (simpl length; lia).
  destruct (IH str (wrapu 32 (i + 1)) (hash_round h i (le_value [b0; b1; b2; b3])))
    as (data & i' & h' & E & Hlt & HP & Hf); [simpl in Hn; lia|].
  exists data, i', h'. repeat split; [done|done| |done].
  intros P HF. apply HP. by inversion HF as [|? ? ? HF1]; inversion HF1 as [|? ? ? HF2];
    inversion HF2 as [|? ? ? HF3]; inversion HF3.
Qed.

(** Hash: for a string of fewer than 2^31 bytes the word loop and the
    [switch] over the one to three remaining bytes compute the fold of one
    round per little-endian word, the last word padded with zero bytes, and
    the result is a 32-bit value. *)
Lemma hash_is_fold str :
  bytes_ok str -> Z.of_nat (length str) < 2 ^ 31 ->
  SWIG_Hash str = hash_fold (hash_words str) 0 (Z.of_nat (length str))
  /\ 0 <= SWIG_Hash str < 2 ^ 32.
Proof.
  intros Hok Hlen. assert (E : SWIG_Hash str = hash_fold (hash_words str) 0 (Z.of_nat (length str))).
  { unfold SWIG_Hash. rewrite wrapu_small, wraps_small by lia.
    destruct (hash_loop_spec (length str) str 0 (Z.of_nat (length str)))
      as (data & i & h & -> & Hlt & HP & ->); [done|].
    specialize (HP _ Hok).
    destruct data as [|a [|b [|c [|]]]]; [done| | | |simpl in Hlt; lia];
      repeat match goal with H : Forall _ (_ :: _) |- _ => inversion H; clear H; subst end;
      cbn [length Z.of_nat Pos.of_succ_nat Pos.succ Z.eqb Pos.eqb nth hash_words hash_fold].
    - do 2 f_equal. simpl. lia.
    - by rewrite partial_word2.
    - by rewrite partial_word3. }
  split; [done|]. rewrite E. apply hash_fold_range. lia.
Qed.

(** The comparison with a list of names. *)
Lemma type_equiv_spec names tb :
  names <> [] -> Forall plain_name names -> no_trailing_space tb ->
  Forall (fun n => Z.of_nat (length n) < 2 ^ 31) (tb :: names) ->
  exists r, SWIG_TypeEquiv (join names) tb = Some r
    /\ (r = 0 \/ r = 1)
    /\ (r = 1 <-> Exists (fun n => despace n = despace tb) names).
Proof.
  intros Hne Hpl Htb Hlen. inversion Hlen; subst.
  unfold SWIG_TypeEquiv, SWIG_TypeCmp.
  destruct (type_cmp_loop_spec tb names Htb) with (fuel := S (length (join names))) (equiv := 1)
    as (r & -> & Hr); auto.
  eexists; split; [done|]. rewrite <- Hr.
  destruct (r =? 0) eqn:E; zbool; split; auto; split; auto; lia.
Qed.

(** ** Properties *)

(** Type equivalence: for a list [n1|n2|...] of names that are non-empty
    and do not end with a space, [SWIG_TypeEquiv] terminates without reading
    outside the buffers and answers 1 exactly when one of the names equals
    the queried one up to spaces, and 0 otherwise. *)
Lemma type_equiv_iff names tb :
  names <> [] -> Forall plain_name names -> no_trailing_space tb ->
  Forall (fun n => Z.of_nat (length n) < 2 ^ 31) (tb :: names) ->
  exists r, SWIG_TypeEquiv (join names) tb = Some r
    /\ (r = 0 \/ r = 1)
    /\ (r = 1 <-> Exists (fun n => despace n = despace tb) names).
Proof. apply type_equiv_spec. Qed.

(** Boundary of the name comparison: contrary to the comment that it skips
    the space characters, a name is not equal to the same name followed by a
    space, and comparing two names that both end with a space reads outside
    both buffers. *)
Lemma trailing_space_not_skipped s :
  no_nul s -> no_trailing_space s -> s <> [] -> Z.of_nat (length s) + 1 < 2 ^ 31 ->
  let t := s ++ [space] in
  SWIG_TypeNameComp (s ++ [0]) (Z.of_nat (length s)) (t ++ [0]) (Z.of_nat (length t)) = Some (-1)
  /\ despace s = despace t
  /\ SWIG_TypeNameComp (t ++ [0]) (Z.of_nat (length t)) (t ++ [0]) (Z.of_nat (length t)) = None.
Proof.
  intros Hnn Hs Hne Hlen t. subst t. split; [|split].
  - rewrite length_app, Nat2Z.inj_add, <- app_assoc.
    rewrite <- (Z.add_0_r (Z.of_nat (length s))) at 1. unfold SWIG_TypeNameComp.
    destruct (name_comp_common s [0] ([space] ++ [0]) 0 (Z.of_nat (length [space]))
                (length (s ++ [0]))) as (m & _ & ->); [done|done|done|rewrite length_app; lia|].
    by destruct (_ - m)%nat.
  - unfold despace. rewrite List.filter_app. cbn. by rewrite app_nil_r.
  - rewrite length_app, Nat2Z.inj_add, <- app_assoc. unfold SWIG_TypeNameComp.
    destruct (name_comp_common s ([space] ++ [0]) ([space] ++ [0]) (Z.of_nat (length [space]))
                (Z.of_nat (length [space])) (length (s ++ [space] ++ [0])))
      as (m & _ & ->); [done|done|done|rewrite length_app; lia|].
    by destruct (_ - m)%nat as [|[|]].
Qed.

End TypeNames.
