(* ===== verification/Search.v ===== *)
(** * Binary search and hash sort of the SWIG runtime tables

    Two routines the type tables rest on.  [bsearch] is the
    [do { ... } while (l <= r)] loop that [SWIG_MangledTypeQueryModule],
    [SWIG_TypeCheck] and [SWIG_TypeCheckStruct] of ctp_wrap.cpp share, with the
    expression for the middle index and the body's verdict as arguments.
    [SWIG_CastHashSort] is the Shell sort of the cast entries'
    [(next, value)] pairs. *)

From Stdlib Require Import Sorting.Sorted.
From stdpp Require Import sorting.
From S2P Require Import Prelude.

Module Search.

(** The verdict of the loop body at index [i]: the key is there, lies below,
    lies above, the loop is left by [break], or the body reads outside the
    array. *)
Inductive probe := Hit | Below | Above | Stop | Fault.

#[export] Instance probe_eq_dec : EqDecision probe.
Proof. solve_decision. Defined.

Section Bsearch.
Context (mid : Z -> Z -> Z) (at_ : Z -> probe).

(** [None]: out of fuel, or a read outside the array; [Some None]: left
    without a hit. *)
Fixpoint bsearch (fuel : nat) (l r : Z) : option (option Z) :=
  match fuel with
  | O => None
  | S fuel' =>
      let i := mid l r in
      match at_ i with
      | Hit => Some (Some i)
      | Stop => Some None
      | Fault => None
      | Below => let r' := i - 1 in if l <=? r' then bsearch fuel' l r' else Some None
      | Above => let l' := i + 1 in if l' <=? r then bsearch fuel' l' r else Some None
      end
  end.

(** The two expressions the code uses for the middle. *)
Context (mid_between : forall l r, 0 <= l <= r -> l <= mid l r <= r).

Lemma bsearch_terminates fuel l r : 0 <= l <= r -> r - l < Z.of_nat fuel ->
  (forall i, l <= i <= r -> at_ i <> Fault) -> exists o, bsearch fuel l r = Some o.
Proof.
  revert l r; induction fuel as [|fuel IH]; intros l r Hlr Hf HF; [lia|].
  cbn [bsearch]. specialize (mid_between l r Hlr).
  destruct (at_ (mid l r)) eqn:E; eauto; [| |by destruct (HF _ mid_between)];
    case_if; zbool; eauto; (apply IH; [lia|lia|]); intros i Hi; apply HF; lia.
Qed.

Lemma bsearch_hit fuel l r i : 0 <= l <= r ->
  bsearch fuel l r = Some (Some i) -> l <= i <= r /\ at_ i = Hit.
Proof.
  revert l r; induction fuel as [|fuel IH]; intros l r Hlr; [done|].
  cbn [bsearch]. specialize (mid_between l r Hlr).
  destruct (at_ (mid l r)) eqn:E; try case_if; zbool; try done.
  - intros [= <-]. auto.
  - intros H. apply IH in H; [|lia]. split; [lia|apply H].
  - intros H. apply IH in H; [|lia]. split; [lia|apply H].
Qed.

(** When the verdicts are those of a sorted table, a table that holds the key
    is never left without a hit. *)
Lemma bsearch_complete fuel l r k : 0 <= l <= r -> r - l < Z.of_nat fuel ->
  l <= k <= r -> at_ k = Hit ->
  (forall i, l <= i <= r -> at_ i <> Stop /\ at_ i <> Fault) ->
  (forall i, l <= i <= r -> at_ i = Below -> k < i) ->
  (forall i, l <= i <= r -> at_ i = Above -> i < k) ->
  exists i, bsearch fuel l r = Some (Some i) /\ l <= i <= r /\ at_ i = Hit.
Proof.
  revert l r; induction fuel as [|fuel IH]; intros l r Hlr Hf Hk Hhit HS HB HA; [lia|].
  cbn [bsearch]. specialize (mid_between l r Hlr). set (m := mid l r) in *. clearbody m.
  destruct (at_ m) eqn:E.
  - eauto.
  - apply HB in E; [|done]. rewrite (proj2 (Z.leb_le l (m - 1))) by lia.
    destruct (IH l (m - 1)) as (i & -> & ? & ?);
      [lia|lia|lia|done|intros i ?; apply HS; lia|intros i ?; apply HB; lia
      |intros i ?; apply HA; lia|].
    exists i. split; [done|]. split; [lia|done].
  - apply HA in E; [|done]. rewrite (proj2 (Z.leb_le (m + 1) r)) by lia.
    destruct (IH (m + 1) r) as (i & -> & ? & ?);
      [lia|lia|lia|done|intros i ?; apply HS; lia|intros i ?; apply HB; lia
      |intros i ?; apply HA; lia|].
    exists i. split; [done|]. split; [lia|done].
  - by destruct (HS m).
  - by destruct (HS m).
Qed.
End Bsearch.

(** [size_t i = (l + r) >> 1] and [iter = first + ((last - first) >> 1)]. *)
Definition mid_sum (l r : Z) : Z := Z.shiftr (l + r) 1.
Definition mid_diff (l r : Z) : Z := l + Z.shiftr (r - l) 1.

Lemma mid_sum_between l r : 0 <= l <= r -> l <= mid_sum l r <= r.
Proof. unfold mid_sum. rewrite Z.shiftr_div_pow2 by lia. change (2 ^ 1) with 2. dlia. Qed.

Lemma mid_diff_between l r : 0 <= l <= r -> l <= mid_diff l r <= r.
Proof. unfold mid_diff. rewrite Z.shiftr_div_pow2 by lia. change (2 ^ 1) with 2. dlia. Qed.

(** ** The Shell sort of the [(next, value)] pairs *)

(** A pair: the index [next] points at, and [value]. *)
Abbreviation pair_nv := (nat * Z)%type.

(** [for (h = 1; h <= hmax; h = 3*h+1);], entered at [h].
    (ctp_wrap.cpp, line 508205.) *)
Fixpoint gap_up (fuel : nat) (h hmax : Z) : Z :=
  match fuel with
  | O => h
  | S fuel' => if h <=? hmax then gap_up fuel' (3 * h + 1) hmax else h
  end.

(** The inner [while] and the two stores after it, for the pair [p] taken out at [i].
    (ctp_wrap.cpp, lines 508210 to 508220.) *)
Fixpoint sift (fuel : nat) (h : nat) (p : pair_nv) (cast : list pair_nv) (j : nat)
    : list pair_nv :=
  match fuel with
  | O => <[j := p]> cast
  | S fuel' =>
      if decide (h <= j)%nat then
        match cast !! (j - h)%nat with
        | Some q => if snd p <? snd q then sift fuel' h p (<[j := q]> cast) (j - h)
                    else <[j := p]> cast
        | None => <[j := p]> cast
        end
      else <[j := p]> cast
  end.

(** [for (i = h; i < size; ++i)], with [n] iterations left.
    (ctp_wrap.cpp, lines 508208 to 508221.) *)
Fixpoint gap_pass (n : nat) (h i : nat) (cast : list pair_nv) : list pair_nv :=
  match n with
  | O => cast
  | S n' =>
      match cast !! i with
      | Some p => gap_pass n' h (S i) (sift i h p cast i)
      | None => cast
      end
  end.

(** [for (; h > 0; h /= 3)].
    (ctp_wrap.cpp, lines 508206 to 508222.) *)
Fixpoint gap_down (fuel : nat) (h : Z) (cast : list pair_nv) : list pair_nv :=
  match fuel with
  | O => cast
  | S fuel' =>
      if 0 <? h then
        gap_down fuel' (h / 3)
          (gap_pass (length cast - Z.to_nat h) (Z.to_nat h) (Z.to_nat h) cast)
      else cast
  end.

(** ctp_wrap.cpp, lines 508202 to 508223. *)
Definition SWIG_CastHashSort (cast : list pair_nv) : list pair_nv :=
  let size := Z.of_nat (length cast) in
  let hmax := size / 9 in
  let h := gap_up (length cast) 1 hmax in
  gap_down (S (Z.to_nat h)) h cast.

Definition values_sorted : list pair_nv -> Prop := StronglySorted (fun p q => snd p <= snd q).

(** *** Permutation *)

Lemma insert_swap_perm (l : list pair_nv) i j x y :
  i <> j -> l !! i = Some x -> l !! j = Some y -> <[i := y]> (<[j := x]> l) ≡ₚ l.
Proof.
  revert i j; induction l as [|a l IH]; intros i j Hne Hi Hj; [done|].
  assert (Hmove : forall k z b, l !! k = Some b -> z :: l ≡ₚ b :: <[k := z]> l).
  { intros k z b Hk. rewrite <- (take_drop_middle l k b Hk) at 1.
    rewrite (insert_take_drop l k z) by (by eapply lookup_lt_Some).
    rewrite <- !Permutation_middle. apply Permutation_swap. }
  destruct i as [|i], j as [|j]; simpl in *; simplify_eq.
  - rewrite <- Hmove; done.
  - rewrite <- Hmove; done.
  - constructor. apply IH; auto.
Qed.

Lemma insert_same (l : list pair_nv) i x : l !! i = Some x -> <[i := x]> l = l.
Proof. apply list_insert_id. Qed.

Lemma sift_perm fuel h p cast j : (0 < h)%nat -> (j < length cast)%nat ->
  sift fuel h p cast j ≡ₚ <[j := p]> cast.
Proof.
  intros Hh. revert cast j; induction fuel as [|fuel IH]; intros cast j Hj; [done|].
  cbn [sift]. case_decide; [|done].
  destruct (cast !! (j - h)%nat) as [q|] eqn:Eq; [|done].
  case_if; [|done]. rewrite IH by (rewrite length_insert; lia).
  rewrite <- (insert_swap_perm (<[j:=p]> cast) (j - h) j q p).
  - by rewrite list_insert_insert_eq.
  - lia.
  - rewrite list_lookup_insert_ne by lia. done.
  - by apply list_lookup_insert_eq.
Qed.

Lemma sift_length fuel h p cast j : length (sift fuel h p cast j) = length cast.
Proof.
  revert cast j; induction fuel; intros; cbn [sift]; [apply length_insert|].
  case_decide; [|apply length_insert]. case_match; [|apply length_insert].
  case_if; [|apply length_insert]. by rewrite IHfuel, length_insert.
Qed.

Lemma gap_pass_perm n h i cast : (0 < h)%nat -> gap_pass n h i cast ≡ₚ cast.
Proof.
  intros Hh. revert i cast; induction n as [|n IH]; intros i cast; cbn [gap_pass]; [done|].
  destruct (cast !! i) as [p|] eqn:E; [|done].
  rewrite IH, sift_perm by (eauto using lookup_lt_Some). by rewrite insert_same.
Qed.

Lemma gap_down_perm fuel h cast : gap_down fuel h cast ≡ₚ cast.
Proof.
  revert h cast; induction fuel as [|fuel IH]; intros h cast; cbn [gap_down]; [done|].
  case_if; [|done]. zbool. rewrite IH. apply gap_pass_perm. lia.
Qed.
(** *** Order: the last pass, with gap one, is an insertion sort *)

Lemma sift_one fuel p l x r : (length l <= fuel)%nat ->
  exists l1 l2, l = l1 ++ l2 /\ sift fuel 1 p (l ++ x :: r) (length l) = l1 ++ p :: l2 ++ r
    /\ Forall (fun q => snd p < snd q) l2 /\ (forall q, last l1 = Some q -> snd q <= snd p).
Proof.
  revert fuel x r; induction l as [|y l IH] using rev_ind; intros fuel x r Hf.
  { exists [], []. split; [done|]. split; [by destruct fuel|]. done. }
  rewrite length_app in *. simpl length in *.
  destruct fuel as [|fuel]; [lia|]. cbn [sift].
  rewrite decide_True by lia. rewrite Nat.add_sub, <- app_assoc. cbn [app].
  rewrite list_lookup_middle by done.
  destruct (snd p <? snd y) eqn:E; zbool.
  - destruct (IH fuel y (y :: r)) as (l1 & l2 & -> & Hs & Hlt & Hlast); [lia|].
    exists l1, (l2 ++ [y]). rewrite app_assoc. split; [done|]. split.
    + rewrite <- (app_assoc l2 [y] r). cbn [app]. rewrite <- Hs. f_equal.
      rewrite insert_app_r_alt by lia.
      by replace (length (l1 ++ l2) + 1 - length (l1 ++ l2))%nat with 1%nat by lia.
    + split; [|done]. apply Forall_app. auto.
  - exists (l ++ [y]), []. rewrite app_nil_r. split; [done|]. split.
    + rewrite insert_app_r_alt by lia.
      replace (length l + 1 - length l)%nat with 1%nat by lia. simpl.
      by rewrite <- app_assoc.
    + split; [constructor|]. intros q. rewrite last_snoc. intros [= ->]. lia.
Qed.

Lemma values_sorted_insert p l1 l2 : values_sorted (l1 ++ l2) ->
  Forall (fun q => snd p < snd q) l2 -> (forall q, last l1 = Some q -> snd q <= snd p) ->
  values_sorted (l1 ++ p :: l2).
Proof.
  unfold values_sorted. rewrite !StronglySorted_app.
  intros (H12 & H1 & H2) Hlt Hlast.
  assert (Hle : forall q, q ∈ l1 -> snd q <= snd p).
  { destruct l1 as [|z l1 _] using rev_ind; [by intros ? ?%elem_of_nil|].
    specialize (Hlast z). rewrite last_snoc in Hlast. specialize (Hlast eq_refl).
    apply StronglySorted_app in H1 as (Hz & _ & _).
    intros q [Hq| ->%list_elem_of_singleton]%elem_of_app; [|done].
    specialize (Hz q z Hq). etrans; [apply Hz; by apply list_elem_of_singleton|done]. }
  split; [|split; [done|]].
  - intros q z Hq [->|Hz]%elem_of_cons; auto.
  - constructor; [done|]. eapply Forall_impl; [exact Hlt|]. simpl. lia.
Qed.

Lemma gap_pass_one_sorted rest pre : values_sorted pre ->
  values_sorted (gap_pass (length rest) 1 (length pre) (pre ++ rest)).
Proof.
  revert pre; induction rest as [|p rest IH]; intros pre Hs; cbn [length gap_pass].
  { by rewrite app_nil_r. }
  rewrite list_lookup_middle by done.
  destruct (sift_one (length pre) p pre p rest) as (l1 & l2 & -> & -> & Hlt & Hlast); [done|].
  replace (S (length (l1 ++ l2))) with (length (l1 ++ p :: l2)) by (rewrite !length_app; simpl; lia).
  replace (l1 ++ p :: l2 ++ rest) with ((l1 ++ p :: l2) ++ rest) by by rewrite <- app_assoc.
  apply IH, values_sorted_insert; done.
Qed.

(** The gaps 1, 4, 13, 40, ... *)
Inductive gap : Z -> Prop :=
| gap_one : gap 1
| gap_next h : gap h -> gap (3 * h + 1).

Lemma gap_up_gap fuel h hmax : gap h -> gap (gap_up fuel h hmax).
Proof.
  revert h; induction fuel; intros h Hh; cbn [gap_up]; [done|].
  case_if; auto using gap_next.
Qed.

Lemma gap_up_done fuel h hmax : 0 < h -> hmax - h < Z.of_nat fuel -> hmax < gap_up fuel h hmax.
Proof.
  revert h; induction fuel; intros h Hh Hf; cbn [gap_up]; [lia|].
  case_if; zbool; [apply IHfuel; lia|lia].
Qed.

Lemma gap_pos h : gap h -> 1 <= h.
Proof. induction 1; lia. Qed.

Lemma gap_down_zero fuel cast : gap_down fuel 0 cast = cast.
Proof. by destruct fuel. Qed.

Lemma gap_down_sorted h : gap h -> forall fuel cast, h < Z.of_nat fuel ->
  values_sorted (gap_down fuel h cast).
Proof.
  induction 1 as [|h Hh IH]; intros fuel cast Hf.
  - destruct fuel as [|fuel]; [lia|]. cbn [gap_down]. change (1 / 3) with 0. cbn [Z.ltb Z.compare]. rewrite gap_down_zero.
    change (Z.to_nat 1) with 1%nat.
    destruct cast as [|p cast]; [constructor|].
    replace (length (p :: cast) - 1)%nat with (length cast) by (simpl; lia).
    apply (gap_pass_one_sorted cast [p]). repeat constructor.
  - pose proof (gap_pos h Hh). destruct fuel as [|fuel]; [lia|]. cbn [gap_down].
    rewrite (proj2 (Z.ltb_lt 0 (3 * h + 1))) by lia.
    replace ((3 * h + 1) / 3) with h by dlia. apply IH. lia.
Qed.

Lemma cast_hash_sort_perm cast : SWIG_CastHashSort cast ≡ₚ cast.
Proof. apply gap_down_perm. Qed.

Lemma cast_hash_sort_sorted cast : values_sorted (SWIG_CastHashSort cast).
Proof.
  unfold SWIG_CastHashSort. cbv zeta. apply gap_down_sorted; [apply gap_up_gap, gap_one|].
  pose proof (gap_pos _ (gap_up_gap (length cast) 1 (Z.of_nat (length cast) / 9) gap_one)) as Hp.
  revert Hp. generalize (gap_up (length cast) 1 (Z.of_nat (length cast) / 9)). lia.
Qed.

(** ** Properties *)

(** Hash sort: [SWIG_CastHashSort] returns a permutation of the
    [(next, value)] pairs it is given, ordered by [value], for every array;
    its first loop stops above [size/9] within the given fuel. *)
Lemma cast_hash_sort_correct cast :
  SWIG_CastHashSort cast ≡ₚ cast /\ values_sorted (SWIG_CastHashSort cast)
  /\ Z.of_nat (length cast) / 9 < gap_up (length cast) 1 (Z.of_nat (length cast) / 9).
Proof.
  split; [apply cast_hash_sort_perm|]. split; [apply cast_hash_sort_sorted|].
  apply gap_up_done; [lia|]. destruct (length cast); [reflexivity|]. dlia.
Qed.

End Search.
