(* ===== verification/TypeTable.v ===== *)
(** * Type tables of the SWIG runtime: queries by name and cast checks

    Models [SWIG_MangledTypeQueryModule], [SWIG_TypeQueryModule],
    [SWIG_TypeCheck], [SWIG_TypeCheckStruct], [SWIG_TypeCast] and the building
    of a cast array in [SWIG_InitializeModule] of ctp_wrap.cpp.  The circular
    list of modules from [start] to [end] is the list of the modules visited;
    a type descriptor is referred to by its module and its index in
    [types]; a cast list is the list of its arrays, each with the terminating
    null entry.  A search answers [None] when it does not come back: a loop
    without end, a read outside an array or through a null pointer. *)

From stdpp Require Import sorting.
From S2P Require Import Prelude TypeNames Search.

Module TypeTable.
Import TypeNames Search.

(** ** Descriptors and queries by name *)

Record swig_type_info := mk_type_info {
  ti_name : option (list Z);   (** mangled name *)
  ti_str : option (list Z);    (** human readable names, separated by bars *)
}.

(** The body of the search loop at index [i] of [iter->types]. *)
Definition query_probe (types : list swig_type_info) (name : list Z) (i : Z) : probe :=
  match types !! Z.to_nat i with
  | Some ty =>
      match ti_name ty with
      | Some iname =>
          let compare := strcmp name iname in
          if compare =? 0 then Hit
          else if compare <? 0 then (if negb (i =? 0) then Below else Stop)
          else Above
      | None => Stop
      end
  | None => Fault
  end.

(** The descriptor found: its module's position in the visited list and its index. *)
Fixpoint SWIG_MangledTypeQueryModule (iter : list (list swig_type_info)) (name : list Z)
    : option (option (nat * Z)) :=
  match iter with
  | [] => Some None
  | types :: next =>
      let size := Z.of_nat (length types) in
      let found := if size =? 0 then Some None
                   else bsearch mid_sum (query_probe types name) (length types) 0 (size - 1) in
      match found with
      | None => None
      | Some (Some i) => Some (Some (O, i))
      | Some None =>
          match SWIG_MangledTypeQueryModule next name with
          | Some (Some (m, i)) => Some (Some (S m, i))
          | Some None => Some None
          | None => None
          end
      end
  end.

(** STEP 2 of the query: the first descriptor of a module whose [str] is equivalent. *)
Fixpoint scan_str (types : list swig_type_info) (name : list Z) (i : Z) : option (option Z) :=
  match types with
  | [] => Some None
  | ty :: types' =>
      match ti_str ty with
      | None => scan_str types' name (i + 1)
      | Some str =>
          match SWIG_TypeEquiv str name with
          | None => None
          | Some r => if negb (r =? 0) then Some (Some i) else scan_str types' name (i + 1)
          end
      end
  end.

Fixpoint scan_modules (iter : list (list swig_type_info)) (name : list Z)
    : option (option (nat * Z)) :=
  match iter with
  | [] => Some None
  | types :: next =>
      match scan_str types name 0 with
      | None => None
      | Some (Some i) => Some (Some (O, i))
      | Some None =>
          match scan_modules next name with
          | Some (Some (m, i)) => Some (Some (S m, i))
          | Some None => Some None
          | None => None
          end
      end
  end.

Definition SWIG_TypeQueryModule (iter : list (list swig_type_info)) (name : list Z)
    : option (option (nat * Z)) :=
  match SWIG_MangledTypeQueryModule iter name with
  | Some None => scan_modules iter name
  | r => r
  end.

(** ** Cast arrays *)

(** A [swig_type_info *]: its address, and the name it holds. *)
Record type_ref := mk_type_ref { tr_addr : Z; tr_name : list Z }.

Record swig_cast_info := mk_cast_info {
  ci_type : option type_ref;                (** null in the last entry *)
  ci_converter : option (Z -> Z * Z);       (** pointer conversion and its [newmemory] *)
  ci_next : option nat;                     (** index in the array [next] points at *)
  ci_value : Z;
}.

Definition cast_end : swig_cast_info := mk_cast_info None None None 0.

Definition scan_threshold : Z := 4.

(** [strcmp(array[j].type->name, c) == 0].  [None]: entry [j] lies outside the
    array or its type is null, so the read is undefined. *)
Definition named (arr : list swig_cast_info) (c : list Z) (j : nat) : option bool :=
  match arr !! j with
  | Some e => match ci_type e with Some t => Some (strcmp (tr_name t) c =? 0) | None => None end
  | None => None
  end.

(** In the loops below [None] is a body that does not come back: an undefined
    read, or a loop that is still running when the fuel is used up.
    [Some None] is a loop left without an entry of that name. *)

(** The linear scan [for (iter = first; iter <= last; iter++)], [n] entries left. *)
Fixpoint scan_names (arr : list swig_cast_info) (c : list Z) (iter n : nat)
    : option (option nat) :=
  match n with
  | O => Some None
  | S n' =>
      match named arr c iter with
      | None => None
      | Some true => Some (Some iter)
      | Some false => scan_names arr c (S iter) n'
      end
  end.

(** The two collision loops around the entry the binary search hit.  The first
    tests [next] before it reads through it; the second does not. *)
Fixpoint scan_up (fuel : nat) (arr : list swig_cast_info) (c : list Z) (hash_value : Z)
    (last : nat) : option (option nat) :=
  match fuel with
  | O => None
  | S fuel' =>
      match arr !! last with
      | Some e =>
          match ci_next e with
          | Some j => if ci_value e =? hash_value
                      then match named arr c j with
                           | None => None
                           | Some true => Some (Some j)
                           | Some false => scan_up fuel' arr c hash_value (S last)
                           end
                      else Some None
          | None => Some None
          end
      | None => None
      end
  end.

Fixpoint scan_down (arr : list swig_cast_info) (c : list Z) (hash_value : Z) (first : nat)
    : option (option nat) :=
  match first with
  | O => Some None
  | S first' =>
      match arr !! first with
      | Some e =>
          if ci_value e =? hash_value
          then match ci_next e with
               | Some j => match named arr c j with
                           | None => None
                           | Some true => Some (Some j)
                           | Some false => scan_down arr c hash_value first'
                           end
               | None => None
               end
          else Some None
      | None => None
      end
  end.

Definition hash_probe (arr : list swig_cast_info) (hash_value : Z) (i : Z) : probe :=
  match arr !! Z.to_nat i with
  | Some e => if ci_value e <? hash_value then Above
              else if ci_value e =? hash_value then Hit else Below
  | None => Fault
  end.

(** The [if (search)] block on an array whose first entry has [value]. *)
Definition hash_search (arr : list swig_cast_info) (c : list Z) (hash_value value : Z)
    : option (option nat) :=
  match bsearch mid_diff (hash_probe arr hash_value) (length arr) 1 value with
  | None => None
  | Some None => Some None
  | Some (Some i) =>
      let iter := Z.to_nat i in
      let hit := match arr !! iter with Some e => ci_next e | None => None end in
      match hit with
      | Some j => match named arr c j with
                  | None => None
                  | Some true => Some (Some j)
                  | Some false =>
                      match scan_up (length arr) arr c hash_value (S iter) with
                      | Some None => scan_down arr c hash_value (iter - 1)
                      | r => r
                      end
                  end
      | None => None
      end
  end.

(** The [while (head)] loop; [hashed] holds the hash value once computed. *)
Fixpoint type_check_loop (c : list Z) (hashed : option Z) (head : list (list swig_cast_info))
    : option (option (nat * nat)) :=
  match head with
  | [] => Some None
  | arr :: next =>
      let continue hashed' :=
        match type_check_loop c hashed' next with
        | Some (Some (m, j)) => Some (Some (S m, j))
        | Some None => Some None
        | None => None
        end in
      match named arr c 0, arr !! O with
      | Some true, _ => Some (Some (O, O))
      | Some false, Some first =>
        let value := ci_value first in
        if value =? 0 then continue hashed
        else
          let search hash_value :=
            match hash_search arr c hash_value value with
            | None => None
            | Some (Some j) => Some (Some (O, j))
            | Some None => continue (Some hash_value)
            end in
          match hashed with
          | Some hash_value => search hash_value
          | None =>
              if value <? scan_threshold then
                match scan_names arr c 1 (Z.to_nat value) with
                | None => None
                | Some (Some j) => Some (Some (O, j))
                | Some None => continue None
                end
              else search (SWIG_Hash c)
          end
      | _, _ => None
      end
  end.

(** [ty] null gives no cast. *)
Definition SWIG_TypeCheck (c : list Z) (ty : option (list (list swig_cast_info)))
    : option (option (nat * nat)) :=
  match ty with
  | None => Some None
  | Some cast => type_check_loop c None cast
  end.

(** The pointer and the [newmemory] flag, 0 unless a converter sets it. *)
Definition SWIG_TypeCast (tc : option swig_cast_info) (ptr : Z) : Z * Z :=
  match tc with
  | Some e => match ci_converter e with Some conv => conv ptr | None => (ptr, 0) end
  | None => (ptr, 0)
  end.

(** [SWIG_TypeCheckStruct]: the same descent over the entries' type addresses. *)
Definition addr_probe (arr : list swig_cast_info) (from : Z) (i : Z) : probe :=
  match arr !! Z.to_nat i with
  | Some e => let type := match ci_type e with Some t => tr_addr t | None => 0 end in
              if type <? from then Above else if type =? from then Hit else Below
  | None => Fault
  end.

Fixpoint check_struct_loop (from : Z) (head : list (list swig_cast_info))
    : option (option (nat * nat)) :=
  match head with
  | [] => Some None
  | arr :: next =>
      let continue :=
        match check_struct_loop from next with
        | Some (Some (m, j)) => Some (Some (S m, j))
        | Some None => Some None
        | None => None
        end in
      match addr_probe arr from 0, arr !! O with
      | Hit, _ => Some (Some (O, O))
      | _, None => None
      | _, Some first =>
          let value := ci_value first in
          if value =? 0 then continue
          else match bsearch mid_diff (addr_probe arr from) (length arr) 1 value with
               | None => None
               | Some (Some i) => Some (Some (O, Z.to_nat i))
               | Some None => continue
               end
      end
  end.

Definition SWIG_TypeCheckStruct (from : Z) (ty : option (list (list swig_cast_info)))
    : option (option (nat * nat)) :=
  match ty with
  | None => Some None
  | Some cast => check_struct_loop from cast
  end.

(** ** Building a cast array: the casting part of [SWIG_InitializeModule] for one type *)

Definition set_next (n : option nat) (e : swig_cast_info) : swig_cast_info :=
  mk_cast_info (ci_type e) (ci_converter e) n (ci_value e).
Definition set_value (v : Z) (e : swig_cast_info) : swig_cast_info :=
  mk_cast_info (ci_type e) (ci_converter e) (ci_next e) v.
Definition set_type (t : type_ref) (e : swig_cast_info) : swig_cast_info :=
  mk_cast_info (Some t) (ci_converter e) (ci_next e) (ci_value e).

(** Entries whose [next] is set come first; [type] addresses as integers.
    (ctp_wrap.cpp, lines 508189 to 508197.) *)
Definition SWIG_CastCmpStruct (a b : swig_cast_info) : Z :=
  let ta := match ci_type a with Some t => tr_addr t | None => 0 end in
  let tb := match ci_type b with Some t => tr_addr t | None => 0 end in
  if ta <? tb then (if bool_decide (is_Some (ci_next a)) || bool_decide (ci_next b = None)
                    then -1 else 1)
  else if tb <? ta then (if bool_decide (is_Some (ci_next b)) || bool_decide (ci_next a = None)
                         then 1 else -1)
  else 0.

Definition cast_le (a b : swig_cast_info) : Prop := SWIG_CastCmpStruct a b <= 0.
#[export] Instance cast_le_dec : RelDecision cast_le.
Proof. intros a b. unfold cast_le. apply _. Defined.

(** [qsort] from the C library, by the comparison function. *)
Definition qsort_casts : list swig_cast_info -> list swig_cast_info := merge_sort cast_le.

Section Init.
(** [lookup]: the query in the modules already loaded (no descriptor when there
    is none); [fresh]: [type == swig_module.type_initial[i]]; [ocheck]: whether
    [SWIG_TypeCheck] finds the name among the casts [type] already has. *)
Context (type : Z) (lookup : list Z -> option type_ref) (fresh : bool) (ocheck : list Z -> bool).

Record cast_scan := mk_scan { cs_arr : list swig_cast_info; cs_first : nat; cs_mapped : nat }.

(** The block [if (!target_type)].
    (ctp_wrap.cpp, lines 508335 to 508359.) *)
Definition add_cast (s : cast_scan) (cast : nat) (e : swig_cast_info) (t : type_ref) : cast_scan :=
  let e := set_next (Some cast) e in
  if tr_addr t =? type then
    let arr := <[cast := e]> (cs_arr s) in
    let arr := if decide (cast = cs_first s) then arr
               else match arr !! cs_first s with
                    | Some f => <[cs_first s := e]> (<[cast := f]> arr)
                    | None => arr
                    end in
    mk_scan arr (S (cs_first s)) (S (cs_mapped s))
  else mk_scan (<[cast := set_value (SWIG_Hash (tr_name t)) e]> (cs_arr s))
               (cs_first s) (S (cs_mapped s)).

(** One turn of [while (cast->type)].
    (ctp_wrap.cpp, lines 508305 to 508361.) *)
Definition scan_cast (s : cast_scan) (cast : nat) : cast_scan :=
  match cs_arr s !! cast with
  | Some e =>
      match ci_type e with
      | Some t =>
          match lookup (tr_name t) with
          | None => add_cast s cast e t
          | Some target =>
              if fresh then add_cast s cast (set_type target e) target
              else if ocheck (tr_name target) then s else add_cast s cast e t
          end
      | None => s
      end
  | None => s
  end.

(** [n] is the number of entries before the terminating one.
    (ctp_wrap.cpp, lines 508304 to 508361.) *)
Definition scan_casts (arr : list swig_cast_info) (n : nat) : cast_scan :=
  fold_left scan_cast (seq 0 n) (mk_scan arr 0 0).

(** The block [if (num_mapped)]: sort by address, remap the back links, set
    the first entry's [value], sort the pairs by hash.
    (ctp_wrap.cpp, lines 508363 to 508397.) *)
Definition finish_casts (s : cast_scan) (n : nat) : list swig_cast_info :=
  let first := cs_first s in
  let arr := if decide (first = n) then cs_arr s
             else take first (cs_arr s) ++ qsort_casts (take (n - first) (drop first (cs_arr s)))
                  ++ drop n (cs_arr s) in
  let arr := if decide (first = n) then arr
             else imap (fun i e => if decide (first <= i < cs_mapped s)%nat
                                   then set_next (Some i) e else e) arr in
  let arr := match arr with
             | [] => []
             | e :: arr' => set_value (Z.of_nat (cs_mapped s) - 1) e :: arr'
             end in
  let m := (cs_mapped s - first)%nat in
  if decide (1 < m)%nat then
    let body := take m (drop first arr) in
    let pairs := SWIG_CastHashSort (omap (fun e => match ci_next e with
                                                    | Some j => Some (j, ci_value e)
                                                    | None => None end) body) in
    take first arr ++ zip_with (fun e p => set_value (snd p) (set_next (Some (fst p)) e)) body pairs
      ++ drop (first + m) arr
  else arr.

(** The array linked into [type->cast], when an entry was added.  The link
    itself, the [next] of the first entry, is the position of the array in the
    list of arrays.
    (ctp_wrap.cpp, lines 508303 to 508397.) *)
Definition init_casts (arr : list swig_cast_info) (n : nat) : option (list swig_cast_info) :=
  let s := scan_casts arr n in
  if decide (cs_mapped s = O) then None else Some (finish_casts s n).
End Init.

(** ** Well-formed tables *)

(** A module's names, ordered strictly. *)
Definition module_wf (types : list swig_type_info) : Prop :=
  exists names, map ti_name types = map Some names
                /\ StronglySorted (fun a b => strcmp a b < 0) names.

(** The searchable array whose first cast is [self] and whose others are
    [others]: the first entry holds the index of the last, the others are
    ordered by address, and their [(next, value)] pairs list them by hash. *)
Record cast_wf (arr : list swig_cast_info) (self : type_ref) (others : list type_ref) : Prop := {
  cw_types : map ci_type arr = Some self :: map Some others ++ [None];
  cw_value : ci_value <$> arr !! O = Some (Z.of_nat (length others));
  cw_end : ci_next <$> arr !! S (length others) = Some None;
  cw_addr : StronglySorted (fun s t => tr_addr s < tr_addr t) others;
  cw_pairs : exists pairs,
      map (fun e => (ci_next e, ci_value e)) (take (length others) (drop 1 arr))
        = map (fun p => (Some (fst p), snd p)) pairs
      /\ values_sorted pairs
      /\ pairs ≡ₚ zip (seq 1 (length others)) (map (fun t => SWIG_Hash (tr_name t)) others);
}.

(** ** Queries by name *)

Lemma sorted_lookup {A} (R : A -> A -> Prop) l i j x y :
  StronglySorted R l -> (i < j)%nat -> l !! i = Some x -> l !! j = Some y -> R x y.
Proof.
  intros Hs; revert i j; induction Hs as [|a l Hs IH Ha]; intros i j Hij Hx Hy; [done|].
  destruct j as [|j]; [lia|]. destruct i as [|i]; simpl in *; simplify_eq.
  - rewrite Forall_forall in Ha. apply Ha. by eapply list_elem_of_lookup_2.
  - eapply IH; [|done|done]. lia.
Qed.

Section Query.
Context (types : list swig_type_info) (names : list (list Z)) (name : list Z).
Context (Hnames : map ti_name types = map Some names).
Context (Hsorted : StronglySorted (fun a b => strcmp a b < 0) names).

Lemma query_probe_spec i n : 0 <= i -> names !! Z.to_nat i = Some n ->
  query_probe types name i =
    if strcmp name n =? 0 then Hit
    else if strcmp name n <? 0 then (if negb (i =? 0) then Below else Stop) else Above.
Proof.
  intros Hi Hn. unfold query_probe.
  assert (H : map ti_name types !! Z.to_nat i = Some (Some n))
    by (rewrite Hnames, list_lookup_fmap, Hn; done).
  rewrite list_lookup_fmap in H. destruct (types !! Z.to_nat i) as [ty|]; [|done].
  simpl in H. injection H as ->. done.
Qed.

Lemma query_types_length : length types = length names.
Proof. by rewrite <- (length_map ti_name types), Hnames, length_map. Qed.

Lemma query_module_found k : names !! k = Some name ->
  bsearch mid_sum (query_probe types name) (length types) 0 (Z.of_nat (length types) - 1)
  = Some (Some (Z.of_nat k)).
Proof.
  intros Hk. pose proof (lookup_lt_Some _ _ _ Hk) as Hlt. rewrite query_types_length.
  assert (Hat : forall i, 0 <= i <= Z.of_nat (length names) - 1 ->
            exists n, names !! Z.to_nat i = Some n).
  { intros i Hi. apply lookup_lt_is_Some. lia. }
  assert (Hcmp : forall i n, 0 <= i -> names !! Z.to_nat i = Some n ->
            (i < Z.of_nat k -> strcmp name n > 0) /\ (Z.of_nat k < i -> strcmp name n < 0)).
  { intros i n Hi Hn. split; intros H.
    - pose proof (sorted_lookup _ _ (Z.to_nat i) k _ _ Hsorted ltac:(lia) Hn Hk).
      rewrite strcmp_antisym. simpl in *. lia.
    - exact (sorted_lookup _ _ k (Z.to_nat i) _ _ Hsorted ltac:(lia) Hk Hn). }
  destruct (bsearch_complete mid_sum (query_probe types name) mid_sum_between
              (length names) 0 (Z.of_nat (length names) - 1) (Z.of_nat k))
    as (i & -> & Hi & Hhit); try lia.
  - rewrite (query_probe_spec _ name) by (rewrite ?Nat2Z.id; done || lia).
    by rewrite strcmp_refl.
  - intros i Hi. destruct (Hat i Hi) as [n Hn]. rewrite (query_probe_spec i n) by (done || lia).
    destruct (Hcmp i n ltac:(lia) Hn). repeat case_if; zbool; try done. exfalso.
    assert (i = 0) as -> by (apply Z.eqb_eq, negb_false_iff; done).
    destruct (decide (k = O)) as [->|]; [|lia].
    change (Z.to_nat 0) with O in Hn. rewrite Hk in Hn. injection Hn as <-.
    by rewrite strcmp_refl in *.
  - intros i Hi. destruct (Hat i Hi) as [n Hn]. rewrite (query_probe_spec i n) by (done || lia).
    destruct (Hcmp i n ltac:(lia) Hn). repeat case_if; zbool; try done. intros _.
    destruct (Z.lt_trichotomy i (Z.of_nat k)) as [?|[->|?]]; [lia| |done].
    rewrite Nat2Z.id, Hk in Hn. injection Hn as <-. by rewrite strcmp_refl in *.
  - intros i Hi. destruct (Hat i Hi) as [n Hn]. rewrite (query_probe_spec i n) by (done || lia).
    destruct (Hcmp i n ltac:(lia) Hn). repeat case_if; zbool; try done. intros _.
    destruct (Z.lt_trichotomy i (Z.of_nat k)) as [?|[->|?]]; [done| |lia].
    rewrite Nat2Z.id, Hk in Hn. injection Hn as <-. by rewrite strcmp_refl in *.
  - do 2 f_equal. destruct (Hat i Hi) as [n Hn].
    rewrite (query_probe_spec i n) in Hhit by (done || lia).
    destruct (Hcmp i n ltac:(lia) Hn).
    destruct (Z.lt_trichotomy i (Z.of_nat k)) as [?|[?|?]]; [|done|];
      repeat case_if; zbool; try done; lia.
Qed.

Lemma query_module_absent : types <> [] -> name ∉ names ->
  bsearch mid_sum (query_probe types name) (length types) 0 (Z.of_nat (length types) - 1)
  = Some None.
Proof.
  intros Hne Hni. assert (length types <> O) by (destruct types; done).
  destruct (bsearch_terminates mid_sum (query_probe types name) mid_sum_between (length types)
              0 (Z.of_nat (length types) - 1)) as [[i|] E]; [lia|lia| | |done].
  { intros i Hi. destruct (lookup_lt_is_Some_2 names (Z.to_nat i)) as [n Hn];
      [rewrite <- query_types_length; lia|].
    rewrite (query_probe_spec i n) by (done || lia). by repeat case_if. }
  exfalso. apply bsearch_hit in E as [Hi Hhit]; [|apply mid_sum_between|lia].
  destruct (lookup_lt_is_Some_2 names (Z.to_nat i)) as [n Hn];
    [rewrite <- query_types_length; lia|].
  rewrite (query_probe_spec i n) in Hhit by (done || lia).
  repeat case_if; zbool; try done. apply strcmp_eq in Heqb as ->.
  by apply Hni; eapply list_elem_of_lookup_2.
Qed.
End Query.

(** What the query over the modules answers. *)
Definition query_spec (iter : list (list swig_type_info)) (name : list Z) (r : option (nat * Z))
    : Prop :=
  match r with
  | Some (m, i) =>
      0 <= i
      /\ (exists types ty, iter !! m = Some types /\ types !! Z.to_nat i = Some ty
                          /\ ti_name ty = Some name)
      /\ (forall m' types ty, (m' < m)%nat -> iter !! m' = Some types -> ty ∈ types ->
                             ti_name ty <> Some name)
  | None => forall types ty, types ∈ iter -> ty ∈ types -> ti_name ty <> Some name
  end.

Lemma names_elem types names name ty : map ti_name types = map Some names ->
  ty ∈ types -> ti_name ty = Some name -> name ∈ names.
Proof.
  intros E Hty Hn. assert (H : Some name ∈ map Some names).
  { rewrite <- E. rewrite <- Hn. by apply list_elem_of_fmap_2. }
  apply list_elem_of_fmap in H as (n & [= ->] & H). done.
Qed.

Lemma mangled_query_correct iter name : Forall module_wf iter ->
  exists r, SWIG_MangledTypeQueryModule iter name = Some r /\ query_spec iter name r.
Proof.
  induction 1 as [|types iter (names & Hn & Hs) Hw IH]; cbn [SWIG_MangledTypeQueryModule].
  { eexists. split; [done|]. intros types ty H. by apply elem_of_nil in H. }
  destruct IH as (r & -> & Hr).
  destruct (decide (name ∈ names)) as [Hin|Hni].
  - apply list_elem_of_lookup_1 in Hin as [k Hk].
    assert (Hk' : map Some names !! k = Some (Some name)) by (rewrite list_lookup_fmap, Hk; done).
    rewrite <- Hn, list_lookup_fmap in Hk'.
    destruct (types !! k) as [ty|] eqn:Ety; [|done]. injection Hk' as Hty.
    rewrite (proj2 (Z.eqb_neq _ _)) by (destruct types; [done|simpl; lia]).
    rewrite (query_module_found types names name Hn Hs k Hk).
    eexists; split; [done|]. split; [lia|]. split; [|intros; lia].
    exists types, ty. by rewrite Nat2Z.id.
  - assert (Habs : forall ty, ty ∈ types -> ti_name ty <> Some name).
    { intros ty Hty E. eapply Hni, names_elem; done. }
    assert (E : (if Z.of_nat (length types) =? 0 then Some None
                 else bsearch mid_sum (query_probe types name) (length types) 0
                        (Z.of_nat (length types) - 1)) = Some None).
    { case_if; [done|]. apply (query_module_absent types names name Hn); [|done]. by intros ->. }
    rewrite E. destruct r as [[m i]|]; (eexists; split; [done|]).
    + destruct Hr as (Hi & Hex & Hfst). split; [done|]. split; [done|].
      intros [|m'] types' ty Hm Ht Hty; simpl in Ht; simplify_eq; [by apply Habs|].
      eapply Hfst; [|done|done]. lia.
    + intros types' ty [->|Ht]%elem_of_cons Hty; [by apply Habs|by eapply Hr].
Qed.

(** ** Cast checks *)

Section Check.
Context (arr : list swig_cast_info) (self : type_ref) (others : list type_ref).
Context (W : cast_wf arr self others) (pairs : list pair_nv).
Context (Hpairs : map (fun e => (ci_next e, ci_value e)) (take (length others) (drop 1 arr))
                  = map (fun p => (Some (fst p), snd p)) pairs).
Context (Hsorted : values_sorted pairs).
Context (Hperm : pairs ≡ₚ zip (seq 1 (length others))
                            (map (fun t => SWIG_Hash (tr_name t)) others)).

Lemma cast_length : length arr = S (S (length others)).
Proof.
  pose proof (f_equal length (cw_types _ _ _ W)) as H.
  simpl in H. rewrite length_app, !length_map in H. simpl in H. lia.
Qed.

Lemma pairs_length : length pairs = length others.
Proof. rewrite Hperm, length_zip, length_seq, length_map. lia. Qed.

(** The entries that have a type. *)
Lemma cast_type j : (j <= length others)%nat ->
  exists e, arr !! j = Some e /\ ci_type e = (self :: others) !! j.
Proof.
  intros Hj. destruct (lookup_lt_is_Some_2 arr j) as [e He]; [rewrite cast_length; lia|].
  exists e. split; [done|].
  assert (H : map ci_type arr !! j = Some (ci_type e)) by (rewrite list_lookup_fmap, He; done).
  rewrite (cw_types _ _ _ W) in H. destruct j as [|j]; simpl in *; [by injection H|].
  rewrite lookup_app_l, list_lookup_fmap in H by (rewrite length_map; lia).
  destruct (others !! j); simpl in H; congruence.
Qed.

Lemma cast_last : exists e, arr !! S (length others) = Some e /\ ci_type e = None.
Proof.
  destruct (lookup_lt_is_Some_2 arr (S (length others))) as [e He]; [rewrite cast_length; lia|].
  exists e. split; [done|].
  assert (H : map ci_type arr !! S (length others) = Some (ci_type e))
    by (rewrite list_lookup_fmap, He; done).
  rewrite (cw_types _ _ _ W) in H. simpl in H.
  rewrite lookup_app_r, length_map, Nat.sub_diag in H by (rewrite length_map; lia).
  simpl in H. congruence.
Qed.

Lemma named_iff c j : named arr c j = Some true <-> exists t, (self :: others) !! j = Some t /\ tr_name t = c.
Proof.
  unfold named. destruct (decide (j <= length others)%nat) as [Hj|Hj].
  - destruct (cast_type j Hj) as (e & -> & ->). destruct ((self :: others) !! j) as [t|].
    + split; [intros [= H]|intros (? & [= ->] & <-)]; [|by rewrite strcmp_refl].
      apply Z.eqb_eq, strcmp_eq in H. eauto.
    + split; [done|]. by intros (? & ? & ?).
  - rewrite (lookup_ge_None_2 (self :: others)) by (simpl; lia).
    split; [|by intros (? & ? & ?)].
    destruct (decide (j = S (length others))) as [->|].
    + by destruct cast_last as (e & -> & ->).
    + by rewrite (lookup_ge_None_2 arr) by (rewrite cast_length; lia).
Qed.

(** The reads of names stay among the entries that have a type. *)
Lemma named_total c j : (j <= length others)%nat -> exists b, named arr c j = Some b.
Proof.
  intros Hj. unfold named. destruct (cast_type j Hj) as (e & -> & ->).
  destruct (lookup_lt_is_Some_2 (self :: others) j) as [t ->]; [simpl; lia|]. eauto.
Qed.

(** Entry [S k] carries pair [k]. *)
Lemma cast_pair k p : pairs !! k = Some p ->
  exists e, arr !! S k = Some e /\ ci_next e = Some (fst p) /\ ci_value e = snd p.
Proof.
  intros Hp. pose proof (lookup_lt_Some _ _ _ Hp) as Hlt. rewrite pairs_length in Hlt.
  destruct (lookup_lt_is_Some_2 arr (S k)) as [e He]; [rewrite cast_length; lia|].
  exists e. split; [done|].
  assert (H : map (fun e => (ci_next e, ci_value e)) (take (length others) (drop 1 arr)) !! k
              = Some (Some (fst p), snd p)).
  { rewrite Hpairs, list_lookup_fmap, Hp. done. }
  rewrite list_lookup_fmap, lookup_take_lt, lookup_drop in H by lia.
  change (1 + k)%nat with (S k) in H. rewrite He in H. by injection H.
Qed.

(** The pair of the cast at index [S j] is somewhere among the sorted pairs. *)
Lemma pair_of j t : others !! j = Some t ->
  exists k, pairs !! k = Some (S j, SWIG_Hash (tr_name t)).
Proof.
  intros Ht. apply list_elem_of_lookup_1. rewrite Hperm.
  apply (list_elem_of_lookup_2 _ j). apply lookup_lt_Some in Ht as Hlt.
  rewrite lookup_zip_with, list_lookup_fmap, Ht, lookup_seq_lt by lia. done.
Qed.

Lemma pair_target k p : pairs !! k = Some p ->
  exists t, others !! (fst p - 1)%nat = Some t /\ (1 <= fst p <= length others)%nat
            /\ snd p = SWIG_Hash (tr_name t).
Proof.
  intros Hp. apply list_elem_of_lookup_2 in Hp. rewrite Hperm in Hp.
  apply list_elem_of_lookup_1 in Hp as [j Hj].
  rewrite lookup_zip_with, list_lookup_fmap in Hj.
  destruct (seq 1 (length others) !! j) as [s|] eqn:Es; [|done].
  apply lookup_seq in Es as [-> Hlt].
  destruct (others !! j) as [t|] eqn:Et; [|done].
  injection Hj as <-. exists t. cbn [fst snd].
  rewrite Nat.sub_succ, Nat.sub_0_r. split; [done|]. split; [lia|done].
Qed.

Lemma pairs_between i k j p q v : (i <= j <= k)%nat ->
  pairs !! i = Some p -> snd p = v -> pairs !! k = Some q -> snd q = v ->
  exists r, pairs !! j = Some r /\ snd r = v.
Proof.
  intros Hj Hp Ep Hq Eq. pose proof (lookup_lt_Some _ _ _ Hq).
  destruct (lookup_lt_is_Some_2 pairs j) as [r Hr]; [lia|]. exists r. split; [done|].
  destruct (decide (i = j)) as [->|]; [congruence|].
  destruct (decide (j = k)) as [->|]; [congruence|].
  pose proof (sorted_lookup _ _ i j _ _ Hsorted ltac:(lia) Hp Hr).
  pose proof (sorted_lookup _ _ j k _ _ Hsorted ltac:(lia) Hr Hq). simpl in *. lia.
Qed.

Lemma pair_named c k p : pairs !! k = Some p -> exists b, named arr c (fst p) = Some b.
Proof. intros Hp. destruct (pair_target k p Hp) as (t & _ & Hr & _). apply named_total. lia. Qed.

(** The collision loops come back: the one upwards stops at the terminating
    entry, whose [next] is null, at the latest, the one downwards at the
    first entry. *)
Lemma scan_up_total c v fuel i : (i <= length others)%nat -> (length others - i < fuel)%nat ->
  exists r, scan_up fuel arr c v (S i) = Some r.
Proof.
  revert i; induction fuel as [|fuel IH]; intros i Hi Hf; [lia|]. cbn [scan_up].
  destruct (decide (i = length others)) as [->|].
  - pose proof (cw_end _ _ _ W) as He. destruct (arr !! S (length others)) as [e|]; [|done].
    simpl in He. injection He as ->. eauto.
  - destruct (lookup_lt_is_Some_2 pairs i) as [p Hp]; [rewrite pairs_length; lia|].
    destruct (cast_pair i p Hp) as (e & -> & -> & ->). case_if; [|eauto].
    destruct (pair_named c i p Hp) as [[] ->]; [eauto|]. apply IH; lia.
Qed.

Lemma scan_down_total c v i : (i <= length others)%nat -> exists r, scan_down arr c v i = Some r.
Proof.
  induction i as [|i IH]; intros Hi; cbn [scan_down]; [eauto|].
  destruct (lookup_lt_is_Some_2 pairs i) as [p Hp]; [rewrite pairs_length; lia|].
  destruct (cast_pair i p Hp) as (e & -> & -> & ->). case_if; [|eauto].
  destruct (pair_named c i p Hp) as [[] ->]; [eauto|]. apply IH; lia.
Qed.

(** They return only casts named [c], and miss none in the run of equal hash
    values they walk. *)
Lemma scan_up_sound fuel c v last j :
  scan_up fuel arr c v last = Some (Some j) -> named arr c j = Some true.
Proof.
  revert last; induction fuel; intros last; cbn [scan_up]; [done|].
  repeat (case_match; try done). intros [= ->]. done.
  all: eauto.
Qed.

Lemma scan_down_sound c v first j :
  scan_down arr c v first = Some (Some j) -> named arr c j = Some true.
Proof.
  induction first; cbn [scan_down]; [done|].
  repeat (case_match; try done). intros [= ->]. done.
  all: eauto.
Qed.

Lemma scan_up_complete c v d i k p q fuel : (k - i)%nat = d -> (i <= k)%nat -> (d < fuel)%nat ->
  pairs !! i = Some p -> snd p = v -> pairs !! k = Some q -> snd q = v ->
  named arr c (fst q) = Some true -> exists j, scan_up fuel arr c v (S i) = Some (Some j).
Proof.
  revert i p fuel; induction d as [|d IH]; intros i p fuel Hd Hik Hf Hp Ep Hq Eq Hn;
    (destruct fuel as [|fuel]; [lia|]); cbn [scan_up];
    destruct (cast_pair i p Hp) as (e & -> & -> & ->); rewrite Ep, Z.eqb_refl;
    (destruct (pair_named c i p Hp) as [[] Eb]; rewrite Eb; [eauto|]).
  - assert (i = k) as -> by lia. congruence.
  - destruct (pairs_between i k (S i) p q v) as (r & Hr & Er); [lia|done..|].
    eapply (IH (S i)); eauto; lia.
Qed.

Lemma scan_down_complete c v d i k p q : (i - k)%nat = d -> (k <= i)%nat ->
  pairs !! i = Some p -> snd p = v -> pairs !! k = Some q -> snd q = v ->
  named arr c (fst q) = Some true -> exists j, scan_down arr c v (S i) = Some (Some j).
Proof.
  revert i p; induction d as [|d IH]; intros i p Hd Hik Hp Ep Hq Eq Hn; cbn [scan_down];
    destruct (cast_pair i p Hp) as (e & -> & -> & ->); rewrite Ep, Z.eqb_refl;
    (destruct (pair_named c i p Hp) as [[] Eb]; rewrite Eb; [eauto|]).
  - assert (i = k) as -> by lia. congruence.
  - destruct (pairs_between k i (i - 1) q p v) as (r & Hr & Er); [lia|done..|].
    destruct i as [|i]; [lia|]. rewrite Nat.sub_succ, Nat.sub_0_r in Hr.
    eapply (IH i); eauto; lia.
Qed.

Lemma hash_probe_spec v i p : 0 <= i -> pairs !! Z.to_nat i = Some p ->
  hash_probe arr v (i + 1) = if snd p <? v then Above else if snd p =? v then Hit else Below.
Proof.
  intros Hi Hp. unfold hash_probe. replace (Z.to_nat (i + 1)) with (S (Z.to_nat i)) by lia.
  by destruct (cast_pair _ p Hp) as (e & -> & _ & ->).
Qed.

Lemma hash_probe_at v i : 1 <= i <= Z.of_nat (length others) ->
  exists k p, i = Z.of_nat (S k) /\ pairs !! k = Some p /\
    hash_probe arr v i = if snd p <? v then Above else if snd p =? v then Hit else Below.
Proof.
  intros Hi. destruct (lookup_lt_is_Some_2 pairs (Z.to_nat (i - 1))) as [p Hp];
    [rewrite pairs_length; lia|].
  exists (Z.to_nat (i - 1)), p. split; [lia|]. split; [done|].
  rewrite <- (hash_probe_spec v (i - 1) p) by (done || lia). f_equal. lia.
Qed.

Lemma hash_search_sound c v n j :
  hash_search arr c v n = Some (Some j) -> named arr c j = Some true.
Proof.
  unfold hash_search. repeat (case_match; try done); intros; simplify_eq;
    eauto using scan_up_sound, scan_down_sound.
Qed.

Lemma hash_search_total c v : Z.of_nat (length others) <> 0 ->
  exists r, hash_search arr c v (Z.of_nat (length others)) = Some r.
Proof.
  intros Hne. unfold hash_search.
  destruct (bsearch_terminates mid_diff (hash_probe arr v) mid_diff_between (length arr) 1
              (Z.of_nat (length others))) as [[i|] E]; [lia|rewrite cast_length; lia|..].
  { intros i Hi. destruct (hash_probe_at v i Hi) as (k & p & _ & _ & ->). by repeat case_if. }
  all: rewrite E. 2: eauto.
  apply bsearch_hit in E as [Hi _]; [|apply mid_diff_between|lia].
  destruct (hash_probe_at v i Hi) as (k & p & -> & Hp & _). rewrite Nat2Z.id.
  destruct (cast_pair k p Hp) as (e & -> & -> & _). cbv iota.
  destruct (pair_named c k p Hp) as [[] ->]; [eauto|].
  apply lookup_lt_Some in Hp. rewrite pairs_length in Hp.
  destruct (scan_up_total c v (length arr) (S k)) as [[u|] ->];
    [lia|rewrite cast_length; lia|eauto|]. apply scan_down_total. lia.
Qed.

Lemma hash_search_complete c j t : others !! j = Some t -> tr_name t = c ->
  exists k, hash_search arr c (SWIG_Hash c) (Z.of_nat (length others)) = Some (Some k).
Proof.
  intros Ht Hc. pose proof (lookup_lt_Some _ _ _ Ht) as Hlt.
  destruct (pair_of j t Ht) as [k Hk]. rewrite Hc in Hk. set (v := SWIG_Hash c) in *.
  assert (Hnj : named arr c (S j) = Some true) by (apply named_iff; eauto).
  pose proof (lookup_lt_Some _ _ _ Hk) as Hklt. rewrite pairs_length in Hklt.
  unfold hash_search.
  destruct (bsearch_complete mid_diff (hash_probe arr v) mid_diff_between (length arr) 1
              (Z.of_nat (length others)) (Z.of_nat (S k))) as (i & -> & Hi & Hhit);
    [lia|rewrite cast_length; lia|lia|..].
  - destruct (hash_probe_at v (Z.of_nat (S k))) as (k' & p & E & Hp & ->); [lia|].
    assert (k' = k) as -> by lia. rewrite Hk in Hp. injection Hp as <-. cbn [snd].
    by rewrite Z.ltb_irrefl, Z.eqb_refl.
  - intros i Hi. destruct (hash_probe_at v i Hi) as (k' & p & -> & Hp & ->).
    by repeat case_if.
  - intros i Hi. destruct (hash_probe_at v i Hi) as (k' & p & -> & Hp & ->).
    intros H. destruct (decide (k < k')%nat); [lia|]. exfalso.
    destruct (decide (k' = k)) as [->|]; [rewrite Hk in Hp; injection Hp as <-; cbn [snd] in H|].
    + by rewrite Z.ltb_irrefl, Z.eqb_refl in H.
    + pose proof (sorted_lookup _ _ k' k _ _ Hsorted ltac:(lia) Hp Hk). simpl in *.
      repeat case_if; zbool; try done. lia.
  - intros i Hi. destruct (hash_probe_at v i Hi) as (k' & p & -> & Hp & ->).
    intros H. destruct (decide (k' < k)%nat); [lia|]. exfalso.
    destruct (decide (k' = k)) as [->|]; [rewrite Hk in Hp; injection Hp as <-; cbn [snd] in H|].
    + by rewrite Z.ltb_irrefl, Z.eqb_refl in H.
    + pose proof (sorted_lookup _ _ k k' _ _ Hsorted ltac:(lia) Hk Hp). simpl in *.
      repeat case_if; zbool; try done. lia.
  - destruct (hash_probe_at v i Hi) as (k' & p & -> & Hp & E). rewrite E in Hhit.
    assert (Hv : snd p = v) by (repeat case_if; zbool; done). rewrite Nat2Z.id.
    destruct (cast_pair k' p Hp) as (e & -> & -> & _). cbv iota.
    destruct (pair_named c k' p Hp) as [[] Eb]; rewrite Eb; [eauto|].
    apply lookup_lt_Some in Hp as Hlt'. rewrite pairs_length in Hlt'.
    destruct (scan_up_total c v (length arr) (S k')) as [[u|] Eu]; [lia|rewrite cast_length; lia|..];
      rewrite Eu; [eauto|].
    destruct (decide (k' < k)%nat) as [Hkk|Hkk].
    + destruct (pairs_between k' k (S k') p (S j, v) v) as (r & Hr & Er); [lia|done..|].
      destruct (scan_up_complete c v (k - S k') (S k') k r (S j, v) (length arr)) as [u Hu];
        [done|lia|rewrite cast_length; lia|done..|]. congruence.
    + destruct (decide (k = k')) as [<-|]; [rewrite Hk in Hp; injection Hp as <-; cbn [fst] in *; congruence|].
      destruct (pairs_between k k' (k' - 1) (S j, v) p v) as (r & Hr & Er); [lia|done..|].
      destruct (scan_down_complete c v (k' - 1 - k) (k' - 1) k r (S j, v)) as [u Hu];
        [done|lia|done..|].
      replace (S k' - 1)%nat with (S (k' - 1)) by lia. rewrite Hu. eauto.
Qed.

Lemma scan_names_spec c iter n : (iter + n <= S (length others))%nat ->
  exists r, scan_names arr c iter n = Some r
    /\ match r with
       | Some j => named arr c j = Some true
       | None => forall j, (iter <= j < iter + n)%nat -> named arr c j = Some false
       end.
Proof.
  revert iter; induction n as [|n IH]; intros iter Hn; cbn [scan_names].
  { exists None. split; [done|lia]. }
  destruct (named_total c iter) as [[] Eb]; [lia|rewrite Eb; by exists (Some iter)|]. rewrite Eb.
  destruct (IH (S iter)) as (r & -> & Hr); [lia|]. exists r. split; [done|].
  destruct r; [done|]. intros j Hj. destruct (decide (j = iter)) as [->|]; [done|]. apply Hr. lia.
Qed.
End Check.

Definition tables_wf : list (list swig_cast_info) -> list (type_ref * list type_ref) -> Prop :=
  Forall2 (fun arr p => cast_wf arr (fst p) (snd p)).

(** An answer of a cast check over the arrays of [tbl] for the casts satisfying [P]. *)
Definition check_spec (P : type_ref -> Prop) (tbl : list (type_ref * list type_ref))
    (r : option (nat * nat)) : Prop :=
  match r with
  | Some (m, j) => exists p t, tbl !! m = Some p /\ (fst p :: snd p) !! j = Some t /\ P t
  | None => forall p t, p ∈ tbl -> t ∈ fst p :: snd p -> ~ P t
  end.

Lemma check_spec_here P p tbl j t :
  (fst p :: snd p) !! j = Some t -> P t -> check_spec P (p :: tbl) (Some (O, j)).
Proof. intros. exists p, t. auto. Qed.

(** Going on with the next array. *)
Lemma check_spec_next P p tbl r : (forall t, t ∈ fst p :: snd p -> ~ P t) -> check_spec P tbl r ->
  check_spec P (p :: tbl) (match r with Some (m, j) => Some (S m, j) | None => None end).
Proof.
  intros Hp. destruct r as [[m j]|]; simpl; [done|].
  intros Ht q t [->|Hq]%elem_of_cons; eauto.
Qed.

Lemma named_absent arr self others c : cast_wf arr self others ->
  (forall j, (j <= length others)%nat -> named arr c j = Some false) ->
  forall t, t ∈ self :: others -> tr_name t <> c.
Proof.
  intros W H t Ht Hc. apply list_elem_of_lookup_1 in Ht as [j Hj].
  apply lookup_lt_Some in Hj as Hlt. simpl in Hlt.
  assert (named arr c j = Some true) by (eapply named_iff; eauto).
  rewrite H in *; [done|lia].
Qed.

Definition shift_array (r : option (nat * nat)) : option (nat * nat) :=
  match r with Some (m, j) => Some (S m, j) | None => None end.

(** The [if (search)] block, with the answer [r] of the remaining arrays. *)
Lemma search_block_correct c arr p tbl r rest :
  cast_wf arr (fst p) (snd p) -> Z.of_nat (length (snd p)) <> 0 -> named arr c 0 = Some false ->
  rest = Some r -> check_spec (fun t => tr_name t = c) tbl r ->
  exists r', match hash_search arr c (SWIG_Hash c) (Z.of_nat (length (snd p))) with
             | None => None
             | Some (Some j) => Some (Some (O, j))
             | Some None => match rest with Some (Some (m, j)) => Some (Some (S m, j)) | Some None => Some None | None => None end
             end = Some r'
             /\ check_spec (fun t => tr_name t = c) (p :: tbl) r'.
Proof.
  intros W Hn E0 Hrest Hr. pose proof (cw_pairs _ _ _ W) as (pairs & Hm & Hs & Hp).
  destruct (hash_search_total _ _ _ W pairs Hm Hp c (SWIG_Hash c) Hn) as [[j|] E]; rewrite E.
  - apply (hash_search_sound arr) in E. apply (named_iff _ _ _ W) in E as (t & Ht & Hc).
    eauto using check_spec_here.
  - exists (shift_array r). split; [subst rest; by destruct r as [[]|]|]. apply check_spec_next; [|done].
    intros t Ht Hc. apply elem_of_cons in Ht as [->|Ht].
    + assert (named arr c 0 = Some true) by (apply (named_iff _ _ _ W); eauto). congruence.
    + apply list_elem_of_lookup_1 in Ht as [j Hj].
      destruct (hash_search_complete _ _ _ W pairs Hm Hs Hp c j t Hj Hc) as [k Hk]. congruence.
Qed.

Lemma type_check_loop_correct c hashed head tbl :
  tables_wf head tbl -> (hashed = None \/ hashed = Some (SWIG_Hash c)) ->
  exists r, type_check_loop c hashed head = Some r /\ check_spec (fun t => tr_name t = c) tbl r.
Proof.
  intros Hw; revert hashed; induction Hw as [|arr p head tbl W Hw IH]; intros hashed Hh.
  { exists None. split; [done|]. intros p t H. by apply elem_of_nil in H. }
  cbn [type_check_loop]. destruct (named_total _ _ _ W c 0) as [[] E0]; [lia|..]; rewrite E0.
  { apply (named_iff _ _ _ W) in E0 as (t & Ht & Hc). eauto using check_spec_here. }
  pose proof (cw_value _ _ _ W) as Hv. destruct (arr !! O) as [h|]; [|done].
  injection Hv as ->. destruct (Z.of_nat (length (snd p)) =? 0) eqn:En; zbool.
  { destruct (IH hashed Hh) as (r & Hrest & Hr).
    exists (shift_array r). split; [rewrite Hrest; by destruct r as [[]|]|].
    apply check_spec_next; [|done]. eapply named_absent; [done|]. intros j Hj. by replace j with O by lia. }
  assert (Hsearch := search_block_correct c arr p tbl).
  destruct (IH (Some (SWIG_Hash c))) as (r & Hrest & Hr); [auto|].
  specialize (Hsearch r _ W En E0 Hrest Hr).
  destruct Hh as [->| ->]; [|exact Hsearch].
  destruct (Z.of_nat (length (snd p)) <? scan_threshold); [|exact Hsearch].
  rewrite Nat2Z.id.
  destruct (scan_names_spec _ _ _ W c 1 (length (snd p))) as ([j|] & -> & Hs); [lia|..].
  - apply (named_iff _ _ _ W) in Hs as (t & Ht & Hc).
    eauto using check_spec_here.
  - destruct (IH None) as (r' & Hrest' & Hr'); [auto|].
    exists (shift_array r'). split; [rewrite Hrest'; by destruct r' as [[]|]|].
    apply check_spec_next; [|done]. eapply named_absent; [done|]. intros j Hj.
    destruct (decide (j = O)) as [->|]; [done|]. apply Hs. lia.
Qed.

(** The address search of one array. *)
Lemma addr_probe_spec arr self others from i t : cast_wf arr self others ->
  0 <= i -> (self :: others) !! Z.to_nat i = Some t ->
  addr_probe arr from i =
    if tr_addr t <? from then Above else if tr_addr t =? from then Hit else Below.
Proof.
  intros W Hi Ht. apply lookup_lt_Some in Ht as Hlt. simpl in Hlt. unfold addr_probe.
  destruct (cast_type _ _ _ W (Z.to_nat i)) as (e & -> & ->); [lia|]. by rewrite Ht.
Qed.

Lemma addr_search_complete arr self others from j t : cast_wf arr self others ->
  others !! j = Some t -> tr_addr t = from ->
  exists i, bsearch mid_diff (addr_probe arr from) (length arr) 1 (Z.of_nat (length others))
            = Some (Some i) /\ 1 <= i <= Z.of_nat (length others) /\ addr_probe arr from i = Hit.
Proof.
  intros W Ht Ha. apply lookup_lt_Some in Ht as Hlt.
  assert (Hat : forall i, 1 <= i <= Z.of_nat (length others) -> exists k u, i = Z.of_nat (S k) /\
     others !! k = Some u /\ addr_probe arr from i =
       if tr_addr u <? from then Above else if tr_addr u =? from then Hit else Below).
  { intros i Hi. destruct (lookup_lt_is_Some_2 others (Z.to_nat (i - 1))) as [u Hu]; [lia|].
    exists (Z.to_nat (i - 1)), u. split; [lia|]. split; [done|].
    apply (addr_probe_spec _ self others); [done|lia|].
    by replace (Z.to_nat i) with (S (Z.to_nat (i - 1))) by lia. }
  apply (bsearch_complete mid_diff (addr_probe arr from) mid_diff_between (length arr) 1
              (Z.of_nat (length others)) (Z.of_nat (S j)));
    [lia|rewrite (cast_length _ _ _ W); lia|lia|..].
  - destruct (Hat (Z.of_nat (S j))) as (k & u & E & Hu & ->); [lia|].
    assert (k = j) as -> by lia. assert (u = t) as -> by congruence.
    by rewrite Ha, Z.ltb_irrefl, Z.eqb_refl.
  - intros i Hi. destruct (Hat i Hi) as (k & u & _ & _ & ->). by repeat case_if.
  - intros i Hi. destruct (Hat i Hi) as (k & u & -> & Hu & ->). repeat case_if; zbool; try done.
    intros _. destruct (decide (k < j)%nat).
    + pose proof (sorted_lookup _ _ k j _ _ (cw_addr _ _ _ W) ltac:(lia) Hu Ht). simpl in *. lia.
    + destruct (decide (k = j)) as [->|]; [|lia]. assert (u = t) as -> by congruence. lia.
  - intros i Hi. destruct (Hat i Hi) as (k & u & -> & Hu & ->). repeat case_if; zbool; try done.
    intros _. destruct (decide (j < k)%nat).
    + pose proof (sorted_lookup _ _ j k _ _ (cw_addr _ _ _ W) ltac:(lia) Ht Hu). simpl in *. lia.
    + destruct (decide (k = j)) as [->|]; [|lia]. assert (u = t) as -> by congruence. lia.
Qed.

Lemma addr_hit arr self others from i : cast_wf arr self others -> 0 <= i <= Z.of_nat (length others) ->
  addr_probe arr from i = Hit -> exists t, (self :: others) !! Z.to_nat i = Some t /\ tr_addr t = from.
Proof.
  intros W Hi Hhit.
  destruct (lookup_lt_is_Some_2 (self :: others) (Z.to_nat i)) as [t Ht]; [simpl; lia|].
  rewrite (addr_probe_spec _ _ _ _ _ t W) in Hhit by (done || lia).
  exists t. repeat case_if; zbool; done.
Qed.

Lemma check_struct_loop_correct from head tbl : tables_wf head tbl ->
  exists r, check_struct_loop from head = Some r /\ check_spec (fun t => tr_addr t = from) tbl r.
Proof.
  induction 1 as [|arr p head tbl W Hw IH].
  { exists None. split; [done|]. intros p t H. by apply elem_of_nil in H. }
  destruct IH as (r & Hrest & Hr). cbn [check_struct_loop].
  assert (Hnext : (forall t, t ∈ fst p :: snd p -> tr_addr t <> from) -> exists r',
     match check_struct_loop from head with Some (Some (m, j)) => Some (Some (S m, j)) | Some None => Some None | None => None end
       = Some r' /\ check_spec (fun t => tr_addr t = from) (p :: tbl) r').
  { intros Hn. exists (shift_array r). split; [rewrite Hrest; by destruct r as [[]|]|].
    by apply check_spec_next. }
  pose proof (cw_value _ _ _ W) as Hv. destruct (arr !! O) as [h|]; [|done]. injection Hv as ->.
  assert (E0 := addr_probe_spec arr (fst p) (snd p) from 0 (fst p) W ltac:(lia) eq_refl).
  destruct (decide (addr_probe arr from 0 = Hit)) as [Eh|Eh].
  { rewrite Eh. destruct (addr_hit _ _ _ _ 0 W ltac:(lia) Eh) as (t & Ht & Ha).
    eauto using check_spec_here. }
  assert (Hself : tr_addr (fst p) <> from).
  { intros H. rewrite E0, H, Z.ltb_irrefl, Z.eqb_refl in Eh. done. }
  assert (Hbody : exists r', (if Z.of_nat (length (snd p)) =? 0
     then match check_struct_loop from head with Some (Some (m, j)) => Some (Some (S m, j)) | Some None => Some None | None => None end
     else match bsearch mid_diff (addr_probe arr from) (length arr) 1 (Z.of_nat (length (snd p))) with
          | None => None | Some (Some i) => Some (Some (O, Z.to_nat i))
          | Some None => match check_struct_loop from head with
                         | Some (Some (m, j)) => Some (Some (S m, j)) | Some None => Some None | None => None end
          end) = Some r' /\ check_spec (fun t => tr_addr t = from) (p :: tbl) r').
  { case_if; zbool.
    { apply Hnext. intros t [->|Ht]%elem_of_cons; [done|]. destruct (snd p); [|done].
      by apply elem_of_nil in Ht. }
    destruct (bsearch_terminates mid_diff (addr_probe arr from) mid_diff_between (length arr) 1
                (Z.of_nat (length (snd p)))) as [[i|] E]; [lia|rewrite (cast_length _ _ _ W); lia|..].
    { intros i Hi. destruct (lookup_lt_is_Some_2 (fst p :: snd p) (Z.to_nat i)) as [t Ht];
        [simpl; lia|].
      rewrite (addr_probe_spec _ _ _ from i t W) by (done || lia). by repeat case_if. }
    all: rewrite E.
    - apply bsearch_hit in E as [Hi Hhit]; [|apply mid_diff_between|lia].
      destruct (addr_hit _ _ _ _ i W ltac:(lia) Hhit) as (t & Ht & Ha). eauto using check_spec_here.
    - apply Hnext. intros t [->|Ht]%elem_of_cons Ha; [done|].
      apply list_elem_of_lookup_1 in Ht as [j Hj].
      destruct (addr_search_complete _ _ _ from j t W Hj Ha) as (i & Hi & _). congruence. }
  destruct (addr_probe arr from 0); done.
Qed.

(** ** The arrays [SWIG_InitializeModule] builds *)

(** An entry after its turn of the loop, other than the type's own cast. *)
Definition marked (e e' : swig_cast_info) : Prop :=
  ci_type e' = ci_type e /\ is_Some (ci_next e')
  /\ (forall t, ci_type e = Some t -> ci_value e' = SWIG_Hash (tr_name t)).

Section InitAlone.
Context (type : Z).
(** No other module is loaded. *)
Let scan := scan_cast type (fun _ => None) true (fun _ => false).

Definition other_cast (e : swig_cast_info) : Prop :=
  exists t, ci_type e = Some t /\ tr_addr t <> type.

Lemma scan_others l p r f m : Forall other_cast l ->
  exists l', Forall2 marked l l'
    /\ fold_left scan (seq (length p) (length l)) (mk_scan (p ++ l ++ r) f m)
       = mk_scan (p ++ l' ++ r) f (m + length l).
Proof.
  intros Hl; revert p m; induction Hl as [|e l (t & Et & Ht) Hl IH]; intros p m.
  { exists []. split; [constructor|]. by rewrite Nat.add_0_r. }
  simpl length. cbn [seq fold_left]. unfold scan at 2, scan_cast. cbn [cs_arr].
  change ((e :: l) ++ r) with (e :: l ++ r).
  rewrite list_lookup_middle, Et by done. unfold add_cast. cbn [cs_arr cs_first cs_mapped].
  rewrite (proj2 (Z.eqb_neq _ _) Ht).
  set (e' := set_value _ _).
  replace (<[length p := e']> (p ++ e :: l ++ r)) with ((p ++ [e']) ++ l ++ r)
    by (rewrite insert_app_r_alt, Nat.sub_diag, <- app_assoc by lia; done).
  replace (S (length p)) with (length (p ++ [e'])) by (rewrite length_app; simpl; lia).
  destruct (IH (p ++ [e']) (S m)) as (l' & H2 & ->). exists (e' :: l'). split.
  - constructor; [|done]. split; [done|]. split; [by eexists|]. intros t'. rewrite Et. by intros [= ->].
  - rewrite <- app_assoc. simpl. f_equal. lia.
Qed.

(** After the loop the type's own cast is first and all others are marked. *)
Lemma scan_casts_alone l1 e l2 r t : Forall other_cast l1 -> Forall other_cast l2 ->
  ci_type e = Some t -> tr_addr t = type ->
  exists e' body,
    scan_casts type (fun _ => None) true (fun _ => false) (l1 ++ e :: l2 ++ r) (length (l1 ++ e :: l2))
    = mk_scan (e' :: body ++ r) 1 (length (l1 ++ e :: l2))
    /\ ci_type e' = Some t
    /\ exists l', Forall2 marked (l1 ++ l2) l' /\ body ≡ₚ l'.
Proof.
  intros H1 H2 Et Ht. unfold scan_casts. fold scan.
  rewrite length_app, seq_app, fold_left_app. simpl length. cbn [seq fold_left].
  destruct (scan_others l1 [] (e :: l2 ++ r) 0 0 H1) as (l1' & M1 & E1).
  cbn [app length] in E1. rewrite E1. clear E1.
  pose proof (Forall2_length _ _ _ M1) as L1. rewrite Nat.add_0_l.
  set (e' := set_next (Some (length l1)) e).
  assert (Estep : exists b1, b1 ≡ₚ l1' /\
    scan (mk_scan (l1' ++ e :: l2 ++ r) 0 (length l1)) (length l1)
    = mk_scan ((e' :: b1) ++ l2 ++ r) 1 (S (length l1))).
  { unfold scan, scan_cast. cbn [cs_arr].
    rewrite list_lookup_middle, Et by done. unfold add_cast. cbn [cs_arr cs_first cs_mapped].
    rewrite Ht, Z.eqb_refl, L1, insert_app_r_alt, Nat.sub_diag by lia. cbn [list_insert insert].
    destruct l1' as [|f0 b].
    - exists []. split; [done|]. by destruct l1.
    - rewrite decide_False by (simpl; lia). cbn [app lookup list_lookup].
      exists (b ++ [f0]). split; [by rewrite <- Permutation_cons_append|]. f_equal.
      simpl. f_equal; [unfold e'; by rewrite L1|].
      rewrite insert_app_r_alt, Nat.sub_diag, <- app_assoc by lia. done. }
  destruct Estep as (b1 & Hb1 & ->).
  destruct (scan_others l2 (e' :: b1) r 1 (S (length l1)) H2) as (l2' & M2 & E2).
  replace (length (e' :: b1)) with (S (length l1)) in E2
    by (simpl; rewrite (Permutation_length Hb1); lia).
  rewrite E2.
  exists e', (b1 ++ l2'). split; [|split; [done|]].
  - simpl. rewrite <- app_assoc. f_equal. lia.
  - exists (l1' ++ l2'). split; [by apply Forall2_app|]. by rewrite Hb1.
Qed.
End InitAlone.

(** *** The sort by address *)

Lemma cast_cmp_antisym a b : SWIG_CastCmpStruct b a = - SWIG_CastCmpStruct a b.
Proof.
  unfold SWIG_CastCmpStruct.
  repeat case_if; zbool; try lia; destruct (ci_next a), (ci_next b); done.
Qed.

#[local] Instance cast_le_total : Total cast_le.
Proof. intros a b. unfold cast_le. rewrite (cast_cmp_antisym a b). lia. Qed.

Definition entry_addr (e : swig_cast_info) : Z :=
  match ci_type e with Some t => tr_addr t | None => 0 end.

Lemma cast_le_addr a b : is_Some (ci_next a) -> is_Some (ci_next b) -> cast_le a b ->
  entry_addr a <= entry_addr b.
Proof.
  unfold cast_le, SWIG_CastCmpStruct, entry_addr. intros [x ->] [y ->]. simpl.
  repeat case_if; zbool; lia.
Qed.

Lemma qsort_casts_sorted l : Forall (fun e => is_Some (ci_next e)) l ->
  NoDup (map entry_addr l) ->
  qsort_casts l ≡ₚ l
  /\ StronglySorted (fun a b => entry_addr a < entry_addr b) (qsort_casts l).
Proof.
  intros Hn Hd. assert (Hp : qsort_casts l ≡ₚ l) by apply merge_sort_Permutation.
  split; [done|]. rewrite <- Hp in Hn. rewrite <- Hp in Hd.
  assert (Hs : Sorted cast_le (qsort_casts l)) by (apply Sorted_merge_sort, _).
  clear Hp. revert Hn Hd Hs. generalize (qsort_casts l). clear l. intros l Hn Hd Hs.
  assert (Hle : StronglySorted (fun a b => entry_addr a <= entry_addr b) l).
  { apply Sorted_StronglySorted; [intros x y z; simpl; lia|]. clear Hd.
    induction Hs as [|a l Hs IH Hhd]; [constructor|]. inversion Hn; subst.
    constructor; [auto|]. destruct Hhd as [|b l Hab]; constructor.
    inversion H2; subst. by apply cast_le_addr. }
  clear Hs Hn. induction Hle as [|a l Hs IH Ha]; [constructor|].
  simpl in Hd. apply NoDup_cons in Hd as [Hni Hd]. constructor; [auto|].
  rewrite Forall_forall in Ha |- *. intros b Hb. specialize (Ha b Hb).
  assert (entry_addr a <> entry_addr b); [|lia]. intros E. apply Hni. rewrite E.
  by apply list_elem_of_fmap_2.
Qed.

(** *** The block after the loop *)

Definition with_pair (e : swig_cast_info) (p : pair_nv) : swig_cast_info :=
  set_value (snd p) (set_next (Some (fst p)) e).

Definition self_pairs (l : list swig_cast_info) : list pair_nv :=
  zip (seq 1 (length l)) (map ci_value l).

Lemma with_pair_imap l k :
  imap (fun i e => set_next (Some (k + i)%nat) e) l = zip_with with_pair l (zip (seq k (length l)) (map ci_value l)).
Proof.
  revert k; induction l as [|e l IH]; intros k; [done|]. cbn [imap length seq map zip_with].
  f_equal; [by rewrite Nat.add_0_r|]. rewrite <- IH. apply imap_ext. intros i x _. simpl.
  do 2 f_equal. lia.
Qed.

Lemma with_pair_omap l k :
  omap (fun e => match ci_next e with Some j => Some (j, ci_value e) | None => None end)
       (imap (fun i e => set_next (Some (k + i)%nat) e) l)
  = zip (seq k (length l)) (map ci_value l).
Proof.
  revert k; induction l as [|e l IH]; intros k; [done|]. cbn. rewrite Nat.add_0_r. f_equal.
  rewrite <- (IH (S k)). f_equal. apply imap_ext. intros i x _. simpl. do 2 f_equal. lia.
Qed.

Lemma zip_with_with_pair l ps qs : length ps = length l -> length qs = length l ->
  zip_with with_pair (zip_with with_pair l ps) qs = zip_with with_pair l qs.
Proof.
  revert ps qs; induction l as [|e l IH]; intros [|p ps] [|q qs] H1 H2; try done.
  simpl in *. f_equal. apply IH; lia.
Qed.

Lemma self_pairs_length l : length (self_pairs l) = length l.
Proof. unfold self_pairs. rewrite length_zip, length_seq, length_map. lia. Qed.

Lemma finish_casts_alone e body :
  let sorted := qsort_casts body in
  let ps := self_pairs sorted in
  finish_casts (mk_scan (e :: body ++ [cast_end]) 1 (S (length body))) (S (length body))
  = set_value (Z.of_nat (length body)) e
    :: zip_with with_pair sorted (if decide (1 < length body)%nat then SWIG_CastHashSort ps else ps)
    ++ [cast_end].
Proof.
  intros sorted ps. unfold finish_casts. cbn [cs_arr cs_first cs_mapped].
  assert (Hl : length sorted = length body) by apply Permutation_length, merge_sort_Permutation.
  replace (Z.of_nat (S (length body)) - 1) with (Z.of_nat (length body)) by lia.
  rewrite Nat.sub_succ, Nat.sub_0_r.
  destruct (decide (length body = O)) as [E0|Hne]; [by destruct body|].
  rewrite !(decide_False (P := 1%nat = S (length body))) by lia.
  rewrite firstn_cons, !skipn_cons, take_0, drop_0. cbn [app]. rewrite take_app_length, drop_app_length. fold sorted.
  cbn [imap]. rewrite (decide_False (P := (1 <= 0 < S (length body))%nat)) by lia.
  rewrite imap_app.
  assert (E : imap (fun i e => if decide (1 <= S i < S (length body))%nat
                               then set_next (Some (S i)) e else e) sorted
              = zip_with with_pair sorted ps).
  { unfold ps, self_pairs. rewrite <- with_pair_imap. apply imap_ext.
    intros i x Hi. apply lookup_lt_Some in Hi. rewrite decide_True by lia. done. }
  unfold compose. rewrite E. cbn [imap].
  rewrite (decide_False (P := (1 <= S (length sorted + 0) < S (length body))%nat)) by lia.
  case_decide; [|done].
  change (1 + length body)%nat with (S (length body)).
  rewrite firstn_cons, !skipn_cons, take_0, !drop_0.
  assert (Hz : length (zip_with with_pair sorted ps) = length body)
    by (rewrite length_zip_with; unfold ps; rewrite self_pairs_length; lia).
  rewrite take_app_le, take_ge, drop_app_ge by lia. rewrite Hz, Nat.sub_diag, drop_0.
  cbn [app]. f_equal. f_equal.
  assert (Eo : omap (fun e => match ci_next e with Some j => Some (j, ci_value e) | None => None end)
                 (zip_with with_pair sorted ps) = ps).
  { unfold ps, self_pairs. rewrite <- with_pair_imap. apply with_pair_omap. }
  rewrite Eo. apply zip_with_with_pair; unfold ps; rewrite ?self_pairs_length; [done|].
  rewrite cast_hash_sort_perm. apply self_pairs_length.
Qed.

Lemma zip_with_pair_types l ps : length ps = length l ->
  map ci_type (zip_with with_pair l ps) = map ci_type l.
Proof.
  revert ps; induction l as [|e l IH]; intros [|p ps] H; try done. simpl in *. f_equal. auto.
Qed.

Lemma zip_with_pair_pairs l ps : length ps = length l ->
  map (fun e => (ci_next e, ci_value e)) (zip_with with_pair l ps)
  = map (fun p => (Some (fst p), snd p)) ps.
Proof.
  revert ps; induction l as [|e l IH]; intros [|p ps] H; try done. simpl in *. f_equal. auto.
Qed.

Definition hash_pairs (l : list swig_cast_info) : list pair_nv :=
  if decide (1 < length l)%nat then SWIG_CastHashSort (self_pairs l) else self_pairs l.

Lemma hash_pairs_spec l : hash_pairs l ≡ₚ self_pairs l /\ values_sorted (hash_pairs l).
Proof.
  unfold hash_pairs. case_decide.
  - split; [apply cast_hash_sort_perm|apply cast_hash_sort_sorted].
  - split; [done|]. destruct l as [|? [|]]; [constructor|repeat constructor|simpl in *; lia].
Qed.

(** An array built from a body sorted by address. *)
Lemma built_cast_wf e body self others :
  ci_type e = Some self -> map ci_type body = map Some others ->
  map ci_value body = map (fun t => SWIG_Hash (tr_name t)) others ->
  StronglySorted (fun s t => tr_addr s < tr_addr t) others ->
  cast_wf (set_value (Z.of_nat (length body)) e
           :: zip_with with_pair body (hash_pairs body) ++ [cast_end]) self others.
Proof.
  intros He Ht Hv Hs. destruct (hash_pairs_spec body) as [Hp Hps].
  assert (Hl : length body = length others) by (by rewrite <- (length_map ci_type), Ht, length_map).
  assert (Hlp : length (hash_pairs body) = length body) by (rewrite Hp; apply self_pairs_length).
  assert (Hz : length (zip_with with_pair body (hash_pairs body)) = length others)
    by (rewrite length_zip_with; lia).
  constructor.
  - simpl. rewrite He, map_app, zip_with_pair_types, Ht by done. done.
  - simpl. by rewrite Hl.
  - simpl. rewrite lookup_app_r, Hz, Nat.sub_diag by lia. done.
  - done.
  - exists (hash_pairs body). split; [|split; [done|]].
    + rewrite skipn_cons, drop_0, <- Hz, take_app_length. by apply zip_with_pair_pairs.
    + rewrite Hp. unfold self_pairs. by rewrite Hl, Hv.
Qed.

Lemma marked_types l l' ts : Forall2 marked l l' -> map ci_type l = map Some ts ->
  Forall (fun e => is_Some (ci_next e)
                   /\ exists t, ci_type e = Some t /\ ci_value e = SWIG_Hash (tr_name t)) l'
  /\ map ci_type l' = map Some ts.
Proof.
  intros H; revert ts; induction H as [|e e' l l' (E & Hn & Hv) H IH]; intros [|t ts] Ht; try done.
  simpl in Ht. injection Ht as Et Ht. destruct (IH ts Ht) as [IH1 IH2]. split.
  - constructor; [|done]. split; [done|]. exists t. rewrite E. auto.
  - simpl. by rewrite E, Et, IH2.
Qed.

(** The types of a list of entries that all have one. *)
Definition entry_types (l : list swig_cast_info) : list type_ref := omap ci_type l.

Lemma entry_types_spec l :
  Forall (fun e => exists t, ci_type e = Some t /\ ci_value e = SWIG_Hash (tr_name t)) l ->
  map ci_type l = map Some (entry_types l)
  /\ map ci_value l = map (fun t => SWIG_Hash (tr_name t)) (entry_types l)
  /\ map entry_addr l = map tr_addr (entry_types l).
Proof.
  induction 1 as [|e l (t & Et & Ev) Hl IH]; [done|]. destruct IH as (I1 & I2 & I3).
  unfold entry_types, entry_addr in *. simpl. rewrite Et. simpl.
  split; [|split]; f_equal; done.
Qed.

Lemma sorted_map {A B} (f : A -> B) (R : B -> B -> Prop) l :
  StronglySorted R (map f l) <-> StronglySorted (fun a b => R (f a) (f b)) l.
Proof.
  induction l as [|a l IH]; [split; constructor|]. simpl. split; intros H; inversion H; subst;
    constructor; try (by apply IH); by rewrite Forall_map in *.
Qed.

Lemma entry_types_omap l ts : map ci_type l = map Some ts -> entry_types l = ts.
Proof.
  revert ts; induction l as [|e l IH]; intros [|t ts] H; try done.
  unfold entry_types in *. simpl in *. injection H as -> H. simpl. f_equal. auto.
Qed.

Lemma init_casts_alone casts ts self :
  map ci_type casts = map Some ts -> NoDup (map tr_addr ts) -> self ∈ ts ->
  exists arr others,
    init_casts (tr_addr self) (fun _ => None) true (fun _ => false)
               (casts ++ [cast_end]) (length casts) = Some arr
    /\ self :: others ≡ₚ ts /\ cast_wf arr self others.
Proof.
  intros Ht Hd Hin. apply list_elem_of_split in Hin as (t1 & t2 & ->).
  rewrite map_app in Ht. apply map_eq_app in Ht as (l1 & [|e l2] & -> & Ht1 & Ht2); [done|].
  simpl in Ht2. injection Ht2 as Ete Ht2.
  rewrite map_app in Hd. simpl in Hd. rewrite <- Permutation_middle in Hd.
  apply NoDup_cons in Hd as [Hni Hd]. rewrite <- map_app in Hni, Hd.
  assert (Hoth : Forall (other_cast (tr_addr self)) (l1 ++ l2)).
  { apply Forall_forall. intros x Hx.
    assert (Hx' : ci_type x ∈ map Some (t1 ++ t2)).
    { rewrite map_app, <- Ht1, <- Ht2, <- map_app. by apply list_elem_of_fmap_2. }
    apply list_elem_of_fmap in Hx' as (t & E & Hin). exists t. split; [done|].
    intros Ha. apply Hni. rewrite <- Ha. by apply list_elem_of_fmap_2. }
  apply Forall_app in Hoth as [Ho1 Ho2].
  destruct (scan_casts_alone (tr_addr self) l1 e l2 [cast_end] self Ho1 Ho2 Ete eq_refl)
    as (e' & body & Escan & Ee' & l' & Hm & Hb).
  destruct (marked_types (l1 ++ l2) l' (t1 ++ t2) Hm) as [Hf Hl']; [rewrite !map_app; congruence|].
  rewrite <- Hb in Hf. apply Forall_and in Hf as [Hnext Hty].
  assert (Ht' : entry_types body ≡ₚ t1 ++ t2).
  { rewrite <- (entry_types_omap l' _ Hl'). unfold entry_types. by rewrite Hb. }
  destruct (entry_types_spec body Hty) as (_ & _ & Haddr).
  destruct (qsort_casts_sorted body Hnext) as [Hq Hs]; [by rewrite Haddr, Ht'|].
  rewrite <- Hq in Hty. destruct (entry_types_spec _ Hty) as (T1 & T2 & T3).
  assert (Hlen : length (l1 ++ e :: l2) = S (length body)).
  { rewrite Hb, <- (Forall2_length _ _ _ Hm), !length_app. simpl. lia. }
  unfold init_casts. rewrite <- app_assoc. cbn [app]. rewrite Escan, Hlen. cbn [cs_mapped].
  rewrite decide_False by lia. rewrite finish_casts_alone.
  eexists _, (entry_types (qsort_casts body)). split; [done|]. split.
  - unfold entry_types at 1. rewrite Hq. fold (entry_types body). rewrite Ht'. apply Permutation_middle.
  - rewrite <- (Permutation_length Hq). apply (built_cast_wf e' (qsort_casts body)); try done.
    apply (sorted_map tr_addr Z.lt). rewrite <- T3. by apply sorted_map.
Qed.

(** ** Properties *)

(** Query by mangled name: when every module lists its descriptors in
    strict name order, [SWIG_MangledTypeQueryModule] terminates and returns the
    descriptor of that name in the first visited module that has one, and null
    exactly when no module has one. *)
Lemma mangled_query iter name : Forall module_wf iter ->
  exists r, SWIG_MangledTypeQueryModule iter name = Some r /\ query_spec iter name r.
Proof. apply mangled_query_correct. Qed.

(** Cast arrays: with no other module loaded, [SWIG_InitializeModule] turns
    the casts of a type, listed in any order with distinct types, into an array
    whose first entry is the type's own cast and which lists the others both
    by address and by name hash, as the two cast checks require. *)
Lemma init_casts_wf casts ts self :
  map ci_type casts = map Some ts -> NoDup (map tr_addr ts) -> self ∈ ts ->
  exists arr others,
    init_casts (tr_addr self) (fun _ => None) true (fun _ => false)
               (casts ++ [cast_end]) (length casts) = Some arr
    /\ self :: others ≡ₚ ts /\ cast_wf arr self others.
Proof. apply init_casts_alone. Qed.

Definition sample_types : list type_ref :=
  [mk_type_ref 48 (chars "_p_Left"); mk_type_ref 16 (chars "_p_Base");
   mk_type_ref 32 (chars "_p_Right"); mk_type_ref 64 (chars "_p_Bottom")].
Definition sample_self : type_ref := mk_type_ref 16 (chars "_p_Base").
(** The array built for the sample. *)
Definition sample_array : list swig_cast_info :=
  [mk_cast_info (Some sample_self) None (Some 1%nat) 1;
   mk_cast_info (Some (mk_type_ref 48 (chars "_p_Left"))) None (Some 1%nat) (SWIG_Hash (chars "_p_Left"));
   cast_end].

Lemma sample_array_wf : cast_wf sample_array sample_self [mk_type_ref 48 (chars "_p_Left")].
Proof.
  constructor; try reflexivity; [repeat constructor|].
  exists [(1%nat, SWIG_Hash (chars "_p_Left"))]. split; [reflexivity|]. split; [repeat constructor|reflexivity].
Defined.

(** C36. Cast check by name: over well-formed cast arrays [SWIG_TypeCheck]
    comes back, which in the model also says that its linear scan, hash search
    and collision loops never read an entry outside an array nor through a
    null type or link (such a read gives [None]), and it returns an entry
    whose type has the name asked for, or null exactly when no array has one. *)
Theorem type_check_correct c head tbl : tables_wf head tbl ->
  exists r, SWIG_TypeCheck c (Some head) = Some r
            /\ check_spec (fun t => tr_name t = c) tbl r.
Proof. intros H. apply type_check_loop_correct; auto. Qed.

Lemma type_check_correct_witness :
  exists r, SWIG_TypeCheck (chars "_p_Left") (Some [sample_array]) = Some r
    /\ check_spec (fun t => tr_name t = chars "_p_Left")
         [(sample_self, [mk_type_ref 48 (chars "_p_Left")])] r.
Proof. apply type_check_correct. constructor; [exact sample_array_wf|constructor]. Defined.

(** Cast check by address: over well-formed cast arrays
    [SWIG_TypeCheckStruct] terminates and returns an entry whose type is the
    descriptor asked for, or null exactly when no array has one. *)
Lemma type_check_struct_correct from head tbl : tables_wf head tbl ->
  exists r, SWIG_TypeCheckStruct from (Some head) = Some r
            /\ check_spec (fun t => tr_addr t = from) tbl r.
Proof. apply check_struct_loop_correct. Qed.

End TypeTable.
