(* ===== verification/CtpTypes.v ===== *)
(** * The type tables of the ctp module

    The descriptors [_swigt__*], the macros [SWIGTYPE_*], the cast arrays
    [_swigc__*] and the two initialisers of ctp_wrap.cpp, and what
    [SWIG_InitializeModule] makes of them in an interpreter that has loaded no
    other SWIG module. *)

From stdpp Require Import sorting.
From S2P Require Import Prelude TypeNames Search TypeTable.

Module CtpTypes.
Import TypeNames Search TypeTable.
Local Open Scope string_scope.
Local Open Scope list_scope.
Local Open Scope Z_scope.

(** The definitions [_swigt__*]: mangled name and human readable names.
    (ctp_wrap.cpp, lines 505928 to 506060.) *)
Definition swigt_0 : list (string * string) :=
  [ ("_p_CThostFtdcAccountPropertyField", "CThostFtdcAccountPropertyField *");
    ("_p_CThostFtdcAccountregisterField", "CThostFtdcAccountregisterField *");
    ("_p_CThostFtdcAppIDAuthAssignField", "CThostFtdcAppIDAuthAssignField *");
    ("_p_CThostFtdcAuthForbiddenIPField", "CThostFtdcAuthForbiddenIPField *");
    ("_p_CThostFtdcAuthIPField", "CThostFtdcAuthIPField *");
    ("_p_CThostFtdcAuthUserIDField", "CThostFtdcAuthUserIDField *");
    ("_p_CThostFtdcAuthenticationInfoField", "CThostFtdcAuthenticationInfoField *");
    ("_p_CThostFtdcBatchOrderActionField", "CThostFtdcBatchOrderActionField *");
    ("_p_CThostFtdcBrokerDepositField", "CThostFtdcBrokerDepositField *");
    ("_p_CThostFtdcBrokerField", "CThostFtdcBrokerField *");
    ("_p_CThostFtdcBrokerSyncField", "CThostFtdcBrokerSyncField *");
    ("_p_CThostFtdcBrokerTradingAlgosField", "CThostFtdcBrokerTradingAlgosField *");
    ("_p_CThostFtdcBrokerTradingParamsField", "CThostFtdcBrokerTradingParamsField *");
    ("_p_CThostFtdcBrokerUserEventField", "CThostFtdcBrokerUserEventField *");
    ("_p_CThostFtdcBrokerUserField", "CThostFtdcBrokerUserField *");
    ("_p_CThostFtdcBrokerUserFunctionField", "CThostFtdcBrokerUserFunctionField *");
    ("_p_CThostFtdcBrokerUserOTPParamField", "CThostFtdcBrokerUserOTPParamField *");
    ("_p_CThostFtdcBrokerUserPasswordField", "CThostFtdcBrokerUserPasswordField *");
    ("_p_CThostFtdcBrokerUserRightAssignField", "CThostFtdcBrokerUserRightAssignField *");
    ("_p_CThostFtdcBrokerWithdrawAlgorithmField", "CThostFtdcBrokerWithdrawAlgorithmField *");
    ("_p_CThostFtdcBulletinField", "CThostFtdcBulletinField *");
    ("_p_CThostFtdcCFMMCBrokerKeyField", "CThostFtdcCFMMCBrokerKeyField *");
    ("_p_CThostFtdcCFMMCTradingAccountKeyField", "CThostFtdcCFMMCTradingAccountKeyField *");
    ("_p_CThostFtdcCFMMCTradingAccountTokenField", "CThostFtdcCFMMCTradingAccountTokenField *");
    ("_p_CThostFtdcCancelAccountField", "CThostFtdcCancelAccountField *");
    ("_p_CThostFtdcChangeAccountField", "CThostFtdcChangeAccountField *");
    ("_p_CThostFtdcCombActionField", "CThostFtdcCombActionField *");
    ("_p_CThostFtdcCombInstrumentGuardField", "CThostFtdcCombInstrumentGuardField *");
    ("_p_CThostFtdcCombPromotionParamField", "CThostFtdcCombPromotionParamField *");
    ("_p_CThostFtdcCombinationLegField", "CThostFtdcCombinationLegField *");
    ("_p_CThostFtdcCommPhaseField", "CThostFtdcCommPhaseField *");
    ("_p_CThostFtdcCommRateModelField", "CThostFtdcCommRateModelField *");
    ("_p_CThostFtdcContractBankField", "CThostFtdcContractBankField *");
    ("_p_CThostFtdcCurrDRIdentityField", "CThostFtdcCurrDRIdentityField *");
    ("_p_CThostFtdcCurrTransferIdentityField", "CThostFtdcCurrTransferIdentityField *");
    ("_p_CThostFtdcCurrentTimeField", "CThostFtdcCurrentTimeField *");
    ("_p_CThostFtdcDRTransferField", "CThostFtdcDRTransferField *");
    ("_p_CThostFtdcDepartmentUserField", "CThostFtdcDepartmentUserField *");
    ("_p_CThostFtdcDepositResultInformField", "CThostFtdcDepositResultInformField *");
    ("_p_CThostFtdcDepthMarketDataField", "CThostFtdcDepthMarketDataField *");
    ("_p_CThostFtdcDiscountField", "CThostFtdcDiscountField *");
    ("_p_CThostFtdcDisseminationField", "CThostFtdcDisseminationField *");
    ("_p_CThostFtdcEWarrantOffsetField", "CThostFtdcEWarrantOffsetField *");
    ("_p_CThostFtdcErrExecOrderActionField", "CThostFtdcErrExecOrderActionField *");
    ("_p_CThostFtdcErrExecOrderField", "CThostFtdcErrExecOrderField *");
    ("_p_CThostFtdcErrOrderActionField", "CThostFtdcErrOrderActionField *");
    ("_p_CThostFtdcErrOrderField", "CThostFtdcErrOrderField *");
    ("_p_CThostFtdcErrorConditionalOrderField", "CThostFtdcErrorConditionalOrderField *");
    ("_p_CThostFtdcExchangeBatchOrderActionField", "CThostFtdcExchangeBatchOrderActionField *");
    ("_p_CThostFtdcExchangeCombActionField", "CThostFtdcExchangeCombActionField *");
    ("_p_CThostFtdcExchangeExecOrderActionField", "CThostFtdcExchangeExecOrderActionField *");
    ("_p_CThostFtdcExchangeExecOrderField", "CThostFtdcExchangeExecOrderField *");
    ("_p_CThostFtdcExchangeField", "CThostFtdcExchangeField *");
    ("_p_CThostFtdcExchangeForQuoteField", "CThostFtdcExchangeForQuoteField *");
    ("_p_CThostFtdcExchangeMarginRateAdjustField", "CThostFtdcExchangeMarginRateAdjustField *");
    ("_p_CThostFtdcExchangeMarginRateField", "CThostFtdcExchangeMarginRateField *");
    ("_p_CThostFtdcExchangeOptionSelfCloseActionField", "CThostFtdcExchangeOptionSelfCloseActionField *");
    ("_p_CThostFtdcExchangeOptionSelfCloseField", "CThostFtdcExchangeOptionSelfCloseField *");
    ("_p_CThostFtdcExchangeOrderActionErrorField", "CThostFtdcExchangeOrderActionErrorField *");
    ("_p_CThostFtdcExchangeOrderActionField", "CThostFtdcExchangeOrderActionField *");
    ("_p_CThostFtdcExchangeOrderField", "CThostFtdcExchangeOrderField *");
    ("_p_CThostFtdcExchangeOrderInsertErrorField", "CThostFtdcExchangeOrderInsertErrorField *");
    ("_p_CThostFtdcExchangeQuoteActionField", "CThostFtdcExchangeQuoteActionField *");
    ("_p_CThostFtdcExchangeQuoteField", "CThostFtdcExchangeQuoteField *");
    ("_p_CThostFtdcExchangeRateField", "CThostFtdcExchangeRateField *");
    ("_p_CThostFtdcExchangeSequenceField", "CThostFtdcExchangeSequenceField *");
    ("_p_CThostFtdcExchangeTradeField", "CThostFtdcExchangeTradeField *");
    ("_p_CThostFtdcExecOrderActionField", "CThostFtdcExecOrderActionField *");
    ("_p_CThostFtdcExecOrderField", "CThostFtdcExecOrderField *");
    ("_p_CThostFtdcExitEmergencyField", "CThostFtdcExitEmergencyField *");
    ("_p_CThostFtdcFensUserInfoField", "CThostFtdcFensUserInfoField *");
    ("_p_CThostFtdcForQuoteField", "CThostFtdcForQuoteField *");
    ("_p_CThostFtdcForQuoteParamField", "CThostFtdcForQuoteParamField *");
    ("_p_CThostFtdcForQuoteRspField", "CThostFtdcForQuoteRspField *");
    ("_p_CThostFtdcForceUserLogoutField", "CThostFtdcForceUserLogoutField *");
    ("_p_CThostFtdcFrontInfoField", "CThostFtdcFrontInfoField *");
    ("_p_CThostFtdcFrontStatusField", "CThostFtdcFrontStatusField *");
    ("_p_CThostFtdcFutureLimitPosiParamField", "CThostFtdcFutureLimitPosiParamField *");
    ("_p_CThostFtdcFutureSignIOField", "CThostFtdcFutureSignIOField *");
    ("_p_CThostFtdcIPListField", "CThostFtdcIPListField *");
    ("_p_CThostFtdcIndexPriceField", "CThostFtdcIndexPriceField *");
    ("_p_CThostFtdcInputBatchOrderActionField", "CThostFtdcInputBatchOrderActionField *");
    ("_p_CThostFtdcInputCombActionField", "CThostFtdcInputCombActionField *");
    ("_p_CThostFtdcInputExecOrderActionField", "CThostFtdcInputExecOrderActionField *");
    ("_p_CThostFtdcInputExecOrderField", "CThostFtdcInputExecOrderField *");
    ("_p_CThostFtdcInputForQuoteField", "CThostFtdcInputForQuoteField *");
    ("_p_CThostFtdcInputOptionSelfCloseActionField", "CThostFtdcInputOptionSelfCloseActionField *");
    ("_p_CThostFtdcInputOptionSelfCloseField", "CThostFtdcInputOptionSelfCloseField *");
    ("_p_CThostFtdcInputOrderActionField", "CThostFtdcInputOrderActionField *");
    ("_p_CThostFtdcInputOrderField", "CThostFtdcInputOrderField *");
    ("_p_CThostFtdcInputQuoteActionField", "CThostFtdcInputQuoteActionField *");
    ("_p_CThostFtdcInputQuoteField", "CThostFtdcInputQuoteField *");
    ("_p_CThostFtdcInstrumentCommissionRateField", "CThostFtdcInstrumentCommissionRateField *");
    ("_p_CThostFtdcInstrumentField", "CThostFtdcInstrumentField *");
    ("_p_CThostFtdcInstrumentMarginRateAdjustField", "CThostFtdcInstrumentMarginRateAdjustField *");
    ("_p_CThostFtdcInstrumentMarginRateField", "CThostFtdcInstrumentMarginRateField *");
    ("_p_CThostFtdcInstrumentMarginRateULField", "CThostFtdcInstrumentMarginRateULField *");
    ("_p_CThostFtdcInstrumentOrderCommRateField", "CThostFtdcInstrumentOrderCommRateField *");
    ("_p_CThostFtdcInstrumentStatusField", "CThostFtdcInstrumentStatusField *");
    ("_p_CThostFtdcInstrumentTradingRightField", "CThostFtdcInstrumentTradingRightField *");
    ("_p_CThostFtdcInvestUnitField", "CThostFtdcInvestUnitField *");
    ("_p_CThostFtdcInvestorAccountField", "CThostFtdcInvestorAccountField *");
    ("_p_CThostFtdcInvestorCommodityGroupSPMMMarginField", "CThostFtdcInvestorCommodityGroupSPMMMarginField *");
    ("_p_CThostFtdcInvestorCommoditySPMMMarginField", "CThostFtdcInvestorCommoditySPMMMarginField *");
    ("_p_CThostFtdcInvestorField", "CThostFtdcInvestorField *");
    ("_p_CThostFtdcInvestorGroupField", "CThostFtdcInvestorGroupField *");
    ("_p_CThostFtdcInvestorInfoCntSettingField", "CThostFtdcInvestorInfoCntSettingField *");
    ("_p_CThostFtdcInvestorPortfMarginModelField", "CThostFtdcInvestorPortfMarginModelField *");
    ("_p_CThostFtdcInvestorPortfMarginRatioField", "CThostFtdcInvestorPortfMarginRatioField *");
    ("_p_CThostFtdcInvestorPortfSettingField", "CThostFtdcInvestorPortfSettingField *");
    ("_p_CThostFtdcInvestorPositionCombineDetailField", "CThostFtdcInvestorPositionCombineDetailField *");
    ("_p_CThostFtdcInvestorPositionDetailField", "CThostFtdcInvestorPositionDetailField *");
    ("_p_CThostFtdcInvestorPositionField", "CThostFtdcInvestorPositionField *");
    ("_p_CThostFtdcInvestorProdRCAMSMarginField", "CThostFtdcInvestorProdRCAMSMarginField *");
    ("_p_CThostFtdcInvestorProdRULEMarginField", "CThostFtdcInvestorProdRULEMarginField *");
    ("_p_CThostFtdcInvestorProdSPBMDetailField", "CThostFtdcInvestorProdSPBMDetailField *");
    ("_p_CThostFtdcInvestorProductGroupMarginField", "CThostFtdcInvestorProductGroupMarginField *");
    ("_p_CThostFtdcInvestorTradingRightField", "CThostFtdcInvestorTradingRightField *");
    ("_p_CThostFtdcInvestorWithdrawAlgorithmField", "CThostFtdcInvestorWithdrawAlgorithmField *");
    ("_p_CThostFtdcLinkManField", "CThostFtdcLinkManField *");
    ("_p_CThostFtdcLoadSettlementInfoField", "CThostFtdcLoadSettlementInfoField *");
    ("_p_CThostFtdcLoginForbiddenIPField", "CThostFtdcLoginForbiddenIPField *");
    ("_p_CThostFtdcLoginForbiddenUserField", "CThostFtdcLoginForbiddenUserField *");
    ("_p_CThostFtdcLoginInfoField", "CThostFtdcLoginInfoField *");
    ("_p_CThostFtdcLogoutAllField", "CThostFtdcLogoutAllField *");
    ("_p_CThostFtdcMDTraderOfferField", "CThostFtdcMDTraderOfferField *");
    ("_p_CThostFtdcMMInstrumentCommissionRateField", "CThostFtdcMMInstrumentCommissionRateField *");
    ("_p_CThostFtdcMMOptionInstrCommRateField", "CThostFtdcMMOptionInstrCommRateField *");
    ("_p_CThostFtdcManualSyncBrokerUserOTPField", "CThostFtdcManualSyncBrokerUserOTPField *");
    ("_p_CThostFtdcMarginModelField", "CThostFtdcMarginModelField *");
    ("_p_CThostFtdcMarketDataAsk23Field", "CThostFtdcMarketDataAsk23Field *");
    ("_p_CThostFtdcMarketDataAsk45Field", "CThostFtdcMarketDataAsk45Field *");
    ("_p_CThostFtdcMarketDataAveragePriceField", "CThostFtdcMarketDataAveragePriceField *") ].

(** ctp_wrap.cpp, lines 506061 to 506193. *)
Definition swigt_1 : list (string * string) :=
  [ ("_p_CThostFtdcMarketDataBandingPriceField", "CThostFtdcMarketDataBandingPriceField *");
    ("_p_CThostFtdcMarketDataBaseField", "CThostFtdcMarketDataBaseField *");
    ("_p_CThostFtdcMarketDataBestPriceField", "CThostFtdcMarketDataBestPriceField *");
    ("_p_CThostFtdcMarketDataBid23Field", "CThostFtdcMarketDataBid23Field *");
    ("_p_CThostFtdcMarketDataBid45Field", "CThostFtdcMarketDataBid45Field *");
    ("_p_CThostFtdcMarketDataExchangeField", "CThostFtdcMarketDataExchangeField *");
    ("_p_CThostFtdcMarketDataField", "CThostFtdcMarketDataField *");
    ("_p_CThostFtdcMarketDataLastMatchField", "CThostFtdcMarketDataLastMatchField *");
    ("_p_CThostFtdcMarketDataStaticField", "CThostFtdcMarketDataStaticField *");
    ("_p_CThostFtdcMarketDataUpdateTimeField", "CThostFtdcMarketDataUpdateTimeField *");
    ("_p_CThostFtdcMdApi", "CThostFtdcMdApi *");
    ("_p_CThostFtdcMdSpi", "CThostFtdcMdSpi *");
    ("_p_CThostFtdcMortgageParamField", "CThostFtdcMortgageParamField *");
    ("_p_CThostFtdcMulticastInstrumentField", "CThostFtdcMulticastInstrumentField *");
    ("_p_CThostFtdcNoticeField", "CThostFtdcNoticeField *");
    ("_p_CThostFtdcNotifyFutureSignInField", "CThostFtdcNotifyFutureSignInField *");
    ("_p_CThostFtdcNotifyFutureSignOutField", "CThostFtdcNotifyFutureSignOutField *");
    ("_p_CThostFtdcNotifyQueryAccountField", "CThostFtdcNotifyQueryAccountField *");
    ("_p_CThostFtdcNotifySyncKeyField", "CThostFtdcNotifySyncKeyField *");
    ("_p_CThostFtdcOpenAccountField", "CThostFtdcOpenAccountField *");
    ("_p_CThostFtdcOptionInstrCommRateField", "CThostFtdcOptionInstrCommRateField *");
    ("_p_CThostFtdcOptionInstrDeltaField", "CThostFtdcOptionInstrDeltaField *");
    ("_p_CThostFtdcOptionInstrMarginAdjustField", "CThostFtdcOptionInstrMarginAdjustField *");
    ("_p_CThostFtdcOptionInstrMiniMarginField", "CThostFtdcOptionInstrMiniMarginField *");
    ("_p_CThostFtdcOptionInstrTradeCostField", "CThostFtdcOptionInstrTradeCostField *");
    ("_p_CThostFtdcOptionInstrTradingRightField", "CThostFtdcOptionInstrTradingRightField *");
    ("_p_CThostFtdcOptionSelfCloseActionField", "CThostFtdcOptionSelfCloseActionField *");
    ("_p_CThostFtdcOptionSelfCloseField", "CThostFtdcOptionSelfCloseField *");
    ("_p_CThostFtdcOrderActionField", "CThostFtdcOrderActionField *");
    ("_p_CThostFtdcOrderField", "CThostFtdcOrderField *");
    ("_p_CThostFtdcParkedOrderActionField", "CThostFtdcParkedOrderActionField *");
    ("_p_CThostFtdcParkedOrderField", "CThostFtdcParkedOrderField *");
    ("_p_CThostFtdcPartBrokerField", "CThostFtdcPartBrokerField *");
    ("_p_CThostFtdcPortfTradeParamSettingField", "CThostFtdcPortfTradeParamSettingField *");
    ("_p_CThostFtdcPositionProfitAlgorithmField", "CThostFtdcPositionProfitAlgorithmField *");
    ("_p_CThostFtdcProductExchRateField", "CThostFtdcProductExchRateField *");
    ("_p_CThostFtdcProductField", "CThostFtdcProductField *");
    ("_p_CThostFtdcProductGroupField", "CThostFtdcProductGroupField *");
    ("_p_CThostFtdcQryAccountregisterField", "CThostFtdcQryAccountregisterField *");
    ("_p_CThostFtdcQryAuthForbiddenIPField", "CThostFtdcQryAuthForbiddenIPField *");
    ("_p_CThostFtdcQryBatchOrderActionField", "CThostFtdcQryBatchOrderActionField *");
    ("_p_CThostFtdcQryBrokerField", "CThostFtdcQryBrokerField *");
    ("_p_CThostFtdcQryBrokerTradingAlgosField", "CThostFtdcQryBrokerTradingAlgosField *");
    ("_p_CThostFtdcQryBrokerTradingParamsField", "CThostFtdcQryBrokerTradingParamsField *");
    ("_p_CThostFtdcQryBrokerUserEventField", "CThostFtdcQryBrokerUserEventField *");
    ("_p_CThostFtdcQryBrokerUserField", "CThostFtdcQryBrokerUserField *");
    ("_p_CThostFtdcQryBrokerUserFunctionField", "CThostFtdcQryBrokerUserFunctionField *");
    ("_p_CThostFtdcQryBulletinField", "CThostFtdcQryBulletinField *");
    ("_p_CThostFtdcQryCFMMCBrokerKeyField", "CThostFtdcQryCFMMCBrokerKeyField *");
    ("_p_CThostFtdcQryCFMMCTradingAccountKeyField", "CThostFtdcQryCFMMCTradingAccountKeyField *");
    ("_p_CThostFtdcQryClassifiedInstrumentField", "CThostFtdcQryClassifiedInstrumentField *");
    ("_p_CThostFtdcQryCombActionField", "CThostFtdcQryCombActionField *");
    ("_p_CThostFtdcQryCombInstrumentGuardField", "CThostFtdcQryCombInstrumentGuardField *");
    ("_p_CThostFtdcQryCombPromotionParamField", "CThostFtdcQryCombPromotionParamField *");
    ("_p_CThostFtdcQryCombinationLegField", "CThostFtdcQryCombinationLegField *");
    ("_p_CThostFtdcQryCommRateModelField", "CThostFtdcQryCommRateModelField *");
    ("_p_CThostFtdcQryContractBankField", "CThostFtdcQryContractBankField *");
    ("_p_CThostFtdcQryCurrDRIdentityField", "CThostFtdcQryCurrDRIdentityField *");
    ("_p_CThostFtdcQryDepthMarketDataField", "CThostFtdcQryDepthMarketDataField *");
    ("_p_CThostFtdcQryEWarrantOffsetField", "CThostFtdcQryEWarrantOffsetField *");
    ("_p_CThostFtdcQryErrExecOrderActionField", "CThostFtdcQryErrExecOrderActionField *");
    ("_p_CThostFtdcQryErrExecOrderField", "CThostFtdcQryErrExecOrderField *");
    ("_p_CThostFtdcQryErrOrderActionField", "CThostFtdcQryErrOrderActionField *");
    ("_p_CThostFtdcQryErrOrderField", "CThostFtdcQryErrOrderField *");
    ("_p_CThostFtdcQryExchangeCombActionField", "CThostFtdcQryExchangeCombActionField *");
    ("_p_CThostFtdcQryExchangeExecOrderActionField", "CThostFtdcQryExchangeExecOrderActionField *");
    ("_p_CThostFtdcQryExchangeExecOrderField", "CThostFtdcQryExchangeExecOrderField *");
    ("_p_CThostFtdcQryExchangeField", "CThostFtdcQryExchangeField *");
    ("_p_CThostFtdcQryExchangeForQuoteField", "CThostFtdcQryExchangeForQuoteField *");
    ("_p_CThostFtdcQryExchangeMarginRateAdjustField", "CThostFtdcQryExchangeMarginRateAdjustField *");
    ("_p_CThostFtdcQryExchangeMarginRateField", "CThostFtdcQryExchangeMarginRateField *");
    ("_p_CThostFtdcQryExchangeOrderActionField", "CThostFtdcQryExchangeOrderActionField *");
    ("_p_CThostFtdcQryExchangeOrderField", "CThostFtdcQryExchangeOrderField *");
    ("_p_CThostFtdcQryExchangeQuoteActionField", "CThostFtdcQryExchangeQuoteActionField *");
    ("_p_CThostFtdcQryExchangeQuoteField", "CThostFtdcQryExchangeQuoteField *");
    ("_p_CThostFtdcQryExchangeRateField", "CThostFtdcQryExchangeRateField *");
    ("_p_CThostFtdcQryExchangeSequenceField", "CThostFtdcQryExchangeSequenceField *");
    ("_p_CThostFtdcQryExecOrderActionField", "CThostFtdcQryExecOrderActionField *");
    ("_p_CThostFtdcQryExecOrderField", "CThostFtdcQryExecOrderField *");
    ("_p_CThostFtdcQryForQuoteField", "CThostFtdcQryForQuoteField *");
    ("_p_CThostFtdcQryForQuoteParamField", "CThostFtdcQryForQuoteParamField *");
    ("_p_CThostFtdcQryFrontStatusField", "CThostFtdcQryFrontStatusField *");
    ("_p_CThostFtdcQryHisOrderField", "CThostFtdcQryHisOrderField *");
    ("_p_CThostFtdcQryIPListField", "CThostFtdcQryIPListField *");
    ("_p_CThostFtdcQryInstrumentCommissionRateField", "CThostFtdcQryInstrumentCommissionRateField *");
    ("_p_CThostFtdcQryInstrumentField", "CThostFtdcQryInstrumentField *");
    ("_p_CThostFtdcQryInstrumentMarginRateField", "CThostFtdcQryInstrumentMarginRateField *");
    ("_p_CThostFtdcQryInstrumentOrderCommRateField", "CThostFtdcQryInstrumentOrderCommRateField *");
    ("_p_CThostFtdcQryInstrumentStatusField", "CThostFtdcQryInstrumentStatusField *");
    ("_p_CThostFtdcQryInstrumentTradingRightField", "CThostFtdcQryInstrumentTradingRightField *");
    ("_p_CThostFtdcQryInvestUnitField", "CThostFtdcQryInvestUnitField *");
    ("_p_CThostFtdcQryInvestorCommodityGroupSPMMMarginField", "CThostFtdcQryInvestorCommodityGroupSPMMMarginField *");
    ("_p_CThostFtdcQryInvestorCommoditySPMMMarginField", "CThostFtdcQryInvestorCommoditySPMMMarginField *");
    ("_p_CThostFtdcQryInvestorField", "CThostFtdcQryInvestorField *");
    ("_p_CThostFtdcQryInvestorGroupField", "CThostFtdcQryInvestorGroupField *");
    ("_p_CThostFtdcQryInvestorPortfMarginRatioField", "CThostFtdcQryInvestorPortfMarginRatioField *");
    ("_p_CThostFtdcQryInvestorPortfSettingField", "CThostFtdcQryInvestorPortfSettingField *");
    ("_p_CThostFtdcQryInvestorPositionCombineDetailField", "CThostFtdcQryInvestorPositionCombineDetailField *");
    ("_p_CThostFtdcQryInvestorPositionDetailField", "CThostFtdcQryInvestorPositionDetailField *");
    ("_p_CThostFtdcQryInvestorPositionField", "CThostFtdcQryInvestorPositionField *");
    ("_p_CThostFtdcQryInvestorProdRCAMSMarginField", "CThostFtdcQryInvestorProdRCAMSMarginField *");
    ("_p_CThostFtdcQryInvestorProdRULEMarginField", "CThostFtdcQryInvestorProdRULEMarginField *");
    ("_p_CThostFtdcQryInvestorProdSPBMDetailField", "CThostFtdcQryInvestorProdSPBMDetailField *");
    ("_p_CThostFtdcQryInvestorProductGroupMarginField", "CThostFtdcQryInvestorProductGroupMarginField *");
    ("_p_CThostFtdcQryLinkManField", "CThostFtdcQryLinkManField *");
    ("_p_CThostFtdcQryLoginForbiddenIPField", "CThostFtdcQryLoginForbiddenIPField *");
    ("_p_CThostFtdcQryLoginForbiddenUserField", "CThostFtdcQryLoginForbiddenUserField *");
    ("_p_CThostFtdcQryMDTraderOfferField", "CThostFtdcQryMDTraderOfferField *");
    ("_p_CThostFtdcQryMMInstrumentCommissionRateField", "CThostFtdcQryMMInstrumentCommissionRateField *");
    ("_p_CThostFtdcQryMMOptionInstrCommRateField", "CThostFtdcQryMMOptionInstrCommRateField *");
    ("_p_CThostFtdcQryMarginModelField", "CThostFtdcQryMarginModelField *");
    ("_p_CThostFtdcQryMaxOrderVolumeField", "CThostFtdcQryMaxOrderVolumeField *");
    ("_p_CThostFtdcQryMaxOrderVolumeWithPriceField", "CThostFtdcQryMaxOrderVolumeWithPriceField *");
    ("_p_CThostFtdcQryMulticastInstrumentField", "CThostFtdcQryMulticastInstrumentField *");
    ("_p_CThostFtdcQryNoticeField", "CThostFtdcQryNoticeField *");
    ("_p_CThostFtdcQryOptionInstrCommRateField", "CThostFtdcQryOptionInstrCommRateField *");
    ("_p_CThostFtdcQryOptionInstrTradeCostField", "CThostFtdcQryOptionInstrTradeCostField *");
    ("_p_CThostFtdcQryOptionInstrTradingRightField", "CThostFtdcQryOptionInstrTradingRightField *");
    ("_p_CThostFtdcQryOptionSelfCloseActionField", "CThostFtdcQryOptionSelfCloseActionField *");
    ("_p_CThostFtdcQryOptionSelfCloseField", "CThostFtdcQryOptionSelfCloseField *");
    ("_p_CThostFtdcQryOrderActionField", "CThostFtdcQryOrderActionField *");
    ("_p_CThostFtdcQryOrderField", "CThostFtdcQryOrderField *");
    ("_p_CThostFtdcQryParkedOrderActionField", "CThostFtdcQryParkedOrderActionField *");
    ("_p_CThostFtdcQryParkedOrderField", "CThostFtdcQryParkedOrderField *");
    ("_p_CThostFtdcQryPartBrokerField", "CThostFtdcQryPartBrokerField *");
    ("_p_CThostFtdcQryProductExchRateField", "CThostFtdcQryProductExchRateField *");
    ("_p_CThostFtdcQryProductField", "CThostFtdcQryProductField *");
    ("_p_CThostFtdcQryProductGroupField", "CThostFtdcQryProductGroupField *");
    ("_p_CThostFtdcQryQuoteActionField", "CThostFtdcQryQuoteActionField *");
    ("_p_CThostFtdcQryQuoteField", "CThostFtdcQryQuoteField *");
    ("_p_CThostFtdcQryRCAMSCombProductInfoField", "CThostFtdcQryRCAMSCombProductInfoField *");
    ("_p_CThostFtdcQryRCAMSInstrParameterField", "CThostFtdcQryRCAMSInstrParameterField *");
    ("_p_CThostFtdcQryRCAMSInterParameterField", "CThostFtdcQryRCAMSInterParameterField *") ].

(** ctp_wrap.cpp, lines 506194 to 506326. *)
Definition swigt_2 : list (string * string) :=
  [ ("_p_CThostFtdcQryRCAMSIntraParameterField", "CThostFtdcQryRCAMSIntraParameterField *");
    ("_p_CThostFtdcQryRCAMSInvestorCombPositionField", "CThostFtdcQryRCAMSInvestorCombPositionField *");
    ("_p_CThostFtdcQryRCAMSShortOptAdjustParamField", "CThostFtdcQryRCAMSShortOptAdjustParamField *");
    ("_p_CThostFtdcQryRULEInstrParameterField", "CThostFtdcQryRULEInstrParameterField *");
    ("_p_CThostFtdcQryRULEInterParameterField", "CThostFtdcQryRULEInterParameterField *");
    ("_p_CThostFtdcQryRULEIntraParameterField", "CThostFtdcQryRULEIntraParameterField *");
    ("_p_CThostFtdcQryRiskSettleInvstPositionField", "CThostFtdcQryRiskSettleInvstPositionField *");
    ("_p_CThostFtdcQryRiskSettleProductStatusField", "CThostFtdcQryRiskSettleProductStatusField *");
    ("_p_CThostFtdcQrySPBMAddOnInterParameterField", "CThostFtdcQrySPBMAddOnInterParameterField *");
    ("_p_CThostFtdcQrySPBMFutureParameterField", "CThostFtdcQrySPBMFutureParameterField *");
    ("_p_CThostFtdcQrySPBMInterParameterField", "CThostFtdcQrySPBMInterParameterField *");
    ("_p_CThostFtdcQrySPBMIntraParameterField", "CThostFtdcQrySPBMIntraParameterField *");
    ("_p_CThostFtdcQrySPBMInvestorPortfDefField", "CThostFtdcQrySPBMInvestorPortfDefField *");
    ("_p_CThostFtdcQrySPBMOptionParameterField", "CThostFtdcQrySPBMOptionParameterField *");
    ("_p_CThostFtdcQrySPBMPortfDefinitionField", "CThostFtdcQrySPBMPortfDefinitionField *");
    ("_p_CThostFtdcQrySPMMInstParamField", "CThostFtdcQrySPMMInstParamField *");
    ("_p_CThostFtdcQrySPMMProductParamField", "CThostFtdcQrySPMMProductParamField *");
    ("_p_CThostFtdcQrySecAgentACIDMapField", "CThostFtdcQrySecAgentACIDMapField *");
    ("_p_CThostFtdcQrySecAgentCheckModeField", "CThostFtdcQrySecAgentCheckModeField *");
    ("_p_CThostFtdcQrySecAgentTradeInfoField", "CThostFtdcQrySecAgentTradeInfoField *");
    ("_p_CThostFtdcQrySettlementInfoConfirmField", "CThostFtdcQrySettlementInfoConfirmField *");
    ("_p_CThostFtdcQrySettlementInfoField", "CThostFtdcQrySettlementInfoField *");
    ("_p_CThostFtdcQryStrikeOffsetField", "CThostFtdcQryStrikeOffsetField *");
    ("_p_CThostFtdcQrySuperUserField", "CThostFtdcQrySuperUserField *");
    ("_p_CThostFtdcQrySuperUserFunctionField", "CThostFtdcQrySuperUserFunctionField *");
    ("_p_CThostFtdcQrySyncDelaySwapField", "CThostFtdcQrySyncDelaySwapField *");
    ("_p_CThostFtdcQrySyncDepositField", "CThostFtdcQrySyncDepositField *");
    ("_p_CThostFtdcQrySyncFundMortgageField", "CThostFtdcQrySyncFundMortgageField *");
    ("_p_CThostFtdcQrySyncStatusField", "CThostFtdcQrySyncStatusField *");
    ("_p_CThostFtdcQryThostUserFunctionField", "CThostFtdcQryThostUserFunctionField *");
    ("_p_CThostFtdcQryTradeField", "CThostFtdcQryTradeField *");
    ("_p_CThostFtdcQryTraderAssignField", "CThostFtdcQryTraderAssignField *");
    ("_p_CThostFtdcQryTraderField", "CThostFtdcQryTraderField *");
    ("_p_CThostFtdcQryTraderOfferField", "CThostFtdcQryTraderOfferField *");
    ("_p_CThostFtdcQryTradingAccountField", "CThostFtdcQryTradingAccountField *");
    ("_p_CThostFtdcQryTradingCodeField", "CThostFtdcQryTradingCodeField *");
    ("_p_CThostFtdcQryTradingNoticeField", "CThostFtdcQryTradingNoticeField *");
    ("_p_CThostFtdcQryTransferBankField", "CThostFtdcQryTransferBankField *");
    ("_p_CThostFtdcQryTransferSerialField", "CThostFtdcQryTransferSerialField *");
    ("_p_CThostFtdcQryUserRightsAssignField", "CThostFtdcQryUserRightsAssignField *");
    ("_p_CThostFtdcQryUserSessionField", "CThostFtdcQryUserSessionField *");
    ("_p_CThostFtdcQueryBrokerDepositField", "CThostFtdcQueryBrokerDepositField *");
    ("_p_CThostFtdcQueryCFMMCTradingAccountTokenField", "CThostFtdcQueryCFMMCTradingAccountTokenField *");
    ("_p_CThostFtdcQueryFreqField", "CThostFtdcQueryFreqField *");
    ("_p_CThostFtdcQuoteActionField", "CThostFtdcQuoteActionField *");
    ("_p_CThostFtdcQuoteField", "CThostFtdcQuoteField *");
    ("_p_CThostFtdcRCAMSCombProductInfoField", "CThostFtdcRCAMSCombProductInfoField *");
    ("_p_CThostFtdcRCAMSInstrParameterField", "CThostFtdcRCAMSInstrParameterField *");
    ("_p_CThostFtdcRCAMSInterParameterField", "CThostFtdcRCAMSInterParameterField *");
    ("_p_CThostFtdcRCAMSIntraParameterField", "CThostFtdcRCAMSIntraParameterField *");
    ("_p_CThostFtdcRCAMSInvestorCombPositionField", "CThostFtdcRCAMSInvestorCombPositionField *");
    ("_p_CThostFtdcRCAMSShortOptAdjustParamField", "CThostFtdcRCAMSShortOptAdjustParamField *");
    ("_p_CThostFtdcRULEInstrParameterField", "CThostFtdcRULEInstrParameterField *");
    ("_p_CThostFtdcRULEInterParameterField", "CThostFtdcRULEInterParameterField *");
    ("_p_CThostFtdcRULEIntraParameterField", "CThostFtdcRULEIntraParameterField *");
    ("_p_CThostFtdcRemoveParkedOrderActionField", "CThostFtdcRemoveParkedOrderActionField *");
    ("_p_CThostFtdcRemoveParkedOrderField", "CThostFtdcRemoveParkedOrderField *");
    ("_p_CThostFtdcReqApiHandshakeField", "CThostFtdcReqApiHandshakeField *");
    ("_p_CThostFtdcReqAuthenticateField", "CThostFtdcReqAuthenticateField *");
    ("_p_CThostFtdcReqCancelAccountField", "CThostFtdcReqCancelAccountField *");
    ("_p_CThostFtdcReqChangeAccountField", "CThostFtdcReqChangeAccountField *");
    ("_p_CThostFtdcReqDayEndFileReadyField", "CThostFtdcReqDayEndFileReadyField *");
    ("_p_CThostFtdcReqFutureSignOutField", "CThostFtdcReqFutureSignOutField *");
    ("_p_CThostFtdcReqGenUserCaptchaField", "CThostFtdcReqGenUserCaptchaField *");
    ("_p_CThostFtdcReqGenUserTextField", "CThostFtdcReqGenUserTextField *");
    ("_p_CThostFtdcReqOpenAccountField", "CThostFtdcReqOpenAccountField *");
    ("_p_CThostFtdcReqQueryAccountField", "CThostFtdcReqQueryAccountField *");
    ("_p_CThostFtdcReqQueryTradeResultBySerialField", "CThostFtdcReqQueryTradeResultBySerialField *");
    ("_p_CThostFtdcReqRepealField", "CThostFtdcReqRepealField *");
    ("_p_CThostFtdcReqSyncKeyField", "CThostFtdcReqSyncKeyField *");
    ("_p_CThostFtdcReqTransferField", "CThostFtdcReqTransferField *");
    ("_p_CThostFtdcReqUserAuthMethodField", "CThostFtdcReqUserAuthMethodField *");
    ("_p_CThostFtdcReqUserLoginField", "CThostFtdcReqUserLoginField *");
    ("_p_CThostFtdcReqUserLoginSMField", "CThostFtdcReqUserLoginSMField *");
    ("_p_CThostFtdcReqUserLoginWithCaptchaField", "CThostFtdcReqUserLoginWithCaptchaField *");
    ("_p_CThostFtdcReqUserLoginWithOTPField", "CThostFtdcReqUserLoginWithOTPField *");
    ("_p_CThostFtdcReqUserLoginWithTextField", "CThostFtdcReqUserLoginWithTextField *");
    ("_p_CThostFtdcReqVerifyApiKeyField", "CThostFtdcReqVerifyApiKeyField *");
    ("_p_CThostFtdcReserveOpenAccountConfirmField", "CThostFtdcReserveOpenAccountConfirmField *");
    ("_p_CThostFtdcReserveOpenAccountField", "CThostFtdcReserveOpenAccountField *");
    ("_p_CThostFtdcReturnResultField", "CThostFtdcReturnResultField *");
    ("_p_CThostFtdcRiskSettleInvstPositionField", "CThostFtdcRiskSettleInvstPositionField *");
    ("_p_CThostFtdcRiskSettleProductStatusField", "CThostFtdcRiskSettleProductStatusField *");
    ("_p_CThostFtdcRspApiHandshakeField", "CThostFtdcRspApiHandshakeField *");
    ("_p_CThostFtdcRspAuthenticateField", "CThostFtdcRspAuthenticateField *");
    ("_p_CThostFtdcRspFutureSignInField", "CThostFtdcRspFutureSignInField *");
    ("_p_CThostFtdcRspFutureSignOutField", "CThostFtdcRspFutureSignOutField *");
    ("_p_CThostFtdcRspGenUserCaptchaField", "CThostFtdcRspGenUserCaptchaField *");
    ("_p_CThostFtdcRspGenUserTextField", "CThostFtdcRspGenUserTextField *");
    ("_p_CThostFtdcRspInfoField", "CThostFtdcRspInfoField *");
    ("_p_CThostFtdcRspQueryAccountField", "CThostFtdcRspQueryAccountField *");
    ("_p_CThostFtdcRspQueryTradeResultBySerialField", "CThostFtdcRspQueryTradeResultBySerialField *");
    ("_p_CThostFtdcRspRepealField", "CThostFtdcRspRepealField *");
    ("_p_CThostFtdcRspSyncKeyField", "CThostFtdcRspSyncKeyField *");
    ("_p_CThostFtdcRspTransferField", "CThostFtdcRspTransferField *");
    ("_p_CThostFtdcRspUserAuthMethodField", "CThostFtdcRspUserAuthMethodField *");
    ("_p_CThostFtdcRspUserLogin2Field", "CThostFtdcRspUserLogin2Field *");
    ("_p_CThostFtdcRspUserLoginField", "CThostFtdcRspUserLoginField *");
    ("_p_CThostFtdcSPBMAddOnInterParameterField", "CThostFtdcSPBMAddOnInterParameterField *");
    ("_p_CThostFtdcSPBMFutureParameterField", "CThostFtdcSPBMFutureParameterField *");
    ("_p_CThostFtdcSPBMInterParameterField", "CThostFtdcSPBMInterParameterField *");
    ("_p_CThostFtdcSPBMIntraParameterField", "CThostFtdcSPBMIntraParameterField *");
    ("_p_CThostFtdcSPBMInvestorPortfDefField", "CThostFtdcSPBMInvestorPortfDefField *");
    ("_p_CThostFtdcSPBMOptionParameterField", "CThostFtdcSPBMOptionParameterField *");
    ("_p_CThostFtdcSPBMPortfDefinitionField", "CThostFtdcSPBMPortfDefinitionField *");
    ("_p_CThostFtdcSPMMInstParamField", "CThostFtdcSPMMInstParamField *");
    ("_p_CThostFtdcSPMMProductParamField", "CThostFtdcSPMMProductParamField *");
    ("_p_CThostFtdcSecAgentACIDMapField", "CThostFtdcSecAgentACIDMapField *");
    ("_p_CThostFtdcSecAgentCheckModeField", "CThostFtdcSecAgentCheckModeField *");
    ("_p_CThostFtdcSecAgentTradeInfoField", "CThostFtdcSecAgentTradeInfoField *");
    ("_p_CThostFtdcSettlementInfoConfirmField", "CThostFtdcSettlementInfoConfirmField *");
    ("_p_CThostFtdcSettlementInfoField", "CThostFtdcSettlementInfoField *");
    ("_p_CThostFtdcSettlementRefField", "CThostFtdcSettlementRefField *");
    ("_p_CThostFtdcSpecificInstrumentField", "CThostFtdcSpecificInstrumentField *");
    ("_p_CThostFtdcStrikeOffsetField", "CThostFtdcStrikeOffsetField *");
    ("_p_CThostFtdcSuperUserField", "CThostFtdcSuperUserField *");
    ("_p_CThostFtdcSuperUserFunctionField", "CThostFtdcSuperUserFunctionField *");
    ("_p_CThostFtdcSyncDelaySwapField", "CThostFtdcSyncDelaySwapField *");
    ("_p_CThostFtdcSyncDelaySwapFrozenField", "CThostFtdcSyncDelaySwapFrozenField *");
    ("_p_CThostFtdcSyncDeltaDceCombInstrumentField", "CThostFtdcSyncDeltaDceCombInstrumentField *");
    ("_p_CThostFtdcSyncDeltaDepthMarketDataField", "CThostFtdcSyncDeltaDepthMarketDataField *");
    ("_p_CThostFtdcSyncDeltaEWarrantOffsetField", "CThostFtdcSyncDeltaEWarrantOffsetField *");
    ("_p_CThostFtdcSyncDeltaExchMarginRateField", "CThostFtdcSyncDeltaExchMarginRateField *");
    ("_p_CThostFtdcSyncDeltaIndexPriceField", "CThostFtdcSyncDeltaIndexPriceField *");
    ("_p_CThostFtdcSyncDeltaInfoField", "CThostFtdcSyncDeltaInfoField *");
    ("_p_CThostFtdcSyncDeltaInitInvstMarginField", "CThostFtdcSyncDeltaInitInvstMarginField *");
    ("_p_CThostFtdcSyncDeltaInvestorSPMMModelField", "CThostFtdcSyncDeltaInvestorSPMMModelField *");
    ("_p_CThostFtdcSyncDeltaInvstCommRateField", "CThostFtdcSyncDeltaInvstCommRateField *");
    ("_p_CThostFtdcSyncDeltaInvstMarginRateField", "CThostFtdcSyncDeltaInvstMarginRateField *");
    ("_p_CThostFtdcSyncDeltaInvstMarginRateULField", "CThostFtdcSyncDeltaInvstMarginRateULField *");
    ("_p_CThostFtdcSyncDeltaInvstPosCombDtlField", "CThostFtdcSyncDeltaInvstPosCombDtlField *");
    ("_p_CThostFtdcSyncDeltaInvstPosDtlField", "CThostFtdcSyncDeltaInvstPosDtlField *");
    ("_p_CThostFtdcSyncDeltaOptExchMarginField", "CThostFtdcSyncDeltaOptExchMarginField *") ].

(** ctp_wrap.cpp, lines 506327 to 506456. *)
Definition swigt_3 : list (string * string) :=
  [ ("_p_CThostFtdcSyncDeltaOptInvstCommRateField", "CThostFtdcSyncDeltaOptInvstCommRateField *");
    ("_p_CThostFtdcSyncDeltaOptInvstMarginField", "CThostFtdcSyncDeltaOptInvstMarginField *");
    ("_p_CThostFtdcSyncDeltaProductExchRateField", "CThostFtdcSyncDeltaProductExchRateField *");
    ("_p_CThostFtdcSyncDeltaProductStatusField", "CThostFtdcSyncDeltaProductStatusField *");
    ("_p_CThostFtdcSyncDeltaRCAMSCombProdInfoField", "CThostFtdcSyncDeltaRCAMSCombProdInfoField *");
    ("_p_CThostFtdcSyncDeltaRCAMSCombRuleDtlField", "CThostFtdcSyncDeltaRCAMSCombRuleDtlField *");
    ("_p_CThostFtdcSyncDeltaRCAMSInstrParameterField", "CThostFtdcSyncDeltaRCAMSInstrParameterField *");
    ("_p_CThostFtdcSyncDeltaRCAMSInterParameterField", "CThostFtdcSyncDeltaRCAMSInterParameterField *");
    ("_p_CThostFtdcSyncDeltaRCAMSIntraParameterField", "CThostFtdcSyncDeltaRCAMSIntraParameterField *");
    ("_p_CThostFtdcSyncDeltaRCAMSInvstCombPosField", "CThostFtdcSyncDeltaRCAMSInvstCombPosField *");
    ("_p_CThostFtdcSyncDeltaRCAMSSOptAdjParamField", "CThostFtdcSyncDeltaRCAMSSOptAdjParamField *");
    ("_p_CThostFtdcSyncDeltaRULEInstrParameterField", "CThostFtdcSyncDeltaRULEInstrParameterField *");
    ("_p_CThostFtdcSyncDeltaRULEInterParameterField", "CThostFtdcSyncDeltaRULEInterParameterField *");
    ("_p_CThostFtdcSyncDeltaRULEIntraParameterField", "CThostFtdcSyncDeltaRULEIntraParameterField *");
    ("_p_CThostFtdcSyncDeltaSPBMAddOnInterParamField", "CThostFtdcSyncDeltaSPBMAddOnInterParamField *");
    ("_p_CThostFtdcSyncDeltaSPBMFutureParameterField", "CThostFtdcSyncDeltaSPBMFutureParameterField *");
    ("_p_CThostFtdcSyncDeltaSPBMInterParameterField", "CThostFtdcSyncDeltaSPBMInterParameterField *");
    ("_p_CThostFtdcSyncDeltaSPBMIntraParameterField", "CThostFtdcSyncDeltaSPBMIntraParameterField *");
    ("_p_CThostFtdcSyncDeltaSPBMInvstPortfDefField", "CThostFtdcSyncDeltaSPBMInvstPortfDefField *");
    ("_p_CThostFtdcSyncDeltaSPBMOptionParameterField", "CThostFtdcSyncDeltaSPBMOptionParameterField *");
    ("_p_CThostFtdcSyncDeltaSPBMPortfDefinitionField", "CThostFtdcSyncDeltaSPBMPortfDefinitionField *");
    ("_p_CThostFtdcSyncDeltaSPMMInstParamField", "CThostFtdcSyncDeltaSPMMInstParamField *");
    ("_p_CThostFtdcSyncDeltaSPMMModelParamField", "CThostFtdcSyncDeltaSPMMModelParamField *");
    ("_p_CThostFtdcSyncDeltaSPMMProductParamField", "CThostFtdcSyncDeltaSPMMProductParamField *");
    ("_p_CThostFtdcSyncDeltaTradingAccountField", "CThostFtdcSyncDeltaTradingAccountField *");
    ("_p_CThostFtdcSyncDepositField", "CThostFtdcSyncDepositField *");
    ("_p_CThostFtdcSyncFundMortgageField", "CThostFtdcSyncFundMortgageField *");
    ("_p_CThostFtdcSyncSPBMParameterEndField", "CThostFtdcSyncSPBMParameterEndField *");
    ("_p_CThostFtdcSyncStatusField", "CThostFtdcSyncStatusField *");
    ("_p_CThostFtdcSyncingInstrumentCommissionRateField", "CThostFtdcSyncingInstrumentCommissionRateField *");
    ("_p_CThostFtdcSyncingInstrumentMarginRateField", "CThostFtdcSyncingInstrumentMarginRateField *");
    ("_p_CThostFtdcSyncingInstrumentTradingRightField", "CThostFtdcSyncingInstrumentTradingRightField *");
    ("_p_CThostFtdcSyncingInvestorField", "CThostFtdcSyncingInvestorField *");
    ("_p_CThostFtdcSyncingInvestorGroupField", "CThostFtdcSyncingInvestorGroupField *");
    ("_p_CThostFtdcSyncingInvestorPositionField", "CThostFtdcSyncingInvestorPositionField *");
    ("_p_CThostFtdcSyncingTradingAccountField", "CThostFtdcSyncingTradingAccountField *");
    ("_p_CThostFtdcSyncingTradingCodeField", "CThostFtdcSyncingTradingCodeField *");
    ("_p_CThostFtdcThostUserFunctionField", "CThostFtdcThostUserFunctionField *");
    ("_p_CThostFtdcTradeField", "CThostFtdcTradeField *");
    ("_p_CThostFtdcTradeParamField", "CThostFtdcTradeParamField *");
    ("_p_CThostFtdcTraderApi", "CThostFtdcTraderApi *");
    ("_p_CThostFtdcTraderAssignField", "CThostFtdcTraderAssignField *");
    ("_p_CThostFtdcTraderField", "CThostFtdcTraderField *");
    ("_p_CThostFtdcTraderOfferField", "CThostFtdcTraderOfferField *");
    ("_p_CThostFtdcTraderSpi", "CThostFtdcTraderSpi *");
    ("_p_CThostFtdcTradingAccountField", "CThostFtdcTradingAccountField *");
    ("_p_CThostFtdcTradingAccountPasswordField", "CThostFtdcTradingAccountPasswordField *");
    ("_p_CThostFtdcTradingAccountPasswordUpdateField", "CThostFtdcTradingAccountPasswordUpdateField *");
    ("_p_CThostFtdcTradingAccountPasswordUpdateV1Field", "CThostFtdcTradingAccountPasswordUpdateV1Field *");
    ("_p_CThostFtdcTradingAccountReserveField", "CThostFtdcTradingAccountReserveField *");
    ("_p_CThostFtdcTradingCodeField", "CThostFtdcTradingCodeField *");
    ("_p_CThostFtdcTradingNoticeField", "CThostFtdcTradingNoticeField *");
    ("_p_CThostFtdcTradingNoticeInfoField", "CThostFtdcTradingNoticeInfoField *");
    ("_p_CThostFtdcTransferBankField", "CThostFtdcTransferBankField *");
    ("_p_CThostFtdcTransferBankToFutureReqField", "CThostFtdcTransferBankToFutureReqField *");
    ("_p_CThostFtdcTransferBankToFutureRspField", "CThostFtdcTransferBankToFutureRspField *");
    ("_p_CThostFtdcTransferFutureToBankReqField", "CThostFtdcTransferFutureToBankReqField *");
    ("_p_CThostFtdcTransferFutureToBankRspField", "CThostFtdcTransferFutureToBankRspField *");
    ("_p_CThostFtdcTransferHeaderField", "CThostFtdcTransferHeaderField *");
    ("_p_CThostFtdcTransferQryBankReqField", "CThostFtdcTransferQryBankReqField *");
    ("_p_CThostFtdcTransferQryBankRspField", "CThostFtdcTransferQryBankRspField *");
    ("_p_CThostFtdcTransferQryDetailReqField", "CThostFtdcTransferQryDetailReqField *");
    ("_p_CThostFtdcTransferQryDetailRspField", "CThostFtdcTransferQryDetailRspField *");
    ("_p_CThostFtdcTransferSerialField", "CThostFtdcTransferSerialField *");
    ("_p_CThostFtdcUserIPField", "CThostFtdcUserIPField *");
    ("_p_CThostFtdcUserLogoutField", "CThostFtdcUserLogoutField *");
    ("_p_CThostFtdcUserPasswordUpdateField", "CThostFtdcUserPasswordUpdateField *");
    ("_p_CThostFtdcUserRightField", "CThostFtdcUserRightField *");
    ("_p_CThostFtdcUserRightsAssignField", "CThostFtdcUserRightsAssignField *");
    ("_p_CThostFtdcUserSessionField", "CThostFtdcUserSessionField *");
    ("_p_CThostFtdcUserSystemInfoField", "CThostFtdcUserSystemInfoField *");
    ("_p_CThostFtdcVerifyCustInfoField", "CThostFtdcVerifyCustInfoField *");
    ("_p_CThostFtdcVerifyFuturePasswordAndCustInfoField", "CThostFtdcVerifyFuturePasswordAndCustInfoField *");
    ("_p_CThostFtdcVerifyFuturePasswordField", "CThostFtdcVerifyFuturePasswordField *");
    ("_p_CThostFtdcVerifyInvestorPasswordField", "CThostFtdcVerifyInvestorPasswordField *");
    ("_p_CThostFtdcWithDrawParamField", "CThostFtdcWithDrawParamField *");
    ("_p_a_1001__char", "TThostFtdcBusinessScopeType *|char (*)[1001]");
    ("_p_a_100__char", "TThostFtdcIDBNameType *|char (*)[100]");
    ("_p_a_101__char", "TThostFtdcAddressType *|TThostFtdcAssetmgrCFullNameType *|TThostFtdcBankNameType *|TThostFtdcCSRCMemoType *|TThostFtdcCSRCOpenInvestorNameType *|TThostFtdcCffexDepartmentNameType *|TThostFtdcCorporateIdentifiedCardNoType *|TThostFtdcCurrencySwapMemoType *|TThostFtdcInstrumentIDsType *|TThostFtdcInvestVarietyType *|TThostFtdcInvestorFullNameType *|TThostFtdcLedgerManageBankType *|TThostFtdcOpenBankType *|TThostFtdcProfessionType *|TThostFtdcUOAEMailType *|TThostFtdcWebSiteType *|TThostFtdcWorkPlaceType *|char (*)[101]");
    ("_p_a_1025__char", "TThostFtdcCheckResultMemoType *|TThostFtdcCommModelMemoType *|TThostFtdcDateExprType *|TThostFtdcFunctionUrlType *|TThostFtdcOperationMemoType *|TThostFtdcUserEventInfoType *|char (*)[1025]");
    ("_p_a_10__char", "TThostFtdcAMLSiteType *|char (*)[10]");
    ("_p_a_11__char", "TThostFtdcAreaCodeType *|TThostFtdcBankBranchIDType *|TThostFtdcBrokerIDType *|TThostFtdcCSRCClientIDType *|TThostFtdcCSRCDateType *|TThostFtdcCSRCSecAgentIDType *|TThostFtdcCSRCTimeType *|TThostFtdcCffmcDateType *|TThostFtdcCffmcTimeType *|TThostFtdcClientClassifyType *|TThostFtdcClientIDType *|TThostFtdcFutureIDType *|TThostFtdcIsStockType *|TThostFtdcParticipantIDType *|TThostFtdcProductInfoType *|TThostFtdcProtocolInfoType *|TThostFtdcRoleIDType *|TThostFtdcSHFEProductClassType *|TThostFtdcUOABrokerIDType *|TThostFtdcUOACountryCodeType *|TThostFtdcUOAOrganTypeType *|TThostFtdcUOAZipCodeType *|TThostFtdcUOMType *|char (*)[11]");
    ("_p_a_129__char", "TThostFtdcAMLCapitalPurposeType *|TThostFtdcAddInfoType *|TThostFtdcAuthInfoType *|TThostFtdcAuthenticDataType *|TThostFtdcBankMainKeyType *|TThostFtdcBankServerDescriptionType *|TThostFtdcBankTransKeyType *|TThostFtdcBankWorkKeyType *|TThostFtdcDataTypeType *|TThostFtdcDescrInfoForReturnCodeType *|TThostFtdcFutureAccountNameType *|TThostFtdcFutureMainKeyType *|TThostFtdcFutureTransKeyType *|TThostFtdcFutureWorkKeyType *|TThostFtdcPasswordKeyType *|TThostFtdcRetInfoType *|TThostFtdcSPMMModelDescType *|TThostFtdcSettleManagerNameType *|TThostFtdcUserProductMemoType *|char (*)[129]");
    ("_p_a_12__char", "TThostFtdcSuperOrganCodeType *|char (*)[12]");
    ("_p_a_13__char", "TThostFtdcAMLInstitutionIDType *|TThostFtdcAccountIDType *|TThostFtdcAdvanceMonthArrayType *|TThostFtdcAgentBrokerIDType *|TThostFtdcAgentGroupIDType *|TThostFtdcAgentIDType *|TThostFtdcBankSerialType *|TThostFtdcCSRCInvestorIDType *|TThostFtdcCurrExchCertNoType *|TThostFtdcFBEBankNoType *|TThostFtdcFBECertNoType *|TThostFtdcInvestorIDType *|TThostFtdcLongTimeType *|TThostFtdcOptionIDType *|TThostFtdcOrderLocalIDType *|TThostFtdcOrderMemoType *|TThostFtdcOrderRefType *|TThostFtdcParkedOrderActionIDType *|TThostFtdcParkedOrderIDType *|TThostFtdcStrikeTimeType *|char (*)[13]");
    ("_p_a_151__char", "TThostFtdcClientLoginRemarkType *|char (*)[151]");
    ("_p_a_15__char", "TThostFtdcBillNoType *|TThostFtdcDepositSeqNoType *|char (*)[15]");
    ("_p_a_161__char", "TThostFtdcCommModelNameType *|TThostFtdcLongFBEBankAccountNameType *|TThostFtdcLongIndividualNameType *|TThostFtdcMemoType *|TThostFtdcPhotoNameType *|char (*)[161]");
    ("_p_a_16__char", "TThostFtdcCompanyTypeType *|TThostFtdcCountryType *|TThostFtdcOldIPAddressType *|TThostFtdcRegionType *|TThostFtdcUserIDType *|char (*)[16]");
    ("_p_a_17__char", "TThostFtdcAuthCodeType *|TThostFtdcDateTimeType *|TThostFtdcFutureAccPwdType *|TThostFtdcImportSequenceIDType *|TThostFtdcIndustryIDType *|TThostFtdcInvestUnitIDType *|TThostFtdcOperNoType *|TThostFtdcOperatorCodeType *|TThostFtdcRandomStringType *|TThostFtdcSerialNumberType *|char (*)[17]");
    ("_p_a_201__char", "TThostFtdcCSRCInvestorNameType *|TThostFtdcPKNameType *|TThostFtdcURLLinkType *|char (*)[201]");
    ("_p_a_2049__char", "TThostFtdcFieldContentType *|TThostFtdcFieldNameType *|TThostFtdcPropertyStringType *|char (*)[2049]");
    ("_p_a_20__char", "TThostFtdcFetchAmtType *|TThostFtdcTradeAmtType *|TThostFtdcUseAmtType *|char (*)[20]");
    ("_p_a_21__char", "TThostFtdcAMLParamIDType *|TThostFtdcBankCustNoType *|TThostFtdcBankIDByBankType *|TThostFtdcBatchSerialNoType *|TThostFtdcBusinessPeriodType *|TThostFtdcBusinessUnitType *|TThostFtdcCFMMCKeyType *|TThostFtdcCFMMCTokenType *|TThostFtdcCSRCTradeIDType *|TThostFtdcCertCodeType *|TThostFtdcCollectTimeType *|TThostFtdcComeFromType *|TThostFtdcCountryCodeType *|TThostFtdcExecOrderSysIDType *|TThostFtdcFBEBatchSerialType *|TThostFtdcFBEFileNameType *|TThostFtdcFBESystemSerialType *|TThostFtdcFuturesIDType *|TThostFtdcInstrumentNameType *|TThostFtdcMacAddressType *|TThostFtdcMobilePhoneType *|TThostFtdcNocIDType *|TThostFtdcOrderSysIDType *|TThostFtdcProductNameType *|TThostFtdcRiskRateType *|TThostFtdcSRiskRateType *|TThostFtdcSystemIDType *|TThostFtdcTradeIDType *|TThostFtdcTraderIDType *|TThostFtdcUploadModeType *|char (*)[21]");
    ("_p_a_22__char", "TThostFtdcFutureAccountType *|TThostFtdcSoftwareProviderIDType *|char (*)[22]");
    ("_p_a_23__char", "TThostFtdcAmAccountType *|TThostFtdcCSRCBankAccountType *|char (*)[23]");
    ("_p_a_24__char", "TThostFtdcForceCloseSceneIdType *|char (*)[24]");
    ("_p_a_2561__char", "TThostFtdcCaptchaInfoType *|char (*)[2561]");
    ("_p_a_256__char", "TThostFtdcBrokerDNSType *|TThostFtdcSettlementParamValueType *|char (*)[256]");
    ("_p_a_257__char", "TThostFtdcAMLFileNameType *|TThostFtdcBrandCodeType *|TThostFtdcFileNameType *|TThostFtdcFunctionValueCodeType *|TThostFtdcProcessNameType *|TThostFtdcPublishPathType *|TThostFtdcRiskNofityInfoType *|TThostFtdcSyncDescriptionType *|TThostFtdcWarehouseType *|char (*)[257]");
    ("_p_a_25__char", "TThostFtdcCombineIDType *|TThostFtdcCombineTypeType *|TThostFtdcFunctionIDType *|char (*)[25]");
    ("_p_a_261__char", "TThostFtdcAdditionalInfoType *|char (*)[261]");
    ("_p_a_273__char", "TThostFtdcClientSystemInfoType *|char (*)[273]");
    ("_p_a_2__char", "TThostFtdcAMLReportTypeType *|TThostFtdcAMLStatusType *|TThostFtdcAmlCheckFlowType *|TThostFtdcBankAccountTypeType *|TThostFtdcCSRCCancelFlagType *|TThostFtdcCSRCFreezeStatusType *|TThostFtdcCSRCOptionsTypeType *|TThostFtdcExchangeFlagType *|TThostFtdcInTheMoneyFlagType *|TThostFtdcIsSettlementType *|TThostFtdcOTPVendorsIDType *|TThostFtdcOrganFlagType *|TThostFtdcPageControlType *|TThostFtdcPriceDecimalType *|TThostFtdcSequenceLabelType *|char (*)[2]");
    ("_p_a_301__char", "TThostFtdcHandshakeDataType *|char (*)[301]");
    ("_p_a_31__char", "TThostFtdcBankSubBranchIDType *|TThostFtdcBranchNetCodeType *|TThostFtdcCSRCExchangeInstIDType *|TThostFtdcCSRCTargetInstrIDType *|TThostFtdcCommentType *|TThostFtdcCryptoKeyVersionType *|TThostFtdcCurrencyNameType *|TThostFtdcDBLinkIDType *|TThostFtdcFBEBusinessSerialType *|TThostFtdcFutureBranchIDType *|TThostFtdcInstrumentCodeType *|TThostFtdcMarketIDType *|TThostFtdcNationalType *|TThostFtdcOTCTraderIDType *|TThostFtdcOldExchangeInstIDType *|TThostFtdcOldInstrumentIDType *|TThostFtdcSubBranchIDType *|TThostFtdcTaxNoType *|char (*)[31]");
    ("_p_a_33__char", "TThostFtdcAppIDType *|TThostFtdcBankCodingForFutureType *|TThostFtdcBillNameType *|TThostFtdcClearAccountType *|TThostFtdcCounterIDType *|TThostFtdcEnumValueResultType *|TThostFtdcEnumValueTypeType *|TThostFtdcEventTypeType *|TThostFtdcFBEBankAccountType *|TThostFtdcIPAddressType *|TThostFtdcLicenseNOType *|TThostFtdcLogLevelType *|TThostFtdcProcessIDType *|TThostFtdcPropertyIDType *|TThostFtdcRangeIntFromType *|TThostFtdcRangeIntToType *|TThostFtdcRangeIntTypeType *|TThostFtdcSPMMModelIDType *|TThostFtdcSettleManagerIDType *|TThostFtdcUserProductIDType *|char (*)[33]");
    ("_p_a_349__char", "TThostFtdcBase64AdditionalInfoType *|char (*)[349]");
    ("_p_a_365__char", "TThostFtdcBase64ClientSystemInfoType *|char (*)[365]");
    ("_p_a_36__char", "TThostFtdcCustNumberType *|TThostFtdcDigestType *|TThostFtdcLoginRemarkType *|TThostFtdcMessageFormatVersionType *|TThostFtdcOrganCodeType *|char (*)[36]");
    ("_p_a_3__char", "TThostFtdcAMLCapitalIOType *|TThostFtdcAMLIdCardTypeType *|TThostFtdcAMLInstitutionTypeType *|TThostFtdcAMLInvestorTypeType *|TThostFtdcAMLRelationShipType *|TThostFtdcAMLTradeDirectType *|TThostFtdcAMLTradeModelType *|TThostFtdcCSRCBankFlagType *|TThostFtdcCSRCReasonType *|TThostFtdcCSRCTargetProductIDType *|TThostFtdcClientModeType *|TThostFtdcDeviceIDType *|TThostFtdcFBEBusinessTypeType *|TThostFtdcNewsTypeType *|TThostFtdcProcessTypeType *|TThostFtdcReportTypeIDType *|TThostFtdcSHFEInstLifePhaseType *|TThostFtdcSwapBusinessTypeType *|TThostFtdcUOAIdCardTypeType *|TThostFtdcUOAProcessStatusType *|char (*)[3]");
    ("_p_a_401__char", "TThostFtdcAssetmgrMgrNameType *|TThostFtdcCSRCOpenNameType *|TThostFtdcDescriptionType *|char (*)[401]");
    ("_p_a_41__char", "TThostFtdcAgentGroupNameType *|TThostFtdcAgentNameType *|TThostFtdcAuthKeyType *|TThostFtdcBankAccountType *|TThostFtdcCSRCMemo1Type *|TThostFtdcClassifyType *|TThostFtdcContractCodeType *|TThostFtdcEMailType *|TThostFtdcFaxType *|TThostFtdcGradeType *|TThostFtdcInstrumentIDExprType *|TThostFtdcInstrumentNameExprType *|TThostFtdcInvestorGroupNameType *|TThostFtdcMobileType *|TThostFtdcOldCityType *|TThostFtdcParamNameType *|TThostFtdcParamValueType *|TThostFtdcPasswordType *|TThostFtdcPhotoTypeNameType *|TThostFtdcPositionType *|TThostFtdcProductDateType *|TThostFtdcProductIDType *|TThostFtdcQuestionContentType *|TThostFtdcRoleNameType *|TThostFtdcSPMMProductIDType *|TThostFtdcSysVersionType *|TThostFtdcSystemNameType *|TThostFtdcTelephoneType *|TThostFtdcWeightType *|TThostFtdcWithDrawParamValueType *|TThostFtdcYieldlyType *|char (*)[41]");
    ("_p_a_4__char", "TThostFtdcBankFlagType *|TThostFtdcBankIDType *|TThostFtdcBankOperNoType *|TThostFtdcCSRCNationalType *|TThostFtdcCapitalCurrencyType *|TThostFtdcCurrencyCodeType *|TThostFtdcCurrencyIDType *|TThostFtdcCurrencySignType *|TThostFtdcTargetIDType *|TThostFtdcVersionType *|char (*)[4]");
    ("_p_a_501__char", "TThostFtdcContentType *|TThostFtdcPKValueType *|TThostFtdcSentenceType *|char (*)[501]");
    ("_p_a_513__char", "TThostFtdcInvestorIDRuleExprType *|char (*)[513]");
    ("_p_a_51__char", "TThostFtdcAssetmgrApprovalNOType *|TThostFtdcCSRCIdentifiedCardNoType *|TThostFtdcChannelType *|TThostFtdcCityType *|TThostFtdcCompanyCodeType *|TThostFtdcIdentifiedCardNoType *|TThostFtdcIndividualNameType *|TThostFtdcLedgerManageIDType *|TThostFtdcLicenseNoType *|TThostFtdcProvinceType *|TThostFtdcRuleIdType *|TThostFtdcWebsiteType *|char (*)[51]");
    ("_p_a_5__char", "TThostFtdcAMLAccountTypeType *|TThostFtdcAMLSerialNoType *|TThostFtdcBankBrchIDType *|TThostFtdcCSRCAmTypeType *|TThostFtdcCharacterIDType *|TThostFtdcCombHedgeFlagType *|TThostFtdcCombOffsetFlagType *|TThostFtdcFundProjectIDType *|TThostFtdcPhotoTypeIDType *|TThostFtdcPlateReturnCodeType *|TThostFtdcQuestionIDType *|TThostFtdcRetCodeType *|char (*)[5]");
    ("_p_a_61__char", "TThostFtdcCombinInstrIDType *|TThostFtdcCombinSettlePriceType *|TThostFtdcExchangeNameType *|TThostFtdcFBEBankAccountNameType *|TThostFtdcFBEExtendMsgType *|TThostFtdcFBEOpenBankType *|TThostFtdcFBEPostScriptType *|TThostFtdcFBERtnMsgType *|TThostFtdcInvestorIDRuleNameType *|TThostFtdcOTPVendorsNameType *|TThostFtdcOpenNameType *|TThostFtdcOptionContentType *|TThostFtdcRateTemplateNameType *|TThostFtdcRightTemplateNameType *|TThostFtdcServiceNameType *|TThostFtdcTableNameType *|char (*)[61]");
    ("_p_a_65__char", "TThostFtdcAMLInstitutionNameType *|TThostFtdcAMLSeqCodeType *|TThostFtdcCommandTypeType *|TThostFtdcDRIdentityNameType *|TThostFtdcEnumValueIDType *|TThostFtdcEnumValueLabelType *|TThostFtdcFunctionNameType *|TThostFtdcOperatorIDType *|TThostFtdcPropertyNameType *|TThostFtdcUserProductNameType *|char (*)[65]");
    ("_p_a_6__char", "TThostFtdcClearBrchIDType *|TThostFtdcClearDepIDType *|TThostFtdcClearbarchIDType *|TThostFtdcInvBrchIDType *|TThostFtdcInvDepIDType *|TThostFtdcOrganNOType *|char (*)[6]");
    ("_p_a_71__char", "TThostFtdcBankAccountNameType *|TThostFtdcBranchNetNameType *|TThostFtdcClearNameType *|TThostFtdcFBERemarkType *|TThostFtdcOrganNameType *|TThostFtdcSubBranchNameType *|char (*)[71]");
    ("_p_a_7__char", "TThostFtdcAMLDistrictIDType *|TThostFtdcAMLTradingTypeType *|TThostFtdcAMLTransactClassType *|TThostFtdcBankReturnCodeType *|TThostFtdcCSRCMortgageNameType *|TThostFtdcFBETimeType *|TThostFtdcRecordNumType *|TThostFtdcReturnCodeType *|TThostFtdcTradeCodeType *|TThostFtdcZipCodeType *|char (*)[7]");
    ("_p_a_81__char", "TThostFtdcAMLCustomerCardTypeType *|TThostFtdcAMLReportNameType *|TThostFtdcAbstractType *|TThostFtdcBrokerNameType *|TThostFtdcErrorMsgType *|TThostFtdcExchangeInstIDType *|TThostFtdcInstrumentIDType *|TThostFtdcPartyNameType *|TThostFtdcToolNameType *|TThostFtdcUserNameType *|char (*)[81]");
    ("_p_a_9__char", "TThostFtdcBranchIDType *|TThostFtdcBrokerAbbrType *|TThostFtdcCffexDepartmentCodeType *|TThostFtdcDateType *|TThostFtdcExchangeAbbrType *|TThostFtdcExchangeIDType *|TThostFtdcRateTemplateIDType *|TThostFtdcRightTemplateIDType *|TThostFtdcSettlementGroupIDType *|TThostFtdcTimeSpanType *|TThostFtdcTimeType *|TThostFtdcToolIDType *|TThostFtdcTradeDateType *|TThostFtdcTradeSerialType *|TThostFtdcTradeTimeType *|char (*)[9]");
    ("_p_char", "TThostFtdcAMLCheckStatusType *|TThostFtdcAMLGenStatusType *|TThostFtdcAPIProductClassType *|TThostFtdcAccountSettlementParamIDType *|TThostFtdcAccountSourceTypeType *|TThostFtdcActionDirectionType *|TThostFtdcActionFlagType *|TThostFtdcActionTypeType *|TThostFtdcActiveTypeType *|TThostFtdcAlgoTypeType *|TThostFtdcAlgorithmType *|TThostFtdcAllWithoutTradeType *|TThostFtdcAmTypeType *|TThostFtdcAmlCheckLevelType *|TThostFtdcAmlDateTypeType *|TThostFtdcAppTypeType *|TThostFtdcApplyOperateIDType *|TThostFtdcApplyStatusIDType *|TThostFtdcApplyTypeType *|TThostFtdcAssetmgrClientTypeType *|TThostFtdcAssetmgrTypeType *|TThostFtdcAuthTypeType *|TThostFtdcAvailabilityFlagType *|TThostFtdcBackUpStatusType *|TThostFtdcBalanceAlgorithmType *|TThostFtdcBankAccStatusType *|TThostFtdcBankAccTypeType *|TThostFtdcBankAcountOriginType *|TThostFtdcBankRepealFlagType *|TThostFtdcBanlanceTypeType *|TThostFtdcBasisPriceTypeType *|TThostFtdcBatchStatusType *|TThostFtdcBillGenStatusType *|TThostFtdcBillHedgeFlagType *|TThostFtdcBizTypeType *|TThostFtdcBrokerDataSyncStatusType *|TThostFtdcBrokerFunctionCodeType *|TThostFtdcBrokerRepealFlagType *|TThostFtdcBrokerTypeType *|TThostFtdcBrokerUserTypeType *|TThostFtdcBusinessClassType *|TThostFtdcBusinessTypeType *|TThostFtdcByGroupType *|TThostFtdcByInvestorRangeType *|TThostFtdcCCBFeeModeType *|TThostFtdcCFFEXUploadFileNameType *|TThostFtdcCFMMCKeyKindType *|TThostFtdcCSRCDataQueyTypeType *|TThostFtdcCSRCFundIOTypeType *|TThostFtdcCTPTypeType *|TThostFtdcCZCEUploadFileNameType *|TThostFtdcCashExchangeCodeType *|TThostFtdcCertificationTypeType *|TThostFtdcCfmmcReturnCodeType *|TThostFtdcCheckInstrTypeType *|TThostFtdcCheckLevelType *|TThostFtdcCheckStatusType *|TThostFtdcClassTypeType *|TThostFtdcClientIDStatusType *|TThostFtdcClientIDTypeType *|TThostFtdcClientRegionType *|TThostFtdcClientTypeType *|TThostFtdcCloseDealTypeType *|TThostFtdcCloseStyleType *|TThostFtdcCodeSourceTypeType *|TThostFtdcCombDirectionType *|TThostFtdcCombinationTypeType *|TThostFtdcCommApiTypeType *|TThostFtdcConditionalOrderSortTypeType *|TThostFtdcConnectModeType *|TThostFtdcContingentConditionType *|TThostFtdcCurrExDirectionType *|TThostFtdcCurrencySwapStatusType *|TThostFtdcCusAccountTypeType *|TThostFtdcCustTypeType *|TThostFtdcDAClientTypeType *|TThostFtdcDBOperationType *|TThostFtdcDCEUploadFileNameType *|TThostFtdcDataResourceType *|TThostFtdcDataStatusType *|TThostFtdcDataSyncStatusType *|TThostFtdcDceCombinationTypeType *|TThostFtdcDeliveryModeType *|TThostFtdcDeliveryTypeType *|TThostFtdcDepartmentRangeType *|TThostFtdcDirectionEnType *|TThostFtdcDirectionType *|TThostFtdcEnumBoolType *|TThostFtdcEventModeType *|TThostFtdcExClientIDTypeType *|TThostFtdcExDirectionType *|TThostFtdcExStatusType *|TThostFtdcExchangeConnectStatusType *|TThostFtdcExchangeIDTypeType *|TThostFtdcExchangePropertyType *|TThostFtdcExchangeSettlementParamIDType *|TThostFtdcExecOrderCloseFlagType *|TThostFtdcExecOrderPositionFlagType *|TThostFtdcExecResultType *|TThostFtdcExportFileTypeType *|TThostFtdcExprSetModeType *|TThostFtdcFBEAlreadyTradeType *|TThostFtdcFBEExchStatusType *|TThostFtdcFBEFileFlagType *|TThostFtdcFBEReqFlagType *|TThostFtdcFBEResultFlagType *|TThostFtdcFBEUserEventTypeType *|TThostFtdcFBTEncryModeType *|TThostFtdcFBTPassWordTypeType *|TThostFtdcFBTTradeCodeEnumType *|TThostFtdcFBTTransferDirectionType *|TThostFtdcFBTUserEventTypeType *|TThostFtdcFeeAcceptStyleType *|TThostFtdcFeePayFlagType *|TThostFtdcFileBusinessCodeType *|TThostFtdcFileFormatType *|TThostFtdcFileGenStyleType *|TThostFtdcFileIDType *|TThostFtdcFileStatusType *|TThostFtdcFileTypeType *|TThostFtdcFileUploadStatusType *|TThostFtdcFindMarginRateAlgoIDType *|TThostFtdcFlexStatModeType *|TThostFtdcFlowIDType *|TThostFtdcForQuoteStatusType *|TThostFtdcForceCloseReasonType *|TThostFtdcForceCloseTypeType *|TThostFtdcFreezeStatusType *|TThostFtdcFunctionCodeType *|TThostFtdcFundDirectionEnType *|TThostFtdcFundDirectionType *|TThostFtdcFundEventTypeType *|TThostFtdcFundIOTypeEnType *|TThostFtdcFundIOTypeType *|TThostFtdcFundMortDirectionEnType *|TThostFtdcFundMortDirectionType *|TThostFtdcFundMortgageTypeType *|TThostFtdcFundStatusType *|TThostFtdcFundTypeEnType *|TThostFtdcFundTypeType *|TThostFtdcFutureAccTypeType *|TThostFtdcFuturePwdFlagType *|TThostFtdcFutureTypeType *|TThostFtdcGenderType *|TThostFtdcGiveUpDataSourceType *|TThostFtdcHandlePositionAlgoIDType *|TThostFtdcHandleTradingAccountAlgoIDType *|TThostFtdcHasBoardType *|TThostFtdcHasTrusteeType *|TThostFtdcHedgeFlagEnType *|TThostFtdcHedgeFlagType *|TThostFtdcIdCardTypeType *|TThostFtdcIncludeCloseProfitType *|TThostFtdcInitSettlementType *|TThostFtdcInstLifePhaseType *|TThostFtdcInstMarginCalIDType *|TThostFtdcInstStatusEnterReasonType *|TThostFtdcInstitutionTypeType *|TThostFtdcInstrumentClassType *|TThostFtdcInstrumentStatusType *|TThostFtdcInvestorRangeType *|TThostFtdcInvestorRiskStatusType *|TThostFtdcInvestorSettlementParamIDType *|TThostFtdcInvestorTypeType *|TThostFtdcInvstTradingRightType *|TThostFtdcLanguageTypeType *|TThostFtdcLastFragmentType *|TThostFtdcLimitUseTypeType *|TThostFtdcLinkStatusType *|TThostFtdcLoginModeType *|TThostFtdcManageStatusType *|TThostFtdcMarginPriceTypeType *|TThostFtdcMarginRateTypeType *|TThostFtdcMarginTypeType *|TThostFtdcMatchTypeType *|TThostFtdcMaxMarginSideAlgorithmType *|TThostFtdcMoneyAccountStatusType *|TThostFtdcMonthBillTradeSumType *|TThostFtdcMortgageFundUseRangeType *|TThostFtdcMortgageTypeType *|TThostFtdcNewsUrgencyType *|TThostFtdcNoteTypeType *|TThostFtdcNotifyClassType *|TThostFtdcOTCTradeTypeType *|TThostFtdcOTPStatusType *|TThostFtdcOTPTypeType *|TThostFtdcOffsetFlagEnType *|TThostFtdcOffsetFlagType *|TThostFtdcOpenLimitControlLevelType *|TThostFtdcOpenOrDestroyType *|TThostFtdcOptSelfCloseFlagType *|TThostFtdcOptionRoyaltyPriceTypeType *|TThostFtdcOptionsTypeType *|TThostFtdcOrderActionStatusType *|TThostFtdcOrderCancelAlgType *|TThostFtdcOrderFreqControlLevelType *|TThostFtdcOrderPriceTypeType *|TThostFtdcOrderSourceType *|TThostFtdcOrderStatusType *|TThostFtdcOrderSubmitStatusType *|TThostFtdcOrderTypeType *|TThostFtdcOrgSystemIDType *|TThostFtdcOrganLevelType *|TThostFtdcOrganStatusType *|TThostFtdcOrganTypeType *|TThostFtdcParkedOrderStatusType *|TThostFtdcPassWordKeyTypeType *|TThostFtdcPasswordTypeType *|TThostFtdcPersonTypeType *|TThostFtdcPortfTypeType *|TThostFtdcPortfolioType *|TThostFtdcPosiDirectionType *|TThostFtdcPositionDateType *|TThostFtdcPositionDateTypeType *|TThostFtdcPositionTypeType *|TThostFtdcPriceSourceType *|TThostFtdcProcessStatusType *|TThostFtdcProdChangeFlagType *|TThostFtdcProductClassType *|TThostFtdcProductLifePhaseType *|TThostFtdcProductStatusType *|TThostFtdcProductTypeType *|TThostFtdcPromptTypeType *|TThostFtdcPropertyInvestorRangeType *|TThostFtdcProtocalIDType *|TThostFtdcPublishStatusType *|TThostFtdcPwdFlagType *|TThostFtdcPwdRcdSrcType *|TThostFtdcQueryInvestorRangeType *|TThostFtdcQuestionTypeType *|TThostFtdcRCAMSCombinationTypeType *|TThostFtdcRateInvestorRangeType *|TThostFtdcRateTypeType *|TThostFtdcRatioAttrType *|TThostFtdcReasonType *|TThostFtdcReportStatusType *|TThostFtdcReqFlagType *|TThostFtdcReqRspTypeType *|TThostFtdcResFlagType *|TThostFtdcReserveOpenAccStasType *|TThostFtdcResponseValueType *|TThostFtdcReturnLevelType *|TThostFtdcReturnPatternType *|TThostFtdcReturnStandardType *|TThostFtdcReturnStyleType *|TThostFtdcRightParamTypeType *|TThostFtdcRiskLevelType *|TThostFtdcRiskNotifyMethodType *|TThostFtdcRiskNotifyStatusType *|TThostFtdcRiskUserEventType *|TThostFtdcSHFEUploadFileNameType *|TThostFtdcSaveStatusType *|TThostFtdcSecuAccTypeType *|TThostFtdcSendMethodType *|TThostFtdcSendTypeType *|TThostFtdcSettArchiveStatusType *|TThostFtdcSettleManagerGroupType *|TThostFtdcSettleManagerLevelType *|TThostFtdcSettleManagerTypeType *|TThostFtdcSettlementBillTypeType *|TThostFtdcSettlementStatusType *|TThostFtdcSettlementStyleType *|TThostFtdcSexType *|TThostFtdcSpecPosiTypeType *|TThostFtdcSpecProductTypeType *|TThostFtdcSpecialCreateRuleType *|TThostFtdcSponsorTypeType *|TThostFtdcStandardStatusType *|TThostFtdcStartModeType *|TThostFtdcStatModeType *|TThostFtdcStrikeModeType *|TThostFtdcStrikeOffsetTypeType *|TThostFtdcStrikeTypeType *|TThostFtdcSwapSourceTypeType *|TThostFtdcSyncDataStatusType *|TThostFtdcSyncDeltaStatusType *|TThostFtdcSyncFlagType *|TThostFtdcSyncModeType *|TThostFtdcSyncTypeType *|TThostFtdcSysOperModeType *|TThostFtdcSysOperTypeType *|TThostFtdcSysSettlementStatusType *|TThostFtdcSystemParamIDType *|TThostFtdcSystemStatusType *|TThostFtdcSystemTypeType *|TThostFtdcTemplateTypeType *|TThostFtdcTimeConditionType *|TThostFtdcTimeRangeType *|TThostFtdcTradeParamIDType *|TThostFtdcTradeSourceType *|TThostFtdcTradeSumStatModeType *|TThostFtdcTradeTypeType *|TThostFtdcTraderConnectStatusType *|TThostFtdcTradingRightType *|TThostFtdcTradingRoleType *|TThostFtdcTradingTypeType *|TThostFtdcTransferDirectionType *|TThostFtdcTransferStatusType *|TThostFtdcTransferTypeType *|TThostFtdcTransferValidFlagType *|TThostFtdcTxnEndFlagType *|TThostFtdcUOAAssetmgrTypeType *|TThostFtdcUOAAutoSendType *|TThostFtdcUpdateFlagType *|TThostFtdcUsedStatusType *|TThostFtdcUserEventTypeType *|TThostFtdcUserRangeType *|TThostFtdcUserRightTypeType *|TThostFtdcUserTypeType *|TThostFtdcValueMethodType *|TThostFtdcVirBankAccTypeType *|TThostFtdcVirDealStatusType *|TThostFtdcVirTradeStatusType *|TThostFtdcVirementAvailAbilityType *|TThostFtdcVirementStatusType *|TThostFtdcVirementTradeCodeType *|TThostFtdcVolumeConditionType *|TThostFtdcWeakPasswordSourceType *|TThostFtdcWithDrawParamIDType *|TThostFtdcYesNoIndicatorType *|char *");
    ("_p_double", "TThostFtdcAMLMoneyType *|TThostFtdcAMLOpParamValueType *|TThostFtdcAdjustValueType *|TThostFtdcBigMoneyType *|TThostFtdcCSRCMoneyType *|TThostFtdcCSRCPriceType *|TThostFtdcCSRCStrikePriceType *|TThostFtdcCurrencyUnitType *|TThostFtdcCustFeeType *|TThostFtdcDeltaType *|TThostFtdcDiscountRatioType *|TThostFtdcExRateType *|TThostFtdcExchangeRateType *|TThostFtdcFBEAmtType *|TThostFtdcFutureFeeType *|TThostFtdcHedgeRateType *|TThostFtdcLargeVolumeType *|TThostFtdcMoneyType *|TThostFtdcPriceType *|TThostFtdcRatioType *|TThostFtdcRiskValueType *|TThostFtdcSPMMDiscountRatioType *|TThostFtdcSingleMaxAmtType *|TThostFtdcSingleMinAmtType *|TThostFtdcStdPositionType *|TThostFtdcTotalAmtType *|TThostFtdcTradeAmountType *|TThostFtdcUnderlyingMultipleType *|double *");
    ("_p_int", "TThostFtdcAMLFileAmountType *|TThostFtdcAdditionalInfoLenType *|TThostFtdcApplicationIDType *|TThostFtdcBankProxyIDType *|TThostFtdcBoolType *|TThostFtdcBulletinIDType *|TThostFtdcCaptchaInfoLenType *|TThostFtdcCheckNoType *|TThostFtdcComTypeType *|TThostFtdcCommApiPointerType *|TThostFtdcCommandNoType *|TThostFtdcCommodityGroupIDType *|TThostFtdcCommonIntType *|TThostFtdcCorrectSerialType *|TThostFtdcCurrentAuthMethodType *|TThostFtdcDBOPSeqNoType *|TThostFtdcDCEPriorityType *|TThostFtdcDRIdentityIDType *|TThostFtdcDataCenterIDType *|TThostFtdcErrorIDType *|TThostFtdcExReturnCodeType *|TThostFtdcFBETotalExCntType *|TThostFtdcFBTCoreIDType *|TThostFtdcFBTRequestIDType *|TThostFtdcFrontIDType *|TThostFtdcFutureSerialType *|TThostFtdcHandshakeDataLenType *|TThostFtdcIPPortType *|TThostFtdcImplyLevelType *|TThostFtdcInstallCountType *|TThostFtdcInstallIDType *|TThostFtdcIsCheckPrepaType *|TThostFtdcLastDriftType *|TThostFtdcLastSuccessType *|TThostFtdcLegIDType *|TThostFtdcLegMultipleType *|TThostFtdcMillisecType *|TThostFtdcMonthCountType *|TThostFtdcMonthType *|TThostFtdcOrderActionRefType *|TThostFtdcParamIDType *|TThostFtdcPlateSerialType *|TThostFtdcPortfolioDefIDType *|TThostFtdcPriorityType *|TThostFtdcQueryDepthType *|TThostFtdcQueryFreqType *|TThostFtdcRCAMSPriorityType *|TThostFtdcRecordCountType *|TThostFtdcRepealTimeIntervalType *|TThostFtdcRepealedTimesType *|TThostFtdcRequestIDType *|TThostFtdcRsaKeyVersionType *|TThostFtdcSecType *|TThostFtdcSeqNoType *|TThostFtdcSequenceNo12Type *|TThostFtdcSequenceNoType *|TThostFtdcSerialType *|TThostFtdcServerPortType *|TThostFtdcServiceIDType *|TThostFtdcServiceLineNoType *|TThostFtdcSessionIDType *|TThostFtdcSettlementIDType *|TThostFtdcSpreadIdType *|TThostFtdcStrikeSequenceType *|TThostFtdcSubEntryFundNoType *|TThostFtdcSystemInfoLenType *|TThostFtdcTIDType *|TThostFtdcThostFunctionCodeType *|TThostFtdcTimestampType *|TThostFtdcTopicIDType *|TThostFtdcTotalTimesType *|TThostFtdcTradeGroupIDType *|TThostFtdcTradeSerialNoType *|TThostFtdcTradingSegmentSNType *|TThostFtdcUserTextSeqType *|TThostFtdcVolumeMultipleType *|TThostFtdcVolumeType *|TThostFtdcYearType *|int *");
    ("_p_p_char", "char **");
    ("_p_short", "TThostFtdcCommPhaseNoType *|TThostFtdcSequenceSeriesType *|short *") ].

(** The macros [SWIGTYPE_*]: the name after the prefix and the index in [swig_types]. *)
Definition SWIGTYPE_0 : list (string * Z) :=
  [ ("p_CThostFtdcAccountPropertyField", 0);
    ("p_CThostFtdcAccountregisterField", 1);
    ("p_CThostFtdcAppIDAuthAssignField", 2);
    ("p_CThostFtdcAuthForbiddenIPField", 3);
    ("p_CThostFtdcAuthIPField", 4);
    ("p_CThostFtdcAuthUserIDField", 5);
    ("p_CThostFtdcAuthenticationInfoField", 6);
    ("p_CThostFtdcBatchOrderActionField", 7);
    ("p_CThostFtdcBrokerDepositField", 8);
    ("p_CThostFtdcBrokerField", 9);
    ("p_CThostFtdcBrokerSyncField", 10);
    ("p_CThostFtdcBrokerTradingAlgosField", 11);
    ("p_CThostFtdcBrokerTradingParamsField", 12);
    ("p_CThostFtdcBrokerUserEventField", 13);
    ("p_CThostFtdcBrokerUserField", 14);
    ("p_CThostFtdcBrokerUserFunctionField", 15);
    ("p_CThostFtdcBrokerUserOTPParamField", 16);
    ("p_CThostFtdcBrokerUserPasswordField", 17);
    ("p_CThostFtdcBrokerUserRightAssignField", 18);
    ("p_CThostFtdcBrokerWithdrawAlgorithmField", 19);
    ("p_CThostFtdcBulletinField", 20);
    ("p_CThostFtdcCFMMCBrokerKeyField", 21);
    ("p_CThostFtdcCFMMCTradingAccountKeyField", 22);
    ("p_CThostFtdcCFMMCTradingAccountTokenField", 23);
    ("p_CThostFtdcCancelAccountField", 24);
    ("p_CThostFtdcChangeAccountField", 25);
    ("p_CThostFtdcCombActionField", 26);
    ("p_CThostFtdcCombInstrumentGuardField", 27);
    ("p_CThostFtdcCombPromotionParamField", 28);
    ("p_CThostFtdcCombinationLegField", 29);
    ("p_CThostFtdcCommPhaseField", 30);
    ("p_CThostFtdcCommRateModelField", 31);
    ("p_CThostFtdcContractBankField", 32);
    ("p_CThostFtdcCurrDRIdentityField", 33);
    ("p_CThostFtdcCurrTransferIdentityField", 34);
    ("p_CThostFtdcCurrentTimeField", 35);
    ("p_CThostFtdcDRTransferField", 36);
    ("p_CThostFtdcDepartmentUserField", 37);
    ("p_CThostFtdcDepositResultInformField", 38);
    ("p_CThostFtdcDepthMarketDataField", 39);
    ("p_CThostFtdcDiscountField", 40);
    ("p_CThostFtdcDisseminationField", 41);
    ("p_CThostFtdcEWarrantOffsetField", 42);
    ("p_CThostFtdcErrExecOrderActionField", 43);
    ("p_CThostFtdcErrExecOrderField", 44);
    ("p_CThostFtdcErrOrderActionField", 45);
    ("p_CThostFtdcErrOrderField", 46);
    ("p_CThostFtdcErrorConditionalOrderField", 47);
    ("p_CThostFtdcExchangeBatchOrderActionField", 48);
    ("p_CThostFtdcExchangeCombActionField", 49);
    ("p_CThostFtdcExchangeExecOrderActionField", 50);
    ("p_CThostFtdcExchangeExecOrderField", 51);
    ("p_CThostFtdcExchangeField", 52);
    ("p_CThostFtdcExchangeForQuoteField", 53);
    ("p_CThostFtdcExchangeMarginRateAdjustField", 54);
    ("p_CThostFtdcExchangeMarginRateField", 55);
    ("p_CThostFtdcExchangeOptionSelfCloseActionField", 56);
    ("p_CThostFtdcExchangeOptionSelfCloseField", 57);
    ("p_CThostFtdcExchangeOrderActionErrorField", 58);
    ("p_CThostFtdcExchangeOrderActionField", 59);
    ("p_CThostFtdcExchangeOrderField", 60);
    ("p_CThostFtdcExchangeOrderInsertErrorField", 61);
    ("p_CThostFtdcExchangeQuoteActionField", 62);
    ("p_CThostFtdcExchangeQuoteField", 63);
    ("p_CThostFtdcExchangeRateField", 64);
    ("p_CThostFtdcExchangeSequenceField", 65);
    ("p_CThostFtdcExchangeTradeField", 66);
    ("p_CThostFtdcExecOrderActionField", 67);
    ("p_CThostFtdcExecOrderField", 68);
    ("p_CThostFtdcExitEmergencyField", 69);
    ("p_CThostFtdcFensUserInfoField", 70);
    ("p_CThostFtdcForQuoteField", 71);
    ("p_CThostFtdcForQuoteParamField", 72);
    ("p_CThostFtdcForQuoteRspField", 73);
    ("p_CThostFtdcForceUserLogoutField", 74);
    ("p_CThostFtdcFrontInfoField", 75);
    ("p_CThostFtdcFrontStatusField", 76);
    ("p_CThostFtdcFutureLimitPosiParamField", 77);
    ("p_CThostFtdcFutureSignIOField", 78);
    ("p_CThostFtdcIPListField", 79);
    ("p_CThostFtdcIndexPriceField", 80);
    ("p_CThostFtdcInputBatchOrderActionField", 81);
    ("p_CThostFtdcInputCombActionField", 82);
    ("p_CThostFtdcInputExecOrderActionField", 83);
    ("p_CThostFtdcInputExecOrderField", 84);
    ("p_CThostFtdcInputForQuoteField", 85);
    ("p_CThostFtdcInputOptionSelfCloseActionField", 86);
    ("p_CThostFtdcInputOptionSelfCloseField", 87);
    ("p_CThostFtdcInputOrderActionField", 88);
    ("p_CThostFtdcInputOrderField", 89);
    ("p_CThostFtdcInputQuoteActionField", 90);
    ("p_CThostFtdcInputQuoteField", 91);
    ("p_CThostFtdcInstrumentCommissionRateField", 92);
    ("p_CThostFtdcInstrumentField", 93);
    ("p_CThostFtdcInstrumentMarginRateAdjustField", 94);
    ("p_CThostFtdcInstrumentMarginRateField", 95);
    ("p_CThostFtdcInstrumentMarginRateULField", 96);
    ("p_CThostFtdcInstrumentOrderCommRateField", 97);
    ("p_CThostFtdcInstrumentStatusField", 98);
    ("p_CThostFtdcInstrumentTradingRightField", 99);
    ("p_CThostFtdcInvestUnitField", 100);
    ("p_CThostFtdcInvestorAccountField", 101);
    ("p_CThostFtdcInvestorCommodityGroupSPMMMarginField", 102);
    ("p_CThostFtdcInvestorCommoditySPMMMarginField", 103);
    ("p_CThostFtdcInvestorField", 104);
    ("p_CThostFtdcInvestorGroupField", 105);
    ("p_CThostFtdcInvestorInfoCntSettingField", 106);
    ("p_CThostFtdcInvestorPortfMarginModelField", 107);
    ("p_CThostFtdcInvestorPortfMarginRatioField", 108);
    ("p_CThostFtdcInvestorPortfSettingField", 109);
    ("p_CThostFtdcInvestorPositionCombineDetailField", 110);
    ("p_CThostFtdcInvestorPositionDetailField", 111);
    ("p_CThostFtdcInvestorPositionField", 112);
    ("p_CThostFtdcInvestorProdRCAMSMarginField", 113);
    ("p_CThostFtdcInvestorProdRULEMarginField", 114);
    ("p_CThostFtdcInvestorProdSPBMDetailField", 115);
    ("p_CThostFtdcInvestorProductGroupMarginField", 116);
    ("p_CThostFtdcInvestorTradingRightField", 117);
    ("p_CThostFtdcInvestorWithdrawAlgorithmField", 118);
    ("p_CThostFtdcLinkManField", 119);
    ("p_CThostFtdcLoadSettlementInfoField", 120);
    ("p_CThostFtdcLoginForbiddenIPField", 121);
    ("p_CThostFtdcLoginForbiddenUserField", 122);
    ("p_CThostFtdcLoginInfoField", 123);
    ("p_CThostFtdcLogoutAllField", 124);
    ("p_CThostFtdcMDTraderOfferField", 125);
    ("p_CThostFtdcMMInstrumentCommissionRateField", 126);
    ("p_CThostFtdcMMOptionInstrCommRateField", 127);
    ("p_CThostFtdcManualSyncBrokerUserOTPField", 128);
    ("p_CThostFtdcMarginModelField", 129);
    ("p_CThostFtdcMarketDataAsk23Field", 130);
    ("p_CThostFtdcMarketDataAsk45Field", 131);
    ("p_CThostFtdcMarketDataAveragePriceField", 132) ].

Definition SWIGTYPE_1 : list (string * Z) :=
  [ ("p_CThostFtdcMarketDataBandingPriceField", 133);
    ("p_CThostFtdcMarketDataBaseField", 134);
    ("p_CThostFtdcMarketDataBestPriceField", 135);
    ("p_CThostFtdcMarketDataBid23Field", 136);
    ("p_CThostFtdcMarketDataBid45Field", 137);
    ("p_CThostFtdcMarketDataExchangeField", 138);
    ("p_CThostFtdcMarketDataField", 139);
    ("p_CThostFtdcMarketDataLastMatchField", 140);
    ("p_CThostFtdcMarketDataStaticField", 141);
    ("p_CThostFtdcMarketDataUpdateTimeField", 142);
    ("p_CThostFtdcMdApi", 143);
    ("p_CThostFtdcMdSpi", 144);
    ("p_CThostFtdcMortgageParamField", 145);
    ("p_CThostFtdcMulticastInstrumentField", 146);
    ("p_CThostFtdcNoticeField", 147);
    ("p_CThostFtdcNotifyFutureSignInField", 148);
    ("p_CThostFtdcNotifyFutureSignOutField", 149);
    ("p_CThostFtdcNotifyQueryAccountField", 150);
    ("p_CThostFtdcNotifySyncKeyField", 151);
    ("p_CThostFtdcOpenAccountField", 152);
    ("p_CThostFtdcOptionInstrCommRateField", 153);
    ("p_CThostFtdcOptionInstrDeltaField", 154);
    ("p_CThostFtdcOptionInstrMarginAdjustField", 155);
    ("p_CThostFtdcOptionInstrMiniMarginField", 156);
    ("p_CThostFtdcOptionInstrTradeCostField", 157);
    ("p_CThostFtdcOptionInstrTradingRightField", 158);
    ("p_CThostFtdcOptionSelfCloseActionField", 159);
    ("p_CThostFtdcOptionSelfCloseField", 160);
    ("p_CThostFtdcOrderActionField", 161);
    ("p_CThostFtdcOrderField", 162);
    ("p_CThostFtdcParkedOrderActionField", 163);
    ("p_CThostFtdcParkedOrderField", 164);
    ("p_CThostFtdcPartBrokerField", 165);
    ("p_CThostFtdcPortfTradeParamSettingField", 166);
    ("p_CThostFtdcPositionProfitAlgorithmField", 167);
    ("p_CThostFtdcProductExchRateField", 168);
    ("p_CThostFtdcProductField", 169);
    ("p_CThostFtdcProductGroupField", 170);
    ("p_CThostFtdcQryAccountregisterField", 171);
    ("p_CThostFtdcQryAuthForbiddenIPField", 172);
    ("p_CThostFtdcQryBatchOrderActionField", 173);
    ("p_CThostFtdcQryBrokerField", 174);
    ("p_CThostFtdcQryBrokerTradingAlgosField", 175);
    ("p_CThostFtdcQryBrokerTradingParamsField", 176);
    ("p_CThostFtdcQryBrokerUserEventField", 177);
    ("p_CThostFtdcQryBrokerUserField", 178);
    ("p_CThostFtdcQryBrokerUserFunctionField", 179);
    ("p_CThostFtdcQryBulletinField", 180);
    ("p_CThostFtdcQryCFMMCBrokerKeyField", 181);
    ("p_CThostFtdcQryCFMMCTradingAccountKeyField", 182);
    ("p_CThostFtdcQryClassifiedInstrumentField", 183);
    ("p_CThostFtdcQryCombActionField", 184);
    ("p_CThostFtdcQryCombInstrumentGuardField", 185);
    ("p_CThostFtdcQryCombPromotionParamField", 186);
    ("p_CThostFtdcQryCombinationLegField", 187);
    ("p_CThostFtdcQryCommRateModelField", 188);
    ("p_CThostFtdcQryContractBankField", 189);
    ("p_CThostFtdcQryCurrDRIdentityField", 190);
    ("p_CThostFtdcQryDepthMarketDataField", 191);
    ("p_CThostFtdcQryEWarrantOffsetField", 192);
    ("p_CThostFtdcQryErrExecOrderActionField", 193);
    ("p_CThostFtdcQryErrExecOrderField", 194);
    ("p_CThostFtdcQryErrOrderActionField", 195);
    ("p_CThostFtdcQryErrOrderField", 196);
    ("p_CThostFtdcQryExchangeCombActionField", 197);
    ("p_CThostFtdcQryExchangeExecOrderActionField", 198);
    ("p_CThostFtdcQryExchangeExecOrderField", 199);
    ("p_CThostFtdcQryExchangeField", 200);
    ("p_CThostFtdcQryExchangeForQuoteField", 201);
    ("p_CThostFtdcQryExchangeMarginRateAdjustField", 202);
    ("p_CThostFtdcQryExchangeMarginRateField", 203);
    ("p_CThostFtdcQryExchangeOrderActionField", 204);
    ("p_CThostFtdcQryExchangeOrderField", 205);
    ("p_CThostFtdcQryExchangeQuoteActionField", 206);
    ("p_CThostFtdcQryExchangeQuoteField", 207);
    ("p_CThostFtdcQryExchangeRateField", 208);
    ("p_CThostFtdcQryExchangeSequenceField", 209);
    ("p_CThostFtdcQryExecOrderActionField", 210);
    ("p_CThostFtdcQryExecOrderField", 211);
    ("p_CThostFtdcQryForQuoteField", 212);
    ("p_CThostFtdcQryForQuoteParamField", 213);
    ("p_CThostFtdcQryFrontStatusField", 214);
    ("p_CThostFtdcQryHisOrderField", 215);
    ("p_CThostFtdcQryIPListField", 216);
    ("p_CThostFtdcQryInstrumentCommissionRateField", 217);
    ("p_CThostFtdcQryInstrumentField", 218);
    ("p_CThostFtdcQryInstrumentMarginRateField", 219);
    ("p_CThostFtdcQryInstrumentOrderCommRateField", 220);
    ("p_CThostFtdcQryInstrumentStatusField", 221);
    ("p_CThostFtdcQryInstrumentTradingRightField", 222);
    ("p_CThostFtdcQryInvestUnitField", 223);
    ("p_CThostFtdcQryInvestorCommodityGroupSPMMMarginField", 224);
    ("p_CThostFtdcQryInvestorCommoditySPMMMarginField", 225);
    ("p_CThostFtdcQryInvestorField", 226);
    ("p_CThostFtdcQryInvestorGroupField", 227);
    ("p_CThostFtdcQryInvestorPortfMarginRatioField", 228);
    ("p_CThostFtdcQryInvestorPortfSettingField", 229);
    ("p_CThostFtdcQryInvestorPositionCombineDetailField", 230);
    ("p_CThostFtdcQryInvestorPositionDetailField", 231);
    ("p_CThostFtdcQryInvestorPositionField", 232);
    ("p_CThostFtdcQryInvestorProdRCAMSMarginField", 233);
    ("p_CThostFtdcQryInvestorProdRULEMarginField", 234);
    ("p_CThostFtdcQryInvestorProdSPBMDetailField", 235);
    ("p_CThostFtdcQryInvestorProductGroupMarginField", 236);
    ("p_CThostFtdcQryLinkManField", 237);
    ("p_CThostFtdcQryLoginForbiddenIPField", 238);
    ("p_CThostFtdcQryLoginForbiddenUserField", 239);
    ("p_CThostFtdcQryMDTraderOfferField", 240);
    ("p_CThostFtdcQryMMInstrumentCommissionRateField", 241);
    ("p_CThostFtdcQryMMOptionInstrCommRateField", 242);
    ("p_CThostFtdcQryMarginModelField", 243);
    ("p_CThostFtdcQryMaxOrderVolumeField", 244);
    ("p_CThostFtdcQryMaxOrderVolumeWithPriceField", 245);
    ("p_CThostFtdcQryMulticastInstrumentField", 246);
    ("p_CThostFtdcQryNoticeField", 247);
    ("p_CThostFtdcQryOptionInstrCommRateField", 248);
    ("p_CThostFtdcQryOptionInstrTradeCostField", 249);
    ("p_CThostFtdcQryOptionInstrTradingRightField", 250);
    ("p_CThostFtdcQryOptionSelfCloseActionField", 251);
    ("p_CThostFtdcQryOptionSelfCloseField", 252);
    ("p_CThostFtdcQryOrderActionField", 253);
    ("p_CThostFtdcQryOrderField", 254);
    ("p_CThostFtdcQryParkedOrderActionField", 255);
    ("p_CThostFtdcQryParkedOrderField", 256);
    ("p_CThostFtdcQryPartBrokerField", 257);
    ("p_CThostFtdcQryProductExchRateField", 258);
    ("p_CThostFtdcQryProductField", 259);
    ("p_CThostFtdcQryProductGroupField", 260);
    ("p_CThostFtdcQryQuoteActionField", 261);
    ("p_CThostFtdcQryQuoteField", 262);
    ("p_CThostFtdcQryRCAMSCombProductInfoField", 263);
    ("p_CThostFtdcQryRCAMSInstrParameterField", 264);
    ("p_CThostFtdcQryRCAMSInterParameterField", 265) ].

Definition SWIGTYPE_2 : list (string * Z) :=
  [ ("p_CThostFtdcQryRCAMSIntraParameterField", 266);
    ("p_CThostFtdcQryRCAMSInvestorCombPositionField", 267);
    ("p_CThostFtdcQryRCAMSShortOptAdjustParamField", 268);
    ("p_CThostFtdcQryRULEInstrParameterField", 269);
    ("p_CThostFtdcQryRULEInterParameterField", 270);
    ("p_CThostFtdcQryRULEIntraParameterField", 271);
    ("p_CThostFtdcQryRiskSettleInvstPositionField", 272);
    ("p_CThostFtdcQryRiskSettleProductStatusField", 273);
    ("p_CThostFtdcQrySPBMAddOnInterParameterField", 274);
    ("p_CThostFtdcQrySPBMFutureParameterField", 275);
    ("p_CThostFtdcQrySPBMInterParameterField", 276);
    ("p_CThostFtdcQrySPBMIntraParameterField", 277);
    ("p_CThostFtdcQrySPBMInvestorPortfDefField", 278);
    ("p_CThostFtdcQrySPBMOptionParameterField", 279);
    ("p_CThostFtdcQrySPBMPortfDefinitionField", 280);
    ("p_CThostFtdcQrySPMMInstParamField", 281);
    ("p_CThostFtdcQrySPMMProductParamField", 282);
    ("p_CThostFtdcQrySecAgentACIDMapField", 283);
    ("p_CThostFtdcQrySecAgentCheckModeField", 284);
    ("p_CThostFtdcQrySecAgentTradeInfoField", 285);
    ("p_CThostFtdcQrySettlementInfoConfirmField", 286);
    ("p_CThostFtdcQrySettlementInfoField", 287);
    ("p_CThostFtdcQryStrikeOffsetField", 288);
    ("p_CThostFtdcQrySuperUserField", 289);
    ("p_CThostFtdcQrySuperUserFunctionField", 290);
    ("p_CThostFtdcQrySyncDelaySwapField", 291);
    ("p_CThostFtdcQrySyncDepositField", 292);
    ("p_CThostFtdcQrySyncFundMortgageField", 293);
    ("p_CThostFtdcQrySyncStatusField", 294);
    ("p_CThostFtdcQryThostUserFunctionField", 295);
    ("p_CThostFtdcQryTradeField", 296);
    ("p_CThostFtdcQryTraderAssignField", 297);
    ("p_CThostFtdcQryTraderField", 298);
    ("p_CThostFtdcQryTraderOfferField", 299);
    ("p_CThostFtdcQryTradingAccountField", 300);
    ("p_CThostFtdcQryTradingCodeField", 301);
    ("p_CThostFtdcQryTradingNoticeField", 302);
    ("p_CThostFtdcQryTransferBankField", 303);
    ("p_CThostFtdcQryTransferSerialField", 304);
    ("p_CThostFtdcQryUserRightsAssignField", 305);
    ("p_CThostFtdcQryUserSessionField", 306);
    ("p_CThostFtdcQueryBrokerDepositField", 307);
    ("p_CThostFtdcQueryCFMMCTradingAccountTokenField", 308);
    ("p_CThostFtdcQueryFreqField", 309);
    ("p_CThostFtdcQuoteActionField", 310);
    ("p_CThostFtdcQuoteField", 311);
    ("p_CThostFtdcRCAMSCombProductInfoField", 312);
    ("p_CThostFtdcRCAMSInstrParameterField", 313);
    ("p_CThostFtdcRCAMSInterParameterField", 314);
    ("p_CThostFtdcRCAMSIntraParameterField", 315);
    ("p_CThostFtdcRCAMSInvestorCombPositionField", 316);
    ("p_CThostFtdcRCAMSShortOptAdjustParamField", 317);
    ("p_CThostFtdcRULEInstrParameterField", 318);
    ("p_CThostFtdcRULEInterParameterField", 319);
    ("p_CThostFtdcRULEIntraParameterField", 320);
    ("p_CThostFtdcRemoveParkedOrderActionField", 321);
    ("p_CThostFtdcRemoveParkedOrderField", 322);
    ("p_CThostFtdcReqApiHandshakeField", 323);
    ("p_CThostFtdcReqAuthenticateField", 324);
    ("p_CThostFtdcReqCancelAccountField", 325);
    ("p_CThostFtdcReqChangeAccountField", 326);
    ("p_CThostFtdcReqDayEndFileReadyField", 327);
    ("p_CThostFtdcReqFutureSignOutField", 328);
    ("p_CThostFtdcReqGenUserCaptchaField", 329);
    ("p_CThostFtdcReqGenUserTextField", 330);
    ("p_CThostFtdcReqOpenAccountField", 331);
    ("p_CThostFtdcReqQueryAccountField", 332);
    ("p_CThostFtdcReqQueryTradeResultBySerialField", 333);
    ("p_CThostFtdcReqRepealField", 334);
    ("p_CThostFtdcReqSyncKeyField", 335);
    ("p_CThostFtdcReqTransferField", 336);
    ("p_CThostFtdcReqUserAuthMethodField", 337);
    ("p_CThostFtdcReqUserLoginField", 338);
    ("p_CThostFtdcReqUserLoginSMField", 339);
    ("p_CThostFtdcReqUserLoginWithCaptchaField", 340);
    ("p_CThostFtdcReqUserLoginWithOTPField", 341);
    ("p_CThostFtdcReqUserLoginWithTextField", 342);
    ("p_CThostFtdcReqVerifyApiKeyField", 343);
    ("p_CThostFtdcReserveOpenAccountConfirmField", 344);
    ("p_CThostFtdcReserveOpenAccountField", 345);
    ("p_CThostFtdcReturnResultField", 346);
    ("p_CThostFtdcRiskSettleInvstPositionField", 347);
    ("p_CThostFtdcRiskSettleProductStatusField", 348);
    ("p_CThostFtdcRspApiHandshakeField", 349);
    ("p_CThostFtdcRspAuthenticateField", 350);
    ("p_CThostFtdcRspFutureSignInField", 351);
    ("p_CThostFtdcRspFutureSignOutField", 352);
    ("p_CThostFtdcRspGenUserCaptchaField", 353);
    ("p_CThostFtdcRspGenUserTextField", 354);
    ("p_CThostFtdcRspInfoField", 355);
    ("p_CThostFtdcRspQueryAccountField", 356);
    ("p_CThostFtdcRspQueryTradeResultBySerialField", 357);
    ("p_CThostFtdcRspRepealField", 358);
    ("p_CThostFtdcRspSyncKeyField", 359);
    ("p_CThostFtdcRspTransferField", 360);
    ("p_CThostFtdcRspUserAuthMethodField", 361);
    ("p_CThostFtdcRspUserLogin2Field", 362);
    ("p_CThostFtdcRspUserLoginField", 363);
    ("p_CThostFtdcSPBMAddOnInterParameterField", 364);
    ("p_CThostFtdcSPBMFutureParameterField", 365);
    ("p_CThostFtdcSPBMInterParameterField", 366);
    ("p_CThostFtdcSPBMIntraParameterField", 367);
    ("p_CThostFtdcSPBMInvestorPortfDefField", 368);
    ("p_CThostFtdcSPBMOptionParameterField", 369);
    ("p_CThostFtdcSPBMPortfDefinitionField", 370);
    ("p_CThostFtdcSPMMInstParamField", 371);
    ("p_CThostFtdcSPMMProductParamField", 372);
    ("p_CThostFtdcSecAgentACIDMapField", 373);
    ("p_CThostFtdcSecAgentCheckModeField", 374);
    ("p_CThostFtdcSecAgentTradeInfoField", 375);
    ("p_CThostFtdcSettlementInfoConfirmField", 376);
    ("p_CThostFtdcSettlementInfoField", 377);
    ("p_CThostFtdcSettlementRefField", 378);
    ("p_CThostFtdcSpecificInstrumentField", 379);
    ("p_CThostFtdcStrikeOffsetField", 380);
    ("p_CThostFtdcSuperUserField", 381);
    ("p_CThostFtdcSuperUserFunctionField", 382);
    ("p_CThostFtdcSyncDelaySwapField", 383);
    ("p_CThostFtdcSyncDelaySwapFrozenField", 384);
    ("p_CThostFtdcSyncDeltaDceCombInstrumentField", 385);
    ("p_CThostFtdcSyncDeltaDepthMarketDataField", 386);
    ("p_CThostFtdcSyncDeltaEWarrantOffsetField", 387);
    ("p_CThostFtdcSyncDeltaExchMarginRateField", 388);
    ("p_CThostFtdcSyncDeltaIndexPriceField", 389);
    ("p_CThostFtdcSyncDeltaInfoField", 390);
    ("p_CThostFtdcSyncDeltaInitInvstMarginField", 391);
    ("p_CThostFtdcSyncDeltaInvestorSPMMModelField", 392);
    ("p_CThostFtdcSyncDeltaInvstCommRateField", 393);
    ("p_CThostFtdcSyncDeltaInvstMarginRateField", 394);
    ("p_CThostFtdcSyncDeltaInvstMarginRateULField", 395);
    ("p_CThostFtdcSyncDeltaInvstPosCombDtlField", 396);
    ("p_CThostFtdcSyncDeltaInvstPosDtlField", 397);
    ("p_CThostFtdcSyncDeltaOptExchMarginField", 398) ].

Definition SWIGTYPE_3 : list (string * Z) :=
  [ ("p_CThostFtdcSyncDeltaOptInvstCommRateField", 399);
    ("p_CThostFtdcSyncDeltaOptInvstMarginField", 400);
    ("p_CThostFtdcSyncDeltaProductExchRateField", 401);
    ("p_CThostFtdcSyncDeltaProductStatusField", 402);
    ("p_CThostFtdcSyncDeltaRCAMSCombProdInfoField", 403);
    ("p_CThostFtdcSyncDeltaRCAMSCombRuleDtlField", 404);
    ("p_CThostFtdcSyncDeltaRCAMSInstrParameterField", 405);
    ("p_CThostFtdcSyncDeltaRCAMSInterParameterField", 406);
    ("p_CThostFtdcSyncDeltaRCAMSIntraParameterField", 407);
    ("p_CThostFtdcSyncDeltaRCAMSInvstCombPosField", 408);
    ("p_CThostFtdcSyncDeltaRCAMSSOptAdjParamField", 409);
    ("p_CThostFtdcSyncDeltaRULEInstrParameterField", 410);
    ("p_CThostFtdcSyncDeltaRULEInterParameterField", 411);
    ("p_CThostFtdcSyncDeltaRULEIntraParameterField", 412);
    ("p_CThostFtdcSyncDeltaSPBMAddOnInterParamField", 413);
    ("p_CThostFtdcSyncDeltaSPBMFutureParameterField", 414);
    ("p_CThostFtdcSyncDeltaSPBMInterParameterField", 415);
    ("p_CThostFtdcSyncDeltaSPBMIntraParameterField", 416);
    ("p_CThostFtdcSyncDeltaSPBMInvstPortfDefField", 417);
    ("p_CThostFtdcSyncDeltaSPBMOptionParameterField", 418);
    ("p_CThostFtdcSyncDeltaSPBMPortfDefinitionField", 419);
    ("p_CThostFtdcSyncDeltaSPMMInstParamField", 420);
    ("p_CThostFtdcSyncDeltaSPMMModelParamField", 421);
    ("p_CThostFtdcSyncDeltaSPMMProductParamField", 422);
    ("p_CThostFtdcSyncDeltaTradingAccountField", 423);
    ("p_CThostFtdcSyncDepositField", 424);
    ("p_CThostFtdcSyncFundMortgageField", 425);
    ("p_CThostFtdcSyncSPBMParameterEndField", 426);
    ("p_CThostFtdcSyncStatusField", 427);
    ("p_CThostFtdcSyncingInstrumentCommissionRateField", 428);
    ("p_CThostFtdcSyncingInstrumentMarginRateField", 429);
    ("p_CThostFtdcSyncingInstrumentTradingRightField", 430);
    ("p_CThostFtdcSyncingInvestorField", 431);
    ("p_CThostFtdcSyncingInvestorGroupField", 432);
    ("p_CThostFtdcSyncingInvestorPositionField", 433);
    ("p_CThostFtdcSyncingTradingAccountField", 434);
    ("p_CThostFtdcSyncingTradingCodeField", 435);
    ("p_CThostFtdcThostUserFunctionField", 436);
    ("p_CThostFtdcTradeField", 437);
    ("p_CThostFtdcTradeParamField", 438);
    ("p_CThostFtdcTraderApi", 439);
    ("p_CThostFtdcTraderAssignField", 440);
    ("p_CThostFtdcTraderField", 441);
    ("p_CThostFtdcTraderOfferField", 442);
    ("p_CThostFtdcTraderSpi", 443);
    ("p_CThostFtdcTradingAccountField", 444);
    ("p_CThostFtdcTradingAccountPasswordField", 445);
    ("p_CThostFtdcTradingAccountPasswordUpdateField", 446);
    ("p_CThostFtdcTradingAccountPasswordUpdateV1Field", 447);
    ("p_CThostFtdcTradingAccountReserveField", 448);
    ("p_CThostFtdcTradingCodeField", 449);
    ("p_CThostFtdcTradingNoticeField", 450);
    ("p_CThostFtdcTradingNoticeInfoField", 451);
    ("p_CThostFtdcTransferBankField", 452);
    ("p_CThostFtdcTransferBankToFutureReqField", 453);
    ("p_CThostFtdcTransferBankToFutureRspField", 454);
    ("p_CThostFtdcTransferFutureToBankReqField", 455);
    ("p_CThostFtdcTransferFutureToBankRspField", 456);
    ("p_CThostFtdcTransferHeaderField", 457);
    ("p_CThostFtdcTransferQryBankReqField", 458);
    ("p_CThostFtdcTransferQryBankRspField", 459);
    ("p_CThostFtdcTransferQryDetailReqField", 460);
    ("p_CThostFtdcTransferQryDetailRspField", 461);
    ("p_CThostFtdcTransferSerialField", 462);
    ("p_CThostFtdcUserIPField", 463);
    ("p_CThostFtdcUserLogoutField", 464);
    ("p_CThostFtdcUserPasswordUpdateField", 465);
    ("p_CThostFtdcUserRightField", 466);
    ("p_CThostFtdcUserRightsAssignField", 467);
    ("p_CThostFtdcUserSessionField", 468);
    ("p_CThostFtdcUserSystemInfoField", 469);
    ("p_CThostFtdcVerifyCustInfoField", 470);
    ("p_CThostFtdcVerifyFuturePasswordAndCustInfoField", 471);
    ("p_CThostFtdcVerifyFuturePasswordField", 472);
    ("p_CThostFtdcVerifyInvestorPasswordField", 473);
    ("p_CThostFtdcWithDrawParamField", 474);
    ("p_a_1001__char", 475);
    ("p_a_100__char", 476);
    ("p_a_101__char", 477);
    ("p_a_1025__char", 478);
    ("p_a_10__char", 479);
    ("p_a_11__char", 480);
    ("p_a_129__char", 481);
    ("p_a_12__char", 482);
    ("p_a_13__char", 483);
    ("p_a_151__char", 484);
    ("p_a_15__char", 485);
    ("p_a_161__char", 486);
    ("p_a_16__char", 487);
    ("p_a_17__char", 488);
    ("p_a_201__char", 489);
    ("p_a_2049__char", 490);
    ("p_a_20__char", 491);
    ("p_a_21__char", 492);
    ("p_a_22__char", 493);
    ("p_a_23__char", 494);
    ("p_a_24__char", 495);
    ("p_a_2561__char", 496);
    ("p_a_256__char", 497);
    ("p_a_257__char", 498);
    ("p_a_25__char", 499);
    ("p_a_261__char", 500);
    ("p_a_273__char", 501);
    ("p_a_2__char", 502);
    ("p_a_301__char", 503);
    ("p_a_31__char", 504);
    ("p_a_33__char", 505);
    ("p_a_349__char", 506);
    ("p_a_365__char", 507);
    ("p_a_36__char", 508);
    ("p_a_3__char", 509);
    ("p_a_401__char", 510);
    ("p_a_41__char", 511);
    ("p_a_4__char", 512);
    ("p_a_501__char", 513);
    ("p_a_513__char", 514);
    ("p_a_51__char", 515);
    ("p_a_5__char", 516);
    ("p_a_61__char", 517);
    ("p_a_65__char", 518);
    ("p_a_6__char", 519);
    ("p_a_71__char", 520);
    ("p_a_7__char", 521);
    ("p_a_81__char", 522);
    ("p_a_9__char", 523);
    ("p_char", 524);
    ("p_double", 525);
    ("p_int", 526);
    ("p_p_char", 527);
    ("p_short", 528) ].

(** The initialiser [swig_type_initial].
    (ctp_wrap.cpp, lines 506459 to 506591.) *)
Definition type_initial_0 : list string :=
  [ "_p_CThostFtdcAccountPropertyField";
    "_p_CThostFtdcAccountregisterField";
    "_p_CThostFtdcAppIDAuthAssignField";
    "_p_CThostFtdcAuthForbiddenIPField";
    "_p_CThostFtdcAuthIPField";
    "_p_CThostFtdcAuthUserIDField";
    "_p_CThostFtdcAuthenticationInfoField";
    "_p_CThostFtdcBatchOrderActionField";
    "_p_CThostFtdcBrokerDepositField";
    "_p_CThostFtdcBrokerField";
    "_p_CThostFtdcBrokerSyncField";
    "_p_CThostFtdcBrokerTradingAlgosField";
    "_p_CThostFtdcBrokerTradingParamsField";
    "_p_CThostFtdcBrokerUserEventField";
    "_p_CThostFtdcBrokerUserField";
    "_p_CThostFtdcBrokerUserFunctionField";
    "_p_CThostFtdcBrokerUserOTPParamField";
    "_p_CThostFtdcBrokerUserPasswordField";
    "_p_CThostFtdcBrokerUserRightAssignField";
    "_p_CThostFtdcBrokerWithdrawAlgorithmField";
    "_p_CThostFtdcBulletinField";
    "_p_CThostFtdcCFMMCBrokerKeyField";
    "_p_CThostFtdcCFMMCTradingAccountKeyField";
    "_p_CThostFtdcCFMMCTradingAccountTokenField";
    "_p_CThostFtdcCancelAccountField";
    "_p_CThostFtdcChangeAccountField";
    "_p_CThostFtdcCombActionField";
    "_p_CThostFtdcCombInstrumentGuardField";
    "_p_CThostFtdcCombPromotionParamField";
    "_p_CThostFtdcCombinationLegField";
    "_p_CThostFtdcCommPhaseField";
    "_p_CThostFtdcCommRateModelField";
    "_p_CThostFtdcContractBankField";
    "_p_CThostFtdcCurrDRIdentityField";
    "_p_CThostFtdcCurrTransferIdentityField";
    "_p_CThostFtdcCurrentTimeField";
    "_p_CThostFtdcDRTransferField";
    "_p_CThostFtdcDepartmentUserField";
    "_p_CThostFtdcDepositResultInformField";
    "_p_CThostFtdcDepthMarketDataField";
    "_p_CThostFtdcDiscountField";
    "_p_CThostFtdcDisseminationField";
    "_p_CThostFtdcEWarrantOffsetField";
    "_p_CThostFtdcErrExecOrderActionField";
    "_p_CThostFtdcErrExecOrderField";
    "_p_CThostFtdcErrOrderActionField";
    "_p_CThostFtdcErrOrderField";
    "_p_CThostFtdcErrorConditionalOrderField";
    "_p_CThostFtdcExchangeBatchOrderActionField";
    "_p_CThostFtdcExchangeCombActionField";
    "_p_CThostFtdcExchangeExecOrderActionField";
    "_p_CThostFtdcExchangeExecOrderField";
    "_p_CThostFtdcExchangeField";
    "_p_CThostFtdcExchangeForQuoteField";
    "_p_CThostFtdcExchangeMarginRateAdjustField";
    "_p_CThostFtdcExchangeMarginRateField";
    "_p_CThostFtdcExchangeOptionSelfCloseActionField";
    "_p_CThostFtdcExchangeOptionSelfCloseField";
    "_p_CThostFtdcExchangeOrderActionErrorField";
    "_p_CThostFtdcExchangeOrderActionField";
    "_p_CThostFtdcExchangeOrderField";
    "_p_CThostFtdcExchangeOrderInsertErrorField";
    "_p_CThostFtdcExchangeQuoteActionField";
    "_p_CThostFtdcExchangeQuoteField";
    "_p_CThostFtdcExchangeRateField";
    "_p_CThostFtdcExchangeSequenceField";
    "_p_CThostFtdcExchangeTradeField";
    "_p_CThostFtdcExecOrderActionField";
    "_p_CThostFtdcExecOrderField";
    "_p_CThostFtdcExitEmergencyField";
    "_p_CThostFtdcFensUserInfoField";
    "_p_CThostFtdcForQuoteField";
    "_p_CThostFtdcForQuoteParamField";
    "_p_CThostFtdcForQuoteRspField";
    "_p_CThostFtdcForceUserLogoutField";
    "_p_CThostFtdcFrontInfoField";
    "_p_CThostFtdcFrontStatusField";
    "_p_CThostFtdcFutureLimitPosiParamField";
    "_p_CThostFtdcFutureSignIOField";
    "_p_CThostFtdcIPListField";
    "_p_CThostFtdcIndexPriceField";
    "_p_CThostFtdcInputBatchOrderActionField";
    "_p_CThostFtdcInputCombActionField";
    "_p_CThostFtdcInputExecOrderActionField";
    "_p_CThostFtdcInputExecOrderField";
    "_p_CThostFtdcInputForQuoteField";
    "_p_CThostFtdcInputOptionSelfCloseActionField";
    "_p_CThostFtdcInputOptionSelfCloseField";
    "_p_CThostFtdcInputOrderActionField";
    "_p_CThostFtdcInputOrderField";
    "_p_CThostFtdcInputQuoteActionField";
    "_p_CThostFtdcInputQuoteField";
    "_p_CThostFtdcInstrumentCommissionRateField";
    "_p_CThostFtdcInstrumentField";
    "_p_CThostFtdcInstrumentMarginRateAdjustField";
    "_p_CThostFtdcInstrumentMarginRateField";
    "_p_CThostFtdcInstrumentMarginRateULField";
    "_p_CThostFtdcInstrumentOrderCommRateField";
    "_p_CThostFtdcInstrumentStatusField";
    "_p_CThostFtdcInstrumentTradingRightField";
    "_p_CThostFtdcInvestUnitField";
    "_p_CThostFtdcInvestorAccountField";
    "_p_CThostFtdcInvestorCommodityGroupSPMMMarginField";
    "_p_CThostFtdcInvestorCommoditySPMMMarginField";
    "_p_CThostFtdcInvestorField";
    "_p_CThostFtdcInvestorGroupField";
    "_p_CThostFtdcInvestorInfoCntSettingField";
    "_p_CThostFtdcInvestorPortfMarginModelField";
    "_p_CThostFtdcInvestorPortfMarginRatioField";
    "_p_CThostFtdcInvestorPortfSettingField";
    "_p_CThostFtdcInvestorPositionCombineDetailField";
    "_p_CThostFtdcInvestorPositionDetailField";
    "_p_CThostFtdcInvestorPositionField";
    "_p_CThostFtdcInvestorProdRCAMSMarginField";
    "_p_CThostFtdcInvestorProdRULEMarginField";
    "_p_CThostFtdcInvestorProdSPBMDetailField";
    "_p_CThostFtdcInvestorProductGroupMarginField";
    "_p_CThostFtdcInvestorTradingRightField";
    "_p_CThostFtdcInvestorWithdrawAlgorithmField";
    "_p_CThostFtdcLinkManField";
    "_p_CThostFtdcLoadSettlementInfoField";
    "_p_CThostFtdcLoginForbiddenIPField";
    "_p_CThostFtdcLoginForbiddenUserField";
    "_p_CThostFtdcLoginInfoField";
    "_p_CThostFtdcLogoutAllField";
    "_p_CThostFtdcMDTraderOfferField";
    "_p_CThostFtdcMMInstrumentCommissionRateField";
    "_p_CThostFtdcMMOptionInstrCommRateField";
    "_p_CThostFtdcManualSyncBrokerUserOTPField";
    "_p_CThostFtdcMarginModelField";
    "_p_CThostFtdcMarketDataAsk23Field";
    "_p_CThostFtdcMarketDataAsk45Field";
    "_p_CThostFtdcMarketDataAveragePriceField" ].

(** ctp_wrap.cpp, lines 506592 to 506724. *)
Definition type_initial_1 : list string :=
  [ "_p_CThostFtdcMarketDataBandingPriceField";
    "_p_CThostFtdcMarketDataBaseField";
    "_p_CThostFtdcMarketDataBestPriceField";
    "_p_CThostFtdcMarketDataBid23Field";
    "_p_CThostFtdcMarketDataBid45Field";
    "_p_CThostFtdcMarketDataExchangeField";
    "_p_CThostFtdcMarketDataField";
    "_p_CThostFtdcMarketDataLastMatchField";
    "_p_CThostFtdcMarketDataStaticField";
    "_p_CThostFtdcMarketDataUpdateTimeField";
    "_p_CThostFtdcMdApi";
    "_p_CThostFtdcMdSpi";
    "_p_CThostFtdcMortgageParamField";
    "_p_CThostFtdcMulticastInstrumentField";
    "_p_CThostFtdcNoticeField";
    "_p_CThostFtdcNotifyFutureSignInField";
    "_p_CThostFtdcNotifyFutureSignOutField";
    "_p_CThostFtdcNotifyQueryAccountField";
    "_p_CThostFtdcNotifySyncKeyField";
    "_p_CThostFtdcOpenAccountField";
    "_p_CThostFtdcOptionInstrCommRateField";
    "_p_CThostFtdcOptionInstrDeltaField";
    "_p_CThostFtdcOptionInstrMarginAdjustField";
    "_p_CThostFtdcOptionInstrMiniMarginField";
    "_p_CThostFtdcOptionInstrTradeCostField";
    "_p_CThostFtdcOptionInstrTradingRightField";
    "_p_CThostFtdcOptionSelfCloseActionField";
    "_p_CThostFtdcOptionSelfCloseField";
    "_p_CThostFtdcOrderActionField";
    "_p_CThostFtdcOrderField";
    "_p_CThostFtdcParkedOrderActionField";
    "_p_CThostFtdcParkedOrderField";
    "_p_CThostFtdcPartBrokerField";
    "_p_CThostFtdcPortfTradeParamSettingField";
    "_p_CThostFtdcPositionProfitAlgorithmField";
    "_p_CThostFtdcProductExchRateField";
    "_p_CThostFtdcProductField";
    "_p_CThostFtdcProductGroupField";
    "_p_CThostFtdcQryAccountregisterField";
    "_p_CThostFtdcQryAuthForbiddenIPField";
    "_p_CThostFtdcQryBatchOrderActionField";
    "_p_CThostFtdcQryBrokerField";
    "_p_CThostFtdcQryBrokerTradingAlgosField";
    "_p_CThostFtdcQryBrokerTradingParamsField";
    "_p_CThostFtdcQryBrokerUserEventField";
    "_p_CThostFtdcQryBrokerUserField";
    "_p_CThostFtdcQryBrokerUserFunctionField";
    "_p_CThostFtdcQryBulletinField";
    "_p_CThostFtdcQryCFMMCBrokerKeyField";
    "_p_CThostFtdcQryCFMMCTradingAccountKeyField";
    "_p_CThostFtdcQryClassifiedInstrumentField";
    "_p_CThostFtdcQryCombActionField";
    "_p_CThostFtdcQryCombInstrumentGuardField";
    "_p_CThostFtdcQryCombPromotionParamField";
    "_p_CThostFtdcQryCombinationLegField";
    "_p_CThostFtdcQryCommRateModelField";
    "_p_CThostFtdcQryContractBankField";
    "_p_CThostFtdcQryCurrDRIdentityField";
    "_p_CThostFtdcQryDepthMarketDataField";
    "_p_CThostFtdcQryEWarrantOffsetField";
    "_p_CThostFtdcQryErrExecOrderActionField";
    "_p_CThostFtdcQryErrExecOrderField";
    "_p_CThostFtdcQryErrOrderActionField";
    "_p_CThostFtdcQryErrOrderField";
    "_p_CThostFtdcQryExchangeCombActionField";
    "_p_CThostFtdcQryExchangeExecOrderActionField";
    "_p_CThostFtdcQryExchangeExecOrderField";
    "_p_CThostFtdcQryExchangeField";
    "_p_CThostFtdcQryExchangeForQuoteField";
    "_p_CThostFtdcQryExchangeMarginRateAdjustField";
    "_p_CThostFtdcQryExchangeMarginRateField";
    "_p_CThostFtdcQryExchangeOrderActionField";
    "_p_CThostFtdcQryExchangeOrderField";
    "_p_CThostFtdcQryExchangeQuoteActionField";
    "_p_CThostFtdcQryExchangeQuoteField";
    "_p_CThostFtdcQryExchangeRateField";
    "_p_CThostFtdcQryExchangeSequenceField";
    "_p_CThostFtdcQryExecOrderActionField";
    "_p_CThostFtdcQryExecOrderField";
    "_p_CThostFtdcQryForQuoteField";
    "_p_CThostFtdcQryForQuoteParamField";
    "_p_CThostFtdcQryFrontStatusField";
    "_p_CThostFtdcQryHisOrderField";
    "_p_CThostFtdcQryIPListField";
    "_p_CThostFtdcQryInstrumentCommissionRateField";
    "_p_CThostFtdcQryInstrumentField";
    "_p_CThostFtdcQryInstrumentMarginRateField";
    "_p_CThostFtdcQryInstrumentOrderCommRateField";
    "_p_CThostFtdcQryInstrumentStatusField";
    "_p_CThostFtdcQryInstrumentTradingRightField";
    "_p_CThostFtdcQryInvestUnitField";
    "_p_CThostFtdcQryInvestorCommodityGroupSPMMMarginField";
    "_p_CThostFtdcQryInvestorCommoditySPMMMarginField";
    "_p_CThostFtdcQryInvestorField";
    "_p_CThostFtdcQryInvestorGroupField";
    "_p_CThostFtdcQryInvestorPortfMarginRatioField";
    "_p_CThostFtdcQryInvestorPortfSettingField";
    "_p_CThostFtdcQryInvestorPositionCombineDetailField";
    "_p_CThostFtdcQryInvestorPositionDetailField";
    "_p_CThostFtdcQryInvestorPositionField";
    "_p_CThostFtdcQryInvestorProdRCAMSMarginField";
    "_p_CThostFtdcQryInvestorProdRULEMarginField";
    "_p_CThostFtdcQryInvestorProdSPBMDetailField";
    "_p_CThostFtdcQryInvestorProductGroupMarginField";
    "_p_CThostFtdcQryLinkManField";
    "_p_CThostFtdcQryLoginForbiddenIPField";
    "_p_CThostFtdcQryLoginForbiddenUserField";
    "_p_CThostFtdcQryMDTraderOfferField";
    "_p_CThostFtdcQryMMInstrumentCommissionRateField";
    "_p_CThostFtdcQryMMOptionInstrCommRateField";
    "_p_CThostFtdcQryMarginModelField";
    "_p_CThostFtdcQryMaxOrderVolumeField";
    "_p_CThostFtdcQryMaxOrderVolumeWithPriceField";
    "_p_CThostFtdcQryMulticastInstrumentField";
    "_p_CThostFtdcQryNoticeField";
    "_p_CThostFtdcQryOptionInstrCommRateField";
    "_p_CThostFtdcQryOptionInstrTradeCostField";
    "_p_CThostFtdcQryOptionInstrTradingRightField";
    "_p_CThostFtdcQryOptionSelfCloseActionField";
    "_p_CThostFtdcQryOptionSelfCloseField";
    "_p_CThostFtdcQryOrderActionField";
    "_p_CThostFtdcQryOrderField";
    "_p_CThostFtdcQryParkedOrderActionField";
    "_p_CThostFtdcQryParkedOrderField";
    "_p_CThostFtdcQryPartBrokerField";
    "_p_CThostFtdcQryProductExchRateField";
    "_p_CThostFtdcQryProductField";
    "_p_CThostFtdcQryProductGroupField";
    "_p_CThostFtdcQryQuoteActionField";
    "_p_CThostFtdcQryQuoteField";
    "_p_CThostFtdcQryRCAMSCombProductInfoField";
    "_p_CThostFtdcQryRCAMSInstrParameterField";
    "_p_CThostFtdcQryRCAMSInterParameterField" ].

(** ctp_wrap.cpp, lines 506725 to 506857. *)
Definition type_initial_2 : list string :=
  [ "_p_CThostFtdcQryRCAMSIntraParameterField";
    "_p_CThostFtdcQryRCAMSInvestorCombPositionField";
    "_p_CThostFtdcQryRCAMSShortOptAdjustParamField";
    "_p_CThostFtdcQryRULEInstrParameterField";
    "_p_CThostFtdcQryRULEInterParameterField";
    "_p_CThostFtdcQryRULEIntraParameterField";
    "_p_CThostFtdcQryRiskSettleInvstPositionField";
    "_p_CThostFtdcQryRiskSettleProductStatusField";
    "_p_CThostFtdcQrySPBMAddOnInterParameterField";
    "_p_CThostFtdcQrySPBMFutureParameterField";
    "_p_CThostFtdcQrySPBMInterParameterField";
    "_p_CThostFtdcQrySPBMIntraParameterField";
    "_p_CThostFtdcQrySPBMInvestorPortfDefField";
    "_p_CThostFtdcQrySPBMOptionParameterField";
    "_p_CThostFtdcQrySPBMPortfDefinitionField";
    "_p_CThostFtdcQrySPMMInstParamField";
    "_p_CThostFtdcQrySPMMProductParamField";
    "_p_CThostFtdcQrySecAgentACIDMapField";
    "_p_CThostFtdcQrySecAgentCheckModeField";
    "_p_CThostFtdcQrySecAgentTradeInfoField";
    "_p_CThostFtdcQrySettlementInfoConfirmField";
    "_p_CThostFtdcQrySettlementInfoField";
    "_p_CThostFtdcQryStrikeOffsetField";
    "_p_CThostFtdcQrySuperUserField";
    "_p_CThostFtdcQrySuperUserFunctionField";
    "_p_CThostFtdcQrySyncDelaySwapField";
    "_p_CThostFtdcQrySyncDepositField";
    "_p_CThostFtdcQrySyncFundMortgageField";
    "_p_CThostFtdcQrySyncStatusField";
    "_p_CThostFtdcQryThostUserFunctionField";
    "_p_CThostFtdcQryTradeField";
    "_p_CThostFtdcQryTraderAssignField";
    "_p_CThostFtdcQryTraderField";
    "_p_CThostFtdcQryTraderOfferField";
    "_p_CThostFtdcQryTradingAccountField";
    "_p_CThostFtdcQryTradingCodeField";
    "_p_CThostFtdcQryTradingNoticeField";
    "_p_CThostFtdcQryTransferBankField";
    "_p_CThostFtdcQryTransferSerialField";
    "_p_CThostFtdcQryUserRightsAssignField";
    "_p_CThostFtdcQryUserSessionField";
    "_p_CThostFtdcQueryBrokerDepositField";
    "_p_CThostFtdcQueryCFMMCTradingAccountTokenField";
    "_p_CThostFtdcQueryFreqField";
    "_p_CThostFtdcQuoteActionField";
    "_p_CThostFtdcQuoteField";
    "_p_CThostFtdcRCAMSCombProductInfoField";
    "_p_CThostFtdcRCAMSInstrParameterField";
    "_p_CThostFtdcRCAMSInterParameterField";
    "_p_CThostFtdcRCAMSIntraParameterField";
    "_p_CThostFtdcRCAMSInvestorCombPositionField";
    "_p_CThostFtdcRCAMSShortOptAdjustParamField";
    "_p_CThostFtdcRULEInstrParameterField";
    "_p_CThostFtdcRULEInterParameterField";
    "_p_CThostFtdcRULEIntraParameterField";
    "_p_CThostFtdcRemoveParkedOrderActionField";
    "_p_CThostFtdcRemoveParkedOrderField";
    "_p_CThostFtdcReqApiHandshakeField";
    "_p_CThostFtdcReqAuthenticateField";
    "_p_CThostFtdcReqCancelAccountField";
    "_p_CThostFtdcReqChangeAccountField";
    "_p_CThostFtdcReqDayEndFileReadyField";
    "_p_CThostFtdcReqFutureSignOutField";
    "_p_CThostFtdcReqGenUserCaptchaField";
    "_p_CThostFtdcReqGenUserTextField";
    "_p_CThostFtdcReqOpenAccountField";
    "_p_CThostFtdcReqQueryAccountField";
    "_p_CThostFtdcReqQueryTradeResultBySerialField";
    "_p_CThostFtdcReqRepealField";
    "_p_CThostFtdcReqSyncKeyField";
    "_p_CThostFtdcReqTransferField";
    "_p_CThostFtdcReqUserAuthMethodField";
    "_p_CThostFtdcReqUserLoginField";
    "_p_CThostFtdcReqUserLoginSMField";
    "_p_CThostFtdcReqUserLoginWithCaptchaField";
    "_p_CThostFtdcReqUserLoginWithOTPField";
    "_p_CThostFtdcReqUserLoginWithTextField";
    "_p_CThostFtdcReqVerifyApiKeyField";
    "_p_CThostFtdcReserveOpenAccountConfirmField";
    "_p_CThostFtdcReserveOpenAccountField";
    "_p_CThostFtdcReturnResultField";
    "_p_CThostFtdcRiskSettleInvstPositionField";
    "_p_CThostFtdcRiskSettleProductStatusField";
    "_p_CThostFtdcRspApiHandshakeField";
    "_p_CThostFtdcRspAuthenticateField";
    "_p_CThostFtdcRspFutureSignInField";
    "_p_CThostFtdcRspFutureSignOutField";
    "_p_CThostFtdcRspGenUserCaptchaField";
    "_p_CThostFtdcRspGenUserTextField";
    "_p_CThostFtdcRspInfoField";
    "_p_CThostFtdcRspQueryAccountField";
    "_p_CThostFtdcRspQueryTradeResultBySerialField";
    "_p_CThostFtdcRspRepealField";
    "_p_CThostFtdcRspSyncKeyField";
    "_p_CThostFtdcRspTransferField";
    "_p_CThostFtdcRspUserAuthMethodField";
    "_p_CThostFtdcRspUserLogin2Field";
    "_p_CThostFtdcRspUserLoginField";
    "_p_CThostFtdcSPBMAddOnInterParameterField";
    "_p_CThostFtdcSPBMFutureParameterField";
    "_p_CThostFtdcSPBMInterParameterField";
    "_p_CThostFtdcSPBMIntraParameterField";
    "_p_CThostFtdcSPBMInvestorPortfDefField";
    "_p_CThostFtdcSPBMOptionParameterField";
    "_p_CThostFtdcSPBMPortfDefinitionField";
    "_p_CThostFtdcSPMMInstParamField";
    "_p_CThostFtdcSPMMProductParamField";
    "_p_CThostFtdcSecAgentACIDMapField";
    "_p_CThostFtdcSecAgentCheckModeField";
    "_p_CThostFtdcSecAgentTradeInfoField";
    "_p_CThostFtdcSettlementInfoConfirmField";
    "_p_CThostFtdcSettlementInfoField";
    "_p_CThostFtdcSettlementRefField";
    "_p_CThostFtdcSpecificInstrumentField";
    "_p_CThostFtdcStrikeOffsetField";
    "_p_CThostFtdcSuperUserField";
    "_p_CThostFtdcSuperUserFunctionField";
    "_p_CThostFtdcSyncDelaySwapField";
    "_p_CThostFtdcSyncDelaySwapFrozenField";
    "_p_CThostFtdcSyncDeltaDceCombInstrumentField";
    "_p_CThostFtdcSyncDeltaDepthMarketDataField";
    "_p_CThostFtdcSyncDeltaEWarrantOffsetField";
    "_p_CThostFtdcSyncDeltaExchMarginRateField";
    "_p_CThostFtdcSyncDeltaIndexPriceField";
    "_p_CThostFtdcSyncDeltaInfoField";
    "_p_CThostFtdcSyncDeltaInitInvstMarginField";
    "_p_CThostFtdcSyncDeltaInvestorSPMMModelField";
    "_p_CThostFtdcSyncDeltaInvstCommRateField";
    "_p_CThostFtdcSyncDeltaInvstMarginRateField";
    "_p_CThostFtdcSyncDeltaInvstMarginRateULField";
    "_p_CThostFtdcSyncDeltaInvstPosCombDtlField";
    "_p_CThostFtdcSyncDeltaInvstPosDtlField";
    "_p_CThostFtdcSyncDeltaOptExchMarginField" ].

(** ctp_wrap.cpp, lines 506858 to 506987. *)
Definition type_initial_3 : list string :=
  [ "_p_CThostFtdcSyncDeltaOptInvstCommRateField";
    "_p_CThostFtdcSyncDeltaOptInvstMarginField";
    "_p_CThostFtdcSyncDeltaProductExchRateField";
    "_p_CThostFtdcSyncDeltaProductStatusField";
    "_p_CThostFtdcSyncDeltaRCAMSCombProdInfoField";
    "_p_CThostFtdcSyncDeltaRCAMSCombRuleDtlField";
    "_p_CThostFtdcSyncDeltaRCAMSInstrParameterField";
    "_p_CThostFtdcSyncDeltaRCAMSInterParameterField";
    "_p_CThostFtdcSyncDeltaRCAMSIntraParameterField";
    "_p_CThostFtdcSyncDeltaRCAMSInvstCombPosField";
    "_p_CThostFtdcSyncDeltaRCAMSSOptAdjParamField";
    "_p_CThostFtdcSyncDeltaRULEInstrParameterField";
    "_p_CThostFtdcSyncDeltaRULEInterParameterField";
    "_p_CThostFtdcSyncDeltaRULEIntraParameterField";
    "_p_CThostFtdcSyncDeltaSPBMAddOnInterParamField";
    "_p_CThostFtdcSyncDeltaSPBMFutureParameterField";
    "_p_CThostFtdcSyncDeltaSPBMInterParameterField";
    "_p_CThostFtdcSyncDeltaSPBMIntraParameterField";
    "_p_CThostFtdcSyncDeltaSPBMInvstPortfDefField";
    "_p_CThostFtdcSyncDeltaSPBMOptionParameterField";
    "_p_CThostFtdcSyncDeltaSPBMPortfDefinitionField";
    "_p_CThostFtdcSyncDeltaSPMMInstParamField";
    "_p_CThostFtdcSyncDeltaSPMMModelParamField";
    "_p_CThostFtdcSyncDeltaSPMMProductParamField";
    "_p_CThostFtdcSyncDeltaTradingAccountField";
    "_p_CThostFtdcSyncDepositField";
    "_p_CThostFtdcSyncFundMortgageField";
    "_p_CThostFtdcSyncSPBMParameterEndField";
    "_p_CThostFtdcSyncStatusField";
    "_p_CThostFtdcSyncingInstrumentCommissionRateField";
    "_p_CThostFtdcSyncingInstrumentMarginRateField";
    "_p_CThostFtdcSyncingInstrumentTradingRightField";
    "_p_CThostFtdcSyncingInvestorField";
    "_p_CThostFtdcSyncingInvestorGroupField";
    "_p_CThostFtdcSyncingInvestorPositionField";
    "_p_CThostFtdcSyncingTradingAccountField";
    "_p_CThostFtdcSyncingTradingCodeField";
    "_p_CThostFtdcThostUserFunctionField";
    "_p_CThostFtdcTradeField";
    "_p_CThostFtdcTradeParamField";
    "_p_CThostFtdcTraderApi";
    "_p_CThostFtdcTraderAssignField";
    "_p_CThostFtdcTraderField";
    "_p_CThostFtdcTraderOfferField";
    "_p_CThostFtdcTraderSpi";
    "_p_CThostFtdcTradingAccountField";
    "_p_CThostFtdcTradingAccountPasswordField";
    "_p_CThostFtdcTradingAccountPasswordUpdateField";
    "_p_CThostFtdcTradingAccountPasswordUpdateV1Field";
    "_p_CThostFtdcTradingAccountReserveField";
    "_p_CThostFtdcTradingCodeField";
    "_p_CThostFtdcTradingNoticeField";
    "_p_CThostFtdcTradingNoticeInfoField";
    "_p_CThostFtdcTransferBankField";
    "_p_CThostFtdcTransferBankToFutureReqField";
    "_p_CThostFtdcTransferBankToFutureRspField";
    "_p_CThostFtdcTransferFutureToBankReqField";
    "_p_CThostFtdcTransferFutureToBankRspField";
    "_p_CThostFtdcTransferHeaderField";
    "_p_CThostFtdcTransferQryBankReqField";
    "_p_CThostFtdcTransferQryBankRspField";
    "_p_CThostFtdcTransferQryDetailReqField";
    "_p_CThostFtdcTransferQryDetailRspField";
    "_p_CThostFtdcTransferSerialField";
    "_p_CThostFtdcUserIPField";
    "_p_CThostFtdcUserLogoutField";
    "_p_CThostFtdcUserPasswordUpdateField";
    "_p_CThostFtdcUserRightField";
    "_p_CThostFtdcUserRightsAssignField";
    "_p_CThostFtdcUserSessionField";
    "_p_CThostFtdcUserSystemInfoField";
    "_p_CThostFtdcVerifyCustInfoField";
    "_p_CThostFtdcVerifyFuturePasswordAndCustInfoField";
    "_p_CThostFtdcVerifyFuturePasswordField";
    "_p_CThostFtdcVerifyInvestorPasswordField";
    "_p_CThostFtdcWithDrawParamField";
    "_p_a_1001__char";
    "_p_a_100__char";
    "_p_a_101__char";
    "_p_a_1025__char";
    "_p_a_10__char";
    "_p_a_11__char";
    "_p_a_129__char";
    "_p_a_12__char";
    "_p_a_13__char";
    "_p_a_151__char";
    "_p_a_15__char";
    "_p_a_161__char";
    "_p_a_16__char";
    "_p_a_17__char";
    "_p_a_201__char";
    "_p_a_2049__char";
    "_p_a_20__char";
    "_p_a_21__char";
    "_p_a_22__char";
    "_p_a_23__char";
    "_p_a_24__char";
    "_p_a_2561__char";
    "_p_a_256__char";
    "_p_a_257__char";
    "_p_a_25__char";
    "_p_a_261__char";
    "_p_a_273__char";
    "_p_a_2__char";
    "_p_a_301__char";
    "_p_a_31__char";
    "_p_a_33__char";
    "_p_a_349__char";
    "_p_a_365__char";
    "_p_a_36__char";
    "_p_a_3__char";
    "_p_a_401__char";
    "_p_a_41__char";
    "_p_a_4__char";
    "_p_a_501__char";
    "_p_a_513__char";
    "_p_a_51__char";
    "_p_a_5__char";
    "_p_a_61__char";
    "_p_a_65__char";
    "_p_a_6__char";
    "_p_a_71__char";
    "_p_a_7__char";
    "_p_a_81__char";
    "_p_a_9__char";
    "_p_char";
    "_p_double";
    "_p_int";
    "_p_p_char";
    "_p_short" ].

(** The arrays [_swigc__*]: the types of the entries before the terminating one.
    (ctp_wrap.cpp, lines 506990 to 507122.) *)
Definition swigc_0 : list (string * list string) :=
  [ ("_p_CThostFtdcAccountPropertyField", ["_p_CThostFtdcAccountPropertyField"]);
    ("_p_CThostFtdcAccountregisterField", ["_p_CThostFtdcAccountregisterField"]);
    ("_p_CThostFtdcAppIDAuthAssignField", ["_p_CThostFtdcAppIDAuthAssignField"]);
    ("_p_CThostFtdcAuthForbiddenIPField", ["_p_CThostFtdcAuthForbiddenIPField"]);
    ("_p_CThostFtdcAuthIPField", ["_p_CThostFtdcAuthIPField"]);
    ("_p_CThostFtdcAuthUserIDField", ["_p_CThostFtdcAuthUserIDField"]);
    ("_p_CThostFtdcAuthenticationInfoField", ["_p_CThostFtdcAuthenticationInfoField"]);
    ("_p_CThostFtdcBatchOrderActionField", ["_p_CThostFtdcBatchOrderActionField"]);
    ("_p_CThostFtdcBrokerDepositField", ["_p_CThostFtdcBrokerDepositField"]);
    ("_p_CThostFtdcBrokerField", ["_p_CThostFtdcBrokerField"]);
    ("_p_CThostFtdcBrokerSyncField", ["_p_CThostFtdcBrokerSyncField"]);
    ("_p_CThostFtdcBrokerTradingAlgosField", ["_p_CThostFtdcBrokerTradingAlgosField"]);
    ("_p_CThostFtdcBrokerTradingParamsField", ["_p_CThostFtdcBrokerTradingParamsField"]);
    ("_p_CThostFtdcBrokerUserEventField", ["_p_CThostFtdcBrokerUserEventField"]);
    ("_p_CThostFtdcBrokerUserField", ["_p_CThostFtdcBrokerUserField"]);
    ("_p_CThostFtdcBrokerUserFunctionField", ["_p_CThostFtdcBrokerUserFunctionField"]);
    ("_p_CThostFtdcBrokerUserOTPParamField", ["_p_CThostFtdcBrokerUserOTPParamField"]);
    ("_p_CThostFtdcBrokerUserPasswordField", ["_p_CThostFtdcBrokerUserPasswordField"]);
    ("_p_CThostFtdcBrokerUserRightAssignField", ["_p_CThostFtdcBrokerUserRightAssignField"]);
    ("_p_CThostFtdcBrokerWithdrawAlgorithmField", ["_p_CThostFtdcBrokerWithdrawAlgorithmField"]);
    ("_p_CThostFtdcBulletinField", ["_p_CThostFtdcBulletinField"]);
    ("_p_CThostFtdcCFMMCBrokerKeyField", ["_p_CThostFtdcCFMMCBrokerKeyField"]);
    ("_p_CThostFtdcCFMMCTradingAccountKeyField", ["_p_CThostFtdcCFMMCTradingAccountKeyField"]);
    ("_p_CThostFtdcCFMMCTradingAccountTokenField", ["_p_CThostFtdcCFMMCTradingAccountTokenField"]);
    ("_p_CThostFtdcCancelAccountField", ["_p_CThostFtdcCancelAccountField"]);
    ("_p_CThostFtdcChangeAccountField", ["_p_CThostFtdcChangeAccountField"]);
    ("_p_CThostFtdcCombActionField", ["_p_CThostFtdcCombActionField"]);
    ("_p_CThostFtdcCombInstrumentGuardField", ["_p_CThostFtdcCombInstrumentGuardField"]);
    ("_p_CThostFtdcCombPromotionParamField", ["_p_CThostFtdcCombPromotionParamField"]);
    ("_p_CThostFtdcCombinationLegField", ["_p_CThostFtdcCombinationLegField"]);
    ("_p_CThostFtdcCommPhaseField", ["_p_CThostFtdcCommPhaseField"]);
    ("_p_CThostFtdcCommRateModelField", ["_p_CThostFtdcCommRateModelField"]);
    ("_p_CThostFtdcContractBankField", ["_p_CThostFtdcContractBankField"]);
    ("_p_CThostFtdcCurrDRIdentityField", ["_p_CThostFtdcCurrDRIdentityField"]);
    ("_p_CThostFtdcCurrTransferIdentityField", ["_p_CThostFtdcCurrTransferIdentityField"]);
    ("_p_CThostFtdcCurrentTimeField", ["_p_CThostFtdcCurrentTimeField"]);
    ("_p_CThostFtdcDRTransferField", ["_p_CThostFtdcDRTransferField"]);
    ("_p_CThostFtdcDepartmentUserField", ["_p_CThostFtdcDepartmentUserField"]);
    ("_p_CThostFtdcDepositResultInformField", ["_p_CThostFtdcDepositResultInformField"]);
    ("_p_CThostFtdcDepthMarketDataField", ["_p_CThostFtdcDepthMarketDataField"]);
    ("_p_CThostFtdcDiscountField", ["_p_CThostFtdcDiscountField"]);
    ("_p_CThostFtdcDisseminationField", ["_p_CThostFtdcDisseminationField"]);
    ("_p_CThostFtdcEWarrantOffsetField", ["_p_CThostFtdcEWarrantOffsetField"]);
    ("_p_CThostFtdcErrExecOrderActionField", ["_p_CThostFtdcErrExecOrderActionField"]);
    ("_p_CThostFtdcErrExecOrderField", ["_p_CThostFtdcErrExecOrderField"]);
    ("_p_CThostFtdcErrOrderActionField", ["_p_CThostFtdcErrOrderActionField"]);
    ("_p_CThostFtdcErrOrderField", ["_p_CThostFtdcErrOrderField"]);
    ("_p_CThostFtdcErrorConditionalOrderField", ["_p_CThostFtdcErrorConditionalOrderField"]);
    ("_p_CThostFtdcExchangeBatchOrderActionField", ["_p_CThostFtdcExchangeBatchOrderActionField"]);
    ("_p_CThostFtdcExchangeCombActionField", ["_p_CThostFtdcExchangeCombActionField"]);
    ("_p_CThostFtdcExchangeExecOrderActionField", ["_p_CThostFtdcExchangeExecOrderActionField"]);
    ("_p_CThostFtdcExchangeExecOrderField", ["_p_CThostFtdcExchangeExecOrderField"]);
    ("_p_CThostFtdcExchangeField", ["_p_CThostFtdcExchangeField"]);
    ("_p_CThostFtdcExchangeForQuoteField", ["_p_CThostFtdcExchangeForQuoteField"]);
    ("_p_CThostFtdcExchangeMarginRateAdjustField", ["_p_CThostFtdcExchangeMarginRateAdjustField"]);
    ("_p_CThostFtdcExchangeMarginRateField", ["_p_CThostFtdcExchangeMarginRateField"]);
    ("_p_CThostFtdcExchangeOptionSelfCloseActionField", ["_p_CThostFtdcExchangeOptionSelfCloseActionField"]);
    ("_p_CThostFtdcExchangeOptionSelfCloseField", ["_p_CThostFtdcExchangeOptionSelfCloseField"]);
    ("_p_CThostFtdcExchangeOrderActionErrorField", ["_p_CThostFtdcExchangeOrderActionErrorField"]);
    ("_p_CThostFtdcExchangeOrderActionField", ["_p_CThostFtdcExchangeOrderActionField"]);
    ("_p_CThostFtdcExchangeOrderField", ["_p_CThostFtdcExchangeOrderField"]);
    ("_p_CThostFtdcExchangeOrderInsertErrorField", ["_p_CThostFtdcExchangeOrderInsertErrorField"]);
    ("_p_CThostFtdcExchangeQuoteActionField", ["_p_CThostFtdcExchangeQuoteActionField"]);
    ("_p_CThostFtdcExchangeQuoteField", ["_p_CThostFtdcExchangeQuoteField"]);
    ("_p_CThostFtdcExchangeRateField", ["_p_CThostFtdcExchangeRateField"]);
    ("_p_CThostFtdcExchangeSequenceField", ["_p_CThostFtdcExchangeSequenceField"]);
    ("_p_CThostFtdcExchangeTradeField", ["_p_CThostFtdcExchangeTradeField"]);
    ("_p_CThostFtdcExecOrderActionField", ["_p_CThostFtdcExecOrderActionField"]);
    ("_p_CThostFtdcExecOrderField", ["_p_CThostFtdcExecOrderField"]);
    ("_p_CThostFtdcExitEmergencyField", ["_p_CThostFtdcExitEmergencyField"]);
    ("_p_CThostFtdcFensUserInfoField", ["_p_CThostFtdcFensUserInfoField"]);
    ("_p_CThostFtdcForQuoteField", ["_p_CThostFtdcForQuoteField"]);
    ("_p_CThostFtdcForQuoteParamField", ["_p_CThostFtdcForQuoteParamField"]);
    ("_p_CThostFtdcForQuoteRspField", ["_p_CThostFtdcForQuoteRspField"]);
    ("_p_CThostFtdcForceUserLogoutField", ["_p_CThostFtdcForceUserLogoutField"]);
    ("_p_CThostFtdcFrontInfoField", ["_p_CThostFtdcFrontInfoField"]);
    ("_p_CThostFtdcFrontStatusField", ["_p_CThostFtdcFrontStatusField"]);
    ("_p_CThostFtdcFutureLimitPosiParamField", ["_p_CThostFtdcFutureLimitPosiParamField"]);
    ("_p_CThostFtdcFutureSignIOField", ["_p_CThostFtdcFutureSignIOField"]);
    ("_p_CThostFtdcIPListField", ["_p_CThostFtdcIPListField"]);
    ("_p_CThostFtdcIndexPriceField", ["_p_CThostFtdcIndexPriceField"]);
    ("_p_CThostFtdcInputBatchOrderActionField", ["_p_CThostFtdcInputBatchOrderActionField"]);
    ("_p_CThostFtdcInputCombActionField", ["_p_CThostFtdcInputCombActionField"]);
    ("_p_CThostFtdcInputExecOrderActionField", ["_p_CThostFtdcInputExecOrderActionField"]);
    ("_p_CThostFtdcInputExecOrderField", ["_p_CThostFtdcInputExecOrderField"]);
    ("_p_CThostFtdcInputForQuoteField", ["_p_CThostFtdcInputForQuoteField"]);
    ("_p_CThostFtdcInputOptionSelfCloseActionField", ["_p_CThostFtdcInputOptionSelfCloseActionField"]);
    ("_p_CThostFtdcInputOptionSelfCloseField", ["_p_CThostFtdcInputOptionSelfCloseField"]);
    ("_p_CThostFtdcInputOrderActionField", ["_p_CThostFtdcInputOrderActionField"]);
    ("_p_CThostFtdcInputOrderField", ["_p_CThostFtdcInputOrderField"]);
    ("_p_CThostFtdcInputQuoteActionField", ["_p_CThostFtdcInputQuoteActionField"]);
    ("_p_CThostFtdcInputQuoteField", ["_p_CThostFtdcInputQuoteField"]);
    ("_p_CThostFtdcInstrumentCommissionRateField", ["_p_CThostFtdcInstrumentCommissionRateField"]);
    ("_p_CThostFtdcInstrumentField", ["_p_CThostFtdcInstrumentField"]);
    ("_p_CThostFtdcInstrumentMarginRateAdjustField", ["_p_CThostFtdcInstrumentMarginRateAdjustField"]);
    ("_p_CThostFtdcInstrumentMarginRateField", ["_p_CThostFtdcInstrumentMarginRateField"]);
    ("_p_CThostFtdcInstrumentMarginRateULField", ["_p_CThostFtdcInstrumentMarginRateULField"]);
    ("_p_CThostFtdcInstrumentOrderCommRateField", ["_p_CThostFtdcInstrumentOrderCommRateField"]);
    ("_p_CThostFtdcInstrumentStatusField", ["_p_CThostFtdcInstrumentStatusField"]);
    ("_p_CThostFtdcInstrumentTradingRightField", ["_p_CThostFtdcInstrumentTradingRightField"]);
    ("_p_CThostFtdcInvestUnitField", ["_p_CThostFtdcInvestUnitField"]);
    ("_p_CThostFtdcInvestorAccountField", ["_p_CThostFtdcInvestorAccountField"]);
    ("_p_CThostFtdcInvestorCommodityGroupSPMMMarginField", ["_p_CThostFtdcInvestorCommodityGroupSPMMMarginField"]);
    ("_p_CThostFtdcInvestorCommoditySPMMMarginField", ["_p_CThostFtdcInvestorCommoditySPMMMarginField"]);
    ("_p_CThostFtdcInvestorField", ["_p_CThostFtdcInvestorField"]);
    ("_p_CThostFtdcInvestorGroupField", ["_p_CThostFtdcInvestorGroupField"]);
    ("_p_CThostFtdcInvestorInfoCntSettingField", ["_p_CThostFtdcInvestorInfoCntSettingField"]);
    ("_p_CThostFtdcInvestorPortfMarginModelField", ["_p_CThostFtdcInvestorPortfMarginModelField"]);
    ("_p_CThostFtdcInvestorPortfMarginRatioField", ["_p_CThostFtdcInvestorPortfMarginRatioField"]);
    ("_p_CThostFtdcInvestorPortfSettingField", ["_p_CThostFtdcInvestorPortfSettingField"]);
    ("_p_CThostFtdcInvestorPositionCombineDetailField", ["_p_CThostFtdcInvestorPositionCombineDetailField"]);
    ("_p_CThostFtdcInvestorPositionDetailField", ["_p_CThostFtdcInvestorPositionDetailField"]);
    ("_p_CThostFtdcInvestorPositionField", ["_p_CThostFtdcInvestorPositionField"]);
    ("_p_CThostFtdcInvestorProdRCAMSMarginField", ["_p_CThostFtdcInvestorProdRCAMSMarginField"]);
    ("_p_CThostFtdcInvestorProdRULEMarginField", ["_p_CThostFtdcInvestorProdRULEMarginField"]);
    ("_p_CThostFtdcInvestorProdSPBMDetailField", ["_p_CThostFtdcInvestorProdSPBMDetailField"]);
    ("_p_CThostFtdcInvestorProductGroupMarginField", ["_p_CThostFtdcInvestorProductGroupMarginField"]);
    ("_p_CThostFtdcInvestorTradingRightField", ["_p_CThostFtdcInvestorTradingRightField"]);
    ("_p_CThostFtdcInvestorWithdrawAlgorithmField", ["_p_CThostFtdcInvestorWithdrawAlgorithmField"]);
    ("_p_CThostFtdcLinkManField", ["_p_CThostFtdcLinkManField"]);
    ("_p_CThostFtdcLoadSettlementInfoField", ["_p_CThostFtdcLoadSettlementInfoField"]);
    ("_p_CThostFtdcLoginForbiddenIPField", ["_p_CThostFtdcLoginForbiddenIPField"]);
    ("_p_CThostFtdcLoginForbiddenUserField", ["_p_CThostFtdcLoginForbiddenUserField"]);
    ("_p_CThostFtdcLoginInfoField", ["_p_CThostFtdcLoginInfoField"]);
    ("_p_CThostFtdcLogoutAllField", ["_p_CThostFtdcLogoutAllField"]);
    ("_p_CThostFtdcMDTraderOfferField", ["_p_CThostFtdcMDTraderOfferField"]);
    ("_p_CThostFtdcMMInstrumentCommissionRateField", ["_p_CThostFtdcMMInstrumentCommissionRateField"]);
    ("_p_CThostFtdcMMOptionInstrCommRateField", ["_p_CThostFtdcMMOptionInstrCommRateField"]);
    ("_p_CThostFtdcManualSyncBrokerUserOTPField", ["_p_CThostFtdcManualSyncBrokerUserOTPField"]);
    ("_p_CThostFtdcMarginModelField", ["_p_CThostFtdcMarginModelField"]);
    ("_p_CThostFtdcMarketDataAsk23Field", ["_p_CThostFtdcMarketDataAsk23Field"]);
    ("_p_CThostFtdcMarketDataAsk45Field", ["_p_CThostFtdcMarketDataAsk45Field"]);
    ("_p_CThostFtdcMarketDataAveragePriceField", ["_p_CThostFtdcMarketDataAveragePriceField"]) ].

(** ctp_wrap.cpp, lines 507123 to 507255. *)
Definition swigc_1 : list (string * list string) :=
  [ ("_p_CThostFtdcMarketDataBandingPriceField", ["_p_CThostFtdcMarketDataBandingPriceField"]);
    ("_p_CThostFtdcMarketDataBaseField", ["_p_CThostFtdcMarketDataBaseField"]);
    ("_p_CThostFtdcMarketDataBestPriceField", ["_p_CThostFtdcMarketDataBestPriceField"]);
    ("_p_CThostFtdcMarketDataBid23Field", ["_p_CThostFtdcMarketDataBid23Field"]);
    ("_p_CThostFtdcMarketDataBid45Field", ["_p_CThostFtdcMarketDataBid45Field"]);
    ("_p_CThostFtdcMarketDataExchangeField", ["_p_CThostFtdcMarketDataExchangeField"]);
    ("_p_CThostFtdcMarketDataField", ["_p_CThostFtdcMarketDataField"]);
    ("_p_CThostFtdcMarketDataLastMatchField", ["_p_CThostFtdcMarketDataLastMatchField"]);
    ("_p_CThostFtdcMarketDataStaticField", ["_p_CThostFtdcMarketDataStaticField"]);
    ("_p_CThostFtdcMarketDataUpdateTimeField", ["_p_CThostFtdcMarketDataUpdateTimeField"]);
    ("_p_CThostFtdcMdApi", ["_p_CThostFtdcMdApi"]);
    ("_p_CThostFtdcMdSpi", ["_p_CThostFtdcMdSpi"]);
    ("_p_CThostFtdcMortgageParamField", ["_p_CThostFtdcMortgageParamField"]);
    ("_p_CThostFtdcMulticastInstrumentField", ["_p_CThostFtdcMulticastInstrumentField"]);
    ("_p_CThostFtdcNoticeField", ["_p_CThostFtdcNoticeField"]);
    ("_p_CThostFtdcNotifyFutureSignInField", ["_p_CThostFtdcNotifyFutureSignInField"]);
    ("_p_CThostFtdcNotifyFutureSignOutField", ["_p_CThostFtdcNotifyFutureSignOutField"]);
    ("_p_CThostFtdcNotifyQueryAccountField", ["_p_CThostFtdcNotifyQueryAccountField"]);
    ("_p_CThostFtdcNotifySyncKeyField", ["_p_CThostFtdcNotifySyncKeyField"]);
    ("_p_CThostFtdcOpenAccountField", ["_p_CThostFtdcOpenAccountField"]);
    ("_p_CThostFtdcOptionInstrCommRateField", ["_p_CThostFtdcOptionInstrCommRateField"]);
    ("_p_CThostFtdcOptionInstrDeltaField", ["_p_CThostFtdcOptionInstrDeltaField"]);
    ("_p_CThostFtdcOptionInstrMarginAdjustField", ["_p_CThostFtdcOptionInstrMarginAdjustField"]);
    ("_p_CThostFtdcOptionInstrMiniMarginField", ["_p_CThostFtdcOptionInstrMiniMarginField"]);
    ("_p_CThostFtdcOptionInstrTradeCostField", ["_p_CThostFtdcOptionInstrTradeCostField"]);
    ("_p_CThostFtdcOptionInstrTradingRightField", ["_p_CThostFtdcOptionInstrTradingRightField"]);
    ("_p_CThostFtdcOptionSelfCloseActionField", ["_p_CThostFtdcOptionSelfCloseActionField"]);
    ("_p_CThostFtdcOptionSelfCloseField", ["_p_CThostFtdcOptionSelfCloseField"]);
    ("_p_CThostFtdcOrderActionField", ["_p_CThostFtdcOrderActionField"]);
    ("_p_CThostFtdcOrderField", ["_p_CThostFtdcOrderField"]);
    ("_p_CThostFtdcParkedOrderActionField", ["_p_CThostFtdcParkedOrderActionField"]);
    ("_p_CThostFtdcParkedOrderField", ["_p_CThostFtdcParkedOrderField"]);
    ("_p_CThostFtdcPartBrokerField", ["_p_CThostFtdcPartBrokerField"]);
    ("_p_CThostFtdcPortfTradeParamSettingField", ["_p_CThostFtdcPortfTradeParamSettingField"]);
    ("_p_CThostFtdcPositionProfitAlgorithmField", ["_p_CThostFtdcPositionProfitAlgorithmField"]);
    ("_p_CThostFtdcProductExchRateField", ["_p_CThostFtdcProductExchRateField"]);
    ("_p_CThostFtdcProductField", ["_p_CThostFtdcProductField"]);
    ("_p_CThostFtdcProductGroupField", ["_p_CThostFtdcProductGroupField"]);
    ("_p_CThostFtdcQryAccountregisterField", ["_p_CThostFtdcQryAccountregisterField"]);
    ("_p_CThostFtdcQryAuthForbiddenIPField", ["_p_CThostFtdcQryAuthForbiddenIPField"]);
    ("_p_CThostFtdcQryBatchOrderActionField", ["_p_CThostFtdcQryBatchOrderActionField"]);
    ("_p_CThostFtdcQryBrokerField", ["_p_CThostFtdcQryBrokerField"]);
    ("_p_CThostFtdcQryBrokerTradingAlgosField", ["_p_CThostFtdcQryBrokerTradingAlgosField"]);
    ("_p_CThostFtdcQryBrokerTradingParamsField", ["_p_CThostFtdcQryBrokerTradingParamsField"]);
    ("_p_CThostFtdcQryBrokerUserEventField", ["_p_CThostFtdcQryBrokerUserEventField"]);
    ("_p_CThostFtdcQryBrokerUserField", ["_p_CThostFtdcQryBrokerUserField"]);
    ("_p_CThostFtdcQryBrokerUserFunctionField", ["_p_CThostFtdcQryBrokerUserFunctionField"]);
    ("_p_CThostFtdcQryBulletinField", ["_p_CThostFtdcQryBulletinField"]);
    ("_p_CThostFtdcQryCFMMCBrokerKeyField", ["_p_CThostFtdcQryCFMMCBrokerKeyField"]);
    ("_p_CThostFtdcQryCFMMCTradingAccountKeyField", ["_p_CThostFtdcQryCFMMCTradingAccountKeyField"]);
    ("_p_CThostFtdcQryClassifiedInstrumentField", ["_p_CThostFtdcQryClassifiedInstrumentField"]);
    ("_p_CThostFtdcQryCombActionField", ["_p_CThostFtdcQryCombActionField"]);
    ("_p_CThostFtdcQryCombInstrumentGuardField", ["_p_CThostFtdcQryCombInstrumentGuardField"]);
    ("_p_CThostFtdcQryCombPromotionParamField", ["_p_CThostFtdcQryCombPromotionParamField"]);
    ("_p_CThostFtdcQryCombinationLegField", ["_p_CThostFtdcQryCombinationLegField"]);
    ("_p_CThostFtdcQryCommRateModelField", ["_p_CThostFtdcQryCommRateModelField"]);
    ("_p_CThostFtdcQryContractBankField", ["_p_CThostFtdcQryContractBankField"]);
    ("_p_CThostFtdcQryCurrDRIdentityField", ["_p_CThostFtdcQryCurrDRIdentityField"]);
    ("_p_CThostFtdcQryDepthMarketDataField", ["_p_CThostFtdcQryDepthMarketDataField"]);
    ("_p_CThostFtdcQryEWarrantOffsetField", ["_p_CThostFtdcQryEWarrantOffsetField"]);
    ("_p_CThostFtdcQryErrExecOrderActionField", ["_p_CThostFtdcQryErrExecOrderActionField"]);
    ("_p_CThostFtdcQryErrExecOrderField", ["_p_CThostFtdcQryErrExecOrderField"]);
    ("_p_CThostFtdcQryErrOrderActionField", ["_p_CThostFtdcQryErrOrderActionField"]);
    ("_p_CThostFtdcQryErrOrderField", ["_p_CThostFtdcQryErrOrderField"]);
    ("_p_CThostFtdcQryExchangeCombActionField", ["_p_CThostFtdcQryExchangeCombActionField"]);
    ("_p_CThostFtdcQryExchangeExecOrderActionField", ["_p_CThostFtdcQryExchangeExecOrderActionField"]);
    ("_p_CThostFtdcQryExchangeExecOrderField", ["_p_CThostFtdcQryExchangeExecOrderField"]);
    ("_p_CThostFtdcQryExchangeField", ["_p_CThostFtdcQryExchangeField"]);
    ("_p_CThostFtdcQryExchangeForQuoteField", ["_p_CThostFtdcQryExchangeForQuoteField"]);
    ("_p_CThostFtdcQryExchangeMarginRateAdjustField", ["_p_CThostFtdcQryExchangeMarginRateAdjustField"]);
    ("_p_CThostFtdcQryExchangeMarginRateField", ["_p_CThostFtdcQryExchangeMarginRateField"]);
    ("_p_CThostFtdcQryExchangeOrderActionField", ["_p_CThostFtdcQryExchangeOrderActionField"]);
    ("_p_CThostFtdcQryExchangeOrderField", ["_p_CThostFtdcQryExchangeOrderField"]);
    ("_p_CThostFtdcQryExchangeQuoteActionField", ["_p_CThostFtdcQryExchangeQuoteActionField"]);
    ("_p_CThostFtdcQryExchangeQuoteField", ["_p_CThostFtdcQryExchangeQuoteField"]);
    ("_p_CThostFtdcQryExchangeRateField", ["_p_CThostFtdcQryExchangeRateField"]);
    ("_p_CThostFtdcQryExchangeSequenceField", ["_p_CThostFtdcQryExchangeSequenceField"]);
    ("_p_CThostFtdcQryExecOrderActionField", ["_p_CThostFtdcQryExecOrderActionField"]);
    ("_p_CThostFtdcQryExecOrderField", ["_p_CThostFtdcQryExecOrderField"]);
    ("_p_CThostFtdcQryForQuoteField", ["_p_CThostFtdcQryForQuoteField"]);
    ("_p_CThostFtdcQryForQuoteParamField", ["_p_CThostFtdcQryForQuoteParamField"]);
    ("_p_CThostFtdcQryFrontStatusField", ["_p_CThostFtdcQryFrontStatusField"]);
    ("_p_CThostFtdcQryHisOrderField", ["_p_CThostFtdcQryHisOrderField"]);
    ("_p_CThostFtdcQryIPListField", ["_p_CThostFtdcQryIPListField"]);
    ("_p_CThostFtdcQryInstrumentCommissionRateField", ["_p_CThostFtdcQryInstrumentCommissionRateField"]);
    ("_p_CThostFtdcQryInstrumentField", ["_p_CThostFtdcQryInstrumentField"]);
    ("_p_CThostFtdcQryInstrumentMarginRateField", ["_p_CThostFtdcQryInstrumentMarginRateField"]);
    ("_p_CThostFtdcQryInstrumentOrderCommRateField", ["_p_CThostFtdcQryInstrumentOrderCommRateField"]);
    ("_p_CThostFtdcQryInstrumentStatusField", ["_p_CThostFtdcQryInstrumentStatusField"]);
    ("_p_CThostFtdcQryInstrumentTradingRightField", ["_p_CThostFtdcQryInstrumentTradingRightField"]);
    ("_p_CThostFtdcQryInvestUnitField", ["_p_CThostFtdcQryInvestUnitField"]);
    ("_p_CThostFtdcQryInvestorCommodityGroupSPMMMarginField", ["_p_CThostFtdcQryInvestorCommodityGroupSPMMMarginField"]);
    ("_p_CThostFtdcQryInvestorCommoditySPMMMarginField", ["_p_CThostFtdcQryInvestorCommoditySPMMMarginField"]);
    ("_p_CThostFtdcQryInvestorField", ["_p_CThostFtdcQryInvestorField"]);
    ("_p_CThostFtdcQryInvestorGroupField", ["_p_CThostFtdcQryInvestorGroupField"]);
    ("_p_CThostFtdcQryInvestorPortfMarginRatioField", ["_p_CThostFtdcQryInvestorPortfMarginRatioField"]);
    ("_p_CThostFtdcQryInvestorPortfSettingField", ["_p_CThostFtdcQryInvestorPortfSettingField"]);
    ("_p_CThostFtdcQryInvestorPositionCombineDetailField", ["_p_CThostFtdcQryInvestorPositionCombineDetailField"]);
    ("_p_CThostFtdcQryInvestorPositionDetailField", ["_p_CThostFtdcQryInvestorPositionDetailField"]);
    ("_p_CThostFtdcQryInvestorPositionField", ["_p_CThostFtdcQryInvestorPositionField"]);
    ("_p_CThostFtdcQryInvestorProdRCAMSMarginField", ["_p_CThostFtdcQryInvestorProdRCAMSMarginField"]);
    ("_p_CThostFtdcQryInvestorProdRULEMarginField", ["_p_CThostFtdcQryInvestorProdRULEMarginField"]);
    ("_p_CThostFtdcQryInvestorProdSPBMDetailField", ["_p_CThostFtdcQryInvestorProdSPBMDetailField"]);
    ("_p_CThostFtdcQryInvestorProductGroupMarginField", ["_p_CThostFtdcQryInvestorProductGroupMarginField"]);
    ("_p_CThostFtdcQryLinkManField", ["_p_CThostFtdcQryLinkManField"]);
    ("_p_CThostFtdcQryLoginForbiddenIPField", ["_p_CThostFtdcQryLoginForbiddenIPField"]);
    ("_p_CThostFtdcQryLoginForbiddenUserField", ["_p_CThostFtdcQryLoginForbiddenUserField"]);
    ("_p_CThostFtdcQryMDTraderOfferField", ["_p_CThostFtdcQryMDTraderOfferField"]);
    ("_p_CThostFtdcQryMMInstrumentCommissionRateField", ["_p_CThostFtdcQryMMInstrumentCommissionRateField"]);
    ("_p_CThostFtdcQryMMOptionInstrCommRateField", ["_p_CThostFtdcQryMMOptionInstrCommRateField"]);
    ("_p_CThostFtdcQryMarginModelField", ["_p_CThostFtdcQryMarginModelField"]);
    ("_p_CThostFtdcQryMaxOrderVolumeField", ["_p_CThostFtdcQryMaxOrderVolumeField"]);
    ("_p_CThostFtdcQryMaxOrderVolumeWithPriceField", ["_p_CThostFtdcQryMaxOrderVolumeWithPriceField"]);
    ("_p_CThostFtdcQryMulticastInstrumentField", ["_p_CThostFtdcQryMulticastInstrumentField"]);
    ("_p_CThostFtdcQryNoticeField", ["_p_CThostFtdcQryNoticeField"]);
    ("_p_CThostFtdcQryOptionInstrCommRateField", ["_p_CThostFtdcQryOptionInstrCommRateField"]);
    ("_p_CThostFtdcQryOptionInstrTradeCostField", ["_p_CThostFtdcQryOptionInstrTradeCostField"]);
    ("_p_CThostFtdcQryOptionInstrTradingRightField", ["_p_CThostFtdcQryOptionInstrTradingRightField"]);
    ("_p_CThostFtdcQryOptionSelfCloseActionField", ["_p_CThostFtdcQryOptionSelfCloseActionField"]);
    ("_p_CThostFtdcQryOptionSelfCloseField", ["_p_CThostFtdcQryOptionSelfCloseField"]);
    ("_p_CThostFtdcQryOrderActionField", ["_p_CThostFtdcQryOrderActionField"]);
    ("_p_CThostFtdcQryOrderField", ["_p_CThostFtdcQryOrderField"]);
    ("_p_CThostFtdcQryParkedOrderActionField", ["_p_CThostFtdcQryParkedOrderActionField"]);
    ("_p_CThostFtdcQryParkedOrderField", ["_p_CThostFtdcQryParkedOrderField"]);
    ("_p_CThostFtdcQryPartBrokerField", ["_p_CThostFtdcQryPartBrokerField"]);
    ("_p_CThostFtdcQryProductExchRateField", ["_p_CThostFtdcQryProductExchRateField"]);
    ("_p_CThostFtdcQryProductField", ["_p_CThostFtdcQryProductField"]);
    ("_p_CThostFtdcQryProductGroupField", ["_p_CThostFtdcQryProductGroupField"]);
    ("_p_CThostFtdcQryQuoteActionField", ["_p_CThostFtdcQryQuoteActionField"]);
    ("_p_CThostFtdcQryQuoteField", ["_p_CThostFtdcQryQuoteField"]);
    ("_p_CThostFtdcQryRCAMSCombProductInfoField", ["_p_CThostFtdcQryRCAMSCombProductInfoField"]);
    ("_p_CThostFtdcQryRCAMSInstrParameterField", ["_p_CThostFtdcQryRCAMSInstrParameterField"]);
    ("_p_CThostFtdcQryRCAMSInterParameterField", ["_p_CThostFtdcQryRCAMSInterParameterField"]) ].

(** ctp_wrap.cpp, lines 507256 to 507388. *)
Definition swigc_2 : list (string * list string) :=
  [ ("_p_CThostFtdcQryRCAMSIntraParameterField", ["_p_CThostFtdcQryRCAMSIntraParameterField"]);
    ("_p_CThostFtdcQryRCAMSInvestorCombPositionField", ["_p_CThostFtdcQryRCAMSInvestorCombPositionField"]);
    ("_p_CThostFtdcQryRCAMSShortOptAdjustParamField", ["_p_CThostFtdcQryRCAMSShortOptAdjustParamField"]);
    ("_p_CThostFtdcQryRULEInstrParameterField", ["_p_CThostFtdcQryRULEInstrParameterField"]);
    ("_p_CThostFtdcQryRULEInterParameterField", ["_p_CThostFtdcQryRULEInterParameterField"]);
    ("_p_CThostFtdcQryRULEIntraParameterField", ["_p_CThostFtdcQryRULEIntraParameterField"]);
    ("_p_CThostFtdcQryRiskSettleInvstPositionField", ["_p_CThostFtdcQryRiskSettleInvstPositionField"]);
    ("_p_CThostFtdcQryRiskSettleProductStatusField", ["_p_CThostFtdcQryRiskSettleProductStatusField"]);
    ("_p_CThostFtdcQrySPBMAddOnInterParameterField", ["_p_CThostFtdcQrySPBMAddOnInterParameterField"]);
    ("_p_CThostFtdcQrySPBMFutureParameterField", ["_p_CThostFtdcQrySPBMFutureParameterField"]);
    ("_p_CThostFtdcQrySPBMInterParameterField", ["_p_CThostFtdcQrySPBMInterParameterField"]);
    ("_p_CThostFtdcQrySPBMIntraParameterField", ["_p_CThostFtdcQrySPBMIntraParameterField"]);
    ("_p_CThostFtdcQrySPBMInvestorPortfDefField", ["_p_CThostFtdcQrySPBMInvestorPortfDefField"]);
    ("_p_CThostFtdcQrySPBMOptionParameterField", ["_p_CThostFtdcQrySPBMOptionParameterField"]);
    ("_p_CThostFtdcQrySPBMPortfDefinitionField", ["_p_CThostFtdcQrySPBMPortfDefinitionField"]);
    ("_p_CThostFtdcQrySPMMInstParamField", ["_p_CThostFtdcQrySPMMInstParamField"]);
    ("_p_CThostFtdcQrySPMMProductParamField", ["_p_CThostFtdcQrySPMMProductParamField"]);
    ("_p_CThostFtdcQrySecAgentACIDMapField", ["_p_CThostFtdcQrySecAgentACIDMapField"]);
    ("_p_CThostFtdcQrySecAgentCheckModeField", ["_p_CThostFtdcQrySecAgentCheckModeField"]);
    ("_p_CThostFtdcQrySecAgentTradeInfoField", ["_p_CThostFtdcQrySecAgentTradeInfoField"]);
    ("_p_CThostFtdcQrySettlementInfoConfirmField", ["_p_CThostFtdcQrySettlementInfoConfirmField"]);
    ("_p_CThostFtdcQrySettlementInfoField", ["_p_CThostFtdcQrySettlementInfoField"]);
    ("_p_CThostFtdcQryStrikeOffsetField", ["_p_CThostFtdcQryStrikeOffsetField"]);
    ("_p_CThostFtdcQrySuperUserField", ["_p_CThostFtdcQrySuperUserField"]);
    ("_p_CThostFtdcQrySuperUserFunctionField", ["_p_CThostFtdcQrySuperUserFunctionField"]);
    ("_p_CThostFtdcQrySyncDelaySwapField", ["_p_CThostFtdcQrySyncDelaySwapField"]);
    ("_p_CThostFtdcQrySyncDepositField", ["_p_CThostFtdcQrySyncDepositField"]);
    ("_p_CThostFtdcQrySyncFundMortgageField", ["_p_CThostFtdcQrySyncFundMortgageField"]);
    ("_p_CThostFtdcQrySyncStatusField", ["_p_CThostFtdcQrySyncStatusField"]);
    ("_p_CThostFtdcQryThostUserFunctionField", ["_p_CThostFtdcQryThostUserFunctionField"]);
    ("_p_CThostFtdcQryTradeField", ["_p_CThostFtdcQryTradeField"]);
    ("_p_CThostFtdcQryTraderAssignField", ["_p_CThostFtdcQryTraderAssignField"]);
    ("_p_CThostFtdcQryTraderField", ["_p_CThostFtdcQryTraderField"]);
    ("_p_CThostFtdcQryTraderOfferField", ["_p_CThostFtdcQryTraderOfferField"]);
    ("_p_CThostFtdcQryTradingAccountField", ["_p_CThostFtdcQryTradingAccountField"]);
    ("_p_CThostFtdcQryTradingCodeField", ["_p_CThostFtdcQryTradingCodeField"]);
    ("_p_CThostFtdcQryTradingNoticeField", ["_p_CThostFtdcQryTradingNoticeField"]);
    ("_p_CThostFtdcQryTransferBankField", ["_p_CThostFtdcQryTransferBankField"]);
    ("_p_CThostFtdcQryTransferSerialField", ["_p_CThostFtdcQryTransferSerialField"]);
    ("_p_CThostFtdcQryUserRightsAssignField", ["_p_CThostFtdcQryUserRightsAssignField"]);
    ("_p_CThostFtdcQryUserSessionField", ["_p_CThostFtdcQryUserSessionField"]);
    ("_p_CThostFtdcQueryBrokerDepositField", ["_p_CThostFtdcQueryBrokerDepositField"]);
    ("_p_CThostFtdcQueryCFMMCTradingAccountTokenField", ["_p_CThostFtdcQueryCFMMCTradingAccountTokenField"]);
    ("_p_CThostFtdcQueryFreqField", ["_p_CThostFtdcQueryFreqField"]);
    ("_p_CThostFtdcQuoteActionField", ["_p_CThostFtdcQuoteActionField"]);
    ("_p_CThostFtdcQuoteField", ["_p_CThostFtdcQuoteField"]);
    ("_p_CThostFtdcRCAMSCombProductInfoField", ["_p_CThostFtdcRCAMSCombProductInfoField"]);
    ("_p_CThostFtdcRCAMSInstrParameterField", ["_p_CThostFtdcRCAMSInstrParameterField"]);
    ("_p_CThostFtdcRCAMSInterParameterField", ["_p_CThostFtdcRCAMSInterParameterField"]);
    ("_p_CThostFtdcRCAMSIntraParameterField", ["_p_CThostFtdcRCAMSIntraParameterField"]);
    ("_p_CThostFtdcRCAMSInvestorCombPositionField", ["_p_CThostFtdcRCAMSInvestorCombPositionField"]);
    ("_p_CThostFtdcRCAMSShortOptAdjustParamField", ["_p_CThostFtdcRCAMSShortOptAdjustParamField"]);
    ("_p_CThostFtdcRULEInstrParameterField", ["_p_CThostFtdcRULEInstrParameterField"]);
    ("_p_CThostFtdcRULEInterParameterField", ["_p_CThostFtdcRULEInterParameterField"]);
    ("_p_CThostFtdcRULEIntraParameterField", ["_p_CThostFtdcRULEIntraParameterField"]);
    ("_p_CThostFtdcRemoveParkedOrderActionField", ["_p_CThostFtdcRemoveParkedOrderActionField"]);
    ("_p_CThostFtdcRemoveParkedOrderField", ["_p_CThostFtdcRemoveParkedOrderField"]);
    ("_p_CThostFtdcReqApiHandshakeField", ["_p_CThostFtdcReqApiHandshakeField"]);
    ("_p_CThostFtdcReqAuthenticateField", ["_p_CThostFtdcReqAuthenticateField"]);
    ("_p_CThostFtdcReqCancelAccountField", ["_p_CThostFtdcReqCancelAccountField"]);
    ("_p_CThostFtdcReqChangeAccountField", ["_p_CThostFtdcReqChangeAccountField"]);
    ("_p_CThostFtdcReqDayEndFileReadyField", ["_p_CThostFtdcReqDayEndFileReadyField"]);
    ("_p_CThostFtdcReqFutureSignOutField", ["_p_CThostFtdcReqFutureSignOutField"]);
    ("_p_CThostFtdcReqGenUserCaptchaField", ["_p_CThostFtdcReqGenUserCaptchaField"]);
    ("_p_CThostFtdcReqGenUserTextField", ["_p_CThostFtdcReqGenUserTextField"]);
    ("_p_CThostFtdcReqOpenAccountField", ["_p_CThostFtdcReqOpenAccountField"]);
    ("_p_CThostFtdcReqQueryAccountField", ["_p_CThostFtdcReqQueryAccountField"]);
    ("_p_CThostFtdcReqQueryTradeResultBySerialField", ["_p_CThostFtdcReqQueryTradeResultBySerialField"]);
    ("_p_CThostFtdcReqRepealField", ["_p_CThostFtdcReqRepealField"]);
    ("_p_CThostFtdcReqSyncKeyField", ["_p_CThostFtdcReqSyncKeyField"]);
    ("_p_CThostFtdcReqTransferField", ["_p_CThostFtdcReqTransferField"]);
    ("_p_CThostFtdcReqUserAuthMethodField", ["_p_CThostFtdcReqUserAuthMethodField"]);
    ("_p_CThostFtdcReqUserLoginField", ["_p_CThostFtdcReqUserLoginField"]);
    ("_p_CThostFtdcReqUserLoginSMField", ["_p_CThostFtdcReqUserLoginSMField"]);
    ("_p_CThostFtdcReqUserLoginWithCaptchaField", ["_p_CThostFtdcReqUserLoginWithCaptchaField"]);
    ("_p_CThostFtdcReqUserLoginWithOTPField", ["_p_CThostFtdcReqUserLoginWithOTPField"]);
    ("_p_CThostFtdcReqUserLoginWithTextField", ["_p_CThostFtdcReqUserLoginWithTextField"]);
    ("_p_CThostFtdcReqVerifyApiKeyField", ["_p_CThostFtdcReqVerifyApiKeyField"]);
    ("_p_CThostFtdcReserveOpenAccountConfirmField", ["_p_CThostFtdcReserveOpenAccountConfirmField"]);
    ("_p_CThostFtdcReserveOpenAccountField", ["_p_CThostFtdcReserveOpenAccountField"]);
    ("_p_CThostFtdcReturnResultField", ["_p_CThostFtdcReturnResultField"]);
    ("_p_CThostFtdcRiskSettleInvstPositionField", ["_p_CThostFtdcRiskSettleInvstPositionField"]);
    ("_p_CThostFtdcRiskSettleProductStatusField", ["_p_CThostFtdcRiskSettleProductStatusField"]);
    ("_p_CThostFtdcRspApiHandshakeField", ["_p_CThostFtdcRspApiHandshakeField"]);
    ("_p_CThostFtdcRspAuthenticateField", ["_p_CThostFtdcRspAuthenticateField"]);
    ("_p_CThostFtdcRspFutureSignInField", ["_p_CThostFtdcRspFutureSignInField"]);
    ("_p_CThostFtdcRspFutureSignOutField", ["_p_CThostFtdcRspFutureSignOutField"]);
    ("_p_CThostFtdcRspGenUserCaptchaField", ["_p_CThostFtdcRspGenUserCaptchaField"]);
    ("_p_CThostFtdcRspGenUserTextField", ["_p_CThostFtdcRspGenUserTextField"]);
    ("_p_CThostFtdcRspInfoField", ["_p_CThostFtdcRspInfoField"]);
    ("_p_CThostFtdcRspQueryAccountField", ["_p_CThostFtdcRspQueryAccountField"]);
    ("_p_CThostFtdcRspQueryTradeResultBySerialField", ["_p_CThostFtdcRspQueryTradeResultBySerialField"]);
    ("_p_CThostFtdcRspRepealField", ["_p_CThostFtdcRspRepealField"]);
    ("_p_CThostFtdcRspSyncKeyField", ["_p_CThostFtdcRspSyncKeyField"]);
    ("_p_CThostFtdcRspTransferField", ["_p_CThostFtdcRspTransferField"]);
    ("_p_CThostFtdcRspUserAuthMethodField", ["_p_CThostFtdcRspUserAuthMethodField"]);
    ("_p_CThostFtdcRspUserLogin2Field", ["_p_CThostFtdcRspUserLogin2Field"]);
    ("_p_CThostFtdcRspUserLoginField", ["_p_CThostFtdcRspUserLoginField"]);
    ("_p_CThostFtdcSPBMAddOnInterParameterField", ["_p_CThostFtdcSPBMAddOnInterParameterField"]);
    ("_p_CThostFtdcSPBMFutureParameterField", ["_p_CThostFtdcSPBMFutureParameterField"]);
    ("_p_CThostFtdcSPBMInterParameterField", ["_p_CThostFtdcSPBMInterParameterField"]);
    ("_p_CThostFtdcSPBMIntraParameterField", ["_p_CThostFtdcSPBMIntraParameterField"]);
    ("_p_CThostFtdcSPBMInvestorPortfDefField", ["_p_CThostFtdcSPBMInvestorPortfDefField"]);
    ("_p_CThostFtdcSPBMOptionParameterField", ["_p_CThostFtdcSPBMOptionParameterField"]);
    ("_p_CThostFtdcSPBMPortfDefinitionField", ["_p_CThostFtdcSPBMPortfDefinitionField"]);
    ("_p_CThostFtdcSPMMInstParamField", ["_p_CThostFtdcSPMMInstParamField"]);
    ("_p_CThostFtdcSPMMProductParamField", ["_p_CThostFtdcSPMMProductParamField"]);
    ("_p_CThostFtdcSecAgentACIDMapField", ["_p_CThostFtdcSecAgentACIDMapField"]);
    ("_p_CThostFtdcSecAgentCheckModeField", ["_p_CThostFtdcSecAgentCheckModeField"]);
    ("_p_CThostFtdcSecAgentTradeInfoField", ["_p_CThostFtdcSecAgentTradeInfoField"]);
    ("_p_CThostFtdcSettlementInfoConfirmField", ["_p_CThostFtdcSettlementInfoConfirmField"]);
    ("_p_CThostFtdcSettlementInfoField", ["_p_CThostFtdcSettlementInfoField"]);
    ("_p_CThostFtdcSettlementRefField", ["_p_CThostFtdcSettlementRefField"]);
    ("_p_CThostFtdcSpecificInstrumentField", ["_p_CThostFtdcSpecificInstrumentField"]);
    ("_p_CThostFtdcStrikeOffsetField", ["_p_CThostFtdcStrikeOffsetField"]);
    ("_p_CThostFtdcSuperUserField", ["_p_CThostFtdcSuperUserField"]);
    ("_p_CThostFtdcSuperUserFunctionField", ["_p_CThostFtdcSuperUserFunctionField"]);
    ("_p_CThostFtdcSyncDelaySwapField", ["_p_CThostFtdcSyncDelaySwapField"]);
    ("_p_CThostFtdcSyncDelaySwapFrozenField", ["_p_CThostFtdcSyncDelaySwapFrozenField"]);
    ("_p_CThostFtdcSyncDeltaDceCombInstrumentField", ["_p_CThostFtdcSyncDeltaDceCombInstrumentField"]);
    ("_p_CThostFtdcSyncDeltaDepthMarketDataField", ["_p_CThostFtdcSyncDeltaDepthMarketDataField"]);
    ("_p_CThostFtdcSyncDeltaEWarrantOffsetField", ["_p_CThostFtdcSyncDeltaEWarrantOffsetField"]);
    ("_p_CThostFtdcSyncDeltaExchMarginRateField", ["_p_CThostFtdcSyncDeltaExchMarginRateField"]);
    ("_p_CThostFtdcSyncDeltaIndexPriceField", ["_p_CThostFtdcSyncDeltaIndexPriceField"]);
    ("_p_CThostFtdcSyncDeltaInfoField", ["_p_CThostFtdcSyncDeltaInfoField"]);
    ("_p_CThostFtdcSyncDeltaInitInvstMarginField", ["_p_CThostFtdcSyncDeltaInitInvstMarginField"]);
    ("_p_CThostFtdcSyncDeltaInvestorSPMMModelField", ["_p_CThostFtdcSyncDeltaInvestorSPMMModelField"]);
    ("_p_CThostFtdcSyncDeltaInvstCommRateField", ["_p_CThostFtdcSyncDeltaInvstCommRateField"]);
    ("_p_CThostFtdcSyncDeltaInvstMarginRateField", ["_p_CThostFtdcSyncDeltaInvstMarginRateField"]);
    ("_p_CThostFtdcSyncDeltaInvstMarginRateULField", ["_p_CThostFtdcSyncDeltaInvstMarginRateULField"]);
    ("_p_CThostFtdcSyncDeltaInvstPosCombDtlField", ["_p_CThostFtdcSyncDeltaInvstPosCombDtlField"]);
    ("_p_CThostFtdcSyncDeltaInvstPosDtlField", ["_p_CThostFtdcSyncDeltaInvstPosDtlField"]);
    ("_p_CThostFtdcSyncDeltaOptExchMarginField", ["_p_CThostFtdcSyncDeltaOptExchMarginField"]) ].

(** ctp_wrap.cpp, lines 507389 to 507518. *)
Definition swigc_3 : list (string * list string) :=
  [ ("_p_CThostFtdcSyncDeltaOptInvstCommRateField", ["_p_CThostFtdcSyncDeltaOptInvstCommRateField"]);
    ("_p_CThostFtdcSyncDeltaOptInvstMarginField", ["_p_CThostFtdcSyncDeltaOptInvstMarginField"]);
    ("_p_CThostFtdcSyncDeltaProductExchRateField", ["_p_CThostFtdcSyncDeltaProductExchRateField"]);
    ("_p_CThostFtdcSyncDeltaProductStatusField", ["_p_CThostFtdcSyncDeltaProductStatusField"]);
    ("_p_CThostFtdcSyncDeltaRCAMSCombProdInfoField", ["_p_CThostFtdcSyncDeltaRCAMSCombProdInfoField"]);
    ("_p_CThostFtdcSyncDeltaRCAMSCombRuleDtlField", ["_p_CThostFtdcSyncDeltaRCAMSCombRuleDtlField"]);
    ("_p_CThostFtdcSyncDeltaRCAMSInstrParameterField", ["_p_CThostFtdcSyncDeltaRCAMSInstrParameterField"]);
    ("_p_CThostFtdcSyncDeltaRCAMSInterParameterField", ["_p_CThostFtdcSyncDeltaRCAMSInterParameterField"]);
    ("_p_CThostFtdcSyncDeltaRCAMSIntraParameterField", ["_p_CThostFtdcSyncDeltaRCAMSIntraParameterField"]);
    ("_p_CThostFtdcSyncDeltaRCAMSInvstCombPosField", ["_p_CThostFtdcSyncDeltaRCAMSInvstCombPosField"]);
    ("_p_CThostFtdcSyncDeltaRCAMSSOptAdjParamField", ["_p_CThostFtdcSyncDeltaRCAMSSOptAdjParamField"]);
    ("_p_CThostFtdcSyncDeltaRULEInstrParameterField", ["_p_CThostFtdcSyncDeltaRULEInstrParameterField"]);
    ("_p_CThostFtdcSyncDeltaRULEInterParameterField", ["_p_CThostFtdcSyncDeltaRULEInterParameterField"]);
    ("_p_CThostFtdcSyncDeltaRULEIntraParameterField", ["_p_CThostFtdcSyncDeltaRULEIntraParameterField"]);
    ("_p_CThostFtdcSyncDeltaSPBMAddOnInterParamField", ["_p_CThostFtdcSyncDeltaSPBMAddOnInterParamField"]);
    ("_p_CThostFtdcSyncDeltaSPBMFutureParameterField", ["_p_CThostFtdcSyncDeltaSPBMFutureParameterField"]);
    ("_p_CThostFtdcSyncDeltaSPBMInterParameterField", ["_p_CThostFtdcSyncDeltaSPBMInterParameterField"]);
    ("_p_CThostFtdcSyncDeltaSPBMIntraParameterField", ["_p_CThostFtdcSyncDeltaSPBMIntraParameterField"]);
    ("_p_CThostFtdcSyncDeltaSPBMInvstPortfDefField", ["_p_CThostFtdcSyncDeltaSPBMInvstPortfDefField"]);
    ("_p_CThostFtdcSyncDeltaSPBMOptionParameterField", ["_p_CThostFtdcSyncDeltaSPBMOptionParameterField"]);
    ("_p_CThostFtdcSyncDeltaSPBMPortfDefinitionField", ["_p_CThostFtdcSyncDeltaSPBMPortfDefinitionField"]);
    ("_p_CThostFtdcSyncDeltaSPMMInstParamField", ["_p_CThostFtdcSyncDeltaSPMMInstParamField"]);
    ("_p_CThostFtdcSyncDeltaSPMMModelParamField", ["_p_CThostFtdcSyncDeltaSPMMModelParamField"]);
    ("_p_CThostFtdcSyncDeltaSPMMProductParamField", ["_p_CThostFtdcSyncDeltaSPMMProductParamField"]);
    ("_p_CThostFtdcSyncDeltaTradingAccountField", ["_p_CThostFtdcSyncDeltaTradingAccountField"]);
    ("_p_CThostFtdcSyncDepositField", ["_p_CThostFtdcSyncDepositField"]);
    ("_p_CThostFtdcSyncFundMortgageField", ["_p_CThostFtdcSyncFundMortgageField"]);
    ("_p_CThostFtdcSyncSPBMParameterEndField", ["_p_CThostFtdcSyncSPBMParameterEndField"]);
    ("_p_CThostFtdcSyncStatusField", ["_p_CThostFtdcSyncStatusField"]);
    ("_p_CThostFtdcSyncingInstrumentCommissionRateField", ["_p_CThostFtdcSyncingInstrumentCommissionRateField"]);
    ("_p_CThostFtdcSyncingInstrumentMarginRateField", ["_p_CThostFtdcSyncingInstrumentMarginRateField"]);
    ("_p_CThostFtdcSyncingInstrumentTradingRightField", ["_p_CThostFtdcSyncingInstrumentTradingRightField"]);
    ("_p_CThostFtdcSyncingInvestorField", ["_p_CThostFtdcSyncingInvestorField"]);
    ("_p_CThostFtdcSyncingInvestorGroupField", ["_p_CThostFtdcSyncingInvestorGroupField"]);
    ("_p_CThostFtdcSyncingInvestorPositionField", ["_p_CThostFtdcSyncingInvestorPositionField"]);
    ("_p_CThostFtdcSyncingTradingAccountField", ["_p_CThostFtdcSyncingTradingAccountField"]);
    ("_p_CThostFtdcSyncingTradingCodeField", ["_p_CThostFtdcSyncingTradingCodeField"]);
    ("_p_CThostFtdcThostUserFunctionField", ["_p_CThostFtdcThostUserFunctionField"]);
    ("_p_CThostFtdcTradeField", ["_p_CThostFtdcTradeField"]);
    ("_p_CThostFtdcTradeParamField", ["_p_CThostFtdcTradeParamField"]);
    ("_p_CThostFtdcTraderApi", ["_p_CThostFtdcTraderApi"]);
    ("_p_CThostFtdcTraderAssignField", ["_p_CThostFtdcTraderAssignField"]);
    ("_p_CThostFtdcTraderField", ["_p_CThostFtdcTraderField"]);
    ("_p_CThostFtdcTraderOfferField", ["_p_CThostFtdcTraderOfferField"]);
    ("_p_CThostFtdcTraderSpi", ["_p_CThostFtdcTraderSpi"]);
    ("_p_CThostFtdcTradingAccountField", ["_p_CThostFtdcTradingAccountField"]);
    ("_p_CThostFtdcTradingAccountPasswordField", ["_p_CThostFtdcTradingAccountPasswordField"]);
    ("_p_CThostFtdcTradingAccountPasswordUpdateField", ["_p_CThostFtdcTradingAccountPasswordUpdateField"]);
    ("_p_CThostFtdcTradingAccountPasswordUpdateV1Field", ["_p_CThostFtdcTradingAccountPasswordUpdateV1Field"]);
    ("_p_CThostFtdcTradingAccountReserveField", ["_p_CThostFtdcTradingAccountReserveField"]);
    ("_p_CThostFtdcTradingCodeField", ["_p_CThostFtdcTradingCodeField"]);
    ("_p_CThostFtdcTradingNoticeField", ["_p_CThostFtdcTradingNoticeField"]);
    ("_p_CThostFtdcTradingNoticeInfoField", ["_p_CThostFtdcTradingNoticeInfoField"]);
    ("_p_CThostFtdcTransferBankField", ["_p_CThostFtdcTransferBankField"]);
    ("_p_CThostFtdcTransferBankToFutureReqField", ["_p_CThostFtdcTransferBankToFutureReqField"]);
    ("_p_CThostFtdcTransferBankToFutureRspField", ["_p_CThostFtdcTransferBankToFutureRspField"]);
    ("_p_CThostFtdcTransferFutureToBankReqField", ["_p_CThostFtdcTransferFutureToBankReqField"]);
    ("_p_CThostFtdcTransferFutureToBankRspField", ["_p_CThostFtdcTransferFutureToBankRspField"]);
    ("_p_CThostFtdcTransferHeaderField", ["_p_CThostFtdcTransferHeaderField"]);
    ("_p_CThostFtdcTransferQryBankReqField", ["_p_CThostFtdcTransferQryBankReqField"]);
    ("_p_CThostFtdcTransferQryBankRspField", ["_p_CThostFtdcTransferQryBankRspField"]);
    ("_p_CThostFtdcTransferQryDetailReqField", ["_p_CThostFtdcTransferQryDetailReqField"]);
    ("_p_CThostFtdcTransferQryDetailRspField", ["_p_CThostFtdcTransferQryDetailRspField"]);
    ("_p_CThostFtdcTransferSerialField", ["_p_CThostFtdcTransferSerialField"]);
    ("_p_CThostFtdcUserIPField", ["_p_CThostFtdcUserIPField"]);
    ("_p_CThostFtdcUserLogoutField", ["_p_CThostFtdcUserLogoutField"]);
    ("_p_CThostFtdcUserPasswordUpdateField", ["_p_CThostFtdcUserPasswordUpdateField"]);
    ("_p_CThostFtdcUserRightField", ["_p_CThostFtdcUserRightField"]);
    ("_p_CThostFtdcUserRightsAssignField", ["_p_CThostFtdcUserRightsAssignField"]);
    ("_p_CThostFtdcUserSessionField", ["_p_CThostFtdcUserSessionField"]);
    ("_p_CThostFtdcUserSystemInfoField", ["_p_CThostFtdcUserSystemInfoField"]);
    ("_p_CThostFtdcVerifyCustInfoField", ["_p_CThostFtdcVerifyCustInfoField"]);
    ("_p_CThostFtdcVerifyFuturePasswordAndCustInfoField", ["_p_CThostFtdcVerifyFuturePasswordAndCustInfoField"]);
    ("_p_CThostFtdcVerifyFuturePasswordField", ["_p_CThostFtdcVerifyFuturePasswordField"]);
    ("_p_CThostFtdcVerifyInvestorPasswordField", ["_p_CThostFtdcVerifyInvestorPasswordField"]);
    ("_p_CThostFtdcWithDrawParamField", ["_p_CThostFtdcWithDrawParamField"]);
    ("_p_a_1001__char", ["_p_a_1001__char"]);
    ("_p_a_100__char", ["_p_a_100__char"]);
    ("_p_a_101__char", ["_p_a_101__char"]);
    ("_p_a_1025__char", ["_p_a_1025__char"]);
    ("_p_a_10__char", ["_p_a_10__char"]);
    ("_p_a_11__char", ["_p_a_11__char"]);
    ("_p_a_129__char", ["_p_a_129__char"]);
    ("_p_a_12__char", ["_p_a_12__char"]);
    ("_p_a_13__char", ["_p_a_13__char"]);
    ("_p_a_151__char", ["_p_a_151__char"]);
    ("_p_a_15__char", ["_p_a_15__char"]);
    ("_p_a_161__char", ["_p_a_161__char"]);
    ("_p_a_16__char", ["_p_a_16__char"]);
    ("_p_a_17__char", ["_p_a_17__char"]);
    ("_p_a_201__char", ["_p_a_201__char"]);
    ("_p_a_2049__char", ["_p_a_2049__char"]);
    ("_p_a_20__char", ["_p_a_20__char"]);
    ("_p_a_21__char", ["_p_a_21__char"]);
    ("_p_a_22__char", ["_p_a_22__char"]);
    ("_p_a_23__char", ["_p_a_23__char"]);
    ("_p_a_24__char", ["_p_a_24__char"]);
    ("_p_a_2561__char", ["_p_a_2561__char"]);
    ("_p_a_256__char", ["_p_a_256__char"]);
    ("_p_a_257__char", ["_p_a_257__char"]);
    ("_p_a_25__char", ["_p_a_25__char"]);
    ("_p_a_261__char", ["_p_a_261__char"]);
    ("_p_a_273__char", ["_p_a_273__char"]);
    ("_p_a_2__char", ["_p_a_2__char"]);
    ("_p_a_301__char", ["_p_a_301__char"]);
    ("_p_a_31__char", ["_p_a_31__char"]);
    ("_p_a_33__char", ["_p_a_33__char"]);
    ("_p_a_349__char", ["_p_a_349__char"]);
    ("_p_a_365__char", ["_p_a_365__char"]);
    ("_p_a_36__char", ["_p_a_36__char"]);
    ("_p_a_3__char", ["_p_a_3__char"]);
    ("_p_a_401__char", ["_p_a_401__char"]);
    ("_p_a_41__char", ["_p_a_41__char"]);
    ("_p_a_4__char", ["_p_a_4__char"]);
    ("_p_a_501__char", ["_p_a_501__char"]);
    ("_p_a_513__char", ["_p_a_513__char"]);
    ("_p_a_51__char", ["_p_a_51__char"]);
    ("_p_a_5__char", ["_p_a_5__char"]);
    ("_p_a_61__char", ["_p_a_61__char"]);
    ("_p_a_65__char", ["_p_a_65__char"]);
    ("_p_a_6__char", ["_p_a_6__char"]);
    ("_p_a_71__char", ["_p_a_71__char"]);
    ("_p_a_7__char", ["_p_a_7__char"]);
    ("_p_a_81__char", ["_p_a_81__char"]);
    ("_p_a_9__char", ["_p_a_9__char"]);
    ("_p_char", ["_p_char"]);
    ("_p_double", ["_p_double"]);
    ("_p_int", ["_p_int"]);
    ("_p_p_char", ["_p_p_char"]);
    ("_p_short", ["_p_short"]) ].

(** The initialiser [swig_cast_initial].
    (ctp_wrap.cpp, lines 507521 to 507653.) *)
Definition cast_initial_0 : list string :=
  [ "_p_CThostFtdcAccountPropertyField";
    "_p_CThostFtdcAccountregisterField";
    "_p_CThostFtdcAppIDAuthAssignField";
    "_p_CThostFtdcAuthForbiddenIPField";
    "_p_CThostFtdcAuthIPField";
    "_p_CThostFtdcAuthUserIDField";
    "_p_CThostFtdcAuthenticationInfoField";
    "_p_CThostFtdcBatchOrderActionField";
    "_p_CThostFtdcBrokerDepositField";
    "_p_CThostFtdcBrokerField";
    "_p_CThostFtdcBrokerSyncField";
    "_p_CThostFtdcBrokerTradingAlgosField";
    "_p_CThostFtdcBrokerTradingParamsField";
    "_p_CThostFtdcBrokerUserEventField";
    "_p_CThostFtdcBrokerUserField";
    "_p_CThostFtdcBrokerUserFunctionField";
    "_p_CThostFtdcBrokerUserOTPParamField";
    "_p_CThostFtdcBrokerUserPasswordField";
    "_p_CThostFtdcBrokerUserRightAssignField";
    "_p_CThostFtdcBrokerWithdrawAlgorithmField";
    "_p_CThostFtdcBulletinField";
    "_p_CThostFtdcCFMMCBrokerKeyField";
    "_p_CThostFtdcCFMMCTradingAccountKeyField";
    "_p_CThostFtdcCFMMCTradingAccountTokenField";
    "_p_CThostFtdcCancelAccountField";
    "_p_CThostFtdcChangeAccountField";
    "_p_CThostFtdcCombActionField";
    "_p_CThostFtdcCombInstrumentGuardField";
    "_p_CThostFtdcCombPromotionParamField";
    "_p_CThostFtdcCombinationLegField";
    "_p_CThostFtdcCommPhaseField";
    "_p_CThostFtdcCommRateModelField";
    "_p_CThostFtdcContractBankField";
    "_p_CThostFtdcCurrDRIdentityField";
    "_p_CThostFtdcCurrTransferIdentityField";
    "_p_CThostFtdcCurrentTimeField";
    "_p_CThostFtdcDRTransferField";
    "_p_CThostFtdcDepartmentUserField";
    "_p_CThostFtdcDepositResultInformField";
    "_p_CThostFtdcDepthMarketDataField";
    "_p_CThostFtdcDiscountField";
    "_p_CThostFtdcDisseminationField";
    "_p_CThostFtdcEWarrantOffsetField";
    "_p_CThostFtdcErrExecOrderActionField";
    "_p_CThostFtdcErrExecOrderField";
    "_p_CThostFtdcErrOrderActionField";
    "_p_CThostFtdcErrOrderField";
    "_p_CThostFtdcErrorConditionalOrderField";
    "_p_CThostFtdcExchangeBatchOrderActionField";
    "_p_CThostFtdcExchangeCombActionField";
    "_p_CThostFtdcExchangeExecOrderActionField";
    "_p_CThostFtdcExchangeExecOrderField";
    "_p_CThostFtdcExchangeField";
    "_p_CThostFtdcExchangeForQuoteField";
    "_p_CThostFtdcExchangeMarginRateAdjustField";
    "_p_CThostFtdcExchangeMarginRateField";
    "_p_CThostFtdcExchangeOptionSelfCloseActionField";
    "_p_CThostFtdcExchangeOptionSelfCloseField";
    "_p_CThostFtdcExchangeOrderActionErrorField";
    "_p_CThostFtdcExchangeOrderActionField";
    "_p_CThostFtdcExchangeOrderField";
    "_p_CThostFtdcExchangeOrderInsertErrorField";
    "_p_CThostFtdcExchangeQuoteActionField";
    "_p_CThostFtdcExchangeQuoteField";
    "_p_CThostFtdcExchangeRateField";
    "_p_CThostFtdcExchangeSequenceField";
    "_p_CThostFtdcExchangeTradeField";
    "_p_CThostFtdcExecOrderActionField";
    "_p_CThostFtdcExecOrderField";
    "_p_CThostFtdcExitEmergencyField";
    "_p_CThostFtdcFensUserInfoField";
    "_p_CThostFtdcForQuoteField";
    "_p_CThostFtdcForQuoteParamField";
    "_p_CThostFtdcForQuoteRspField";
    "_p_CThostFtdcForceUserLogoutField";
    "_p_CThostFtdcFrontInfoField";
    "_p_CThostFtdcFrontStatusField";
    "_p_CThostFtdcFutureLimitPosiParamField";
    "_p_CThostFtdcFutureSignIOField";
    "_p_CThostFtdcIPListField";
    "_p_CThostFtdcIndexPriceField";
    "_p_CThostFtdcInputBatchOrderActionField";
    "_p_CThostFtdcInputCombActionField";
    "_p_CThostFtdcInputExecOrderActionField";
    "_p_CThostFtdcInputExecOrderField";
    "_p_CThostFtdcInputForQuoteField";
    "_p_CThostFtdcInputOptionSelfCloseActionField";
    "_p_CThostFtdcInputOptionSelfCloseField";
    "_p_CThostFtdcInputOrderActionField";
    "_p_CThostFtdcInputOrderField";
    "_p_CThostFtdcInputQuoteActionField";
    "_p_CThostFtdcInputQuoteField";
    "_p_CThostFtdcInstrumentCommissionRateField";
    "_p_CThostFtdcInstrumentField";
    "_p_CThostFtdcInstrumentMarginRateAdjustField";
    "_p_CThostFtdcInstrumentMarginRateField";
    "_p_CThostFtdcInstrumentMarginRateULField";
    "_p_CThostFtdcInstrumentOrderCommRateField";
    "_p_CThostFtdcInstrumentStatusField";
    "_p_CThostFtdcInstrumentTradingRightField";
    "_p_CThostFtdcInvestUnitField";
    "_p_CThostFtdcInvestorAccountField";
    "_p_CThostFtdcInvestorCommodityGroupSPMMMarginField";
    "_p_CThostFtdcInvestorCommoditySPMMMarginField";
    "_p_CThostFtdcInvestorField";
    "_p_CThostFtdcInvestorGroupField";
    "_p_CThostFtdcInvestorInfoCntSettingField";
    "_p_CThostFtdcInvestorPortfMarginModelField";
    "_p_CThostFtdcInvestorPortfMarginRatioField";
    "_p_CThostFtdcInvestorPortfSettingField";
    "_p_CThostFtdcInvestorPositionCombineDetailField";
    "_p_CThostFtdcInvestorPositionDetailField";
    "_p_CThostFtdcInvestorPositionField";
    "_p_CThostFtdcInvestorProdRCAMSMarginField";
    "_p_CThostFtdcInvestorProdRULEMarginField";
    "_p_CThostFtdcInvestorProdSPBMDetailField";
    "_p_CThostFtdcInvestorProductGroupMarginField";
    "_p_CThostFtdcInvestorTradingRightField";
    "_p_CThostFtdcInvestorWithdrawAlgorithmField";
    "_p_CThostFtdcLinkManField";
    "_p_CThostFtdcLoadSettlementInfoField";
    "_p_CThostFtdcLoginForbiddenIPField";
    "_p_CThostFtdcLoginForbiddenUserField";
    "_p_CThostFtdcLoginInfoField";
    "_p_CThostFtdcLogoutAllField";
    "_p_CThostFtdcMDTraderOfferField";
    "_p_CThostFtdcMMInstrumentCommissionRateField";
    "_p_CThostFtdcMMOptionInstrCommRateField";
    "_p_CThostFtdcManualSyncBrokerUserOTPField";
    "_p_CThostFtdcMarginModelField";
    "_p_CThostFtdcMarketDataAsk23Field";
    "_p_CThostFtdcMarketDataAsk45Field";
    "_p_CThostFtdcMarketDataAveragePriceField" ].

(** ctp_wrap.cpp, lines 507654 to 507786. *)
Definition cast_initial_1 : list string :=
  [ "_p_CThostFtdcMarketDataBandingPriceField";
    "_p_CThostFtdcMarketDataBaseField";
    "_p_CThostFtdcMarketDataBestPriceField";
    "_p_CThostFtdcMarketDataBid23Field";
    "_p_CThostFtdcMarketDataBid45Field";
    "_p_CThostFtdcMarketDataExchangeField";
    "_p_CThostFtdcMarketDataField";
    "_p_CThostFtdcMarketDataLastMatchField";
    "_p_CThostFtdcMarketDataStaticField";
    "_p_CThostFtdcMarketDataUpdateTimeField";
    "_p_CThostFtdcMdApi";
    "_p_CThostFtdcMdSpi";
    "_p_CThostFtdcMortgageParamField";
    "_p_CThostFtdcMulticastInstrumentField";
    "_p_CThostFtdcNoticeField";
    "_p_CThostFtdcNotifyFutureSignInField";
    "_p_CThostFtdcNotifyFutureSignOutField";
    "_p_CThostFtdcNotifyQueryAccountField";
    "_p_CThostFtdcNotifySyncKeyField";
    "_p_CThostFtdcOpenAccountField";
    "_p_CThostFtdcOptionInstrCommRateField";
    "_p_CThostFtdcOptionInstrDeltaField";
    "_p_CThostFtdcOptionInstrMarginAdjustField";
    "_p_CThostFtdcOptionInstrMiniMarginField";
    "_p_CThostFtdcOptionInstrTradeCostField";
    "_p_CThostFtdcOptionInstrTradingRightField";
    "_p_CThostFtdcOptionSelfCloseActionField";
    "_p_CThostFtdcOptionSelfCloseField";
    "_p_CThostFtdcOrderActionField";
    "_p_CThostFtdcOrderField";
    "_p_CThostFtdcParkedOrderActionField";
    "_p_CThostFtdcParkedOrderField";
    "_p_CThostFtdcPartBrokerField";
    "_p_CThostFtdcPortfTradeParamSettingField";
    "_p_CThostFtdcPositionProfitAlgorithmField";
    "_p_CThostFtdcProductExchRateField";
    "_p_CThostFtdcProductField";
    "_p_CThostFtdcProductGroupField";
    "_p_CThostFtdcQryAccountregisterField";
    "_p_CThostFtdcQryAuthForbiddenIPField";
    "_p_CThostFtdcQryBatchOrderActionField";
    "_p_CThostFtdcQryBrokerField";
    "_p_CThostFtdcQryBrokerTradingAlgosField";
    "_p_CThostFtdcQryBrokerTradingParamsField";
    "_p_CThostFtdcQryBrokerUserEventField";
    "_p_CThostFtdcQryBrokerUserField";
    "_p_CThostFtdcQryBrokerUserFunctionField";
    "_p_CThostFtdcQryBulletinField";
    "_p_CThostFtdcQryCFMMCBrokerKeyField";
    "_p_CThostFtdcQryCFMMCTradingAccountKeyField";
    "_p_CThostFtdcQryClassifiedInstrumentField";
    "_p_CThostFtdcQryCombActionField";
    "_p_CThostFtdcQryCombInstrumentGuardField";
    "_p_CThostFtdcQryCombPromotionParamField";
    "_p_CThostFtdcQryCombinationLegField";
    "_p_CThostFtdcQryCommRateModelField";
    "_p_CThostFtdcQryContractBankField";
    "_p_CThostFtdcQryCurrDRIdentityField";
    "_p_CThostFtdcQryDepthMarketDataField";
    "_p_CThostFtdcQryEWarrantOffsetField";
    "_p_CThostFtdcQryErrExecOrderActionField";
    "_p_CThostFtdcQryErrExecOrderField";
    "_p_CThostFtdcQryErrOrderActionField";
    "_p_CThostFtdcQryErrOrderField";
    "_p_CThostFtdcQryExchangeCombActionField";
    "_p_CThostFtdcQryExchangeExecOrderActionField";
    "_p_CThostFtdcQryExchangeExecOrderField";
    "_p_CThostFtdcQryExchangeField";
    "_p_CThostFtdcQryExchangeForQuoteField";
    "_p_CThostFtdcQryExchangeMarginRateAdjustField";
    "_p_CThostFtdcQryExchangeMarginRateField";
    "_p_CThostFtdcQryExchangeOrderActionField";
    "_p_CThostFtdcQryExchangeOrderField";
    "_p_CThostFtdcQryExchangeQuoteActionField";
    "_p_CThostFtdcQryExchangeQuoteField";
    "_p_CThostFtdcQryExchangeRateField";
    "_p_CThostFtdcQryExchangeSequenceField";
    "_p_CThostFtdcQryExecOrderActionField";
    "_p_CThostFtdcQryExecOrderField";
    "_p_CThostFtdcQryForQuoteField";
    "_p_CThostFtdcQryForQuoteParamField";
    "_p_CThostFtdcQryFrontStatusField";
    "_p_CThostFtdcQryHisOrderField";
    "_p_CThostFtdcQryIPListField";
    "_p_CThostFtdcQryInstrumentCommissionRateField";
    "_p_CThostFtdcQryInstrumentField";
    "_p_CThostFtdcQryInstrumentMarginRateField";
    "_p_CThostFtdcQryInstrumentOrderCommRateField";
    "_p_CThostFtdcQryInstrumentStatusField";
    "_p_CThostFtdcQryInstrumentTradingRightField";
    "_p_CThostFtdcQryInvestUnitField";
    "_p_CThostFtdcQryInvestorCommodityGroupSPMMMarginField";
    "_p_CThostFtdcQryInvestorCommoditySPMMMarginField";
    "_p_CThostFtdcQryInvestorField";
    "_p_CThostFtdcQryInvestorGroupField";
    "_p_CThostFtdcQryInvestorPortfMarginRatioField";
    "_p_CThostFtdcQryInvestorPortfSettingField";
    "_p_CThostFtdcQryInvestorPositionCombineDetailField";
    "_p_CThostFtdcQryInvestorPositionDetailField";
    "_p_CThostFtdcQryInvestorPositionField";
    "_p_CThostFtdcQryInvestorProdRCAMSMarginField";
    "_p_CThostFtdcQryInvestorProdRULEMarginField";
    "_p_CThostFtdcQryInvestorProdSPBMDetailField";
    "_p_CThostFtdcQryInvestorProductGroupMarginField";
    "_p_CThostFtdcQryLinkManField";
    "_p_CThostFtdcQryLoginForbiddenIPField";
    "_p_CThostFtdcQryLoginForbiddenUserField";
    "_p_CThostFtdcQryMDTraderOfferField";
    "_p_CThostFtdcQryMMInstrumentCommissionRateField";
    "_p_CThostFtdcQryMMOptionInstrCommRateField";
    "_p_CThostFtdcQryMarginModelField";
    "_p_CThostFtdcQryMaxOrderVolumeField";
    "_p_CThostFtdcQryMaxOrderVolumeWithPriceField";
    "_p_CThostFtdcQryMulticastInstrumentField";
    "_p_CThostFtdcQryNoticeField";
    "_p_CThostFtdcQryOptionInstrCommRateField";
    "_p_CThostFtdcQryOptionInstrTradeCostField";
    "_p_CThostFtdcQryOptionInstrTradingRightField";
    "_p_CThostFtdcQryOptionSelfCloseActionField";
    "_p_CThostFtdcQryOptionSelfCloseField";
    "_p_CThostFtdcQryOrderActionField";
    "_p_CThostFtdcQryOrderField";
    "_p_CThostFtdcQryParkedOrderActionField";
    "_p_CThostFtdcQryParkedOrderField";
    "_p_CThostFtdcQryPartBrokerField";
    "_p_CThostFtdcQryProductExchRateField";
    "_p_CThostFtdcQryProductField";
    "_p_CThostFtdcQryProductGroupField";
    "_p_CThostFtdcQryQuoteActionField";
    "_p_CThostFtdcQryQuoteField";
    "_p_CThostFtdcQryRCAMSCombProductInfoField";
    "_p_CThostFtdcQryRCAMSInstrParameterField";
    "_p_CThostFtdcQryRCAMSInterParameterField" ].

(** ctp_wrap.cpp, lines 507787 to 507919. *)
Definition cast_initial_2 : list string :=
  [ "_p_CThostFtdcQryRCAMSIntraParameterField";
    "_p_CThostFtdcQryRCAMSInvestorCombPositionField";
    "_p_CThostFtdcQryRCAMSShortOptAdjustParamField";
    "_p_CThostFtdcQryRULEInstrParameterField";
    "_p_CThostFtdcQryRULEInterParameterField";
    "_p_CThostFtdcQryRULEIntraParameterField";
    "_p_CThostFtdcQryRiskSettleInvstPositionField";
    "_p_CThostFtdcQryRiskSettleProductStatusField";
    "_p_CThostFtdcQrySPBMAddOnInterParameterField";
    "_p_CThostFtdcQrySPBMFutureParameterField";
    "_p_CThostFtdcQrySPBMInterParameterField";
    "_p_CThostFtdcQrySPBMIntraParameterField";
    "_p_CThostFtdcQrySPBMInvestorPortfDefField";
    "_p_CThostFtdcQrySPBMOptionParameterField";
    "_p_CThostFtdcQrySPBMPortfDefinitionField";
    "_p_CThostFtdcQrySPMMInstParamField";
    "_p_CThostFtdcQrySPMMProductParamField";
    "_p_CThostFtdcQrySecAgentACIDMapField";
    "_p_CThostFtdcQrySecAgentCheckModeField";
    "_p_CThostFtdcQrySecAgentTradeInfoField";
    "_p_CThostFtdcQrySettlementInfoConfirmField";
    "_p_CThostFtdcQrySettlementInfoField";
    "_p_CThostFtdcQryStrikeOffsetField";
    "_p_CThostFtdcQrySuperUserField";
    "_p_CThostFtdcQrySuperUserFunctionField";
    "_p_CThostFtdcQrySyncDelaySwapField";
    "_p_CThostFtdcQrySyncDepositField";
    "_p_CThostFtdcQrySyncFundMortgageField";
    "_p_CThostFtdcQrySyncStatusField";
    "_p_CThostFtdcQryThostUserFunctionField";
    "_p_CThostFtdcQryTradeField";
    "_p_CThostFtdcQryTraderAssignField";
    "_p_CThostFtdcQryTraderField";
    "_p_CThostFtdcQryTraderOfferField";
    "_p_CThostFtdcQryTradingAccountField";
    "_p_CThostFtdcQryTradingCodeField";
    "_p_CThostFtdcQryTradingNoticeField";
    "_p_CThostFtdcQryTransferBankField";
    "_p_CThostFtdcQryTransferSerialField";
    "_p_CThostFtdcQryUserRightsAssignField";
    "_p_CThostFtdcQryUserSessionField";
    "_p_CThostFtdcQueryBrokerDepositField";
    "_p_CThostFtdcQueryCFMMCTradingAccountTokenField";
    "_p_CThostFtdcQueryFreqField";
    "_p_CThostFtdcQuoteActionField";
    "_p_CThostFtdcQuoteField";
    "_p_CThostFtdcRCAMSCombProductInfoField";
    "_p_CThostFtdcRCAMSInstrParameterField";
    "_p_CThostFtdcRCAMSInterParameterField";
    "_p_CThostFtdcRCAMSIntraParameterField";
    "_p_CThostFtdcRCAMSInvestorCombPositionField";
    "_p_CThostFtdcRCAMSShortOptAdjustParamField";
    "_p_CThostFtdcRULEInstrParameterField";
    "_p_CThostFtdcRULEInterParameterField";
    "_p_CThostFtdcRULEIntraParameterField";
    "_p_CThostFtdcRemoveParkedOrderActionField";
    "_p_CThostFtdcRemoveParkedOrderField";
    "_p_CThostFtdcReqApiHandshakeField";
    "_p_CThostFtdcReqAuthenticateField";
    "_p_CThostFtdcReqCancelAccountField";
    "_p_CThostFtdcReqChangeAccountField";
    "_p_CThostFtdcReqDayEndFileReadyField";
    "_p_CThostFtdcReqFutureSignOutField";
    "_p_CThostFtdcReqGenUserCaptchaField";
    "_p_CThostFtdcReqGenUserTextField";
    "_p_CThostFtdcReqOpenAccountField";
    "_p_CThostFtdcReqQueryAccountField";
    "_p_CThostFtdcReqQueryTradeResultBySerialField";
    "_p_CThostFtdcReqRepealField";
    "_p_CThostFtdcReqSyncKeyField";
    "_p_CThostFtdcReqTransferField";
    "_p_CThostFtdcReqUserAuthMethodField";
    "_p_CThostFtdcReqUserLoginField";
    "_p_CThostFtdcReqUserLoginSMField";
    "_p_CThostFtdcReqUserLoginWithCaptchaField";
    "_p_CThostFtdcReqUserLoginWithOTPField";
    "_p_CThostFtdcReqUserLoginWithTextField";
    "_p_CThostFtdcReqVerifyApiKeyField";
    "_p_CThostFtdcReserveOpenAccountConfirmField";
    "_p_CThostFtdcReserveOpenAccountField";
    "_p_CThostFtdcReturnResultField";
    "_p_CThostFtdcRiskSettleInvstPositionField";
    "_p_CThostFtdcRiskSettleProductStatusField";
    "_p_CThostFtdcRspApiHandshakeField";
    "_p_CThostFtdcRspAuthenticateField";
    "_p_CThostFtdcRspFutureSignInField";
    "_p_CThostFtdcRspFutureSignOutField";
    "_p_CThostFtdcRspGenUserCaptchaField";
    "_p_CThostFtdcRspGenUserTextField";
    "_p_CThostFtdcRspInfoField";
    "_p_CThostFtdcRspQueryAccountField";
    "_p_CThostFtdcRspQueryTradeResultBySerialField";
    "_p_CThostFtdcRspRepealField";
    "_p_CThostFtdcRspSyncKeyField";
    "_p_CThostFtdcRspTransferField";
    "_p_CThostFtdcRspUserAuthMethodField";
    "_p_CThostFtdcRspUserLogin2Field";
    "_p_CThostFtdcRspUserLoginField";
    "_p_CThostFtdcSPBMAddOnInterParameterField";
    "_p_CThostFtdcSPBMFutureParameterField";
    "_p_CThostFtdcSPBMInterParameterField";
    "_p_CThostFtdcSPBMIntraParameterField";
    "_p_CThostFtdcSPBMInvestorPortfDefField";
    "_p_CThostFtdcSPBMOptionParameterField";
    "_p_CThostFtdcSPBMPortfDefinitionField";
    "_p_CThostFtdcSPMMInstParamField";
    "_p_CThostFtdcSPMMProductParamField";
    "_p_CThostFtdcSecAgentACIDMapField";
    "_p_CThostFtdcSecAgentCheckModeField";
    "_p_CThostFtdcSecAgentTradeInfoField";
    "_p_CThostFtdcSettlementInfoConfirmField";
    "_p_CThostFtdcSettlementInfoField";
    "_p_CThostFtdcSettlementRefField";
    "_p_CThostFtdcSpecificInstrumentField";
    "_p_CThostFtdcStrikeOffsetField";
    "_p_CThostFtdcSuperUserField";
    "_p_CThostFtdcSuperUserFunctionField";
    "_p_CThostFtdcSyncDelaySwapField";
    "_p_CThostFtdcSyncDelaySwapFrozenField";
    "_p_CThostFtdcSyncDeltaDceCombInstrumentField";
    "_p_CThostFtdcSyncDeltaDepthMarketDataField";
    "_p_CThostFtdcSyncDeltaEWarrantOffsetField";
    "_p_CThostFtdcSyncDeltaExchMarginRateField";
    "_p_CThostFtdcSyncDeltaIndexPriceField";
    "_p_CThostFtdcSyncDeltaInfoField";
    "_p_CThostFtdcSyncDeltaInitInvstMarginField";
    "_p_CThostFtdcSyncDeltaInvestorSPMMModelField";
    "_p_CThostFtdcSyncDeltaInvstCommRateField";
    "_p_CThostFtdcSyncDeltaInvstMarginRateField";
    "_p_CThostFtdcSyncDeltaInvstMarginRateULField";
    "_p_CThostFtdcSyncDeltaInvstPosCombDtlField";
    "_p_CThostFtdcSyncDeltaInvstPosDtlField";
    "_p_CThostFtdcSyncDeltaOptExchMarginField" ].

(** ctp_wrap.cpp, lines 507920 to 508049. *)
Definition cast_initial_3 : list string :=
  [ "_p_CThostFtdcSyncDeltaOptInvstCommRateField";
    "_p_CThostFtdcSyncDeltaOptInvstMarginField";
    "_p_CThostFtdcSyncDeltaProductExchRateField";
    "_p_CThostFtdcSyncDeltaProductStatusField";
    "_p_CThostFtdcSyncDeltaRCAMSCombProdInfoField";
    "_p_CThostFtdcSyncDeltaRCAMSCombRuleDtlField";
    "_p_CThostFtdcSyncDeltaRCAMSInstrParameterField";
    "_p_CThostFtdcSyncDeltaRCAMSInterParameterField";
    "_p_CThostFtdcSyncDeltaRCAMSIntraParameterField";
    "_p_CThostFtdcSyncDeltaRCAMSInvstCombPosField";
    "_p_CThostFtdcSyncDeltaRCAMSSOptAdjParamField";
    "_p_CThostFtdcSyncDeltaRULEInstrParameterField";
    "_p_CThostFtdcSyncDeltaRULEInterParameterField";
    "_p_CThostFtdcSyncDeltaRULEIntraParameterField";
    "_p_CThostFtdcSyncDeltaSPBMAddOnInterParamField";
    "_p_CThostFtdcSyncDeltaSPBMFutureParameterField";
    "_p_CThostFtdcSyncDeltaSPBMInterParameterField";
    "_p_CThostFtdcSyncDeltaSPBMIntraParameterField";
    "_p_CThostFtdcSyncDeltaSPBMInvstPortfDefField";
    "_p_CThostFtdcSyncDeltaSPBMOptionParameterField";
    "_p_CThostFtdcSyncDeltaSPBMPortfDefinitionField";
    "_p_CThostFtdcSyncDeltaSPMMInstParamField";
    "_p_CThostFtdcSyncDeltaSPMMModelParamField";
    "_p_CThostFtdcSyncDeltaSPMMProductParamField";
    "_p_CThostFtdcSyncDeltaTradingAccountField";
    "_p_CThostFtdcSyncDepositField";
    "_p_CThostFtdcSyncFundMortgageField";
    "_p_CThostFtdcSyncSPBMParameterEndField";
    "_p_CThostFtdcSyncStatusField";
    "_p_CThostFtdcSyncingInstrumentCommissionRateField";
    "_p_CThostFtdcSyncingInstrumentMarginRateField";
    "_p_CThostFtdcSyncingInstrumentTradingRightField";
    "_p_CThostFtdcSyncingInvestorField";
    "_p_CThostFtdcSyncingInvestorGroupField";
    "_p_CThostFtdcSyncingInvestorPositionField";
    "_p_CThostFtdcSyncingTradingAccountField";
    "_p_CThostFtdcSyncingTradingCodeField";
    "_p_CThostFtdcThostUserFunctionField";
    "_p_CThostFtdcTradeField";
    "_p_CThostFtdcTradeParamField";
    "_p_CThostFtdcTraderApi";
    "_p_CThostFtdcTraderAssignField";
    "_p_CThostFtdcTraderField";
    "_p_CThostFtdcTraderOfferField";
    "_p_CThostFtdcTraderSpi";
    "_p_CThostFtdcTradingAccountField";
    "_p_CThostFtdcTradingAccountPasswordField";
    "_p_CThostFtdcTradingAccountPasswordUpdateField";
    "_p_CThostFtdcTradingAccountPasswordUpdateV1Field";
    "_p_CThostFtdcTradingAccountReserveField";
    "_p_CThostFtdcTradingCodeField";
    "_p_CThostFtdcTradingNoticeField";
    "_p_CThostFtdcTradingNoticeInfoField";
    "_p_CThostFtdcTransferBankField";
    "_p_CThostFtdcTransferBankToFutureReqField";
    "_p_CThostFtdcTransferBankToFutureRspField";
    "_p_CThostFtdcTransferFutureToBankReqField";
    "_p_CThostFtdcTransferFutureToBankRspField";
    "_p_CThostFtdcTransferHeaderField";
    "_p_CThostFtdcTransferQryBankReqField";
    "_p_CThostFtdcTransferQryBankRspField";
    "_p_CThostFtdcTransferQryDetailReqField";
    "_p_CThostFtdcTransferQryDetailRspField";
    "_p_CThostFtdcTransferSerialField";
    "_p_CThostFtdcUserIPField";
    "_p_CThostFtdcUserLogoutField";
    "_p_CThostFtdcUserPasswordUpdateField";
    "_p_CThostFtdcUserRightField";
    "_p_CThostFtdcUserRightsAssignField";
    "_p_CThostFtdcUserSessionField";
    "_p_CThostFtdcUserSystemInfoField";
    "_p_CThostFtdcVerifyCustInfoField";
    "_p_CThostFtdcVerifyFuturePasswordAndCustInfoField";
    "_p_CThostFtdcVerifyFuturePasswordField";
    "_p_CThostFtdcVerifyInvestorPasswordField";
    "_p_CThostFtdcWithDrawParamField";
    "_p_a_1001__char";
    "_p_a_100__char";
    "_p_a_101__char";
    "_p_a_1025__char";
    "_p_a_10__char";
    "_p_a_11__char";
    "_p_a_129__char";
    "_p_a_12__char";
    "_p_a_13__char";
    "_p_a_151__char";
    "_p_a_15__char";
    "_p_a_161__char";
    "_p_a_16__char";
    "_p_a_17__char";
    "_p_a_201__char";
    "_p_a_2049__char";
    "_p_a_20__char";
    "_p_a_21__char";
    "_p_a_22__char";
    "_p_a_23__char";
    "_p_a_24__char";
    "_p_a_2561__char";
    "_p_a_256__char";
    "_p_a_257__char";
    "_p_a_25__char";
    "_p_a_261__char";
    "_p_a_273__char";
    "_p_a_2__char";
    "_p_a_301__char";
    "_p_a_31__char";
    "_p_a_33__char";
    "_p_a_349__char";
    "_p_a_365__char";
    "_p_a_36__char";
    "_p_a_3__char";
    "_p_a_401__char";
    "_p_a_41__char";
    "_p_a_4__char";
    "_p_a_501__char";
    "_p_a_513__char";
    "_p_a_51__char";
    "_p_a_5__char";
    "_p_a_61__char";
    "_p_a_65__char";
    "_p_a_6__char";
    "_p_a_71__char";
    "_p_a_7__char";
    "_p_a_81__char";
    "_p_a_9__char";
    "_p_char";
    "_p_double";
    "_p_int";
    "_p_p_char";
    "_p_short" ].

Definition swigt : list (string * string) := swigt_0 ++ swigt_1 ++ swigt_2 ++ swigt_3.
Definition SWIGTYPE : list (string * Z) := SWIGTYPE_0 ++ SWIGTYPE_1 ++ SWIGTYPE_2 ++ SWIGTYPE_3.
Definition swig_type_initial : list string := type_initial_0 ++ type_initial_1 ++ type_initial_2 ++ type_initial_3.
Definition swigc : list (string * list string) := swigc_0 ++ swigc_1 ++ swigc_2 ++ swigc_3.
Definition swig_cast_initial : list string := cast_initial_0 ++ cast_initial_1 ++ cast_initial_2 ++ cast_initial_3.

(** ** The tables after [SWIG_InitializeModule] *)

(** The value of [&_swigt_<id>]. *)
Definition swigt_of (id : string) : option (string * string) :=
  list_find (fun p => fst p = id) swigt ≫= fun r => Some (snd r).

Definition info_of (p : string * string) : swig_type_info :=
  mk_type_info (Some (chars (fst p))) (Some (chars (snd p))).

(** [swig_module.types]: alone, each entry is that of [type_initial].
    (ctp_wrap.cpp, lines 508399 to 508401.) *)
Definition swig_types : list swig_type_info :=
  map info_of (omap swigt_of swig_type_initial).

(** The entries of [_swigc_<id>], at the given addresses of the descriptors. *)
Definition swigc_entries (addr : string -> Z) (id : string) : list swig_cast_info :=
  match list_find (fun p => fst p = id) swigc with
  | Some (_, (_, targets)) =>
      map (fun t => mk_cast_info (Some (mk_type_ref (addr t) (chars t))) None None 0) targets
  | None => []
  end.

(** [types[i]->cast] after initialisation, for the [i]-th type.
    (ctp_wrap.cpp, lines 508304 to 508397.) *)
Definition type_casts (addr : string -> Z) (i : nat) : option (list (list swig_cast_info)) :=
  match swig_type_initial !! i, swig_cast_initial !! i with
  | Some t, Some c =>
      let entries := swigc_entries addr c in
      match init_casts (addr t) (fun _ => None) true (fun _ => false)
                       (entries ++ [cast_end]) (length entries) with
      | Some arr => Some [arr]
      | None => None
      end
  | _, _ => None
  end.

(** ** Checks over the tables *)

Fixpoint strictly_sortedb (l : list (list Z)) : bool :=
  match l with
  | a :: ((b :: _) as l') => (strcmp a b <? 0) && strictly_sortedb l'
  | _ => true
  end.

Lemma strictly_sortedb_spec l :
  strictly_sortedb l = true -> StronglySorted (fun a b => strcmp a b < 0) l.
Proof.
  intros H. apply Sorted_StronglySorted; [intros a b c; apply strcmp_trans|].
  induction l as [|a l IH]; [constructor|]. destruct l as [|b l].
  - repeat constructor.
  - cbn [strictly_sortedb] in H. zbool. constructor; [auto|]. by constructor.
Qed.

Lemma swigt_sorted : StronglySorted (fun a b => strcmp a b < 0) (map (fun p => chars (fst p)) swigt).
Proof. apply strictly_sortedb_spec. vm_compute. reflexivity. Qed.

Lemma initial_ids : swig_type_initial = map fst swigt.
Proof. reflexivity. Qed.

Lemma cast_initial_ids : swig_cast_initial = map fst swigt.
Proof. reflexivity. Qed.

Lemma swigc_self : swigc = map (fun p => (fst p, [fst p])) swigt.
Proof. reflexivity. Qed.

Lemma macro_ids : map (fun r => String (Ascii.ascii_of_nat 95) (fst r)) SWIGTYPE = map fst swigt.
Proof. reflexivity. Qed.

Lemma macro_indices : map snd SWIGTYPE = map Z.of_nat (seq 0 (length swigt)).
Proof. vm_compute. reflexivity. Qed.

#[local] Opaque swigt SWIGTYPE swigc swig_type_initial swig_cast_initial.

(** ** The tables agree *)

Lemma find_unique {B} (l : list (string * B)) i p : NoDup (map fst l) -> l !! i = Some p ->
  list_find (fun q => fst q = fst p) l = Some (i, p).
Proof.
  intros Hd Hi. apply list_find_Some. split; [done|]. split; [done|].
  intros j q Hj Hlt E. pose proof (lookup_lt_Some _ _ _ Hj).
  assert (j = i); [|lia].
  eapply (NoDup_lookup (map fst l)); [done| |].
  - rewrite list_lookup_fmap, Hj. simpl. by rewrite E.
  - rewrite list_lookup_fmap, Hi. done.
Qed.

Lemma sorted_nodup l : StronglySorted (fun a b => strcmp a b < 0) l -> NoDup l.
Proof.
  induction 1 as [|a l Hs IH Ha]; constructor; [|done].
  intros Hin. rewrite Forall_forall in Ha. specialize (Ha a Hin). simpl in Ha.
  rewrite strcmp_refl in Ha. lia.
Qed.

Lemma swigt_nodup : NoDup (map fst swigt).
Proof.
  apply (NoDup_fmap_1 chars). rewrite <- list_fmap_compose. apply sorted_nodup, swigt_sorted.
Qed.

Lemma omap_find {B} (l : list (string * B)) : NoDup (map fst l) ->
  omap (fun id => list_find (fun p => fst p = id) l ≫= fun r => Some (snd r)) (map fst l) = l.
Proof.
  intros Hd. apply list_eq. intros i.
  assert (G : forall m n, (forall k p, m !! k = Some p -> l !! (n + k)%nat = Some p) ->
     omap (fun id => list_find (fun p => fst p = id) l ≫= fun r => Some (snd r)) (map fst m) = m).
  { induction m as [|p m IH]; intros n H; [done|]. cbn.
    rewrite (find_unique l (n + 0) p Hd (H O p eq_refl)). cbn. f_equal.
    apply (IH (S n)). intros k q Hk. rewrite <- (H (S k) q Hk). f_equal. lia. }
  by rewrite (G l O).
Qed.

Lemma swig_types_eq : swig_types = map info_of swigt.
Proof.
  unfold swig_types, swigt_of. rewrite initial_ids. by rewrite (omap_find swigt swigt_nodup).
Qed.

Lemma swig_types_names : map ti_name swig_types = map Some (map (fun p => chars (fst p)) swigt).
Proof. rewrite swig_types_eq, !map_map. done. Qed.

Lemma swigc_nodup : NoDup (map fst swigc).
Proof. rewrite swigc_self, map_map. apply swigt_nodup. Qed.

Lemma swigc_entries_self addr i p : swigt !! i = Some p ->
  swigc_entries addr (fst p)
  = [mk_cast_info (Some (mk_type_ref (addr (fst p)) (chars (fst p)))) None None 0].
Proof.
  intros Hi. unfold swigc_entries.
  assert (Hc : swigc !! i = Some (fst p, [fst p])) by (rewrite swigc_self, list_lookup_fmap, Hi; done).
  pose proof (find_unique swigc i _ swigc_nodup Hc) as E. cbn [fst] in E. by rewrite E.
Qed.

Lemma type_casts_self addr i p : swigt !! i = Some p ->
  type_casts addr i = Some [[mk_cast_info (Some (mk_type_ref (addr (fst p)) (chars (fst p)))) None (Some O) 0; cast_end]].
Proof.
  intros Hi. unfold type_casts.
  rewrite initial_ids, cast_initial_ids, list_lookup_fmap, Hi. cbn [fmap option_fmap option_map].
  rewrite (swigc_entries_self addr i p Hi).
  cbn. unfold init_casts, scan_casts, scan_cast, add_cast. cbn. by rewrite Z.eqb_refl.
Qed.

Lemma type_casts_none addr i : swigt !! i = None -> type_casts addr i = None.
Proof. intros Hi. unfold type_casts. by rewrite initial_ids, list_lookup_fmap, Hi. Qed.

Lemma macro_resolves i r : SWIGTYPE !! i = Some r ->
  let name := 95 :: chars (fst r) in
  snd r = Z.of_nat i
  /\ (exists ty, swig_types !! i = Some ty /\ ti_name ty = Some name)
  /\ SWIG_MangledTypeQueryModule [swig_types] name = Some (Some (O, snd r)).
Proof.
  intros Hr name.
  assert (Hi : snd r = Z.of_nat i).
  { assert (H : map snd SWIGTYPE !! i = Some (snd r)) by (rewrite list_lookup_fmap, Hr; done).
    rewrite macro_indices, list_lookup_fmap in H.
    destruct (seq 0 (length swigt) !! i) eqn:E; [|done]. apply lookup_seq in E as [-> _].
    simpl in H. congruence. }
  assert (Hn : exists p, swigt !! i = Some p /\ name = chars (fst p)).
  { assert (H : map (fun r => String (Ascii.ascii_of_nat 95) (fst r)) SWIGTYPE !! i
                = Some (String (Ascii.ascii_of_nat 95) (fst r))) by (rewrite list_lookup_fmap, Hr; done).
    rewrite macro_ids, list_lookup_fmap in H. destruct (swigt !! i) as [p|]; [|done].
    exists p. split; [done|]. simpl in H. injection H as ->. done. }
  destruct Hn as (p & Hp & Hname). split; [done|]. split.
  - exists (info_of p). rewrite swig_types_eq, list_lookup_fmap, Hp. split; [done|].
    by rewrite Hname.
  - cbn [SWIG_MangledTypeQueryModule].
    rewrite (query_module_found swig_types _ name swig_types_names swigt_sorted i)
      by (rewrite list_lookup_fmap, Hp; simpl; by rewrite Hname).
    case_if; zbool; [|by rewrite Hi].
    rewrite swig_types_eq, length_map in Heqb. apply lookup_lt_Some in Hp. lia.
Qed.

(** ** Properties *)

(** Type macros: the [i]-th [SWIGTYPE_x] macro has index [i],
    [swig_types[i]] is the descriptor named [_x] after initialisation, and the
    query by mangled name finds it at that index. *)
Lemma swigtype_macros_resolve i r : SWIGTYPE !! i = Some r ->
  let name := 95 :: chars (fst r) in
  snd r = Z.of_nat i
  /\ (exists ty, swig_types !! i = Some ty /\ ti_name ty = Some name)
  /\ SWIG_MangledTypeQueryModule [swig_types] name = Some (Some (O, snd r)).
Proof. apply macro_resolves. Qed.

#[local] Transparent swigt SWIGTYPE swigc swig_type_initial swig_cast_initial.

#[local] Opaque swigt SWIGTYPE swigc swig_type_initial swig_cast_initial.

(** No implicit conversions: after initialisation the cast check of the
    [i]-th type accepts the pointers that carry its own mangled name and no
    other, so that a structure of one CTP type is never taken for another. *)
Lemma casts_are_exact addr i p : swigt !! i = Some p ->
  exists casts, type_casts addr i = Some casts
    /\ forall c, SWIG_TypeCheck c (Some casts)
                 = Some (if decide (c = chars (fst p)) then Some (O, O) else None).
Proof.
  intros Hi. eexists. split; [by apply type_casts_self|]. intros c. cbn.
  case_decide as Hc.
  - subst c. by rewrite strcmp_refl.
  - rewrite (proj2 (Z.eqb_neq _ _)); [done|]. rewrite strcmp_eq. congruence.
Qed.

#[local] Transparent swigt SWIGTYPE swigc swig_type_initial swig_cast_initial.

End CtpTypes.
