(* ===== verification/Modules.v ===== *)
(** * The modules of a process and their types

    Models [swig_module_info], the list of modules of an interpreter, and
    [SWIG_InitializeModule] of ctp_wrap.cpp, which adds a module to the list and
    takes its types over from the modules loaded before.  The static data of all
    SWIG modules of the process is an [image]: the type descriptors and the
    module structures, by address.  A walk along [next] takes as many steps as
    there are modules; that this suffices in a circular list is proved.  [None]
    is a step to an address without a structure or a walk without end. *)

From stdpp Require Import sorting.
From S2P Require Import Prelude TypeNames Search TypeTable CtpTypes.

Module Modules.
Import TypeNames Search TypeTable.

(** ** Data *)

(** [swig_type_info] with its casts and [clientdata], 0 when null. *)
Record type_struct := mk_type { t_info : swig_type_info; t_cast : list (list swig_cast_info); t_client : Z }.

(** [types] and [type_initial] hold addresses of descriptors; [next] is 0 before
    the first initialisation. *)
Record swig_module_info := mk_module {
  m_types : list Z; m_size : nat; m_next : Z;
  m_type_initial : list Z; m_cast_initial : list (list swig_cast_info) }.

Record image := mk_image { im_types : gmap Z type_struct; im_modules : gmap Z swig_module_info }.

Definition set_types l m := mk_module l (m_size m) (m_next m) (m_type_initial m) (m_cast_initial m).
Definition set_link n m := mk_module (m_types m) (m_size m) n (m_type_initial m) (m_cast_initial m).
Definition set_cast l t := mk_type (t_info t) l (t_client t).
Definition set_client c t := mk_type (t_info t) (t_cast t) c.
Definition put_type a t im := mk_image (<[a := t]> (im_types im)) (im_modules im).
Definition put_module a m im := mk_image (im_types im) (<[a := m]> (im_modules im)).

(** ** Walks along the list *)

(** The modules [do ... iter = iter->next while (iter != end)] visits.  [None]: the
    walk does not come back, because it has made as many steps as there are
    modules without meeting [end], or because it has left them. *)
Fixpoint visited (fuel : nat) (im : image) (iter last : Z) : option (list Z) :=
  match fuel with
  | O => None
  | S fuel' =>
      m ← im_modules im !! iter;
      if m_next m =? last then Some [iter]
      else rest ← visited fuel' im (m_next m) last; Some (iter :: rest)
  end.

(** Whether the walk from [head] meets [self].
    (ctp_wrap.cpp, lines 508250 to 508257.) *)
Fixpoint in_list (fuel : nat) (im : image) (self iter head : Z) : option bool :=
  match fuel with
  | O => None
  | S fuel' =>
      if iter =? self then Some true
      else m ← im_modules im !! iter;
           if m_next m =? head then Some false else in_list fuel' im self (m_next m) head
  end.

Definition type_infos (im : image) (m : swig_module_info) : option (list swig_type_info) :=
  mapM (fun a => t_info <$> im_types im !! a) (take (m_size m) (m_types m)).

(** [SWIG_MangledTypeQueryModule(start, end, name)]: the address found. *)
Definition query_modules (im : image) (start last : Z) (name : list Z) : option (option Z) :=
  mods ← visited (size (im_modules im)) im start last;
  mods ← mapM (fun a => im_modules im !! a) mods;
  tables ← mapM (type_infos im) mods;
  r ← SWIG_MangledTypeQueryModule tables name;
  match r with
  | None => Some None
  | Some (k, i) => m ← mods !! k; a ← m_types m !! Z.to_nat i; Some (Some a)
  end.

(** The query in the other modules, null when there is none.
    (ctp_wrap.cpp, lines 508285 to 508287 and 508311 to 508312.) *)
Definition other_query (im : image) (self : Z) (name : list Z) : option (option Z) :=
  m ← im_modules im !! self;
  if m_next m =? self then Some None else query_modules im (m_next m) self name.

(** ** Types *)

(** The entries before the terminating one. *)
Fixpoint cast_len (arr : list swig_cast_info) : nat :=
  match arr with
  | e :: arr' => match ci_type e with Some _ => S (cast_len arr') | None => O end
  | [] => O
  end.

(** The name a descriptor holds. *)
Definition type_name (im : image) (a : Z) : option (list Z) := im_types im !! a ≫= fun t => ti_name (t_info t).

(** [clientdata] of a type found elsewhere is overwritten when this module has one.
    (ctp_wrap.cpp, lines 508288 to 508301.) *)
Definition take_client (found : option Z) (client : Z) (im : image) : option image :=
  match found with
  | Some a => t ← im_types im !! a;
              Some (if client =? 0 then im else put_type a (set_client client t) im)
  | None => Some im
  end.

(** The new array is linked in after the first one.
    (ctp_wrap.cpp, lines 508388 to 508396.) *)
Definition link_cast (arr : list swig_cast_info) (t : type_struct) : type_struct :=
  set_cast (match t_cast t with first :: next => first :: arr :: next | [] => [arr] end) t.

(** The body of the loop over the types.  The queries the cast loop makes are
    made beforehand, so that a failing one is not taken for a null answer.
    (ctp_wrap.cpp, lines 508274 to 508400.) *)
Definition init_type (self : Z) (i : nat) (im : image) : option image :=
  m ← im_modules im !! self;
  initial ← m_type_initial m !! i;
  t0 ← im_types im !! initial;
  name ← ti_name (t_info t0);
  found ← other_query im self name;
  im ← take_client found (t_client t0) im;
  let type := default initial found in
  t ← im_types im !! type;
  arr ← m_cast_initial m !! i;
  let names := omap (fun e => tr_name <$> ci_type e) arr in
  _ ← mapM (other_query im self) names;
  _ ← mapM (fun n => SWIG_TypeCheck n (Some (t_cast t))) names;
  let lookup n := match other_query im self n with
                  | Some (Some a) => mk_type_ref a <$> type_name im a
                  | _ => None
                  end in
  let ocheck n := match SWIG_TypeCheck n (Some (t_cast t)) with Some (Some _) => true | _ => false end in
  let im := match init_casts type lookup (type =? initial) ocheck arr (cast_len arr) with
            | Some arr' => put_type type (link_cast arr' t) im
            | None => im
            end in
  Some (put_module self (set_types (<[i := type]> (m_types m)) m) im).

Fixpoint init_types (self : Z) (l : list nat) (im : image) : option image :=
  match l with
  | [] => Some im
  | i :: l' => im' ← init_type self i im; init_types self l' im'
  end.

(** ** The module *)

Section Initialize.
(** The address of [swig_module] and the tables [swig_type_initial] and
    [swig_cast_initial]. *)
Context (self : Z) (type_initial : list Z) (cast_initial : list (list swig_cast_info)).

(** The list is set up at the first initialisation: [init].
    (ctp_wrap.cpp, lines 508232 to 508240.) *)
Definition set_up (im : image) : option (bool * image) :=
  m ← im_modules im !! self;
  if m_next m =? 0
  then Some (true, put_module self (mk_module (m_types m) (m_size m) self type_initial cast_initial) im)
  else Some (false, im).

(** The module is added after the head, unless it is in the list: [true].
    (ctp_wrap.cpp, lines 508250 to 508261.) *)
Definition add_module (head : Z) (im : image) : option (bool * image) :=
  in_list (size (im_modules im)) im self head head ≫= fun b : bool =>
  if b then Some (true, im)
  else m ← im_modules im !! self;
       h ← im_modules im !! head;
       let im := put_module self (set_link (m_next h) m) im in
       h ← im_modules im !! head;
       Some (false, put_module head (set_link self h) im).

(** The types of the module, and the null entry after them.
    (ctp_wrap.cpp, lines 508274 to 508402.) *)
Definition fill_types (im : image) : option image :=
  m ← im_modules im !! self;
  im ← init_types self (seq 0 (m_size m)) im;
  m ← im_modules im !! self;
  Some (put_module self (set_types (<[m_size m := 0]> (m_types m)) m) im).

(** [SWIG_InitializeModule] for the head [SWIG_GetModule] gives; when it is null
    the module becomes the head.
    (ctp_wrap.cpp, lines 508225 to 508402.) *)
Definition initialize_image (head : option Z) (im : image) : option image :=
  '(init, im) ← set_up im;
  match head with
  | None => if negb init then Some im else fill_types im
  | Some h =>
      '(present, im) ← add_module h im;
      if (present : bool) then Some im
      else if negb init then Some im else fill_types im
  end.
End Initialize.

(** ** Circular lists *)

(** Each module of [l] links to the one after it, the last one to [last]. *)
Fixpoint chain (im : image) (l : list Z) (last : Z) : Prop :=
  match l with
  | [] => True
  | a :: l' => (exists m, im_modules im !! a = Some m /\ m_next m = default last (head l')) /\ chain im l' last
  end.

Lemma chain_in im l last a : chain im l last -> a ∈ l -> is_Some (im_modules im !! a).
Proof.
  induction l as [|b l IH]; cbn; [by intros ? ?%elem_of_nil|].
  intros [(m & E & _) Hc] [->|Ha]%elem_of_cons; [by rewrite E|by apply IH].
Qed.

Lemma chain_length im l last : chain im l last -> NoDup l -> (length l <= size (im_modules im))%nat.
Proof.
  intros Hc Hd. rewrite <- (size_list_to_set (C := gset Z) l Hd), <- (size_dom im.(im_modules)).
  apply subseteq_size. intros a Ha%elem_of_list_to_set. by apply elem_of_dom, (chain_in im l last).
Qed.

Lemma chain_app im l r last : chain im l (default last (head r)) -> chain im r last -> chain im (l ++ r) last.
Proof.
  induction l as [|a l IH]; [done|]. cbn [chain app]. intros [(m & E & En) Hc] Hr. split; [|by apply IH].
  exists m. split; [done|]. rewrite En. by destruct l.
Qed.

(** A chain depends on the links of its modules only. *)
Lemma chain_ext im im' l last : chain im l last ->
  (forall a, a ∈ l -> m_next <$> im_modules im' !! a = m_next <$> im_modules im !! a) -> chain im' l last.
Proof.
  induction l as [|a l IH]; [done|]. cbn [chain]. intros [(m & E & En) Hc] Hx. split.
  - specialize (Hx a (list_elem_of_here _ _)). rewrite E in Hx. destruct (im_modules im' !! a) as [m'|]; [|done].
    injection Hx as Hx. exists m'. split; [done|congruence].
  - apply IH; [done|]. intros b Hb. apply Hx. by right.
Qed.

Lemma visited_chain im l : forall fuel a last, chain im (a :: l) last -> last ∉ l -> (length l < fuel)%nat ->
  visited fuel im a last = Some (a :: l).
Proof.
  induction l as [|b l IH]; intros [|fuel] a last [(m & E & En) Hc] Hl Hf; cbn in Hf; try lia; cbn; rewrite E; cbn.
  - rewrite En. cbn. by rewrite Z.eqb_refl.
  - apply not_elem_of_cons in Hl as [Hb Hl]. rewrite En. cbn. rewrite (proj2 (Z.eqb_neq b last)) by congruence.
    by rewrite (IH fuel b last Hc Hl) by lia.
Qed.

Lemma in_list_chain im self l : forall fuel a hd, chain im (a :: l) hd -> hd ∉ l -> (length l < fuel)%nat ->
  in_list fuel im self a hd = Some (bool_decide (self ∈ a :: l)).
Proof.
  induction l as [|b l IH]; intros [|fuel] a hd [(m & E & En) Hc] Hl Hf; cbn in Hf; try lia; cbn [in_list];
    (destruct (a =? self) eqn:Ea; zbool; [subst; by rewrite bool_decide_true by left|]); rewrite E; cbn; rewrite En; cbn.
  - rewrite Z.eqb_refl, bool_decide_false; [done|]. intros ?%list_elem_of_singleton. congruence.
  - apply not_elem_of_cons in Hl as [Hb Hl]. rewrite (proj2 (Z.eqb_neq b hd)) by congruence.
    rewrite (IH fuel b hd Hc Hl) by lia. f_equal. apply bool_decide_ext. rewrite (elem_of_cons _ self a).
    split; [by right|]. intros [?|?]; [congruence|done].
Qed.

(** ** Loaded modules *)

(** A descriptor that is loaded: the first array of its casts starts with itself. *)
Definition type_ok (im : image) (a : Z) (name : list Z) : Prop :=
  exists t arr rest, im_types im !! a = Some t /\ ti_name (t_info t) = Some name
    /\ t_cast t = arr :: rest /\ named arr name 0 = Some true.

Definition module_ok (im : image) (a : Z) : Prop :=
  exists m names, im_modules im !! a = Some m /\ StronglySorted (fun a b => strcmp a b < 0) names
    /\ Forall2 (type_ok im) (take (m_size m) (m_types m)) names.

(** The modules an interpreter has loaded, from the head of its list on. *)
Record loaded (im : image) (ring : list Z) : Prop := {
  ld_nodup : NoDup ring;
  ld_chain : chain im ring (default 0 (head ring));
  ld_ok : Forall (module_ok im) ring;
  ld_nonnull : 0 ∉ ring;
}.

(** [d] is a descriptor of that name in one of the modules. *)
Definition holds (im : image) (ring : list Z) (name : list Z) (d : Z) : Prop :=
  exists b m, b ∈ ring /\ im_modules im !! b = Some m /\ d ∈ take (m_size m) (m_types m) /\ type_ok im d name.

Lemma module_infos im m names : Forall2 (type_ok im) (take (m_size m) (m_types m)) names ->
  exists infos, type_infos im m = Some infos /\ map ti_name infos = map Some names
    /\ Forall2 (fun d i => t_info <$> im_types im !! d = Some i) (take (m_size m) (m_types m)) infos.
Proof.
  intros HF.
  assert (Hs : is_Some (type_infos im m)).
  { apply mapM_is_Some_2. eapply Forall2_Forall_l; [exact HF|]. apply Forall_true. intros n d (t & ? & ? & E & _).
    unfold compose. by rewrite E. }
  destruct Hs as [infos Hi]. exists infos. split; [done|]. apply mapM_Some_1 in Hi. split; [|done].
  revert infos Hi. induction HF as [|d n ds ns (t & ? & ? & E & En & _) HF IH]; intros infos Hi;
    inversion Hi as [|? i ? infos' Hd Hr]; subst; [done|]. cbn. rewrite E in Hd. cbn in Hd. injection Hd as <-.
  rewrite En. f_equal. by apply IH.
Qed.

Lemma module_tables im ring : Forall (module_ok im) ring ->
  exists ms tables, mapM (fun a => im_modules im !! a) ring = Some ms /\ mapM (type_infos im) ms = Some tables
    /\ Forall module_wf tables
    /\ Forall2 (fun b m => im_modules im !! b = Some m) ring ms
    /\ Forall2 (fun m infos => Forall2 (fun d i => t_info <$> im_types im !! d = Some i)
         (take (m_size m) (m_types m)) infos) ms tables.
Proof.
  induction 1 as [|b ring (m & names & E & Hs & HF) Hr (ms & tables & E1 & E2 & Hw & H1 & H2)].
  { exists [], []. repeat split; constructor. }
  destruct (module_infos im m names HF) as (infos & Ei & Hn & Hi). exists (m :: ms), (infos :: tables). cbn.
  rewrite E. cbn. rewrite E1. cbn. rewrite Ei. cbn. rewrite E2. cbn. split; [done|]. split; [done|].
  split; [constructor; [by exists names|done]|]. split; by constructor.
Qed.

(** The query ends, finds a descriptor of that name, and is null only when there is none. *)
Lemma query_modules_run im a l last name : chain im (a :: l) last -> NoDup (a :: l) -> last ∉ l ->
  Forall (module_ok im) (a :: l) ->
  exists r, query_modules im a last name = Some r
    /\ match r with Some d => holds im (a :: l) name d | None => forall d, ~ holds im (a :: l) name d end.
Proof.
  intros Hc Hd Hl Hok. unfold query_modules.
  rewrite (visited_chain im l _ a last Hc Hl) by (pose proof (chain_length _ _ _ Hc Hd); cbn in *; lia). cbn.
  destruct (module_tables im (a :: l) Hok) as (ms & tables & E1 & E2 & Hw & H1 & H2). cbn in E1. rewrite E1. cbn.
  rewrite E2. cbn. destruct (mangled_query_correct tables name Hw) as (r & -> & Hr). cbn. destruct r as [[k i]|].
  - destruct Hr as (Hi & (infos & ty & Hk & Hty & Hn) & _).
    destruct (Forall2_lookup_r _ _ _ _ _ H2 Hk) as (m & Hm & Hds). rewrite Hm. cbn.
    destruct (Forall2_lookup_r _ _ _ _ _ Hds Hty) as (d & Hd' & Ed). pose proof Hd' as Hd2. apply lookup_take_Some in Hd' as [Hd' _].
    rewrite Hd'. cbn. eexists. split; [reflexivity|]. destruct (Forall2_lookup_r _ _ _ _ _ H1 Hm) as (b & Hb & Eb).
    exists b, m. split; [by eapply list_elem_of_lookup_2|]. split; [done|]. split; [by eapply list_elem_of_lookup_2|].
    rewrite Forall_forall in Hok. destruct (Hok b) as (m' & names & Em & Hs & HF); [by eapply list_elem_of_lookup_2|].
    rewrite Eb in Em. injection Em as <-. destruct (Forall2_lookup_l _ _ _ _ _ HF Hd2) as (n & _ & Ht).
    assert (n = name) as ->; [|done]. destruct Ht as (t & ? & ? & E & En & _). rewrite E in Ed. cbn in Ed. congruence.
  - eexists. split; [reflexivity|]. intros d (b & m & Hb & Eb & Hd' & t & ? & ? & E & En & _).
    apply list_elem_of_lookup_1 in Hb as [k Hb]. destruct (Forall2_lookup_l _ _ _ _ _ H1 Hb) as (m' & Hm & Em).
    rewrite Eb in Em. injection Em as <-. destruct (Forall2_lookup_l _ _ _ _ _ H2 Hm) as (infos & Hi & Hds).
    apply list_elem_of_lookup_1 in Hd' as [j Hj]. destruct (Forall2_lookup_l _ _ _ _ _ Hds Hj) as (ty & Hty & Ety).
    rewrite E in Ety. injection Ety as <-.
    apply (Hr infos (t_info t)); [by eapply list_elem_of_lookup_2|by eapply list_elem_of_lookup_2|done].
Qed.

(** The query in the other modules [l], whose chain ends at [self]. *)
Lemma other_query_run im self l name m : im_modules im !! self = Some m -> m_next m = default self (head l) ->
  chain im l self -> NoDup l -> self ∉ l -> Forall (module_ok im) l ->
  exists r, other_query im self name = Some r
    /\ match r with Some d => holds im l name d | None => forall d, ~ holds im l name d end.
Proof.
  intros E En Hc Hd Hs Hok. unfold other_query. rewrite E. cbn. rewrite En. destruct l as [|a l]; cbn [head default].
  - rewrite Z.eqb_refl. exists None. split; [done|]. by intros d (b & ? & ?%elem_of_nil & _).
  - apply not_elem_of_cons in Hs as [Ha Hs]. cbn. rewrite (proj2 (Z.eqb_neq a self)) by congruence.
    by apply query_modules_run.
Qed.

(** *** Images that agree on some modules and their types *)

Record agree (l : list Z) (im im' : image) : Prop := {
  ag_modules : forall b, b ∈ l -> im_modules im' !! b = im_modules im !! b;
  ag_types : forall b m d, b ∈ l -> im_modules im !! b = Some m -> d ∈ take (m_size m) (m_types m) ->
    im_types im' !! d = im_types im !! d;
}.

Lemma agree_type im im' d name : im_types im' !! d = im_types im !! d -> type_ok im d name -> type_ok im' d name.
Proof. intros E (t & arr & rest & H). exists t, arr, rest. by rewrite E. Qed.

Lemma agree_module l im im' b : agree l im im' -> b ∈ l -> module_ok im b -> module_ok im' b.
Proof.
  intros A Hb (m & names & E & Hs & HF). exists m, names. rewrite (ag_modules _ _ _ A b Hb). split; [done|].
  split; [done|]. apply Forall2_same_length_lookup_2; [by eapply Forall2_length|]. intros i d n Hd Hn.
  eapply agree_type; [|by eapply Forall2_lookup_lr]. apply (ag_types _ _ _ A b m); [done|done|].
  by eapply list_elem_of_lookup_2.
Qed.

Lemma agree_modules l im im' : agree l im im' -> Forall (module_ok im) l -> Forall (module_ok im') l.
Proof. rewrite !Forall_forall. intros A H b Hb. by eapply agree_module; eauto. Qed.

Lemma agree_chain l im im' last : agree l im im' -> chain im l last -> chain im' l last.
Proof. intros A Hc. eapply chain_ext; [done|]. intros a Ha. by rewrite (ag_modules _ _ _ A a Ha). Qed.

Lemma agree_holds l im im' name d : agree l im im' -> holds im' l name d <-> holds im l name d.
Proof.
  intros A. split; intros (b & m & Hb & E & Hd & Ht); exists b, m.
  - rewrite (ag_modules _ _ _ A b Hb) in E. split_and!; [done|done|done|]. eapply agree_type; [|done].
    symmetry. by apply (ag_types _ _ _ A b m).
  - rewrite (ag_modules _ _ _ A b Hb). split_and!; [done|done|done|]. eapply agree_type; [|done].
    by apply (ag_types _ _ _ A b m).
Qed.

(** ** Loading a module whose types cast to themselves only *)

(** The entries SWIG generates for a type without others, and what becomes of them. *)
Definition own_cast (p : Z * list Z) : list swig_cast_info :=
  [mk_cast_info (Some (mk_type_ref (fst p) (snd p))) None None 0; cast_end].
Definition self_cast (p : Z * list Z) : list swig_cast_info :=
  [mk_cast_info (Some (mk_type_ref (fst p) (snd p))) None (Some O) 0; cast_end].

Lemma init_casts_fresh p lookup ocheck : lookup (snd p) = None ->
  init_casts (fst p) lookup true ocheck (own_cast p) (cast_len (own_cast p)) = Some (self_cast p).
Proof.
  intros Hl. unfold init_casts, scan_casts, own_cast. cbn. unfold scan_cast. cbn. rewrite Hl. unfold add_cast. cbn.
  by rewrite Z.eqb_refl.
Qed.

Lemma init_casts_found p d lookup ocheck : lookup (snd p) = Some (mk_type_ref d (snd p)) -> ocheck (snd p) = true ->
  init_casts d lookup false ocheck (own_cast p) (cast_len (own_cast p)) = None.
Proof.
  intros Hl Ho. unfold init_casts, scan_casts, own_cast. cbn. unfold scan_cast. cbn. rewrite Hl. cbn. by rewrite Ho.
Qed.

Lemma type_check_first c arr rest : named arr c 0 = Some true -> SWIG_TypeCheck c (Some (arr :: rest)) = Some (Some (O, O)).
Proof. intros Hn. cbn. by rewrite Hn. Qed.

Section Load.
Context (self : Z) (tbl : list (Z * list Z)).

(** The static data before the first initialisation. *)
Record static (im : image) (ring : list Z) : Prop := {
  sc_self : self <> 0 /\ self ∉ ring;
  sc_module : exists m, im_modules im !! self = Some m /\ m_next m = 0 /\ m_size m = length tbl
    /\ length (m_types m) = S (length tbl);
  sc_addr : NoDup (map fst tbl);
  sc_names : StronglySorted (fun a b => strcmp a b < 0) (map snd tbl);
  sc_types : forall p, p ∈ tbl -> exists t, im_types im !! fst p = Some t /\ ti_name (t_info t) = Some (snd p)
    /\ t_cast t = [] /\ t_client t = 0;
  sc_apart : forall b m d, b ∈ ring -> im_modules im !! b = Some m -> d ∈ take (m_size m) (m_types m) ->
    d ∉ map fst tbl;
}.

(** Where the [i]-th type is after it has been looked up among the modules [l] of [im0]. *)
Definition resolved (im0 : image) (l : list Z) (im : image) (types : list Z) (i : nat) (p : Z * list Z) : Prop :=
  (exists d, holds im0 l (snd p) d /\ types !! i = Some d /\ im_types im !! fst p = im_types im0 !! fst p)
  \/ ((forall d, ~ holds im0 l (snd p) d) /\ types !! i = Some (fst p)
      /\ im_types im !! fst p = set_cast [self_cast p] <$> im_types im0 !! fst p).

Section Loop.
Context (im0 : image) (l : list Z) (m0 : swig_module_info).
Context (Hm0 : im_modules im0 !! self = Some m0) (Hnext : m_next m0 = default self (head l)).
Context (Hinit : m_type_initial m0 = map fst tbl) (Hcast : m_cast_initial m0 = map own_cast tbl).
Context (Hsz : m_size m0 = length tbl) (Hlen : length (m_types m0) = S (length tbl)).
Context (Hchain : chain im0 l self) (Hnd : NoDup l) (Hself : self ∉ l) (Hok : Forall (module_ok im0) l).
Context (Haddr : NoDup (map fst tbl)).
Context (Htypes : forall p, p ∈ tbl -> exists t, im_types im0 !! fst p = Some t /\ ti_name (t_info t) = Some (snd p)
    /\ t_cast t = [] /\ t_client t = 0).
Context (Hapart : forall b m d, b ∈ l -> im_modules im0 !! b = Some m -> d ∈ take (m_size m) (m_types m) ->
    d ∉ map fst tbl).

(** After the first [k] types. *)
Record progress (k : nat) (im : image) (types : list Z) : Prop := {
  pg_others : forall b, b <> self -> im_modules im !! b = im_modules im0 !! b;
  pg_self : im_modules im !! self = Some (set_types types m0);
  pg_length : length types = S (length tbl);
  pg_types : forall a, a ∉ map fst (take k tbl) -> im_types im !! a = im_types im0 !! a;
  pg_done : forall i p, (i < k)%nat -> tbl !! i = Some p -> resolved im0 l im types i p;
}.

Lemma progress_agree k im types : progress k im types -> agree l im0 im.
Proof.
  intros P. constructor.
  - intros b Hb. apply (pg_others _ _ _ P). congruence.
  - intros b m d Hb E Hd. apply (pg_types _ _ _ P). intros Hin. apply (Hapart b m d Hb E Hd).
    apply list_elem_of_fmap in Hin as (q & -> & Hq). apply list_elem_of_fmap_2. by eapply elem_of_take in Hq as (? & ? & _); eapply list_elem_of_lookup_2.
Qed.

Lemma later_type k p q : tbl !! k = Some p -> q ∈ take k tbl -> fst q <> fst p.
Proof.
  intros Hk (i & Hi & Hlt)%elem_of_take E. assert (i = k); [|lia].
  eapply (NoDup_lookup (map fst tbl)); [done| |]; rewrite list_lookup_fmap.
  - by rewrite Hi.
  - rewrite Hk. cbn. by rewrite E.
Qed.

(** The query for a name, in an image along the way. *)
Lemma progress_query k im types name : progress k im types ->
  exists r, other_query im self name = Some r
    /\ match r with
       | Some d => holds im0 l name d /\ type_ok im d name /\ d ∉ map fst tbl
       | None => forall d, ~ holds im0 l name d
       end.
Proof.
  intros P. pose proof (progress_agree _ _ _ P) as A.
  destruct (other_query_run im self l name (set_types types m0)) as (r & E & Hr);
    [apply P|done|by eapply agree_chain|done|done|by eapply agree_modules|].
  exists r. split; [done|]. destruct r as [d|].
  - pose proof Hr as (b & m & Hb & Em & Hd & Ht). split; [by apply (agree_holds l im0 im)|]. split; [done|].
    rewrite (ag_modules _ _ _ A b Hb) in Em. by eapply Hapart.
  - intros d Hd. apply (Hr d). by apply (agree_holds l im0 im).
Qed.

(** One more entry of [types], with the descriptors of [im'] in place of those of [im]. *)
Lemma progress_step k im im' types p v : progress k im types -> tbl !! k = Some p ->
  im_modules im' = im_modules im -> (forall a, a <> fst p -> im_types im' !! a = im_types im !! a) ->
  (forall types', types' !! k = Some v -> resolved im0 l im' types' k p) ->
  progress (S k) (put_module self (set_types (<[k := v]> types) m0) im') (<[k := v]> types).
Proof.
  intros P Hk Em Et Hr. pose proof (lookup_lt_Some _ _ _ Hk) as Hlt.
  assert (Htk : map fst (take (S k) tbl) = map fst (take k tbl) ++ [fst p]) by (by rewrite (take_S_r _ _ p), map_app).
  constructor; cbn [put_module im_modules im_types].
  - intros b Hb. rewrite lookup_insert_ne, Em by congruence. by apply P.
  - by rewrite lookup_insert_eq.
  - rewrite length_insert. apply P.
  - intros a Ha. rewrite Htk, not_elem_of_app, list_elem_of_singleton in Ha. rewrite Et by tauto. apply P. tauto.
  - intros i q Hi Hq. destruct (decide (i = k)) as [->|Hne].
    + rewrite Hk in Hq. injection Hq as <-. apply Hr. rewrite list_lookup_insert_eq; [done|]. rewrite (pg_length _ _ _ P). lia.
    + assert (Hq' : q ∈ take k tbl) by (apply elem_of_take; exists i; split; [done|lia]).
      pose proof (later_type k p q Hk Hq') as Hqp. destruct (pg_done _ _ _ P i q) as [(d & H1 & H2 & H3)|(H1 & H2 & H3)];
        [lia|done|left; exists d|right]; rewrite list_lookup_insert_ne, Et by done; done.
Qed.

Lemma init_type_run k im types p : progress k im types -> tbl !! k = Some p ->
  exists im' types', init_type self k im = Some im' /\ progress (S k) im' types'.
Proof.
  intros P Hk. pose proof (list_elem_of_lookup_2 _ _ _ Hk) as Hp.
  destruct (Htypes p Hp) as (t0 & E0 & En0 & Ec0 & Ed0).
  assert (E : im_types im !! fst p = Some t0).
  { rewrite (pg_types _ _ _ P); [done|]. intros (q & Eq & Hq)%list_elem_of_fmap. by apply (later_type k p q Hk Hq). }
  assert (Hk1 : m_type_initial m0 !! k = Some (fst p)) by (by rewrite Hinit, list_lookup_fmap, Hk).
  assert (Hk2 : m_cast_initial m0 !! k = Some (own_cast p)) by (by rewrite Hcast, list_lookup_fmap, Hk).
  destruct (progress_query k im types (snd p) P) as (r & Eq & Hr).
  unfold init_type. rewrite (pg_self _ _ _ P). cbn. rewrite Hk1. cbn. rewrite E. cbn. rewrite En0. cbn. rewrite Eq. cbn.
  destruct r as [d|]; cbn.
  - destruct Hr as (Hh & Ht & Hd). pose proof Ht as (t & arr & rest & Et & En & Ec & Hn). rewrite Et. cbn. rewrite Ed0. cbn.
    rewrite Et. cbn. rewrite Hk2. cbn. rewrite Eq. cbn. rewrite Ec. cbn. rewrite Hn. cbn.
    rewrite (proj2 (Z.eqb_neq d (fst p))) by (intros ->; apply Hd; by apply list_elem_of_fmap_2).
    rewrite (init_casts_found p d).
    + eexists _, _. split; [reflexivity|]. eapply progress_step; [done|done|done|done|]. intros types' Hv. left.
      exists d. split; [done|]. split; [done|]. by rewrite E, E0.
    + rewrite Eq. unfold type_name. rewrite Et. cbn. by rewrite En.
    + by rewrite Hn.
  - rewrite E. cbn. rewrite Hk2. cbn. rewrite Eq. cbn. rewrite Ec0. cbn. rewrite Z.eqb_refl.
    rewrite init_casts_fresh by (by rewrite Eq).
    eexists _, _. split; [reflexivity|]. eapply progress_step; [done|done|done| |].
    + intros a Ha. cbn. by rewrite lookup_insert_ne by congruence.
    + intros types' Hv. right. split; [done|]. split; [done|]. cbn. rewrite lookup_insert_eq, E0. cbn.
      unfold link_cast. by rewrite Ec0.
Qed.

Lemma init_types_run n k im types : progress k im types -> (k + n)%nat = length tbl ->
  exists im' types', init_types self (seq k n) im = Some im' /\ progress (length tbl) im' types'.
Proof.
  revert k im types; induction n as [|n IH]; intros k im types P Hn; cbn [seq init_types].
  - exists im, types. split; [done|]. by replace (length tbl) with k by lia.
  - destruct (lookup_lt_is_Some_2 tbl k) as [p Hk]; [lia|].
    destruct (init_type_run k im types p P Hk) as (im1 & types1 & -> & P1). cbn. apply (IH (S k) _ _ P1). lia.
Qed.

Lemma progress_start : progress 0 im0 (m_types m0).
Proof. constructor; try done; [|intros; lia]. rewrite Hm0. by destruct m0. Qed.

Lemma fill_types_run : exists im' types, fill_types self im0 = Some im' /\ progress (length tbl) im' types
  /\ last types = Some 0.
Proof.
  unfold fill_types. rewrite Hm0. cbn. rewrite Hsz. destruct (init_types_run (length tbl) O im0 _ progress_start) as (im & types & E & P); [done|].
  rewrite E. cbn. rewrite (pg_self _ _ _ P). cbn. eexists _, _. split; [reflexivity|]. rewrite Hsz. split.
  - constructor; cbn.
    + intros b Hb. rewrite lookup_insert_ne by congruence. by apply P.
    + by rewrite lookup_insert_eq.
    + rewrite length_insert. apply P.
    + apply P.
    + intros i p Hi Hp. destruct (pg_done _ _ _ P i p Hi Hp) as [(d & H1 & H2 & H3)|(H1 & H2 & H3)];
        [left; exists d|right]; rewrite list_lookup_insert_ne by lia; done.
  - rewrite last_lookup, length_insert, (pg_length _ _ _ P). cbn. apply list_lookup_insert_eq. rewrite (pg_length _ _ _ P). lia.
Qed.

(** The module itself is well formed afterwards. *)
Lemma progress_ok im types : StronglySorted (fun a b => strcmp a b < 0) (map snd tbl) ->
  progress (length tbl) im types -> module_ok im self.
Proof.
  intros Hs P. exists (set_types types m0), (map snd tbl). split; [apply P|]. split; [done|]. cbn. rewrite Hsz.
  pose proof (progress_agree _ _ _ P) as A. apply Forall2_same_length_lookup_2.
  { rewrite length_take, (pg_length _ _ _ P), length_map. lia. }
  intros i d n Hd Hn. apply lookup_take_Some in Hd as [Hd Hi]. rewrite list_lookup_fmap in Hn.
  destruct (tbl !! i) as [p|] eqn:Hp; [|done]. injection Hn as <-.
  destruct (pg_done _ _ _ P i p Hi Hp) as [(d' & (b & m & Hb & Em & Hin & Ht) & Hd' & _)|(_ & Hd' & E)];
    rewrite Hd in Hd'; injection Hd' as ->.
  - eapply agree_type; [|done]. by eapply (ag_types _ _ _ A).
  - destruct (Htypes p) as (t & Et & En & _ & _); [by eapply list_elem_of_lookup_2|]. rewrite Et in E.
    exists (set_cast [self_cast p] t), (self_cast p), []. split; [done|]. split; [done|]. split; [done|]. cbn.
    by rewrite strcmp_refl.
Qed.
End Loop.

(** *** The list *)

(** What a module holds besides its link. *)
Definition content (m : swig_module_info) : list Z * nat := (m_types m, m_size m).

Definition relinked (l : list Z) (im im' : image) : Prop :=
  im_types im' = im_types im /\ forall b, b ∈ l -> content <$> im_modules im' !! b = content <$> im_modules im !! b.

Lemma relinked_at l im im' b m : relinked l im im' -> b ∈ l -> im_modules im !! b = Some m ->
  exists m', im_modules im' !! b = Some m' /\ m_types m' = m_types m /\ m_size m' = m_size m.
Proof.
  intros [_ Hm] Hb E. specialize (Hm b Hb). rewrite E in Hm. destruct (im_modules im' !! b) as [m'|]; [|done].
  injection Hm as H1 H2. by exists m'.
Qed.

Lemma relinked_sym l im im' : relinked l im im' -> relinked l im' im.
Proof. intros [H1 H2]. split; [done|]. intros b Hb. by rewrite H2. Qed.

Lemma relinked_type l im im' d name : relinked l im im' -> type_ok im d name -> type_ok im' d name.
Proof. intros [E _]. apply agree_type. by rewrite E. Qed.

Lemma relinked_module l im im' b : relinked l im im' -> b ∈ l -> module_ok im b -> module_ok im' b.
Proof.
  intros R Hb (m & names & E & Hs & HF). destruct (relinked_at l im im' b m R Hb E) as (m' & E' & H1 & H2).
  exists m', names. rewrite H1, H2. split; [done|]. split; [done|]. eapply Forall2_impl; [exact HF|].
  intros d n. by apply (relinked_type l).
Qed.

Lemma relinked_holds l im im' name d : relinked l im im' -> holds im l name d -> holds im' l name d.
Proof.
  intros R (b & m & Hb & E & Hd & Ht). destruct (relinked_at l im im' b m R Hb E) as (m' & E' & H1 & H2).
  exists b, m'. rewrite H1, H2. split_and!; try done. by apply (relinked_type l im).
Qed.

Lemma holds_perm im l l' name d : l ≡ₚ l' -> holds im l name d -> holds im l' name d.
Proof. intros Hp (b & m & Hb & H). exists b, m. rewrite <- Hp. done. Qed.

(** The list with the module after the head. *)
Definition second (ring : list Z) : list Z :=
  match ring with h :: l => h :: self :: l | [] => [self] end.

(** What loading the module makes of an image with the modules [ring]. *)
Record merged (im : image) (ring : list Z) (im' : image) (types : list Z) : Prop := {
  mg_loaded : loaded im' (second ring);
  mg_self : exists m, im_modules im' !! self = Some m /\ content m = (types, length tbl);
  mg_end : length types = S (length tbl) /\ last types = Some 0;
  mg_resolved : forall i p, tbl !! i = Some p -> resolved im ring im' types i p;
  mg_modules : forall b, b ∈ ring -> content <$> im_modules im' !! b = content <$> im_modules im !! b;
  mg_types : forall a, a ∉ map fst tbl -> im_types im' !! a = im_types im !! a;
}.

Section Merge.
Context (im : image) (ring : list Z) (Hl : loaded im ring) (Hs : static im ring).
(** The image after the module has been linked in, and its view of the others. *)
Context (im0 : image) (l : list Z) (m0 : swig_module_info).
Context (Hm0 : im_modules im0 !! self = Some m0) (Hnext : m_next m0 = default self (head l)).
Context (Hinit : m_type_initial m0 = map fst tbl) (Hcast : m_cast_initial m0 = map own_cast tbl).
Context (Hcont : exists m, im_modules im !! self = Some m /\ content m0 = content m).
Context (Hperm : l ≡ₚ ring) (Hre : relinked ring im im0) (Hchain : chain im0 l self).
Context (Hring : chain im0 (second ring) (default 0 (head (second ring)))).

Lemma merge_run : exists im' types, fill_types self im0 = Some im' /\ merged im ring im' types.
Proof.
  destruct Hs as [[Hz Hsr] (m & Em & _ & Hsz & Hlen) Had Hnm Hty Hap]. destruct Hcont as (m' & Em' & Hc).
  rewrite Em in Em'. injection Em' as <-. injection Hc as Ht Hsz0. rewrite Hsz in Hsz0. rewrite <- Ht in Hlen.
  assert (Hnd : NoDup l) by (rewrite Hperm; apply Hl).
  assert (Hsl : self ∉ l) by (by rewrite Hperm).
  assert (Hok : Forall (module_ok im0) l).
  { rewrite Hperm. apply Forall_forall. intros b Hb. apply (relinked_module ring im); [done|done|].
    pose proof (ld_ok _ _ Hl) as H. rewrite Forall_forall in H. by apply H. }
  assert (Hty0 : forall p, p ∈ tbl -> exists t, im_types im0 !! fst p = Some t /\ ti_name (t_info t) = Some (snd p)
    /\ t_cast t = [] /\ t_client t = 0) by (destruct Hre as [-> _]; done).
  assert (Hap0 : forall b m d, b ∈ l -> im_modules im0 !! b = Some m -> d ∈ take (m_size m) (m_types m) -> d ∉ map fst tbl).
  { intros b mb d Hb Eb Hd. rewrite Hperm in Hb.
    destruct (relinked_at ring im0 im b mb (relinked_sym _ _ _ Hre) Hb Eb) as (mb' & Eb' & H1 & H2).
    apply (Hap b mb'); [done|done|]. by rewrite H1, H2. }
  destruct (fill_types_run im0 l m0 Hm0 Hnext Hinit Hcast Hsz0 Hlen Hchain Hnd Hsl Hok Had Hty0 Hap0)
    as (im' & types & E & P & Hend).
  pose proof (progress_agree im0 l m0 Hsl Hap0 _ _ _ P) as A. exists im', types. split; [done|].
  assert (Hlink : forall a, a ∈ second ring -> m_next <$> im_modules im' !! a = m_next <$> im_modules im0 !! a).
  { intros a _. destruct (decide (a = self)) as [->|Ha]; [by rewrite (pg_self _ _ _ _ _ _ P), Hm0|].
    by rewrite (pg_others _ _ _ _ _ _ P). }
  constructor.
  - assert (Hp2 : second ring ≡ₚ self :: ring) by (destruct ring; cbn; [done|constructor]). constructor.
    + rewrite Hp2. constructor; [done|apply Hl].
    + by eapply chain_ext.
    + rewrite Hp2. constructor.
      * eapply progress_ok; eauto.
      * rewrite <- Hperm. by eapply agree_modules.
    + rewrite Hp2. apply not_elem_of_cons. split; [done|apply Hl].
  - exists (set_types types m0). split; [apply P|]. unfold content. cbn. by rewrite Hsz0.
  - split; [apply P|done].
  - intros i p Hp. destruct (pg_done _ _ _ _ _ _ P i p) as [(d & H1 & H2 & H3)|(H1 & H2 & H3)];
      [by eapply lookup_lt_Some|done|left; exists d|right]; destruct Hre as [Et _]; rewrite <- Et; split; try done.
    + apply (relinked_holds ring im0); [by apply relinked_sym|]. by apply (holds_perm im0 l).
    + intros d Hd. apply (H1 d). apply (holds_perm im0 ring); [done|]. by apply (relinked_holds ring im).
  - intros b Hb. rewrite (ag_modules _ _ _ A) by (by rewrite Hperm). by apply Hre.
  - intros a Ha. destruct Hre as [Et _]. rewrite <- Et. apply (pg_types _ _ _ _ _ _ P). by rewrite firstn_all.
Qed.
End Merge.

Abbreviation init_image := (initialize_image self (map fst tbl) (map own_cast tbl)).

Lemma loaded_nil im : loaded im [].
Proof. constructor; [constructor|done|constructor|apply not_elem_of_nil]. Qed.

Lemma initialize_alone im : static im [] -> exists im' types,
  init_image None im = Some im' /\ merged im [] im' types.
Proof.
  intros Hs. destruct (sc_module _ _ Hs) as (m & Em & En & _). unfold initialize_image, set_up. rewrite Em. cbn.
  rewrite En. cbn. eapply (merge_run im [] (loaded_nil im) Hs) with (l := []); cbn; try done.
  - by rewrite lookup_insert_eq.
  - done.
  - done.
  - done.
  - by exists m.
  - split; [done|]. by intros b ?%elem_of_nil.
  - split; [|done]. eexists. by rewrite lookup_insert_eq.
Qed.

Lemma initialize_after im h l : loaded im (h :: l) -> static im (h :: l) -> exists im' types,
  init_image (Some h) im = Some im' /\ merged im (h :: l) im' types.
Proof.
  intros Hl Hs. destruct (sc_module _ _ Hs) as (m & Em & En & _). destruct (sc_self _ _ Hs) as [Hz Hsr].
  pose proof Hsr as [Hh Hsl]%not_elem_of_cons. pose proof (ld_nodup _ _ Hl) as [Hhl Hd]%NoDup_cons.
  unfold initialize_image, set_up. rewrite Em. cbn [option_bind mbind]. rewrite En. cbn [Z.eqb].
  set (m1 := mk_module (m_types m) (m_size m) self (map fst tbl) (map own_cast tbl)). set (im1 := put_module self m1 im).
  assert (H1 : forall b, b <> self -> im_modules im1 !! b = im_modules im !! b)
    by (intros b Hb; cbn; by rewrite lookup_insert_ne by congruence).
  assert (Hself1 : im_modules im1 !! self = Some m1) by (cbn; by rewrite lookup_insert_eq).
  assert (Hc1 : chain im1 (h :: l) h).
  { eapply chain_ext; [apply Hl|]. intros a Ha. rewrite H1; [done|]. congruence. }
  destruct (proj1 (ld_chain _ _ Hl)) as (hm & Eh & Enh). cbn in Enh.
  cbn [option_bind mbind]. unfold add_module.
  rewrite (in_list_chain im1 self l _ h h Hc1 Hhl)
    by (pose proof (chain_length _ _ _ Hc1 (ld_nodup _ _ Hl)); cbn [length] in *; lia).
  rewrite bool_decide_false by done. cbn [option_bind mbind]. rewrite Hself1. cbn [option_bind mbind].
  rewrite H1, Eh by congruence. cbn [option_bind mbind].
  set (m2 := set_link (m_next hm) m1). set (im2 := put_module self m2 im1).
  assert (Eh2 : im_modules im2 !! h = Some hm) by (cbn; rewrite !lookup_insert_ne by congruence; done).
  rewrite Eh2. cbn [option_bind mbind negb]. set (im3 := put_module h (set_link self hm) im2).
  assert (Hself3 : im_modules im3 !! self = Some m2)
    by (cbn; rewrite lookup_insert_ne by congruence; by rewrite lookup_insert_eq).
  assert (H3 : forall b, b <> self -> b <> h -> im_modules im3 !! b = im_modules im !! b).
  { intros b Hb Hbh. cbn. rewrite lookup_insert_ne by congruence. rewrite !lookup_insert_ne by congruence. done. }
  assert (Eh3 : im_modules im3 !! h = Some (set_link self hm)) by (cbn; by rewrite lookup_insert_eq).
  assert (Hcl : chain im3 l h).
  { eapply chain_ext; [apply (proj2 (ld_chain _ _ Hl))|]. intros a Ha. rewrite H3; [done|congruence|congruence]. }
  eapply (merge_run im (h :: l) Hl Hs im3 (l ++ [h]) m2); try done.
  - cbn. rewrite Enh. by destruct l.
  - by exists m.
  - rewrite Permutation_app_comm. done.
  - split; [done|]. intros b [->|Hb]%elem_of_cons; [by rewrite Eh3, Eh|]. rewrite H3; [done|congruence|congruence].
  - apply chain_app; [done|]. split; [|done]. by eexists.
  - cbn [second chain head default]. split; [by eexists|]. split; [|done]. exists m2. split; [done|]. cbn. done.
Qed.

(** Loading a module that is loaded changes nothing. *)
Lemma initialize_again im h l : loaded im (h :: l) -> self ∈ h :: l -> init_image (Some h) im = Some im.
Proof.
  intros Hl Hin. destruct (chain_in _ _ _ self (ld_chain _ _ Hl) Hin) as [m Em].
  assert (Hz : m_next m <> 0).
  { intros En. apply (ld_nonnull _ _ Hl). apply list_elem_of_lookup_1 in Hin as [i Hi].
    assert (G : forall l' last, chain im l' last -> forall j, l' !! j = Some self -> m_next m = default last (l' !! S j)).
    { induction l' as [|a l' IH]; [done|]. intros last [(ma & Ea & Ena) Hc] [|j] Hj; [|by apply IH].
      cbn in Hj. injection Hj as ->. rewrite Em in Ea. injection Ea as <-. rewrite Ena. by destruct l'. }
    rewrite (G _ _ (ld_chain _ _ Hl) i Hi) in En. cbn in En. destruct (l !! i) as [x|] eqn:Ex; cbn in En.
    - subst. right. by eapply list_elem_of_lookup_2.
    - subst. left. }
  unfold initialize_image, set_up. rewrite Em. cbn [option_bind mbind]. rewrite (proj2 (Z.eqb_neq _ _) Hz).
  cbn [option_bind mbind]. unfold add_module. pose proof (ld_nodup _ _ Hl) as [Hhl _]%NoDup_cons.
  rewrite (in_list_chain im self l _ h h (ld_chain _ _ Hl) Hhl)
    by (pose proof (chain_length _ _ _ (ld_chain _ _ Hl) (ld_nodup _ _ Hl)); cbn [length] in *; lia).
  by rewrite bool_decide_true.
Qed.
End Load.

(** *** A module in the lists of two interpreters *)

(** A walk that stays among modules none of which links to its end. *)
Lemma visited_endless im last (T : list Z) :
  (forall a, a ∈ T -> exists m, im_modules im !! a = Some m /\ m_next m ∈ T /\ m_next m <> last) ->
  forall fuel a, a ∈ T -> visited fuel im a last = None.
Proof.
  intros HT. induction fuel as [|fuel IH]; intros a Ha; [done|]. destruct (HT a Ha) as (m & E & Hn & Hne). cbn.
  rewrite E. cbn. rewrite (proj2 (Z.eqb_neq _ _) Hne). by rewrite IH.
Qed.

Lemma chain_next im l last a m : chain im l last -> a ∈ l -> im_modules im !! a = Some m ->
  m_next m ∈ tail l ++ [last].
Proof.
  induction l as [|b l IH]; cbn [chain]; [by intros ? ?%elem_of_nil|].
  intros [(mb & Eb & Enb) Hc] Ha E. apply elem_of_cons in Ha as [->|Ha].
  - rewrite Eb in E. injection E as <-. rewrite Enb. destruct l; cbn; [by left|by left].
  - specialize (IH Hc Ha E). cbn. rewrite elem_of_app in *. destruct IH as [IH|IH]; [left|by right]. by destruct l; [|right].
Qed.

Lemma chain_app_l im l r last : chain im (l ++ r) last -> chain im l (default last (head r)).
Proof.
  induction l as [|a l IH]; [done|]. cbn [chain app]. intros [(m & E & En) Hc]. split; [|by apply IH].
  exists m. split; [done|]. rewrite En. by destruct l, r.
Qed.

Lemma chain_app_r im l r last : chain im (l ++ r) last -> chain im r last.
Proof. induction l as [|a l IH]; [done|]. intros [_ Hc]. by apply IH. Qed.

(** The module is the second or a later one of one list and is added to another. *)
Lemma relink_breaks self ti ci im h1 pre post h2 l2 :
  loaded im (h1 :: pre ++ self :: post) -> loaded im (h2 :: l2) ->
  (forall a, a ∈ h1 :: pre ++ self :: post -> a ∉ h2 :: l2) ->
  exists im', initialize_image self ti ci (Some h2) im = Some im'
    /\ forall fuel, visited fuel im' h1 h1 = None.
Proof.
  intros L1 L2 Hdis. pose proof (ld_chain _ _ L1) as C1. pose proof (ld_chain _ _ L2) as C2. change (chain im (h1 :: pre ++ self :: post) h1) in C1. change (chain im (h2 :: l2) h2) in C2.
  assert (Hs1 : self ∈ h1 :: pre ++ self :: post) by (right; apply elem_of_app; right; left).
  pose proof (Hdis self Hs1) as Hs2. pose proof Hs2 as [Hsh Hsl]%not_elem_of_cons.
  pose proof (ld_nodup _ _ L2) as [Hh2 _]%NoDup_cons. pose proof (ld_nodup _ _ L1) as [Hh1 Hd1]%NoDup_cons.
  apply not_elem_of_app in Hh1 as [Hp1 Hq1]. apply not_elem_of_cons in Hq1 as [Hs Hq1].
  destruct (chain_in _ _ _ self C1 Hs1) as [m Em].
  assert (Hz : m_next m <> 0).
  { pose proof (chain_next _ _ _ _ _ C1 Hs1 Em) as Hin. intros E. rewrite E in Hin. apply (ld_nonnull _ _ L1).
    cbn [tail] in Hin. apply elem_of_app in Hin as [Hin|Hin%list_elem_of_singleton]; [by right|subst; left]. }
  destruct (proj1 C2) as (hm & Eh & Enh). unfold initialize_image, set_up. rewrite Em. cbn [option_bind mbind].
  rewrite (proj2 (Z.eqb_neq _ _) Hz). cbn [option_bind mbind]. unfold add_module.
  rewrite (in_list_chain im self l2 _ h2 h2 C2 Hh2)
    by (pose proof (chain_length _ _ _ C2 (ld_nodup _ _ L2)); cbn [length] in *; lia).
  rewrite bool_decide_false by done. cbn [option_bind mbind]. rewrite Em. cbn [option_bind mbind]. rewrite Eh.
  cbn [option_bind mbind]. set (m1 := set_link (m_next hm) m).
  assert (Eh1 : im_modules (put_module self m1 im) !! h2 = Some hm) by (cbn; by rewrite lookup_insert_ne by congruence).
  rewrite Eh1. cbn [option_bind mbind negb]. eexists. split; [reflexivity|]. intros fuel.
  apply (visited_endless _ h1 ((h1 :: pre) ++ self :: h2 :: l2)); [|by left]. intros a Ha. cbn [put_module im_modules].
  assert (Hr2 : forall x, x ∈ h2 :: l2 -> x <> h1) by (intros x Hx ->; by apply (Hdis h1 (list_elem_of_here _ _))).
  assert (Hin2 : forall x, x ∈ h2 :: l2 -> x ∈ (h1 :: pre) ++ self :: h2 :: l2) by (intros x Hx; apply elem_of_app; right; by right).
  destruct (decide (a = h2)) as [->|Hah].
  { rewrite lookup_insert_eq. eexists. split; [reflexivity|]. cbn. split; [right; apply elem_of_app; right; left|congruence]. }
  rewrite (lookup_insert_ne _ h2) by congruence. destruct (decide (a = self)) as [->|Has].
  { rewrite lookup_insert_eq. eexists. split; [reflexivity|]. cbn [m1 set_link m_next]. rewrite Enh.
    assert (default h2 (head l2) ∈ h2 :: l2) by (destruct l2; cbn; [left|right; left]). auto. }
  rewrite lookup_insert_ne by congruence. apply elem_of_app in Ha as [Ha|Ha].
  - pose proof (chain_app_l im (h1 :: pre) (self :: post) h1 C1) as Cp. cbn [head default] in Cp.
    destruct (chain_in _ _ _ a Cp Ha) as [ma Ea]. exists ma. split; [done|].
    pose proof (chain_next _ _ _ _ _ Cp Ha Ea) as Hn. cbn [tail] in Hn. split.
    + right. apply elem_of_app in Hn as [Hn|Hn%list_elem_of_singleton]; apply elem_of_app; [by left|right; rewrite Hn; left].
    + intros E. rewrite E in Hn. apply elem_of_app in Hn as [Hn|Hn%list_elem_of_singleton]; [done|exact (Hs Hn)].
  - apply elem_of_cons in Ha as [?|Ha]; [done|]. destruct (chain_in _ _ _ a C2 Ha) as [ma Ea]. exists ma. split; [done|].
    pose proof (chain_next _ _ _ _ _ C2 Ha Ea) as Hn. cbn [tail] in Hn.
    assert (m_next ma ∈ h2 :: l2) by (apply elem_of_app in Hn as [Hn|Hn%list_elem_of_singleton]; [by right|rewrite Hn; left]). auto.
Qed.

(** ** The CTP module *)

Section Ctp.
(** The addresses of [swig_module] and of the descriptors [_swigt_<id>]. *)
Context (self : Z) (addr : string -> Z).

Definition ctp_table : list (Z * list Z) := map (fun p => (addr (fst p), chars (fst p))) CtpTypes.swigt.

(** [SWIG_InitializeModule] with the tables of ctp_wrap.cpp. *)
Definition initialize_ctp : option Z -> image -> option image :=
  initialize_image self (map addr CtpTypes.swig_type_initial)
    (map (fun id => CtpTypes.swigc_entries addr id ++ [cast_end]) CtpTypes.swig_cast_initial).

#[local] Opaque CtpTypes.swigt CtpTypes.swigc CtpTypes.swig_type_initial CtpTypes.swig_cast_initial.

Lemma initialize_ctp_eq : initialize_ctp = initialize_image self (map fst ctp_table) (map own_cast ctp_table).
Proof.
  assert (E1 : map addr CtpTypes.swig_type_initial = map fst ctp_table)
    by (unfold ctp_table; by rewrite CtpTypes.initial_ids, !map_map).
  assert (E2 : map (fun id => CtpTypes.swigc_entries addr id ++ [cast_end]) CtpTypes.swig_cast_initial = map own_cast ctp_table).
  { unfold ctp_table. rewrite CtpTypes.cast_initial_ids, !map_map. apply list_eq. intros i. rewrite !list_lookup_fmap.
    destruct (CtpTypes.swigt !! i) as [p|] eqn:Hp; [|done]. cbn. by rewrite (CtpTypes.swigc_entries_self addr i p Hp). }
  unfold initialize_ctp. by rewrite E1, E2.
Qed.

Lemma ctp_table_lookup i p : CtpTypes.swigt !! i = Some p -> ctp_table !! i = Some (addr (fst p), chars (fst p)).
Proof. intros Hp. unfold ctp_table. by rewrite list_lookup_fmap, Hp. Qed.

Lemma initialize_ctp_run im ring : loaded im ring -> static self ctp_table im ring ->
  exists im' types, initialize_ctp (head ring) im = Some im' /\ merged self ctp_table im ring im' types.
Proof.
  intros Hl Hs. rewrite initialize_ctp_eq. destruct ring as [|h l]; [by apply initialize_alone|by apply initialize_after].
Qed.

(** Every type of the module is at its index and accepts its own pointers, and
    one that no other module has accepts no others. *)
Lemma merged_checks im ring im' types i p : static self ctp_table im ring -> merged self ctp_table im ring im' types ->
  CtpTypes.swigt !! i = Some p ->
  exists d t, types !! i = Some d /\ im_types im' !! d = Some t
    /\ SWIG_TypeCheck (chars (fst p)) (Some (t_cast t)) = Some (Some (O, O))
    /\ (d = addr (fst p) -> forall c, c <> chars (fst p) -> SWIG_TypeCheck c (Some (t_cast t)) = Some None).
Proof.
  intros Hs Hm Hp%ctp_table_lookup.
  destruct (mg_resolved _ _ _ _ _ _ Hm i _ Hp) as [(d & (b & m & Hb & Em & Hd & Ht) & Hi & _)|(_ & Hi & E)]; cbn [fst snd] in *.
  - destruct Ht as (t & arr & rest & Et & _ & Ec & Hn). exists d, t. split; [done|]. split.
    + rewrite (mg_types _ _ _ _ _ _ Hm); [done|]. by apply (sc_apart _ _ _ _ Hs b m).
    + rewrite Ec. split; [by apply type_check_first|]. intros ->. destruct (sc_apart _ _ _ _ Hs b m (addr (fst p)) Hb Em Hd).
      apply list_elem_of_fmap. eexists. split; [|by eapply list_elem_of_lookup_2]. done.
  - destruct (sc_types _ _ _ _ Hs _ (list_elem_of_lookup_2 _ _ _ Hp)) as (t & Et & _). cbn in Et. rewrite Et in E.
    exists (addr (fst p)), (set_cast [self_cast (addr (fst p), chars (fst p))] t). split; [done|]. split; [done|].
    split; [apply type_check_first; cbn; by rewrite strcmp_refl|]. intros _ c Hc. cbn.
    rewrite (proj2 (Z.eqb_neq _ _)); [done|]. rewrite strcmp_eq. congruence.
Qed.
#[local] Transparent CtpTypes.swigt CtpTypes.swigc CtpTypes.swig_type_initial CtpTypes.swig_cast_initial.
End Ctp.

(** ** Properties *)

#[local] Opaque CtpTypes.swigt CtpTypes.swigc CtpTypes.swig_type_initial CtpTypes.swig_cast_initial.

(** C16. The types are merged: whatever SWIG modules an interpreter has loaded,
    initialising the CTP module ends and leaves a circular list of well formed
    modules with this one after the head.  Each of the 529 types is the
    descriptor a loaded module has under the same name, which is then shared and
    unchanged, and otherwise the module's own, which gets its one cast.  At its
    index it accepts the pointers of its own name, and if it is the module's own
    no others, so that a structure of one CTP type is never taken for another.
    No other descriptor and no table of another module changes; and to load the
    module again changes nothing. *)
Theorem modules_merge self addr im ring : loaded im ring -> static self (ctp_table addr) im ring ->
  exists im' types, initialize_ctp self addr (head ring) im = Some im'
    /\ merged self (ctp_table addr) im ring im' types
    /\ (forall i p, CtpTypes.swigt !! i = Some p -> exists d t, types !! i = Some d /\ im_types im' !! d = Some t
          /\ SWIG_TypeCheck (chars (fst p)) (Some (t_cast t)) = Some (Some (O, O))
          /\ (d = addr (fst p) -> forall c, c <> chars (fst p) -> SWIG_TypeCheck c (Some (t_cast t)) = Some None))
    /\ initialize_ctp self addr (head (second self ring)) im' = Some im'.
Proof.
  intros Hl Hs. destruct (initialize_ctp_run self addr im ring Hl Hs) as (im' & types & E & Hm). exists im', types.
  split; [done|]. split; [done|]. split; [intros i p; by apply (merged_checks self addr im ring)|].
  pose proof (mg_loaded _ _ _ _ _ _ Hm) as Hl'. rewrite initialize_ctp_eq.
  destruct ring as [|h l]; (eapply initialize_again; [exact Hl'|]); [left|right; left].
Qed.

(** C33. One list at a time: when the module is in the list of one interpreter, not
    at its head, and a second interpreter that has loaded another module loads
    it too, the one link a module has is redirected into the second list, and
    from then on a walk over the first interpreter's modules never ends. *)
Theorem second_interpreter_endless self addr im h1 pre post h2 l2 :
  loaded im (h1 :: pre ++ self :: post) -> loaded im (h2 :: l2) ->
  (forall a, a ∈ h1 :: pre ++ self :: post -> a ∉ h2 :: l2) ->
  exists im', initialize_ctp self addr (Some h2) im = Some im'
    /\ forall fuel, visited fuel im' h1 h1 = None.
Proof. apply relink_breaks. Qed.

(** *** Examples *)

(** The descriptors of the module in a row, after those of another module that
    knows strings. *)
Definition sample_addr (id : string) : Z :=
  match list_find (fun p => fst p = id) CtpTypes.swigt with Some (i, _) => 4096 + 48 * Z.of_nat i | None => 0 end.

Definition sample_string : Z * list Z := (32, chars "_p_char").

Definition sample_image : image := mk_image
  (<[32 := mk_type (mk_type_info (Some (chars "_p_char")) None) [self_cast sample_string] 0]>
     (list_to_map (map (fun p => (sample_addr (fst p), mk_type (CtpTypes.info_of p) [] 0)) CtpTypes.swigt)))
  {[16 := mk_module [32; 0] 1 16 [32] [];
    24 := mk_module (replicate (S (length CtpTypes.swigt)) 0) (length CtpTypes.swigt) 0 [] []]}.

Lemma sample_addr_at i p : CtpTypes.swigt !! i = Some p -> sample_addr (fst p) = 4096 + 48 * Z.of_nat i.
Proof. intros Hp. unfold sample_addr. by rewrite (CtpTypes.find_unique _ i p CtpTypes.swigt_nodup Hp). Qed.

Lemma sample_addrs : map (fun p => sample_addr (fst p)) CtpTypes.swigt
  = map (fun i => 4096 + 48 * Z.of_nat i) (seq 0 (length CtpTypes.swigt)).
Proof.
  apply list_eq. intros i. rewrite !list_lookup_fmap. destruct (CtpTypes.swigt !! i) as [p|] eqn:Hp.
  - cbn. rewrite (sample_addr_at i p Hp), lookup_seq_lt by (by eapply lookup_lt_Some). done.
  - apply lookup_ge_None in Hp. by rewrite lookup_seq_ge.
Qed.

Lemma sample_addrs_nodup : NoDup (map (fun p => sample_addr (fst p)) CtpTypes.swigt).
Proof. rewrite sample_addrs. apply NoDup_fmap_2; [|apply NoDup_seq]. intros i j E. lia. Qed.

Lemma sample_loaded : loaded sample_image [16].
Proof.
  constructor.
  - apply NoDup_singleton.
  - split; [|done]. eexists. split; [unfold sample_image; cbn [im_modules]; by rewrite lookup_insert_eq|done].
  - constructor; [|constructor]. eexists _, [chars "_p_char"].
    split; [unfold sample_image; cbn [im_modules]; by rewrite lookup_insert_eq|].
    split; [repeat constructor|]. constructor; [|constructor]. eexists _, (self_cast sample_string), [].
    split; [unfold sample_image; cbn [im_types]; by rewrite lookup_insert_eq|]. split; [done|]. split; [done|]. reflexivity.
  - intros H%list_elem_of_singleton. lia.
Qed.

Lemma sample_static : static 24 (ctp_table sample_addr) sample_image [16].
Proof.
  assert (Ha : map fst (ctp_table sample_addr) = map (fun p => sample_addr (fst p)) CtpTypes.swigt)
    by (unfold ctp_table; by rewrite map_map).
  constructor.
  - split; [lia|]. intros H%list_elem_of_singleton. lia.
  - eexists. split; [unfold sample_image; cbn [im_modules]; by rewrite lookup_insert_ne, lookup_singleton_eq by lia|].
    assert (El : length (ctp_table sample_addr) = length CtpTypes.swigt) by apply length_map.
    rewrite El. split; [reflexivity|]. split; [reflexivity|]. apply length_replicate.
  - rewrite Ha. apply sample_addrs_nodup.
  - unfold ctp_table. rewrite map_map. apply CtpTypes.swigt_sorted.
  - intros p (q & -> & Hq)%list_elem_of_fmap. cbn [fst snd]. exists (mk_type (CtpTypes.info_of q) [] 0).
    split; [|split; [reflexivity|split; reflexivity]]. apply list_elem_of_lookup_1 in Hq as [i Hi]. unfold sample_image. cbn [im_types].
    rewrite lookup_insert_ne by (rewrite (sample_addr_at i q Hi); lia).
    apply elem_of_list_to_map_1; [by rewrite map_map; apply sample_addrs_nodup|].
    apply list_elem_of_fmap. exists q. split; [done|by eapply list_elem_of_lookup_2].
  - intros b m d Hb%list_elem_of_singleton E Hd. subst b. unfold sample_image in E. cbn [im_modules] in E.
    rewrite lookup_insert_eq in E. injection E as <-. cbn in Hd. apply list_elem_of_singleton in Hd as ->.
    rewrite Ha, sample_addrs. intros (i & Ei & _)%list_elem_of_fmap. lia.
Qed.

Lemma modules_merge_witness : exists im',
  initialize_ctp 24 sample_addr (Some 16) sample_image = Some im'
  /\ loaded im' [16; 24] /\ initialize_ctp 24 sample_addr (Some 16) im' = Some im'.
Proof.
  destruct (modules_merge 24 sample_addr sample_image [16] sample_loaded sample_static) as (im' & types & E & Hm & _ & E2).
  exists im'. split; [exact E|]. split; [exact (mg_loaded _ _ _ _ _ _ Hm)|exact E2].
Defined.

(** Modules without types: 16 and 24 in one list, 40 in another. *)
Definition sample_lists : image := mk_image ∅
  {[16 := mk_module [0] 0 24 [] []; 24 := mk_module [0] 0 16 [] []; 40 := mk_module [0] 0 40 [] []]}.

Lemma sample_lists_loaded : loaded sample_lists [16; 24] /\ loaded sample_lists [40].
Proof.
  assert (Hok : forall b, b ∈ [16; 24; 40] -> module_ok sample_lists b).
  { intros b Hb. assert (Hm : exists n, im_modules sample_lists !! b = Some (mk_module [0] 0 n [] [])).
    { rewrite !elem_of_cons, elem_of_nil in Hb. destruct Hb as [->|[->|[->|[]]]]; eexists; reflexivity. }
    destruct Hm as [n E]. exists (mk_module [0] 0 n [] []), []. split; [done|]. split; constructor. }
  split; constructor.
  - apply (bool_decide_unpack _). reflexivity.
  - split; [by eexists|]. split; [by eexists|done].
  - repeat constructor; apply Hok; rewrite !elem_of_cons; tauto.
  - apply (bool_decide_unpack _). reflexivity.
  - apply NoDup_singleton.
  - split; [by eexists|done].
  - repeat constructor; apply Hok; rewrite !elem_of_cons; tauto.
  - apply (bool_decide_unpack _). reflexivity.
Qed.

Lemma second_interpreter_endless_witness : exists im', initialize_ctp 24 sample_addr (Some 40) sample_lists = Some im'
  /\ forall fuel, visited fuel im' 16 16 = None.
Proof.
  apply (second_interpreter_endless 24 sample_addr sample_lists 16 [] [] 40 []).
  - exact (proj1 sample_lists_loaded).
  - exact (proj2 sample_lists_loaded).
  - intros a Ha Hb. apply list_elem_of_singleton in Hb as ->. revert Ha. apply (bool_decide_unpack _). reflexivity.
Defined.
#[local] Transparent CtpTypes.swigt CtpTypes.swigc CtpTypes.swig_type_initial CtpTypes.swig_cast_initial.
End Modules.
