(* ===== verification/Utf8.v ===== *)
(** * UTF-8 and binary64 as the Python/C functions use them

    [utf8_encode] is [PyUnicode_AsUTF8AndSize] on the code points of a string,
    which refuses surrogates; [utf8_decode] is [PyUnicode_DecodeUTF8] with the
    error handler "surrogateescape", which maps every byte that is not part of
    a well-formed sequence to the code point 0xDC00 + byte; [double_of_Z] is
    [PyLong_AsDouble], rounding to nearest even. *)

From S2P Require Import Prelude.

Module Utf8.

Definition is_surrogate (c : Z) : bool := (0xD800 <=? c) && (c <=? 0xDFFF).
(** A code point UTF-8 can carry. *)
Definition scalar (c : Z) : bool := (0 <=? c) && (c <=? 0x10FFFF) && negb (is_surrogate c).

Definition encode1 (c : Z) : option (list Z) :=
  if negb (scalar c) then None
  else if c <? 0x80 then Some [c]
  else if c <? 0x800 then Some [0xC0 + c / 64; 0x80 + c mod 64]
  else if c <? 0x10000 then Some [0xE0 + c / 4096; 0x80 + c / 64 mod 64; 0x80 + c mod 64]
  else Some [0xF0 + c / 262144; 0x80 + c / 4096 mod 64; 0x80 + c / 64 mod 64; 0x80 + c mod 64].

Fixpoint utf8_encode (s : list Z) : option (list Z) :=
  match s with
  | [] => Some []
  | c :: s' => match encode1 c, utf8_encode s' with
               | Some b, Some r => Some (b ++ r)
               | _, _ => None
               end
  end.

Definition within (lo hi b : Z) : bool := (lo <=? b) && (b <=? hi).
Definition cont (b : Z) : bool := within 0x80 0xBF b.

(** The well-formed sequence at the head of the bytes: its code point and the rest. *)
Definition decode1 (l : list Z) : option (Z * list Z) :=
  match l with
  | [] => None
  | b0 :: r0 =>
      if b0 <? 0x80 then Some (b0, r0)
      else match r0 with
      | [] => None
      | b1 :: r1 =>
          if within 0xC2 0xDF b0 then
            if cont b1 then Some ((b0 - 0xC0) * 64 + (b1 - 0x80), r1) else None
          else match r1 with
          | [] => None
          | b2 :: r2 =>
              if within 0xE0 0xEF b0 then
                if within (if b0 =? 0xE0 then 0xA0 else 0x80) (if b0 =? 0xED then 0x9F else 0xBF) b1
                   && cont b2
                then Some ((b0 - 0xE0) * 4096 + (b1 - 0x80) * 64 + (b2 - 0x80), r2) else None
              else match r2 with
              | [] => None
              | b3 :: r3 =>
                  if within 0xF0 0xF4 b0
                     && within (if b0 =? 0xF0 then 0x90 else 0x80) (if b0 =? 0xF4 then 0x8F else 0xBF) b1
                     && cont b2 && cont b3
                  then Some ((b0 - 0xF0) * 262144 + (b1 - 0x80) * 4096
                             + (b2 - 0x80) * 64 + (b3 - 0x80), r3)
                  else None
              end
          end
      end
  end.

Fixpoint decode_loop (fuel : nat) (l : list Z) : list Z :=
  match fuel with
  | O => []
  | S fuel' =>
      match l with
      | [] => []
      | b :: l' => match decode1 l with
                   | Some (c, r) => c :: decode_loop fuel' r
                   | None => 0xDC00 + b :: decode_loop fuel' l'
                   end
      end
  end.

(** One turn per byte is enough. *)
Definition utf8_decode (l : list Z) : list Z := decode_loop (length l) l.

(** The nearest double to an integer as its bits; [None] when it is too large. *)
Definition double_of_Z (z : Z) : option Z :=
  if z =? 0 then Some 0
  else
    let m := Z.abs z in
    let e := Z.log2 m in
    let q := if e <=? 52 then Z.shiftl m (52 - e)
             else let d := 2 ^ (e - 52) in
                  let q := m / d in
                  let r := 2 * (m mod d) in
                  if (d <? r) || ((r =? d) && Z.odd q) then q + 1 else q in
    let '(q, e) := if q =? 2 ^ 53 then (2 ^ 52, e + 1) else (q, e) in
    if 1023 <? e then None
    else Some ((if z <? 0 then 2 ^ 63 else 0) + (e + 1023) * 2 ^ 52 + (q - 2 ^ 52)).

(** ** Lemmas *)

Ltac byte_tests :=
  unfold cont, within in *;
  repeat match goal with
  | |- context [?a <=? ?b] => first [rewrite (proj2 (Z.leb_le a b)) by dlia | rewrite (proj2 (Z.leb_gt a b)) by dlia]
  | |- context [?a <? ?b] => first [rewrite (proj2 (Z.ltb_lt a b)) by dlia | rewrite (proj2 (Z.ltb_ge a b)) by dlia]
  end.

Lemma encode1_nonempty c b : encode1 c = Some b -> exists x r, b = x :: r.
Proof. unfold encode1. repeat case_if; intros [= <-]; eauto. Qed.

Lemma decode_encode1 c b r : encode1 c = Some b -> decode1 (b ++ r) = Some (c, r).
Proof.
  unfold encode1. destruct (scalar c) eqn:Es; [|done]. cbn [negb].
  unfold scalar, is_surrogate in Es. zbool.
  apply negb_true_iff, andb_false_iff in H0.
  repeat case_if; zbool; intros [= <-]; cbn [app decode1].
  - byte_tests. done.
  - byte_tests. cbn [andb]. do 2 f_equal. dlia.
  - byte_tests. cbn [andb].
    assert (E : ((if 0xE0 + c / 4096 =? 0xE0 then 0xA0 else 0x80) <=? 0x80 + c / 64 mod 64) = true
             /\ (0x80 + c / 64 mod 64 <=? (if 0xE0 + c / 4096 =? 0xED then 0x9F else 0xBF)) = true).
    { rewrite !Z.leb_le. destruct H0 as [H0|H0]; zbool; split; case_if; zbool; dlia. }
    destruct E as [-> ->]. cbn [andb]. do 2 f_equal. dlia.
  - byte_tests. cbn [andb].
    assert (E : ((if 0xF0 + c / 262144 =? 0xF0 then 0x90 else 0x80) <=? 0x80 + c / 4096 mod 64) = true
             /\ (0x80 + c / 4096 mod 64 <=? (if 0xF0 + c / 262144 =? 0xF4 then 0x8F else 0xBF)) = true).
    { rewrite !Z.leb_le. split; case_if; zbool; dlia. }
    destruct E as [-> ->]. cbn [andb]. do 2 f_equal. dlia.
Qed.

Lemma decode_loop_encode s b fuel : utf8_encode s = Some b -> (length b <= fuel)%nat ->
  decode_loop fuel b = s.
Proof.
  revert b fuel; induction s as [|c s IH]; intros b fuel E Hf; simpl in E.
  { injection E as <-. by destruct fuel. }
  destruct (encode1 c) as [b1|] eqn:E1; [|done].
  destruct (utf8_encode s) as [r|]; [|done]. injection E as <-.
  destruct (encode1_nonempty c b1 E1) as (x & r1 & ->).
  rewrite length_app in Hf. simpl in Hf. destruct fuel as [|fuel]; [lia|].
  cbn [decode_loop app]. change (x :: r1 ++ r) with ((x :: r1) ++ r).
  rewrite (decode_encode1 c (x :: r1) r E1). f_equal. apply IH; [done|lia].
Qed.

Lemma utf8_decode_encode s b : utf8_encode s = Some b -> utf8_decode b = s.
Proof. intros E. by apply decode_loop_encode. Qed.

Definition ascii (s : list Z) : Prop := Forall (fun c => 0 <= c < 0x80) s.

Lemma utf8_encode_ascii s : ascii s -> utf8_encode s = Some s.
Proof.
  induction 1 as [|c s Hc Hs IH]; [done|]. simpl. rewrite IH.
  unfold encode1, scalar, is_surrogate. byte_tests. done.
Qed.

Lemma encode1_ok c b : encode1 c = Some b -> bytes_ok b /\ (no_nul b <-> c <> 0).
Proof.
  unfold encode1. destruct (scalar c) eqn:Es; [|done]. cbn [negb].
  unfold scalar, is_surrogate in Es. zbool. unfold bytes_ok, no_nul, byte_ok.
  repeat case_if; zbool; intros [= <-]; (split; [repeat constructor; dlia|]);
    (split; [intros HF; inversion HF; subst; dlia|intros; repeat constructor; dlia]).
Qed.

Lemma utf8_encode_ok s b : utf8_encode s = Some b ->
  bytes_ok b /\ (Forall (fun c => c <> 0) s -> no_nul b).
Proof.
  revert b; induction s as [|c s IH]; intros b E; simpl in E.
  { injection E as <-. split; [constructor|constructor]. }
  destruct (encode1 c) as [b1|] eqn:E1; [|done].
  destruct (utf8_encode s) as [r|]; [|done]. injection E as <-.
  destruct (encode1_ok c b1 E1) as [H1 H2]. destruct (IH r eq_refl) as [H3 H4]. split.
  - by apply Forall_app.
  - intros HF. inversion HF; subst. apply no_nul_app; [by apply H2|auto].
Qed.

End Utf8.
