(* ===== verification/World.v ===== *)
(** * The interpreter and the process as the extension sees them

    A native frame runs in a [world]: the Python objects it can reach, the
    references it owns, the error indicator, whether its thread holds the
    interpreter lock, and the C memory.  Fallible code is in the monad [M]: it
    returns, throws a C++ exception, or is stuck at an operation the C and
    Python/C rules leave undefined.

    References are counted from the native side: [w_refs] holds, for each
    object, how many references native code owns.  A new or incremented
    reference adds one, [Py_DECREF] and a stolen reference take one away, and a
    call into the interpreter leaves the balance alone.  A frame that ends with
    the balance it started with, but for the reference it returns, neither leaks
    nor releases what it does not own. *)

From S2P Require Import Prelude.

Module World.

(** ** Data *)

(** The builtin exception class an exception type derives from. *)
Inductive ekind :=
| TypeError | ValueError | IndexError | OverflowError | ZeroDivisionError | MemoryError
| AttributeError | SyntaxError | IOError | NotImplementedError | RuntimeError | SystemError
| SystemExit | KeyboardInterrupt | UnicodeWarning | Exception_.

#[export] Instance ekind_eq_dec : EqDecision ekind.
Proof. solve_decision. Defined.

(** An exception: its class, its message where C code set it, and the objects
    for its value and traceback (0 when null). *)
Record pyerr := mk_err { e_kind : ekind; e_msg : list Z; e_type : Z; e_value : Z; e_tb : Z }.

(** [SwigPyObject]: the pointer, the index of its type in [swig_types] when it
    has one, the ownership flag and the next object of the chain. *)
Record swigobj := mk_swigobj { s_ptr : Z; s_ty : option nat; s_own : Z; s_next : option Z }.

(** Python objects.  [OInst] is an instance with its attribute ['this'];
    strings are code points, floats their 64-bit patterns. *)
Inductive pyobj :=
| ONone
| OBool (b : bool)
| OInt (z : Z)
| OFloat (bits : Z)
| OStr (cps : list Z)
| OBytes (bs : list Z)
| OTuple (items : list Z)
| OList (items : list Z)
| OSwig (s : swigobj)
| OInst (this : option Z)
| OOther.

(** C++ exceptions. *)
Inductive cxx :=
| DirectorException (msg : list Z)
| DirectorMethodException (msg : list Z)
| DirectorPureVirtualException (msg : list Z)
| StdException (what : list Z)
| UnknownException.

(** Operations with undefined behaviour, a loop or recursion without end, and
    the end of the process. *)
Inductive ub := NoGIL | BadObject | Unmapped | BadFree | BadDelete | Endless | Exited.

(** The state of a director object: [swig_self] and [swig_disown_flag].  The
    table of bound methods is compiled only without SWIG_PYTHON_DIRECTOR_NO_VTABLE,
    which ctp_wrap.cpp defines. *)
Record director := mk_director { d_self : Z; d_disown : bool }.

(** [PyObject_CallMethodObjArgs]: a call of a method by its name. *)
Inductive pycall := CallMethod (self : Z) (name : list Z) (args : list Z).

(** The calls a native frame makes: into the interpreter, of a virtual method
    of the CTP library by its name, through a function pointer, of a builtin
    function object, or to print a text. *)
Inductive event :=
| EPy (c : pycall)
| EVirtual (method : string) (this : Z) (args : list Z)
| EIndirect (f : Z) (args : list Z)
| EFunction (f : Z) (arg : Z)
| EPrint (text : list Z).

Record world := mk_world {
  w_heap : gmap Z pyobj;
  w_refs : gmap Z Z;
  w_fresh : Z;                    (** address of the next Python object *)
  w_err : option pyerr;
  w_gil : bool;
  w_mem : gmap Z Z;               (** mapped bytes *)
  w_blocks : gmap Z nat;          (** live blocks of [malloc] and [new], with their sizes *)
  w_brk : Z;                      (** address of the next block *)
  w_dirs : gmap Z director;       (** directors, by the address of the C++ object *)
  w_iconv : Z;                    (** [_ctp_iconv_handle]; -1 when not open *)
  w_calls : list event;           (** the calls the frame has made, in order *)
}.

Inductive res (A : Type) := Ret (a : A) | Throw (e : cxx) | Stuck (u : ub).
Arguments Ret {A} a.
Arguments Throw {A} e.
Arguments Stuck {A} u.

Definition M (A : Type) : Type := world -> res A * world.

Definition ret {A} (a : A) : M A := fun w => (Ret a, w).
Definition throw {A} (e : cxx) : M A := fun w => (Throw e, w).
Definition stuck {A} (u : ub) : M A := fun w => (Stuck u, w).
Definition bind {A B} (m : M A) (k : A -> M B) : M B := fun w =>
  match m w with
  | (Ret a, w') => k a w'
  | (Throw e, w') => (Throw e, w')
  | (Stuck u, w') => (Stuck u, w')
  end.
Definition gets {A} (f : world -> A) : M A := fun w => (Ret (f w), w).
Definition modify (f : world -> world) : M unit := fun w => (Ret tt, f w).

Declare Scope m_scope.
Delimit Scope m_scope with m.
Notation "x <- c1 ;; c2" := (bind c1 (fun x => c2))
  (at level 100, c1 at next level, right associativity) : m_scope.
Notation "c1 ;;; c2" := (bind c1 (fun _ => c2)) (at level 100, right associativity) : m_scope.
#[global] Open Scope m_scope.

(** [try { m } catch]: the handler sees the exception. *)
Definition catch {A} (m : M A) (h : cxx -> M A) : M A := fun w =>
  match m w with
  | (Throw e, w') => h e w'
  | r => r
  end.

(** A destructor that runs when the scope of [m] is left, by return or by exception. *)
Definition finally {A} (m : M A) (d : M unit) : M A := fun w =>
  match m w with
  | (Ret a, w') => bind d (fun _ => ret a) w'
  | (Throw e, w') => bind d (fun _ => throw e) w'
  | r => r
  end.

(** ** Field updates *)

Definition set_heap h w := mk_world h (w_refs w) (w_fresh w) (w_err w) (w_gil w) (w_mem w) (w_blocks w) (w_brk w) (w_dirs w) (w_iconv w) (w_calls w).
Definition set_refs r w := mk_world (w_heap w) r (w_fresh w) (w_err w) (w_gil w) (w_mem w) (w_blocks w) (w_brk w) (w_dirs w) (w_iconv w) (w_calls w).
Definition set_fresh n w := mk_world (w_heap w) (w_refs w) n (w_err w) (w_gil w) (w_mem w) (w_blocks w) (w_brk w) (w_dirs w) (w_iconv w) (w_calls w).
Definition set_err e w := mk_world (w_heap w) (w_refs w) (w_fresh w) e (w_gil w) (w_mem w) (w_blocks w) (w_brk w) (w_dirs w) (w_iconv w) (w_calls w).
Definition set_gil g w := mk_world (w_heap w) (w_refs w) (w_fresh w) (w_err w) g (w_mem w) (w_blocks w) (w_brk w) (w_dirs w) (w_iconv w) (w_calls w).
Definition set_mem m w := mk_world (w_heap w) (w_refs w) (w_fresh w) (w_err w) (w_gil w) m (w_blocks w) (w_brk w) (w_dirs w) (w_iconv w) (w_calls w).
Definition set_blocks b n w := mk_world (w_heap w) (w_refs w) (w_fresh w) (w_err w) (w_gil w) (w_mem w) b n (w_dirs w) (w_iconv w) (w_calls w).
Definition set_dirs d w := mk_world (w_heap w) (w_refs w) (w_fresh w) (w_err w) (w_gil w) (w_mem w) (w_blocks w) (w_brk w) d (w_iconv w) (w_calls w).
Definition set_iconv i w := mk_world (w_heap w) (w_refs w) (w_fresh w) (w_err w) (w_gil w) (w_mem w) (w_blocks w) (w_brk w) (w_dirs w) i (w_calls w).
Definition log (e : event) w := mk_world (w_heap w) (w_refs w) (w_fresh w) (w_err w) (w_gil w) (w_mem w) (w_blocks w) (w_brk w) (w_dirs w) (w_iconv w) (w_calls w ++ [e]).

(** ** The Python/C functions the extension uses *)

(** Every one of them requires the lock. *)
Definition need_gil : M unit := fun w => if w_gil w then (Ret tt, w) else (Stuck NoGIL, w).

Definition refs (w : world) (o : Z) : Z := default 0 (w_refs w !! o).
Definition add_ref (o n : Z) (w : world) : world := set_refs (<[o := refs w o + n]> (w_refs w)) w.

(** The singletons have fixed addresses; new objects lie above them. *)
Definition Py_None : Z := 1.
Definition Py_True : Z := 2.
Definition Py_False : Z := 3.
Definition Swig_Capsule_global : Z := 4.   (** set by [SWIG_Python_SetModule] when the module is loaded *)
Definition Py_NotImplemented : Z := 5.
Definition first_free : Z := 64.

Definition Py_INCREF (o : Z) : M unit := need_gil ;;; modify (add_ref o 1).
Definition Py_DECREF (o : Z) : M unit :=
  need_gil ;;; if o =? 0 then stuck BadObject else modify (add_ref o (-1)).
Definition Py_XDECREF (o : Z) : M unit :=
  need_gil ;;; if o =? 0 then ret tt else modify (add_ref o (-1)).

Definition Py_XINCREF (o : Z) : M unit :=
  need_gil ;;; if o =? 0 then ret tt else modify (add_ref o 1).

(** A new object, with one reference owned by the caller. *)
Definition new_object (v : pyobj) : M Z := fun w =>
  match need_gil w with
  | (Ret _, _) => let o := w_fresh w in
                  (Ret o, set_fresh (o + 1) (add_ref o 1 (set_heap (<[o := v]> (w_heap w)) w)))
  | (Throw e, w') => (Throw e, w')
  | (Stuck u, w') => (Stuck u, w')
  end.

Definition object_at (o : Z) : M pyobj :=
  need_gil ;;; w <- gets w_heap ;; match w !! o with Some v => ret v | None => stuck BadObject end.

(** [PyObject_Free]. *)
Definition free_object (o : Z) : M unit :=
  need_gil ;;; modify (fun w => set_heap (delete o (w_heap w)) w).

Definition store_object (o : Z) (v : pyobj) : M unit :=
  need_gil ;;; modify (fun w => set_heap (<[o := v]> (w_heap w)) w).

(** [Py_INCREF(Py_None); return Py_None;] *)
Definition SWIG_Py_Void : M Z := Py_INCREF Py_None ;;; ret Py_None.

Definition PyBool_FromLong (n : Z) : M Z :=
  let o := if n =? 0 then Py_False else Py_True in Py_INCREF o ;;; ret o.

Definition PyErr_Occurred : M (option pyerr) := need_gil ;;; gets w_err.
Definition PyErr_Clear : M unit := need_gil ;;; modify (set_err None).

(** The address of a builtin exception class. *)
Definition exc_type (k : ekind) : Z :=
  match k with
  | TypeError => 10 | ValueError => 11 | IndexError => 12 | OverflowError => 13
  | ZeroDivisionError => 14 | MemoryError => 15 | AttributeError => 16 | SyntaxError => 17
  | IOError => 18 | NotImplementedError => 19 | RuntimeError => 20 | SystemError => 21
  | SystemExit => 22 | KeyboardInterrupt => 23 | UnicodeWarning => 24 | Exception_ => 25
  end.

(** An exception set from C with a message: its value is made when it is normalised. *)
Definition err_of (k : ekind) (msg : list Z) : pyerr := mk_err k msg (exc_type k) 0 0.
Definition PyErr_SetString (k : ekind) (msg : list Z) : M unit :=
  need_gil ;;; modify (set_err (Some (err_of k msg))).

(** [PyErr_Fetch]: the caller owns what it gets. *)
Definition own (o : Z) (w : world) : world := if o =? 0 then w else add_ref o 1 w.
Definition PyErr_Fetch : M (Z * Z * Z) :=
  need_gil ;;; fun w =>
    match w_err w with
    | Some e => (Ret (e_type e, e_value e, e_tb e), own (e_tb e) (own (e_value e) (own (e_type e) (set_err None w))))
    | None => (Ret (0, 0, 0), w)
    end.

(** [PyErr_Restore] of what was fetched: the indicator takes the references over. *)
Definition one (o : Z) : list Z := if o =? 0 then [] else [o].
Definition err_refs (e : option pyerr) : list Z :=
  match e with Some e => one (e_type e) ++ one (e_value e) ++ one (e_tb e) | None => [] end.
Definition drop_refs (l : list Z) (w : world) : world := foldr (fun o => add_ref o (-1)) w l.
Definition PyErr_Restore (e : option pyerr) : M unit :=
  need_gil ;;; modify (fun w => set_err e (drop_refs (err_refs e) w)).

(** [PyErr_WriteUnraisable] reports the error and clears it. *)
Definition PyErr_WriteUnraisable : M unit := PyErr_Clear.

(** ** The lock *)

(** [PyGILState_Ensure]: the state to give back to [PyGILState_Release]. *)
Definition PyGILState_Ensure : M bool := fun w => (Ret (w_gil w), set_gil true w).
Definition PyGILState_Release (state : bool) : M unit := need_gil ;;; modify (set_gil state).
Definition PyEval_SaveThread : M unit := need_gil ;;; modify (set_gil false).
Definition PyEval_RestoreThread : M unit := modify (set_gil true).

(** [SWIG_PYTHON_THREAD_BEGIN_BLOCK ... END_BLOCK]: the object's destructor
    releases the lock when the scope is left early. *)
Definition thread_block {A} (m : M A) : M A :=
  state <- PyGILState_Ensure ;; finally m (PyGILState_Release state).

(** [SWIG_PYTHON_THREAD_BEGIN_ALLOW ... END_ALLOW]. *)
Definition thread_allow {A} (m : M A) : M A :=
  PyEval_SaveThread ;;; finally m PyEval_RestoreThread.

(** ** C memory *)

Definition mapped (w : world) (p : Z) (n : nat) : Prop :=
  forall i, (i < n)%nat -> is_Some (w_mem w !! (p + Z.of_nat i)).

(** [n] bytes from [p] on; stuck when one of them is not mapped. *)
Definition load (p : Z) (n : nat) : M (list Z) := fun w =>
  match mapM (fun i => w_mem w !! (p + Z.of_nat i)) (seq 0 n) with
  | Some bs => (Ret bs, w)
  | None => (Stuck Unmapped, w)
  end.

Fixpoint store_bytes (m : gmap Z Z) (p : Z) (bs : list Z) : gmap Z Z :=
  match bs with
  | [] => m
  | b :: bs' => store_bytes (<[p := b]> m) (p + 1) bs'
  end.

Definition store (p : Z) (bs : list Z) : M unit := fun w =>
  match mapM (fun i => w_mem w !! (p + Z.of_nat i)) (seq 0 (length bs)) with
  | Some _ => (Ret tt, set_mem (store_bytes (w_mem w) p bs) w)
  | None => (Stuck Unmapped, w)
  end.

Fixpoint unmap (m : gmap Z Z) (p : Z) (n : nat) : gmap Z Z :=
  match n with
  | O => m
  | S n' => unmap (delete p m) (p + 1) n'
  end.

(** A new block with the given contents, away from every other. *)
Definition alloc (bytes : list Z) : M Z := fun w =>
  let p := w_brk w in
  (Ret p, set_mem (store_bytes (w_mem w) p bytes)
            (set_blocks (<[p := length bytes]> (w_blocks w)) (p + Z.of_nat (length bytes) + 1) w)).

(** A null pointer is ignored; a pointer that is not a live block is an error. *)
Definition free (p : Z) : M unit := fun w =>
  if p =? 0 then (Ret tt, w)
  else match w_blocks w !! p with
       | Some n => (Ret tt, set_mem (unmap (w_mem w) p n)
                              (set_blocks (delete p (w_blocks w)) (w_brk w) w))
       | None => (Stuck BadFree, w)
       end.

(** ** Reasoning about frames *)

(** Worlds that differ at most in how zero balances are recorded. *)
Record same (w w' : world) : Prop := mk_same {
  same_heap : w_heap w' = w_heap w;
  same_refs : forall o, refs w' o = refs w o;
  same_fresh : w_fresh w' = w_fresh w;
  same_err : w_err w' = w_err w;
  same_gil : w_gil w' = w_gil w;
  same_mem : w_mem w' = w_mem w;
  same_blocks : w_blocks w' = w_blocks w;
  same_brk : w_brk w' = w_brk w;
  same_dirs : w_dirs w' = w_dirs w;
  same_iconv : w_iconv w' = w_iconv w;
  same_calls : w_calls w' = w_calls w;
}.

#[export] Instance same_equiv : Equivalence same.
Proof.
  split.
  - intros w. by constructor.
  - intros w v []. constructor; auto.
  - intros u v w [] []. constructor; congruence.
Qed.

Lemma bind_eq {A B} (m : M A) (k : A -> M B) w a w' : m w = (Ret a, w') -> bind m k w = k a w'.
Proof. unfold bind. by intros ->. Qed.

Lemma bind_stuck {A B} (m : M A) (k : A -> M B) w u w' :
  m w = (Stuck u, w') -> bind m k w = (Stuck u, w').
Proof. unfold bind. by intros ->. Qed.

Lemma bind_throw {A B} (m : M A) (k : A -> M B) w e w' :
  m w = (Throw e, w') -> bind m k w = (Throw e, w').
Proof. unfold bind. by intros ->. Qed.

(** The second continuation of a sequence does not depend on how it is nested. *)
Lemma bind_assoc {A B C} (m : M A) (k : A -> M B) (h : B -> M C) w :
  bind (bind m k) h w = bind m (fun a => bind (k a) h) w.
Proof. unfold bind. by destruct (m w) as [[]]. Qed.

Section Gil.
Context (w : world) (Hg : w_gil w = true).

Lemma need_gil_eq : need_gil w = (Ret tt, w).
Proof. unfold need_gil. by rewrite Hg. Qed.

Lemma incref_eq o : Py_INCREF o w = (Ret tt, add_ref o 1 w).
Proof. unfold Py_INCREF. by rewrite (bind_eq _ _ _ _ _ need_gil_eq). Qed.

Lemma xincref_eq o : o <> 0 -> Py_XINCREF o w = (Ret tt, add_ref o 1 w).
Proof.
  intros Ho. unfold Py_XINCREF. rewrite (bind_eq _ _ _ _ _ need_gil_eq).
  by rewrite (proj2 (Z.eqb_neq _ _) Ho).
Qed.

Lemma decref_eq o : o <> 0 -> Py_DECREF o w = (Ret tt, add_ref o (-1) w).
Proof.
  intros Ho. unfold Py_DECREF. rewrite (bind_eq _ _ _ _ _ need_gil_eq).
  by rewrite (proj2 (Z.eqb_neq _ _) Ho).
Qed.

Lemma xdecref_eq o : o <> 0 -> Py_XDECREF o w = (Ret tt, add_ref o (-1) w).
Proof.
  intros Ho. unfold Py_XDECREF. rewrite (bind_eq _ _ _ _ _ need_gil_eq).
  by rewrite (proj2 (Z.eqb_neq _ _) Ho).
Qed.

Lemma xdecref_null : Py_XDECREF 0 w = (Ret tt, w).
Proof. unfold Py_XDECREF. by rewrite (bind_eq _ _ _ _ _ need_gil_eq). Qed.

Lemma object_at_eq o v : w_heap w !! o = Some v -> object_at o w = (Ret v, w).
Proof.
  intros Hv. unfold object_at. rewrite (bind_eq _ _ _ _ _ need_gil_eq). unfold bind, gets.
  by rewrite Hv.
Qed.

Lemma store_object_eq o v : store_object o v w = (Ret tt, set_heap (<[o := v]> (w_heap w)) w).
Proof. unfold store_object. by rewrite (bind_eq _ _ _ _ _ need_gil_eq). Qed.

Lemma free_object_eq o : free_object o w = (Ret tt, set_heap (delete o (w_heap w)) w).
Proof. unfold free_object. by rewrite (bind_eq _ _ _ _ _ need_gil_eq). Qed.

Lemma new_object_eq v : new_object v w =
  (Ret (w_fresh w), set_fresh (w_fresh w + 1)
                      (add_ref (w_fresh w) 1 (set_heap (<[w_fresh w := v]> (w_heap w)) w))).
Proof. unfold new_object. by rewrite need_gil_eq. Qed.

Lemma py_void_eq : SWIG_Py_Void w = (Ret Py_None, add_ref Py_None 1 w).
Proof. unfold SWIG_Py_Void. by rewrite (bind_eq _ _ _ _ _ (incref_eq _)). Qed.

Lemma set_string_eq k msg : PyErr_SetString k msg w = (Ret tt, set_err (Some (err_of k msg)) w).
Proof. unfold PyErr_SetString. by rewrite (bind_eq _ _ _ _ _ need_gil_eq). Qed.

Lemma occurred_eq : PyErr_Occurred w = (Ret (w_err w), w).
Proof. unfold PyErr_Occurred. by rewrite (bind_eq _ _ _ _ _ need_gil_eq). Qed.

Lemma clear_eq : PyErr_Clear w = (Ret tt, set_err None w).
Proof. unfold PyErr_Clear. by rewrite (bind_eq _ _ _ _ _ need_gil_eq). Qed.
End Gil.

Lemma refs_add_eq w o n : refs (add_ref o n w) o = refs w o + n.
Proof. unfold refs, add_ref. simpl. by rewrite lookup_insert_eq. Qed.

Lemma refs_add_ne w o x n : o <> x -> refs (add_ref o n w) x = refs w x.
Proof. intros. unfold refs, add_ref. simpl. by rewrite lookup_insert_ne. Qed.

Lemma refs_add w o n x : refs (add_ref o n w) x = refs w x + if decide (o = x) then n else 0.
Proof. case_decide; subst; [apply refs_add_eq|]. rewrite refs_add_ne by done. lia. Qed.

(** Taking back what was added. *)
Lemma add_ref_undo w o n : same w (add_ref o (- n) (add_ref o n w)).
Proof. constructor; try done. intros x. rewrite !refs_add. case_decide; lia. Qed.

(** *** References as lists *)

(** How often an object occurs in a list of references. *)
Definition cnt (l : list Z) (x : Z) : Z := Z.of_nat (count_occ Z.eq_dec l x).

Lemma cnt_app l r x : cnt (l ++ r) x = cnt l x + cnt r x.
Proof. unfold cnt. rewrite count_occ_app. lia. Qed.

Lemma cnt_nil x : cnt [] x = 0.
Proof. done. Qed.

Lemma cnt_single o x : cnt [o] x = if decide (o = x) then 1 else 0.
Proof.
  unfold cnt. simpl. destruct (Z.eq_dec o x), (decide (o = x)); done.
Qed.

#[export] Instance cnt_perm : Proper ((≡ₚ) ==> (=) ==> (=)) cnt.
Proof. intros l r Hp x ? <-. unfold cnt. f_equal. by apply Permutation_count_occ. Qed.

#[export] Instance concat_perm {A} : Proper ((≡ₚ) ==> (≡ₚ)) (@concat A).
Proof.
  induction 1 as [|x l r Hp IH|x y l|l r s Hp IH Hq IH']; cbn; [done|by rewrite IH| |by etrans].
  rewrite !app_assoc. by rewrite (Permutation_app_comm y x).
Qed.

(** [w'] is [w] with the references in [l] taken back, in the rest alike. *)
Record released (l : list Z) (w w' : world) : Prop := {
  rel_refs : forall x, refs w' x = refs w x - cnt l x;
  rel_heap : w_heap w' = w_heap w;
  rel_fresh : w_fresh w' = w_fresh w;
  rel_err : w_err w' = w_err w;
  rel_gil : w_gil w' = w_gil w;
  rel_mem : w_mem w' = w_mem w;
  rel_dirs : w_dirs w' = w_dirs w;
  rel_calls : w_calls w' = w_calls w;
  rel_blocks : w_blocks w' = w_blocks w;
  rel_brk : w_brk w' = w_brk w;
  rel_iconv : w_iconv w' = w_iconv w;
}.

Lemma released_trans l r w1 w2 w3 : released l w1 w2 -> released r w2 w3 -> released (l ++ r) w1 w3.
Proof.
  intros [A1] [B1]. constructor; try congruence.
  intros x. rewrite B1, A1, cnt_app. lia.
Qed.

Lemma add_ref_released o w : o <> 0 -> released [o] w (add_ref o (-1) w).
Proof.
  intros Ho. constructor; try done. intros x. rewrite refs_add, cnt_single. case_decide; lia.
Qed.

Lemma released_nil w : released [] w w.
Proof. constructor; try done. intros x. unfold cnt. simpl. lia. Qed.

(** The references a result or a new object stands for. *)
Lemma one_nonzero o : o <> 0 -> one o = [o].
Proof. intros Ho. unfold one. by rewrite (proj2 (Z.eqb_neq _ _) Ho). Qed.

Lemma cnt_one o x : cnt (one o) x = if decide (o <> 0 /\ o = x) then 1 else 0.
Proof.
  unfold one. destruct (o =? 0) eqn:E; zbool.
  - rewrite cnt_nil, decide_False by tauto. done.
  - rewrite cnt_single. repeat case_decide; tauto || lia.
Qed.

Lemma own_refs o w x : refs (own o w) x = refs w x + cnt (one o) x.
Proof.
  unfold own, one. destruct (o =? 0); [rewrite cnt_nil; lia|]. by rewrite refs_add, cnt_single.
Qed.

Lemma drop_released l w : released l w (drop_refs l w).
Proof.
  induction l as [|o l IH]; [apply released_nil|]. cbn [drop_refs foldr]. fold (drop_refs l w).
  change (o :: l) with ([o] ++ l). constructor; try apply IH.
  intros x. rewrite refs_add, (rel_refs _ _ _ IH), cnt_app, cnt_single. case_decide; lia.
Qed.

(** Fetching an error, clear or not: the indicator is clear and the references are owned. *)
Lemma fetch_frame w : w_gil w = true ->
  exists f w1, PyErr_Fetch w = (Ret f, w1) /\ w_err w1 = None
    /\ w_gil w1 = true /\ w_heap w1 = w_heap w /\ w_fresh w1 = w_fresh w /\ w_mem w1 = w_mem w
    /\ w_blocks w1 = w_blocks w /\ w_brk w1 = w_brk w /\ w_dirs w1 = w_dirs w /\ w_calls w1 = w_calls w
    /\ (forall x, refs w1 x = refs w x + cnt (err_refs (w_err w)) x).
Proof.
  intros Hg. unfold PyErr_Fetch. rewrite (bind_eq _ _ _ _ _ (need_gil_eq w Hg)).
  destruct (w_err w) as [e|] eqn:He; cbn [err_refs].
  - eexists _, _. split; [reflexivity|].
    assert (Ho : forall o v, w_err (own o v) = w_err v /\ w_gil (own o v) = w_gil v /\ w_heap (own o v) = w_heap v
      /\ w_fresh (own o v) = w_fresh v /\ w_mem (own o v) = w_mem v /\ w_blocks (own o v) = w_blocks v
      /\ w_brk (own o v) = w_brk v /\ w_dirs (own o v) = w_dirs v /\ w_calls (own o v) = w_calls v)
      by (intros o v; unfold own; by destruct (o =? 0)).
    destruct (Ho (e_tb e) (own (e_value e) (own (e_type e) (set_err None w)))) as (-> & -> & -> & -> & -> & -> & -> & -> & ->).
    destruct (Ho (e_value e) (own (e_type e) (set_err None w))) as (-> & -> & -> & -> & -> & -> & -> & -> & ->).
    destruct (Ho (e_type e) (set_err None w)) as (-> & -> & -> & -> & -> & -> & -> & -> & ->).
    do 9 (split; [done|]). intros x. rewrite !own_refs, !cnt_app. change (refs (set_err None w) x) with (refs w x). lia.
  - eexists _, w. split; [reflexivity|]. do 9 (split; [done|]). intros x. rewrite cnt_nil. lia.
Qed.

Lemma restore_frame e w : w_gil w = true ->
  exists w1, PyErr_Restore e w = (Ret tt, w1) /\ w_err w1 = e
    /\ w_gil w1 = true /\ w_heap w1 = w_heap w /\ w_fresh w1 = w_fresh w /\ w_mem w1 = w_mem w
    /\ w_blocks w1 = w_blocks w /\ w_brk w1 = w_brk w /\ w_dirs w1 = w_dirs w /\ w_calls w1 = w_calls w
    /\ (forall x, refs w1 x = refs w x - cnt (err_refs e) x).
Proof.
  intros Hg. unfold PyErr_Restore. rewrite (bind_eq _ _ _ _ _ (need_gil_eq w Hg)).
  pose proof (drop_released (err_refs e) w) as R. eexists. split; [reflexivity|].
  cbn [set_err w_err w_gil w_heap w_fresh w_mem w_blocks w_brk w_dirs w_calls].
  rewrite (rel_gil _ _ _ R), (rel_heap _ _ _ R), (rel_fresh _ _ _ R), (rel_mem _ _ _ R), (rel_blocks _ _ _ R),
    (rel_brk _ _ _ R), (rel_dirs _ _ _ R), (rel_calls _ _ _ R).
  do 9 (split; [done|]). exact (rel_refs _ _ _ R).
Qed.

Lemma xdecref_released o w : w_gil w = true ->
  exists w', Py_XDECREF o w = (Ret tt, w') /\ released (one o) w w'.
Proof.
  intros Hg. unfold one. destruct (o =? 0) eqn:E; zbool.
  - subst. exists w. split; [by apply xdecref_null|apply released_nil].
  - eexists. split; [by apply xdecref_eq|by apply add_ref_released].
Qed.

Lemma xdecref4_released a b c d w : w_gil w = true ->
  exists w', released (one a ++ one b ++ one c ++ one d) w w' /\ forall A (k : M A),
    (Py_XDECREF a ;;; Py_XDECREF b ;;; Py_XDECREF c ;;; Py_XDECREF d ;;; k) w = k w'.
Proof.
  intros Hg. destruct (xdecref_released a w Hg) as (w1 & E1 & R1).
  destruct (xdecref_released b w1) as (w2 & E2 & R2); [by rewrite (rel_gil _ _ _ R1)|].
  pose proof (released_trans _ _ _ _ _ R1 R2) as R12.
  destruct (xdecref_released c w2) as (w3 & E3 & R3); [by rewrite (rel_gil _ _ _ R12)|].
  pose proof (released_trans _ _ _ _ _ R12 R3) as R13.
  destruct (xdecref_released d w3) as (w4 & E4 & R4); [by rewrite (rel_gil _ _ _ R13)|].
  exists w4. split; [pose proof (released_trans _ _ _ _ _ R13 R4) as R; by rewrite <- !app_assoc in R|].
  intros A k. by rewrite (bind_eq _ _ _ _ _ E1), (bind_eq _ _ _ _ _ E2), (bind_eq _ _ _ _ _ E3), (bind_eq _ _ _ _ _ E4).
Qed.

(** The lock is given back on every way out of a block, and taken back after a release. *)
Lemma thread_block_eq {A} (m : M A) w :
  thread_block m w =
    match m (set_gil true w) with
    | (Ret a, w') => if w_gil w' then (Ret a, set_gil (w_gil w) w') else (Stuck NoGIL, w')
    | (Throw e, w') => if w_gil w' then (Throw e, set_gil (w_gil w) w') else (Stuck NoGIL, w')
    | (Stuck u, w') => (Stuck u, w')
    end.
Proof.
  unfold thread_block, PyGILState_Ensure, finally, bind.
  destruct (m (set_gil true w)) as [[a|e|u] w']; [| |done];
    unfold PyGILState_Release, need_gil, bind; destruct (w_gil w'); done.
Qed.

Lemma thread_allow_eq {A} (m : M A) w : w_gil w = true ->
  thread_allow m w =
    match m (set_gil false w) with
    | (Stuck u, w') => (Stuck u, w')
    | (r, w') => (r, set_gil true w')
    end.
Proof.
  intros Hg. unfold thread_allow, PyEval_SaveThread. rewrite bind_assoc.
  rewrite (bind_eq _ _ _ _ _ (need_gil_eq w Hg)). unfold finally, bind, modify.
  destruct (m (set_gil false w)) as [[a|e|u] w']; done.
Qed.

Lemma load_mapped w p n : mapped w p n ->
  exists bs, length bs = n /\ load p n w = (Ret bs, w)
             /\ forall i, (i < n)%nat -> bs !! i = w_mem w !! (p + Z.of_nat i).
Proof.
  intros Hm. unfold load.
  assert (H : is_Some (mapM (fun i => w_mem w !! (p + Z.of_nat i)) (seq 0 n))).
  { apply mapM_is_Some_2. apply Forall_forall. intros i Hi. apply elem_of_seq in Hi. apply Hm. lia. }
  destruct H as [bs Hb]. exists bs. rewrite Hb.
  apply mapM_Some_1 in Hb as HF. pose proof (Forall2_length _ _ _ HF) as Hl. rewrite length_seq in Hl.
  split; [done|]. split; [done|]. intros i Hi.
  destruct (lookup_lt_is_Some_2 bs i) as [b Hbi]; [lia|]. rewrite Hbi.
  eapply Forall2_lookup_lr in HF; [|by apply lookup_seq_lt|exact Hbi]. simpl in HF. done.
Qed.

Lemma store_mapped w p bs : mapped w p (length bs) ->
  store p bs w = (Ret tt, set_mem (store_bytes (w_mem w) p bs) w).
Proof.
  intros Hm. unfold store.
  destruct (mapM (fun i => w_mem w !! (p + Z.of_nat i)) (seq 0 (length bs))) eqn:E; [done|].
  exfalso. apply eq_None_not_Some in E. apply E.
  apply mapM_is_Some_2. apply Forall_forall. intros i Hi. apply elem_of_seq in Hi. apply Hm. lia.
Qed.

Lemma store_bytes_lookup m p bs a :
  store_bytes m p bs !! a =
    if decide (p <= a < p + Z.of_nat (length bs)) then bs !! Z.to_nat (a - p) else m !! a.
Proof.
  revert m p; induction bs as [|b bs IH]; intros m p; cbn [store_bytes length].
  { case_decide; [lia|done]. }
  rewrite IH. destruct (decide (a = p)) as [->|Hne].
  - rewrite decide_False, decide_True by lia. rewrite lookup_insert_eq, Z.sub_diag. done.
  - rewrite lookup_insert_ne by done.
    destruct (decide (p + 1 <= a < p + 1 + Z.of_nat (length bs))).
    + rewrite decide_True by lia. replace (Z.to_nat (a - p)) with (S (Z.to_nat (a - (p + 1)))) by lia. done.
    + rewrite decide_False by lia. done.
Qed.

End World.
