(* ===== verification/Runtime.v ===== *)
(** * The SWIG Python runtime: status codes, arguments, wrapped pointers

    Models, from ctp_wrap.cpp, the status macros, [SWIG_Python_ErrorType],
    [SWIG_Python_SetErrorMsg], [SWIG_Python_AppendOutput],
    [SWIG_Python_UnpackTuple], the [SwigPyObject] operations,
    [SWIG_Python_GetSwigThis], [SWIG_Python_AcquirePtr],
    [SWIG_Python_ConvertPtrAndOwn], [SWIG_Python_NewShadowInstance],
    [SWIG_Python_InitShadowInstance] and [SWIG_Python_NewPointerObj], for a
    module built without -builtin on Python 3.  What the type table promises to
    this layer is the class [TypeEnv]. *)

From stdpp Require Import pretty.
From S2P Require Import Prelude TypeTable CtpTypes World.

Module Runtime.
Import TypeTable World.

(** ** Status codes *)

Definition SWIG_OK : Z := 0.
Definition SWIG_ERROR : Z := -1.
Definition SWIG_IOError : Z := -2.
Definition SWIG_RuntimeError : Z := -3.
Definition SWIG_IndexError : Z := -4.
Definition SWIG_TypeError : Z := -5.
Definition SWIG_DivisionByZero : Z := -6.
Definition SWIG_OverflowError : Z := -7.
Definition SWIG_SyntaxError : Z := -8.
Definition SWIG_ValueError : Z := -9.
Definition SWIG_SystemError : Z := -10.
Definition SWIG_AttributeError : Z := -11.
Definition SWIG_MemoryError : Z := -12.
Definition SWIG_NullReferenceError : Z := -13.
Definition SWIG_ERROR_RELEASE_NOT_OWNED : Z := -200.

Definition SWIG_IsOK (r : Z) : bool := 0 <=? r.
Definition SWIG_ArgError (r : Z) : Z := if r =? SWIG_ERROR then SWIG_TypeError else r.

Definition SWIG_CASTRANKLIMIT : Z := Z.shiftl 1 8.
Definition SWIG_NEWOBJMASK : Z := Z.shiftl SWIG_CASTRANKLIMIT 1.
Definition SWIG_TMPOBJMASK : Z := Z.shiftl SWIG_NEWOBJMASK 1.
Definition SWIG_OLDOBJ : Z := SWIG_OK.
Definition SWIG_NEWOBJ : Z := Z.lor SWIG_OK SWIG_NEWOBJMASK.
Definition SWIG_AddNewMask (r : Z) : Z := if SWIG_IsOK r then Z.lor r SWIG_NEWOBJMASK else r.
Definition SWIG_DelNewMask (r : Z) : Z :=
  if SWIG_IsOK r then Z.land r (Z.lnot SWIG_NEWOBJMASK) else r.
Definition SWIG_IsNewObj (r : Z) : bool := SWIG_IsOK r && negb (Z.land r SWIG_NEWOBJMASK =? 0).
Definition SWIG_AddTmpMask (r : Z) : Z := if SWIG_IsOK r then Z.lor r SWIG_TMPOBJMASK else r.
Definition SWIG_DelTmpMask (r : Z) : Z :=
  if SWIG_IsOK r then Z.land r (Z.lnot SWIG_TMPOBJMASK) else r.
Definition SWIG_IsTmpObj (r : Z) : bool := SWIG_IsOK r && negb (Z.land r SWIG_TMPOBJMASK =? 0).

Definition SWIG_Python_ErrorType (code : Z) : ekind :=
  if code =? SWIG_MemoryError then MemoryError
  else if code =? SWIG_IOError then IOError
  else if code =? SWIG_RuntimeError then RuntimeError
  else if code =? SWIG_IndexError then IndexError
  else if code =? SWIG_TypeError then TypeError
  else if code =? SWIG_DivisionByZero then ZeroDivisionError
  else if code =? SWIG_OverflowError then OverflowError
  else if code =? SWIG_SyntaxError then SyntaxError
  else if code =? SWIG_ValueError then ValueError
  else if code =? SWIG_SystemError then SystemError
  else if code =? SWIG_AttributeError then AttributeError
  else if code =? SWIG_NullReferenceError then TypeError
  else RuntimeError.

(** Pointer flags. *)
Definition SWIG_POINTER_DISOWN : Z := 1.
Definition SWIG_CAST_NEW_MEMORY : Z := 2.
Definition SWIG_POINTER_NO_NULL : Z := 4.
Definition SWIG_POINTER_CLEAR : Z := 8.
Definition SWIG_POINTER_RELEASE : Z := Z.lor SWIG_POINTER_CLEAR SWIG_POINTER_DISOWN.
Definition SWIG_POINTER_OWN : Z := 1.
Definition SWIG_POINTER_NOSHADOW : Z := Z.shiftl SWIG_POINTER_OWN 1.
Definition SWIG_POINTER_NEW : Z := Z.lor SWIG_POINTER_NOSHADOW SWIG_POINTER_OWN.
Definition SWIG_POINTER_IMPLICIT_CONV : Z := Z.shiftl SWIG_POINTER_DISOWN 1.
Definition has_flag (flags f : Z) : bool := negb (Z.land flags f =? 0).

(** ** Errors *)

Definition SWIG_Python_SetErrorMsg (errtype : ekind) (msg : list Z) : M unit :=
  thread_block (PyErr_SetString errtype msg).

(** [SWIG_exception_fail] up to the jump: the wrapper then returns null. *)
Definition SWIG_Error (code : Z) (msg : list Z) : M unit :=
  SWIG_Python_SetErrorMsg (SWIG_Python_ErrorType code) msg.

(** ** Arguments and results *)

(** The "%d" of [PyErr_Format]. *)
Definition dec (z : Z) : string := pretty z.
Definition str_cat (l : list string) : list Z := concat (map chars l).

Definition arity_msg (name qual : string) (n : Z) (got : string) : list Z :=
  str_cat [name; " expected "; qual; dec n; " arguments, got "; got]%string.

(** The return code and the pointers stored; 0 with the error set on failure. *)
Definition SWIG_Python_UnpackTuple (args : Z) (name : string) (min max : Z) : M (Z * list Z) :=
  if args =? 0 then
    if (min =? 0) && (max =? 0) then ret (1, [])
    else PyErr_SetString TypeError
           (arity_msg name (if min =? max then "" else "at least ") min "none") ;;; ret (0, [])
  else
    v <- object_at args ;;
    match v with
    | OTuple items =>
        let l := Z.of_nat (length items) in
        if l <? min then
          PyErr_SetString TypeError
            (arity_msg name (if min =? max then "" else "at least ") min (dec l)) ;;; ret (0, [])
        else if max <? l then
          PyErr_SetString TypeError
            (arity_msg name (if min =? max then "" else "at most ") max (dec l)) ;;; ret (0, [])
        else ret (l + 1, items ++ replicate (Z.to_nat (max - l)) 0)
    | _ =>
        if (min <=? 1) && (1 <=? max) then ret (2, args :: replicate (Z.to_nat (max - 1)) 0)
        else PyErr_SetString SystemError
               (chars "UnpackTuple() argument list is not a tuple") ;;; ret (0, [])
    end.

Definition is_list (v : pyobj) : bool := match v with OList _ => true | _ => false end.

(** [PyList_SET_ITEM] steals the reference to the old result; [PyList_Append] takes its own. *)
Definition SWIG_Python_AppendOutput (result obj : Z) (is_void : bool) : M Z :=
  if result =? 0 then ret obj
  else if (result =? Py_None) && is_void then Py_DECREF result ;;; ret obj
  else
    v <- object_at result ;;
    result' <- (if is_list v then ret result
                else o <- new_object (OList [result]) ;; modify (add_ref result (-1)) ;;; ret o) ;;
    v' <- object_at result' ;;
    match v' with
    | OList items => store_object result' (OList (items ++ [obj])) ;;; Py_DECREF obj ;;; ret result'
    | _ => stuck BadObject
    end.

(** ** Wrapped pointers *)

Definition SwigPyObject_Check (o : Z) : M bool :=
  v <- object_at o ;; ret match v with OSwig _ => true | _ => false end.

Definition swig_at (o : Z) : M swigobj :=
  v <- object_at o ;; match v with OSwig s => ret s | _ => stuck BadObject end.

(** An object that owns its pointer keeps the capsule of the module alive. *)
Definition SwigPyObject_New (ptr : Z) (ty : option nat) (own : Z) : M Z :=
  sobj <- new_object (OSwig (mk_swigobj ptr ty own None)) ;;
  (if own =? SWIG_POINTER_OWN then Py_XINCREF Swig_Capsule_global else ret tt) ;;;
  ret sobj.

(** [None]: the null result, with the error set. *)
Definition SwigPyObject_append (v next : Z) : M (option Z) :=
  ok <- SwigPyObject_Check next ;;
  if ok then
    sobj <- swig_at v ;;
    n <- swig_at next ;;
    store_object next (OSwig (mk_swigobj (s_ptr n) (s_ty n) (s_own n) (s_next sobj))) ;;;
    sobj' <- swig_at v ;;
    store_object v (OSwig (mk_swigobj (s_ptr sobj') (s_ty sobj') (s_own sobj') (Some next))) ;;;
    Py_INCREF next ;;;
    r <- SWIG_Py_Void ;; ret (Some r)
  else
    PyErr_SetString TypeError (chars "Attempt to append a non SwigPyObject") ;;; ret None.

Definition SwigPyObject_next (v : Z) : M Z :=
  sobj <- swig_at v ;;
  match s_next sobj with
  | Some n => Py_INCREF n ;;; ret n
  | None => SWIG_Py_Void
  end.

Definition set_own (v own : Z) : M unit :=
  s <- swig_at v ;; store_object v (OSwig (mk_swigobj (s_ptr s) (s_ty s) own (s_next s))).

Definition SwigPyObject_disown (v : Z) : M Z := set_own v 0 ;;; SWIG_Py_Void.
Definition SwigPyObject_acquire (v : Z) : M Z := set_own v SWIG_POINTER_OWN ;;; SWIG_Py_Void.

(** [val]: the optional argument as its truth value. *)
Definition SwigPyObject_own (v : Z) (val : option bool) : M Z :=
  s <- swig_at v ;;
  obj <- PyBool_FromLong (s_own s) ;;
  match val with
  | Some true => r <- SwigPyObject_acquire v ;; Py_DECREF r
  | Some false => r <- SwigPyObject_disown v ;; Py_DECREF r
  | None => ret tt
  end ;;;
  ret obj.

(** [PyObject_GetAttr(pyobj, "this")] then [SWIG_Py_DECREF]: a borrowed
    reference, followed while it is not a [SwigPyObject]. *)
Fixpoint get_swig_this (fuel : nat) (pyobj : Z) : M (option Z) :=
  match fuel with
  | O => stuck Endless
  | S fuel' =>
      v <- object_at pyobj ;;
      match v with
      | OSwig _ => ret (Some pyobj)
      | OInst (Some obj) =>
          Py_INCREF obj ;;; Py_DECREF obj ;;; get_swig_this fuel' obj
      | _ => PyErr_SetString AttributeError (chars "this") ;;; PyErr_Clear ;;; ret None
      end
  end.

(** Enough to visit every object once. *)
Definition SWIG_Python_GetSwigThis (pyobj : Z) : M (option Z) :=
  h <- gets w_heap ;; get_swig_this (S (size h)) pyobj.

Definition SWIG_Python_AcquirePtr (obj own : Z) : M Z :=
  if own =? SWIG_POINTER_OWN then
    o <- SWIG_Python_GetSwigThis obj ;;
    match o with
    | Some sobj => s <- swig_at sobj ;; set_own sobj own ;;; ret (s_own s)
    | None => ret 0
    end
  else ret 0.

(** What the type table of the module offers: the number of types, the name of
    a type, its cast arrays, and whether a Python class is registered for it. *)
Class TypeEnv := {
  te_size : nat;
  te_name : nat -> list Z;
  te_cast : nat -> option (list (list swig_cast_info));
  te_client : nat -> bool;
}.

(** No pointer of one type is accepted as another. *)
Class ExactTypes (E : TypeEnv) : Prop :=
  exact_check : forall to ty, (to < te_size)%nat -> to <> ty -> SWIG_TypeCheck (te_name to) (te_cast ty) = Some None.

Section Types.
Context `{TypeEnv}.
(** [SWIG_Python_CallFunctor(klass, obj)] for a type with a class, when not
    already converting. *)
Context (implicit : nat -> option (Z -> M Z)).

(** The loop over the chain: the object that matches, with the pointer and the [newmemory] flag. *)
Fixpoint convert_chain (fuel : nat) (sobj : option Z) (ty : option nat) : M (option (Z * Z * Z)) :=
  match fuel, sobj with
  | _, None => ret None
  | O, Some _ => stuck Endless
  | S fuel', Some o =>
      s <- swig_at o ;;
      match ty with
      | None => ret (Some (o, s_ptr s, 0))
      | Some t =>
          if decide (s_ty s = Some t) then ret (Some (o, s_ptr s, 0))
          else
            match s_ty s with
            | None => stuck BadObject
            | Some to =>
                match SWIG_TypeCheck (te_name to) (te_cast t) with
                | None => stuck Endless
                | Some None => convert_chain fuel' (s_next s) ty
                | Some (Some (m, j)) =>
                    let tc := match te_cast t with
                              | Some l => match l !! m with Some arr => arr !! j | None => None end
                              | None => None
                              end in
                    let (p, newmemory) := SWIG_TypeCast tc (s_ptr s) in
                    ret (Some (o, p, newmemory))
                end
            end
      end
  end.

(** The result code, the pointer when one is stored, and [*own]. *)
Definition finish_convert (found : option (Z * Z * Z)) (flags : Z) : M (Z * option Z * Z) :=
  match found with
  | Some (o, p, newmemory) =>
      s <- swig_at o ;;
      let own := if newmemory =? SWIG_CAST_NEW_MEMORY then SWIG_CAST_NEW_MEMORY else 0 in
      if (Z.land flags SWIG_POINTER_RELEASE =? SWIG_POINTER_RELEASE) && (s_own s =? 0) then
        ret (SWIG_ERROR_RELEASE_NOT_OWNED, Some p, own)
      else
        store_object o (OSwig (mk_swigobj (if has_flag flags SWIG_POINTER_CLEAR then 0 else s_ptr s)
                                          (s_ty s)
                                          (if has_flag flags SWIG_POINTER_DISOWN then 0 else s_own s)
                                          (s_next s))) ;;;
        ret (SWIG_OK, Some p, Z.lor own (s_own s))
  | None => ret (SWIG_ERROR, None, 0)
  end.

(** The conversion without the implicit one. *)
Definition convert_explicit (obj : Z) (ty : option nat) (flags : Z) : M (Z * option Z * Z) :=
  sobj <- SWIG_Python_GetSwigThis obj ;;
  h <- gets w_heap ;;
  found <- convert_chain (S (size h)) sobj ty ;;
  finish_convert found flags.

(** The block [if (implicit_conv)] reached when no object of the chain matches. *)
Definition convert_implicit (obj : Z) (ty : option nat) : M (Z * option Z * Z) :=
  r <- match ty ≫= implicit with
       | None => ret (SWIG_ERROR, None)
       | Some call =>
           impconv <- call obj ;;
           err <- PyErr_Occurred ;;
           impconv' <- match err with Some _ => PyErr_Clear ;;; ret 0 | None => ret impconv end ;;
           if impconv' =? 0 then ret (SWIG_ERROR, None)
           else
             iobj <- SWIG_Python_GetSwigThis impconv' ;;
             r <- match iobj with
                  | None => ret (SWIG_ERROR, None)
                  | Some i =>
                      c <- convert_explicit i ty 0 ;;
                      let '(res, vptr, _) := c in
                      if SWIG_IsOK res then set_own i 0 ;;; ret (SWIG_AddNewMask res, vptr)
                      else ret (res, None)
                  end ;;
             Py_DECREF impconv' ;;; ret r
       end ;;
  let '(res, vptr) := r in
  if negb (SWIG_IsOK res) && (obj =? Py_None) then
    PyErr_Clear ;;; ret (SWIG_OK, Some 0, 0)
  else ret (res, vptr, 0).

Definition SWIG_Python_ConvertPtrAndOwn (obj : Z) (ty : option nat) (flags : Z)
    : M (Z * option Z * Z) :=
  let implicit_conv := has_flag flags SWIG_POINTER_IMPLICIT_CONV in
  if obj =? 0 then ret (SWIG_ERROR, None, 0)
  else if (obj =? Py_None) && negb implicit_conv then
    ret (if has_flag flags SWIG_POINTER_NO_NULL then SWIG_NullReferenceError else SWIG_OK, Some 0, 0)
  else
    sobj <- SWIG_Python_GetSwigThis obj ;;
    h <- gets w_heap ;;
    found <- convert_chain (S (size h)) sobj ty ;;
    match found with
    | Some _ => finish_convert found flags
    | None => if implicit_conv then convert_implicit obj ty else finish_convert None flags
    end.

(** [SWIG_ConvertPtr]: the code and the pointer, [argp] being null before. *)
Definition SWIG_ConvertPtr (obj : Z) (ty : nat) (flags : Z) : M (Z * Z) :=
  r <- SWIG_Python_ConvertPtrAndOwn obj (Some ty) flags ;;
  let '(res, p, _) := r in ret (res, default 0 p).

(** A fresh instance of the class whose attribute [this] is [swig_this]. *)
Definition SWIG_Python_NewShadowInstance (swig_this : Z) : M Z :=
  inst <- new_object (OInst (Some swig_this)) ;; ret inst.

Definition SWIG_Python_NewPointerObj (ptr : Z) (ty : option nat) (flags : Z) : M Z :=
  if ptr =? 0 then SWIG_Py_Void
  else
    let own := if has_flag flags SWIG_POINTER_OWN then SWIG_POINTER_OWN else 0 in
    robj <- SwigPyObject_New ptr ty own ;;
    if match ty with Some t => te_client t | None => false end
       && negb (has_flag flags SWIG_POINTER_NOSHADOW)
    then inst <- SWIG_Python_NewShadowInstance robj ;; Py_DECREF robj ;;; ret inst
    else ret robj.
End Types.

(** [swiginit(obj, this)]; [None] is the null result. *)
Definition SWIG_Python_InitShadowInstance (args : Z) : M (option Z) :=
  r <- SWIG_Python_UnpackTuple args "swiginit" 2 2 ;;
  match r with
  | (_, [obj0; obj1]) =>
      sthis <- SWIG_Python_GetSwigThis obj0 ;;
      match sthis with
      | Some s => a <- SwigPyObject_append s obj1 ;;
                  match a with
                  | Some v => Py_DECREF v
                  | None => Py_DECREF 0
                  end
      | None => store_object obj0 (OInst (Some obj1))
      end ;;;
      v <- SWIG_Py_Void ;; ret (Some v)
  | _ => ret None
  end.

(** ** Lemmas *)

Lemma set_heap_id w o v : w_heap w !! o = Some v -> set_heap (<[o := v]> (w_heap w)) w = w.
Proof. intros H. rewrite insert_id by done. by destruct w. Qed.

Lemma swig_at_eq w o s : w_gil w = true -> w_heap w !! o = Some (OSwig s) -> swig_at o w = (Ret s, w).
Proof. intros Hg Ho. unfold swig_at. by rewrite (bind_eq _ _ _ _ _ (object_at_eq w Hg o _ Ho)). Qed.

(** Unpacking a tuple of exactly [n] arguments, and of another number. *)
Lemma unpack_exact w args name items n : w_gil w = true -> args <> 0 ->
  w_heap w !! args = Some (OTuple items) -> Z.of_nat (length items) = n ->
  SWIG_Python_UnpackTuple args name n n w = (Ret (n + 1, items), w).
Proof.
  intros Hg Ha Ht Hn. unfold SWIG_Python_UnpackTuple. rewrite (proj2 (Z.eqb_neq _ _) Ha).
  rewrite (bind_eq _ _ _ _ _ (object_at_eq w Hg args _ Ht)), Hn, Z.ltb_irrefl, Z.sub_diag.
  change (Z.to_nat 0) with O. cbn [replicate]. by rewrite app_nil_r.
Qed.

Lemma unpack_wrong w args name items n : w_gil w = true -> args <> 0 ->
  w_heap w !! args = Some (OTuple items) -> Z.of_nat (length items) <> n ->
  exists msg, SWIG_Python_UnpackTuple args name n n w
              = (Ret (0, []), set_err (Some (err_of TypeError msg)) w).
Proof.
  intros Hg Ha Ht Hn. unfold SWIG_Python_UnpackTuple. rewrite (proj2 (Z.eqb_neq _ _) Ha).
  rewrite (bind_eq _ _ _ _ _ (object_at_eq w Hg args _ Ht)).
  case_if; zbool; [|case_if; zbool; [|lia]];
    rewrite (bind_eq _ _ _ _ _ (set_string_eq w Hg _ _)); eauto.
Qed.

(** The [SwigPyObject] a Python object stands for: itself, or its [this]. *)
Definition resolves (w : world) (obj o : Z) : Prop :=
  exists s, w_heap w !! o = Some (OSwig s)
            /\ (obj = o \/ (w_heap w !! obj = Some (OInst (Some o)) /\ o <> 0)).

Lemma get_swig_this_resolves w obj o : w_gil w = true -> resolves w obj o ->
  exists w', SWIG_Python_GetSwigThis obj w = (Ret (Some o), w') /\ same w w'.
Proof.
  intros Hg (s & Ho & Hobj). unfold SWIG_Python_GetSwigThis.
  rewrite (bind_eq (gets w_heap) _ w (w_heap w) w eq_refl).
  destruct Hobj as [->|[Hi Hnz]].
  - exists w. split; [|done]. cbn [get_swig_this].
    by rewrite (bind_eq _ _ _ _ _ (object_at_eq w Hg o _ Ho)).
  - destruct (size (w_heap w)) as [|n] eqn:En.
    { apply map_size_empty_inv in En. by rewrite En in Ho. }
    cbn [get_swig_this]. rewrite (bind_eq _ _ _ _ _ (object_at_eq w Hg obj _ Hi)).
    rewrite (bind_eq _ _ _ _ _ (incref_eq w Hg o)).
    set (w1 := add_ref o 1 w).
    rewrite (bind_eq _ _ _ _ _ (decref_eq w1 Hg o Hnz)).
    exists (add_ref o (-1) w1). split; [|apply (add_ref_undo w o 1)].
    by rewrite (bind_eq _ _ _ _ _ (object_at_eq (add_ref o (-1) w1) Hg o (OSwig s) Ho)).
Qed.

(** The chain of [SwigPyObject]s from an object on. *)
Inductive chain (w : world) : option Z -> list (Z * swigobj) -> Prop :=
| chain_nil : chain w None []
| chain_cons o s l : w_heap w !! o = Some (OSwig s) -> chain w (s_next s) l ->
    chain w (Some o) ((o, s) :: l).

Lemma chain_bound w o l : chain w o l -> NoDup (map fst l) -> (length l <= size (w_heap w))%nat.
Proof.
  intros Hc Hd. rewrite <- (length_map fst l), <- (size_list_to_set (C := gset Z)) by done.
  rewrite <- size_dom. apply subseteq_size. intros x.
  rewrite elem_of_list_to_set. clear Hd.
  induction Hc as [|o s l Ho Hc IH]; simpl; [by intros ?%elem_of_nil|].
  intros [->|Hx]%elem_of_cons; [|auto]. apply elem_of_dom. eauto.
Qed.

Section TypesLemmas.
Context `{!TypeEnv, !ExactTypes _}.

(** The objects of a chain carry types of the table. *)
Definition typed (p : Z * swigobj) : Prop := exists to, s_ty (snd p) = Some to /\ (to < te_size)%nat.

(** The first object of the chain that has the type. *)
Definition first_of (ty : nat) (l : list (Z * swigobj)) : option (Z * Z * Z) :=
  match list_find (fun p => s_ty (snd p) = Some ty) l with
  | Some (_, (o, s)) => Some (o, s_ptr s, 0)
  | None => None
  end.

Lemma convert_chain_first w fuel o l ty : w_gil w = true -> chain w o l ->
  Forall typed l -> (length l <= fuel)%nat ->
  convert_chain fuel o (Some ty) w = (Ret (first_of ty l), w).
Proof.
  intros Hg Hc; revert fuel; induction Hc as [|o s l Ho Hc IH]; intros fuel Ht Hf.
  { by destruct fuel. }
  inversion Ht as [|? ? (to & Hto & Hlt) Ht']; subst. simpl in Hto, Hf.
  destruct fuel as [|fuel]; [lia|]. cbn [convert_chain].
  rewrite (bind_eq _ _ _ _ _ (swig_at_eq w o s Hg Ho)).
  unfold first_of. cbn [list_find snd]. case_decide as Hd; [done|].
  rewrite Hto. rewrite exact_check by (done || congruence).
  rewrite IH by (done || lia). unfold first_of.
  destruct (list_find _ l) as [[i [o' s']]|]; done.
Qed.

Lemma finish_convert_plain w o s p : w_gil w = true -> w_heap w !! o = Some (OSwig s) ->
  finish_convert (Some (o, p, 0)) 0 w = (Ret (SWIG_OK, Some p, s_own s), w).
Proof.
  intros Hg Ho. unfold finish_convert.
  rewrite (bind_eq _ _ _ _ _ (swig_at_eq w o s Hg Ho)). cbn [has_flag].
  change (Z.land 0 SWIG_POINTER_RELEASE =? SWIG_POINTER_RELEASE) with false.
  change (0 =? SWIG_CAST_NEW_MEMORY) with false. cbn [andb].
  change (has_flag 0 SWIG_POINTER_CLEAR) with false.
  change (has_flag 0 SWIG_POINTER_DISOWN) with false. cbv iota.
  rewrite (bind_eq _ _ _ _ _ (store_object_eq w Hg o _)).
  destruct s as [p' t own n]. cbn [s_ptr s_ty s_own s_next] in *.
  by rewrite set_heap_id.
Qed.

Lemma first_of_in w o l ty r : chain w o l -> first_of ty l = Some r ->
  exists s, w_heap w !! (fst (fst r)) = Some (OSwig s) /\ r = (fst (fst r), s_ptr s, 0)
            /\ s_ty s = Some ty.
Proof.
  intros Hc. unfold first_of. destruct (list_find _ l) as [[i [o' s']]|] eqn:E; [|done].
  intros [= <-]. apply list_find_Some in E as (Hi & Ht & _). exists s'. cbn [fst].
  split; [|done]. clear Ht. revert i Hi. induction Hc as [|o s l Ho Hc IH]; intros i Hi; [done|].
  destruct i; simpl in Hi; [by simplify_eq|eauto].
Qed.

(** A conversion without flags of an object that is neither null nor None. *)
Lemma convert_ptr_chain implicit w obj o l ty : w_gil w = true -> obj <> 0 -> obj <> Py_None ->
  resolves w obj o -> chain w (Some o) l -> NoDup (map fst l) ->
  Forall typed l ->
  exists w', SWIG_ConvertPtr implicit obj ty 0 w
    = (Ret (match first_of ty l with Some (_, p, _) => (SWIG_OK, p) | None => (SWIG_ERROR, 0) end), w')
    /\ same w w'.
Proof.
  intros Hg H0 H1 Hr Hc Hd Ht. unfold SWIG_ConvertPtr, SWIG_Python_ConvertPtrAndOwn.
  rewrite (proj2 (Z.eqb_neq _ _) H0), (proj2 (Z.eqb_neq _ _) H1). cbn [andb].
  change (has_flag 0 SWIG_POINTER_IMPLICIT_CONV) with false. cbv iota.
  destruct (get_swig_this_resolves w obj o Hg Hr) as (w' & E & Hs). exists w'. split; [|done].
  rewrite bind_assoc, (bind_eq _ _ _ _ _ E), bind_assoc.
  rewrite (bind_eq (gets w_heap) _ w' (w_heap w') w' eq_refl), bind_assoc.
  assert (Hg' : w_gil w' = true) by (by rewrite (same_gil _ _ Hs)).
  assert (Hc' : chain w' (Some o) l).
  { clear -Hc Hs. induction Hc; constructor; [|done]. by rewrite (same_heap _ _ Hs). }
  assert (Hlen := chain_bound _ _ _ Hc' Hd).
  rewrite (bind_eq _ _ _ _ _ (convert_chain_first w' (S (size (w_heap w'))) _ _ ty Hg' Hc' Ht ltac:(lia))).
  destruct (first_of ty l) as [r|] eqn:Ef; [|done].
  destruct (first_of_in w' _ _ _ _ Hc' Ef) as (s & Hos & -> & _). cbn [fst].
  by rewrite (bind_eq _ _ _ _ _ (finish_convert_plain w' _ s (s_ptr s) Hg' Hos)).
Qed.

(** A conversion with the disown flag: the object of the type gives its ownership up. *)
Lemma convert_disown_run implicit w obj o s ty : w_gil w = true -> obj <> 0 -> obj <> Py_None ->
  w_heap w !! o = Some (OSwig s) -> resolves w obj o -> s_ty s = Some ty ->
  exists w', SWIG_ConvertPtr implicit obj ty SWIG_POINTER_DISOWN w = (Ret (SWIG_OK, s_ptr s), w')
    /\ same (set_heap (<[o := OSwig (mk_swigobj (s_ptr s) (s_ty s) 0 (s_next s))]> (w_heap w)) w) w'.
Proof.
  intros Hg Hz Hnone Ho Hr Ht. unfold SWIG_ConvertPtr, SWIG_Python_ConvertPtrAndOwn.
  rewrite (proj2 (Z.eqb_neq _ _) Hz), (proj2 (Z.eqb_neq _ _) Hnone). cbn [andb].
  change (has_flag SWIG_POINTER_DISOWN SWIG_POINTER_IMPLICIT_CONV) with false. cbv iota.
  destruct (get_swig_this_resolves w obj o Hg Hr) as (w1 & E & S).
  rewrite bind_assoc, (bind_eq _ _ _ _ _ E), bind_assoc.
  rewrite (bind_eq (gets w_heap) _ w1 (w_heap w1) w1 eq_refl), bind_assoc.
  assert (Hg1 : w_gil w1 = true) by by rewrite (same_gil _ _ S).
  assert (Ho1 : w_heap w1 !! o = Some (OSwig s)) by by rewrite (same_heap _ _ S).
  cbn [convert_chain]. rewrite bind_assoc, (bind_eq _ _ _ _ _ (swig_at_eq w1 o s Hg1 Ho1)).
  rewrite decide_True by done. rewrite (bind_eq (ret _) _ w1 _ w1 eq_refl).
  unfold finish_convert. rewrite bind_assoc, (bind_eq _ _ _ _ _ (swig_at_eq w1 o s Hg1 Ho1)).
  change (0 =? SWIG_CAST_NEW_MEMORY) with false.
  change (Z.land SWIG_POINTER_DISOWN SWIG_POINTER_RELEASE =? SWIG_POINTER_RELEASE) with false. cbn [andb].
  rewrite bind_assoc, (bind_eq _ _ _ _ _ (store_object_eq w1 Hg1 o _)).
  eexists. split; [reflexivity|]. pose proof (same_heap _ _ S) as Hh. destruct S. constructor; try done. cbn. by rewrite Hh.
Qed.

(** *** New pointer objects *)

Definition fresh_ok (w : world) : Prop :=
  first_free <= w_fresh w /\ forall o, w_fresh w <= o -> w_heap w !! o = None.

Lemma new_object_resolves w v o w' : w_gil w = true -> fresh_ok w -> new_object v w = (Ret o, w') ->
  o = w_fresh w /\ w_gil w' = true /\ fresh_ok w' /\ w_heap w' = <[o := v]> (w_heap w)
  /\ w_err w' = w_err w /\ w_mem w' = w_mem w /\ (w_dirs w' = w_dirs w /\ w_calls w' = w_calls w)
  /\ w_fresh w' = o + 1
  /\ (forall x, refs w' x = refs w x + if decide (o = x) then 1 else 0).
Proof.
  intros Hg [Hf1 Hf2] E. rewrite (new_object_eq w Hg) in E. injection E as <- <-.
  split; [done|]. split; [done|]. split; [|split; [done|]].
  - split; simpl; [lia|]. intros o Ho. rewrite lookup_insert_ne by lia. apply Hf2. lia.
  - do 4 (split; [done|]). intros x.
    exact (refs_add (set_heap (<[w_fresh w := v]> (w_heap w)) w) (w_fresh w) 1 x).
Qed.

(** A new object: its address is new, everything else is kept. *)
Lemma new_object_run v w : w_gil w = true -> fresh_ok w ->
  exists w1, new_object v w = (Ret (w_fresh w), w1) /\ w_fresh w <> 0 /\ w_gil w1 = true /\ fresh_ok w1
    /\ w_err w1 = w_err w /\ w_mem w1 = w_mem w /\ w_dirs w1 = w_dirs w /\ w_calls w1 = w_calls w
    /\ w_heap w1 !! w_fresh w = Some v
    /\ (forall x u, w_heap w !! x = Some u -> w_heap w1 !! x = Some u)
    /\ (forall x, refs w1 x = refs w x + cnt (one (w_fresh w)) x).
Proof.
  intros Hg Hf. pose proof (proj1 Hf) as Hff. unfold first_free in Hff.
  assert (E := new_object_eq w Hg v). eexists. split; [exact E|].
  apply new_object_resolves in E as (_ & Hg1 & Hf1 & Hh1 & He1 & Hm1 & [Hd1 Hc1] & _ & Hr1); [|done|done].
  split; [lia|]. do 6 (split; [done|]). split; [by rewrite Hh1, lookup_insert_eq|]. split.
  - intros x u Hx. rewrite Hh1, lookup_insert_ne; [done|]. intros <-. by rewrite (proj2 Hf) in Hx by lia.
  - intros x. rewrite Hr1, one_nonzero, cnt_single by lia. done.
Qed.

(** The reference to the capsule of the module an object with this ownership holds. *)
Definition capsule_ref (own x : Z) : Z :=
  if own =? SWIG_POINTER_OWN then if decide (Swig_Capsule_global = x) then 1 else 0 else 0.

Lemma swig_new_resolves w ptr ty own : w_gil w = true -> fresh_ok w ->
  exists w', SwigPyObject_New ptr ty own w = (Ret (w_fresh w), w')
    /\ w_gil w' = true /\ fresh_ok w' /\ w_heap w' = <[w_fresh w := OSwig (mk_swigobj ptr ty own None)]> (w_heap w)
    /\ w_err w' = w_err w /\ w_mem w' = w_mem w /\ (w_dirs w' = w_dirs w /\ w_calls w' = w_calls w)
    /\ (w_blocks w' = w_blocks w /\ w_brk w' = w_brk w) /\ w_fresh w' = w_fresh w + 1
    /\ (forall x, refs w' x = refs w x + (if decide (w_fresh w = x) then 1 else 0) + capsule_ref own x).
Proof.
  intros Hg Hf. unfold SwigPyObject_New.
  assert (E := new_object_eq w Hg (OSwig (mk_swigobj ptr ty own None))).
  set (w1 := set_fresh _ _) in E. rewrite (bind_eq _ _ _ _ _ E).
  apply new_object_resolves in E as (_ & Hg1 & Hf1 & Hh1 & He1 & Hm1 & [Hd1 Hc1] & Hn1 & Hr1); [|done|done].
  unfold capsule_ref. destruct (own =? SWIG_POINTER_OWN).
  - rewrite (bind_eq _ _ _ _ _ (xincref_eq w1 Hg1 Swig_Capsule_global ltac:(done))).
    eexists. split; [reflexivity|]. do 8 (split; [done|]). intros x. by rewrite refs_add, Hr1.
  - exists w1. split; [done|]. do 8 (split; [done|]). intros x. rewrite Hr1. lia.
Qed.

(** The object made for a pointer that is not null, what it resolves to, and
    the references it adds. *)
Lemma new_pointer_obj_spec w ptr ty flags : w_gil w = true -> fresh_ok w -> ptr <> 0 ->
  let own := if has_flag flags SWIG_POINTER_OWN then SWIG_POINTER_OWN else 0 in
  exists obj o w', SWIG_Python_NewPointerObj ptr (Some ty) flags w = (Ret obj, w')
    /\ w_gil w' = true /\ fresh_ok w' /\ first_free <= obj
    /\ w_heap w' !! o = Some (OSwig (mk_swigobj ptr (Some ty) own None)) /\ resolves w' obj o
    /\ w_err w' = w_err w /\ w_mem w' = w_mem w /\ (w_dirs w' = w_dirs w /\ w_calls w' = w_calls w)
    /\ (forall x, (x < w_fresh w) -> w_heap w' !! x = w_heap w !! x) /\ w_fresh w <= obj < w_fresh w'
    /\ (forall x, refs w' x = refs w x + (if decide (obj = x) then 1 else 0) + capsule_ref own x).
Proof.
  intros Hg Hf Hp own. unfold SWIG_Python_NewPointerObj.
  rewrite (proj2 (Z.eqb_neq _ _) Hp). fold own.
  destruct (swig_new_resolves w ptr (Some ty) own Hg Hf)
    as (w1 & E1 & Hg1 & Hf1 & Hh1 & He1 & Hm1 & [Hd1 Hc1] & _ & Hn1 & Hr1).
  rewrite (bind_eq _ _ _ _ _ E1).
  destruct Hf as [Hfa Hfb]. unfold first_free in *.
  destruct (te_client ty && negb (has_flag flags SWIG_POINTER_NOSHADOW)).
  - unfold SWIG_Python_NewShadowInstance.
    destruct (new_object (OInst (Some (w_fresh w))) w1) as [r w2] eqn:E2.
    assert (Er : r = Ret (w_fresh w1)) by (rewrite (new_object_eq w1 Hg1) in E2; congruence). subst r.
    rewrite bind_assoc, (bind_eq _ _ _ _ _ E2).
    apply new_object_resolves in E2 as (_ & Hg2 & Hf2 & Hh2 & He2 & Hm2 & [Hd2 Hc2] & Hn2 & Hr2); [|done|done].
    rewrite (bind_eq (ret (w_fresh w1)) _ w2 _ w2 eq_refl).
    rewrite (bind_eq _ _ _ _ _ (decref_eq w2 Hg2 (w_fresh w) ltac:(lia))).
    exists (w_fresh w1), (w_fresh w), (add_ref (w_fresh w) (-1) w2).
    assert (Hos : w_heap w2 !! w_fresh w = Some (OSwig (mk_swigobj ptr (Some ty) own None))).
    { rewrite Hh2, lookup_insert_ne by lia. rewrite Hh1. apply lookup_insert_eq. }
    split; [done|]. split; [done|]. split; [done|]. split; [lia|]. split; [done|].
    split; [exists (mk_swigobj ptr (Some ty) own None); split; [done|]; right; split; [|lia]; simpl;
            rewrite Hh2; apply lookup_insert_eq|].
    simpl. split; [congruence|]. split; [congruence|]. split; [split; congruence|].
    split; [intros x Hx; rewrite Hh2, Hh1, !lookup_insert_ne by lia; done|]. split; [lia|].
    intros x. rewrite refs_add, Hr2, Hr1. repeat case_decide; lia.
  - exists (w_fresh w), (w_fresh w), w1.
    assert (Hos : w_heap w1 !! w_fresh w = Some (OSwig (mk_swigobj ptr (Some ty) own None)))
      by (rewrite Hh1; apply lookup_insert_eq).
    split; [done|]. split; [done|]. split; [done|]. split; [lia|]. split; [done|].
    split; [eexists; split; [done|by left]|].
    do 3 (split; [done|]).
    split; [intros x Hx; rewrite Hh1, lookup_insert_ne by lia; done|]. split; [lia|done].
Qed.
End TypesLemmas.

(** ** The types of the ctp module *)

Section Instance_.
Context (addr : string -> Z) (registered : nat -> bool).

Definition ctp_types : TypeEnv := {|
  te_size := length CtpTypes.swigt;
  te_name i := match CtpTypes.swigt !! i with Some p => chars (fst p) | None => [] end;
  te_cast i := CtpTypes.type_casts addr i;
  te_client := registered;
|}.

#[local] Opaque CtpTypes.swigt.

#[export] Instance ctp_exact : ExactTypes ctp_types.
Proof.
  intros to ty Hlt Hne. cbn [te_name te_cast te_size ctp_types] in *.
  destruct (CtpTypes.swigt !! ty) as [p|] eqn:Hp;
    [|by rewrite (CtpTypes.type_casts_none addr ty Hp)].
  destruct (lookup_lt_is_Some_2 _ _ Hlt) as [q Hq]. rewrite Hq.
  rewrite (CtpTypes.type_casts_self addr ty p Hp). cbn [SWIG_TypeCheck type_check_loop].
  unfold named. cbn [lookup list_lookup ci_type tr_name].
  rewrite (proj2 (Z.eqb_neq _ _)); [done|]. rewrite strcmp_eq. intros E%(inj chars). apply Hne.
  eapply (NoDup_lookup (map fst CtpTypes.swigt)); [apply CtpTypes.swigt_nodup| |].
  - rewrite list_lookup_fmap, Hq. reflexivity.
  - rewrite list_lookup_fmap, Hp. simpl. by rewrite E.
Qed.
#[local] Transparent CtpTypes.swigt.
End Instance_.

(** *** A chain that reaches itself *)

Lemma convert_chain_cycle `{!TypeEnv, !ExactTypes _} w o s ty to fuel : w_gil w = true ->
  w_heap w !! o = Some (OSwig s) -> s_next s = Some o -> s_ty s = Some to ->
  (to < te_size)%nat -> to <> ty ->
  convert_chain fuel (Some o) (Some ty) w = (Stuck Endless, w).
Proof.
  intros Hg Ho Hn Ht Hlt Hne. induction fuel as [|fuel IH]; [done|]. cbn [convert_chain].
  rewrite (bind_eq _ _ _ _ _ (swig_at_eq w o s Hg Ho)).
  rewrite decide_False by congruence. rewrite Ht, exact_check by done. by rewrite Hn.
Qed.

Lemma append_self w o s : w_gil w = true -> w_heap w !! o = Some (OSwig s) ->
  exists w1, SwigPyObject_append o o w = (Ret (Some Py_None), w1) /\ w_gil w1 = true
    /\ w_heap w1 !! o = Some (OSwig (mk_swigobj (s_ptr s) (s_ty s) (s_own s) (Some o))).
Proof.
  intros Hg Ho. unfold SwigPyObject_append, SwigPyObject_Check.
  rewrite bind_assoc, (bind_eq _ _ _ _ _ (object_at_eq w Hg o _ Ho)).
  rewrite (bind_eq (ret true) _ w true w eq_refl).
  rewrite !(bind_eq _ _ _ _ _ (swig_at_eq w o s Hg Ho)).
  rewrite (bind_eq _ _ _ _ _ (store_object_eq w Hg o _)).
  set (w1 := set_heap _ w).
  assert (Ho1 : w_heap w1 !! o = Some (OSwig s)).
  { unfold w1. simpl. rewrite lookup_insert_eq. by destruct s. }
  rewrite (bind_eq _ _ _ _ _ (swig_at_eq w1 o s Hg Ho1)).
  rewrite (bind_eq _ _ _ _ _ (store_object_eq w1 Hg o _)).
  set (w2 := set_heap _ w1).
  rewrite (bind_eq _ _ _ _ _ (incref_eq w2 Hg o)).
  rewrite (bind_eq _ _ _ _ _ (py_void_eq (add_ref o 1 w2) Hg)).
  eexists. split; [reflexivity|]. split; [done|]. apply lookup_insert_eq.
Qed.

(** ** Properties *)

(** C34. Pointer conversion: for an object that stands for a chain of wrapped
    pointers with types of the table, [SWIG_ConvertPtr] returns the pointer of
    the first object of the chain whose type is exactly the one asked for, and
    [SWIG_ERROR] when there is none; it terminates, needs no more than one visit
    per object, and leaves objects, references, error indicator and memory as
    they were. *)
Theorem convert_ptr_exact `{!TypeEnv, !ExactTypes _} implicit w obj o l ty :
  w_gil w = true -> obj <> 0 -> obj <> Py_None ->
  resolves w obj o -> chain w (Some o) l -> NoDup (map fst l) -> Forall typed l ->
  exists w', SWIG_ConvertPtr implicit obj ty 0 w
    = (Ret (match first_of ty l with Some (_, p, _) => (SWIG_OK, p) | None => (SWIG_ERROR, 0) end), w')
    /\ same w w'.
Proof. intros. by eapply convert_ptr_chain. Qed.

Definition sample_obj : swigobj := mk_swigobj 4096 (Some 1%nat) 0 None.
Definition sample_world : world :=
  mk_world {[100 := OSwig sample_obj; 101 := OInst (Some 100); 102 := OInt 7]} ∅ 200 None true ∅ ∅ 1000 ∅ (-1) [].

Lemma convert_ptr_exact_witness :
  exists w', SWIG_ConvertPtr (H := ctp_types (fun _ => 0) (fun _ => true)) (fun _ => None) 101 1 0 sample_world
             = (Ret (SWIG_OK, 4096), w') /\ same sample_world w'.
Proof.
  assert (Ho : w_heap sample_world !! 100 = Some (OSwig sample_obj)) by reflexivity.
  destruct (convert_ptr_exact (H := ctp_types (fun _ => 0) (fun _ => true))
              (fun _ => None) sample_world 101 100 [(100, sample_obj)] 1) as (w' & E & Hs).
  - reflexivity.
  - discriminate.
  - discriminate.
  - exists sample_obj. split; [exact Ho|]. right. split; [reflexivity|discriminate].
  - apply chain_cons; [exact Ho|apply chain_nil].
  - repeat constructor. intros H. apply elem_of_nil in H. exact H.
  - repeat constructor. exists 1%nat. split; [reflexivity|]. apply Nat.ltb_lt. reflexivity.
  - exists w'. split; [exact E|exact Hs].
Defined.

(** Pointer objects round trip: the Python object made for a pointer that
    is not null, with or without a shadow class, converts back to the same
    pointer for its own type and for no other; making it adds exactly one
    reference to the object returned and, when it owns the pointer, one to the
    capsule of the module. *)
Lemma new_pointer_roundtrip `{!TypeEnv, !ExactTypes _} implicit w ptr ty flags ty' :
  w_gil w = true -> fresh_ok w -> ptr <> 0 -> (ty < te_size)%nat ->
  exists obj w1 w2, SWIG_Python_NewPointerObj ptr (Some ty) flags w = (Ret obj, w1)
    /\ (forall x, refs w1 x = refs w x + (if decide (obj = x) then 1 else 0)
                   + if has_flag flags SWIG_POINTER_OWN then capsule_ref SWIG_POINTER_OWN x else 0)
    /\ SWIG_ConvertPtr implicit obj ty' 0 w1
       = (Ret (if decide (ty = ty') then (SWIG_OK, ptr) else (SWIG_ERROR, 0)), w2)
    /\ same w1 w2.
Proof.
  intros Hg Hf Hp Ht.
  destruct (new_pointer_obj_spec w ptr ty flags Hg Hf Hp)
    as (obj & o & w1 & E & Hg1 & _ & Hfree & Ho & Hr & _ & _ & _ & _ & _ & Hrefs).
  unfold first_free in Hfree. set (s := mk_swigobj _ _ _ _) in Ho.
  destruct (convert_ptr_chain implicit w1 obj o [(o, s)] ty' Hg1) as (w2 & E2 & Hs).
  - lia.
  - unfold Py_None. lia.
  - done.
  - constructor; [done|constructor].
  - repeat constructor. by intros ?%elem_of_nil.
  - repeat constructor. by exists ty.
  - exists obj, w1, w2. split; [done|].
    split; [intros x; rewrite Hrefs; by destruct (has_flag flags SWIG_POINTER_OWN)|]. split; [|done].
    rewrite E2. unfold first_of. cbn [list_find snd s s_ty].
    repeat case_decide; congruence || done.
Qed.

(** Ownership transfer: converting with the disown flag returns the
    pointer and clears the ownership of the object it came from and nothing
    else of it; releasing an object that does not own its pointer is refused
    with [SWIG_ERROR_RELEASE_NOT_OWNED] and changes nothing. *)
Lemma release_ownership w o s p : w_gil w = true -> w_heap w !! o = Some (OSwig s) ->
  finish_convert (Some (o, p, 0)) SWIG_POINTER_DISOWN w
    = (Ret (SWIG_OK, Some p, s_own s),
       set_heap (<[o := OSwig (mk_swigobj (s_ptr s) (s_ty s) 0 (s_next s))]> (w_heap w)) w)
  /\ finish_convert (Some (o, p, 0)) SWIG_POINTER_RELEASE w
    = if s_own s =? 0 then (Ret (SWIG_ERROR_RELEASE_NOT_OWNED, Some p, 0), w)
      else (Ret (SWIG_OK, Some p, s_own s),
            set_heap (<[o := OSwig (mk_swigobj 0 (s_ty s) 0 (s_next s))]> (w_heap w)) w).
Proof.
  intros Hg Ho. unfold finish_convert. rewrite !(bind_eq _ _ _ _ _ (swig_at_eq w o s Hg Ho)).
  change (0 =? SWIG_CAST_NEW_MEMORY) with false.
  split.
  - change (Z.land SWIG_POINTER_DISOWN SWIG_POINTER_RELEASE =? SWIG_POINTER_RELEASE) with false.
    change (has_flag SWIG_POINTER_DISOWN SWIG_POINTER_CLEAR) with false.
    change (has_flag SWIG_POINTER_DISOWN SWIG_POINTER_DISOWN) with true.
    cbn [andb]. by rewrite (bind_eq _ _ _ _ _ (store_object_eq w Hg o _)).
  - change (Z.land SWIG_POINTER_RELEASE SWIG_POINTER_RELEASE =? SWIG_POINTER_RELEASE) with true.
    change (has_flag SWIG_POINTER_RELEASE SWIG_POINTER_CLEAR) with true.
    change (has_flag SWIG_POINTER_RELEASE SWIG_POINTER_DISOWN) with true.
    cbn [andb]. destruct (s_own s =? 0); [done|].
    by rewrite (bind_eq _ _ _ _ _ (store_object_eq w Hg o _)).
Qed.

(** Endless chain: appending a wrapped pointer to itself succeeds, and any
    later conversion of it to another type of the table never ends. *)
Lemma append_self_endless `{!TypeEnv, !ExactTypes _} implicit w o s to ty :
  w_gil w = true -> o <> 0 -> o <> Py_None -> w_heap w !! o = Some (OSwig s) ->
  s_ty s = Some to -> (to < te_size)%nat -> to <> ty ->
  exists w1, SwigPyObject_append o o w = (Ret (Some Py_None), w1)
    /\ (forall fuel, fst (convert_chain fuel (Some o) (Some ty) w1) = Stuck Endless)
    /\ fst (SWIG_ConvertPtr implicit o ty 0 w1) = Stuck Endless.
Proof.
  intros Hg H0 H1 Ho Ht Hlt Hne. destruct (append_self w o s Hg Ho) as (w1 & E & Hg1 & Ho1).
  exists w1. split; [done|].
  assert (Hc : forall fuel w', same w1 w' -> convert_chain fuel (Some o) (Some ty) w' = (Stuck Endless, w')).
  { intros fuel w' Hs.
    apply (convert_chain_cycle w' o (mk_swigobj (s_ptr s) (s_ty s) (s_own s) (Some o)) ty to); try done.
    - by rewrite (same_gil _ _ Hs).
    - by rewrite (same_heap _ _ Hs). }
  split; [intros fuel; by rewrite (Hc fuel w1)|].
  unfold SWIG_ConvertPtr, SWIG_Python_ConvertPtrAndOwn.
  rewrite (proj2 (Z.eqb_neq _ _) H0), (proj2 (Z.eqb_neq _ _) H1). cbn [andb].
  destruct (get_swig_this_resolves w1 o o Hg1) as (w' & E' & Hs); [eexists; split; [done|by left]|].
  rewrite bind_assoc, (bind_eq _ _ _ _ _ E'), bind_assoc.
  rewrite (bind_eq (gets w_heap) _ w' (w_heap w') w' eq_refl), bind_assoc.
  by rewrite (bind_stuck _ _ _ _ _ (Hc _ w' Hs)).
Qed.

(** Second initialisation: [swiginit] on an object that already has a
    wrapped pointer, with a second argument that is not one, sets a TypeError
    and then releases the null pointer the failed append returned. *)
Lemma swiginit_null_release w args obj0 obj1 o v : w_gil w = true -> args <> 0 ->
  w_heap w !! args = Some (OTuple [obj0; obj1]) -> resolves w obj0 o ->
  w_heap w !! obj1 = Some v -> (forall s, v <> OSwig s) ->
  exists w', SWIG_Python_InitShadowInstance args w = (Stuck BadObject, w')
    /\ w_err w' = Some (err_of TypeError (chars "Attempt to append a non SwigPyObject")).
Proof.
  intros Hg Ha Ht Hr Hv Hns. unfold SWIG_Python_InitShadowInstance.
  rewrite (bind_eq _ _ _ _ _ (unpack_exact w args "swiginit" _ 2 Hg Ha Ht eq_refl)).
  destruct (get_swig_this_resolves w obj0 o Hg Hr) as (w1 & E & Hs).
  rewrite (bind_eq _ _ _ _ _ E), !bind_assoc. unfold SwigPyObject_append, SwigPyObject_Check.
  assert (Hg1 : w_gil w1 = true) by (by rewrite (same_gil _ _ Hs)).
  assert (Hv1 : w_heap w1 !! obj1 = Some v) by (by rewrite (same_heap _ _ Hs)).
  rewrite !bind_assoc, (bind_eq _ _ _ _ _ (object_at_eq w1 Hg1 obj1 v Hv1)).
  rewrite (bind_eq (ret _) _ w1 _ w1 eq_refl).
  destruct v; try (by edestruct Hns); cbv iota;
    rewrite bind_assoc, (bind_eq _ _ _ _ _ (set_string_eq w1 Hg1 _ _));
    (exists (set_err (Some (err_of TypeError (chars "Attempt to append a non SwigPyObject"))) w1);
     split; [|done]);
    unfold Py_DECREF, need_gil, bind, ret; cbn [w_gil set_err]; by rewrite Hg1.
Qed.

End Runtime.
