(* ===== verification/ClientData.v ===== *)
(** * Class data of types

    Models, from ctp_wrap.cpp, [SwigPyClientData] with [SwigPyClientData_New] and
    [SwigPyClientData_Del], [SWIG_TypeClientData] and [SWIG_TypeNewClientData],
    which attach the data of a Python class to a type and to the types that cast
    into it without a conversion, the registration functions [*_swigregister],
    [SWIG_Python_CheckImplicit], [SWIG_Python_ExceptionType], [SWIG_PropagateClientData], and
    [SWIG_Python_DestroyModule], which gives everything back.  A type is
    identified by the address of its [swig_type_info].  The attribute lookups of
    the interpreter are a parameter, [AttrEnv], with the contract [AttrLaws]. *)

From stdpp Require Import relations.
From S2P Require Import Prelude TypeTable CtpTypes World Runtime.

Module ClientData.
Import TypeTable World Runtime.

(** ** Data *)

Record SwigPyClientData := mk_client {
  cd_klass : Z; cd_newraw : Z; cd_newargs : Z; cd_destroy : Z;
  cd_delargs : bool; cd_implicitconv : Z; cd_pytype : Z }.

(** [sizeof(SwigPyClientData)] with 8-byte pointers. *)
Definition client_size : nat := 48.

(** A [SwigPyClientData *] that is not null: the block and what it holds. *)
Abbreviation client := (Z * SwigPyClientData)%type.

(** The fields [clientdata] of the types, absent when null, and the types whose
    [owndata] is set. *)
Record registry := mk_registry { r_data : gmap Z client; r_own : gset Z }.

(** The interpreter: whether an object is a class, its attributes as new
    references (0 with an error set when there is none), and whether a builtin
    function takes one argument. *)
Class AttrEnv := {
  PyClass_Check : Z -> bool;
  PyObject_GetAttrString : Z -> list Z -> M Z;
  meth_o : Z -> bool;
}.

(** What a lookup on a class leaves: the lock, the objects and the blocks of C
    memory are as before, and native code owns one reference more, to the result. *)
Record looked_up (w : world) (r : Z) (w' : world) : Prop := {
  lk_gil : w_gil w' = true;
  lk_err : if r =? 0 then is_Some (w_err w') else w_err w' = w_err w;
  lk_refs : forall x, refs w' x = refs w x + if decide (r <> 0 /\ r = x) then 1 else 0;
  lk_heap : w_heap w ⊆ w_heap w';
  lk_blocks : w_blocks w' = w_blocks w;
  lk_brk : w_brk w' = w_brk w;
}.

Class AttrLaws (E : AttrEnv) : Prop :=
  attr_returns : forall o name w, w_gil w = true ->
    exists r w', PyObject_GetAttrString o name w = (Ret r, w') /\ looked_up w r w'.

Section New.
Context `{AttrEnv}.

(** [newraw] and [newargs]: a class is its own argument; otherwise its
    [__new__] with a tuple that steals a reference, when it has one. *)
Definition new_raw (obj : Z) : M (Z * Z) :=
  if PyClass_Check obj then Py_INCREF obj ;;; ret (0, obj)
  else
    newraw <- PyObject_GetAttrString obj (chars "__new__") ;;
    if newraw =? 0 then Py_INCREF obj ;;; ret (0, obj)
    else
      newargs <- new_object (OTuple [obj]) ;;
      Py_INCREF obj ;;; modify (add_ref obj (-1)) ;;; ret (newraw, newargs).

Definition SwigPyClientData_New (obj : Z) : M (option client) :=
  if obj =? 0 then ret None
  else
    data <- alloc (replicate client_size 0) ;;
    Py_INCREF obj ;;;
    na <- new_raw obj ;;
    destroy <- PyObject_GetAttrString obj (chars "__swig_destroy__") ;;
    error <- PyErr_Occurred ;;
    destroy <- match error with Some _ => PyErr_Clear ;;; ret 0 | None => ret destroy end ;;
    let delargs := if destroy =? 0 then false else negb (meth_o destroy) in
    ret (Some (data, mk_client obj (fst na) (snd na) destroy delargs 0 0)).
End New.

Definition SwigPyClientData_Del (c : client) : M unit :=
  Py_XDECREF (cd_klass (snd c)) ;;; Py_XDECREF (cd_newraw (snd c)) ;;;
  Py_XDECREF (cd_newargs (snd c)) ;;; Py_XDECREF (cd_destroy (snd c)) ;;; free (fst c).

(** 1 when the implicit conversion is prohibited, with the error set. *)
Definition SWIG_Python_CheckImplicit (data : option client) : M Z :=
  let fail := match data with Some c => cd_implicitconv (snd c) | None => 0 end in
  (if fail =? 0 then ret tt
   else PyErr_SetString TypeError
          (chars "Implicit conversion is prohibited for explicit constructors.")) ;;;
  ret fail.

Definition SWIG_Python_ExceptionType (data : option client) : Z :=
  let klass := match data with Some c => cd_klass (snd c) | None => 0 end in
  if klass =? 0 then exc_type RuntimeError else klass.

(** ** Attaching the data *)

Section Attach.
(** [ti->cast]: the arrays linked from a type. *)
Context (casts : Z -> list (list swig_cast_info)).

(** The loop over the entries of one array, [n] left; [rec] is the recursive
    call.  [None] is a step outside the array or to a null type. *)
Fixpoint visit_casts (rec : Z -> gmap Z client -> option (gmap Z client)) (n : nat)
    (cast : list swig_cast_info) (r : gmap Z client) : option (gmap Z client) :=
  match n, cast with
  | O, _ => Some r
  | S _, [] => None
  | S n', e :: cast' =>
      match ci_converter e, ci_type e with
      | Some _, _ => visit_casts rec n' cast' r
      | None, None => None
      | None, Some tc =>
          match r !! tr_addr tc with
          | Some _ => visit_casts rec n' cast' r
          | None => match rec (tr_addr tc) r with
                    | Some r' => visit_casts rec n' cast' r'
                    | None => None
                    end
          end
      end
  end.

(** The number of entries of the array the loop visits: up to [head->value]. *)
Definition cast_count (head : list swig_cast_info) : nat :=
  match head with e :: _ => Z.to_nat (ci_value e + 1) | [] => 1 end.

Fixpoint visit_heads (rec : Z -> gmap Z client -> option (gmap Z client))
    (heads : list (list swig_cast_info)) (r : gmap Z client) : option (gmap Z client) :=
  match heads with
  | [] => Some r
  | head :: next => match visit_casts rec (cast_count head) head r with
                    | Some r' => visit_heads rec next r'
                    | None => None
                    end
  end.

Definition put (ti : Z) (data : option client) (r : gmap Z client) : gmap Z client :=
  match data with Some d => <[ti := d]> r | None => delete ti r end.

(** [None] when the fuel does not suffice. *)
Fixpoint SWIG_TypeClientData (fuel : nat) (ti : Z) (data : option client) (r : gmap Z client)
    : option (gmap Z client) :=
  match fuel with
  | O => None
  | S fuel' => visit_heads (fun tc r => SWIG_TypeClientData fuel' tc data r) (casts ti) (put ti data r)
  end.

Definition SWIG_TypeNewClientData (fuel : nat) (ti : Z) (data : option client) (reg : registry)
    : option registry :=
  match SWIG_TypeClientData fuel ti data (r_data reg) with
  | Some r => Some (mk_registry r ({[ti]} ∪ r_own reg))
  | None => None
  end.

(** The loop over the entries of one array in [SWIG_PropagateClientData], [n] left.
    (ctp_wrap.cpp, lines 508439 to 508444.) *)
Fixpoint propagate_casts (fuel : nat) (data : client) (n : nat) (cast : list swig_cast_info) (r : gmap Z client)
    : option (gmap Z client) :=
  match n, cast with
  | O, _ => Some r
  | S _, [] => None
  | S n', e :: cast' =>
      match ci_converter e, ci_type e with
      | None, Some tc =>
          match r !! tr_addr tc with
          | Some _ => propagate_casts fuel data n' cast' r
          | None => match SWIG_TypeClientData fuel (tr_addr tc) (Some data) r with
                    | Some r' => propagate_casts fuel data n' cast' r'
                    | None => None
                    end
          end
      | _, _ => propagate_casts fuel data n' cast' r
      end
  end.

Fixpoint propagate_heads (fuel : nat) (data : client) (heads : list (list swig_cast_info)) (r : gmap Z client)
    : option (gmap Z client) :=
  match heads with
  | [] => Some r
  | head :: next => match propagate_casts fuel data (cast_count head) head r with
                    | Some r' => propagate_heads fuel data next r'
                    | None => None
                    end
  end.

Fixpoint propagate_types (fuel : nat) (types : list Z) (r : gmap Z client) : option (gmap Z client) :=
  match types with
  | [] => Some r
  | ty :: types' =>
      match r !! ty with
      | None => propagate_types fuel types' r
      | Some data => match propagate_heads fuel data (casts ty) r with
                     | Some r' => propagate_types fuel types' r'
                     | None => None
                     end
      end
  end.

(** [init_run] is the static flag; nothing calls the function.
    (ctp_wrap.cpp, lines 508426 to 508449.) *)
Definition SWIG_PropagateClientData (init_run : bool) (fuel : nat) (types : list Z) (r : gmap Z client)
    : option (bool * gmap Z client) :=
  if init_run then Some (true, r)
  else match propagate_types fuel types r with Some r' => Some (true, r') | None => None end.

(** [X_swigregister], which takes the class as its one argument. *)
Definition swigregister `{AttrEnv} (fuel : nat) (ti args : Z) (reg : registry) : M (Z * registry) :=
  u <- SWIG_Python_UnpackTuple args "swigregister" 1 1 ;;
  match u with
  | (_, [obj]) =>
      data <- SwigPyClientData_New obj ;;
      match SWIG_TypeNewClientData fuel ti data reg with
      | Some reg' => v <- SWIG_Py_Void ;; ret (v, reg')
      | None => stuck Endless
      end
  | _ => ret (0, reg)
  end.
End Attach.

(** ** The end of the module *)

(** The variables of the runtime that hold a reference, 0 when null, and the
    number of interpreters that use the module. *)
Record runtime_globals := mk_globals {
  g_this : Z; g_globals : Z; g_type_cache : Z; g_capsule : Z; g_data_module : Z; g_counter : Z }.

(** The loop over the types of the module. *)
Fixpoint destroy_types (types : list Z) (reg : registry) : M registry :=
  match types with
  | [] => ret reg
  | ty :: types' =>
      reg' <- (if decide (ty ∈ r_own reg) then
                 let reg' := mk_registry (delete ty (r_data reg)) (r_own reg) in
                 match r_data reg !! ty with
                 | Some data => SwigPyClientData_Del data ;;; ret reg'
                 | None => ret reg'
                 end
               else ret reg) ;;
      destroy_types types' reg'
  end.

Definition SWIG_Python_DestroyModule (types : list Z) (reg : registry) (g : runtime_globals)
    : M (registry * runtime_globals) :=
  let g1 := mk_globals (g_this g) (g_globals g) (g_type_cache g) (g_capsule g) (g_data_module g) (g_counter g - 1) in
  if negb (g_counter g1 =? 0) then ret (reg, g1)
  else
    reg' <- destroy_types types reg ;;
    Py_XDECREF (g_this g1) ;;; Py_XDECREF (g_globals g1) ;;; Py_XDECREF (g_type_cache g1) ;;;
    Py_XDECREF (g_data_module g1) ;;;
    ret (reg', mk_globals 0 0 0 0 0 0).

(** ** Lemmas *)

(** *** Attaching *)

Section AttachLemmas.
Context (casts : Z -> list (list swig_cast_info)).

(** [y] casts into [x] without a conversion. *)
Definition edge (x y : Z) : Prop :=
  exists head j e t, head ∈ casts x /\ (j < cast_count head)%nat /\ head !! j = Some e
    /\ ci_converter e = None /\ ci_type e = Some t /\ tr_addr t = y.

(** Every array has the entries its first one announces, each with a type. *)
Definition casts_ok : Prop :=
  forall x head, head ∈ casts x -> (cast_count head <= length head)%nat
    /\ forall j e, (j < cast_count head)%nat -> head !! j = Some e -> is_Some (ci_type e).

(** When the types that cast into one with data without a conversion all have
    data there is nothing to propagate. *)
Lemma propagate_closed fuel types r : casts_ok ->
  (forall x y, is_Some (r !! x) -> edge x y -> is_Some (r !! y)) ->
  SWIG_PropagateClientData casts false fuel types r = Some (true, r).
Proof.
  intros Hok Hcl. unfold SWIG_PropagateClientData.
  assert (Hc : forall data n cast, (n <= length cast)%nat ->
    (forall j e t, (j < n)%nat -> cast !! j = Some e -> ci_converter e = None -> ci_type e = Some t -> is_Some (r !! tr_addr t)) ->
    propagate_casts casts fuel data n cast r = Some r).
  { intros data n. induction n as [|n IH]; intros cast Hl He; [by destruct cast|]. destruct cast as [|e cast]; cbn in Hl; [lia|].
    cbn [propagate_casts]. assert (Hrest : propagate_casts casts fuel data n cast r = Some r).
    { apply IH; [lia|]. intros j e' t Hj. apply (He (S j)). lia. }
    destruct (ci_converter e) eqn:Ecv; [done|]. destruct (ci_type e) as [t|] eqn:Et; [|done].
    destruct (He O e t) as [c Ec]; [lia|done|done|done|]. by rewrite Ec. }
  assert (Hh : forall ty data heads, is_Some (r !! ty) -> (forall h, h ∈ heads -> h ∈ casts ty) ->
    propagate_heads casts fuel data heads r = Some r).
  { intros ty data heads Hty. induction heads as [|h heads IH]; intros Hin; [done|]. cbn [propagate_heads].
    assert (Hhc : h ∈ casts ty) by (apply Hin; left). destruct (Hok ty h Hhc) as [Hl _].
    rewrite (Hc data (cast_count h) h Hl).
    - apply IH. intros h' Hh'. apply Hin. by right.
    - intros j e t Hj He Hcv Ht. apply (Hcl ty); [done|]. by exists h, j, e, t. }
  induction types as [|ty types IH]; cbn [propagate_types]; [done|]. destruct (r !! ty) as [data|] eqn:Ety; [|exact IH].
  by rewrite (Hh ty data (casts ty)) by eauto.
Qed.

Context (Hok : casts_ok) (D : gset Z) (HD : forall x y, x ∈ D -> edge x y -> y ∈ D).
Context (d : client).

Definition nulls (r : gmap Z client) : nat := size (D ∖ dom r).

(** [r'] extends [r] by types in [S], which get [d] and whose neighbours all have data. *)
Definition grown (S : Z -> Prop) (r r' : gmap Z client) : Prop :=
  r ⊆ r' /\ forall x, r !! x = None -> is_Some (r' !! x) ->
    r' !! x = Some d /\ S x /\ forall y, edge x y -> is_Some (r' !! y).

Lemma grown_refl S r : grown S r r.
Proof. split; [done|]. intros x E [c Hc]. congruence. Qed.

Lemma some_mono (r r' : gmap Z client) x : r ⊆ r' -> is_Some (r !! x) -> is_Some (r' !! x).
Proof. intros Hs [c Hc]. exists c. by eapply lookup_weaken. Qed.

Lemma grown_trans S r1 r2 r3 : grown S r1 r2 -> grown S r2 r3 -> grown S r1 r3.
Proof.
  intros [S12 N12] [S23 N23]. split; [by trans r2|]. intros x Hx Hx3.
  destruct (r2 !! x) as [c|] eqn:Hx2; [|auto].
  destruct (N12 x Hx) as (Hd & HS & Hy); [eauto|]. rewrite Hx2 in Hd. injection Hd as ->.
  split; [by eapply lookup_weaken|]. split; [done|]. intros y He. eapply some_mono; eauto.
Qed.

Lemma nulls_mono r r' : r ⊆ r' -> (nulls r' <= nulls r)%nat.
Proof.
  intros Hs. unfold nulls. apply (subseteq_size (C := gset Z)). apply difference_mono; [done|by apply subseteq_dom].
Qed.

Lemma nulls_insert r x c : x ∈ D -> r !! x = None -> (nulls (<[x := c]> r) < nulls r)%nat.
Proof.
  intros Hx Hn. unfold nulls. apply (subset_size (C := gset Z)). rewrite dom_insert_L.
  apply not_elem_of_dom in Hn. split; [apply difference_mono_l, union_subseteq_r|].
  intros Hs. specialize (Hs x). rewrite !elem_of_difference, elem_of_union, elem_of_singleton in Hs. tauto.
Qed.

(** The recursive call on a type without data, in a registry with at most [k] of them. *)
Definition calls_ok (k : nat) (rec : Z -> gmap Z client -> option (gmap Z client)) : Prop :=
  forall tc r, tc ∈ D -> r !! tc = None -> (nulls r <= k)%nat ->
    exists r', rec tc r = Some r' /\ r' !! tc = Some d /\ grown (rtc edge tc) r r'.

Section Visit.
Context (k : nat) (rec : Z -> gmap Z client -> option (gmap Z client)) (Hrec : calls_ok k rec).
Context (ti : Z) (Hti : ti ∈ D).

Lemma grown_from tc r r' : edge ti tc -> grown (rtc edge tc) r r' -> grown (rtc edge ti) r r'.
Proof.
  intros He [Hs Hn]. split; [done|]. intros x Hx Hx'. destruct (Hn x Hx Hx') as (? & ? & ?).
  split; [done|]. split; [by eapply rtc_l|done].
Qed.

Lemma visit_casts_ok n cast r : (nulls r <= k)%nat -> (n <= length cast)%nat ->
  (forall j e, (j < n)%nat -> cast !! j = Some e -> is_Some (ci_type e)) ->
  (forall j e t, (j < n)%nat -> cast !! j = Some e -> ci_converter e = None -> ci_type e = Some t ->
     edge ti (tr_addr t)) ->
  exists r', visit_casts rec n cast r = Some r' /\ grown (rtc edge ti) r r'
    /\ forall j e t, (j < n)%nat -> cast !! j = Some e -> ci_converter e = None -> ci_type e = Some t ->
         is_Some (r' !! tr_addr t).
Proof.
  revert cast r; induction n as [|n IH]; intros cast r Hk Hl Hty Hed.
  { exists r. split; [by destruct cast|]. split; [apply grown_refl|]. intros; lia. }
  destruct cast as [|e cast]; simpl in Hl; [lia|]. cbn [visit_casts].
  assert (Hstep : forall r1, grown (rtc edge ti) r r1 ->
    (ci_converter e = None -> forall t, ci_type e = Some t -> is_Some (r1 !! tr_addr t)) ->
    exists r', visit_casts rec n cast r1 = Some r' /\ grown (rtc edge ti) r r'
      /\ forall j e' t, (j < S n)%nat -> (e :: cast) !! j = Some e' -> ci_converter e' = None ->
           ci_type e' = Some t -> is_Some (r' !! tr_addr t)).
  { intros r1 G1 He. destruct (IH cast r1) as (r' & E & G & Hall).
    - pose proof (nulls_mono _ _ (proj1 G1)). lia.
    - lia.
    - intros j e' Hj Hc. apply (Hty (S j) e'); [lia|done].
    - intros j e' t Hj Hc. apply (Hed (S j) e' t); [lia|done].
    - exists r'. split; [done|]. split; [by eapply grown_trans|].
      intros [|j] e' t Hj Hc Hcv Ht; simpl in Hc.
      + injection Hc as ->. eapply some_mono; [apply G|eauto].
      + apply (Hall j e' t); [lia|done|done|done]. }
  destruct (ci_converter e) eqn:Hcv; [apply Hstep; [apply grown_refl|done]|].
  destruct (Hty O e) as [t Ht]; [lia|done|]. rewrite Ht.
  assert (Het : edge ti (tr_addr t)) by (apply (Hed O e t); [lia|done|done|done]).
  destruct (r !! tr_addr t) as [c|] eqn:Hr.
  - apply Hstep; [apply grown_refl|]. intros _ t' Ht'. rewrite Ht in Ht'. injection Ht' as <-. eauto.
  - destruct (Hrec (tr_addr t) r (HD _ _ Hti Het) Hr Hk) as (r1 & E1 & Hd & G1). rewrite E1.
    apply Hstep; [by eapply grown_from|]. intros _ t' Ht'. rewrite Ht in Ht'. injection Ht' as <-. eauto.
Qed.

Lemma visit_heads_ok heads r : (nulls r <= k)%nat -> (forall head, head ∈ heads -> head ∈ casts ti) ->
  exists r', visit_heads rec heads r = Some r' /\ grown (rtc edge ti) r r'
    /\ forall head j e t, head ∈ heads -> (j < cast_count head)%nat -> head !! j = Some e ->
         ci_converter e = None -> ci_type e = Some t -> is_Some (r' !! tr_addr t).
Proof.
  revert r; induction heads as [|head heads IH]; intros r Hk Hin.
  { exists r. split; [done|]. split; [apply grown_refl|]. by intros ? ? ? ? ?%elem_of_nil. }
  assert (Hh : head ∈ casts ti) by (apply Hin, list_elem_of_here). destruct (Hok ti head Hh) as [Hl Hty].
  cbn [visit_heads]. destruct (visit_casts_ok (cast_count head) head r Hk Hl Hty) as (r1 & E1 & G1 & A1).
  { intros j e t Hj He Hcv Ht. exists head, j, e, t. by split_and!. }
  rewrite E1. destruct (IH r1) as (r' & E & G & A).
  { pose proof (nulls_mono _ _ (proj1 G1)). lia. }
  { intros h Hh'. by apply Hin, list_elem_of_further. }
  exists r'. split; [done|]. split; [by eapply grown_trans|].
  intros h j e t [->|Hh']%elem_of_cons Hj He Hcv Ht; [|by eapply A].
  eapply some_mono; [apply G|]. by eapply A1.
Qed.
End Visit.

(** The whole call, once the type has its data. *)
Lemma client_data_run fuel ti r : ti ∈ D -> (nulls (<[ti := d]> r) < fuel)%nat ->
  exists r', SWIG_TypeClientData casts fuel ti (Some d) r = Some r'
    /\ grown (rtc edge ti) (<[ti := d]> r) r' /\ (forall y, edge ti y -> is_Some (r' !! y)).
Proof.
  revert ti r; induction fuel as [|fuel IH]; intros ti r Hti Hf; [lia|]. cbn [SWIG_TypeClientData put].
  assert (Hc : calls_ok (nulls (<[ti := d]> r)) (fun tc r => SWIG_TypeClientData casts fuel tc (Some d) r)).
  { intros tc rc Htc Hn Hk. pose proof (nulls_insert rc tc d Htc Hn) as Hlt.
    destruct (IH tc rc Htc) as (r' & E & [Gs Gn] & Hy); [lia|].
    assert (Htc' : r' !! tc = Some d) by (eapply lookup_weaken; [apply lookup_insert_eq|done]).
    exists r'. split; [done|]. split; [done|]. split.
    - etrans; [|exact Gs]. by apply insert_subseteq.
    - intros x Hx Hx'. destruct (decide (x = tc)) as [->|Hne].
      + split; [done|]. split; [done|exact Hy].
      + apply Gn; [by rewrite lookup_insert_ne|done]. }
  destruct (visit_heads_ok _ _ Hc ti Hti (casts ti) (<[ti := d]> r)) as (r' & E & G & A); [done|done|].
  exists r'. split; [exact E|]. split; [exact G|]. intros y (head & j & e & t & H1 & H2 & H3 & H4 & H5 & <-).
  by eapply A.
Qed.
End AttachLemmas.

(** A type that only casts to itself is the only one that changes. *)
Lemma client_data_self casts fuel ti d r : casts_ok casts -> (forall y, edge casts ti y -> y = ti) ->
  SWIG_TypeClientData casts (S fuel) ti (Some d) r = Some (<[ti := d]> r).
Proof.
  intros Hok Hself. destruct (client_data_run casts Hok {[ti]}) with (d := d) (fuel := S fuel) (ti := ti) (r := r)
    as (r' & E & [Hs Hn] & _).
  - intros x y Hx He. apply elem_of_singleton in Hx as ->. apply elem_of_singleton. auto.
  - by apply elem_of_singleton.
  - unfold nulls. rewrite (subseteq_empty_difference_L {[ti]} (dom (<[ti := d]> r))), size_empty; [lia|].
    rewrite dom_insert_L. apply union_subseteq_l.
  - rewrite E. f_equal. symmetry. apply map_eq. intros x.
    destruct (<[ti := d]> r !! x) as [c|] eqn:Hx; [symmetry; by eapply lookup_weaken|].
    destruct (r' !! x) as [c|] eqn:Hx'; [|done]. destruct (Hn x Hx) as (_ & Hr & _); [eauto|]. exfalso.
    assert (x = ti) as ->; [|by rewrite lookup_insert_eq in Hx].
    clear -Hr Hself. revert Hself. induction Hr as [|x y z He Hr IH]; intros Hself; [done|].
    assert (y = x) as -> by auto. auto.
Qed.

(** *** References and blocks of the data *)

(** The references a class data holds. *)
Definition client_refs (c : client) : list Z :=
  one (cd_klass (snd c)) ++ one (cd_newraw (snd c)) ++ one (cd_newargs (snd c)) ++ one (cd_destroy (snd c)).

Lemma client_del_run c w n : w_gil w = true -> fst c <> 0 -> w_blocks w !! fst c = Some n ->
  exists w', SwigPyClientData_Del c w = (Ret tt, w') /\ w_gil w' = true /\ w_err w' = w_err w
    /\ (forall p, w_blocks w' !! p = if decide (p = fst c) then None else w_blocks w !! p)
    /\ (forall x, refs w' x = refs w x - cnt (client_refs c) x).
Proof.
  intros Hg Hz Hb. unfold SwigPyClientData_Del.
  destruct (xdecref4_released (cd_klass (snd c)) (cd_newraw (snd c)) (cd_newargs (snd c)) (cd_destroy (snd c)) w Hg)
    as (w4 & R & E). rewrite E. unfold free. rewrite (proj2 (Z.eqb_neq _ _) Hz), (rel_blocks _ _ _ R), Hb.
  eexists. split; [reflexivity|]. cbn [w_gil w_err w_blocks set_mem set_blocks].
  split; [by rewrite (rel_gil _ _ _ R)|]. split; [exact (rel_err _ _ _ R)|]. split; [|exact (rel_refs _ _ _ R)].
  intros p. case_decide as Hp; [subst; apply lookup_delete_eq|by rewrite lookup_delete_ne].
Qed.

Section Module_.
Context `{!AttrEnv, !AttrLaws _}.

(** The data of a class. *)
Lemma client_new_run obj w : w_gil w = true -> w_err w = None -> obj <> 0 -> PyClass_Check obj = true ->
  exists c w', SwigPyClientData_New obj w = (Ret (Some c), w') /\ fst c = w_brk w
    /\ cd_klass (snd c) = obj /\ w_gil w' = true /\ w_err w' = None /\ w_heap w ⊆ w_heap w'
    /\ w_blocks w' = <[w_brk w := client_size]> (w_blocks w) /\ w_brk w < w_brk w'
    /\ (forall x, refs w' x = refs w x + cnt (client_refs c) x).
Proof.
  intros Hg He Ho Hc. unfold SwigPyClientData_New. rewrite (proj2 (Z.eqb_neq _ _) Ho).
  set (w1 := snd (alloc (replicate client_size 0) w)).
  rewrite (bind_eq (alloc (replicate client_size 0)) _ w (w_brk w) w1 eq_refl).
  rewrite (bind_eq _ _ _ _ _ (incref_eq w1 Hg obj)). unfold new_raw. rewrite Hc, bind_assoc.
  rewrite (bind_eq _ _ _ _ _ (incref_eq (add_ref obj 1 w1) Hg obj)).
  set (w2 := add_ref obj 1 (add_ref obj 1 w1)).
  rewrite (bind_eq (ret (0, obj)) _ w2 (0, obj) w2 eq_refl).
  destruct (attr_returns obj (chars "__swig_destroy__") w2 Hg) as (r & w3 & E & L).
  assert (Hg3 : w_gil w3 = true) by apply L.
  rewrite (bind_eq _ _ _ _ _ E), (bind_eq _ _ _ _ _ (occurred_eq w3 Hg3)).
  assert (Hb3 : w_blocks w3 = <[w_brk w := client_size]> (w_blocks w)) by apply L.
  assert (Hk3 : w_brk w < w_brk w3) by (rewrite (lk_brk _ _ _ L); cbn; lia).
  assert (Hh3 : w_heap w ⊆ w_heap w3) by apply L.
  pose proof (lk_err _ _ _ L) as Le. pose proof (lk_refs _ _ _ L) as Lr.
  destruct (r =? 0) eqn:Er; zbool.
  - destruct Le as [e Le]. rewrite Le. subst r.
    rewrite bind_assoc, (bind_eq _ _ _ _ _ (clear_eq w3 Hg3)).
    rewrite (bind_eq (ret 0) _ (set_err None w3) 0 _ eq_refl).
    eexists _, _. split; [reflexivity|]. cbn [fst snd cd_klass w_gil w_err w_heap w_blocks w_brk set_err].
    do 7 (split; [done|]). intros x. unfold client_refs. cbn [snd fst cd_klass cd_newraw cd_newargs cd_destroy].
    change (refs (set_err None w3) x) with (refs w3 x). rewrite Lr, !cnt_app, !cnt_one. unfold w2.
    rewrite !refs_add. change (refs w1 x) with (refs w x). repeat case_decide; lia || tauto.
  - assert (Hn : w_err w3 = None) by (rewrite Le; exact He). rewrite Hn.
    rewrite (bind_eq (ret r) _ w3 r w3 eq_refl).
    eexists _, _. split; [reflexivity|]. cbn [fst snd cd_klass].
    do 7 (split; [done|]). intros x. unfold client_refs. cbn [snd fst cd_klass cd_newraw cd_newargs cd_destroy].
    rewrite Lr, !cnt_app, !cnt_one. unfold w2.
    rewrite !refs_add. change (refs w1 x) with (refs w x). repeat case_decide; lia || tauto.
Qed.

Context (casts : Z -> list (list swig_cast_info)) (Hok : casts_ok casts).

(** A class that can be registered for a type that casts only to itself. *)
Definition registrable (w : world) (l : Z * Z) : Prop :=
  snd l <> 0 /\ PyClass_Check (snd l) = true /\ (forall y, edge casts (fst l) y -> y = fst l)
  /\ exists v, w_heap w !! snd l = Some v /\ forall items, v <> OTuple items.

Lemma registrable_mono w w' l : w_heap w ⊆ w_heap w' -> registrable w l -> registrable w' l.
Proof.
  intros Hs (H1 & H2 & H3 & v & Hv & H4). split_and!; try done. exists v. split; [by eapply lookup_weaken|done].
Qed.

Lemma register_run fuel l reg w : w_gil w = true -> w_err w = None -> registrable w l ->
  exists c w', swigregister casts (S fuel) (fst l) (snd l) reg w
      = (Ret (Py_None, mk_registry (<[fst l := c]> (r_data reg)) ({[fst l]} ∪ r_own reg)), w')
    /\ fst c = w_brk w /\ w_gil w' = true /\ w_err w' = None /\ w_heap w ⊆ w_heap w'
    /\ w_blocks w' = <[w_brk w := client_size]> (w_blocks w) /\ w_brk w < w_brk w'
    /\ (forall x, refs w' x = refs w x + cnt (client_refs c) x + if decide (Py_None = x) then 1 else 0).
Proof.
  intros Hg He (Hk & Hc & Hself & v & Hv & Hnt). unfold swigregister.
  assert (Eu : SWIG_Python_UnpackTuple (snd l) "swigregister" 1 1 w = (Ret (2, [snd l]), w)).
  { unfold SWIG_Python_UnpackTuple. rewrite (proj2 (Z.eqb_neq _ _) Hk).
    rewrite (bind_eq _ _ _ _ _ (object_at_eq w Hg _ v Hv)). destruct v; try done. by destruct (Hnt items). }
  rewrite (bind_eq _ _ _ _ _ Eu).
  destruct (client_new_run (snd l) w Hg He Hk Hc) as (c & w1 & E & Hf & _ & Hg1 & He1 & Hh & Hb & Hbrk & Hr).
  rewrite (bind_eq _ _ _ _ _ E). unfold SWIG_TypeNewClientData. rewrite (client_data_self _ _ _ _ _ Hok Hself).
  rewrite (bind_eq _ _ _ _ _ (py_void_eq w1 Hg1)). exists c, (add_ref Py_None 1 w1).
  split; [done|]. do 6 (split; [done|]). intros x. by rewrite refs_add, Hr.
Qed.

(** The module registers its classes one after the other; the interpreter drops
    the results. *)
Fixpoint register_all (fuel : nat) (l : list (Z * Z)) (reg : registry) : M registry :=
  match l with
  | [] => ret reg
  | (ti, klass) :: l' => r <- swigregister casts fuel ti klass reg ;; Py_XDECREF (fst r) ;;; register_all fuel l' (snd r)
  end.

(** [reg'] is [reg] with the classes of [l] registered as [cs], which occupy new blocks. *)
Record registered (l : list (Z * Z)) (cs : list client) (reg reg' : registry) (w w' : world) : Prop := {
  rg_data : Forall2 (fun l c => r_data reg' !! fst l = Some c) l cs;
  rg_other : forall ti, ti ∉ map fst l -> r_data reg' !! ti = r_data reg !! ti;
  rg_own : forall ti, ti ∈ r_own reg' <-> ti ∈ map fst l \/ ti ∈ r_own reg;
  rg_gil : w_gil w' = true;
  rg_err : w_err w' = None;
  rg_new : NoDup (map fst cs) /\ Forall (fun c => w_brk w <= fst c < w_brk w') cs;
  rg_brk : w_brk w <= w_brk w';
  rg_blocks : forall p, w_blocks w' !! p = if decide (p ∈ map fst cs) then Some client_size else w_blocks w !! p;
  rg_refs : forall x, refs w' x = refs w x + cnt (concat (map client_refs cs)) x;
}.

Lemma register_all_run fuel l reg w : w_gil w = true -> w_err w = None -> NoDup (map fst l) ->
  Forall (registrable w) l ->
  exists cs reg' w', register_all (S fuel) l reg w = (Ret reg', w') /\ registered l cs reg reg' w w'.
Proof.
  revert reg w; induction l as [|[ti k] l IH]; intros reg w Hg He Hd Hl.
  { exists [], reg, w. split; [done|]. constructor; try done.
    - intros ti. split; [by right|]. by intros [?%elem_of_nil|?].
    - intros x. change (cnt _ x) with 0. lia. }
  inversion Hd as [|? ? Hni Hd']; subst. inversion Hl as [|? ? Hr Hl']; subst.
  destruct (register_run fuel (ti, k) reg w Hg He Hr) as (c & w1 & E & Hc & Hg1 & He1 & Hh & Hb & Hk & Hrefs).
  cbn [fst snd] in *. cbn [register_all]. rewrite (bind_eq _ _ _ _ _ E). cbn [fst snd].
  set (reg1 := mk_registry _ _). set (w2 := add_ref Py_None (-1) w1).
  rewrite (bind_eq _ _ _ _ _ (xdecref_eq w1 Hg1 Py_None ltac:(done))). fold w2.
  destruct (IH reg1 w2 Hg1 He1 Hd') as (cs & reg' & w' & E' & R).
  { eapply Forall_impl; [exact Hl'|]. intros. eapply registrable_mono; [|done]. exact Hh. }
  exists (c :: cs), reg', w'. split; [exact E'|]. destruct R as [R1 R2 R3 R4 R5 [R6 R7] R8 R9 R10].
  change (w_brk w2) with (w_brk w1) in *. change (w_blocks w2) with (w_blocks w1) in R9.
  assert (Hnc : fst c ∉ map fst cs).
  { intros (c' & Hc' & Hin)%list_elem_of_fmap. rewrite Forall_forall in R7. specialize (R7 c' Hin). lia. }
  constructor; try done; cbn [map fst].
  - constructor; [|done]. rewrite R2 by done. cbn. apply lookup_insert_eq.
  - intros t Ht. apply not_elem_of_cons in Ht as [Hne Hnt]. rewrite R2 by done. by apply lookup_insert_ne.
  - intros t. rewrite R3. cbn [r_own reg1]. rewrite elem_of_union, elem_of_singleton, elem_of_cons. tauto.
  - split; [by constructor|]. constructor; [lia|]. eapply Forall_impl; [exact R7|]. intros ? ?. cbn in *. lia.
  - lia.
  - intros p. rewrite R9, Hb, <- Hc. destruct (decide (p ∈ map fst cs)) as [Hin|Hni'].
    + rewrite decide_True; [done|]. by right.
    + destruct (decide (p = fst c)) as [->|Hne].
      * rewrite decide_True by left. apply lookup_insert_eq.
      * rewrite decide_False by (rewrite elem_of_cons; tauto). by apply lookup_insert_ne.
  - intros x. rewrite R10. cbn [concat map]. rewrite cnt_app. unfold w2. rewrite refs_add, Hrefs.
    case_decide; lia.
Qed.

(** The class data the loop over the types gives back. *)
Definition owned_clients (reg : registry) (types : list Z) : list client :=
  omap (fun ty => if decide (ty ∈ r_own reg) then r_data reg !! ty else None) types.

(** [w'] is [w] with the class data [cs] deleted. *)
Record given_back (cs : list client) (w w' : world) : Prop := {
  gb_gil : w_gil w' = true;
  gb_err : w_err w' = w_err w;
  gb_blocks : forall p, w_blocks w' !! p = if decide (p ∈ map fst cs) then None else w_blocks w !! p;
  gb_refs : forall x, refs w' x = refs w x - cnt (concat (map client_refs cs)) x;
}.

Lemma given_back_nil w : w_gil w = true -> given_back [] w w.
Proof. constructor; try done. intros x. change (cnt _ x) with 0. lia. Qed.

Lemma given_back_app cs1 cs2 w1 w2 w3 :
  given_back cs1 w1 w2 -> given_back cs2 w2 w3 -> given_back (cs1 ++ cs2) w1 w3.
Proof.
  intros [A1 A2 A3 A4] [B1 B2 B3 B4]. constructor; [done|congruence| |].
  - intros p. rewrite B3, A3, map_app. repeat case_decide; rewrite ?elem_of_app in *; tauto || done.
  - intros x. rewrite B4, A4, map_app, concat_app, cnt_app. lia.
Qed.

(** The data can be deleted: the blocks are live and different. *)
Definition deletable (w : world) (cs : list client) : Prop :=
  NoDup (map fst cs) /\ Forall (fun c => fst c <> 0 /\ is_Some (w_blocks w !! fst c)) cs.

Lemma deletable_app w cs1 cs2 w' : deletable w (cs1 ++ cs2) -> given_back cs1 w w' -> deletable w' cs2.
Proof.
  intros [Hd Hb] G. rewrite map_app in Hd. apply NoDup_app in Hd as (_ & Hdis & Hd2).
  apply Forall_app in Hb as [_ Hb2]. split; [done|]. rewrite Forall_forall in Hb2 |- *. intros c Hc.
  destruct (Hb2 c Hc) as [Hz Hs]. split; [done|]. rewrite (gb_blocks _ _ _ G), decide_False; [done|].
  intros Hin. apply (Hdis _ Hin). by apply list_elem_of_fmap_2.
Qed.

Lemma owned_clients_cons reg ty types :
  owned_clients reg (ty :: types) = owned_clients reg [ty] ++ owned_clients reg types.
Proof. unfold owned_clients. by rewrite <- omap_app. Qed.

(** Types whose data is not touched keep what they own. *)
Lemma owned_clients_delete reg ty types : ty ∉ types ->
  owned_clients (mk_registry (delete ty (r_data reg)) (r_own reg)) types = owned_clients reg types.
Proof.
  intros Hty. unfold owned_clients. induction types as [|t types IH]; [done|].
  apply not_elem_of_cons in Hty as [Hne Hni]. specialize (IH Hni). cbn [r_own r_data] in IH |- *.
  cbn [omap list_omap]. rewrite lookup_delete_ne by done. by rewrite IH.
Qed.

Lemma destroy_types_run types reg w : w_gil w = true -> NoDup types -> deletable w (owned_clients reg types) ->
  exists reg' w', destroy_types types reg w = (Ret reg', w') /\ given_back (owned_clients reg types) w w'
    /\ (forall ty, r_data reg' !! ty = if decide (ty ∈ types /\ ty ∈ r_own reg) then None else r_data reg !! ty).
Proof.
  revert reg w; induction types as [|ty types IH]; intros reg w Hg Hd Hb.
  { exists reg, w. split; [done|]. split; [by apply given_back_nil|].
    intros ty. rewrite decide_False; [done|]. by intros [?%elem_of_nil _]. }
  apply NoDup_cons in Hd as [Hty Hd]. rewrite owned_clients_cons in Hb |- *. cbn [destroy_types].
  set (reg1 := if decide (ty ∈ r_own reg) then mk_registry (delete ty (r_data reg)) (r_own reg) else reg).
  set (m := if decide (ty ∈ r_own reg) then _ else ret reg).
  assert (Hstep : exists w1, m w = (Ret reg1, w1) /\ given_back (owned_clients reg [ty]) w w1).
  { unfold m, reg1, owned_clients in *. cbn [omap list_omap] in *.
    case_decide as Ho; [|exists w; split; [done|by apply given_back_nil]].
    destruct (r_data reg !! ty) as [c|]; [|exists w; split; [done|by apply given_back_nil]].
    destruct Hb as [_ Hb]. cbn in Hb. inversion Hb as [|? ? [Hz [n Hn]] _]; subst.
    destruct (client_del_run c w n Hg Hz Hn) as (w1 & E1 & Hg1 & He1 & Hb1 & Hr1).
    exists w1. split; [by rewrite (bind_eq _ _ _ _ _ E1)|]. constructor; try done.
    - intros p. rewrite Hb1. cbn. repeat case_decide; rewrite ?list_elem_of_singleton in *; done.
    - intros x. rewrite Hr1. cbn. by rewrite app_nil_r. }
  destruct Hstep as (w1 & E1 & G1). rewrite (bind_eq _ _ _ _ _ E1).
  assert (Eo : owned_clients reg1 types = owned_clients reg types).
  { unfold reg1. case_decide; [by apply owned_clients_delete|done]. }
  destruct (IH reg1 w1) as (reg' & w' & E' & G2 & Hd2).
  { apply G1. } { done. } { rewrite Eo. by eapply deletable_app. }
  rewrite Eo in G2. exists reg', w'. split; [done|]. split; [by eapply given_back_app|].
  intros t. rewrite Hd2. unfold reg1. destruct (decide (t = ty)) as [->|Hne];
    destruct (decide (ty ∈ r_own reg)) as [Ho|Ho]; cbn [r_own r_data].
  - rewrite decide_False by tauto. rewrite decide_True by (split; [left|done]). apply lookup_delete_eq.
  - by rewrite !decide_False by tauto.
  - rewrite lookup_delete_ne by done. repeat case_decide; rewrite ?elem_of_cons in *; tauto || done.
  - repeat case_decide; rewrite ?elem_of_cons in *; tauto || done.
Qed.

(** What the registered classes own is what was registered. *)
Lemma owned_clients_registered types l cs reg reg' w w' : NoDup types -> NoDup (map fst l) ->
  (forall t, t ∈ map fst l -> t ∈ types) -> r_own reg = ∅ ->
  registered l cs reg reg' w w' -> owned_clients reg' types ≡ₚ cs.
Proof.
  intros Hd Hl Hin Hown R. destruct (submseteq_Permutation _ _ (NoDup_submseteq _ types Hl Hin)) as [rest Hp].
  unfold owned_clients. rewrite Hp, omap_app.
  assert (Hrest : omap (fun ty => if decide (ty ∈ r_own reg') then r_data reg' !! ty else None) rest = []).
  { assert (Hnot : forall t, t ∈ rest -> t ∉ map fst l).
    { rewrite Hp in Hd. apply NoDup_app in Hd as (_ & Hd & _). intros t Ht Hl'. by apply (Hd t). }
    clear Hp. induction rest as [|t rest IH]; [done|]. cbn [omap list_omap].
    rewrite decide_False; [apply IH; intros; apply Hnot; by right|].
    rewrite (rg_own _ _ _ _ _ _ R), Hown. intros [Ht|Ht%elem_of_empty]; [|done]. by apply (Hnot t); [left|]. }
  rewrite Hrest, app_nil_r. clear Hp Hrest Hd Hin. apply eq_subrelation; [apply _|].
  pose proof (rg_data _ _ _ _ _ _ R) as HF.
  assert (Ho : forall t, t ∈ map fst l -> t ∈ r_own reg') by (intros t Ht; apply (rg_own _ _ _ _ _ _ R); by left).
  clear R Hl. induction HF as [|[ti k] c l cs Hc HF IH]; [done|]. cbn [map omap list_omap fst] in *.
  rewrite decide_True by (apply Ho; left). cbn in Hc. rewrite Hc. f_equal. apply IH. intros t Ht. apply Ho. by right.
Qed.
End Module_.

(** *** The types of the ctp module *)

(** The cast arrays of the type at an address. *)
Definition ctp_casts (addr : string -> Z) (a : Z) : list (list swig_cast_info) :=
  match list_find (fun p => addr (fst p) = a) CtpTypes.swigt with
  | Some (i, _) => default [] (CtpTypes.type_casts addr i)
  | None => []
  end.

#[local] Opaque CtpTypes.swigt.

Lemma ctp_casts_shape addr a : ctp_casts addr a = []
  \/ exists name, ctp_casts addr a = [[mk_cast_info (Some (mk_type_ref a name)) None (Some O) 0; cast_end]].
Proof.
  unfold ctp_casts. destruct (list_find _ CtpTypes.swigt) as [[i p]|] eqn:E; [|by left]. right.
  apply list_find_Some in E as (Hi & <- & _). rewrite (CtpTypes.type_casts_self addr i p Hi). by eexists.
Qed.

Lemma ctp_casts_ok addr : casts_ok (ctp_casts addr).
Proof.
  intros a head Hin. destruct (ctp_casts_shape addr a) as [E|[name E]]; rewrite E in Hin.
  { by apply elem_of_nil in Hin. }
  apply list_elem_of_singleton in Hin as ->. split; [cbn; lia|]. intros [|j] e Hj He; cbn in *; [|lia].
  injection He as <-. by eexists.
Qed.

Lemma ctp_casts_self addr a y : edge (ctp_casts addr) a y -> y = a.
Proof.
  intros (head & j & e & t & Hin & Hj & He & _ & Ht & <-).
  destruct (ctp_casts_shape addr a) as [E|[name E]]; rewrite E in Hin; [by apply elem_of_nil in Hin|].
  apply list_elem_of_singleton in Hin as ->. destruct j as [|j]; cbn in Hj, He; [|lia].
  injection He as <-. cbn in Ht. by injection Ht as <-.
Qed.

(** ** Properties *)

(** C18. Attaching class data: for well-formed cast arrays over a finite set [D] of
    types that is closed under conversion-free casts, [SWIG_TypeClientData] ends,
    whatever cycles the casts form, within a recursion depth of the number of
    types without data plus two.  It gives the data to the type, leaves every
    type that had data alone, and gives it to further types only when they are
    reachable by conversion-free casts; and afterwards no conversion-free cast
    leads from a type it has set to a type without data. *)
Theorem client_data_spreads casts (D : gset Z) d ti r fuel :
  casts_ok casts -> (forall x y, x ∈ D -> edge casts x y -> y ∈ D) -> ti ∈ D ->
  (size (D ∖ dom r) < fuel)%nat ->
  exists r', SWIG_TypeClientData casts fuel ti (Some d) r = Some r' /\ r' !! ti = Some d
    /\ (forall x, x <> ti -> is_Some (r !! x) -> r' !! x = r !! x)
    /\ (forall x, x <> ti -> r !! x = None -> is_Some (r' !! x) -> r' !! x = Some d /\ rtc (edge casts) ti x)
    /\ (forall x y, x = ti \/ (r !! x = None /\ is_Some (r' !! x)) -> edge casts x y -> is_Some (r' !! y)).
Proof.
  intros Hok HD Hti Hf.
  assert (Hn : (nulls D (<[ti := d]> r) < fuel)%nat).
  { eapply Nat.le_lt_trans; [|exact Hf]. unfold nulls. apply (subseteq_size (C := gset Z)).
    rewrite dom_insert_L. apply difference_mono_l, union_subseteq_r. }
  destruct (client_data_run casts Hok D HD d fuel ti r Hti Hn) as (r' & E & [Hs Hg] & Hy).
  exists r'. split; [done|]. split; [eapply lookup_weaken; [apply lookup_insert_eq|done]|].
  split; [|split].
  - intros x Hne [c Hc]. rewrite Hc. eapply lookup_weaken; [|done]. by rewrite lookup_insert_ne.
  - intros x Hne Hx Hx'. destruct (Hg x) as (? & ? & _); [by rewrite lookup_insert_ne|done|done].
  - intros x y Hx He. destruct (decide (x = ti)) as [->|Hne]; [by apply Hy|].
    destruct Hx as [->|[Hx Hx']]; [by apply Hy|].
    destruct (Hg x) as (_ & _ & Hall); [by rewrite lookup_insert_ne|done|by apply Hall].
Qed.

(** Two types that cast into each other, and a third with a conversion. *)
Definition sample_entry (a : Z) (conv : bool) (v : Z) : swig_cast_info :=
  mk_cast_info (Some (mk_type_ref a [])) (if conv then Some (fun p => (p, 0)) else None) None v.
Definition sample_cycle (a : Z) : list (list swig_cast_info) :=
  if a =? 16 then [[sample_entry 16 false 2; sample_entry 32 false 0; sample_entry 48 true 0; cast_end]]
  else if a =? 32 then [[sample_entry 32 false 1; sample_entry 16 false 0; cast_end]]
  else [[sample_entry a false 0; cast_end]].

Lemma sample_cycle_ok : casts_ok sample_cycle.
Proof.
  intros a head. unfold sample_cycle. destruct (a =? 16), (a =? 32); intros Hin; apply list_elem_of_singleton in Hin as ->;
    (split; [apply Nat.leb_le; reflexivity|]); intros [|[|[|[|j]]]] e Hj He; cbn in Hj, He; try lia;
    injection He as <-; by eexists.
Qed.

Lemma sample_cycle_closed x y : x ∈ ({[16; 32]} : gset Z) -> edge sample_cycle x y -> y ∈ ({[16; 32]} : gset Z).
Proof.
  intros Hx (head & j & e & t & Hin & Hj & He & Hc & Ht & <-).
  apply elem_of_union in Hx as [Hx|Hx]; apply elem_of_singleton in Hx as ->;
    apply list_elem_of_singleton in Hin as ->; destruct j as [|[|[|j]]]; cbn in Hj, He; try lia;
    injection He as <-; cbn in Hc, Ht; try discriminate; injection Ht as <-; set_solver.
Qed.

Definition sample_client : client := (4096, mk_client 300 0 300 301 false 0 0).

Lemma client_data_spreads_witness :
  exists r', SWIG_TypeClientData sample_cycle 3 16 (Some sample_client) ∅ = Some r' /\ is_Some (r' !! 32).
Proof.
  destruct (client_data_spreads sample_cycle {[16; 32]} sample_client 16 ∅ 3) as (r' & E & _ & _ & _ & Hy).
  - exact sample_cycle_ok.
  - exact sample_cycle_closed.
  - apply elem_of_union_l, elem_of_singleton. reflexivity.
  - apply Nat.ltb_lt. reflexivity.
  - exists r'. split; [exact E|]. apply (Hy 16 32); [left; reflexivity|].
    exists [sample_entry 16 false 2; sample_entry 32 false 0; sample_entry 48 true 0; cast_end], 1%nat,
      (sample_entry 32 false 0), (mk_type_ref 32 []).
    split; [apply list_elem_of_singleton; reflexivity|]. split; [apply Nat.ltb_lt; reflexivity|].
    do 3 (split; [reflexivity|]). reflexivity.
Defined.

(** C19. The classes of the module: registering any classes for different types
    of the module and then destroying the module, when it is the last
    interpreter to use it, ends with the references and the blocks there were
    before, less the references of the runtime's own variables; no type is left
    with class data. *)
Theorem module_classes_balanced `{!AttrEnv, !AttrLaws _} addr fuel l types g w :
  w_gil w = true -> w_err w = None -> NoDup (map fst l) ->
  Forall (fun p => snd p <> 0 /\ PyClass_Check (snd p) = true
                   /\ exists v, w_heap w !! snd p = Some v /\ forall items, v <> OTuple items) l ->
  NoDup types -> (forall t, t ∈ map fst l -> t ∈ types) -> g_counter g = 1 ->
  0 < w_brk w -> (forall p, w_brk w <= p -> w_blocks w !! p = None) ->
  exists reg1 w1 reg2 w2,
    register_all (ctp_casts addr) (S fuel) l (mk_registry ∅ ∅) w = (Ret reg1, w1)
    /\ (forall t, t ∈ map fst l -> is_Some (r_data reg1 !! t))
    /\ SWIG_Python_DestroyModule types reg1 g w1 = (Ret (reg2, mk_globals 0 0 0 0 0 0), w2)
    /\ (forall t, r_data reg2 !! t = None) /\ w_gil w2 = true /\ w_err w2 = None
    /\ (forall p, w_blocks w2 !! p = w_blocks w !! p)
    /\ (forall x, refs w2 x = refs w x - cnt (one (g_this g) ++ one (g_globals g)
                                              ++ one (g_type_cache g) ++ one (g_data_module g)) x).
Proof.
  intros Hg He Hd Hl Hdt Hin Hcnt Hbrk Hfree.
  assert (Hreg : Forall (registrable (ctp_casts addr) w) l).
  { eapply Forall_impl; [exact Hl|]. intros p (Hp1 & Hp2 & Hp3). split_and!; try done. apply ctp_casts_self. }
  destruct (register_all_run (ctp_casts addr) (ctp_casts_ok addr) fuel l (mk_registry ∅ ∅) w Hg He Hd Hreg)
    as (cs & reg1 & w1 & E1 & R).
  pose proof (owned_clients_registered types l cs (mk_registry ∅ ∅) reg1 w w1 Hdt Hd Hin eq_refl R) as Hp.
  destruct (rg_new _ _ _ _ _ _ R) as [Hnd Hnew].
  assert (Hdel : deletable w1 (owned_clients reg1 types)).
  { split; [by rewrite Hp|]. rewrite Hp. rewrite Forall_forall in Hnew |- *. intros c Hci.
    specialize (Hnew c Hci). split; [lia|]. rewrite (rg_blocks _ _ _ _ _ _ R), decide_True; [by eexists|].
    by apply list_elem_of_fmap_2. }
  destruct (destroy_types_run types reg1 w1 (rg_gil _ _ _ _ _ _ R) Hdt Hdel) as (reg2 & w2 & E2 & G & Hd2).
  destruct (xdecref4_released (g_this g) (g_globals g) (g_type_cache g) (g_data_module g) w2 (gb_gil _ _ _ G))
    as (w6 & Rx & X).
  exists reg1, w1, reg2, w6. split; [exact E1|]. split.
  { intros t (p & -> & Hpl)%list_elem_of_fmap. apply list_elem_of_lookup in Hpl as [i Hi].
    destruct (Forall2_lookup_l _ _ _ _ _ (rg_data _ _ _ _ _ _ R) Hi) as (c & _ & Hc). eauto. }
  split.
  { unfold SWIG_Python_DestroyModule. cbv zeta. cbn [g_counter g_this g_globals g_type_cache g_data_module].
    rewrite Hcnt. change (negb (1 - 1 =? 0)) with false. cbv iota. rewrite (bind_eq _ _ _ _ _ E2).
    by rewrite X. }
  split.
  { intros t. rewrite Hd2. case_decide as Ht; [done|]. rewrite (rg_other _ _ _ _ _ _ R); [done|].
    intros Htl. apply Ht. split; [by apply Hin|]. apply (rg_own _ _ _ _ _ _ R). by left. }
  split; [by rewrite (rel_gil _ _ _ Rx), (gb_gil _ _ _ G)|].
  split; [by rewrite (rel_err _ _ _ Rx), (gb_err _ _ _ G), (rg_err _ _ _ _ _ _ R)|]. split.
  - intros p. rewrite (rel_blocks _ _ _ Rx), (gb_blocks _ _ _ G).
    rewrite (decide_ext _ (p ∈ map fst cs)) by by rewrite Hp.
    case_decide as Hpc; [|by rewrite (rg_blocks _ _ _ _ _ _ R), decide_False].
    apply list_elem_of_fmap in Hpc as (c & -> & Hci). rewrite Forall_forall in Hnew. symmetry. apply Hfree.
    by apply Hnew.
  - intros x. rewrite (rel_refs _ _ _ Rx), (gb_refs _ _ _ G), (rg_refs _ _ _ _ _ _ R), Hp. lia.
Qed.

#[local] Transparent CtpTypes.swigt.

(** Two classes with one destructor function. *)
#[local] Instance sample_attrs : AttrEnv := {|
  PyClass_Check o := (o =? 300) || (o =? 301);
  PyObject_GetAttrString _ _ := Py_INCREF 310 ;;; ret 310;
  meth_o _ := true;
|}.
#[local] Instance sample_attrs_laws : AttrLaws sample_attrs.
Proof.
  intros o name w Hg. eexists 310, _. cbn [PyObject_GetAttrString sample_attrs].
  rewrite (bind_eq _ _ _ _ _ (incref_eq w Hg 310)). split; [reflexivity|]. constructor; try done.
  intros x. rewrite refs_add. repeat case_decide; lia || tauto.
Qed.

Definition sample_class_world : world :=
  mk_world {[300 := OOther; 301 := OOther]} ∅ 400 None true ∅ ∅ 4096 ∅ (-1) [].
Definition sample_addr (name : string) : Z :=
  if bool_decide (name = "_p_char"%string) then 16 else if bool_decide (name = "_p_int"%string) then 32 else 48.

Lemma module_classes_balanced_witness :
  exists reg1 w1 reg2 w2,
    register_all (ctp_casts sample_addr) 1 [(16, 300); (32, 301)] (mk_registry ∅ ∅) sample_class_world = (Ret reg1, w1)
    /\ is_Some (r_data reg1 !! 32)
    /\ SWIG_Python_DestroyModule [16; 48; 32] reg1 (mk_globals 320 0 0 4 0 1) w1 = (Ret (reg2, mk_globals 0 0 0 0 0 0), w2)
    /\ refs w2 300 = 0 /\ refs w2 310 = 0 /\ refs w2 320 = -1.
Proof.
  destruct (module_classes_balanced (AttrLaws0 := sample_attrs_laws) sample_addr 0 [(16, 300); (32, 301)] [16; 48; 32]
    (mk_globals 320 0 0 4 0 1) sample_class_world) as (reg1 & w1 & reg2 & w2 & E1 & Hs & E2 & _ & _ & _ & _ & Hr).
  - reflexivity.
  - reflexivity.
  - apply (bool_decide_unpack (NoDup [16; 32])). reflexivity.
  - repeat constructor; try discriminate; eexists; (split; [reflexivity|discriminate]).
  - apply (bool_decide_unpack (NoDup [16; 48; 32])). reflexivity.
  - apply Forall_forall. apply (bool_decide_unpack (Forall (fun t => t ∈ [16; 48; 32]) [16; 32])). reflexivity.
  - reflexivity.
  - reflexivity.
  - intros p _. reflexivity.
  - exists reg1, w1, reg2, w2. split; [exact E1|]. split; [apply Hs; right; left|]. split; [exact E2|].
    rewrite !Hr. split; [reflexivity|]. split; reflexivity.
Defined.

End ClientData.
