(* ===== verification/SwigObject.v ===== *)
(** * Wrapped pointers as Python objects

    Models the methods ctp_wrap.cpp gives the type [SwigPyObject]:
    [SwigPyObject_dealloc], which runs the destructor of an owned pointer, the
    comparison, the representation and the conversions to a number.  The call
    of a builtin function object is a parameter, [call_function], and so is the
    text the platform prints for an address. *)

From stdpp Require Import pretty.
From S2P Require Import Prelude TypeNames TypeTable CtpTypes World Runtime ClientData.

Module SwigObject.
Import TypeNames TypeTable World Runtime ClientData.

Section Object.
(** The class data of a type, its name and readable names. *)
Context (clientdata : nat -> option client) (type_text : nat -> list Z * option (list Z)).
(** [PyObject_CallFunctionObjArgs(f, arg, NULL)], and the direct call of the C
    function of [f]: a new reference, or 0 with an error set. *)
Context (call_function : Z -> Z -> M Z).
Context (ptr_text : Z -> list Z).

Definition pretty_name (ty : option nat) : list Z :=
  default (chars "unknown") (SWIG_TypePrettyName (type_text <$> ty)).

(** ** Deallocation *)

Definition run_function (f arg : Z) : M Z := modify (log (EFunction f arg)) ;;; call_function f arg.

(** The call of the destructor, on a temporary object when it takes a tuple. *)
Definition destroy_call (v : Z) (sobj : swigobj) (data : SwigPyClientData) : M Z :=
  if cd_delargs data then
    tmp <- SwigPyObject_New (s_ptr sobj) (s_ty sobj) 0 ;;
    res <- run_function (cd_destroy data) tmp ;;
    Py_XDECREF tmp ;;; ret res
  else run_function (cd_destroy data) v.

Definition leak_msg (ty : option nat) : list Z :=
  chars "swig/python detected a memory leak of type '" ++ pretty_name ty ++ chars "', no destructor found." ++ [10].

(** The branch of an object that owns its pointer.  [type], [value] and
    [traceback] are together the error that was set. *)
Definition run_destructor (v : Z) (sobj : swigobj) : M unit :=
  match s_ty sobj ≫= clientdata with
  | Some (_, data) =>
      if cd_destroy data =? 0 then modify (log (EPrint (leak_msg (s_ty sobj))))
      else
        error <- gets w_err ;;
        PyErr_Fetch ;;;
        res <- destroy_call v sobj data ;;
        (if res =? 0 then PyErr_WriteUnraisable else ret tt) ;;;
        PyErr_Restore error ;;;
        Py_XDECREF res
  | None => modify (log (EPrint (leak_msg (s_ty sobj))))
  end.

(** The dictionary of the object is null outside -builtin. *)
Definition SwigPyObject_dealloc (v : Z) : M unit :=
  sobj <- swig_at v ;;
  (if s_own sobj =? SWIG_POINTER_OWN
   then run_destructor v sobj ;;; Py_XDECREF Swig_Capsule_global else ret tt) ;;;
  Py_XDECREF (default 0 (s_next sobj)) ;;;
  free_object v.

(** ** Comparison *)

Definition SwigPyObject_compare (v w : Z) : M Z :=
  i <- swig_at v ;; j <- swig_at w ;;
  ret (if s_ptr i <? s_ptr j then -1 else if s_ptr j <? s_ptr i then 1 else 0).

(** The operators of [tp_richcompare]. *)
Inductive pyop := Py_LT | Py_LE | Py_EQ | Py_NE | Py_GT | Py_GE.
#[export] Instance pyop_eq_dec : EqDecision pyop.
Proof. solve_decision. Defined.

Definition SwigPyObject_richcompare (v w : Z) (op : pyop) : M Z :=
  error <- PyErr_Occurred ;;
  match error with
  | Some _ => ret 0
  | None =>
      is_swig <- (if bool_decide (op <> Py_EQ /\ op <> Py_NE) then ret false else SwigPyObject_Check w) ;;
      if is_swig then
        c <- SwigPyObject_compare v w ;;
        PyBool_FromLong (if bool_decide ((c = 0) <-> (op = Py_EQ)) then 1 else 0)
      else Py_INCREF Py_NotImplemented ;;; ret Py_NotImplemented
  end.

(** ** Numbers and text *)

(** [PyLong_FromVoidPtr]. *)
Definition SwigPyObject_long (v : Z) : M Z := s <- swig_at v ;; new_object (OInt (s_ptr s)).

Definition repr_text (v : Z) (ty : option nat) : list Z :=
  chars "<Swig Object of type '" ++ pretty_name ty ++ chars "' at " ++ ptr_text v ++ chars ">".

Definition str_text (o : Z) : M (list Z) :=
  v <- object_at o ;; match v with OStr cps => ret cps | _ => stuck BadObject end.

(** [PyUnicode_Concat]. *)
Definition PyUnicode_Concat (a b : Z) : M Z :=
  s <- str_text a ;; t <- str_text b ;; new_object (OStr (s ++ t)).

(** The recursion along the chain. *)
Fixpoint repr_chain (fuel : nat) (v : Z) : M Z :=
  match fuel with
  | O => stuck Endless
  | S fuel' =>
      sobj <- swig_at v ;;
      repr <- new_object (OStr (repr_text v (s_ty sobj))) ;;
      match s_next sobj with
      | None => ret repr
      | Some next =>
          nrep <- repr_chain fuel' next ;;
          joined <- PyUnicode_Concat repr nrep ;;
          Py_DECREF repr ;;; Py_DECREF nrep ;;; ret joined
      end
  end.

(** Enough to visit every object once. *)
Definition SwigPyObject_repr (v : Z) : M Z := h <- gets w_heap ;; repr_chain (S (size h)) v.

(** ** Lemmas *)

(** The world in which the destructor runs. *)
Definition fetched (w w1 : world) : Prop :=
  w_err w1 = None /\ w_gil w1 = true /\ w_heap w1 = w_heap w /\ w_fresh w1 = w_fresh w /\ w_mem w1 = w_mem w
  /\ w_blocks w1 = w_blocks w /\ w_brk w1 = w_brk w /\ w_dirs w1 = w_dirs w /\ w_calls w1 = w_calls w
  /\ (forall x, refs w1 x = refs w x + cnt (err_refs (w_err w)) x).

(** Deallocation of an object with a destructor, given how its call ends. *)
Lemma dealloc_run v s blk data w : w_gil w = true -> w_heap w !! v = Some (OSwig s) ->
  s_own s = SWIG_POINTER_OWN -> s_ty s ≫= clientdata = Some (blk, data) -> cd_destroy data <> 0 ->
  exists w1, fetched w w1 /\ forall r w2, destroy_call v s data w1 = (Ret r, w2) -> w_gil w2 = true ->
    (forall x, refs w2 x = refs w1 x + cnt (one r) x) ->
    exists w', SwigPyObject_dealloc v w = (Ret tt, w') /\ w_gil w' = true /\ w_err w' = w_err w
      /\ w_heap w' = delete v (w_heap w2) /\ w_fresh w' = w_fresh w2 /\ w_mem w' = w_mem w2
      /\ w_blocks w' = w_blocks w2 /\ w_brk w' = w_brk w2 /\ w_dirs w' = w_dirs w2 /\ w_calls w' = w_calls w2
      /\ (forall x, refs w' x = refs w x - cnt (one Swig_Capsule_global) x - cnt (one (default 0 (s_next s))) x).
Proof.
  intros Hg Hv Ho Hd Hz. destruct (fetch_frame w Hg) as (f & w1 & E1 & F). exists w1. split; [exact F|].
  intros r w2 E2 Hg2 Hr2. unfold SwigPyObject_dealloc.
  rewrite (bind_eq _ _ _ _ _ (swig_at_eq w v s Hg Hv)), Ho, Z.eqb_refl.
  unfold run_destructor. rewrite Hd, (proj2 (Z.eqb_neq _ _) Hz), ?bind_assoc.
  rewrite (bind_eq (gets w_err) _ w (w_err w) w eq_refl), ?bind_assoc, (bind_eq _ _ _ _ _ E1), ?bind_assoc.
  rewrite (bind_eq _ _ _ _ _ E2), ?bind_assoc.
  set (w3 := if r =? 0 then set_err None w2 else w2).
  assert (E3 : (if r =? 0 then PyErr_WriteUnraisable else ret tt) w2 = (Ret tt, w3)).
  { unfold w3. destruct (r =? 0); [by apply clear_eq|done]. }
  assert (H3 : w_gil w3 = true /\ w_heap w3 = w_heap w2 /\ w_fresh w3 = w_fresh w2 /\ w_mem w3 = w_mem w2
    /\ w_blocks w3 = w_blocks w2 /\ w_brk w3 = w_brk w2 /\ w_dirs w3 = w_dirs w2 /\ w_calls w3 = w_calls w2
    /\ forall x, refs w3 x = refs w2 x) by (unfold w3; by destruct (r =? 0)).
  destruct H3 as (A1 & A2 & A3 & A4 & A5 & A6 & A7 & A8 & A9). rewrite (bind_eq _ _ _ _ _ E3), ?bind_assoc.
  destruct (restore_frame (w_err w) w3 A1) as (w4 & E4 & B0 & B1 & B2 & B3 & B4 & B5 & B6 & B7 & B8 & B9).
  rewrite (bind_eq _ _ _ _ _ E4), ?bind_assoc.
  destruct (xdecref_released r w4 B1) as (w5 & E5 & R5). rewrite (bind_eq _ _ _ _ _ E5).
  destruct (xdecref_released Swig_Capsule_global w5) as (w6 & E6 & R6); [by rewrite (rel_gil _ _ _ R5)|].
  rewrite (bind_eq _ _ _ _ _ E6). pose proof (released_trans _ _ _ _ _ R5 R6) as R56.
  destruct (xdecref_released (default 0 (s_next s)) w6) as (w7 & E7 & R7); [by rewrite (rel_gil _ _ _ R56)|].
  rewrite (bind_eq _ _ _ _ _ E7). pose proof (released_trans _ _ _ _ _ R56 R7) as R.
  assert (Hg7 : w_gil w7 = true) by by rewrite (rel_gil _ _ _ R).
  eexists. split; [by apply free_object_eq|]. cbn [set_heap w_gil w_err w_heap w_fresh w_mem w_blocks w_brk w_dirs w_calls].
  split; [done|]. split; [by rewrite (rel_err _ _ _ R)|]. split; [by rewrite (rel_heap _ _ _ R), B2, A2|].
  split; [by rewrite (rel_fresh _ _ _ R), B3, A3|]. split; [by rewrite (rel_mem _ _ _ R), B4, A4|].
  split; [by rewrite (rel_blocks _ _ _ R), B5, A5|]. split; [by rewrite (rel_brk _ _ _ R), B6, A6|].
  split; [by rewrite (rel_dirs _ _ _ R), B7, A7|]. split; [by rewrite (rel_calls _ _ _ R), B8, A8|].
  intros x. destruct F as (_ & _ & _ & _ & _ & _ & _ & _ & _ & F).
  change (refs (set_heap _ w7) x) with (refs w7 x). rewrite (rel_refs _ _ _ R), B9, A9, Hr2, F, !cnt_app. lia.
Qed.

(** Deallocation of an object that does not own its pointer. *)
Lemma dealloc_borrowed v s w : w_gil w = true -> w_heap w !! v = Some (OSwig s) -> s_own s <> SWIG_POINTER_OWN ->
  exists w', SwigPyObject_dealloc v w = (Ret tt, w') /\ released (one (default 0 (s_next s))) (set_heap (delete v (w_heap w)) w) w'.
Proof.
  intros Hg Hv Ho. unfold SwigPyObject_dealloc. rewrite (bind_eq _ _ _ _ _ (swig_at_eq w v s Hg Hv)).
  rewrite (proj2 (Z.eqb_neq _ _) Ho), (bind_eq (ret tt) _ w tt w eq_refl).
  destruct (xdecref_released (default 0 (s_next s)) w Hg) as (w1 & E1 & R1). rewrite (bind_eq _ _ _ _ _ E1).
  assert (Hg1 : w_gil w1 = true) by by rewrite (rel_gil _ _ _ R1).
  eexists. split; [by apply free_object_eq|]. destruct R1. constructor; try done. cbn. by f_equal.
Qed.

(** The contract of a builtin function called with the lock and with no error
    set: it returns with the lock and native code owns one reference more, to
    the result.  The calls it makes are its own. *)
Record returns (w : world) (r : Z) (w' : world) : Prop := {
  rt_gil : w_gil w' = true;
  rt_fresh : fresh_ok w';
  rt_refs : forall x, refs w' x = refs w x + cnt (one r) x;
  rt_calls : w_calls w' = w_calls w;
}.
Definition returning (f : Z) : Prop := forall a w, w_gil w = true -> w_err w = None -> fresh_ok w ->
  exists r w', call_function f a w = (Ret r, w') /\ returns w r w'.

(** The destructor call in both forms. *)
Lemma destroy_call_run v s data w : w_gil w = true -> w_err w = None -> fresh_ok w ->
  returning (cd_destroy data) ->
  exists r w', destroy_call v s data w = (Ret r, w') /\ w_gil w' = true
    /\ w_calls w' = w_calls w ++ [EFunction (cd_destroy data) (if cd_delargs data then w_fresh w else v)]
    /\ (forall x, refs w' x = refs w x + cnt (one r) x).
Proof.
  intros Hg He Hf Hret. unfold destroy_call, run_function. destruct (cd_delargs data).
  - destruct (swig_new_resolves w (s_ptr s) (s_ty s) 0 Hg Hf)
      as (w1 & E1 & Hg1 & Hf1 & _ & He1 & _ & [_ Hc1] & _ & _ & Hr1).
    rewrite (bind_eq _ _ _ _ _ E1), bind_assoc.
    rewrite (bind_eq (modify _) _ w1 tt (log (EFunction (cd_destroy data) (w_fresh w)) w1) eq_refl).
    destruct (Hret (w_fresh w) (log (EFunction (cd_destroy data) (w_fresh w)) w1)) as (r & w2 & E2 & R); try done.
    { by rewrite <- He1 in He. }
    rewrite (bind_eq _ _ _ _ _ E2).
    destruct (xdecref_released (w_fresh w) w2 (rt_gil _ _ _ R)) as (w3 & E3 & R3). rewrite (bind_eq _ _ _ _ _ E3).
    exists r, w3. split; [done|]. split; [by rewrite (rel_gil _ _ _ R3), (rt_gil _ _ _ R)|].
    split; [by rewrite (rel_calls _ _ _ R3), (rt_calls _ _ _ R); cbn; rewrite Hc1|].
    intros x. rewrite (rel_refs _ _ _ R3), (rt_refs _ _ _ R).
    change (refs (log _ w1) x) with (refs w1 x). rewrite Hr1. destruct Hf as [Hff _]. unfold first_free in Hff.
    rewrite (one_nonzero (w_fresh w)), cnt_single by lia. change (capsule_ref 0 x) with 0. lia.
  - rewrite (bind_eq (modify _) _ w tt (log (EFunction (cd_destroy data) v) w) eq_refl).
    destruct (Hret v (log (EFunction (cd_destroy data) v) w)) as (r & w2 & E2 & R); try done.
    exists r, w2. split; [done|]. split; [apply R|]. split; [exact (rt_calls _ _ _ R)|exact (rt_refs _ _ _ R)].
Qed.

(** The calls a deallocation makes: the destructor once, or the report of a leak. *)
Definition dealloc_calls (v tmp : Z) (s : swigobj) : list event :=
  if s_own s =? SWIG_POINTER_OWN then
    match s_ty s ≫= clientdata with
    | Some (_, data) =>
        if cd_destroy data =? 0 then [EPrint (leak_msg (s_ty s))]
        else [EFunction (cd_destroy data) (if cd_delargs data then tmp else v)]
    | None => [EPrint (leak_msg (s_ty s))]
    end
  else [].

Lemma dealloc_leak v s w : w_gil w = true -> w_heap w !! v = Some (OSwig s) -> s_own s = SWIG_POINTER_OWN ->
  match s_ty s ≫= clientdata with Some (_, data) => cd_destroy data = 0 | None => True end ->
  exists w', SwigPyObject_dealloc v w = (Ret tt, w')
    /\ released (one Swig_Capsule_global ++ one (default 0 (s_next s)))
         (set_heap (delete v (w_heap w)) (log (EPrint (leak_msg (s_ty s))) w)) w'.
Proof.
  intros Hg Hv Ho Hd. unfold SwigPyObject_dealloc.
  rewrite (bind_eq _ _ _ _ _ (swig_at_eq w v s Hg Hv)), Ho, Z.eqb_refl.
  set (w1 := log (EPrint (leak_msg (s_ty s))) w).
  assert (E1 : run_destructor v s w = (Ret tt, w1)).
  { unfold run_destructor. revert Hd. destruct (s_ty s ≫= clientdata) as [[blk data]|]; [|done]. intros Hz. by rewrite Hz. }
  rewrite bind_assoc, (bind_eq _ _ _ _ _ E1).
  destruct (xdecref_released Swig_Capsule_global w1 Hg) as (w2 & E2 & R2). rewrite (bind_eq _ _ _ _ _ E2).
  destruct (xdecref_released (default 0 (s_next s)) w2) as (w3 & E3 & R3); [by rewrite (rel_gil _ _ _ R2)|].
  rewrite (bind_eq _ _ _ _ _ E3). pose proof (released_trans _ _ _ _ _ R2 R3) as R.
  assert (Hg3 : w_gil w3 = true) by by rewrite (rel_gil _ _ _ R).
  eexists. split; [by apply free_object_eq|]. destruct R. constructor; try done. cbn. by f_equal.
Qed.

(** Every deallocation ends, whatever the destructor does with the error indicator. *)
Lemma dealloc_total v s w : w_gil w = true -> fresh_ok w -> w_heap w !! v = Some (OSwig s) ->
  (forall blk data, s_ty s ≫= clientdata = Some (blk, data) -> cd_destroy data <> 0 -> returning (cd_destroy data)) ->
  exists w', SwigPyObject_dealloc v w = (Ret tt, w') /\ w_gil w' = true /\ w_err w' = w_err w
    /\ w_heap w' !! v = None /\ w_calls w' = w_calls w ++ dealloc_calls v (w_fresh w) s
    /\ (forall x, refs w' x = refs w x - capsule_ref (s_own s) x - cnt (one (default 0 (s_next s))) x).
Proof.
  intros Hg Hf Hv Hret. unfold dealloc_calls, capsule_ref. destruct (s_own s =? SWIG_POINTER_OWN) eqn:Eo; zbool.
  2:{ destruct (dealloc_borrowed v s w Hg Hv Eo) as (w' & E & R). exists w'. split; [done|].
      split; [by rewrite (rel_gil _ _ _ R)|]. split; [by rewrite (rel_err _ _ _ R)|].
      split; [rewrite (rel_heap _ _ _ R); apply lookup_delete_eq|].
      split; [by rewrite (rel_calls _ _ _ R), app_nil_r|].
      intros x. rewrite (rel_refs _ _ _ R). change (refs (set_heap _ w) x) with (refs w x). lia. }
  assert (Hleak : match s_ty s ≫= clientdata with Some (_, data) => cd_destroy data = 0 | None => True end ->
    exists w', SwigPyObject_dealloc v w = (Ret tt, w') /\ w_gil w' = true /\ w_err w' = w_err w
      /\ w_heap w' !! v = None /\ w_calls w' = w_calls w ++ [EPrint (leak_msg (s_ty s))]
      /\ (forall x, refs w' x = refs w x - (if decide (Swig_Capsule_global = x) then 1 else 0)
                                - cnt (one (default 0 (s_next s))) x)).
  { intros Hd. destruct (dealloc_leak v s w Hg Hv Eo Hd) as (w' & E & R). exists w'. split; [done|].
    split; [by rewrite (rel_gil _ _ _ R)|]. split; [by rewrite (rel_err _ _ _ R)|].
    split; [rewrite (rel_heap _ _ _ R); apply lookup_delete_eq|]. split; [by rewrite (rel_calls _ _ _ R)|].
    intros x. rewrite (rel_refs _ _ _ R), cnt_app. change (refs (set_heap _ _) x) with (refs w x).
    rewrite (one_nonzero Swig_Capsule_global), cnt_single by done. lia. }
  destruct (s_ty s ≫= clientdata) as [[blk data]|] eqn:Ed; [|by apply Hleak].
  destruct (cd_destroy data =? 0) eqn:Ez; zbool; [by apply Hleak|].
  destruct (dealloc_run v s blk data w Hg Hv Eo Ed Ez) as (w1 & F & Hrun).
  destruct F as (F1 & F2 & F3 & F4 & F5 & F6 & F7 & F8 & F9 & F10).
  assert (Hf1 : fresh_ok w1) by (unfold fresh_ok; by rewrite F3, F4).
  destruct (destroy_call_run v s data w1 F2 F1 Hf1 (Hret blk data eq_refl Ez)) as (r & w2 & E2 & Hg2 & Hc2 & Hr2).
  destruct (Hrun r w2 E2 Hg2 Hr2) as (w' & E & G1 & G2 & G3 & _ & _ & _ & _ & _ & G4 & G5).
  exists w'. split; [done|]. do 2 (split; [done|]). split; [rewrite G3; apply lookup_delete_eq|].
  split; [by rewrite G4, Hc2, F9, F4|]. intros x. rewrite G5, (one_nonzero Swig_Capsule_global), cnt_single by done. lia.
Qed.

(** *** The text of a chain *)

Lemma str_text_eq o cps w : w_gil w = true -> w_heap w !! o = Some (OStr cps) -> str_text o w = (Ret cps, w).
Proof. intros Hg Ho. unfold str_text. by rewrite (bind_eq _ _ _ _ _ (object_at_eq w Hg o _ Ho)). Qed.

Definition chain_text (l : list (Z * swigobj)) : list Z :=
  concat (map (fun p => repr_text (fst p) (s_ty (snd p))) l).

Lemma chain_weaken w w' o l : (forall x u, w_heap w !! x = Some u -> w_heap w' !! x = Some u) ->
  chain w o l -> chain w' o l.
Proof. intros Hh. induction 1; constructor; auto. Qed.

Lemma repr_chain_run l v w fuel : w_gil w = true -> fresh_ok w -> chain w (Some v) l -> (length l <= fuel)%nat ->
  exists o w', repr_chain fuel v w = (Ret o, w') /\ o <> 0 /\ w_heap w' !! o = Some (OStr (chain_text l))
    /\ w_gil w' = true /\ fresh_ok w' /\ w_err w' = w_err w /\ w_mem w' = w_mem w /\ w_calls w' = w_calls w
    /\ (forall x u, w_heap w !! x = Some u -> w_heap w' !! x = Some u)
    /\ (forall x, refs w' x = refs w x + cnt (one o) x).
Proof.
  revert v w fuel; induction l as [|[v' s] l IH]; intros v w fuel Hg Hf Hc Hl; inversion Hc as [|? ? ? Hv Hc']; subst.
  destruct fuel as [|fuel]; cbn [length] in Hl; [lia|]. cbn [repr_chain].
  rewrite (bind_eq _ _ _ _ _ (swig_at_eq w v' s Hg Hv)).
  destruct (new_object_run (OStr (repr_text v' (s_ty s))) w Hg Hf)
    as (w1 & E1 & Hz1 & Hg1 & Hf1 & He1 & Hm1 & _ & Hc1 & Ho1 & Hh1 & Hr1).
  rewrite (bind_eq _ _ _ _ _ E1). destruct (s_next s) as [n|] eqn:Hn.
  2:{ inversion Hc'; subst. exists (w_fresh w), w1. split; [done|]. split; [done|].
      split; [by unfold chain_text; cbn; rewrite app_nil_r|]. by split_and!. }
  destruct (IH n w1 fuel Hg1 Hf1) as (o & w2 & E2 & Hz2 & Ho2 & Hg2 & Hf2 & He2 & Hm2 & Hc2 & Hh2 & Hr2);
    [by eapply chain_weaken|lia|].
  rewrite (bind_eq _ _ _ _ _ E2). unfold PyUnicode_Concat.
  rewrite bind_assoc, (bind_eq _ _ _ _ _ (str_text_eq _ _ w2 Hg2 (Hh2 _ _ Ho1))).
  rewrite bind_assoc, (bind_eq _ _ _ _ _ (str_text_eq _ _ w2 Hg2 Ho2)).
  destruct (new_object_run (OStr (repr_text v' (s_ty s) ++ chain_text l)) w2 Hg2 Hf2)
    as (w3 & E3 & Hz3 & Hg3 & Hf3 & He3 & Hm3 & _ & Hc3 & Ho3 & Hh3 & Hr3).
  rewrite (bind_eq _ _ _ _ _ E3), (bind_eq _ _ _ _ _ (decref_eq w3 Hg3 _ Hz1)).
  rewrite (bind_eq _ _ _ _ _ (decref_eq (add_ref (w_fresh w) (-1) w3) Hg3 o Hz2)).
  eexists _, _. split; [reflexivity|]. split; [done|]. split; [exact Ho3|]. split; [done|]. split; [exact Hf3|].
  split; [cbn; congruence|]. split; [cbn; congruence|]. split; [cbn; congruence|]. split; [intros; cbn; auto|].
  intros x. rewrite !refs_add, Hr3, Hr2, Hr1, (one_nonzero (w_fresh w)), (one_nonzero o), !cnt_single by done.
  repeat case_decide; lia.
Qed.
End Object.

(** *** Ownership *)

Lemma set_own_run o own' s w : w_gil w = true -> fresh_ok w -> w_heap w !! o = Some (OSwig s) ->
  exists w', (r <- (set_own o own' ;;; SWIG_Py_Void) ;; Py_DECREF r) w = (Ret tt, w') /\ w_gil w' = true /\ fresh_ok w'
    /\ w_heap w' !! o = Some (OSwig (mk_swigobj (s_ptr s) (s_ty s) own' (s_next s)))
    /\ refs w' Swig_Capsule_global = refs w Swig_Capsule_global.
Proof.
  intros Hg Hf Ho. unfold set_own. rewrite !bind_assoc, (bind_eq _ _ _ _ _ (swig_at_eq w o _ Hg Ho)).
  rewrite (bind_eq _ _ _ _ _ (store_object_eq w Hg o _)).
  set (w3 := set_heap _ w). rewrite (bind_eq _ _ _ _ _ (py_void_eq w3 Hg)).
  eexists. split; [by apply (decref_eq (add_ref Py_None 1 w3) Hg Py_None)|]. split; [done|].
  split; [|split; [apply lookup_insert_eq|]].
  - destruct Hf as [Hfa Hfb]. split; [done|]. intros x Hx. cbn in *.
    rewrite lookup_insert_ne; [by apply Hfb|]. intros ->. by rewrite (Hfb x Hx) in Ho.
  - by rewrite !refs_add_ne by done.
Qed.

(** [own(val)] leaves the ownership that was asked for. *)
Lemma own_run o (val : option bool) w s own' : w_gil w = true -> fresh_ok w -> w_heap w !! o = Some (OSwig s) ->
  own' = match val with Some b => if b then SWIG_POINTER_OWN else 0 | None => s_own s end ->
  exists b w', SwigPyObject_own o val w = (Ret b, w') /\ w_gil w' = true /\ fresh_ok w'
    /\ w_heap w' !! o = Some (OSwig (mk_swigobj (s_ptr s) (s_ty s) own' (s_next s)))
    /\ refs w' Swig_Capsule_global = refs w Swig_Capsule_global.
Proof.
  intros Hg Hf Ho ->. unfold SwigPyObject_own. rewrite (bind_eq _ _ _ _ _ (swig_at_eq w o _ Hg Ho)).
  unfold PyBool_FromLong. set (b := if s_own s =? 0 then Py_False else Py_True).
  rewrite bind_assoc, (bind_eq _ _ _ _ _ (incref_eq w Hg b)).
  set (w2 := add_ref b 1 w). rewrite (bind_eq (ret b) _ w2 b w2 eq_refl).
  assert (Hcap : refs w2 Swig_Capsule_global = refs w Swig_Capsule_global)
    by (apply refs_add_ne; unfold b; by destruct (s_own s =? 0)).
  destruct val as [c|].
  - destruct (set_own_run o (if c then SWIG_POINTER_OWN else 0) s w2 Hg Hf Ho) as (w3 & E3 & A1 & A2 & A3 & A4).
    exists b, w3. split; [|split_and!; try done; congruence].
    destruct c; unfold SwigPyObject_acquire, SwigPyObject_disown; by rewrite (bind_eq _ _ _ _ _ E3).
  - exists b, w2. split; [done|]. split; [done|]. split; [done|]. split; [|exact Hcap]. by destruct s.
Qed.

(** ** Properties *)

(** C17. Deallocation: an object that owns its pointer runs the destructor of its
    type exactly once, on itself or on a temporary when the destructor takes a
    tuple, and reports a leak when there is none; an object that does not own its
    pointer runs nothing.  Whatever the destructor does, the error that was set
    before is the error set afterwards, the lock is held, the object is gone, and
    exactly the references of the object are released: the capsule of the module
    when it is owned, and the next object of its chain. *)
Theorem dealloc_contract clientdata type_text call_function v s w :
  w_gil w = true -> fresh_ok w -> w_heap w !! v = Some (OSwig s) ->
  (forall blk data, s_ty s ≫= clientdata = Some (blk, data) -> cd_destroy data <> 0 ->
     returning call_function (cd_destroy data)) ->
  exists w', SwigPyObject_dealloc clientdata type_text call_function v w = (Ret tt, w')
    /\ w_gil w' = true /\ w_err w' = w_err w /\ w_heap w' !! v = None
    /\ w_calls w' = w_calls w ++
         (if s_own s =? SWIG_POINTER_OWN then
            match s_ty s ≫= clientdata with
            | Some (_, data) =>
                if cd_destroy data =? 0 then [EPrint (leak_msg type_text (s_ty s))]
                else [EFunction (cd_destroy data) (if cd_delargs data then w_fresh w else v)]
            | None => [EPrint (leak_msg type_text (s_ty s))]
            end
          else [])
    /\ (forall x, refs w' x = refs w x - capsule_ref (s_own s) x - cnt (one (default 0 (s_next s))) x).
Proof. intros. by apply dealloc_total. Qed.

(** A type with a destructor that fails, and an owned object of it with an error set. *)
Definition sample_data (ty : nat) : option client :=
  if (ty =? 1)%nat then Some (4096, mk_client 300 0 300 310 false 0 0) else None.
Definition sample_types (ty : nat) : list Z * option (list Z) := (chars "_p_char", Some (chars "char *")).
Definition sample_failing (f arg : Z) : M Z := PyErr_SetString RuntimeError (chars "boom") ;;; ret 0.
Definition sample_owned : world :=
  mk_world {[100 := OSwig (mk_swigobj 8192 (Some 1%nat) 1 (Some 101)); 101 := OSwig (mk_swigobj 8200 (Some 2%nat) 0 None)]}
    ∅ 200 (Some (err_of IndexError (chars "stop"))) true ∅ ∅ 16384 ∅ (-1) [].

Lemma sample_owned_fresh : fresh_ok sample_owned.
Proof.
  split; [discriminate|]. intros o Ho. cbn [w_fresh sample_owned] in Ho. cbn [w_heap sample_owned].
  rewrite lookup_insert_ne by lia. apply lookup_singleton_ne. lia.
Qed.

Lemma sample_failing_returns f : returning sample_failing f.
Proof.
  intros a w Hg He Hf. unfold sample_failing. rewrite (bind_eq _ _ _ _ _ (set_string_eq w Hg _ _)).
  eexists 0, _. split; [reflexivity|]. constructor; try done. intros x. change (cnt (one 0) x) with 0.
  change (refs (set_err _ w) x) with (refs w x). lia.
Qed.

Lemma dealloc_contract_witness :
  exists w', SwigPyObject_dealloc sample_data sample_types sample_failing 100 sample_owned = (Ret tt, w')
    /\ w_err w' = Some (err_of IndexError (chars "stop")) /\ w_calls w' = [EFunction 310 100] /\ refs w' 101 = -1.
Proof.
  destruct (dealloc_contract sample_data sample_types sample_failing 100 (mk_swigobj 8192 (Some 1%nat) 1 (Some 101))
    sample_owned) as (w' & E & _ & He & _ & Hc & Hr).
  - reflexivity.
  - exact sample_owned_fresh.
  - reflexivity.
  - intros blk data _ _. apply sample_failing_returns.
  - exists w'. split; [exact E|]. split; [exact He|]. split; [exact Hc|]. rewrite Hr. reflexivity.
Defined.

(** C35. The capsule of the module: between the creation of a wrapped pointer and
    its deallocation, the reference to the capsule that keeps the type table
    alive is taken according to the ownership at creation and released
    according to the ownership at the end.  The two agree when the ownership is
    not changed; after [own(True)] on a pointer that was not owned one
    reference too many is released, after [own(False)] on an owned one a
    reference is never released. *)
Theorem capsule_follows_flag clientdata type_text call_function ptr ty (owned : bool) (val : option bool) w :
  w_gil w = true -> fresh_ok w ->
  (forall blk data, clientdata ty = Some (blk, data) -> cd_destroy data <> 0 ->
     returning call_function (cd_destroy data)) ->
  exists o w1 b w2 w3,
    SwigPyObject_New ptr (Some ty) (if owned then SWIG_POINTER_OWN else 0) w = (Ret o, w1)
    /\ SwigPyObject_own o val w1 = (Ret b, w2)
    /\ SwigPyObject_dealloc clientdata type_text call_function o w2 = (Ret tt, w3)
    /\ refs w3 Swig_Capsule_global
       = refs w Swig_Capsule_global + (if owned then 1 else 0) - (if default owned val then 1 else 0).
Proof.
  intros Hg Hf Hret. set (own0 := if owned then SWIG_POINTER_OWN else 0).
  destruct (swig_new_resolves w ptr (Some ty) own0 Hg Hf) as (w1 & E1 & Hg1 & Hf1 & Hh1 & _ & _ & _ & _ & Hn1 & Hr1).
  set (o := w_fresh w) in *. set (own1 := if default owned val then SWIG_POINTER_OWN else 0).
  assert (Ho1 : w_heap w1 !! o = Some (OSwig (mk_swigobj ptr (Some ty) own0 None))) by by rewrite Hh1, lookup_insert_eq.
  assert (Hfree : first_free <= o) by apply Hf. unfold first_free in Hfree.
  destruct (own_run o val w1 (mk_swigobj ptr (Some ty) own0 None) own1 Hg1 Hf1 Ho1) as (b & w2 & E2 & Hg2 & Hf2 & Ho2 & Hr2).
  { unfold own1, own0. by destruct val as [[]|]. }
  destruct (dealloc_total clientdata type_text call_function o (mk_swigobj ptr (Some ty) own1 None) w2 Hg2 Hf2 Ho2 Hret)
    as (w3 & E3 & _ & _ & _ & _ & Hr3).
  exists o, w1, b, w2, w3. do 3 (split; [done|]). rewrite Hr3, Hr2, Hr1, decide_False by (unfold Swig_Capsule_global; lia).
  cbn [s_own s_next default from_option]. change (cnt (one 0) _) with 0. unfold own0, own1.
  destruct owned, (default _ val);
    change (capsule_ref SWIG_POINTER_OWN Swig_Capsule_global) with 1; change (capsule_ref 0 Swig_Capsule_global) with 0; lia.
Qed.

Lemma capsule_follows_flag_witness :
  exists o w1 b w2 w3, SwigPyObject_New 8192 (Some 1%nat) 0 sample_owned = (Ret o, w1)
    /\ SwigPyObject_own o (Some true) w1 = (Ret b, w2)
    /\ SwigPyObject_dealloc sample_data sample_types sample_failing o w2 = (Ret tt, w3)
    /\ refs w3 Swig_Capsule_global = -1.
Proof.
  destruct (capsule_follows_flag sample_data sample_types sample_failing 8192 1 false (Some true) sample_owned)
    as (o & w1 & b & w2 & w3 & E1 & E2 & E3 & Hr).
  - reflexivity.
  - exact sample_owned_fresh.
  - intros blk data _ _. apply sample_failing_returns.
  - exists o, w1, b, w2, w3. split; [exact E1|]. split; [exact E2|]. split; [exact E3|exact Hr].
Defined.

(** Comparison: with no error set, [==] and [!=] of two wrapped pointers
    compare their addresses, whatever their types; every other operator, and an
    operand that is not a wrapped pointer, gives NotImplemented; with an error
    set the result is null.  One reference is taken, on the result. *)
Lemma richcompare_pointers v u s x op w : w_gil w = true ->
  w_heap w !! v = Some (OSwig s) -> w_heap w !! u = Some x ->
  SwigPyObject_richcompare v u op w =
    match w_err w with
    | Some _ => (Ret 0, w)
    | None =>
        let r := match x, op with
                 | OSwig s', Py_EQ => if decide (s_ptr s = s_ptr s') then Py_True else Py_False
                 | OSwig s', Py_NE => if decide (s_ptr s = s_ptr s') then Py_False else Py_True
                 | _, _ => Py_NotImplemented
                 end in
        (Ret r, add_ref r 1 w)
    end.
Proof.
  intros Hg Hv Hu. unfold SwigPyObject_richcompare. rewrite (bind_eq _ _ _ _ _ (occurred_eq w Hg)).
  destruct (w_err w) eqn:He; [done|].
  assert (Hni : (Py_INCREF Py_NotImplemented ;;; ret Py_NotImplemented) w
                = (Ret Py_NotImplemented, add_ref Py_NotImplemented 1 w))
    by by rewrite (bind_eq _ _ _ _ _ (incref_eq w Hg _)).
  assert (Hck : SwigPyObject_Check u w = (Ret (match x with OSwig _ => true | _ => false end), w)).
  { unfold SwigPyObject_Check. by rewrite (bind_eq _ _ _ _ _ (object_at_eq w Hg u x Hu)). }
  assert (Hop : op <> Py_EQ /\ op <> Py_NE \/ op = Py_EQ \/ op = Py_NE) by (destruct op; auto).
  destruct Hop as [Hop|Hop].
  - rewrite bool_decide_true by done. rewrite (bind_eq (ret false) _ w false w eq_refl), Hni.
    destruct x, op; naive_solver.
  - rewrite bool_decide_false by (destruct Hop; naive_solver). rewrite (bind_eq _ _ _ _ _ Hck).
    destruct x as [| | | | | | | |s'| |]; try (rewrite Hni; by destruct Hop as [->| ->]). unfold SwigPyObject_compare.
    rewrite bind_assoc, (bind_eq _ _ _ _ _ (swig_at_eq w v s Hg Hv)), bind_assoc, (bind_eq _ _ _ _ _ (swig_at_eq w u s' Hg Hu)).
    unfold PyBool_FromLong.
    set (c := if s_ptr s <? s_ptr s' then -1 else if s_ptr s' <? s_ptr s then 1 else 0).
    rewrite (bind_eq (ret c) _ w c w eq_refl), (bind_eq _ _ _ _ _ (incref_eq w Hg _)).
    assert (Hc : c = 0 <-> s_ptr s = s_ptr s') by (unfold c; repeat case_if; zbool; lia).
    destruct Hop as [->| ->]; case_decide; (case_bool_decide; [|]); cbn; try done; exfalso; naive_solver.
Qed.

(** Representation: for a chain of wrapped pointers without repetition the
    recursion ends, within one visit per object, in a string that is the texts
    of the objects one after the other; every string made on the way is
    released, so that one reference is left, to the result, and no object is
    changed. *)
Lemma repr_is_chain_text type_text ptr_text v l w : w_gil w = true -> fresh_ok w ->
  chain w (Some v) l -> NoDup (map fst l) ->
  exists o w', SwigPyObject_repr type_text ptr_text v w = (Ret o, w')
    /\ w_heap w' !! o = Some (OStr (concat (map (fun p => chars "<Swig Object of type '" ++ pretty_name type_text (s_ty (snd p))
                                                  ++ chars "' at " ++ ptr_text (fst p) ++ chars ">") l)))
    /\ (forall x u, w_heap w !! x = Some u -> w_heap w' !! x = Some u) /\ w_err w' = w_err w
    /\ (forall x, refs w' x = refs w x + cnt [o] x).
Proof.
  intros Hg Hf Hc Hd. unfold SwigPyObject_repr. rewrite (bind_eq (gets w_heap) _ w (w_heap w) w eq_refl).
  pose proof (chain_bound _ _ _ Hc Hd) as Hl.
  destruct (repr_chain_run type_text ptr_text l v w (S (size (w_heap w))) Hg Hf Hc ltac:(lia))
    as (o & w' & E & Hz & Ho & _ & _ & He & _ & _ & Hh & Hr).
  exists o, w'. split; [exact E|]. split; [exact Ho|]. split; [exact Hh|]. split; [exact He|].
  intros x. by rewrite Hr, one_nonzero.
Qed.

End SwigObject.
