(* ===== verification/Conversions.v ===== *)
(** * Conversions between Python values and C values

    Models [SWIG_AsVal_double], [SWIG_AsVal_long], [SWIG_AsVal_short],
    [SWIG_AsVal_int], [SWIG_AsVal_char], [SWIG_AsVal_bool],
    [SWIG_AsCharPtrAndSize], [SWIG_AsCharArray], [SWIG_FromCharPtrAndSize],
    [SWIG_FromCharPtr] and the [SWIG_From_*] functions of ctp_wrap.cpp, for
    Python 3 without the limited API.  A C value is its bytes: an [int] or
    [short] an integer in range, a [char] a byte, a [double] its 64 bits. *)

From S2P Require Import Prelude TypeNames TypeTable CtpTypes Utf8 World Runtime.

Module Conversions.
Import TypeTable World Utf8 Runtime.

Definition SHRT_MIN : Z := - 2 ^ 15.
Definition SHRT_MAX : Z := 2 ^ 15 - 1.
Definition INT_MIN : Z := - 2 ^ 31.
Definition INT_MAX : Z := 2 ^ 31 - 1.
Definition CHAR_MIN : Z := -128.
Definition CHAR_MAX : Z := 127.

(** The integer of an object for which [PyLong_Check] holds; bool is a subclass of int. *)
Definition as_long (v : pyobj) : option Z :=
  match v with
  | OInt z => Some z
  | OBool b => Some (if b then 1 else 0)
  | _ => None
  end.

(** The index of a descriptor found by a query in the module alone. *)
Definition found_index (r : option (option (nat * Z))) : option nat :=
  match r with
  | Some (Some (_, i)) => Some (Z.to_nat i)
  | _ => None
  end.

Definition SWIG_pchar_descriptor : option nat :=
  found_index (SWIG_TypeQueryModule [CtpTypes.swig_types] (chars "_p_char")).

(** The C string at [p], without its terminator. *)
Fixpoint read_cstr (fuel : nat) (p : Z) : M (list Z) :=
  match fuel with
  | O => stuck Endless
  | S fuel' =>
      b <- load p 1 ;;
      match b with
      | [c] => if c =? 0 then ret [] else r <- read_cstr fuel' (p + 1) ;; ret (c :: r)
      | _ => stuck Unmapped
      end
  end.

(** [strlen(p)] and the characters it passes over: one turn per mapped byte. *)
Definition c_string (p : Z) : M (list Z) :=
  m <- gets w_mem ;; read_cstr (S (size m)) p.

Section Conv.
(** The width of [long]: 64 bits on Linux and macOS, 32 on Windows. *)
Context (long_w : Z).
Context `{TypeEnv} (implicit : nat -> option (Z -> M Z)).

Definition LONG_MIN : Z := - 2 ^ (long_w - 1).
Definition LONG_MAX : Z := 2 ^ (long_w - 1) - 1.

(** [PyLong_AsLong]: sets OverflowError when the value does not fit. *)
Definition PyLong_AsLong (z : Z) : M Z :=
  if (LONG_MIN <=? z) && (z <=? LONG_MAX) then ret z
  else PyErr_SetString OverflowError (chars "Python int too large to convert to C long") ;;; ret (-1).

Definition PyLong_AsDouble (z : Z) : M Z :=
  match double_of_Z z with
  | Some d => ret d
  | None => PyErr_SetString OverflowError (chars "int too large to convert to float") ;;; ret 0
  end.

(** Each returns the code and the value stored, when one is. *)
Definition SWIG_AsVal_double (obj : Z) : M (Z * option Z) :=
  v <- object_at obj ;;
  match v with
  | OFloat d => ret (SWIG_OK, Some d)
  | _ => match as_long v with
         | Some z => d <- PyLong_AsDouble z ;;
                     e <- PyErr_Occurred ;;
                     match e with
                     | None => ret (SWIG_OK, Some d)
                     | Some _ => PyErr_Clear ;;; ret (SWIG_TypeError, None)
                     end
         | None => ret (SWIG_TypeError, None)
         end
  end.

Definition SWIG_AsVal_long (obj : Z) : M (Z * option Z) :=
  v <- object_at obj ;;
  match as_long v with
  | Some z => n <- PyLong_AsLong z ;;
              e <- PyErr_Occurred ;;
              match e with
              | None => ret (SWIG_OK, Some n)
              | Some _ => PyErr_Clear ;;; ret (SWIG_OverflowError, None)
              end
  | None => ret (SWIG_TypeError, None)
  end.

Definition narrow (lo hi : Z) (r : Z * option Z) : Z * option Z :=
  match r with
  | (res, Some v) => if SWIG_IsOK res then
                       if (v <? lo) || (hi <? v) then (SWIG_OverflowError, None) else (res, Some v)
                     else (res, None)
  | (res, None) => (res, None)
  end.

Definition SWIG_AsVal_short (obj : Z) : M (Z * option Z) :=
  r <- SWIG_AsVal_long obj ;; ret (narrow SHRT_MIN SHRT_MAX r).

Definition SWIG_AsVal_int (obj : Z) : M (Z * option Z) :=
  r <- SWIG_AsVal_long obj ;; ret (narrow INT_MIN INT_MAX r).

(** The code and, when it is OK, [cptr] with the [csize] bytes it points at. *)
Definition as_char_ptr (pchar_descriptor : option nat) (obj : Z) : M (Z * option (list Z)) :=
  v <- object_at obj ;;
  match v with
  | OStr s => match utf8_encode s with
              | Some b => ret (SWIG_OK, Some (b ++ [0]))
              | None => PyErr_SetString ValueError (chars "surrogates not allowed") ;;;
                        ret (SWIG_TypeError, None)
              end
  | _ =>
      match pchar_descriptor with
      | None => ret (SWIG_TypeError, None)
      | Some d =>
          r <- SWIG_ConvertPtr implicit obj d 0 ;;
          let '(res, vptr) := r in
          if res =? SWIG_OK then
            if vptr =? 0 then ret (SWIG_OK, None)
            else s <- c_string vptr ;; ret (SWIG_OK, Some (s ++ [0]))
          else ret (SWIG_TypeError, None)
      end
  end.

Definition SWIG_AsCharPtrAndSize (obj : Z) : M (Z * option (list Z)) :=
  as_char_ptr SWIG_pchar_descriptor obj.

(** The bytes written to [val], an array of [size]. *)
Definition SWIG_AsCharArray (obj : Z) (size : nat) : M (Z * option (list Z)) :=
  r <- SWIG_AsCharPtrAndSize obj ;;
  let '(res, c) := r in
  if SWIG_IsOK res then
    let bytes := default [] c in
    let bytes := if bool_decide (size = 1%nat /\ length bytes = 2%nat /\ bytes !! 1%nat = Some 0)
                 then take 1 bytes else bytes in
    if decide (length bytes <= size)%nat
    then ret (res, Some (bytes ++ replicate (size - length bytes) 0))
    else ret (SWIG_TypeError, None)
  else ret (SWIG_TypeError, None).

(** The byte of the [char]. *)
Definition SWIG_AsVal_char (obj : Z) : M (Z * option Z) :=
  r <- SWIG_AsCharArray obj 1 ;;
  match r with
  | (res, Some [c]) => ret (res, Some c)
  | _ =>
      r <- SWIG_AsVal_long obj ;;
      match r with
      | (res, Some v) => if SWIG_IsOK res then
                           if (CHAR_MIN <=? v) && (v <=? CHAR_MAX) then ret (res, Some (wrapu 8 v))
                           else ret (SWIG_OverflowError, None)
                         else ret (res, None)
      | (res, None) => ret (res, None)
      end
  end.

Definition SWIG_AsVal_bool (obj : Z) : M (Z * option bool) :=
  v <- object_at obj ;;
  match v with
  | OBool b => ret (SWIG_OK, Some b)
  | _ => ret (SWIG_ERROR, None)
  end.
End Conv.

Definition SWIG_From_int (value : Z) : M Z := new_object (OInt value).
Definition SWIG_From_short (value : Z) : M Z := new_object (OInt value).
Definition SWIG_From_double (value : Z) : M Z := new_object (OFloat value).
Definition SWIG_From_bool (value : bool) : M Z := PyBool_FromLong (if value then 1 else 0).

(** [size] fits a [Py_ssize_t], as the length of an object in memory does. *)
Definition SWIG_FromCharPtrAndSize (carray : option (list Z)) : M Z :=
  match carray with
  | Some bytes => new_object (OStr (utf8_decode bytes))
  | None => SWIG_Py_Void
  end.

Definition SWIG_From_char (c : Z) : M Z := SWIG_FromCharPtrAndSize (Some [c]).

(** The characters before the first NUL of the string [cptr] points at. *)
Definition SWIG_FromCharPtr (cptr : option (list Z)) : M Z :=
  SWIG_FromCharPtrAndSize (match cptr with Some l => Some (cstr l) | None => None end).

(** ** Lemmas *)

#[local] Opaque CtpTypes.swigt CtpTypes.swig_types.
Lemma pchar_descriptor_eq : SWIG_pchar_descriptor = Some 524%nat.
Proof.
  destruct (CtpTypes.macro_resolves 524 ("p_char", 524)%string eq_refl) as (_ & _ & H).
  unfold SWIG_pchar_descriptor, SWIG_TypeQueryModule.
  change (95 :: chars (fst ("p_char", 524)%string)) with (chars "_p_char") in H. by rewrite H.
Qed.
#[local] Transparent CtpTypes.swigt CtpTypes.swig_types.

Section ConvLemmas.
Context (long_w : Z) (Hlong : 32 <= long_w).
Context `{TypeEnv} (implicit : nat -> option (Z -> M Z)).

Lemma int_fits_long z : INT_MIN <= z <= INT_MAX ->
  (LONG_MIN long_w <=? z) && (z <=? LONG_MAX long_w) = true.
Proof.
  intros Hz. unfold LONG_MIN, LONG_MAX, INT_MIN, INT_MAX in *.
  pose proof (Z.pow_le_mono_r 2 31 (long_w - 1) ltac:(lia) ltac:(lia)).
  apply andb_true_iff. rewrite !Z.leb_le. lia.
Qed.

Lemma set_err_none w : w_err w = None -> set_err None w = w.
Proof. intros E. rewrite <- E. by destruct w. Qed.

(** [SWIG_AsVal_long] on an integer object, with no error pending. *)
Lemma as_val_long_eq w obj v z : w_gil w = true -> w_err w = None ->
  w_heap w !! obj = Some v -> as_long v = Some z ->
  SWIG_AsVal_long long_w obj w
  = (Ret (if (LONG_MIN long_w <=? z) && (z <=? LONG_MAX long_w) then (SWIG_OK, Some z)
          else (SWIG_OverflowError, None)), w).
Proof.
  intros Hg He Hv Hz. unfold SWIG_AsVal_long.
  rewrite (bind_eq _ _ _ _ _ (object_at_eq w Hg obj v Hv)), Hz. unfold PyLong_AsLong.
  destruct ((LONG_MIN long_w <=? z) && (z <=? LONG_MAX long_w)).
  - rewrite (bind_eq (ret z) _ w _ w eq_refl), (bind_eq _ _ _ _ _ (occurred_eq w Hg)). by rewrite He.
  - set (e := err_of OverflowError (chars "Python int too large to convert to C long")).
    rewrite bind_assoc, (bind_eq _ _ _ _ _ (set_string_eq w Hg _ _)).
    rewrite (bind_eq (ret (-1)) _ _ _ _ eq_refl).
    rewrite (bind_eq _ _ _ _ _ (occurred_eq (set_err (Some e) w) Hg)). cbn [w_err set_err].
    rewrite (bind_eq _ _ _ _ _ (clear_eq (set_err (Some e) w) Hg)).
    by change (set_err None (set_err (Some e) w)) with (set_err None w); rewrite set_err_none.
Qed.

Lemma as_val_long_other w obj v : w_gil w = true -> w_heap w !! obj = Some v -> as_long v = None ->
  SWIG_AsVal_long long_w obj w = (Ret (SWIG_TypeError, None), w).
Proof.
  intros Hg Hv Hz. unfold SWIG_AsVal_long.
  by rewrite (bind_eq _ _ _ _ _ (object_at_eq w Hg obj v Hv)), Hz.
Qed.

(** The specification of the integer conversions to [lo, hi]. *)
Definition int_spec (lo hi : Z) (v : pyobj) : Z * option Z :=
  match as_long v with
  | Some z => if (lo <=? z) && (z <=? hi) then (SWIG_OK, Some z) else (SWIG_OverflowError, None)
  | None => (SWIG_TypeError, None)
  end.

Lemma as_val_narrow lo hi w obj v : w_gil w = true -> w_err w = None -> w_heap w !! obj = Some v ->
  INT_MIN <= lo -> hi <= INT_MAX ->
  bind (SWIG_AsVal_long long_w obj) (fun r => ret (narrow lo hi r)) w = (Ret (int_spec lo hi v), w).
Proof.
  intros Hg He Hv Hlo Hhi. unfold int_spec. destruct (as_long v) as [z|] eqn:Ez.
  - rewrite (bind_eq _ _ _ _ _ (as_val_long_eq w obj v z Hg He Hv Ez)). unfold ret. do 2 f_equal.
    destruct ((lo <=? z) && (z <=? hi)) eqn:E.
    + zbool. rewrite int_fits_long by lia. unfold narrow. cbn [SWIG_IsOK].
      change (SWIG_IsOK SWIG_OK) with true. cbv iota.
      rewrite (proj2 (Z.ltb_ge _ _)), (proj2 (Z.ltb_ge _ _)) by lia. done.
    + case_if; [|done]. unfold narrow. change (SWIG_IsOK SWIG_OK) with true. cbv iota.
      apply andb_false_iff in E as [E|E]; zbool.
      * by rewrite (proj2 (Z.ltb_lt _ _)) by lia.
      * rewrite (proj2 (Z.ltb_lt hi z)) by lia. by rewrite orb_true_r.
  - by rewrite (bind_eq _ _ _ _ _ (as_val_long_other w obj v Hg Hv Ez)).
Qed.

(** *** Text *)

Lemma as_char_ptr_str w obj s b : w_gil w = true -> w_heap w !! obj = Some (OStr s) ->
  utf8_encode s = Some b -> SWIG_AsCharPtrAndSize implicit obj w = (Ret (SWIG_OK, Some (b ++ [0])), w).
Proof.
  intros Hg Hv Hb. unfold SWIG_AsCharPtrAndSize, as_char_ptr.
  rewrite (bind_eq _ _ _ _ _ (object_at_eq w Hg obj _ Hv)). by rewrite Hb.
Qed.

Lemma as_char_ptr_none w : w_gil w = true -> w_heap w !! Py_None = Some ONone ->
  SWIG_AsCharPtrAndSize implicit Py_None w = (Ret (SWIG_OK, None), w).
Proof.
  intros Hg Hv. unfold SWIG_AsCharPtrAndSize, as_char_ptr.
  rewrite (bind_eq _ _ _ _ _ (object_at_eq w Hg _ _ Hv)), pchar_descriptor_eq.
  unfold SWIG_ConvertPtr, SWIG_Python_ConvertPtrAndOwn. rewrite bind_assoc.
  reflexivity.
Qed.

(** What [SWIG_AsCharArray] does with a string whose UTF-8 form is [b]: the
    array holds [b] and zeros when it fits with its terminator, or when both
    are of one byte; anything longer is refused. *)
Definition array_spec (b : list Z) (n : nat) : Z * option (list Z) :=
  if decide (length b < n \/ n = 1 /\ length b = 1)%nat
  then (SWIG_OK, Some (b ++ replicate (n - length b) 0)) else (SWIG_TypeError, None).

Lemma as_char_array_str w obj s b n : w_gil w = true -> w_heap w !! obj = Some (OStr s) ->
  utf8_encode s = Some b -> (0 < n)%nat ->
  SWIG_AsCharArray implicit obj n w = (Ret (array_spec b n), w).
Proof.
  intros Hg Hv Hb Hn. unfold SWIG_AsCharArray, array_spec.
  rewrite (bind_eq _ _ _ _ _ (as_char_ptr_str w obj s b Hg Hv Hb)).
  change (SWIG_IsOK SWIG_OK) with true. cbn [default from_option]. unfold id.
  destruct (decide (n = 1 /\ length b = 1)%nat) as [[-> H1]|Hno].
  - by destruct b as [|c [|]].
  - rewrite bool_decide_false; [|intros (E1 & E2 & _); apply Hno; rewrite length_app in E2; simpl in E2; lia].
    cbv iota zeta. rewrite length_app. change (length [0]) with 1%nat.
    destruct (decide (length b < n)%nat) as [Hl|Hl].
    + rewrite decide_True by lia. rewrite decide_True by (by left). unfold ret. rewrite <- app_assoc.
      replace (n - length b)%nat with (S (n - (length b + 1))) by lia. done.
    + rewrite decide_False by lia. rewrite decide_False by (intros [?|?]; lia). done.
Qed.

Lemma as_char_array_none w n : w_gil w = true -> w_heap w !! Py_None = Some ONone ->
  SWIG_AsCharArray implicit Py_None n w = (Ret (SWIG_OK, Some (replicate n 0)), w).
Proof.
  intros Hg Hv. unfold SWIG_AsCharArray. rewrite (bind_eq _ _ _ _ _ (as_char_ptr_none w Hg Hv)).
  change (SWIG_IsOK SWIG_OK) with true. cbn [default from_option].
  rewrite bool_decide_false by (intros (_ & E & _); done).
  rewrite decide_True by (simpl; lia). cbn [length app]. by rewrite Nat.sub_0_r.
Qed.

Lemma as_char_array_length w obj n r w' : SWIG_AsCharArray implicit obj n w = (Ret (SWIG_OK, Some r), w') ->
  length r = n.
Proof.
  unfold SWIG_AsCharArray, bind. destruct (SWIG_AsCharPtrAndSize implicit obj w) as [[[res c]| |] w1]; try done.
  case_if; [|done]. case_decide; [|done]. intros E. injection E as _ <- _.
  rewrite length_app, length_replicate. lia.
Qed.
End ConvLemmas.

(** ** Properties *)

(** C38. Integer arguments: with no error pending, [SWIG_AsVal_int] and
    [SWIG_AsVal_short] accept exactly the Python ints and bools in the range of
    the C type and store their value, answer [SWIG_OverflowError] for larger
    ones and [SWIG_TypeError] for other objects; no error stays set, and the
    answer is the same whether [long] has 32 or 64 bits. *)
Theorem as_val_int_exact long_w w obj v : 32 <= long_w ->
  w_gil w = true -> w_err w = None -> w_heap w !! obj = Some v ->
  SWIG_AsVal_int long_w obj w = (Ret (int_spec INT_MIN INT_MAX v), w)
  /\ SWIG_AsVal_short long_w obj w = (Ret (int_spec SHRT_MIN SHRT_MAX v), w).
Proof.
  intros Hw Hg He Hv. split; apply as_val_narrow; try done; unfold SHRT_MIN, SHRT_MAX, INT_MIN, INT_MAX; lia.
Qed.

Definition sample_values : world :=
  mk_world {[1 := ONone; 70 := OInt 2147483648; 71 := OStr (chars "rb2510"); 72 := OStr [0x4E70]]}
           ∅ 100 None true ∅ ∅ 1000 ∅ (-1) [].

Lemma as_val_int_exact_witness :
  SWIG_AsVal_int 64 70 sample_values = (Ret (SWIG_OverflowError, None), sample_values).
Proof. destruct (as_val_int_exact 64 sample_values 70 (OInt 2147483648)) as [H _];
  [discriminate|reflexivity|reflexivity|reflexivity|exact H]. Defined.

(** C37. Text arguments: a string fits a [char] array of [n] bytes exactly when
    its UTF-8 form is shorter than [n], or one byte for [n = 1]; then the array
    is that form padded with zeros, and otherwise [SWIG_TypeError] is answered
    and nothing is written.  None clears the whole array. *)
Theorem as_char_array_exact `{TypeEnv} implicit w obj s b n : (0 < n)%nat ->
  w_gil w = true -> w_heap w !! obj = Some (OStr s) -> utf8_encode s = Some b ->
  w_heap w !! Py_None = Some ONone ->
  SWIG_AsCharArray implicit obj n w = (Ret (array_spec b n), w)
  /\ SWIG_AsCharArray implicit Py_None n w = (Ret (SWIG_OK, Some (replicate n 0)), w).
Proof. intros Hn Hg Hv Hb H1. split; [by eapply as_char_array_str|by apply as_char_array_none]. Qed.

Lemma as_char_array_exact_witness :
  SWIG_AsCharArray (H := ctp_types (fun _ => 0) (fun _ => true)) (fun _ => None) 71 9 sample_values
  = (Ret (SWIG_OK, Some (chars "rb2510" ++ [0; 0; 0])), sample_values).
Proof.
  destruct (as_char_array_exact (H := ctp_types (fun _ => 0) (fun _ => true)) (fun _ => None)
              sample_values 71 (chars "rb2510") (chars "rb2510") 9) as [H _].
  - apply Nat.ltb_lt. reflexivity.
  - reflexivity.
  - reflexivity.
  - reflexivity.
  - reflexivity.
  - exact H.
Defined.

(** UTF-8 text round trip: a string without NUL and without surrogates
    that fits the array comes back unchanged when the array is read as a C
    string by [SWIG_FromCharPtr]. *)
Lemma utf8_text_roundtrip `{TypeEnv} implicit w obj s b n :
  w_gil w = true -> w_heap w !! obj = Some (OStr s) -> utf8_encode s = Some b ->
  Forall (fun c => c <> 0) s -> (length b < n)%nat ->
  exists arr w', SWIG_AsCharArray implicit obj n w = (Ret (SWIG_OK, Some arr), w)
    /\ SWIG_FromCharPtr (Some arr) w = (Ret (w_fresh w), w')
    /\ w_heap w' !! w_fresh w = Some (OStr s).
Proof.
  intros Hg Hv Hb Hnn Hl. exists (b ++ replicate (n - length b) 0).
  eexists. split; [|split].
  - rewrite (as_char_array_str implicit w obj s b n Hg Hv Hb) by lia.
    unfold array_spec. by rewrite decide_True by (by left).
  - unfold SWIG_FromCharPtr, SWIG_FromCharPtrAndSize. apply new_object_eq, Hg.
  - simpl. rewrite lookup_insert_eq. do 2 f_equal.
    replace (n - length b)%nat with (S (n - length b - 1)) by lia. cbn [replicate].
    rewrite cstr_app_nul by (by eapply utf8_encode_ok). by apply utf8_decode_encode.
Qed.

End Conversions.
