(* ===== verification/TypeQuery.v ===== *)
(** * Queries for types by name

    Models, from ctp_wrap.cpp, [SWIG_Python_TypeCache],
    [SWIG_PyDict_GetItemStringRef], [SWIG_Python_GetModule],
    [SWIG_Python_TypeQuery] and [SWIG_pchar_descriptor]: a query is answered from
    a dictionary when its name was asked for before, and from the type table
    otherwise.  [PyCapsule_Import], through which the modules are found, is a
    parameter.  The reference is [SWIG_TypeQueryModule], of which this file also
    says what it answers for the types of the module. *)

From S2P Require Import Prelude TypeNames Search TypeTable CtpTypes Utf8 World Runtime SwigObject Conversions.

Module TypeQuery.
Import TypeNames Search TypeTable Utf8 World Runtime SwigObject Conversions.

(** A descriptor: its module's position and its index. *)
Abbreviation descriptor := (nat * Z)%type.
Abbreviation modules := (list (list swig_type_info)).

(** ** The cache *)

(** [Swig_TypeCache_global], 0 when null, and the items of the dictionary: the
    capsule and the pointer in it. *)
Record type_cache := mk_cache { tc_dict : Z; tc_items : gmap (list Z) (Z * descriptor) }.

Definition SWIG_Python_TypeCache (c : type_cache) : M type_cache :=
  if tc_dict c =? 0 then d <- new_object OOther ;; ret (mk_cache d ∅) else ret c.

(** Strict UTF-8, 0 with an error when the bytes are not. *)
Definition PyUnicode_FromString (key : list Z) : M Z :=
  let cps := utf8_decode key in
  if existsb is_surrogate cps then PyErr_SetString ValueError (chars "invalid utf-8") ;;; ret 0
  else new_object (OStr cps).

(** [None] when there is no item, or no key. *)
Definition SWIG_PyDict_GetItemStringRef (c : type_cache) (key : list Z) : M (option (Z * descriptor)) :=
  key_obj <- PyUnicode_FromString key ;;
  if key_obj =? 0 then ret None
  else
    cps <- str_text key_obj ;;
    res <- match tc_items c !! cps with
           | Some item => Py_INCREF (fst item) ;;; ret (Some item)
           | None => ret None
           end ;;
    Py_DECREF key_obj ;;; ret res.

(** The dictionary holds a reference of its own to the item. *)
Definition PyDict_SetItemString (c : type_cache) (key : list Z) (item : Z * descriptor) : M type_cache :=
  kv <- PyUnicode_FromString key ;;
  if kv =? 0 then ret c
  else cps <- str_text kv ;; Py_DECREF kv ;;; ret (mk_cache (tc_dict c) (<[cps := item]> (tc_items c))).

(** [PyCapsule_Import] gives what the capsule holds, or null with an error set. *)
Definition SWIG_Python_GetModule {A} (PyCapsule_Import : M (option A)) : M (option A) :=
  type_pointer <- PyCapsule_Import ;;
  error <- PyErr_Occurred ;;
  match error with Some _ => PyErr_Clear ;;; ret None | None => ret type_pointer end.

Section Query.
(** [PyCapsule_Import]: the modules, or null with an error set. *)
Context (PyCapsule_Import : M (option modules)).

(** A null module is dereferenced. *)
Definition SWIG_Python_TypeQuery (c : type_cache) (type : list Z) : M (option descriptor * type_cache) :=
  cache <- SWIG_Python_TypeCache c ;;
  obj <- SWIG_PyDict_GetItemStringRef cache type ;;
  match obj with
  | Some (o, d) => Py_XDECREF o ;;; ret (Some d, cache)
  | None =>
      swig_module <- SWIG_Python_GetModule PyCapsule_Import ;;
      match swig_module with
      | None => stuck BadObject
      | Some iter =>
          match SWIG_TypeQueryModule iter type with
          | None => stuck Endless
          | Some None => Py_XDECREF 0 ;;; ret (None, cache)
          | Some (Some d) =>
              o <- new_object OOther ;;
              cache' <- PyDict_SetItemString cache type (o, d) ;;
              Py_XDECREF o ;;; ret (Some d, cache')
          end
      end
  end.

(** The static variable [info] of [SWIG_pchar_descriptor] and the cache. *)
Definition pchar_descriptor (info : option descriptor) (c : type_cache)
    : M (option descriptor * type_cache) :=
  match info with
  | Some d => ret (Some d, c)
  | None => SWIG_Python_TypeQuery c (chars "_p_char")
  end.

(** Queries one after the other. *)
Fixpoint query_all (c : type_cache) (types : list (list Z)) : M (list (option descriptor) * type_cache) :=
  match types with
  | [] => ret ([], c)
  | t :: types' =>
      r <- SWIG_Python_TypeQuery c t ;;
      rs <- query_all (snd r) types' ;;
      ret (fst r :: fst rs, snd rs)
  end.
End Query.

(** ** Lemmas *)

(** *** The cache *)

(** The lock is held, the error indicator is as it was and native code owns [d] more. *)
Record settled (d : Z -> Z) (w w' : world) : Prop := {
  st_gil : w_gil w' = true;
  st_fresh : fresh_ok w';
  st_err : w_err w' = w_err w;
  st_refs : forall x, refs w' x = refs w x + d x;
}.

Lemma settled_trans d e w1 w2 w3 : settled d w1 w2 -> settled e w2 w3 -> settled (fun x => d x + e x) w1 w3.
Proof.
  intros [A1 A2 A3 A4] [B1 B2 B3 B4]. constructor; [done|done|congruence|]. intros x. rewrite B4, A4. lia.
Qed.

Lemma settled_ext d e w w' : (forall x, d x = e x) -> settled d w w' -> settled e w w'.
Proof. intros Hde [A1 A2 A3 A4]. constructor; try done. intros x. by rewrite A4, Hde. Qed.

Lemma settled_new v w : w_gil w = true -> fresh_ok w ->
  exists w1, new_object v w = (Ret (w_fresh w), w1) /\ w_fresh w <> 0 /\ w_heap w1 !! w_fresh w = Some v
    /\ settled (cnt [w_fresh w]) w w1.
Proof.
  intros Hg Hf. destruct (new_object_run v w Hg Hf) as (w1 & E & Hz & H1 & H2 & H3 & _ & _ & _ & H4 & _ & H5).
  exists w1. split; [done|]. split; [done|]. split; [done|]. constructor; try done.
  intros x. by rewrite H5, one_nonzero.
Qed.

Lemma settled_ref o n w : w_gil w = true -> fresh_ok w -> settled (fun x => if decide (o = x) then n else 0) w (add_ref o n w).
Proof. intros Hg Hf. constructor; try done. intros x. apply refs_add. Qed.

(** ASCII names are their own text. *)
Lemma ascii_decode key : ascii key -> utf8_decode key = key /\ existsb is_surrogate key = false.
Proof.
  intros Ha. split; [apply utf8_decode_encode; by apply utf8_encode_ascii|].
  induction Ha as [|c key Hc Ha IH]; [done|]. cbn [existsb]. rewrite IH, orb_false_r. unfold is_surrogate.
  by rewrite (proj2 (Z.leb_gt _ _)) by lia.
Qed.

Lemma from_string_run key w : ascii key -> w_gil w = true -> fresh_ok w ->
  exists w1, PyUnicode_FromString key w = (Ret (w_fresh w), w1) /\ w_fresh w <> 0
    /\ str_text (w_fresh w) w1 = (Ret key, w1) /\ settled (cnt [w_fresh w]) w w1.
Proof.
  intros Ha Hg Hf. unfold PyUnicode_FromString. destruct (ascii_decode key Ha) as [-> ->].
  destruct (settled_new (OStr key) w Hg Hf) as (w1 & E & Hz & Ho & S).
  exists w1. split; [done|]. split; [done|]. split; [|done]. by apply str_text_eq; [apply S|].
Qed.

Lemma get_item_run c key w : ascii key -> w_gil w = true -> fresh_ok w ->
  exists w', SWIG_PyDict_GetItemStringRef c key w = (Ret (tc_items c !! key), w')
    /\ settled (fun x => match tc_items c !! key with Some it => cnt [fst it] x | None => 0 end) w w'.
Proof.
  intros Ha Hg Hf. unfold SWIG_PyDict_GetItemStringRef.
  destruct (from_string_run key w Ha Hg Hf) as (w1 & E1 & Hz & E2 & S1). set (k := w_fresh w) in *.
  rewrite (bind_eq _ _ _ _ _ E1), (proj2 (Z.eqb_neq _ _) Hz), (bind_eq _ _ _ _ _ E2).
  set (w2 := match tc_items c !! key with Some it => add_ref (fst it) 1 w1 | None => w1 end).
  assert (E3 : match tc_items c !! key with
               | Some item => Py_INCREF (fst item) ;;; ret (Some item) | None => ret None end w1
               = (Ret (tc_items c !! key), w2)).
  { unfold w2. destruct (tc_items c !! key) as [it|]; [|done].
    by rewrite (bind_eq _ _ _ _ _ (incref_eq w1 (st_gil _ _ _ S1) _)). }
  rewrite (bind_eq _ _ _ _ _ E3).
  assert (S2 : settled (fun x => match tc_items c !! key with Some it => cnt [fst it] x | None => 0 end) w1 w2).
  { unfold w2. destruct (tc_items c !! key) as [it|].
    - eapply settled_ext; [|apply settled_ref; apply S1]. intros x. by rewrite cnt_single.
    - constructor; try apply S1; [done|]. intros x. lia. }
  rewrite (bind_eq _ _ _ _ _ (decref_eq w2 (st_gil _ _ _ S2) k Hz)). eexists. split; [reflexivity|].
  pose proof (settled_trans _ _ _ _ _ (settled_trans _ _ _ _ _ S1 S2) (settled_ref k (-1) w2 (st_gil _ _ _ S2) (st_fresh _ _ _ S2))) as S.
  eapply settled_ext; [|exact S]. intros x. cbn beta. rewrite (cnt_single k x). case_decide; lia.
Qed.

Lemma set_item_run c key item w : ascii key -> w_gil w = true -> fresh_ok w ->
  exists w', PyDict_SetItemString c key item w = (Ret (mk_cache (tc_dict c) (<[key := item]> (tc_items c))), w')
    /\ settled (fun _ => 0) w w'.
Proof.
  intros Ha Hg Hf. unfold PyDict_SetItemString.
  destruct (from_string_run key w Ha Hg Hf) as (w1 & E1 & Hz & E2 & S1). set (k := w_fresh w) in *.
  rewrite (bind_eq _ _ _ _ _ E1), (proj2 (Z.eqb_neq _ _) Hz), (bind_eq _ _ _ _ _ E2).
  rewrite (bind_eq _ _ _ _ _ (decref_eq w1 (st_gil _ _ _ S1) k Hz)). eexists. split; [reflexivity|].
  pose proof (settled_trans _ _ _ _ _ S1 (settled_ref k (-1) w1 (st_gil _ _ _ S1) (st_fresh _ _ _ S1))) as S.
  eapply settled_ext; [|exact S]. intros x. cbn beta. rewrite cnt_single. case_decide; lia.
Qed.

Section Cached.
Context (PyCapsule_Import : M (option modules)) (iter : modules).

(** The capsule is found: the modules, and nothing else changes. *)
Definition imports : Prop := forall w, w_gil w = true -> fresh_ok w ->
  exists w', PyCapsule_Import w = (Ret (Some iter), w') /\ settled (fun _ => 0) w w'.
Context (Himport : imports).

(** Everything in the cache is what the table answers. *)
Definition cache_ok (c : type_cache) : Prop := forall key o d, tc_items c !! key = Some (o, d) ->
  o <> 0 /\ SWIG_TypeQueryModule iter key = Some (Some d).

Lemma type_cache_run c w : cache_ok c -> w_gil w = true -> fresh_ok w ->
  exists c' w', SWIG_Python_TypeCache c w = (Ret c', w') /\ cache_ok c' /\ tc_dict c' <> 0
    /\ settled (fun x => cnt (one (tc_dict c')) x - cnt (one (tc_dict c)) x) w w'.
Proof.
  intros Hc Hg Hf. unfold SWIG_Python_TypeCache. destruct (tc_dict c =? 0) eqn:Ez; zbool.
  - destruct (settled_new OOther w Hg Hf) as (w1 & E & Hz & _ & S). rewrite (bind_eq _ _ _ _ _ E).
    eexists _, w1. split; [reflexivity|]. split; [intros key o d Hk; cbn in Hk; by rewrite lookup_empty in Hk|]. split; [done|].
    eapply settled_ext; [|exact S]. intros x. cbn [tc_dict]. rewrite Ez, one_nonzero by done. change (cnt (one 0) x) with 0. lia.
  - exists c, w. split; [done|]. split; [done|]. split; [done|]. constructor; try done. intros x. lia.
Qed.

Lemma query_run c type r w : cache_ok c -> ascii type -> SWIG_TypeQueryModule iter type = Some r ->
  w_gil w = true -> w_err w = None -> fresh_ok w ->
  exists c' w', SWIG_Python_TypeQuery PyCapsule_Import c type w = (Ret (r, c'), w') /\ cache_ok c' /\ tc_dict c' <> 0
    /\ settled (fun x => cnt (one (tc_dict c')) x - cnt (one (tc_dict c)) x) w w'.
Proof.
  intros Hc Ha Hq Hg He Hf. unfold SWIG_Python_TypeQuery.
  destruct (type_cache_run c w Hc Hg Hf) as (c1 & w1 & E1 & Hc1 & Hd1 & S1). rewrite (bind_eq _ _ _ _ _ E1).
  destruct (get_item_run c1 type w1 Ha (st_gil _ _ _ S1) (st_fresh _ _ _ S1)) as (w2 & E2 & S2).
  rewrite (bind_eq _ _ _ _ _ E2). destruct (tc_items c1 !! type) as [[o d]|] eqn:Ei.
  - destruct (Hc1 type o d Ei) as [Ho Hd]. rewrite Hq in Hd. injection Hd as ->.
    rewrite (bind_eq _ _ _ _ _ (xdecref_eq w2 (st_gil _ _ _ S2) o Ho)). eexists _, _. split; [reflexivity|].
    split; [done|]. split; [done|].
    pose proof (settled_trans _ _ _ _ _ S2 (settled_ref o (-1) w2 (st_gil _ _ _ S2) (st_fresh _ _ _ S2))) as S3.
    eapply settled_ext; [|exact (settled_trans _ _ _ _ _ S1 S3)]. intros x. cbn [fst]. rewrite cnt_single. case_decide; lia.
  - destruct (Himport w2 (st_gil _ _ _ S2) (st_fresh _ _ _ S2)) as (w3 & E3 & S3).
    pose proof (settled_trans _ _ _ _ _ (settled_trans _ _ _ _ _ S1 S2) S3) as S13.
    assert (Em : SWIG_Python_GetModule PyCapsule_Import w2 = (Ret (Some iter), w3)).
    { unfold SWIG_Python_GetModule. rewrite (bind_eq _ _ _ _ _ E3), (bind_eq _ _ _ _ _ (occurred_eq w3 (st_gil _ _ _ S3))).
      by rewrite (st_err _ _ _ S13), He. }
    rewrite (bind_eq _ _ _ _ _ Em), Hq. destruct r as [d|].
    + destruct (settled_new OOther w3 (st_gil _ _ _ S3) (st_fresh _ _ _ S3)) as (w4 & E4 & Hz & _ & S4).
      set (o := w_fresh w3) in *. rewrite (bind_eq _ _ _ _ _ E4).
      destruct (set_item_run c1 type (o, d) w4 Ha (st_gil _ _ _ S4) (st_fresh _ _ _ S4)) as (w5 & E5 & S5).
      rewrite (bind_eq _ _ _ _ _ E5), (bind_eq _ _ _ _ _ (xdecref_eq w5 (st_gil _ _ _ S5) o Hz)).
      eexists _, _. split; [reflexivity|]. split; [|split; [exact Hd1|]].
      * intros key o' d' Hk. cbn in Hk. apply lookup_insert_Some in Hk as [[<- [= <- <-]]|[_ Hk]]; [done|by apply Hc1].
      * pose proof (settled_trans _ _ _ _ _ (settled_trans _ _ _ _ _ S4 S5)
          (settled_ref o (-1) w5 (st_gil _ _ _ S5) (st_fresh _ _ _ S5))) as S6.
        eapply settled_ext; [|exact (settled_trans _ _ _ _ _ S13 S6)]. intros x. cbn beta. rewrite (cnt_single o x).
        cbn [tc_dict]. case_decide; lia.
    + rewrite (bind_eq _ _ _ _ _ (xdecref_null w3 (st_gil _ _ _ S3))). eexists _, _. split; [reflexivity|].
      split; [done|]. split; [done|]. eapply settled_ext; [|exact S13]. intros x. cbn beta. lia.
Qed.

Lemma query_all_run types c w : cache_ok c -> Forall ascii types ->
  Forall (fun t => is_Some (SWIG_TypeQueryModule iter t)) types ->
  w_gil w = true -> w_err w = None -> fresh_ok w ->
  exists rs c' w', query_all PyCapsule_Import c types w = (Ret (rs, c'), w') /\ cache_ok c'
    /\ Forall2 (fun t r => SWIG_TypeQueryModule iter t = Some r) types rs
    /\ settled (fun x => cnt (one (tc_dict c')) x - cnt (one (tc_dict c)) x) w w'.
Proof.
  revert c w; induction types as [|t types IH]; intros c w Hc Ha Hq Hg He Hf.
  { exists [], c, w. split; [done|]. split; [done|]. split; [constructor|]. constructor; try done. intros x. lia. }
  inversion Ha as [|? ? Ha1 Ha2]; subst. inversion Hq as [|? ? [r Hr] Hq2]; subst. cbn [query_all].
  destruct (query_run c t r w Hc Ha1 Hr Hg He Hf) as (c1 & w1 & E1 & Hc1 & _ & S1). rewrite (bind_eq _ _ _ _ _ E1).
  destruct (IH c1 w1 Hc1 Ha2 Hq2) as (rs & c2 & w2 & E2 & Hc2 & HF & S2).
  { apply S1. } { by rewrite (st_err _ _ _ S1). } { apply S1. }
  cbn [fst snd]. rewrite (bind_eq _ _ _ _ _ E2). exists (r :: rs), c2, w2. split; [done|]. split; [done|].
  split; [by constructor|]. eapply settled_ext; [|exact (settled_trans _ _ _ _ _ S1 S2)]. intros x. cbn beta. lia.
Qed.
End Cached.

(** *** What the type table answers *)

(** The names between the bars. *)
Fixpoint alternatives (s : list Z) : list (list Z) :=
  match s with
  | [] => [[]]
  | c :: s' => if c =? bar then [] :: alternatives s'
               else match alternatives s' with n :: ns => (c :: n) :: ns | [] => [[c]] end
  end.

Lemma alternatives_cons s : exists n ns, alternatives s = n :: ns.
Proof. destruct s as [|c s]; cbn; [eauto|]. destruct (c =? bar); [eauto|]. destruct (alternatives s); eauto. Qed.

Lemma join_alternatives s : join (alternatives s) = s.
Proof.
  induction s as [|c s IH]; [done|]. cbn [alternatives]. destruct (alternatives_cons s) as (n & ns & E).
  destruct (c =? bar) eqn:Ec; zbool; rewrite E in *.
  - subst c. cbn in *. by rewrite IH.
  - rewrite <- IH. by destruct ns.
Qed.

(** Checked of each descriptor: its names are as SWIG writes them. *)
Definition name_okb (n : list Z) : bool :=
  negb (bool_decide (n = [])) && forallb (fun c => negb (c =? 0) && negb (c =? bar)) n
  && negb (bool_decide (last n = Some space)) && (Z.of_nat (length n) <? 2 ^ 31).

Lemma name_okb_spec n : name_okb n = true -> plain_name n /\ Z.of_nat (length n) < 2 ^ 31.
Proof.
  unfold name_okb. rewrite !andb_true_iff, !negb_true_iff, !bool_decide_eq_false, Z.ltb_lt, forallb_forall.
  intros [[[H1 H2] H3] H4]. split; [|done]. split_and!; try done.
  - apply Forall_forall. intros c Hc%list_elem_of_In. specialize (H2 c Hc).
    rewrite andb_true_iff, !negb_true_iff, !Z.eqb_neq in H2. tauto.
  - apply Forall_forall. intros c Hc%list_elem_of_In. specialize (H2 c Hc).
    rewrite andb_true_iff, !negb_true_iff, !Z.eqb_neq in H2. tauto.
Qed.

Lemma swigt_names : forallb (fun p => forallb name_okb (alternatives (chars (snd p)))) CtpTypes.swigt = true.
Proof. vm_compute. reflexivity. Qed.

(** The readable names of a type, and whether one of them is the name asked for. *)
Definition answers (p : string * string) (name : list Z) : Prop :=
  Exists (fun n => despace n = despace name) (alternatives (chars (snd p))).

Definition scan_spec (l : list (string * string)) (name : list Z) (base : Z) (r : option Z) : Prop :=
  match r with
  | Some i => exists k p, i = base + Z.of_nat k /\ l !! k = Some p /\ answers p name
                /\ forall k' q, (k' < k)%nat -> l !! k' = Some q -> ~ answers q name
  | None => forall p, p ∈ l -> ~ answers p name
  end.

Lemma scan_str_run l name base : no_trailing_space name -> Z.of_nat (length name) < 2 ^ 31 ->
  forallb (fun p => forallb name_okb (alternatives (chars (snd p)))) l = true ->
  exists r, scan_str (map CtpTypes.info_of l) name base = Some r /\ scan_spec l name base r.
Proof.
  intros Hts Hlen. revert base; induction l as [|p l IH]; intros base Hok.
  { exists None. split; [done|]. by intros p ?%elem_of_nil. }
  cbn [forallb] in Hok. apply andb_true_iff in Hok as [Hp Hl]. cbn [map scan_str CtpTypes.info_of ti_str].
  rewrite forallb_forall in Hp.
  assert (HF : Forall (fun n => plain_name n /\ Z.of_nat (length n) < 2 ^ 31) (alternatives (chars (snd p)))).
  { apply Forall_forall. intros n Hn%list_elem_of_In. by apply name_okb_spec, Hp. }
  destruct (type_equiv_spec (alternatives (chars (snd p))) name) as (q & Eq & Hq & Hiff).
  { destruct (alternatives_cons (chars (snd p))) as (n & ns & ->). done. }
  { eapply Forall_impl; [exact HF|]. by intros n []. } { done. }
  { constructor; [done|]. eapply Forall_impl; [exact HF|]. by intros n []. }
  rewrite join_alternatives in Eq. rewrite Eq. destruct Hq as [->| ->]; cbn [Z.eqb negb].
  - destruct (IH (base + 1) Hl) as (r & E & Hr). exists r. split; [exact E|].
    assert (Hnp : ~ answers p name) by (intros H; by apply Hiff in H). destruct r as [i|].
    + destruct Hr as (k & q & -> & Hk & Ha & Hb). exists (S k), q. split; [lia|]. split; [done|]. split; [done|].
      intros [|k'] q' Hlt Hk'; cbn in Hk'; [by simplify_eq|]. apply (Hb k'); [lia|done].
    + intros q [->|Hq]%elem_of_cons; [done|]. by apply Hr.
  - exists (Some base). split; [done|]. exists O, p. split; [lia|]. split; [done|]. split; [by apply Hiff|].
    intros; lia.
Qed.

#[local] Opaque CtpTypes.swigt CtpTypes.swig_types.

Lemma query_mangled iter name r :
  SWIG_MangledTypeQueryModule iter name = Some (Some r) -> SWIG_TypeQueryModule iter name = Some (Some r).
Proof. unfold SWIG_TypeQueryModule. by intros ->. Qed.

(** The answer of the module to a name. *)
Definition query_answer (name : list Z) (r : option descriptor) : Prop :=
  match r with
  | Some (m, i) => m = O /\ exists k p, i = Z.of_nat k /\ CtpTypes.swigt !! k = Some p
      /\ (name = chars (fst p)
          \/ answers p name /\ (forall q, q ∈ CtpTypes.swigt -> name <> chars (fst q))
             /\ forall k' q, (k' < k)%nat -> CtpTypes.swigt !! k' = Some q -> ~ answers q name)
  | None => forall p, p ∈ CtpTypes.swigt -> name <> chars (fst p) /\ ~ answers p name
  end.

Lemma ctp_module_wf : Forall module_wf [CtpTypes.swig_types].
Proof.
  constructor; [|constructor]. exists (map (fun p => chars (fst p)) CtpTypes.swigt).
  split; [apply CtpTypes.swig_types_names|apply CtpTypes.swigt_sorted].
Qed.

Lemma ctp_query_run name : no_trailing_space name -> Z.of_nat (length name) < 2 ^ 31 ->
  exists r, SWIG_TypeQueryModule [CtpTypes.swig_types] name = Some r /\ query_answer name r.
Proof.
  intros Hts Hlen. unfold SWIG_TypeQueryModule.
  destruct (mangled_query_correct [CtpTypes.swig_types] name ctp_module_wf) as (r & -> & Hr).
  destruct r as [[m i]|].
  - eexists. split; [reflexivity|]. destruct Hr as (Hi & (types & ty & Hm & Hty & Hn) & _).
    destruct m as [|m]; [|by destruct m]. cbn in Hm. injection Hm as <-. split; [done|].
    rewrite CtpTypes.swig_types_eq, list_lookup_fmap in Hty.
    destruct (CtpTypes.swigt !! Z.to_nat i) as [p|] eqn:Hp; [|done]. cbn in Hty. injection Hty as <-.
    cbn in Hn. injection Hn as <-. exists (Z.to_nat i), p. split; [lia|]. split; [done|]. by left.
  - assert (Hno : forall q, q ∈ CtpTypes.swigt -> name <> chars (fst q)).
    { intros q Hq ->. apply (Hr CtpTypes.swig_types (CtpTypes.info_of q)); [left| |done].
      rewrite CtpTypes.swig_types_eq. by apply list_elem_of_fmap_2. }
    cbn [scan_modules]. rewrite CtpTypes.swig_types_eq.
    destruct (scan_str_run CtpTypes.swigt name 0 Hts Hlen swigt_names) as (r & -> & Hs). destruct r as [i|].
    + eexists. split; [reflexivity|]. split; [done|]. destruct Hs as (k & p & -> & Hk & Ha & Hb). exists k, p.
      split; [lia|]. split; [done|]. right. by split_and!.
    + eexists. split; [reflexivity|]. intros p Hp. split; [by apply Hno|by apply Hs].
Qed.

(** ** Properties *)

(** C21. The types of the module by name: for every name that does not end in a
    space the query ends, without a limit on its steps.  A mangled name finds its
    own descriptor; any other name finds the first descriptor one of whose
    readable names equals it up to spaces; and when there is neither the answer
    is null. *)
Theorem ctp_type_query name : no_trailing_space name -> Z.of_nat (length name) < 2 ^ 31 ->
  exists r, SWIG_TypeQueryModule [CtpTypes.swig_types] name = Some r /\ query_answer name r.
Proof. apply ctp_query_run. Qed.

Lemma ctp_type_query_witness :
  exists r, SWIG_TypeQueryModule [CtpTypes.swig_types] (chars "CThostFtdcBrokerField*") = Some r
    /\ query_answer (chars "CThostFtdcBrokerField*") r.
Proof. apply (ctp_type_query (chars "CThostFtdcBrokerField*")); [discriminate|reflexivity]. Defined.

(** C20. The cache is transparent: any sequence of queries for ASCII names that do
    not end in a space, starting without a cache and with no error set, gives
    name by name what the type table itself answers, whatever was asked
    before; no error is set, and the only reference that is kept is the one to
    the dictionary. *)
Theorem type_cache_transparent import types w :
  imports import [CtpTypes.swig_types] -> Forall ascii types ->
  Forall (fun t => no_trailing_space t /\ Z.of_nat (length t) < 2 ^ 31) types ->
  w_gil w = true -> w_err w = None -> fresh_ok w ->
  exists rs c w', query_all import (mk_cache 0 ∅) types w = (Ret (rs, c), w')
    /\ Forall2 (fun t r => SWIG_TypeQueryModule [CtpTypes.swig_types] t = Some r) types rs
    /\ w_gil w' = true /\ w_err w' = None /\ (forall x, refs w' x = refs w x + cnt (one (tc_dict c)) x).
Proof.
  intros Hi Ha Ht Hg He Hf.
  destruct (query_all_run import [CtpTypes.swig_types] Hi types (mk_cache 0 ∅) w) as (rs & c & w' & E & _ & HF & S); try done.
  { eapply Forall_impl; [exact Ht|]. intros t [H1 H2]. destruct (ctp_query_run t H1 H2) as (r & Hr & _). eauto. }
  exists rs, c, w'. split; [done|]. split; [done|]. split; [apply S|]. split; [by rewrite (st_err _ _ _ S)|].
  intros x. rewrite (st_refs _ _ _ S). change (cnt (one (tc_dict (mk_cache 0 ∅))) x) with 0. lia.
Qed.

Definition sample_import : M (option modules) := ret (Some [CtpTypes.swig_types]).
Lemma sample_imports : imports sample_import [CtpTypes.swig_types].
Proof. intros w Hg Hf. exists w. split; [reflexivity|]. constructor; try assumption; [reflexivity|]. intros x. lia. Qed.

Lemma type_cache_transparent_witness :
  exists rs c w', query_all sample_import (mk_cache 0 ∅) [chars "_p_char"; chars "nothing"; chars "_p_char"] sample_world
                  = (Ret (rs, c), w')
    /\ Forall2 (fun t r => SWIG_TypeQueryModule [CtpTypes.swig_types] t = Some r)
         [chars "_p_char"; chars "nothing"; chars "_p_char"] rs.
Proof.
  destruct (type_cache_transparent sample_import [chars "_p_char"; chars "nothing"; chars "_p_char"] sample_world
    sample_imports) as (rs & c & w' & E & HF & _).
  - repeat constructor; discriminate.
  - repeat constructor; discriminate.
  - reflexivity.
  - reflexivity.
  - split; [discriminate|]. intros o Ho. cbn [w_fresh sample_world] in Ho. cbn [w_heap sample_world].
    rewrite !lookup_insert_ne by lia. apply lookup_singleton_ne. lia.
  - exists rs, c, w'. split; [exact E|exact HF].
Defined.

(** The descriptor of strings: in any state of the cache reached by earlier
    queries, [SWIG_pchar_descriptor] gives the descriptor the conversions of
    strings use, whether its static variable is still null or holds an earlier
    answer. *)
Lemma pchar_descriptor_cached import c w (first : bool) :
  imports import [CtpTypes.swig_types] -> cache_ok [CtpTypes.swig_types] c ->
  w_gil w = true -> w_err w = None -> fresh_ok w ->
  exists r c' w', pchar_descriptor import (if first then None else Some (O, 524)) c w = (Ret (Some r, c'), w')
    /\ Some (Z.to_nat (snd r)) = SWIG_pchar_descriptor /\ w_err w' = None
    /\ (forall x, refs w' x = refs w x + (cnt (one (tc_dict c')) x - cnt (one (tc_dict c)) x)).
Proof.
  intros Hi Hc Hg He Hf. rewrite pchar_descriptor_eq. destruct first; cbn [pchar_descriptor].
  - assert (Hq : SWIG_TypeQueryModule [CtpTypes.swig_types] (chars "_p_char") = Some (Some (O, 524))).
    { apply query_mangled. apply (CtpTypes.macro_resolves 524 ("p_char", 524)%string eq_refl). }
    destruct (query_run import [CtpTypes.swig_types] Hi c (chars "_p_char") (Some (O, 524)) w Hc) as (c' & w' & E & _ & _ & S);
      [repeat constructor; discriminate|exact Hq|exact Hg|exact He|exact Hf|].
    eexists _, c', w'. split; [exact E|]. split; [reflexivity|]. split; [by rewrite (st_err _ _ _ S)|exact (st_refs _ _ _ S)].
  - eexists (O, 524), c, w. split; [reflexivity|]. split; [reflexivity|]. split; [done|]. intros x. lia.
Qed.
#[local] Transparent CtpTypes.swigt CtpTypes.swig_types.

End TypeQuery.
