(* ===== verification/Iconv.v ===== *)
(** * Text of CTP structures: GBK to UTF-8

    Models the cached conversion handle [_ctp_get_iconv], the out typemap for
    [char [ANY]] that the string getters of ctp_wrap.cpp share, and the
    [iconv] replacement used on Windows.  The conversion itself is a library:
    [IconvEnv] is what one call does with a whole input, and [IconvLaws] what
    is documented of it. *)

From S2P Require Import Prelude Utf8 World Runtime Conversions.

Module Iconv.
Import Utf8 World Runtime Conversions.

(** One call on the whole input with room for [outlen] bytes: the output, or a
    failure that has moved [inbuf] past [consumed] bytes. *)
Inductive conv_result := Converted (out : list Z) | Failed (consumed : nat).

Class IconvEnv := {
  iconv_open_result : Z;                       (** [iconv_open("UTF-8", "GBK")] *)
  iconv_run : list Z -> nat -> conv_result;
}.

(** GBK contains ASCII; the output fits; the input is not overrun. *)
Class IconvLaws (E : IconvEnv) : Prop := {
  iconv_ascii : forall s n, ascii s -> (length s <= n)%nat -> s <> [] -> iconv_run s n = Converted s;
  iconv_fits : forall s n out, iconv_run s n = Converted out -> (length out <= n)%nat;
  iconv_consumed : forall s n k, iconv_run s n = Failed k -> (k <= length s)%nat;
}.

(** ** The replacement on Windows *)

Section Windows.
(** [MultiByteToWideChar(936, 0, ...)] and [WideCharToMultiByte(CP_UTF8, 0, ...)]
    on a whole buffer; [None] is the result 0. *)
Context (mb_to_wide : list Z -> option (list Z)) (wide_to_utf8 : list Z -> option (list Z)).

Definition win_iconv_open (utf8 gbk : bool) : Z := if negb utf8 || negb gbk then -1 else 1.

Definition win_iconv (s : list Z) (outbytesleft : nat) : conv_result :=
  match mb_to_wide s with
  | None => Failed 0
  | Some wide_buf =>
      if decide (length wide_buf = O) then Failed 0
      else match wide_to_utf8 wide_buf with
           | None => Failed 0
           | Some out => if decide (length out = O \/ outbytesleft < length out)%nat
                         then Failed 0 else Converted out
           end
  end.

Definition win_env : IconvEnv := {| iconv_open_result := win_iconv_open true true; iconv_run := win_iconv |}.
End Windows.

(** ** The out typemap *)

Section Out.
Context `{IconvEnv}.
(** [PyErr_WarnEx(PyExc_UnicodeWarning, msg, 1)]. *)
Context (PyErr_WarnEx : list Z -> M Z).

Definition _ctp_get_iconv : M Z :=
  h <- gets w_iconv ;;
  (if h =? -1 then modify (set_iconv iconv_open_result) else ret tt) ;;;
  gets w_iconv.

Definition buf_size : nat := 4096.

(** The warning that follows a fallback; 0 is the null result. *)
Definition warn_or (msg : list Z) (resultobj : Z) : M Z :=
  n <- PyErr_WarnEx msg ;; if n <? 0 then ret 0 else ret resultobj.

(** The block after [result = (char * ) ((arg1)->Field)]. *)
Definition string_out (field : string) (result : Z) : M Z :=
  if result =? 0 then ret 0
  else
    s <- c_string result ;;
    match s with
    | [] => SWIG_FromCharPtr (Some [])
    | _ =>
        conv <- _ctp_get_iconv ;;
        if conv =? -1 then
          resultobj <- SWIG_FromCharPtr (Some s) ;;
          warn_or (chars "Failed to initialize iconv.") resultobj
        else
          match iconv_run s buf_size with
          | Converted out => SWIG_FromCharPtrAndSize (Some out)
          | Failed consumed =>
              resultobj <- SWIG_FromCharPtr (Some (drop consumed s)) ;;
              warn_or (str_cat ["Failed to convert '"; field; "' from GBK to UTF-8."]%string) resultobj
          end
    end.
End Out.

(** ** Lemmas *)

(** The bytes of [l] lie at [p]. *)
Definition holds (w : world) (p : Z) (l : list Z) : Prop :=
  forall i b, l !! i = Some b -> w_mem w !! (p + Z.of_nat i) = Some b.

Lemma holds_cons w p b l : holds w p (b :: l) <-> w_mem w !! p = Some b /\ holds w (p + 1) l.
Proof.
  split.
  - intros Hh. split; [rewrite <- (Hh O b eq_refl); f_equal; lia|].
    intros i c Hi. rewrite <- (Hh (S i) c Hi). f_equal. lia.
  - intros [H0 H1] [|i] c Hi; simpl in Hi.
    + injection Hi as <-. rewrite <- H0. f_equal. lia.
    + rewrite <- (H1 i c Hi). f_equal. lia.
Qed.

Lemma holds_mapped w p l : holds w p l -> mapped w p (length l).
Proof.
  intros Hh i Hi. destruct (lookup_lt_is_Some_2 l i Hi) as [b Hb]. exists b. by apply Hh.
Qed.

Lemma load_holds w p l : holds w p l -> load p (length l) w = (Ret l, w).
Proof.
  intros Hh. destruct (load_mapped w p (length l) (holds_mapped w p l Hh)) as (bs & Hl & -> & Hb).
  do 2 f_equal. apply list_eq. intros i. destruct (decide (i < length l)%nat) as [Hi|Hi].
  - rewrite Hb by done. destruct (lookup_lt_is_Some_2 l i Hi) as [b E]. rewrite E. by apply Hh.
  - rewrite !lookup_ge_None_2 by lia. done.
Qed.

Lemma holds_bound w p l : holds w p l -> (length l <= size (w_mem w))%nat.
Proof.
  intros Hh. assert (E : length l = size (list_to_set (C := gset Z) (seqZ p (Z.of_nat (length l))))).
  { rewrite size_list_to_set, length_seqZ by apply NoDup_seqZ. lia. }
  rewrite E.
  rewrite <- size_dom. apply subseteq_size. intros x.
  rewrite elem_of_list_to_set, elem_of_seqZ. intros Hx. apply elem_of_dom.
  destruct (lookup_lt_is_Some_2 l (Z.to_nat (x - p))) as [b Hb]; [lia|].
  exists b. rewrite <- (Hh _ _ Hb). f_equal. lia.
Qed.

Lemma read_cstr_holds w p l fuel : holds w p (l ++ [0]) -> no_nul l -> (length l < fuel)%nat ->
  read_cstr fuel p w = (Ret l, w).
Proof.
  revert p fuel; induction l as [|c l IH]; intros p fuel Hh Hn Hf; (destruct fuel as [|fuel]; [lia|]);
    cbn [app read_cstr] in *; apply holds_cons in Hh as [H0 H1].
  - rewrite (bind_eq _ _ w [0] w); [done|].
    apply (load_holds w p [0]). apply holds_cons. split; [done|]. by intros i b Hi.
  - rewrite (bind_eq _ _ w [c] w).
    2: { apply (load_holds w p [c]). apply holds_cons. split; [done|]. by intros i b Hi. }
    inversion Hn; subst. rewrite (proj2 (Z.eqb_neq _ _)) by done.
    simpl in Hf. by rewrite (bind_eq _ _ _ _ _ (IH (p + 1) fuel H1 H4 ltac:(lia))).
Qed.

(** The C string at the head of memory that contains a NUL. *)
Lemma c_string_holds w p l r : holds w p (l ++ 0 :: r) -> no_nul l -> c_string p w = (Ret l, w).
Proof.
  intros Hh Hn. unfold c_string. rewrite (bind_eq (gets w_mem) _ w _ w eq_refl).
  pose proof (holds_bound _ _ _ Hh) as Hb. rewrite length_app in Hb. simpl in Hb.
  apply read_cstr_holds; [|done|lia].
  intros i b Hi. apply Hh. destruct (decide (i < length l)%nat).
  - rewrite lookup_app_l in Hi |- * by done. done.
  - rewrite lookup_app_r in Hi |- * by lia. destruct (i - length l)%nat; [done|].
    simpl in Hi. by destruct n0.
Qed.

Section OutLemmas.
Context `{IconvEnv} (warn : list Z -> M Z).

Lemma get_iconv_eq w : iconv_open_result <> -1 ->
  exists h, h <> -1 /\ _ctp_get_iconv w = (Ret h, set_iconv h w).
Proof.
  intros Ho. unfold _ctp_get_iconv. rewrite (bind_eq (gets w_iconv) _ w _ w eq_refl).
  destruct (w_iconv w =? -1) eqn:E; zbool.
  - exists iconv_open_result. split; [done|]. done.
  - exists (w_iconv w). split; [done|]. unfold bind, ret, gets. by destruct w.
Qed.

(** The handle the typemap uses: the cached one, or a new one. *)
Definition converter (w : world) : Z := if w_iconv w =? -1 then iconv_open_result else w_iconv w.

Lemma get_iconv_run w : _ctp_get_iconv w = (Ret (converter w), set_iconv (converter w) w).
Proof.
  unfold _ctp_get_iconv, converter. rewrite (bind_eq (gets w_iconv) _ w _ w eq_refl).
  destruct (w_iconv w =? -1) eqn:E; zbool; [done|]. unfold bind, ret, gets. by destruct w.
Qed.

(** The string object made for the bytes [b]. *)
Lemma text_made w h b : w_gil w = true ->
  exists w1, new_object (OStr (utf8_decode b)) (set_iconv h w) = (Ret (w_fresh w), w1)
    /\ w_heap w1 !! w_fresh w = Some (OStr (utf8_decode b)) /\ w_err w1 = w_err w /\ w_mem w1 = w_mem w /\ w_iconv w1 = h
    /\ (forall x, refs w1 x = refs w x + if decide (w_fresh w = x) then 1 else 0).
Proof.
  intros Hg. assert (Hg' : w_gil (set_iconv h w) = true) by done. eexists. split; [exact (new_object_eq _ Hg' _)|].
  split; [apply lookup_insert_eq|]. do 3 (split; [done|]). intros x.
  exact (refs_add (set_heap (<[w_fresh w := OStr (utf8_decode b)]> (w_heap w)) (set_iconv h w)) (w_fresh w) 1 x).
Qed.

Lemma warn_or_eq msg o w n w2 : warn msg w = (Ret n, w2) -> warn_or warn msg o w = (Ret (if n <? 0 then 0 else o), w2).
Proof. intros E. unfold warn_or. rewrite (bind_eq _ _ _ _ _ E). by destruct (n <? 0). Qed.

(** The getter on a string that is not empty, with a converter available. *)
Lemma string_out_eq w field p l r : p <> 0 -> l <> [] -> no_nul l -> holds w p (l ++ 0 :: r) ->
  iconv_open_result <> -1 ->
  exists h, h <> -1 /\ string_out warn field p w =
    match iconv_run l buf_size with
    | Converted out => SWIG_FromCharPtrAndSize (Some out) (set_iconv h w)
    | Failed consumed =>
        bind (SWIG_FromCharPtr (Some (drop consumed l)))
             (warn_or warn (str_cat ["Failed to convert '"; field; "' from GBK to UTF-8."]%string))
             (set_iconv h w)
    end.
Proof.
  intros Hp Hl Hn Hh Ho. destruct (get_iconv_eq w Ho) as (h & Hne & E). exists h. split; [done|].
  unfold string_out. rewrite (proj2 (Z.eqb_neq _ _) Hp).
  rewrite (bind_eq _ _ _ _ _ (c_string_holds w p l r Hh Hn)).
  destruct l as [|c l]; [done|]. rewrite (bind_eq _ _ _ _ _ E), (proj2 (Z.eqb_neq _ _) Hne).
  by destruct (iconv_run (c :: l) buf_size).
Qed.

Lemma string_out_empty w field p r : w_gil w = true -> p <> 0 -> holds w p (0 :: r) ->
  string_out warn field p w = SWIG_FromCharPtr (Some []) w.
Proof.
  intros Hg Hp Hh. unfold string_out. rewrite (proj2 (Z.eqb_neq _ _) Hp).
  by rewrite (bind_eq _ _ _ _ _ (c_string_holds w p [] r Hh (List.Forall_nil _))).
Qed.
End OutLemmas.

(** ** Properties *)

(** Windows conversion: when the two Windows functions are the identity on
    non-empty ASCII text, as code page 936 and UTF-8 are, the replacement
    satisfies what the typemap relies on, and a failed conversion always
    leaves the input pointer where it was. *)
Lemma win_iconv_laws mb_to_wide wide_to_utf8 :
  (forall s, ascii s -> s <> [] -> mb_to_wide s = Some s) ->
  (forall s, ascii s -> s <> [] -> wide_to_utf8 s = Some s) ->
  IconvLaws (win_env mb_to_wide wide_to_utf8)
  /\ forall s n k, win_iconv mb_to_wide wide_to_utf8 s n = Failed k -> k = O.
Proof.
  intros Hm Hu. split; [split|]; cbn [iconv_run win_env]; unfold win_iconv.
  - intros s n Ha Hl Hne. rewrite Hm, Hu by done.
    rewrite decide_False by (by destruct s). rewrite decide_False; [done|].
    intros [?|?]; [by destruct s|lia].
  - intros s n out. repeat case_match; try done. intros [= <-]. lia.
  - intros s n k. repeat case_match; try done; intros [= <-]; lia.
  - intros s n k. repeat case_match; try done; by intros [= <-].
Qed.

(** What the typemap does with the text [l] of a field: the bytes of the string
    it makes, and the warning it gives, if any. *)
Inductive shown `{IconvEnv} (field : string) (conv : Z) (l : list Z) : list Z -> option (list Z) -> Prop :=
| shown_empty : l = [] -> shown field conv l [] None
| shown_unconverted : l <> [] -> conv = -1 -> shown field conv l l (Some (chars "Failed to initialize iconv."))
| shown_converted out : l <> [] -> conv <> -1 -> iconv_run l buf_size = Converted out -> shown field conv l out None
| shown_rest k : l <> [] -> conv <> -1 -> iconv_run l buf_size = Failed k -> (k <= length l)%nat ->
    shown field conv l (drop k l) (Some (str_cat ["Failed to convert '"; field; "' from GBK to UTF-8."]%string)).

(** C39. The text a getter gives, for every text in a field that has its
    terminator and whatever [PyErr_WarnEx] returns: an empty text is the empty
    string; without a converter the bytes are decoded as UTF-8 as they are, with
    a warning; converted text is the decoded output; when the conversion fails
    the string is made of what follows the bytes [iconv] had already taken, since
    the typemap hands it its own pointer, with a warning, so that it is the whole
    text only when none were taken.  The handle is cached and memory is not
    changed.  The string carries the one new reference.  It is returned, unless the
    warning is turned into an error: then null is returned in the state the
    warning left, the reference to the string not released. *)
Theorem text_contract `{IconvEnv, !IconvLaws _} warn w field p l r :
  w_gil w = true -> p <> 0 -> no_nul l -> holds w p (l ++ 0 :: r) ->
  let get := string_out warn field p w in
  let o := w_fresh w in
  exists w1 b warning, shown field (converter w) l b warning
    /\ w_heap w1 !! o = Some (OStr (utf8_decode b)) /\ w_err w1 = w_err w /\ w_mem w1 = w_mem w
    /\ w_iconv w1 = (if decide (l = []) then w_iconv w else converter w)
    /\ (forall x, refs w1 x = refs w x + if decide (o = x) then 1 else 0)
    /\ match warning with
       | None => get = (Ret o, w1)
       | Some msg => forall n w2, warn msg w1 = (Ret n, w2) -> get = (Ret (if n <? 0 then 0 else o), w2)
       end
    /\ (forall k, l <> [] -> converter w <> -1 -> iconv_run l buf_size = Failed k -> (b = l <-> k = O)).
Proof.
  intros Hg Hp Hn Hh get o. unfold get, string_out. rewrite (proj2 (Z.eqb_neq _ _) Hp).
  rewrite (bind_eq _ _ _ _ _ (c_string_holds w p l r Hh Hn)). destruct l as [|c l'] eqn:El.
  { destruct (text_made w (w_iconv w) [] Hg) as (w1 & E & Hrest). exists w1, [], None.
    replace (set_iconv (w_iconv w) w) with w in E by (by destruct w). split; [by constructor|].
    destruct Hrest as (R1 & R2 & R3 & R4 & R5). by split_and!. }
  rewrite <- El in *. assert (Hl : l <> []) by by subst. rewrite decide_False by done.
  rewrite (bind_eq _ _ _ _ _ (get_iconv_run w)). destruct (converter w =? -1) eqn:Ec; zbool.
  - destruct (text_made w (converter w) l Hg) as (w1 & E & R1 & R2 & R3 & R4 & R5).
    exists w1, l, (Some (chars "Failed to initialize iconv.")). split; [by constructor|]. do 5 (split; [done|]).
    split; [|done]. intros n w2 Ew. unfold SWIG_FromCharPtr, SWIG_FromCharPtrAndSize. rewrite (cstr_id l Hn), (bind_eq _ _ _ _ _ E).
    by apply warn_or_eq.
  - destruct (iconv_run l buf_size) as [out|k] eqn:Er.
    + destruct (text_made w (converter w) out Hg) as (w1 & E & R1 & R2 & R3 & R4 & R5). exists w1, out, None.
      split; [by constructor|]. by split_and!.
    + destruct (text_made w (converter w) (drop k l) Hg) as (w1 & E & R1 & R2 & R3 & R4 & R5). eexists w1, (drop k l), (Some _).
      split; [apply shown_rest; [done|done|done|by eapply iconv_consumed]|]. do 5 (split; [done|]). split.
      * intros n w2 Ew. unfold SWIG_FromCharPtr, SWIG_FromCharPtrAndSize.
        rewrite (cstr_id (drop k l)) by by apply Forall_drop. rewrite (bind_eq _ _ _ _ _ E). by apply warn_or_eq.
      * intros k' _ _ [= <-]. split; [|by intros ->]. intros Ed%(f_equal length). rewrite length_drop in Ed.
        apply iconv_consumed in Er. destruct l; [done|]. simpl in *. lia.
Qed.

(** A converter that, as GBK does, takes the pair 0xE4 0xB9 as one character
    and finds the lead byte 0xB0 incomplete. *)
Definition sample_gbk : IconvEnv := {|
  iconv_open_result := 1;
  iconv_run s n := if decide (s = [0xE4; 0xB9; 0xB0]) then Failed 2
                   else if decide (length s <= n)%nat then Converted s else Failed 0 |}.
Definition sample_text : world :=
  mk_world ∅ ∅ 100 None true
    {[500 := 0xE4; 501 := 0xB9; 502 := 0xB0; 503 := 0]} ∅ 1000 ∅ (-1) [].

Lemma sample_gbk_laws : IconvLaws sample_gbk.
Proof.
  split; cbn [iconv_run sample_gbk].
  - intros t n Ha Hn _. rewrite decide_False, decide_True; [done|done|]. intros ->. inversion Ha; lia.
  - intros t n out. repeat case_decide; try done. by intros [= <-].
  - intros t n k. repeat case_decide; try done; intros [= <-]; subst; simpl; lia.
Qed.

Lemma text_contract_witness :
  exists w', string_out (H := sample_gbk) (fun _ => ret 0) "InstrumentName" 500 sample_text = (Ret 100, w')
    /\ w_heap w' !! 100 = Some (OStr [0xDCB0]).
Proof.
  destruct (text_contract (H := sample_gbk) (IconvLaws0 := sample_gbk_laws) (fun _ => ret 0) sample_text "InstrumentName" 500
    [0xE4; 0xB9; 0xB0] []) as (w1 & b & warning & Hs & Hh & _ & _ & _ & _ & Hg & _).
  - reflexivity.
  - discriminate.
  - repeat constructor; discriminate.
  - intros [|[|[|[|i]]]] c Hc; try discriminate; injection Hc as <-; reflexivity.
  - exists w1. inversion Hs as [H1|H1 H2|out H1 H2 H3|k H1 H2 H3 H4]; subst; try discriminate.
    injection H3 as <-. split; [exact (Hg 0 w1 eq_refl)|exact Hh].
Defined.

End Iconv.
