(* ===== verification/Layout.v ===== *)
(** * Layout of the CTP structures

    The scalar types the CTP headers use for fields, and the layout a C++
    compiler gives to a standard-layout struct of them on the platforms the
    extension is built for: fields in order, each at the next multiple of its
    alignment, the size rounded up to the largest alignment.  The headers use
    no packing pragma. *)

From S2P Require Import Prelude.

Module Layout.

(** [char], [char[n]], [short], [int] and [double]. *)
Inductive ctype := TChar | TChars (n : nat) | TShort | TInt | TDouble.

#[export] Instance ctype_eq_dec : EqDecision ctype.
Proof. solve_decision. Defined.

Definition sizeof (t : ctype) : Z :=
  match t with TChar => 1 | TChars n => Z.of_nat n | TShort => 2 | TInt => 4 | TDouble => 8 end.

Definition alignof (t : ctype) : Z :=
  match t with TChar | TChars _ => 1 | TShort => 2 | TInt => 4 | TDouble => 8 end.

(** A struct declaration: field names and types, in order. *)
Abbreviation struct := (list (string * ctype)).

Definition round_up (n a : Z) : Z := (n + a - 1) / a * a.

(** The fields with their offsets, and the end of the last one, from [at_]. *)
Fixpoint place (s : struct) (at_ : Z) : list (string * ctype * Z) * Z :=
  match s with
  | [] => ([], at_)
  | (f, t) :: s' =>
      let o := round_up at_ (alignof t) in
      let (l, e) := place s' (o + sizeof t) in
      ((f, t, o) :: l, e)
  end.

Definition fields (s : struct) : list (string * ctype * Z) := fst (place s 0).
Definition struct_align (s : struct) : Z := fold_right Z.max 1 (map (fun p => alignof (snd p)) s).
Definition struct_size (s : struct) : Z := round_up (snd (place s 0)) (struct_align s).

(** ** Lemmas *)

Lemma alignof_pos t : 1 <= alignof t.
Proof. destruct t; simpl; lia. Qed.

Lemma sizeof_nonneg t : 0 <= sizeof t.
Proof. destruct t; simpl; lia. Qed.

Lemma round_up_spec n a : 1 <= a -> n <= round_up n a < n + a /\ (a | round_up n a).
Proof.
  intros Ha. unfold round_up. split; [|by exists ((n + a - 1) / a)].
  pose proof (Z.div_mod (n + a - 1) a ltac:(lia)). pose proof (Z.mod_pos_bound (n + a - 1) a ltac:(lia)). lia.
Qed.

(** Every field starts at or after [at_], ends before the next one starts, and is aligned. *)
Lemma place_spec s at_ : 
  at_ <= snd (place s at_)
  /\ forall i f t o, fst (place s at_) !! i = Some (f, t, o) ->
       at_ <= o /\ o + sizeof t <= snd (place s at_) /\ (alignof t | o)
       /\ s !! i = Some (f, t)
       /\ forall j g u q, fst (place s at_) !! j = Some (g, u, q) -> (i < j)%nat -> o + sizeof t <= q.
Proof.
  revert at_; induction s as [|[f t] s IH]; intros at_; simpl; [split; [lia|done]|].
  destruct (round_up_spec at_ (alignof t) (alignof_pos t)) as [Hr Hd].
  pose proof (sizeof_nonneg t).
  destruct (IH (round_up at_ (alignof t) + sizeof t)) as [IH1 IH2].
  destruct (place s (round_up at_ (alignof t) + sizeof t)) as [l e] eqn:E. simpl in *.
  split; [lia|]. intros [|i] g u o Hi; simpl in Hi.
  - injection Hi as <- <- <-. split; [lia|]. split; [lia|]. split; [done|]. split; [done|].
    intros [|j] g' u' q Hj Hlt; [lia|]. simpl in Hj. destruct (IH2 j g' u' q Hj) as [? _]. lia.
  - destruct (IH2 i g u o Hi) as (H1 & H2 & H3 & H4 & H5). split; [lia|]. split; [done|].
    split; [done|]. split; [done|]. intros [|j] g' u' q Hj Hlt; [lia|]. eapply (H5 j); [done|lia].
Qed.

Lemma struct_align_pos s : 1 <= struct_align s.
Proof. unfold struct_align. induction s; simpl; lia. Qed.

Lemma struct_size_ge s : snd (place s 0) <= struct_size s.
Proof. apply round_up_spec, struct_align_pos. Qed.

(** The fields of a struct lie inside it in declaration order, at multiples of
    their alignment, and two different fields never overlap. *)
Lemma layout_sound s i f t o : fields s !! i = Some (f, t, o) ->
  s !! i = Some (f, t) /\ 0 <= o /\ o + sizeof t <= struct_size s /\ (alignof t | o)
  /\ forall j g u q, fields s !! j = Some (g, u, q) -> i <> j -> o + sizeof t <= q \/ q + sizeof u <= o.
Proof.
  intros Hi. destruct (place_spec s 0) as [_ Hp]. pose proof (struct_size_ge s).
  destruct (Hp i f t o Hi) as (H1 & H2 & H3 & H4 & H5).
  split; [done|]. split; [done|]. split; [lia|]. split; [done|].
  intros j g u q Hj Hne. destruct (decide (i < j)%nat); [left; eauto|right].
  destruct (Hp j g u q Hj) as (_ & _ & _ & _ & H6). eapply H6; [done|lia].
Qed.

End Layout.
