(* ===== verification/Accessor.v ===== *)
(** * Structure accessors

    The wrappers ctp_wrap.cpp defines for every field of every CTP structure
    follow one template per field type and direction; they differ in the
    names, the [SWIGTYPE] macro, the member and the array size.  [wrap_set] and
    [wrap_get] are these templates, [wrap_new] and [wrap_delete] those of the
    constructor and destructor, [guarded] the try block SWIG puts around calls
    into C++. *)

From S2P Require Import Prelude TypeTable CtpTypes Utf8 World Runtime Conversions Iconv Layout.

Module Accessor.
Import World Utf8 Runtime Conversions Iconv Layout.

(** The conversion a getter uses. *)
Inductive getter := GChar | GString | GShort | GInt | GDouble.

Definition getter_of (t : ctype) : getter :=
  match t with TChar => GChar | TChars _ => GString | TShort => GShort | TInt => GInt | TDouble => GDouble end.

(** The accessors of one field: its name, the setter's conversion and the getter's. *)
Abbreviation row := (string * ctype * getter)%type.

(** The accessors of one structure: the type index and a row per field. *)
Record wrapper := mk_wrapper { wr_type : nat; wr_rows : list row }.

(** [SWIG_exception_fail]: the wrapper returns null. *)
Definition exception_fail (code : Z) (msg : list Z) : M Z := SWIG_Error code msg ;;; ret 0.

Definition arg_msg (meth n tname : string) : list Z :=
  str_cat ["in method '"; meth; "', argument "; n; " of type '"; tname; "'"]%string.

(** The [catch] clauses of a wrapper; [None] is the jump to [fail]. *)
Definition on_exception {A} (decl : string) (e : cxx) : M (option A) :=
  match e with
  | DirectorPureVirtualException _ =>
      PyErr_SetString NotImplementedError (str_cat [decl; " not implemented"]%string) ;;; ret None
  | DirectorException _ | DirectorMethodException _ => ret None
  | StdException what => PyErr_SetString Exception_ what ;;; ret None
  | UnknownException =>
      PyErr_SetString RuntimeError (chars "Unknown error caught in CTP SWIG wrapper...") ;;; ret None
  end.

(** [try { BEGIN_ALLOW; m; END_ALLOW; } catch ...]. *)
Definition guarded {A} (decl : string) (m : M A) : M (option A) :=
  catch (r <- thread_allow m ;; ret (Some r)) (on_exception decl).

Section Acc.
Context (long_w : Z) `{TypeEnv} (implicit : nat -> option (Z -> M Z)).
Context `{IconvEnv} (PyErr_WarnEx : list Z -> M Z).

(** The bytes a setter stores for the Python value. *)
Definition convert_value (k : ctype) (obj : Z) : M (Z * option (list Z)) :=
  match k with
  | TInt => r <- SWIG_AsVal_int long_w obj ;; ret (fst r, le_bytes 4 <$> snd r)
  | TShort => r <- SWIG_AsVal_short long_w obj ;; ret (fst r, le_bytes 2 <$> snd r)
  | TDouble => r <- SWIG_AsVal_double obj ;; ret (fst r, le_bytes 8 <$> snd r)
  | TChar => r <- SWIG_AsVal_char long_w implicit obj ;; ret (fst r, (fun c => [c]) <$> snd r)
  | TChars n => SWIG_AsCharArray implicit obj n
  end.

(** [memcpy(arg1->F, arg2, n)] without a test of [arg1], or
    [if (arg1) (arg1)->F = arg2]. *)
Definition store_field (k : ctype) (arg1 off : Z) (bytes : list Z) : M unit :=
  match k with
  | TChars _ => store (arg1 + off) bytes
  | _ => if arg1 =? 0 then ret tt else store (arg1 + off) bytes
  end.

(** [meth]: the wrapper's name; [sname], [tname]: the types in its messages;
    [ty], [k], [off]: the structure's type, the field's conversion and offset. *)
Definition wrap_set (meth sname tname : string) (ty : nat) (k : ctype) (off : Z) (args : Z) : M Z :=
  u <- SWIG_Python_UnpackTuple args meth 2 2 ;;
  match u with
  | (_, [obj0; obj1]) =>
      c1 <- SWIG_ConvertPtr implicit obj0 ty 0 ;;
      let '(res1, arg1) := c1 in
      if negb (SWIG_IsOK res1) then
        exception_fail (SWIG_ArgError res1) (arg_msg meth "1" (sname +:+ " *"))
      else
        c2 <- convert_value k obj1 ;;
        match c2 with
        | (ecode2, Some bytes) =>
            if negb (SWIG_IsOK ecode2) then exception_fail (SWIG_ArgError ecode2) (arg_msg meth "2" tname)
            else thread_allow (store_field k arg1 off bytes) ;;; SWIG_Py_Void
        | (ecode2, None) => exception_fail (SWIG_ArgError ecode2) (arg_msg meth "2" tname)
        end
  | _ => ret 0
  end.

(** The member read with the lock released, and the object made of it. *)
Definition read_field (field : string) (g : getter) (arg1 off : Z) : M Z :=
  match g with
  | GInt => b <- thread_allow (load (arg1 + off) 4) ;; SWIG_From_int (wraps 32 (le_value b))
  | GShort => b <- thread_allow (load (arg1 + off) 2) ;; SWIG_From_short (wraps 16 (le_value b))
  | GDouble => b <- thread_allow (load (arg1 + off) 8) ;; SWIG_From_double (le_value b)
  | GChar => b <- thread_allow (load (arg1 + off) 1) ;; SWIG_From_char (le_value b)
  | GString => p <- thread_allow (ret (arg1 + off)) ;; string_out PyErr_WarnEx field p
  end.

Definition wrap_get (meth sname field : string) (ty : nat) (g : getter) (off : Z) (args : Z) : M Z :=
  if args =? 0 then ret 0
  else
    c1 <- SWIG_ConvertPtr implicit args ty 0 ;;
    let '(res1, arg1) := c1 in
    if negb (SWIG_IsOK res1) then
      exception_fail (SWIG_ArgError res1) (arg_msg meth "1" (sname +:+ " *"))
    else read_field field g arg1 off.

(** [new X()] zero-initialises the structure. *)
Definition wrap_new (sname : string) (ty : nat) (s : struct) (args : Z) : M Z :=
  u <- SWIG_Python_UnpackTuple args ("new_" +:+ sname) 0 0 ;;
  if fst u =? 0 then ret 0
  else
    r <- guarded (sname +:+ "::" +:+ sname +:+ "()") (alloc (replicate (Z.to_nat (struct_size s)) 0)) ;;
    match r with
    | None => ret 0
    | Some result => SWIG_Python_NewPointerObj result (Some ty) SWIG_POINTER_NEW
    end.

Definition wrap_delete (sname : string) (ty : nat) (args : Z) : M Z :=
  if args =? 0 then ret 0
  else
    c1 <- SWIG_ConvertPtr implicit args ty SWIG_POINTER_DISOWN ;;
    let '(res1, arg1) := c1 in
    if negb (SWIG_IsOK res1) then
      exception_fail (SWIG_ArgError res1) (arg_msg ("delete_" +:+ sname) "1" (sname +:+ " *"))
    else
      r <- guarded (sname +:+ "::~" +:+ sname +:+ "()") (free arg1) ;;
      match r with
      | None => ret 0
      | Some _ => SWIG_Py_Void
      end.
End Acc.

(** A call that returns, and one that is stuck, in the try block. *)
Lemma guarded_ok {A} decl (m : M A) w a w1 : w_gil w = true -> m (set_gil false w) = (Ret a, w1) ->
  guarded decl m w = (Ret (Some a), set_gil true w1).
Proof. intros Hg E. unfold guarded, catch, bind. by rewrite thread_allow_eq, E. Qed.

Lemma guarded_stuck {A} decl (m : M A) w u w1 : w_gil w = true -> m (set_gil false w) = (Stuck u, w1) ->
  guarded decl m w = (Stuck u, w1).
Proof. intros Hg E. unfold guarded, catch, bind. by rewrite thread_allow_eq, E. Qed.

(** ** What the accessors mean *)

(** The values a field gives back as they were assigned, with their bytes.
    Setters accept more ([value_spec]): other text is stored in UTF-8 but read
    as GBK, and a bool is read as an int. *)
Inductive encodes : ctype -> pyobj -> list Z -> Prop :=
| enc_int z : INT_MIN <= z <= INT_MAX -> encodes TInt (OInt z) (le_bytes 4 z)
| enc_short z : SHRT_MIN <= z <= SHRT_MAX -> encodes TShort (OInt z) (le_bytes 2 z)
| enc_double d : 0 <= d < 2 ^ 64 -> encodes TDouble (OFloat d) (le_bytes 8 d)
| enc_char c : 0 <= c < 128 -> encodes TChar (OStr [c]) [c]
| enc_text s n : ascii s -> no_nul s -> (length s < n <= 4096)%nat ->
    encodes (TChars n) (OStr s) (s ++ replicate (n - length s) 0).

(** A Python object that wraps the pointer [p] of type [ty]. *)
Definition wraps_ptr (w : world) (obj : Z) (ty : nat) (p : Z) : Prop :=
  obj <> 0 /\ obj <> Py_None /\
  exists o s, w_heap w !! o = Some (OSwig s) /\ s_ptr s = p /\ s_ty s = Some ty /\ s_next s = None
              /\ (obj = o \/ (w_heap w !! obj = Some (OInst (Some o)) /\ o <> 0)).

Section AccLemmas.
Context (long_w : Z) (Hlong : 32 <= long_w) `{!TypeEnv, !ExactTypes _}.
Context (implicit : nat -> option (Z -> M Z)).
Context `{!IconvEnv, !IconvLaws _} (warn : list Z -> M Z).

Lemma encodes_length k v b : encodes k v b -> Z.of_nat (length b) = sizeof k.
Proof.
  destruct 1; rewrite ?length_le_bytes, ?length_app, ?length_replicate; simpl; lia.
Qed.

(** Setters convert every value a field can hold. *)
Lemma convert_encodes w obj k v b : w_gil w = true -> w_err w = None ->
  w_heap w !! obj = Some v -> encodes k v b ->
  convert_value long_w implicit k obj w = (Ret (SWIG_OK, Some b), w).
Proof.
  intros Hg He Hv Henc. destruct Henc as [z Hz|z Hz|d Hd|c Hc|s n Ha Hn Hl]; cbn [convert_value].
  - unfold SWIG_AsVal_int. rewrite (bind_eq _ _ _ _ _ (as_val_narrow long_w Hlong INT_MIN INT_MAX w obj _ Hg He Hv ltac:(done) ltac:(done))).
    unfold int_spec. cbn [as_long]. rewrite !(proj2 (Z.leb_le _ _)) by lia. done.
  - unfold SWIG_AsVal_short. rewrite (bind_eq _ _ _ _ _ (as_val_narrow long_w Hlong SHRT_MIN SHRT_MAX w obj _ Hg He Hv ltac:(done) ltac:(done))).
    unfold int_spec. cbn [as_long]. rewrite !(proj2 (Z.leb_le _ _)) by lia. done.
  - unfold SWIG_AsVal_double. rewrite bind_assoc. by rewrite (bind_eq _ _ _ _ _ (object_at_eq w Hg obj _ Hv)).
  - unfold SWIG_AsVal_char. rewrite bind_assoc.
    rewrite (bind_eq _ _ _ _ _ (as_char_array_str implicit w obj [c] [c] 1 Hg Hv
      (utf8_encode_ascii [c] ltac:(repeat constructor; lia)) ltac:(lia))).
    done.
  - rewrite (as_char_array_str implicit w obj s s n Hg Hv (utf8_encode_ascii s Ha) ltac:(lia)).
    unfold array_spec. by rewrite decide_True by (left; lia).
Qed.

(** What a setter does with a value: the code of the conversion and the bytes it
    stores, for numbers, booleans and texts that have a UTF-8 form. *)
Definition value_spec (k : ctype) (v : pyobj) : Z * option (list Z) :=
  match k, v with
  | TInt, _ => let r := int_spec INT_MIN INT_MAX v in (fst r, le_bytes 4 <$> snd r)
  | TShort, _ => let r := int_spec SHRT_MIN SHRT_MAX v in (fst r, le_bytes 2 <$> snd r)
  | TDouble, OFloat d => (SWIG_OK, Some (le_bytes 8 d))
  | TDouble, _ => match as_long v ≫= double_of_Z with
                  | Some d => (SWIG_OK, Some (le_bytes 8 d))
                  | None => (SWIG_TypeError, None)
                  end
  | TChar, OStr s => array_spec (default [] (utf8_encode s)) 1
  | TChar, _ => let r := int_spec CHAR_MIN CHAR_MAX v in (fst r, (fun z => [wrapu 8 z]) <$> snd r)
  | TChars n, OStr s => array_spec (default [] (utf8_encode s)) n
  | TChars _, _ => (SWIG_TypeError, None)
  end.

Definition plain (v : pyobj) : Prop :=
  match v with OInt _ | OBool _ | OFloat _ => True | OStr s => is_Some (utf8_encode s) | _ => False end.

(** The array of a text field is not empty. *)
Definition sized (k : ctype) : Prop := match k with TChars n => (0 < n)%nat | _ => True end.

(** Each value is stored, with the size of the field, or refused. *)
Lemma value_spec_cases k v : sized k ->
  (exists b, value_spec k v = (SWIG_OK, Some b) /\ Z.of_nat (length b) = sizeof k)
  \/ exists code, value_spec k v = (code, None) /\ (code = SWIG_OverflowError \/ code = SWIG_TypeError).
Proof.
  intros Hk.
  assert (Hi : forall lo hi, (exists z, int_spec lo hi v = (SWIG_OK, Some z))
    \/ exists code, int_spec lo hi v = (code, None) /\ (code = SWIG_OverflowError \/ code = SWIG_TypeError)).
  { intros lo hi. unfold int_spec. destruct (as_long v); [case_if|]; eauto. }
  assert (Ha : forall b n, (0 < n)%nat -> (exists l, array_spec b n = (SWIG_OK, Some l) /\ length l = n)
    \/ array_spec b n = (SWIG_TypeError, None)).
  { intros b n Hn. unfold array_spec. case_decide as Hd; [left|by right]. eexists. split; [done|].
    rewrite length_app, length_replicate. lia. }
  destruct k as [|n| | |]; cbn [value_spec sizeof].
  - destruct v as [|t|t|t|cps|t|t|t|t|t|]; try (destruct (Hi CHAR_MIN CHAR_MAX) as [[z ->]|(code & -> & Hc)]; cbn; eauto; fail).
    destruct (Ha (default [] (utf8_encode cps)) 1%nat ltac:(lia)) as [(l & -> & Hl)| ->]; [left|right]; eauto with lia.
  - destruct v as [|t|t|t|cps|t|t|t|t|t|]; try (right; by eauto).
    destruct (Ha (default [] (utf8_encode cps)) n Hk) as [(l & -> & Hl)| ->]; [left|right]; eauto with lia.
  - destruct (Hi SHRT_MIN SHRT_MAX) as [[z ->]|(code & -> & Hc)]; cbn [fst snd fmap option_fmap option_map];
      [left; eexists; split; [reflexivity|rewrite length_le_bytes; done]|eauto].
  - destruct (Hi INT_MIN INT_MAX) as [[z ->]|(code & -> & Hc)]; cbn [fst snd fmap option_fmap option_map];
      [left; eexists; split; [reflexivity|rewrite length_le_bytes; done]|eauto].
  - assert (Hd : forall o : option Z, (exists b, (match o with Some d => (SWIG_OK, Some (le_bytes 8 d)) | None => (SWIG_TypeError, None) end)
        = (SWIG_OK, Some b) /\ Z.of_nat (length b) = 8)
      \/ exists code, (match o with Some d => (SWIG_OK, Some (le_bytes 8 d)) | None => (SWIG_TypeError, None) end)
        = (code, None) /\ (code = SWIG_OverflowError \/ code = SWIG_TypeError)).
    { intros [d|]; [left; eexists; split; [done|by rewrite length_le_bytes]|right; eauto]. }
    destruct v; try apply Hd. left. eexists. split; [reflexivity|by rewrite length_le_bytes].
Qed.

(** A plain object is no wrapped pointer. *)
Lemma convert_ptr_plain w obj v ty : w_gil w = true -> w_err w = None -> obj <> 0 -> obj <> Py_None ->
  w_heap w !! obj = Some v -> plain v -> SWIG_ConvertPtr implicit obj ty 0 w = (Ret (SWIG_ERROR, 0), w).
Proof.
  intros Hg He Hz Hn Hv Hp.
  assert (E : SWIG_Python_GetSwigThis obj w = (Ret None, w)).
  { unfold SWIG_Python_GetSwigThis. rewrite (bind_eq (gets w_heap) _ w _ w eq_refl). cbn [get_swig_this].
    rewrite (bind_eq _ _ _ _ _ (object_at_eq w Hg obj v Hv)).
    assert (Es : (PyErr_SetString AttributeError (chars "this") ;;; PyErr_Clear ;;; ret (None : option Z)) w = (Ret None, w)).
    { rewrite (bind_eq _ _ _ _ _ (set_string_eq w Hg _ _)).
      rewrite (bind_eq _ _ _ _ _ (clear_eq (set_err _ w) Hg)). unfold ret. do 2 f_equal.
      by rewrite <- (set_err_none w He) at 2. }
    destruct v; done || exact Es. }
  unfold SWIG_ConvertPtr, SWIG_Python_ConvertPtrAndOwn.
  rewrite (proj2 (Z.eqb_neq _ _) Hz), (proj2 (Z.eqb_neq _ _) Hn). cbn [andb].
  rewrite bind_assoc, (bind_eq _ _ _ _ _ E), bind_assoc, (bind_eq (gets w_heap) _ w _ w eq_refl). done.
Qed.

Lemma as_double_int w obj v z : w_gil w = true -> w_err w = None -> w_heap w !! obj = Some v -> as_long v = Some z ->
  SWIG_AsVal_double obj w
  = (Ret match double_of_Z z with Some d => (SWIG_OK, Some d) | None => (SWIG_TypeError, None) end, w).
Proof.
  intros Hg He Hv Hz. unfold SWIG_AsVal_double. rewrite (bind_eq _ _ _ _ _ (object_at_eq w Hg obj v Hv)).
  assert (Hc : match v with OFloat _ => False | _ => True end) by (by destruct v).
  assert (E : (d <- PyLong_AsDouble z ;; e <- PyErr_Occurred ;;
               match e with None => ret (SWIG_OK, Some d) | Some _ => PyErr_Clear ;;; ret (SWIG_TypeError, None) end) w
    = (Ret match double_of_Z z with Some d => (SWIG_OK, Some d) | None => (SWIG_TypeError, None) end, w)).
  { unfold PyLong_AsDouble. destruct (double_of_Z z) as [d|].
    - rewrite (bind_eq (ret d) _ w d w eq_refl), (bind_eq _ _ _ _ _ (occurred_eq w Hg)). by rewrite He.
    - rewrite bind_assoc, (bind_eq _ _ _ _ _ (set_string_eq w Hg _ _)).
      set (w1 := set_err _ w). rewrite (bind_eq (ret 0) _ w1 0 w1 eq_refl).
      rewrite (bind_eq _ _ _ _ _ (occurred_eq w1 Hg)). cbn [w1 w_err set_err].
      rewrite (bind_eq _ _ _ _ _ (clear_eq w1 Hg)). unfold ret. do 2 f_equal. unfold w1.
      by rewrite <- (set_err_none w He) at 2. }
  destruct v; simplify_eq/=; exact E.
Qed.

(** The second attempt of [SWIG_AsVal_char]. *)
Lemma char_of_long w obj v : w_gil w = true -> w_err w = None -> w_heap w !! obj = Some v ->
  (r <- (r <- SWIG_AsVal_long long_w obj ;;
         match r with
         | (res, Some v) => if SWIG_IsOK res then
                              if (CHAR_MIN <=? v) && (v <=? CHAR_MAX) then ret (res, Some (wrapu 8 v))
                              else ret (SWIG_OverflowError, None)
                            else ret (res, None)
         | (res, None) => ret (res, None)
         end) ;; ret (fst r, (fun c => [c]) <$> snd r)) w
  = (Ret (let r := int_spec CHAR_MIN CHAR_MAX v in (fst r, (fun z => [wrapu 8 z]) <$> snd r)), w).
Proof.
  intros Hg He Hv. rewrite bind_assoc. unfold int_spec. destruct (as_long v) as [z|] eqn:Ez.
  - rewrite (bind_eq _ _ _ _ _ (as_val_long_eq long_w w obj v z Hg He Hv Ez)).
    destruct ((CHAR_MIN <=? z) && (z <=? CHAR_MAX)) eqn:Ec.
    + rewrite int_fits_long by (done || (zbool; unfold CHAR_MIN, CHAR_MAX, INT_MIN, INT_MAX in *; lia)).
      change (SWIG_IsOK SWIG_OK) with true. cbv iota. by rewrite Ec.
    + case_if; [|done]. change (SWIG_IsOK SWIG_OK) with true. cbv iota. by rewrite Ec.
  - by rewrite (bind_eq _ _ _ _ _ (as_val_long_other long_w w obj v Hg Hv Ez)).
Qed.

(** The conversion of a setter is its specification. *)
Lemma convert_spec w obj k v : w_gil w = true -> w_err w = None -> obj <> 0 -> obj <> Py_None ->
  w_heap w !! obj = Some v -> plain v -> sized k -> convert_value long_w implicit k obj w = (Ret (value_spec k v), w).
Proof.
  intros Hg He Hz Hn Hv Hp Hk.
  assert (Ec := convert_ptr_plain w obj v 524 Hg He Hz Hn Hv Hp).
  assert (Harr : forall n, (0 < n)%nat -> SWIG_AsCharArray implicit obj n w
    = (Ret match v with OStr s => array_spec (default [] (utf8_encode s)) n | _ => (SWIG_TypeError, None) end, w)).
  { intros n Hlt. destruct v as [|t|t|t|t|t|t|t|t|t|]; try done;
      [..|destruct Hp as [b Hb]; rewrite Hb; by apply (as_char_array_str implicit w obj t b n)];
      unfold SWIG_AsCharArray, SWIG_AsCharPtrAndSize, as_char_ptr; rewrite pchar_descriptor_eq, bind_assoc;
      rewrite (bind_eq _ _ _ _ _ (object_at_eq w Hg obj _ Hv)); rewrite bind_assoc; by rewrite (bind_eq _ _ _ _ _ Ec). }
  destruct k as [|n| | |]; cbn [convert_value value_spec].
  - unfold SWIG_AsVal_char. rewrite bind_assoc, (bind_eq _ _ _ _ _ (Harr 1%nat ltac:(lia))).
    destruct v as [|t|t|t|cps|t|t|t|t|t|]; try done; [by apply char_of_long..|].
    unfold array_spec. case_decide as Hd.
    + destruct (default [] (utf8_encode cps)) as [|c [|]]; cbn in Hd |- *; done || lia.
    + rewrite bind_assoc. by rewrite (bind_eq _ _ _ _ _ (as_val_long_other long_w w obj _ Hg Hv eq_refl)).
  - rewrite (Harr n Hk). by destruct v.
  - unfold SWIG_AsVal_short. by rewrite (bind_eq _ _ _ _ _ (as_val_narrow long_w Hlong SHRT_MIN SHRT_MAX w obj v Hg He Hv ltac:(done) ltac:(done))).
  - unfold SWIG_AsVal_int. by rewrite (bind_eq _ _ _ _ _ (as_val_narrow long_w Hlong INT_MIN INT_MAX w obj v Hg He Hv ltac:(done) ltac:(done))).
  - destruct (as_long v) as [z|] eqn:Ez.
    + rewrite (bind_eq _ _ _ _ _ (as_double_int w obj v z Hg He Hv Ez)). destruct v; try done; simplify_eq/=;
        by destruct (double_of_Z _).
    + unfold SWIG_AsVal_double. rewrite bind_assoc, (bind_eq _ _ _ _ _ (object_at_eq w Hg obj v Hv)). by destruct v.
Qed.

(** The object a getter makes. *)
Definition gives (m : M Z) (w : world) (v : pyobj) : Prop :=
  exists o w', m w = (Ret o, w') /\ w_heap w' !! o = Some v /\ w_gil w' = true
    /\ w_err w' = w_err w /\ w_mem w' = w_mem w
    /\ (forall x, refs w' x = refs w x + if decide (o = x) then 1 else 0).

Lemma new_object_gives w v : w_gil w = true -> gives (new_object v) w v.
Proof.
  intros Hg. exists (w_fresh w). eexists. split; [by apply new_object_eq|].
  split; [apply lookup_insert_eq|]. do 3 (split; [done|]). intros x.
  exact (refs_add (set_heap (<[w_fresh w := v]> (w_heap w)) w) (w_fresh w) 1 x).
Qed.

(** Reading with the lock released and converting. *)
Lemma load_gives w p l f v : w_gil w = true -> holds w p l -> f l = new_object v ->
  gives (b <- thread_allow (load p (length l)) ;; f b) w v.
Proof.
  intros Hg Hh Hf. assert (E : thread_allow (load p (length l)) w = (Ret l, w)).
  { rewrite thread_allow_eq by done. rewrite (load_holds (set_gil false w) p l Hh).
    unfold set_gil. cbn. rewrite <- Hg. by destruct w. }
  destruct (new_object_gives w v Hg) as (o & w' & E' & Hrest). exists o, w'.
  rewrite (bind_eq _ _ _ _ _ E), Hf. done.
Qed.

Lemma wraps_le_bytes n z : (0 < n)%nat -> - 2 ^ (8 * Z.of_nat n - 1) <= z < 2 ^ (8 * Z.of_nat n - 1) ->
  wraps (8 * Z.of_nat n) (le_value (le_bytes n z)) = z.
Proof.
  intros Hn Hz. rewrite le_value_bytes.
  replace (256 ^ Z.of_nat n) with (2 ^ (8 * Z.of_nat n)) by (rewrite Z.pow_mul_r by lia; done).
  unfold wraps, wrapu. rewrite Z.mod_mod by lia. fold (wrapu (8 * Z.of_nat n) z).
  fold (wraps (8 * Z.of_nat n) z). apply wraps_small; lia.
Qed.

(** The value the bytes of a field stand for when they are read: text up to its
    terminator, converted from GBK; none when there is no terminator in the
    field or the conversion fails. *)
Definition field_value (k : ctype) (b : list Z) : option pyobj :=
  match k with
  | TInt => Some (OInt (wraps 32 (le_value b)))
  | TShort => Some (OInt (wraps 16 (le_value b)))
  | TDouble => Some (OFloat (le_value b))
  | TChar => Some (OStr (utf8_decode [le_value b]))
  | TChars _ =>
      if decide (length (cstr b) < length b)%nat then
        match cstr b with
        | [] => Some (OStr [])
        | l => match iconv_run l buf_size with Converted out => Some (OStr (utf8_decode out)) | Failed _ => None end
        end
      else None
  end.

Lemma encodes_value k v b : encodes k v b -> field_value k b = Some v.
Proof.
  destruct 1 as [z Hz|z Hz|d Hd|c Hc|s n Ha Hn Hl]; cbn [field_value].
  - unfold INT_MIN, INT_MAX in Hz. do 2 f_equal. apply (wraps_le_bytes 4); lia.
  - unfold SHRT_MIN, SHRT_MAX in Hz. do 2 f_equal. apply (wraps_le_bytes 2); lia.
  - do 2 f_equal. rewrite le_value_bytes. by apply Z.mod_small.
  - do 2 f_equal. simpl le_value. rewrite Z.add_0_r.
    apply utf8_decode_encode, utf8_encode_ascii. constructor; [done|constructor].
  - replace (n - length s)%nat with (S (n - length s - 1)) by lia. cbn [replicate].
    rewrite cstr_app_nul by done. rewrite decide_True by (rewrite length_app; simpl; lia).
    destruct s as [|c s']; [done|]. rewrite iconv_ascii by (done || unfold buf_size; lia).
    by rewrite (utf8_decode_encode _ _ (utf8_encode_ascii _ Ha)).
Qed.

(** Text is stored in UTF-8 and read as GBK: what a field gives back for a text
    it was assigned is the conversion of its UTF-8 bytes. *)
Lemma text_read_as_gbk s b n : utf8_encode s = Some b -> s <> [] -> Forall (fun c => c <> 0) s -> (length b < n)%nat ->
  exists arr, value_spec (TChars n) (OStr s) = (SWIG_OK, Some arr)
    /\ field_value (TChars n) arr
       = match iconv_run b buf_size with Converted out => Some (OStr (utf8_decode out)) | Failed _ => None end.
Proof.
  intros Hb Hs Hnn Hl. cbn [value_spec]. rewrite Hb. unfold array_spec. cbn [default from_option id].
  rewrite decide_True by (by left). eexists. split; [reflexivity|]. cbn [field_value].
  assert (Hn : no_nul b) by (by eapply utf8_encode_ok).
  replace (n - length b)%nat with (S (n - length b - 1)) by lia. cbn [replicate].
  rewrite cstr_app_nul by done. rewrite decide_True by (rewrite length_app; simpl; lia).
  destruct b as [|c b']; [|done]. exfalso. apply Hs. pose proof (utf8_decode_encode s [] Hb) as E. by rewrite <- E.
Qed.

Lemma string_out_gives w field p b v n : w_gil w = true -> p <> 0 -> iconv_open_result <> -1 -> holds w p b ->
  field_value (TChars n) b = Some v -> gives (string_out warn field p) w v.
Proof.
  intros Hg Hp Ho Hh Hv. cbn [field_value] in Hv. case_decide as Hlen; [|done].
  destruct (cstr_split b Hlen) as [r Hr]. pose proof (cstr_no_nul b) as Hn. rewrite Hr in Hh. clear Hr.
  destruct (cstr b) as [|c l] eqn:El.
  - injection Hv as <-. destruct (new_object_gives w (OStr []) Hg) as (o & w' & E & Hrest). exists o, w'.
    split; [|done]. rewrite (string_out_empty warn w field p _ Hg Hp Hh). exact E.
  - destruct (string_out_eq warn w field p (c :: l) r Hp ltac:(done) Hn Hh Ho) as (h & _ & E).
    destruct (iconv_run (c :: l) buf_size) as [out|]; [|done]. injection Hv as <-.
    assert (Hg' : w_gil (set_iconv h w) = true) by done.
    destruct (new_object_gives (set_iconv h w) (OStr (utf8_decode out)) Hg') as (o & w' & E' & Hrest).
    exists o, w'. split; [|done]. rewrite E. exact E'.
Qed.

(** Getters give the value of the bytes. *)
Lemma read_value w field k v b p off : w_gil w = true -> p + off <> 0 -> iconv_open_result <> -1 ->
  Z.of_nat (length b) = sizeof k -> field_value k b = Some v -> holds w (p + off) b ->
  gives (read_field warn field (getter_of k) p off) w v.
Proof.
  intros Hg Hp Ho Hl Hv Hh.
  destruct k as [|n| | |]; cbn [read_field getter_of sizeof] in *; try (injection Hv as <-).
  - replace 1%nat with (length b) by lia. by apply (load_gives w (p + off) b (fun b => SWIG_From_char (le_value b))).
  - assert (E : thread_allow (ret (p + off)) w = (Ret (p + off), w)).
    { rewrite thread_allow_eq by done. cbn. unfold set_gil. cbn. rewrite <- Hg. by destruct w. }
    destruct (string_out_gives w field (p + off) b v n Hg Hp Ho Hh Hv) as (o & w' & E' & Hrest).
    exists o, w'. by rewrite (bind_eq _ _ _ _ _ E).
  - replace 2%nat with (length b) by lia. by apply (load_gives w (p + off) b (fun b => SWIG_From_short (wraps 16 (le_value b)))).
  - replace 4%nat with (length b) by lia. by apply (load_gives w (p + off) b (fun b => SWIG_From_int (wraps 32 (le_value b)))).
  - replace 8%nat with (length b) by lia. by apply (load_gives w (p + off) b (fun b => SWIG_From_double (le_value b))).
Qed.

Lemma convert_wraps w obj ty p : w_gil w = true -> (ty < te_size)%nat -> wraps_ptr w obj ty p ->
  exists w', SWIG_ConvertPtr implicit obj ty 0 w = (Ret (SWIG_OK, p), w') /\ same w w'.
Proof.
  intros Hg Hty (Hz & Hnone & o & s & Ho & Hp & Ht & Hn & Hr).
  destruct (convert_ptr_chain implicit w obj o [(o, s)] ty Hg Hz Hnone) as (w' & E & Hs).
  - by exists s.
  - constructor; [done|]. rewrite Hn. constructor.
  - repeat constructor. by intros ?%elem_of_nil.
  - repeat constructor. by exists ty.
  - exists w'. split; [|done]. rewrite E. unfold first_of. cbn [list_find snd].
    rewrite decide_True by done. by rewrite Hp.
Qed.

Lemma wraps_ptr_same w w' obj ty p : same w w' -> wraps_ptr w obj ty p -> wraps_ptr w' obj ty p.
Proof. intros Hs H'. unfold wraps_ptr. rewrite (same_heap _ _ Hs). exact H'. Qed.

(** A setter whose value is converted to [b]. *)
Lemma wrap_set_stores w args obj0 obj1 meth sname tname ty k off p b :
  w_gil w = true -> w_err w = None -> args <> 0 -> (ty < te_size)%nat ->
  w_heap w !! args = Some (OTuple [obj0; obj1]) -> wraps_ptr w obj0 ty p -> p <> 0 ->
  (forall w1, same w w1 -> convert_value long_w implicit k obj1 w1 = (Ret (SWIG_OK, Some b), w1)) ->
  mapped w (p + off) (length b) ->
  exists w', wrap_set long_w implicit meth sname tname ty k off args w = (Ret Py_None, w')
    /\ w_mem w' = store_bytes (w_mem w) (p + off) b /\ w_heap w' = w_heap w
    /\ w_gil w' = true /\ w_err w' = None /\ w_fresh w' = w_fresh w
    /\ (forall x, refs w' x = refs w x + if decide (Py_None = x) then 1 else 0).
Proof.
  intros Hg He Ha Hty Ht Hw Hp Hconv Hm. unfold wrap_set.
  rewrite (bind_eq _ _ _ _ _ (unpack_exact w args meth _ 2 Hg Ha Ht eq_refl)).
  destruct (convert_wraps w obj0 ty p Hg Hty Hw) as (w1 & E1 & Hs).
  rewrite (bind_eq _ _ _ _ _ E1). change (SWIG_IsOK SWIG_OK) with true. cbn [negb].
  assert (Hg1 : w_gil w1 = true) by by rewrite (same_gil _ _ Hs).
  assert (He1 : w_err w1 = None) by by rewrite (same_err _ _ Hs).
  rewrite (bind_eq _ _ _ _ _ (Hconv w1 Hs)).
  change (SWIG_IsOK SWIG_OK) with true. cbn [negb].
  assert (Hm1 : mapped (set_gil false w1) (p + off) (length b)).
  { intros i Hi. cbn. rewrite (same_mem _ _ Hs). by apply Hm. }
  assert (E : thread_allow (store_field k p off b) w1
              = (Ret tt, set_mem (store_bytes (w_mem w1) (p + off) b) w1)).
  { rewrite thread_allow_eq by done. unfold store_field.
    assert (Es : (if p =? 0 then ret tt else store (p + off) b) (set_gil false w1)
                 = store (p + off) b (set_gil false w1)) by by rewrite (proj2 (Z.eqb_neq _ _) Hp).
    destruct k; rewrite ?Es, store_mapped by done; cbn; unfold set_gil, set_mem; cbn; by rewrite Hg1. }
  rewrite (bind_eq _ _ _ _ _ E), (py_void_eq (set_mem _ w1) Hg1).
  eexists. split; [reflexivity|]. cbn.
  rewrite (same_mem _ _ Hs), (same_heap _ _ Hs), (same_fresh _ _ Hs). do 5 (split; [done|]).
  intros x. etrans; [exact (refs_add (set_mem _ w1) Py_None 1 x)|].
  by rewrite <- (same_refs _ _ Hs x).
Qed.

(** A setter that gets a structure and a value that reads back as it was. *)
Lemma wrap_set_ok w args obj0 obj1 meth sname tname ty k off p v b :
  w_gil w = true -> w_err w = None -> args <> 0 -> (ty < te_size)%nat ->
  w_heap w !! args = Some (OTuple [obj0; obj1]) -> wraps_ptr w obj0 ty p -> p <> 0 ->
  w_heap w !! obj1 = Some v -> encodes k v b -> mapped w (p + off) (length b) ->
  exists w', wrap_set long_w implicit meth sname tname ty k off args w = (Ret Py_None, w')
    /\ w_mem w' = store_bytes (w_mem w) (p + off) b /\ w_heap w' = w_heap w
    /\ w_gil w' = true /\ w_err w' = None /\ w_fresh w' = w_fresh w
    /\ (forall x, refs w' x = refs w x + if decide (Py_None = x) then 1 else 0).
Proof.
  intros Hg He Ha Hty Ht Hw Hp Hv Henc Hm. apply (wrap_set_stores w args obj0 obj1); try done.
  intros w1 Hs. by apply convert_encodes with (v := v); rewrite ?(same_gil _ _ Hs), ?(same_err _ _ Hs), ?(same_heap _ _ Hs).
Qed.

Lemma exception_fail_eq w code msg : w_gil w = true ->
  exception_fail code msg w
  = (Ret 0, set_err (Some (err_of (SWIG_Python_ErrorType code) msg)) w).
Proof.
  intros Hg. unfold exception_fail, SWIG_Error, SWIG_Python_SetErrorMsg.
  rewrite (bind_eq _ _ w tt (set_err (Some (err_of (SWIG_Python_ErrorType code) msg)) w)); [done|].
  rewrite thread_block_eq. unfold PyErr_SetString, bind, need_gil, modify. cbn.
  unfold set_gil, set_err. cbn. by rewrite Hg.
Qed.

(** A setter that gets a plain value: it does what the specification says. *)
Lemma wrap_set_plain w args obj0 obj1 meth sname tname ty k off p v :
  w_gil w = true -> w_err w = None -> args <> 0 -> (ty < te_size)%nat ->
  w_heap w !! args = Some (OTuple [obj0; obj1]) -> wraps_ptr w obj0 ty p -> p <> 0 ->
  w_heap w !! obj1 = Some v -> obj1 <> 0 -> obj1 <> Py_None -> plain v -> sized k ->
  mapped w (p + off) (Z.to_nat (sizeof k)) ->
  exists w', w_heap w' = w_heap w /\ w_gil w' = true
    /\ match value_spec k v with
       | (_, Some b) => wrap_set long_w implicit meth sname tname ty k off args w = (Ret Py_None, w')
           /\ w_mem w' = store_bytes (w_mem w) (p + off) b /\ w_err w' = None
       | (code, None) => wrap_set long_w implicit meth sname tname ty k off args w = (Ret 0, w')
           /\ w_mem w' = w_mem w /\ w_err w' = Some (err_of (SWIG_Python_ErrorType code) (arg_msg meth "2" tname))
       end.
Proof.
  intros Hg He Ha Hty Ht Hw Hp Hv Hz Hn Hpl Hk Hm.
  assert (Hconv : forall w1, same w w1 -> convert_value long_w implicit k obj1 w1 = (Ret (value_spec k v), w1)).
  { intros w1 Hs. apply convert_spec; rewrite ?(same_gil _ _ Hs), ?(same_err _ _ Hs), ?(same_heap _ _ Hs); done. }
  destruct (value_spec_cases k v Hk) as [(b & E & Hl)|(code & E & Hcode)]; rewrite E in *.
  - destruct (wrap_set_stores w args obj0 obj1 meth sname tname ty k off p b)
      as (w' & Er & R1 & R2 & R3 & R4 & _); try done; [by replace (length b) with (Z.to_nat (sizeof k)) by lia|].
    by exists w'.
  - unfold wrap_set. rewrite (bind_eq _ _ _ _ _ (unpack_exact w args meth _ 2 Hg Ha Ht eq_refl)).
    destruct (convert_wraps w obj0 ty p Hg Hty Hw) as (w1 & E1 & Hs).
    rewrite (bind_eq _ _ _ _ _ E1). change (SWIG_IsOK SWIG_OK) with true. cbn [negb].
    assert (Hg1 : w_gil w1 = true) by by rewrite (same_gil _ _ Hs).
    rewrite (bind_eq _ _ _ _ _ (Hconv w1 Hs)), exception_fail_eq by done. eexists. split; [|split; [|split; [reflexivity|]]].
    + cbn. by rewrite (same_heap _ _ Hs).
    + done.
    + cbn. rewrite (same_mem _ _ Hs). split; [done|]. by destruct Hcode as [-> | ->].
Qed.

Lemma wrap_get_value w obj meth sname field ty k off p v b :
  w_gil w = true -> (ty < te_size)%nat -> wraps_ptr w obj ty p -> p + off <> 0 ->
  iconv_open_result <> -1 -> Z.of_nat (length b) = sizeof k -> field_value k b = Some v -> holds w (p + off) b ->
  gives (wrap_get implicit warn meth sname field ty (getter_of k) off obj) w v.
Proof.
  intros Hg Hty Hw Hp Ho Hlen Hval Hh. assert (Hz := proj1 Hw).
  destruct (convert_wraps w obj ty p Hg Hty Hw) as (w1 & E1 & Hs).
  destruct (read_value w1 field k v b p off) as (o & w' & E & Hrest); try done.
  - by rewrite (same_gil _ _ Hs).
  - intros i c Hi. rewrite (same_mem _ _ Hs). by apply Hh.
  - exists o, w'. unfold wrap_get. rewrite (proj2 (Z.eqb_neq _ _) Hz), (bind_eq _ _ _ _ _ E1).
    change (SWIG_IsOK SWIG_OK) with true. cbn [negb]. split; [exact E|].
    rewrite <- (same_err _ _ Hs), <- (same_mem _ _ Hs).
    destruct Hrest as (R1 & R2 & R3 & R4 & R5). do 4 (split; [done|]).
    intros x. by rewrite R5, (same_refs _ _ Hs).
Qed.

Lemma wrap_get_ok w obj meth sname field ty k off p v b :
  w_gil w = true -> (ty < te_size)%nat -> wraps_ptr w obj ty p -> p + off <> 0 ->
  iconv_open_result <> -1 -> encodes k v b -> holds w (p + off) b ->
  gives (wrap_get implicit warn meth sname field ty (getter_of k) off obj) w v.
Proof. intros Hg Hty Hw Hp Ho Henc Hh. eapply wrap_get_value; eauto using encodes_length, encodes_value. Qed.

Lemma holds_store w p b : holds (set_mem (store_bytes (w_mem w) p b) w) p b.
Proof.
  intros i c Hi. cbn. apply lookup_lt_Some in Hi as Hlt.
  rewrite store_bytes_lookup, decide_True by lia. rewrite <- Hi. f_equal. lia.
Qed.

Lemma holds_store_other m m' p b q l w w' : w_mem w = m -> w_mem w' = m' -> m' = store_bytes m p b ->
  (q + Z.of_nat (length l) <= p \/ p + Z.of_nat (length b) <= q) -> holds w q l -> holds w' q l.
Proof.
  intros <- <- E Hd Hh i c Hi. apply lookup_lt_Some in Hi as Hlt.
  rewrite E, store_bytes_lookup, decide_False by lia. by apply Hh.
Qed.

End AccLemmas.

(** ** Properties *)

(** Field round trip: assigning to a field of a wrapped structure a value
    the field can hold (an int or short in range, a double, one ASCII
    character, ASCII text that fits with its terminator) succeeds, and reading
    the field back gives that value, the text passing through the GBK
    conversion; the lock is held and no error is set afterwards. *)
Lemma field_roundtrip `{!TypeEnv, !ExactTypes _, !IconvEnv, !IconvLaws _}
    long_w implicit warn w args obj0 obj1 meth meth' sname tname field ty k off p v b :
  32 <= long_w -> iconv_open_result <> -1 ->
  w_gil w = true -> w_err w = None -> args <> 0 -> (ty < te_size)%nat ->
  w_heap w !! args = Some (OTuple [obj0; obj1]) -> wraps_ptr w obj0 ty p -> p <> 0 -> p + off <> 0 ->
  w_heap w !! obj1 = Some v -> encodes k v b -> mapped w (p + off) (length b) ->
  exists w1, wrap_set long_w implicit meth sname tname ty k off args w = (Ret Py_None, w1)
    /\ w_gil w1 = true /\ w_err w1 = None
    /\ gives (wrap_get implicit warn meth' sname field ty (getter_of k) off obj0) w1 v.
Proof.
  intros Hl Ho Hg He Ha Hty Ht Hw Hp Hpo Hv Henc Hm.
  destruct (wrap_set_ok long_w Hl implicit w args obj0 obj1 meth sname tname ty k off p v b)
    as (w1 & E & Hmem & Hheap & Hg1 & He1 & _ & _); try done.
  exists w1. do 3 (split; [done|]). eapply wrap_get_ok; try done.
  - unfold wraps_ptr. rewrite Hheap. exact Hw.
  - intros i c Hi. rewrite Hmem. by apply (holds_store w).
Qed.

Definition sample_struct : world :=
  mk_world {[100 := OSwig (mk_swigobj 4096 (Some 7%nat) 1 None); 101 := OInst (Some 100);
             102 := OStr (chars "rb2510"); 103 := OTuple [101; 102]; 104 := OInt 5000000000;
             105 := OTuple [101; 104]; 1 := ONone; 106 := OTuple [1; 102]; 107 := OInt 3; 108 := OTuple [1; 107]]}
    ∅ 200 None true (store_bytes ∅ 4096 (replicate 32 7)) {[4096 := 32%nat]} 8192 ∅ (-1) [].
Definition sample_identity : IconvEnv := {| iconv_open_result := 1;
  iconv_run s n := if decide (length s <= n)%nat then Converted s else Failed 0 |}.
#[local] Instance sample_identity_laws : IconvLaws sample_identity.
Proof.
  split; cbn; intros.
  - by rewrite decide_True.
  - case_decide; simplify_eq; done.
  - case_decide; simplify_eq; lia.
Qed.

Lemma sample_wraps : wraps_ptr sample_struct 101 7 4096.
Proof.
  split; [discriminate|]. split; [discriminate|]. exists 100, (mk_swigobj 4096 (Some 7%nat) 1 None).
  do 4 (split; [reflexivity|]). right. split; [reflexivity|discriminate].
Defined.

(** Independence of fields: assigning a value to one field of a structure
    writes only inside that field, so that the bytes of every other field are
    what they were. *)
Lemma field_frame `{!TypeEnv, !ExactTypes _} long_w implicit w args obj0 obj1 meth sname tname
    ty s i j f k o g u q p v b l :
  32 <= long_w -> w_gil w = true -> w_err w = None -> args <> 0 -> (ty < te_size)%nat ->
  w_heap w !! args = Some (OTuple [obj0; obj1]) -> wraps_ptr w obj0 ty p -> p <> 0 ->
  w_heap w !! obj1 = Some v -> encodes k v b -> mapped w p (Z.to_nat (struct_size s)) ->
  fields s !! i = Some (f, k, o) -> fields s !! j = Some (g, u, q) -> i <> j ->
  Z.of_nat (length l) = sizeof u -> holds w (p + q) l ->
  exists w1, wrap_set long_w implicit meth sname tname ty k o args w = (Ret Py_None, w1)
    /\ holds w1 (p + o) b /\ holds w1 (p + q) l
    /\ (forall a, ~ (p + o <= a < p + o + sizeof k) -> w_mem w1 !! a = w_mem w !! a).
Proof.
  intros Hl Hg He Ha Hty Ht Hw Hp Hv Henc Hm Hi Hj Hne Hll Hh.
  destruct (place_spec s 0) as [_ Hpl].
  destruct (Hpl i f k o Hi) as (Ho & Hend & _ & _ & Hsep). pose proof (struct_size_ge s).
  destruct (Hpl j g u q Hj) as (_ & _ & _ & _ & Hsep').
  pose proof (encodes_length k v b Henc) as Hb.
  destruct (wrap_set_ok long_w Hl implicit w args obj0 obj1 meth sname tname ty k o p v b)
    as (w1 & E & Hmem & _); try done.
  { intros n Hn. replace (p + o + Z.of_nat n) with (p + Z.of_nat (Z.to_nat (o + Z.of_nat n))) by lia.
    apply Hm. lia. }
  assert (Hd : q + sizeof u <= o \/ o + sizeof k <= q).
  { destruct (decide (i < j)%nat); [right; eauto|left; eapply Hsep'; [done|lia]]. }
  exists w1. split; [done|]. split; [|split].
  - intros n c Hn. rewrite Hmem. by apply (holds_store w).
  - eapply holds_store_other; [reflexivity|reflexivity|exact Hmem| |exact Hh]. lia.
  - intros a Hout. rewrite Hmem, store_bytes_lookup, decide_False by lia. done.
Qed.

(** C22. Refused values: an int, bool, float or encodable text that the field
    cannot hold makes the setter return null with an error and changes no byte of
    memory: OverflowError for an int that is out of the range of an int, short
    or char field; TypeError for a text or a float where an int is
    expected, for a text, or an int too large, where a double is, for a float or
    a text of several bytes in a char field, and for a number or a text too long
    in a text field.  The lock is held. *)
Theorem set_rejects `{!TypeEnv, !ExactTypes _} long_w implicit w args obj0 obj1 meth sname tname ty k off p v code :
  32 <= long_w -> w_gil w = true -> w_err w = None -> args <> 0 -> (ty < te_size)%nat ->
  w_heap w !! args = Some (OTuple [obj0; obj1]) -> wraps_ptr w obj0 ty p -> p <> 0 ->
  mapped w (p + off) (Z.to_nat (sizeof k)) -> w_heap w !! obj1 = Some v -> obj1 <> 0 -> obj1 <> Py_None ->
  plain v -> sized k -> value_spec k v = (code, None) ->
  (code = SWIG_OverflowError \/ code = SWIG_TypeError)
  /\ exists w1, wrap_set long_w implicit meth sname tname ty k off args w = (Ret 0, w1)
    /\ w_err w1 = Some (err_of (SWIG_Python_ErrorType code) (arg_msg meth "2" tname))
    /\ w_mem w1 = w_mem w /\ w_heap w1 = w_heap w /\ w_gil w1 = true.
Proof.
  intros Hl Hg He Ha Hty Ht Hw Hp Hm Hv Hz Hn Hpl Hk E. split.
  { destruct (value_spec_cases k v Hk) as [(b & E' & _)|(code' & E' & Hc)]; congruence. }
  destruct (wrap_set_plain long_w Hl implicit w args obj0 obj1 meth sname tname ty k off p v)
    as (w1 & H1 & H2 & H3); try done. rewrite E in H3. destruct H3 as (H3 & H4 & H5). by exists w1.
Qed.

Lemma set_rejects_witness :
  exists w1, wrap_set (H := ctp_types (fun _ => 0) (fun _ => true)) 64 (fun _ => None)
      "X_Volume_set" "X" "TThostFtdcVolumeType" 7 TInt 0 105 sample_struct = (Ret 0, w1)
    /\ w_err w1 = Some (err_of OverflowError (arg_msg "X_Volume_set" "2" "TThostFtdcVolumeType")).
Proof.
  destruct (set_rejects (H := ctp_types (fun _ => 0) (fun _ => true)) 64 (fun _ => None) sample_struct
    105 101 104 "X_Volume_set" "X" "TThostFtdcVolumeType" 7 TInt 0 4096 (OInt 5000000000) SWIG_OverflowError)
    as (_ & w1 & E & He & _).
  - discriminate.
  - reflexivity.
  - reflexivity.
  - discriminate.
  - apply Nat.ltb_lt. reflexivity.
  - reflexivity.
  - exact sample_wraps.
  - discriminate.
  - intros i Hi. cbn in Hi. cbn [w_mem sample_struct]. rewrite store_bytes_lookup, length_replicate, decide_True by lia.
    apply lookup_lt_is_Some_2. rewrite length_replicate. lia.
  - reflexivity.
  - discriminate.
  - discriminate.
  - exact I.
  - exact I.
  - reflexivity.
  - exists w1. split; [exact E|exact He].
Defined.

(** None in place of the structure: the pointer conversion accepts it as
    null.  The setters of numbers and characters then do nothing and return
    None, but the setters of text write through the null pointer, and so do
    the getters of numbers and characters read through it: with nothing mapped
    at the low addresses they are undefined behaviour. *)
Lemma none_self_unchecked `{!TypeEnv} `{!IconvEnv} long_w implicit warn w args obj1 meth sname tname field ty k off v b :
  32 <= long_w -> w_gil w = true -> w_err w = None -> args <> 0 ->
  w_heap w !! args = Some (OTuple [Py_None; obj1]) ->
  w_heap w !! obj1 = Some v -> encodes k v b -> w_mem w !! off = None ->
  match k with
  | TChars _ => exists w1, wrap_set long_w implicit meth sname tname ty k off args w = (Stuck Unmapped, w1)
  | _ => (exists w1, wrap_set long_w implicit meth sname tname ty k off args w = (Ret Py_None, w1)
                     /\ w_mem w1 = w_mem w)
         /\ exists w2, wrap_get implicit warn meth sname field ty (getter_of k) off Py_None w = (Stuck Unmapped, w2)
  end.
Proof.
  intros Hl Hg He Ha Ht Hv Henc Hu.
  assert (Hset : wrap_set long_w implicit meth sname tname ty k off args w
    = bind (thread_allow (store_field k 0 off b)) (fun _ => SWIG_Py_Void) w).
  { unfold wrap_set. rewrite (bind_eq _ _ _ _ _ (unpack_exact w args meth _ 2 Hg Ha Ht eq_refl)).
    rewrite (bind_eq (SWIG_ConvertPtr implicit Py_None ty 0) _ w (SWIG_OK, 0) w eq_refl).
    change (SWIG_IsOK SWIG_OK) with true. cbn [negb].
    rewrite (bind_eq _ _ _ _ _ (convert_encodes long_w Hl implicit w obj1 k v b Hg He Hv Henc)).
    done. }
  assert (Hget : forall g, wrap_get implicit warn meth sname field ty g off Py_None w = read_field warn field g 0 off w)
    by done.
  assert (Hload : forall n, (0 < n)%nat -> thread_allow (load (0 + off) n) w = (Stuck Unmapped, set_gil false w)).
  { intros n Hn. rewrite thread_allow_eq by done. unfold load. destruct n; [lia|]. cbn [seq mapM].
    cbn [Z.of_nat w_mem set_gil]. rewrite Z.add_0_l, Z.add_0_r, Hu. done. }
  assert (Hnoop : forall w', thread_allow (ret tt) w = (Ret tt, w') -> w_mem w' = w_mem w /\ w_gil w' = true).
  { intros w'. rewrite thread_allow_eq by done. cbn. intros [= <-]. done. }
  rewrite Hset. pose proof (encodes_length k v b Henc) as Hb.
  destruct k as [|n| | |]; cbn [store_field getter_of Z.eqb sizeof] in *.
  2: { exists (set_gil false w). unfold bind. rewrite thread_allow_eq by done.
       unfold store. assert (n <> O) by (inversion Henc; lia).
       destruct (length b) as [|m] eqn:El; [lia|]. cbn [seq mapM].
       cbn [Z.of_nat w_mem set_gil]. rewrite Z.add_0_l, Z.add_0_r, Hu. done. }
  all: (split; [|rewrite Hget; cbn [read_field]; unfold bind; rewrite Hload by lia; eauto]).
  all: destruct (thread_allow (ret tt) w) as [r w'] eqn:E; destruct (Hnoop w') as [Hm Hg'];
    [rewrite thread_allow_eq in E by done; cbn in E; congruence|];
    assert (r = Ret tt) as -> by (rewrite thread_allow_eq in E by done; cbn in E; congruence);
    rewrite (bind_eq _ _ _ _ _ E), (py_void_eq w' Hg'); eauto.
Qed.

End Accessor.
