(* ===== verification/DataTypes.v ===== *)
(** * Field types and codes of the CTP API

    ThostFtdcUserApiDataType.h: the enumeration of resume types, and the type
    definitions in order, each with the codes the header defines before it, as
    the characters of their literals.  The tables follow the header in groups;
    [TThostFtdc*Type] abbreviate the types. *)

From S2P Require Import Prelude Layout.

Module DataTypes.
Import Layout.
Local Open Scope string_scope.
Local Open Scope list_scope.

Record datatype := mk_datatype { dt_name : string; dt_type : ctype; dt_codes : list (string * string) }.

(** The constants of [THOST_TE_RESUME_TYPE]. *)
Definition THOST_TE_RESUME_TYPE : list (string * Z) :=
  [ ("THOST_TERT_RESTART", 0%Z); ("THOST_TERT_RESUME", 1%Z); ("THOST_TERT_QUICK", 2%Z); ("THOST_TERT_NONE", 3%Z) ].

(** ** The type definitions *)

Definition datatypes_0 : list datatype :=
  [ mk_datatype "TThostFtdcTraderIDType" (TChars 21) [];
    mk_datatype "TThostFtdcInvestorIDType" (TChars 13) [];
    mk_datatype "TThostFtdcBrokerIDType" (TChars 11) [];
    mk_datatype "TThostFtdcBrokerAbbrType" (TChars 9) [];
    mk_datatype "TThostFtdcBrokerNameType" (TChars 81) [];
    mk_datatype "TThostFtdcOldExchangeInstIDType" (TChars 31) [];
    mk_datatype "TThostFtdcExchangeInstIDType" (TChars 81) [];
    mk_datatype "TThostFtdcOrderRefType" (TChars 13) [];
    mk_datatype "TThostFtdcParticipantIDType" (TChars 11) [];
    mk_datatype "TThostFtdcUserIDType" (TChars 16) [];
    mk_datatype "TThostFtdcPasswordType" (TChars 41) [];
    mk_datatype "TThostFtdcClientIDType" (TChars 11) [];
    mk_datatype "TThostFtdcInstrumentIDType" (TChars 81) [];
    mk_datatype "TThostFtdcOldInstrumentIDType" (TChars 31) [];
    mk_datatype "TThostFtdcInstrumentCodeType" (TChars 31) [];
    mk_datatype "TThostFtdcMarketIDType" (TChars 31) [];
    mk_datatype "TThostFtdcProductNameType" (TChars 21) [];
    mk_datatype "TThostFtdcExchangeIDType" (TChars 9) [];
    mk_datatype "TThostFtdcExchangeNameType" (TChars 61) [];
    mk_datatype "TThostFtdcExchangeAbbrType" (TChars 9) [];
    mk_datatype "TThostFtdcExchangeFlagType" (TChars 2) [];
    mk_datatype "TThostFtdcMacAddressType" (TChars 21) [];
    mk_datatype "TThostFtdcSystemIDType" (TChars 21) [];
    mk_datatype "TThostFtdcClientLoginRemarkType" (TChars 151) [];
    mk_datatype "TThostFtdcExchangePropertyType" TChar
      [ ("THOST_FTDC_EXP_Normal", "0");
        ("THOST_FTDC_EXP_GenOrderByTrade", "1") ];
    mk_datatype "TThostFtdcDateType" (TChars 9) [];
    mk_datatype "TThostFtdcTimeType" (TChars 9) [];
    mk_datatype "TThostFtdcLongTimeType" (TChars 13) [];
    mk_datatype "TThostFtdcInstrumentNameType" (TChars 21) [] ].

Definition datatypes_1 : list datatype :=
  [ mk_datatype "TThostFtdcSettlementGroupIDType" (TChars 9) [];
    mk_datatype "TThostFtdcOrderSysIDType" (TChars 21) [];
    mk_datatype "TThostFtdcTradeIDType" (TChars 21) [];
    mk_datatype "TThostFtdcCommandTypeType" (TChars 65) [];
    mk_datatype "TThostFtdcOldIPAddressType" (TChars 16) [];
    mk_datatype "TThostFtdcIPAddressType" (TChars 33) [];
    mk_datatype "TThostFtdcIPPortType" TInt [];
    mk_datatype "TThostFtdcProductInfoType" (TChars 11) [];
    mk_datatype "TThostFtdcProtocolInfoType" (TChars 11) [];
    mk_datatype "TThostFtdcBusinessUnitType" (TChars 21) [];
    mk_datatype "TThostFtdcDepositSeqNoType" (TChars 15) [];
    mk_datatype "TThostFtdcIdentifiedCardNoType" (TChars 51) [];
    mk_datatype "TThostFtdcIdCardTypeType" TChar
      [ ("THOST_FTDC_ICT_EID", "0");
        ("THOST_FTDC_ICT_IDCard", "1");
        ("THOST_FTDC_ICT_OfficerIDCard", "2");
        ("THOST_FTDC_ICT_PoliceIDCard", "3");
        ("THOST_FTDC_ICT_SoldierIDCard", "4");
        ("THOST_FTDC_ICT_HouseholdRegister", "5");
        ("THOST_FTDC_ICT_Passport", "6");
        ("THOST_FTDC_ICT_TaiwanCompatriotIDCard", "7");
        ("THOST_FTDC_ICT_HomeComingCard", "8");
        ("THOST_FTDC_ICT_LicenseNo", "9");
        ("THOST_FTDC_ICT_TaxNo", "A");
        ("THOST_FTDC_ICT_HMMainlandTravelPermit", "B");
        ("THOST_FTDC_ICT_TwMainlandTravelPermit", "C");
        ("THOST_FTDC_ICT_DrivingLicense", "D");
        ("THOST_FTDC_ICT_SocialID", "F");
        ("THOST_FTDC_ICT_LocalID", "G");
        ("THOST_FTDC_ICT_BusinessRegistration", "H");
        ("THOST_FTDC_ICT_HKMCIDCard", "I");
        ("THOST_FTDC_ICT_AccountsPermits", "J");
        ("THOST_FTDC_ICT_FrgPrmtRdCard", "K");
        ("THOST_FTDC_ICT_CptMngPrdLetter", "L");
        ("THOST_FTDC_ICT_HKMCTwResidencePermit", "M");
        ("THOST_FTDC_ICT_UniformSocialCreditCode", "N");
        ("THOST_FTDC_ICT_CorporationCertNo", "O");
        ("THOST_FTDC_ICT_OtherCard", "x") ];
    mk_datatype "TThostFtdcOrderLocalIDType" (TChars 13) [];
    mk_datatype "TThostFtdcUserNameType" (TChars 81) [];
    mk_datatype "TThostFtdcPartyNameType" (TChars 81) [];
    mk_datatype "TThostFtdcErrorMsgType" (TChars 81) [];
    mk_datatype "TThostFtdcFieldNameType" (TChars 2049) [];
    mk_datatype "TThostFtdcFieldContentType" (TChars 2049) [];
    mk_datatype "TThostFtdcSystemNameType" (TChars 41) [] ].

Definition datatypes_2 : list datatype :=
  [ mk_datatype "TThostFtdcContentType" (TChars 501) [];
    mk_datatype "TThostFtdcInvestorRangeType" TChar
      [ ("THOST_FTDC_IR_All", "1");
        ("THOST_FTDC_IR_Group", "2");
        ("THOST_FTDC_IR_Single", "3") ];
    mk_datatype "TThostFtdcDepartmentRangeType" TChar
      [ ("THOST_FTDC_DR_All", "1");
        ("THOST_FTDC_DR_Group", "2");
        ("THOST_FTDC_DR_Single", "3") ];
    mk_datatype "TThostFtdcDataSyncStatusType" TChar
      [ ("THOST_FTDC_DS_Asynchronous", "1");
        ("THOST_FTDC_DS_Synchronizing", "2");
        ("THOST_FTDC_DS_Synchronized", "3") ];
    mk_datatype "TThostFtdcBrokerDataSyncStatusType" TChar
      [ ("THOST_FTDC_BDS_Synchronized", "1");
        ("THOST_FTDC_BDS_Synchronizing", "2") ];
    mk_datatype "TThostFtdcExchangeConnectStatusType" TChar
      [ ("THOST_FTDC_ECS_NoConnection", "1");
        ("THOST_FTDC_ECS_QryInstrumentSent", "2");
        ("THOST_FTDC_ECS_GotInformation", "9") ];
    mk_datatype "TThostFtdcTraderConnectStatusType" TChar
      [ ("THOST_FTDC_TCS_NotConnected", "1");
        ("THOST_FTDC_TCS_Connected", "2");
        ("THOST_FTDC_TCS_QryInstrumentSent", "3");
        ("THOST_FTDC_TCS_SubPrivateFlow", "4") ];
    mk_datatype "TThostFtdcFunctionCodeType" TChar
      [ ("THOST_FTDC_FC_DataAsync", "1");
        ("THOST_FTDC_FC_ForceUserLogout", "2");
        ("THOST_FTDC_FC_UserPasswordUpdate", "3");
        ("THOST_FTDC_FC_BrokerPasswordUpdate", "4");
        ("THOST_FTDC_FC_InvestorPasswordUpdate", "5");
        ("THOST_FTDC_FC_OrderInsert", "6");
        ("THOST_FTDC_FC_OrderAction", "7");
        ("THOST_FTDC_FC_SyncSystemData", "8");
        ("THOST_FTDC_FC_SyncBrokerData", "9");
        ("THOST_FTDC_FC_BachSyncBrokerData", "A");
        ("THOST_FTDC_FC_SuperQuery", "B");
        ("THOST_FTDC_FC_ParkedOrderInsert", "C");
        ("THOST_FTDC_FC_ParkedOrderAction", "D");
        ("THOST_FTDC_FC_SyncOTP", "E");
        ("THOST_FTDC_FC_DeleteOrder", "F");
        ("THOST_FTDC_FC_ExitEmergency", "G") ] ].

Definition datatypes_3 : list datatype :=
  [ mk_datatype "TThostFtdcBrokerFunctionCodeType" TChar
      [ ("THOST_FTDC_BFC_ForceUserLogout", "1");
        ("THOST_FTDC_BFC_UserPasswordUpdate", "2");
        ("THOST_FTDC_BFC_SyncBrokerData", "3");
        ("THOST_FTDC_BFC_BachSyncBrokerData", "4");
        ("THOST_FTDC_BFC_OrderInsert", "5");
        ("THOST_FTDC_BFC_OrderAction", "6");
        ("THOST_FTDC_BFC_AllQuery", "7");
        ("THOST_FTDC_BFC_log", "a");
        ("THOST_FTDC_BFC_BaseQry", "b");
        ("THOST_FTDC_BFC_TradeQry", "c");
        ("THOST_FTDC_BFC_Trade", "d");
        ("THOST_FTDC_BFC_Virement", "e");
        ("THOST_FTDC_BFC_Risk", "f");
        ("THOST_FTDC_BFC_Session", "g");
        ("THOST_FTDC_BFC_RiskNoticeCtl", "h");
        ("THOST_FTDC_BFC_RiskNotice", "i");
        ("THOST_FTDC_BFC_BrokerDeposit", "j");
        ("THOST_FTDC_BFC_QueryFund", "k");
        ("THOST_FTDC_BFC_QueryOrder", "l");
        ("THOST_FTDC_BFC_QueryTrade", "m");
        ("THOST_FTDC_BFC_QueryPosition", "n");
        ("THOST_FTDC_BFC_QueryMarketData", "o");
        ("THOST_FTDC_BFC_QueryUserEvent", "p");
        ("THOST_FTDC_BFC_QueryRiskNotify", "q");
        ("THOST_FTDC_BFC_QueryFundChange", "r");
        ("THOST_FTDC_BFC_QueryInvestor", "s");
        ("THOST_FTDC_BFC_QueryTradingCode", "t");
        ("THOST_FTDC_BFC_ForceClose", "u");
        ("THOST_FTDC_BFC_PressTest", "v");
        ("THOST_FTDC_BFC_RemainCalc", "w");
        ("THOST_FTDC_BFC_NetPositionInd", "x");
        ("THOST_FTDC_BFC_RiskPredict", "y");
        ("THOST_FTDC_BFC_DataExport", "z");
        ("THOST_FTDC_BFC_RiskTargetSetup", "A");
        ("THOST_FTDC_BFC_MarketDataWarn", "B");
        ("THOST_FTDC_BFC_QryBizNotice", "C");
        ("THOST_FTDC_BFC_CfgBizNotice", "D");
        ("THOST_FTDC_BFC_SyncOTP", "E");
        ("THOST_FTDC_BFC_SendBizNotice", "F");
        ("THOST_FTDC_BFC_CfgRiskLevelStd", "G");
        ("THOST_FTDC_BFC_TbCommand", "H");
        ("THOST_FTDC_BFC_DeleteOrder", "J");
        ("THOST_FTDC_BFC_ParkedOrderInsert", "K");
        ("THOST_FTDC_BFC_ParkedOrderAction", "L");
        ("THOST_FTDC_BFC_ExecOrderNoCheck", "M");
        ("THOST_FTDC_BFC_Designate", "N");
        ("THOST_FTDC_BFC_StockDisposal", "O");
        ("THOST_FTDC_BFC_BrokerDepositWarn", "Q");
        ("THOST_FTDC_BFC_CoverWarn", "S");
        ("THOST_FTDC_BFC_PreExecOrder", "T");
        ("THOST_FTDC_BFC_ExecOrderRisk", "P");
        ("THOST_FTDC_BFC_PosiLimitWarn", "U");
        ("THOST_FTDC_BFC_QryPosiLimit", "V");
        ("THOST_FTDC_BFC_FBSign", "W");
        ("THOST_FTDC_BFC_FBAccount", "X") ];
    mk_datatype "TThostFtdcOrderActionStatusType" TChar
      [ ("THOST_FTDC_OAS_Submitted", "a");
        ("THOST_FTDC_OAS_Accepted", "b");
        ("THOST_FTDC_OAS_Rejected", "c") ] ].

Definition datatypes_4 : list datatype :=
  [ mk_datatype "TThostFtdcOrderStatusType" TChar
      [ ("THOST_FTDC_OST_AllTraded", "0");
        ("THOST_FTDC_OST_PartTradedQueueing", "1");
        ("THOST_FTDC_OST_PartTradedNotQueueing", "2");
        ("THOST_FTDC_OST_NoTradeQueueing", "3");
        ("THOST_FTDC_OST_NoTradeNotQueueing", "4");
        ("THOST_FTDC_OST_Canceled", "5");
        ("THOST_FTDC_OST_Unknown", "a");
        ("THOST_FTDC_OST_NotTouched", "b");
        ("THOST_FTDC_OST_Touched", "c") ];
    mk_datatype "TThostFtdcOrderSubmitStatusType" TChar
      [ ("THOST_FTDC_OSS_InsertSubmitted", "0");
        ("THOST_FTDC_OSS_CancelSubmitted", "1");
        ("THOST_FTDC_OSS_ModifySubmitted", "2");
        ("THOST_FTDC_OSS_Accepted", "3");
        ("THOST_FTDC_OSS_InsertRejected", "4");
        ("THOST_FTDC_OSS_CancelRejected", "5");
        ("THOST_FTDC_OSS_ModifyRejected", "6") ];
    mk_datatype "TThostFtdcPositionDateType" TChar
      [ ("THOST_FTDC_PSD_Today", "1");
        ("THOST_FTDC_PSD_History", "2") ];
    mk_datatype "TThostFtdcPositionDateTypeType" TChar
      [ ("THOST_FTDC_PDT_UseHistory", "1");
        ("THOST_FTDC_PDT_NoUseHistory", "2") ];
    mk_datatype "TThostFtdcTradingRoleType" TChar
      [ ("THOST_FTDC_ER_Broker", "1");
        ("THOST_FTDC_ER_Host", "2");
        ("THOST_FTDC_ER_Maker", "3") ];
    mk_datatype "TThostFtdcProductClassType" TChar
      [ ("THOST_FTDC_PC_Futures", "1");
        ("THOST_FTDC_PC_Options", "2");
        ("THOST_FTDC_PC_Combination", "3");
        ("THOST_FTDC_PC_Spot", "4");
        ("THOST_FTDC_PC_EFP", "5");
        ("THOST_FTDC_PC_SpotOption", "6");
        ("THOST_FTDC_PC_TAS", "7");
        ("THOST_FTDC_PC_MI", "I") ];
    mk_datatype "TThostFtdcAPIProductClassType" TChar
      [ ("THOST_FTDC_APC_FutureSingle", "1");
        ("THOST_FTDC_APC_OptionSingle", "2");
        ("THOST_FTDC_APC_Futures", "3");
        ("THOST_FTDC_APC_Options", "4");
        ("THOST_FTDC_APC_TradingComb", "5");
        ("THOST_FTDC_APC_UnTradingComb", "6");
        ("THOST_FTDC_APC_AllTrading", "7");
        ("THOST_FTDC_APC_All", "8") ];
    mk_datatype "TThostFtdcInstLifePhaseType" TChar
      [ ("THOST_FTDC_IP_NotStart", "0");
        ("THOST_FTDC_IP_Started", "1");
        ("THOST_FTDC_IP_Pause", "2");
        ("THOST_FTDC_IP_Expired", "3") ];
    mk_datatype "TThostFtdcDirectionType" TChar
      [ ("THOST_FTDC_D_Buy", "0");
        ("THOST_FTDC_D_Sell", "1") ] ].

Definition datatypes_5 : list datatype :=
  [ mk_datatype "TThostFtdcPositionTypeType" TChar
      [ ("THOST_FTDC_PT_Net", "1");
        ("THOST_FTDC_PT_Gross", "2") ];
    mk_datatype "TThostFtdcPosiDirectionType" TChar
      [ ("THOST_FTDC_PD_Net", "1");
        ("THOST_FTDC_PD_Long", "2");
        ("THOST_FTDC_PD_Short", "3") ];
    mk_datatype "TThostFtdcSysSettlementStatusType" TChar
      [ ("THOST_FTDC_SS_NonActive", "1");
        ("THOST_FTDC_SS_Startup", "2");
        ("THOST_FTDC_SS_Operating", "3");
        ("THOST_FTDC_SS_Settlement", "4");
        ("THOST_FTDC_SS_SettlementFinished", "5") ];
    mk_datatype "TThostFtdcRatioAttrType" TChar
      [ ("THOST_FTDC_RA_Trade", "0");
        ("THOST_FTDC_RA_Settlement", "1") ];
    mk_datatype "TThostFtdcHedgeFlagType" TChar
      [ ("THOST_FTDC_HF_Speculation", "1");
        ("THOST_FTDC_HF_Arbitrage", "2");
        ("THOST_FTDC_HF_Hedge", "3");
        ("THOST_FTDC_HF_MarketMaker", "5");
        ("THOST_FTDC_HF_SpecHedge", "6");
        ("THOST_FTDC_HF_HedgeSpec", "7") ];
    mk_datatype "TThostFtdcBillHedgeFlagType" TChar
      [ ("THOST_FTDC_BHF_Speculation", "1");
        ("THOST_FTDC_BHF_Arbitrage", "2");
        ("THOST_FTDC_BHF_Hedge", "3") ];
    mk_datatype "TThostFtdcClientIDTypeType" TChar
      [ ("THOST_FTDC_CIDT_Speculation", "1");
        ("THOST_FTDC_CIDT_Arbitrage", "2");
        ("THOST_FTDC_CIDT_Hedge", "3");
        ("THOST_FTDC_CIDT_MarketMaker", "5") ];
    mk_datatype "TThostFtdcOrderPriceTypeType" TChar
      [ ("THOST_FTDC_OPT_AnyPrice", "1");
        ("THOST_FTDC_OPT_LimitPrice", "2");
        ("THOST_FTDC_OPT_BestPrice", "3");
        ("THOST_FTDC_OPT_LastPrice", "4");
        ("THOST_FTDC_OPT_LastPricePlusOneTicks", "5");
        ("THOST_FTDC_OPT_LastPricePlusTwoTicks", "6");
        ("THOST_FTDC_OPT_LastPricePlusThreeTicks", "7");
        ("THOST_FTDC_OPT_AskPrice1", "8");
        ("THOST_FTDC_OPT_AskPrice1PlusOneTicks", "9");
        ("THOST_FTDC_OPT_AskPrice1PlusTwoTicks", "A");
        ("THOST_FTDC_OPT_AskPrice1PlusThreeTicks", "B");
        ("THOST_FTDC_OPT_BidPrice1", "C");
        ("THOST_FTDC_OPT_BidPrice1PlusOneTicks", "D");
        ("THOST_FTDC_OPT_BidPrice1PlusTwoTicks", "E");
        ("THOST_FTDC_OPT_BidPrice1PlusThreeTicks", "F");
        ("THOST_FTDC_OPT_FiveLevelPrice", "G") ];
    mk_datatype "TThostFtdcOffsetFlagType" TChar
      [ ("THOST_FTDC_OF_Open", "0");
        ("THOST_FTDC_OF_Close", "1");
        ("THOST_FTDC_OF_ForceClose", "2");
        ("THOST_FTDC_OF_CloseToday", "3");
        ("THOST_FTDC_OF_CloseYesterday", "4");
        ("THOST_FTDC_OF_ForceOff", "5");
        ("THOST_FTDC_OF_LocalForceClose", "6") ] ].

Definition datatypes_6 : list datatype :=
  [ mk_datatype "TThostFtdcForceCloseReasonType" TChar
      [ ("THOST_FTDC_FCC_NotForceClose", "0");
        ("THOST_FTDC_FCC_LackDeposit", "1");
        ("THOST_FTDC_FCC_ClientOverPositionLimit", "2");
        ("THOST_FTDC_FCC_MemberOverPositionLimit", "3");
        ("THOST_FTDC_FCC_NotMultiple", "4");
        ("THOST_FTDC_FCC_Violation", "5");
        ("THOST_FTDC_FCC_Other", "6");
        ("THOST_FTDC_FCC_PersonDeliv", "7");
        ("THOST_FTDC_FCC_Notverifycapital", "8");
        ("THOST_FTDC_FCC_LocalLackDeposit", "9");
        ("THOST_FTDC_FCC_LocalViolationNocheck", "a");
        ("THOST_FTDC_FCC_LocalViolation", "b") ];
    mk_datatype "TThostFtdcOrderTypeType" TChar
      [ ("THOST_FTDC_ORDT_Normal", "0");
        ("THOST_FTDC_ORDT_DeriveFromQuote", "1");
        ("THOST_FTDC_ORDT_DeriveFromCombination", "2");
        ("THOST_FTDC_ORDT_Combination", "3");
        ("THOST_FTDC_ORDT_ConditionalOrder", "4");
        ("THOST_FTDC_ORDT_Swap", "5");
        ("THOST_FTDC_ORDT_DeriveFromBlockTrade", "6");
        ("THOST_FTDC_ORDT_DeriveFromEFPTrade", "7") ];
    mk_datatype "TThostFtdcTimeConditionType" TChar
      [ ("THOST_FTDC_TC_IOC", "1");
        ("THOST_FTDC_TC_GFS", "2");
        ("THOST_FTDC_TC_GFD", "3");
        ("THOST_FTDC_TC_GTD", "4");
        ("THOST_FTDC_TC_GTC", "5");
        ("THOST_FTDC_TC_GFA", "6") ];
    mk_datatype "TThostFtdcVolumeConditionType" TChar
      [ ("THOST_FTDC_VC_AV", "1");
        ("THOST_FTDC_VC_MV", "2");
        ("THOST_FTDC_VC_CV", "3") ];
    mk_datatype "TThostFtdcContingentConditionType" TChar
      [ ("THOST_FTDC_CC_Immediately", "1");
        ("THOST_FTDC_CC_Touch", "2");
        ("THOST_FTDC_CC_TouchProfit", "3");
        ("THOST_FTDC_CC_ParkedOrder", "4");
        ("THOST_FTDC_CC_LastPriceGreaterThanStopPrice", "5");
        ("THOST_FTDC_CC_LastPriceGreaterEqualStopPrice", "6");
        ("THOST_FTDC_CC_LastPriceLesserThanStopPrice", "7");
        ("THOST_FTDC_CC_LastPriceLesserEqualStopPrice", "8");
        ("THOST_FTDC_CC_AskPriceGreaterThanStopPrice", "9");
        ("THOST_FTDC_CC_AskPriceGreaterEqualStopPrice", "A");
        ("THOST_FTDC_CC_AskPriceLesserThanStopPrice", "B");
        ("THOST_FTDC_CC_AskPriceLesserEqualStopPrice", "C");
        ("THOST_FTDC_CC_BidPriceGreaterThanStopPrice", "D");
        ("THOST_FTDC_CC_BidPriceGreaterEqualStopPrice", "E");
        ("THOST_FTDC_CC_BidPriceLesserThanStopPrice", "F");
        ("THOST_FTDC_CC_BidPriceLesserEqualStopPrice", "H") ];
    mk_datatype "TThostFtdcActionFlagType" TChar
      [ ("THOST_FTDC_AF_Delete", "0");
        ("THOST_FTDC_AF_Modify", "3") ];
    mk_datatype "TThostFtdcTradingRightType" TChar
      [ ("THOST_FTDC_TR_Allow", "0");
        ("THOST_FTDC_TR_CloseOnly", "1");
        ("THOST_FTDC_TR_Forbidden", "2") ] ].

Definition datatypes_7 : list datatype :=
  [ mk_datatype "TThostFtdcOrderSourceType" TChar
      [ ("THOST_FTDC_OSRC_Participant", "0");
        ("THOST_FTDC_OSRC_Administrator", "1") ];
    mk_datatype "TThostFtdcTradeTypeType" TChar
      [ ("THOST_FTDC_TRDT_SplitCombination", "#");
        ("THOST_FTDC_TRDT_Common", "0");
        ("THOST_FTDC_TRDT_OptionsExecution", "1");
        ("THOST_FTDC_TRDT_OTC", "2");
        ("THOST_FTDC_TRDT_EFPDerived", "3");
        ("THOST_FTDC_TRDT_CombinationDerived", "4");
        ("THOST_FTDC_TRDT_BlockTrade", "5") ];
    mk_datatype "TThostFtdcSpecPosiTypeType" TChar
      [ ("THOST_FTDC_SPOST_Common", "#");
        ("THOST_FTDC_SPOST_Tas", "0") ];
    mk_datatype "TThostFtdcPriceSourceType" TChar
      [ ("THOST_FTDC_PSRC_LastPrice", "0");
        ("THOST_FTDC_PSRC_Buy", "1");
        ("THOST_FTDC_PSRC_Sell", "2");
        ("THOST_FTDC_PSRC_OTC", "3") ];
    mk_datatype "TThostFtdcInstrumentStatusType" TChar
      [ ("THOST_FTDC_IS_BeforeTrading", "0");
        ("THOST_FTDC_IS_NoTrading", "1");
        ("THOST_FTDC_IS_Continous", "2");
        ("THOST_FTDC_IS_AuctionOrdering", "3");
        ("THOST_FTDC_IS_AuctionBalance", "4");
        ("THOST_FTDC_IS_AuctionMatch", "5");
        ("THOST_FTDC_IS_Closed", "6");
        ("THOST_FTDC_IS_TransactionProcessing", "7") ];
    mk_datatype "TThostFtdcInstStatusEnterReasonType" TChar
      [ ("THOST_FTDC_IER_Automatic", "1");
        ("THOST_FTDC_IER_Manual", "2");
        ("THOST_FTDC_IER_Fuse", "3") ];
    mk_datatype "TThostFtdcOrderActionRefType" TInt [];
    mk_datatype "TThostFtdcInstallCountType" TInt [];
    mk_datatype "TThostFtdcInstallIDType" TInt [];
    mk_datatype "TThostFtdcErrorIDType" TInt [];
    mk_datatype "TThostFtdcSettlementIDType" TInt [];
    mk_datatype "TThostFtdcVolumeType" TInt [];
    mk_datatype "TThostFtdcFrontIDType" TInt [];
    mk_datatype "TThostFtdcSessionIDType" TInt [];
    mk_datatype "TThostFtdcSequenceNoType" TInt [];
    mk_datatype "TThostFtdcCommandNoType" TInt [];
    mk_datatype "TThostFtdcMillisecType" TInt [];
    mk_datatype "TThostFtdcSecType" TInt [] ].

Definition datatypes_8 : list datatype :=
  [ mk_datatype "TThostFtdcVolumeMultipleType" TInt [];
    mk_datatype "TThostFtdcTradingSegmentSNType" TInt [];
    mk_datatype "TThostFtdcRequestIDType" TInt [];
    mk_datatype "TThostFtdcYearType" TInt [];
    mk_datatype "TThostFtdcMonthType" TInt [];
    mk_datatype "TThostFtdcBoolType" TInt [];
    mk_datatype "TThostFtdcPriceType" TDouble [];
    mk_datatype "TThostFtdcCombOffsetFlagType" (TChars 5) [];
    mk_datatype "TThostFtdcCombHedgeFlagType" (TChars 5) [];
    mk_datatype "TThostFtdcRatioType" TDouble [];
    mk_datatype "TThostFtdcMoneyType" TDouble [];
    mk_datatype "TThostFtdcLargeVolumeType" TDouble [];
    mk_datatype "TThostFtdcSequenceSeriesType" TShort [];
    mk_datatype "TThostFtdcCommPhaseNoType" TShort [];
    mk_datatype "TThostFtdcSequenceLabelType" (TChars 2) [];
    mk_datatype "TThostFtdcUnderlyingMultipleType" TDouble [];
    mk_datatype "TThostFtdcPriorityType" TInt [];
    mk_datatype "TThostFtdcContractCodeType" (TChars 41) [];
    mk_datatype "TThostFtdcCityType" (TChars 51) [];
    mk_datatype "TThostFtdcIsStockType" (TChars 11) [];
    mk_datatype "TThostFtdcChannelType" (TChars 51) [];
    mk_datatype "TThostFtdcAddressType" (TChars 101) [];
    mk_datatype "TThostFtdcZipCodeType" (TChars 7) [];
    mk_datatype "TThostFtdcTelephoneType" (TChars 41) [];
    mk_datatype "TThostFtdcFaxType" (TChars 41) [];
    mk_datatype "TThostFtdcMobileType" (TChars 41) [];
    mk_datatype "TThostFtdcEMailType" (TChars 41) [];
    mk_datatype "TThostFtdcMemoType" (TChars 161) [];
    mk_datatype "TThostFtdcCompanyCodeType" (TChars 51) [];
    mk_datatype "TThostFtdcWebsiteType" (TChars 51) [] ].

Definition datatypes_9 : list datatype :=
  [ mk_datatype "TThostFtdcTaxNoType" (TChars 31) [];
    mk_datatype "TThostFtdcBatchStatusType" TChar
      [ ("THOST_FTDC_BS_NoUpload", "1");
        ("THOST_FTDC_BS_Uploaded", "2");
        ("THOST_FTDC_BS_Failed", "3") ];
    mk_datatype "TThostFtdcPropertyIDType" (TChars 33) [];
    mk_datatype "TThostFtdcPropertyNameType" (TChars 65) [];
    mk_datatype "TThostFtdcLicenseNoType" (TChars 51) [];
    mk_datatype "TThostFtdcAgentIDType" (TChars 13) [];
    mk_datatype "TThostFtdcAgentNameType" (TChars 41) [];
    mk_datatype "TThostFtdcAgentGroupIDType" (TChars 13) [];
    mk_datatype "TThostFtdcAgentGroupNameType" (TChars 41) [];
    mk_datatype "TThostFtdcReturnStyleType" TChar
      [ ("THOST_FTDC_RS_All", "1");
        ("THOST_FTDC_RS_ByProduct", "2") ];
    mk_datatype "TThostFtdcReturnPatternType" TChar
      [ ("THOST_FTDC_RP_ByVolume", "1");
        ("THOST_FTDC_RP_ByFeeOnHand", "2") ];
    mk_datatype "TThostFtdcReturnLevelType" TChar
      [ ("THOST_FTDC_RL_Level1", "1");
        ("THOST_FTDC_RL_Level2", "2");
        ("THOST_FTDC_RL_Level3", "3");
        ("THOST_FTDC_RL_Level4", "4");
        ("THOST_FTDC_RL_Level5", "5");
        ("THOST_FTDC_RL_Level6", "6");
        ("THOST_FTDC_RL_Level7", "7");
        ("THOST_FTDC_RL_Level8", "8");
        ("THOST_FTDC_RL_Level9", "9") ];
    mk_datatype "TThostFtdcReturnStandardType" TChar
      [ ("THOST_FTDC_RSD_ByPeriod", "1");
        ("THOST_FTDC_RSD_ByStandard", "2") ];
    mk_datatype "TThostFtdcMortgageTypeType" TChar
      [ ("THOST_FTDC_MT_Out", "0");
        ("THOST_FTDC_MT_In", "1") ];
    mk_datatype "TThostFtdcInvestorSettlementParamIDType" TChar
      [ ("THOST_FTDC_ISPI_MortgageRatio", "4");
        ("THOST_FTDC_ISPI_MarginWay", "5");
        ("THOST_FTDC_ISPI_BillDeposit", "9") ] ].

Definition datatypes_10 : list datatype :=
  [ mk_datatype "TThostFtdcExchangeSettlementParamIDType" TChar
      [ ("THOST_FTDC_ESPI_MortgageRatio", "1");
        ("THOST_FTDC_ESPI_OtherFundItem", "2");
        ("THOST_FTDC_ESPI_OtherFundImport", "3");
        ("THOST_FTDC_ESPI_CFFEXMinPrepa", "6");
        ("THOST_FTDC_ESPI_CZCESettlementType", "7");
        ("THOST_FTDC_ESPI_ExchDelivFeeMode", "9");
        ("THOST_FTDC_ESPI_DelivFeeMode", "0");
        ("THOST_FTDC_ESPI_CZCEComMarginType", "A");
        ("THOST_FTDC_ESPI_DceComMarginType", "B");
        ("THOST_FTDC_ESPI_OptOutDisCountRate", "a");
        ("THOST_FTDC_ESPI_OptMiniGuarantee", "b") ];
    mk_datatype "TThostFtdcSystemParamIDType" TChar
      [ ("THOST_FTDC_SPI_InvestorIDMinLength", "1");
        ("THOST_FTDC_SPI_AccountIDMinLength", "2");
        ("THOST_FTDC_SPI_UserRightLogon", "3");
        ("THOST_FTDC_SPI_SettlementBillTrade", "4");
        ("THOST_FTDC_SPI_TradingCode", "5");
        ("THOST_FTDC_SPI_CheckFund", "6");
        ("THOST_FTDC_SPI_CommModelRight", "7");
        ("THOST_FTDC_SPI_MarginModelRight", "9");
        ("THOST_FTDC_SPI_IsStandardActive", "8");
        ("THOST_FTDC_SPI_UploadSettlementFile", "U");
        ("THOST_FTDC_SPI_DownloadCSRCFile", "D");
        ("THOST_FTDC_SPI_SettlementBillFile", "S");
        ("THOST_FTDC_SPI_CSRCOthersFile", "C");
        ("THOST_FTDC_SPI_InvestorPhoto", "P");
        ("THOST_FTDC_SPI_CSRCData", "R");
        ("THOST_FTDC_SPI_InvestorPwdModel", "I");
        ("THOST_FTDC_SPI_CFFEXInvestorSettleFile", "F");
        ("THOST_FTDC_SPI_InvestorIDType", "a");
        ("THOST_FTDC_SPI_FreezeMaxReMain", "r");
        ("THOST_FTDC_SPI_IsSync", "A");
        ("THOST_FTDC_SPI_RelieveOpenLimit", "O");
        ("THOST_FTDC_SPI_IsStandardFreeze", "X");
        ("THOST_FTDC_SPI_CZCENormalProductHedge", "B") ];
    mk_datatype "TThostFtdcTradeParamIDType" TChar
      [ ("THOST_FTDC_TPID_EncryptionStandard", "E");
        ("THOST_FTDC_TPID_RiskMode", "R");
        ("THOST_FTDC_TPID_RiskModeGlobal", "G");
        ("THOST_FTDC_TPID_modeEncode", "P");
        ("THOST_FTDC_TPID_tickMode", "T");
        ("THOST_FTDC_TPID_SingleUserSessionMaxNum", "S");
        ("THOST_FTDC_TPID_LoginFailMaxNum", "L");
        ("THOST_FTDC_TPID_IsAuthForce", "A");
        ("THOST_FTDC_TPID_IsPosiFreeze", "F");
        ("THOST_FTDC_TPID_IsPosiLimit", "M");
        ("THOST_FTDC_TPID_ForQuoteTimeInterval", "Q");
        ("THOST_FTDC_TPID_IsFuturePosiLimit", "B");
        ("THOST_FTDC_TPID_IsFutureOrderFreq", "C");
        ("THOST_FTDC_TPID_IsExecOrderProfit", "H");
        ("THOST_FTDC_TPID_IsCheckBankAcc", "I");
        ("THOST_FTDC_TPID_PasswordDeadLine", "J");
        ("THOST_FTDC_TPID_IsStrongPassword", "K");
        ("THOST_FTDC_TPID_BalanceMorgage", "a");
        ("THOST_FTDC_TPID_MinPwdLen", "O");
        ("THOST_FTDC_TPID_LoginFailMaxNumForIP", "U");
        ("THOST_FTDC_TPID_PasswordPeriod", "V");
        ("THOST_FTDC_TPID_PwdHistoryCmp", "X") ];
    mk_datatype "TThostFtdcSettlementParamValueType" (TChars 256) [];
    mk_datatype "TThostFtdcCounterIDType" (TChars 33) [];
    mk_datatype "TThostFtdcInvestorGroupNameType" (TChars 41) [];
    mk_datatype "TThostFtdcBrandCodeType" (TChars 257) [] ].

Definition datatypes_11 : list datatype :=
  [ mk_datatype "TThostFtdcWarehouseType" (TChars 257) [];
    mk_datatype "TThostFtdcProductDateType" (TChars 41) [];
    mk_datatype "TThostFtdcGradeType" (TChars 41) [];
    mk_datatype "TThostFtdcClassifyType" (TChars 41) [];
    mk_datatype "TThostFtdcPositionType" (TChars 41) [];
    mk_datatype "TThostFtdcYieldlyType" (TChars 41) [];
    mk_datatype "TThostFtdcWeightType" (TChars 41) [];
    mk_datatype "TThostFtdcSubEntryFundNoType" TInt [];
    mk_datatype "TThostFtdcFileIDType" TChar
      [ ("THOST_FTDC_FI_SettlementFund", "F");
        ("THOST_FTDC_FI_Trade", "T");
        ("THOST_FTDC_FI_InvestorPosition", "P");
        ("THOST_FTDC_FI_SubEntryFund", "O");
        ("THOST_FTDC_FI_CZCECombinationPos", "C");
        ("THOST_FTDC_FI_CSRCData", "R");
        ("THOST_FTDC_FI_CZCEClose", "L");
        ("THOST_FTDC_FI_CZCENoClose", "N");
        ("THOST_FTDC_FI_PositionDtl", "D");
        ("THOST_FTDC_FI_OptionStrike", "S");
        ("THOST_FTDC_FI_SettlementPriceComparison", "M");
        ("THOST_FTDC_FI_NonTradePosChange", "B") ];
    mk_datatype "TThostFtdcFileNameType" (TChars 257) [];
    mk_datatype "TThostFtdcFileTypeType" TChar
      [ ("THOST_FTDC_FUT_Settlement", "0");
        ("THOST_FTDC_FUT_Check", "1") ];
    mk_datatype "TThostFtdcFileFormatType" TChar
      [ ("THOST_FTDC_FFT_Txt", "0");
        ("THOST_FTDC_FFT_Zip", "1");
        ("THOST_FTDC_FFT_DBF", "2") ];
    mk_datatype "TThostFtdcFileUploadStatusType" TChar
      [ ("THOST_FTDC_FUS_SucceedUpload", "1");
        ("THOST_FTDC_FUS_FailedUpload", "2");
        ("THOST_FTDC_FUS_SucceedLoad", "3");
        ("THOST_FTDC_FUS_PartSucceedLoad", "4");
        ("THOST_FTDC_FUS_FailedLoad", "5") ];
    mk_datatype "TThostFtdcTransferDirectionType" TChar
      [ ("THOST_FTDC_TD_Out", "0");
        ("THOST_FTDC_TD_In", "1") ];
    mk_datatype "TThostFtdcUploadModeType" (TChars 21) [];
    mk_datatype "TThostFtdcAccountIDType" (TChars 13) [];
    mk_datatype "TThostFtdcBankFlagType" (TChars 4) [];
    mk_datatype "TThostFtdcBankAccountType" (TChars 41) [];
    mk_datatype "TThostFtdcOpenNameType" (TChars 61) [] ].

Definition datatypes_12 : list datatype :=
  [ mk_datatype "TThostFtdcOpenBankType" (TChars 101) [];
    mk_datatype "TThostFtdcBankNameType" (TChars 101) [];
    mk_datatype "TThostFtdcPublishPathType" (TChars 257) [];
    mk_datatype "TThostFtdcOperatorIDType" (TChars 65) [];
    mk_datatype "TThostFtdcMonthCountType" TInt [];
    mk_datatype "TThostFtdcAdvanceMonthArrayType" (TChars 13) [];
    mk_datatype "TThostFtdcDateExprType" (TChars 1025) [];
    mk_datatype "TThostFtdcInstrumentIDExprType" (TChars 41) [];
    mk_datatype "TThostFtdcInstrumentNameExprType" (TChars 41) [];
    mk_datatype "TThostFtdcSpecialCreateRuleType" TChar
      [ ("THOST_FTDC_SC_NoSpecialRule", "0");
        ("THOST_FTDC_SC_NoSpringFestival", "1") ];
    mk_datatype "TThostFtdcBasisPriceTypeType" TChar
      [ ("THOST_FTDC_IPT_LastSettlement", "1");
        ("THOST_FTDC_IPT_LaseClose", "2") ];
    mk_datatype "TThostFtdcProductLifePhaseType" TChar
      [ ("THOST_FTDC_PLP_Active", "1");
        ("THOST_FTDC_PLP_NonActive", "2");
        ("THOST_FTDC_PLP_Canceled", "3") ];
    mk_datatype "TThostFtdcDeliveryModeType" TChar
      [ ("THOST_FTDC_DM_CashDeliv", "1");
        ("THOST_FTDC_DM_CommodityDeliv", "2") ];
    mk_datatype "TThostFtdcLogLevelType" (TChars 33) [];
    mk_datatype "TThostFtdcProcessNameType" (TChars 257) [];
    mk_datatype "TThostFtdcOperationMemoType" (TChars 1025) [];
    mk_datatype "TThostFtdcFundIOTypeType" TChar
      [ ("THOST_FTDC_FIOT_FundIO", "1");
        ("THOST_FTDC_FIOT_Transfer", "2");
        ("THOST_FTDC_FIOT_SwapCurrency", "3") ];
    mk_datatype "TThostFtdcFundTypeType" TChar
      [ ("THOST_FTDC_FT_Deposite", "1");
        ("THOST_FTDC_FT_ItemFund", "2");
        ("THOST_FTDC_FT_Company", "3");
        ("THOST_FTDC_FT_InnerTransfer", "4") ];
    mk_datatype "TThostFtdcFundDirectionType" TChar
      [ ("THOST_FTDC_FD_In", "1");
        ("THOST_FTDC_FD_Out", "2") ];
    mk_datatype "TThostFtdcFundStatusType" TChar
      [ ("THOST_FTDC_FS_Record", "1");
        ("THOST_FTDC_FS_Check", "2");
        ("THOST_FTDC_FS_Charge", "3") ] ].

Definition datatypes_13 : list datatype :=
  [ mk_datatype "TThostFtdcBillNoType" (TChars 15) [];
    mk_datatype "TThostFtdcBillNameType" (TChars 33) [];
    mk_datatype "TThostFtdcPublishStatusType" TChar
      [ ("THOST_FTDC_PS_None", "1");
        ("THOST_FTDC_PS_Publishing", "2");
        ("THOST_FTDC_PS_Published", "3") ];
    mk_datatype "TThostFtdcEnumValueIDType" (TChars 65) [];
    mk_datatype "TThostFtdcEnumValueTypeType" (TChars 33) [];
    mk_datatype "TThostFtdcEnumValueLabelType" (TChars 65) [];
    mk_datatype "TThostFtdcEnumValueResultType" (TChars 33) [];
    mk_datatype "TThostFtdcSystemStatusType" TChar
      [ ("THOST_FTDC_ES_NonActive", "1");
        ("THOST_FTDC_ES_Startup", "2");
        ("THOST_FTDC_ES_Initialize", "3");
        ("THOST_FTDC_ES_Initialized", "4");
        ("THOST_FTDC_ES_Close", "5");
        ("THOST_FTDC_ES_Closed", "6");
        ("THOST_FTDC_ES_Settlement", "7") ];
    mk_datatype "TThostFtdcSettlementStatusType" TChar
      [ ("THOST_FTDC_STS_Initialize", "0");
        ("THOST_FTDC_STS_Settlementing", "1");
        ("THOST_FTDC_STS_Settlemented", "2");
        ("THOST_FTDC_STS_Finished", "3") ];
    mk_datatype "TThostFtdcRangeIntTypeType" (TChars 33) [];
    mk_datatype "TThostFtdcRangeIntFromType" (TChars 33) [];
    mk_datatype "TThostFtdcRangeIntToType" (TChars 33) [];
    mk_datatype "TThostFtdcFunctionIDType" (TChars 25) [];
    mk_datatype "TThostFtdcFunctionValueCodeType" (TChars 257) [];
    mk_datatype "TThostFtdcFunctionNameType" (TChars 65) [];
    mk_datatype "TThostFtdcRoleIDType" (TChars 11) [];
    mk_datatype "TThostFtdcRoleNameType" (TChars 41) [];
    mk_datatype "TThostFtdcDescriptionType" (TChars 401) [];
    mk_datatype "TThostFtdcCombineIDType" (TChars 25) [];
    mk_datatype "TThostFtdcCombineTypeType" (TChars 25) [];
    mk_datatype "TThostFtdcInvestorTypeType" TChar
      [ ("THOST_FTDC_CT_Person", "0");
        ("THOST_FTDC_CT_Company", "1");
        ("THOST_FTDC_CT_Fund", "2");
        ("THOST_FTDC_CT_SpecialOrgan", "3");
        ("THOST_FTDC_CT_Asset", "4") ] ].

Definition datatypes_14 : list datatype :=
  [ mk_datatype "TThostFtdcBrokerTypeType" TChar
      [ ("THOST_FTDC_BT_Trade", "0");
        ("THOST_FTDC_BT_TradeSettle", "1") ];
    mk_datatype "TThostFtdcRiskLevelType" TChar
      [ ("THOST_FTDC_FAS_Low", "1");
        ("THOST_FTDC_FAS_Normal", "2");
        ("THOST_FTDC_FAS_Focus", "3");
        ("THOST_FTDC_FAS_Risk", "4") ];
    mk_datatype "TThostFtdcFeeAcceptStyleType" TChar
      [ ("THOST_FTDC_FAS_ByTrade", "1");
        ("THOST_FTDC_FAS_ByDeliv", "2");
        ("THOST_FTDC_FAS_None", "3");
        ("THOST_FTDC_FAS_FixFee", "4") ];
    mk_datatype "TThostFtdcPasswordTypeType" TChar
      [ ("THOST_FTDC_PWDT_Trade", "1");
        ("THOST_FTDC_PWDT_Account", "2") ];
    mk_datatype "TThostFtdcAlgorithmType" TChar
      [ ("THOST_FTDC_AG_All", "1");
        ("THOST_FTDC_AG_OnlyLost", "2");
        ("THOST_FTDC_AG_OnlyGain", "3");
        ("THOST_FTDC_AG_None", "4") ];
    mk_datatype "TThostFtdcIncludeCloseProfitType" TChar
      [ ("THOST_FTDC_ICP_Include", "0");
        ("THOST_FTDC_ICP_NotInclude", "2") ];
    mk_datatype "TThostFtdcAllWithoutTradeType" TChar
      [ ("THOST_FTDC_AWT_Enable", "0");
        ("THOST_FTDC_AWT_Disable", "2");
        ("THOST_FTDC_AWT_NoHoldEnable", "3") ];
    mk_datatype "TThostFtdcCommentType" (TChars 31) [];
    mk_datatype "TThostFtdcVersionType" (TChars 4) [];
    mk_datatype "TThostFtdcTradeCodeType" (TChars 7) [];
    mk_datatype "TThostFtdcTradeDateType" (TChars 9) [];
    mk_datatype "TThostFtdcTradeTimeType" (TChars 9) [];
    mk_datatype "TThostFtdcTradeSerialType" (TChars 9) [];
    mk_datatype "TThostFtdcTradeSerialNoType" TInt [];
    mk_datatype "TThostFtdcFutureIDType" (TChars 11) [];
    mk_datatype "TThostFtdcBankIDType" (TChars 4) [];
    mk_datatype "TThostFtdcBankBrchIDType" (TChars 5) [];
    mk_datatype "TThostFtdcBankBranchIDType" (TChars 11) [];
    mk_datatype "TThostFtdcOperNoType" (TChars 17) [];
    mk_datatype "TThostFtdcDeviceIDType" (TChars 3) [] ].

Definition datatypes_15 : list datatype :=
  [ mk_datatype "TThostFtdcRecordNumType" (TChars 7) [];
    mk_datatype "TThostFtdcFutureAccountType" (TChars 22) [];
    mk_datatype "TThostFtdcFuturePwdFlagType" TChar
      [ ("THOST_FTDC_FPWD_UnCheck", "0");
        ("THOST_FTDC_FPWD_Check", "1") ];
    mk_datatype "TThostFtdcTransferTypeType" TChar
      [ ("THOST_FTDC_TT_BankToFuture", "0");
        ("THOST_FTDC_TT_FutureToBank", "1") ];
    mk_datatype "TThostFtdcFutureAccPwdType" (TChars 17) [];
    mk_datatype "TThostFtdcCurrencyCodeType" (TChars 4) [];
    mk_datatype "TThostFtdcRetCodeType" (TChars 5) [];
    mk_datatype "TThostFtdcRetInfoType" (TChars 129) [];
    mk_datatype "TThostFtdcTradeAmtType" (TChars 20) [];
    mk_datatype "TThostFtdcUseAmtType" (TChars 20) [];
    mk_datatype "TThostFtdcFetchAmtType" (TChars 20) [];
    mk_datatype "TThostFtdcTransferValidFlagType" TChar
      [ ("THOST_FTDC_TVF_Invalid", "0");
        ("THOST_FTDC_TVF_Valid", "1");
        ("THOST_FTDC_TVF_Reverse", "2") ];
    mk_datatype "TThostFtdcCertCodeType" (TChars 21) [];
    mk_datatype "TThostFtdcReasonType" TChar
      [ ("THOST_FTDC_RN_CD", "0");
        ("THOST_FTDC_RN_ZT", "1");
        ("THOST_FTDC_RN_QT", "2") ];
    mk_datatype "TThostFtdcFundProjectIDType" (TChars 5) [];
    mk_datatype "TThostFtdcSexType" TChar
      [ ("THOST_FTDC_SEX_None", "0");
        ("THOST_FTDC_SEX_Man", "1");
        ("THOST_FTDC_SEX_Woman", "2") ];
    mk_datatype "TThostFtdcProfessionType" (TChars 101) [];
    mk_datatype "TThostFtdcNationalType" (TChars 31) [];
    mk_datatype "TThostFtdcProvinceType" (TChars 51) [];
    mk_datatype "TThostFtdcRegionType" (TChars 16) [];
    mk_datatype "TThostFtdcCountryType" (TChars 16) [];
    mk_datatype "TThostFtdcLicenseNOType" (TChars 33) [];
    mk_datatype "TThostFtdcCompanyTypeType" (TChars 16) [];
    mk_datatype "TThostFtdcBusinessScopeType" (TChars 1001) [] ].

Definition datatypes_16 : list datatype :=
  [ mk_datatype "TThostFtdcCapitalCurrencyType" (TChars 4) [];
    mk_datatype "TThostFtdcUserTypeType" TChar
      [ ("THOST_FTDC_UT_Investor", "0");
        ("THOST_FTDC_UT_Operator", "1");
        ("THOST_FTDC_UT_SuperUser", "2") ];
    mk_datatype "TThostFtdcBranchIDType" (TChars 9) [];
    mk_datatype "TThostFtdcRateTypeType" TChar
      [ ("THOST_FTDC_RATETYPE_MarginRate", "2") ];
    mk_datatype "TThostFtdcNoteTypeType" TChar
      [ ("THOST_FTDC_NOTETYPE_TradeSettleBill", "1");
        ("THOST_FTDC_NOTETYPE_TradeSettleMonth", "2");
        ("THOST_FTDC_NOTETYPE_CallMarginNotes", "3");
        ("THOST_FTDC_NOTETYPE_ForceCloseNotes", "4");
        ("THOST_FTDC_NOTETYPE_TradeNotes", "5");
        ("THOST_FTDC_NOTETYPE_DelivNotes", "6") ];
    mk_datatype "TThostFtdcSettlementStyleType" TChar
      [ ("THOST_FTDC_SBS_Day", "1");
        ("THOST_FTDC_SBS_Volume", "2") ];
    mk_datatype "TThostFtdcBrokerDNSType" (TChars 256) [];
    mk_datatype "TThostFtdcSentenceType" (TChars 501) [];
    mk_datatype "TThostFtdcSettlementBillTypeType" TChar
      [ ("THOST_FTDC_ST_Day", "0");
        ("THOST_FTDC_ST_Month", "1") ];
    mk_datatype "TThostFtdcUserRightTypeType" TChar
      [ ("THOST_FTDC_URT_Logon", "1");
        ("THOST_FTDC_URT_Transfer", "2");
        ("THOST_FTDC_URT_EMail", "3");
        ("THOST_FTDC_URT_Fax", "4");
        ("THOST_FTDC_URT_ConditionOrder", "5") ];
    mk_datatype "TThostFtdcMarginPriceTypeType" TChar
      [ ("THOST_FTDC_MPT_PreSettlementPrice", "1");
        ("THOST_FTDC_MPT_SettlementPrice", "2");
        ("THOST_FTDC_MPT_AveragePrice", "3");
        ("THOST_FTDC_MPT_OpenPrice", "4") ];
    mk_datatype "TThostFtdcBillGenStatusType" TChar
      [ ("THOST_FTDC_BGS_None", "0");
        ("THOST_FTDC_BGS_NoGenerated", "1");
        ("THOST_FTDC_BGS_Generated", "2") ];
    mk_datatype "TThostFtdcAlgoTypeType" TChar
      [ ("THOST_FTDC_AT_HandlePositionAlgo", "1");
        ("THOST_FTDC_AT_FindMarginRateAlgo", "2") ];
    mk_datatype "TThostFtdcHandlePositionAlgoIDType" TChar
      [ ("THOST_FTDC_HPA_Base", "1");
        ("THOST_FTDC_HPA_DCE", "2");
        ("THOST_FTDC_HPA_CZCE", "3") ] ].

Definition datatypes_17 : list datatype :=
  [ mk_datatype "TThostFtdcFindMarginRateAlgoIDType" TChar
      [ ("THOST_FTDC_FMRA_Base", "1");
        ("THOST_FTDC_FMRA_DCE", "2");
        ("THOST_FTDC_FMRA_CZCE", "3") ];
    mk_datatype "TThostFtdcHandleTradingAccountAlgoIDType" TChar
      [ ("THOST_FTDC_HTAA_Base", "1");
        ("THOST_FTDC_HTAA_DCE", "2");
        ("THOST_FTDC_HTAA_CZCE", "3") ];
    mk_datatype "TThostFtdcPersonTypeType" TChar
      [ ("THOST_FTDC_PST_Order", "1");
        ("THOST_FTDC_PST_Open", "2");
        ("THOST_FTDC_PST_Fund", "3");
        ("THOST_FTDC_PST_Settlement", "4");
        ("THOST_FTDC_PST_Company", "5");
        ("THOST_FTDC_PST_Corporation", "6");
        ("THOST_FTDC_PST_LinkMan", "7");
        ("THOST_FTDC_PST_Ledger", "8");
        ("THOST_FTDC_PST_Trustee", "9");
        ("THOST_FTDC_PST_TrusteeCorporation", "A");
        ("THOST_FTDC_PST_TrusteeOpen", "B");
        ("THOST_FTDC_PST_TrusteeContact", "C");
        ("THOST_FTDC_PST_ForeignerRefer", "D");
        ("THOST_FTDC_PST_CorporationRefer", "E") ];
    mk_datatype "TThostFtdcQueryInvestorRangeType" TChar
      [ ("THOST_FTDC_QIR_All", "1");
        ("THOST_FTDC_QIR_Group", "2");
        ("THOST_FTDC_QIR_Single", "3") ];
    mk_datatype "TThostFtdcInvestorRiskStatusType" TChar
      [ ("THOST_FTDC_IRS_Normal", "1");
        ("THOST_FTDC_IRS_Warn", "2");
        ("THOST_FTDC_IRS_Call", "3");
        ("THOST_FTDC_IRS_Force", "4");
        ("THOST_FTDC_IRS_Exception", "5") ];
    mk_datatype "TThostFtdcLegIDType" TInt [];
    mk_datatype "TThostFtdcLegMultipleType" TInt [];
    mk_datatype "TThostFtdcImplyLevelType" TInt [];
    mk_datatype "TThostFtdcClearAccountType" (TChars 33) [];
    mk_datatype "TThostFtdcOrganNOType" (TChars 6) [];
    mk_datatype "TThostFtdcClearbarchIDType" (TChars 6) [];
    mk_datatype "TThostFtdcUserEventTypeType" TChar
      [ ("THOST_FTDC_UET_Login", "1");
        ("THOST_FTDC_UET_Logout", "2");
        ("THOST_FTDC_UET_Trading", "3");
        ("THOST_FTDC_UET_TradingError", "4");
        ("THOST_FTDC_UET_UpdatePassword", "5");
        ("THOST_FTDC_UET_Authenticate", "6");
        ("THOST_FTDC_UET_SubmitSysInfo", "7");
        ("THOST_FTDC_UET_Transfer", "8");
        ("THOST_FTDC_UET_Other", "9");
        ("THOST_FTDC_UET_UpdateTradingAccountPassword", "a") ];
    mk_datatype "TThostFtdcUserEventInfoType" (TChars 1025) [] ].

Definition datatypes_18 : list datatype :=
  [ mk_datatype "TThostFtdcCloseStyleType" TChar
      [ ("THOST_FTDC_ICS_Close", "0");
        ("THOST_FTDC_ICS_CloseToday", "1") ];
    mk_datatype "TThostFtdcStatModeType" TChar
      [ ("THOST_FTDC_SM_Non", "0");
        ("THOST_FTDC_SM_Instrument", "1");
        ("THOST_FTDC_SM_Product", "2");
        ("THOST_FTDC_SM_Investor", "3") ];
    mk_datatype "TThostFtdcParkedOrderStatusType" TChar
      [ ("THOST_FTDC_PAOS_NotSend", "1");
        ("THOST_FTDC_PAOS_Send", "2");
        ("THOST_FTDC_PAOS_Deleted", "3") ];
    mk_datatype "TThostFtdcParkedOrderIDType" (TChars 13) [];
    mk_datatype "TThostFtdcParkedOrderActionIDType" (TChars 13) [];
    mk_datatype "TThostFtdcVirDealStatusType" TChar
      [ ("THOST_FTDC_VDS_Dealing", "1");
        ("THOST_FTDC_VDS_DeaclSucceed", "2") ];
    mk_datatype "TThostFtdcOrgSystemIDType" TChar
      [ ("THOST_FTDC_ORGS_Standard", "0");
        ("THOST_FTDC_ORGS_ESunny", "1");
        ("THOST_FTDC_ORGS_KingStarV6", "2") ];
    mk_datatype "TThostFtdcVirTradeStatusType" TChar
      [ ("THOST_FTDC_VTS_NaturalDeal", "0");
        ("THOST_FTDC_VTS_SucceedEnd", "1");
        ("THOST_FTDC_VTS_FailedEND", "2");
        ("THOST_FTDC_VTS_Exception", "3");
        ("THOST_FTDC_VTS_ManualDeal", "4");
        ("THOST_FTDC_VTS_MesException", "5");
        ("THOST_FTDC_VTS_SysException", "6") ];
    mk_datatype "TThostFtdcVirBankAccTypeType" TChar
      [ ("THOST_FTDC_VBAT_BankBook", "1");
        ("THOST_FTDC_VBAT_BankCard", "2");
        ("THOST_FTDC_VBAT_CreditCard", "3") ];
    mk_datatype "TThostFtdcVirementStatusType" TChar
      [ ("THOST_FTDC_VMS_Natural", "0");
        ("THOST_FTDC_VMS_Canceled", "9") ];
    mk_datatype "TThostFtdcVirementAvailAbilityType" TChar
      [ ("THOST_FTDC_VAA_NoAvailAbility", "0");
        ("THOST_FTDC_VAA_AvailAbility", "1");
        ("THOST_FTDC_VAA_Repeal", "2") ];
    mk_datatype "TThostFtdcVirementTradeCodeType" TChar
      [ ("THOST_FTDC_VTC_BankBankToFuture", "102001");
        ("THOST_FTDC_VTC_BankFutureToBank", "102002");
        ("THOST_FTDC_VTC_FutureBankToFuture", "202001");
        ("THOST_FTDC_VTC_FutureFutureToBank", "202002") ];
    mk_datatype "TThostFtdcPhotoTypeNameType" (TChars 41) [];
    mk_datatype "TThostFtdcPhotoTypeIDType" (TChars 5) [];
    mk_datatype "TThostFtdcPhotoNameType" (TChars 161) [] ].

Definition datatypes_19 : list datatype :=
  [ mk_datatype "TThostFtdcTopicIDType" TInt [];
    mk_datatype "TThostFtdcReportTypeIDType" (TChars 3) [];
    mk_datatype "TThostFtdcCharacterIDType" (TChars 5) [];
    mk_datatype "TThostFtdcAMLParamIDType" (TChars 21) [];
    mk_datatype "TThostFtdcAMLInvestorTypeType" (TChars 3) [];
    mk_datatype "TThostFtdcAMLIdCardTypeType" (TChars 3) [];
    mk_datatype "TThostFtdcAMLTradeDirectType" (TChars 3) [];
    mk_datatype "TThostFtdcAMLTradeModelType" (TChars 3) [];
    mk_datatype "TThostFtdcAMLOpParamValueType" TDouble [];
    mk_datatype "TThostFtdcAMLCustomerCardTypeType" (TChars 81) [];
    mk_datatype "TThostFtdcAMLInstitutionNameType" (TChars 65) [];
    mk_datatype "TThostFtdcAMLDistrictIDType" (TChars 7) [];
    mk_datatype "TThostFtdcAMLRelationShipType" (TChars 3) [];
    mk_datatype "TThostFtdcAMLInstitutionTypeType" (TChars 3) [];
    mk_datatype "TThostFtdcAMLInstitutionIDType" (TChars 13) [];
    mk_datatype "TThostFtdcAMLAccountTypeType" (TChars 5) [];
    mk_datatype "TThostFtdcAMLTradingTypeType" (TChars 7) [];
    mk_datatype "TThostFtdcAMLTransactClassType" (TChars 7) [];
    mk_datatype "TThostFtdcAMLCapitalIOType" (TChars 3) [];
    mk_datatype "TThostFtdcAMLSiteType" (TChars 10) [];
    mk_datatype "TThostFtdcAMLCapitalPurposeType" (TChars 129) [];
    mk_datatype "TThostFtdcAMLReportTypeType" (TChars 2) [];
    mk_datatype "TThostFtdcAMLSerialNoType" (TChars 5) [];
    mk_datatype "TThostFtdcAMLStatusType" (TChars 2) [];
    mk_datatype "TThostFtdcAMLGenStatusType" TChar
      [ ("THOST_FTDC_GEN_Program", "0");
        ("THOST_FTDC_GEN_HandWork", "1") ];
    mk_datatype "TThostFtdcAMLSeqCodeType" (TChars 65) [];
    mk_datatype "TThostFtdcAMLFileNameType" (TChars 257) [];
    mk_datatype "TThostFtdcAMLMoneyType" TDouble [];
    mk_datatype "TThostFtdcAMLFileAmountType" TInt [] ].

Definition datatypes_20 : list datatype :=
  [ mk_datatype "TThostFtdcCFMMCKeyType" (TChars 21) [];
    mk_datatype "TThostFtdcCFMMCTokenType" (TChars 21) [];
    mk_datatype "TThostFtdcCFMMCKeyKindType" TChar
      [ ("THOST_FTDC_CFMMCKK_REQUEST", "R");
        ("THOST_FTDC_CFMMCKK_AUTO", "A");
        ("THOST_FTDC_CFMMCKK_MANUAL", "M") ];
    mk_datatype "TThostFtdcAMLReportNameType" (TChars 81) [];
    mk_datatype "TThostFtdcIndividualNameType" (TChars 51) [];
    mk_datatype "TThostFtdcCurrencyIDType" (TChars 4) [];
    mk_datatype "TThostFtdcCustNumberType" (TChars 36) [];
    mk_datatype "TThostFtdcOrganCodeType" (TChars 36) [];
    mk_datatype "TThostFtdcOrganNameType" (TChars 71) [];
    mk_datatype "TThostFtdcSuperOrganCodeType" (TChars 12) [];
    mk_datatype "TThostFtdcSubBranchIDType" (TChars 31) [];
    mk_datatype "TThostFtdcSubBranchNameType" (TChars 71) [];
    mk_datatype "TThostFtdcBranchNetCodeType" (TChars 31) [];
    mk_datatype "TThostFtdcBranchNetNameType" (TChars 71) [];
    mk_datatype "TThostFtdcOrganFlagType" (TChars 2) [];
    mk_datatype "TThostFtdcBankCodingForFutureType" (TChars 33) [];
    mk_datatype "TThostFtdcBankReturnCodeType" (TChars 7) [];
    mk_datatype "TThostFtdcPlateReturnCodeType" (TChars 5) [];
    mk_datatype "TThostFtdcBankSubBranchIDType" (TChars 31) [];
    mk_datatype "TThostFtdcFutureBranchIDType" (TChars 31) [];
    mk_datatype "TThostFtdcReturnCodeType" (TChars 7) [];
    mk_datatype "TThostFtdcOperatorCodeType" (TChars 17) [];
    mk_datatype "TThostFtdcClearDepIDType" (TChars 6) [];
    mk_datatype "TThostFtdcClearBrchIDType" (TChars 6) [];
    mk_datatype "TThostFtdcClearNameType" (TChars 71) [];
    mk_datatype "TThostFtdcBankAccountNameType" (TChars 71) [];
    mk_datatype "TThostFtdcInvDepIDType" (TChars 6) [];
    mk_datatype "TThostFtdcInvBrchIDType" (TChars 6) [] ].

Definition datatypes_21 : list datatype :=
  [ mk_datatype "TThostFtdcMessageFormatVersionType" (TChars 36) [];
    mk_datatype "TThostFtdcDigestType" (TChars 36) [];
    mk_datatype "TThostFtdcAuthenticDataType" (TChars 129) [];
    mk_datatype "TThostFtdcPasswordKeyType" (TChars 129) [];
    mk_datatype "TThostFtdcFutureAccountNameType" (TChars 129) [];
    mk_datatype "TThostFtdcMobilePhoneType" (TChars 21) [];
    mk_datatype "TThostFtdcFutureMainKeyType" (TChars 129) [];
    mk_datatype "TThostFtdcFutureWorkKeyType" (TChars 129) [];
    mk_datatype "TThostFtdcFutureTransKeyType" (TChars 129) [];
    mk_datatype "TThostFtdcBankMainKeyType" (TChars 129) [];
    mk_datatype "TThostFtdcBankWorkKeyType" (TChars 129) [];
    mk_datatype "TThostFtdcBankTransKeyType" (TChars 129) [];
    mk_datatype "TThostFtdcBankServerDescriptionType" (TChars 129) [];
    mk_datatype "TThostFtdcAddInfoType" (TChars 129) [];
    mk_datatype "TThostFtdcDescrInfoForReturnCodeType" (TChars 129) [];
    mk_datatype "TThostFtdcCountryCodeType" (TChars 21) [];
    mk_datatype "TThostFtdcSerialType" TInt [];
    mk_datatype "TThostFtdcPlateSerialType" TInt [];
    mk_datatype "TThostFtdcBankSerialType" (TChars 13) [];
    mk_datatype "TThostFtdcCorrectSerialType" TInt [];
    mk_datatype "TThostFtdcFutureSerialType" TInt [];
    mk_datatype "TThostFtdcApplicationIDType" TInt [];
    mk_datatype "TThostFtdcBankProxyIDType" TInt [];
    mk_datatype "TThostFtdcFBTCoreIDType" TInt [];
    mk_datatype "TThostFtdcServerPortType" TInt [];
    mk_datatype "TThostFtdcRepealedTimesType" TInt [];
    mk_datatype "TThostFtdcRepealTimeIntervalType" TInt [];
    mk_datatype "TThostFtdcTotalTimesType" TInt [];
    mk_datatype "TThostFtdcFBTRequestIDType" TInt [];
    mk_datatype "TThostFtdcTIDType" TInt [] ].

Definition datatypes_22 : list datatype :=
  [ mk_datatype "TThostFtdcTradeAmountType" TDouble [];
    mk_datatype "TThostFtdcCustFeeType" TDouble [];
    mk_datatype "TThostFtdcFutureFeeType" TDouble [];
    mk_datatype "TThostFtdcSingleMaxAmtType" TDouble [];
    mk_datatype "TThostFtdcSingleMinAmtType" TDouble [];
    mk_datatype "TThostFtdcTotalAmtType" TDouble [];
    mk_datatype "TThostFtdcCertificationTypeType" TChar
      [ ("THOST_FTDC_CFT_IDCard", "0");
        ("THOST_FTDC_CFT_Passport", "1");
        ("THOST_FTDC_CFT_OfficerIDCard", "2");
        ("THOST_FTDC_CFT_SoldierIDCard", "3");
        ("THOST_FTDC_CFT_HomeComingCard", "4");
        ("THOST_FTDC_CFT_HouseholdRegister", "5");
        ("THOST_FTDC_CFT_LicenseNo", "6");
        ("THOST_FTDC_CFT_InstitutionCodeCard", "7");
        ("THOST_FTDC_CFT_TempLicenseNo", "8");
        ("THOST_FTDC_CFT_NoEnterpriseLicenseNo", "9");
        ("THOST_FTDC_CFT_OtherCard", "x");
        ("THOST_FTDC_CFT_SuperDepAgree", "a") ];
    mk_datatype "TThostFtdcFileBusinessCodeType" TChar
      [ ("THOST_FTDC_FBC_Others", "0");
        ("THOST_FTDC_FBC_TransferDetails", "1");
        ("THOST_FTDC_FBC_CustAccStatus", "2");
        ("THOST_FTDC_FBC_AccountTradeDetails", "3");
        ("THOST_FTDC_FBC_FutureAccountChangeInfoDetails", "4");
        ("THOST_FTDC_FBC_CustMoneyDetail", "5");
        ("THOST_FTDC_FBC_CustCancelAccountInfo", "6");
        ("THOST_FTDC_FBC_CustMoneyResult", "7");
        ("THOST_FTDC_FBC_OthersExceptionResult", "8");
        ("THOST_FTDC_FBC_CustInterestNetMoneyDetails", "9");
        ("THOST_FTDC_FBC_CustMoneySendAndReceiveDetails", "a");
        ("THOST_FTDC_FBC_CorporationMoneyTotal", "b");
        ("THOST_FTDC_FBC_MainbodyMoneyTotal", "c");
        ("THOST_FTDC_FBC_MainPartMonitorData", "d");
        ("THOST_FTDC_FBC_PreparationMoney", "e");
        ("THOST_FTDC_FBC_BankMoneyMonitorData", "f") ];
    mk_datatype "TThostFtdcCashExchangeCodeType" TChar
      [ ("THOST_FTDC_CEC_Exchange", "1");
        ("THOST_FTDC_CEC_Cash", "2") ];
    mk_datatype "TThostFtdcYesNoIndicatorType" TChar
      [ ("THOST_FTDC_YNI_Yes", "0");
        ("THOST_FTDC_YNI_No", "1") ];
    mk_datatype "TThostFtdcBanlanceTypeType" TChar
      [ ("THOST_FTDC_BLT_CurrentMoney", "0");
        ("THOST_FTDC_BLT_UsableMoney", "1");
        ("THOST_FTDC_BLT_FetchableMoney", "2");
        ("THOST_FTDC_BLT_FreezeMoney", "3") ];
    mk_datatype "TThostFtdcGenderType" TChar
      [ ("THOST_FTDC_GD_Unknown", "0");
        ("THOST_FTDC_GD_Male", "1");
        ("THOST_FTDC_GD_Female", "2") ] ].

Definition datatypes_23 : list datatype :=
  [ mk_datatype "TThostFtdcFeePayFlagType" TChar
      [ ("THOST_FTDC_FPF_BEN", "0");
        ("THOST_FTDC_FPF_OUR", "1");
        ("THOST_FTDC_FPF_SHA", "2") ];
    mk_datatype "TThostFtdcPassWordKeyTypeType" TChar
      [ ("THOST_FTDC_PWKT_ExchangeKey", "0");
        ("THOST_FTDC_PWKT_PassWordKey", "1");
        ("THOST_FTDC_PWKT_MACKey", "2");
        ("THOST_FTDC_PWKT_MessageKey", "3") ];
    mk_datatype "TThostFtdcFBTPassWordTypeType" TChar
      [ ("THOST_FTDC_PWT_Query", "0");
        ("THOST_FTDC_PWT_Fetch", "1");
        ("THOST_FTDC_PWT_Transfer", "2");
        ("THOST_FTDC_PWT_Trade", "3") ];
    mk_datatype "TThostFtdcFBTEncryModeType" TChar
      [ ("THOST_FTDC_EM_NoEncry", "0");
        ("THOST_FTDC_EM_DES", "1");
        ("THOST_FTDC_EM_3DES", "2") ];
    mk_datatype "TThostFtdcBankRepealFlagType" TChar
      [ ("THOST_FTDC_BRF_BankNotNeedRepeal", "0");
        ("THOST_FTDC_BRF_BankWaitingRepeal", "1");
        ("THOST_FTDC_BRF_BankBeenRepealed", "2") ];
    mk_datatype "TThostFtdcBrokerRepealFlagType" TChar
      [ ("THOST_FTDC_BRORF_BrokerNotNeedRepeal", "0");
        ("THOST_FTDC_BRORF_BrokerWaitingRepeal", "1");
        ("THOST_FTDC_BRORF_BrokerBeenRepealed", "2") ];
    mk_datatype "TThostFtdcInstitutionTypeType" TChar
      [ ("THOST_FTDC_TS_Bank", "0");
        ("THOST_FTDC_TS_Future", "1");
        ("THOST_FTDC_TS_Store", "2") ];
    mk_datatype "TThostFtdcLastFragmentType" TChar
      [ ("THOST_FTDC_LF_Yes", "0");
        ("THOST_FTDC_LF_No", "1") ];
    mk_datatype "TThostFtdcBankAccStatusType" TChar
      [ ("THOST_FTDC_BAS_Normal", "0");
        ("THOST_FTDC_BAS_Freeze", "1");
        ("THOST_FTDC_BAS_ReportLoss", "2") ];
    mk_datatype "TThostFtdcMoneyAccountStatusType" TChar
      [ ("THOST_FTDC_MAS_Normal", "0");
        ("THOST_FTDC_MAS_Cancel", "1") ];
    mk_datatype "TThostFtdcManageStatusType" TChar
      [ ("THOST_FTDC_MSS_Point", "0");
        ("THOST_FTDC_MSS_PrePoint", "1");
        ("THOST_FTDC_MSS_CancelPoint", "2") ];
    mk_datatype "TThostFtdcSystemTypeType" TChar
      [ ("THOST_FTDC_SYT_FutureBankTransfer", "0");
        ("THOST_FTDC_SYT_StockBankTransfer", "1");
        ("THOST_FTDC_SYT_TheThirdPartStore", "2") ] ].

Definition datatypes_24 : list datatype :=
  [ mk_datatype "TThostFtdcTxnEndFlagType" TChar
      [ ("THOST_FTDC_TEF_NormalProcessing", "0");
        ("THOST_FTDC_TEF_Success", "1");
        ("THOST_FTDC_TEF_Failed", "2");
        ("THOST_FTDC_TEF_Abnormal", "3");
        ("THOST_FTDC_TEF_ManualProcessedForException", "4");
        ("THOST_FTDC_TEF_CommuFailedNeedManualProcess", "5");
        ("THOST_FTDC_TEF_SysErrorNeedManualProcess", "6") ];
    mk_datatype "TThostFtdcProcessStatusType" TChar
      [ ("THOST_FTDC_PSS_NotProcess", "0");
        ("THOST_FTDC_PSS_StartProcess", "1");
        ("THOST_FTDC_PSS_Finished", "2") ];
    mk_datatype "TThostFtdcCustTypeType" TChar
      [ ("THOST_FTDC_CUSTT_Person", "0");
        ("THOST_FTDC_CUSTT_Institution", "1") ];
    mk_datatype "TThostFtdcFBTTransferDirectionType" TChar
      [ ("THOST_FTDC_FBTTD_FromBankToFuture", "1");
        ("THOST_FTDC_FBTTD_FromFutureToBank", "2") ];
    mk_datatype "TThostFtdcOpenOrDestroyType" TChar
      [ ("THOST_FTDC_OOD_Open", "1");
        ("THOST_FTDC_OOD_Destroy", "0") ];
    mk_datatype "TThostFtdcAvailabilityFlagType" TChar
      [ ("THOST_FTDC_AVAF_Invalid", "0");
        ("THOST_FTDC_AVAF_Valid", "1");
        ("THOST_FTDC_AVAF_Repeal", "2") ];
    mk_datatype "TThostFtdcOrganTypeType" TChar
      [ ("THOST_FTDC_OT_Bank", "1");
        ("THOST_FTDC_OT_Future", "2");
        ("THOST_FTDC_OT_PlateForm", "9") ];
    mk_datatype "TThostFtdcOrganLevelType" TChar
      [ ("THOST_FTDC_OL_HeadQuarters", "1");
        ("THOST_FTDC_OL_Branch", "2") ];
    mk_datatype "TThostFtdcProtocalIDType" TChar
      [ ("THOST_FTDC_PID_FutureProtocal", "0");
        ("THOST_FTDC_PID_ICBCProtocal", "1");
        ("THOST_FTDC_PID_ABCProtocal", "2");
        ("THOST_FTDC_PID_CBCProtocal", "3");
        ("THOST_FTDC_PID_CCBProtocal", "4");
        ("THOST_FTDC_PID_BOCOMProtocal", "5");
        ("THOST_FTDC_PID_FBTPlateFormProtocal", "X") ];
    mk_datatype "TThostFtdcConnectModeType" TChar
      [ ("THOST_FTDC_CM_ShortConnect", "0");
        ("THOST_FTDC_CM_LongConnect", "1") ];
    mk_datatype "TThostFtdcSyncModeType" TChar
      [ ("THOST_FTDC_SRM_ASync", "0");
        ("THOST_FTDC_SRM_Sync", "1") ];
    mk_datatype "TThostFtdcBankAccTypeType" TChar
      [ ("THOST_FTDC_BAT_BankBook", "1");
        ("THOST_FTDC_BAT_SavingCard", "2");
        ("THOST_FTDC_BAT_CreditCard", "3") ] ].

Definition datatypes_25 : list datatype :=
  [ mk_datatype "TThostFtdcFutureAccTypeType" TChar
      [ ("THOST_FTDC_FAT_BankBook", "1");
        ("THOST_FTDC_FAT_SavingCard", "2");
        ("THOST_FTDC_FAT_CreditCard", "3") ];
    mk_datatype "TThostFtdcOrganStatusType" TChar
      [ ("THOST_FTDC_OS_Ready", "0");
        ("THOST_FTDC_OS_CheckIn", "1");
        ("THOST_FTDC_OS_CheckOut", "2");
        ("THOST_FTDC_OS_CheckFileArrived", "3");
        ("THOST_FTDC_OS_CheckDetail", "4");
        ("THOST_FTDC_OS_DayEndClean", "5");
        ("THOST_FTDC_OS_Invalid", "9") ];
    mk_datatype "TThostFtdcCCBFeeModeType" TChar
      [ ("THOST_FTDC_CCBFM_ByAmount", "1");
        ("THOST_FTDC_CCBFM_ByMonth", "2") ];
    mk_datatype "TThostFtdcCommApiTypeType" TChar
      [ ("THOST_FTDC_CAPIT_Client", "1");
        ("THOST_FTDC_CAPIT_Server", "2");
        ("THOST_FTDC_CAPIT_UserApi", "3") ];
    mk_datatype "TThostFtdcServiceIDType" TInt [];
    mk_datatype "TThostFtdcServiceLineNoType" TInt [];
    mk_datatype "TThostFtdcServiceNameType" (TChars 61) [];
    mk_datatype "TThostFtdcLinkStatusType" TChar
      [ ("THOST_FTDC_LS_Connected", "1");
        ("THOST_FTDC_LS_Disconnected", "2") ];
    mk_datatype "TThostFtdcCommApiPointerType" TInt [];
    mk_datatype "TThostFtdcPwdFlagType" TChar
      [ ("THOST_FTDC_BPWDF_NoCheck", "0");
        ("THOST_FTDC_BPWDF_BlankCheck", "1");
        ("THOST_FTDC_BPWDF_EncryptCheck", "2") ];
    mk_datatype "TThostFtdcSecuAccTypeType" TChar
      [ ("THOST_FTDC_SAT_AccountID", "1");
        ("THOST_FTDC_SAT_CardID", "2");
        ("THOST_FTDC_SAT_SHStockholderID", "3");
        ("THOST_FTDC_SAT_SZStockholderID", "4") ];
    mk_datatype "TThostFtdcTransferStatusType" TChar
      [ ("THOST_FTDC_TRFS_Normal", "0");
        ("THOST_FTDC_TRFS_Repealed", "1") ];
    mk_datatype "TThostFtdcSponsorTypeType" TChar
      [ ("THOST_FTDC_SPTYPE_Broker", "0");
        ("THOST_FTDC_SPTYPE_Bank", "1") ];
    mk_datatype "TThostFtdcReqRspTypeType" TChar
      [ ("THOST_FTDC_REQRSP_Request", "0");
        ("THOST_FTDC_REQRSP_Response", "1") ] ].

Definition datatypes_26 : list datatype :=
  [ mk_datatype "TThostFtdcFBTUserEventTypeType" TChar
      [ ("THOST_FTDC_FBTUET_SignIn", "0");
        ("THOST_FTDC_FBTUET_FromBankToFuture", "1");
        ("THOST_FTDC_FBTUET_FromFutureToBank", "2");
        ("THOST_FTDC_FBTUET_OpenAccount", "3");
        ("THOST_FTDC_FBTUET_CancelAccount", "4");
        ("THOST_FTDC_FBTUET_ChangeAccount", "5");
        ("THOST_FTDC_FBTUET_RepealFromBankToFuture", "6");
        ("THOST_FTDC_FBTUET_RepealFromFutureToBank", "7");
        ("THOST_FTDC_FBTUET_QueryBankAccount", "8");
        ("THOST_FTDC_FBTUET_QueryFutureAccount", "9");
        ("THOST_FTDC_FBTUET_SignOut", "A");
        ("THOST_FTDC_FBTUET_SyncKey", "B");
        ("THOST_FTDC_FBTUET_ReserveOpenAccount", "C");
        ("THOST_FTDC_FBTUET_CancelReserveOpenAccount", "D");
        ("THOST_FTDC_FBTUET_ReserveOpenAccountConfirm", "E");
        ("THOST_FTDC_FBTUET_Other", "Z") ];
    mk_datatype "TThostFtdcBankIDByBankType" (TChars 21) [];
    mk_datatype "TThostFtdcBankOperNoType" (TChars 4) [];
    mk_datatype "TThostFtdcBankCustNoType" (TChars 21) [];
    mk_datatype "TThostFtdcDBOPSeqNoType" TInt [];
    mk_datatype "TThostFtdcTableNameType" (TChars 61) [];
    mk_datatype "TThostFtdcPKNameType" (TChars 201) [];
    mk_datatype "TThostFtdcPKValueType" (TChars 501) [];
    mk_datatype "TThostFtdcDBOperationType" TChar
      [ ("THOST_FTDC_DBOP_Insert", "0");
        ("THOST_FTDC_DBOP_Update", "1");
        ("THOST_FTDC_DBOP_Delete", "2") ];
    mk_datatype "TThostFtdcSyncFlagType" TChar
      [ ("THOST_FTDC_SYNF_Yes", "0");
        ("THOST_FTDC_SYNF_No", "1") ];
    mk_datatype "TThostFtdcTargetIDType" (TChars 4) [];
    mk_datatype "TThostFtdcSyncTypeType" TChar
      [ ("THOST_FTDC_SYNT_OneOffSync", "0");
        ("THOST_FTDC_SYNT_TimerSync", "1");
        ("THOST_FTDC_SYNT_TimerFullSync", "2") ];
    mk_datatype "TThostFtdcFBETimeType" (TChars 7) [];
    mk_datatype "TThostFtdcFBEBankNoType" (TChars 13) [];
    mk_datatype "TThostFtdcFBECertNoType" (TChars 13) [];
    mk_datatype "TThostFtdcExDirectionType" TChar
      [ ("THOST_FTDC_FBEDIR_Settlement", "0");
        ("THOST_FTDC_FBEDIR_Sale", "1") ];
    mk_datatype "TThostFtdcFBEBankAccountType" (TChars 33) [];
    mk_datatype "TThostFtdcFBEBankAccountNameType" (TChars 61) [] ].

Definition datatypes_27 : list datatype :=
  [ mk_datatype "TThostFtdcFBEAmtType" TDouble [];
    mk_datatype "TThostFtdcFBEBusinessTypeType" (TChars 3) [];
    mk_datatype "TThostFtdcFBEPostScriptType" (TChars 61) [];
    mk_datatype "TThostFtdcFBERemarkType" (TChars 71) [];
    mk_datatype "TThostFtdcExRateType" TDouble [];
    mk_datatype "TThostFtdcFBEResultFlagType" TChar
      [ ("THOST_FTDC_FBERES_Success", "0");
        ("THOST_FTDC_FBERES_InsufficientBalance", "1");
        ("THOST_FTDC_FBERES_UnknownTrading", "8");
        ("THOST_FTDC_FBERES_Fail", "x") ];
    mk_datatype "TThostFtdcFBERtnMsgType" (TChars 61) [];
    mk_datatype "TThostFtdcFBEExtendMsgType" (TChars 61) [];
    mk_datatype "TThostFtdcFBEBusinessSerialType" (TChars 31) [];
    mk_datatype "TThostFtdcFBESystemSerialType" (TChars 21) [];
    mk_datatype "TThostFtdcFBETotalExCntType" TInt [];
    mk_datatype "TThostFtdcFBEExchStatusType" TChar
      [ ("THOST_FTDC_FBEES_Normal", "0");
        ("THOST_FTDC_FBEES_ReExchange", "1") ];
    mk_datatype "TThostFtdcFBEFileFlagType" TChar
      [ ("THOST_FTDC_FBEFG_DataPackage", "0");
        ("THOST_FTDC_FBEFG_File", "1") ];
    mk_datatype "TThostFtdcFBEAlreadyTradeType" TChar
      [ ("THOST_FTDC_FBEAT_NotTrade", "0");
        ("THOST_FTDC_FBEAT_Trade", "1") ];
    mk_datatype "TThostFtdcFBEOpenBankType" (TChars 61) [];
    mk_datatype "TThostFtdcFBEUserEventTypeType" TChar
      [ ("THOST_FTDC_FBEUET_SignIn", "0");
        ("THOST_FTDC_FBEUET_Exchange", "1");
        ("THOST_FTDC_FBEUET_ReExchange", "2");
        ("THOST_FTDC_FBEUET_QueryBankAccount", "3");
        ("THOST_FTDC_FBEUET_QueryExchDetial", "4");
        ("THOST_FTDC_FBEUET_QueryExchSummary", "5");
        ("THOST_FTDC_FBEUET_QueryExchRate", "6");
        ("THOST_FTDC_FBEUET_CheckBankAccount", "7");
        ("THOST_FTDC_FBEUET_SignOut", "8");
        ("THOST_FTDC_FBEUET_Other", "Z") ];
    mk_datatype "TThostFtdcFBEFileNameType" (TChars 21) [];
    mk_datatype "TThostFtdcFBEBatchSerialType" (TChars 21) [];
    mk_datatype "TThostFtdcFBEReqFlagType" TChar
      [ ("THOST_FTDC_FBERF_UnProcessed", "0");
        ("THOST_FTDC_FBERF_WaitSend", "1");
        ("THOST_FTDC_FBERF_SendSuccess", "2");
        ("THOST_FTDC_FBERF_SendFailed", "3");
        ("THOST_FTDC_FBERF_WaitReSend", "4") ] ].

Definition datatypes_28 : list datatype :=
  [ mk_datatype "TThostFtdcNotifyClassType" TChar
      [ ("THOST_FTDC_NC_NOERROR", "0");
        ("THOST_FTDC_NC_Warn", "1");
        ("THOST_FTDC_NC_Call", "2");
        ("THOST_FTDC_NC_Force", "3");
        ("THOST_FTDC_NC_CHUANCANG", "4");
        ("THOST_FTDC_NC_Exception", "5") ];
    mk_datatype "TThostFtdcRiskNofityInfoType" (TChars 257) [];
    mk_datatype "TThostFtdcForceCloseSceneIdType" (TChars 24) [];
    mk_datatype "TThostFtdcForceCloseTypeType" TChar
      [ ("THOST_FTDC_FCT_Manual", "0");
        ("THOST_FTDC_FCT_Single", "1");
        ("THOST_FTDC_FCT_Group", "2") ];
    mk_datatype "TThostFtdcInstrumentIDsType" (TChars 101) [];
    mk_datatype "TThostFtdcRiskNotifyMethodType" TChar
      [ ("THOST_FTDC_RNM_System", "0");
        ("THOST_FTDC_RNM_SMS", "1");
        ("THOST_FTDC_RNM_EMail", "2");
        ("THOST_FTDC_RNM_Manual", "3") ];
    mk_datatype "TThostFtdcRiskNotifyStatusType" TChar
      [ ("THOST_FTDC_RNS_NotGen", "0");
        ("THOST_FTDC_RNS_Generated", "1");
        ("THOST_FTDC_RNS_SendError", "2");
        ("THOST_FTDC_RNS_SendOk", "3");
        ("THOST_FTDC_RNS_Received", "4");
        ("THOST_FTDC_RNS_Confirmed", "5") ];
    mk_datatype "TThostFtdcRiskUserEventType" TChar
      [ ("THOST_FTDC_RUE_ExportData", "0") ];
    mk_datatype "TThostFtdcParamIDType" TInt [];
    mk_datatype "TThostFtdcParamNameType" (TChars 41) [];
    mk_datatype "TThostFtdcParamValueType" (TChars 41) [];
    mk_datatype "TThostFtdcConditionalOrderSortTypeType" TChar
      [ ("THOST_FTDC_COST_LastPriceAsc", "0");
        ("THOST_FTDC_COST_LastPriceDesc", "1");
        ("THOST_FTDC_COST_AskPriceAsc", "2");
        ("THOST_FTDC_COST_AskPriceDesc", "3");
        ("THOST_FTDC_COST_BidPriceAsc", "4");
        ("THOST_FTDC_COST_BidPriceDesc", "5") ];
    mk_datatype "TThostFtdcSendTypeType" TChar
      [ ("THOST_FTDC_UOAST_NoSend", "0");
        ("THOST_FTDC_UOAST_Sended", "1");
        ("THOST_FTDC_UOAST_Generated", "2");
        ("THOST_FTDC_UOAST_SendFail", "3");
        ("THOST_FTDC_UOAST_Success", "4");
        ("THOST_FTDC_UOAST_Fail", "5");
        ("THOST_FTDC_UOAST_Cancel", "6") ] ].

Definition datatypes_29 : list datatype :=
  [ mk_datatype "TThostFtdcClientIDStatusType" TChar
      [ ("THOST_FTDC_UOACS_NoApply", "1");
        ("THOST_FTDC_UOACS_Submited", "2");
        ("THOST_FTDC_UOACS_Sended", "3");
        ("THOST_FTDC_UOACS_Success", "4");
        ("THOST_FTDC_UOACS_Refuse", "5");
        ("THOST_FTDC_UOACS_Cancel", "6") ];
    mk_datatype "TThostFtdcIndustryIDType" (TChars 17) [];
    mk_datatype "TThostFtdcQuestionIDType" (TChars 5) [];
    mk_datatype "TThostFtdcQuestionContentType" (TChars 41) [];
    mk_datatype "TThostFtdcOptionIDType" (TChars 13) [];
    mk_datatype "TThostFtdcOptionContentType" (TChars 61) [];
    mk_datatype "TThostFtdcQuestionTypeType" TChar
      [ ("THOST_FTDC_QT_Radio", "1");
        ("THOST_FTDC_QT_Option", "2");
        ("THOST_FTDC_QT_Blank", "3") ];
    mk_datatype "TThostFtdcProcessIDType" (TChars 33) [];
    mk_datatype "TThostFtdcSeqNoType" TInt [];
    mk_datatype "TThostFtdcUOAProcessStatusType" (TChars 3) [];
    mk_datatype "TThostFtdcProcessTypeType" (TChars 3) [];
    mk_datatype "TThostFtdcBusinessTypeType" TChar
      [ ("THOST_FTDC_BT_Request", "1");
        ("THOST_FTDC_BT_Response", "2");
        ("THOST_FTDC_BT_Notice", "3") ];
    mk_datatype "TThostFtdcCfmmcReturnCodeType" TChar
      [ ("THOST_FTDC_CRC_Success", "0");
        ("THOST_FTDC_CRC_Working", "1");
        ("THOST_FTDC_CRC_InfoFail", "2");
        ("THOST_FTDC_CRC_IDCardFail", "3");
        ("THOST_FTDC_CRC_OtherFail", "4") ];
    mk_datatype "TThostFtdcExReturnCodeType" TInt [];
    mk_datatype "TThostFtdcClientTypeType" TChar
      [ ("THOST_FTDC_CfMMCCT_All", "0");
        ("THOST_FTDC_CfMMCCT_Person", "1");
        ("THOST_FTDC_CfMMCCT_Company", "2");
        ("THOST_FTDC_CfMMCCT_Other", "3");
        ("THOST_FTDC_CfMMCCT_SpecialOrgan", "4");
        ("THOST_FTDC_CfMMCCT_Asset", "5") ];
    mk_datatype "TThostFtdcExchangeIDTypeType" TChar
      [ ("THOST_FTDC_EIDT_SHFE", "S");
        ("THOST_FTDC_EIDT_CZCE", "Z");
        ("THOST_FTDC_EIDT_DCE", "D");
        ("THOST_FTDC_EIDT_CFFEX", "J");
        ("THOST_FTDC_EIDT_INE", "N") ] ].

Definition datatypes_30 : list datatype :=
  [ mk_datatype "TThostFtdcExClientIDTypeType" TChar
      [ ("THOST_FTDC_ECIDT_Hedge", "1");
        ("THOST_FTDC_ECIDT_Arbitrage", "2");
        ("THOST_FTDC_ECIDT_Speculation", "3") ];
    mk_datatype "TThostFtdcClientClassifyType" (TChars 11) [];
    mk_datatype "TThostFtdcUOAOrganTypeType" (TChars 11) [];
    mk_datatype "TThostFtdcUOACountryCodeType" (TChars 11) [];
    mk_datatype "TThostFtdcAreaCodeType" (TChars 11) [];
    mk_datatype "TThostFtdcFuturesIDType" (TChars 21) [];
    mk_datatype "TThostFtdcCffmcDateType" (TChars 11) [];
    mk_datatype "TThostFtdcCffmcTimeType" (TChars 11) [];
    mk_datatype "TThostFtdcNocIDType" (TChars 21) [];
    mk_datatype "TThostFtdcUpdateFlagType" TChar
      [ ("THOST_FTDC_UF_NoUpdate", "0");
        ("THOST_FTDC_UF_Success", "1");
        ("THOST_FTDC_UF_Fail", "2");
        ("THOST_FTDC_UF_TCSuccess", "3");
        ("THOST_FTDC_UF_TCFail", "4");
        ("THOST_FTDC_UF_Cancel", "5") ];
    mk_datatype "TThostFtdcApplyOperateIDType" TChar
      [ ("THOST_FTDC_AOID_OpenInvestor", "1");
        ("THOST_FTDC_AOID_ModifyIDCard", "2");
        ("THOST_FTDC_AOID_ModifyNoIDCard", "3");
        ("THOST_FTDC_AOID_ApplyTradingCode", "4");
        ("THOST_FTDC_AOID_CancelTradingCode", "5");
        ("THOST_FTDC_AOID_CancelInvestor", "6");
        ("THOST_FTDC_AOID_FreezeAccount", "8");
        ("THOST_FTDC_AOID_ActiveFreezeAccount", "9") ];
    mk_datatype "TThostFtdcApplyStatusIDType" TChar
      [ ("THOST_FTDC_ASID_NoComplete", "1");
        ("THOST_FTDC_ASID_Submited", "2");
        ("THOST_FTDC_ASID_Checked", "3");
        ("THOST_FTDC_ASID_Refused", "4");
        ("THOST_FTDC_ASID_Deleted", "5") ];
    mk_datatype "TThostFtdcSendMethodType" TChar
      [ ("THOST_FTDC_UOASM_ByAPI", "1");
        ("THOST_FTDC_UOASM_ByFile", "2") ];
    mk_datatype "TThostFtdcEventTypeType" (TChars 33) [];
    mk_datatype "TThostFtdcEventModeType" TChar
      [ ("THOST_FTDC_EvM_ADD", "1");
        ("THOST_FTDC_EvM_UPDATE", "2");
        ("THOST_FTDC_EvM_DELETE", "3");
        ("THOST_FTDC_EvM_CHECK", "4");
        ("THOST_FTDC_EvM_COPY", "5");
        ("THOST_FTDC_EvM_CANCEL", "6");
        ("THOST_FTDC_EvM_Reverse", "7") ] ].

Definition datatypes_31 : list datatype :=
  [ mk_datatype "TThostFtdcUOAAutoSendType" TChar
      [ ("THOST_FTDC_UOAA_ASR", "1");
        ("THOST_FTDC_UOAA_ASNR", "2");
        ("THOST_FTDC_UOAA_NSAR", "3");
        ("THOST_FTDC_UOAA_NSR", "4") ];
    mk_datatype "TThostFtdcQueryDepthType" TInt [];
    mk_datatype "TThostFtdcDataCenterIDType" TInt [];
    mk_datatype "TThostFtdcFlowIDType" TChar
      [ ("THOST_FTDC_EvM_InvestorGroupFlow", "1");
        ("THOST_FTDC_EvM_InvestorRate", "2");
        ("THOST_FTDC_EvM_InvestorCommRateModel", "3") ];
    mk_datatype "TThostFtdcCheckLevelType" TChar
      [ ("THOST_FTDC_CL_Zero", "0");
        ("THOST_FTDC_CL_One", "1");
        ("THOST_FTDC_CL_Two", "2") ];
    mk_datatype "TThostFtdcCheckNoType" TInt [];
    mk_datatype "TThostFtdcCheckStatusType" TChar
      [ ("THOST_FTDC_CHS_Init", "0");
        ("THOST_FTDC_CHS_Checking", "1");
        ("THOST_FTDC_CHS_Checked", "2");
        ("THOST_FTDC_CHS_Refuse", "3");
        ("THOST_FTDC_CHS_Cancel", "4") ];
    mk_datatype "TThostFtdcUsedStatusType" TChar
      [ ("THOST_FTDC_CHU_Unused", "0");
        ("THOST_FTDC_CHU_Used", "1");
        ("THOST_FTDC_CHU_Fail", "2") ];
    mk_datatype "TThostFtdcRateTemplateNameType" (TChars 61) [];
    mk_datatype "TThostFtdcPropertyStringType" (TChars 2049) [];
    mk_datatype "TThostFtdcBankAcountOriginType" TChar
      [ ("THOST_FTDC_BAO_ByAccProperty", "0");
        ("THOST_FTDC_BAO_ByFBTransfer", "1") ];
    mk_datatype "TThostFtdcMonthBillTradeSumType" TChar
      [ ("THOST_FTDC_MBTS_ByInstrument", "0");
        ("THOST_FTDC_MBTS_ByDayInsPrc", "1");
        ("THOST_FTDC_MBTS_ByDayIns", "2") ];
    mk_datatype "TThostFtdcFBTTradeCodeEnumType" TChar
      [ ("THOST_FTDC_FTC_BankLaunchBankToBroker", "102001");
        ("THOST_FTDC_FTC_BrokerLaunchBankToBroker", "202001");
        ("THOST_FTDC_FTC_BankLaunchBrokerToBank", "102002");
        ("THOST_FTDC_FTC_BrokerLaunchBrokerToBank", "202002") ];
    mk_datatype "TThostFtdcRateTemplateIDType" (TChars 9) [];
    mk_datatype "TThostFtdcRiskRateType" (TChars 21) [];
    mk_datatype "TThostFtdcTimestampType" TInt [];
    mk_datatype "TThostFtdcInvestorIDRuleNameType" (TChars 61) [] ].

Definition datatypes_32 : list datatype :=
  [ mk_datatype "TThostFtdcInvestorIDRuleExprType" (TChars 513) [];
    mk_datatype "TThostFtdcLastDriftType" TInt [];
    mk_datatype "TThostFtdcLastSuccessType" TInt [];
    mk_datatype "TThostFtdcAuthKeyType" (TChars 41) [];
    mk_datatype "TThostFtdcSerialNumberType" (TChars 17) [];
    mk_datatype "TThostFtdcOTPTypeType" TChar
      [ ("THOST_FTDC_OTP_NONE", "0");
        ("THOST_FTDC_OTP_TOTP", "1") ];
    mk_datatype "TThostFtdcOTPVendorsIDType" (TChars 2) [];
    mk_datatype "TThostFtdcOTPVendorsNameType" (TChars 61) [];
    mk_datatype "TThostFtdcOTPStatusType" TChar
      [ ("THOST_FTDC_OTPS_Unused", "0");
        ("THOST_FTDC_OTPS_Used", "1");
        ("THOST_FTDC_OTPS_Disuse", "2") ];
    mk_datatype "TThostFtdcBrokerUserTypeType" TChar
      [ ("THOST_FTDC_BUT_Investor", "1");
        ("THOST_FTDC_BUT_BrokerUser", "2") ];
    mk_datatype "TThostFtdcFutureTypeType" TChar
      [ ("THOST_FTDC_FUTT_Commodity", "1");
        ("THOST_FTDC_FUTT_Financial", "2") ];
    mk_datatype "TThostFtdcFundEventTypeType" TChar
      [ ("THOST_FTDC_FET_Restriction", "0");
        ("THOST_FTDC_FET_TodayRestriction", "1");
        ("THOST_FTDC_FET_Transfer", "2");
        ("THOST_FTDC_FET_Credit", "3");
        ("THOST_FTDC_FET_InvestorWithdrawAlm", "4");
        ("THOST_FTDC_FET_BankRestriction", "5");
        ("THOST_FTDC_FET_Accountregister", "6");
        ("THOST_FTDC_FET_ExchangeFundIO", "7");
        ("THOST_FTDC_FET_InvestorFundIO", "8") ];
    mk_datatype "TThostFtdcAccountSourceTypeType" TChar
      [ ("THOST_FTDC_AST_FBTransfer", "0");
        ("THOST_FTDC_AST_ManualEntry", "1") ];
    mk_datatype "TThostFtdcCodeSourceTypeType" TChar
      [ ("THOST_FTDC_CST_UnifyAccount", "0");
        ("THOST_FTDC_CST_ManualEntry", "1") ];
    mk_datatype "TThostFtdcUserRangeType" TChar
      [ ("THOST_FTDC_UR_All", "0");
        ("THOST_FTDC_UR_Single", "1") ];
    mk_datatype "TThostFtdcTimeSpanType" (TChars 9) [];
    mk_datatype "TThostFtdcImportSequenceIDType" (TChars 17) [];
    mk_datatype "TThostFtdcByGroupType" TChar
      [ ("THOST_FTDC_BG_Investor", "2");
        ("THOST_FTDC_BG_Group", "1") ] ].

Definition datatypes_33 : list datatype :=
  [ mk_datatype "TThostFtdcTradeSumStatModeType" TChar
      [ ("THOST_FTDC_TSSM_Instrument", "1");
        ("THOST_FTDC_TSSM_Product", "2");
        ("THOST_FTDC_TSSM_Exchange", "3") ];
    mk_datatype "TThostFtdcComTypeType" TInt [];
    mk_datatype "TThostFtdcUserProductIDType" (TChars 33) [];
    mk_datatype "TThostFtdcUserProductNameType" (TChars 65) [];
    mk_datatype "TThostFtdcUserProductMemoType" (TChars 129) [];
    mk_datatype "TThostFtdcCSRCCancelFlagType" (TChars 2) [];
    mk_datatype "TThostFtdcCSRCDateType" (TChars 11) [];
    mk_datatype "TThostFtdcCSRCInvestorNameType" (TChars 201) [];
    mk_datatype "TThostFtdcCSRCOpenInvestorNameType" (TChars 101) [];
    mk_datatype "TThostFtdcCSRCInvestorIDType" (TChars 13) [];
    mk_datatype "TThostFtdcCSRCIdentifiedCardNoType" (TChars 51) [];
    mk_datatype "TThostFtdcCSRCClientIDType" (TChars 11) [];
    mk_datatype "TThostFtdcCSRCBankFlagType" (TChars 3) [];
    mk_datatype "TThostFtdcCSRCBankAccountType" (TChars 23) [];
    mk_datatype "TThostFtdcCSRCOpenNameType" (TChars 401) [];
    mk_datatype "TThostFtdcCSRCMemoType" (TChars 101) [];
    mk_datatype "TThostFtdcCSRCTimeType" (TChars 11) [];
    mk_datatype "TThostFtdcCSRCTradeIDType" (TChars 21) [];
    mk_datatype "TThostFtdcCSRCExchangeInstIDType" (TChars 31) [];
    mk_datatype "TThostFtdcCSRCMortgageNameType" (TChars 7) [];
    mk_datatype "TThostFtdcCSRCReasonType" (TChars 3) [];
    mk_datatype "TThostFtdcIsSettlementType" (TChars 2) [];
    mk_datatype "TThostFtdcCSRCMoneyType" TDouble [];
    mk_datatype "TThostFtdcCSRCPriceType" TDouble [];
    mk_datatype "TThostFtdcCSRCOptionsTypeType" (TChars 2) [];
    mk_datatype "TThostFtdcCSRCStrikePriceType" TDouble [];
    mk_datatype "TThostFtdcCSRCTargetProductIDType" (TChars 3) [];
    mk_datatype "TThostFtdcCSRCTargetInstrIDType" (TChars 31) [] ].

Definition datatypes_34 : list datatype :=
  [ mk_datatype "TThostFtdcCommModelNameType" (TChars 161) [];
    mk_datatype "TThostFtdcCommModelMemoType" (TChars 1025) [];
    mk_datatype "TThostFtdcExprSetModeType" TChar
      [ ("THOST_FTDC_ESM_Relative", "1");
        ("THOST_FTDC_ESM_Typical", "2") ];
    mk_datatype "TThostFtdcRateInvestorRangeType" TChar
      [ ("THOST_FTDC_RIR_All", "1");
        ("THOST_FTDC_RIR_Model", "2");
        ("THOST_FTDC_RIR_Single", "3") ];
    mk_datatype "TThostFtdcAgentBrokerIDType" (TChars 13) [];
    mk_datatype "TThostFtdcDRIdentityIDType" TInt [];
    mk_datatype "TThostFtdcDRIdentityNameType" (TChars 65) [];
    mk_datatype "TThostFtdcDBLinkIDType" (TChars 31) [];
    mk_datatype "TThostFtdcSyncDataStatusType" TChar
      [ ("THOST_FTDC_SDS_Initialize", "0");
        ("THOST_FTDC_SDS_Settlementing", "1");
        ("THOST_FTDC_SDS_Settlemented", "2") ];
    mk_datatype "TThostFtdcTradeSourceType" TChar
      [ ("THOST_FTDC_TSRC_NORMAL", "0");
        ("THOST_FTDC_TSRC_QUERY", "1") ];
    mk_datatype "TThostFtdcFlexStatModeType" TChar
      [ ("THOST_FTDC_FSM_Product", "1");
        ("THOST_FTDC_FSM_Exchange", "2");
        ("THOST_FTDC_FSM_All", "3") ];
    mk_datatype "TThostFtdcByInvestorRangeType" TChar
      [ ("THOST_FTDC_BIR_Property", "1");
        ("THOST_FTDC_BIR_All", "2") ];
    mk_datatype "TThostFtdcSRiskRateType" (TChars 21) [];
    mk_datatype "TThostFtdcSequenceNo12Type" TInt [];
    mk_datatype "TThostFtdcPropertyInvestorRangeType" TChar
      [ ("THOST_FTDC_PIR_All", "1");
        ("THOST_FTDC_PIR_Property", "2");
        ("THOST_FTDC_PIR_Single", "3") ];
    mk_datatype "TThostFtdcFileStatusType" TChar
      [ ("THOST_FTDC_FIS_NoCreate", "0");
        ("THOST_FTDC_FIS_Created", "1");
        ("THOST_FTDC_FIS_Failed", "2") ];
    mk_datatype "TThostFtdcFileGenStyleType" TChar
      [ ("THOST_FTDC_FGS_FileTransmit", "0");
        ("THOST_FTDC_FGS_FileGen", "1") ] ].

Definition datatypes_35 : list datatype :=
  [ mk_datatype "TThostFtdcSysOperModeType" TChar
      [ ("THOST_FTDC_SoM_Add", "1");
        ("THOST_FTDC_SoM_Update", "2");
        ("THOST_FTDC_SoM_Delete", "3");
        ("THOST_FTDC_SoM_Copy", "4");
        ("THOST_FTDC_SoM_AcTive", "5");
        ("THOST_FTDC_SoM_CanCel", "6");
        ("THOST_FTDC_SoM_ReSet", "7") ];
    mk_datatype "TThostFtdcSysOperTypeType" TChar
      [ ("THOST_FTDC_SoT_UpdatePassword", "0");
        ("THOST_FTDC_SoT_UserDepartment", "1");
        ("THOST_FTDC_SoT_RoleManager", "2");
        ("THOST_FTDC_SoT_RoleFunction", "3");
        ("THOST_FTDC_SoT_BaseParam", "4");
        ("THOST_FTDC_SoT_SetUserID", "5");
        ("THOST_FTDC_SoT_SetUserRole", "6");
        ("THOST_FTDC_SoT_UserIpRestriction", "7");
        ("THOST_FTDC_SoT_DepartmentManager", "8");
        ("THOST_FTDC_SoT_DepartmentCopy", "9");
        ("THOST_FTDC_SoT_Tradingcode", "A");
        ("THOST_FTDC_SoT_InvestorStatus", "B");
        ("THOST_FTDC_SoT_InvestorAuthority", "C");
        ("THOST_FTDC_SoT_PropertySet", "D");
        ("THOST_FTDC_SoT_ReSetInvestorPasswd", "E");
        ("THOST_FTDC_SoT_InvestorPersonalityInfo", "F") ];
    mk_datatype "TThostFtdcCSRCDataQueyTypeType" TChar
      [ ("THOST_FTDC_CSRCQ_Current", "0");
        ("THOST_FTDC_CSRCQ_History", "1") ];
    mk_datatype "TThostFtdcFreezeStatusType" TChar
      [ ("THOST_FTDC_FRS_Normal", "1");
        ("THOST_FTDC_FRS_Freeze", "0") ];
    mk_datatype "TThostFtdcStandardStatusType" TChar
      [ ("THOST_FTDC_STST_Standard", "0");
        ("THOST_FTDC_STST_NonStandard", "1") ];
    mk_datatype "TThostFtdcCSRCFreezeStatusType" (TChars 2) [];
    mk_datatype "TThostFtdcRightParamTypeType" TChar
      [ ("THOST_FTDC_RPT_Freeze", "1");
        ("THOST_FTDC_RPT_FreezeActive", "2");
        ("THOST_FTDC_RPT_OpenLimit", "3");
        ("THOST_FTDC_RPT_RelieveOpenLimit", "4") ];
    mk_datatype "TThostFtdcRightTemplateIDType" (TChars 9) [];
    mk_datatype "TThostFtdcRightTemplateNameType" (TChars 61) [];
    mk_datatype "TThostFtdcDataStatusType" TChar
      [ ("THOST_FTDC_AMLDS_Normal", "0");
        ("THOST_FTDC_AMLDS_Deleted", "1") ];
    mk_datatype "TThostFtdcAMLCheckStatusType" TChar
      [ ("THOST_FTDC_AMLCHS_Init", "0");
        ("THOST_FTDC_AMLCHS_Checking", "1");
        ("THOST_FTDC_AMLCHS_Checked", "2");
        ("THOST_FTDC_AMLCHS_RefuseReport", "3") ];
    mk_datatype "TThostFtdcAmlDateTypeType" TChar
      [ ("THOST_FTDC_AMLDT_DrawDay", "0");
        ("THOST_FTDC_AMLDT_TouchDay", "1") ] ].

Definition datatypes_36 : list datatype :=
  [ mk_datatype "TThostFtdcAmlCheckLevelType" TChar
      [ ("THOST_FTDC_AMLCL_CheckLevel0", "0");
        ("THOST_FTDC_AMLCL_CheckLevel1", "1");
        ("THOST_FTDC_AMLCL_CheckLevel2", "2");
        ("THOST_FTDC_AMLCL_CheckLevel3", "3") ];
    mk_datatype "TThostFtdcAmlCheckFlowType" (TChars 2) [];
    mk_datatype "TThostFtdcDataTypeType" (TChars 129) [];
    mk_datatype "TThostFtdcExportFileTypeType" TChar
      [ ("THOST_FTDC_EFT_CSV", "0");
        ("THOST_FTDC_EFT_EXCEL", "1");
        ("THOST_FTDC_EFT_DBF", "2") ];
    mk_datatype "TThostFtdcSettleManagerTypeType" TChar
      [ ("THOST_FTDC_SMT_Before", "1");
        ("THOST_FTDC_SMT_Settlement", "2");
        ("THOST_FTDC_SMT_After", "3");
        ("THOST_FTDC_SMT_Settlemented", "4") ];
    mk_datatype "TThostFtdcSettleManagerIDType" (TChars 33) [];
    mk_datatype "TThostFtdcSettleManagerNameType" (TChars 129) [];
    mk_datatype "TThostFtdcSettleManagerLevelType" TChar
      [ ("THOST_FTDC_SML_Must", "1");
        ("THOST_FTDC_SML_Alarm", "2");
        ("THOST_FTDC_SML_Prompt", "3");
        ("THOST_FTDC_SML_Ignore", "4") ];
    mk_datatype "TThostFtdcSettleManagerGroupType" TChar
      [ ("THOST_FTDC_SMG_Exhcange", "1");
        ("THOST_FTDC_SMG_ASP", "2");
        ("THOST_FTDC_SMG_CSRC", "3") ];
    mk_datatype "TThostFtdcCheckResultMemoType" (TChars 1025) [];
    mk_datatype "TThostFtdcFunctionUrlType" (TChars 1025) [];
    mk_datatype "TThostFtdcAuthInfoType" (TChars 129) [];
    mk_datatype "TThostFtdcAuthCodeType" (TChars 17) [];
    mk_datatype "TThostFtdcLimitUseTypeType" TChar
      [ ("THOST_FTDC_LUT_Repeatable", "1");
        ("THOST_FTDC_LUT_Unrepeatable", "2") ];
    mk_datatype "TThostFtdcDataResourceType" TChar
      [ ("THOST_FTDC_DAR_Settle", "1");
        ("THOST_FTDC_DAR_Exchange", "2");
        ("THOST_FTDC_DAR_CSRC", "3") ];
    mk_datatype "TThostFtdcMarginTypeType" TChar
      [ ("THOST_FTDC_MGT_ExchMarginRate", "0");
        ("THOST_FTDC_MGT_InstrMarginRate", "1");
        ("THOST_FTDC_MGT_InstrMarginRateTrade", "2") ];
    mk_datatype "TThostFtdcActiveTypeType" TChar
      [ ("THOST_FTDC_ACT_Intraday", "1");
        ("THOST_FTDC_ACT_Long", "2") ] ].

Definition datatypes_37 : list datatype :=
  [ mk_datatype "TThostFtdcMarginRateTypeType" TChar
      [ ("THOST_FTDC_MRT_Exchange", "1");
        ("THOST_FTDC_MRT_Investor", "2");
        ("THOST_FTDC_MRT_InvestorTrade", "3") ];
    mk_datatype "TThostFtdcBackUpStatusType" TChar
      [ ("THOST_FTDC_BUS_UnBak", "0");
        ("THOST_FTDC_BUS_BakUp", "1");
        ("THOST_FTDC_BUS_BakUped", "2");
        ("THOST_FTDC_BUS_BakFail", "3") ];
    mk_datatype "TThostFtdcInitSettlementType" TChar
      [ ("THOST_FTDC_SIS_UnInitialize", "0");
        ("THOST_FTDC_SIS_Initialize", "1");
        ("THOST_FTDC_SIS_Initialized", "2") ];
    mk_datatype "TThostFtdcReportStatusType" TChar
      [ ("THOST_FTDC_SRS_NoCreate", "0");
        ("THOST_FTDC_SRS_Create", "1");
        ("THOST_FTDC_SRS_Created", "2");
        ("THOST_FTDC_SRS_CreateFail", "3") ];
    mk_datatype "TThostFtdcSaveStatusType" TChar
      [ ("THOST_FTDC_SSS_UnSaveData", "0");
        ("THOST_FTDC_SSS_SaveDatad", "1") ];
    mk_datatype "TThostFtdcSettArchiveStatusType" TChar
      [ ("THOST_FTDC_SAS_UnArchived", "0");
        ("THOST_FTDC_SAS_Archiving", "1");
        ("THOST_FTDC_SAS_Archived", "2");
        ("THOST_FTDC_SAS_ArchiveFail", "3") ];
    mk_datatype "TThostFtdcCTPTypeType" TChar
      [ ("THOST_FTDC_CTPT_Unkown", "0");
        ("THOST_FTDC_CTPT_MainCenter", "1");
        ("THOST_FTDC_CTPT_BackUp", "2") ];
    mk_datatype "TThostFtdcToolIDType" (TChars 9) [];
    mk_datatype "TThostFtdcToolNameType" (TChars 81) [];
    mk_datatype "TThostFtdcCloseDealTypeType" TChar
      [ ("THOST_FTDC_CDT_Normal", "0");
        ("THOST_FTDC_CDT_SpecFirst", "1") ];
    mk_datatype "TThostFtdcMortgageFundUseRangeType" TChar
      [ ("THOST_FTDC_MFUR_None", "0");
        ("THOST_FTDC_MFUR_Margin", "1");
        ("THOST_FTDC_MFUR_All", "2");
        ("THOST_FTDC_MFUR_CNY3", "3") ];
    mk_datatype "TThostFtdcCurrencyUnitType" TDouble [];
    mk_datatype "TThostFtdcExchangeRateType" TDouble [];
    mk_datatype "TThostFtdcSpecProductTypeType" TChar
      [ ("THOST_FTDC_SPT_CzceHedge", "1");
        ("THOST_FTDC_SPT_IneForeignCurrency", "2");
        ("THOST_FTDC_SPT_DceOpenClose", "3") ] ].

Definition datatypes_38 : list datatype :=
  [ mk_datatype "TThostFtdcFundMortgageTypeType" TChar
      [ ("THOST_FTDC_FMT_Mortgage", "1");
        ("THOST_FTDC_FMT_Redemption", "2") ];
    mk_datatype "TThostFtdcAccountSettlementParamIDType" TChar
      [ ("THOST_FTDC_ASPI_BaseMargin", "1");
        ("THOST_FTDC_ASPI_LowestInterest", "2") ];
    mk_datatype "TThostFtdcCurrencyNameType" (TChars 31) [];
    mk_datatype "TThostFtdcCurrencySignType" (TChars 4) [];
    mk_datatype "TThostFtdcFundMortDirectionType" TChar
      [ ("THOST_FTDC_FMD_In", "1");
        ("THOST_FTDC_FMD_Out", "2") ];
    mk_datatype "TThostFtdcBusinessClassType" TChar
      [ ("THOST_FTDC_BT_Profit", "0");
        ("THOST_FTDC_BT_Loss", "1");
        ("THOST_FTDC_BT_Other", "Z") ];
    mk_datatype "TThostFtdcSwapSourceTypeType" TChar
      [ ("THOST_FTDC_SST_Manual", "0");
        ("THOST_FTDC_SST_Automatic", "1") ];
    mk_datatype "TThostFtdcCurrExDirectionType" TChar
      [ ("THOST_FTDC_CED_Settlement", "0");
        ("THOST_FTDC_CED_Sale", "1") ];
    mk_datatype "TThostFtdcCurrencySwapStatusType" TChar
      [ ("THOST_FTDC_CSS_Entry", "1");
        ("THOST_FTDC_CSS_Approve", "2");
        ("THOST_FTDC_CSS_Refuse", "3");
        ("THOST_FTDC_CSS_Revoke", "4");
        ("THOST_FTDC_CSS_Send", "5");
        ("THOST_FTDC_CSS_Success", "6");
        ("THOST_FTDC_CSS_Failure", "7") ];
    mk_datatype "TThostFtdcCurrExchCertNoType" (TChars 13) [];
    mk_datatype "TThostFtdcBatchSerialNoType" (TChars 21) [];
    mk_datatype "TThostFtdcReqFlagType" TChar
      [ ("THOST_FTDC_REQF_NoSend", "0");
        ("THOST_FTDC_REQF_SendSuccess", "1");
        ("THOST_FTDC_REQF_SendFailed", "2");
        ("THOST_FTDC_REQF_WaitReSend", "3") ];
    mk_datatype "TThostFtdcResFlagType" TChar
      [ ("THOST_FTDC_RESF_Success", "0");
        ("THOST_FTDC_RESF_InsuffiCient", "1");
        ("THOST_FTDC_RESF_UnKnown", "8") ];
    mk_datatype "TThostFtdcPageControlType" (TChars 2) [];
    mk_datatype "TThostFtdcRecordCountType" TInt [];
    mk_datatype "TThostFtdcCurrencySwapMemoType" (TChars 101) [] ].

Definition datatypes_39 : list datatype :=
  [ mk_datatype "TThostFtdcExStatusType" TChar
      [ ("THOST_FTDC_EXS_Before", "0");
        ("THOST_FTDC_EXS_After", "1") ];
    mk_datatype "TThostFtdcClientRegionType" TChar
      [ ("THOST_FTDC_CR_Domestic", "1");
        ("THOST_FTDC_CR_GMT", "2");
        ("THOST_FTDC_CR_Foreign", "3") ];
    mk_datatype "TThostFtdcWorkPlaceType" (TChars 101) [];
    mk_datatype "TThostFtdcBusinessPeriodType" (TChars 21) [];
    mk_datatype "TThostFtdcWebSiteType" (TChars 101) [];
    mk_datatype "TThostFtdcUOAIdCardTypeType" (TChars 3) [];
    mk_datatype "TThostFtdcClientModeType" (TChars 3) [];
    mk_datatype "TThostFtdcInvestorFullNameType" (TChars 101) [];
    mk_datatype "TThostFtdcUOABrokerIDType" (TChars 11) [];
    mk_datatype "TThostFtdcUOAZipCodeType" (TChars 11) [];
    mk_datatype "TThostFtdcUOAEMailType" (TChars 101) [];
    mk_datatype "TThostFtdcOldCityType" (TChars 41) [];
    mk_datatype "TThostFtdcCorporateIdentifiedCardNoType" (TChars 101) [];
    mk_datatype "TThostFtdcHasBoardType" TChar
      [ ("THOST_FTDC_HB_No", "0");
        ("THOST_FTDC_HB_Yes", "1") ];
    mk_datatype "TThostFtdcStartModeType" TChar
      [ ("THOST_FTDC_SM_Normal", "1");
        ("THOST_FTDC_SM_Emerge", "2");
        ("THOST_FTDC_SM_Restore", "3") ];
    mk_datatype "TThostFtdcTemplateTypeType" TChar
      [ ("THOST_FTDC_TPT_Full", "1");
        ("THOST_FTDC_TPT_Increment", "2");
        ("THOST_FTDC_TPT_BackUp", "3") ];
    mk_datatype "TThostFtdcLoginModeType" TChar
      [ ("THOST_FTDC_LM_Trade", "0");
        ("THOST_FTDC_LM_Transfer", "1") ];
    mk_datatype "TThostFtdcPromptTypeType" TChar
      [ ("THOST_FTDC_CPT_Instrument", "1");
        ("THOST_FTDC_CPT_Margin", "2") ];
    mk_datatype "TThostFtdcLedgerManageIDType" (TChars 51) [];
    mk_datatype "TThostFtdcInvestVarietyType" (TChars 101) [];
    mk_datatype "TThostFtdcBankAccountTypeType" (TChars 2) [];
    mk_datatype "TThostFtdcLedgerManageBankType" (TChars 101) [] ].

Definition datatypes_40 : list datatype :=
  [ mk_datatype "TThostFtdcCffexDepartmentNameType" (TChars 101) [];
    mk_datatype "TThostFtdcCffexDepartmentCodeType" (TChars 9) [];
    mk_datatype "TThostFtdcHasTrusteeType" TChar
      [ ("THOST_FTDC_HT_Yes", "1");
        ("THOST_FTDC_HT_No", "0") ];
    mk_datatype "TThostFtdcCSRCMemo1Type" (TChars 41) [];
    mk_datatype "TThostFtdcAssetmgrCFullNameType" (TChars 101) [];
    mk_datatype "TThostFtdcAssetmgrApprovalNOType" (TChars 51) [];
    mk_datatype "TThostFtdcAssetmgrMgrNameType" (TChars 401) [];
    mk_datatype "TThostFtdcAmTypeType" TChar
      [ ("THOST_FTDC_AMT_Bank", "1");
        ("THOST_FTDC_AMT_Securities", "2");
        ("THOST_FTDC_AMT_Fund", "3");
        ("THOST_FTDC_AMT_Insurance", "4");
        ("THOST_FTDC_AMT_Trust", "5");
        ("THOST_FTDC_AMT_Other", "9") ];
    mk_datatype "TThostFtdcCSRCAmTypeType" (TChars 5) [];
    mk_datatype "TThostFtdcCSRCFundIOTypeType" TChar
      [ ("THOST_FTDC_CFIOT_FundIO", "0");
        ("THOST_FTDC_CFIOT_SwapCurrency", "1") ];
    mk_datatype "TThostFtdcCusAccountTypeType" TChar
      [ ("THOST_FTDC_CAT_Futures", "1");
        ("THOST_FTDC_CAT_AssetmgrFuture", "2");
        ("THOST_FTDC_CAT_AssetmgrTrustee", "3");
        ("THOST_FTDC_CAT_AssetmgrTransfer", "4") ];
    mk_datatype "TThostFtdcCSRCNationalType" (TChars 4) [];
    mk_datatype "TThostFtdcCSRCSecAgentIDType" (TChars 11) [];
    mk_datatype "TThostFtdcLanguageTypeType" TChar
      [ ("THOST_FTDC_LT_Chinese", "1");
        ("THOST_FTDC_LT_English", "2") ];
    mk_datatype "TThostFtdcAmAccountType" (TChars 23) [];
    mk_datatype "TThostFtdcAssetmgrClientTypeType" TChar
      [ ("THOST_FTDC_AMCT_Person", "1");
        ("THOST_FTDC_AMCT_Organ", "2");
        ("THOST_FTDC_AMCT_SpecialOrgan", "4") ];
    mk_datatype "TThostFtdcAssetmgrTypeType" TChar
      [ ("THOST_FTDC_ASST_Futures", "3");
        ("THOST_FTDC_ASST_SpecialOrgan", "4") ];
    mk_datatype "TThostFtdcUOMType" (TChars 11) [];
    mk_datatype "TThostFtdcSHFEInstLifePhaseType" (TChars 3) [];
    mk_datatype "TThostFtdcSHFEProductClassType" (TChars 11) [] ].

Definition datatypes_41 : list datatype :=
  [ mk_datatype "TThostFtdcPriceDecimalType" (TChars 2) [];
    mk_datatype "TThostFtdcInTheMoneyFlagType" (TChars 2) [];
    mk_datatype "TThostFtdcCheckInstrTypeType" TChar
      [ ("THOST_FTDC_CIT_HasExch", "0");
        ("THOST_FTDC_CIT_HasATP", "1");
        ("THOST_FTDC_CIT_HasDiff", "2") ];
    mk_datatype "TThostFtdcDeliveryTypeType" TChar
      [ ("THOST_FTDC_DT_HandDeliv", "1");
        ("THOST_FTDC_DT_PersonDeliv", "2") ];
    mk_datatype "TThostFtdcBigMoneyType" TDouble [];
    mk_datatype "TThostFtdcMaxMarginSideAlgorithmType" TChar
      [ ("THOST_FTDC_MMSA_NO", "0");
        ("THOST_FTDC_MMSA_YES", "1") ];
    mk_datatype "TThostFtdcDAClientTypeType" TChar
      [ ("THOST_FTDC_CACT_Person", "0");
        ("THOST_FTDC_CACT_Company", "1");
        ("THOST_FTDC_CACT_Other", "2") ];
    mk_datatype "TThostFtdcCombinInstrIDType" (TChars 61) [];
    mk_datatype "TThostFtdcCombinSettlePriceType" (TChars 61) [];
    mk_datatype "TThostFtdcDCEPriorityType" TInt [];
    mk_datatype "TThostFtdcTradeGroupIDType" TInt [];
    mk_datatype "TThostFtdcIsCheckPrepaType" TInt [];
    mk_datatype "TThostFtdcUOAAssetmgrTypeType" TChar
      [ ("THOST_FTDC_UOAAT_Futures", "1");
        ("THOST_FTDC_UOAAT_SpecialOrgan", "2") ];
    mk_datatype "TThostFtdcDirectionEnType" TChar
      [ ("THOST_FTDC_DEN_Buy", "0");
        ("THOST_FTDC_DEN_Sell", "1") ];
    mk_datatype "TThostFtdcOffsetFlagEnType" TChar
      [ ("THOST_FTDC_OFEN_Open", "0");
        ("THOST_FTDC_OFEN_Close", "1");
        ("THOST_FTDC_OFEN_ForceClose", "2");
        ("THOST_FTDC_OFEN_CloseToday", "3");
        ("THOST_FTDC_OFEN_CloseYesterday", "4");
        ("THOST_FTDC_OFEN_ForceOff", "5");
        ("THOST_FTDC_OFEN_LocalForceClose", "6") ];
    mk_datatype "TThostFtdcHedgeFlagEnType" TChar
      [ ("THOST_FTDC_HFEN_Speculation", "1");
        ("THOST_FTDC_HFEN_Arbitrage", "2");
        ("THOST_FTDC_HFEN_Hedge", "3") ];
    mk_datatype "TThostFtdcFundIOTypeEnType" TChar
      [ ("THOST_FTDC_FIOTEN_FundIO", "1");
        ("THOST_FTDC_FIOTEN_Transfer", "2");
        ("THOST_FTDC_FIOTEN_SwapCurrency", "3") ] ].

Definition datatypes_42 : list datatype :=
  [ mk_datatype "TThostFtdcFundTypeEnType" TChar
      [ ("THOST_FTDC_FTEN_Deposite", "1");
        ("THOST_FTDC_FTEN_ItemFund", "2");
        ("THOST_FTDC_FTEN_Company", "3");
        ("THOST_FTDC_FTEN_InnerTransfer", "4") ];
    mk_datatype "TThostFtdcFundDirectionEnType" TChar
      [ ("THOST_FTDC_FDEN_In", "1");
        ("THOST_FTDC_FDEN_Out", "2") ];
    mk_datatype "TThostFtdcFundMortDirectionEnType" TChar
      [ ("THOST_FTDC_FMDEN_In", "1");
        ("THOST_FTDC_FMDEN_Out", "2") ];
    mk_datatype "TThostFtdcSwapBusinessTypeType" (TChars 3) [];
    mk_datatype "TThostFtdcOptionsTypeType" TChar
      [ ("THOST_FTDC_CP_CallOptions", "1");
        ("THOST_FTDC_CP_PutOptions", "2") ];
    mk_datatype "TThostFtdcStrikeModeType" TChar
      [ ("THOST_FTDC_STM_Continental", "0");
        ("THOST_FTDC_STM_American", "1");
        ("THOST_FTDC_STM_Bermuda", "2") ];
    mk_datatype "TThostFtdcStrikeTypeType" TChar
      [ ("THOST_FTDC_STT_Hedge", "0");
        ("THOST_FTDC_STT_Match", "1") ];
    mk_datatype "TThostFtdcApplyTypeType" TChar
      [ ("THOST_FTDC_APPT_NotStrikeNum", "4") ];
    mk_datatype "TThostFtdcGiveUpDataSourceType" TChar
      [ ("THOST_FTDC_GUDS_Gen", "0");
        ("THOST_FTDC_GUDS_Hand", "1") ];
    mk_datatype "TThostFtdcExecOrderSysIDType" (TChars 21) [];
    mk_datatype "TThostFtdcExecResultType" TChar
      [ ("THOST_FTDC_OER_NoExec", "n");
        ("THOST_FTDC_OER_Canceled", "c");
        ("THOST_FTDC_OER_OK", "0");
        ("THOST_FTDC_OER_NoPosition", "1");
        ("THOST_FTDC_OER_NoDeposit", "2");
        ("THOST_FTDC_OER_NoParticipant", "3");
        ("THOST_FTDC_OER_NoClient", "4");
        ("THOST_FTDC_OER_NoInstrument", "6");
        ("THOST_FTDC_OER_NoRight", "7");
        ("THOST_FTDC_OER_InvalidVolume", "8");
        ("THOST_FTDC_OER_NoEnoughHistoryTrade", "9");
        ("THOST_FTDC_OER_Unknown", "a") ];
    mk_datatype "TThostFtdcStrikeSequenceType" TInt [];
    mk_datatype "TThostFtdcStrikeTimeType" (TChars 13) [] ].

Definition datatypes_43 : list datatype :=
  [ mk_datatype "TThostFtdcCombinationTypeType" TChar
      [ ("THOST_FTDC_COMBT_Future", "0");
        ("THOST_FTDC_COMBT_BUL", "1");
        ("THOST_FTDC_COMBT_BER", "2");
        ("THOST_FTDC_COMBT_STD", "3");
        ("THOST_FTDC_COMBT_STG", "4");
        ("THOST_FTDC_COMBT_PRT", "5");
        ("THOST_FTDC_COMBT_CAS", "6");
        ("THOST_FTDC_COMBT_OPL", "7");
        ("THOST_FTDC_COMBT_BFO", "8");
        ("THOST_FTDC_COMBT_BLS", "9");
        ("THOST_FTDC_COMBT_BES", "a") ];
    mk_datatype "TThostFtdcDceCombinationTypeType" TChar
      [ ("THOST_FTDC_DCECOMBT_SPL", "0");
        ("THOST_FTDC_DCECOMBT_OPL", "1");
        ("THOST_FTDC_DCECOMBT_SP", "2");
        ("THOST_FTDC_DCECOMBT_SPC", "3");
        ("THOST_FTDC_DCECOMBT_BLS", "4");
        ("THOST_FTDC_DCECOMBT_BES", "5");
        ("THOST_FTDC_DCECOMBT_CAS", "6");
        ("THOST_FTDC_DCECOMBT_STD", "7");
        ("THOST_FTDC_DCECOMBT_STG", "8");
        ("THOST_FTDC_DCECOMBT_BFO", "9");
        ("THOST_FTDC_DCECOMBT_SFO", "a") ];
    mk_datatype "TThostFtdcOptionRoyaltyPriceTypeType" TChar
      [ ("THOST_FTDC_ORPT_PreSettlementPrice", "1");
        ("THOST_FTDC_ORPT_OpenPrice", "4");
        ("THOST_FTDC_ORPT_MaxPreSettlementPrice", "5") ];
    mk_datatype "TThostFtdcBalanceAlgorithmType" TChar
      [ ("THOST_FTDC_BLAG_Default", "1");
        ("THOST_FTDC_BLAG_IncludeOptValLost", "2") ];
    mk_datatype "TThostFtdcActionTypeType" TChar
      [ ("THOST_FTDC_ACTP_Exec", "1");
        ("THOST_FTDC_ACTP_Abandon", "2") ];
    mk_datatype "TThostFtdcForQuoteStatusType" TChar
      [ ("THOST_FTDC_FQST_Submitted", "a");
        ("THOST_FTDC_FQST_Accepted", "b");
        ("THOST_FTDC_FQST_Rejected", "c") ];
    mk_datatype "TThostFtdcValueMethodType" TChar
      [ ("THOST_FTDC_VM_Absolute", "0");
        ("THOST_FTDC_VM_Ratio", "1") ];
    mk_datatype "TThostFtdcExecOrderPositionFlagType" TChar
      [ ("THOST_FTDC_EOPF_Reserve", "0");
        ("THOST_FTDC_EOPF_UnReserve", "1") ];
    mk_datatype "TThostFtdcExecOrderCloseFlagType" TChar
      [ ("THOST_FTDC_EOCF_AutoClose", "0");
        ("THOST_FTDC_EOCF_NotToClose", "1") ];
    mk_datatype "TThostFtdcProductTypeType" TChar
      [ ("THOST_FTDC_PTE_Futures", "1");
        ("THOST_FTDC_PTE_Options", "2") ] ].

Definition datatypes_44 : list datatype :=
  [ mk_datatype "TThostFtdcCZCEUploadFileNameType" TChar
      [ ("THOST_FTDC_CUFN_CUFN_O", "O");
        ("THOST_FTDC_CUFN_CUFN_T", "T");
        ("THOST_FTDC_CUFN_CUFN_P", "P");
        ("THOST_FTDC_CUFN_CUFN_N", "N");
        ("THOST_FTDC_CUFN_CUFN_L", "L");
        ("THOST_FTDC_CUFN_CUFN_F", "F");
        ("THOST_FTDC_CUFN_CUFN_C", "C");
        ("THOST_FTDC_CUFN_CUFN_M", "M") ];
    mk_datatype "TThostFtdcDCEUploadFileNameType" TChar
      [ ("THOST_FTDC_DUFN_DUFN_O", "O");
        ("THOST_FTDC_DUFN_DUFN_T", "T");
        ("THOST_FTDC_DUFN_DUFN_P", "P");
        ("THOST_FTDC_DUFN_DUFN_F", "F");
        ("THOST_FTDC_DUFN_DUFN_C", "C");
        ("THOST_FTDC_DUFN_DUFN_D", "D");
        ("THOST_FTDC_DUFN_DUFN_M", "M");
        ("THOST_FTDC_DUFN_DUFN_S", "S") ];
    mk_datatype "TThostFtdcSHFEUploadFileNameType" TChar
      [ ("THOST_FTDC_SUFN_SUFN_O", "O");
        ("THOST_FTDC_SUFN_SUFN_T", "T");
        ("THOST_FTDC_SUFN_SUFN_P", "P");
        ("THOST_FTDC_SUFN_SUFN_F", "F") ];
    mk_datatype "TThostFtdcCFFEXUploadFileNameType" TChar
      [ ("THOST_FTDC_CFUFN_SUFN_T", "T");
        ("THOST_FTDC_CFUFN_SUFN_P", "P");
        ("THOST_FTDC_CFUFN_SUFN_F", "F");
        ("THOST_FTDC_CFUFN_SUFN_S", "S") ];
    mk_datatype "TThostFtdcCombDirectionType" TChar
      [ ("THOST_FTDC_CMDR_Comb", "0");
        ("THOST_FTDC_CMDR_UnComb", "1");
        ("THOST_FTDC_CMDR_DelComb", "2") ];
    mk_datatype "TThostFtdcStrikeOffsetTypeType" TChar
      [ ("THOST_FTDC_STOV_RealValue", "1");
        ("THOST_FTDC_STOV_ProfitValue", "2");
        ("THOST_FTDC_STOV_RealRatio", "3");
        ("THOST_FTDC_STOV_ProfitRatio", "4") ];
    mk_datatype "TThostFtdcReserveOpenAccStasType" TChar
      [ ("THOST_FTDC_ROAST_Processing", "0");
        ("THOST_FTDC_ROAST_Cancelled", "1");
        ("THOST_FTDC_ROAST_Opened", "2");
        ("THOST_FTDC_ROAST_Invalid", "3") ];
    mk_datatype "TThostFtdcLoginRemarkType" (TChars 36) [];
    mk_datatype "TThostFtdcInvestUnitIDType" (TChars 17) [];
    mk_datatype "TThostFtdcBulletinIDType" TInt [];
    mk_datatype "TThostFtdcNewsTypeType" (TChars 3) [];
    mk_datatype "TThostFtdcNewsUrgencyType" TChar [];
    mk_datatype "TThostFtdcAbstractType" (TChars 81) [];
    mk_datatype "TThostFtdcComeFromType" (TChars 21) [] ].

Definition datatypes_45 : list datatype :=
  [ mk_datatype "TThostFtdcURLLinkType" (TChars 201) [];
    mk_datatype "TThostFtdcLongIndividualNameType" (TChars 161) [];
    mk_datatype "TThostFtdcLongFBEBankAccountNameType" (TChars 161) [];
    mk_datatype "TThostFtdcDateTimeType" (TChars 17) [];
    mk_datatype "TThostFtdcWeakPasswordSourceType" TChar
      [ ("THOST_FTDC_WPSR_Lib", "1");
        ("THOST_FTDC_WPSR_Manual", "2") ];
    mk_datatype "TThostFtdcRandomStringType" (TChars 17) [];
    mk_datatype "TThostFtdcOrderMemoType" (TChars 13) [];
    mk_datatype "TThostFtdcOptSelfCloseFlagType" TChar
      [ ("THOST_FTDC_OSCF_CloseSelfOptionPosition", "1");
        ("THOST_FTDC_OSCF_ReserveOptionPosition", "2");
        ("THOST_FTDC_OSCF_SellCloseSelfFuturePosition", "3");
        ("THOST_FTDC_OSCF_ReserveFuturePosition", "4") ];
    mk_datatype "TThostFtdcBizTypeType" TChar
      [ ("THOST_FTDC_BZTP_Future", "1");
        ("THOST_FTDC_BZTP_Stock", "2") ];
    mk_datatype "TThostFtdcAppTypeType" TChar
      [ ("THOST_FTDC_APP_TYPE_Investor", "1");
        ("THOST_FTDC_APP_TYPE_InvestorRelay", "2");
        ("THOST_FTDC_APP_TYPE_OperatorRelay", "3");
        ("THOST_FTDC_APP_TYPE_UnKnown", "4") ];
    mk_datatype "TThostFtdcAppIDType" (TChars 33) [];
    mk_datatype "TThostFtdcSystemInfoLenType" TInt [];
    mk_datatype "TThostFtdcAdditionalInfoLenType" TInt [];
    mk_datatype "TThostFtdcClientSystemInfoType" (TChars 273) [];
    mk_datatype "TThostFtdcAdditionalInfoType" (TChars 261) [];
    mk_datatype "TThostFtdcBase64ClientSystemInfoType" (TChars 365) [];
    mk_datatype "TThostFtdcBase64AdditionalInfoType" (TChars 349) [];
    mk_datatype "TThostFtdcCurrentAuthMethodType" TInt [];
    mk_datatype "TThostFtdcCaptchaInfoLenType" TInt [];
    mk_datatype "TThostFtdcCaptchaInfoType" (TChars 2561) [];
    mk_datatype "TThostFtdcUserTextSeqType" TInt [];
    mk_datatype "TThostFtdcHandshakeDataType" (TChars 301) [];
    mk_datatype "TThostFtdcHandshakeDataLenType" TInt [];
    mk_datatype "TThostFtdcCryptoKeyVersionType" (TChars 31) [] ].

Definition datatypes_46 : list datatype :=
  [ mk_datatype "TThostFtdcRsaKeyVersionType" TInt [];
    mk_datatype "TThostFtdcSoftwareProviderIDType" (TChars 22) [];
    mk_datatype "TThostFtdcCollectTimeType" (TChars 21) [];
    mk_datatype "TThostFtdcQueryFreqType" TInt [];
    mk_datatype "TThostFtdcResponseValueType" TChar
      [ ("THOST_FTDC_RV_Right", "0");
        ("THOST_FTDC_RV_Refuse", "1") ];
    mk_datatype "TThostFtdcOTCTradeTypeType" TChar
      [ ("THOST_FTDC_OTC_TRDT_Block", "0");
        ("THOST_FTDC_OTC_TRDT_EFP", "1") ];
    mk_datatype "TThostFtdcMatchTypeType" TChar
      [ ("THOST_FTDC_OTC_MT_DV01", "1");
        ("THOST_FTDC_OTC_MT_ParValue", "2") ];
    mk_datatype "TThostFtdcOTCTraderIDType" (TChars 31) [];
    mk_datatype "TThostFtdcRiskValueType" TDouble [];
    mk_datatype "TThostFtdcIDBNameType" (TChars 100) [];
    mk_datatype "TThostFtdcDiscountRatioType" TDouble [];
    mk_datatype "TThostFtdcAuthTypeType" TChar
      [ ("THOST_FTDC_AU_WHITE", "0");
        ("THOST_FTDC_AU_BLACK", "1") ];
    mk_datatype "TThostFtdcClassTypeType" TChar
      [ ("THOST_FTDC_INS_ALL", "0");
        ("THOST_FTDC_INS_FUTURE", "1");
        ("THOST_FTDC_INS_OPTION", "2");
        ("THOST_FTDC_INS_COMB", "3") ];
    mk_datatype "TThostFtdcTradingTypeType" TChar
      [ ("THOST_FTDC_TD_ALL", "0");
        ("THOST_FTDC_TD_TRADE", "1");
        ("THOST_FTDC_TD_UNTRADE", "2") ];
    mk_datatype "TThostFtdcProductStatusType" TChar
      [ ("THOST_FTDC_PS_tradeable", "1");
        ("THOST_FTDC_PS_untradeable", "2") ];
    mk_datatype "TThostFtdcSyncDeltaStatusType" TChar
      [ ("THOST_FTDC_SDS_Readable", "1");
        ("THOST_FTDC_SDS_Reading", "2");
        ("THOST_FTDC_SDS_Readend", "3");
        ("THOST_FTDC_SDS_OptErr", "e") ];
    mk_datatype "TThostFtdcActionDirectionType" TChar
      [ ("THOST_FTDC_ACD_Add", "1");
        ("THOST_FTDC_ACD_Del", "2");
        ("THOST_FTDC_ACD_Upd", "3") ] ].

Definition datatypes_47 : list datatype :=
  [ mk_datatype "TThostFtdcOrderCancelAlgType" TChar
      [ ("THOST_FTDC_OAC_Balance", "1");
        ("THOST_FTDC_OAC_OrigFirst", "2") ];
    mk_datatype "TThostFtdcSyncDescriptionType" (TChars 257) [];
    mk_datatype "TThostFtdcCommonIntType" TInt [];
    mk_datatype "TThostFtdcSysVersionType" (TChars 41) [];
    mk_datatype "TThostFtdcOpenLimitControlLevelType" TChar
      [ ("THOST_FTDC_PLCL_None", "0");
        ("THOST_FTDC_PLCL_Product", "1");
        ("THOST_FTDC_PLCL_Inst", "2") ];
    mk_datatype "TThostFtdcOrderFreqControlLevelType" TChar
      [ ("THOST_FTDC_OFCL_None", "0");
        ("THOST_FTDC_OFCL_Product", "1");
        ("THOST_FTDC_OFCL_Inst", "2") ];
    mk_datatype "TThostFtdcEnumBoolType" TChar
      [ ("THOST_FTDC_EBL_False", "0");
        ("THOST_FTDC_EBL_True", "1") ];
    mk_datatype "TThostFtdcTimeRangeType" TChar
      [ ("THOST_FTDC_ETR_USUAL", "1");
        ("THOST_FTDC_ETR_FNSP", "2");
        ("THOST_FTDC_ETR_BNSP", "3");
        ("THOST_FTDC_ETR_SPOT", "4") ];
    mk_datatype "TThostFtdcDeltaType" TDouble [];
    mk_datatype "TThostFtdcSpreadIdType" TInt [];
    mk_datatype "TThostFtdcPortfolioType" TChar
      [ ("THOST_FTDC_EPF_None", "0");
        ("THOST_FTDC_EPF_SPBM", "1");
        ("THOST_FTDC_EPF_RULE", "2");
        ("THOST_FTDC_EPF_SPMM", "3");
        ("THOST_FTDC_EPF_RCAMS", "4") ];
    mk_datatype "TThostFtdcPortfolioDefIDType" TInt [];
    mk_datatype "TThostFtdcWithDrawParamIDType" TChar
      [ ("THOST_FTDC_WDPID_CashIn", "C") ];
    mk_datatype "TThostFtdcWithDrawParamValueType" (TChars 41) [];
    mk_datatype "TThostFtdcInvstTradingRightType" TChar
      [ ("THOST_FTDC_ITR_CloseOnly", "1");
        ("THOST_FTDC_ITR_Forbidden", "2") ];
    mk_datatype "TThostFtdcThostFunctionCodeType" TInt [];
    mk_datatype "TThostFtdcSPMMDiscountRatioType" TDouble [];
    mk_datatype "TThostFtdcSPMMModelDescType" (TChars 129) [];
    mk_datatype "TThostFtdcSPMMModelIDType" (TChars 33) [] ].

Definition datatypes_48 : list datatype :=
  [ mk_datatype "TThostFtdcSPMMProductIDType" (TChars 41) [];
    mk_datatype "TThostFtdcInstMarginCalIDType" TChar
      [ ("THOST_FTDC_IMID_BothSide", "1");
        ("THOST_FTDC_IMID_MMSA", "2");
        ("THOST_FTDC_IMID_SPMM", "3") ];
    mk_datatype "TThostFtdcProductIDType" (TChars 41) [];
    mk_datatype "TThostFtdcHedgeRateType" TDouble [];
    mk_datatype "TThostFtdcRCAMSPriorityType" TInt [];
    mk_datatype "TThostFtdcAdjustValueType" TDouble [];
    mk_datatype "TThostFtdcRCAMSCombinationTypeType" TChar
      [ ("THOST_FTDC_ERComb_BUC", "0");
        ("THOST_FTDC_ERComb_BEC", "1");
        ("THOST_FTDC_ERComb_BEP", "2");
        ("THOST_FTDC_ERComb_BUP", "3");
        ("THOST_FTDC_ERComb_CAS", "4") ];
    mk_datatype "TThostFtdcRuleIdType" (TChars 51) [];
    mk_datatype "TThostFtdcPortfTypeType" TChar
      [ ("THOST_FTDC_EET_None", "0");
        ("THOST_FTDC_EET_SPBM_AddOnHedge", "1") ];
    mk_datatype "TThostFtdcInstrumentClassType" TChar
      [ ("THOST_FTDC_EIC_Usual", "1");
        ("THOST_FTDC_EIC_Delivery", "2");
        ("THOST_FTDC_EIC_NonComb", "3") ];
    mk_datatype "TThostFtdcCommodityGroupIDType" TInt [];
    mk_datatype "TThostFtdcStdPositionType" TDouble [];
    mk_datatype "TThostFtdcProdChangeFlagType" TChar
      [ ("THOST_FTDC_PCF_None", "0");
        ("THOST_FTDC_PCF_OnlyFrozen", "1");
        ("THOST_FTDC_PCF_PositionChange", "2") ];
    mk_datatype "TThostFtdcPwdRcdSrcType" TChar
      [ ("THOST_FTDC_PRS_Init", "0");
        ("THOST_FTDC_PRS_Sync", "1");
        ("THOST_FTDC_PRS_UserUpd", "2");
        ("THOST_FTDC_PRS_SuperUserUpd", "3") ] ].

Definition datatypes : list datatype :=
  datatypes_0 ++ datatypes_1 ++ datatypes_2 ++ datatypes_3 ++ datatypes_4 ++ datatypes_5
  ++ datatypes_6 ++ datatypes_7 ++ datatypes_8 ++ datatypes_9 ++ datatypes_10 ++ datatypes_11
  ++ datatypes_12 ++ datatypes_13 ++ datatypes_14 ++ datatypes_15 ++ datatypes_16 ++ datatypes_17
  ++ datatypes_18 ++ datatypes_19 ++ datatypes_20 ++ datatypes_21 ++ datatypes_22 ++ datatypes_23
  ++ datatypes_24 ++ datatypes_25 ++ datatypes_26 ++ datatypes_27 ++ datatypes_28 ++ datatypes_29
  ++ datatypes_30 ++ datatypes_31 ++ datatypes_32 ++ datatypes_33 ++ datatypes_34 ++ datatypes_35
  ++ datatypes_36 ++ datatypes_37 ++ datatypes_38 ++ datatypes_39 ++ datatypes_40 ++ datatypes_41
  ++ datatypes_42 ++ datatypes_43 ++ datatypes_44 ++ datatypes_45 ++ datatypes_46 ++ datatypes_47
  ++ datatypes_48.

(** ** Abbreviations *)

Abbreviation TThostFtdcTraderIDType := (TChars 21).
Abbreviation TThostFtdcInvestorIDType := (TChars 13).
Abbreviation TThostFtdcBrokerIDType := (TChars 11).
Abbreviation TThostFtdcBrokerAbbrType := (TChars 9).
Abbreviation TThostFtdcBrokerNameType := (TChars 81).
Abbreviation TThostFtdcOldExchangeInstIDType := (TChars 31).
Abbreviation TThostFtdcExchangeInstIDType := (TChars 81).
Abbreviation TThostFtdcOrderRefType := (TChars 13).
Abbreviation TThostFtdcParticipantIDType := (TChars 11).
Abbreviation TThostFtdcUserIDType := (TChars 16).
Abbreviation TThostFtdcPasswordType := (TChars 41).
Abbreviation TThostFtdcClientIDType := (TChars 11).
Abbreviation TThostFtdcInstrumentIDType := (TChars 81).
Abbreviation TThostFtdcOldInstrumentIDType := (TChars 31).
Abbreviation TThostFtdcInstrumentCodeType := (TChars 31).
Abbreviation TThostFtdcMarketIDType := (TChars 31).
Abbreviation TThostFtdcProductNameType := (TChars 21).
Abbreviation TThostFtdcExchangeIDType := (TChars 9).
Abbreviation TThostFtdcExchangeNameType := (TChars 61).
Abbreviation TThostFtdcExchangeAbbrType := (TChars 9).
Abbreviation TThostFtdcExchangeFlagType := (TChars 2).
Abbreviation TThostFtdcMacAddressType := (TChars 21).
Abbreviation TThostFtdcSystemIDType := (TChars 21).
Abbreviation TThostFtdcClientLoginRemarkType := (TChars 151).
Abbreviation TThostFtdcExchangePropertyType := (TChar).
Abbreviation TThostFtdcDateType := (TChars 9).
Abbreviation TThostFtdcTimeType := (TChars 9).
Abbreviation TThostFtdcLongTimeType := (TChars 13).
Abbreviation TThostFtdcInstrumentNameType := (TChars 21).
Abbreviation TThostFtdcSettlementGroupIDType := (TChars 9).
Abbreviation TThostFtdcOrderSysIDType := (TChars 21).
Abbreviation TThostFtdcTradeIDType := (TChars 21).
Abbreviation TThostFtdcCommandTypeType := (TChars 65).
Abbreviation TThostFtdcOldIPAddressType := (TChars 16).
Abbreviation TThostFtdcIPAddressType := (TChars 33).
Abbreviation TThostFtdcIPPortType := (TInt).
Abbreviation TThostFtdcProductInfoType := (TChars 11).
Abbreviation TThostFtdcProtocolInfoType := (TChars 11).
Abbreviation TThostFtdcBusinessUnitType := (TChars 21).
Abbreviation TThostFtdcDepositSeqNoType := (TChars 15).
Abbreviation TThostFtdcIdentifiedCardNoType := (TChars 51).
Abbreviation TThostFtdcIdCardTypeType := (TChar).
Abbreviation TThostFtdcOrderLocalIDType := (TChars 13).
Abbreviation TThostFtdcUserNameType := (TChars 81).
Abbreviation TThostFtdcPartyNameType := (TChars 81).
Abbreviation TThostFtdcErrorMsgType := (TChars 81).
Abbreviation TThostFtdcFieldNameType := (TChars 2049).
Abbreviation TThostFtdcFieldContentType := (TChars 2049).
Abbreviation TThostFtdcSystemNameType := (TChars 41).
Abbreviation TThostFtdcContentType := (TChars 501).
Abbreviation TThostFtdcInvestorRangeType := (TChar).
Abbreviation TThostFtdcDepartmentRangeType := (TChar).
Abbreviation TThostFtdcDataSyncStatusType := (TChar).
Abbreviation TThostFtdcBrokerDataSyncStatusType := (TChar).
Abbreviation TThostFtdcExchangeConnectStatusType := (TChar).
Abbreviation TThostFtdcTraderConnectStatusType := (TChar).
Abbreviation TThostFtdcFunctionCodeType := (TChar).
Abbreviation TThostFtdcBrokerFunctionCodeType := (TChar).
Abbreviation TThostFtdcOrderActionStatusType := (TChar).
Abbreviation TThostFtdcOrderStatusType := (TChar).
Abbreviation TThostFtdcOrderSubmitStatusType := (TChar).
Abbreviation TThostFtdcPositionDateType := (TChar).
Abbreviation TThostFtdcPositionDateTypeType := (TChar).
Abbreviation TThostFtdcTradingRoleType := (TChar).
Abbreviation TThostFtdcProductClassType := (TChar).
Abbreviation TThostFtdcAPIProductClassType := (TChar).
Abbreviation TThostFtdcInstLifePhaseType := (TChar).
Abbreviation TThostFtdcDirectionType := (TChar).
Abbreviation TThostFtdcPositionTypeType := (TChar).
Abbreviation TThostFtdcPosiDirectionType := (TChar).
Abbreviation TThostFtdcSysSettlementStatusType := (TChar).
Abbreviation TThostFtdcRatioAttrType := (TChar).
Abbreviation TThostFtdcHedgeFlagType := (TChar).
Abbreviation TThostFtdcBillHedgeFlagType := (TChar).
Abbreviation TThostFtdcClientIDTypeType := (TChar).
Abbreviation TThostFtdcOrderPriceTypeType := (TChar).
Abbreviation TThostFtdcOffsetFlagType := (TChar).
Abbreviation TThostFtdcForceCloseReasonType := (TChar).
Abbreviation TThostFtdcOrderTypeType := (TChar).
Abbreviation TThostFtdcTimeConditionType := (TChar).
Abbreviation TThostFtdcVolumeConditionType := (TChar).
Abbreviation TThostFtdcContingentConditionType := (TChar).
Abbreviation TThostFtdcActionFlagType := (TChar).
Abbreviation TThostFtdcTradingRightType := (TChar).
Abbreviation TThostFtdcOrderSourceType := (TChar).
Abbreviation TThostFtdcTradeTypeType := (TChar).
Abbreviation TThostFtdcSpecPosiTypeType := (TChar).
Abbreviation TThostFtdcPriceSourceType := (TChar).
Abbreviation TThostFtdcInstrumentStatusType := (TChar).
Abbreviation TThostFtdcInstStatusEnterReasonType := (TChar).
Abbreviation TThostFtdcOrderActionRefType := (TInt).
Abbreviation TThostFtdcInstallCountType := (TInt).
Abbreviation TThostFtdcInstallIDType := (TInt).
Abbreviation TThostFtdcErrorIDType := (TInt).
Abbreviation TThostFtdcSettlementIDType := (TInt).
Abbreviation TThostFtdcVolumeType := (TInt).
Abbreviation TThostFtdcFrontIDType := (TInt).
Abbreviation TThostFtdcSessionIDType := (TInt).
Abbreviation TThostFtdcSequenceNoType := (TInt).
Abbreviation TThostFtdcCommandNoType := (TInt).
Abbreviation TThostFtdcMillisecType := (TInt).
Abbreviation TThostFtdcSecType := (TInt).
Abbreviation TThostFtdcVolumeMultipleType := (TInt).
Abbreviation TThostFtdcTradingSegmentSNType := (TInt).
Abbreviation TThostFtdcRequestIDType := (TInt).
Abbreviation TThostFtdcYearType := (TInt).
Abbreviation TThostFtdcMonthType := (TInt).
Abbreviation TThostFtdcBoolType := (TInt).
Abbreviation TThostFtdcPriceType := (TDouble).
Abbreviation TThostFtdcCombOffsetFlagType := (TChars 5).
Abbreviation TThostFtdcCombHedgeFlagType := (TChars 5).
Abbreviation TThostFtdcRatioType := (TDouble).
Abbreviation TThostFtdcMoneyType := (TDouble).
Abbreviation TThostFtdcLargeVolumeType := (TDouble).
Abbreviation TThostFtdcSequenceSeriesType := (TShort).
Abbreviation TThostFtdcCommPhaseNoType := (TShort).
Abbreviation TThostFtdcSequenceLabelType := (TChars 2).
Abbreviation TThostFtdcUnderlyingMultipleType := (TDouble).
Abbreviation TThostFtdcPriorityType := (TInt).
Abbreviation TThostFtdcContractCodeType := (TChars 41).
Abbreviation TThostFtdcCityType := (TChars 51).
Abbreviation TThostFtdcIsStockType := (TChars 11).
Abbreviation TThostFtdcChannelType := (TChars 51).
Abbreviation TThostFtdcAddressType := (TChars 101).
Abbreviation TThostFtdcZipCodeType := (TChars 7).
Abbreviation TThostFtdcTelephoneType := (TChars 41).
Abbreviation TThostFtdcFaxType := (TChars 41).
Abbreviation TThostFtdcMobileType := (TChars 41).
Abbreviation TThostFtdcEMailType := (TChars 41).
Abbreviation TThostFtdcMemoType := (TChars 161).
Abbreviation TThostFtdcCompanyCodeType := (TChars 51).
Abbreviation TThostFtdcWebsiteType := (TChars 51).
Abbreviation TThostFtdcTaxNoType := (TChars 31).
Abbreviation TThostFtdcBatchStatusType := (TChar).
Abbreviation TThostFtdcPropertyIDType := (TChars 33).
Abbreviation TThostFtdcPropertyNameType := (TChars 65).
Abbreviation TThostFtdcLicenseNoType := (TChars 51).
Abbreviation TThostFtdcAgentIDType := (TChars 13).
Abbreviation TThostFtdcAgentNameType := (TChars 41).
Abbreviation TThostFtdcAgentGroupIDType := (TChars 13).
Abbreviation TThostFtdcAgentGroupNameType := (TChars 41).
Abbreviation TThostFtdcReturnStyleType := (TChar).
Abbreviation TThostFtdcReturnPatternType := (TChar).
Abbreviation TThostFtdcReturnLevelType := (TChar).
Abbreviation TThostFtdcReturnStandardType := (TChar).
Abbreviation TThostFtdcMortgageTypeType := (TChar).
Abbreviation TThostFtdcInvestorSettlementParamIDType := (TChar).
Abbreviation TThostFtdcExchangeSettlementParamIDType := (TChar).
Abbreviation TThostFtdcSystemParamIDType := (TChar).
Abbreviation TThostFtdcTradeParamIDType := (TChar).
Abbreviation TThostFtdcSettlementParamValueType := (TChars 256).
Abbreviation TThostFtdcCounterIDType := (TChars 33).
Abbreviation TThostFtdcInvestorGroupNameType := (TChars 41).
Abbreviation TThostFtdcBrandCodeType := (TChars 257).
Abbreviation TThostFtdcWarehouseType := (TChars 257).
Abbreviation TThostFtdcProductDateType := (TChars 41).
Abbreviation TThostFtdcGradeType := (TChars 41).
Abbreviation TThostFtdcClassifyType := (TChars 41).
Abbreviation TThostFtdcPositionType := (TChars 41).
Abbreviation TThostFtdcYieldlyType := (TChars 41).
Abbreviation TThostFtdcWeightType := (TChars 41).
Abbreviation TThostFtdcSubEntryFundNoType := (TInt).
Abbreviation TThostFtdcFileIDType := (TChar).
Abbreviation TThostFtdcFileNameType := (TChars 257).
Abbreviation TThostFtdcFileTypeType := (TChar).
Abbreviation TThostFtdcFileFormatType := (TChar).
Abbreviation TThostFtdcFileUploadStatusType := (TChar).
Abbreviation TThostFtdcTransferDirectionType := (TChar).
Abbreviation TThostFtdcUploadModeType := (TChars 21).
Abbreviation TThostFtdcAccountIDType := (TChars 13).
Abbreviation TThostFtdcBankFlagType := (TChars 4).
Abbreviation TThostFtdcBankAccountType := (TChars 41).
Abbreviation TThostFtdcOpenNameType := (TChars 61).
Abbreviation TThostFtdcOpenBankType := (TChars 101).
Abbreviation TThostFtdcBankNameType := (TChars 101).
Abbreviation TThostFtdcPublishPathType := (TChars 257).
Abbreviation TThostFtdcOperatorIDType := (TChars 65).
Abbreviation TThostFtdcMonthCountType := (TInt).
Abbreviation TThostFtdcAdvanceMonthArrayType := (TChars 13).
Abbreviation TThostFtdcDateExprType := (TChars 1025).
Abbreviation TThostFtdcInstrumentIDExprType := (TChars 41).
Abbreviation TThostFtdcInstrumentNameExprType := (TChars 41).
Abbreviation TThostFtdcSpecialCreateRuleType := (TChar).
Abbreviation TThostFtdcBasisPriceTypeType := (TChar).
Abbreviation TThostFtdcProductLifePhaseType := (TChar).
Abbreviation TThostFtdcDeliveryModeType := (TChar).
Abbreviation TThostFtdcLogLevelType := (TChars 33).
Abbreviation TThostFtdcProcessNameType := (TChars 257).
Abbreviation TThostFtdcOperationMemoType := (TChars 1025).
Abbreviation TThostFtdcFundIOTypeType := (TChar).
Abbreviation TThostFtdcFundTypeType := (TChar).
Abbreviation TThostFtdcFundDirectionType := (TChar).
Abbreviation TThostFtdcFundStatusType := (TChar).
Abbreviation TThostFtdcBillNoType := (TChars 15).
Abbreviation TThostFtdcBillNameType := (TChars 33).
Abbreviation TThostFtdcPublishStatusType := (TChar).
Abbreviation TThostFtdcEnumValueIDType := (TChars 65).
Abbreviation TThostFtdcEnumValueTypeType := (TChars 33).
Abbreviation TThostFtdcEnumValueLabelType := (TChars 65).
Abbreviation TThostFtdcEnumValueResultType := (TChars 33).
Abbreviation TThostFtdcSystemStatusType := (TChar).
Abbreviation TThostFtdcSettlementStatusType := (TChar).
Abbreviation TThostFtdcRangeIntTypeType := (TChars 33).
Abbreviation TThostFtdcRangeIntFromType := (TChars 33).
Abbreviation TThostFtdcRangeIntToType := (TChars 33).
Abbreviation TThostFtdcFunctionIDType := (TChars 25).
Abbreviation TThostFtdcFunctionValueCodeType := (TChars 257).
Abbreviation TThostFtdcFunctionNameType := (TChars 65).
Abbreviation TThostFtdcRoleIDType := (TChars 11).
Abbreviation TThostFtdcRoleNameType := (TChars 41).
Abbreviation TThostFtdcDescriptionType := (TChars 401).
Abbreviation TThostFtdcCombineIDType := (TChars 25).
Abbreviation TThostFtdcCombineTypeType := (TChars 25).
Abbreviation TThostFtdcInvestorTypeType := (TChar).
Abbreviation TThostFtdcBrokerTypeType := (TChar).
Abbreviation TThostFtdcRiskLevelType := (TChar).
Abbreviation TThostFtdcFeeAcceptStyleType := (TChar).
Abbreviation TThostFtdcPasswordTypeType := (TChar).
Abbreviation TThostFtdcAlgorithmType := (TChar).
Abbreviation TThostFtdcIncludeCloseProfitType := (TChar).
Abbreviation TThostFtdcAllWithoutTradeType := (TChar).
Abbreviation TThostFtdcCommentType := (TChars 31).
Abbreviation TThostFtdcVersionType := (TChars 4).
Abbreviation TThostFtdcTradeCodeType := (TChars 7).
Abbreviation TThostFtdcTradeDateType := (TChars 9).
Abbreviation TThostFtdcTradeTimeType := (TChars 9).
Abbreviation TThostFtdcTradeSerialType := (TChars 9).
Abbreviation TThostFtdcTradeSerialNoType := (TInt).
Abbreviation TThostFtdcFutureIDType := (TChars 11).
Abbreviation TThostFtdcBankIDType := (TChars 4).
Abbreviation TThostFtdcBankBrchIDType := (TChars 5).
Abbreviation TThostFtdcBankBranchIDType := (TChars 11).
Abbreviation TThostFtdcOperNoType := (TChars 17).
Abbreviation TThostFtdcDeviceIDType := (TChars 3).
Abbreviation TThostFtdcRecordNumType := (TChars 7).
Abbreviation TThostFtdcFutureAccountType := (TChars 22).
Abbreviation TThostFtdcFuturePwdFlagType := (TChar).
Abbreviation TThostFtdcTransferTypeType := (TChar).
Abbreviation TThostFtdcFutureAccPwdType := (TChars 17).
Abbreviation TThostFtdcCurrencyCodeType := (TChars 4).
Abbreviation TThostFtdcRetCodeType := (TChars 5).
Abbreviation TThostFtdcRetInfoType := (TChars 129).
Abbreviation TThostFtdcTradeAmtType := (TChars 20).
Abbreviation TThostFtdcUseAmtType := (TChars 20).
Abbreviation TThostFtdcFetchAmtType := (TChars 20).
Abbreviation TThostFtdcTransferValidFlagType := (TChar).
Abbreviation TThostFtdcCertCodeType := (TChars 21).
Abbreviation TThostFtdcReasonType := (TChar).
Abbreviation TThostFtdcFundProjectIDType := (TChars 5).
Abbreviation TThostFtdcSexType := (TChar).
Abbreviation TThostFtdcProfessionType := (TChars 101).
Abbreviation TThostFtdcNationalType := (TChars 31).
Abbreviation TThostFtdcProvinceType := (TChars 51).
Abbreviation TThostFtdcRegionType := (TChars 16).
Abbreviation TThostFtdcCountryType := (TChars 16).
Abbreviation TThostFtdcLicenseNOType := (TChars 33).
Abbreviation TThostFtdcCompanyTypeType := (TChars 16).
Abbreviation TThostFtdcBusinessScopeType := (TChars 1001).
Abbreviation TThostFtdcCapitalCurrencyType := (TChars 4).
Abbreviation TThostFtdcUserTypeType := (TChar).
Abbreviation TThostFtdcBranchIDType := (TChars 9).
Abbreviation TThostFtdcRateTypeType := (TChar).
Abbreviation TThostFtdcNoteTypeType := (TChar).
Abbreviation TThostFtdcSettlementStyleType := (TChar).
Abbreviation TThostFtdcBrokerDNSType := (TChars 256).
Abbreviation TThostFtdcSentenceType := (TChars 501).
Abbreviation TThostFtdcSettlementBillTypeType := (TChar).
Abbreviation TThostFtdcUserRightTypeType := (TChar).
Abbreviation TThostFtdcMarginPriceTypeType := (TChar).
Abbreviation TThostFtdcBillGenStatusType := (TChar).
Abbreviation TThostFtdcAlgoTypeType := (TChar).
Abbreviation TThostFtdcHandlePositionAlgoIDType := (TChar).
Abbreviation TThostFtdcFindMarginRateAlgoIDType := (TChar).
Abbreviation TThostFtdcHandleTradingAccountAlgoIDType := (TChar).
Abbreviation TThostFtdcPersonTypeType := (TChar).
Abbreviation TThostFtdcQueryInvestorRangeType := (TChar).
Abbreviation TThostFtdcInvestorRiskStatusType := (TChar).
Abbreviation TThostFtdcLegIDType := (TInt).
Abbreviation TThostFtdcLegMultipleType := (TInt).
Abbreviation TThostFtdcImplyLevelType := (TInt).
Abbreviation TThostFtdcClearAccountType := (TChars 33).
Abbreviation TThostFtdcOrganNOType := (TChars 6).
Abbreviation TThostFtdcClearbarchIDType := (TChars 6).
Abbreviation TThostFtdcUserEventTypeType := (TChar).
Abbreviation TThostFtdcUserEventInfoType := (TChars 1025).
Abbreviation TThostFtdcCloseStyleType := (TChar).
Abbreviation TThostFtdcStatModeType := (TChar).
Abbreviation TThostFtdcParkedOrderStatusType := (TChar).
Abbreviation TThostFtdcParkedOrderIDType := (TChars 13).
Abbreviation TThostFtdcParkedOrderActionIDType := (TChars 13).
Abbreviation TThostFtdcVirDealStatusType := (TChar).
Abbreviation TThostFtdcOrgSystemIDType := (TChar).
Abbreviation TThostFtdcVirTradeStatusType := (TChar).
Abbreviation TThostFtdcVirBankAccTypeType := (TChar).
Abbreviation TThostFtdcVirementStatusType := (TChar).
Abbreviation TThostFtdcVirementAvailAbilityType := (TChar).
Abbreviation TThostFtdcVirementTradeCodeType := (TChar).
Abbreviation TThostFtdcPhotoTypeNameType := (TChars 41).
Abbreviation TThostFtdcPhotoTypeIDType := (TChars 5).
Abbreviation TThostFtdcPhotoNameType := (TChars 161).
Abbreviation TThostFtdcTopicIDType := (TInt).
Abbreviation TThostFtdcReportTypeIDType := (TChars 3).
Abbreviation TThostFtdcCharacterIDType := (TChars 5).
Abbreviation TThostFtdcAMLParamIDType := (TChars 21).
Abbreviation TThostFtdcAMLInvestorTypeType := (TChars 3).
Abbreviation TThostFtdcAMLIdCardTypeType := (TChars 3).
Abbreviation TThostFtdcAMLTradeDirectType := (TChars 3).
Abbreviation TThostFtdcAMLTradeModelType := (TChars 3).
Abbreviation TThostFtdcAMLOpParamValueType := (TDouble).
Abbreviation TThostFtdcAMLCustomerCardTypeType := (TChars 81).
Abbreviation TThostFtdcAMLInstitutionNameType := (TChars 65).
Abbreviation TThostFtdcAMLDistrictIDType := (TChars 7).
Abbreviation TThostFtdcAMLRelationShipType := (TChars 3).
Abbreviation TThostFtdcAMLInstitutionTypeType := (TChars 3).
Abbreviation TThostFtdcAMLInstitutionIDType := (TChars 13).
Abbreviation TThostFtdcAMLAccountTypeType := (TChars 5).
Abbreviation TThostFtdcAMLTradingTypeType := (TChars 7).
Abbreviation TThostFtdcAMLTransactClassType := (TChars 7).
Abbreviation TThostFtdcAMLCapitalIOType := (TChars 3).
Abbreviation TThostFtdcAMLSiteType := (TChars 10).
Abbreviation TThostFtdcAMLCapitalPurposeType := (TChars 129).
Abbreviation TThostFtdcAMLReportTypeType := (TChars 2).
Abbreviation TThostFtdcAMLSerialNoType := (TChars 5).
Abbreviation TThostFtdcAMLStatusType := (TChars 2).
Abbreviation TThostFtdcAMLGenStatusType := (TChar).
Abbreviation TThostFtdcAMLSeqCodeType := (TChars 65).
Abbreviation TThostFtdcAMLFileNameType := (TChars 257).
Abbreviation TThostFtdcAMLMoneyType := (TDouble).
Abbreviation TThostFtdcAMLFileAmountType := (TInt).
Abbreviation TThostFtdcCFMMCKeyType := (TChars 21).
Abbreviation TThostFtdcCFMMCTokenType := (TChars 21).
Abbreviation TThostFtdcCFMMCKeyKindType := (TChar).
Abbreviation TThostFtdcAMLReportNameType := (TChars 81).
Abbreviation TThostFtdcIndividualNameType := (TChars 51).
Abbreviation TThostFtdcCurrencyIDType := (TChars 4).
Abbreviation TThostFtdcCustNumberType := (TChars 36).
Abbreviation TThostFtdcOrganCodeType := (TChars 36).
Abbreviation TThostFtdcOrganNameType := (TChars 71).
Abbreviation TThostFtdcSuperOrganCodeType := (TChars 12).
Abbreviation TThostFtdcSubBranchIDType := (TChars 31).
Abbreviation TThostFtdcSubBranchNameType := (TChars 71).
Abbreviation TThostFtdcBranchNetCodeType := (TChars 31).
Abbreviation TThostFtdcBranchNetNameType := (TChars 71).
Abbreviation TThostFtdcOrganFlagType := (TChars 2).
Abbreviation TThostFtdcBankCodingForFutureType := (TChars 33).
Abbreviation TThostFtdcBankReturnCodeType := (TChars 7).
Abbreviation TThostFtdcPlateReturnCodeType := (TChars 5).
Abbreviation TThostFtdcBankSubBranchIDType := (TChars 31).
Abbreviation TThostFtdcFutureBranchIDType := (TChars 31).
Abbreviation TThostFtdcReturnCodeType := (TChars 7).
Abbreviation TThostFtdcOperatorCodeType := (TChars 17).
Abbreviation TThostFtdcClearDepIDType := (TChars 6).
Abbreviation TThostFtdcClearBrchIDType := (TChars 6).
Abbreviation TThostFtdcClearNameType := (TChars 71).
Abbreviation TThostFtdcBankAccountNameType := (TChars 71).
Abbreviation TThostFtdcInvDepIDType := (TChars 6).
Abbreviation TThostFtdcInvBrchIDType := (TChars 6).
Abbreviation TThostFtdcMessageFormatVersionType := (TChars 36).
Abbreviation TThostFtdcDigestType := (TChars 36).
Abbreviation TThostFtdcAuthenticDataType := (TChars 129).
Abbreviation TThostFtdcPasswordKeyType := (TChars 129).
Abbreviation TThostFtdcFutureAccountNameType := (TChars 129).
Abbreviation TThostFtdcMobilePhoneType := (TChars 21).
Abbreviation TThostFtdcFutureMainKeyType := (TChars 129).
Abbreviation TThostFtdcFutureWorkKeyType := (TChars 129).
Abbreviation TThostFtdcFutureTransKeyType := (TChars 129).
Abbreviation TThostFtdcBankMainKeyType := (TChars 129).
Abbreviation TThostFtdcBankWorkKeyType := (TChars 129).
Abbreviation TThostFtdcBankTransKeyType := (TChars 129).
Abbreviation TThostFtdcBankServerDescriptionType := (TChars 129).
Abbreviation TThostFtdcAddInfoType := (TChars 129).
Abbreviation TThostFtdcDescrInfoForReturnCodeType := (TChars 129).
Abbreviation TThostFtdcCountryCodeType := (TChars 21).
Abbreviation TThostFtdcSerialType := (TInt).
Abbreviation TThostFtdcPlateSerialType := (TInt).
Abbreviation TThostFtdcBankSerialType := (TChars 13).
Abbreviation TThostFtdcCorrectSerialType := (TInt).
Abbreviation TThostFtdcFutureSerialType := (TInt).
Abbreviation TThostFtdcApplicationIDType := (TInt).
Abbreviation TThostFtdcBankProxyIDType := (TInt).
Abbreviation TThostFtdcFBTCoreIDType := (TInt).
Abbreviation TThostFtdcServerPortType := (TInt).
Abbreviation TThostFtdcRepealedTimesType := (TInt).
Abbreviation TThostFtdcRepealTimeIntervalType := (TInt).
Abbreviation TThostFtdcTotalTimesType := (TInt).
Abbreviation TThostFtdcFBTRequestIDType := (TInt).
Abbreviation TThostFtdcTIDType := (TInt).
Abbreviation TThostFtdcTradeAmountType := (TDouble).
Abbreviation TThostFtdcCustFeeType := (TDouble).
Abbreviation TThostFtdcFutureFeeType := (TDouble).
Abbreviation TThostFtdcSingleMaxAmtType := (TDouble).
Abbreviation TThostFtdcSingleMinAmtType := (TDouble).
Abbreviation TThostFtdcTotalAmtType := (TDouble).
Abbreviation TThostFtdcCertificationTypeType := (TChar).
Abbreviation TThostFtdcFileBusinessCodeType := (TChar).
Abbreviation TThostFtdcCashExchangeCodeType := (TChar).
Abbreviation TThostFtdcYesNoIndicatorType := (TChar).
Abbreviation TThostFtdcBanlanceTypeType := (TChar).
Abbreviation TThostFtdcGenderType := (TChar).
Abbreviation TThostFtdcFeePayFlagType := (TChar).
Abbreviation TThostFtdcPassWordKeyTypeType := (TChar).
Abbreviation TThostFtdcFBTPassWordTypeType := (TChar).
Abbreviation TThostFtdcFBTEncryModeType := (TChar).
Abbreviation TThostFtdcBankRepealFlagType := (TChar).
Abbreviation TThostFtdcBrokerRepealFlagType := (TChar).
Abbreviation TThostFtdcInstitutionTypeType := (TChar).
Abbreviation TThostFtdcLastFragmentType := (TChar).
Abbreviation TThostFtdcBankAccStatusType := (TChar).
Abbreviation TThostFtdcMoneyAccountStatusType := (TChar).
Abbreviation TThostFtdcManageStatusType := (TChar).
Abbreviation TThostFtdcSystemTypeType := (TChar).
Abbreviation TThostFtdcTxnEndFlagType := (TChar).
Abbreviation TThostFtdcProcessStatusType := (TChar).
Abbreviation TThostFtdcCustTypeType := (TChar).
Abbreviation TThostFtdcFBTTransferDirectionType := (TChar).
Abbreviation TThostFtdcOpenOrDestroyType := (TChar).
Abbreviation TThostFtdcAvailabilityFlagType := (TChar).
Abbreviation TThostFtdcOrganTypeType := (TChar).
Abbreviation TThostFtdcOrganLevelType := (TChar).
Abbreviation TThostFtdcProtocalIDType := (TChar).
Abbreviation TThostFtdcConnectModeType := (TChar).
Abbreviation TThostFtdcSyncModeType := (TChar).
Abbreviation TThostFtdcBankAccTypeType := (TChar).
Abbreviation TThostFtdcFutureAccTypeType := (TChar).
Abbreviation TThostFtdcOrganStatusType := (TChar).
Abbreviation TThostFtdcCCBFeeModeType := (TChar).
Abbreviation TThostFtdcCommApiTypeType := (TChar).
Abbreviation TThostFtdcServiceIDType := (TInt).
Abbreviation TThostFtdcServiceLineNoType := (TInt).
Abbreviation TThostFtdcServiceNameType := (TChars 61).
Abbreviation TThostFtdcLinkStatusType := (TChar).
Abbreviation TThostFtdcCommApiPointerType := (TInt).
Abbreviation TThostFtdcPwdFlagType := (TChar).
Abbreviation TThostFtdcSecuAccTypeType := (TChar).
Abbreviation TThostFtdcTransferStatusType := (TChar).
Abbreviation TThostFtdcSponsorTypeType := (TChar).
Abbreviation TThostFtdcReqRspTypeType := (TChar).
Abbreviation TThostFtdcFBTUserEventTypeType := (TChar).
Abbreviation TThostFtdcBankIDByBankType := (TChars 21).
Abbreviation TThostFtdcBankOperNoType := (TChars 4).
Abbreviation TThostFtdcBankCustNoType := (TChars 21).
Abbreviation TThostFtdcDBOPSeqNoType := (TInt).
Abbreviation TThostFtdcTableNameType := (TChars 61).
Abbreviation TThostFtdcPKNameType := (TChars 201).
Abbreviation TThostFtdcPKValueType := (TChars 501).
Abbreviation TThostFtdcDBOperationType := (TChar).
Abbreviation TThostFtdcSyncFlagType := (TChar).
Abbreviation TThostFtdcTargetIDType := (TChars 4).
Abbreviation TThostFtdcSyncTypeType := (TChar).
Abbreviation TThostFtdcFBETimeType := (TChars 7).
Abbreviation TThostFtdcFBEBankNoType := (TChars 13).
Abbreviation TThostFtdcFBECertNoType := (TChars 13).
Abbreviation TThostFtdcExDirectionType := (TChar).
Abbreviation TThostFtdcFBEBankAccountType := (TChars 33).
Abbreviation TThostFtdcFBEBankAccountNameType := (TChars 61).
Abbreviation TThostFtdcFBEAmtType := (TDouble).
Abbreviation TThostFtdcFBEBusinessTypeType := (TChars 3).
Abbreviation TThostFtdcFBEPostScriptType := (TChars 61).
Abbreviation TThostFtdcFBERemarkType := (TChars 71).
Abbreviation TThostFtdcExRateType := (TDouble).
Abbreviation TThostFtdcFBEResultFlagType := (TChar).
Abbreviation TThostFtdcFBERtnMsgType := (TChars 61).
Abbreviation TThostFtdcFBEExtendMsgType := (TChars 61).
Abbreviation TThostFtdcFBEBusinessSerialType := (TChars 31).
Abbreviation TThostFtdcFBESystemSerialType := (TChars 21).
Abbreviation TThostFtdcFBETotalExCntType := (TInt).
Abbreviation TThostFtdcFBEExchStatusType := (TChar).
Abbreviation TThostFtdcFBEFileFlagType := (TChar).
Abbreviation TThostFtdcFBEAlreadyTradeType := (TChar).
Abbreviation TThostFtdcFBEOpenBankType := (TChars 61).
Abbreviation TThostFtdcFBEUserEventTypeType := (TChar).
Abbreviation TThostFtdcFBEFileNameType := (TChars 21).
Abbreviation TThostFtdcFBEBatchSerialType := (TChars 21).
Abbreviation TThostFtdcFBEReqFlagType := (TChar).
Abbreviation TThostFtdcNotifyClassType := (TChar).
Abbreviation TThostFtdcRiskNofityInfoType := (TChars 257).
Abbreviation TThostFtdcForceCloseSceneIdType := (TChars 24).
Abbreviation TThostFtdcForceCloseTypeType := (TChar).
Abbreviation TThostFtdcInstrumentIDsType := (TChars 101).
Abbreviation TThostFtdcRiskNotifyMethodType := (TChar).
Abbreviation TThostFtdcRiskNotifyStatusType := (TChar).
Abbreviation TThostFtdcRiskUserEventType := (TChar).
Abbreviation TThostFtdcParamIDType := (TInt).
Abbreviation TThostFtdcParamNameType := (TChars 41).
Abbreviation TThostFtdcParamValueType := (TChars 41).
Abbreviation TThostFtdcConditionalOrderSortTypeType := (TChar).
Abbreviation TThostFtdcSendTypeType := (TChar).
Abbreviation TThostFtdcClientIDStatusType := (TChar).
Abbreviation TThostFtdcIndustryIDType := (TChars 17).
Abbreviation TThostFtdcQuestionIDType := (TChars 5).
Abbreviation TThostFtdcQuestionContentType := (TChars 41).
Abbreviation TThostFtdcOptionIDType := (TChars 13).
Abbreviation TThostFtdcOptionContentType := (TChars 61).
Abbreviation TThostFtdcQuestionTypeType := (TChar).
Abbreviation TThostFtdcProcessIDType := (TChars 33).
Abbreviation TThostFtdcSeqNoType := (TInt).
Abbreviation TThostFtdcUOAProcessStatusType := (TChars 3).
Abbreviation TThostFtdcProcessTypeType := (TChars 3).
Abbreviation TThostFtdcBusinessTypeType := (TChar).
Abbreviation TThostFtdcCfmmcReturnCodeType := (TChar).
Abbreviation TThostFtdcExReturnCodeType := (TInt).
Abbreviation TThostFtdcClientTypeType := (TChar).
Abbreviation TThostFtdcExchangeIDTypeType := (TChar).
Abbreviation TThostFtdcExClientIDTypeType := (TChar).
Abbreviation TThostFtdcClientClassifyType := (TChars 11).
Abbreviation TThostFtdcUOAOrganTypeType := (TChars 11).
Abbreviation TThostFtdcUOACountryCodeType := (TChars 11).
Abbreviation TThostFtdcAreaCodeType := (TChars 11).
Abbreviation TThostFtdcFuturesIDType := (TChars 21).
Abbreviation TThostFtdcCffmcDateType := (TChars 11).
Abbreviation TThostFtdcCffmcTimeType := (TChars 11).
Abbreviation TThostFtdcNocIDType := (TChars 21).
Abbreviation TThostFtdcUpdateFlagType := (TChar).
Abbreviation TThostFtdcApplyOperateIDType := (TChar).
Abbreviation TThostFtdcApplyStatusIDType := (TChar).
Abbreviation TThostFtdcSendMethodType := (TChar).
Abbreviation TThostFtdcEventTypeType := (TChars 33).
Abbreviation TThostFtdcEventModeType := (TChar).
Abbreviation TThostFtdcUOAAutoSendType := (TChar).
Abbreviation TThostFtdcQueryDepthType := (TInt).
Abbreviation TThostFtdcDataCenterIDType := (TInt).
Abbreviation TThostFtdcFlowIDType := (TChar).
Abbreviation TThostFtdcCheckLevelType := (TChar).
Abbreviation TThostFtdcCheckNoType := (TInt).
Abbreviation TThostFtdcCheckStatusType := (TChar).
Abbreviation TThostFtdcUsedStatusType := (TChar).
Abbreviation TThostFtdcRateTemplateNameType := (TChars 61).
Abbreviation TThostFtdcPropertyStringType := (TChars 2049).
Abbreviation TThostFtdcBankAcountOriginType := (TChar).
Abbreviation TThostFtdcMonthBillTradeSumType := (TChar).
Abbreviation TThostFtdcFBTTradeCodeEnumType := (TChar).
Abbreviation TThostFtdcRateTemplateIDType := (TChars 9).
Abbreviation TThostFtdcRiskRateType := (TChars 21).
Abbreviation TThostFtdcTimestampType := (TInt).
Abbreviation TThostFtdcInvestorIDRuleNameType := (TChars 61).
Abbreviation TThostFtdcInvestorIDRuleExprType := (TChars 513).
Abbreviation TThostFtdcLastDriftType := (TInt).
Abbreviation TThostFtdcLastSuccessType := (TInt).
Abbreviation TThostFtdcAuthKeyType := (TChars 41).
Abbreviation TThostFtdcSerialNumberType := (TChars 17).
Abbreviation TThostFtdcOTPTypeType := (TChar).
Abbreviation TThostFtdcOTPVendorsIDType := (TChars 2).
Abbreviation TThostFtdcOTPVendorsNameType := (TChars 61).
Abbreviation TThostFtdcOTPStatusType := (TChar).
Abbreviation TThostFtdcBrokerUserTypeType := (TChar).
Abbreviation TThostFtdcFutureTypeType := (TChar).
Abbreviation TThostFtdcFundEventTypeType := (TChar).
Abbreviation TThostFtdcAccountSourceTypeType := (TChar).
Abbreviation TThostFtdcCodeSourceTypeType := (TChar).
Abbreviation TThostFtdcUserRangeType := (TChar).
Abbreviation TThostFtdcTimeSpanType := (TChars 9).
Abbreviation TThostFtdcImportSequenceIDType := (TChars 17).
Abbreviation TThostFtdcByGroupType := (TChar).
Abbreviation TThostFtdcTradeSumStatModeType := (TChar).
Abbreviation TThostFtdcComTypeType := (TInt).
Abbreviation TThostFtdcUserProductIDType := (TChars 33).
Abbreviation TThostFtdcUserProductNameType := (TChars 65).
Abbreviation TThostFtdcUserProductMemoType := (TChars 129).
Abbreviation TThostFtdcCSRCCancelFlagType := (TChars 2).
Abbreviation TThostFtdcCSRCDateType := (TChars 11).
Abbreviation TThostFtdcCSRCInvestorNameType := (TChars 201).
Abbreviation TThostFtdcCSRCOpenInvestorNameType := (TChars 101).
Abbreviation TThostFtdcCSRCInvestorIDType := (TChars 13).
Abbreviation TThostFtdcCSRCIdentifiedCardNoType := (TChars 51).
Abbreviation TThostFtdcCSRCClientIDType := (TChars 11).
Abbreviation TThostFtdcCSRCBankFlagType := (TChars 3).
Abbreviation TThostFtdcCSRCBankAccountType := (TChars 23).
Abbreviation TThostFtdcCSRCOpenNameType := (TChars 401).
Abbreviation TThostFtdcCSRCMemoType := (TChars 101).
Abbreviation TThostFtdcCSRCTimeType := (TChars 11).
Abbreviation TThostFtdcCSRCTradeIDType := (TChars 21).
Abbreviation TThostFtdcCSRCExchangeInstIDType := (TChars 31).
Abbreviation TThostFtdcCSRCMortgageNameType := (TChars 7).
Abbreviation TThostFtdcCSRCReasonType := (TChars 3).
Abbreviation TThostFtdcIsSettlementType := (TChars 2).
Abbreviation TThostFtdcCSRCMoneyType := (TDouble).
Abbreviation TThostFtdcCSRCPriceType := (TDouble).
Abbreviation TThostFtdcCSRCOptionsTypeType := (TChars 2).
Abbreviation TThostFtdcCSRCStrikePriceType := (TDouble).
Abbreviation TThostFtdcCSRCTargetProductIDType := (TChars 3).
Abbreviation TThostFtdcCSRCTargetInstrIDType := (TChars 31).
Abbreviation TThostFtdcCommModelNameType := (TChars 161).
Abbreviation TThostFtdcCommModelMemoType := (TChars 1025).
Abbreviation TThostFtdcExprSetModeType := (TChar).
Abbreviation TThostFtdcRateInvestorRangeType := (TChar).
Abbreviation TThostFtdcAgentBrokerIDType := (TChars 13).
Abbreviation TThostFtdcDRIdentityIDType := (TInt).
Abbreviation TThostFtdcDRIdentityNameType := (TChars 65).
Abbreviation TThostFtdcDBLinkIDType := (TChars 31).
Abbreviation TThostFtdcSyncDataStatusType := (TChar).
Abbreviation TThostFtdcTradeSourceType := (TChar).
Abbreviation TThostFtdcFlexStatModeType := (TChar).
Abbreviation TThostFtdcByInvestorRangeType := (TChar).
Abbreviation TThostFtdcSRiskRateType := (TChars 21).
Abbreviation TThostFtdcSequenceNo12Type := (TInt).
Abbreviation TThostFtdcPropertyInvestorRangeType := (TChar).
Abbreviation TThostFtdcFileStatusType := (TChar).
Abbreviation TThostFtdcFileGenStyleType := (TChar).
Abbreviation TThostFtdcSysOperModeType := (TChar).
Abbreviation TThostFtdcSysOperTypeType := (TChar).
Abbreviation TThostFtdcCSRCDataQueyTypeType := (TChar).
Abbreviation TThostFtdcFreezeStatusType := (TChar).
Abbreviation TThostFtdcStandardStatusType := (TChar).
Abbreviation TThostFtdcCSRCFreezeStatusType := (TChars 2).
Abbreviation TThostFtdcRightParamTypeType := (TChar).
Abbreviation TThostFtdcRightTemplateIDType := (TChars 9).
Abbreviation TThostFtdcRightTemplateNameType := (TChars 61).
Abbreviation TThostFtdcDataStatusType := (TChar).
Abbreviation TThostFtdcAMLCheckStatusType := (TChar).
Abbreviation TThostFtdcAmlDateTypeType := (TChar).
Abbreviation TThostFtdcAmlCheckLevelType := (TChar).
Abbreviation TThostFtdcAmlCheckFlowType := (TChars 2).
Abbreviation TThostFtdcDataTypeType := (TChars 129).
Abbreviation TThostFtdcExportFileTypeType := (TChar).
Abbreviation TThostFtdcSettleManagerTypeType := (TChar).
Abbreviation TThostFtdcSettleManagerIDType := (TChars 33).
Abbreviation TThostFtdcSettleManagerNameType := (TChars 129).
Abbreviation TThostFtdcSettleManagerLevelType := (TChar).
Abbreviation TThostFtdcSettleManagerGroupType := (TChar).
Abbreviation TThostFtdcCheckResultMemoType := (TChars 1025).
Abbreviation TThostFtdcFunctionUrlType := (TChars 1025).
Abbreviation TThostFtdcAuthInfoType := (TChars 129).
Abbreviation TThostFtdcAuthCodeType := (TChars 17).
Abbreviation TThostFtdcLimitUseTypeType := (TChar).
Abbreviation TThostFtdcDataResourceType := (TChar).
Abbreviation TThostFtdcMarginTypeType := (TChar).
Abbreviation TThostFtdcActiveTypeType := (TChar).
Abbreviation TThostFtdcMarginRateTypeType := (TChar).
Abbreviation TThostFtdcBackUpStatusType := (TChar).
Abbreviation TThostFtdcInitSettlementType := (TChar).
Abbreviation TThostFtdcReportStatusType := (TChar).
Abbreviation TThostFtdcSaveStatusType := (TChar).
Abbreviation TThostFtdcSettArchiveStatusType := (TChar).
Abbreviation TThostFtdcCTPTypeType := (TChar).
Abbreviation TThostFtdcToolIDType := (TChars 9).
Abbreviation TThostFtdcToolNameType := (TChars 81).
Abbreviation TThostFtdcCloseDealTypeType := (TChar).
Abbreviation TThostFtdcMortgageFundUseRangeType := (TChar).
Abbreviation TThostFtdcCurrencyUnitType := (TDouble).
Abbreviation TThostFtdcExchangeRateType := (TDouble).
Abbreviation TThostFtdcSpecProductTypeType := (TChar).
Abbreviation TThostFtdcFundMortgageTypeType := (TChar).
Abbreviation TThostFtdcAccountSettlementParamIDType := (TChar).
Abbreviation TThostFtdcCurrencyNameType := (TChars 31).
Abbreviation TThostFtdcCurrencySignType := (TChars 4).
Abbreviation TThostFtdcFundMortDirectionType := (TChar).
Abbreviation TThostFtdcBusinessClassType := (TChar).
Abbreviation TThostFtdcSwapSourceTypeType := (TChar).
Abbreviation TThostFtdcCurrExDirectionType := (TChar).
Abbreviation TThostFtdcCurrencySwapStatusType := (TChar).
Abbreviation TThostFtdcCurrExchCertNoType := (TChars 13).
Abbreviation TThostFtdcBatchSerialNoType := (TChars 21).
Abbreviation TThostFtdcReqFlagType := (TChar).
Abbreviation TThostFtdcResFlagType := (TChar).
Abbreviation TThostFtdcPageControlType := (TChars 2).
Abbreviation TThostFtdcRecordCountType := (TInt).
Abbreviation TThostFtdcCurrencySwapMemoType := (TChars 101).
Abbreviation TThostFtdcExStatusType := (TChar).
Abbreviation TThostFtdcClientRegionType := (TChar).
Abbreviation TThostFtdcWorkPlaceType := (TChars 101).
Abbreviation TThostFtdcBusinessPeriodType := (TChars 21).
Abbreviation TThostFtdcWebSiteType := (TChars 101).
Abbreviation TThostFtdcUOAIdCardTypeType := (TChars 3).
Abbreviation TThostFtdcClientModeType := (TChars 3).
Abbreviation TThostFtdcInvestorFullNameType := (TChars 101).
Abbreviation TThostFtdcUOABrokerIDType := (TChars 11).
Abbreviation TThostFtdcUOAZipCodeType := (TChars 11).
Abbreviation TThostFtdcUOAEMailType := (TChars 101).
Abbreviation TThostFtdcOldCityType := (TChars 41).
Abbreviation TThostFtdcCorporateIdentifiedCardNoType := (TChars 101).
Abbreviation TThostFtdcHasBoardType := (TChar).
Abbreviation TThostFtdcStartModeType := (TChar).
Abbreviation TThostFtdcTemplateTypeType := (TChar).
Abbreviation TThostFtdcLoginModeType := (TChar).
Abbreviation TThostFtdcPromptTypeType := (TChar).
Abbreviation TThostFtdcLedgerManageIDType := (TChars 51).
Abbreviation TThostFtdcInvestVarietyType := (TChars 101).
Abbreviation TThostFtdcBankAccountTypeType := (TChars 2).
Abbreviation TThostFtdcLedgerManageBankType := (TChars 101).
Abbreviation TThostFtdcCffexDepartmentNameType := (TChars 101).
Abbreviation TThostFtdcCffexDepartmentCodeType := (TChars 9).
Abbreviation TThostFtdcHasTrusteeType := (TChar).
Abbreviation TThostFtdcCSRCMemo1Type := (TChars 41).
Abbreviation TThostFtdcAssetmgrCFullNameType := (TChars 101).
Abbreviation TThostFtdcAssetmgrApprovalNOType := (TChars 51).
Abbreviation TThostFtdcAssetmgrMgrNameType := (TChars 401).
Abbreviation TThostFtdcAmTypeType := (TChar).
Abbreviation TThostFtdcCSRCAmTypeType := (TChars 5).
Abbreviation TThostFtdcCSRCFundIOTypeType := (TChar).
Abbreviation TThostFtdcCusAccountTypeType := (TChar).
Abbreviation TThostFtdcCSRCNationalType := (TChars 4).
Abbreviation TThostFtdcCSRCSecAgentIDType := (TChars 11).
Abbreviation TThostFtdcLanguageTypeType := (TChar).
Abbreviation TThostFtdcAmAccountType := (TChars 23).
Abbreviation TThostFtdcAssetmgrClientTypeType := (TChar).
Abbreviation TThostFtdcAssetmgrTypeType := (TChar).
Abbreviation TThostFtdcUOMType := (TChars 11).
Abbreviation TThostFtdcSHFEInstLifePhaseType := (TChars 3).
Abbreviation TThostFtdcSHFEProductClassType := (TChars 11).
Abbreviation TThostFtdcPriceDecimalType := (TChars 2).
Abbreviation TThostFtdcInTheMoneyFlagType := (TChars 2).
Abbreviation TThostFtdcCheckInstrTypeType := (TChar).
Abbreviation TThostFtdcDeliveryTypeType := (TChar).
Abbreviation TThostFtdcBigMoneyType := (TDouble).
Abbreviation TThostFtdcMaxMarginSideAlgorithmType := (TChar).
Abbreviation TThostFtdcDAClientTypeType := (TChar).
Abbreviation TThostFtdcCombinInstrIDType := (TChars 61).
Abbreviation TThostFtdcCombinSettlePriceType := (TChars 61).
Abbreviation TThostFtdcDCEPriorityType := (TInt).
Abbreviation TThostFtdcTradeGroupIDType := (TInt).
Abbreviation TThostFtdcIsCheckPrepaType := (TInt).
Abbreviation TThostFtdcUOAAssetmgrTypeType := (TChar).
Abbreviation TThostFtdcDirectionEnType := (TChar).
Abbreviation TThostFtdcOffsetFlagEnType := (TChar).
Abbreviation TThostFtdcHedgeFlagEnType := (TChar).
Abbreviation TThostFtdcFundIOTypeEnType := (TChar).
Abbreviation TThostFtdcFundTypeEnType := (TChar).
Abbreviation TThostFtdcFundDirectionEnType := (TChar).
Abbreviation TThostFtdcFundMortDirectionEnType := (TChar).
Abbreviation TThostFtdcSwapBusinessTypeType := (TChars 3).
Abbreviation TThostFtdcOptionsTypeType := (TChar).
Abbreviation TThostFtdcStrikeModeType := (TChar).
Abbreviation TThostFtdcStrikeTypeType := (TChar).
Abbreviation TThostFtdcApplyTypeType := (TChar).
Abbreviation TThostFtdcGiveUpDataSourceType := (TChar).
Abbreviation TThostFtdcExecOrderSysIDType := (TChars 21).
Abbreviation TThostFtdcExecResultType := (TChar).
Abbreviation TThostFtdcStrikeSequenceType := (TInt).
Abbreviation TThostFtdcStrikeTimeType := (TChars 13).
Abbreviation TThostFtdcCombinationTypeType := (TChar).
Abbreviation TThostFtdcDceCombinationTypeType := (TChar).
Abbreviation TThostFtdcOptionRoyaltyPriceTypeType := (TChar).
Abbreviation TThostFtdcBalanceAlgorithmType := (TChar).
Abbreviation TThostFtdcActionTypeType := (TChar).
Abbreviation TThostFtdcForQuoteStatusType := (TChar).
Abbreviation TThostFtdcValueMethodType := (TChar).
Abbreviation TThostFtdcExecOrderPositionFlagType := (TChar).
Abbreviation TThostFtdcExecOrderCloseFlagType := (TChar).
Abbreviation TThostFtdcProductTypeType := (TChar).
Abbreviation TThostFtdcCZCEUploadFileNameType := (TChar).
Abbreviation TThostFtdcDCEUploadFileNameType := (TChar).
Abbreviation TThostFtdcSHFEUploadFileNameType := (TChar).
Abbreviation TThostFtdcCFFEXUploadFileNameType := (TChar).
Abbreviation TThostFtdcCombDirectionType := (TChar).
Abbreviation TThostFtdcStrikeOffsetTypeType := (TChar).
Abbreviation TThostFtdcReserveOpenAccStasType := (TChar).
Abbreviation TThostFtdcLoginRemarkType := (TChars 36).
Abbreviation TThostFtdcInvestUnitIDType := (TChars 17).
Abbreviation TThostFtdcBulletinIDType := (TInt).
Abbreviation TThostFtdcNewsTypeType := (TChars 3).
Abbreviation TThostFtdcNewsUrgencyType := (TChar).
Abbreviation TThostFtdcAbstractType := (TChars 81).
Abbreviation TThostFtdcComeFromType := (TChars 21).
Abbreviation TThostFtdcURLLinkType := (TChars 201).
Abbreviation TThostFtdcLongIndividualNameType := (TChars 161).
Abbreviation TThostFtdcLongFBEBankAccountNameType := (TChars 161).
Abbreviation TThostFtdcDateTimeType := (TChars 17).
Abbreviation TThostFtdcWeakPasswordSourceType := (TChar).
Abbreviation TThostFtdcRandomStringType := (TChars 17).
Abbreviation TThostFtdcOrderMemoType := (TChars 13).
Abbreviation TThostFtdcOptSelfCloseFlagType := (TChar).
Abbreviation TThostFtdcBizTypeType := (TChar).
Abbreviation TThostFtdcAppTypeType := (TChar).
Abbreviation TThostFtdcAppIDType := (TChars 33).
Abbreviation TThostFtdcSystemInfoLenType := (TInt).
Abbreviation TThostFtdcAdditionalInfoLenType := (TInt).
Abbreviation TThostFtdcClientSystemInfoType := (TChars 273).
Abbreviation TThostFtdcAdditionalInfoType := (TChars 261).
Abbreviation TThostFtdcBase64ClientSystemInfoType := (TChars 365).
Abbreviation TThostFtdcBase64AdditionalInfoType := (TChars 349).
Abbreviation TThostFtdcCurrentAuthMethodType := (TInt).
Abbreviation TThostFtdcCaptchaInfoLenType := (TInt).
Abbreviation TThostFtdcCaptchaInfoType := (TChars 2561).
Abbreviation TThostFtdcUserTextSeqType := (TInt).
Abbreviation TThostFtdcHandshakeDataType := (TChars 301).
Abbreviation TThostFtdcHandshakeDataLenType := (TInt).
Abbreviation TThostFtdcCryptoKeyVersionType := (TChars 31).
Abbreviation TThostFtdcRsaKeyVersionType := (TInt).
Abbreviation TThostFtdcSoftwareProviderIDType := (TChars 22).
Abbreviation TThostFtdcCollectTimeType := (TChars 21).
Abbreviation TThostFtdcQueryFreqType := (TInt).
Abbreviation TThostFtdcResponseValueType := (TChar).
Abbreviation TThostFtdcOTCTradeTypeType := (TChar).
Abbreviation TThostFtdcMatchTypeType := (TChar).
Abbreviation TThostFtdcOTCTraderIDType := (TChars 31).
Abbreviation TThostFtdcRiskValueType := (TDouble).
Abbreviation TThostFtdcIDBNameType := (TChars 100).
Abbreviation TThostFtdcDiscountRatioType := (TDouble).
Abbreviation TThostFtdcAuthTypeType := (TChar).
Abbreviation TThostFtdcClassTypeType := (TChar).
Abbreviation TThostFtdcTradingTypeType := (TChar).
Abbreviation TThostFtdcProductStatusType := (TChar).
Abbreviation TThostFtdcSyncDeltaStatusType := (TChar).
Abbreviation TThostFtdcActionDirectionType := (TChar).
Abbreviation TThostFtdcOrderCancelAlgType := (TChar).
Abbreviation TThostFtdcSyncDescriptionType := (TChars 257).
Abbreviation TThostFtdcCommonIntType := (TInt).
Abbreviation TThostFtdcSysVersionType := (TChars 41).
Abbreviation TThostFtdcOpenLimitControlLevelType := (TChar).
Abbreviation TThostFtdcOrderFreqControlLevelType := (TChar).
Abbreviation TThostFtdcEnumBoolType := (TChar).
Abbreviation TThostFtdcTimeRangeType := (TChar).
Abbreviation TThostFtdcDeltaType := (TDouble).
Abbreviation TThostFtdcSpreadIdType := (TInt).
Abbreviation TThostFtdcPortfolioType := (TChar).
Abbreviation TThostFtdcPortfolioDefIDType := (TInt).
Abbreviation TThostFtdcWithDrawParamIDType := (TChar).
Abbreviation TThostFtdcWithDrawParamValueType := (TChars 41).
Abbreviation TThostFtdcInvstTradingRightType := (TChar).
Abbreviation TThostFtdcThostFunctionCodeType := (TInt).
Abbreviation TThostFtdcSPMMDiscountRatioType := (TDouble).
Abbreviation TThostFtdcSPMMModelDescType := (TChars 129).
Abbreviation TThostFtdcSPMMModelIDType := (TChars 33).
Abbreviation TThostFtdcSPMMProductIDType := (TChars 41).
Abbreviation TThostFtdcInstMarginCalIDType := (TChar).
Abbreviation TThostFtdcProductIDType := (TChars 41).
Abbreviation TThostFtdcHedgeRateType := (TDouble).
Abbreviation TThostFtdcRCAMSPriorityType := (TInt).
Abbreviation TThostFtdcAdjustValueType := (TDouble).
Abbreviation TThostFtdcRCAMSCombinationTypeType := (TChar).
Abbreviation TThostFtdcRuleIdType := (TChars 51).
Abbreviation TThostFtdcPortfTypeType := (TChar).
Abbreviation TThostFtdcInstrumentClassType := (TChar).
Abbreviation TThostFtdcCommodityGroupIDType := (TInt).
Abbreviation TThostFtdcStdPositionType := (TDouble).
Abbreviation TThostFtdcProdChangeFlagType := (TChar).
Abbreviation TThostFtdcPwdRcdSrcType := (TChar).

(** The abbreviations are the types of the tables. *)
Lemma datatypes_named : map (fun d => (dt_name d, dt_type d)) datatypes =
  [ ("TThostFtdcTraderIDType", TThostFtdcTraderIDType);
    ("TThostFtdcInvestorIDType", TThostFtdcInvestorIDType);
    ("TThostFtdcBrokerIDType", TThostFtdcBrokerIDType);
    ("TThostFtdcBrokerAbbrType", TThostFtdcBrokerAbbrType);
    ("TThostFtdcBrokerNameType", TThostFtdcBrokerNameType);
    ("TThostFtdcOldExchangeInstIDType", TThostFtdcOldExchangeInstIDType);
    ("TThostFtdcExchangeInstIDType", TThostFtdcExchangeInstIDType);
    ("TThostFtdcOrderRefType", TThostFtdcOrderRefType);
    ("TThostFtdcParticipantIDType", TThostFtdcParticipantIDType);
    ("TThostFtdcUserIDType", TThostFtdcUserIDType);
    ("TThostFtdcPasswordType", TThostFtdcPasswordType);
    ("TThostFtdcClientIDType", TThostFtdcClientIDType);
    ("TThostFtdcInstrumentIDType", TThostFtdcInstrumentIDType);
    ("TThostFtdcOldInstrumentIDType", TThostFtdcOldInstrumentIDType);
    ("TThostFtdcInstrumentCodeType", TThostFtdcInstrumentCodeType);
    ("TThostFtdcMarketIDType", TThostFtdcMarketIDType);
    ("TThostFtdcProductNameType", TThostFtdcProductNameType);
    ("TThostFtdcExchangeIDType", TThostFtdcExchangeIDType);
    ("TThostFtdcExchangeNameType", TThostFtdcExchangeNameType);
    ("TThostFtdcExchangeAbbrType", TThostFtdcExchangeAbbrType);
    ("TThostFtdcExchangeFlagType", TThostFtdcExchangeFlagType);
    ("TThostFtdcMacAddressType", TThostFtdcMacAddressType);
    ("TThostFtdcSystemIDType", TThostFtdcSystemIDType);
    ("TThostFtdcClientLoginRemarkType", TThostFtdcClientLoginRemarkType);
    ("TThostFtdcExchangePropertyType", TThostFtdcExchangePropertyType);
    ("TThostFtdcDateType", TThostFtdcDateType);
    ("TThostFtdcTimeType", TThostFtdcTimeType);
    ("TThostFtdcLongTimeType", TThostFtdcLongTimeType);
    ("TThostFtdcInstrumentNameType", TThostFtdcInstrumentNameType);
    ("TThostFtdcSettlementGroupIDType", TThostFtdcSettlementGroupIDType);
    ("TThostFtdcOrderSysIDType", TThostFtdcOrderSysIDType);
    ("TThostFtdcTradeIDType", TThostFtdcTradeIDType);
    ("TThostFtdcCommandTypeType", TThostFtdcCommandTypeType);
    ("TThostFtdcOldIPAddressType", TThostFtdcOldIPAddressType);
    ("TThostFtdcIPAddressType", TThostFtdcIPAddressType);
    ("TThostFtdcIPPortType", TThostFtdcIPPortType);
    ("TThostFtdcProductInfoType", TThostFtdcProductInfoType);
    ("TThostFtdcProtocolInfoType", TThostFtdcProtocolInfoType);
    ("TThostFtdcBusinessUnitType", TThostFtdcBusinessUnitType);
    ("TThostFtdcDepositSeqNoType", TThostFtdcDepositSeqNoType);
    ("TThostFtdcIdentifiedCardNoType", TThostFtdcIdentifiedCardNoType);
    ("TThostFtdcIdCardTypeType", TThostFtdcIdCardTypeType);
    ("TThostFtdcOrderLocalIDType", TThostFtdcOrderLocalIDType);
    ("TThostFtdcUserNameType", TThostFtdcUserNameType);
    ("TThostFtdcPartyNameType", TThostFtdcPartyNameType);
    ("TThostFtdcErrorMsgType", TThostFtdcErrorMsgType);
    ("TThostFtdcFieldNameType", TThostFtdcFieldNameType);
    ("TThostFtdcFieldContentType", TThostFtdcFieldContentType);
    ("TThostFtdcSystemNameType", TThostFtdcSystemNameType);
    ("TThostFtdcContentType", TThostFtdcContentType);
    ("TThostFtdcInvestorRangeType", TThostFtdcInvestorRangeType);
    ("TThostFtdcDepartmentRangeType", TThostFtdcDepartmentRangeType);
    ("TThostFtdcDataSyncStatusType", TThostFtdcDataSyncStatusType);
    ("TThostFtdcBrokerDataSyncStatusType", TThostFtdcBrokerDataSyncStatusType);
    ("TThostFtdcExchangeConnectStatusType", TThostFtdcExchangeConnectStatusType);
    ("TThostFtdcTraderConnectStatusType", TThostFtdcTraderConnectStatusType);
    ("TThostFtdcFunctionCodeType", TThostFtdcFunctionCodeType);
    ("TThostFtdcBrokerFunctionCodeType", TThostFtdcBrokerFunctionCodeType);
    ("TThostFtdcOrderActionStatusType", TThostFtdcOrderActionStatusType);
    ("TThostFtdcOrderStatusType", TThostFtdcOrderStatusType);
    ("TThostFtdcOrderSubmitStatusType", TThostFtdcOrderSubmitStatusType);
    ("TThostFtdcPositionDateType", TThostFtdcPositionDateType);
    ("TThostFtdcPositionDateTypeType", TThostFtdcPositionDateTypeType);
    ("TThostFtdcTradingRoleType", TThostFtdcTradingRoleType);
    ("TThostFtdcProductClassType", TThostFtdcProductClassType);
    ("TThostFtdcAPIProductClassType", TThostFtdcAPIProductClassType);
    ("TThostFtdcInstLifePhaseType", TThostFtdcInstLifePhaseType);
    ("TThostFtdcDirectionType", TThostFtdcDirectionType);
    ("TThostFtdcPositionTypeType", TThostFtdcPositionTypeType);
    ("TThostFtdcPosiDirectionType", TThostFtdcPosiDirectionType);
    ("TThostFtdcSysSettlementStatusType", TThostFtdcSysSettlementStatusType);
    ("TThostFtdcRatioAttrType", TThostFtdcRatioAttrType);
    ("TThostFtdcHedgeFlagType", TThostFtdcHedgeFlagType);
    ("TThostFtdcBillHedgeFlagType", TThostFtdcBillHedgeFlagType);
    ("TThostFtdcClientIDTypeType", TThostFtdcClientIDTypeType);
    ("TThostFtdcOrderPriceTypeType", TThostFtdcOrderPriceTypeType);
    ("TThostFtdcOffsetFlagType", TThostFtdcOffsetFlagType);
    ("TThostFtdcForceCloseReasonType", TThostFtdcForceCloseReasonType);
    ("TThostFtdcOrderTypeType", TThostFtdcOrderTypeType);
    ("TThostFtdcTimeConditionType", TThostFtdcTimeConditionType);
    ("TThostFtdcVolumeConditionType", TThostFtdcVolumeConditionType);
    ("TThostFtdcContingentConditionType", TThostFtdcContingentConditionType);
    ("TThostFtdcActionFlagType", TThostFtdcActionFlagType);
    ("TThostFtdcTradingRightType", TThostFtdcTradingRightType);
    ("TThostFtdcOrderSourceType", TThostFtdcOrderSourceType);
    ("TThostFtdcTradeTypeType", TThostFtdcTradeTypeType);
    ("TThostFtdcSpecPosiTypeType", TThostFtdcSpecPosiTypeType);
    ("TThostFtdcPriceSourceType", TThostFtdcPriceSourceType);
    ("TThostFtdcInstrumentStatusType", TThostFtdcInstrumentStatusType);
    ("TThostFtdcInstStatusEnterReasonType", TThostFtdcInstStatusEnterReasonType);
    ("TThostFtdcOrderActionRefType", TThostFtdcOrderActionRefType);
    ("TThostFtdcInstallCountType", TThostFtdcInstallCountType);
    ("TThostFtdcInstallIDType", TThostFtdcInstallIDType);
    ("TThostFtdcErrorIDType", TThostFtdcErrorIDType);
    ("TThostFtdcSettlementIDType", TThostFtdcSettlementIDType);
    ("TThostFtdcVolumeType", TThostFtdcVolumeType);
    ("TThostFtdcFrontIDType", TThostFtdcFrontIDType);
    ("TThostFtdcSessionIDType", TThostFtdcSessionIDType);
    ("TThostFtdcSequenceNoType", TThostFtdcSequenceNoType);
    ("TThostFtdcCommandNoType", TThostFtdcCommandNoType);
    ("TThostFtdcMillisecType", TThostFtdcMillisecType);
    ("TThostFtdcSecType", TThostFtdcSecType);
    ("TThostFtdcVolumeMultipleType", TThostFtdcVolumeMultipleType);
    ("TThostFtdcTradingSegmentSNType", TThostFtdcTradingSegmentSNType);
    ("TThostFtdcRequestIDType", TThostFtdcRequestIDType);
    ("TThostFtdcYearType", TThostFtdcYearType);
    ("TThostFtdcMonthType", TThostFtdcMonthType);
    ("TThostFtdcBoolType", TThostFtdcBoolType);
    ("TThostFtdcPriceType", TThostFtdcPriceType);
    ("TThostFtdcCombOffsetFlagType", TThostFtdcCombOffsetFlagType);
    ("TThostFtdcCombHedgeFlagType", TThostFtdcCombHedgeFlagType);
    ("TThostFtdcRatioType", TThostFtdcRatioType);
    ("TThostFtdcMoneyType", TThostFtdcMoneyType);
    ("TThostFtdcLargeVolumeType", TThostFtdcLargeVolumeType);
    ("TThostFtdcSequenceSeriesType", TThostFtdcSequenceSeriesType);
    ("TThostFtdcCommPhaseNoType", TThostFtdcCommPhaseNoType);
    ("TThostFtdcSequenceLabelType", TThostFtdcSequenceLabelType);
    ("TThostFtdcUnderlyingMultipleType", TThostFtdcUnderlyingMultipleType);
    ("TThostFtdcPriorityType", TThostFtdcPriorityType);
    ("TThostFtdcContractCodeType", TThostFtdcContractCodeType);
    ("TThostFtdcCityType", TThostFtdcCityType);
    ("TThostFtdcIsStockType", TThostFtdcIsStockType);
    ("TThostFtdcChannelType", TThostFtdcChannelType);
    ("TThostFtdcAddressType", TThostFtdcAddressType);
    ("TThostFtdcZipCodeType", TThostFtdcZipCodeType);
    ("TThostFtdcTelephoneType", TThostFtdcTelephoneType);
    ("TThostFtdcFaxType", TThostFtdcFaxType);
    ("TThostFtdcMobileType", TThostFtdcMobileType);
    ("TThostFtdcEMailType", TThostFtdcEMailType);
    ("TThostFtdcMemoType", TThostFtdcMemoType);
    ("TThostFtdcCompanyCodeType", TThostFtdcCompanyCodeType);
    ("TThostFtdcWebsiteType", TThostFtdcWebsiteType);
    ("TThostFtdcTaxNoType", TThostFtdcTaxNoType);
    ("TThostFtdcBatchStatusType", TThostFtdcBatchStatusType);
    ("TThostFtdcPropertyIDType", TThostFtdcPropertyIDType);
    ("TThostFtdcPropertyNameType", TThostFtdcPropertyNameType);
    ("TThostFtdcLicenseNoType", TThostFtdcLicenseNoType);
    ("TThostFtdcAgentIDType", TThostFtdcAgentIDType);
    ("TThostFtdcAgentNameType", TThostFtdcAgentNameType);
    ("TThostFtdcAgentGroupIDType", TThostFtdcAgentGroupIDType);
    ("TThostFtdcAgentGroupNameType", TThostFtdcAgentGroupNameType);
    ("TThostFtdcReturnStyleType", TThostFtdcReturnStyleType);
    ("TThostFtdcReturnPatternType", TThostFtdcReturnPatternType);
    ("TThostFtdcReturnLevelType", TThostFtdcReturnLevelType);
    ("TThostFtdcReturnStandardType", TThostFtdcReturnStandardType);
    ("TThostFtdcMortgageTypeType", TThostFtdcMortgageTypeType);
    ("TThostFtdcInvestorSettlementParamIDType", TThostFtdcInvestorSettlementParamIDType);
    ("TThostFtdcExchangeSettlementParamIDType", TThostFtdcExchangeSettlementParamIDType);
    ("TThostFtdcSystemParamIDType", TThostFtdcSystemParamIDType);
    ("TThostFtdcTradeParamIDType", TThostFtdcTradeParamIDType);
    ("TThostFtdcSettlementParamValueType", TThostFtdcSettlementParamValueType);
    ("TThostFtdcCounterIDType", TThostFtdcCounterIDType);
    ("TThostFtdcInvestorGroupNameType", TThostFtdcInvestorGroupNameType);
    ("TThostFtdcBrandCodeType", TThostFtdcBrandCodeType);
    ("TThostFtdcWarehouseType", TThostFtdcWarehouseType);
    ("TThostFtdcProductDateType", TThostFtdcProductDateType);
    ("TThostFtdcGradeType", TThostFtdcGradeType);
    ("TThostFtdcClassifyType", TThostFtdcClassifyType);
    ("TThostFtdcPositionType", TThostFtdcPositionType);
    ("TThostFtdcYieldlyType", TThostFtdcYieldlyType);
    ("TThostFtdcWeightType", TThostFtdcWeightType);
    ("TThostFtdcSubEntryFundNoType", TThostFtdcSubEntryFundNoType);
    ("TThostFtdcFileIDType", TThostFtdcFileIDType);
    ("TThostFtdcFileNameType", TThostFtdcFileNameType);
    ("TThostFtdcFileTypeType", TThostFtdcFileTypeType);
    ("TThostFtdcFileFormatType", TThostFtdcFileFormatType);
    ("TThostFtdcFileUploadStatusType", TThostFtdcFileUploadStatusType);
    ("TThostFtdcTransferDirectionType", TThostFtdcTransferDirectionType);
    ("TThostFtdcUploadModeType", TThostFtdcUploadModeType);
    ("TThostFtdcAccountIDType", TThostFtdcAccountIDType);
    ("TThostFtdcBankFlagType", TThostFtdcBankFlagType);
    ("TThostFtdcBankAccountType", TThostFtdcBankAccountType);
    ("TThostFtdcOpenNameType", TThostFtdcOpenNameType);
    ("TThostFtdcOpenBankType", TThostFtdcOpenBankType);
    ("TThostFtdcBankNameType", TThostFtdcBankNameType);
    ("TThostFtdcPublishPathType", TThostFtdcPublishPathType);
    ("TThostFtdcOperatorIDType", TThostFtdcOperatorIDType);
    ("TThostFtdcMonthCountType", TThostFtdcMonthCountType);
    ("TThostFtdcAdvanceMonthArrayType", TThostFtdcAdvanceMonthArrayType);
    ("TThostFtdcDateExprType", TThostFtdcDateExprType);
    ("TThostFtdcInstrumentIDExprType", TThostFtdcInstrumentIDExprType);
    ("TThostFtdcInstrumentNameExprType", TThostFtdcInstrumentNameExprType);
    ("TThostFtdcSpecialCreateRuleType", TThostFtdcSpecialCreateRuleType);
    ("TThostFtdcBasisPriceTypeType", TThostFtdcBasisPriceTypeType);
    ("TThostFtdcProductLifePhaseType", TThostFtdcProductLifePhaseType);
    ("TThostFtdcDeliveryModeType", TThostFtdcDeliveryModeType);
    ("TThostFtdcLogLevelType", TThostFtdcLogLevelType);
    ("TThostFtdcProcessNameType", TThostFtdcProcessNameType);
    ("TThostFtdcOperationMemoType", TThostFtdcOperationMemoType);
    ("TThostFtdcFundIOTypeType", TThostFtdcFundIOTypeType);
    ("TThostFtdcFundTypeType", TThostFtdcFundTypeType);
    ("TThostFtdcFundDirectionType", TThostFtdcFundDirectionType);
    ("TThostFtdcFundStatusType", TThostFtdcFundStatusType);
    ("TThostFtdcBillNoType", TThostFtdcBillNoType);
    ("TThostFtdcBillNameType", TThostFtdcBillNameType);
    ("TThostFtdcPublishStatusType", TThostFtdcPublishStatusType);
    ("TThostFtdcEnumValueIDType", TThostFtdcEnumValueIDType);
    ("TThostFtdcEnumValueTypeType", TThostFtdcEnumValueTypeType);
    ("TThostFtdcEnumValueLabelType", TThostFtdcEnumValueLabelType);
    ("TThostFtdcEnumValueResultType", TThostFtdcEnumValueResultType);
    ("TThostFtdcSystemStatusType", TThostFtdcSystemStatusType);
    ("TThostFtdcSettlementStatusType", TThostFtdcSettlementStatusType);
    ("TThostFtdcRangeIntTypeType", TThostFtdcRangeIntTypeType);
    ("TThostFtdcRangeIntFromType", TThostFtdcRangeIntFromType);
    ("TThostFtdcRangeIntToType", TThostFtdcRangeIntToType);
    ("TThostFtdcFunctionIDType", TThostFtdcFunctionIDType);
    ("TThostFtdcFunctionValueCodeType", TThostFtdcFunctionValueCodeType);
    ("TThostFtdcFunctionNameType", TThostFtdcFunctionNameType);
    ("TThostFtdcRoleIDType", TThostFtdcRoleIDType);
    ("TThostFtdcRoleNameType", TThostFtdcRoleNameType);
    ("TThostFtdcDescriptionType", TThostFtdcDescriptionType);
    ("TThostFtdcCombineIDType", TThostFtdcCombineIDType);
    ("TThostFtdcCombineTypeType", TThostFtdcCombineTypeType);
    ("TThostFtdcInvestorTypeType", TThostFtdcInvestorTypeType);
    ("TThostFtdcBrokerTypeType", TThostFtdcBrokerTypeType);
    ("TThostFtdcRiskLevelType", TThostFtdcRiskLevelType);
    ("TThostFtdcFeeAcceptStyleType", TThostFtdcFeeAcceptStyleType);
    ("TThostFtdcPasswordTypeType", TThostFtdcPasswordTypeType);
    ("TThostFtdcAlgorithmType", TThostFtdcAlgorithmType);
    ("TThostFtdcIncludeCloseProfitType", TThostFtdcIncludeCloseProfitType);
    ("TThostFtdcAllWithoutTradeType", TThostFtdcAllWithoutTradeType);
    ("TThostFtdcCommentType", TThostFtdcCommentType);
    ("TThostFtdcVersionType", TThostFtdcVersionType);
    ("TThostFtdcTradeCodeType", TThostFtdcTradeCodeType);
    ("TThostFtdcTradeDateType", TThostFtdcTradeDateType);
    ("TThostFtdcTradeTimeType", TThostFtdcTradeTimeType);
    ("TThostFtdcTradeSerialType", TThostFtdcTradeSerialType);
    ("TThostFtdcTradeSerialNoType", TThostFtdcTradeSerialNoType);
    ("TThostFtdcFutureIDType", TThostFtdcFutureIDType);
    ("TThostFtdcBankIDType", TThostFtdcBankIDType);
    ("TThostFtdcBankBrchIDType", TThostFtdcBankBrchIDType);
    ("TThostFtdcBankBranchIDType", TThostFtdcBankBranchIDType);
    ("TThostFtdcOperNoType", TThostFtdcOperNoType);
    ("TThostFtdcDeviceIDType", TThostFtdcDeviceIDType);
    ("TThostFtdcRecordNumType", TThostFtdcRecordNumType);
    ("TThostFtdcFutureAccountType", TThostFtdcFutureAccountType);
    ("TThostFtdcFuturePwdFlagType", TThostFtdcFuturePwdFlagType);
    ("TThostFtdcTransferTypeType", TThostFtdcTransferTypeType);
    ("TThostFtdcFutureAccPwdType", TThostFtdcFutureAccPwdType);
    ("TThostFtdcCurrencyCodeType", TThostFtdcCurrencyCodeType);
    ("TThostFtdcRetCodeType", TThostFtdcRetCodeType);
    ("TThostFtdcRetInfoType", TThostFtdcRetInfoType);
    ("TThostFtdcTradeAmtType", TThostFtdcTradeAmtType);
    ("TThostFtdcUseAmtType", TThostFtdcUseAmtType);
    ("TThostFtdcFetchAmtType", TThostFtdcFetchAmtType);
    ("TThostFtdcTransferValidFlagType", TThostFtdcTransferValidFlagType);
    ("TThostFtdcCertCodeType", TThostFtdcCertCodeType);
    ("TThostFtdcReasonType", TThostFtdcReasonType);
    ("TThostFtdcFundProjectIDType", TThostFtdcFundProjectIDType);
    ("TThostFtdcSexType", TThostFtdcSexType);
    ("TThostFtdcProfessionType", TThostFtdcProfessionType);
    ("TThostFtdcNationalType", TThostFtdcNationalType);
    ("TThostFtdcProvinceType", TThostFtdcProvinceType);
    ("TThostFtdcRegionType", TThostFtdcRegionType);
    ("TThostFtdcCountryType", TThostFtdcCountryType);
    ("TThostFtdcLicenseNOType", TThostFtdcLicenseNOType);
    ("TThostFtdcCompanyTypeType", TThostFtdcCompanyTypeType);
    ("TThostFtdcBusinessScopeType", TThostFtdcBusinessScopeType);
    ("TThostFtdcCapitalCurrencyType", TThostFtdcCapitalCurrencyType);
    ("TThostFtdcUserTypeType", TThostFtdcUserTypeType);
    ("TThostFtdcBranchIDType", TThostFtdcBranchIDType);
    ("TThostFtdcRateTypeType", TThostFtdcRateTypeType);
    ("TThostFtdcNoteTypeType", TThostFtdcNoteTypeType);
    ("TThostFtdcSettlementStyleType", TThostFtdcSettlementStyleType);
    ("TThostFtdcBrokerDNSType", TThostFtdcBrokerDNSType);
    ("TThostFtdcSentenceType", TThostFtdcSentenceType);
    ("TThostFtdcSettlementBillTypeType", TThostFtdcSettlementBillTypeType);
    ("TThostFtdcUserRightTypeType", TThostFtdcUserRightTypeType);
    ("TThostFtdcMarginPriceTypeType", TThostFtdcMarginPriceTypeType);
    ("TThostFtdcBillGenStatusType", TThostFtdcBillGenStatusType);
    ("TThostFtdcAlgoTypeType", TThostFtdcAlgoTypeType);
    ("TThostFtdcHandlePositionAlgoIDType", TThostFtdcHandlePositionAlgoIDType);
    ("TThostFtdcFindMarginRateAlgoIDType", TThostFtdcFindMarginRateAlgoIDType);
    ("TThostFtdcHandleTradingAccountAlgoIDType", TThostFtdcHandleTradingAccountAlgoIDType);
    ("TThostFtdcPersonTypeType", TThostFtdcPersonTypeType);
    ("TThostFtdcQueryInvestorRangeType", TThostFtdcQueryInvestorRangeType);
    ("TThostFtdcInvestorRiskStatusType", TThostFtdcInvestorRiskStatusType);
    ("TThostFtdcLegIDType", TThostFtdcLegIDType);
    ("TThostFtdcLegMultipleType", TThostFtdcLegMultipleType);
    ("TThostFtdcImplyLevelType", TThostFtdcImplyLevelType);
    ("TThostFtdcClearAccountType", TThostFtdcClearAccountType);
    ("TThostFtdcOrganNOType", TThostFtdcOrganNOType);
    ("TThostFtdcClearbarchIDType", TThostFtdcClearbarchIDType);
    ("TThostFtdcUserEventTypeType", TThostFtdcUserEventTypeType);
    ("TThostFtdcUserEventInfoType", TThostFtdcUserEventInfoType);
    ("TThostFtdcCloseStyleType", TThostFtdcCloseStyleType);
    ("TThostFtdcStatModeType", TThostFtdcStatModeType);
    ("TThostFtdcParkedOrderStatusType", TThostFtdcParkedOrderStatusType);
    ("TThostFtdcParkedOrderIDType", TThostFtdcParkedOrderIDType);
    ("TThostFtdcParkedOrderActionIDType", TThostFtdcParkedOrderActionIDType);
    ("TThostFtdcVirDealStatusType", TThostFtdcVirDealStatusType);
    ("TThostFtdcOrgSystemIDType", TThostFtdcOrgSystemIDType);
    ("TThostFtdcVirTradeStatusType", TThostFtdcVirTradeStatusType);
    ("TThostFtdcVirBankAccTypeType", TThostFtdcVirBankAccTypeType);
    ("TThostFtdcVirementStatusType", TThostFtdcVirementStatusType);
    ("TThostFtdcVirementAvailAbilityType", TThostFtdcVirementAvailAbilityType);
    ("TThostFtdcVirementTradeCodeType", TThostFtdcVirementTradeCodeType);
    ("TThostFtdcPhotoTypeNameType", TThostFtdcPhotoTypeNameType);
    ("TThostFtdcPhotoTypeIDType", TThostFtdcPhotoTypeIDType);
    ("TThostFtdcPhotoNameType", TThostFtdcPhotoNameType);
    ("TThostFtdcTopicIDType", TThostFtdcTopicIDType);
    ("TThostFtdcReportTypeIDType", TThostFtdcReportTypeIDType);
    ("TThostFtdcCharacterIDType", TThostFtdcCharacterIDType);
    ("TThostFtdcAMLParamIDType", TThostFtdcAMLParamIDType);
    ("TThostFtdcAMLInvestorTypeType", TThostFtdcAMLInvestorTypeType);
    ("TThostFtdcAMLIdCardTypeType", TThostFtdcAMLIdCardTypeType);
    ("TThostFtdcAMLTradeDirectType", TThostFtdcAMLTradeDirectType);
    ("TThostFtdcAMLTradeModelType", TThostFtdcAMLTradeModelType);
    ("TThostFtdcAMLOpParamValueType", TThostFtdcAMLOpParamValueType);
    ("TThostFtdcAMLCustomerCardTypeType", TThostFtdcAMLCustomerCardTypeType);
    ("TThostFtdcAMLInstitutionNameType", TThostFtdcAMLInstitutionNameType);
    ("TThostFtdcAMLDistrictIDType", TThostFtdcAMLDistrictIDType);
    ("TThostFtdcAMLRelationShipType", TThostFtdcAMLRelationShipType);
    ("TThostFtdcAMLInstitutionTypeType", TThostFtdcAMLInstitutionTypeType);
    ("TThostFtdcAMLInstitutionIDType", TThostFtdcAMLInstitutionIDType);
    ("TThostFtdcAMLAccountTypeType", TThostFtdcAMLAccountTypeType);
    ("TThostFtdcAMLTradingTypeType", TThostFtdcAMLTradingTypeType);
    ("TThostFtdcAMLTransactClassType", TThostFtdcAMLTransactClassType);
    ("TThostFtdcAMLCapitalIOType", TThostFtdcAMLCapitalIOType);
    ("TThostFtdcAMLSiteType", TThostFtdcAMLSiteType);
    ("TThostFtdcAMLCapitalPurposeType", TThostFtdcAMLCapitalPurposeType);
    ("TThostFtdcAMLReportTypeType", TThostFtdcAMLReportTypeType);
    ("TThostFtdcAMLSerialNoType", TThostFtdcAMLSerialNoType);
    ("TThostFtdcAMLStatusType", TThostFtdcAMLStatusType);
    ("TThostFtdcAMLGenStatusType", TThostFtdcAMLGenStatusType);
    ("TThostFtdcAMLSeqCodeType", TThostFtdcAMLSeqCodeType);
    ("TThostFtdcAMLFileNameType", TThostFtdcAMLFileNameType);
    ("TThostFtdcAMLMoneyType", TThostFtdcAMLMoneyType);
    ("TThostFtdcAMLFileAmountType", TThostFtdcAMLFileAmountType);
    ("TThostFtdcCFMMCKeyType", TThostFtdcCFMMCKeyType);
    ("TThostFtdcCFMMCTokenType", TThostFtdcCFMMCTokenType);
    ("TThostFtdcCFMMCKeyKindType", TThostFtdcCFMMCKeyKindType);
    ("TThostFtdcAMLReportNameType", TThostFtdcAMLReportNameType);
    ("TThostFtdcIndividualNameType", TThostFtdcIndividualNameType);
    ("TThostFtdcCurrencyIDType", TThostFtdcCurrencyIDType);
    ("TThostFtdcCustNumberType", TThostFtdcCustNumberType);
    ("TThostFtdcOrganCodeType", TThostFtdcOrganCodeType);
    ("TThostFtdcOrganNameType", TThostFtdcOrganNameType);
    ("TThostFtdcSuperOrganCodeType", TThostFtdcSuperOrganCodeType);
    ("TThostFtdcSubBranchIDType", TThostFtdcSubBranchIDType);
    ("TThostFtdcSubBranchNameType", TThostFtdcSubBranchNameType);
    ("TThostFtdcBranchNetCodeType", TThostFtdcBranchNetCodeType);
    ("TThostFtdcBranchNetNameType", TThostFtdcBranchNetNameType);
    ("TThostFtdcOrganFlagType", TThostFtdcOrganFlagType);
    ("TThostFtdcBankCodingForFutureType", TThostFtdcBankCodingForFutureType);
    ("TThostFtdcBankReturnCodeType", TThostFtdcBankReturnCodeType);
    ("TThostFtdcPlateReturnCodeType", TThostFtdcPlateReturnCodeType);
    ("TThostFtdcBankSubBranchIDType", TThostFtdcBankSubBranchIDType);
    ("TThostFtdcFutureBranchIDType", TThostFtdcFutureBranchIDType);
    ("TThostFtdcReturnCodeType", TThostFtdcReturnCodeType);
    ("TThostFtdcOperatorCodeType", TThostFtdcOperatorCodeType);
    ("TThostFtdcClearDepIDType", TThostFtdcClearDepIDType);
    ("TThostFtdcClearBrchIDType", TThostFtdcClearBrchIDType);
    ("TThostFtdcClearNameType", TThostFtdcClearNameType);
    ("TThostFtdcBankAccountNameType", TThostFtdcBankAccountNameType);
    ("TThostFtdcInvDepIDType", TThostFtdcInvDepIDType);
    ("TThostFtdcInvBrchIDType", TThostFtdcInvBrchIDType);
    ("TThostFtdcMessageFormatVersionType", TThostFtdcMessageFormatVersionType);
    ("TThostFtdcDigestType", TThostFtdcDigestType);
    ("TThostFtdcAuthenticDataType", TThostFtdcAuthenticDataType);
    ("TThostFtdcPasswordKeyType", TThostFtdcPasswordKeyType);
    ("TThostFtdcFutureAccountNameType", TThostFtdcFutureAccountNameType);
    ("TThostFtdcMobilePhoneType", TThostFtdcMobilePhoneType);
    ("TThostFtdcFutureMainKeyType", TThostFtdcFutureMainKeyType);
    ("TThostFtdcFutureWorkKeyType", TThostFtdcFutureWorkKeyType);
    ("TThostFtdcFutureTransKeyType", TThostFtdcFutureTransKeyType);
    ("TThostFtdcBankMainKeyType", TThostFtdcBankMainKeyType);
    ("TThostFtdcBankWorkKeyType", TThostFtdcBankWorkKeyType);
    ("TThostFtdcBankTransKeyType", TThostFtdcBankTransKeyType);
    ("TThostFtdcBankServerDescriptionType", TThostFtdcBankServerDescriptionType);
    ("TThostFtdcAddInfoType", TThostFtdcAddInfoType);
    ("TThostFtdcDescrInfoForReturnCodeType", TThostFtdcDescrInfoForReturnCodeType);
    ("TThostFtdcCountryCodeType", TThostFtdcCountryCodeType);
    ("TThostFtdcSerialType", TThostFtdcSerialType);
    ("TThostFtdcPlateSerialType", TThostFtdcPlateSerialType);
    ("TThostFtdcBankSerialType", TThostFtdcBankSerialType);
    ("TThostFtdcCorrectSerialType", TThostFtdcCorrectSerialType);
    ("TThostFtdcFutureSerialType", TThostFtdcFutureSerialType);
    ("TThostFtdcApplicationIDType", TThostFtdcApplicationIDType);
    ("TThostFtdcBankProxyIDType", TThostFtdcBankProxyIDType);
    ("TThostFtdcFBTCoreIDType", TThostFtdcFBTCoreIDType);
    ("TThostFtdcServerPortType", TThostFtdcServerPortType);
    ("TThostFtdcRepealedTimesType", TThostFtdcRepealedTimesType);
    ("TThostFtdcRepealTimeIntervalType", TThostFtdcRepealTimeIntervalType);
    ("TThostFtdcTotalTimesType", TThostFtdcTotalTimesType);
    ("TThostFtdcFBTRequestIDType", TThostFtdcFBTRequestIDType);
    ("TThostFtdcTIDType", TThostFtdcTIDType);
    ("TThostFtdcTradeAmountType", TThostFtdcTradeAmountType);
    ("TThostFtdcCustFeeType", TThostFtdcCustFeeType);
    ("TThostFtdcFutureFeeType", TThostFtdcFutureFeeType);
    ("TThostFtdcSingleMaxAmtType", TThostFtdcSingleMaxAmtType);
    ("TThostFtdcSingleMinAmtType", TThostFtdcSingleMinAmtType);
    ("TThostFtdcTotalAmtType", TThostFtdcTotalAmtType);
    ("TThostFtdcCertificationTypeType", TThostFtdcCertificationTypeType);
    ("TThostFtdcFileBusinessCodeType", TThostFtdcFileBusinessCodeType);
    ("TThostFtdcCashExchangeCodeType", TThostFtdcCashExchangeCodeType);
    ("TThostFtdcYesNoIndicatorType", TThostFtdcYesNoIndicatorType);
    ("TThostFtdcBanlanceTypeType", TThostFtdcBanlanceTypeType);
    ("TThostFtdcGenderType", TThostFtdcGenderType);
    ("TThostFtdcFeePayFlagType", TThostFtdcFeePayFlagType);
    ("TThostFtdcPassWordKeyTypeType", TThostFtdcPassWordKeyTypeType);
    ("TThostFtdcFBTPassWordTypeType", TThostFtdcFBTPassWordTypeType);
    ("TThostFtdcFBTEncryModeType", TThostFtdcFBTEncryModeType);
    ("TThostFtdcBankRepealFlagType", TThostFtdcBankRepealFlagType);
    ("TThostFtdcBrokerRepealFlagType", TThostFtdcBrokerRepealFlagType);
    ("TThostFtdcInstitutionTypeType", TThostFtdcInstitutionTypeType);
    ("TThostFtdcLastFragmentType", TThostFtdcLastFragmentType);
    ("TThostFtdcBankAccStatusType", TThostFtdcBankAccStatusType);
    ("TThostFtdcMoneyAccountStatusType", TThostFtdcMoneyAccountStatusType);
    ("TThostFtdcManageStatusType", TThostFtdcManageStatusType);
    ("TThostFtdcSystemTypeType", TThostFtdcSystemTypeType);
    ("TThostFtdcTxnEndFlagType", TThostFtdcTxnEndFlagType);
    ("TThostFtdcProcessStatusType", TThostFtdcProcessStatusType);
    ("TThostFtdcCustTypeType", TThostFtdcCustTypeType);
    ("TThostFtdcFBTTransferDirectionType", TThostFtdcFBTTransferDirectionType);
    ("TThostFtdcOpenOrDestroyType", TThostFtdcOpenOrDestroyType);
    ("TThostFtdcAvailabilityFlagType", TThostFtdcAvailabilityFlagType);
    ("TThostFtdcOrganTypeType", TThostFtdcOrganTypeType);
    ("TThostFtdcOrganLevelType", TThostFtdcOrganLevelType);
    ("TThostFtdcProtocalIDType", TThostFtdcProtocalIDType);
    ("TThostFtdcConnectModeType", TThostFtdcConnectModeType);
    ("TThostFtdcSyncModeType", TThostFtdcSyncModeType);
    ("TThostFtdcBankAccTypeType", TThostFtdcBankAccTypeType);
    ("TThostFtdcFutureAccTypeType", TThostFtdcFutureAccTypeType);
    ("TThostFtdcOrganStatusType", TThostFtdcOrganStatusType);
    ("TThostFtdcCCBFeeModeType", TThostFtdcCCBFeeModeType);
    ("TThostFtdcCommApiTypeType", TThostFtdcCommApiTypeType);
    ("TThostFtdcServiceIDType", TThostFtdcServiceIDType);
    ("TThostFtdcServiceLineNoType", TThostFtdcServiceLineNoType);
    ("TThostFtdcServiceNameType", TThostFtdcServiceNameType);
    ("TThostFtdcLinkStatusType", TThostFtdcLinkStatusType);
    ("TThostFtdcCommApiPointerType", TThostFtdcCommApiPointerType);
    ("TThostFtdcPwdFlagType", TThostFtdcPwdFlagType);
    ("TThostFtdcSecuAccTypeType", TThostFtdcSecuAccTypeType);
    ("TThostFtdcTransferStatusType", TThostFtdcTransferStatusType);
    ("TThostFtdcSponsorTypeType", TThostFtdcSponsorTypeType);
    ("TThostFtdcReqRspTypeType", TThostFtdcReqRspTypeType);
    ("TThostFtdcFBTUserEventTypeType", TThostFtdcFBTUserEventTypeType);
    ("TThostFtdcBankIDByBankType", TThostFtdcBankIDByBankType);
    ("TThostFtdcBankOperNoType", TThostFtdcBankOperNoType);
    ("TThostFtdcBankCustNoType", TThostFtdcBankCustNoType);
    ("TThostFtdcDBOPSeqNoType", TThostFtdcDBOPSeqNoType);
    ("TThostFtdcTableNameType", TThostFtdcTableNameType);
    ("TThostFtdcPKNameType", TThostFtdcPKNameType);
    ("TThostFtdcPKValueType", TThostFtdcPKValueType);
    ("TThostFtdcDBOperationType", TThostFtdcDBOperationType);
    ("TThostFtdcSyncFlagType", TThostFtdcSyncFlagType);
    ("TThostFtdcTargetIDType", TThostFtdcTargetIDType);
    ("TThostFtdcSyncTypeType", TThostFtdcSyncTypeType);
    ("TThostFtdcFBETimeType", TThostFtdcFBETimeType);
    ("TThostFtdcFBEBankNoType", TThostFtdcFBEBankNoType);
    ("TThostFtdcFBECertNoType", TThostFtdcFBECertNoType);
    ("TThostFtdcExDirectionType", TThostFtdcExDirectionType);
    ("TThostFtdcFBEBankAccountType", TThostFtdcFBEBankAccountType);
    ("TThostFtdcFBEBankAccountNameType", TThostFtdcFBEBankAccountNameType);
    ("TThostFtdcFBEAmtType", TThostFtdcFBEAmtType);
    ("TThostFtdcFBEBusinessTypeType", TThostFtdcFBEBusinessTypeType);
    ("TThostFtdcFBEPostScriptType", TThostFtdcFBEPostScriptType);
    ("TThostFtdcFBERemarkType", TThostFtdcFBERemarkType);
    ("TThostFtdcExRateType", TThostFtdcExRateType);
    ("TThostFtdcFBEResultFlagType", TThostFtdcFBEResultFlagType);
    ("TThostFtdcFBERtnMsgType", TThostFtdcFBERtnMsgType);
    ("TThostFtdcFBEExtendMsgType", TThostFtdcFBEExtendMsgType);
    ("TThostFtdcFBEBusinessSerialType", TThostFtdcFBEBusinessSerialType);
    ("TThostFtdcFBESystemSerialType", TThostFtdcFBESystemSerialType);
    ("TThostFtdcFBETotalExCntType", TThostFtdcFBETotalExCntType);
    ("TThostFtdcFBEExchStatusType", TThostFtdcFBEExchStatusType);
    ("TThostFtdcFBEFileFlagType", TThostFtdcFBEFileFlagType);
    ("TThostFtdcFBEAlreadyTradeType", TThostFtdcFBEAlreadyTradeType);
    ("TThostFtdcFBEOpenBankType", TThostFtdcFBEOpenBankType);
    ("TThostFtdcFBEUserEventTypeType", TThostFtdcFBEUserEventTypeType);
    ("TThostFtdcFBEFileNameType", TThostFtdcFBEFileNameType);
    ("TThostFtdcFBEBatchSerialType", TThostFtdcFBEBatchSerialType);
    ("TThostFtdcFBEReqFlagType", TThostFtdcFBEReqFlagType);
    ("TThostFtdcNotifyClassType", TThostFtdcNotifyClassType);
    ("TThostFtdcRiskNofityInfoType", TThostFtdcRiskNofityInfoType);
    ("TThostFtdcForceCloseSceneIdType", TThostFtdcForceCloseSceneIdType);
    ("TThostFtdcForceCloseTypeType", TThostFtdcForceCloseTypeType);
    ("TThostFtdcInstrumentIDsType", TThostFtdcInstrumentIDsType);
    ("TThostFtdcRiskNotifyMethodType", TThostFtdcRiskNotifyMethodType);
    ("TThostFtdcRiskNotifyStatusType", TThostFtdcRiskNotifyStatusType);
    ("TThostFtdcRiskUserEventType", TThostFtdcRiskUserEventType);
    ("TThostFtdcParamIDType", TThostFtdcParamIDType);
    ("TThostFtdcParamNameType", TThostFtdcParamNameType);
    ("TThostFtdcParamValueType", TThostFtdcParamValueType);
    ("TThostFtdcConditionalOrderSortTypeType", TThostFtdcConditionalOrderSortTypeType);
    ("TThostFtdcSendTypeType", TThostFtdcSendTypeType);
    ("TThostFtdcClientIDStatusType", TThostFtdcClientIDStatusType);
    ("TThostFtdcIndustryIDType", TThostFtdcIndustryIDType);
    ("TThostFtdcQuestionIDType", TThostFtdcQuestionIDType);
    ("TThostFtdcQuestionContentType", TThostFtdcQuestionContentType);
    ("TThostFtdcOptionIDType", TThostFtdcOptionIDType);
    ("TThostFtdcOptionContentType", TThostFtdcOptionContentType);
    ("TThostFtdcQuestionTypeType", TThostFtdcQuestionTypeType);
    ("TThostFtdcProcessIDType", TThostFtdcProcessIDType);
    ("TThostFtdcSeqNoType", TThostFtdcSeqNoType);
    ("TThostFtdcUOAProcessStatusType", TThostFtdcUOAProcessStatusType);
    ("TThostFtdcProcessTypeType", TThostFtdcProcessTypeType);
    ("TThostFtdcBusinessTypeType", TThostFtdcBusinessTypeType);
    ("TThostFtdcCfmmcReturnCodeType", TThostFtdcCfmmcReturnCodeType);
    ("TThostFtdcExReturnCodeType", TThostFtdcExReturnCodeType);
    ("TThostFtdcClientTypeType", TThostFtdcClientTypeType);
    ("TThostFtdcExchangeIDTypeType", TThostFtdcExchangeIDTypeType);
    ("TThostFtdcExClientIDTypeType", TThostFtdcExClientIDTypeType);
    ("TThostFtdcClientClassifyType", TThostFtdcClientClassifyType);
    ("TThostFtdcUOAOrganTypeType", TThostFtdcUOAOrganTypeType);
    ("TThostFtdcUOACountryCodeType", TThostFtdcUOACountryCodeType);
    ("TThostFtdcAreaCodeType", TThostFtdcAreaCodeType);
    ("TThostFtdcFuturesIDType", TThostFtdcFuturesIDType);
    ("TThostFtdcCffmcDateType", TThostFtdcCffmcDateType);
    ("TThostFtdcCffmcTimeType", TThostFtdcCffmcTimeType);
    ("TThostFtdcNocIDType", TThostFtdcNocIDType);
    ("TThostFtdcUpdateFlagType", TThostFtdcUpdateFlagType);
    ("TThostFtdcApplyOperateIDType", TThostFtdcApplyOperateIDType);
    ("TThostFtdcApplyStatusIDType", TThostFtdcApplyStatusIDType);
    ("TThostFtdcSendMethodType", TThostFtdcSendMethodType);
    ("TThostFtdcEventTypeType", TThostFtdcEventTypeType);
    ("TThostFtdcEventModeType", TThostFtdcEventModeType);
    ("TThostFtdcUOAAutoSendType", TThostFtdcUOAAutoSendType);
    ("TThostFtdcQueryDepthType", TThostFtdcQueryDepthType);
    ("TThostFtdcDataCenterIDType", TThostFtdcDataCenterIDType);
    ("TThostFtdcFlowIDType", TThostFtdcFlowIDType);
    ("TThostFtdcCheckLevelType", TThostFtdcCheckLevelType);
    ("TThostFtdcCheckNoType", TThostFtdcCheckNoType);
    ("TThostFtdcCheckStatusType", TThostFtdcCheckStatusType);
    ("TThostFtdcUsedStatusType", TThostFtdcUsedStatusType);
    ("TThostFtdcRateTemplateNameType", TThostFtdcRateTemplateNameType);
    ("TThostFtdcPropertyStringType", TThostFtdcPropertyStringType);
    ("TThostFtdcBankAcountOriginType", TThostFtdcBankAcountOriginType);
    ("TThostFtdcMonthBillTradeSumType", TThostFtdcMonthBillTradeSumType);
    ("TThostFtdcFBTTradeCodeEnumType", TThostFtdcFBTTradeCodeEnumType);
    ("TThostFtdcRateTemplateIDType", TThostFtdcRateTemplateIDType);
    ("TThostFtdcRiskRateType", TThostFtdcRiskRateType);
    ("TThostFtdcTimestampType", TThostFtdcTimestampType);
    ("TThostFtdcInvestorIDRuleNameType", TThostFtdcInvestorIDRuleNameType);
    ("TThostFtdcInvestorIDRuleExprType", TThostFtdcInvestorIDRuleExprType);
    ("TThostFtdcLastDriftType", TThostFtdcLastDriftType);
    ("TThostFtdcLastSuccessType", TThostFtdcLastSuccessType);
    ("TThostFtdcAuthKeyType", TThostFtdcAuthKeyType);
    ("TThostFtdcSerialNumberType", TThostFtdcSerialNumberType);
    ("TThostFtdcOTPTypeType", TThostFtdcOTPTypeType);
    ("TThostFtdcOTPVendorsIDType", TThostFtdcOTPVendorsIDType);
    ("TThostFtdcOTPVendorsNameType", TThostFtdcOTPVendorsNameType);
    ("TThostFtdcOTPStatusType", TThostFtdcOTPStatusType);
    ("TThostFtdcBrokerUserTypeType", TThostFtdcBrokerUserTypeType);
    ("TThostFtdcFutureTypeType", TThostFtdcFutureTypeType);
    ("TThostFtdcFundEventTypeType", TThostFtdcFundEventTypeType);
    ("TThostFtdcAccountSourceTypeType", TThostFtdcAccountSourceTypeType);
    ("TThostFtdcCodeSourceTypeType", TThostFtdcCodeSourceTypeType);
    ("TThostFtdcUserRangeType", TThostFtdcUserRangeType);
    ("TThostFtdcTimeSpanType", TThostFtdcTimeSpanType);
    ("TThostFtdcImportSequenceIDType", TThostFtdcImportSequenceIDType);
    ("TThostFtdcByGroupType", TThostFtdcByGroupType);
    ("TThostFtdcTradeSumStatModeType", TThostFtdcTradeSumStatModeType);
    ("TThostFtdcComTypeType", TThostFtdcComTypeType);
    ("TThostFtdcUserProductIDType", TThostFtdcUserProductIDType);
    ("TThostFtdcUserProductNameType", TThostFtdcUserProductNameType);
    ("TThostFtdcUserProductMemoType", TThostFtdcUserProductMemoType);
    ("TThostFtdcCSRCCancelFlagType", TThostFtdcCSRCCancelFlagType);
    ("TThostFtdcCSRCDateType", TThostFtdcCSRCDateType);
    ("TThostFtdcCSRCInvestorNameType", TThostFtdcCSRCInvestorNameType);
    ("TThostFtdcCSRCOpenInvestorNameType", TThostFtdcCSRCOpenInvestorNameType);
    ("TThostFtdcCSRCInvestorIDType", TThostFtdcCSRCInvestorIDType);
    ("TThostFtdcCSRCIdentifiedCardNoType", TThostFtdcCSRCIdentifiedCardNoType);
    ("TThostFtdcCSRCClientIDType", TThostFtdcCSRCClientIDType);
    ("TThostFtdcCSRCBankFlagType", TThostFtdcCSRCBankFlagType);
    ("TThostFtdcCSRCBankAccountType", TThostFtdcCSRCBankAccountType);
    ("TThostFtdcCSRCOpenNameType", TThostFtdcCSRCOpenNameType);
    ("TThostFtdcCSRCMemoType", TThostFtdcCSRCMemoType);
    ("TThostFtdcCSRCTimeType", TThostFtdcCSRCTimeType);
    ("TThostFtdcCSRCTradeIDType", TThostFtdcCSRCTradeIDType);
    ("TThostFtdcCSRCExchangeInstIDType", TThostFtdcCSRCExchangeInstIDType);
    ("TThostFtdcCSRCMortgageNameType", TThostFtdcCSRCMortgageNameType);
    ("TThostFtdcCSRCReasonType", TThostFtdcCSRCReasonType);
    ("TThostFtdcIsSettlementType", TThostFtdcIsSettlementType);
    ("TThostFtdcCSRCMoneyType", TThostFtdcCSRCMoneyType);
    ("TThostFtdcCSRCPriceType", TThostFtdcCSRCPriceType);
    ("TThostFtdcCSRCOptionsTypeType", TThostFtdcCSRCOptionsTypeType);
    ("TThostFtdcCSRCStrikePriceType", TThostFtdcCSRCStrikePriceType);
    ("TThostFtdcCSRCTargetProductIDType", TThostFtdcCSRCTargetProductIDType);
    ("TThostFtdcCSRCTargetInstrIDType", TThostFtdcCSRCTargetInstrIDType);
    ("TThostFtdcCommModelNameType", TThostFtdcCommModelNameType);
    ("TThostFtdcCommModelMemoType", TThostFtdcCommModelMemoType);
    ("TThostFtdcExprSetModeType", TThostFtdcExprSetModeType);
    ("TThostFtdcRateInvestorRangeType", TThostFtdcRateInvestorRangeType);
    ("TThostFtdcAgentBrokerIDType", TThostFtdcAgentBrokerIDType);
    ("TThostFtdcDRIdentityIDType", TThostFtdcDRIdentityIDType);
    ("TThostFtdcDRIdentityNameType", TThostFtdcDRIdentityNameType);
    ("TThostFtdcDBLinkIDType", TThostFtdcDBLinkIDType);
    ("TThostFtdcSyncDataStatusType", TThostFtdcSyncDataStatusType);
    ("TThostFtdcTradeSourceType", TThostFtdcTradeSourceType);
    ("TThostFtdcFlexStatModeType", TThostFtdcFlexStatModeType);
    ("TThostFtdcByInvestorRangeType", TThostFtdcByInvestorRangeType);
    ("TThostFtdcSRiskRateType", TThostFtdcSRiskRateType);
    ("TThostFtdcSequenceNo12Type", TThostFtdcSequenceNo12Type);
    ("TThostFtdcPropertyInvestorRangeType", TThostFtdcPropertyInvestorRangeType);
    ("TThostFtdcFileStatusType", TThostFtdcFileStatusType);
    ("TThostFtdcFileGenStyleType", TThostFtdcFileGenStyleType);
    ("TThostFtdcSysOperModeType", TThostFtdcSysOperModeType);
    ("TThostFtdcSysOperTypeType", TThostFtdcSysOperTypeType);
    ("TThostFtdcCSRCDataQueyTypeType", TThostFtdcCSRCDataQueyTypeType);
    ("TThostFtdcFreezeStatusType", TThostFtdcFreezeStatusType);
    ("TThostFtdcStandardStatusType", TThostFtdcStandardStatusType);
    ("TThostFtdcCSRCFreezeStatusType", TThostFtdcCSRCFreezeStatusType);
    ("TThostFtdcRightParamTypeType", TThostFtdcRightParamTypeType);
    ("TThostFtdcRightTemplateIDType", TThostFtdcRightTemplateIDType);
    ("TThostFtdcRightTemplateNameType", TThostFtdcRightTemplateNameType);
    ("TThostFtdcDataStatusType", TThostFtdcDataStatusType);
    ("TThostFtdcAMLCheckStatusType", TThostFtdcAMLCheckStatusType);
    ("TThostFtdcAmlDateTypeType", TThostFtdcAmlDateTypeType);
    ("TThostFtdcAmlCheckLevelType", TThostFtdcAmlCheckLevelType);
    ("TThostFtdcAmlCheckFlowType", TThostFtdcAmlCheckFlowType);
    ("TThostFtdcDataTypeType", TThostFtdcDataTypeType);
    ("TThostFtdcExportFileTypeType", TThostFtdcExportFileTypeType);
    ("TThostFtdcSettleManagerTypeType", TThostFtdcSettleManagerTypeType);
    ("TThostFtdcSettleManagerIDType", TThostFtdcSettleManagerIDType);
    ("TThostFtdcSettleManagerNameType", TThostFtdcSettleManagerNameType);
    ("TThostFtdcSettleManagerLevelType", TThostFtdcSettleManagerLevelType);
    ("TThostFtdcSettleManagerGroupType", TThostFtdcSettleManagerGroupType);
    ("TThostFtdcCheckResultMemoType", TThostFtdcCheckResultMemoType);
    ("TThostFtdcFunctionUrlType", TThostFtdcFunctionUrlType);
    ("TThostFtdcAuthInfoType", TThostFtdcAuthInfoType);
    ("TThostFtdcAuthCodeType", TThostFtdcAuthCodeType);
    ("TThostFtdcLimitUseTypeType", TThostFtdcLimitUseTypeType);
    ("TThostFtdcDataResourceType", TThostFtdcDataResourceType);
    ("TThostFtdcMarginTypeType", TThostFtdcMarginTypeType);
    ("TThostFtdcActiveTypeType", TThostFtdcActiveTypeType);
    ("TThostFtdcMarginRateTypeType", TThostFtdcMarginRateTypeType);
    ("TThostFtdcBackUpStatusType", TThostFtdcBackUpStatusType);
    ("TThostFtdcInitSettlementType", TThostFtdcInitSettlementType);
    ("TThostFtdcReportStatusType", TThostFtdcReportStatusType);
    ("TThostFtdcSaveStatusType", TThostFtdcSaveStatusType);
    ("TThostFtdcSettArchiveStatusType", TThostFtdcSettArchiveStatusType);
    ("TThostFtdcCTPTypeType", TThostFtdcCTPTypeType);
    ("TThostFtdcToolIDType", TThostFtdcToolIDType);
    ("TThostFtdcToolNameType", TThostFtdcToolNameType);
    ("TThostFtdcCloseDealTypeType", TThostFtdcCloseDealTypeType);
    ("TThostFtdcMortgageFundUseRangeType", TThostFtdcMortgageFundUseRangeType);
    ("TThostFtdcCurrencyUnitType", TThostFtdcCurrencyUnitType);
    ("TThostFtdcExchangeRateType", TThostFtdcExchangeRateType);
    ("TThostFtdcSpecProductTypeType", TThostFtdcSpecProductTypeType);
    ("TThostFtdcFundMortgageTypeType", TThostFtdcFundMortgageTypeType);
    ("TThostFtdcAccountSettlementParamIDType", TThostFtdcAccountSettlementParamIDType);
    ("TThostFtdcCurrencyNameType", TThostFtdcCurrencyNameType);
    ("TThostFtdcCurrencySignType", TThostFtdcCurrencySignType);
    ("TThostFtdcFundMortDirectionType", TThostFtdcFundMortDirectionType);
    ("TThostFtdcBusinessClassType", TThostFtdcBusinessClassType);
    ("TThostFtdcSwapSourceTypeType", TThostFtdcSwapSourceTypeType);
    ("TThostFtdcCurrExDirectionType", TThostFtdcCurrExDirectionType);
    ("TThostFtdcCurrencySwapStatusType", TThostFtdcCurrencySwapStatusType);
    ("TThostFtdcCurrExchCertNoType", TThostFtdcCurrExchCertNoType);
    ("TThostFtdcBatchSerialNoType", TThostFtdcBatchSerialNoType);
    ("TThostFtdcReqFlagType", TThostFtdcReqFlagType);
    ("TThostFtdcResFlagType", TThostFtdcResFlagType);
    ("TThostFtdcPageControlType", TThostFtdcPageControlType);
    ("TThostFtdcRecordCountType", TThostFtdcRecordCountType);
    ("TThostFtdcCurrencySwapMemoType", TThostFtdcCurrencySwapMemoType);
    ("TThostFtdcExStatusType", TThostFtdcExStatusType);
    ("TThostFtdcClientRegionType", TThostFtdcClientRegionType);
    ("TThostFtdcWorkPlaceType", TThostFtdcWorkPlaceType);
    ("TThostFtdcBusinessPeriodType", TThostFtdcBusinessPeriodType);
    ("TThostFtdcWebSiteType", TThostFtdcWebSiteType);
    ("TThostFtdcUOAIdCardTypeType", TThostFtdcUOAIdCardTypeType);
    ("TThostFtdcClientModeType", TThostFtdcClientModeType);
    ("TThostFtdcInvestorFullNameType", TThostFtdcInvestorFullNameType);
    ("TThostFtdcUOABrokerIDType", TThostFtdcUOABrokerIDType);
    ("TThostFtdcUOAZipCodeType", TThostFtdcUOAZipCodeType);
    ("TThostFtdcUOAEMailType", TThostFtdcUOAEMailType);
    ("TThostFtdcOldCityType", TThostFtdcOldCityType);
    ("TThostFtdcCorporateIdentifiedCardNoType", TThostFtdcCorporateIdentifiedCardNoType);
    ("TThostFtdcHasBoardType", TThostFtdcHasBoardType);
    ("TThostFtdcStartModeType", TThostFtdcStartModeType);
    ("TThostFtdcTemplateTypeType", TThostFtdcTemplateTypeType);
    ("TThostFtdcLoginModeType", TThostFtdcLoginModeType);
    ("TThostFtdcPromptTypeType", TThostFtdcPromptTypeType);
    ("TThostFtdcLedgerManageIDType", TThostFtdcLedgerManageIDType);
    ("TThostFtdcInvestVarietyType", TThostFtdcInvestVarietyType);
    ("TThostFtdcBankAccountTypeType", TThostFtdcBankAccountTypeType);
    ("TThostFtdcLedgerManageBankType", TThostFtdcLedgerManageBankType);
    ("TThostFtdcCffexDepartmentNameType", TThostFtdcCffexDepartmentNameType);
    ("TThostFtdcCffexDepartmentCodeType", TThostFtdcCffexDepartmentCodeType);
    ("TThostFtdcHasTrusteeType", TThostFtdcHasTrusteeType);
    ("TThostFtdcCSRCMemo1Type", TThostFtdcCSRCMemo1Type);
    ("TThostFtdcAssetmgrCFullNameType", TThostFtdcAssetmgrCFullNameType);
    ("TThostFtdcAssetmgrApprovalNOType", TThostFtdcAssetmgrApprovalNOType);
    ("TThostFtdcAssetmgrMgrNameType", TThostFtdcAssetmgrMgrNameType);
    ("TThostFtdcAmTypeType", TThostFtdcAmTypeType);
    ("TThostFtdcCSRCAmTypeType", TThostFtdcCSRCAmTypeType);
    ("TThostFtdcCSRCFundIOTypeType", TThostFtdcCSRCFundIOTypeType);
    ("TThostFtdcCusAccountTypeType", TThostFtdcCusAccountTypeType);
    ("TThostFtdcCSRCNationalType", TThostFtdcCSRCNationalType);
    ("TThostFtdcCSRCSecAgentIDType", TThostFtdcCSRCSecAgentIDType);
    ("TThostFtdcLanguageTypeType", TThostFtdcLanguageTypeType);
    ("TThostFtdcAmAccountType", TThostFtdcAmAccountType);
    ("TThostFtdcAssetmgrClientTypeType", TThostFtdcAssetmgrClientTypeType);
    ("TThostFtdcAssetmgrTypeType", TThostFtdcAssetmgrTypeType);
    ("TThostFtdcUOMType", TThostFtdcUOMType);
    ("TThostFtdcSHFEInstLifePhaseType", TThostFtdcSHFEInstLifePhaseType);
    ("TThostFtdcSHFEProductClassType", TThostFtdcSHFEProductClassType);
    ("TThostFtdcPriceDecimalType", TThostFtdcPriceDecimalType);
    ("TThostFtdcInTheMoneyFlagType", TThostFtdcInTheMoneyFlagType);
    ("TThostFtdcCheckInstrTypeType", TThostFtdcCheckInstrTypeType);
    ("TThostFtdcDeliveryTypeType", TThostFtdcDeliveryTypeType);
    ("TThostFtdcBigMoneyType", TThostFtdcBigMoneyType);
    ("TThostFtdcMaxMarginSideAlgorithmType", TThostFtdcMaxMarginSideAlgorithmType);
    ("TThostFtdcDAClientTypeType", TThostFtdcDAClientTypeType);
    ("TThostFtdcCombinInstrIDType", TThostFtdcCombinInstrIDType);
    ("TThostFtdcCombinSettlePriceType", TThostFtdcCombinSettlePriceType);
    ("TThostFtdcDCEPriorityType", TThostFtdcDCEPriorityType);
    ("TThostFtdcTradeGroupIDType", TThostFtdcTradeGroupIDType);
    ("TThostFtdcIsCheckPrepaType", TThostFtdcIsCheckPrepaType);
    ("TThostFtdcUOAAssetmgrTypeType", TThostFtdcUOAAssetmgrTypeType);
    ("TThostFtdcDirectionEnType", TThostFtdcDirectionEnType);
    ("TThostFtdcOffsetFlagEnType", TThostFtdcOffsetFlagEnType);
    ("TThostFtdcHedgeFlagEnType", TThostFtdcHedgeFlagEnType);
    ("TThostFtdcFundIOTypeEnType", TThostFtdcFundIOTypeEnType);
    ("TThostFtdcFundTypeEnType", TThostFtdcFundTypeEnType);
    ("TThostFtdcFundDirectionEnType", TThostFtdcFundDirectionEnType);
    ("TThostFtdcFundMortDirectionEnType", TThostFtdcFundMortDirectionEnType);
    ("TThostFtdcSwapBusinessTypeType", TThostFtdcSwapBusinessTypeType);
    ("TThostFtdcOptionsTypeType", TThostFtdcOptionsTypeType);
    ("TThostFtdcStrikeModeType", TThostFtdcStrikeModeType);
    ("TThostFtdcStrikeTypeType", TThostFtdcStrikeTypeType);
    ("TThostFtdcApplyTypeType", TThostFtdcApplyTypeType);
    ("TThostFtdcGiveUpDataSourceType", TThostFtdcGiveUpDataSourceType);
    ("TThostFtdcExecOrderSysIDType", TThostFtdcExecOrderSysIDType);
    ("TThostFtdcExecResultType", TThostFtdcExecResultType);
    ("TThostFtdcStrikeSequenceType", TThostFtdcStrikeSequenceType);
    ("TThostFtdcStrikeTimeType", TThostFtdcStrikeTimeType);
    ("TThostFtdcCombinationTypeType", TThostFtdcCombinationTypeType);
    ("TThostFtdcDceCombinationTypeType", TThostFtdcDceCombinationTypeType);
    ("TThostFtdcOptionRoyaltyPriceTypeType", TThostFtdcOptionRoyaltyPriceTypeType);
    ("TThostFtdcBalanceAlgorithmType", TThostFtdcBalanceAlgorithmType);
    ("TThostFtdcActionTypeType", TThostFtdcActionTypeType);
    ("TThostFtdcForQuoteStatusType", TThostFtdcForQuoteStatusType);
    ("TThostFtdcValueMethodType", TThostFtdcValueMethodType);
    ("TThostFtdcExecOrderPositionFlagType", TThostFtdcExecOrderPositionFlagType);
    ("TThostFtdcExecOrderCloseFlagType", TThostFtdcExecOrderCloseFlagType);
    ("TThostFtdcProductTypeType", TThostFtdcProductTypeType);
    ("TThostFtdcCZCEUploadFileNameType", TThostFtdcCZCEUploadFileNameType);
    ("TThostFtdcDCEUploadFileNameType", TThostFtdcDCEUploadFileNameType);
    ("TThostFtdcSHFEUploadFileNameType", TThostFtdcSHFEUploadFileNameType);
    ("TThostFtdcCFFEXUploadFileNameType", TThostFtdcCFFEXUploadFileNameType);
    ("TThostFtdcCombDirectionType", TThostFtdcCombDirectionType);
    ("TThostFtdcStrikeOffsetTypeType", TThostFtdcStrikeOffsetTypeType);
    ("TThostFtdcReserveOpenAccStasType", TThostFtdcReserveOpenAccStasType);
    ("TThostFtdcLoginRemarkType", TThostFtdcLoginRemarkType);
    ("TThostFtdcInvestUnitIDType", TThostFtdcInvestUnitIDType);
    ("TThostFtdcBulletinIDType", TThostFtdcBulletinIDType);
    ("TThostFtdcNewsTypeType", TThostFtdcNewsTypeType);
    ("TThostFtdcNewsUrgencyType", TThostFtdcNewsUrgencyType);
    ("TThostFtdcAbstractType", TThostFtdcAbstractType);
    ("TThostFtdcComeFromType", TThostFtdcComeFromType);
    ("TThostFtdcURLLinkType", TThostFtdcURLLinkType);
    ("TThostFtdcLongIndividualNameType", TThostFtdcLongIndividualNameType);
    ("TThostFtdcLongFBEBankAccountNameType", TThostFtdcLongFBEBankAccountNameType);
    ("TThostFtdcDateTimeType", TThostFtdcDateTimeType);
    ("TThostFtdcWeakPasswordSourceType", TThostFtdcWeakPasswordSourceType);
    ("TThostFtdcRandomStringType", TThostFtdcRandomStringType);
    ("TThostFtdcOrderMemoType", TThostFtdcOrderMemoType);
    ("TThostFtdcOptSelfCloseFlagType", TThostFtdcOptSelfCloseFlagType);
    ("TThostFtdcBizTypeType", TThostFtdcBizTypeType);
    ("TThostFtdcAppTypeType", TThostFtdcAppTypeType);
    ("TThostFtdcAppIDType", TThostFtdcAppIDType);
    ("TThostFtdcSystemInfoLenType", TThostFtdcSystemInfoLenType);
    ("TThostFtdcAdditionalInfoLenType", TThostFtdcAdditionalInfoLenType);
    ("TThostFtdcClientSystemInfoType", TThostFtdcClientSystemInfoType);
    ("TThostFtdcAdditionalInfoType", TThostFtdcAdditionalInfoType);
    ("TThostFtdcBase64ClientSystemInfoType", TThostFtdcBase64ClientSystemInfoType);
    ("TThostFtdcBase64AdditionalInfoType", TThostFtdcBase64AdditionalInfoType);
    ("TThostFtdcCurrentAuthMethodType", TThostFtdcCurrentAuthMethodType);
    ("TThostFtdcCaptchaInfoLenType", TThostFtdcCaptchaInfoLenType);
    ("TThostFtdcCaptchaInfoType", TThostFtdcCaptchaInfoType);
    ("TThostFtdcUserTextSeqType", TThostFtdcUserTextSeqType);
    ("TThostFtdcHandshakeDataType", TThostFtdcHandshakeDataType);
    ("TThostFtdcHandshakeDataLenType", TThostFtdcHandshakeDataLenType);
    ("TThostFtdcCryptoKeyVersionType", TThostFtdcCryptoKeyVersionType);
    ("TThostFtdcRsaKeyVersionType", TThostFtdcRsaKeyVersionType);
    ("TThostFtdcSoftwareProviderIDType", TThostFtdcSoftwareProviderIDType);
    ("TThostFtdcCollectTimeType", TThostFtdcCollectTimeType);
    ("TThostFtdcQueryFreqType", TThostFtdcQueryFreqType);
    ("TThostFtdcResponseValueType", TThostFtdcResponseValueType);
    ("TThostFtdcOTCTradeTypeType", TThostFtdcOTCTradeTypeType);
    ("TThostFtdcMatchTypeType", TThostFtdcMatchTypeType);
    ("TThostFtdcOTCTraderIDType", TThostFtdcOTCTraderIDType);
    ("TThostFtdcRiskValueType", TThostFtdcRiskValueType);
    ("TThostFtdcIDBNameType", TThostFtdcIDBNameType);
    ("TThostFtdcDiscountRatioType", TThostFtdcDiscountRatioType);
    ("TThostFtdcAuthTypeType", TThostFtdcAuthTypeType);
    ("TThostFtdcClassTypeType", TThostFtdcClassTypeType);
    ("TThostFtdcTradingTypeType", TThostFtdcTradingTypeType);
    ("TThostFtdcProductStatusType", TThostFtdcProductStatusType);
    ("TThostFtdcSyncDeltaStatusType", TThostFtdcSyncDeltaStatusType);
    ("TThostFtdcActionDirectionType", TThostFtdcActionDirectionType);
    ("TThostFtdcOrderCancelAlgType", TThostFtdcOrderCancelAlgType);
    ("TThostFtdcSyncDescriptionType", TThostFtdcSyncDescriptionType);
    ("TThostFtdcCommonIntType", TThostFtdcCommonIntType);
    ("TThostFtdcSysVersionType", TThostFtdcSysVersionType);
    ("TThostFtdcOpenLimitControlLevelType", TThostFtdcOpenLimitControlLevelType);
    ("TThostFtdcOrderFreqControlLevelType", TThostFtdcOrderFreqControlLevelType);
    ("TThostFtdcEnumBoolType", TThostFtdcEnumBoolType);
    ("TThostFtdcTimeRangeType", TThostFtdcTimeRangeType);
    ("TThostFtdcDeltaType", TThostFtdcDeltaType);
    ("TThostFtdcSpreadIdType", TThostFtdcSpreadIdType);
    ("TThostFtdcPortfolioType", TThostFtdcPortfolioType);
    ("TThostFtdcPortfolioDefIDType", TThostFtdcPortfolioDefIDType);
    ("TThostFtdcWithDrawParamIDType", TThostFtdcWithDrawParamIDType);
    ("TThostFtdcWithDrawParamValueType", TThostFtdcWithDrawParamValueType);
    ("TThostFtdcInvstTradingRightType", TThostFtdcInvstTradingRightType);
    ("TThostFtdcThostFunctionCodeType", TThostFtdcThostFunctionCodeType);
    ("TThostFtdcSPMMDiscountRatioType", TThostFtdcSPMMDiscountRatioType);
    ("TThostFtdcSPMMModelDescType", TThostFtdcSPMMModelDescType);
    ("TThostFtdcSPMMModelIDType", TThostFtdcSPMMModelIDType);
    ("TThostFtdcSPMMProductIDType", TThostFtdcSPMMProductIDType);
    ("TThostFtdcInstMarginCalIDType", TThostFtdcInstMarginCalIDType);
    ("TThostFtdcProductIDType", TThostFtdcProductIDType);
    ("TThostFtdcHedgeRateType", TThostFtdcHedgeRateType);
    ("TThostFtdcRCAMSPriorityType", TThostFtdcRCAMSPriorityType);
    ("TThostFtdcAdjustValueType", TThostFtdcAdjustValueType);
    ("TThostFtdcRCAMSCombinationTypeType", TThostFtdcRCAMSCombinationTypeType);
    ("TThostFtdcRuleIdType", TThostFtdcRuleIdType);
    ("TThostFtdcPortfTypeType", TThostFtdcPortfTypeType);
    ("TThostFtdcInstrumentClassType", TThostFtdcInstrumentClassType);
    ("TThostFtdcCommodityGroupIDType", TThostFtdcCommodityGroupIDType);
    ("TThostFtdcStdPositionType", TThostFtdcStdPositionType);
    ("TThostFtdcProdChangeFlagType", TThostFtdcProdChangeFlagType);
    ("TThostFtdcPwdRcdSrcType", TThostFtdcPwdRcdSrcType) ].
Proof. reflexivity. Qed.

End DataTypes.
