(* ===== verification/Constants.v ===== *)
(** * Constants of the module

    The calls of [SWIG_Python_SetConstant] in [SWIG_mod_exec] of ctp_wrap.cpp,
    in order, and the constants ctp.i tells SWIG to ignore; and that together
    they are the enumeration and the codes of ThostFtdcUserApiDataType.h. *)

From S2P Require Import Prelude Layout DataTypes.

Module Constants.
Import Layout DataTypes.
Local Open Scope string_scope.
Local Open Scope list_scope.

(** The value given: the conversion used, [SWIG_From_int] or [SWIG_From_char],
    and its argument. *)
Inductive constant := CInt (z : Z) | CChar (c : Z).

#[export] Instance constant_eq_dec : EqDecision constant.
Proof. solve_decision. Defined.

(** ** What the module sets *)

(** ctp_wrap.cpp, lines 508707 to 508856. *)
Definition module_constants_0 : list (string * constant) :=
  [ ("THOST_TERT_RESTART", CInt 0);
    ("THOST_TERT_RESUME", CInt 1);
    ("THOST_TERT_QUICK", CInt 2);
    ("THOST_TERT_NONE", CInt 3);
    ("THOST_FTDC_EXP_Normal", CChar 48);
    ("THOST_FTDC_EXP_GenOrderByTrade", CChar 49);
    ("THOST_FTDC_ICT_EID", CChar 48);
    ("THOST_FTDC_ICT_IDCard", CChar 49);
    ("THOST_FTDC_ICT_OfficerIDCard", CChar 50);
    ("THOST_FTDC_ICT_PoliceIDCard", CChar 51);
    ("THOST_FTDC_ICT_SoldierIDCard", CChar 52);
    ("THOST_FTDC_ICT_HouseholdRegister", CChar 53);
    ("THOST_FTDC_ICT_Passport", CChar 54);
    ("THOST_FTDC_ICT_TaiwanCompatriotIDCard", CChar 55);
    ("THOST_FTDC_ICT_HomeComingCard", CChar 56);
    ("THOST_FTDC_ICT_LicenseNo", CChar 57);
    ("THOST_FTDC_ICT_TaxNo", CChar 65);
    ("THOST_FTDC_ICT_HMMainlandTravelPermit", CChar 66);
    ("THOST_FTDC_ICT_TwMainlandTravelPermit", CChar 67);
    ("THOST_FTDC_ICT_DrivingLicense", CChar 68);
    ("THOST_FTDC_ICT_SocialID", CChar 70);
    ("THOST_FTDC_ICT_LocalID", CChar 71);
    ("THOST_FTDC_ICT_BusinessRegistration", CChar 72);
    ("THOST_FTDC_ICT_HKMCIDCard", CChar 73);
    ("THOST_FTDC_ICT_AccountsPermits", CChar 74);
    ("THOST_FTDC_ICT_FrgPrmtRdCard", CChar 75);
    ("THOST_FTDC_ICT_CptMngPrdLetter", CChar 76);
    ("THOST_FTDC_ICT_HKMCTwResidencePermit", CChar 77);
    ("THOST_FTDC_ICT_UniformSocialCreditCode", CChar 78);
    ("THOST_FTDC_ICT_CorporationCertNo", CChar 79);
    ("THOST_FTDC_ICT_OtherCard", CChar 120);
    ("THOST_FTDC_IR_All", CChar 49);
    ("THOST_FTDC_IR_Group", CChar 50);
    ("THOST_FTDC_IR_Single", CChar 51);
    ("THOST_FTDC_DR_All", CChar 49);
    ("THOST_FTDC_DR_Group", CChar 50);
    ("THOST_FTDC_DR_Single", CChar 51);
    ("THOST_FTDC_DS_Asynchronous", CChar 49);
    ("THOST_FTDC_DS_Synchronizing", CChar 50);
    ("THOST_FTDC_DS_Synchronized", CChar 51);
    ("THOST_FTDC_BDS_Synchronized", CChar 49);
    ("THOST_FTDC_BDS_Synchronizing", CChar 50);
    ("THOST_FTDC_ECS_NoConnection", CChar 49);
    ("THOST_FTDC_ECS_QryInstrumentSent", CChar 50);
    ("THOST_FTDC_ECS_GotInformation", CChar 57);
    ("THOST_FTDC_TCS_NotConnected", CChar 49);
    ("THOST_FTDC_TCS_Connected", CChar 50);
    ("THOST_FTDC_TCS_QryInstrumentSent", CChar 51);
    ("THOST_FTDC_TCS_SubPrivateFlow", CChar 52);
    ("THOST_FTDC_FC_DataAsync", CChar 49);
    ("THOST_FTDC_FC_ForceUserLogout", CChar 50);
    ("THOST_FTDC_FC_UserPasswordUpdate", CChar 51);
    ("THOST_FTDC_FC_BrokerPasswordUpdate", CChar 52);
    ("THOST_FTDC_FC_InvestorPasswordUpdate", CChar 53);
    ("THOST_FTDC_FC_OrderInsert", CChar 54);
    ("THOST_FTDC_FC_OrderAction", CChar 55);
    ("THOST_FTDC_FC_SyncSystemData", CChar 56);
    ("THOST_FTDC_FC_SyncBrokerData", CChar 57);
    ("THOST_FTDC_FC_BachSyncBrokerData", CChar 65);
    ("THOST_FTDC_FC_SuperQuery", CChar 66);
    ("THOST_FTDC_FC_ParkedOrderInsert", CChar 67);
    ("THOST_FTDC_FC_ParkedOrderAction", CChar 68);
    ("THOST_FTDC_FC_SyncOTP", CChar 69);
    ("THOST_FTDC_FC_DeleteOrder", CChar 70);
    ("THOST_FTDC_FC_ExitEmergency", CChar 71);
    ("THOST_FTDC_BFC_ForceUserLogout", CChar 49);
    ("THOST_FTDC_BFC_UserPasswordUpdate", CChar 50);
    ("THOST_FTDC_BFC_SyncBrokerData", CChar 51);
    ("THOST_FTDC_BFC_BachSyncBrokerData", CChar 52);
    ("THOST_FTDC_BFC_OrderInsert", CChar 53);
    ("THOST_FTDC_BFC_OrderAction", CChar 54);
    ("THOST_FTDC_BFC_AllQuery", CChar 55);
    ("THOST_FTDC_BFC_log", CChar 97);
    ("THOST_FTDC_BFC_BaseQry", CChar 98);
    ("THOST_FTDC_BFC_TradeQry", CChar 99);
    ("THOST_FTDC_BFC_Trade", CChar 100);
    ("THOST_FTDC_BFC_Virement", CChar 101);
    ("THOST_FTDC_BFC_Risk", CChar 102);
    ("THOST_FTDC_BFC_Session", CChar 103);
    ("THOST_FTDC_BFC_RiskNoticeCtl", CChar 104);
    ("THOST_FTDC_BFC_RiskNotice", CChar 105);
    ("THOST_FTDC_BFC_BrokerDeposit", CChar 106);
    ("THOST_FTDC_BFC_QueryFund", CChar 107);
    ("THOST_FTDC_BFC_QueryOrder", CChar 108);
    ("THOST_FTDC_BFC_QueryTrade", CChar 109);
    ("THOST_FTDC_BFC_QueryPosition", CChar 110);
    ("THOST_FTDC_BFC_QueryMarketData", CChar 111);
    ("THOST_FTDC_BFC_QueryUserEvent", CChar 112);
    ("THOST_FTDC_BFC_QueryRiskNotify", CChar 113);
    ("THOST_FTDC_BFC_QueryFundChange", CChar 114);
    ("THOST_FTDC_BFC_QueryInvestor", CChar 115);
    ("THOST_FTDC_BFC_QueryTradingCode", CChar 116);
    ("THOST_FTDC_BFC_ForceClose", CChar 117);
    ("THOST_FTDC_BFC_PressTest", CChar 118);
    ("THOST_FTDC_BFC_RemainCalc", CChar 119);
    ("THOST_FTDC_BFC_NetPositionInd", CChar 120);
    ("THOST_FTDC_BFC_RiskPredict", CChar 121);
    ("THOST_FTDC_BFC_DataExport", CChar 122);
    ("THOST_FTDC_BFC_RiskTargetSetup", CChar 65);
    ("THOST_FTDC_BFC_MarketDataWarn", CChar 66);
    ("THOST_FTDC_BFC_QryBizNotice", CChar 67);
    ("THOST_FTDC_BFC_CfgBizNotice", CChar 68);
    ("THOST_FTDC_BFC_SyncOTP", CChar 69);
    ("THOST_FTDC_BFC_SendBizNotice", CChar 70);
    ("THOST_FTDC_BFC_CfgRiskLevelStd", CChar 71);
    ("THOST_FTDC_BFC_TbCommand", CChar 72);
    ("THOST_FTDC_BFC_DeleteOrder", CChar 74);
    ("THOST_FTDC_BFC_ParkedOrderInsert", CChar 75);
    ("THOST_FTDC_BFC_ParkedOrderAction", CChar 76);
    ("THOST_FTDC_BFC_ExecOrderNoCheck", CChar 77);
    ("THOST_FTDC_BFC_Designate", CChar 78);
    ("THOST_FTDC_BFC_StockDisposal", CChar 79);
    ("THOST_FTDC_BFC_BrokerDepositWarn", CChar 81);
    ("THOST_FTDC_BFC_CoverWarn", CChar 83);
    ("THOST_FTDC_BFC_PreExecOrder", CChar 84);
    ("THOST_FTDC_BFC_ExecOrderRisk", CChar 80);
    ("THOST_FTDC_BFC_PosiLimitWarn", CChar 85);
    ("THOST_FTDC_BFC_QryPosiLimit", CChar 86);
    ("THOST_FTDC_BFC_FBSign", CChar 87);
    ("THOST_FTDC_BFC_FBAccount", CChar 88);
    ("THOST_FTDC_OAS_Submitted", CChar 97);
    ("THOST_FTDC_OAS_Accepted", CChar 98);
    ("THOST_FTDC_OAS_Rejected", CChar 99);
    ("THOST_FTDC_OST_AllTraded", CChar 48);
    ("THOST_FTDC_OST_PartTradedQueueing", CChar 49);
    ("THOST_FTDC_OST_PartTradedNotQueueing", CChar 50);
    ("THOST_FTDC_OST_NoTradeQueueing", CChar 51);
    ("THOST_FTDC_OST_NoTradeNotQueueing", CChar 52);
    ("THOST_FTDC_OST_Canceled", CChar 53);
    ("THOST_FTDC_OST_Unknown", CChar 97);
    ("THOST_FTDC_OST_NotTouched", CChar 98);
    ("THOST_FTDC_OST_Touched", CChar 99);
    ("THOST_FTDC_OSS_InsertSubmitted", CChar 48);
    ("THOST_FTDC_OSS_CancelSubmitted", CChar 49);
    ("THOST_FTDC_OSS_ModifySubmitted", CChar 50);
    ("THOST_FTDC_OSS_Accepted", CChar 51);
    ("THOST_FTDC_OSS_InsertRejected", CChar 52);
    ("THOST_FTDC_OSS_CancelRejected", CChar 53);
    ("THOST_FTDC_OSS_ModifyRejected", CChar 54);
    ("THOST_FTDC_PSD_Today", CChar 49);
    ("THOST_FTDC_PSD_History", CChar 50);
    ("THOST_FTDC_PDT_UseHistory", CChar 49);
    ("THOST_FTDC_PDT_NoUseHistory", CChar 50);
    ("THOST_FTDC_ER_Broker", CChar 49);
    ("THOST_FTDC_ER_Host", CChar 50);
    ("THOST_FTDC_ER_Maker", CChar 51);
    ("THOST_FTDC_PC_Futures", CChar 49);
    ("THOST_FTDC_PC_Options", CChar 50);
    ("THOST_FTDC_PC_Combination", CChar 51);
    ("THOST_FTDC_PC_Spot", CChar 52) ].

(** ctp_wrap.cpp, lines 508857 to 509006. *)
Definition module_constants_1 : list (string * constant) :=
  [ ("THOST_FTDC_PC_EFP", CChar 53);
    ("THOST_FTDC_PC_SpotOption", CChar 54);
    ("THOST_FTDC_PC_TAS", CChar 55);
    ("THOST_FTDC_PC_MI", CChar 73);
    ("THOST_FTDC_APC_FutureSingle", CChar 49);
    ("THOST_FTDC_APC_OptionSingle", CChar 50);
    ("THOST_FTDC_APC_Futures", CChar 51);
    ("THOST_FTDC_APC_Options", CChar 52);
    ("THOST_FTDC_APC_TradingComb", CChar 53);
    ("THOST_FTDC_APC_UnTradingComb", CChar 54);
    ("THOST_FTDC_APC_AllTrading", CChar 55);
    ("THOST_FTDC_APC_All", CChar 56);
    ("THOST_FTDC_IP_NotStart", CChar 48);
    ("THOST_FTDC_IP_Started", CChar 49);
    ("THOST_FTDC_IP_Pause", CChar 50);
    ("THOST_FTDC_IP_Expired", CChar 51);
    ("THOST_FTDC_D_Buy", CChar 48);
    ("THOST_FTDC_D_Sell", CChar 49);
    ("THOST_FTDC_PT_Net", CChar 49);
    ("THOST_FTDC_PT_Gross", CChar 50);
    ("THOST_FTDC_PD_Net", CChar 49);
    ("THOST_FTDC_PD_Long", CChar 50);
    ("THOST_FTDC_PD_Short", CChar 51);
    ("THOST_FTDC_SS_NonActive", CChar 49);
    ("THOST_FTDC_SS_Startup", CChar 50);
    ("THOST_FTDC_SS_Operating", CChar 51);
    ("THOST_FTDC_SS_Settlement", CChar 52);
    ("THOST_FTDC_SS_SettlementFinished", CChar 53);
    ("THOST_FTDC_RA_Trade", CChar 48);
    ("THOST_FTDC_RA_Settlement", CChar 49);
    ("THOST_FTDC_HF_Speculation", CChar 49);
    ("THOST_FTDC_HF_Arbitrage", CChar 50);
    ("THOST_FTDC_HF_Hedge", CChar 51);
    ("THOST_FTDC_HF_MarketMaker", CChar 53);
    ("THOST_FTDC_HF_SpecHedge", CChar 54);
    ("THOST_FTDC_HF_HedgeSpec", CChar 55);
    ("THOST_FTDC_BHF_Speculation", CChar 49);
    ("THOST_FTDC_BHF_Arbitrage", CChar 50);
    ("THOST_FTDC_BHF_Hedge", CChar 51);
    ("THOST_FTDC_CIDT_Speculation", CChar 49);
    ("THOST_FTDC_CIDT_Arbitrage", CChar 50);
    ("THOST_FTDC_CIDT_Hedge", CChar 51);
    ("THOST_FTDC_CIDT_MarketMaker", CChar 53);
    ("THOST_FTDC_OPT_AnyPrice", CChar 49);
    ("THOST_FTDC_OPT_LimitPrice", CChar 50);
    ("THOST_FTDC_OPT_BestPrice", CChar 51);
    ("THOST_FTDC_OPT_LastPrice", CChar 52);
    ("THOST_FTDC_OPT_LastPricePlusOneTicks", CChar 53);
    ("THOST_FTDC_OPT_LastPricePlusTwoTicks", CChar 54);
    ("THOST_FTDC_OPT_LastPricePlusThreeTicks", CChar 55);
    ("THOST_FTDC_OPT_AskPrice1", CChar 56);
    ("THOST_FTDC_OPT_AskPrice1PlusOneTicks", CChar 57);
    ("THOST_FTDC_OPT_AskPrice1PlusTwoTicks", CChar 65);
    ("THOST_FTDC_OPT_AskPrice1PlusThreeTicks", CChar 66);
    ("THOST_FTDC_OPT_BidPrice1", CChar 67);
    ("THOST_FTDC_OPT_BidPrice1PlusOneTicks", CChar 68);
    ("THOST_FTDC_OPT_BidPrice1PlusTwoTicks", CChar 69);
    ("THOST_FTDC_OPT_BidPrice1PlusThreeTicks", CChar 70);
    ("THOST_FTDC_OPT_FiveLevelPrice", CChar 71);
    ("THOST_FTDC_OF_Open", CChar 48);
    ("THOST_FTDC_OF_Close", CChar 49);
    ("THOST_FTDC_OF_ForceClose", CChar 50);
    ("THOST_FTDC_OF_CloseToday", CChar 51);
    ("THOST_FTDC_OF_CloseYesterday", CChar 52);
    ("THOST_FTDC_OF_ForceOff", CChar 53);
    ("THOST_FTDC_OF_LocalForceClose", CChar 54);
    ("THOST_FTDC_FCC_NotForceClose", CChar 48);
    ("THOST_FTDC_FCC_LackDeposit", CChar 49);
    ("THOST_FTDC_FCC_ClientOverPositionLimit", CChar 50);
    ("THOST_FTDC_FCC_MemberOverPositionLimit", CChar 51);
    ("THOST_FTDC_FCC_NotMultiple", CChar 52);
    ("THOST_FTDC_FCC_Violation", CChar 53);
    ("THOST_FTDC_FCC_Other", CChar 54);
    ("THOST_FTDC_FCC_PersonDeliv", CChar 55);
    ("THOST_FTDC_FCC_Notverifycapital", CChar 56);
    ("THOST_FTDC_FCC_LocalLackDeposit", CChar 57);
    ("THOST_FTDC_FCC_LocalViolationNocheck", CChar 97);
    ("THOST_FTDC_FCC_LocalViolation", CChar 98);
    ("THOST_FTDC_ORDT_Normal", CChar 48);
    ("THOST_FTDC_ORDT_DeriveFromQuote", CChar 49);
    ("THOST_FTDC_ORDT_DeriveFromCombination", CChar 50);
    ("THOST_FTDC_ORDT_Combination", CChar 51);
    ("THOST_FTDC_ORDT_ConditionalOrder", CChar 52);
    ("THOST_FTDC_ORDT_Swap", CChar 53);
    ("THOST_FTDC_ORDT_DeriveFromBlockTrade", CChar 54);
    ("THOST_FTDC_ORDT_DeriveFromEFPTrade", CChar 55);
    ("THOST_FTDC_TC_IOC", CChar 49);
    ("THOST_FTDC_TC_GFS", CChar 50);
    ("THOST_FTDC_TC_GFD", CChar 51);
    ("THOST_FTDC_TC_GTD", CChar 52);
    ("THOST_FTDC_TC_GTC", CChar 53);
    ("THOST_FTDC_TC_GFA", CChar 54);
    ("THOST_FTDC_VC_AV", CChar 49);
    ("THOST_FTDC_VC_MV", CChar 50);
    ("THOST_FTDC_VC_CV", CChar 51);
    ("THOST_FTDC_CC_Immediately", CChar 49);
    ("THOST_FTDC_CC_Touch", CChar 50);
    ("THOST_FTDC_CC_TouchProfit", CChar 51);
    ("THOST_FTDC_CC_ParkedOrder", CChar 52);
    ("THOST_FTDC_CC_LastPriceGreaterThanStopPrice", CChar 53);
    ("THOST_FTDC_CC_LastPriceGreaterEqualStopPrice", CChar 54);
    ("THOST_FTDC_CC_LastPriceLesserThanStopPrice", CChar 55);
    ("THOST_FTDC_CC_LastPriceLesserEqualStopPrice", CChar 56);
    ("THOST_FTDC_CC_AskPriceGreaterThanStopPrice", CChar 57);
    ("THOST_FTDC_CC_AskPriceGreaterEqualStopPrice", CChar 65);
    ("THOST_FTDC_CC_AskPriceLesserThanStopPrice", CChar 66);
    ("THOST_FTDC_CC_AskPriceLesserEqualStopPrice", CChar 67);
    ("THOST_FTDC_CC_BidPriceGreaterThanStopPrice", CChar 68);
    ("THOST_FTDC_CC_BidPriceGreaterEqualStopPrice", CChar 69);
    ("THOST_FTDC_CC_BidPriceLesserThanStopPrice", CChar 70);
    ("THOST_FTDC_CC_BidPriceLesserEqualStopPrice", CChar 72);
    ("THOST_FTDC_AF_Delete", CChar 48);
    ("THOST_FTDC_AF_Modify", CChar 51);
    ("THOST_FTDC_TR_Allow", CChar 48);
    ("THOST_FTDC_TR_CloseOnly", CChar 49);
    ("THOST_FTDC_TR_Forbidden", CChar 50);
    ("THOST_FTDC_OSRC_Participant", CChar 48);
    ("THOST_FTDC_OSRC_Administrator", CChar 49);
    ("THOST_FTDC_TRDT_SplitCombination", CChar 35);
    ("THOST_FTDC_TRDT_Common", CChar 48);
    ("THOST_FTDC_TRDT_OptionsExecution", CChar 49);
    ("THOST_FTDC_TRDT_OTC", CChar 50);
    ("THOST_FTDC_TRDT_EFPDerived", CChar 51);
    ("THOST_FTDC_TRDT_CombinationDerived", CChar 52);
    ("THOST_FTDC_TRDT_BlockTrade", CChar 53);
    ("THOST_FTDC_SPOST_Common", CChar 35);
    ("THOST_FTDC_SPOST_Tas", CChar 48);
    ("THOST_FTDC_PSRC_LastPrice", CChar 48);
    ("THOST_FTDC_PSRC_Buy", CChar 49);
    ("THOST_FTDC_PSRC_Sell", CChar 50);
    ("THOST_FTDC_PSRC_OTC", CChar 51);
    ("THOST_FTDC_IS_BeforeTrading", CChar 48);
    ("THOST_FTDC_IS_NoTrading", CChar 49);
    ("THOST_FTDC_IS_Continous", CChar 50);
    ("THOST_FTDC_IS_AuctionOrdering", CChar 51);
    ("THOST_FTDC_IS_AuctionBalance", CChar 52);
    ("THOST_FTDC_IS_AuctionMatch", CChar 53);
    ("THOST_FTDC_IS_Closed", CChar 54);
    ("THOST_FTDC_IS_TransactionProcessing", CChar 55);
    ("THOST_FTDC_IER_Automatic", CChar 49);
    ("THOST_FTDC_IER_Manual", CChar 50);
    ("THOST_FTDC_IER_Fuse", CChar 51);
    ("THOST_FTDC_BS_NoUpload", CChar 49);
    ("THOST_FTDC_BS_Uploaded", CChar 50);
    ("THOST_FTDC_BS_Failed", CChar 51);
    ("THOST_FTDC_RS_All", CChar 49);
    ("THOST_FTDC_RS_ByProduct", CChar 50);
    ("THOST_FTDC_RP_ByVolume", CChar 49);
    ("THOST_FTDC_RP_ByFeeOnHand", CChar 50);
    ("THOST_FTDC_RL_Level1", CChar 49) ].

(** ctp_wrap.cpp, lines 509007 to 509156. *)
Definition module_constants_2 : list (string * constant) :=
  [ ("THOST_FTDC_RL_Level2", CChar 50);
    ("THOST_FTDC_RL_Level3", CChar 51);
    ("THOST_FTDC_RL_Level4", CChar 52);
    ("THOST_FTDC_RL_Level5", CChar 53);
    ("THOST_FTDC_RL_Level6", CChar 54);
    ("THOST_FTDC_RL_Level7", CChar 55);
    ("THOST_FTDC_RL_Level8", CChar 56);
    ("THOST_FTDC_RL_Level9", CChar 57);
    ("THOST_FTDC_RSD_ByPeriod", CChar 49);
    ("THOST_FTDC_RSD_ByStandard", CChar 50);
    ("THOST_FTDC_MT_Out", CChar 48);
    ("THOST_FTDC_MT_In", CChar 49);
    ("THOST_FTDC_ISPI_MortgageRatio", CChar 52);
    ("THOST_FTDC_ISPI_MarginWay", CChar 53);
    ("THOST_FTDC_ISPI_BillDeposit", CChar 57);
    ("THOST_FTDC_ESPI_MortgageRatio", CChar 49);
    ("THOST_FTDC_ESPI_OtherFundItem", CChar 50);
    ("THOST_FTDC_ESPI_OtherFundImport", CChar 51);
    ("THOST_FTDC_ESPI_CFFEXMinPrepa", CChar 54);
    ("THOST_FTDC_ESPI_CZCESettlementType", CChar 55);
    ("THOST_FTDC_ESPI_ExchDelivFeeMode", CChar 57);
    ("THOST_FTDC_ESPI_DelivFeeMode", CChar 48);
    ("THOST_FTDC_ESPI_CZCEComMarginType", CChar 65);
    ("THOST_FTDC_ESPI_DceComMarginType", CChar 66);
    ("THOST_FTDC_ESPI_OptOutDisCountRate", CChar 97);
    ("THOST_FTDC_ESPI_OptMiniGuarantee", CChar 98);
    ("THOST_FTDC_SPI_InvestorIDMinLength", CChar 49);
    ("THOST_FTDC_SPI_AccountIDMinLength", CChar 50);
    ("THOST_FTDC_SPI_UserRightLogon", CChar 51);
    ("THOST_FTDC_SPI_SettlementBillTrade", CChar 52);
    ("THOST_FTDC_SPI_TradingCode", CChar 53);
    ("THOST_FTDC_SPI_CheckFund", CChar 54);
    ("THOST_FTDC_SPI_CommModelRight", CChar 55);
    ("THOST_FTDC_SPI_MarginModelRight", CChar 57);
    ("THOST_FTDC_SPI_IsStandardActive", CChar 56);
    ("THOST_FTDC_SPI_UploadSettlementFile", CChar 85);
    ("THOST_FTDC_SPI_DownloadCSRCFile", CChar 68);
    ("THOST_FTDC_SPI_SettlementBillFile", CChar 83);
    ("THOST_FTDC_SPI_CSRCOthersFile", CChar 67);
    ("THOST_FTDC_SPI_InvestorPhoto", CChar 80);
    ("THOST_FTDC_SPI_CSRCData", CChar 82);
    ("THOST_FTDC_SPI_InvestorPwdModel", CChar 73);
    ("THOST_FTDC_SPI_CFFEXInvestorSettleFile", CChar 70);
    ("THOST_FTDC_SPI_InvestorIDType", CChar 97);
    ("THOST_FTDC_SPI_FreezeMaxReMain", CChar 114);
    ("THOST_FTDC_SPI_IsSync", CChar 65);
    ("THOST_FTDC_SPI_RelieveOpenLimit", CChar 79);
    ("THOST_FTDC_SPI_IsStandardFreeze", CChar 88);
    ("THOST_FTDC_SPI_CZCENormalProductHedge", CChar 66);
    ("THOST_FTDC_TPID_EncryptionStandard", CChar 69);
    ("THOST_FTDC_TPID_RiskMode", CChar 82);
    ("THOST_FTDC_TPID_RiskModeGlobal", CChar 71);
    ("THOST_FTDC_TPID_modeEncode", CChar 80);
    ("THOST_FTDC_TPID_tickMode", CChar 84);
    ("THOST_FTDC_TPID_SingleUserSessionMaxNum", CChar 83);
    ("THOST_FTDC_TPID_LoginFailMaxNum", CChar 76);
    ("THOST_FTDC_TPID_IsAuthForce", CChar 65);
    ("THOST_FTDC_TPID_IsPosiFreeze", CChar 70);
    ("THOST_FTDC_TPID_IsPosiLimit", CChar 77);
    ("THOST_FTDC_TPID_ForQuoteTimeInterval", CChar 81);
    ("THOST_FTDC_TPID_IsFuturePosiLimit", CChar 66);
    ("THOST_FTDC_TPID_IsFutureOrderFreq", CChar 67);
    ("THOST_FTDC_TPID_IsExecOrderProfit", CChar 72);
    ("THOST_FTDC_TPID_IsCheckBankAcc", CChar 73);
    ("THOST_FTDC_TPID_PasswordDeadLine", CChar 74);
    ("THOST_FTDC_TPID_IsStrongPassword", CChar 75);
    ("THOST_FTDC_TPID_BalanceMorgage", CChar 97);
    ("THOST_FTDC_TPID_MinPwdLen", CChar 79);
    ("THOST_FTDC_TPID_LoginFailMaxNumForIP", CChar 85);
    ("THOST_FTDC_TPID_PasswordPeriod", CChar 86);
    ("THOST_FTDC_TPID_PwdHistoryCmp", CChar 88);
    ("THOST_FTDC_FI_SettlementFund", CChar 70);
    ("THOST_FTDC_FI_Trade", CChar 84);
    ("THOST_FTDC_FI_InvestorPosition", CChar 80);
    ("THOST_FTDC_FI_SubEntryFund", CChar 79);
    ("THOST_FTDC_FI_CZCECombinationPos", CChar 67);
    ("THOST_FTDC_FI_CSRCData", CChar 82);
    ("THOST_FTDC_FI_CZCEClose", CChar 76);
    ("THOST_FTDC_FI_CZCENoClose", CChar 78);
    ("THOST_FTDC_FI_PositionDtl", CChar 68);
    ("THOST_FTDC_FI_OptionStrike", CChar 83);
    ("THOST_FTDC_FI_SettlementPriceComparison", CChar 77);
    ("THOST_FTDC_FI_NonTradePosChange", CChar 66);
    ("THOST_FTDC_FUT_Settlement", CChar 48);
    ("THOST_FTDC_FUT_Check", CChar 49);
    ("THOST_FTDC_FFT_Txt", CChar 48);
    ("THOST_FTDC_FFT_Zip", CChar 49);
    ("THOST_FTDC_FFT_DBF", CChar 50);
    ("THOST_FTDC_FUS_SucceedUpload", CChar 49);
    ("THOST_FTDC_FUS_FailedUpload", CChar 50);
    ("THOST_FTDC_FUS_SucceedLoad", CChar 51);
    ("THOST_FTDC_FUS_PartSucceedLoad", CChar 52);
    ("THOST_FTDC_FUS_FailedLoad", CChar 53);
    ("THOST_FTDC_TD_Out", CChar 48);
    ("THOST_FTDC_TD_In", CChar 49);
    ("THOST_FTDC_SC_NoSpecialRule", CChar 48);
    ("THOST_FTDC_SC_NoSpringFestival", CChar 49);
    ("THOST_FTDC_IPT_LastSettlement", CChar 49);
    ("THOST_FTDC_IPT_LaseClose", CChar 50);
    ("THOST_FTDC_PLP_Active", CChar 49);
    ("THOST_FTDC_PLP_NonActive", CChar 50);
    ("THOST_FTDC_PLP_Canceled", CChar 51);
    ("THOST_FTDC_DM_CashDeliv", CChar 49);
    ("THOST_FTDC_DM_CommodityDeliv", CChar 50);
    ("THOST_FTDC_FIOT_FundIO", CChar 49);
    ("THOST_FTDC_FIOT_Transfer", CChar 50);
    ("THOST_FTDC_FIOT_SwapCurrency", CChar 51);
    ("THOST_FTDC_FT_Deposite", CChar 49);
    ("THOST_FTDC_FT_ItemFund", CChar 50);
    ("THOST_FTDC_FT_Company", CChar 51);
    ("THOST_FTDC_FT_InnerTransfer", CChar 52);
    ("THOST_FTDC_FD_In", CChar 49);
    ("THOST_FTDC_FD_Out", CChar 50);
    ("THOST_FTDC_FS_Record", CChar 49);
    ("THOST_FTDC_FS_Check", CChar 50);
    ("THOST_FTDC_FS_Charge", CChar 51);
    ("THOST_FTDC_PS_None", CChar 49);
    ("THOST_FTDC_PS_Publishing", CChar 50);
    ("THOST_FTDC_PS_Published", CChar 51);
    ("THOST_FTDC_ES_NonActive", CChar 49);
    ("THOST_FTDC_ES_Startup", CChar 50);
    ("THOST_FTDC_ES_Initialize", CChar 51);
    ("THOST_FTDC_ES_Initialized", CChar 52);
    ("THOST_FTDC_ES_Close", CChar 53);
    ("THOST_FTDC_ES_Closed", CChar 54);
    ("THOST_FTDC_ES_Settlement", CChar 55);
    ("THOST_FTDC_STS_Initialize", CChar 48);
    ("THOST_FTDC_STS_Settlementing", CChar 49);
    ("THOST_FTDC_STS_Settlemented", CChar 50);
    ("THOST_FTDC_STS_Finished", CChar 51);
    ("THOST_FTDC_CT_Person", CChar 48);
    ("THOST_FTDC_CT_Company", CChar 49);
    ("THOST_FTDC_CT_Fund", CChar 50);
    ("THOST_FTDC_CT_SpecialOrgan", CChar 51);
    ("THOST_FTDC_CT_Asset", CChar 52);
    ("THOST_FTDC_BT_Trade", CChar 48);
    ("THOST_FTDC_BT_TradeSettle", CChar 49);
    ("THOST_FTDC_FAS_Low", CChar 49);
    ("THOST_FTDC_FAS_Normal", CChar 50);
    ("THOST_FTDC_FAS_Focus", CChar 51);
    ("THOST_FTDC_FAS_Risk", CChar 52);
    ("THOST_FTDC_FAS_ByTrade", CChar 49);
    ("THOST_FTDC_FAS_ByDeliv", CChar 50);
    ("THOST_FTDC_FAS_None", CChar 51);
    ("THOST_FTDC_FAS_FixFee", CChar 52);
    ("THOST_FTDC_PWDT_Trade", CChar 49);
    ("THOST_FTDC_PWDT_Account", CChar 50);
    ("THOST_FTDC_AG_All", CChar 49);
    ("THOST_FTDC_AG_OnlyLost", CChar 50);
    ("THOST_FTDC_AG_OnlyGain", CChar 51) ].

(** ctp_wrap.cpp, lines 509157 to 509306. *)
Definition module_constants_3 : list (string * constant) :=
  [ ("THOST_FTDC_AG_None", CChar 52);
    ("THOST_FTDC_ICP_Include", CChar 48);
    ("THOST_FTDC_ICP_NotInclude", CChar 50);
    ("THOST_FTDC_AWT_Enable", CChar 48);
    ("THOST_FTDC_AWT_Disable", CChar 50);
    ("THOST_FTDC_AWT_NoHoldEnable", CChar 51);
    ("THOST_FTDC_FPWD_UnCheck", CChar 48);
    ("THOST_FTDC_FPWD_Check", CChar 49);
    ("THOST_FTDC_TT_BankToFuture", CChar 48);
    ("THOST_FTDC_TT_FutureToBank", CChar 49);
    ("THOST_FTDC_TVF_Invalid", CChar 48);
    ("THOST_FTDC_TVF_Valid", CChar 49);
    ("THOST_FTDC_TVF_Reverse", CChar 50);
    ("THOST_FTDC_RN_CD", CChar 48);
    ("THOST_FTDC_RN_ZT", CChar 49);
    ("THOST_FTDC_RN_QT", CChar 50);
    ("THOST_FTDC_SEX_None", CChar 48);
    ("THOST_FTDC_SEX_Man", CChar 49);
    ("THOST_FTDC_SEX_Woman", CChar 50);
    ("THOST_FTDC_UT_Investor", CChar 48);
    ("THOST_FTDC_UT_Operator", CChar 49);
    ("THOST_FTDC_UT_SuperUser", CChar 50);
    ("THOST_FTDC_RATETYPE_MarginRate", CChar 50);
    ("THOST_FTDC_NOTETYPE_TradeSettleBill", CChar 49);
    ("THOST_FTDC_NOTETYPE_TradeSettleMonth", CChar 50);
    ("THOST_FTDC_NOTETYPE_CallMarginNotes", CChar 51);
    ("THOST_FTDC_NOTETYPE_ForceCloseNotes", CChar 52);
    ("THOST_FTDC_NOTETYPE_TradeNotes", CChar 53);
    ("THOST_FTDC_NOTETYPE_DelivNotes", CChar 54);
    ("THOST_FTDC_SBS_Day", CChar 49);
    ("THOST_FTDC_SBS_Volume", CChar 50);
    ("THOST_FTDC_ST_Day", CChar 48);
    ("THOST_FTDC_ST_Month", CChar 49);
    ("THOST_FTDC_URT_Logon", CChar 49);
    ("THOST_FTDC_URT_Transfer", CChar 50);
    ("THOST_FTDC_URT_EMail", CChar 51);
    ("THOST_FTDC_URT_Fax", CChar 52);
    ("THOST_FTDC_URT_ConditionOrder", CChar 53);
    ("THOST_FTDC_MPT_PreSettlementPrice", CChar 49);
    ("THOST_FTDC_MPT_SettlementPrice", CChar 50);
    ("THOST_FTDC_MPT_AveragePrice", CChar 51);
    ("THOST_FTDC_MPT_OpenPrice", CChar 52);
    ("THOST_FTDC_BGS_None", CChar 48);
    ("THOST_FTDC_BGS_NoGenerated", CChar 49);
    ("THOST_FTDC_BGS_Generated", CChar 50);
    ("THOST_FTDC_AT_HandlePositionAlgo", CChar 49);
    ("THOST_FTDC_AT_FindMarginRateAlgo", CChar 50);
    ("THOST_FTDC_HPA_Base", CChar 49);
    ("THOST_FTDC_HPA_DCE", CChar 50);
    ("THOST_FTDC_HPA_CZCE", CChar 51);
    ("THOST_FTDC_FMRA_Base", CChar 49);
    ("THOST_FTDC_FMRA_DCE", CChar 50);
    ("THOST_FTDC_FMRA_CZCE", CChar 51);
    ("THOST_FTDC_HTAA_Base", CChar 49);
    ("THOST_FTDC_HTAA_DCE", CChar 50);
    ("THOST_FTDC_HTAA_CZCE", CChar 51);
    ("THOST_FTDC_PST_Order", CChar 49);
    ("THOST_FTDC_PST_Open", CChar 50);
    ("THOST_FTDC_PST_Fund", CChar 51);
    ("THOST_FTDC_PST_Settlement", CChar 52);
    ("THOST_FTDC_PST_Company", CChar 53);
    ("THOST_FTDC_PST_Corporation", CChar 54);
    ("THOST_FTDC_PST_LinkMan", CChar 55);
    ("THOST_FTDC_PST_Ledger", CChar 56);
    ("THOST_FTDC_PST_Trustee", CChar 57);
    ("THOST_FTDC_PST_TrusteeCorporation", CChar 65);
    ("THOST_FTDC_PST_TrusteeOpen", CChar 66);
    ("THOST_FTDC_PST_TrusteeContact", CChar 67);
    ("THOST_FTDC_PST_ForeignerRefer", CChar 68);
    ("THOST_FTDC_PST_CorporationRefer", CChar 69);
    ("THOST_FTDC_QIR_All", CChar 49);
    ("THOST_FTDC_QIR_Group", CChar 50);
    ("THOST_FTDC_QIR_Single", CChar 51);
    ("THOST_FTDC_IRS_Normal", CChar 49);
    ("THOST_FTDC_IRS_Warn", CChar 50);
    ("THOST_FTDC_IRS_Call", CChar 51);
    ("THOST_FTDC_IRS_Force", CChar 52);
    ("THOST_FTDC_IRS_Exception", CChar 53);
    ("THOST_FTDC_UET_Login", CChar 49);
    ("THOST_FTDC_UET_Logout", CChar 50);
    ("THOST_FTDC_UET_Trading", CChar 51);
    ("THOST_FTDC_UET_TradingError", CChar 52);
    ("THOST_FTDC_UET_UpdatePassword", CChar 53);
    ("THOST_FTDC_UET_Authenticate", CChar 54);
    ("THOST_FTDC_UET_SubmitSysInfo", CChar 55);
    ("THOST_FTDC_UET_Transfer", CChar 56);
    ("THOST_FTDC_UET_Other", CChar 57);
    ("THOST_FTDC_UET_UpdateTradingAccountPassword", CChar 97);
    ("THOST_FTDC_ICS_Close", CChar 48);
    ("THOST_FTDC_ICS_CloseToday", CChar 49);
    ("THOST_FTDC_SM_Non", CChar 48);
    ("THOST_FTDC_SM_Instrument", CChar 49);
    ("THOST_FTDC_SM_Product", CChar 50);
    ("THOST_FTDC_SM_Investor", CChar 51);
    ("THOST_FTDC_PAOS_NotSend", CChar 49);
    ("THOST_FTDC_PAOS_Send", CChar 50);
    ("THOST_FTDC_PAOS_Deleted", CChar 51);
    ("THOST_FTDC_VDS_Dealing", CChar 49);
    ("THOST_FTDC_VDS_DeaclSucceed", CChar 50);
    ("THOST_FTDC_ORGS_Standard", CChar 48);
    ("THOST_FTDC_ORGS_ESunny", CChar 49);
    ("THOST_FTDC_ORGS_KingStarV6", CChar 50);
    ("THOST_FTDC_VTS_NaturalDeal", CChar 48);
    ("THOST_FTDC_VTS_SucceedEnd", CChar 49);
    ("THOST_FTDC_VTS_FailedEND", CChar 50);
    ("THOST_FTDC_VTS_Exception", CChar 51);
    ("THOST_FTDC_VTS_ManualDeal", CChar 52);
    ("THOST_FTDC_VTS_MesException", CChar 53);
    ("THOST_FTDC_VTS_SysException", CChar 54);
    ("THOST_FTDC_VBAT_BankBook", CChar 49);
    ("THOST_FTDC_VBAT_BankCard", CChar 50);
    ("THOST_FTDC_VBAT_CreditCard", CChar 51);
    ("THOST_FTDC_VMS_Natural", CChar 48);
    ("THOST_FTDC_VMS_Canceled", CChar 57);
    ("THOST_FTDC_VAA_NoAvailAbility", CChar 48);
    ("THOST_FTDC_VAA_AvailAbility", CChar 49);
    ("THOST_FTDC_VAA_Repeal", CChar 50);
    ("THOST_FTDC_GEN_Program", CChar 48);
    ("THOST_FTDC_GEN_HandWork", CChar 49);
    ("THOST_FTDC_CFMMCKK_REQUEST", CChar 82);
    ("THOST_FTDC_CFMMCKK_AUTO", CChar 65);
    ("THOST_FTDC_CFMMCKK_MANUAL", CChar 77);
    ("THOST_FTDC_CFT_IDCard", CChar 48);
    ("THOST_FTDC_CFT_Passport", CChar 49);
    ("THOST_FTDC_CFT_OfficerIDCard", CChar 50);
    ("THOST_FTDC_CFT_SoldierIDCard", CChar 51);
    ("THOST_FTDC_CFT_HomeComingCard", CChar 52);
    ("THOST_FTDC_CFT_HouseholdRegister", CChar 53);
    ("THOST_FTDC_CFT_LicenseNo", CChar 54);
    ("THOST_FTDC_CFT_InstitutionCodeCard", CChar 55);
    ("THOST_FTDC_CFT_TempLicenseNo", CChar 56);
    ("THOST_FTDC_CFT_NoEnterpriseLicenseNo", CChar 57);
    ("THOST_FTDC_CFT_OtherCard", CChar 120);
    ("THOST_FTDC_CFT_SuperDepAgree", CChar 97);
    ("THOST_FTDC_FBC_Others", CChar 48);
    ("THOST_FTDC_FBC_TransferDetails", CChar 49);
    ("THOST_FTDC_FBC_CustAccStatus", CChar 50);
    ("THOST_FTDC_FBC_AccountTradeDetails", CChar 51);
    ("THOST_FTDC_FBC_FutureAccountChangeInfoDetails", CChar 52);
    ("THOST_FTDC_FBC_CustMoneyDetail", CChar 53);
    ("THOST_FTDC_FBC_CustCancelAccountInfo", CChar 54);
    ("THOST_FTDC_FBC_CustMoneyResult", CChar 55);
    ("THOST_FTDC_FBC_OthersExceptionResult", CChar 56);
    ("THOST_FTDC_FBC_CustInterestNetMoneyDetails", CChar 57);
    ("THOST_FTDC_FBC_CustMoneySendAndReceiveDetails", CChar 97);
    ("THOST_FTDC_FBC_CorporationMoneyTotal", CChar 98);
    ("THOST_FTDC_FBC_MainbodyMoneyTotal", CChar 99);
    ("THOST_FTDC_FBC_MainPartMonitorData", CChar 100);
    ("THOST_FTDC_FBC_PreparationMoney", CChar 101);
    ("THOST_FTDC_FBC_BankMoneyMonitorData", CChar 102) ].

(** ctp_wrap.cpp, lines 509307 to 509456. *)
Definition module_constants_4 : list (string * constant) :=
  [ ("THOST_FTDC_CEC_Exchange", CChar 49);
    ("THOST_FTDC_CEC_Cash", CChar 50);
    ("THOST_FTDC_YNI_Yes", CChar 48);
    ("THOST_FTDC_YNI_No", CChar 49);
    ("THOST_FTDC_BLT_CurrentMoney", CChar 48);
    ("THOST_FTDC_BLT_UsableMoney", CChar 49);
    ("THOST_FTDC_BLT_FetchableMoney", CChar 50);
    ("THOST_FTDC_BLT_FreezeMoney", CChar 51);
    ("THOST_FTDC_GD_Unknown", CChar 48);
    ("THOST_FTDC_GD_Male", CChar 49);
    ("THOST_FTDC_GD_Female", CChar 50);
    ("THOST_FTDC_FPF_BEN", CChar 48);
    ("THOST_FTDC_FPF_OUR", CChar 49);
    ("THOST_FTDC_FPF_SHA", CChar 50);
    ("THOST_FTDC_PWKT_ExchangeKey", CChar 48);
    ("THOST_FTDC_PWKT_PassWordKey", CChar 49);
    ("THOST_FTDC_PWKT_MACKey", CChar 50);
    ("THOST_FTDC_PWKT_MessageKey", CChar 51);
    ("THOST_FTDC_PWT_Query", CChar 48);
    ("THOST_FTDC_PWT_Fetch", CChar 49);
    ("THOST_FTDC_PWT_Transfer", CChar 50);
    ("THOST_FTDC_PWT_Trade", CChar 51);
    ("THOST_FTDC_EM_NoEncry", CChar 48);
    ("THOST_FTDC_EM_DES", CChar 49);
    ("THOST_FTDC_EM_3DES", CChar 50);
    ("THOST_FTDC_BRF_BankNotNeedRepeal", CChar 48);
    ("THOST_FTDC_BRF_BankWaitingRepeal", CChar 49);
    ("THOST_FTDC_BRF_BankBeenRepealed", CChar 50);
    ("THOST_FTDC_BRORF_BrokerNotNeedRepeal", CChar 48);
    ("THOST_FTDC_BRORF_BrokerWaitingRepeal", CChar 49);
    ("THOST_FTDC_BRORF_BrokerBeenRepealed", CChar 50);
    ("THOST_FTDC_TS_Bank", CChar 48);
    ("THOST_FTDC_TS_Future", CChar 49);
    ("THOST_FTDC_TS_Store", CChar 50);
    ("THOST_FTDC_LF_Yes", CChar 48);
    ("THOST_FTDC_LF_No", CChar 49);
    ("THOST_FTDC_BAS_Normal", CChar 48);
    ("THOST_FTDC_BAS_Freeze", CChar 49);
    ("THOST_FTDC_BAS_ReportLoss", CChar 50);
    ("THOST_FTDC_MAS_Normal", CChar 48);
    ("THOST_FTDC_MAS_Cancel", CChar 49);
    ("THOST_FTDC_MSS_Point", CChar 48);
    ("THOST_FTDC_MSS_PrePoint", CChar 49);
    ("THOST_FTDC_MSS_CancelPoint", CChar 50);
    ("THOST_FTDC_SYT_FutureBankTransfer", CChar 48);
    ("THOST_FTDC_SYT_StockBankTransfer", CChar 49);
    ("THOST_FTDC_SYT_TheThirdPartStore", CChar 50);
    ("THOST_FTDC_TEF_NormalProcessing", CChar 48);
    ("THOST_FTDC_TEF_Success", CChar 49);
    ("THOST_FTDC_TEF_Failed", CChar 50);
    ("THOST_FTDC_TEF_Abnormal", CChar 51);
    ("THOST_FTDC_TEF_ManualProcessedForException", CChar 52);
    ("THOST_FTDC_TEF_CommuFailedNeedManualProcess", CChar 53);
    ("THOST_FTDC_TEF_SysErrorNeedManualProcess", CChar 54);
    ("THOST_FTDC_PSS_NotProcess", CChar 48);
    ("THOST_FTDC_PSS_StartProcess", CChar 49);
    ("THOST_FTDC_PSS_Finished", CChar 50);
    ("THOST_FTDC_CUSTT_Person", CChar 48);
    ("THOST_FTDC_CUSTT_Institution", CChar 49);
    ("THOST_FTDC_FBTTD_FromBankToFuture", CChar 49);
    ("THOST_FTDC_FBTTD_FromFutureToBank", CChar 50);
    ("THOST_FTDC_OOD_Open", CChar 49);
    ("THOST_FTDC_OOD_Destroy", CChar 48);
    ("THOST_FTDC_AVAF_Invalid", CChar 48);
    ("THOST_FTDC_AVAF_Valid", CChar 49);
    ("THOST_FTDC_AVAF_Repeal", CChar 50);
    ("THOST_FTDC_OT_Bank", CChar 49);
    ("THOST_FTDC_OT_Future", CChar 50);
    ("THOST_FTDC_OT_PlateForm", CChar 57);
    ("THOST_FTDC_OL_HeadQuarters", CChar 49);
    ("THOST_FTDC_OL_Branch", CChar 50);
    ("THOST_FTDC_PID_FutureProtocal", CChar 48);
    ("THOST_FTDC_PID_ICBCProtocal", CChar 49);
    ("THOST_FTDC_PID_ABCProtocal", CChar 50);
    ("THOST_FTDC_PID_CBCProtocal", CChar 51);
    ("THOST_FTDC_PID_CCBProtocal", CChar 52);
    ("THOST_FTDC_PID_BOCOMProtocal", CChar 53);
    ("THOST_FTDC_PID_FBTPlateFormProtocal", CChar 88);
    ("THOST_FTDC_CM_ShortConnect", CChar 48);
    ("THOST_FTDC_CM_LongConnect", CChar 49);
    ("THOST_FTDC_SRM_ASync", CChar 48);
    ("THOST_FTDC_SRM_Sync", CChar 49);
    ("THOST_FTDC_BAT_BankBook", CChar 49);
    ("THOST_FTDC_BAT_SavingCard", CChar 50);
    ("THOST_FTDC_BAT_CreditCard", CChar 51);
    ("THOST_FTDC_FAT_BankBook", CChar 49);
    ("THOST_FTDC_FAT_SavingCard", CChar 50);
    ("THOST_FTDC_FAT_CreditCard", CChar 51);
    ("THOST_FTDC_OS_Ready", CChar 48);
    ("THOST_FTDC_OS_CheckIn", CChar 49);
    ("THOST_FTDC_OS_CheckOut", CChar 50);
    ("THOST_FTDC_OS_CheckFileArrived", CChar 51);
    ("THOST_FTDC_OS_CheckDetail", CChar 52);
    ("THOST_FTDC_OS_DayEndClean", CChar 53);
    ("THOST_FTDC_OS_Invalid", CChar 57);
    ("THOST_FTDC_CCBFM_ByAmount", CChar 49);
    ("THOST_FTDC_CCBFM_ByMonth", CChar 50);
    ("THOST_FTDC_CAPIT_Client", CChar 49);
    ("THOST_FTDC_CAPIT_Server", CChar 50);
    ("THOST_FTDC_CAPIT_UserApi", CChar 51);
    ("THOST_FTDC_LS_Connected", CChar 49);
    ("THOST_FTDC_LS_Disconnected", CChar 50);
    ("THOST_FTDC_BPWDF_NoCheck", CChar 48);
    ("THOST_FTDC_BPWDF_BlankCheck", CChar 49);
    ("THOST_FTDC_BPWDF_EncryptCheck", CChar 50);
    ("THOST_FTDC_SAT_AccountID", CChar 49);
    ("THOST_FTDC_SAT_CardID", CChar 50);
    ("THOST_FTDC_SAT_SHStockholderID", CChar 51);
    ("THOST_FTDC_SAT_SZStockholderID", CChar 52);
    ("THOST_FTDC_TRFS_Normal", CChar 48);
    ("THOST_FTDC_TRFS_Repealed", CChar 49);
    ("THOST_FTDC_SPTYPE_Broker", CChar 48);
    ("THOST_FTDC_SPTYPE_Bank", CChar 49);
    ("THOST_FTDC_REQRSP_Request", CChar 48);
    ("THOST_FTDC_REQRSP_Response", CChar 49);
    ("THOST_FTDC_FBTUET_SignIn", CChar 48);
    ("THOST_FTDC_FBTUET_FromBankToFuture", CChar 49);
    ("THOST_FTDC_FBTUET_FromFutureToBank", CChar 50);
    ("THOST_FTDC_FBTUET_OpenAccount", CChar 51);
    ("THOST_FTDC_FBTUET_CancelAccount", CChar 52);
    ("THOST_FTDC_FBTUET_ChangeAccount", CChar 53);
    ("THOST_FTDC_FBTUET_RepealFromBankToFuture", CChar 54);
    ("THOST_FTDC_FBTUET_RepealFromFutureToBank", CChar 55);
    ("THOST_FTDC_FBTUET_QueryBankAccount", CChar 56);
    ("THOST_FTDC_FBTUET_QueryFutureAccount", CChar 57);
    ("THOST_FTDC_FBTUET_SignOut", CChar 65);
    ("THOST_FTDC_FBTUET_SyncKey", CChar 66);
    ("THOST_FTDC_FBTUET_ReserveOpenAccount", CChar 67);
    ("THOST_FTDC_FBTUET_CancelReserveOpenAccount", CChar 68);
    ("THOST_FTDC_FBTUET_ReserveOpenAccountConfirm", CChar 69);
    ("THOST_FTDC_FBTUET_Other", CChar 90);
    ("THOST_FTDC_DBOP_Insert", CChar 48);
    ("THOST_FTDC_DBOP_Update", CChar 49);
    ("THOST_FTDC_DBOP_Delete", CChar 50);
    ("THOST_FTDC_SYNF_Yes", CChar 48);
    ("THOST_FTDC_SYNF_No", CChar 49);
    ("THOST_FTDC_SYNT_OneOffSync", CChar 48);
    ("THOST_FTDC_SYNT_TimerSync", CChar 49);
    ("THOST_FTDC_SYNT_TimerFullSync", CChar 50);
    ("THOST_FTDC_FBEDIR_Settlement", CChar 48);
    ("THOST_FTDC_FBEDIR_Sale", CChar 49);
    ("THOST_FTDC_FBERES_Success", CChar 48);
    ("THOST_FTDC_FBERES_InsufficientBalance", CChar 49);
    ("THOST_FTDC_FBERES_UnknownTrading", CChar 56);
    ("THOST_FTDC_FBERES_Fail", CChar 120);
    ("THOST_FTDC_FBEES_Normal", CChar 48);
    ("THOST_FTDC_FBEES_ReExchange", CChar 49);
    ("THOST_FTDC_FBEFG_DataPackage", CChar 48);
    ("THOST_FTDC_FBEFG_File", CChar 49);
    ("THOST_FTDC_FBEAT_NotTrade", CChar 48) ].

(** ctp_wrap.cpp, lines 509457 to 509606. *)
Definition module_constants_5 : list (string * constant) :=
  [ ("THOST_FTDC_FBEAT_Trade", CChar 49);
    ("THOST_FTDC_FBEUET_SignIn", CChar 48);
    ("THOST_FTDC_FBEUET_Exchange", CChar 49);
    ("THOST_FTDC_FBEUET_ReExchange", CChar 50);
    ("THOST_FTDC_FBEUET_QueryBankAccount", CChar 51);
    ("THOST_FTDC_FBEUET_QueryExchDetial", CChar 52);
    ("THOST_FTDC_FBEUET_QueryExchSummary", CChar 53);
    ("THOST_FTDC_FBEUET_QueryExchRate", CChar 54);
    ("THOST_FTDC_FBEUET_CheckBankAccount", CChar 55);
    ("THOST_FTDC_FBEUET_SignOut", CChar 56);
    ("THOST_FTDC_FBEUET_Other", CChar 90);
    ("THOST_FTDC_FBERF_UnProcessed", CChar 48);
    ("THOST_FTDC_FBERF_WaitSend", CChar 49);
    ("THOST_FTDC_FBERF_SendSuccess", CChar 50);
    ("THOST_FTDC_FBERF_SendFailed", CChar 51);
    ("THOST_FTDC_FBERF_WaitReSend", CChar 52);
    ("THOST_FTDC_NC_NOERROR", CChar 48);
    ("THOST_FTDC_NC_Warn", CChar 49);
    ("THOST_FTDC_NC_Call", CChar 50);
    ("THOST_FTDC_NC_Force", CChar 51);
    ("THOST_FTDC_NC_CHUANCANG", CChar 52);
    ("THOST_FTDC_NC_Exception", CChar 53);
    ("THOST_FTDC_FCT_Manual", CChar 48);
    ("THOST_FTDC_FCT_Single", CChar 49);
    ("THOST_FTDC_FCT_Group", CChar 50);
    ("THOST_FTDC_RNM_System", CChar 48);
    ("THOST_FTDC_RNM_SMS", CChar 49);
    ("THOST_FTDC_RNM_EMail", CChar 50);
    ("THOST_FTDC_RNM_Manual", CChar 51);
    ("THOST_FTDC_RNS_NotGen", CChar 48);
    ("THOST_FTDC_RNS_Generated", CChar 49);
    ("THOST_FTDC_RNS_SendError", CChar 50);
    ("THOST_FTDC_RNS_SendOk", CChar 51);
    ("THOST_FTDC_RNS_Received", CChar 52);
    ("THOST_FTDC_RNS_Confirmed", CChar 53);
    ("THOST_FTDC_RUE_ExportData", CChar 48);
    ("THOST_FTDC_COST_LastPriceAsc", CChar 48);
    ("THOST_FTDC_COST_LastPriceDesc", CChar 49);
    ("THOST_FTDC_COST_AskPriceAsc", CChar 50);
    ("THOST_FTDC_COST_AskPriceDesc", CChar 51);
    ("THOST_FTDC_COST_BidPriceAsc", CChar 52);
    ("THOST_FTDC_COST_BidPriceDesc", CChar 53);
    ("THOST_FTDC_UOAST_NoSend", CChar 48);
    ("THOST_FTDC_UOAST_Sended", CChar 49);
    ("THOST_FTDC_UOAST_Generated", CChar 50);
    ("THOST_FTDC_UOAST_SendFail", CChar 51);
    ("THOST_FTDC_UOAST_Success", CChar 52);
    ("THOST_FTDC_UOAST_Fail", CChar 53);
    ("THOST_FTDC_UOAST_Cancel", CChar 54);
    ("THOST_FTDC_UOACS_NoApply", CChar 49);
    ("THOST_FTDC_UOACS_Submited", CChar 50);
    ("THOST_FTDC_UOACS_Sended", CChar 51);
    ("THOST_FTDC_UOACS_Success", CChar 52);
    ("THOST_FTDC_UOACS_Refuse", CChar 53);
    ("THOST_FTDC_UOACS_Cancel", CChar 54);
    ("THOST_FTDC_QT_Radio", CChar 49);
    ("THOST_FTDC_QT_Option", CChar 50);
    ("THOST_FTDC_QT_Blank", CChar 51);
    ("THOST_FTDC_BT_Request", CChar 49);
    ("THOST_FTDC_BT_Response", CChar 50);
    ("THOST_FTDC_BT_Notice", CChar 51);
    ("THOST_FTDC_CRC_Success", CChar 48);
    ("THOST_FTDC_CRC_Working", CChar 49);
    ("THOST_FTDC_CRC_InfoFail", CChar 50);
    ("THOST_FTDC_CRC_IDCardFail", CChar 51);
    ("THOST_FTDC_CRC_OtherFail", CChar 52);
    ("THOST_FTDC_CfMMCCT_All", CChar 48);
    ("THOST_FTDC_CfMMCCT_Person", CChar 49);
    ("THOST_FTDC_CfMMCCT_Company", CChar 50);
    ("THOST_FTDC_CfMMCCT_Other", CChar 51);
    ("THOST_FTDC_CfMMCCT_SpecialOrgan", CChar 52);
    ("THOST_FTDC_CfMMCCT_Asset", CChar 53);
    ("THOST_FTDC_EIDT_SHFE", CChar 83);
    ("THOST_FTDC_EIDT_CZCE", CChar 90);
    ("THOST_FTDC_EIDT_DCE", CChar 68);
    ("THOST_FTDC_EIDT_CFFEX", CChar 74);
    ("THOST_FTDC_EIDT_INE", CChar 78);
    ("THOST_FTDC_ECIDT_Hedge", CChar 49);
    ("THOST_FTDC_ECIDT_Arbitrage", CChar 50);
    ("THOST_FTDC_ECIDT_Speculation", CChar 51);
    ("THOST_FTDC_UF_NoUpdate", CChar 48);
    ("THOST_FTDC_UF_Success", CChar 49);
    ("THOST_FTDC_UF_Fail", CChar 50);
    ("THOST_FTDC_UF_TCSuccess", CChar 51);
    ("THOST_FTDC_UF_TCFail", CChar 52);
    ("THOST_FTDC_UF_Cancel", CChar 53);
    ("THOST_FTDC_AOID_OpenInvestor", CChar 49);
    ("THOST_FTDC_AOID_ModifyIDCard", CChar 50);
    ("THOST_FTDC_AOID_ModifyNoIDCard", CChar 51);
    ("THOST_FTDC_AOID_ApplyTradingCode", CChar 52);
    ("THOST_FTDC_AOID_CancelTradingCode", CChar 53);
    ("THOST_FTDC_AOID_CancelInvestor", CChar 54);
    ("THOST_FTDC_AOID_FreezeAccount", CChar 56);
    ("THOST_FTDC_AOID_ActiveFreezeAccount", CChar 57);
    ("THOST_FTDC_ASID_NoComplete", CChar 49);
    ("THOST_FTDC_ASID_Submited", CChar 50);
    ("THOST_FTDC_ASID_Checked", CChar 51);
    ("THOST_FTDC_ASID_Refused", CChar 52);
    ("THOST_FTDC_ASID_Deleted", CChar 53);
    ("THOST_FTDC_UOASM_ByAPI", CChar 49);
    ("THOST_FTDC_UOASM_ByFile", CChar 50);
    ("THOST_FTDC_EvM_ADD", CChar 49);
    ("THOST_FTDC_EvM_UPDATE", CChar 50);
    ("THOST_FTDC_EvM_DELETE", CChar 51);
    ("THOST_FTDC_EvM_CHECK", CChar 52);
    ("THOST_FTDC_EvM_COPY", CChar 53);
    ("THOST_FTDC_EvM_CANCEL", CChar 54);
    ("THOST_FTDC_EvM_Reverse", CChar 55);
    ("THOST_FTDC_UOAA_ASR", CChar 49);
    ("THOST_FTDC_UOAA_ASNR", CChar 50);
    ("THOST_FTDC_UOAA_NSAR", CChar 51);
    ("THOST_FTDC_UOAA_NSR", CChar 52);
    ("THOST_FTDC_EvM_InvestorGroupFlow", CChar 49);
    ("THOST_FTDC_EvM_InvestorRate", CChar 50);
    ("THOST_FTDC_EvM_InvestorCommRateModel", CChar 51);
    ("THOST_FTDC_CL_Zero", CChar 48);
    ("THOST_FTDC_CL_One", CChar 49);
    ("THOST_FTDC_CL_Two", CChar 50);
    ("THOST_FTDC_CHS_Init", CChar 48);
    ("THOST_FTDC_CHS_Checking", CChar 49);
    ("THOST_FTDC_CHS_Checked", CChar 50);
    ("THOST_FTDC_CHS_Refuse", CChar 51);
    ("THOST_FTDC_CHS_Cancel", CChar 52);
    ("THOST_FTDC_CHU_Unused", CChar 48);
    ("THOST_FTDC_CHU_Used", CChar 49);
    ("THOST_FTDC_CHU_Fail", CChar 50);
    ("THOST_FTDC_BAO_ByAccProperty", CChar 48);
    ("THOST_FTDC_BAO_ByFBTransfer", CChar 49);
    ("THOST_FTDC_MBTS_ByInstrument", CChar 48);
    ("THOST_FTDC_MBTS_ByDayInsPrc", CChar 49);
    ("THOST_FTDC_MBTS_ByDayIns", CChar 50);
    ("THOST_FTDC_OTP_NONE", CChar 48);
    ("THOST_FTDC_OTP_TOTP", CChar 49);
    ("THOST_FTDC_OTPS_Unused", CChar 48);
    ("THOST_FTDC_OTPS_Used", CChar 49);
    ("THOST_FTDC_OTPS_Disuse", CChar 50);
    ("THOST_FTDC_BUT_Investor", CChar 49);
    ("THOST_FTDC_BUT_BrokerUser", CChar 50);
    ("THOST_FTDC_FUTT_Commodity", CChar 49);
    ("THOST_FTDC_FUTT_Financial", CChar 50);
    ("THOST_FTDC_FET_Restriction", CChar 48);
    ("THOST_FTDC_FET_TodayRestriction", CChar 49);
    ("THOST_FTDC_FET_Transfer", CChar 50);
    ("THOST_FTDC_FET_Credit", CChar 51);
    ("THOST_FTDC_FET_InvestorWithdrawAlm", CChar 52);
    ("THOST_FTDC_FET_BankRestriction", CChar 53);
    ("THOST_FTDC_FET_Accountregister", CChar 54);
    ("THOST_FTDC_FET_ExchangeFundIO", CChar 55);
    ("THOST_FTDC_FET_InvestorFundIO", CChar 56);
    ("THOST_FTDC_AST_FBTransfer", CChar 48) ].

(** ctp_wrap.cpp, lines 509607 to 509756. *)
Definition module_constants_6 : list (string * constant) :=
  [ ("THOST_FTDC_AST_ManualEntry", CChar 49);
    ("THOST_FTDC_CST_UnifyAccount", CChar 48);
    ("THOST_FTDC_CST_ManualEntry", CChar 49);
    ("THOST_FTDC_UR_All", CChar 48);
    ("THOST_FTDC_UR_Single", CChar 49);
    ("THOST_FTDC_BG_Investor", CChar 50);
    ("THOST_FTDC_BG_Group", CChar 49);
    ("THOST_FTDC_TSSM_Instrument", CChar 49);
    ("THOST_FTDC_TSSM_Product", CChar 50);
    ("THOST_FTDC_TSSM_Exchange", CChar 51);
    ("THOST_FTDC_ESM_Relative", CChar 49);
    ("THOST_FTDC_ESM_Typical", CChar 50);
    ("THOST_FTDC_RIR_All", CChar 49);
    ("THOST_FTDC_RIR_Model", CChar 50);
    ("THOST_FTDC_RIR_Single", CChar 51);
    ("THOST_FTDC_SDS_Initialize", CChar 48);
    ("THOST_FTDC_SDS_Settlementing", CChar 49);
    ("THOST_FTDC_SDS_Settlemented", CChar 50);
    ("THOST_FTDC_TSRC_NORMAL", CChar 48);
    ("THOST_FTDC_TSRC_QUERY", CChar 49);
    ("THOST_FTDC_FSM_Product", CChar 49);
    ("THOST_FTDC_FSM_Exchange", CChar 50);
    ("THOST_FTDC_FSM_All", CChar 51);
    ("THOST_FTDC_BIR_Property", CChar 49);
    ("THOST_FTDC_BIR_All", CChar 50);
    ("THOST_FTDC_PIR_All", CChar 49);
    ("THOST_FTDC_PIR_Property", CChar 50);
    ("THOST_FTDC_PIR_Single", CChar 51);
    ("THOST_FTDC_FIS_NoCreate", CChar 48);
    ("THOST_FTDC_FIS_Created", CChar 49);
    ("THOST_FTDC_FIS_Failed", CChar 50);
    ("THOST_FTDC_FGS_FileTransmit", CChar 48);
    ("THOST_FTDC_FGS_FileGen", CChar 49);
    ("THOST_FTDC_SoM_Add", CChar 49);
    ("THOST_FTDC_SoM_Update", CChar 50);
    ("THOST_FTDC_SoM_Delete", CChar 51);
    ("THOST_FTDC_SoM_Copy", CChar 52);
    ("THOST_FTDC_SoM_AcTive", CChar 53);
    ("THOST_FTDC_SoM_CanCel", CChar 54);
    ("THOST_FTDC_SoM_ReSet", CChar 55);
    ("THOST_FTDC_SoT_UpdatePassword", CChar 48);
    ("THOST_FTDC_SoT_UserDepartment", CChar 49);
    ("THOST_FTDC_SoT_RoleManager", CChar 50);
    ("THOST_FTDC_SoT_RoleFunction", CChar 51);
    ("THOST_FTDC_SoT_BaseParam", CChar 52);
    ("THOST_FTDC_SoT_SetUserID", CChar 53);
    ("THOST_FTDC_SoT_SetUserRole", CChar 54);
    ("THOST_FTDC_SoT_UserIpRestriction", CChar 55);
    ("THOST_FTDC_SoT_DepartmentManager", CChar 56);
    ("THOST_FTDC_SoT_DepartmentCopy", CChar 57);
    ("THOST_FTDC_SoT_Tradingcode", CChar 65);
    ("THOST_FTDC_SoT_InvestorStatus", CChar 66);
    ("THOST_FTDC_SoT_InvestorAuthority", CChar 67);
    ("THOST_FTDC_SoT_PropertySet", CChar 68);
    ("THOST_FTDC_SoT_ReSetInvestorPasswd", CChar 69);
    ("THOST_FTDC_SoT_InvestorPersonalityInfo", CChar 70);
    ("THOST_FTDC_CSRCQ_Current", CChar 48);
    ("THOST_FTDC_CSRCQ_History", CChar 49);
    ("THOST_FTDC_FRS_Normal", CChar 49);
    ("THOST_FTDC_FRS_Freeze", CChar 48);
    ("THOST_FTDC_STST_Standard", CChar 48);
    ("THOST_FTDC_STST_NonStandard", CChar 49);
    ("THOST_FTDC_RPT_Freeze", CChar 49);
    ("THOST_FTDC_RPT_FreezeActive", CChar 50);
    ("THOST_FTDC_RPT_OpenLimit", CChar 51);
    ("THOST_FTDC_RPT_RelieveOpenLimit", CChar 52);
    ("THOST_FTDC_AMLDS_Normal", CChar 48);
    ("THOST_FTDC_AMLDS_Deleted", CChar 49);
    ("THOST_FTDC_AMLCHS_Init", CChar 48);
    ("THOST_FTDC_AMLCHS_Checking", CChar 49);
    ("THOST_FTDC_AMLCHS_Checked", CChar 50);
    ("THOST_FTDC_AMLCHS_RefuseReport", CChar 51);
    ("THOST_FTDC_AMLDT_DrawDay", CChar 48);
    ("THOST_FTDC_AMLDT_TouchDay", CChar 49);
    ("THOST_FTDC_AMLCL_CheckLevel0", CChar 48);
    ("THOST_FTDC_AMLCL_CheckLevel1", CChar 49);
    ("THOST_FTDC_AMLCL_CheckLevel2", CChar 50);
    ("THOST_FTDC_AMLCL_CheckLevel3", CChar 51);
    ("THOST_FTDC_EFT_CSV", CChar 48);
    ("THOST_FTDC_EFT_EXCEL", CChar 49);
    ("THOST_FTDC_EFT_DBF", CChar 50);
    ("THOST_FTDC_SMT_Before", CChar 49);
    ("THOST_FTDC_SMT_Settlement", CChar 50);
    ("THOST_FTDC_SMT_After", CChar 51);
    ("THOST_FTDC_SMT_Settlemented", CChar 52);
    ("THOST_FTDC_SML_Must", CChar 49);
    ("THOST_FTDC_SML_Alarm", CChar 50);
    ("THOST_FTDC_SML_Prompt", CChar 51);
    ("THOST_FTDC_SML_Ignore", CChar 52);
    ("THOST_FTDC_SMG_Exhcange", CChar 49);
    ("THOST_FTDC_SMG_ASP", CChar 50);
    ("THOST_FTDC_SMG_CSRC", CChar 51);
    ("THOST_FTDC_LUT_Repeatable", CChar 49);
    ("THOST_FTDC_LUT_Unrepeatable", CChar 50);
    ("THOST_FTDC_DAR_Settle", CChar 49);
    ("THOST_FTDC_DAR_Exchange", CChar 50);
    ("THOST_FTDC_DAR_CSRC", CChar 51);
    ("THOST_FTDC_MGT_ExchMarginRate", CChar 48);
    ("THOST_FTDC_MGT_InstrMarginRate", CChar 49);
    ("THOST_FTDC_MGT_InstrMarginRateTrade", CChar 50);
    ("THOST_FTDC_ACT_Intraday", CChar 49);
    ("THOST_FTDC_ACT_Long", CChar 50);
    ("THOST_FTDC_MRT_Exchange", CChar 49);
    ("THOST_FTDC_MRT_Investor", CChar 50);
    ("THOST_FTDC_MRT_InvestorTrade", CChar 51);
    ("THOST_FTDC_BUS_UnBak", CChar 48);
    ("THOST_FTDC_BUS_BakUp", CChar 49);
    ("THOST_FTDC_BUS_BakUped", CChar 50);
    ("THOST_FTDC_BUS_BakFail", CChar 51);
    ("THOST_FTDC_SIS_UnInitialize", CChar 48);
    ("THOST_FTDC_SIS_Initialize", CChar 49);
    ("THOST_FTDC_SIS_Initialized", CChar 50);
    ("THOST_FTDC_SRS_NoCreate", CChar 48);
    ("THOST_FTDC_SRS_Create", CChar 49);
    ("THOST_FTDC_SRS_Created", CChar 50);
    ("THOST_FTDC_SRS_CreateFail", CChar 51);
    ("THOST_FTDC_SSS_UnSaveData", CChar 48);
    ("THOST_FTDC_SSS_SaveDatad", CChar 49);
    ("THOST_FTDC_SAS_UnArchived", CChar 48);
    ("THOST_FTDC_SAS_Archiving", CChar 49);
    ("THOST_FTDC_SAS_Archived", CChar 50);
    ("THOST_FTDC_SAS_ArchiveFail", CChar 51);
    ("THOST_FTDC_CTPT_Unkown", CChar 48);
    ("THOST_FTDC_CTPT_MainCenter", CChar 49);
    ("THOST_FTDC_CTPT_BackUp", CChar 50);
    ("THOST_FTDC_CDT_Normal", CChar 48);
    ("THOST_FTDC_CDT_SpecFirst", CChar 49);
    ("THOST_FTDC_MFUR_None", CChar 48);
    ("THOST_FTDC_MFUR_Margin", CChar 49);
    ("THOST_FTDC_MFUR_All", CChar 50);
    ("THOST_FTDC_MFUR_CNY3", CChar 51);
    ("THOST_FTDC_SPT_CzceHedge", CChar 49);
    ("THOST_FTDC_SPT_IneForeignCurrency", CChar 50);
    ("THOST_FTDC_SPT_DceOpenClose", CChar 51);
    ("THOST_FTDC_FMT_Mortgage", CChar 49);
    ("THOST_FTDC_FMT_Redemption", CChar 50);
    ("THOST_FTDC_ASPI_BaseMargin", CChar 49);
    ("THOST_FTDC_ASPI_LowestInterest", CChar 50);
    ("THOST_FTDC_FMD_In", CChar 49);
    ("THOST_FTDC_FMD_Out", CChar 50);
    ("THOST_FTDC_BT_Profit", CChar 48);
    ("THOST_FTDC_BT_Loss", CChar 49);
    ("THOST_FTDC_BT_Other", CChar 90);
    ("THOST_FTDC_SST_Manual", CChar 48);
    ("THOST_FTDC_SST_Automatic", CChar 49);
    ("THOST_FTDC_CED_Settlement", CChar 48);
    ("THOST_FTDC_CED_Sale", CChar 49);
    ("THOST_FTDC_CSS_Entry", CChar 49);
    ("THOST_FTDC_CSS_Approve", CChar 50);
    ("THOST_FTDC_CSS_Refuse", CChar 51) ].

(** ctp_wrap.cpp, lines 509757 to 509906. *)
Definition module_constants_7 : list (string * constant) :=
  [ ("THOST_FTDC_CSS_Revoke", CChar 52);
    ("THOST_FTDC_CSS_Send", CChar 53);
    ("THOST_FTDC_CSS_Success", CChar 54);
    ("THOST_FTDC_CSS_Failure", CChar 55);
    ("THOST_FTDC_REQF_NoSend", CChar 48);
    ("THOST_FTDC_REQF_SendSuccess", CChar 49);
    ("THOST_FTDC_REQF_SendFailed", CChar 50);
    ("THOST_FTDC_REQF_WaitReSend", CChar 51);
    ("THOST_FTDC_RESF_Success", CChar 48);
    ("THOST_FTDC_RESF_InsuffiCient", CChar 49);
    ("THOST_FTDC_RESF_UnKnown", CChar 56);
    ("THOST_FTDC_EXS_Before", CChar 48);
    ("THOST_FTDC_EXS_After", CChar 49);
    ("THOST_FTDC_CR_Domestic", CChar 49);
    ("THOST_FTDC_CR_GMT", CChar 50);
    ("THOST_FTDC_CR_Foreign", CChar 51);
    ("THOST_FTDC_HB_No", CChar 48);
    ("THOST_FTDC_HB_Yes", CChar 49);
    ("THOST_FTDC_SM_Normal", CChar 49);
    ("THOST_FTDC_SM_Emerge", CChar 50);
    ("THOST_FTDC_SM_Restore", CChar 51);
    ("THOST_FTDC_TPT_Full", CChar 49);
    ("THOST_FTDC_TPT_Increment", CChar 50);
    ("THOST_FTDC_TPT_BackUp", CChar 51);
    ("THOST_FTDC_LM_Trade", CChar 48);
    ("THOST_FTDC_LM_Transfer", CChar 49);
    ("THOST_FTDC_CPT_Instrument", CChar 49);
    ("THOST_FTDC_CPT_Margin", CChar 50);
    ("THOST_FTDC_HT_Yes", CChar 49);
    ("THOST_FTDC_HT_No", CChar 48);
    ("THOST_FTDC_AMT_Bank", CChar 49);
    ("THOST_FTDC_AMT_Securities", CChar 50);
    ("THOST_FTDC_AMT_Fund", CChar 51);
    ("THOST_FTDC_AMT_Insurance", CChar 52);
    ("THOST_FTDC_AMT_Trust", CChar 53);
    ("THOST_FTDC_AMT_Other", CChar 57);
    ("THOST_FTDC_CFIOT_FundIO", CChar 48);
    ("THOST_FTDC_CFIOT_SwapCurrency", CChar 49);
    ("THOST_FTDC_CAT_Futures", CChar 49);
    ("THOST_FTDC_CAT_AssetmgrFuture", CChar 50);
    ("THOST_FTDC_CAT_AssetmgrTrustee", CChar 51);
    ("THOST_FTDC_CAT_AssetmgrTransfer", CChar 52);
    ("THOST_FTDC_LT_Chinese", CChar 49);
    ("THOST_FTDC_LT_English", CChar 50);
    ("THOST_FTDC_AMCT_Person", CChar 49);
    ("THOST_FTDC_AMCT_Organ", CChar 50);
    ("THOST_FTDC_AMCT_SpecialOrgan", CChar 52);
    ("THOST_FTDC_ASST_Futures", CChar 51);
    ("THOST_FTDC_ASST_SpecialOrgan", CChar 52);
    ("THOST_FTDC_CIT_HasExch", CChar 48);
    ("THOST_FTDC_CIT_HasATP", CChar 49);
    ("THOST_FTDC_CIT_HasDiff", CChar 50);
    ("THOST_FTDC_DT_HandDeliv", CChar 49);
    ("THOST_FTDC_DT_PersonDeliv", CChar 50);
    ("THOST_FTDC_MMSA_NO", CChar 48);
    ("THOST_FTDC_MMSA_YES", CChar 49);
    ("THOST_FTDC_CACT_Person", CChar 48);
    ("THOST_FTDC_CACT_Company", CChar 49);
    ("THOST_FTDC_CACT_Other", CChar 50);
    ("THOST_FTDC_UOAAT_Futures", CChar 49);
    ("THOST_FTDC_UOAAT_SpecialOrgan", CChar 50);
    ("THOST_FTDC_DEN_Buy", CChar 48);
    ("THOST_FTDC_DEN_Sell", CChar 49);
    ("THOST_FTDC_OFEN_Open", CChar 48);
    ("THOST_FTDC_OFEN_Close", CChar 49);
    ("THOST_FTDC_OFEN_ForceClose", CChar 50);
    ("THOST_FTDC_OFEN_CloseToday", CChar 51);
    ("THOST_FTDC_OFEN_CloseYesterday", CChar 52);
    ("THOST_FTDC_OFEN_ForceOff", CChar 53);
    ("THOST_FTDC_OFEN_LocalForceClose", CChar 54);
    ("THOST_FTDC_HFEN_Speculation", CChar 49);
    ("THOST_FTDC_HFEN_Arbitrage", CChar 50);
    ("THOST_FTDC_HFEN_Hedge", CChar 51);
    ("THOST_FTDC_FIOTEN_FundIO", CChar 49);
    ("THOST_FTDC_FIOTEN_Transfer", CChar 50);
    ("THOST_FTDC_FIOTEN_SwapCurrency", CChar 51);
    ("THOST_FTDC_FTEN_Deposite", CChar 49);
    ("THOST_FTDC_FTEN_ItemFund", CChar 50);
    ("THOST_FTDC_FTEN_Company", CChar 51);
    ("THOST_FTDC_FTEN_InnerTransfer", CChar 52);
    ("THOST_FTDC_FDEN_In", CChar 49);
    ("THOST_FTDC_FDEN_Out", CChar 50);
    ("THOST_FTDC_FMDEN_In", CChar 49);
    ("THOST_FTDC_FMDEN_Out", CChar 50);
    ("THOST_FTDC_CP_CallOptions", CChar 49);
    ("THOST_FTDC_CP_PutOptions", CChar 50);
    ("THOST_FTDC_STM_Continental", CChar 48);
    ("THOST_FTDC_STM_American", CChar 49);
    ("THOST_FTDC_STM_Bermuda", CChar 50);
    ("THOST_FTDC_STT_Hedge", CChar 48);
    ("THOST_FTDC_STT_Match", CChar 49);
    ("THOST_FTDC_APPT_NotStrikeNum", CChar 52);
    ("THOST_FTDC_GUDS_Gen", CChar 48);
    ("THOST_FTDC_GUDS_Hand", CChar 49);
    ("THOST_FTDC_OER_NoExec", CChar 110);
    ("THOST_FTDC_OER_Canceled", CChar 99);
    ("THOST_FTDC_OER_OK", CChar 48);
    ("THOST_FTDC_OER_NoPosition", CChar 49);
    ("THOST_FTDC_OER_NoDeposit", CChar 50);
    ("THOST_FTDC_OER_NoParticipant", CChar 51);
    ("THOST_FTDC_OER_NoClient", CChar 52);
    ("THOST_FTDC_OER_NoInstrument", CChar 54);
    ("THOST_FTDC_OER_NoRight", CChar 55);
    ("THOST_FTDC_OER_InvalidVolume", CChar 56);
    ("THOST_FTDC_OER_NoEnoughHistoryTrade", CChar 57);
    ("THOST_FTDC_OER_Unknown", CChar 97);
    ("THOST_FTDC_COMBT_Future", CChar 48);
    ("THOST_FTDC_COMBT_BUL", CChar 49);
    ("THOST_FTDC_COMBT_BER", CChar 50);
    ("THOST_FTDC_COMBT_STD", CChar 51);
    ("THOST_FTDC_COMBT_STG", CChar 52);
    ("THOST_FTDC_COMBT_PRT", CChar 53);
    ("THOST_FTDC_COMBT_CAS", CChar 54);
    ("THOST_FTDC_COMBT_OPL", CChar 55);
    ("THOST_FTDC_COMBT_BFO", CChar 56);
    ("THOST_FTDC_COMBT_BLS", CChar 57);
    ("THOST_FTDC_COMBT_BES", CChar 97);
    ("THOST_FTDC_DCECOMBT_SPL", CChar 48);
    ("THOST_FTDC_DCECOMBT_OPL", CChar 49);
    ("THOST_FTDC_DCECOMBT_SP", CChar 50);
    ("THOST_FTDC_DCECOMBT_SPC", CChar 51);
    ("THOST_FTDC_DCECOMBT_BLS", CChar 52);
    ("THOST_FTDC_DCECOMBT_BES", CChar 53);
    ("THOST_FTDC_DCECOMBT_CAS", CChar 54);
    ("THOST_FTDC_DCECOMBT_STD", CChar 55);
    ("THOST_FTDC_DCECOMBT_STG", CChar 56);
    ("THOST_FTDC_DCECOMBT_BFO", CChar 57);
    ("THOST_FTDC_DCECOMBT_SFO", CChar 97);
    ("THOST_FTDC_ORPT_PreSettlementPrice", CChar 49);
    ("THOST_FTDC_ORPT_OpenPrice", CChar 52);
    ("THOST_FTDC_ORPT_MaxPreSettlementPrice", CChar 53);
    ("THOST_FTDC_BLAG_Default", CChar 49);
    ("THOST_FTDC_BLAG_IncludeOptValLost", CChar 50);
    ("THOST_FTDC_ACTP_Exec", CChar 49);
    ("THOST_FTDC_ACTP_Abandon", CChar 50);
    ("THOST_FTDC_FQST_Submitted", CChar 97);
    ("THOST_FTDC_FQST_Accepted", CChar 98);
    ("THOST_FTDC_FQST_Rejected", CChar 99);
    ("THOST_FTDC_VM_Absolute", CChar 48);
    ("THOST_FTDC_VM_Ratio", CChar 49);
    ("THOST_FTDC_EOPF_Reserve", CChar 48);
    ("THOST_FTDC_EOPF_UnReserve", CChar 49);
    ("THOST_FTDC_EOCF_AutoClose", CChar 48);
    ("THOST_FTDC_EOCF_NotToClose", CChar 49);
    ("THOST_FTDC_PTE_Futures", CChar 49);
    ("THOST_FTDC_PTE_Options", CChar 50);
    ("THOST_FTDC_CUFN_CUFN_O", CChar 79);
    ("THOST_FTDC_CUFN_CUFN_T", CChar 84);
    ("THOST_FTDC_CUFN_CUFN_P", CChar 80);
    ("THOST_FTDC_CUFN_CUFN_N", CChar 78) ].

(** ctp_wrap.cpp, lines 509907 to 510015. *)
Definition module_constants_8 : list (string * constant) :=
  [ ("THOST_FTDC_CUFN_CUFN_L", CChar 76);
    ("THOST_FTDC_CUFN_CUFN_F", CChar 70);
    ("THOST_FTDC_CUFN_CUFN_C", CChar 67);
    ("THOST_FTDC_CUFN_CUFN_M", CChar 77);
    ("THOST_FTDC_DUFN_DUFN_O", CChar 79);
    ("THOST_FTDC_DUFN_DUFN_T", CChar 84);
    ("THOST_FTDC_DUFN_DUFN_P", CChar 80);
    ("THOST_FTDC_DUFN_DUFN_F", CChar 70);
    ("THOST_FTDC_DUFN_DUFN_C", CChar 67);
    ("THOST_FTDC_DUFN_DUFN_D", CChar 68);
    ("THOST_FTDC_DUFN_DUFN_M", CChar 77);
    ("THOST_FTDC_DUFN_DUFN_S", CChar 83);
    ("THOST_FTDC_SUFN_SUFN_O", CChar 79);
    ("THOST_FTDC_SUFN_SUFN_T", CChar 84);
    ("THOST_FTDC_SUFN_SUFN_P", CChar 80);
    ("THOST_FTDC_SUFN_SUFN_F", CChar 70);
    ("THOST_FTDC_CFUFN_SUFN_T", CChar 84);
    ("THOST_FTDC_CFUFN_SUFN_P", CChar 80);
    ("THOST_FTDC_CFUFN_SUFN_F", CChar 70);
    ("THOST_FTDC_CFUFN_SUFN_S", CChar 83);
    ("THOST_FTDC_CMDR_Comb", CChar 48);
    ("THOST_FTDC_CMDR_UnComb", CChar 49);
    ("THOST_FTDC_CMDR_DelComb", CChar 50);
    ("THOST_FTDC_STOV_RealValue", CChar 49);
    ("THOST_FTDC_STOV_ProfitValue", CChar 50);
    ("THOST_FTDC_STOV_RealRatio", CChar 51);
    ("THOST_FTDC_STOV_ProfitRatio", CChar 52);
    ("THOST_FTDC_ROAST_Processing", CChar 48);
    ("THOST_FTDC_ROAST_Cancelled", CChar 49);
    ("THOST_FTDC_ROAST_Opened", CChar 50);
    ("THOST_FTDC_ROAST_Invalid", CChar 51);
    ("THOST_FTDC_WPSR_Lib", CChar 49);
    ("THOST_FTDC_WPSR_Manual", CChar 50);
    ("THOST_FTDC_OSCF_CloseSelfOptionPosition", CChar 49);
    ("THOST_FTDC_OSCF_ReserveOptionPosition", CChar 50);
    ("THOST_FTDC_OSCF_SellCloseSelfFuturePosition", CChar 51);
    ("THOST_FTDC_OSCF_ReserveFuturePosition", CChar 52);
    ("THOST_FTDC_BZTP_Future", CChar 49);
    ("THOST_FTDC_BZTP_Stock", CChar 50);
    ("THOST_FTDC_APP_TYPE_Investor", CChar 49);
    ("THOST_FTDC_APP_TYPE_InvestorRelay", CChar 50);
    ("THOST_FTDC_APP_TYPE_OperatorRelay", CChar 51);
    ("THOST_FTDC_APP_TYPE_UnKnown", CChar 52);
    ("THOST_FTDC_RV_Right", CChar 48);
    ("THOST_FTDC_RV_Refuse", CChar 49);
    ("THOST_FTDC_OTC_TRDT_Block", CChar 48);
    ("THOST_FTDC_OTC_TRDT_EFP", CChar 49);
    ("THOST_FTDC_OTC_MT_DV01", CChar 49);
    ("THOST_FTDC_OTC_MT_ParValue", CChar 50);
    ("THOST_FTDC_AU_WHITE", CChar 48);
    ("THOST_FTDC_AU_BLACK", CChar 49);
    ("THOST_FTDC_INS_ALL", CChar 48);
    ("THOST_FTDC_INS_FUTURE", CChar 49);
    ("THOST_FTDC_INS_OPTION", CChar 50);
    ("THOST_FTDC_INS_COMB", CChar 51);
    ("THOST_FTDC_TD_ALL", CChar 48);
    ("THOST_FTDC_TD_TRADE", CChar 49);
    ("THOST_FTDC_TD_UNTRADE", CChar 50);
    ("THOST_FTDC_PS_tradeable", CChar 49);
    ("THOST_FTDC_PS_untradeable", CChar 50);
    ("THOST_FTDC_SDS_Readable", CChar 49);
    ("THOST_FTDC_SDS_Reading", CChar 50);
    ("THOST_FTDC_SDS_Readend", CChar 51);
    ("THOST_FTDC_SDS_OptErr", CChar 101);
    ("THOST_FTDC_ACD_Add", CChar 49);
    ("THOST_FTDC_ACD_Del", CChar 50);
    ("THOST_FTDC_ACD_Upd", CChar 51);
    ("THOST_FTDC_OAC_Balance", CChar 49);
    ("THOST_FTDC_OAC_OrigFirst", CChar 50);
    ("THOST_FTDC_PLCL_None", CChar 48);
    ("THOST_FTDC_PLCL_Product", CChar 49);
    ("THOST_FTDC_PLCL_Inst", CChar 50);
    ("THOST_FTDC_OFCL_None", CChar 48);
    ("THOST_FTDC_OFCL_Product", CChar 49);
    ("THOST_FTDC_OFCL_Inst", CChar 50);
    ("THOST_FTDC_EBL_False", CChar 48);
    ("THOST_FTDC_EBL_True", CChar 49);
    ("THOST_FTDC_ETR_USUAL", CChar 49);
    ("THOST_FTDC_ETR_FNSP", CChar 50);
    ("THOST_FTDC_ETR_BNSP", CChar 51);
    ("THOST_FTDC_ETR_SPOT", CChar 52);
    ("THOST_FTDC_EPF_None", CChar 48);
    ("THOST_FTDC_EPF_SPBM", CChar 49);
    ("THOST_FTDC_EPF_RULE", CChar 50);
    ("THOST_FTDC_EPF_SPMM", CChar 51);
    ("THOST_FTDC_EPF_RCAMS", CChar 52);
    ("THOST_FTDC_WDPID_CashIn", CChar 67);
    ("THOST_FTDC_ITR_CloseOnly", CChar 49);
    ("THOST_FTDC_ITR_Forbidden", CChar 50);
    ("THOST_FTDC_IMID_BothSide", CChar 49);
    ("THOST_FTDC_IMID_MMSA", CChar 50);
    ("THOST_FTDC_IMID_SPMM", CChar 51);
    ("THOST_FTDC_ERComb_BUC", CChar 48);
    ("THOST_FTDC_ERComb_BEC", CChar 49);
    ("THOST_FTDC_ERComb_BEP", CChar 50);
    ("THOST_FTDC_ERComb_BUP", CChar 51);
    ("THOST_FTDC_ERComb_CAS", CChar 52);
    ("THOST_FTDC_EET_None", CChar 48);
    ("THOST_FTDC_EET_SPBM_AddOnHedge", CChar 49);
    ("THOST_FTDC_EIC_Usual", CChar 49);
    ("THOST_FTDC_EIC_Delivery", CChar 50);
    ("THOST_FTDC_EIC_NonComb", CChar 51);
    ("THOST_FTDC_PCF_None", CChar 48);
    ("THOST_FTDC_PCF_OnlyFrozen", CChar 49);
    ("THOST_FTDC_PCF_PositionChange", CChar 50);
    ("THOST_FTDC_PRS_Init", CChar 48);
    ("THOST_FTDC_PRS_Sync", CChar 49);
    ("THOST_FTDC_PRS_UserUpd", CChar 50);
    ("THOST_FTDC_PRS_SuperUserUpd", CChar 51) ].

Definition module_constants : list (string * constant) :=
  module_constants_0 ++ module_constants_1 ++ module_constants_2 ++ module_constants_3 ++ module_constants_4 ++ module_constants_5 ++ module_constants_6 ++ module_constants_7 ++ module_constants_8.

(** The [%ignore] directives. *)
Definition ignored : list string :=
  [ "THOST_FTDC_FTC_BankLaunchBankToBroker";
    "THOST_FTDC_FTC_BrokerLaunchBankToBroker";
    "THOST_FTDC_FTC_BankLaunchBrokerToBank";
    "THOST_FTDC_FTC_BrokerLaunchBrokerToBank";
    "THOST_FTDC_VTC_BankBankToFuture";
    "THOST_FTDC_VTC_BankFutureToBank";
    "THOST_FTDC_VTC_FutureBankToFuture";
    "THOST_FTDC_VTC_FutureFutureToBank" ].

(** ** What the header defines *)

Definition header_codes : list (string * string) := concat (map dt_codes datatypes).

(** A literal of one character is a [char]; a longer one is an [int] whose value
    the compiler chooses. *)
Definition code_constant (c : string * string) : option (string * constant) :=
  match chars (snd c) with [x] => Some (fst c, CChar x) | _ => None end.

Definition single_code (c : string * string) : bool := bool_decide (is_Some (code_constant c)).

Lemma header_constants_set :
  module_constants = map (fun p => (fst p, CInt (snd p))) THOST_TE_RESUME_TYPE ++ omap code_constant header_codes.
Proof. vm_compute. reflexivity. Qed.

Lemma ignored_codes : ignored ≡ₚ map fst (filter (fun c => single_code c = false) header_codes).
Proof.
  assert (E : map fst (filter (fun c => single_code c = false) header_codes) = drop 4 ignored ++ take 4 ignored)
    by (vm_compute; reflexivity).
  rewrite E, Permutation_app_comm. by rewrite (take_drop 4).
Qed.

(** Whether no string of the list occurs again after itself. *)
Fixpoint nodupb (l : list string) : bool :=
  match l with [] => true | x :: l' => negb (existsb (String.eqb x) l') && nodupb l' end.

Lemma nodupb_spec l : nodupb l = true -> NoDup l.
Proof.
  induction l as [|x l IH]; cbn [nodupb]; [constructor|]. rewrite andb_true_iff, negb_true_iff. intros [Hx Hl].
  constructor; [|auto]. intros Hin%list_elem_of_In. assert (existsb (String.eqb x) l = true); [|congruence].
  apply existsb_exists. exists x. by rewrite String.eqb_refl.
Qed.

Lemma constant_names : nodupb (map fst module_constants) = true.
Proof. vm_compute. reflexivity. Qed.

Definition codes_ok (d : datatype) : bool :=
  nodupb (map snd (dt_codes d))
  && (bool_decide (dt_codes d = []) || bool_decide (dt_type d = TChar) || negb (existsb single_code (dt_codes d))).

Lemma all_codes_ok : forallb codes_ok datatypes = true.
Proof. vm_compute. reflexivity. Qed.

#[local] Opaque module_constants header_codes datatypes ignored.

(** ** Properties *)

(** C30. The constants are those of the header: in its order the module sets the
    enumerators of the resume type and every code that is one character, with
    the values the header gives them, and nothing else; what ctp.i leaves out is
    exactly the codes of several characters.  No name is set twice, the codes
    of one type are different from each other, and a type with codes of one
    character is [char]. *)
Theorem constants_match :
  module_constants = map (fun p => (fst p, CInt (snd p))) THOST_TE_RESUME_TYPE ++ omap code_constant header_codes
  /\ ignored ≡ₚ map fst (filter (fun c => single_code c = false) header_codes)
  /\ NoDup (map fst module_constants)
  /\ (forall d, d ∈ datatypes -> NoDup (map snd (dt_codes d))
        /\ forall c, c ∈ dt_codes d -> single_code c = true -> dt_type d = TChar).
Proof.
  split; [apply header_constants_set|]. split; [apply ignored_codes|].
  split; [apply nodupb_spec, constant_names|]. intros d Hd.
  pose proof all_codes_ok as Hall. rewrite forallb_forall in Hall. specialize (Hall d (proj1 (list_elem_of_In _ _) Hd)).
  unfold codes_ok in Hall. rewrite andb_true_iff, !orb_true_iff, negb_true_iff, !bool_decide_eq_true in Hall.
  destruct Hall as [Hn Ht]. split; [by apply nodupb_spec|]. intros c Hc Hs. destruct Ht as [[E|E]|E]; [|done|].
  - rewrite E in Hc. by apply elem_of_nil in Hc.
  - exfalso. assert (existsb single_code (dt_codes d) = true); [|congruence].
    apply existsb_exists. exists c. by split; [apply list_elem_of_In|].
Qed.
#[local] Transparent module_constants header_codes datatypes ignored.

End Constants.
