(* ===== verification/ModuleInit.v ===== *)
(** * Loading the module

    Models [SWIG_mod_exec] of ctp_wrap.cpp and what it calls: the module
    [swig_runtime_data5] all SWIG modules of an interpreter share
    ([SWIG_runtime_data_module], [SWIG_Python_SetModule]), the singletons of the
    runtime, [SWIG_InitializeModule], and the constants of the module's
    dictionary ([SWIG_Python_SetConstant]), in the configuration ctp_wrap.cpp
    compiles for Python 3: heap types, no builtin wrappers.  The image of the loaded modules is that of
    Modules.v; whether the interpreter accepts a new attribute of the shared
    module is a parameter. *)

From S2P Require Import Prelude TypeNames TypeTable CtpTypes Modules Utf8 World Runtime ClientData SwigObject Conversions.
From S2P Require Import TypeQuery DataTypes Constants.

Module ModuleInit.
Import TypeTable Modules Utf8 World Runtime ClientData Conversions TypeQuery Constants.

(** ** Data *)

(** The interpreter's module [swig_runtime_data5], 0 when it does not exist,
    with its attributes, and the pointers in capsules. *)
Record interp := mk_interp { i_module : Z; i_attrs : gmap string Z; i_capsules : gmap Z Z }.

(** A [PyType_Spec]: the name, the attribute the type becomes, whether the flags
    have [Py_TPFLAGS_BASETYPE] besides [Py_TPFLAGS_DEFAULT], and the slots with
    the members among them. *)
Record type_spec := mk_spec {
  sp_name : string; sp_attr : string; sp_base : bool; sp_slots : list (string * string); sp_members : list string }.

Definition SwigVarLink_spec : type_spec := mk_spec "swig_runtime_data5.SwigVarLink" "SwigVarLink" false
  [ ("Py_tp_dealloc", "SwigVarLink_dealloc"); ("Py_tp_repr", "SwigVarLink_repr"); ("Py_tp_getattr", "SwigVarLink_getattr");
    ("Py_tp_setattr", "SwigVarLink_setattr"); ("Py_tp_str", "SwigVarLink_str");
    ("Py_tp_doc", "Swig variable link object") ]%string [].

Definition SwigPyObject_spec : type_spec := mk_spec "swig_runtime_data5.SwigPyObject" "SwigPyObject" true
  [ ("Py_tp_dealloc", "SwigPyObject_dealloc"); ("Py_tp_repr", "SwigPyObject_repr");
    ("Py_tp_getattro", "PyObject_GenericGetAttr"); ("Py_tp_doc", "Swig object holding a C/C++ pointer");
    ("Py_tp_richcompare", "SwigPyObject_richcompare"); ("Py_tp_methods", "SwigPyObject_methods");
    ("Py_nb_int", "SwigPyObject_long"); ("Py_tp_members", "SwigPyObject_members") ]%string
  [ "__dictoffset__"; "__weaklistoffset__" ]%string.

Definition SwigPyPacked_spec : type_spec := mk_spec "swig_runtime_data5.SwigPyPacked" "SwigPyPacked" false
  [ ("Py_tp_dealloc", "SwigPyPacked_dealloc"); ("Py_tp_repr", "SwigPyPacked_repr"); ("Py_tp_str", "SwigPyPacked_str");
    ("Py_tp_getattro", "PyObject_GenericGetAttr");
    ("Py_tp_doc", "Swig object holding a C/C++ function pointer") ]%string [].

(** The variables of the runtime, among them the static pointers to its types. *)
Record process := mk_process {
  p_image : image; p_globals : runtime_globals; p_types : list (string * Z); p_interp : interp }.

Definition put_globals g p := mk_process (p_image p) g (p_types p) (p_interp p).
Definition put_interp i p := mk_process (p_image p) (p_globals p) (p_types p) i.
Definition put_image im p := mk_process im (p_globals p) (p_types p) (p_interp p).

Definition SWIGPY_CAPSULE_ATTR_NAME : string := "type_pointer_capsule".

(** ** The shared module *)

(** [PyImport_AddModule]: a borrowed reference, to a new module when there is none. *)
Definition PyImport_AddModule (p : process) : M (Z * process) :=
  let i := p_interp p in
  if i_module i =? 0 then
    m <- new_object OOther ;;
    modify (add_ref m (-1)) ;;; ret (m, put_interp (mk_interp m ∅ (i_capsules i)) p)
  else need_gil ;;; ret (i_module i, p).

Definition SWIG_runtime_data_module (p : process) : M process :=
  let g := p_globals p in
  if g_data_module g =? 0 then
    mp <- PyImport_AddModule p ;;
    Py_XINCREF (fst mp) ;;;
    ret (put_globals (mk_globals (g_this g) (g_globals g) (g_type_cache g) (g_capsule g) (fst mp) (g_counter g)) (snd mp))
  else ret p.

Section Exec.
(** Whether [PyModule_AddObject] of an attribute succeeds; it fails when an
    allocation does. *)
Context (add_ok : string -> bool).

(** The reference is stolen on success; a failure sets an exception, which
    [type_once] leaves pending. *)
Definition PyModule_AddObject (attr : string) (o : Z) (p : process) : M (Z * process) :=
  need_gil ;;;
  if add_ok attr then
    modify (add_ref o (-1)) ;;;
    let i := p_interp p in
    ret (0, put_interp (mk_interp (i_module i) (<[attr := o]> (i_attrs i)) (i_capsules i)) p)
  else PyErr_SetString MemoryError [] ;;; ret (-1, p).

(** The body of [SwigPyPacked_TypeOnce] and the like, behind the static pointer
    of [SwigPyPacked_Type]; the pointer keeps a reference to the type. *)
Definition type_once (t : type_spec) (p : process) : M process :=
  if bool_decide (sp_attr t ∈ map fst (p_types p)) then ret p
  else
    pytype <- new_object OOther ;;
    p <- SWIG_runtime_data_module p ;;
    rp <- PyModule_AddObject (sp_attr t) pytype p ;;
    (if fst rp =? 0 then Py_INCREF pytype else ret tt) ;;;
    let p := snd rp in
    ret (mk_process (p_image p) (p_globals p) ((sp_attr t, pytype) :: p_types p) (p_interp p)).

Definition SwigPyPacked_Type : process -> M process := type_once SwigPyPacked_spec.
Definition SwigVarLink_Type : process -> M process := type_once SwigVarLink_spec.
Definition SwigPyObject_Type : process -> M process := type_once SwigPyObject_spec.

(** [PyCapsule_New] with the module as its pointer. *)
Definition PyCapsule_New (pointer : Z) (p : process) : M (Z * process) :=
  o <- new_object OOther ;;
  let i := p_interp p in
  ret (o, put_interp (mk_interp (i_module i) (i_attrs i) (<[o := pointer]> (i_capsules i))) p).

Definition SWIG_Python_SetModule (swig_module : Z) (p : process) : M process :=
  p <- SWIG_runtime_data_module p ;;
  op <- PyCapsule_New swig_module p ;;
  let pointer := fst op in
  rp <- PyModule_AddObject SWIGPY_CAPSULE_ATTR_NAME pointer (snd op) ;;
  let g := p_globals (snd rp) in
  if fst rp =? 0 then
    ret (put_globals (mk_globals (g_this g) (g_globals g) (g_type_cache g) pointer (g_data_module g) (g_counter g + 1)) (snd rp))
  else Py_DECREF pointer ;;; ret (snd rp).

(** [PyCapsule_Import] of the attribute: null with an error when there is none. *)
Definition PyCapsule_Import (p : process) : M (option Z) :=
  need_gil ;;;
  match i_attrs (p_interp p) !! SWIGPY_CAPSULE_ATTR_NAME ≫= fun o => i_capsules (p_interp p) !! o with
  | Some pointer => ret (Some pointer)
  | None => PyErr_SetString AttributeError (chars "type_pointer_capsule") ;;; ret None
  end.

(** ** Singletons *)

Definition SWIG_This (p : process) : M process :=
  let g := p_globals p in
  if g_this g =? 0 then
    o <- new_object (OStr (chars "this")) ;;
    ret (put_globals (mk_globals o (g_globals g) (g_type_cache g) (g_capsule g) (g_data_module g) (g_counter g)) p)
  else ret p.

(** [SWIG_Python_TypeCache] on the global variable. *)
Definition make_cache (p : process) : M process :=
  let g := p_globals p in
  c <- SWIG_Python_TypeCache (mk_cache (g_type_cache g) ∅) ;;
  ret (put_globals (mk_globals (g_this g) (g_globals g) (tc_dict c) (g_capsule g) (g_data_module g) (g_counter g)) p).

(** "Create singletons now".
    (ctp_wrap.cpp, lines 508647 to 508655.) *)
Definition singletons (p : process) : M process :=
  p <- SWIG_runtime_data_module p ;;
  p <- SWIG_This p ;;
  p <- make_cache p ;;
  p <- SwigPyPacked_Type p ;;
  p <- SwigVarLink_Type p ;;
  SwigPyObject_Type p.

(** ** Constants *)

(** The items of the module's dictionary; [PyDict_SetItemString] takes a
    reference of its own. *)
Abbreviation dict := (gmap string Z).

Definition SWIG_Python_SetConstant (d : dict) (name : string) (obj : Z) : M dict :=
  need_gil ;;; Py_DECREF obj ;;; ret (<[name := obj]> d).

Definition constant_value (c : constant) : M Z :=
  match c with CInt z => SWIG_From_int z | CChar c => SWIG_From_char c end.

Fixpoint set_constants (l : list (string * constant)) (d : dict) : M dict :=
  match l with
  | [] => ret d
  | (name, c) :: l' => obj <- constant_value c ;; d' <- SWIG_Python_SetConstant d name obj ;; set_constants l' d'
  end.

(** ** The module *)

Section Load.
Context (self : Z) (addr : string -> Z).

(** (ctp_wrap.cpp, lines 508225 to 508419.) *)
Definition SWIG_InitializeModule (p : process) : M process :=
  head <- SWIG_Python_GetModule (PyCapsule_Import p) ;;
  p <- match head with None => SWIG_Python_SetModule self p | Some _ => ret p end ;;
  match initialize_ctp self addr head (p_image p) with
  | Some im => ret (put_image im p)
  | None => stuck Endless
  end.

(** The tables of callbacks and of constants SWIG installs itself are empty, and
    no method has a documentation string that [SWIG_Python_FixMethods] would change.
    (ctp_wrap.cpp, lines 508602 to 510019.) *)
Definition SWIG_mod_exec (d : dict) (p : process) : M (Z * (dict * process)) :=
  p <- singletons p ;;
  p <- SWIG_InitializeModule p ;;
  d <- set_constants module_constants d ;;
  ret (0, (d, p)).
End Load.
End Exec.

(** ** Lemmas *)

(** The head of the interpreter's list of modules, and the references the
    variables of the runtime hold. *)
Definition p_head (p : process) : option Z :=
  i_attrs (p_interp p) !! SWIGPY_CAPSULE_ATTR_NAME ≫= fun o => i_capsules (p_interp p) !! o.
Definition held (p : process) : list Z :=
  one (g_this (p_globals p)) ++ one (g_type_cache (p_globals p)) ++ one (g_data_module (p_globals p)) ++ map snd (p_types p).

Definition grows (w w' : world) : Prop := forall x u, w_heap w !! x = Some u -> w_heap w' !! x = Some u.

(** The shared module exists when it has the capsule or the runtime knows it. *)
Definition shared (p : process) : Prop :=
  i_module (p_interp p) = 0 -> p_head p = None /\ g_data_module (p_globals p) = 0.

(** A step that makes singletons: the references it adds are those the variables hold. *)
Record stage (p p' : process) (w w' : world) : Prop := {
  sg_settled : settled (fun x => cnt (held p') x - cnt (held p) x) w w';
  sg_heap : grows w w';
  sg_image : p_image p' = p_image p;
  sg_head : p_head p' = p_head p;
  sg_shared : shared p';
  sg_counter : g_counter (p_globals p') = g_counter (p_globals p);
  sg_globals : g_globals (p_globals p') = g_globals (p_globals p);
  sg_this : g_this (p_globals p) <> 0 -> g_this (p_globals p') <> 0;
  sg_cache : g_type_cache (p_globals p) <> 0 -> g_type_cache (p_globals p') <> 0;
  sg_data : g_data_module (p_globals p) <> 0 -> g_data_module (p_globals p') <> 0;
  sg_types : forall a, a ∈ map fst (p_types p) -> a ∈ map fst (p_types p');
}.

Lemma stage_refl p w : w_gil w = true -> fresh_ok w -> shared p -> stage p p w w.
Proof. intros Hg Hf Hs. constructor; try done; [constructor; try done; intros x; lia|by intros x u]. Qed.

Lemma stage_trans p1 p2 p3 w1 w2 w3 : stage p1 p2 w1 w2 -> stage p2 p3 w2 w3 -> stage p1 p3 w1 w3.
Proof.
  intros A B. constructor; try (by destruct A, B; congruence || (intros; auto)).
  - eapply settled_ext; [|exact (settled_trans _ _ _ _ _ (sg_settled _ _ _ _ A) (sg_settled _ _ _ _ B))]. intros x. cbn beta. lia.
  - intros x u Hx. by apply (sg_heap _ _ _ _ B), (sg_heap _ _ _ _ A).
Qed.

(** Steps compose in the monad. *)
Definition makes (f : process -> M process) (P : process -> Prop) : Prop :=
  forall p w, w_gil w = true -> fresh_ok w -> shared p ->
    exists p' w', f p w = (Ret p', w') /\ stage p p' w w' /\ P p'.

Lemma makes_bind {A} f P p w (k : process -> M A) : makes f P -> w_gil w = true -> fresh_ok w -> shared p ->
  exists p' w', bind (f p) k w = k p' w' /\ stage p p' w w' /\ P p'.
Proof. intros Hf Hg Hw Hs. destruct (Hf p w Hg Hw Hs) as (p' & w' & E & S & HP). exists p', w'. by rewrite (bind_eq _ _ _ _ _ E). Qed.

Lemma new_grows v w : w_gil w = true -> fresh_ok w ->
  exists w1, new_object v w = (Ret (w_fresh w), w1) /\ w_fresh w <> 0 /\ w_heap w1 !! w_fresh w = Some v
    /\ settled (cnt [w_fresh w]) w w1 /\ grows w w1.
Proof.
  intros Hg Hf. destruct (new_object_run v w Hg Hf) as (w1 & E & Hz & H1 & H2 & H3 & _ & _ & _ & H4 & H6 & H5).
  exists w1. split; [done|]. split; [done|]. split; [done|]. split; [|done]. constructor; try done.
  intros x. by rewrite H5, one_nonzero.
Qed.

Lemma data_module_makes : makes SWIG_runtime_data_module (fun p => g_data_module (p_globals p) <> 0).
Proof.
  intros p w Hg Hf Hs. unfold SWIG_runtime_data_module. destruct (g_data_module (p_globals p) =? 0) eqn:Ed; zbool.
  2:{ exists p, w. split; [done|]. split; [by apply stage_refl|done]. }
  unfold PyImport_AddModule. destruct (i_module (p_interp p) =? 0) eqn:Em; zbool.
  - rewrite bind_assoc. destruct (new_grows OOther w Hg Hf) as (w1 & E & Hz & _ & S1 & G1).
    rewrite (bind_eq _ _ _ _ _ E), bind_assoc. set (m := w_fresh w) in *.
    rewrite (bind_eq (modify (add_ref m (-1))) _ w1 tt (add_ref m (-1) w1) eq_refl).
    rewrite (bind_eq _ _ _ _ _ (eq_refl : ret (m, put_interp (mk_interp m ∅ (i_capsules (p_interp p))) p) (add_ref m (-1) w1) = _)).
    cbn [fst snd].
    rewrite (bind_eq _ _ _ _ _ (xincref_eq (add_ref m (-1) w1) (st_gil _ _ _ S1) m Hz)).
    eexists _, _. split; [reflexivity|]. split; [|exact Hz]. constructor; cbn; try done.
    + constructor; [apply S1|apply S1|apply S1|]. intros x. unfold held. cbn. rewrite !refs_add, (st_refs _ _ _ S1), Ed.
      rewrite !cnt_app, (one_nonzero m Hz), !cnt_single, (cnt_nil x : cnt (one 0) x = 0). case_decide; lia.
    + unfold p_head. cbn. rewrite lookup_empty. cbn. symmetry. by apply Hs.
  - rewrite bind_assoc, (bind_eq _ _ _ _ _ (need_gil_eq w Hg)).
    rewrite (bind_eq _ _ _ _ _ (eq_refl : ret (i_module (p_interp p), p) w = _)). cbn [fst snd].
    rewrite (bind_eq _ _ _ _ _ (xincref_eq w Hg _ Em)). eexists _, _. split; [reflexivity|]. split; [|exact Em].
    constructor; cbn; try done; [|by intros x u].
    constructor; try done. intros x. unfold held. cbn. rewrite refs_add, Ed.
    rewrite !cnt_app, (one_nonzero _ Em), cnt_single, (cnt_nil x : cnt (one 0) x = 0). case_decide; lia.
Qed.

Lemma this_makes : makes SWIG_This (fun p => g_this (p_globals p) <> 0).
Proof.
  intros p w Hg Hf Hs. unfold SWIG_This. destruct (g_this (p_globals p) =? 0) eqn:Ed; zbool.
  2:{ exists p, w. split; [done|]. split; [by apply stage_refl|done]. }
  destruct (new_grows (OStr (chars "this")) w Hg Hf) as (w1 & E & Hz & _ & S1 & G1). rewrite (bind_eq _ _ _ _ _ E).
  eexists _, _. split; [reflexivity|]. split; [|exact Hz]. constructor; cbn; try done.
  eapply settled_ext; [|exact S1]. intros x. unfold held. cbn. rewrite Ed, !cnt_app, (one_nonzero _ Hz), (cnt_nil x : cnt (one 0) x = 0). lia.
Qed.

Lemma cache_makes : makes make_cache (fun p => g_type_cache (p_globals p) <> 0).
Proof.
  intros p w Hg Hf Hs. unfold make_cache, SWIG_Python_TypeCache. cbn [tc_dict]. destruct (g_type_cache (p_globals p) =? 0) eqn:Ed; zbool.
  2:{ eexists _, w. split; [reflexivity|]. cbn. split; [|done]. destruct p as [im g ts i]. destruct g. cbn. by apply stage_refl. }
  destruct (new_grows OOther w Hg Hf) as (w1 & E & Hz & _ & S1 & G1). rewrite bind_assoc, (bind_eq _ _ _ _ _ E).
  eexists _, _. split; [reflexivity|]. split; [|exact Hz]. constructor; cbn; try done.
  eapply settled_ext; [|exact S1]. intros x. unfold held. cbn. rewrite Ed, !cnt_app, (one_nonzero _ Hz), (cnt_nil x : cnt (one 0) x = 0). lia.
Qed.

Section ExecLemmas.
Context (add_ok : string -> bool).

(** Adding an attribute that is not the capsule. *)
Lemma add_object_run attr o p w : w_gil w = true -> attr <> SWIGPY_CAPSULE_ATTR_NAME -> add_ok attr = true -> shared p ->
  exists p', PyModule_AddObject add_ok attr o p w = (Ret (0, p'), add_ref o (-1) w)
    /\ p_image p' = p_image p /\ p_globals p' = p_globals p /\ p_types p' = p_types p
    /\ p_head p' = p_head p /\ shared p'.
Proof.
  intros Hg Ha Hok Hs. unfold PyModule_AddObject. rewrite (bind_eq _ _ _ _ _ (need_gil_eq w Hg)), Hok.
  rewrite (bind_eq (modify (add_ref o (-1))) _ w tt _ eq_refl). eexists _. split; [reflexivity|].
  assert (Hh : p_head (put_interp (mk_interp (i_module (p_interp p)) (<[attr := o]> (i_attrs (p_interp p))) (i_capsules (p_interp p))) p) = p_head p).
  { unfold p_head. cbn. by rewrite lookup_insert_ne by done. }
  do 3 (split; [done|]). split; [exact Hh|]. unfold shared. rewrite Hh. exact Hs.
Qed.

Lemma type_makes t : sp_attr t <> SWIGPY_CAPSULE_ATTR_NAME -> add_ok (sp_attr t) = true ->
  makes (type_once add_ok t) (fun p => sp_attr t ∈ map fst (p_types p)).
Proof.
  intros Ha Hok p w Hg Hf Hs. unfold type_once. case_bool_decide as Hr.
  { exists p, w. split; [done|]. split; [by apply stage_refl|done]. }
  destruct (new_grows OOther w Hg Hf) as (w1 & E & Hz & _ & S1 & G1). rewrite (bind_eq _ _ _ _ _ E).
  destruct (data_module_makes p w1 (st_gil _ _ _ S1) (st_fresh _ _ _ S1) Hs) as (p2 & w2 & E2 & S2 & Hd).
  rewrite (bind_eq _ _ _ _ _ E2). pose proof (sg_settled _ _ _ _ S2) as T2. set (o := w_fresh w) in *.
  destruct (add_object_run (sp_attr t) o p2 w2 (st_gil _ _ _ T2) Ha Hok (sg_shared _ _ _ _ S2))
    as (p3 & E3 & Him & Hgl & Hty & Hhd & Hsh).
  rewrite (bind_eq _ _ _ _ _ E3). cbn [fst snd Z.eqb].
  assert (Hinc : exists w4, Py_INCREF o (add_ref o (-1) w2) = (Ret tt, w4) /\ same w2 w4).
  { eexists. split; [by apply incref_eq, T2|]. constructor; try done. intros x. rewrite !refs_add. case_decide; lia. }
  destruct Hinc as (w4 & E4 & W4). rewrite (bind_eq _ _ _ _ _ E4). eexists _, w4. split; [reflexivity|].
  split; [|left]. constructor; cbn.
  - constructor.
    + rewrite (same_gil _ _ W4). apply T2.
    + pose proof (st_fresh _ _ _ T2) as F. unfold fresh_ok in *. by rewrite (same_fresh _ _ W4), (same_heap _ _ W4).
    + rewrite (same_err _ _ W4), (st_err _ _ _ T2). apply S1.
    + intros x. rewrite (same_refs _ _ W4), (st_refs _ _ _ T2), (st_refs _ _ _ S1). unfold held. cbn [p_globals p_types map snd].
      rewrite Hgl, Hty. change (o :: map snd (p_types p2)) with ([o] ++ map snd (p_types p2)).
      rewrite !cnt_app. lia.
  - intros x u Hx. rewrite (same_heap _ _ W4). by apply (sg_heap _ _ _ _ S2), G1.
  - rewrite Him. apply S2.
  - change (p_head p3 = p_head p). rewrite Hhd. apply S2.
  - exact Hsh.
  - rewrite Hgl. apply S2.
  - rewrite Hgl. apply S2.
  - rewrite Hgl. apply S2.
  - rewrite Hgl. apply S2.
  - rewrite Hgl. apply S2.
  - intros a Hin. right. rewrite Hty. by apply (sg_types _ _ _ _ S2).
Qed.

(** The module becomes the head of the interpreter's list, when the attribute is accepted. *)
Lemma set_module_run self p w : w_gil w = true -> fresh_ok w -> shared p -> add_ok SWIGPY_CAPSULE_ATTR_NAME = true ->
  exists p1 p' w', SWIG_Python_SetModule add_ok self p w = (Ret p', w') /\ stage p p1 w w'
    /\ p_image p' = p_image p /\ p_head p' = Some self /\ shared p' /\ held p' = held p1
    /\ p_types p' = p_types p1
    /\ g_counter (p_globals p') = g_counter (p_globals p) + 1
    /\ g_globals (p_globals p') = g_globals (p_globals p)
    /\ g_this (p_globals p') = g_this (p_globals p1) /\ g_type_cache (p_globals p') = g_type_cache (p_globals p1)
    /\ g_data_module (p_globals p') = g_data_module (p_globals p1).
Proof.
  intros Hg Hf Hs Ha. unfold SWIG_Python_SetModule.
  destruct (data_module_makes p w Hg Hf Hs) as (p1 & w1 & E1 & S1 & Hd). rewrite (bind_eq _ _ _ _ _ E1).
  pose proof (sg_settled _ _ _ _ S1) as T1. unfold PyCapsule_New. rewrite bind_assoc.
  destruct (new_grows OOther w1 (st_gil _ _ _ T1) (st_fresh _ _ _ T1)) as (w2 & E2 & Hz & _ & S2 & G2).
  rewrite (bind_eq _ _ _ _ _ E2). set (o := w_fresh w1) in *. unfold ret at 1. unfold bind at 1. cbn [fst snd].
  unfold PyModule_AddObject. rewrite bind_assoc, (bind_eq _ _ _ _ _ (need_gil_eq w2 (st_gil _ _ _ S2))), Ha, bind_assoc.
  rewrite (bind_eq (modify (add_ref o (-1))) _ w2 tt (add_ref o (-1) w2) eq_refl).
  unfold ret at 1. unfold bind at 1. cbn [fst snd]. exists p1. eexists _, _. split; [reflexivity|]. split.
  - eapply stage_trans; [exact S1|]. constructor; try done; [|apply S1].
    constructor; [apply S2|apply S2|apply S2|]. intros x. rewrite refs_add, (st_refs _ _ _ S2), cnt_single.
    case_decide; lia.
  - cbn. split; [apply S1|]. split; [unfold p_head; cbn; rewrite lookup_insert_eq; cbn; by rewrite lookup_insert_eq|].
    split; [intros Hi; cbn in Hi; by destruct Hd; apply (sg_shared _ _ _ _ S1)|].
    do 2 (split; [done|]). split; [by rewrite (sg_counter _ _ _ _ S1)|].
    split; [by rewrite (sg_globals _ _ _ _ S1)|]. done.
Qed.

Lemma get_module_run p w : w_gil w = true -> w_err w = None ->
  exists w', SWIG_Python_GetModule (PyCapsule_Import p) w = (Ret (p_head p), w') /\ same w w'.
Proof.
  intros Hg He. unfold SWIG_Python_GetModule, PyCapsule_Import. rewrite bind_assoc, (bind_eq _ _ _ _ _ (need_gil_eq w Hg)).
  fold (p_head p). destruct (p_head p) as [h|].
  - rewrite (bind_eq _ _ _ _ _ (eq_refl : ret (Some h) w = _)), (bind_eq _ _ _ _ _ (occurred_eq w Hg)), He.
    exists w. by split.
  - rewrite bind_assoc, (bind_eq _ _ _ _ _ (set_string_eq w Hg _ _)).
    set (w1 := set_err (Some _) w). assert (Hg1 : w_gil w1 = true) by done.
    rewrite (bind_eq _ _ _ _ _ (eq_refl : ret None w1 = _)), (bind_eq _ _ _ _ _ (occurred_eq w1 Hg1)).
    cbn [w1 set_err w_err]. rewrite (bind_eq _ _ _ _ _ (clear_eq w1 Hg1)). eexists. split; [reflexivity|].
    constructor; try done.
Qed.

(** An exception a failed [PyModule_AddObject] left pending: the list of the
    loaded modules is taken for absent and the exception is lost, so the module
    would start a list of its own. *)
Lemma get_module_pending p w e : w_gil w = true -> w_err w = Some e ->
  exists w', SWIG_Python_GetModule (PyCapsule_Import p) w = (Ret None, w') /\ w_err w' = None.
Proof.
  intros Hg He. unfold SWIG_Python_GetModule, PyCapsule_Import. rewrite bind_assoc, (bind_eq _ _ _ _ _ (need_gil_eq w Hg)).
  fold (p_head p). destruct (p_head p) as [h|].
  - rewrite (bind_eq _ _ _ _ _ (eq_refl : ret (Some h) w = _)), (bind_eq _ _ _ _ _ (occurred_eq w Hg)), He.
    rewrite (bind_eq _ _ _ _ _ (clear_eq w Hg)). eexists. by split.
  - rewrite bind_assoc, (bind_eq _ _ _ _ _ (set_string_eq w Hg _ _)).
    set (w1 := set_err (Some _) w). assert (Hg1 : w_gil w1 = true) by done.
    rewrite (bind_eq _ _ _ _ _ (eq_refl : ret None w1 = _)), (bind_eq _ _ _ _ _ (occurred_eq w1 Hg1)).
    cbn [w1 set_err w_err]. rewrite (bind_eq _ _ _ _ _ (clear_eq w1 Hg1)). eexists. by split.
Qed.

(** *** Constants *)

Definition value_of (c : constant) : pyobj :=
  match c with CInt z => OInt z | CChar c => OStr (utf8_decode [c]) end.

Lemma set_constants_run l d w : w_gil w = true -> fresh_ok w -> NoDup (map fst l) ->
  exists d' w', set_constants l d w = (Ret d', w') /\ settled (fun _ => 0) w w' /\ grows w w'
    /\ (forall name, name ∉ map fst l -> d' !! name = d !! name)
    /\ (forall name c, (name, c) ∈ l -> exists o, d' !! name = Some o /\ w_heap w' !! o = Some (value_of c)).
Proof.
  revert d w; induction l as [|[name c] l IH]; intros d w Hg Hf Hd; cbn [set_constants].
  { exists d, w. split; [done|]. split; [constructor; try done; intros; lia|]. split; [by intros x u|].
    split; [done|]. by intros ? ? ?%elem_of_nil. }
  apply NoDup_cons in Hd as [Hn Hd]. assert (Ec : constant_value c = new_object (value_of c)) by (by destruct c).
  rewrite Ec. destruct (new_grows (value_of c) w Hg Hf) as (w1 & E & Hz & Ho & S1 & G1). rewrite (bind_eq _ _ _ _ _ E).
  set (o := w_fresh w) in *. unfold SWIG_Python_SetConstant.
  rewrite bind_assoc, (bind_eq _ _ _ _ _ (need_gil_eq w1 (st_gil _ _ _ S1))).
  rewrite bind_assoc, (bind_eq _ _ _ _ _ (decref_eq w1 (st_gil _ _ _ S1) o Hz)).
  rewrite (bind_eq _ _ _ _ _ (eq_refl : ret (<[name := o]> d) (add_ref o (-1) w1) = _)).
  destruct (IH (<[name := o]> d) (add_ref o (-1) w1) (st_gil _ _ _ S1) (st_fresh _ _ _ S1) Hd) as (d' & w' & E' & S' & G' & Hk & Hv).
  exists d', w'. split; [exact E'|]. split; [|split; [|split]].
  - constructor; [apply S'|apply S'|by rewrite (st_err _ _ _ S'), <- (st_err _ _ _ S1)|]. intros x.
    rewrite (st_refs _ _ _ S'), refs_add, (st_refs _ _ _ S1), cnt_single. case_decide; lia.
  - intros x u Hx. by apply G', G1.
  - intros n [Hne Hnl]%not_elem_of_cons. rewrite Hk by done. by apply lookup_insert_ne.
  - intros n c' [[= -> ->]|Hin]%elem_of_cons; [|by apply Hv]. exists o. split; [|by apply G'].
    rewrite Hk by done. apply lookup_insert_eq.
Qed.

(** *** The module *)

Definition type_attrs : list string := map sp_attr [SwigPyPacked_spec; SwigVarLink_spec; SwigPyObject_spec].

(** Everything [SWIG_mod_exec] makes before the module is initialised is there. *)
Definition complete (p : process) : Prop :=
  g_this (p_globals p) <> 0 /\ g_type_cache (p_globals p) <> 0 /\ g_data_module (p_globals p) <> 0
  /\ forall a, a ∈ type_attrs -> a ∈ map fst (p_types p).

Lemma stage_complete p p' w w' : stage p p' w w' -> complete p -> complete p'.
Proof.
  intros S (H1 & H2 & H3 & H4). split; [by apply (sg_this _ _ _ _ S)|]. split; [by apply (sg_cache _ _ _ _ S)|].
  split; [by apply (sg_data _ _ _ _ S)|]. intros a Ha. by apply (sg_types _ _ _ _ S), H4.
Qed.

(** The interpreter accepts the types of the runtime as attributes. *)
Definition types_ok : Prop := forall a, a ∈ type_attrs -> add_ok a = true.

Lemma singletons_make : types_ok -> makes (singletons add_ok) complete.
Proof.
  intros Hok p w Hg Hf Hs. assert (Hok1 := Hok _ ltac:(left) : add_ok (sp_attr SwigPyPacked_spec) = true).
  assert (Hok2 := Hok _ ltac:(right; left) : add_ok (sp_attr SwigVarLink_spec) = true).
  assert (Hok3 := Hok _ ltac:(right; right; left) : add_ok (sp_attr SwigPyObject_spec) = true). unfold singletons.
  destruct (makes_bind _ _ p w (fun p => p <- SWIG_This p ;; p <- make_cache p ;; p <- SwigPyPacked_Type add_ok p ;;
    p <- SwigVarLink_Type add_ok p ;; SwigPyObject_Type add_ok p) data_module_makes Hg Hf Hs) as (p1 & w1 & -> & S1 & H1).
  pose proof (sg_settled _ _ _ _ S1) as T1.
  destruct (makes_bind _ _ p1 w1 (fun p => p <- make_cache p ;; p <- SwigPyPacked_Type add_ok p ;;
    p <- SwigVarLink_Type add_ok p ;; SwigPyObject_Type add_ok p) this_makes (st_gil _ _ _ T1) (st_fresh _ _ _ T1) (sg_shared _ _ _ _ S1))
    as (p2 & w2 & -> & S2 & H2). pose proof (sg_settled _ _ _ _ S2) as T2.
  destruct (makes_bind _ _ p2 w2 (fun p => p <- SwigPyPacked_Type add_ok p ;;
    p <- SwigVarLink_Type add_ok p ;; SwigPyObject_Type add_ok p) cache_makes (st_gil _ _ _ T2) (st_fresh _ _ _ T2) (sg_shared _ _ _ _ S2))
    as (p3 & w3 & -> & S3 & H3). pose proof (sg_settled _ _ _ _ S3) as T3.
  destruct (makes_bind _ _ p3 w3 (fun p => p <- SwigVarLink_Type add_ok p ;; SwigPyObject_Type add_ok p)
    (type_makes SwigPyPacked_spec ltac:(done) Hok1) (st_gil _ _ _ T3) (st_fresh _ _ _ T3) (sg_shared _ _ _ _ S3))
    as (p4 & w4 & E4 & S4 & H4). unfold SwigPyPacked_Type. rewrite E4. pose proof (sg_settled _ _ _ _ S4) as T4.
  destruct (makes_bind _ _ p4 w4 (fun p => SwigPyObject_Type add_ok p)
    (type_makes SwigVarLink_spec ltac:(done) Hok2) (st_gil _ _ _ T4) (st_fresh _ _ _ T4) (sg_shared _ _ _ _ S4))
    as (p5 & w5 & E5 & S5 & H5). unfold SwigVarLink_Type. rewrite E5. pose proof (sg_settled _ _ _ _ S5) as T5.
  destruct (type_makes SwigPyObject_spec ltac:(done) Hok3 p5 w5 (st_gil _ _ _ T5) (st_fresh _ _ _ T5) (sg_shared _ _ _ _ S5))
    as (p6 & w6 & E6 & S6 & H6). unfold SwigPyObject_Type. exists p6, w6. split; [exact E6|].
  pose proof (stage_trans _ _ _ _ _ _ S5 S6) as S56. pose proof (stage_trans _ _ _ _ _ _ S4 S56) as S46.
  pose proof (stage_trans _ _ _ _ _ _ S3 S46) as S36. pose proof (stage_trans _ _ _ _ _ _ S2 S36) as S26.
  split; [exact (stage_trans _ _ _ _ _ _ S1 S26)|]. split; [by apply (sg_this _ _ _ _ S36)|].
  split; [by apply (sg_cache _ _ _ _ S46)|]. split; [by apply (sg_data _ _ _ _ S26)|].
  intros a Ha. unfold type_attrs in Ha. cbn [map] in Ha. rewrite !elem_of_cons, elem_of_nil in Ha. destruct Ha as [->|[->|[->|[]]]].
  - by apply (sg_types _ _ _ _ S56).
  - by apply (sg_types _ _ _ _ S6).
  - done.
Qed.

(** They are made once. *)
Lemma singletons_again p w : complete p -> singletons add_ok p w = (Ret p, w).
Proof.
  intros (H1 & H2 & H3 & H4). unfold singletons, SwigPyPacked_Type, SwigVarLink_Type, SwigPyObject_Type.
  assert (Ht : forall t, t ∈ [SwigPyPacked_spec; SwigVarLink_spec; SwigPyObject_spec] -> type_once add_ok t p w = (Ret p, w)).
  { intros t Ht. unfold type_once. rewrite bool_decide_true; [done|]. apply H4. by apply list_elem_of_fmap_2. }
  assert (E1 : SWIG_runtime_data_module p w = (Ret p, w)).
  { unfold SWIG_runtime_data_module. by rewrite (proj2 (Z.eqb_neq _ _) H3). }
  assert (E2 : SWIG_This p w = (Ret p, w)) by (unfold SWIG_This; by rewrite (proj2 (Z.eqb_neq _ _) H1)).
  assert (E3 : make_cache p w = (Ret p, w)).
  { unfold make_cache, SWIG_Python_TypeCache. cbn [tc_dict]. rewrite (proj2 (Z.eqb_neq _ _) H2). destruct p as [? g ? ?].
    by destruct g. }
  rewrite (bind_eq _ _ _ _ _ E1), (bind_eq _ _ _ _ _ E2), (bind_eq _ _ _ _ _ E3).
  rewrite (bind_eq _ _ _ _ _ (Ht SwigPyPacked_spec ltac:(left))), (bind_eq _ _ _ _ _ (Ht SwigVarLink_spec ltac:(right; left))).
  apply Ht. right. right. left.
Qed.


(** What is common to all executions: [im'] is the image [SWIG_InitializeModule] gives. *)
Record executed (self : Z) (d : gmap string Z) (p : process) (w : world) (im' : image)
    (d' : gmap string Z) (p' : process) (w' : world) : Prop := {
  ex_image : p_image p' = im';
  ex_head : p_head p' = Some (default self (p_head p));
  ex_shared : shared p';
  ex_complete : complete p';
  ex_counter : g_counter (p_globals p') = g_counter (p_globals p) + match p_head p with Some _ => 0 | None => 1 end;
  ex_globals : g_globals (p_globals p') = g_globals (p_globals p);
  ex_settled : settled (fun x => cnt (held p') x - cnt (held p) x) w w';
  ex_set : forall name c, (name, c) ∈ module_constants -> exists o, d' !! name = Some o /\ w_heap w' !! o = Some (value_of c);
  ex_kept : forall name, name ∉ map fst module_constants -> d' !! name = d !! name;
}.

Lemma same_settled w w' : w_gil w = true -> fresh_ok w -> same w w' -> settled (fun _ => 0) w w'.
Proof.
  intros Hg Hf S. constructor.
  - by rewrite (same_gil _ _ S).
  - unfold fresh_ok in *. by rewrite (same_fresh _ _ S), (same_heap _ _ S).
  - apply S.
  - intros x. rewrite (same_refs _ _ S). lia.
Qed.

Lemma initialize_run self addr p w im' : w_gil w = true -> w_err w = None -> fresh_ok w -> shared p -> complete p ->
  (p_head p = None -> add_ok SWIGPY_CAPSULE_ATTR_NAME = true) ->
  initialize_ctp self addr (p_head p) (p_image p) = Some im' ->
  exists p' w', SWIG_InitializeModule add_ok self addr p w = (Ret p', w')
    /\ p_image p' = im' /\ p_head p' = Some (default self (p_head p)) /\ shared p' /\ complete p'
    /\ g_counter (p_globals p') = g_counter (p_globals p) + match p_head p with Some _ => 0 | None => 1 end
    /\ g_globals (p_globals p') = g_globals (p_globals p)
    /\ settled (fun x => cnt (held p') x - cnt (held p) x) w w'
    /\ (is_Some (p_head p) -> p' = put_image im' p).
Proof.
  intros Hg He Hf Hs Hc Ha Hi. unfold SWIG_InitializeModule.
  destruct (get_module_run p w Hg He) as (w1 & E1 & W1). rewrite (bind_eq _ _ _ _ _ E1).
  pose proof (same_settled w w1 Hg Hf W1) as S1. destruct (p_head p) as [h|] eqn:Eh.
  - rewrite (bind_eq _ _ _ _ _ (eq_refl : ret p w1 = _)), Hi. eexists _, w1. split; [reflexivity|].
    split; [done|]. split; [exact Eh|]. split; [exact Hs|]. split; [exact Hc|]. split; [cbn; lia|]. split; [done|].
    split; [|done].
    eapply settled_ext; [|exact S1]. intros x. cbn. change (held (put_image im' p)) with (held p). lia.
  - destruct (set_module_run self p w1 (st_gil _ _ _ S1) (st_fresh _ _ _ S1) Hs (Ha eq_refl))
      as (p1 & p2 & w2 & E2 & S2 & Him & Hh & Hsh & Hheld & Hty & Hk & Hgl & Ht & Hca & Hd).
    rewrite (bind_eq _ _ _ _ _ E2), Him, Hi. eexists _, w2. split; [reflexivity|]. split; [done|].
    split; [exact Hh|]. split; [exact Hsh|]. split; [|split; [|split; [exact Hgl|split; [|by intros []]]]].
    + destruct (stage_complete _ _ _ _ S2 Hc) as (C1 & C2 & C3 & C4). unfold complete. cbn. by rewrite Ht, Hca, Hd, Hty.
    + cbn. rewrite Hk. lia.
    + eapply settled_ext; [|exact (settled_trans _ _ _ _ _ S1 (sg_settled _ _ _ _ S2))]. intros x. cbn.
      change (held (put_image im' p2)) with (held p2). rewrite Hheld. lia.
Qed.

Lemma mod_exec_run self addr d p w im' : w_gil w = true -> w_err w = None -> fresh_ok w -> shared p -> types_ok ->
  (p_head p = None -> add_ok SWIGPY_CAPSULE_ATTR_NAME = true) ->
  initialize_ctp self addr (p_head p) (p_image p) = Some im' ->
  exists d' p' w', SWIG_mod_exec add_ok self addr d p w = (Ret (0, (d', p')), w') /\ executed self d p w im' d' p' w'.
Proof.
  intros Hg He Hf Hs Hok Ha Hi. unfold SWIG_mod_exec.
  destruct (singletons_make Hok p w Hg Hf Hs) as (p1 & w1 & E1 & S1 & C1). rewrite (bind_eq _ _ _ _ _ E1).
  pose proof (sg_settled _ _ _ _ S1) as T1. pose proof (sg_head _ _ _ _ S1) as Eh.
  destruct (initialize_run self addr p1 w1 im' (st_gil _ _ _ T1)) as (p2 & w2 & E2 & Him & Hh & Hsh & C2 & Hk & Hgl & T2 & _);
    [by rewrite (st_err _ _ _ T1)|apply T1|apply S1|done|by rewrite Eh|by rewrite Eh, (sg_image _ _ _ _ S1)|].
  rewrite (bind_eq _ _ _ _ _ E2).
  destruct (set_constants_run module_constants d w2 (st_gil _ _ _ T2) (st_fresh _ _ _ T2)) as (d' & w3 & E3 & T3 & _ & Hkeep & Hset);
    [apply nodupb_spec, constant_names|].
  rewrite (bind_eq _ _ _ _ _ E3). exists d', p2, w3. split; [reflexivity|]. constructor; try done.
  - by rewrite Hh, Eh.
  - by rewrite Hk, Eh, (sg_counter _ _ _ _ S1).
  - by rewrite Hgl, (sg_globals _ _ _ _ S1).
  - eapply settled_ext; [|exact (settled_trans _ _ _ _ _ (settled_trans _ _ _ _ _ T1 T2) T3)]. intros x. cbn. lia.
Qed.

(** Once the module is loaded an execution gives the same process back. *)
Lemma mod_exec_again self addr d p w h l : w_gil w = true -> w_err w = None -> fresh_ok w -> shared p -> complete p ->
  p_head p = Some h -> loaded (p_image p) (h :: l) -> self ∈ h :: l ->
  exists d' w', SWIG_mod_exec add_ok self addr d p w = (Ret (0, (d', p)), w') /\ settled (fun _ => 0) w w'.
Proof.
  intros Hg He Hf Hs Hc Hh Hl Hin. unfold SWIG_mod_exec. rewrite (bind_eq _ _ _ _ _ (singletons_again p w Hc)).
  assert (Hi : initialize_ctp self addr (p_head p) (p_image p) = Some (p_image p))
    by (rewrite Hh, initialize_ctp_eq; by eapply initialize_again).
  destruct (initialize_run self addr p w (p_image p) Hg He Hf Hs Hc) as (p2 & w2 & E2 & _ & _ & _ & _ & _ & _ & T2 & Heq);
    [by rewrite Hh|done|]. rewrite (bind_eq _ _ _ _ _ E2). rewrite Heq in * by (by rewrite Hh).
  assert (Ep : put_image (p_image p) p = p) by (by destruct p). rewrite Ep in *.
  destruct (set_constants_run module_constants d w2 (st_gil _ _ _ T2) (st_fresh _ _ _ T2)) as (d' & w3 & E3 & T3 & _);
    [apply nodupb_spec, constant_names|].
  rewrite (bind_eq _ _ _ _ _ E3). exists d', w3. split; [reflexivity|].
  eapply settled_ext; [|exact (settled_trans _ _ _ _ _ T2 T3)]. intros x. cbn. lia.
Qed.
End ExecLemmas.

(** The object a constant is: an integer, or a text of one character. *)
Definition constant_object (c : constant) : pyobj := match c with CInt z => OInt z | CChar c => OStr [c] end.

Lemma constants_ascii : forallb (fun p => match snd p with CChar c => (0 <? c) && (c <? 128) | CInt _ => true end) module_constants = true.
Proof. vm_compute. reflexivity. Qed.

Lemma constant_object_eq name c : (name, c) ∈ module_constants -> value_of c = constant_object c.
Proof.
  intros Hin. pose proof constants_ascii as H. rewrite forallb_forall in H. specialize (H _ (proj1 (list_elem_of_In _ _) Hin)).
  destruct c as [z|c]; [done|]. cbn in H. zbool. unfold value_of, constant_object. f_equal. apply utf8_decode_encode, utf8_encode_ascii.
  constructor; [lia|constructor].
Qed.

(** *** The types after loading *)

(** What the conversions see of the type table of an image: the names of the
    module's types and the casts of the descriptors they were resolved to. *)
Definition image_types (im : image) (types : list Z) (client : nat -> bool) : TypeEnv := {|
  te_size := length CtpTypes.swigt;
  te_name i := match CtpTypes.swigt !! i with Some p => chars (fst p) | None => [] end;
  te_cast i := t_cast <$> (take (length CtpTypes.swigt) types !! i ≫= fun a => im_types im !! a);
  te_client := client;
|}.

#[local] Opaque CtpTypes.swigt.

(** The conversions keep their contract with the merged table, as long as no type
    another module shares accepts the name of a different type of this one. *)
Lemma merged_exact self addr im ring im' types client : static self (ctp_table addr) im ring ->
  merged self (ctp_table addr) im ring im' types ->
  (forall i p d t j q, CtpTypes.swigt !! i = Some p -> types !! i = Some d -> d <> addr (fst p) -> im_types im' !! d = Some t ->
     CtpTypes.swigt !! j = Some q -> j <> i -> SWIG_TypeCheck (chars (fst q)) (Some (t_cast t)) = Some None) ->
  ExactTypes (image_types im' types client).
Proof.
  intros Hs Hm Hsh to ty Hto Hne. cbn [te_size te_name te_cast image_types] in *.
  destruct (lookup_lt_is_Some_2 CtpTypes.swigt to Hto) as [q Hq]. rewrite Hq.
  destruct (take (length CtpTypes.swigt) types !! ty) as [d|] eqn:Hd; [|done].
  apply lookup_take_Some in Hd as [Hd Hlt]. destruct (lookup_lt_is_Some_2 CtpTypes.swigt ty Hlt) as [p Hp].
  destruct (merged_checks self addr im ring im' types ty p Hs Hm Hp) as (d' & t & Hd' & Ht & _ & Hex).
  rewrite Hd in Hd'. injection Hd' as <-. cbn [mbind option_bind]. rewrite Ht. cbn [fmap option_fmap option_map].
  destruct (decide (d = addr (fst p))) as [E|E].
  - apply Hex; [done|]. intros Hn%chars_inj. apply Hne. eapply (NoDup_lookup (map fst CtpTypes.swigt)).
    + apply CtpTypes.swigt_nodup.
    + rewrite list_lookup_fmap, Hq. reflexivity.
    + rewrite list_lookup_fmap, Hp, Hn. reflexivity.
  - by eapply Hsh.
Qed.
#[local] Transparent CtpTypes.swigt.

(** *** The end of the module *)

Lemma destroy_no_classes types w : destroy_types types (mk_registry ∅ ∅) w = (Ret (mk_registry ∅ ∅), w).
Proof.
  induction types as [|t types IH]; [done|]. cbn [destroy_types r_own]. rewrite decide_False by set_solver. exact IH.
Qed.

(** When the interpreter drops the capsule of a module that was loaded first and
    registered no class, native code is left with the references to the types of
    the runtime, which the process keeps. *)
Lemma load_then_destroy add_ok self addr d im i w types :
  let p := mk_process im (mk_globals 0 0 0 0 0 0) [] i in
  w_gil w = true -> w_err w = None -> fresh_ok w -> shared p -> p_head p = None ->
  static self (ctp_table addr) im [] -> types_ok add_ok -> add_ok SWIGPY_CAPSULE_ATTR_NAME = true ->
  exists d' p' w' w'', SWIG_mod_exec add_ok self addr d p w = (Ret (0, (d', p')), w')
    /\ SWIG_Python_DestroyModule types (mk_registry ∅ ∅) (p_globals p') w' = (Ret (mk_registry ∅ ∅, mk_globals 0 0 0 0 0 0), w'')
    /\ forall x, refs w'' x = refs w x + cnt (map snd (p_types p')) x.
Proof.
  intros p Hg He Hf Hs Hh Hst Hok Ha.
  destruct (initialize_ctp_run self addr im [] (loaded_nil im) Hst) as (im' & tys & Ei & _).
  destruct (mod_exec_run add_ok self addr d p w im' Hg He Hf Hs) as (d' & p' & w' & E & X); [done|done|by rewrite Hh|].
  pose proof (ex_settled _ _ _ _ _ _ _ _ X) as T. pose proof (ex_counter _ _ _ _ _ _ _ _ X) as Hk. rewrite Hh in Hk. cbn in Hk.
  pose proof (ex_globals _ _ _ _ _ _ _ _ X) as Hgl. cbn in Hgl.
  exists d', p', w'. unfold SWIG_Python_DestroyModule. cbn [g_counter]. rewrite Hk. change (negb (0 + 1 - 1 =? 0)) with false. cbn beta iota.
  rewrite (bind_eq _ _ _ _ _ (destroy_no_classes types w')). cbn [g_this g_globals g_type_cache g_data_module].
  destruct (xdecref4_released (g_this (p_globals p')) (g_globals (p_globals p')) (g_type_cache (p_globals p'))
    (g_data_module (p_globals p')) w' (st_gil _ _ _ T)) as (w'' & R & E2).
  exists w''. split; [done|]. split; [apply E2|]. intros x. rewrite (rel_refs _ _ _ R), (st_refs _ _ _ T), Hgl.
  unfold held. cbn [p_globals p_types p g_this g_type_cache g_data_module map]. rewrite !cnt_app.
  change (one 0) with (@nil Z). rewrite !cnt_nil. lia.
Qed.

(** ** Properties *)

#[local] Opaque module_constants.

(** C15. Loading the module, when no allocation fails: let the interpreter have
    any SWIG modules loaded, listed by its capsule when there are any, let no
    error be set, and let this be the first time the process initialises this
    module, so that its static data are as the program was loaded with.  When
    the interpreter accepts the types of the runtime, and the capsule when no
    SWIG module is loaded, as attributes of the shared module, [SWIG_mod_exec]
    returns 0 with the lock held and no error.  The types are merged with those of
    the other modules and the module is in their list, of which it is the head
    when it is the first; the singletons exist; the dictionary holds every
    constant with its value and is otherwise as it was; native code owns exactly
    the references its variables hold.  To execute it again gives the same
    process. *)
Theorem module_loads add_ok self addr d p w ring :
  w_gil w = true -> w_err w = None -> fresh_ok w -> shared p ->
  p_head p = head ring -> loaded (p_image p) ring -> static self (ctp_table addr) (p_image p) ring ->
  types_ok add_ok -> (ring = [] -> add_ok SWIGPY_CAPSULE_ATTR_NAME = true) ->
  exists d' p' w' types, SWIG_mod_exec add_ok self addr d p w = (Ret (0, (d', p')), w')
    /\ merged self (ctp_table addr) (p_image p) ring (p_image p') types
    /\ p_head p' = head (second self ring) /\ complete p'
    /\ g_counter (p_globals p') = g_counter (p_globals p) + (match ring with [] => 1 | _ => 0 end)
    /\ (forall name c, (name, c) ∈ module_constants ->
          exists o, d' !! name = Some o /\ w_heap w' !! o = Some (constant_object c))
    /\ (forall name, name ∉ map fst module_constants -> d' !! name = d !! name)
    /\ w_gil w' = true /\ w_err w' = None
    /\ (forall x, refs w' x = refs w x + (cnt (held p') x - cnt (held p) x))
    /\ (forall d2 w2, w_gil w2 = true -> w_err w2 = None -> fresh_ok w2 ->
          exists d3 w3, SWIG_mod_exec add_ok self addr d2 p' w2 = (Ret (0, (d3, p')), w3) /\ forall x, refs w3 x = refs w2 x).
Proof.
  intros Hg He Hf Hs Hh Hl Hst Hok Ha. destruct (initialize_ctp_run self addr (p_image p) ring Hl Hst) as (im' & types & Ei & Hm).
  destruct (mod_exec_run add_ok self addr d p w im' Hg He Hf Hs) as (d' & p' & w' & E & X);
    [done|rewrite Hh; destruct ring; [by intros _; apply Ha|done]|by rewrite Hh|].
  pose proof (ex_settled _ _ _ _ _ _ _ _ X) as T. pose proof (ex_image _ _ _ _ _ _ _ _ X) as Him.
  assert (Hh' : p_head p' = head (second self ring))
    by (rewrite (ex_head _ _ _ _ _ _ _ _ X), Hh; by destruct ring).
  exists d', p', w', types. split; [done|]. split; [by rewrite Him|]. split; [done|]. split; [apply X|].
  split; [rewrite (ex_counter _ _ _ _ _ _ _ _ X), Hh; by destruct ring|]. split.
  { intros name c Hin. rewrite <- (constant_object_eq name c Hin). by apply (ex_set _ _ _ _ _ _ _ _ X). }
  split; [apply X|]. split; [apply T|]. split; [by rewrite (st_err _ _ _ T)|]. split; [apply T|].
  intros d2 w2 Hg2 He2 Hf2. pose proof (mg_loaded _ _ _ _ _ _ Hm) as Hl'. rewrite <- Him in Hl'.
  assert (Hr : exists h l, second self ring = h :: l /\ self ∈ h :: l)
    by (destruct ring as [|h l]; eexists _, _; (split; [reflexivity|]); [left|right; left]).
  destruct Hr as (h & l & Er & Hin). rewrite Er in Hl', Hh'.
  destruct (mod_exec_again add_ok self addr d2 p' w2 h l Hg2 He2 Hf2) as (d3 & w3 & E3 & T3); [apply X|apply X|done|done|done|].
  exists d3, w3. split; [done|]. intros x. rewrite (st_refs _ _ _ T3). lia.
Qed.

(** An interpreter with the other module of Modules.v, none of whose variables is set. *)
Definition sample_process : process :=
  mk_process sample_image (mk_globals 0 0 0 0 0 0) [] (mk_interp 90 {[SWIGPY_CAPSULE_ATTR_NAME := 91]} {[91 := 16]}).

Lemma module_loads_witness : exists d' p' w',
  SWIG_mod_exec (fun _ => true) 24 Modules.sample_addr ∅ sample_process sample_world = (Ret (0, (d', p')), w')
  /\ p_head p' = Some 16 /\ loaded (p_image p') [16; 24].
Proof.
  destruct (module_loads (fun _ => true) 24 Modules.sample_addr ∅ sample_process sample_world [16])
    as (d' & p' & w' & types & E & Hm & Hh & _).
  - reflexivity.
  - reflexivity.
  - split; [discriminate|]. intros o Ho. cbn [w_fresh sample_world] in Ho. cbn [w_heap sample_world].
    rewrite !lookup_insert_ne by lia. apply lookup_singleton_ne. lia.
  - discriminate.
  - reflexivity.
  - exact sample_loaded.
  - exact sample_static.
  - intros a _. reflexivity.
  - discriminate.
  - exists d', p', w'. split; [exact E|]. split; [exact Hh|exact (mg_loaded _ _ _ _ _ _ Hm)].
Defined.
#[local] Transparent module_constants.
End ModuleInit.
