(* ===== verification/Structs1.v ===== *)
(** * CTP structures, part 1

    The struct declarations of ThostFtdcUserApiStruct.h, one definition each:
    field names and types in order. *)

From S2P Require Import Prelude Layout DataTypes.

Module Structs1.
Import Layout DataTypes.
Local Open Scope string_scope.
Local Open Scope list_scope.

Definition CThostFtdcDisseminationField : struct :=
  [ ("SequenceSeries", TThostFtdcSequenceSeriesType);
    ("SequenceNo", TThostFtdcSequenceNoType) ].

Definition CThostFtdcReqUserLoginField : struct :=
  [ ("TradingDay", TThostFtdcDateType);
    ("BrokerID", TThostFtdcBrokerIDType);
    ("UserID", TThostFtdcUserIDType);
    ("Password", TThostFtdcPasswordType);
    ("UserProductInfo", TThostFtdcProductInfoType);
    ("InterfaceProductInfo", TThostFtdcProductInfoType);
    ("ProtocolInfo", TThostFtdcProtocolInfoType);
    ("MacAddress", TThostFtdcMacAddressType);
    ("OneTimePassword", TThostFtdcPasswordType);
    ("reserve1", TThostFtdcOldIPAddressType);
    ("LoginRemark", TThostFtdcLoginRemarkType);
    ("ClientIPPort", TThostFtdcIPPortType);
    ("ClientIPAddress", TThostFtdcIPAddressType) ].

Definition CThostFtdcRspUserLoginField : struct :=
  [ ("TradingDay", TThostFtdcDateType);
    ("LoginTime", TThostFtdcTimeType);
    ("BrokerID", TThostFtdcBrokerIDType);
    ("UserID", TThostFtdcUserIDType);
    ("SystemName", TThostFtdcSystemNameType);
    ("FrontID", TThostFtdcFrontIDType);
    ("SessionID", TThostFtdcSessionIDType);
    ("MaxOrderRef", TThostFtdcOrderRefType);
    ("SHFETime", TThostFtdcTimeType);
    ("DCETime", TThostFtdcTimeType);
    ("CZCETime", TThostFtdcTimeType);
    ("FFEXTime", TThostFtdcTimeType);
    ("INETime", TThostFtdcTimeType);
    ("SysVersion", TThostFtdcSysVersionType);
    ("GFEXTime", TThostFtdcTimeType) ].

Definition CThostFtdcUserLogoutField : struct :=
  [ ("BrokerID", TThostFtdcBrokerIDType);
    ("UserID", TThostFtdcUserIDType) ].

Definition CThostFtdcForceUserLogoutField : struct :=
  [ ("BrokerID", TThostFtdcBrokerIDType);
    ("UserID", TThostFtdcUserIDType) ].

Definition CThostFtdcReqAuthenticateField : struct :=
  [ ("BrokerID", TThostFtdcBrokerIDType);
    ("UserID", TThostFtdcUserIDType);
    ("UserProductInfo", TThostFtdcProductInfoType);
    ("AuthCode", TThostFtdcAuthCodeType);
    ("AppID", TThostFtdcAppIDType) ].

Definition CThostFtdcRspAuthenticateField : struct :=
  [ ("BrokerID", TThostFtdcBrokerIDType);
    ("UserID", TThostFtdcUserIDType);
    ("UserProductInfo", TThostFtdcProductInfoType);
    ("AppID", TThostFtdcAppIDType);
    ("AppType", TThostFtdcAppTypeType) ].

Definition CThostFtdcAuthenticationInfoField : struct :=
  [ ("BrokerID", TThostFtdcBrokerIDType);
    ("UserID", TThostFtdcUserIDType);
    ("UserProductInfo", TThostFtdcProductInfoType);
    ("AuthInfo", TThostFtdcAuthInfoType);
    ("IsResult", TThostFtdcBoolType);
    ("AppID", TThostFtdcAppIDType);
    ("AppType", TThostFtdcAppTypeType);
    ("reserve1", TThostFtdcOldIPAddressType);
    ("ClientIPAddress", TThostFtdcIPAddressType) ].

Definition CThostFtdcRspUserLogin2Field : struct :=
  [ ("TradingDay", TThostFtdcDateType);
    ("LoginTime", TThostFtdcTimeType);
    ("BrokerID", TThostFtdcBrokerIDType);
    ("UserID", TThostFtdcUserIDType);
    ("SystemName", TThostFtdcSystemNameType);
    ("FrontID", TThostFtdcFrontIDType);
    ("SessionID", TThostFtdcSessionIDType);
    ("MaxOrderRef", TThostFtdcOrderRefType);
    ("SHFETime", TThostFtdcTimeType);
    ("DCETime", TThostFtdcTimeType);
    ("CZCETime", TThostFtdcTimeType);
    ("FFEXTime", TThostFtdcTimeType);
    ("INETime", TThostFtdcTimeType);
    ("RandomString", TThostFtdcRandomStringType) ].

Definition CThostFtdcTransferHeaderField : struct :=
  [ ("Version", TThostFtdcVersionType);
    ("TradeCode", TThostFtdcTradeCodeType);
    ("TradeDate", TThostFtdcTradeDateType);
    ("TradeTime", TThostFtdcTradeTimeType);
    ("TradeSerial", TThostFtdcTradeSerialType);
    ("FutureID", TThostFtdcFutureIDType);
    ("BankID", TThostFtdcBankIDType);
    ("BankBrchID", TThostFtdcBankBrchIDType);
    ("OperNo", TThostFtdcOperNoType);
    ("DeviceID", TThostFtdcDeviceIDType);
    ("RecordNum", TThostFtdcRecordNumType);
    ("SessionID", TThostFtdcSessionIDType);
    ("RequestID", TThostFtdcRequestIDType) ].

Definition CThostFtdcTransferBankToFutureReqField : struct :=
  [ ("FutureAccount", TThostFtdcAccountIDType);
    ("FuturePwdFlag", TThostFtdcFuturePwdFlagType);
    ("FutureAccPwd", TThostFtdcFutureAccPwdType);
    ("TradeAmt", TThostFtdcMoneyType);
    ("CustFee", TThostFtdcMoneyType);
    ("CurrencyCode", TThostFtdcCurrencyCodeType) ].

Definition CThostFtdcTransferBankToFutureRspField : struct :=
  [ ("RetCode", TThostFtdcRetCodeType);
    ("RetInfo", TThostFtdcRetInfoType);
    ("FutureAccount", TThostFtdcAccountIDType);
    ("TradeAmt", TThostFtdcMoneyType);
    ("CustFee", TThostFtdcMoneyType);
    ("CurrencyCode", TThostFtdcCurrencyCodeType) ].

Definition CThostFtdcTransferFutureToBankReqField : struct :=
  [ ("FutureAccount", TThostFtdcAccountIDType);
    ("FuturePwdFlag", TThostFtdcFuturePwdFlagType);
    ("FutureAccPwd", TThostFtdcFutureAccPwdType);
    ("TradeAmt", TThostFtdcMoneyType);
    ("CustFee", TThostFtdcMoneyType);
    ("CurrencyCode", TThostFtdcCurrencyCodeType) ].

Definition CThostFtdcTransferFutureToBankRspField : struct :=
  [ ("RetCode", TThostFtdcRetCodeType);
    ("RetInfo", TThostFtdcRetInfoType);
    ("FutureAccount", TThostFtdcAccountIDType);
    ("TradeAmt", TThostFtdcMoneyType);
    ("CustFee", TThostFtdcMoneyType);
    ("CurrencyCode", TThostFtdcCurrencyCodeType) ].

Definition CThostFtdcTransferQryBankReqField : struct :=
  [ ("FutureAccount", TThostFtdcAccountIDType);
    ("FuturePwdFlag", TThostFtdcFuturePwdFlagType);
    ("FutureAccPwd", TThostFtdcFutureAccPwdType);
    ("CurrencyCode", TThostFtdcCurrencyCodeType) ].

Definition CThostFtdcTransferQryBankRspField : struct :=
  [ ("RetCode", TThostFtdcRetCodeType);
    ("RetInfo", TThostFtdcRetInfoType);
    ("FutureAccount", TThostFtdcAccountIDType);
    ("TradeAmt", TThostFtdcMoneyType);
    ("UseAmt", TThostFtdcMoneyType);
    ("FetchAmt", TThostFtdcMoneyType);
    ("CurrencyCode", TThostFtdcCurrencyCodeType) ].

Definition CThostFtdcTransferQryDetailReqField : struct :=
  [ ("FutureAccount", TThostFtdcAccountIDType) ].

Definition CThostFtdcTransferQryDetailRspField : struct :=
  [ ("TradeDate", TThostFtdcDateType);
    ("TradeTime", TThostFtdcTradeTimeType);
    ("TradeCode", TThostFtdcTradeCodeType);
    ("FutureSerial", TThostFtdcTradeSerialNoType);
    ("FutureID", TThostFtdcFutureIDType);
    ("FutureAccount", TThostFtdcFutureAccountType);
    ("BankSerial", TThostFtdcTradeSerialNoType);
    ("BankID", TThostFtdcBankIDType);
    ("BankBrchID", TThostFtdcBankBrchIDType);
    ("BankAccount", TThostFtdcBankAccountType);
    ("CertCode", TThostFtdcCertCodeType);
    ("CurrencyCode", TThostFtdcCurrencyCodeType);
    ("TxAmount", TThostFtdcMoneyType);
    ("Flag", TThostFtdcTransferValidFlagType) ].

Definition CThostFtdcRspInfoField : struct :=
  [ ("ErrorID", TThostFtdcErrorIDType);
    ("ErrorMsg", TThostFtdcErrorMsgType) ].

Definition CThostFtdcExchangeField : struct :=
  [ ("ExchangeID", TThostFtdcExchangeIDType);
    ("ExchangeName", TThostFtdcExchangeNameType);
    ("ExchangeProperty", TThostFtdcExchangePropertyType) ].

Definition CThostFtdcProductField : struct :=
  [ ("reserve1", TThostFtdcOldInstrumentIDType);
    ("ProductName", TThostFtdcProductNameType);
    ("ExchangeID", TThostFtdcExchangeIDType);
    ("ProductClass", TThostFtdcProductClassType);
    ("VolumeMultiple", TThostFtdcVolumeMultipleType);
    ("PriceTick", TThostFtdcPriceType);
    ("MaxMarketOrderVolume", TThostFtdcVolumeType);
    ("MinMarketOrderVolume", TThostFtdcVolumeType);
    ("MaxLimitOrderVolume", TThostFtdcVolumeType);
    ("MinLimitOrderVolume", TThostFtdcVolumeType);
    ("PositionType", TThostFtdcPositionTypeType);
    ("PositionDateType", TThostFtdcPositionDateTypeType);
    ("CloseDealType", TThostFtdcCloseDealTypeType);
    ("TradeCurrencyID", TThostFtdcCurrencyIDType);
    ("MortgageFundUseRange", TThostFtdcMortgageFundUseRangeType);
    ("reserve2", TThostFtdcOldInstrumentIDType);
    ("UnderlyingMultiple", TThostFtdcUnderlyingMultipleType);
    ("ProductID", TThostFtdcInstrumentIDType);
    ("ExchangeProductID", TThostFtdcInstrumentIDType);
    ("OpenLimitControlLevel", TThostFtdcOpenLimitControlLevelType);
    ("OrderFreqControlLevel", TThostFtdcOrderFreqControlLevelType) ].

Definition CThostFtdcInstrumentField : struct :=
  [ ("reserve1", TThostFtdcOldInstrumentIDType);
    ("ExchangeID", TThostFtdcExchangeIDType);
    ("InstrumentName", TThostFtdcInstrumentNameType);
    ("reserve2", TThostFtdcOldExchangeInstIDType);
    ("reserve3", TThostFtdcOldInstrumentIDType);
    ("ProductClass", TThostFtdcProductClassType);
    ("DeliveryYear", TThostFtdcYearType);
    ("DeliveryMonth", TThostFtdcMonthType);
    ("MaxMarketOrderVolume", TThostFtdcVolumeType);
    ("MinMarketOrderVolume", TThostFtdcVolumeType);
    ("MaxLimitOrderVolume", TThostFtdcVolumeType);
    ("MinLimitOrderVolume", TThostFtdcVolumeType);
    ("VolumeMultiple", TThostFtdcVolumeMultipleType);
    ("PriceTick", TThostFtdcPriceType);
    ("CreateDate", TThostFtdcDateType);
    ("OpenDate", TThostFtdcDateType);
    ("ExpireDate", TThostFtdcDateType);
    ("StartDelivDate", TThostFtdcDateType);
    ("EndDelivDate", TThostFtdcDateType);
    ("InstLifePhase", TThostFtdcInstLifePhaseType);
    ("IsTrading", TThostFtdcBoolType);
    ("PositionType", TThostFtdcPositionTypeType);
    ("PositionDateType", TThostFtdcPositionDateTypeType);
    ("LongMarginRatio", TThostFtdcRatioType);
    ("ShortMarginRatio", TThostFtdcRatioType);
    ("MaxMarginSideAlgorithm", TThostFtdcMaxMarginSideAlgorithmType);
    ("reserve4", TThostFtdcOldInstrumentIDType);
    ("StrikePrice", TThostFtdcPriceType);
    ("OptionsType", TThostFtdcOptionsTypeType);
    ("UnderlyingMultiple", TThostFtdcUnderlyingMultipleType);
    ("CombinationType", TThostFtdcCombinationTypeType);
    ("InstrumentID", TThostFtdcInstrumentIDType);
    ("ExchangeInstID", TThostFtdcExchangeInstIDType);
    ("ProductID", TThostFtdcInstrumentIDType);
    ("UnderlyingInstrID", TThostFtdcInstrumentIDType) ].

Definition CThostFtdcBrokerField : struct :=
  [ ("BrokerID", TThostFtdcBrokerIDType);
    ("BrokerAbbr", TThostFtdcBrokerAbbrType);
    ("BrokerName", TThostFtdcBrokerNameType);
    ("IsActive", TThostFtdcBoolType) ].

Definition CThostFtdcTraderField : struct :=
  [ ("ExchangeID", TThostFtdcExchangeIDType);
    ("TraderID", TThostFtdcTraderIDType);
    ("ParticipantID", TThostFtdcParticipantIDType);
    ("Password", TThostFtdcPasswordType);
    ("InstallCount", TThostFtdcInstallCountType);
    ("BrokerID", TThostFtdcBrokerIDType);
    ("OrderCancelAlg", TThostFtdcOrderCancelAlgType);
    ("TradeInstallCount", TThostFtdcInstallCountType);
    ("MDInstallCount", TThostFtdcInstallCountType) ].

Definition CThostFtdcInvestorField : struct :=
  [ ("InvestorID", TThostFtdcInvestorIDType);
    ("BrokerID", TThostFtdcBrokerIDType);
    ("InvestorGroupID", TThostFtdcInvestorIDType);
    ("InvestorName", TThostFtdcPartyNameType);
    ("IdentifiedCardType", TThostFtdcIdCardTypeType);
    ("IdentifiedCardNo", TThostFtdcIdentifiedCardNoType);
    ("IsActive", TThostFtdcBoolType);
    ("Telephone", TThostFtdcTelephoneType);
    ("Address", TThostFtdcAddressType);
    ("OpenDate", TThostFtdcDateType);
    ("Mobile", TThostFtdcMobileType);
    ("CommModelID", TThostFtdcInvestorIDType);
    ("MarginModelID", TThostFtdcInvestorIDType);
    ("IsOrderFreq", TThostFtdcEnumBoolType);
    ("IsOpenVolLimit", TThostFtdcEnumBoolType) ].

Definition CThostFtdcTradingCodeField : struct :=
  [ ("InvestorID", TThostFtdcInvestorIDType);
    ("BrokerID", TThostFtdcBrokerIDType);
    ("ExchangeID", TThostFtdcExchangeIDType);
    ("ClientID", TThostFtdcClientIDType);
    ("IsActive", TThostFtdcBoolType);
    ("ClientIDType", TThostFtdcClientIDTypeType);
    ("BranchID", TThostFtdcBranchIDType);
    ("BizType", TThostFtdcBizTypeType);
    ("InvestUnitID", TThostFtdcInvestUnitIDType) ].

Definition CThostFtdcPartBrokerField : struct :=
  [ ("BrokerID", TThostFtdcBrokerIDType);
    ("ExchangeID", TThostFtdcExchangeIDType);
    ("ParticipantID", TThostFtdcParticipantIDType);
    ("IsActive", TThostFtdcBoolType) ].

Definition CThostFtdcSuperUserField : struct :=
  [ ("UserID", TThostFtdcUserIDType);
    ("UserName", TThostFtdcUserNameType);
    ("Password", TThostFtdcPasswordType);
    ("IsActive", TThostFtdcBoolType) ].

Definition CThostFtdcSuperUserFunctionField : struct :=
  [ ("UserID", TThostFtdcUserIDType);
    ("FunctionCode", TThostFtdcFunctionCodeType) ].

Definition CThostFtdcInvestorGroupField : struct :=
  [ ("BrokerID", TThostFtdcBrokerIDType);
    ("InvestorGroupID", TThostFtdcInvestorIDType);
    ("InvestorGroupName", TThostFtdcInvestorGroupNameType) ].

Definition CThostFtdcTradingAccountField : struct :=
  [ ("BrokerID", TThostFtdcBrokerIDType);
    ("AccountID", TThostFtdcAccountIDType);
    ("PreMortgage", TThostFtdcMoneyType);
    ("PreCredit", TThostFtdcMoneyType);
    ("PreDeposit", TThostFtdcMoneyType);
    ("PreBalance", TThostFtdcMoneyType);
    ("PreMargin", TThostFtdcMoneyType);
    ("InterestBase", TThostFtdcMoneyType);
    ("Interest", TThostFtdcMoneyType);
    ("Deposit", TThostFtdcMoneyType);
    ("Withdraw", TThostFtdcMoneyType);
    ("FrozenMargin", TThostFtdcMoneyType);
    ("FrozenCash", TThostFtdcMoneyType);
    ("FrozenCommission", TThostFtdcMoneyType);
    ("CurrMargin", TThostFtdcMoneyType);
    ("CashIn", TThostFtdcMoneyType);
    ("Commission", TThostFtdcMoneyType);
    ("CloseProfit", TThostFtdcMoneyType);
    ("PositionProfit", TThostFtdcMoneyType);
    ("Balance", TThostFtdcMoneyType);
    ("Available", TThostFtdcMoneyType);
    ("WithdrawQuota", TThostFtdcMoneyType);
    ("Reserve", TThostFtdcMoneyType);
    ("TradingDay", TThostFtdcDateType);
    ("SettlementID", TThostFtdcSettlementIDType);
    ("Credit", TThostFtdcMoneyType);
    ("Mortgage", TThostFtdcMoneyType);
    ("ExchangeMargin", TThostFtdcMoneyType);
    ("DeliveryMargin", TThostFtdcMoneyType);
    ("ExchangeDeliveryMargin", TThostFtdcMoneyType);
    ("ReserveBalance", TThostFtdcMoneyType);
    ("CurrencyID", TThostFtdcCurrencyIDType);
    ("PreFundMortgageIn", TThostFtdcMoneyType);
    ("PreFundMortgageOut", TThostFtdcMoneyType);
    ("FundMortgageIn", TThostFtdcMoneyType);
    ("FundMortgageOut", TThostFtdcMoneyType);
    ("FundMortgageAvailable", TThostFtdcMoneyType);
    ("MortgageableFund", TThostFtdcMoneyType);
    ("SpecProductMargin", TThostFtdcMoneyType);
    ("SpecProductFrozenMargin", TThostFtdcMoneyType);
    ("SpecProductCommission", TThostFtdcMoneyType);
    ("SpecProductFrozenCommission", TThostFtdcMoneyType);
    ("SpecProductPositionProfit", TThostFtdcMoneyType);
    ("SpecProductCloseProfit", TThostFtdcMoneyType);
    ("SpecProductPositionProfitByAlg", TThostFtdcMoneyType);
    ("SpecProductExchangeMargin", TThostFtdcMoneyType);
    ("BizType", TThostFtdcBizTypeType);
    ("FrozenSwap", TThostFtdcMoneyType);
    ("RemainSwap", TThostFtdcMoneyType) ].

Definition CThostFtdcInvestorPositionField : struct :=
  [ ("reserve1", TThostFtdcOldInstrumentIDType);
    ("BrokerID", TThostFtdcBrokerIDType);
    ("InvestorID", TThostFtdcInvestorIDType);
    ("PosiDirection", TThostFtdcPosiDirectionType);
    ("HedgeFlag", TThostFtdcHedgeFlagType);
    ("PositionDate", TThostFtdcPositionDateType);
    ("YdPosition", TThostFtdcVolumeType);
    ("Position", TThostFtdcVolumeType);
    ("LongFrozen", TThostFtdcVolumeType);
    ("ShortFrozen", TThostFtdcVolumeType);
    ("LongFrozenAmount", TThostFtdcMoneyType);
    ("ShortFrozenAmount", TThostFtdcMoneyType);
    ("OpenVolume", TThostFtdcVolumeType);
    ("CloseVolume", TThostFtdcVolumeType);
    ("OpenAmount", TThostFtdcMoneyType);
    ("CloseAmount", TThostFtdcMoneyType);
    ("PositionCost", TThostFtdcMoneyType);
    ("PreMargin", TThostFtdcMoneyType);
    ("UseMargin", TThostFtdcMoneyType);
    ("FrozenMargin", TThostFtdcMoneyType);
    ("FrozenCash", TThostFtdcMoneyType);
    ("FrozenCommission", TThostFtdcMoneyType);
    ("CashIn", TThostFtdcMoneyType);
    ("Commission", TThostFtdcMoneyType);
    ("CloseProfit", TThostFtdcMoneyType);
    ("PositionProfit", TThostFtdcMoneyType);
    ("PreSettlementPrice", TThostFtdcPriceType);
    ("SettlementPrice", TThostFtdcPriceType);
    ("TradingDay", TThostFtdcDateType);
    ("SettlementID", TThostFtdcSettlementIDType);
    ("OpenCost", TThostFtdcMoneyType);
    ("ExchangeMargin", TThostFtdcMoneyType);
    ("CombPosition", TThostFtdcVolumeType);
    ("CombLongFrozen", TThostFtdcVolumeType);
    ("CombShortFrozen", TThostFtdcVolumeType);
    ("CloseProfitByDate", TThostFtdcMoneyType);
    ("CloseProfitByTrade", TThostFtdcMoneyType);
    ("TodayPosition", TThostFtdcVolumeType);
    ("MarginRateByMoney", TThostFtdcRatioType);
    ("MarginRateByVolume", TThostFtdcRatioType);
    ("StrikeFrozen", TThostFtdcVolumeType);
    ("StrikeFrozenAmount", TThostFtdcMoneyType);
    ("AbandonFrozen", TThostFtdcVolumeType);
    ("ExchangeID", TThostFtdcExchangeIDType);
    ("YdStrikeFrozen", TThostFtdcVolumeType);
    ("InvestUnitID", TThostFtdcInvestUnitIDType);
    ("PositionCostOffset", TThostFtdcMoneyType);
    ("TasPosition", TThostFtdcVolumeType);
    ("TasPositionCost", TThostFtdcMoneyType);
    ("InstrumentID", TThostFtdcInstrumentIDType) ].

Definition CThostFtdcInstrumentMarginRateField : struct :=
  [ ("reserve1", TThostFtdcOldInstrumentIDType);
    ("InvestorRange", TThostFtdcInvestorRangeType);
    ("BrokerID", TThostFtdcBrokerIDType);
    ("InvestorID", TThostFtdcInvestorIDType);
    ("HedgeFlag", TThostFtdcHedgeFlagType);
    ("LongMarginRatioByMoney", TThostFtdcRatioType);
    ("LongMarginRatioByVolume", TThostFtdcMoneyType);
    ("ShortMarginRatioByMoney", TThostFtdcRatioType);
    ("ShortMarginRatioByVolume", TThostFtdcMoneyType);
    ("IsRelative", TThostFtdcBoolType);
    ("ExchangeID", TThostFtdcExchangeIDType);
    ("InvestUnitID", TThostFtdcInvestUnitIDType);
    ("InstrumentID", TThostFtdcInstrumentIDType) ].

Definition CThostFtdcInstrumentCommissionRateField : struct :=
  [ ("reserve1", TThostFtdcOldInstrumentIDType);
    ("InvestorRange", TThostFtdcInvestorRangeType);
    ("BrokerID", TThostFtdcBrokerIDType);
    ("InvestorID", TThostFtdcInvestorIDType);
    ("OpenRatioByMoney", TThostFtdcRatioType);
    ("OpenRatioByVolume", TThostFtdcRatioType);
    ("CloseRatioByMoney", TThostFtdcRatioType);
    ("CloseRatioByVolume", TThostFtdcRatioType);
    ("CloseTodayRatioByMoney", TThostFtdcRatioType);
    ("CloseTodayRatioByVolume", TThostFtdcRatioType);
    ("ExchangeID", TThostFtdcExchangeIDType);
    ("BizType", TThostFtdcBizTypeType);
    ("InvestUnitID", TThostFtdcInvestUnitIDType);
    ("InstrumentID", TThostFtdcInstrumentIDType) ].

Definition CThostFtdcDepthMarketDataField : struct :=
  [ ("TradingDay", TThostFtdcDateType);
    ("reserve1", TThostFtdcOldInstrumentIDType);
    ("ExchangeID", TThostFtdcExchangeIDType);
    ("reserve2", TThostFtdcOldExchangeInstIDType);
    ("LastPrice", TThostFtdcPriceType);
    ("PreSettlementPrice", TThostFtdcPriceType);
    ("PreClosePrice", TThostFtdcPriceType);
    ("PreOpenInterest", TThostFtdcLargeVolumeType);
    ("OpenPrice", TThostFtdcPriceType);
    ("HighestPrice", TThostFtdcPriceType);
    ("LowestPrice", TThostFtdcPriceType);
    ("Volume", TThostFtdcVolumeType);
    ("Turnover", TThostFtdcMoneyType);
    ("OpenInterest", TThostFtdcLargeVolumeType);
    ("ClosePrice", TThostFtdcPriceType);
    ("SettlementPrice", TThostFtdcPriceType);
    ("UpperLimitPrice", TThostFtdcPriceType);
    ("LowerLimitPrice", TThostFtdcPriceType);
    ("PreDelta", TThostFtdcRatioType);
    ("CurrDelta", TThostFtdcRatioType);
    ("UpdateTime", TThostFtdcTimeType);
    ("UpdateMillisec", TThostFtdcMillisecType);
    ("BidPrice1", TThostFtdcPriceType);
    ("BidVolume1", TThostFtdcVolumeType);
    ("AskPrice1", TThostFtdcPriceType);
    ("AskVolume1", TThostFtdcVolumeType);
    ("BidPrice2", TThostFtdcPriceType);
    ("BidVolume2", TThostFtdcVolumeType);
    ("AskPrice2", TThostFtdcPriceType);
    ("AskVolume2", TThostFtdcVolumeType);
    ("BidPrice3", TThostFtdcPriceType);
    ("BidVolume3", TThostFtdcVolumeType);
    ("AskPrice3", TThostFtdcPriceType);
    ("AskVolume3", TThostFtdcVolumeType);
    ("BidPrice4", TThostFtdcPriceType);
    ("BidVolume4", TThostFtdcVolumeType);
    ("AskPrice4", TThostFtdcPriceType);
    ("AskVolume4", TThostFtdcVolumeType);
    ("BidPrice5", TThostFtdcPriceType);
    ("BidVolume5", TThostFtdcVolumeType);
    ("AskPrice5", TThostFtdcPriceType);
    ("AskVolume5", TThostFtdcVolumeType);
    ("AveragePrice", TThostFtdcPriceType);
    ("ActionDay", TThostFtdcDateType);
    ("InstrumentID", TThostFtdcInstrumentIDType);
    ("ExchangeInstID", TThostFtdcExchangeInstIDType);
    ("BandingUpperPrice", TThostFtdcPriceType);
    ("BandingLowerPrice", TThostFtdcPriceType) ].

Definition CThostFtdcInstrumentTradingRightField : struct :=
  [ ("reserve1", TThostFtdcOldInstrumentIDType);
    ("InvestorRange", TThostFtdcInvestorRangeType);
    ("BrokerID", TThostFtdcBrokerIDType);
    ("InvestorID", TThostFtdcInvestorIDType);
    ("TradingRight", TThostFtdcTradingRightType);
    ("InstrumentID", TThostFtdcInstrumentIDType) ].

Definition CThostFtdcBrokerUserField : struct :=
  [ ("BrokerID", TThostFtdcBrokerIDType);
    ("UserID", TThostFtdcUserIDType);
    ("UserName", TThostFtdcUserNameType);
    ("UserType", TThostFtdcUserTypeType);
    ("IsActive", TThostFtdcBoolType);
    ("IsUsingOTP", TThostFtdcBoolType);
    ("IsAuthForce", TThostFtdcBoolType) ].

Definition CThostFtdcBrokerUserPasswordField : struct :=
  [ ("BrokerID", TThostFtdcBrokerIDType);
    ("UserID", TThostFtdcUserIDType);
    ("Password", TThostFtdcPasswordType);
    ("LastUpdateTime", TThostFtdcDateTimeType);
    ("LastLoginTime", TThostFtdcDateTimeType);
    ("ExpireDate", TThostFtdcDateType);
    ("WeakExpireDate", TThostFtdcDateType) ].

Definition CThostFtdcBrokerUserFunctionField : struct :=
  [ ("BrokerID", TThostFtdcBrokerIDType);
    ("UserID", TThostFtdcUserIDType);
    ("BrokerFunctionCode", TThostFtdcBrokerFunctionCodeType) ].

Definition CThostFtdcTraderOfferField : struct :=
  [ ("ExchangeID", TThostFtdcExchangeIDType);
    ("TraderID", TThostFtdcTraderIDType);
    ("ParticipantID", TThostFtdcParticipantIDType);
    ("Password", TThostFtdcPasswordType);
    ("InstallID", TThostFtdcInstallIDType);
    ("OrderLocalID", TThostFtdcOrderLocalIDType);
    ("TraderConnectStatus", TThostFtdcTraderConnectStatusType);
    ("ConnectRequestDate", TThostFtdcDateType);
    ("ConnectRequestTime", TThostFtdcTimeType);
    ("LastReportDate", TThostFtdcDateType);
    ("LastReportTime", TThostFtdcTimeType);
    ("ConnectDate", TThostFtdcDateType);
    ("ConnectTime", TThostFtdcTimeType);
    ("StartDate", TThostFtdcDateType);
    ("StartTime", TThostFtdcTimeType);
    ("TradingDay", TThostFtdcDateType);
    ("BrokerID", TThostFtdcBrokerIDType);
    ("MaxTradeID", TThostFtdcTradeIDType);
    ("MaxOrderMessageReference", TThostFtdcReturnCodeType);
    ("OrderCancelAlg", TThostFtdcOrderCancelAlgType) ].

Definition CThostFtdcSettlementInfoField : struct :=
  [ ("TradingDay", TThostFtdcDateType);
    ("SettlementID", TThostFtdcSettlementIDType);
    ("BrokerID", TThostFtdcBrokerIDType);
    ("InvestorID", TThostFtdcInvestorIDType);
    ("SequenceNo", TThostFtdcSequenceNoType);
    ("Content", TThostFtdcContentType);
    ("AccountID", TThostFtdcAccountIDType);
    ("CurrencyID", TThostFtdcCurrencyIDType) ].

Definition CThostFtdcInstrumentMarginRateAdjustField : struct :=
  [ ("reserve1", TThostFtdcOldInstrumentIDType);
    ("InvestorRange", TThostFtdcInvestorRangeType);
    ("BrokerID", TThostFtdcBrokerIDType);
    ("InvestorID", TThostFtdcInvestorIDType);
    ("HedgeFlag", TThostFtdcHedgeFlagType);
    ("LongMarginRatioByMoney", TThostFtdcRatioType);
    ("LongMarginRatioByVolume", TThostFtdcMoneyType);
    ("ShortMarginRatioByMoney", TThostFtdcRatioType);
    ("ShortMarginRatioByVolume", TThostFtdcMoneyType);
    ("IsRelative", TThostFtdcBoolType);
    ("InstrumentID", TThostFtdcInstrumentIDType) ].

Definition CThostFtdcExchangeMarginRateField : struct :=
  [ ("BrokerID", TThostFtdcBrokerIDType);
    ("reserve1", TThostFtdcOldInstrumentIDType);
    ("HedgeFlag", TThostFtdcHedgeFlagType);
    ("LongMarginRatioByMoney", TThostFtdcRatioType);
    ("LongMarginRatioByVolume", TThostFtdcMoneyType);
    ("ShortMarginRatioByMoney", TThostFtdcRatioType);
    ("ShortMarginRatioByVolume", TThostFtdcMoneyType);
    ("ExchangeID", TThostFtdcExchangeIDType);
    ("InstrumentID", TThostFtdcInstrumentIDType) ].

Definition CThostFtdcExchangeMarginRateAdjustField : struct :=
  [ ("BrokerID", TThostFtdcBrokerIDType);
    ("reserve1", TThostFtdcOldInstrumentIDType);
    ("HedgeFlag", TThostFtdcHedgeFlagType);
    ("LongMarginRatioByMoney", TThostFtdcRatioType);
    ("LongMarginRatioByVolume", TThostFtdcMoneyType);
    ("ShortMarginRatioByMoney", TThostFtdcRatioType);
    ("ShortMarginRatioByVolume", TThostFtdcMoneyType);
    ("ExchLongMarginRatioByMoney", TThostFtdcRatioType);
    ("ExchLongMarginRatioByVolume", TThostFtdcMoneyType);
    ("ExchShortMarginRatioByMoney", TThostFtdcRatioType);
    ("ExchShortMarginRatioByVolume", TThostFtdcMoneyType);
    ("NoLongMarginRatioByMoney", TThostFtdcRatioType);
    ("NoLongMarginRatioByVolume", TThostFtdcMoneyType);
    ("NoShortMarginRatioByMoney", TThostFtdcRatioType);
    ("NoShortMarginRatioByVolume", TThostFtdcMoneyType);
    ("InstrumentID", TThostFtdcInstrumentIDType) ].

Definition CThostFtdcExchangeRateField : struct :=
  [ ("BrokerID", TThostFtdcBrokerIDType);
    ("FromCurrencyID", TThostFtdcCurrencyIDType);
    ("FromCurrencyUnit", TThostFtdcCurrencyUnitType);
    ("ToCurrencyID", TThostFtdcCurrencyIDType);
    ("ExchangeRate", TThostFtdcExchangeRateType) ].

Definition CThostFtdcSettlementRefField : struct :=
  [ ("TradingDay", TThostFtdcDateType);
    ("SettlementID", TThostFtdcSettlementIDType) ].

Definition CThostFtdcCurrentTimeField : struct :=
  [ ("CurrDate", TThostFtdcDateType);
    ("CurrTime", TThostFtdcTimeType);
    ("CurrMillisec", TThostFtdcMillisecType);
    ("ActionDay", TThostFtdcDateType) ].

Definition CThostFtdcCommPhaseField : struct :=
  [ ("TradingDay", TThostFtdcDateType);
    ("CommPhaseNo", TThostFtdcCommPhaseNoType);
    ("SystemID", TThostFtdcSystemIDType) ].

Definition CThostFtdcLoginInfoField : struct :=
  [ ("FrontID", TThostFtdcFrontIDType);
    ("SessionID", TThostFtdcSessionIDType);
    ("BrokerID", TThostFtdcBrokerIDType);
    ("UserID", TThostFtdcUserIDType);
    ("LoginDate", TThostFtdcDateType);
    ("LoginTime", TThostFtdcTimeType);
    ("reserve1", TThostFtdcOldIPAddressType);
    ("UserProductInfo", TThostFtdcProductInfoType);
    ("InterfaceProductInfo", TThostFtdcProductInfoType);
    ("ProtocolInfo", TThostFtdcProtocolInfoType);
    ("SystemName", TThostFtdcSystemNameType);
    ("PasswordDeprecated", TThostFtdcPasswordType);
    ("MaxOrderRef", TThostFtdcOrderRefType);
    ("SHFETime", TThostFtdcTimeType);
    ("DCETime", TThostFtdcTimeType);
    ("CZCETime", TThostFtdcTimeType);
    ("FFEXTime", TThostFtdcTimeType);
    ("MacAddress", TThostFtdcMacAddressType);
    ("OneTimePassword", TThostFtdcPasswordType);
    ("INETime", TThostFtdcTimeType);
    ("IsQryControl", TThostFtdcBoolType);
    ("LoginRemark", TThostFtdcLoginRemarkType);
    ("Password", TThostFtdcPasswordType);
    ("IPAddress", TThostFtdcIPAddressType) ].

Definition CThostFtdcLogoutAllField : struct :=
  [ ("FrontID", TThostFtdcFrontIDType);
    ("SessionID", TThostFtdcSessionIDType);
    ("SystemName", TThostFtdcSystemNameType) ].

Definition CThostFtdcFrontStatusField : struct :=
  [ ("FrontID", TThostFtdcFrontIDType);
    ("LastReportDate", TThostFtdcDateType);
    ("LastReportTime", TThostFtdcTimeType);
    ("IsActive", TThostFtdcBoolType) ].

Definition CThostFtdcUserPasswordUpdateField : struct :=
  [ ("BrokerID", TThostFtdcBrokerIDType);
    ("UserID", TThostFtdcUserIDType);
    ("OldPassword", TThostFtdcPasswordType);
    ("NewPassword", TThostFtdcPasswordType) ].

Definition CThostFtdcInputOrderField : struct :=
  [ ("BrokerID", TThostFtdcBrokerIDType);
    ("InvestorID", TThostFtdcInvestorIDType);
    ("reserve1", TThostFtdcOldInstrumentIDType);
    ("OrderRef", TThostFtdcOrderRefType);
    ("UserID", TThostFtdcUserIDType);
    ("OrderPriceType", TThostFtdcOrderPriceTypeType);
    ("Direction", TThostFtdcDirectionType);
    ("CombOffsetFlag", TThostFtdcCombOffsetFlagType);
    ("CombHedgeFlag", TThostFtdcCombHedgeFlagType);
    ("LimitPrice", TThostFtdcPriceType);
    ("VolumeTotalOriginal", TThostFtdcVolumeType);
    ("TimeCondition", TThostFtdcTimeConditionType);
    ("GTDDate", TThostFtdcDateType);
    ("VolumeCondition", TThostFtdcVolumeConditionType);
    ("MinVolume", TThostFtdcVolumeType);
    ("ContingentCondition", TThostFtdcContingentConditionType);
    ("StopPrice", TThostFtdcPriceType);
    ("ForceCloseReason", TThostFtdcForceCloseReasonType);
    ("IsAutoSuspend", TThostFtdcBoolType);
    ("BusinessUnit", TThostFtdcBusinessUnitType);
    ("RequestID", TThostFtdcRequestIDType);
    ("UserForceClose", TThostFtdcBoolType);
    ("IsSwapOrder", TThostFtdcBoolType);
    ("ExchangeID", TThostFtdcExchangeIDType);
    ("InvestUnitID", TThostFtdcInvestUnitIDType);
    ("AccountID", TThostFtdcAccountIDType);
    ("CurrencyID", TThostFtdcCurrencyIDType);
    ("ClientID", TThostFtdcClientIDType);
    ("reserve2", TThostFtdcOldIPAddressType);
    ("MacAddress", TThostFtdcMacAddressType);
    ("InstrumentID", TThostFtdcInstrumentIDType);
    ("IPAddress", TThostFtdcIPAddressType);
    ("OrderMemo", TThostFtdcOrderMemoType);
    ("SessionReqSeq", TThostFtdcSequenceNo12Type) ].

Definition CThostFtdcOrderField : struct :=
  [ ("BrokerID", TThostFtdcBrokerIDType);
    ("InvestorID", TThostFtdcInvestorIDType);
    ("reserve1", TThostFtdcOldInstrumentIDType);
    ("OrderRef", TThostFtdcOrderRefType);
    ("UserID", TThostFtdcUserIDType);
    ("OrderPriceType", TThostFtdcOrderPriceTypeType);
    ("Direction", TThostFtdcDirectionType);
    ("CombOffsetFlag", TThostFtdcCombOffsetFlagType);
    ("CombHedgeFlag", TThostFtdcCombHedgeFlagType);
    ("LimitPrice", TThostFtdcPriceType);
    ("VolumeTotalOriginal", TThostFtdcVolumeType);
    ("TimeCondition", TThostFtdcTimeConditionType);
    ("GTDDate", TThostFtdcDateType);
    ("VolumeCondition", TThostFtdcVolumeConditionType);
    ("MinVolume", TThostFtdcVolumeType);
    ("ContingentCondition", TThostFtdcContingentConditionType);
    ("StopPrice", TThostFtdcPriceType);
    ("ForceCloseReason", TThostFtdcForceCloseReasonType);
    ("IsAutoSuspend", TThostFtdcBoolType);
    ("BusinessUnit", TThostFtdcBusinessUnitType);
    ("RequestID", TThostFtdcRequestIDType);
    ("OrderLocalID", TThostFtdcOrderLocalIDType);
    ("ExchangeID", TThostFtdcExchangeIDType);
    ("ParticipantID", TThostFtdcParticipantIDType);
    ("ClientID", TThostFtdcClientIDType);
    ("reserve2", TThostFtdcOldExchangeInstIDType);
    ("TraderID", TThostFtdcTraderIDType);
    ("InstallID", TThostFtdcInstallIDType);
    ("OrderSubmitStatus", TThostFtdcOrderSubmitStatusType);
    ("NotifySequence", TThostFtdcSequenceNoType);
    ("TradingDay", TThostFtdcDateType);
    ("SettlementID", TThostFtdcSettlementIDType);
    ("OrderSysID", TThostFtdcOrderSysIDType);
    ("OrderSource", TThostFtdcOrderSourceType);
    ("OrderStatus", TThostFtdcOrderStatusType);
    ("OrderType", TThostFtdcOrderTypeType);
    ("VolumeTraded", TThostFtdcVolumeType);
    ("VolumeTotal", TThostFtdcVolumeType);
    ("InsertDate", TThostFtdcDateType);
    ("InsertTime", TThostFtdcTimeType);
    ("ActiveTime", TThostFtdcTimeType);
    ("SuspendTime", TThostFtdcTimeType);
    ("UpdateTime", TThostFtdcTimeType);
    ("CancelTime", TThostFtdcTimeType);
    ("ActiveTraderID", TThostFtdcTraderIDType);
    ("ClearingPartID", TThostFtdcParticipantIDType);
    ("SequenceNo", TThostFtdcSequenceNoType);
    ("FrontID", TThostFtdcFrontIDType);
    ("SessionID", TThostFtdcSessionIDType);
    ("UserProductInfo", TThostFtdcProductInfoType);
    ("StatusMsg", TThostFtdcErrorMsgType);
    ("UserForceClose", TThostFtdcBoolType);
    ("ActiveUserID", TThostFtdcUserIDType);
    ("BrokerOrderSeq", TThostFtdcSequenceNoType);
    ("RelativeOrderSysID", TThostFtdcOrderSysIDType);
    ("ZCETotalTradedVolume", TThostFtdcVolumeType);
    ("IsSwapOrder", TThostFtdcBoolType);
    ("BranchID", TThostFtdcBranchIDType);
    ("InvestUnitID", TThostFtdcInvestUnitIDType);
    ("AccountID", TThostFtdcAccountIDType);
    ("CurrencyID", TThostFtdcCurrencyIDType);
    ("reserve3", TThostFtdcOldIPAddressType);
    ("MacAddress", TThostFtdcMacAddressType);
    ("InstrumentID", TThostFtdcInstrumentIDType);
    ("ExchangeInstID", TThostFtdcExchangeInstIDType);
    ("IPAddress", TThostFtdcIPAddressType);
    ("OrderMemo", TThostFtdcOrderMemoType);
    ("SessionReqSeq", TThostFtdcSequenceNo12Type) ].

Definition CThostFtdcExchangeOrderField : struct :=
  [ ("OrderPriceType", TThostFtdcOrderPriceTypeType);
    ("Direction", TThostFtdcDirectionType);
    ("CombOffsetFlag", TThostFtdcCombOffsetFlagType);
    ("CombHedgeFlag", TThostFtdcCombHedgeFlagType);
    ("LimitPrice", TThostFtdcPriceType);
    ("VolumeTotalOriginal", TThostFtdcVolumeType);
    ("TimeCondition", TThostFtdcTimeConditionType);
    ("GTDDate", TThostFtdcDateType);
    ("VolumeCondition", TThostFtdcVolumeConditionType);
    ("MinVolume", TThostFtdcVolumeType);
    ("ContingentCondition", TThostFtdcContingentConditionType);
    ("StopPrice", TThostFtdcPriceType);
    ("ForceCloseReason", TThostFtdcForceCloseReasonType);
    ("IsAutoSuspend", TThostFtdcBoolType);
    ("BusinessUnit", TThostFtdcBusinessUnitType);
    ("RequestID", TThostFtdcRequestIDType);
    ("OrderLocalID", TThostFtdcOrderLocalIDType);
    ("ExchangeID", TThostFtdcExchangeIDType);
    ("ParticipantID", TThostFtdcParticipantIDType);
    ("ClientID", TThostFtdcClientIDType);
    ("reserve1", TThostFtdcOldExchangeInstIDType);
    ("TraderID", TThostFtdcTraderIDType);
    ("InstallID", TThostFtdcInstallIDType);
    ("OrderSubmitStatus", TThostFtdcOrderSubmitStatusType);
    ("NotifySequence", TThostFtdcSequenceNoType);
    ("TradingDay", TThostFtdcDateType);
    ("SettlementID", TThostFtdcSettlementIDType);
    ("OrderSysID", TThostFtdcOrderSysIDType);
    ("OrderSource", TThostFtdcOrderSourceType);
    ("OrderStatus", TThostFtdcOrderStatusType);
    ("OrderType", TThostFtdcOrderTypeType);
    ("VolumeTraded", TThostFtdcVolumeType);
    ("VolumeTotal", TThostFtdcVolumeType);
    ("InsertDate", TThostFtdcDateType);
    ("InsertTime", TThostFtdcTimeType);
    ("ActiveTime", TThostFtdcTimeType);
    ("SuspendTime", TThostFtdcTimeType);
    ("UpdateTime", TThostFtdcTimeType);
    ("CancelTime", TThostFtdcTimeType);
    ("ActiveTraderID", TThostFtdcTraderIDType);
    ("ClearingPartID", TThostFtdcParticipantIDType);
    ("SequenceNo", TThostFtdcSequenceNoType);
    ("BranchID", TThostFtdcBranchIDType);
    ("reserve2", TThostFtdcOldIPAddressType);
    ("MacAddress", TThostFtdcMacAddressType);
    ("ExchangeInstID", TThostFtdcExchangeInstIDType);
    ("IPAddress", TThostFtdcIPAddressType) ].

Definition CThostFtdcExchangeOrderInsertErrorField : struct :=
  [ ("ExchangeID", TThostFtdcExchangeIDType);
    ("ParticipantID", TThostFtdcParticipantIDType);
    ("TraderID", TThostFtdcTraderIDType);
    ("InstallID", TThostFtdcInstallIDType);
    ("OrderLocalID", TThostFtdcOrderLocalIDType);
    ("ErrorID", TThostFtdcErrorIDType);
    ("ErrorMsg", TThostFtdcErrorMsgType) ].

Definition CThostFtdcInputOrderActionField : struct :=
  [ ("BrokerID", TThostFtdcBrokerIDType);
    ("InvestorID", TThostFtdcInvestorIDType);
    ("OrderActionRef", TThostFtdcOrderActionRefType);
    ("OrderRef", TThostFtdcOrderRefType);
    ("RequestID", TThostFtdcRequestIDType);
    ("FrontID", TThostFtdcFrontIDType);
    ("SessionID", TThostFtdcSessionIDType);
    ("ExchangeID", TThostFtdcExchangeIDType);
    ("OrderSysID", TThostFtdcOrderSysIDType);
    ("ActionFlag", TThostFtdcActionFlagType);
    ("LimitPrice", TThostFtdcPriceType);
    ("VolumeChange", TThostFtdcVolumeType);
    ("UserID", TThostFtdcUserIDType);
    ("reserve1", TThostFtdcOldInstrumentIDType);
    ("InvestUnitID", TThostFtdcInvestUnitIDType);
    ("reserve2", TThostFtdcOldIPAddressType);
    ("MacAddress", TThostFtdcMacAddressType);
    ("InstrumentID", TThostFtdcInstrumentIDType);
    ("IPAddress", TThostFtdcIPAddressType);
    ("OrderMemo", TThostFtdcOrderMemoType);
    ("SessionReqSeq", TThostFtdcSequenceNo12Type) ].

Definition CThostFtdcOrderActionField : struct :=
  [ ("BrokerID", TThostFtdcBrokerIDType);
    ("InvestorID", TThostFtdcInvestorIDType);
    ("OrderActionRef", TThostFtdcOrderActionRefType);
    ("OrderRef", TThostFtdcOrderRefType);
    ("RequestID", TThostFtdcRequestIDType);
    ("FrontID", TThostFtdcFrontIDType);
    ("SessionID", TThostFtdcSessionIDType);
    ("ExchangeID", TThostFtdcExchangeIDType);
    ("OrderSysID", TThostFtdcOrderSysIDType);
    ("ActionFlag", TThostFtdcActionFlagType);
    ("LimitPrice", TThostFtdcPriceType);
    ("VolumeChange", TThostFtdcVolumeType);
    ("ActionDate", TThostFtdcDateType);
    ("ActionTime", TThostFtdcTimeType);
    ("TraderID", TThostFtdcTraderIDType);
    ("InstallID", TThostFtdcInstallIDType);
    ("OrderLocalID", TThostFtdcOrderLocalIDType);
    ("ActionLocalID", TThostFtdcOrderLocalIDType);
    ("ParticipantID", TThostFtdcParticipantIDType);
    ("ClientID", TThostFtdcClientIDType);
    ("BusinessUnit", TThostFtdcBusinessUnitType);
    ("OrderActionStatus", TThostFtdcOrderActionStatusType);
    ("UserID", TThostFtdcUserIDType);
    ("StatusMsg", TThostFtdcErrorMsgType);
    ("reserve1", TThostFtdcOldInstrumentIDType);
    ("BranchID", TThostFtdcBranchIDType);
    ("InvestUnitID", TThostFtdcInvestUnitIDType);
    ("reserve2", TThostFtdcOldIPAddressType);
    ("MacAddress", TThostFtdcMacAddressType);
    ("InstrumentID", TThostFtdcInstrumentIDType);
    ("IPAddress", TThostFtdcIPAddressType);
    ("OrderMemo", TThostFtdcOrderMemoType);
    ("SessionReqSeq", TThostFtdcSequenceNo12Type) ].

Definition CThostFtdcExchangeOrderActionField : struct :=
  [ ("ExchangeID", TThostFtdcExchangeIDType);
    ("OrderSysID", TThostFtdcOrderSysIDType);
    ("ActionFlag", TThostFtdcActionFlagType);
    ("LimitPrice", TThostFtdcPriceType);
    ("VolumeChange", TThostFtdcVolumeType);
    ("ActionDate", TThostFtdcDateType);
    ("ActionTime", TThostFtdcTimeType);
    ("TraderID", TThostFtdcTraderIDType);
    ("InstallID", TThostFtdcInstallIDType);
    ("OrderLocalID", TThostFtdcOrderLocalIDType);
    ("ActionLocalID", TThostFtdcOrderLocalIDType);
    ("ParticipantID", TThostFtdcParticipantIDType);
    ("ClientID", TThostFtdcClientIDType);
    ("BusinessUnit", TThostFtdcBusinessUnitType);
    ("OrderActionStatus", TThostFtdcOrderActionStatusType);
    ("UserID", TThostFtdcUserIDType);
    ("BranchID", TThostFtdcBranchIDType);
    ("reserve1", TThostFtdcOldIPAddressType);
    ("MacAddress", TThostFtdcMacAddressType);
    ("IPAddress", TThostFtdcIPAddressType) ].

Definition CThostFtdcExchangeOrderActionErrorField : struct :=
  [ ("ExchangeID", TThostFtdcExchangeIDType);
    ("OrderSysID", TThostFtdcOrderSysIDType);
    ("TraderID", TThostFtdcTraderIDType);
    ("InstallID", TThostFtdcInstallIDType);
    ("OrderLocalID", TThostFtdcOrderLocalIDType);
    ("ActionLocalID", TThostFtdcOrderLocalIDType);
    ("ErrorID", TThostFtdcErrorIDType);
    ("ErrorMsg", TThostFtdcErrorMsgType) ].

Definition CThostFtdcExchangeTradeField : struct :=
  [ ("ExchangeID", TThostFtdcExchangeIDType);
    ("TradeID", TThostFtdcTradeIDType);
    ("Direction", TThostFtdcDirectionType);
    ("OrderSysID", TThostFtdcOrderSysIDType);
    ("ParticipantID", TThostFtdcParticipantIDType);
    ("ClientID", TThostFtdcClientIDType);
    ("TradingRole", TThostFtdcTradingRoleType);
    ("reserve1", TThostFtdcOldExchangeInstIDType);
    ("OffsetFlag", TThostFtdcOffsetFlagType);
    ("HedgeFlag", TThostFtdcHedgeFlagType);
    ("Price", TThostFtdcPriceType);
    ("Volume", TThostFtdcVolumeType);
    ("TradeDate", TThostFtdcDateType);
    ("TradeTime", TThostFtdcTimeType);
    ("TradeType", TThostFtdcTradeTypeType);
    ("PriceSource", TThostFtdcPriceSourceType);
    ("TraderID", TThostFtdcTraderIDType);
    ("OrderLocalID", TThostFtdcOrderLocalIDType);
    ("ClearingPartID", TThostFtdcParticipantIDType);
    ("BusinessUnit", TThostFtdcBusinessUnitType);
    ("SequenceNo", TThostFtdcSequenceNoType);
    ("TradeSource", TThostFtdcTradeSourceType);
    ("ExchangeInstID", TThostFtdcExchangeInstIDType) ].

Definition CThostFtdcTradeField : struct :=
  [ ("BrokerID", TThostFtdcBrokerIDType);
    ("InvestorID", TThostFtdcInvestorIDType);
    ("reserve1", TThostFtdcOldInstrumentIDType);
    ("OrderRef", TThostFtdcOrderRefType);
    ("UserID", TThostFtdcUserIDType);
    ("ExchangeID", TThostFtdcExchangeIDType);
    ("TradeID", TThostFtdcTradeIDType);
    ("Direction", TThostFtdcDirectionType);
    ("OrderSysID", TThostFtdcOrderSysIDType);
    ("ParticipantID", TThostFtdcParticipantIDType);
    ("ClientID", TThostFtdcClientIDType);
    ("TradingRole", TThostFtdcTradingRoleType);
    ("reserve2", TThostFtdcOldExchangeInstIDType);
    ("OffsetFlag", TThostFtdcOffsetFlagType);
    ("HedgeFlag", TThostFtdcHedgeFlagType);
    ("Price", TThostFtdcPriceType);
    ("Volume", TThostFtdcVolumeType);
    ("TradeDate", TThostFtdcDateType);
    ("TradeTime", TThostFtdcTimeType);
    ("TradeType", TThostFtdcTradeTypeType);
    ("PriceSource", TThostFtdcPriceSourceType);
    ("TraderID", TThostFtdcTraderIDType);
    ("OrderLocalID", TThostFtdcOrderLocalIDType);
    ("ClearingPartID", TThostFtdcParticipantIDType);
    ("BusinessUnit", TThostFtdcBusinessUnitType);
    ("SequenceNo", TThostFtdcSequenceNoType);
    ("TradingDay", TThostFtdcDateType);
    ("SettlementID", TThostFtdcSettlementIDType);
    ("BrokerOrderSeq", TThostFtdcSequenceNoType);
    ("TradeSource", TThostFtdcTradeSourceType);
    ("InvestUnitID", TThostFtdcInvestUnitIDType);
    ("InstrumentID", TThostFtdcInstrumentIDType);
    ("ExchangeInstID", TThostFtdcExchangeInstIDType) ].

Definition CThostFtdcUserSessionField : struct :=
  [ ("FrontID", TThostFtdcFrontIDType);
    ("SessionID", TThostFtdcSessionIDType);
    ("BrokerID", TThostFtdcBrokerIDType);
    ("UserID", TThostFtdcUserIDType);
    ("LoginDate", TThostFtdcDateType);
    ("LoginTime", TThostFtdcTimeType);
    ("reserve1", TThostFtdcOldIPAddressType);
    ("UserProductInfo", TThostFtdcProductInfoType);
    ("InterfaceProductInfo", TThostFtdcProductInfoType);
    ("ProtocolInfo", TThostFtdcProtocolInfoType);
    ("MacAddress", TThostFtdcMacAddressType);
    ("LoginRemark", TThostFtdcLoginRemarkType);
    ("IPAddress", TThostFtdcIPAddressType) ].

Definition CThostFtdcQryMaxOrderVolumeField : struct :=
  [ ("BrokerID", TThostFtdcBrokerIDType);
    ("InvestorID", TThostFtdcInvestorIDType);
    ("reserve1", TThostFtdcOldInstrumentIDType);
    ("Direction", TThostFtdcDirectionType);
    ("OffsetFlag", TThostFtdcOffsetFlagType);
    ("HedgeFlag", TThostFtdcHedgeFlagType);
    ("MaxVolume", TThostFtdcVolumeType);
    ("ExchangeID", TThostFtdcExchangeIDType);
    ("InvestUnitID", TThostFtdcInvestUnitIDType);
    ("InstrumentID", TThostFtdcInstrumentIDType) ].

Definition CThostFtdcSettlementInfoConfirmField : struct :=
  [ ("BrokerID", TThostFtdcBrokerIDType);
    ("InvestorID", TThostFtdcInvestorIDType);
    ("ConfirmDate", TThostFtdcDateType);
    ("ConfirmTime", TThostFtdcTimeType);
    ("SettlementID", TThostFtdcSettlementIDType);
    ("AccountID", TThostFtdcAccountIDType);
    ("CurrencyID", TThostFtdcCurrencyIDType) ].

Definition CThostFtdcSyncDepositField : struct :=
  [ ("DepositSeqNo", TThostFtdcDepositSeqNoType);
    ("BrokerID", TThostFtdcBrokerIDType);
    ("InvestorID", TThostFtdcInvestorIDType);
    ("Deposit", TThostFtdcMoneyType);
    ("IsForce", TThostFtdcBoolType);
    ("CurrencyID", TThostFtdcCurrencyIDType);
    ("IsFromSopt", TThostFtdcBoolType);
    ("TradingPassword", TThostFtdcPasswordType);
    ("IsSecAgentTranfer", TThostFtdcBoolType) ].

Definition CThostFtdcSyncFundMortgageField : struct :=
  [ ("MortgageSeqNo", TThostFtdcDepositSeqNoType);
    ("BrokerID", TThostFtdcBrokerIDType);
    ("InvestorID", TThostFtdcInvestorIDType);
    ("FromCurrencyID", TThostFtdcCurrencyIDType);
    ("MortgageAmount", TThostFtdcMoneyType);
    ("ToCurrencyID", TThostFtdcCurrencyIDType) ].

Definition CThostFtdcBrokerSyncField : struct :=
  [ ("BrokerID", TThostFtdcBrokerIDType) ].

Definition CThostFtdcSyncingInvestorField : struct :=
  [ ("InvestorID", TThostFtdcInvestorIDType);
    ("BrokerID", TThostFtdcBrokerIDType);
    ("InvestorGroupID", TThostFtdcInvestorIDType);
    ("InvestorName", TThostFtdcPartyNameType);
    ("IdentifiedCardType", TThostFtdcIdCardTypeType);
    ("IdentifiedCardNo", TThostFtdcIdentifiedCardNoType);
    ("IsActive", TThostFtdcBoolType);
    ("Telephone", TThostFtdcTelephoneType);
    ("Address", TThostFtdcAddressType);
    ("OpenDate", TThostFtdcDateType);
    ("Mobile", TThostFtdcMobileType);
    ("CommModelID", TThostFtdcInvestorIDType);
    ("MarginModelID", TThostFtdcInvestorIDType);
    ("IsOrderFreq", TThostFtdcEnumBoolType);
    ("IsOpenVolLimit", TThostFtdcEnumBoolType) ].

Definition CThostFtdcSyncingTradingCodeField : struct :=
  [ ("InvestorID", TThostFtdcInvestorIDType);
    ("BrokerID", TThostFtdcBrokerIDType);
    ("ExchangeID", TThostFtdcExchangeIDType);
    ("ClientID", TThostFtdcClientIDType);
    ("IsActive", TThostFtdcBoolType);
    ("ClientIDType", TThostFtdcClientIDTypeType) ].

Definition CThostFtdcSyncingInvestorGroupField : struct :=
  [ ("BrokerID", TThostFtdcBrokerIDType);
    ("InvestorGroupID", TThostFtdcInvestorIDType);
    ("InvestorGroupName", TThostFtdcInvestorGroupNameType) ].

Definition CThostFtdcSyncingTradingAccountField : struct :=
  [ ("BrokerID", TThostFtdcBrokerIDType);
    ("AccountID", TThostFtdcAccountIDType);
    ("PreMortgage", TThostFtdcMoneyType);
    ("PreCredit", TThostFtdcMoneyType);
    ("PreDeposit", TThostFtdcMoneyType);
    ("PreBalance", TThostFtdcMoneyType);
    ("PreMargin", TThostFtdcMoneyType);
    ("InterestBase", TThostFtdcMoneyType);
    ("Interest", TThostFtdcMoneyType);
    ("Deposit", TThostFtdcMoneyType);
    ("Withdraw", TThostFtdcMoneyType);
    ("FrozenMargin", TThostFtdcMoneyType);
    ("FrozenCash", TThostFtdcMoneyType);
    ("FrozenCommission", TThostFtdcMoneyType);
    ("CurrMargin", TThostFtdcMoneyType);
    ("CashIn", TThostFtdcMoneyType);
    ("Commission", TThostFtdcMoneyType);
    ("CloseProfit", TThostFtdcMoneyType);
    ("PositionProfit", TThostFtdcMoneyType);
    ("Balance", TThostFtdcMoneyType);
    ("Available", TThostFtdcMoneyType);
    ("WithdrawQuota", TThostFtdcMoneyType);
    ("Reserve", TThostFtdcMoneyType);
    ("TradingDay", TThostFtdcDateType);
    ("SettlementID", TThostFtdcSettlementIDType);
    ("Credit", TThostFtdcMoneyType);
    ("Mortgage", TThostFtdcMoneyType);
    ("ExchangeMargin", TThostFtdcMoneyType);
    ("DeliveryMargin", TThostFtdcMoneyType);
    ("ExchangeDeliveryMargin", TThostFtdcMoneyType);
    ("ReserveBalance", TThostFtdcMoneyType);
    ("CurrencyID", TThostFtdcCurrencyIDType);
    ("PreFundMortgageIn", TThostFtdcMoneyType);
    ("PreFundMortgageOut", TThostFtdcMoneyType);
    ("FundMortgageIn", TThostFtdcMoneyType);
    ("FundMortgageOut", TThostFtdcMoneyType);
    ("FundMortgageAvailable", TThostFtdcMoneyType);
    ("MortgageableFund", TThostFtdcMoneyType);
    ("SpecProductMargin", TThostFtdcMoneyType);
    ("SpecProductFrozenMargin", TThostFtdcMoneyType);
    ("SpecProductCommission", TThostFtdcMoneyType);
    ("SpecProductFrozenCommission", TThostFtdcMoneyType);
    ("SpecProductPositionProfit", TThostFtdcMoneyType);
    ("SpecProductCloseProfit", TThostFtdcMoneyType);
    ("SpecProductPositionProfitByAlg", TThostFtdcMoneyType);
    ("SpecProductExchangeMargin", TThostFtdcMoneyType);
    ("FrozenSwap", TThostFtdcMoneyType);
    ("RemainSwap", TThostFtdcMoneyType) ].

Definition CThostFtdcSyncingInvestorPositionField : struct :=
  [ ("reserve1", TThostFtdcOldInstrumentIDType);
    ("BrokerID", TThostFtdcBrokerIDType);
    ("InvestorID", TThostFtdcInvestorIDType);
    ("PosiDirection", TThostFtdcPosiDirectionType);
    ("HedgeFlag", TThostFtdcHedgeFlagType);
    ("PositionDate", TThostFtdcPositionDateType);
    ("YdPosition", TThostFtdcVolumeType);
    ("Position", TThostFtdcVolumeType);
    ("LongFrozen", TThostFtdcVolumeType);
    ("ShortFrozen", TThostFtdcVolumeType);
    ("LongFrozenAmount", TThostFtdcMoneyType);
    ("ShortFrozenAmount", TThostFtdcMoneyType);
    ("OpenVolume", TThostFtdcVolumeType);
    ("CloseVolume", TThostFtdcVolumeType);
    ("OpenAmount", TThostFtdcMoneyType);
    ("CloseAmount", TThostFtdcMoneyType);
    ("PositionCost", TThostFtdcMoneyType);
    ("PreMargin", TThostFtdcMoneyType);
    ("UseMargin", TThostFtdcMoneyType);
    ("FrozenMargin", TThostFtdcMoneyType);
    ("FrozenCash", TThostFtdcMoneyType);
    ("FrozenCommission", TThostFtdcMoneyType);
    ("CashIn", TThostFtdcMoneyType);
    ("Commission", TThostFtdcMoneyType);
    ("CloseProfit", TThostFtdcMoneyType);
    ("PositionProfit", TThostFtdcMoneyType);
    ("PreSettlementPrice", TThostFtdcPriceType);
    ("SettlementPrice", TThostFtdcPriceType);
    ("TradingDay", TThostFtdcDateType);
    ("SettlementID", TThostFtdcSettlementIDType);
    ("OpenCost", TThostFtdcMoneyType);
    ("ExchangeMargin", TThostFtdcMoneyType);
    ("CombPosition", TThostFtdcVolumeType);
    ("CombLongFrozen", TThostFtdcVolumeType);
    ("CombShortFrozen", TThostFtdcVolumeType);
    ("CloseProfitByDate", TThostFtdcMoneyType);
    ("CloseProfitByTrade", TThostFtdcMoneyType);
    ("TodayPosition", TThostFtdcVolumeType);
    ("MarginRateByMoney", TThostFtdcRatioType);
    ("MarginRateByVolume", TThostFtdcRatioType);
    ("StrikeFrozen", TThostFtdcVolumeType);
    ("StrikeFrozenAmount", TThostFtdcMoneyType);
    ("AbandonFrozen", TThostFtdcVolumeType);
    ("ExchangeID", TThostFtdcExchangeIDType);
    ("YdStrikeFrozen", TThostFtdcVolumeType);
    ("InvestUnitID", TThostFtdcInvestUnitIDType);
    ("PositionCostOffset", TThostFtdcMoneyType);
    ("TasPosition", TThostFtdcVolumeType);
    ("TasPositionCost", TThostFtdcMoneyType);
    ("InstrumentID", TThostFtdcInstrumentIDType) ].

Definition CThostFtdcSyncingInstrumentMarginRateField : struct :=
  [ ("reserve1", TThostFtdcOldInstrumentIDType);
    ("InvestorRange", TThostFtdcInvestorRangeType);
    ("BrokerID", TThostFtdcBrokerIDType);
    ("InvestorID", TThostFtdcInvestorIDType);
    ("HedgeFlag", TThostFtdcHedgeFlagType);
    ("LongMarginRatioByMoney", TThostFtdcRatioType);
    ("LongMarginRatioByVolume", TThostFtdcMoneyType);
    ("ShortMarginRatioByMoney", TThostFtdcRatioType);
    ("ShortMarginRatioByVolume", TThostFtdcMoneyType);
    ("IsRelative", TThostFtdcBoolType);
    ("InstrumentID", TThostFtdcInstrumentIDType) ].

Definition CThostFtdcSyncingInstrumentCommissionRateField : struct :=
  [ ("reserve1", TThostFtdcOldInstrumentIDType);
    ("InvestorRange", TThostFtdcInvestorRangeType);
    ("BrokerID", TThostFtdcBrokerIDType);
    ("InvestorID", TThostFtdcInvestorIDType);
    ("OpenRatioByMoney", TThostFtdcRatioType);
    ("OpenRatioByVolume", TThostFtdcRatioType);
    ("CloseRatioByMoney", TThostFtdcRatioType);
    ("CloseRatioByVolume", TThostFtdcRatioType);
    ("CloseTodayRatioByMoney", TThostFtdcRatioType);
    ("CloseTodayRatioByVolume", TThostFtdcRatioType);
    ("InstrumentID", TThostFtdcInstrumentIDType) ].

Definition CThostFtdcSyncingInstrumentTradingRightField : struct :=
  [ ("reserve1", TThostFtdcOldInstrumentIDType);
    ("InvestorRange", TThostFtdcInvestorRangeType);
    ("BrokerID", TThostFtdcBrokerIDType);
    ("InvestorID", TThostFtdcInvestorIDType);
    ("TradingRight", TThostFtdcTradingRightType);
    ("InstrumentID", TThostFtdcInstrumentIDType) ].

Definition CThostFtdcQryOrderField : struct :=
  [ ("BrokerID", TThostFtdcBrokerIDType);
    ("InvestorID", TThostFtdcInvestorIDType);
    ("reserve1", TThostFtdcOldInstrumentIDType);
    ("ExchangeID", TThostFtdcExchangeIDType);
    ("OrderSysID", TThostFtdcOrderSysIDType);
    ("InsertTimeStart", TThostFtdcTimeType);
    ("InsertTimeEnd", TThostFtdcTimeType);
    ("InvestUnitID", TThostFtdcInvestUnitIDType);
    ("InstrumentID", TThostFtdcInstrumentIDType) ].

Definition CThostFtdcQryTradeField : struct :=
  [ ("BrokerID", TThostFtdcBrokerIDType);
    ("InvestorID", TThostFtdcInvestorIDType);
    ("reserve1", TThostFtdcOldInstrumentIDType);
    ("ExchangeID", TThostFtdcExchangeIDType);
    ("TradeID", TThostFtdcTradeIDType);
    ("TradeTimeStart", TThostFtdcTimeType);
    ("TradeTimeEnd", TThostFtdcTimeType);
    ("InvestUnitID", TThostFtdcInvestUnitIDType);
    ("InstrumentID", TThostFtdcInstrumentIDType) ].

Definition CThostFtdcQryInvestorPositionField : struct :=
  [ ("BrokerID", TThostFtdcBrokerIDType);
    ("InvestorID", TThostFtdcInvestorIDType);
    ("reserve1", TThostFtdcOldInstrumentIDType);
    ("ExchangeID", TThostFtdcExchangeIDType);
    ("InvestUnitID", TThostFtdcInvestUnitIDType);
    ("InstrumentID", TThostFtdcInstrumentIDType) ].

Definition CThostFtdcQryTradingAccountField : struct :=
  [ ("BrokerID", TThostFtdcBrokerIDType);
    ("InvestorID", TThostFtdcInvestorIDType);
    ("CurrencyID", TThostFtdcCurrencyIDType);
    ("BizType", TThostFtdcBizTypeType);
    ("AccountID", TThostFtdcAccountIDType) ].

Definition CThostFtdcQryInvestorField : struct :=
  [ ("BrokerID", TThostFtdcBrokerIDType);
    ("InvestorID", TThostFtdcInvestorIDType) ].

Definition CThostFtdcQryTradingCodeField : struct :=
  [ ("BrokerID", TThostFtdcBrokerIDType);
    ("InvestorID", TThostFtdcInvestorIDType);
    ("ExchangeID", TThostFtdcExchangeIDType);
    ("ClientID", TThostFtdcClientIDType);
    ("ClientIDType", TThostFtdcClientIDTypeType);
    ("InvestUnitID", TThostFtdcInvestUnitIDType) ].

Definition CThostFtdcQryInvestorGroupField : struct :=
  [ ("BrokerID", TThostFtdcBrokerIDType) ].

Definition CThostFtdcQryInstrumentMarginRateField : struct :=
  [ ("BrokerID", TThostFtdcBrokerIDType);
    ("InvestorID", TThostFtdcInvestorIDType);
    ("reserve1", TThostFtdcOldInstrumentIDType);
    ("HedgeFlag", TThostFtdcHedgeFlagType);
    ("ExchangeID", TThostFtdcExchangeIDType);
    ("InvestUnitID", TThostFtdcInvestUnitIDType);
    ("InstrumentID", TThostFtdcInstrumentIDType) ].

Definition CThostFtdcQryInstrumentCommissionRateField : struct :=
  [ ("BrokerID", TThostFtdcBrokerIDType);
    ("InvestorID", TThostFtdcInvestorIDType);
    ("reserve1", TThostFtdcOldInstrumentIDType);
    ("ExchangeID", TThostFtdcExchangeIDType);
    ("InvestUnitID", TThostFtdcInvestUnitIDType);
    ("InstrumentID", TThostFtdcInstrumentIDType) ].

Definition CThostFtdcQryInstrumentTradingRightField : struct :=
  [ ("BrokerID", TThostFtdcBrokerIDType);
    ("InvestorID", TThostFtdcInvestorIDType);
    ("reserve1", TThostFtdcOldInstrumentIDType);
    ("InstrumentID", TThostFtdcInstrumentIDType) ].

Definition CThostFtdcQryBrokerField : struct :=
  [ ("BrokerID", TThostFtdcBrokerIDType) ].

Definition CThostFtdcQryTraderField : struct :=
  [ ("ExchangeID", TThostFtdcExchangeIDType);
    ("ParticipantID", TThostFtdcParticipantIDType);
    ("TraderID", TThostFtdcTraderIDType) ].

Definition CThostFtdcQrySuperUserFunctionField : struct :=
  [ ("UserID", TThostFtdcUserIDType) ].

Definition CThostFtdcQryUserSessionField : struct :=
  [ ("FrontID", TThostFtdcFrontIDType);
    ("SessionID", TThostFtdcSessionIDType);
    ("BrokerID", TThostFtdcBrokerIDType);
    ("UserID", TThostFtdcUserIDType) ].

Definition CThostFtdcQryPartBrokerField : struct :=
  [ ("ExchangeID", TThostFtdcExchangeIDType);
    ("BrokerID", TThostFtdcBrokerIDType);
    ("ParticipantID", TThostFtdcParticipantIDType) ].

Definition CThostFtdcQryFrontStatusField : struct :=
  [ ("FrontID", TThostFtdcFrontIDType) ].

Definition CThostFtdcQryExchangeOrderField : struct :=
  [ ("ParticipantID", TThostFtdcParticipantIDType);
    ("ClientID", TThostFtdcClientIDType);
    ("reserve1", TThostFtdcOldExchangeInstIDType);
    ("ExchangeID", TThostFtdcExchangeIDType);
    ("TraderID", TThostFtdcTraderIDType);
    ("ExchangeInstID", TThostFtdcExchangeInstIDType) ].

Definition CThostFtdcQryOrderActionField : struct :=
  [ ("BrokerID", TThostFtdcBrokerIDType);
    ("InvestorID", TThostFtdcInvestorIDType);
    ("ExchangeID", TThostFtdcExchangeIDType) ].

Definition CThostFtdcQryExchangeOrderActionField : struct :=
  [ ("ParticipantID", TThostFtdcParticipantIDType);
    ("ClientID", TThostFtdcClientIDType);
    ("ExchangeID", TThostFtdcExchangeIDType);
    ("TraderID", TThostFtdcTraderIDType) ].

Definition CThostFtdcQrySuperUserField : struct :=
  [ ("UserID", TThostFtdcUserIDType) ].

Definition CThostFtdcQryExchangeField : struct :=
  [ ("ExchangeID", TThostFtdcExchangeIDType) ].

Definition CThostFtdcQryProductField : struct :=
  [ ("reserve1", TThostFtdcOldInstrumentIDType);
    ("ProductClass", TThostFtdcProductClassType);
    ("ExchangeID", TThostFtdcExchangeIDType);
    ("ProductID", TThostFtdcInstrumentIDType) ].

Definition CThostFtdcQryInstrumentField : struct :=
  [ ("reserve1", TThostFtdcOldInstrumentIDType);
    ("ExchangeID", TThostFtdcExchangeIDType);
    ("reserve2", TThostFtdcOldExchangeInstIDType);
    ("reserve3", TThostFtdcOldInstrumentIDType);
    ("InstrumentID", TThostFtdcInstrumentIDType);
    ("ExchangeInstID", TThostFtdcExchangeInstIDType);
    ("ProductID", TThostFtdcInstrumentIDType) ].

Definition CThostFtdcQryDepthMarketDataField : struct :=
  [ ("reserve1", TThostFtdcOldInstrumentIDType);
    ("ExchangeID", TThostFtdcExchangeIDType);
    ("InstrumentID", TThostFtdcInstrumentIDType);
    ("ProductClass", TThostFtdcProductClassType) ].

Definition CThostFtdcQryBrokerUserField : struct :=
  [ ("BrokerID", TThostFtdcBrokerIDType);
    ("UserID", TThostFtdcUserIDType) ].

Definition CThostFtdcQryBrokerUserFunctionField : struct :=
  [ ("BrokerID", TThostFtdcBrokerIDType);
    ("UserID", TThostFtdcUserIDType) ].

Definition CThostFtdcQryTraderOfferField : struct :=
  [ ("ExchangeID", TThostFtdcExchangeIDType);
    ("ParticipantID", TThostFtdcParticipantIDType);
    ("TraderID", TThostFtdcTraderIDType) ].

Definition CThostFtdcQrySyncDepositField : struct :=
  [ ("BrokerID", TThostFtdcBrokerIDType);
    ("DepositSeqNo", TThostFtdcDepositSeqNoType) ].

Definition CThostFtdcQrySettlementInfoField : struct :=
  [ ("BrokerID", TThostFtdcBrokerIDType);
    ("InvestorID", TThostFtdcInvestorIDType);
    ("TradingDay", TThostFtdcDateType);
    ("AccountID", TThostFtdcAccountIDType);
    ("CurrencyID", TThostFtdcCurrencyIDType) ].

Definition CThostFtdcQryExchangeMarginRateField : struct :=
  [ ("BrokerID", TThostFtdcBrokerIDType);
    ("reserve1", TThostFtdcOldInstrumentIDType);
    ("HedgeFlag", TThostFtdcHedgeFlagType);
    ("ExchangeID", TThostFtdcExchangeIDType);
    ("InstrumentID", TThostFtdcInstrumentIDType) ].

Definition CThostFtdcQryExchangeMarginRateAdjustField : struct :=
  [ ("BrokerID", TThostFtdcBrokerIDType);
    ("reserve1", TThostFtdcOldInstrumentIDType);
    ("HedgeFlag", TThostFtdcHedgeFlagType);
    ("InstrumentID", TThostFtdcInstrumentIDType) ].

Definition CThostFtdcQryExchangeRateField : struct :=
  [ ("BrokerID", TThostFtdcBrokerIDType);
    ("FromCurrencyID", TThostFtdcCurrencyIDType);
    ("ToCurrencyID", TThostFtdcCurrencyIDType) ].

Definition CThostFtdcQrySyncFundMortgageField : struct :=
  [ ("BrokerID", TThostFtdcBrokerIDType);
    ("MortgageSeqNo", TThostFtdcDepositSeqNoType) ].

Definition CThostFtdcQryHisOrderField : struct :=
  [ ("BrokerID", TThostFtdcBrokerIDType);
    ("InvestorID", TThostFtdcInvestorIDType);
    ("reserve1", TThostFtdcOldInstrumentIDType);
    ("ExchangeID", TThostFtdcExchangeIDType);
    ("OrderSysID", TThostFtdcOrderSysIDType);
    ("InsertTimeStart", TThostFtdcTimeType);
    ("InsertTimeEnd", TThostFtdcTimeType);
    ("TradingDay", TThostFtdcDateType);
    ("SettlementID", TThostFtdcSettlementIDType);
    ("InstrumentID", TThostFtdcInstrumentIDType) ].

Definition CThostFtdcOptionInstrMiniMarginField : struct :=
  [ ("reserve1", TThostFtdcOldInstrumentIDType);
    ("InvestorRange", TThostFtdcInvestorRangeType);
    ("BrokerID", TThostFtdcBrokerIDType);
    ("InvestorID", TThostFtdcInvestorIDType);
    ("MinMargin", TThostFtdcMoneyType);
    ("ValueMethod", TThostFtdcValueMethodType);
    ("IsRelative", TThostFtdcBoolType);
    ("InstrumentID", TThostFtdcInstrumentIDType) ].

Definition CThostFtdcOptionInstrMarginAdjustField : struct :=
  [ ("reserve1", TThostFtdcOldInstrumentIDType);
    ("InvestorRange", TThostFtdcInvestorRangeType);
    ("BrokerID", TThostFtdcBrokerIDType);
    ("InvestorID", TThostFtdcInvestorIDType);
    ("SShortMarginRatioByMoney", TThostFtdcRatioType);
    ("SShortMarginRatioByVolume", TThostFtdcMoneyType);
    ("HShortMarginRatioByMoney", TThostFtdcRatioType);
    ("HShortMarginRatioByVolume", TThostFtdcMoneyType);
    ("AShortMarginRatioByMoney", TThostFtdcRatioType);
    ("AShortMarginRatioByVolume", TThostFtdcMoneyType);
    ("IsRelative", TThostFtdcBoolType);
    ("MShortMarginRatioByMoney", TThostFtdcRatioType);
    ("MShortMarginRatioByVolume", TThostFtdcMoneyType);
    ("InstrumentID", TThostFtdcInstrumentIDType) ].

Definition CThostFtdcOptionInstrCommRateField : struct :=
  [ ("reserve1", TThostFtdcOldInstrumentIDType);
    ("InvestorRange", TThostFtdcInvestorRangeType);
    ("BrokerID", TThostFtdcBrokerIDType);
    ("InvestorID", TThostFtdcInvestorIDType);
    ("OpenRatioByMoney", TThostFtdcRatioType);
    ("OpenRatioByVolume", TThostFtdcRatioType);
    ("CloseRatioByMoney", TThostFtdcRatioType);
    ("CloseRatioByVolume", TThostFtdcRatioType);
    ("CloseTodayRatioByMoney", TThostFtdcRatioType);
    ("CloseTodayRatioByVolume", TThostFtdcRatioType);
    ("StrikeRatioByMoney", TThostFtdcRatioType);
    ("StrikeRatioByVolume", TThostFtdcRatioType);
    ("ExchangeID", TThostFtdcExchangeIDType);
    ("InvestUnitID", TThostFtdcInvestUnitIDType);
    ("InstrumentID", TThostFtdcInstrumentIDType) ].

Definition CThostFtdcOptionInstrTradeCostField : struct :=
  [ ("BrokerID", TThostFtdcBrokerIDType);
    ("InvestorID", TThostFtdcInvestorIDType);
    ("reserve1", TThostFtdcOldInstrumentIDType);
    ("HedgeFlag", TThostFtdcHedgeFlagType);
    ("FixedMargin", TThostFtdcMoneyType);
    ("MiniMargin", TThostFtdcMoneyType);
    ("Royalty", TThostFtdcMoneyType);
    ("ExchFixedMargin", TThostFtdcMoneyType);
    ("ExchMiniMargin", TThostFtdcMoneyType);
    ("ExchangeID", TThostFtdcExchangeIDType);
    ("InvestUnitID", TThostFtdcInvestUnitIDType);
    ("InstrumentID", TThostFtdcInstrumentIDType) ].

Definition CThostFtdcQryOptionInstrTradeCostField : struct :=
  [ ("BrokerID", TThostFtdcBrokerIDType);
    ("InvestorID", TThostFtdcInvestorIDType);
    ("reserve1", TThostFtdcOldInstrumentIDType);
    ("HedgeFlag", TThostFtdcHedgeFlagType);
    ("InputPrice", TThostFtdcPriceType);
    ("UnderlyingPrice", TThostFtdcPriceType);
    ("ExchangeID", TThostFtdcExchangeIDType);
    ("InvestUnitID", TThostFtdcInvestUnitIDType);
    ("InstrumentID", TThostFtdcInstrumentIDType) ].

Definition CThostFtdcQryOptionInstrCommRateField : struct :=
  [ ("BrokerID", TThostFtdcBrokerIDType);
    ("InvestorID", TThostFtdcInvestorIDType);
    ("reserve1", TThostFtdcOldInstrumentIDType);
    ("ExchangeID", TThostFtdcExchangeIDType);
    ("InvestUnitID", TThostFtdcInvestUnitIDType);
    ("InstrumentID", TThostFtdcInstrumentIDType) ].

Definition CThostFtdcIndexPriceField : struct :=
  [ ("BrokerID", TThostFtdcBrokerIDType);
    ("reserve1", TThostFtdcOldInstrumentIDType);
    ("ClosePrice", TThostFtdcPriceType);
    ("InstrumentID", TThostFtdcInstrumentIDType) ].

Definition CThostFtdcInputExecOrderField : struct :=
  [ ("BrokerID", TThostFtdcBrokerIDType);
    ("InvestorID", TThostFtdcInvestorIDType);
    ("reserve1", TThostFtdcOldInstrumentIDType);
    ("ExecOrderRef", TThostFtdcOrderRefType);
    ("UserID", TThostFtdcUserIDType);
    ("Volume", TThostFtdcVolumeType);
    ("RequestID", TThostFtdcRequestIDType);
    ("BusinessUnit", TThostFtdcBusinessUnitType);
    ("OffsetFlag", TThostFtdcOffsetFlagType);
    ("HedgeFlag", TThostFtdcHedgeFlagType);
    ("ActionType", TThostFtdcActionTypeType);
    ("PosiDirection", TThostFtdcPosiDirectionType);
    ("ReservePositionFlag", TThostFtdcExecOrderPositionFlagType);
    ("CloseFlag", TThostFtdcExecOrderCloseFlagType);
    ("ExchangeID", TThostFtdcExchangeIDType);
    ("InvestUnitID", TThostFtdcInvestUnitIDType);
    ("AccountID", TThostFtdcAccountIDType);
    ("CurrencyID", TThostFtdcCurrencyIDType);
    ("ClientID", TThostFtdcClientIDType);
    ("reserve2", TThostFtdcOldIPAddressType);
    ("MacAddress", TThostFtdcMacAddressType);
    ("InstrumentID", TThostFtdcInstrumentIDType);
    ("IPAddress", TThostFtdcIPAddressType) ].

Definition CThostFtdcInputExecOrderActionField : struct :=
  [ ("BrokerID", TThostFtdcBrokerIDType);
    ("InvestorID", TThostFtdcInvestorIDType);
    ("ExecOrderActionRef", TThostFtdcOrderActionRefType);
    ("ExecOrderRef", TThostFtdcOrderRefType);
    ("RequestID", TThostFtdcRequestIDType);
    ("FrontID", TThostFtdcFrontIDType);
    ("SessionID", TThostFtdcSessionIDType);
    ("ExchangeID", TThostFtdcExchangeIDType);
    ("ExecOrderSysID", TThostFtdcExecOrderSysIDType);
    ("ActionFlag", TThostFtdcActionFlagType);
    ("UserID", TThostFtdcUserIDType);
    ("reserve1", TThostFtdcOldInstrumentIDType);
    ("InvestUnitID", TThostFtdcInvestUnitIDType);
    ("reserve2", TThostFtdcOldIPAddressType);
    ("MacAddress", TThostFtdcMacAddressType);
    ("InstrumentID", TThostFtdcInstrumentIDType);
    ("IPAddress", TThostFtdcIPAddressType) ].

Definition CThostFtdcExecOrderField : struct :=
  [ ("BrokerID", TThostFtdcBrokerIDType);
    ("InvestorID", TThostFtdcInvestorIDType);
    ("reserve1", TThostFtdcOldInstrumentIDType);
    ("ExecOrderRef", TThostFtdcOrderRefType);
    ("UserID", TThostFtdcUserIDType);
    ("Volume", TThostFtdcVolumeType);
    ("RequestID", TThostFtdcRequestIDType);
    ("BusinessUnit", TThostFtdcBusinessUnitType);
    ("OffsetFlag", TThostFtdcOffsetFlagType);
    ("HedgeFlag", TThostFtdcHedgeFlagType);
    ("ActionType", TThostFtdcActionTypeType);
    ("PosiDirection", TThostFtdcPosiDirectionType);
    ("ReservePositionFlag", TThostFtdcExecOrderPositionFlagType);
    ("CloseFlag", TThostFtdcExecOrderCloseFlagType);
    ("ExecOrderLocalID", TThostFtdcOrderLocalIDType);
    ("ExchangeID", TThostFtdcExchangeIDType);
    ("ParticipantID", TThostFtdcParticipantIDType);
    ("ClientID", TThostFtdcClientIDType);
    ("reserve2", TThostFtdcOldExchangeInstIDType);
    ("TraderID", TThostFtdcTraderIDType);
    ("InstallID", TThostFtdcInstallIDType);
    ("OrderSubmitStatus", TThostFtdcOrderSubmitStatusType);
    ("NotifySequence", TThostFtdcSequenceNoType);
    ("TradingDay", TThostFtdcDateType);
    ("SettlementID", TThostFtdcSettlementIDType);
    ("ExecOrderSysID", TThostFtdcExecOrderSysIDType);
    ("InsertDate", TThostFtdcDateType);
    ("InsertTime", TThostFtdcTimeType);
    ("CancelTime", TThostFtdcTimeType);
    ("ExecResult", TThostFtdcExecResultType);
    ("ClearingPartID", TThostFtdcParticipantIDType);
    ("SequenceNo", TThostFtdcSequenceNoType);
    ("FrontID", TThostFtdcFrontIDType);
    ("SessionID", TThostFtdcSessionIDType);
    ("UserProductInfo", TThostFtdcProductInfoType);
    ("StatusMsg", TThostFtdcErrorMsgType);
    ("ActiveUserID", TThostFtdcUserIDType);
    ("BrokerExecOrderSeq", TThostFtdcSequenceNoType);
    ("BranchID", TThostFtdcBranchIDType);
    ("InvestUnitID", TThostFtdcInvestUnitIDType);
    ("AccountID", TThostFtdcAccountIDType);
    ("CurrencyID", TThostFtdcCurrencyIDType);
    ("reserve3", TThostFtdcOldIPAddressType);
    ("MacAddress", TThostFtdcMacAddressType);
    ("InstrumentID", TThostFtdcInstrumentIDType);
    ("ExchangeInstID", TThostFtdcExchangeInstIDType);
    ("IPAddress", TThostFtdcIPAddressType) ].

Definition CThostFtdcExecOrderActionField : struct :=
  [ ("BrokerID", TThostFtdcBrokerIDType);
    ("InvestorID", TThostFtdcInvestorIDType);
    ("ExecOrderActionRef", TThostFtdcOrderActionRefType);
    ("ExecOrderRef", TThostFtdcOrderRefType);
    ("RequestID", TThostFtdcRequestIDType);
    ("FrontID", TThostFtdcFrontIDType);
    ("SessionID", TThostFtdcSessionIDType);
    ("ExchangeID", TThostFtdcExchangeIDType);
    ("ExecOrderSysID", TThostFtdcExecOrderSysIDType);
    ("ActionFlag", TThostFtdcActionFlagType);
    ("ActionDate", TThostFtdcDateType);
    ("ActionTime", TThostFtdcTimeType);
    ("TraderID", TThostFtdcTraderIDType);
    ("InstallID", TThostFtdcInstallIDType);
    ("ExecOrderLocalID", TThostFtdcOrderLocalIDType);
    ("ActionLocalID", TThostFtdcOrderLocalIDType);
    ("ParticipantID", TThostFtdcParticipantIDType);
    ("ClientID", TThostFtdcClientIDType);
    ("BusinessUnit", TThostFtdcBusinessUnitType);
    ("OrderActionStatus", TThostFtdcOrderActionStatusType);
    ("UserID", TThostFtdcUserIDType);
    ("ActionType", TThostFtdcActionTypeType);
    ("StatusMsg", TThostFtdcErrorMsgType);
    ("reserve1", TThostFtdcOldInstrumentIDType);
    ("BranchID", TThostFtdcBranchIDType);
    ("InvestUnitID", TThostFtdcInvestUnitIDType);
    ("reserve2", TThostFtdcOldIPAddressType);
    ("MacAddress", TThostFtdcMacAddressType);
    ("InstrumentID", TThostFtdcInstrumentIDType);
    ("IPAddress", TThostFtdcIPAddressType) ].

Definition CThostFtdcQryExecOrderField : struct :=
  [ ("BrokerID", TThostFtdcBrokerIDType);
    ("InvestorID", TThostFtdcInvestorIDType);
    ("reserve1", TThostFtdcOldInstrumentIDType);
    ("ExchangeID", TThostFtdcExchangeIDType);
    ("ExecOrderSysID", TThostFtdcExecOrderSysIDType);
    ("InsertTimeStart", TThostFtdcTimeType);
    ("InsertTimeEnd", TThostFtdcTimeType);
    ("InstrumentID", TThostFtdcInstrumentIDType) ].

Definition CThostFtdcExchangeExecOrderField : struct :=
  [ ("Volume", TThostFtdcVolumeType);
    ("RequestID", TThostFtdcRequestIDType);
    ("BusinessUnit", TThostFtdcBusinessUnitType);
    ("OffsetFlag", TThostFtdcOffsetFlagType);
    ("HedgeFlag", TThostFtdcHedgeFlagType);
    ("ActionType", TThostFtdcActionTypeType);
    ("PosiDirection", TThostFtdcPosiDirectionType);
    ("ReservePositionFlag", TThostFtdcExecOrderPositionFlagType);
    ("CloseFlag", TThostFtdcExecOrderCloseFlagType);
    ("ExecOrderLocalID", TThostFtdcOrderLocalIDType);
    ("ExchangeID", TThostFtdcExchangeIDType);
    ("ParticipantID", TThostFtdcParticipantIDType);
    ("ClientID", TThostFtdcClientIDType);
    ("reserve1", TThostFtdcOldExchangeInstIDType);
    ("TraderID", TThostFtdcTraderIDType);
    ("InstallID", TThostFtdcInstallIDType);
    ("OrderSubmitStatus", TThostFtdcOrderSubmitStatusType);
    ("NotifySequence", TThostFtdcSequenceNoType);
    ("TradingDay", TThostFtdcDateType);
    ("SettlementID", TThostFtdcSettlementIDType);
    ("ExecOrderSysID", TThostFtdcExecOrderSysIDType);
    ("InsertDate", TThostFtdcDateType);
    ("InsertTime", TThostFtdcTimeType);
    ("CancelTime", TThostFtdcTimeType);
    ("ExecResult", TThostFtdcExecResultType);
    ("ClearingPartID", TThostFtdcParticipantIDType);
    ("SequenceNo", TThostFtdcSequenceNoType);
    ("BranchID", TThostFtdcBranchIDType);
    ("reserve2", TThostFtdcOldIPAddressType);
    ("MacAddress", TThostFtdcMacAddressType);
    ("ExchangeInstID", TThostFtdcExchangeInstIDType);
    ("IPAddress", TThostFtdcIPAddressType) ].

Definition CThostFtdcQryExchangeExecOrderField : struct :=
  [ ("ParticipantID", TThostFtdcParticipantIDType);
    ("ClientID", TThostFtdcClientIDType);
    ("reserve1", TThostFtdcOldExchangeInstIDType);
    ("ExchangeID", TThostFtdcExchangeIDType);
    ("TraderID", TThostFtdcTraderIDType);
    ("ExchangeInstID", TThostFtdcExchangeInstIDType) ].

Definition CThostFtdcQryExecOrderActionField : struct :=
  [ ("BrokerID", TThostFtdcBrokerIDType);
    ("InvestorID", TThostFtdcInvestorIDType);
    ("ExchangeID", TThostFtdcExchangeIDType) ].

Definition CThostFtdcExchangeExecOrderActionField : struct :=
  [ ("ExchangeID", TThostFtdcExchangeIDType);
    ("ExecOrderSysID", TThostFtdcExecOrderSysIDType);
    ("ActionFlag", TThostFtdcActionFlagType);
    ("ActionDate", TThostFtdcDateType);
    ("ActionTime", TThostFtdcTimeType);
    ("TraderID", TThostFtdcTraderIDType);
    ("InstallID", TThostFtdcInstallIDType);
    ("ExecOrderLocalID", TThostFtdcOrderLocalIDType);
    ("ActionLocalID", TThostFtdcOrderLocalIDType);
    ("ParticipantID", TThostFtdcParticipantIDType);
    ("ClientID", TThostFtdcClientIDType);
    ("BusinessUnit", TThostFtdcBusinessUnitType);
    ("OrderActionStatus", TThostFtdcOrderActionStatusType);
    ("UserID", TThostFtdcUserIDType);
    ("ActionType", TThostFtdcActionTypeType);
    ("BranchID", TThostFtdcBranchIDType);
    ("reserve1", TThostFtdcOldIPAddressType);
    ("MacAddress", TThostFtdcMacAddressType);
    ("reserve2", TThostFtdcOldExchangeInstIDType);
    ("Volume", TThostFtdcVolumeType);
    ("IPAddress", TThostFtdcIPAddressType);
    ("ExchangeInstID", TThostFtdcExchangeInstIDType) ].

Definition CThostFtdcQryExchangeExecOrderActionField : struct :=
  [ ("ParticipantID", TThostFtdcParticipantIDType);
    ("ClientID", TThostFtdcClientIDType);
    ("ExchangeID", TThostFtdcExchangeIDType);
    ("TraderID", TThostFtdcTraderIDType) ].

Definition CThostFtdcErrExecOrderField : struct :=
  [ ("BrokerID", TThostFtdcBrokerIDType);
    ("InvestorID", TThostFtdcInvestorIDType);
    ("reserve1", TThostFtdcOldInstrumentIDType);
    ("ExecOrderRef", TThostFtdcOrderRefType);
    ("UserID", TThostFtdcUserIDType);
    ("Volume", TThostFtdcVolumeType);
    ("RequestID", TThostFtdcRequestIDType);
    ("BusinessUnit", TThostFtdcBusinessUnitType);
    ("OffsetFlag", TThostFtdcOffsetFlagType);
    ("HedgeFlag", TThostFtdcHedgeFlagType);
    ("ActionType", TThostFtdcActionTypeType);
    ("PosiDirection", TThostFtdcPosiDirectionType);
    ("ReservePositionFlag", TThostFtdcExecOrderPositionFlagType);
    ("CloseFlag", TThostFtdcExecOrderCloseFlagType);
    ("ExchangeID", TThostFtdcExchangeIDType);
    ("InvestUnitID", TThostFtdcInvestUnitIDType);
    ("AccountID", TThostFtdcAccountIDType);
    ("CurrencyID", TThostFtdcCurrencyIDType);
    ("ClientID", TThostFtdcClientIDType);
    ("reserve2", TThostFtdcOldIPAddressType);
    ("MacAddress", TThostFtdcMacAddressType);
    ("ErrorID", TThostFtdcErrorIDType);
    ("ErrorMsg", TThostFtdcErrorMsgType);
    ("InstrumentID", TThostFtdcInstrumentIDType);
    ("IPAddress", TThostFtdcIPAddressType) ].

Definition CThostFtdcQryErrExecOrderField : struct :=
  [ ("BrokerID", TThostFtdcBrokerIDType);
    ("InvestorID", TThostFtdcInvestorIDType) ].

Definition CThostFtdcErrExecOrderActionField : struct :=
  [ ("BrokerID", TThostFtdcBrokerIDType);
    ("InvestorID", TThostFtdcInvestorIDType);
    ("ExecOrderActionRef", TThostFtdcOrderActionRefType);
    ("ExecOrderRef", TThostFtdcOrderRefType);
    ("RequestID", TThostFtdcRequestIDType);
    ("FrontID", TThostFtdcFrontIDType);
    ("SessionID", TThostFtdcSessionIDType);
    ("ExchangeID", TThostFtdcExchangeIDType);
    ("ExecOrderSysID", TThostFtdcExecOrderSysIDType);
    ("ActionFlag", TThostFtdcActionFlagType);
    ("UserID", TThostFtdcUserIDType);
    ("reserve1", TThostFtdcOldInstrumentIDType);
    ("InvestUnitID", TThostFtdcInvestUnitIDType);
    ("reserve2", TThostFtdcOldIPAddressType);
    ("MacAddress", TThostFtdcMacAddressType);
    ("ErrorID", TThostFtdcErrorIDType);
    ("ErrorMsg", TThostFtdcErrorMsgType);
    ("InstrumentID", TThostFtdcInstrumentIDType);
    ("IPAddress", TThostFtdcIPAddressType) ].

Definition CThostFtdcQryErrExecOrderActionField : struct :=
  [ ("BrokerID", TThostFtdcBrokerIDType);
    ("InvestorID", TThostFtdcInvestorIDType) ].

Definition CThostFtdcOptionInstrTradingRightField : struct :=
  [ ("reserve1", TThostFtdcOldInstrumentIDType);
    ("InvestorRange", TThostFtdcInvestorRangeType);
    ("BrokerID", TThostFtdcBrokerIDType);
    ("InvestorID", TThostFtdcInvestorIDType);
    ("Direction", TThostFtdcDirectionType);
    ("TradingRight", TThostFtdcTradingRightType);
    ("InstrumentID", TThostFtdcInstrumentIDType) ].

Definition CThostFtdcQryOptionInstrTradingRightField : struct :=
  [ ("BrokerID", TThostFtdcBrokerIDType);
    ("InvestorID", TThostFtdcInvestorIDType);
    ("reserve1", TThostFtdcOldInstrumentIDType);
    ("Direction", TThostFtdcDirectionType);
    ("InstrumentID", TThostFtdcInstrumentIDType) ].

Definition CThostFtdcInputForQuoteField : struct :=
  [ ("BrokerID", TThostFtdcBrokerIDType);
    ("InvestorID", TThostFtdcInvestorIDType);
    ("reserve1", TThostFtdcOldInstrumentIDType);
    ("ForQuoteRef", TThostFtdcOrderRefType);
    ("UserID", TThostFtdcUserIDType);
    ("ExchangeID", TThostFtdcExchangeIDType);
    ("InvestUnitID", TThostFtdcInvestUnitIDType);
    ("reserve2", TThostFtdcOldIPAddressType);
    ("MacAddress", TThostFtdcMacAddressType);
    ("InstrumentID", TThostFtdcInstrumentIDType);
    ("IPAddress", TThostFtdcIPAddressType) ].

Definition CThostFtdcForQuoteField : struct :=
  [ ("BrokerID", TThostFtdcBrokerIDType);
    ("InvestorID", TThostFtdcInvestorIDType);
    ("reserve1", TThostFtdcOldInstrumentIDType);
    ("ForQuoteRef", TThostFtdcOrderRefType);
    ("UserID", TThostFtdcUserIDType);
    ("ForQuoteLocalID", TThostFtdcOrderLocalIDType);
    ("ExchangeID", TThostFtdcExchangeIDType);
    ("ParticipantID", TThostFtdcParticipantIDType);
    ("ClientID", TThostFtdcClientIDType);
    ("reserve2", TThostFtdcOldExchangeInstIDType);
    ("TraderID", TThostFtdcTraderIDType);
    ("InstallID", TThostFtdcInstallIDType);
    ("InsertDate", TThostFtdcDateType);
    ("InsertTime", TThostFtdcTimeType);
    ("ForQuoteStatus", TThostFtdcForQuoteStatusType);
    ("FrontID", TThostFtdcFrontIDType);
    ("SessionID", TThostFtdcSessionIDType);
    ("StatusMsg", TThostFtdcErrorMsgType);
    ("ActiveUserID", TThostFtdcUserIDType);
    ("BrokerForQutoSeq", TThostFtdcSequenceNoType);
    ("InvestUnitID", TThostFtdcInvestUnitIDType);
    ("reserve3", TThostFtdcOldIPAddressType);
    ("MacAddress", TThostFtdcMacAddressType);
    ("InstrumentID", TThostFtdcInstrumentIDType);
    ("ExchangeInstID", TThostFtdcExchangeInstIDType);
    ("IPAddress", TThostFtdcIPAddressType) ].

Definition CThostFtdcQryForQuoteField : struct :=
  [ ("BrokerID", TThostFtdcBrokerIDType);
    ("InvestorID", TThostFtdcInvestorIDType);
    ("reserve1", TThostFtdcOldInstrumentIDType);
    ("ExchangeID", TThostFtdcExchangeIDType);
    ("InsertTimeStart", TThostFtdcTimeType);
    ("InsertTimeEnd", TThostFtdcTimeType);
    ("InvestUnitID", TThostFtdcInvestUnitIDType);
    ("InstrumentID", TThostFtdcInstrumentIDType) ].

Definition CThostFtdcExchangeForQuoteField : struct :=
  [ ("ForQuoteLocalID", TThostFtdcOrderLocalIDType);
    ("ExchangeID", TThostFtdcExchangeIDType);
    ("ParticipantID", TThostFtdcParticipantIDType);
    ("ClientID", TThostFtdcClientIDType);
    ("reserve1", TThostFtdcOldExchangeInstIDType);
    ("TraderID", TThostFtdcTraderIDType);
    ("InstallID", TThostFtdcInstallIDType);
    ("InsertDate", TThostFtdcDateType);
    ("InsertTime", TThostFtdcTimeType);
    ("ForQuoteStatus", TThostFtdcForQuoteStatusType);
    ("reserve2", TThostFtdcOldIPAddressType);
    ("MacAddress", TThostFtdcMacAddressType);
    ("ExchangeInstID", TThostFtdcExchangeInstIDType);
    ("IPAddress", TThostFtdcIPAddressType) ].

Definition CThostFtdcQryExchangeForQuoteField : struct :=
  [ ("ParticipantID", TThostFtdcParticipantIDType);
    ("ClientID", TThostFtdcClientIDType);
    ("reserve1", TThostFtdcOldExchangeInstIDType);
    ("ExchangeID", TThostFtdcExchangeIDType);
    ("TraderID", TThostFtdcTraderIDType);
    ("ExchangeInstID", TThostFtdcExchangeInstIDType) ].

Definition CThostFtdcInputQuoteField : struct :=
  [ ("BrokerID", TThostFtdcBrokerIDType);
    ("InvestorID", TThostFtdcInvestorIDType);
    ("reserve1", TThostFtdcOldInstrumentIDType);
    ("QuoteRef", TThostFtdcOrderRefType);
    ("UserID", TThostFtdcUserIDType);
    ("AskPrice", TThostFtdcPriceType);
    ("BidPrice", TThostFtdcPriceType);
    ("AskVolume", TThostFtdcVolumeType);
    ("BidVolume", TThostFtdcVolumeType);
    ("RequestID", TThostFtdcRequestIDType);
    ("BusinessUnit", TThostFtdcBusinessUnitType);
    ("AskOffsetFlag", TThostFtdcOffsetFlagType);
    ("BidOffsetFlag", TThostFtdcOffsetFlagType);
    ("AskHedgeFlag", TThostFtdcHedgeFlagType);
    ("BidHedgeFlag", TThostFtdcHedgeFlagType);
    ("AskOrderRef", TThostFtdcOrderRefType);
    ("BidOrderRef", TThostFtdcOrderRefType);
    ("ForQuoteSysID", TThostFtdcOrderSysIDType);
    ("ExchangeID", TThostFtdcExchangeIDType);
    ("InvestUnitID", TThostFtdcInvestUnitIDType);
    ("ClientID", TThostFtdcClientIDType);
    ("reserve2", TThostFtdcOldIPAddressType);
    ("MacAddress", TThostFtdcMacAddressType);
    ("InstrumentID", TThostFtdcInstrumentIDType);
    ("IPAddress", TThostFtdcIPAddressType);
    ("ReplaceSysID", TThostFtdcOrderSysIDType);
    ("TimeCondition", TThostFtdcTimeConditionType);
    ("OrderMemo", TThostFtdcOrderMemoType);
    ("SessionReqSeq", TThostFtdcSequenceNo12Type) ].

Definition CThostFtdcInputQuoteActionField : struct :=
  [ ("BrokerID", TThostFtdcBrokerIDType);
    ("InvestorID", TThostFtdcInvestorIDType);
    ("QuoteActionRef", TThostFtdcOrderActionRefType);
    ("QuoteRef", TThostFtdcOrderRefType);
    ("RequestID", TThostFtdcRequestIDType);
    ("FrontID", TThostFtdcFrontIDType);
    ("SessionID", TThostFtdcSessionIDType);
    ("ExchangeID", TThostFtdcExchangeIDType);
    ("QuoteSysID", TThostFtdcOrderSysIDType);
    ("ActionFlag", TThostFtdcActionFlagType);
    ("UserID", TThostFtdcUserIDType);
    ("reserve1", TThostFtdcOldInstrumentIDType);
    ("InvestUnitID", TThostFtdcInvestUnitIDType);
    ("ClientID", TThostFtdcClientIDType);
    ("reserve2", TThostFtdcOldIPAddressType);
    ("MacAddress", TThostFtdcMacAddressType);
    ("InstrumentID", TThostFtdcInstrumentIDType);
    ("IPAddress", TThostFtdcIPAddressType);
    ("OrderMemo", TThostFtdcOrderMemoType);
    ("SessionReqSeq", TThostFtdcSequenceNo12Type) ].

Definition CThostFtdcQuoteField : struct :=
  [ ("BrokerID", TThostFtdcBrokerIDType);
    ("InvestorID", TThostFtdcInvestorIDType);
    ("reserve1", TThostFtdcOldInstrumentIDType);
    ("QuoteRef", TThostFtdcOrderRefType);
    ("UserID", TThostFtdcUserIDType);
    ("AskPrice", TThostFtdcPriceType);
    ("BidPrice", TThostFtdcPriceType);
    ("AskVolume", TThostFtdcVolumeType);
    ("BidVolume", TThostFtdcVolumeType);
    ("RequestID", TThostFtdcRequestIDType);
    ("BusinessUnit", TThostFtdcBusinessUnitType);
    ("AskOffsetFlag", TThostFtdcOffsetFlagType);
    ("BidOffsetFlag", TThostFtdcOffsetFlagType);
    ("AskHedgeFlag", TThostFtdcHedgeFlagType);
    ("BidHedgeFlag", TThostFtdcHedgeFlagType);
    ("QuoteLocalID", TThostFtdcOrderLocalIDType);
    ("ExchangeID", TThostFtdcExchangeIDType);
    ("ParticipantID", TThostFtdcParticipantIDType);
    ("ClientID", TThostFtdcClientIDType);
    ("reserve2", TThostFtdcOldExchangeInstIDType);
    ("TraderID", TThostFtdcTraderIDType);
    ("InstallID", TThostFtdcInstallIDType);
    ("NotifySequence", TThostFtdcSequenceNoType);
    ("OrderSubmitStatus", TThostFtdcOrderSubmitStatusType);
    ("TradingDay", TThostFtdcDateType);
    ("SettlementID", TThostFtdcSettlementIDType);
    ("QuoteSysID", TThostFtdcOrderSysIDType);
    ("InsertDate", TThostFtdcDateType);
    ("InsertTime", TThostFtdcTimeType);
    ("CancelTime", TThostFtdcTimeType);
    ("QuoteStatus", TThostFtdcOrderStatusType);
    ("ClearingPartID", TThostFtdcParticipantIDType);
    ("SequenceNo", TThostFtdcSequenceNoType);
    ("AskOrderSysID", TThostFtdcOrderSysIDType);
    ("BidOrderSysID", TThostFtdcOrderSysIDType);
    ("FrontID", TThostFtdcFrontIDType);
    ("SessionID", TThostFtdcSessionIDType);
    ("UserProductInfo", TThostFtdcProductInfoType);
    ("StatusMsg", TThostFtdcErrorMsgType);
    ("ActiveUserID", TThostFtdcUserIDType);
    ("BrokerQuoteSeq", TThostFtdcSequenceNoType);
    ("AskOrderRef", TThostFtdcOrderRefType);
    ("BidOrderRef", TThostFtdcOrderRefType);
    ("ForQuoteSysID", TThostFtdcOrderSysIDType);
    ("BranchID", TThostFtdcBranchIDType);
    ("InvestUnitID", TThostFtdcInvestUnitIDType);
    ("AccountID", TThostFtdcAccountIDType);
    ("CurrencyID", TThostFtdcCurrencyIDType);
    ("reserve3", TThostFtdcOldIPAddressType);
    ("MacAddress", TThostFtdcMacAddressType);
    ("InstrumentID", TThostFtdcInstrumentIDType);
    ("ExchangeInstID", TThostFtdcExchangeInstIDType);
    ("IPAddress", TThostFtdcIPAddressType);
    ("ReplaceSysID", TThostFtdcOrderSysIDType);
    ("TimeCondition", TThostFtdcTimeConditionType);
    ("OrderMemo", TThostFtdcOrderMemoType);
    ("SessionReqSeq", TThostFtdcSequenceNo12Type) ].

Definition CThostFtdcQuoteActionField : struct :=
  [ ("BrokerID", TThostFtdcBrokerIDType);
    ("InvestorID", TThostFtdcInvestorIDType);
    ("QuoteActionRef", TThostFtdcOrderActionRefType);
    ("QuoteRef", TThostFtdcOrderRefType);
    ("RequestID", TThostFtdcRequestIDType);
    ("FrontID", TThostFtdcFrontIDType);
    ("SessionID", TThostFtdcSessionIDType);
    ("ExchangeID", TThostFtdcExchangeIDType);
    ("QuoteSysID", TThostFtdcOrderSysIDType);
    ("ActionFlag", TThostFtdcActionFlagType);
    ("ActionDate", TThostFtdcDateType);
    ("ActionTime", TThostFtdcTimeType);
    ("TraderID", TThostFtdcTraderIDType);
    ("InstallID", TThostFtdcInstallIDType);
    ("QuoteLocalID", TThostFtdcOrderLocalIDType);
    ("ActionLocalID", TThostFtdcOrderLocalIDType);
    ("ParticipantID", TThostFtdcParticipantIDType);
    ("ClientID", TThostFtdcClientIDType);
    ("BusinessUnit", TThostFtdcBusinessUnitType);
    ("OrderActionStatus", TThostFtdcOrderActionStatusType);
    ("UserID", TThostFtdcUserIDType);
    ("StatusMsg", TThostFtdcErrorMsgType);
    ("reserve1", TThostFtdcOldInstrumentIDType);
    ("BranchID", TThostFtdcBranchIDType);
    ("InvestUnitID", TThostFtdcInvestUnitIDType);
    ("reserve2", TThostFtdcOldIPAddressType);
    ("MacAddress", TThostFtdcMacAddressType);
    ("InstrumentID", TThostFtdcInstrumentIDType);
    ("IPAddress", TThostFtdcIPAddressType);
    ("OrderMemo", TThostFtdcOrderMemoType);
    ("SessionReqSeq", TThostFtdcSequenceNo12Type) ].

Definition CThostFtdcQryQuoteField : struct :=
  [ ("BrokerID", TThostFtdcBrokerIDType);
    ("InvestorID", TThostFtdcInvestorIDType);
    ("reserve1", TThostFtdcOldInstrumentIDType);
    ("ExchangeID", TThostFtdcExchangeIDType);
    ("QuoteSysID", TThostFtdcOrderSysIDType);
    ("InsertTimeStart", TThostFtdcTimeType);
    ("InsertTimeEnd", TThostFtdcTimeType);
    ("InvestUnitID", TThostFtdcInvestUnitIDType);
    ("InstrumentID", TThostFtdcInstrumentIDType) ].

Definition CThostFtdcExchangeQuoteField : struct :=
  [ ("AskPrice", TThostFtdcPriceType);
    ("BidPrice", TThostFtdcPriceType);
    ("AskVolume", TThostFtdcVolumeType);
    ("BidVolume", TThostFtdcVolumeType);
    ("RequestID", TThostFtdcRequestIDType);
    ("BusinessUnit", TThostFtdcBusinessUnitType);
    ("AskOffsetFlag", TThostFtdcOffsetFlagType);
    ("BidOffsetFlag", TThostFtdcOffsetFlagType);
    ("AskHedgeFlag", TThostFtdcHedgeFlagType);
    ("BidHedgeFlag", TThostFtdcHedgeFlagType);
    ("QuoteLocalID", TThostFtdcOrderLocalIDType);
    ("ExchangeID", TThostFtdcExchangeIDType);
    ("ParticipantID", TThostFtdcParticipantIDType);
    ("ClientID", TThostFtdcClientIDType);
    ("reserve1", TThostFtdcOldExchangeInstIDType);
    ("TraderID", TThostFtdcTraderIDType);
    ("InstallID", TThostFtdcInstallIDType);
    ("NotifySequence", TThostFtdcSequenceNoType);
    ("OrderSubmitStatus", TThostFtdcOrderSubmitStatusType);
    ("TradingDay", TThostFtdcDateType);
    ("SettlementID", TThostFtdcSettlementIDType);
    ("QuoteSysID", TThostFtdcOrderSysIDType);
    ("InsertDate", TThostFtdcDateType);
    ("InsertTime", TThostFtdcTimeType);
    ("CancelTime", TThostFtdcTimeType);
    ("QuoteStatus", TThostFtdcOrderStatusType);
    ("ClearingPartID", TThostFtdcParticipantIDType);
    ("SequenceNo", TThostFtdcSequenceNoType);
    ("AskOrderSysID", TThostFtdcOrderSysIDType);
    ("BidOrderSysID", TThostFtdcOrderSysIDType);
    ("ForQuoteSysID", TThostFtdcOrderSysIDType);
    ("BranchID", TThostFtdcBranchIDType);
    ("reserve2", TThostFtdcOldIPAddressType);
    ("MacAddress", TThostFtdcMacAddressType);
    ("ExchangeInstID", TThostFtdcExchangeInstIDType);
    ("IPAddress", TThostFtdcIPAddressType);
    ("TimeCondition", TThostFtdcTimeConditionType) ].

Definition CThostFtdcQryExchangeQuoteField : struct :=
  [ ("ParticipantID", TThostFtdcParticipantIDType);
    ("ClientID", TThostFtdcClientIDType);
    ("reserve1", TThostFtdcOldExchangeInstIDType);
    ("ExchangeID", TThostFtdcExchangeIDType);
    ("TraderID", TThostFtdcTraderIDType);
    ("ExchangeInstID", TThostFtdcExchangeInstIDType) ].

Definition CThostFtdcQryQuoteActionField : struct :=
  [ ("BrokerID", TThostFtdcBrokerIDType);
    ("InvestorID", TThostFtdcInvestorIDType);
    ("ExchangeID", TThostFtdcExchangeIDType) ].

Definition CThostFtdcExchangeQuoteActionField : struct :=
  [ ("ExchangeID", TThostFtdcExchangeIDType);
    ("QuoteSysID", TThostFtdcOrderSysIDType);
    ("ActionFlag", TThostFtdcActionFlagType);
    ("ActionDate", TThostFtdcDateType);
    ("ActionTime", TThostFtdcTimeType);
    ("TraderID", TThostFtdcTraderIDType);
    ("InstallID", TThostFtdcInstallIDType);
    ("QuoteLocalID", TThostFtdcOrderLocalIDType);
    ("ActionLocalID", TThostFtdcOrderLocalIDType);
    ("ParticipantID", TThostFtdcParticipantIDType);
    ("ClientID", TThostFtdcClientIDType);
    ("BusinessUnit", TThostFtdcBusinessUnitType);
    ("OrderActionStatus", TThostFtdcOrderActionStatusType);
    ("UserID", TThostFtdcUserIDType);
    ("reserve1", TThostFtdcOldIPAddressType);
    ("MacAddress", TThostFtdcMacAddressType);
    ("IPAddress", TThostFtdcIPAddressType) ].

Definition CThostFtdcQryExchangeQuoteActionField : struct :=
  [ ("ParticipantID", TThostFtdcParticipantIDType);
    ("ClientID", TThostFtdcClientIDType);
    ("ExchangeID", TThostFtdcExchangeIDType);
    ("TraderID", TThostFtdcTraderIDType) ].

Definition CThostFtdcOptionInstrDeltaField : struct :=
  [ ("reserve1", TThostFtdcOldInstrumentIDType);
    ("InvestorRange", TThostFtdcInvestorRangeType);
    ("BrokerID", TThostFtdcBrokerIDType);
    ("InvestorID", TThostFtdcInvestorIDType);
    ("Delta", TThostFtdcRatioType);
    ("InstrumentID", TThostFtdcInstrumentIDType) ].

Definition CThostFtdcForQuoteRspField : struct :=
  [ ("TradingDay", TThostFtdcDateType);
    ("reserve1", TThostFtdcOldInstrumentIDType);
    ("ForQuoteSysID", TThostFtdcOrderSysIDType);
    ("ForQuoteTime", TThostFtdcTimeType);
    ("ActionDay", TThostFtdcDateType);
    ("ExchangeID", TThostFtdcExchangeIDType);
    ("InstrumentID", TThostFtdcInstrumentIDType) ].

Definition CThostFtdcStrikeOffsetField : struct :=
  [ ("reserve1", TThostFtdcOldInstrumentIDType);
    ("InvestorRange", TThostFtdcInvestorRangeType);
    ("BrokerID", TThostFtdcBrokerIDType);
    ("InvestorID", TThostFtdcInvestorIDType);
    ("Offset", TThostFtdcMoneyType);
    ("OffsetType", TThostFtdcStrikeOffsetTypeType);
    ("InstrumentID", TThostFtdcInstrumentIDType) ].

Definition CThostFtdcQryStrikeOffsetField : struct :=
  [ ("BrokerID", TThostFtdcBrokerIDType);
    ("InvestorID", TThostFtdcInvestorIDType);
    ("reserve1", TThostFtdcOldInstrumentIDType);
    ("InstrumentID", TThostFtdcInstrumentIDType) ].

Definition CThostFtdcInputBatchOrderActionField : struct :=
  [ ("BrokerID", TThostFtdcBrokerIDType);
    ("InvestorID", TThostFtdcInvestorIDType);
    ("OrderActionRef", TThostFtdcOrderActionRefType);
    ("RequestID", TThostFtdcRequestIDType);
    ("FrontID", TThostFtdcFrontIDType);
    ("SessionID", TThostFtdcSessionIDType);
    ("ExchangeID", TThostFtdcExchangeIDType);
    ("UserID", TThostFtdcUserIDType);
    ("InvestUnitID", TThostFtdcInvestUnitIDType);
    ("reserve1", TThostFtdcOldIPAddressType);
    ("MacAddress", TThostFtdcMacAddressType);
    ("IPAddress", TThostFtdcIPAddressType) ].

Definition CThostFtdcBatchOrderActionField : struct :=
  [ ("BrokerID", TThostFtdcBrokerIDType);
    ("InvestorID", TThostFtdcInvestorIDType);
    ("OrderActionRef", TThostFtdcOrderActionRefType);
    ("RequestID", TThostFtdcRequestIDType);
    ("FrontID", TThostFtdcFrontIDType);
    ("SessionID", TThostFtdcSessionIDType);
    ("ExchangeID", TThostFtdcExchangeIDType);
    ("ActionDate", TThostFtdcDateType);
    ("ActionTime", TThostFtdcTimeType);
    ("TraderID", TThostFtdcTraderIDType);
    ("InstallID", TThostFtdcInstallIDType);
    ("ActionLocalID", TThostFtdcOrderLocalIDType);
    ("ParticipantID", TThostFtdcParticipantIDType);
    ("ClientID", TThostFtdcClientIDType);
    ("BusinessUnit", TThostFtdcBusinessUnitType);
    ("OrderActionStatus", TThostFtdcOrderActionStatusType);
    ("UserID", TThostFtdcUserIDType);
    ("StatusMsg", TThostFtdcErrorMsgType);
    ("InvestUnitID", TThostFtdcInvestUnitIDType);
    ("reserve1", TThostFtdcOldIPAddressType);
    ("MacAddress", TThostFtdcMacAddressType);
    ("IPAddress", TThostFtdcIPAddressType) ].

Definition CThostFtdcExchangeBatchOrderActionField : struct :=
  [ ("ExchangeID", TThostFtdcExchangeIDType);
    ("ActionDate", TThostFtdcDateType);
    ("ActionTime", TThostFtdcTimeType);
    ("TraderID", TThostFtdcTraderIDType);
    ("InstallID", TThostFtdcInstallIDType);
    ("ActionLocalID", TThostFtdcOrderLocalIDType);
    ("ParticipantID", TThostFtdcParticipantIDType);
    ("ClientID", TThostFtdcClientIDType);
    ("BusinessUnit", TThostFtdcBusinessUnitType);
    ("OrderActionStatus", TThostFtdcOrderActionStatusType);
    ("UserID", TThostFtdcUserIDType);
    ("reserve1", TThostFtdcOldIPAddressType);
    ("MacAddress", TThostFtdcMacAddressType);
    ("IPAddress", TThostFtdcIPAddressType) ].

Definition CThostFtdcQryBatchOrderActionField : struct :=
  [ ("BrokerID", TThostFtdcBrokerIDType);
    ("InvestorID", TThostFtdcInvestorIDType);
    ("ExchangeID", TThostFtdcExchangeIDType) ].

Definition CThostFtdcCombInstrumentGuardField : struct :=
  [ ("BrokerID", TThostFtdcBrokerIDType);
    ("reserve1", TThostFtdcOldInstrumentIDType);
    ("GuarantRatio", TThostFtdcRatioType);
    ("ExchangeID", TThostFtdcExchangeIDType);
    ("InstrumentID", TThostFtdcInstrumentIDType) ].

(** The declarations above, by name. *)
Definition structs : list (string * struct) :=
  [ ("CThostFtdcDisseminationField", CThostFtdcDisseminationField);
    ("CThostFtdcReqUserLoginField", CThostFtdcReqUserLoginField);
    ("CThostFtdcRspUserLoginField", CThostFtdcRspUserLoginField);
    ("CThostFtdcUserLogoutField", CThostFtdcUserLogoutField);
    ("CThostFtdcForceUserLogoutField", CThostFtdcForceUserLogoutField);
    ("CThostFtdcReqAuthenticateField", CThostFtdcReqAuthenticateField);
    ("CThostFtdcRspAuthenticateField", CThostFtdcRspAuthenticateField);
    ("CThostFtdcAuthenticationInfoField", CThostFtdcAuthenticationInfoField);
    ("CThostFtdcRspUserLogin2Field", CThostFtdcRspUserLogin2Field);
    ("CThostFtdcTransferHeaderField", CThostFtdcTransferHeaderField);
    ("CThostFtdcTransferBankToFutureReqField", CThostFtdcTransferBankToFutureReqField);
    ("CThostFtdcTransferBankToFutureRspField", CThostFtdcTransferBankToFutureRspField);
    ("CThostFtdcTransferFutureToBankReqField", CThostFtdcTransferFutureToBankReqField);
    ("CThostFtdcTransferFutureToBankRspField", CThostFtdcTransferFutureToBankRspField);
    ("CThostFtdcTransferQryBankReqField", CThostFtdcTransferQryBankReqField);
    ("CThostFtdcTransferQryBankRspField", CThostFtdcTransferQryBankRspField);
    ("CThostFtdcTransferQryDetailReqField", CThostFtdcTransferQryDetailReqField);
    ("CThostFtdcTransferQryDetailRspField", CThostFtdcTransferQryDetailRspField);
    ("CThostFtdcRspInfoField", CThostFtdcRspInfoField);
    ("CThostFtdcExchangeField", CThostFtdcExchangeField);
    ("CThostFtdcProductField", CThostFtdcProductField);
    ("CThostFtdcInstrumentField", CThostFtdcInstrumentField);
    ("CThostFtdcBrokerField", CThostFtdcBrokerField);
    ("CThostFtdcTraderField", CThostFtdcTraderField);
    ("CThostFtdcInvestorField", CThostFtdcInvestorField);
    ("CThostFtdcTradingCodeField", CThostFtdcTradingCodeField);
    ("CThostFtdcPartBrokerField", CThostFtdcPartBrokerField);
    ("CThostFtdcSuperUserField", CThostFtdcSuperUserField);
    ("CThostFtdcSuperUserFunctionField", CThostFtdcSuperUserFunctionField);
    ("CThostFtdcInvestorGroupField", CThostFtdcInvestorGroupField);
    ("CThostFtdcTradingAccountField", CThostFtdcTradingAccountField);
    ("CThostFtdcInvestorPositionField", CThostFtdcInvestorPositionField);
    ("CThostFtdcInstrumentMarginRateField", CThostFtdcInstrumentMarginRateField);
    ("CThostFtdcInstrumentCommissionRateField", CThostFtdcInstrumentCommissionRateField);
    ("CThostFtdcDepthMarketDataField", CThostFtdcDepthMarketDataField);
    ("CThostFtdcInstrumentTradingRightField", CThostFtdcInstrumentTradingRightField);
    ("CThostFtdcBrokerUserField", CThostFtdcBrokerUserField);
    ("CThostFtdcBrokerUserPasswordField", CThostFtdcBrokerUserPasswordField);
    ("CThostFtdcBrokerUserFunctionField", CThostFtdcBrokerUserFunctionField);
    ("CThostFtdcTraderOfferField", CThostFtdcTraderOfferField);
    ("CThostFtdcSettlementInfoField", CThostFtdcSettlementInfoField);
    ("CThostFtdcInstrumentMarginRateAdjustField", CThostFtdcInstrumentMarginRateAdjustField);
    ("CThostFtdcExchangeMarginRateField", CThostFtdcExchangeMarginRateField);
    ("CThostFtdcExchangeMarginRateAdjustField", CThostFtdcExchangeMarginRateAdjustField);
    ("CThostFtdcExchangeRateField", CThostFtdcExchangeRateField);
    ("CThostFtdcSettlementRefField", CThostFtdcSettlementRefField);
    ("CThostFtdcCurrentTimeField", CThostFtdcCurrentTimeField);
    ("CThostFtdcCommPhaseField", CThostFtdcCommPhaseField);
    ("CThostFtdcLoginInfoField", CThostFtdcLoginInfoField);
    ("CThostFtdcLogoutAllField", CThostFtdcLogoutAllField);
    ("CThostFtdcFrontStatusField", CThostFtdcFrontStatusField);
    ("CThostFtdcUserPasswordUpdateField", CThostFtdcUserPasswordUpdateField);
    ("CThostFtdcInputOrderField", CThostFtdcInputOrderField);
    ("CThostFtdcOrderField", CThostFtdcOrderField);
    ("CThostFtdcExchangeOrderField", CThostFtdcExchangeOrderField);
    ("CThostFtdcExchangeOrderInsertErrorField", CThostFtdcExchangeOrderInsertErrorField);
    ("CThostFtdcInputOrderActionField", CThostFtdcInputOrderActionField);
    ("CThostFtdcOrderActionField", CThostFtdcOrderActionField);
    ("CThostFtdcExchangeOrderActionField", CThostFtdcExchangeOrderActionField);
    ("CThostFtdcExchangeOrderActionErrorField", CThostFtdcExchangeOrderActionErrorField);
    ("CThostFtdcExchangeTradeField", CThostFtdcExchangeTradeField);
    ("CThostFtdcTradeField", CThostFtdcTradeField);
    ("CThostFtdcUserSessionField", CThostFtdcUserSessionField);
    ("CThostFtdcQryMaxOrderVolumeField", CThostFtdcQryMaxOrderVolumeField);
    ("CThostFtdcSettlementInfoConfirmField", CThostFtdcSettlementInfoConfirmField);
    ("CThostFtdcSyncDepositField", CThostFtdcSyncDepositField);
    ("CThostFtdcSyncFundMortgageField", CThostFtdcSyncFundMortgageField);
    ("CThostFtdcBrokerSyncField", CThostFtdcBrokerSyncField);
    ("CThostFtdcSyncingInvestorField", CThostFtdcSyncingInvestorField);
    ("CThostFtdcSyncingTradingCodeField", CThostFtdcSyncingTradingCodeField);
    ("CThostFtdcSyncingInvestorGroupField", CThostFtdcSyncingInvestorGroupField);
    ("CThostFtdcSyncingTradingAccountField", CThostFtdcSyncingTradingAccountField);
    ("CThostFtdcSyncingInvestorPositionField", CThostFtdcSyncingInvestorPositionField);
    ("CThostFtdcSyncingInstrumentMarginRateField", CThostFtdcSyncingInstrumentMarginRateField);
    ("CThostFtdcSyncingInstrumentCommissionRateField", CThostFtdcSyncingInstrumentCommissionRateField);
    ("CThostFtdcSyncingInstrumentTradingRightField", CThostFtdcSyncingInstrumentTradingRightField);
    ("CThostFtdcQryOrderField", CThostFtdcQryOrderField);
    ("CThostFtdcQryTradeField", CThostFtdcQryTradeField);
    ("CThostFtdcQryInvestorPositionField", CThostFtdcQryInvestorPositionField);
    ("CThostFtdcQryTradingAccountField", CThostFtdcQryTradingAccountField);
    ("CThostFtdcQryInvestorField", CThostFtdcQryInvestorField);
    ("CThostFtdcQryTradingCodeField", CThostFtdcQryTradingCodeField);
    ("CThostFtdcQryInvestorGroupField", CThostFtdcQryInvestorGroupField);
    ("CThostFtdcQryInstrumentMarginRateField", CThostFtdcQryInstrumentMarginRateField);
    ("CThostFtdcQryInstrumentCommissionRateField", CThostFtdcQryInstrumentCommissionRateField);
    ("CThostFtdcQryInstrumentTradingRightField", CThostFtdcQryInstrumentTradingRightField);
    ("CThostFtdcQryBrokerField", CThostFtdcQryBrokerField);
    ("CThostFtdcQryTraderField", CThostFtdcQryTraderField);
    ("CThostFtdcQrySuperUserFunctionField", CThostFtdcQrySuperUserFunctionField);
    ("CThostFtdcQryUserSessionField", CThostFtdcQryUserSessionField);
    ("CThostFtdcQryPartBrokerField", CThostFtdcQryPartBrokerField);
    ("CThostFtdcQryFrontStatusField", CThostFtdcQryFrontStatusField);
    ("CThostFtdcQryExchangeOrderField", CThostFtdcQryExchangeOrderField);
    ("CThostFtdcQryOrderActionField", CThostFtdcQryOrderActionField);
    ("CThostFtdcQryExchangeOrderActionField", CThostFtdcQryExchangeOrderActionField);
    ("CThostFtdcQrySuperUserField", CThostFtdcQrySuperUserField);
    ("CThostFtdcQryExchangeField", CThostFtdcQryExchangeField);
    ("CThostFtdcQryProductField", CThostFtdcQryProductField);
    ("CThostFtdcQryInstrumentField", CThostFtdcQryInstrumentField);
    ("CThostFtdcQryDepthMarketDataField", CThostFtdcQryDepthMarketDataField);
    ("CThostFtdcQryBrokerUserField", CThostFtdcQryBrokerUserField);
    ("CThostFtdcQryBrokerUserFunctionField", CThostFtdcQryBrokerUserFunctionField);
    ("CThostFtdcQryTraderOfferField", CThostFtdcQryTraderOfferField);
    ("CThostFtdcQrySyncDepositField", CThostFtdcQrySyncDepositField);
    ("CThostFtdcQrySettlementInfoField", CThostFtdcQrySettlementInfoField);
    ("CThostFtdcQryExchangeMarginRateField", CThostFtdcQryExchangeMarginRateField);
    ("CThostFtdcQryExchangeMarginRateAdjustField", CThostFtdcQryExchangeMarginRateAdjustField);
    ("CThostFtdcQryExchangeRateField", CThostFtdcQryExchangeRateField);
    ("CThostFtdcQrySyncFundMortgageField", CThostFtdcQrySyncFundMortgageField);
    ("CThostFtdcQryHisOrderField", CThostFtdcQryHisOrderField);
    ("CThostFtdcOptionInstrMiniMarginField", CThostFtdcOptionInstrMiniMarginField);
    ("CThostFtdcOptionInstrMarginAdjustField", CThostFtdcOptionInstrMarginAdjustField);
    ("CThostFtdcOptionInstrCommRateField", CThostFtdcOptionInstrCommRateField);
    ("CThostFtdcOptionInstrTradeCostField", CThostFtdcOptionInstrTradeCostField);
    ("CThostFtdcQryOptionInstrTradeCostField", CThostFtdcQryOptionInstrTradeCostField);
    ("CThostFtdcQryOptionInstrCommRateField", CThostFtdcQryOptionInstrCommRateField);
    ("CThostFtdcIndexPriceField", CThostFtdcIndexPriceField);
    ("CThostFtdcInputExecOrderField", CThostFtdcInputExecOrderField);
    ("CThostFtdcInputExecOrderActionField", CThostFtdcInputExecOrderActionField);
    ("CThostFtdcExecOrderField", CThostFtdcExecOrderField);
    ("CThostFtdcExecOrderActionField", CThostFtdcExecOrderActionField);
    ("CThostFtdcQryExecOrderField", CThostFtdcQryExecOrderField);
    ("CThostFtdcExchangeExecOrderField", CThostFtdcExchangeExecOrderField);
    ("CThostFtdcQryExchangeExecOrderField", CThostFtdcQryExchangeExecOrderField);
    ("CThostFtdcQryExecOrderActionField", CThostFtdcQryExecOrderActionField);
    ("CThostFtdcExchangeExecOrderActionField", CThostFtdcExchangeExecOrderActionField);
    ("CThostFtdcQryExchangeExecOrderActionField", CThostFtdcQryExchangeExecOrderActionField);
    ("CThostFtdcErrExecOrderField", CThostFtdcErrExecOrderField);
    ("CThostFtdcQryErrExecOrderField", CThostFtdcQryErrExecOrderField);
    ("CThostFtdcErrExecOrderActionField", CThostFtdcErrExecOrderActionField);
    ("CThostFtdcQryErrExecOrderActionField", CThostFtdcQryErrExecOrderActionField);
    ("CThostFtdcOptionInstrTradingRightField", CThostFtdcOptionInstrTradingRightField);
    ("CThostFtdcQryOptionInstrTradingRightField", CThostFtdcQryOptionInstrTradingRightField);
    ("CThostFtdcInputForQuoteField", CThostFtdcInputForQuoteField);
    ("CThostFtdcForQuoteField", CThostFtdcForQuoteField);
    ("CThostFtdcQryForQuoteField", CThostFtdcQryForQuoteField);
    ("CThostFtdcExchangeForQuoteField", CThostFtdcExchangeForQuoteField);
    ("CThostFtdcQryExchangeForQuoteField", CThostFtdcQryExchangeForQuoteField);
    ("CThostFtdcInputQuoteField", CThostFtdcInputQuoteField);
    ("CThostFtdcInputQuoteActionField", CThostFtdcInputQuoteActionField);
    ("CThostFtdcQuoteField", CThostFtdcQuoteField);
    ("CThostFtdcQuoteActionField", CThostFtdcQuoteActionField);
    ("CThostFtdcQryQuoteField", CThostFtdcQryQuoteField);
    ("CThostFtdcExchangeQuoteField", CThostFtdcExchangeQuoteField);
    ("CThostFtdcQryExchangeQuoteField", CThostFtdcQryExchangeQuoteField);
    ("CThostFtdcQryQuoteActionField", CThostFtdcQryQuoteActionField);
    ("CThostFtdcExchangeQuoteActionField", CThostFtdcExchangeQuoteActionField);
    ("CThostFtdcQryExchangeQuoteActionField", CThostFtdcQryExchangeQuoteActionField);
    ("CThostFtdcOptionInstrDeltaField", CThostFtdcOptionInstrDeltaField);
    ("CThostFtdcForQuoteRspField", CThostFtdcForQuoteRspField);
    ("CThostFtdcStrikeOffsetField", CThostFtdcStrikeOffsetField);
    ("CThostFtdcQryStrikeOffsetField", CThostFtdcQryStrikeOffsetField);
    ("CThostFtdcInputBatchOrderActionField", CThostFtdcInputBatchOrderActionField);
    ("CThostFtdcBatchOrderActionField", CThostFtdcBatchOrderActionField);
    ("CThostFtdcExchangeBatchOrderActionField", CThostFtdcExchangeBatchOrderActionField);
    ("CThostFtdcQryBatchOrderActionField", CThostFtdcQryBatchOrderActionField);
    ("CThostFtdcCombInstrumentGuardField", CThostFtdcCombInstrumentGuardField) ].

End Structs1.
