(* ===== verification/Structs2.v ===== *)
(** * CTP structures, part 2

    The struct declarations of ThostFtdcUserApiStruct.h, one definition each:
    field names and types in order. *)

From S2P Require Import Prelude Layout DataTypes.

Module Structs2.
Import Layout DataTypes.
Local Open Scope string_scope.
Local Open Scope list_scope.

Definition CThostFtdcQryCombInstrumentGuardField : struct :=
  [ ("BrokerID", TThostFtdcBrokerIDType);
    ("reserve1", TThostFtdcOldInstrumentIDType);
    ("ExchangeID", TThostFtdcExchangeIDType);
    ("InstrumentID", TThostFtdcInstrumentIDType) ].

Definition CThostFtdcInputCombActionField : struct :=
  [ ("BrokerID", TThostFtdcBrokerIDType);
    ("InvestorID", TThostFtdcInvestorIDType);
    ("reserve1", TThostFtdcOldInstrumentIDType);
    ("CombActionRef", TThostFtdcOrderRefType);
    ("UserID", TThostFtdcUserIDType);
    ("Direction", TThostFtdcDirectionType);
    ("Volume", TThostFtdcVolumeType);
    ("CombDirection", TThostFtdcCombDirectionType);
    ("HedgeFlag", TThostFtdcHedgeFlagType);
    ("ExchangeID", TThostFtdcExchangeIDType);
    ("reserve2", TThostFtdcOldIPAddressType);
    ("MacAddress", TThostFtdcMacAddressType);
    ("InvestUnitID", TThostFtdcInvestUnitIDType);
    ("FrontID", TThostFtdcFrontIDType);
    ("SessionID", TThostFtdcSessionIDType);
    ("InstrumentID", TThostFtdcInstrumentIDType);
    ("IPAddress", TThostFtdcIPAddressType) ].

Definition CThostFtdcCombActionField : struct :=
  [ ("BrokerID", TThostFtdcBrokerIDType);
    ("InvestorID", TThostFtdcInvestorIDType);
    ("reserve1", TThostFtdcOldInstrumentIDType);
    ("CombActionRef", TThostFtdcOrderRefType);
    ("UserID", TThostFtdcUserIDType);
    ("Direction", TThostFtdcDirectionType);
    ("Volume", TThostFtdcVolumeType);
    ("CombDirection", TThostFtdcCombDirectionType);
    ("HedgeFlag", TThostFtdcHedgeFlagType);
    ("ActionLocalID", TThostFtdcOrderLocalIDType);
    ("ExchangeID", TThostFtdcExchangeIDType);
    ("ParticipantID", TThostFtdcParticipantIDType);
    ("ClientID", TThostFtdcClientIDType);
    ("reserve2", TThostFtdcOldExchangeInstIDType);
    ("TraderID", TThostFtdcTraderIDType);
    ("InstallID", TThostFtdcInstallIDType);
    ("ActionStatus", TThostFtdcOrderActionStatusType);
    ("NotifySequence", TThostFtdcSequenceNoType);
    ("TradingDay", TThostFtdcDateType);
    ("SettlementID", TThostFtdcSettlementIDType);
    ("SequenceNo", TThostFtdcSequenceNoType);
    ("FrontID", TThostFtdcFrontIDType);
    ("SessionID", TThostFtdcSessionIDType);
    ("UserProductInfo", TThostFtdcProductInfoType);
    ("StatusMsg", TThostFtdcErrorMsgType);
    ("reserve3", TThostFtdcOldIPAddressType);
    ("MacAddress", TThostFtdcMacAddressType);
    ("ComTradeID", TThostFtdcTradeIDType);
    ("BranchID", TThostFtdcBranchIDType);
    ("InvestUnitID", TThostFtdcInvestUnitIDType);
    ("InstrumentID", TThostFtdcInstrumentIDType);
    ("ExchangeInstID", TThostFtdcExchangeInstIDType);
    ("IPAddress", TThostFtdcIPAddressType) ].

Definition CThostFtdcQryCombActionField : struct :=
  [ ("BrokerID", TThostFtdcBrokerIDType);
    ("InvestorID", TThostFtdcInvestorIDType);
    ("reserve1", TThostFtdcOldInstrumentIDType);
    ("ExchangeID", TThostFtdcExchangeIDType);
    ("InvestUnitID", TThostFtdcInvestUnitIDType);
    ("InstrumentID", TThostFtdcInstrumentIDType) ].

Definition CThostFtdcExchangeCombActionField : struct :=
  [ ("Direction", TThostFtdcDirectionType);
    ("Volume", TThostFtdcVolumeType);
    ("CombDirection", TThostFtdcCombDirectionType);
    ("HedgeFlag", TThostFtdcHedgeFlagType);
    ("ActionLocalID", TThostFtdcOrderLocalIDType);
    ("ExchangeID", TThostFtdcExchangeIDType);
    ("ParticipantID", TThostFtdcParticipantIDType);
    ("ClientID", TThostFtdcClientIDType);
    ("reserve1", TThostFtdcOldExchangeInstIDType);
    ("TraderID", TThostFtdcTraderIDType);
    ("InstallID", TThostFtdcInstallIDType);
    ("ActionStatus", TThostFtdcOrderActionStatusType);
    ("NotifySequence", TThostFtdcSequenceNoType);
    ("TradingDay", TThostFtdcDateType);
    ("SettlementID", TThostFtdcSettlementIDType);
    ("SequenceNo", TThostFtdcSequenceNoType);
    ("reserve2", TThostFtdcOldIPAddressType);
    ("MacAddress", TThostFtdcMacAddressType);
    ("ComTradeID", TThostFtdcTradeIDType);
    ("BranchID", TThostFtdcBranchIDType);
    ("ExchangeInstID", TThostFtdcExchangeInstIDType);
    ("IPAddress", TThostFtdcIPAddressType) ].

Definition CThostFtdcQryExchangeCombActionField : struct :=
  [ ("ParticipantID", TThostFtdcParticipantIDType);
    ("ClientID", TThostFtdcClientIDType);
    ("reserve1", TThostFtdcOldExchangeInstIDType);
    ("ExchangeID", TThostFtdcExchangeIDType);
    ("TraderID", TThostFtdcTraderIDType);
    ("ExchangeInstID", TThostFtdcExchangeInstIDType) ].

Definition CThostFtdcProductExchRateField : struct :=
  [ ("reserve1", TThostFtdcOldInstrumentIDType);
    ("QuoteCurrencyID", TThostFtdcCurrencyIDType);
    ("ExchangeRate", TThostFtdcExchangeRateType);
    ("ExchangeID", TThostFtdcExchangeIDType);
    ("ProductID", TThostFtdcInstrumentIDType) ].

Definition CThostFtdcQryProductExchRateField : struct :=
  [ ("reserve1", TThostFtdcOldInstrumentIDType);
    ("ExchangeID", TThostFtdcExchangeIDType);
    ("ProductID", TThostFtdcInstrumentIDType) ].

Definition CThostFtdcQryForQuoteParamField : struct :=
  [ ("BrokerID", TThostFtdcBrokerIDType);
    ("reserve1", TThostFtdcOldInstrumentIDType);
    ("ExchangeID", TThostFtdcExchangeIDType);
    ("InstrumentID", TThostFtdcInstrumentIDType) ].

Definition CThostFtdcForQuoteParamField : struct :=
  [ ("BrokerID", TThostFtdcBrokerIDType);
    ("reserve1", TThostFtdcOldInstrumentIDType);
    ("ExchangeID", TThostFtdcExchangeIDType);
    ("LastPrice", TThostFtdcPriceType);
    ("PriceInterval", TThostFtdcPriceType);
    ("InstrumentID", TThostFtdcInstrumentIDType) ].

Definition CThostFtdcMMOptionInstrCommRateField : struct :=
  [ ("reserve1", TThostFtdcOldInstrumentIDType);
    ("InvestorRange", TThostFtdcInvestorRangeType);
    ("BrokerID", TThostFtdcBrokerIDType);
    ("InvestorID", TThostFtdcInvestorIDType);
    ("OpenRatioByMoney", TThostFtdcRatioType);
    ("OpenRatioByVolume", TThostFtdcRatioType);
    ("CloseRatioByMoney", TThostFtdcRatioType);
    ("CloseRatioByVolume", TThostFtdcRatioType);
    ("CloseTodayRatioByMoney", TThostFtdcRatioType);
    ("CloseTodayRatioByVolume", TThostFtdcRatioType);
    ("StrikeRatioByMoney", TThostFtdcRatioType);
    ("StrikeRatioByVolume", TThostFtdcRatioType);
    ("InstrumentID", TThostFtdcInstrumentIDType) ].

Definition CThostFtdcQryMMOptionInstrCommRateField : struct :=
  [ ("BrokerID", TThostFtdcBrokerIDType);
    ("InvestorID", TThostFtdcInvestorIDType);
    ("reserve1", TThostFtdcOldInstrumentIDType);
    ("InstrumentID", TThostFtdcInstrumentIDType) ].

Definition CThostFtdcMMInstrumentCommissionRateField : struct :=
  [ ("reserve1", TThostFtdcOldInstrumentIDType);
    ("InvestorRange", TThostFtdcInvestorRangeType);
    ("BrokerID", TThostFtdcBrokerIDType);
    ("InvestorID", TThostFtdcInvestorIDType);
    ("OpenRatioByMoney", TThostFtdcRatioType);
    ("OpenRatioByVolume", TThostFtdcRatioType);
    ("CloseRatioByMoney", TThostFtdcRatioType);
    ("CloseRatioByVolume", TThostFtdcRatioType);
    ("CloseTodayRatioByMoney", TThostFtdcRatioType);
    ("CloseTodayRatioByVolume", TThostFtdcRatioType);
    ("InstrumentID", TThostFtdcInstrumentIDType) ].

Definition CThostFtdcQryMMInstrumentCommissionRateField : struct :=
  [ ("BrokerID", TThostFtdcBrokerIDType);
    ("InvestorID", TThostFtdcInvestorIDType);
    ("reserve1", TThostFtdcOldInstrumentIDType);
    ("InstrumentID", TThostFtdcInstrumentIDType) ].

Definition CThostFtdcInstrumentOrderCommRateField : struct :=
  [ ("reserve1", TThostFtdcOldInstrumentIDType);
    ("InvestorRange", TThostFtdcInvestorRangeType);
    ("BrokerID", TThostFtdcBrokerIDType);
    ("InvestorID", TThostFtdcInvestorIDType);
    ("HedgeFlag", TThostFtdcHedgeFlagType);
    ("OrderCommByVolume", TThostFtdcRatioType);
    ("OrderActionCommByVolume", TThostFtdcRatioType);
    ("ExchangeID", TThostFtdcExchangeIDType);
    ("InvestUnitID", TThostFtdcInvestUnitIDType);
    ("InstrumentID", TThostFtdcInstrumentIDType);
    ("OrderCommByTrade", TThostFtdcRatioType);
    ("OrderActionCommByTrade", TThostFtdcRatioType) ].

Definition CThostFtdcQryInstrumentOrderCommRateField : struct :=
  [ ("BrokerID", TThostFtdcBrokerIDType);
    ("InvestorID", TThostFtdcInvestorIDType);
    ("reserve1", TThostFtdcOldInstrumentIDType);
    ("InstrumentID", TThostFtdcInstrumentIDType) ].

Definition CThostFtdcTradeParamField : struct :=
  [ ("BrokerID", TThostFtdcBrokerIDType);
    ("TradeParamID", TThostFtdcTradeParamIDType);
    ("TradeParamValue", TThostFtdcSettlementParamValueType);
    ("Memo", TThostFtdcMemoType) ].

Definition CThostFtdcInstrumentMarginRateULField : struct :=
  [ ("reserve1", TThostFtdcOldInstrumentIDType);
    ("InvestorRange", TThostFtdcInvestorRangeType);
    ("BrokerID", TThostFtdcBrokerIDType);
    ("InvestorID", TThostFtdcInvestorIDType);
    ("HedgeFlag", TThostFtdcHedgeFlagType);
    ("LongMarginRatioByMoney", TThostFtdcRatioType);
    ("LongMarginRatioByVolume", TThostFtdcMoneyType);
    ("ShortMarginRatioByMoney", TThostFtdcRatioType);
    ("ShortMarginRatioByVolume", TThostFtdcMoneyType);
    ("InstrumentID", TThostFtdcInstrumentIDType) ].

Definition CThostFtdcFutureLimitPosiParamField : struct :=
  [ ("InvestorRange", TThostFtdcInvestorRangeType);
    ("BrokerID", TThostFtdcBrokerIDType);
    ("InvestorID", TThostFtdcInvestorIDType);
    ("reserve1", TThostFtdcOldInstrumentIDType);
    ("SpecOpenVolume", TThostFtdcVolumeType);
    ("ArbiOpenVolume", TThostFtdcVolumeType);
    ("OpenVolume", TThostFtdcVolumeType);
    ("ProductID", TThostFtdcInstrumentIDType) ].

Definition CThostFtdcLoginForbiddenIPField : struct :=
  [ ("reserve1", TThostFtdcOldIPAddressType);
    ("IPAddress", TThostFtdcIPAddressType) ].

Definition CThostFtdcIPListField : struct :=
  [ ("reserve1", TThostFtdcOldIPAddressType);
    ("IsWhite", TThostFtdcBoolType);
    ("IPAddress", TThostFtdcIPAddressType) ].

Definition CThostFtdcInputOptionSelfCloseField : struct :=
  [ ("BrokerID", TThostFtdcBrokerIDType);
    ("InvestorID", TThostFtdcInvestorIDType);
    ("reserve1", TThostFtdcOldInstrumentIDType);
    ("OptionSelfCloseRef", TThostFtdcOrderRefType);
    ("UserID", TThostFtdcUserIDType);
    ("Volume", TThostFtdcVolumeType);
    ("RequestID", TThostFtdcRequestIDType);
    ("BusinessUnit", TThostFtdcBusinessUnitType);
    ("HedgeFlag", TThostFtdcHedgeFlagType);
    ("OptSelfCloseFlag", TThostFtdcOptSelfCloseFlagType);
    ("ExchangeID", TThostFtdcExchangeIDType);
    ("InvestUnitID", TThostFtdcInvestUnitIDType);
    ("AccountID", TThostFtdcAccountIDType);
    ("CurrencyID", TThostFtdcCurrencyIDType);
    ("ClientID", TThostFtdcClientIDType);
    ("reserve2", TThostFtdcOldIPAddressType);
    ("MacAddress", TThostFtdcMacAddressType);
    ("InstrumentID", TThostFtdcInstrumentIDType);
    ("IPAddress", TThostFtdcIPAddressType) ].

Definition CThostFtdcInputOptionSelfCloseActionField : struct :=
  [ ("BrokerID", TThostFtdcBrokerIDType);
    ("InvestorID", TThostFtdcInvestorIDType);
    ("OptionSelfCloseActionRef", TThostFtdcOrderActionRefType);
    ("OptionSelfCloseRef", TThostFtdcOrderRefType);
    ("RequestID", TThostFtdcRequestIDType);
    ("FrontID", TThostFtdcFrontIDType);
    ("SessionID", TThostFtdcSessionIDType);
    ("ExchangeID", TThostFtdcExchangeIDType);
    ("OptionSelfCloseSysID", TThostFtdcOrderSysIDType);
    ("ActionFlag", TThostFtdcActionFlagType);
    ("UserID", TThostFtdcUserIDType);
    ("reserve1", TThostFtdcOldInstrumentIDType);
    ("InvestUnitID", TThostFtdcInvestUnitIDType);
    ("reserve2", TThostFtdcOldIPAddressType);
    ("MacAddress", TThostFtdcMacAddressType);
    ("InstrumentID", TThostFtdcInstrumentIDType);
    ("IPAddress", TThostFtdcIPAddressType) ].

Definition CThostFtdcOptionSelfCloseField : struct :=
  [ ("BrokerID", TThostFtdcBrokerIDType);
    ("InvestorID", TThostFtdcInvestorIDType);
    ("reserve1", TThostFtdcOldInstrumentIDType);
    ("OptionSelfCloseRef", TThostFtdcOrderRefType);
    ("UserID", TThostFtdcUserIDType);
    ("Volume", TThostFtdcVolumeType);
    ("RequestID", TThostFtdcRequestIDType);
    ("BusinessUnit", TThostFtdcBusinessUnitType);
    ("HedgeFlag", TThostFtdcHedgeFlagType);
    ("OptSelfCloseFlag", TThostFtdcOptSelfCloseFlagType);
    ("OptionSelfCloseLocalID", TThostFtdcOrderLocalIDType);
    ("ExchangeID", TThostFtdcExchangeIDType);
    ("ParticipantID", TThostFtdcParticipantIDType);
    ("ClientID", TThostFtdcClientIDType);
    ("reserve2", TThostFtdcOldExchangeInstIDType);
    ("TraderID", TThostFtdcTraderIDType);
    ("InstallID", TThostFtdcInstallIDType);
    ("OrderSubmitStatus", TThostFtdcOrderSubmitStatusType);
    ("NotifySequence", TThostFtdcSequenceNoType);
    ("TradingDay", TThostFtdcDateType);
    ("SettlementID", TThostFtdcSettlementIDType);
    ("OptionSelfCloseSysID", TThostFtdcOrderSysIDType);
    ("InsertDate", TThostFtdcDateType);
    ("InsertTime", TThostFtdcTimeType);
    ("CancelTime", TThostFtdcTimeType);
    ("ExecResult", TThostFtdcExecResultType);
    ("ClearingPartID", TThostFtdcParticipantIDType);
    ("SequenceNo", TThostFtdcSequenceNoType);
    ("FrontID", TThostFtdcFrontIDType);
    ("SessionID", TThostFtdcSessionIDType);
    ("UserProductInfo", TThostFtdcProductInfoType);
    ("StatusMsg", TThostFtdcErrorMsgType);
    ("ActiveUserID", TThostFtdcUserIDType);
    ("BrokerOptionSelfCloseSeq", TThostFtdcSequenceNoType);
    ("BranchID", TThostFtdcBranchIDType);
    ("InvestUnitID", TThostFtdcInvestUnitIDType);
    ("AccountID", TThostFtdcAccountIDType);
    ("CurrencyID", TThostFtdcCurrencyIDType);
    ("reserve3", TThostFtdcOldIPAddressType);
    ("MacAddress", TThostFtdcMacAddressType);
    ("InstrumentID", TThostFtdcInstrumentIDType);
    ("ExchangeInstID", TThostFtdcExchangeInstIDType);
    ("IPAddress", TThostFtdcIPAddressType) ].

Definition CThostFtdcOptionSelfCloseActionField : struct :=
  [ ("BrokerID", TThostFtdcBrokerIDType);
    ("InvestorID", TThostFtdcInvestorIDType);
    ("OptionSelfCloseActionRef", TThostFtdcOrderActionRefType);
    ("OptionSelfCloseRef", TThostFtdcOrderRefType);
    ("RequestID", TThostFtdcRequestIDType);
    ("FrontID", TThostFtdcFrontIDType);
    ("SessionID", TThostFtdcSessionIDType);
    ("ExchangeID", TThostFtdcExchangeIDType);
    ("OptionSelfCloseSysID", TThostFtdcOrderSysIDType);
    ("ActionFlag", TThostFtdcActionFlagType);
    ("ActionDate", TThostFtdcDateType);
    ("ActionTime", TThostFtdcTimeType);
    ("TraderID", TThostFtdcTraderIDType);
    ("InstallID", TThostFtdcInstallIDType);
    ("OptionSelfCloseLocalID", TThostFtdcOrderLocalIDType);
    ("ActionLocalID", TThostFtdcOrderLocalIDType);
    ("ParticipantID", TThostFtdcParticipantIDType);
    ("ClientID", TThostFtdcClientIDType);
    ("BusinessUnit", TThostFtdcBusinessUnitType);
    ("OrderActionStatus", TThostFtdcOrderActionStatusType);
    ("UserID", TThostFtdcUserIDType);
    ("StatusMsg", TThostFtdcErrorMsgType);
    ("reserve1", TThostFtdcOldInstrumentIDType);
    ("BranchID", TThostFtdcBranchIDType);
    ("InvestUnitID", TThostFtdcInvestUnitIDType);
    ("reserve2", TThostFtdcOldIPAddressType);
    ("MacAddress", TThostFtdcMacAddressType);
    ("InstrumentID", TThostFtdcInstrumentIDType);
    ("IPAddress", TThostFtdcIPAddressType) ].

Definition CThostFtdcQryOptionSelfCloseField : struct :=
  [ ("BrokerID", TThostFtdcBrokerIDType);
    ("InvestorID", TThostFtdcInvestorIDType);
    ("reserve1", TThostFtdcOldInstrumentIDType);
    ("ExchangeID", TThostFtdcExchangeIDType);
    ("OptionSelfCloseSysID", TThostFtdcOrderSysIDType);
    ("InsertTimeStart", TThostFtdcTimeType);
    ("InsertTimeEnd", TThostFtdcTimeType);
    ("InstrumentID", TThostFtdcInstrumentIDType) ].

Definition CThostFtdcExchangeOptionSelfCloseField : struct :=
  [ ("Volume", TThostFtdcVolumeType);
    ("RequestID", TThostFtdcRequestIDType);
    ("BusinessUnit", TThostFtdcBusinessUnitType);
    ("HedgeFlag", TThostFtdcHedgeFlagType);
    ("OptSelfCloseFlag", TThostFtdcOptSelfCloseFlagType);
    ("OptionSelfCloseLocalID", TThostFtdcOrderLocalIDType);
    ("ExchangeID", TThostFtdcExchangeIDType);
    ("ParticipantID", TThostFtdcParticipantIDType);
    ("ClientID", TThostFtdcClientIDType);
    ("reserve1", TThostFtdcOldExchangeInstIDType);
    ("TraderID", TThostFtdcTraderIDType);
    ("InstallID", TThostFtdcInstallIDType);
    ("OrderSubmitStatus", TThostFtdcOrderSubmitStatusType);
    ("NotifySequence", TThostFtdcSequenceNoType);
    ("TradingDay", TThostFtdcDateType);
    ("SettlementID", TThostFtdcSettlementIDType);
    ("OptionSelfCloseSysID", TThostFtdcOrderSysIDType);
    ("InsertDate", TThostFtdcDateType);
    ("InsertTime", TThostFtdcTimeType);
    ("CancelTime", TThostFtdcTimeType);
    ("ExecResult", TThostFtdcExecResultType);
    ("ClearingPartID", TThostFtdcParticipantIDType);
    ("SequenceNo", TThostFtdcSequenceNoType);
    ("BranchID", TThostFtdcBranchIDType);
    ("reserve2", TThostFtdcOldIPAddressType);
    ("MacAddress", TThostFtdcMacAddressType);
    ("ExchangeInstID", TThostFtdcExchangeInstIDType);
    ("IPAddress", TThostFtdcIPAddressType) ].

Definition CThostFtdcQryOptionSelfCloseActionField : struct :=
  [ ("BrokerID", TThostFtdcBrokerIDType);
    ("InvestorID", TThostFtdcInvestorIDType);
    ("ExchangeID", TThostFtdcExchangeIDType) ].

Definition CThostFtdcExchangeOptionSelfCloseActionField : struct :=
  [ ("ExchangeID", TThostFtdcExchangeIDType);
    ("OptionSelfCloseSysID", TThostFtdcOrderSysIDType);
    ("ActionFlag", TThostFtdcActionFlagType);
    ("ActionDate", TThostFtdcDateType);
    ("ActionTime", TThostFtdcTimeType);
    ("TraderID", TThostFtdcTraderIDType);
    ("InstallID", TThostFtdcInstallIDType);
    ("OptionSelfCloseLocalID", TThostFtdcOrderLocalIDType);
    ("ActionLocalID", TThostFtdcOrderLocalIDType);
    ("ParticipantID", TThostFtdcParticipantIDType);
    ("ClientID", TThostFtdcClientIDType);
    ("BusinessUnit", TThostFtdcBusinessUnitType);
    ("OrderActionStatus", TThostFtdcOrderActionStatusType);
    ("UserID", TThostFtdcUserIDType);
    ("BranchID", TThostFtdcBranchIDType);
    ("reserve1", TThostFtdcOldIPAddressType);
    ("MacAddress", TThostFtdcMacAddressType);
    ("reserve2", TThostFtdcOldExchangeInstIDType);
    ("OptSelfCloseFlag", TThostFtdcOptSelfCloseFlagType);
    ("IPAddress", TThostFtdcIPAddressType);
    ("ExchangeInstID", TThostFtdcExchangeInstIDType) ].

Definition CThostFtdcSyncDelaySwapField : struct :=
  [ ("DelaySwapSeqNo", TThostFtdcDepositSeqNoType);
    ("BrokerID", TThostFtdcBrokerIDType);
    ("InvestorID", TThostFtdcInvestorIDType);
    ("FromCurrencyID", TThostFtdcCurrencyIDType);
    ("FromAmount", TThostFtdcMoneyType);
    ("FromFrozenSwap", TThostFtdcMoneyType);
    ("FromRemainSwap", TThostFtdcMoneyType);
    ("ToCurrencyID", TThostFtdcCurrencyIDType);
    ("ToAmount", TThostFtdcMoneyType);
    ("IsManualSwap", TThostFtdcBoolType);
    ("IsAllRemainSetZero", TThostFtdcBoolType) ].

Definition CThostFtdcQrySyncDelaySwapField : struct :=
  [ ("BrokerID", TThostFtdcBrokerIDType);
    ("DelaySwapSeqNo", TThostFtdcDepositSeqNoType) ].

Definition CThostFtdcInvestUnitField : struct :=
  [ ("BrokerID", TThostFtdcBrokerIDType);
    ("InvestorID", TThostFtdcInvestorIDType);
    ("InvestUnitID", TThostFtdcInvestUnitIDType);
    ("InvestorUnitName", TThostFtdcPartyNameType);
    ("InvestorGroupID", TThostFtdcInvestorIDType);
    ("CommModelID", TThostFtdcInvestorIDType);
    ("MarginModelID", TThostFtdcInvestorIDType);
    ("AccountID", TThostFtdcAccountIDType);
    ("CurrencyID", TThostFtdcCurrencyIDType) ].

Definition CThostFtdcQryInvestUnitField : struct :=
  [ ("BrokerID", TThostFtdcBrokerIDType);
    ("InvestorID", TThostFtdcInvestorIDType);
    ("InvestUnitID", TThostFtdcInvestUnitIDType) ].

Definition CThostFtdcSecAgentCheckModeField : struct :=
  [ ("InvestorID", TThostFtdcInvestorIDType);
    ("BrokerID", TThostFtdcBrokerIDType);
    ("CurrencyID", TThostFtdcCurrencyIDType);
    ("BrokerSecAgentID", TThostFtdcAccountIDType);
    ("CheckSelfAccount", TThostFtdcBoolType) ].

Definition CThostFtdcSecAgentTradeInfoField : struct :=
  [ ("BrokerID", TThostFtdcBrokerIDType);
    ("BrokerSecAgentID", TThostFtdcAccountIDType);
    ("InvestorID", TThostFtdcInvestorIDType);
    ("LongCustomerName", TThostFtdcLongIndividualNameType) ].

Definition CThostFtdcMarketDataField : struct :=
  [ ("TradingDay", TThostFtdcDateType);
    ("reserve1", TThostFtdcOldInstrumentIDType);
    ("ExchangeID", TThostFtdcExchangeIDType);
    ("reserve2", TThostFtdcOldExchangeInstIDType);
    ("LastPrice", TThostFtdcPriceType);
    ("PreSettlementPrice", TThostFtdcPriceType);
    ("PreClosePrice", TThostFtdcPriceType);
    ("PreOpenInterest", TThostFtdcLargeVolumeType);
    ("OpenPrice", TThostFtdcPriceType);
    ("HighestPrice", TThostFtdcPriceType);
    ("LowestPrice", TThostFtdcPriceType);
    ("Volume", TThostFtdcVolumeType);
    ("Turnover", TThostFtdcMoneyType);
    ("OpenInterest", TThostFtdcLargeVolumeType);
    ("ClosePrice", TThostFtdcPriceType);
    ("SettlementPrice", TThostFtdcPriceType);
    ("UpperLimitPrice", TThostFtdcPriceType);
    ("LowerLimitPrice", TThostFtdcPriceType);
    ("PreDelta", TThostFtdcRatioType);
    ("CurrDelta", TThostFtdcRatioType);
    ("UpdateTime", TThostFtdcTimeType);
    ("UpdateMillisec", TThostFtdcMillisecType);
    ("ActionDay", TThostFtdcDateType);
    ("InstrumentID", TThostFtdcInstrumentIDType);
    ("ExchangeInstID", TThostFtdcExchangeInstIDType) ].

Definition CThostFtdcMarketDataBaseField : struct :=
  [ ("TradingDay", TThostFtdcDateType);
    ("PreSettlementPrice", TThostFtdcPriceType);
    ("PreClosePrice", TThostFtdcPriceType);
    ("PreOpenInterest", TThostFtdcLargeVolumeType);
    ("PreDelta", TThostFtdcRatioType) ].

Definition CThostFtdcMarketDataStaticField : struct :=
  [ ("OpenPrice", TThostFtdcPriceType);
    ("HighestPrice", TThostFtdcPriceType);
    ("LowestPrice", TThostFtdcPriceType);
    ("ClosePrice", TThostFtdcPriceType);
    ("UpperLimitPrice", TThostFtdcPriceType);
    ("LowerLimitPrice", TThostFtdcPriceType);
    ("SettlementPrice", TThostFtdcPriceType);
    ("CurrDelta", TThostFtdcRatioType) ].

Definition CThostFtdcMarketDataLastMatchField : struct :=
  [ ("LastPrice", TThostFtdcPriceType);
    ("Volume", TThostFtdcVolumeType);
    ("Turnover", TThostFtdcMoneyType);
    ("OpenInterest", TThostFtdcLargeVolumeType) ].

Definition CThostFtdcMarketDataBestPriceField : struct :=
  [ ("BidPrice1", TThostFtdcPriceType);
    ("BidVolume1", TThostFtdcVolumeType);
    ("AskPrice1", TThostFtdcPriceType);
    ("AskVolume1", TThostFtdcVolumeType) ].

Definition CThostFtdcMarketDataBid23Field : struct :=
  [ ("BidPrice2", TThostFtdcPriceType);
    ("BidVolume2", TThostFtdcVolumeType);
    ("BidPrice3", TThostFtdcPriceType);
    ("BidVolume3", TThostFtdcVolumeType) ].

Definition CThostFtdcMarketDataAsk23Field : struct :=
  [ ("AskPrice2", TThostFtdcPriceType);
    ("AskVolume2", TThostFtdcVolumeType);
    ("AskPrice3", TThostFtdcPriceType);
    ("AskVolume3", TThostFtdcVolumeType) ].

Definition CThostFtdcMarketDataBid45Field : struct :=
  [ ("BidPrice4", TThostFtdcPriceType);
    ("BidVolume4", TThostFtdcVolumeType);
    ("BidPrice5", TThostFtdcPriceType);
    ("BidVolume5", TThostFtdcVolumeType) ].

Definition CThostFtdcMarketDataAsk45Field : struct :=
  [ ("AskPrice4", TThostFtdcPriceType);
    ("AskVolume4", TThostFtdcVolumeType);
    ("AskPrice5", TThostFtdcPriceType);
    ("AskVolume5", TThostFtdcVolumeType) ].

Definition CThostFtdcMarketDataUpdateTimeField : struct :=
  [ ("reserve1", TThostFtdcOldInstrumentIDType);
    ("UpdateTime", TThostFtdcTimeType);
    ("UpdateMillisec", TThostFtdcMillisecType);
    ("ActionDay", TThostFtdcDateType);
    ("InstrumentID", TThostFtdcInstrumentIDType) ].

Definition CThostFtdcMarketDataBandingPriceField : struct :=
  [ ("BandingUpperPrice", TThostFtdcPriceType);
    ("BandingLowerPrice", TThostFtdcPriceType) ].

Definition CThostFtdcMarketDataExchangeField : struct :=
  [ ("ExchangeID", TThostFtdcExchangeIDType) ].

Definition CThostFtdcSpecificInstrumentField : struct :=
  [ ("reserve1", TThostFtdcOldInstrumentIDType);
    ("InstrumentID", TThostFtdcInstrumentIDType) ].

Definition CThostFtdcInstrumentStatusField : struct :=
  [ ("ExchangeID", TThostFtdcExchangeIDType);
    ("reserve1", TThostFtdcOldExchangeInstIDType);
    ("SettlementGroupID", TThostFtdcSettlementGroupIDType);
    ("reserve2", TThostFtdcOldInstrumentIDType);
    ("InstrumentStatus", TThostFtdcInstrumentStatusType);
    ("TradingSegmentSN", TThostFtdcTradingSegmentSNType);
    ("EnterTime", TThostFtdcTimeType);
    ("EnterReason", TThostFtdcInstStatusEnterReasonType);
    ("ExchangeInstID", TThostFtdcExchangeInstIDType);
    ("InstrumentID", TThostFtdcInstrumentIDType) ].

Definition CThostFtdcQryInstrumentStatusField : struct :=
  [ ("ExchangeID", TThostFtdcExchangeIDType);
    ("reserve1", TThostFtdcOldExchangeInstIDType);
    ("ExchangeInstID", TThostFtdcExchangeInstIDType) ].

Definition CThostFtdcInvestorAccountField : struct :=
  [ ("BrokerID", TThostFtdcBrokerIDType);
    ("InvestorID", TThostFtdcInvestorIDType);
    ("AccountID", TThostFtdcAccountIDType);
    ("CurrencyID", TThostFtdcCurrencyIDType) ].

Definition CThostFtdcPositionProfitAlgorithmField : struct :=
  [ ("BrokerID", TThostFtdcBrokerIDType);
    ("AccountID", TThostFtdcAccountIDType);
    ("Algorithm", TThostFtdcAlgorithmType);
    ("Memo", TThostFtdcMemoType);
    ("CurrencyID", TThostFtdcCurrencyIDType) ].

Definition CThostFtdcDiscountField : struct :=
  [ ("BrokerID", TThostFtdcBrokerIDType);
    ("InvestorRange", TThostFtdcInvestorRangeType);
    ("InvestorID", TThostFtdcInvestorIDType);
    ("Discount", TThostFtdcRatioType) ].

Definition CThostFtdcQryTransferBankField : struct :=
  [ ("BankID", TThostFtdcBankIDType);
    ("BankBrchID", TThostFtdcBankBrchIDType) ].

Definition CThostFtdcTransferBankField : struct :=
  [ ("BankID", TThostFtdcBankIDType);
    ("BankBrchID", TThostFtdcBankBrchIDType);
    ("BankName", TThostFtdcBankNameType);
    ("IsActive", TThostFtdcBoolType) ].

Definition CThostFtdcQryInvestorPositionDetailField : struct :=
  [ ("BrokerID", TThostFtdcBrokerIDType);
    ("InvestorID", TThostFtdcInvestorIDType);
    ("reserve1", TThostFtdcOldInstrumentIDType);
    ("ExchangeID", TThostFtdcExchangeIDType);
    ("InvestUnitID", TThostFtdcInvestUnitIDType);
    ("InstrumentID", TThostFtdcInstrumentIDType) ].

Definition CThostFtdcInvestorPositionDetailField : struct :=
  [ ("reserve1", TThostFtdcOldInstrumentIDType);
    ("BrokerID", TThostFtdcBrokerIDType);
    ("InvestorID", TThostFtdcInvestorIDType);
    ("HedgeFlag", TThostFtdcHedgeFlagType);
    ("Direction", TThostFtdcDirectionType);
    ("OpenDate", TThostFtdcDateType);
    ("TradeID", TThostFtdcTradeIDType);
    ("Volume", TThostFtdcVolumeType);
    ("OpenPrice", TThostFtdcPriceType);
    ("TradingDay", TThostFtdcDateType);
    ("SettlementID", TThostFtdcSettlementIDType);
    ("TradeType", TThostFtdcTradeTypeType);
    ("reserve2", TThostFtdcOldInstrumentIDType);
    ("ExchangeID", TThostFtdcExchangeIDType);
    ("CloseProfitByDate", TThostFtdcMoneyType);
    ("CloseProfitByTrade", TThostFtdcMoneyType);
    ("PositionProfitByDate", TThostFtdcMoneyType);
    ("PositionProfitByTrade", TThostFtdcMoneyType);
    ("Margin", TThostFtdcMoneyType);
    ("ExchMargin", TThostFtdcMoneyType);
    ("MarginRateByMoney", TThostFtdcRatioType);
    ("MarginRateByVolume", TThostFtdcRatioType);
    ("LastSettlementPrice", TThostFtdcPriceType);
    ("SettlementPrice", TThostFtdcPriceType);
    ("CloseVolume", TThostFtdcVolumeType);
    ("CloseAmount", TThostFtdcMoneyType);
    ("TimeFirstVolume", TThostFtdcVolumeType);
    ("InvestUnitID", TThostFtdcInvestUnitIDType);
    ("SpecPosiType", TThostFtdcSpecPosiTypeType);
    ("InstrumentID", TThostFtdcInstrumentIDType);
    ("CombInstrumentID", TThostFtdcInstrumentIDType) ].

Definition CThostFtdcTradingAccountPasswordField : struct :=
  [ ("BrokerID", TThostFtdcBrokerIDType);
    ("AccountID", TThostFtdcAccountIDType);
    ("Password", TThostFtdcPasswordType);
    ("CurrencyID", TThostFtdcCurrencyIDType) ].

Definition CThostFtdcMDTraderOfferField : struct :=
  [ ("ExchangeID", TThostFtdcExchangeIDType);
    ("TraderID", TThostFtdcTraderIDType);
    ("ParticipantID", TThostFtdcParticipantIDType);
    ("Password", TThostFtdcPasswordType);
    ("InstallID", TThostFtdcInstallIDType);
    ("OrderLocalID", TThostFtdcOrderLocalIDType);
    ("TraderConnectStatus", TThostFtdcTraderConnectStatusType);
    ("ConnectRequestDate", TThostFtdcDateType);
    ("ConnectRequestTime", TThostFtdcTimeType);
    ("LastReportDate", TThostFtdcDateType);
    ("LastReportTime", TThostFtdcTimeType);
    ("ConnectDate", TThostFtdcDateType);
    ("ConnectTime", TThostFtdcTimeType);
    ("StartDate", TThostFtdcDateType);
    ("StartTime", TThostFtdcTimeType);
    ("TradingDay", TThostFtdcDateType);
    ("BrokerID", TThostFtdcBrokerIDType);
    ("MaxTradeID", TThostFtdcTradeIDType);
    ("MaxOrderMessageReference", TThostFtdcReturnCodeType);
    ("OrderCancelAlg", TThostFtdcOrderCancelAlgType) ].

Definition CThostFtdcQryMDTraderOfferField : struct :=
  [ ("ExchangeID", TThostFtdcExchangeIDType);
    ("ParticipantID", TThostFtdcParticipantIDType);
    ("TraderID", TThostFtdcTraderIDType) ].

Definition CThostFtdcQryNoticeField : struct :=
  [ ("BrokerID", TThostFtdcBrokerIDType) ].

Definition CThostFtdcNoticeField : struct :=
  [ ("BrokerID", TThostFtdcBrokerIDType);
    ("Content", TThostFtdcContentType);
    ("SequenceLabel", TThostFtdcSequenceLabelType) ].

Definition CThostFtdcUserRightField : struct :=
  [ ("BrokerID", TThostFtdcBrokerIDType);
    ("UserID", TThostFtdcUserIDType);
    ("UserRightType", TThostFtdcUserRightTypeType);
    ("IsForbidden", TThostFtdcBoolType) ].

Definition CThostFtdcQrySettlementInfoConfirmField : struct :=
  [ ("BrokerID", TThostFtdcBrokerIDType);
    ("InvestorID", TThostFtdcInvestorIDType);
    ("AccountID", TThostFtdcAccountIDType);
    ("CurrencyID", TThostFtdcCurrencyIDType) ].

Definition CThostFtdcLoadSettlementInfoField : struct :=
  [ ("BrokerID", TThostFtdcBrokerIDType) ].

Definition CThostFtdcBrokerWithdrawAlgorithmField : struct :=
  [ ("BrokerID", TThostFtdcBrokerIDType);
    ("WithdrawAlgorithm", TThostFtdcAlgorithmType);
    ("UsingRatio", TThostFtdcRatioType);
    ("IncludeCloseProfit", TThostFtdcIncludeCloseProfitType);
    ("AllWithoutTrade", TThostFtdcAllWithoutTradeType);
    ("AvailIncludeCloseProfit", TThostFtdcIncludeCloseProfitType);
    ("IsBrokerUserEvent", TThostFtdcBoolType);
    ("CurrencyID", TThostFtdcCurrencyIDType);
    ("FundMortgageRatio", TThostFtdcRatioType);
    ("BalanceAlgorithm", TThostFtdcBalanceAlgorithmType) ].

Definition CThostFtdcTradingAccountPasswordUpdateV1Field : struct :=
  [ ("BrokerID", TThostFtdcBrokerIDType);
    ("InvestorID", TThostFtdcInvestorIDType);
    ("OldPassword", TThostFtdcPasswordType);
    ("NewPassword", TThostFtdcPasswordType) ].

Definition CThostFtdcTradingAccountPasswordUpdateField : struct :=
  [ ("BrokerID", TThostFtdcBrokerIDType);
    ("AccountID", TThostFtdcAccountIDType);
    ("OldPassword", TThostFtdcPasswordType);
    ("NewPassword", TThostFtdcPasswordType);
    ("CurrencyID", TThostFtdcCurrencyIDType) ].

Definition CThostFtdcQryCombinationLegField : struct :=
  [ ("reserve1", TThostFtdcOldInstrumentIDType);
    ("LegID", TThostFtdcLegIDType);
    ("reserve2", TThostFtdcOldInstrumentIDType);
    ("CombInstrumentID", TThostFtdcInstrumentIDType);
    ("LegInstrumentID", TThostFtdcInstrumentIDType) ].

Definition CThostFtdcQrySyncStatusField : struct :=
  [ ("TradingDay", TThostFtdcDateType) ].

Definition CThostFtdcCombinationLegField : struct :=
  [ ("reserve1", TThostFtdcOldInstrumentIDType);
    ("LegID", TThostFtdcLegIDType);
    ("reserve2", TThostFtdcOldInstrumentIDType);
    ("Direction", TThostFtdcDirectionType);
    ("LegMultiple", TThostFtdcLegMultipleType);
    ("ImplyLevel", TThostFtdcImplyLevelType);
    ("CombInstrumentID", TThostFtdcInstrumentIDType);
    ("LegInstrumentID", TThostFtdcInstrumentIDType) ].

Definition CThostFtdcSyncStatusField : struct :=
  [ ("TradingDay", TThostFtdcDateType);
    ("DataSyncStatus", TThostFtdcDataSyncStatusType) ].

Definition CThostFtdcQryLinkManField : struct :=
  [ ("BrokerID", TThostFtdcBrokerIDType);
    ("InvestorID", TThostFtdcInvestorIDType) ].

Definition CThostFtdcLinkManField : struct :=
  [ ("BrokerID", TThostFtdcBrokerIDType);
    ("InvestorID", TThostFtdcInvestorIDType);
    ("PersonType", TThostFtdcPersonTypeType);
    ("IdentifiedCardType", TThostFtdcIdCardTypeType);
    ("IdentifiedCardNo", TThostFtdcIdentifiedCardNoType);
    ("PersonName", TThostFtdcPartyNameType);
    ("Telephone", TThostFtdcTelephoneType);
    ("Address", TThostFtdcAddressType);
    ("ZipCode", TThostFtdcZipCodeType);
    ("Priority", TThostFtdcPriorityType);
    ("UOAZipCode", TThostFtdcUOAZipCodeType);
    ("PersonFullName", TThostFtdcInvestorFullNameType) ].

Definition CThostFtdcQryBrokerUserEventField : struct :=
  [ ("BrokerID", TThostFtdcBrokerIDType);
    ("UserID", TThostFtdcUserIDType);
    ("UserEventType", TThostFtdcUserEventTypeType) ].

Definition CThostFtdcBrokerUserEventField : struct :=
  [ ("BrokerID", TThostFtdcBrokerIDType);
    ("UserID", TThostFtdcUserIDType);
    ("UserEventType", TThostFtdcUserEventTypeType);
    ("EventSequenceNo", TThostFtdcSequenceNoType);
    ("EventDate", TThostFtdcDateType);
    ("EventTime", TThostFtdcTimeType);
    ("UserEventInfo", TThostFtdcUserEventInfoType);
    ("InvestorID", TThostFtdcInvestorIDType);
    ("reserve1", TThostFtdcOldInstrumentIDType);
    ("InstrumentID", TThostFtdcInstrumentIDType);
    ("DRIdentityID", TThostFtdcDRIdentityIDType);
    ("TradingDay", TThostFtdcDateType) ].

Definition CThostFtdcQryContractBankField : struct :=
  [ ("BrokerID", TThostFtdcBrokerIDType);
    ("BankID", TThostFtdcBankIDType);
    ("BankBrchID", TThostFtdcBankBrchIDType) ].

Definition CThostFtdcContractBankField : struct :=
  [ ("BrokerID", TThostFtdcBrokerIDType);
    ("BankID", TThostFtdcBankIDType);
    ("BankBrchID", TThostFtdcBankBrchIDType);
    ("BankName", TThostFtdcBankNameType) ].

Definition CThostFtdcInvestorPositionCombineDetailField : struct :=
  [ ("TradingDay", TThostFtdcDateType);
    ("OpenDate", TThostFtdcDateType);
    ("ExchangeID", TThostFtdcExchangeIDType);
    ("SettlementID", TThostFtdcSettlementIDType);
    ("BrokerID", TThostFtdcBrokerIDType);
    ("InvestorID", TThostFtdcInvestorIDType);
    ("ComTradeID", TThostFtdcTradeIDType);
    ("TradeID", TThostFtdcTradeIDType);
    ("reserve1", TThostFtdcOldInstrumentIDType);
    ("HedgeFlag", TThostFtdcHedgeFlagType);
    ("Direction", TThostFtdcDirectionType);
    ("TotalAmt", TThostFtdcVolumeType);
    ("Margin", TThostFtdcMoneyType);
    ("ExchMargin", TThostFtdcMoneyType);
    ("MarginRateByMoney", TThostFtdcRatioType);
    ("MarginRateByVolume", TThostFtdcRatioType);
    ("LegID", TThostFtdcLegIDType);
    ("LegMultiple", TThostFtdcLegMultipleType);
    ("reserve2", TThostFtdcOldInstrumentIDType);
    ("TradeGroupID", TThostFtdcTradeGroupIDType);
    ("InvestUnitID", TThostFtdcInvestUnitIDType);
    ("InstrumentID", TThostFtdcInstrumentIDType);
    ("CombInstrumentID", TThostFtdcInstrumentIDType) ].

Definition CThostFtdcParkedOrderField : struct :=
  [ ("BrokerID", TThostFtdcBrokerIDType);
    ("InvestorID", TThostFtdcInvestorIDType);
    ("reserve1", TThostFtdcOldInstrumentIDType);
    ("OrderRef", TThostFtdcOrderRefType);
    ("UserID", TThostFtdcUserIDType);
    ("OrderPriceType", TThostFtdcOrderPriceTypeType);
    ("Direction", TThostFtdcDirectionType);
    ("CombOffsetFlag", TThostFtdcCombOffsetFlagType);
    ("CombHedgeFlag", TThostFtdcCombHedgeFlagType);
    ("LimitPrice", TThostFtdcPriceType);
    ("VolumeTotalOriginal", TThostFtdcVolumeType);
    ("TimeCondition", TThostFtdcTimeConditionType);
    ("GTDDate", TThostFtdcDateType);
    ("VolumeCondition", TThostFtdcVolumeConditionType);
    ("MinVolume", TThostFtdcVolumeType);
    ("ContingentCondition", TThostFtdcContingentConditionType);
    ("StopPrice", TThostFtdcPriceType);
    ("ForceCloseReason", TThostFtdcForceCloseReasonType);
    ("IsAutoSuspend", TThostFtdcBoolType);
    ("BusinessUnit", TThostFtdcBusinessUnitType);
    ("RequestID", TThostFtdcRequestIDType);
    ("UserForceClose", TThostFtdcBoolType);
    ("ExchangeID", TThostFtdcExchangeIDType);
    ("ParkedOrderID", TThostFtdcParkedOrderIDType);
    ("UserType", TThostFtdcUserTypeType);
    ("Status", TThostFtdcParkedOrderStatusType);
    ("ErrorID", TThostFtdcErrorIDType);
    ("ErrorMsg", TThostFtdcErrorMsgType);
    ("IsSwapOrder", TThostFtdcBoolType);
    ("AccountID", TThostFtdcAccountIDType);
    ("CurrencyID", TThostFtdcCurrencyIDType);
    ("ClientID", TThostFtdcClientIDType);
    ("InvestUnitID", TThostFtdcInvestUnitIDType);
    ("reserve2", TThostFtdcOldIPAddressType);
    ("MacAddress", TThostFtdcMacAddressType);
    ("InstrumentID", TThostFtdcInstrumentIDType);
    ("IPAddress", TThostFtdcIPAddressType) ].

Definition CThostFtdcParkedOrderActionField : struct :=
  [ ("BrokerID", TThostFtdcBrokerIDType);
    ("InvestorID", TThostFtdcInvestorIDType);
    ("OrderActionRef", TThostFtdcOrderActionRefType);
    ("OrderRef", TThostFtdcOrderRefType);
    ("RequestID", TThostFtdcRequestIDType);
    ("FrontID", TThostFtdcFrontIDType);
    ("SessionID", TThostFtdcSessionIDType);
    ("ExchangeID", TThostFtdcExchangeIDType);
    ("OrderSysID", TThostFtdcOrderSysIDType);
    ("ActionFlag", TThostFtdcActionFlagType);
    ("LimitPrice", TThostFtdcPriceType);
    ("VolumeChange", TThostFtdcVolumeType);
    ("UserID", TThostFtdcUserIDType);
    ("reserve1", TThostFtdcOldInstrumentIDType);
    ("ParkedOrderActionID", TThostFtdcParkedOrderActionIDType);
    ("UserType", TThostFtdcUserTypeType);
    ("Status", TThostFtdcParkedOrderStatusType);
    ("ErrorID", TThostFtdcErrorIDType);
    ("ErrorMsg", TThostFtdcErrorMsgType);
    ("InvestUnitID", TThostFtdcInvestUnitIDType);
    ("reserve2", TThostFtdcOldIPAddressType);
    ("MacAddress", TThostFtdcMacAddressType);
    ("InstrumentID", TThostFtdcInstrumentIDType);
    ("IPAddress", TThostFtdcIPAddressType) ].

Definition CThostFtdcQryParkedOrderField : struct :=
  [ ("BrokerID", TThostFtdcBrokerIDType);
    ("InvestorID", TThostFtdcInvestorIDType);
    ("reserve1", TThostFtdcOldInstrumentIDType);
    ("ExchangeID", TThostFtdcExchangeIDType);
    ("InvestUnitID", TThostFtdcInvestUnitIDType);
    ("InstrumentID", TThostFtdcInstrumentIDType) ].

Definition CThostFtdcQryParkedOrderActionField : struct :=
  [ ("BrokerID", TThostFtdcBrokerIDType);
    ("InvestorID", TThostFtdcInvestorIDType);
    ("reserve1", TThostFtdcOldInstrumentIDType);
    ("ExchangeID", TThostFtdcExchangeIDType);
    ("InvestUnitID", TThostFtdcInvestUnitIDType);
    ("InstrumentID", TThostFtdcInstrumentIDType) ].

Definition CThostFtdcRemoveParkedOrderField : struct :=
  [ ("BrokerID", TThostFtdcBrokerIDType);
    ("InvestorID", TThostFtdcInvestorIDType);
    ("ParkedOrderID", TThostFtdcParkedOrderIDType);
    ("InvestUnitID", TThostFtdcInvestUnitIDType) ].

Definition CThostFtdcRemoveParkedOrderActionField : struct :=
  [ ("BrokerID", TThostFtdcBrokerIDType);
    ("InvestorID", TThostFtdcInvestorIDType);
    ("ParkedOrderActionID", TThostFtdcParkedOrderActionIDType);
    ("InvestUnitID", TThostFtdcInvestUnitIDType) ].

Definition CThostFtdcInvestorWithdrawAlgorithmField : struct :=
  [ ("BrokerID", TThostFtdcBrokerIDType);
    ("InvestorRange", TThostFtdcInvestorRangeType);
    ("InvestorID", TThostFtdcInvestorIDType);
    ("UsingRatio", TThostFtdcRatioType);
    ("CurrencyID", TThostFtdcCurrencyIDType);
    ("FundMortgageRatio", TThostFtdcRatioType) ].

Definition CThostFtdcQryInvestorPositionCombineDetailField : struct :=
  [ ("BrokerID", TThostFtdcBrokerIDType);
    ("InvestorID", TThostFtdcInvestorIDType);
    ("reserve1", TThostFtdcOldInstrumentIDType);
    ("ExchangeID", TThostFtdcExchangeIDType);
    ("InvestUnitID", TThostFtdcInvestUnitIDType);
    ("CombInstrumentID", TThostFtdcInstrumentIDType) ].

Definition CThostFtdcMarketDataAveragePriceField : struct :=
  [ ("AveragePrice", TThostFtdcPriceType) ].

Definition CThostFtdcVerifyInvestorPasswordField : struct :=
  [ ("BrokerID", TThostFtdcBrokerIDType);
    ("InvestorID", TThostFtdcInvestorIDType);
    ("Password", TThostFtdcPasswordType) ].

Definition CThostFtdcUserIPField : struct :=
  [ ("BrokerID", TThostFtdcBrokerIDType);
    ("UserID", TThostFtdcUserIDType);
    ("reserve1", TThostFtdcOldIPAddressType);
    ("reserve2", TThostFtdcOldIPAddressType);
    ("MacAddress", TThostFtdcMacAddressType);
    ("IPAddress", TThostFtdcIPAddressType);
    ("IPMask", TThostFtdcIPAddressType) ].

Definition CThostFtdcTradingNoticeInfoField : struct :=
  [ ("BrokerID", TThostFtdcBrokerIDType);
    ("InvestorID", TThostFtdcInvestorIDType);
    ("SendTime", TThostFtdcTimeType);
    ("FieldContent", TThostFtdcContentType);
    ("SequenceSeries", TThostFtdcSequenceSeriesType);
    ("SequenceNo", TThostFtdcSequenceNoType);
    ("InvestUnitID", TThostFtdcInvestUnitIDType) ].

Definition CThostFtdcTradingNoticeField : struct :=
  [ ("BrokerID", TThostFtdcBrokerIDType);
    ("InvestorRange", TThostFtdcInvestorRangeType);
    ("InvestorID", TThostFtdcInvestorIDType);
    ("SequenceSeries", TThostFtdcSequenceSeriesType);
    ("UserID", TThostFtdcUserIDType);
    ("SendTime", TThostFtdcTimeType);
    ("SequenceNo", TThostFtdcSequenceNoType);
    ("FieldContent", TThostFtdcContentType);
    ("InvestUnitID", TThostFtdcInvestUnitIDType) ].

Definition CThostFtdcQryTradingNoticeField : struct :=
  [ ("BrokerID", TThostFtdcBrokerIDType);
    ("InvestorID", TThostFtdcInvestorIDType);
    ("InvestUnitID", TThostFtdcInvestUnitIDType) ].

Definition CThostFtdcQryErrOrderField : struct :=
  [ ("BrokerID", TThostFtdcBrokerIDType);
    ("InvestorID", TThostFtdcInvestorIDType) ].

Definition CThostFtdcErrOrderField : struct :=
  [ ("BrokerID", TThostFtdcBrokerIDType);
    ("InvestorID", TThostFtdcInvestorIDType);
    ("reserve1", TThostFtdcOldInstrumentIDType);
    ("OrderRef", TThostFtdcOrderRefType);
    ("UserID", TThostFtdcUserIDType);
    ("OrderPriceType", TThostFtdcOrderPriceTypeType);
    ("Direction", TThostFtdcDirectionType);
    ("CombOffsetFlag", TThostFtdcCombOffsetFlagType);
    ("CombHedgeFlag", TThostFtdcCombHedgeFlagType);
    ("LimitPrice", TThostFtdcPriceType);
    ("VolumeTotalOriginal", TThostFtdcVolumeType);
    ("TimeCondition", TThostFtdcTimeConditionType);
    ("GTDDate", TThostFtdcDateType);
    ("VolumeCondition", TThostFtdcVolumeConditionType);
    ("MinVolume", TThostFtdcVolumeType);
    ("ContingentCondition", TThostFtdcContingentConditionType);
    ("StopPrice", TThostFtdcPriceType);
    ("ForceCloseReason", TThostFtdcForceCloseReasonType);
    ("IsAutoSuspend", TThostFtdcBoolType);
    ("BusinessUnit", TThostFtdcBusinessUnitType);
    ("RequestID", TThostFtdcRequestIDType);
    ("UserForceClose", TThostFtdcBoolType);
    ("ErrorID", TThostFtdcErrorIDType);
    ("ErrorMsg", TThostFtdcErrorMsgType);
    ("IsSwapOrder", TThostFtdcBoolType);
    ("ExchangeID", TThostFtdcExchangeIDType);
    ("InvestUnitID", TThostFtdcInvestUnitIDType);
    ("AccountID", TThostFtdcAccountIDType);
    ("CurrencyID", TThostFtdcCurrencyIDType);
    ("ClientID", TThostFtdcClientIDType);
    ("reserve2", TThostFtdcOldIPAddressType);
    ("MacAddress", TThostFtdcMacAddressType);
    ("InstrumentID", TThostFtdcInstrumentIDType);
    ("IPAddress", TThostFtdcIPAddressType);
    ("OrderMemo", TThostFtdcOrderMemoType);
    ("SessionReqSeq", TThostFtdcSequenceNo12Type) ].

Definition CThostFtdcErrorConditionalOrderField : struct :=
  [ ("BrokerID", TThostFtdcBrokerIDType);
    ("InvestorID", TThostFtdcInvestorIDType);
    ("reserve1", TThostFtdcOldInstrumentIDType);
    ("OrderRef", TThostFtdcOrderRefType);
    ("UserID", TThostFtdcUserIDType);
    ("OrderPriceType", TThostFtdcOrderPriceTypeType);
    ("Direction", TThostFtdcDirectionType);
    ("CombOffsetFlag", TThostFtdcCombOffsetFlagType);
    ("CombHedgeFlag", TThostFtdcCombHedgeFlagType);
    ("LimitPrice", TThostFtdcPriceType);
    ("VolumeTotalOriginal", TThostFtdcVolumeType);
    ("TimeCondition", TThostFtdcTimeConditionType);
    ("GTDDate", TThostFtdcDateType);
    ("VolumeCondition", TThostFtdcVolumeConditionType);
    ("MinVolume", TThostFtdcVolumeType);
    ("ContingentCondition", TThostFtdcContingentConditionType);
    ("StopPrice", TThostFtdcPriceType);
    ("ForceCloseReason", TThostFtdcForceCloseReasonType);
    ("IsAutoSuspend", TThostFtdcBoolType);
    ("BusinessUnit", TThostFtdcBusinessUnitType);
    ("RequestID", TThostFtdcRequestIDType);
    ("OrderLocalID", TThostFtdcOrderLocalIDType);
    ("ExchangeID", TThostFtdcExchangeIDType);
    ("ParticipantID", TThostFtdcParticipantIDType);
    ("ClientID", TThostFtdcClientIDType);
    ("reserve2", TThostFtdcOldExchangeInstIDType);
    ("TraderID", TThostFtdcTraderIDType);
    ("InstallID", TThostFtdcInstallIDType);
    ("OrderSubmitStatus", TThostFtdcOrderSubmitStatusType);
    ("NotifySequence", TThostFtdcSequenceNoType);
    ("TradingDay", TThostFtdcDateType);
    ("SettlementID", TThostFtdcSettlementIDType);
    ("OrderSysID", TThostFtdcOrderSysIDType);
    ("OrderSource", TThostFtdcOrderSourceType);
    ("OrderStatus", TThostFtdcOrderStatusType);
    ("OrderType", TThostFtdcOrderTypeType);
    ("VolumeTraded", TThostFtdcVolumeType);
    ("VolumeTotal", TThostFtdcVolumeType);
    ("InsertDate", TThostFtdcDateType);
    ("InsertTime", TThostFtdcTimeType);
    ("ActiveTime", TThostFtdcTimeType);
    ("SuspendTime", TThostFtdcTimeType);
    ("UpdateTime", TThostFtdcTimeType);
    ("CancelTime", TThostFtdcTimeType);
    ("ActiveTraderID", TThostFtdcTraderIDType);
    ("ClearingPartID", TThostFtdcParticipantIDType);
    ("SequenceNo", TThostFtdcSequenceNoType);
    ("FrontID", TThostFtdcFrontIDType);
    ("SessionID", TThostFtdcSessionIDType);
    ("UserProductInfo", TThostFtdcProductInfoType);
    ("StatusMsg", TThostFtdcErrorMsgType);
    ("UserForceClose", TThostFtdcBoolType);
    ("ActiveUserID", TThostFtdcUserIDType);
    ("BrokerOrderSeq", TThostFtdcSequenceNoType);
    ("RelativeOrderSysID", TThostFtdcOrderSysIDType);
    ("ZCETotalTradedVolume", TThostFtdcVolumeType);
    ("ErrorID", TThostFtdcErrorIDType);
    ("ErrorMsg", TThostFtdcErrorMsgType);
    ("IsSwapOrder", TThostFtdcBoolType);
    ("BranchID", TThostFtdcBranchIDType);
    ("InvestUnitID", TThostFtdcInvestUnitIDType);
    ("AccountID", TThostFtdcAccountIDType);
    ("CurrencyID", TThostFtdcCurrencyIDType);
    ("reserve3", TThostFtdcOldIPAddressType);
    ("MacAddress", TThostFtdcMacAddressType);
    ("InstrumentID", TThostFtdcInstrumentIDType);
    ("ExchangeInstID", TThostFtdcExchangeInstIDType);
    ("IPAddress", TThostFtdcIPAddressType) ].

Definition CThostFtdcQryErrOrderActionField : struct :=
  [ ("BrokerID", TThostFtdcBrokerIDType);
    ("InvestorID", TThostFtdcInvestorIDType) ].

Definition CThostFtdcErrOrderActionField : struct :=
  [ ("BrokerID", TThostFtdcBrokerIDType);
    ("InvestorID", TThostFtdcInvestorIDType);
    ("OrderActionRef", TThostFtdcOrderActionRefType);
    ("OrderRef", TThostFtdcOrderRefType);
    ("RequestID", TThostFtdcRequestIDType);
    ("FrontID", TThostFtdcFrontIDType);
    ("SessionID", TThostFtdcSessionIDType);
    ("ExchangeID", TThostFtdcExchangeIDType);
    ("OrderSysID", TThostFtdcOrderSysIDType);
    ("ActionFlag", TThostFtdcActionFlagType);
    ("LimitPrice", TThostFtdcPriceType);
    ("VolumeChange", TThostFtdcVolumeType);
    ("ActionDate", TThostFtdcDateType);
    ("ActionTime", TThostFtdcTimeType);
    ("TraderID", TThostFtdcTraderIDType);
    ("InstallID", TThostFtdcInstallIDType);
    ("OrderLocalID", TThostFtdcOrderLocalIDType);
    ("ActionLocalID", TThostFtdcOrderLocalIDType);
    ("ParticipantID", TThostFtdcParticipantIDType);
    ("ClientID", TThostFtdcClientIDType);
    ("BusinessUnit", TThostFtdcBusinessUnitType);
    ("OrderActionStatus", TThostFtdcOrderActionStatusType);
    ("UserID", TThostFtdcUserIDType);
    ("StatusMsg", TThostFtdcErrorMsgType);
    ("reserve1", TThostFtdcOldInstrumentIDType);
    ("BranchID", TThostFtdcBranchIDType);
    ("InvestUnitID", TThostFtdcInvestUnitIDType);
    ("reserve2", TThostFtdcOldIPAddressType);
    ("MacAddress", TThostFtdcMacAddressType);
    ("ErrorID", TThostFtdcErrorIDType);
    ("ErrorMsg", TThostFtdcErrorMsgType);
    ("InstrumentID", TThostFtdcInstrumentIDType);
    ("IPAddress", TThostFtdcIPAddressType);
    ("OrderMemo", TThostFtdcOrderMemoType);
    ("SessionReqSeq", TThostFtdcSequenceNo12Type) ].

Definition CThostFtdcQryExchangeSequenceField : struct :=
  [ ("ExchangeID", TThostFtdcExchangeIDType) ].

Definition CThostFtdcExchangeSequenceField : struct :=
  [ ("ExchangeID", TThostFtdcExchangeIDType);
    ("SequenceNo", TThostFtdcSequenceNoType);
    ("MarketStatus", TThostFtdcInstrumentStatusType) ].

Definition CThostFtdcQryMaxOrderVolumeWithPriceField : struct :=
  [ ("BrokerID", TThostFtdcBrokerIDType);
    ("InvestorID", TThostFtdcInvestorIDType);
    ("reserve1", TThostFtdcOldInstrumentIDType);
    ("Direction", TThostFtdcDirectionType);
    ("OffsetFlag", TThostFtdcOffsetFlagType);
    ("HedgeFlag", TThostFtdcHedgeFlagType);
    ("MaxVolume", TThostFtdcVolumeType);
    ("Price", TThostFtdcPriceType);
    ("ExchangeID", TThostFtdcExchangeIDType);
    ("InvestUnitID", TThostFtdcInvestUnitIDType);
    ("InstrumentID", TThostFtdcInstrumentIDType) ].

Definition CThostFtdcQryBrokerTradingParamsField : struct :=
  [ ("BrokerID", TThostFtdcBrokerIDType);
    ("InvestorID", TThostFtdcInvestorIDType);
    ("CurrencyID", TThostFtdcCurrencyIDType);
    ("AccountID", TThostFtdcAccountIDType) ].

Definition CThostFtdcBrokerTradingParamsField : struct :=
  [ ("BrokerID", TThostFtdcBrokerIDType);
    ("InvestorID", TThostFtdcInvestorIDType);
    ("MarginPriceType", TThostFtdcMarginPriceTypeType);
    ("Algorithm", TThostFtdcAlgorithmType);
    ("AvailIncludeCloseProfit", TThostFtdcIncludeCloseProfitType);
    ("CurrencyID", TThostFtdcCurrencyIDType);
    ("OptionRoyaltyPriceType", TThostFtdcOptionRoyaltyPriceTypeType);
    ("AccountID", TThostFtdcAccountIDType) ].

Definition CThostFtdcQryBrokerTradingAlgosField : struct :=
  [ ("BrokerID", TThostFtdcBrokerIDType);
    ("ExchangeID", TThostFtdcExchangeIDType);
    ("reserve1", TThostFtdcOldInstrumentIDType);
    ("InstrumentID", TThostFtdcInstrumentIDType) ].

Definition CThostFtdcBrokerTradingAlgosField : struct :=
  [ ("BrokerID", TThostFtdcBrokerIDType);
    ("ExchangeID", TThostFtdcExchangeIDType);
    ("reserve1", TThostFtdcOldInstrumentIDType);
    ("HandlePositionAlgoID", TThostFtdcHandlePositionAlgoIDType);
    ("FindMarginRateAlgoID", TThostFtdcFindMarginRateAlgoIDType);
    ("HandleTradingAccountAlgoID", TThostFtdcHandleTradingAccountAlgoIDType);
    ("InstrumentID", TThostFtdcInstrumentIDType) ].

Definition CThostFtdcQueryBrokerDepositField : struct :=
  [ ("BrokerID", TThostFtdcBrokerIDType);
    ("ExchangeID", TThostFtdcExchangeIDType) ].

Definition CThostFtdcBrokerDepositField : struct :=
  [ ("TradingDay", TThostFtdcTradeDateType);
    ("BrokerID", TThostFtdcBrokerIDType);
    ("ParticipantID", TThostFtdcParticipantIDType);
    ("ExchangeID", TThostFtdcExchangeIDType);
    ("PreBalance", TThostFtdcMoneyType);
    ("CurrMargin", TThostFtdcMoneyType);
    ("CloseProfit", TThostFtdcMoneyType);
    ("Balance", TThostFtdcMoneyType);
    ("Deposit", TThostFtdcMoneyType);
    ("Withdraw", TThostFtdcMoneyType);
    ("Available", TThostFtdcMoneyType);
    ("Reserve", TThostFtdcMoneyType);
    ("FrozenMargin", TThostFtdcMoneyType) ].

Definition CThostFtdcQryCFMMCBrokerKeyField : struct :=
  [ ("BrokerID", TThostFtdcBrokerIDType) ].

Definition CThostFtdcCFMMCBrokerKeyField : struct :=
  [ ("BrokerID", TThostFtdcBrokerIDType);
    ("ParticipantID", TThostFtdcParticipantIDType);
    ("CreateDate", TThostFtdcDateType);
    ("CreateTime", TThostFtdcTimeType);
    ("KeyID", TThostFtdcSequenceNoType);
    ("CurrentKey", TThostFtdcCFMMCKeyType);
    ("KeyKind", TThostFtdcCFMMCKeyKindType) ].

Definition CThostFtdcCFMMCTradingAccountKeyField : struct :=
  [ ("BrokerID", TThostFtdcBrokerIDType);
    ("ParticipantID", TThostFtdcParticipantIDType);
    ("AccountID", TThostFtdcAccountIDType);
    ("KeyID", TThostFtdcSequenceNoType);
    ("CurrentKey", TThostFtdcCFMMCKeyType) ].

Definition CThostFtdcQryCFMMCTradingAccountKeyField : struct :=
  [ ("BrokerID", TThostFtdcBrokerIDType);
    ("InvestorID", TThostFtdcInvestorIDType) ].

Definition CThostFtdcBrokerUserOTPParamField : struct :=
  [ ("BrokerID", TThostFtdcBrokerIDType);
    ("UserID", TThostFtdcUserIDType);
    ("OTPVendorsID", TThostFtdcOTPVendorsIDType);
    ("SerialNumber", TThostFtdcSerialNumberType);
    ("AuthKey", TThostFtdcAuthKeyType);
    ("LastDrift", TThostFtdcLastDriftType);
    ("LastSuccess", TThostFtdcLastSuccessType);
    ("OTPType", TThostFtdcOTPTypeType) ].

Definition CThostFtdcManualSyncBrokerUserOTPField : struct :=
  [ ("BrokerID", TThostFtdcBrokerIDType);
    ("UserID", TThostFtdcUserIDType);
    ("OTPType", TThostFtdcOTPTypeType);
    ("FirstOTP", TThostFtdcPasswordType);
    ("SecondOTP", TThostFtdcPasswordType) ].

Definition CThostFtdcCommRateModelField : struct :=
  [ ("BrokerID", TThostFtdcBrokerIDType);
    ("CommModelID", TThostFtdcInvestorIDType);
    ("CommModelName", TThostFtdcCommModelNameType) ].

Definition CThostFtdcQryCommRateModelField : struct :=
  [ ("BrokerID", TThostFtdcBrokerIDType);
    ("CommModelID", TThostFtdcInvestorIDType) ].

Definition CThostFtdcMarginModelField : struct :=
  [ ("BrokerID", TThostFtdcBrokerIDType);
    ("MarginModelID", TThostFtdcInvestorIDType);
    ("MarginModelName", TThostFtdcCommModelNameType) ].

Definition CThostFtdcQryMarginModelField : struct :=
  [ ("BrokerID", TThostFtdcBrokerIDType);
    ("MarginModelID", TThostFtdcInvestorIDType) ].

Definition CThostFtdcEWarrantOffsetField : struct :=
  [ ("TradingDay", TThostFtdcTradeDateType);
    ("BrokerID", TThostFtdcBrokerIDType);
    ("InvestorID", TThostFtdcInvestorIDType);
    ("ExchangeID", TThostFtdcExchangeIDType);
    ("reserve1", TThostFtdcOldInstrumentIDType);
    ("Direction", TThostFtdcDirectionType);
    ("HedgeFlag", TThostFtdcHedgeFlagType);
    ("Volume", TThostFtdcVolumeType);
    ("InvestUnitID", TThostFtdcInvestUnitIDType);
    ("InstrumentID", TThostFtdcInstrumentIDType) ].

Definition CThostFtdcQryEWarrantOffsetField : struct :=
  [ ("BrokerID", TThostFtdcBrokerIDType);
    ("InvestorID", TThostFtdcInvestorIDType);
    ("ExchangeID", TThostFtdcExchangeIDType);
    ("reserve1", TThostFtdcOldInstrumentIDType);
    ("InvestUnitID", TThostFtdcInvestUnitIDType);
    ("InstrumentID", TThostFtdcInstrumentIDType) ].

Definition CThostFtdcQryInvestorProductGroupMarginField : struct :=
  [ ("BrokerID", TThostFtdcBrokerIDType);
    ("InvestorID", TThostFtdcInvestorIDType);
    ("reserve1", TThostFtdcOldInstrumentIDType);
    ("HedgeFlag", TThostFtdcHedgeFlagType);
    ("ExchangeID", TThostFtdcExchangeIDType);
    ("InvestUnitID", TThostFtdcInvestUnitIDType);
    ("ProductGroupID", TThostFtdcInstrumentIDType) ].

Definition CThostFtdcInvestorProductGroupMarginField : struct :=
  [ ("reserve1", TThostFtdcOldInstrumentIDType);
    ("BrokerID", TThostFtdcBrokerIDType);
    ("InvestorID", TThostFtdcInvestorIDType);
    ("TradingDay", TThostFtdcDateType);
    ("SettlementID", TThostFtdcSettlementIDType);
    ("FrozenMargin", TThostFtdcMoneyType);
    ("LongFrozenMargin", TThostFtdcMoneyType);
    ("ShortFrozenMargin", TThostFtdcMoneyType);
    ("UseMargin", TThostFtdcMoneyType);
    ("LongUseMargin", TThostFtdcMoneyType);
    ("ShortUseMargin", TThostFtdcMoneyType);
    ("ExchMargin", TThostFtdcMoneyType);
    ("LongExchMargin", TThostFtdcMoneyType);
    ("ShortExchMargin", TThostFtdcMoneyType);
    ("CloseProfit", TThostFtdcMoneyType);
    ("FrozenCommission", TThostFtdcMoneyType);
    ("Commission", TThostFtdcMoneyType);
    ("FrozenCash", TThostFtdcMoneyType);
    ("CashIn", TThostFtdcMoneyType);
    ("PositionProfit", TThostFtdcMoneyType);
    ("OffsetAmount", TThostFtdcMoneyType);
    ("LongOffsetAmount", TThostFtdcMoneyType);
    ("ShortOffsetAmount", TThostFtdcMoneyType);
    ("ExchOffsetAmount", TThostFtdcMoneyType);
    ("LongExchOffsetAmount", TThostFtdcMoneyType);
    ("ShortExchOffsetAmount", TThostFtdcMoneyType);
    ("HedgeFlag", TThostFtdcHedgeFlagType);
    ("ExchangeID", TThostFtdcExchangeIDType);
    ("InvestUnitID", TThostFtdcInvestUnitIDType);
    ("ProductGroupID", TThostFtdcInstrumentIDType) ].

Definition CThostFtdcQueryCFMMCTradingAccountTokenField : struct :=
  [ ("BrokerID", TThostFtdcBrokerIDType);
    ("InvestorID", TThostFtdcInvestorIDType);
    ("InvestUnitID", TThostFtdcInvestUnitIDType) ].

Definition CThostFtdcCFMMCTradingAccountTokenField : struct :=
  [ ("BrokerID", TThostFtdcBrokerIDType);
    ("ParticipantID", TThostFtdcParticipantIDType);
    ("AccountID", TThostFtdcAccountIDType);
    ("KeyID", TThostFtdcSequenceNoType);
    ("Token", TThostFtdcCFMMCTokenType) ].

Definition CThostFtdcQryProductGroupField : struct :=
  [ ("reserve1", TThostFtdcOldInstrumentIDType);
    ("ExchangeID", TThostFtdcExchangeIDType);
    ("ProductID", TThostFtdcInstrumentIDType) ].

Definition CThostFtdcProductGroupField : struct :=
  [ ("reserve1", TThostFtdcOldInstrumentIDType);
    ("ExchangeID", TThostFtdcExchangeIDType);
    ("reserve2", TThostFtdcOldInstrumentIDType);
    ("ProductID", TThostFtdcInstrumentIDType);
    ("ProductGroupID", TThostFtdcInstrumentIDType) ].

Definition CThostFtdcBulletinField : struct :=
  [ ("ExchangeID", TThostFtdcExchangeIDType);
    ("TradingDay", TThostFtdcDateType);
    ("BulletinID", TThostFtdcBulletinIDType);
    ("SequenceNo", TThostFtdcSequenceNoType);
    ("NewsType", TThostFtdcNewsTypeType);
    ("NewsUrgency", TThostFtdcNewsUrgencyType);
    ("SendTime", TThostFtdcTimeType);
    ("Abstract", TThostFtdcAbstractType);
    ("ComeFrom", TThostFtdcComeFromType);
    ("Content", TThostFtdcContentType);
    ("URLLink", TThostFtdcURLLinkType);
    ("MarketID", TThostFtdcMarketIDType) ].

Definition CThostFtdcQryBulletinField : struct :=
  [ ("ExchangeID", TThostFtdcExchangeIDType);
    ("BulletinID", TThostFtdcBulletinIDType);
    ("SequenceNo", TThostFtdcSequenceNoType);
    ("NewsType", TThostFtdcNewsTypeType);
    ("NewsUrgency", TThostFtdcNewsUrgencyType) ].

Definition CThostFtdcMulticastInstrumentField : struct :=
  [ ("TopicID", TThostFtdcInstallIDType);
    ("reserve1", TThostFtdcOldInstrumentIDType);
    ("InstrumentNo", TThostFtdcInstallIDType);
    ("CodePrice", TThostFtdcPriceType);
    ("VolumeMultiple", TThostFtdcVolumeMultipleType);
    ("PriceTick", TThostFtdcPriceType);
    ("InstrumentID", TThostFtdcInstrumentIDType) ].

Definition CThostFtdcQryMulticastInstrumentField : struct :=
  [ ("TopicID", TThostFtdcInstallIDType);
    ("reserve1", TThostFtdcOldInstrumentIDType);
    ("InstrumentID", TThostFtdcInstrumentIDType) ].

Definition CThostFtdcAppIDAuthAssignField : struct :=
  [ ("BrokerID", TThostFtdcBrokerIDType);
    ("AppID", TThostFtdcAppIDType);
    ("DRIdentityID", TThostFtdcDRIdentityIDType) ].

Definition CThostFtdcReqOpenAccountField : struct :=
  [ ("TradeCode", TThostFtdcTradeCodeType);
    ("BankID", TThostFtdcBankIDType);
    ("BankBranchID", TThostFtdcBankBrchIDType);
    ("BrokerID", TThostFtdcBrokerIDType);
    ("BrokerBranchID", TThostFtdcFutureBranchIDType);
    ("TradeDate", TThostFtdcTradeDateType);
    ("TradeTime", TThostFtdcTradeTimeType);
    ("BankSerial", TThostFtdcBankSerialType);
    ("TradingDay", TThostFtdcTradeDateType);
    ("PlateSerial", TThostFtdcSerialType);
    ("LastFragment", TThostFtdcLastFragmentType);
    ("SessionID", TThostFtdcSessionIDType);
    ("CustomerName", TThostFtdcIndividualNameType);
    ("IdCardType", TThostFtdcIdCardTypeType);
    ("IdentifiedCardNo", TThostFtdcIdentifiedCardNoType);
    ("Gender", TThostFtdcGenderType);
    ("CountryCode", TThostFtdcCountryCodeType);
    ("CustType", TThostFtdcCustTypeType);
    ("Address", TThostFtdcAddressType);
    ("ZipCode", TThostFtdcZipCodeType);
    ("Telephone", TThostFtdcTelephoneType);
    ("MobilePhone", TThostFtdcMobilePhoneType);
    ("Fax", TThostFtdcFaxType);
    ("EMail", TThostFtdcEMailType);
    ("MoneyAccountStatus", TThostFtdcMoneyAccountStatusType);
    ("BankAccount", TThostFtdcBankAccountType);
    ("BankPassWord", TThostFtdcPasswordType);
    ("AccountID", TThostFtdcAccountIDType);
    ("Password", TThostFtdcPasswordType);
    ("InstallID", TThostFtdcInstallIDType);
    ("VerifyCertNoFlag", TThostFtdcYesNoIndicatorType);
    ("CurrencyID", TThostFtdcCurrencyIDType);
    ("CashExchangeCode", TThostFtdcCashExchangeCodeType);
    ("Digest", TThostFtdcDigestType);
    ("BankAccType", TThostFtdcBankAccTypeType);
    ("DeviceID", TThostFtdcDeviceIDType);
    ("BankSecuAccType", TThostFtdcBankAccTypeType);
    ("BrokerIDByBank", TThostFtdcBankCodingForFutureType);
    ("BankSecuAcc", TThostFtdcBankAccountType);
    ("BankPwdFlag", TThostFtdcPwdFlagType);
    ("SecuPwdFlag", TThostFtdcPwdFlagType);
    ("OperNo", TThostFtdcOperNoType);
    ("TID", TThostFtdcTIDType);
    ("UserID", TThostFtdcUserIDType);
    ("LongCustomerName", TThostFtdcLongIndividualNameType) ].

Definition CThostFtdcReqCancelAccountField : struct :=
  [ ("TradeCode", TThostFtdcTradeCodeType);
    ("BankID", TThostFtdcBankIDType);
    ("BankBranchID", TThostFtdcBankBrchIDType);
    ("BrokerID", TThostFtdcBrokerIDType);
    ("BrokerBranchID", TThostFtdcFutureBranchIDType);
    ("TradeDate", TThostFtdcTradeDateType);
    ("TradeTime", TThostFtdcTradeTimeType);
    ("BankSerial", TThostFtdcBankSerialType);
    ("TradingDay", TThostFtdcTradeDateType);
    ("PlateSerial", TThostFtdcSerialType);
    ("LastFragment", TThostFtdcLastFragmentType);
    ("SessionID", TThostFtdcSessionIDType);
    ("CustomerName", TThostFtdcIndividualNameType);
    ("IdCardType", TThostFtdcIdCardTypeType);
    ("IdentifiedCardNo", TThostFtdcIdentifiedCardNoType);
    ("Gender", TThostFtdcGenderType);
    ("CountryCode", TThostFtdcCountryCodeType);
    ("CustType", TThostFtdcCustTypeType);
    ("Address", TThostFtdcAddressType);
    ("ZipCode", TThostFtdcZipCodeType);
    ("Telephone", TThostFtdcTelephoneType);
    ("MobilePhone", TThostFtdcMobilePhoneType);
    ("Fax", TThostFtdcFaxType);
    ("EMail", TThostFtdcEMailType);
    ("MoneyAccountStatus", TThostFtdcMoneyAccountStatusType);
    ("BankAccount", TThostFtdcBankAccountType);
    ("BankPassWord", TThostFtdcPasswordType);
    ("AccountID", TThostFtdcAccountIDType);
    ("Password", TThostFtdcPasswordType);
    ("InstallID", TThostFtdcInstallIDType);
    ("VerifyCertNoFlag", TThostFtdcYesNoIndicatorType);
    ("CurrencyID", TThostFtdcCurrencyIDType);
    ("CashExchangeCode", TThostFtdcCashExchangeCodeType);
    ("Digest", TThostFtdcDigestType);
    ("BankAccType", TThostFtdcBankAccTypeType);
    ("DeviceID", TThostFtdcDeviceIDType);
    ("BankSecuAccType", TThostFtdcBankAccTypeType);
    ("BrokerIDByBank", TThostFtdcBankCodingForFutureType);
    ("BankSecuAcc", TThostFtdcBankAccountType);
    ("BankPwdFlag", TThostFtdcPwdFlagType);
    ("SecuPwdFlag", TThostFtdcPwdFlagType);
    ("OperNo", TThostFtdcOperNoType);
    ("TID", TThostFtdcTIDType);
    ("UserID", TThostFtdcUserIDType);
    ("LongCustomerName", TThostFtdcLongIndividualNameType) ].

Definition CThostFtdcReqChangeAccountField : struct :=
  [ ("TradeCode", TThostFtdcTradeCodeType);
    ("BankID", TThostFtdcBankIDType);
    ("BankBranchID", TThostFtdcBankBrchIDType);
    ("BrokerID", TThostFtdcBrokerIDType);
    ("BrokerBranchID", TThostFtdcFutureBranchIDType);
    ("TradeDate", TThostFtdcTradeDateType);
    ("TradeTime", TThostFtdcTradeTimeType);
    ("BankSerial", TThostFtdcBankSerialType);
    ("TradingDay", TThostFtdcTradeDateType);
    ("PlateSerial", TThostFtdcSerialType);
    ("LastFragment", TThostFtdcLastFragmentType);
    ("SessionID", TThostFtdcSessionIDType);
    ("CustomerName", TThostFtdcIndividualNameType);
    ("IdCardType", TThostFtdcIdCardTypeType);
    ("IdentifiedCardNo", TThostFtdcIdentifiedCardNoType);
    ("Gender", TThostFtdcGenderType);
    ("CountryCode", TThostFtdcCountryCodeType);
    ("CustType", TThostFtdcCustTypeType);
    ("Address", TThostFtdcAddressType);
    ("ZipCode", TThostFtdcZipCodeType);
    ("Telephone", TThostFtdcTelephoneType);
    ("MobilePhone", TThostFtdcMobilePhoneType);
    ("Fax", TThostFtdcFaxType);
    ("EMail", TThostFtdcEMailType);
    ("MoneyAccountStatus", TThostFtdcMoneyAccountStatusType);
    ("BankAccount", TThostFtdcBankAccountType);
    ("BankPassWord", TThostFtdcPasswordType);
    ("NewBankAccount", TThostFtdcBankAccountType);
    ("NewBankPassWord", TThostFtdcPasswordType);
    ("AccountID", TThostFtdcAccountIDType);
    ("Password", TThostFtdcPasswordType);
    ("BankAccType", TThostFtdcBankAccTypeType);
    ("InstallID", TThostFtdcInstallIDType);
    ("VerifyCertNoFlag", TThostFtdcYesNoIndicatorType);
    ("CurrencyID", TThostFtdcCurrencyIDType);
    ("BrokerIDByBank", TThostFtdcBankCodingForFutureType);
    ("BankPwdFlag", TThostFtdcPwdFlagType);
    ("SecuPwdFlag", TThostFtdcPwdFlagType);
    ("TID", TThostFtdcTIDType);
    ("Digest", TThostFtdcDigestType);
    ("LongCustomerName", TThostFtdcLongIndividualNameType) ].

Definition CThostFtdcReqTransferField : struct :=
  [ ("TradeCode", TThostFtdcTradeCodeType);
    ("BankID", TThostFtdcBankIDType);
    ("BankBranchID", TThostFtdcBankBrchIDType);
    ("BrokerID", TThostFtdcBrokerIDType);
    ("BrokerBranchID", TThostFtdcFutureBranchIDType);
    ("TradeDate", TThostFtdcTradeDateType);
    ("TradeTime", TThostFtdcTradeTimeType);
    ("BankSerial", TThostFtdcBankSerialType);
    ("TradingDay", TThostFtdcTradeDateType);
    ("PlateSerial", TThostFtdcSerialType);
    ("LastFragment", TThostFtdcLastFragmentType);
    ("SessionID", TThostFtdcSessionIDType);
    ("CustomerName", TThostFtdcIndividualNameType);
    ("IdCardType", TThostFtdcIdCardTypeType);
    ("IdentifiedCardNo", TThostFtdcIdentifiedCardNoType);
    ("CustType", TThostFtdcCustTypeType);
    ("BankAccount", TThostFtdcBankAccountType);
    ("BankPassWord", TThostFtdcPasswordType);
    ("AccountID", TThostFtdcAccountIDType);
    ("Password", TThostFtdcPasswordType);
    ("InstallID", TThostFtdcInstallIDType);
    ("FutureSerial", TThostFtdcFutureSerialType);
    ("UserID", TThostFtdcUserIDType);
    ("VerifyCertNoFlag", TThostFtdcYesNoIndicatorType);
    ("CurrencyID", TThostFtdcCurrencyIDType);
    ("TradeAmount", TThostFtdcTradeAmountType);
    ("FutureFetchAmount", TThostFtdcTradeAmountType);
    ("FeePayFlag", TThostFtdcFeePayFlagType);
    ("CustFee", TThostFtdcCustFeeType);
    ("BrokerFee", TThostFtdcFutureFeeType);
    ("Message", TThostFtdcAddInfoType);
    ("Digest", TThostFtdcDigestType);
    ("BankAccType", TThostFtdcBankAccTypeType);
    ("DeviceID", TThostFtdcDeviceIDType);
    ("BankSecuAccType", TThostFtdcBankAccTypeType);
    ("BrokerIDByBank", TThostFtdcBankCodingForFutureType);
    ("BankSecuAcc", TThostFtdcBankAccountType);
    ("BankPwdFlag", TThostFtdcPwdFlagType);
    ("SecuPwdFlag", TThostFtdcPwdFlagType);
    ("OperNo", TThostFtdcOperNoType);
    ("RequestID", TThostFtdcRequestIDType);
    ("TID", TThostFtdcTIDType);
    ("TransferStatus", TThostFtdcTransferStatusType);
    ("LongCustomerName", TThostFtdcLongIndividualNameType) ].

Definition CThostFtdcRspTransferField : struct :=
  [ ("TradeCode", TThostFtdcTradeCodeType);
    ("BankID", TThostFtdcBankIDType);
    ("BankBranchID", TThostFtdcBankBrchIDType);
    ("BrokerID", TThostFtdcBrokerIDType);
    ("BrokerBranchID", TThostFtdcFutureBranchIDType);
    ("TradeDate", TThostFtdcTradeDateType);
    ("TradeTime", TThostFtdcTradeTimeType);
    ("BankSerial", TThostFtdcBankSerialType);
    ("TradingDay", TThostFtdcTradeDateType);
    ("PlateSerial", TThostFtdcSerialType);
    ("LastFragment", TThostFtdcLastFragmentType);
    ("SessionID", TThostFtdcSessionIDType);
    ("CustomerName", TThostFtdcIndividualNameType);
    ("IdCardType", TThostFtdcIdCardTypeType);
    ("IdentifiedCardNo", TThostFtdcIdentifiedCardNoType);
    ("CustType", TThostFtdcCustTypeType);
    ("BankAccount", TThostFtdcBankAccountType);
    ("BankPassWord", TThostFtdcPasswordType);
    ("AccountID", TThostFtdcAccountIDType);
    ("Password", TThostFtdcPasswordType);
    ("InstallID", TThostFtdcInstallIDType);
    ("FutureSerial", TThostFtdcFutureSerialType);
    ("UserID", TThostFtdcUserIDType);
    ("VerifyCertNoFlag", TThostFtdcYesNoIndicatorType);
    ("CurrencyID", TThostFtdcCurrencyIDType);
    ("TradeAmount", TThostFtdcTradeAmountType);
    ("FutureFetchAmount", TThostFtdcTradeAmountType);
    ("FeePayFlag", TThostFtdcFeePayFlagType);
    ("CustFee", TThostFtdcCustFeeType);
    ("BrokerFee", TThostFtdcFutureFeeType);
    ("Message", TThostFtdcAddInfoType);
    ("Digest", TThostFtdcDigestType);
    ("BankAccType", TThostFtdcBankAccTypeType);
    ("DeviceID", TThostFtdcDeviceIDType);
    ("BankSecuAccType", TThostFtdcBankAccTypeType);
    ("BrokerIDByBank", TThostFtdcBankCodingForFutureType);
    ("BankSecuAcc", TThostFtdcBankAccountType);
    ("BankPwdFlag", TThostFtdcPwdFlagType);
    ("SecuPwdFlag", TThostFtdcPwdFlagType);
    ("OperNo", TThostFtdcOperNoType);
    ("RequestID", TThostFtdcRequestIDType);
    ("TID", TThostFtdcTIDType);
    ("TransferStatus", TThostFtdcTransferStatusType);
    ("ErrorID", TThostFtdcErrorIDType);
    ("ErrorMsg", TThostFtdcErrorMsgType);
    ("LongCustomerName", TThostFtdcLongIndividualNameType) ].

Definition CThostFtdcReqRepealField : struct :=
  [ ("RepealTimeInterval", TThostFtdcRepealTimeIntervalType);
    ("RepealedTimes", TThostFtdcRepealedTimesType);
    ("BankRepealFlag", TThostFtdcBankRepealFlagType);
    ("BrokerRepealFlag", TThostFtdcBrokerRepealFlagType);
    ("PlateRepealSerial", TThostFtdcPlateSerialType);
    ("BankRepealSerial", TThostFtdcBankSerialType);
    ("FutureRepealSerial", TThostFtdcFutureSerialType);
    ("TradeCode", TThostFtdcTradeCodeType);
    ("BankID", TThostFtdcBankIDType);
    ("BankBranchID", TThostFtdcBankBrchIDType);
    ("BrokerID", TThostFtdcBrokerIDType);
    ("BrokerBranchID", TThostFtdcFutureBranchIDType);
    ("TradeDate", TThostFtdcTradeDateType);
    ("TradeTime", TThostFtdcTradeTimeType);
    ("BankSerial", TThostFtdcBankSerialType);
    ("TradingDay", TThostFtdcTradeDateType);
    ("PlateSerial", TThostFtdcSerialType);
    ("LastFragment", TThostFtdcLastFragmentType);
    ("SessionID", TThostFtdcSessionIDType);
    ("CustomerName", TThostFtdcIndividualNameType);
    ("IdCardType", TThostFtdcIdCardTypeType);
    ("IdentifiedCardNo", TThostFtdcIdentifiedCardNoType);
    ("CustType", TThostFtdcCustTypeType);
    ("BankAccount", TThostFtdcBankAccountType);
    ("BankPassWord", TThostFtdcPasswordType);
    ("AccountID", TThostFtdcAccountIDType);
    ("Password", TThostFtdcPasswordType);
    ("InstallID", TThostFtdcInstallIDType);
    ("FutureSerial", TThostFtdcFutureSerialType);
    ("UserID", TThostFtdcUserIDType);
    ("VerifyCertNoFlag", TThostFtdcYesNoIndicatorType);
    ("CurrencyID", TThostFtdcCurrencyIDType);
    ("TradeAmount", TThostFtdcTradeAmountType);
    ("FutureFetchAmount", TThostFtdcTradeAmountType);
    ("FeePayFlag", TThostFtdcFeePayFlagType);
    ("CustFee", TThostFtdcCustFeeType);
    ("BrokerFee", TThostFtdcFutureFeeType);
    ("Message", TThostFtdcAddInfoType);
    ("Digest", TThostFtdcDigestType);
    ("BankAccType", TThostFtdcBankAccTypeType);
    ("DeviceID", TThostFtdcDeviceIDType);
    ("BankSecuAccType", TThostFtdcBankAccTypeType);
    ("BrokerIDByBank", TThostFtdcBankCodingForFutureType);
    ("BankSecuAcc", TThostFtdcBankAccountType);
    ("BankPwdFlag", TThostFtdcPwdFlagType);
    ("SecuPwdFlag", TThostFtdcPwdFlagType);
    ("OperNo", TThostFtdcOperNoType);
    ("RequestID", TThostFtdcRequestIDType);
    ("TID", TThostFtdcTIDType);
    ("TransferStatus", TThostFtdcTransferStatusType);
    ("LongCustomerName", TThostFtdcLongIndividualNameType) ].

Definition CThostFtdcRspRepealField : struct :=
  [ ("RepealTimeInterval", TThostFtdcRepealTimeIntervalType);
    ("RepealedTimes", TThostFtdcRepealedTimesType);
    ("BankRepealFlag", TThostFtdcBankRepealFlagType);
    ("BrokerRepealFlag", TThostFtdcBrokerRepealFlagType);
    ("PlateRepealSerial", TThostFtdcPlateSerialType);
    ("BankRepealSerial", TThostFtdcBankSerialType);
    ("FutureRepealSerial", TThostFtdcFutureSerialType);
    ("TradeCode", TThostFtdcTradeCodeType);
    ("BankID", TThostFtdcBankIDType);
    ("BankBranchID", TThostFtdcBankBrchIDType);
    ("BrokerID", TThostFtdcBrokerIDType);
    ("BrokerBranchID", TThostFtdcFutureBranchIDType);
    ("TradeDate", TThostFtdcTradeDateType);
    ("TradeTime", TThostFtdcTradeTimeType);
    ("BankSerial", TThostFtdcBankSerialType);
    ("TradingDay", TThostFtdcTradeDateType);
    ("PlateSerial", TThostFtdcSerialType);
    ("LastFragment", TThostFtdcLastFragmentType);
    ("SessionID", TThostFtdcSessionIDType);
    ("CustomerName", TThostFtdcIndividualNameType);
    ("IdCardType", TThostFtdcIdCardTypeType);
    ("IdentifiedCardNo", TThostFtdcIdentifiedCardNoType);
    ("CustType", TThostFtdcCustTypeType);
    ("BankAccount", TThostFtdcBankAccountType);
    ("BankPassWord", TThostFtdcPasswordType);
    ("AccountID", TThostFtdcAccountIDType);
    ("Password", TThostFtdcPasswordType);
    ("InstallID", TThostFtdcInstallIDType);
    ("FutureSerial", TThostFtdcFutureSerialType);
    ("UserID", TThostFtdcUserIDType);
    ("VerifyCertNoFlag", TThostFtdcYesNoIndicatorType);
    ("CurrencyID", TThostFtdcCurrencyIDType);
    ("TradeAmount", TThostFtdcTradeAmountType);
    ("FutureFetchAmount", TThostFtdcTradeAmountType);
    ("FeePayFlag", TThostFtdcFeePayFlagType);
    ("CustFee", TThostFtdcCustFeeType);
    ("BrokerFee", TThostFtdcFutureFeeType);
    ("Message", TThostFtdcAddInfoType);
    ("Digest", TThostFtdcDigestType);
    ("BankAccType", TThostFtdcBankAccTypeType);
    ("DeviceID", TThostFtdcDeviceIDType);
    ("BankSecuAccType", TThostFtdcBankAccTypeType);
    ("BrokerIDByBank", TThostFtdcBankCodingForFutureType);
    ("BankSecuAcc", TThostFtdcBankAccountType);
    ("BankPwdFlag", TThostFtdcPwdFlagType);
    ("SecuPwdFlag", TThostFtdcPwdFlagType);
    ("OperNo", TThostFtdcOperNoType);
    ("RequestID", TThostFtdcRequestIDType);
    ("TID", TThostFtdcTIDType);
    ("TransferStatus", TThostFtdcTransferStatusType);
    ("ErrorID", TThostFtdcErrorIDType);
    ("ErrorMsg", TThostFtdcErrorMsgType);
    ("LongCustomerName", TThostFtdcLongIndividualNameType) ].

Definition CThostFtdcReqQueryAccountField : struct :=
  [ ("TradeCode", TThostFtdcTradeCodeType);
    ("BankID", TThostFtdcBankIDType);
    ("BankBranchID", TThostFtdcBankBrchIDType);
    ("BrokerID", TThostFtdcBrokerIDType);
    ("BrokerBranchID", TThostFtdcFutureBranchIDType);
    ("TradeDate", TThostFtdcTradeDateType);
    ("TradeTime", TThostFtdcTradeTimeType);
    ("BankSerial", TThostFtdcBankSerialType);
    ("TradingDay", TThostFtdcTradeDateType);
    ("PlateSerial", TThostFtdcSerialType);
    ("LastFragment", TThostFtdcLastFragmentType);
    ("SessionID", TThostFtdcSessionIDType);
    ("CustomerName", TThostFtdcIndividualNameType);
    ("IdCardType", TThostFtdcIdCardTypeType);
    ("IdentifiedCardNo", TThostFtdcIdentifiedCardNoType);
    ("CustType", TThostFtdcCustTypeType);
    ("BankAccount", TThostFtdcBankAccountType);
    ("BankPassWord", TThostFtdcPasswordType);
    ("AccountID", TThostFtdcAccountIDType);
    ("Password", TThostFtdcPasswordType);
    ("FutureSerial", TThostFtdcFutureSerialType);
    ("InstallID", TThostFtdcInstallIDType);
    ("UserID", TThostFtdcUserIDType);
    ("VerifyCertNoFlag", TThostFtdcYesNoIndicatorType);
    ("CurrencyID", TThostFtdcCurrencyIDType);
    ("Digest", TThostFtdcDigestType);
    ("BankAccType", TThostFtdcBankAccTypeType);
    ("DeviceID", TThostFtdcDeviceIDType);
    ("BankSecuAccType", TThostFtdcBankAccTypeType);
    ("BrokerIDByBank", TThostFtdcBankCodingForFutureType);
    ("BankSecuAcc", TThostFtdcBankAccountType);
    ("BankPwdFlag", TThostFtdcPwdFlagType);
    ("SecuPwdFlag", TThostFtdcPwdFlagType);
    ("OperNo", TThostFtdcOperNoType);
    ("RequestID", TThostFtdcRequestIDType);
    ("TID", TThostFtdcTIDType);
    ("LongCustomerName", TThostFtdcLongIndividualNameType) ].

Definition CThostFtdcRspQueryAccountField : struct :=
  [ ("TradeCode", TThostFtdcTradeCodeType);
    ("BankID", TThostFtdcBankIDType);
    ("BankBranchID", TThostFtdcBankBrchIDType);
    ("BrokerID", TThostFtdcBrokerIDType);
    ("BrokerBranchID", TThostFtdcFutureBranchIDType);
    ("TradeDate", TThostFtdcTradeDateType);
    ("TradeTime", TThostFtdcTradeTimeType);
    ("BankSerial", TThostFtdcBankSerialType);
    ("TradingDay", TThostFtdcTradeDateType);
    ("PlateSerial", TThostFtdcSerialType);
    ("LastFragment", TThostFtdcLastFragmentType);
    ("SessionID", TThostFtdcSessionIDType);
    ("CustomerName", TThostFtdcIndividualNameType);
    ("IdCardType", TThostFtdcIdCardTypeType);
    ("IdentifiedCardNo", TThostFtdcIdentifiedCardNoType);
    ("CustType", TThostFtdcCustTypeType);
    ("BankAccount", TThostFtdcBankAccountType);
    ("BankPassWord", TThostFtdcPasswordType);
    ("AccountID", TThostFtdcAccountIDType);
    ("Password", TThostFtdcPasswordType);
    ("FutureSerial", TThostFtdcFutureSerialType);
    ("InstallID", TThostFtdcInstallIDType);
    ("UserID", TThostFtdcUserIDType);
    ("VerifyCertNoFlag", TThostFtdcYesNoIndicatorType);
    ("CurrencyID", TThostFtdcCurrencyIDType);
    ("Digest", TThostFtdcDigestType);
    ("BankAccType", TThostFtdcBankAccTypeType);
    ("DeviceID", TThostFtdcDeviceIDType);
    ("BankSecuAccType", TThostFtdcBankAccTypeType);
    ("BrokerIDByBank", TThostFtdcBankCodingForFutureType);
    ("BankSecuAcc", TThostFtdcBankAccountType);
    ("BankPwdFlag", TThostFtdcPwdFlagType);
    ("SecuPwdFlag", TThostFtdcPwdFlagType);
    ("OperNo", TThostFtdcOperNoType);
    ("RequestID", TThostFtdcRequestIDType);
    ("TID", TThostFtdcTIDType);
    ("BankUseAmount", TThostFtdcTradeAmountType);
    ("BankFetchAmount", TThostFtdcTradeAmountType);
    ("LongCustomerName", TThostFtdcLongIndividualNameType) ].

Definition CThostFtdcFutureSignIOField : struct :=
  [ ("TradeCode", TThostFtdcTradeCodeType);
    ("BankID", TThostFtdcBankIDType);
    ("BankBranchID", TThostFtdcBankBrchIDType);
    ("BrokerID", TThostFtdcBrokerIDType);
    ("BrokerBranchID", TThostFtdcFutureBranchIDType);
    ("TradeDate", TThostFtdcTradeDateType);
    ("TradeTime", TThostFtdcTradeTimeType);
    ("BankSerial", TThostFtdcBankSerialType);
    ("TradingDay", TThostFtdcTradeDateType);
    ("PlateSerial", TThostFtdcSerialType);
    ("LastFragment", TThostFtdcLastFragmentType);
    ("SessionID", TThostFtdcSessionIDType);
    ("InstallID", TThostFtdcInstallIDType);
    ("UserID", TThostFtdcUserIDType);
    ("Digest", TThostFtdcDigestType);
    ("CurrencyID", TThostFtdcCurrencyIDType);
    ("DeviceID", TThostFtdcDeviceIDType);
    ("BrokerIDByBank", TThostFtdcBankCodingForFutureType);
    ("OperNo", TThostFtdcOperNoType);
    ("RequestID", TThostFtdcRequestIDType);
    ("TID", TThostFtdcTIDType) ].

Definition CThostFtdcRspFutureSignInField : struct :=
  [ ("TradeCode", TThostFtdcTradeCodeType);
    ("BankID", TThostFtdcBankIDType);
    ("BankBranchID", TThostFtdcBankBrchIDType);
    ("BrokerID", TThostFtdcBrokerIDType);
    ("BrokerBranchID", TThostFtdcFutureBranchIDType);
    ("TradeDate", TThostFtdcTradeDateType);
    ("TradeTime", TThostFtdcTradeTimeType);
    ("BankSerial", TThostFtdcBankSerialType);
    ("TradingDay", TThostFtdcTradeDateType);
    ("PlateSerial", TThostFtdcSerialType);
    ("LastFragment", TThostFtdcLastFragmentType);
    ("SessionID", TThostFtdcSessionIDType);
    ("InstallID", TThostFtdcInstallIDType);
    ("UserID", TThostFtdcUserIDType);
    ("Digest", TThostFtdcDigestType);
    ("CurrencyID", TThostFtdcCurrencyIDType);
    ("DeviceID", TThostFtdcDeviceIDType);
    ("BrokerIDByBank", TThostFtdcBankCodingForFutureType);
    ("OperNo", TThostFtdcOperNoType);
    ("RequestID", TThostFtdcRequestIDType);
    ("TID", TThostFtdcTIDType);
    ("ErrorID", TThostFtdcErrorIDType);
    ("ErrorMsg", TThostFtdcErrorMsgType);
    ("PinKey", TThostFtdcPasswordKeyType);
    ("MacKey", TThostFtdcPasswordKeyType) ].

Definition CThostFtdcReqFutureSignOutField : struct :=
  [ ("TradeCode", TThostFtdcTradeCodeType);
    ("BankID", TThostFtdcBankIDType);
    ("BankBranchID", TThostFtdcBankBrchIDType);
    ("BrokerID", TThostFtdcBrokerIDType);
    ("BrokerBranchID", TThostFtdcFutureBranchIDType);
    ("TradeDate", TThostFtdcTradeDateType);
    ("TradeTime", TThostFtdcTradeTimeType);
    ("BankSerial", TThostFtdcBankSerialType);
    ("TradingDay", TThostFtdcTradeDateType);
    ("PlateSerial", TThostFtdcSerialType);
    ("LastFragment", TThostFtdcLastFragmentType);
    ("SessionID", TThostFtdcSessionIDType);
    ("InstallID", TThostFtdcInstallIDType);
    ("UserID", TThostFtdcUserIDType);
    ("Digest", TThostFtdcDigestType);
    ("CurrencyID", TThostFtdcCurrencyIDType);
    ("DeviceID", TThostFtdcDeviceIDType);
    ("BrokerIDByBank", TThostFtdcBankCodingForFutureType);
    ("OperNo", TThostFtdcOperNoType);
    ("RequestID", TThostFtdcRequestIDType);
    ("TID", TThostFtdcTIDType) ].

Definition CThostFtdcRspFutureSignOutField : struct :=
  [ ("TradeCode", TThostFtdcTradeCodeType);
    ("BankID", TThostFtdcBankIDType);
    ("BankBranchID", TThostFtdcBankBrchIDType);
    ("BrokerID", TThostFtdcBrokerIDType);
    ("BrokerBranchID", TThostFtdcFutureBranchIDType);
    ("TradeDate", TThostFtdcTradeDateType);
    ("TradeTime", TThostFtdcTradeTimeType);
    ("BankSerial", TThostFtdcBankSerialType);
    ("TradingDay", TThostFtdcTradeDateType);
    ("PlateSerial", TThostFtdcSerialType);
    ("LastFragment", TThostFtdcLastFragmentType);
    ("SessionID", TThostFtdcSessionIDType);
    ("InstallID", TThostFtdcInstallIDType);
    ("UserID", TThostFtdcUserIDType);
    ("Digest", TThostFtdcDigestType);
    ("CurrencyID", TThostFtdcCurrencyIDType);
    ("DeviceID", TThostFtdcDeviceIDType);
    ("BrokerIDByBank", TThostFtdcBankCodingForFutureType);
    ("OperNo", TThostFtdcOperNoType);
    ("RequestID", TThostFtdcRequestIDType);
    ("TID", TThostFtdcTIDType);
    ("ErrorID", TThostFtdcErrorIDType);
    ("ErrorMsg", TThostFtdcErrorMsgType) ].

Definition CThostFtdcReqQueryTradeResultBySerialField : struct :=
  [ ("TradeCode", TThostFtdcTradeCodeType);
    ("BankID", TThostFtdcBankIDType);
    ("BankBranchID", TThostFtdcBankBrchIDType);
    ("BrokerID", TThostFtdcBrokerIDType);
    ("BrokerBranchID", TThostFtdcFutureBranchIDType);
    ("TradeDate", TThostFtdcTradeDateType);
    ("TradeTime", TThostFtdcTradeTimeType);
    ("BankSerial", TThostFtdcBankSerialType);
    ("TradingDay", TThostFtdcTradeDateType);
    ("PlateSerial", TThostFtdcSerialType);
    ("LastFragment", TThostFtdcLastFragmentType);
    ("SessionID", TThostFtdcSessionIDType);
    ("Reference", TThostFtdcSerialType);
    ("RefrenceIssureType", TThostFtdcInstitutionTypeType);
    ("RefrenceIssure", TThostFtdcOrganCodeType);
    ("CustomerName", TThostFtdcIndividualNameType);
    ("IdCardType", TThostFtdcIdCardTypeType);
    ("IdentifiedCardNo", TThostFtdcIdentifiedCardNoType);
    ("CustType", TThostFtdcCustTypeType);
    ("BankAccount", TThostFtdcBankAccountType);
    ("BankPassWord", TThostFtdcPasswordType);
    ("AccountID", TThostFtdcAccountIDType);
    ("Password", TThostFtdcPasswordType);
    ("CurrencyID", TThostFtdcCurrencyIDType);
    ("TradeAmount", TThostFtdcTradeAmountType);
    ("Digest", TThostFtdcDigestType);
    ("LongCustomerName", TThostFtdcLongIndividualNameType) ].

Definition CThostFtdcRspQueryTradeResultBySerialField : struct :=
  [ ("TradeCode", TThostFtdcTradeCodeType);
    ("BankID", TThostFtdcBankIDType);
    ("BankBranchID", TThostFtdcBankBrchIDType);
    ("BrokerID", TThostFtdcBrokerIDType);
    ("BrokerBranchID", TThostFtdcFutureBranchIDType);
    ("TradeDate", TThostFtdcTradeDateType);
    ("TradeTime", TThostFtdcTradeTimeType);
    ("BankSerial", TThostFtdcBankSerialType);
    ("TradingDay", TThostFtdcTradeDateType);
    ("PlateSerial", TThostFtdcSerialType);
    ("LastFragment", TThostFtdcLastFragmentType);
    ("SessionID", TThostFtdcSessionIDType);
    ("ErrorID", TThostFtdcErrorIDType);
    ("ErrorMsg", TThostFtdcErrorMsgType);
    ("Reference", TThostFtdcSerialType);
    ("RefrenceIssureType", TThostFtdcInstitutionTypeType);
    ("RefrenceIssure", TThostFtdcOrganCodeType);
    ("OriginReturnCode", TThostFtdcReturnCodeType);
    ("OriginDescrInfoForReturnCode", TThostFtdcDescrInfoForReturnCodeType);
    ("BankAccount", TThostFtdcBankAccountType);
    ("BankPassWord", TThostFtdcPasswordType);
    ("AccountID", TThostFtdcAccountIDType);
    ("Password", TThostFtdcPasswordType);
    ("CurrencyID", TThostFtdcCurrencyIDType);
    ("TradeAmount", TThostFtdcTradeAmountType);
    ("Digest", TThostFtdcDigestType) ].

Definition CThostFtdcReqDayEndFileReadyField : struct :=
  [ ("TradeCode", TThostFtdcTradeCodeType);
    ("BankID", TThostFtdcBankIDType);
    ("BankBranchID", TThostFtdcBankBrchIDType);
    ("BrokerID", TThostFtdcBrokerIDType);
    ("BrokerBranchID", TThostFtdcFutureBranchIDType);
    ("TradeDate", TThostFtdcTradeDateType);
    ("TradeTime", TThostFtdcTradeTimeType);
    ("BankSerial", TThostFtdcBankSerialType);
    ("TradingDay", TThostFtdcTradeDateType);
    ("PlateSerial", TThostFtdcSerialType);
    ("LastFragment", TThostFtdcLastFragmentType);
    ("SessionID", TThostFtdcSessionIDType);
    ("FileBusinessCode", TThostFtdcFileBusinessCodeType);
    ("Digest", TThostFtdcDigestType) ].

Definition CThostFtdcReturnResultField : struct :=
  [ ("ReturnCode", TThostFtdcReturnCodeType);
    ("DescrInfoForReturnCode", TThostFtdcDescrInfoForReturnCodeType) ].

Definition CThostFtdcVerifyFuturePasswordField : struct :=
  [ ("TradeCode", TThostFtdcTradeCodeType);
    ("BankID", TThostFtdcBankIDType);
    ("BankBranchID", TThostFtdcBankBrchIDType);
    ("BrokerID", TThostFtdcBrokerIDType);
    ("BrokerBranchID", TThostFtdcFutureBranchIDType);
    ("TradeDate", TThostFtdcTradeDateType);
    ("TradeTime", TThostFtdcTradeTimeType);
    ("BankSerial", TThostFtdcBankSerialType);
    ("TradingDay", TThostFtdcTradeDateType);
    ("PlateSerial", TThostFtdcSerialType);
    ("LastFragment", TThostFtdcLastFragmentType);
    ("SessionID", TThostFtdcSessionIDType);
    ("AccountID", TThostFtdcAccountIDType);
    ("Password", TThostFtdcPasswordType);
    ("BankAccount", TThostFtdcBankAccountType);
    ("BankPassWord", TThostFtdcPasswordType);
    ("InstallID", TThostFtdcInstallIDType);
    ("TID", TThostFtdcTIDType);
    ("CurrencyID", TThostFtdcCurrencyIDType) ].

Definition CThostFtdcVerifyCustInfoField : struct :=
  [ ("CustomerName", TThostFtdcIndividualNameType);
    ("IdCardType", TThostFtdcIdCardTypeType);
    ("IdentifiedCardNo", TThostFtdcIdentifiedCardNoType);
    ("CustType", TThostFtdcCustTypeType);
    ("LongCustomerName", TThostFtdcLongIndividualNameType) ].

Definition CThostFtdcVerifyFuturePasswordAndCustInfoField : struct :=
  [ ("CustomerName", TThostFtdcIndividualNameType);
    ("IdCardType", TThostFtdcIdCardTypeType);
    ("IdentifiedCardNo", TThostFtdcIdentifiedCardNoType);
    ("CustType", TThostFtdcCustTypeType);
    ("AccountID", TThostFtdcAccountIDType);
    ("Password", TThostFtdcPasswordType);
    ("CurrencyID", TThostFtdcCurrencyIDType);
    ("LongCustomerName", TThostFtdcLongIndividualNameType) ].

Definition CThostFtdcDepositResultInformField : struct :=
  [ ("DepositSeqNo", TThostFtdcDepositSeqNoType);
    ("BrokerID", TThostFtdcBrokerIDType);
    ("InvestorID", TThostFtdcInvestorIDType);
    ("Deposit", TThostFtdcMoneyType);
    ("RequestID", TThostFtdcRequestIDType);
    ("ReturnCode", TThostFtdcReturnCodeType);
    ("DescrInfoForReturnCode", TThostFtdcDescrInfoForReturnCodeType) ].

Definition CThostFtdcReqSyncKeyField : struct :=
  [ ("TradeCode", TThostFtdcTradeCodeType);
    ("BankID", TThostFtdcBankIDType);
    ("BankBranchID", TThostFtdcBankBrchIDType);
    ("BrokerID", TThostFtdcBrokerIDType);
    ("BrokerBranchID", TThostFtdcFutureBranchIDType);
    ("TradeDate", TThostFtdcTradeDateType);
    ("TradeTime", TThostFtdcTradeTimeType);
    ("BankSerial", TThostFtdcBankSerialType);
    ("TradingDay", TThostFtdcTradeDateType);
    ("PlateSerial", TThostFtdcSerialType);
    ("LastFragment", TThostFtdcLastFragmentType);
    ("SessionID", TThostFtdcSessionIDType);
    ("InstallID", TThostFtdcInstallIDType);
    ("UserID", TThostFtdcUserIDType);
    ("Message", TThostFtdcAddInfoType);
    ("DeviceID", TThostFtdcDeviceIDType);
    ("BrokerIDByBank", TThostFtdcBankCodingForFutureType);
    ("OperNo", TThostFtdcOperNoType);
    ("RequestID", TThostFtdcRequestIDType);
    ("TID", TThostFtdcTIDType) ].

Definition CThostFtdcRspSyncKeyField : struct :=
  [ ("TradeCode", TThostFtdcTradeCodeType);
    ("BankID", TThostFtdcBankIDType);
    ("BankBranchID", TThostFtdcBankBrchIDType);
    ("BrokerID", TThostFtdcBrokerIDType);
    ("BrokerBranchID", TThostFtdcFutureBranchIDType);
    ("TradeDate", TThostFtdcTradeDateType);
    ("TradeTime", TThostFtdcTradeTimeType);
    ("BankSerial", TThostFtdcBankSerialType);
    ("TradingDay", TThostFtdcTradeDateType);
    ("PlateSerial", TThostFtdcSerialType);
    ("LastFragment", TThostFtdcLastFragmentType);
    ("SessionID", TThostFtdcSessionIDType);
    ("InstallID", TThostFtdcInstallIDType);
    ("UserID", TThostFtdcUserIDType);
    ("Message", TThostFtdcAddInfoType);
    ("DeviceID", TThostFtdcDeviceIDType);
    ("BrokerIDByBank", TThostFtdcBankCodingForFutureType);
    ("OperNo", TThostFtdcOperNoType);
    ("RequestID", TThostFtdcRequestIDType);
    ("TID", TThostFtdcTIDType);
    ("ErrorID", TThostFtdcErrorIDType);
    ("ErrorMsg", TThostFtdcErrorMsgType) ].

Definition CThostFtdcNotifyQueryAccountField : struct :=
  [ ("TradeCode", TThostFtdcTradeCodeType);
    ("BankID", TThostFtdcBankIDType);
    ("BankBranchID", TThostFtdcBankBrchIDType);
    ("BrokerID", TThostFtdcBrokerIDType);
    ("BrokerBranchID", TThostFtdcFutureBranchIDType);
    ("TradeDate", TThostFtdcTradeDateType);
    ("TradeTime", TThostFtdcTradeTimeType);
    ("BankSerial", TThostFtdcBankSerialType);
    ("TradingDay", TThostFtdcTradeDateType);
    ("PlateSerial", TThostFtdcSerialType);
    ("LastFragment", TThostFtdcLastFragmentType);
    ("SessionID", TThostFtdcSessionIDType);
    ("CustomerName", TThostFtdcIndividualNameType);
    ("IdCardType", TThostFtdcIdCardTypeType);
    ("IdentifiedCardNo", TThostFtdcIdentifiedCardNoType);
    ("CustType", TThostFtdcCustTypeType);
    ("BankAccount", TThostFtdcBankAccountType);
    ("BankPassWord", TThostFtdcPasswordType);
    ("AccountID", TThostFtdcAccountIDType);
    ("Password", TThostFtdcPasswordType);
    ("FutureSerial", TThostFtdcFutureSerialType);
    ("InstallID", TThostFtdcInstallIDType);
    ("UserID", TThostFtdcUserIDType);
    ("VerifyCertNoFlag", TThostFtdcYesNoIndicatorType);
    ("CurrencyID", TThostFtdcCurrencyIDType);
    ("Digest", TThostFtdcDigestType);
    ("BankAccType", TThostFtdcBankAccTypeType);
    ("DeviceID", TThostFtdcDeviceIDType);
    ("BankSecuAccType", TThostFtdcBankAccTypeType);
    ("BrokerIDByBank", TThostFtdcBankCodingForFutureType);
    ("BankSecuAcc", TThostFtdcBankAccountType);
    ("BankPwdFlag", TThostFtdcPwdFlagType);
    ("SecuPwdFlag", TThostFtdcPwdFlagType);
    ("OperNo", TThostFtdcOperNoType);
    ("RequestID", TThostFtdcRequestIDType);
    ("TID", TThostFtdcTIDType);
    ("BankUseAmount", TThostFtdcTradeAmountType);
    ("BankFetchAmount", TThostFtdcTradeAmountType);
    ("ErrorID", TThostFtdcErrorIDType);
    ("ErrorMsg", TThostFtdcErrorMsgType);
    ("LongCustomerName", TThostFtdcLongIndividualNameType) ].

Definition CThostFtdcTransferSerialField : struct :=
  [ ("PlateSerial", TThostFtdcPlateSerialType);
    ("TradeDate", TThostFtdcTradeDateType);
    ("TradingDay", TThostFtdcDateType);
    ("TradeTime", TThostFtdcTradeTimeType);
    ("TradeCode", TThostFtdcTradeCodeType);
    ("SessionID", TThostFtdcSessionIDType);
    ("BankID", TThostFtdcBankIDType);
    ("BankBranchID", TThostFtdcBankBrchIDType);
    ("BankAccType", TThostFtdcBankAccTypeType);
    ("BankAccount", TThostFtdcBankAccountType);
    ("BankSerial", TThostFtdcBankSerialType);
    ("BrokerID", TThostFtdcBrokerIDType);
    ("BrokerBranchID", TThostFtdcFutureBranchIDType);
    ("FutureAccType", TThostFtdcFutureAccTypeType);
    ("AccountID", TThostFtdcAccountIDType);
    ("InvestorID", TThostFtdcInvestorIDType);
    ("FutureSerial", TThostFtdcFutureSerialType);
    ("IdCardType", TThostFtdcIdCardTypeType);
    ("IdentifiedCardNo", TThostFtdcIdentifiedCardNoType);
    ("CurrencyID", TThostFtdcCurrencyIDType);
    ("TradeAmount", TThostFtdcTradeAmountType);
    ("CustFee", TThostFtdcCustFeeType);
    ("BrokerFee", TThostFtdcFutureFeeType);
    ("AvailabilityFlag", TThostFtdcAvailabilityFlagType);
    ("OperatorCode", TThostFtdcOperatorCodeType);
    ("BankNewAccount", TThostFtdcBankAccountType);
    ("ErrorID", TThostFtdcErrorIDType);
    ("ErrorMsg", TThostFtdcErrorMsgType) ].

Definition CThostFtdcQryTransferSerialField : struct :=
  [ ("BrokerID", TThostFtdcBrokerIDType);
    ("AccountID", TThostFtdcAccountIDType);
    ("BankID", TThostFtdcBankIDType);
    ("CurrencyID", TThostFtdcCurrencyIDType) ].

Definition CThostFtdcNotifyFutureSignInField : struct :=
  [ ("TradeCode", TThostFtdcTradeCodeType);
    ("BankID", TThostFtdcBankIDType);
    ("BankBranchID", TThostFtdcBankBrchIDType);
    ("BrokerID", TThostFtdcBrokerIDType);
    ("BrokerBranchID", TThostFtdcFutureBranchIDType);
    ("TradeDate", TThostFtdcTradeDateType);
    ("TradeTime", TThostFtdcTradeTimeType);
    ("BankSerial", TThostFtdcBankSerialType);
    ("TradingDay", TThostFtdcTradeDateType);
    ("PlateSerial", TThostFtdcSerialType);
    ("LastFragment", TThostFtdcLastFragmentType);
    ("SessionID", TThostFtdcSessionIDType);
    ("InstallID", TThostFtdcInstallIDType);
    ("UserID", TThostFtdcUserIDType);
    ("Digest", TThostFtdcDigestType);
    ("CurrencyID", TThostFtdcCurrencyIDType);
    ("DeviceID", TThostFtdcDeviceIDType);
    ("BrokerIDByBank", TThostFtdcBankCodingForFutureType);
    ("OperNo", TThostFtdcOperNoType);
    ("RequestID", TThostFtdcRequestIDType);
    ("TID", TThostFtdcTIDType);
    ("ErrorID", TThostFtdcErrorIDType);
    ("ErrorMsg", TThostFtdcErrorMsgType);
    ("PinKey", TThostFtdcPasswordKeyType);
    ("MacKey", TThostFtdcPasswordKeyType) ].

(** The declarations above, by name. *)
Definition structs : list (string * struct) :=
  [ ("CThostFtdcQryCombInstrumentGuardField", CThostFtdcQryCombInstrumentGuardField);
    ("CThostFtdcInputCombActionField", CThostFtdcInputCombActionField);
    ("CThostFtdcCombActionField", CThostFtdcCombActionField);
    ("CThostFtdcQryCombActionField", CThostFtdcQryCombActionField);
    ("CThostFtdcExchangeCombActionField", CThostFtdcExchangeCombActionField);
    ("CThostFtdcQryExchangeCombActionField", CThostFtdcQryExchangeCombActionField);
    ("CThostFtdcProductExchRateField", CThostFtdcProductExchRateField);
    ("CThostFtdcQryProductExchRateField", CThostFtdcQryProductExchRateField);
    ("CThostFtdcQryForQuoteParamField", CThostFtdcQryForQuoteParamField);
    ("CThostFtdcForQuoteParamField", CThostFtdcForQuoteParamField);
    ("CThostFtdcMMOptionInstrCommRateField", CThostFtdcMMOptionInstrCommRateField);
    ("CThostFtdcQryMMOptionInstrCommRateField", CThostFtdcQryMMOptionInstrCommRateField);
    ("CThostFtdcMMInstrumentCommissionRateField", CThostFtdcMMInstrumentCommissionRateField);
    ("CThostFtdcQryMMInstrumentCommissionRateField", CThostFtdcQryMMInstrumentCommissionRateField);
    ("CThostFtdcInstrumentOrderCommRateField", CThostFtdcInstrumentOrderCommRateField);
    ("CThostFtdcQryInstrumentOrderCommRateField", CThostFtdcQryInstrumentOrderCommRateField);
    ("CThostFtdcTradeParamField", CThostFtdcTradeParamField);
    ("CThostFtdcInstrumentMarginRateULField", CThostFtdcInstrumentMarginRateULField);
    ("CThostFtdcFutureLimitPosiParamField", CThostFtdcFutureLimitPosiParamField);
    ("CThostFtdcLoginForbiddenIPField", CThostFtdcLoginForbiddenIPField);
    ("CThostFtdcIPListField", CThostFtdcIPListField);
    ("CThostFtdcInputOptionSelfCloseField", CThostFtdcInputOptionSelfCloseField);
    ("CThostFtdcInputOptionSelfCloseActionField", CThostFtdcInputOptionSelfCloseActionField);
    ("CThostFtdcOptionSelfCloseField", CThostFtdcOptionSelfCloseField);
    ("CThostFtdcOptionSelfCloseActionField", CThostFtdcOptionSelfCloseActionField);
    ("CThostFtdcQryOptionSelfCloseField", CThostFtdcQryOptionSelfCloseField);
    ("CThostFtdcExchangeOptionSelfCloseField", CThostFtdcExchangeOptionSelfCloseField);
    ("CThostFtdcQryOptionSelfCloseActionField", CThostFtdcQryOptionSelfCloseActionField);
    ("CThostFtdcExchangeOptionSelfCloseActionField", CThostFtdcExchangeOptionSelfCloseActionField);
    ("CThostFtdcSyncDelaySwapField", CThostFtdcSyncDelaySwapField);
    ("CThostFtdcQrySyncDelaySwapField", CThostFtdcQrySyncDelaySwapField);
    ("CThostFtdcInvestUnitField", CThostFtdcInvestUnitField);
    ("CThostFtdcQryInvestUnitField", CThostFtdcQryInvestUnitField);
    ("CThostFtdcSecAgentCheckModeField", CThostFtdcSecAgentCheckModeField);
    ("CThostFtdcSecAgentTradeInfoField", CThostFtdcSecAgentTradeInfoField);
    ("CThostFtdcMarketDataField", CThostFtdcMarketDataField);
    ("CThostFtdcMarketDataBaseField", CThostFtdcMarketDataBaseField);
    ("CThostFtdcMarketDataStaticField", CThostFtdcMarketDataStaticField);
    ("CThostFtdcMarketDataLastMatchField", CThostFtdcMarketDataLastMatchField);
    ("CThostFtdcMarketDataBestPriceField", CThostFtdcMarketDataBestPriceField);
    ("CThostFtdcMarketDataBid23Field", CThostFtdcMarketDataBid23Field);
    ("CThostFtdcMarketDataAsk23Field", CThostFtdcMarketDataAsk23Field);
    ("CThostFtdcMarketDataBid45Field", CThostFtdcMarketDataBid45Field);
    ("CThostFtdcMarketDataAsk45Field", CThostFtdcMarketDataAsk45Field);
    ("CThostFtdcMarketDataUpdateTimeField", CThostFtdcMarketDataUpdateTimeField);
    ("CThostFtdcMarketDataBandingPriceField", CThostFtdcMarketDataBandingPriceField);
    ("CThostFtdcMarketDataExchangeField", CThostFtdcMarketDataExchangeField);
    ("CThostFtdcSpecificInstrumentField", CThostFtdcSpecificInstrumentField);
    ("CThostFtdcInstrumentStatusField", CThostFtdcInstrumentStatusField);
    ("CThostFtdcQryInstrumentStatusField", CThostFtdcQryInstrumentStatusField);
    ("CThostFtdcInvestorAccountField", CThostFtdcInvestorAccountField);
    ("CThostFtdcPositionProfitAlgorithmField", CThostFtdcPositionProfitAlgorithmField);
    ("CThostFtdcDiscountField", CThostFtdcDiscountField);
    ("CThostFtdcQryTransferBankField", CThostFtdcQryTransferBankField);
    ("CThostFtdcTransferBankField", CThostFtdcTransferBankField);
    ("CThostFtdcQryInvestorPositionDetailField", CThostFtdcQryInvestorPositionDetailField);
    ("CThostFtdcInvestorPositionDetailField", CThostFtdcInvestorPositionDetailField);
    ("CThostFtdcTradingAccountPasswordField", CThostFtdcTradingAccountPasswordField);
    ("CThostFtdcMDTraderOfferField", CThostFtdcMDTraderOfferField);
    ("CThostFtdcQryMDTraderOfferField", CThostFtdcQryMDTraderOfferField);
    ("CThostFtdcQryNoticeField", CThostFtdcQryNoticeField);
    ("CThostFtdcNoticeField", CThostFtdcNoticeField);
    ("CThostFtdcUserRightField", CThostFtdcUserRightField);
    ("CThostFtdcQrySettlementInfoConfirmField", CThostFtdcQrySettlementInfoConfirmField);
    ("CThostFtdcLoadSettlementInfoField", CThostFtdcLoadSettlementInfoField);
    ("CThostFtdcBrokerWithdrawAlgorithmField", CThostFtdcBrokerWithdrawAlgorithmField);
    ("CThostFtdcTradingAccountPasswordUpdateV1Field", CThostFtdcTradingAccountPasswordUpdateV1Field);
    ("CThostFtdcTradingAccountPasswordUpdateField", CThostFtdcTradingAccountPasswordUpdateField);
    ("CThostFtdcQryCombinationLegField", CThostFtdcQryCombinationLegField);
    ("CThostFtdcQrySyncStatusField", CThostFtdcQrySyncStatusField);
    ("CThostFtdcCombinationLegField", CThostFtdcCombinationLegField);
    ("CThostFtdcSyncStatusField", CThostFtdcSyncStatusField);
    ("CThostFtdcQryLinkManField", CThostFtdcQryLinkManField);
    ("CThostFtdcLinkManField", CThostFtdcLinkManField);
    ("CThostFtdcQryBrokerUserEventField", CThostFtdcQryBrokerUserEventField);
    ("CThostFtdcBrokerUserEventField", CThostFtdcBrokerUserEventField);
    ("CThostFtdcQryContractBankField", CThostFtdcQryContractBankField);
    ("CThostFtdcContractBankField", CThostFtdcContractBankField);
    ("CThostFtdcInvestorPositionCombineDetailField", CThostFtdcInvestorPositionCombineDetailField);
    ("CThostFtdcParkedOrderField", CThostFtdcParkedOrderField);
    ("CThostFtdcParkedOrderActionField", CThostFtdcParkedOrderActionField);
    ("CThostFtdcQryParkedOrderField", CThostFtdcQryParkedOrderField);
    ("CThostFtdcQryParkedOrderActionField", CThostFtdcQryParkedOrderActionField);
    ("CThostFtdcRemoveParkedOrderField", CThostFtdcRemoveParkedOrderField);
    ("CThostFtdcRemoveParkedOrderActionField", CThostFtdcRemoveParkedOrderActionField);
    ("CThostFtdcInvestorWithdrawAlgorithmField", CThostFtdcInvestorWithdrawAlgorithmField);
    ("CThostFtdcQryInvestorPositionCombineDetailField", CThostFtdcQryInvestorPositionCombineDetailField);
    ("CThostFtdcMarketDataAveragePriceField", CThostFtdcMarketDataAveragePriceField);
    ("CThostFtdcVerifyInvestorPasswordField", CThostFtdcVerifyInvestorPasswordField);
    ("CThostFtdcUserIPField", CThostFtdcUserIPField);
    ("CThostFtdcTradingNoticeInfoField", CThostFtdcTradingNoticeInfoField);
    ("CThostFtdcTradingNoticeField", CThostFtdcTradingNoticeField);
    ("CThostFtdcQryTradingNoticeField", CThostFtdcQryTradingNoticeField);
    ("CThostFtdcQryErrOrderField", CThostFtdcQryErrOrderField);
    ("CThostFtdcErrOrderField", CThostFtdcErrOrderField);
    ("CThostFtdcErrorConditionalOrderField", CThostFtdcErrorConditionalOrderField);
    ("CThostFtdcQryErrOrderActionField", CThostFtdcQryErrOrderActionField);
    ("CThostFtdcErrOrderActionField", CThostFtdcErrOrderActionField);
    ("CThostFtdcQryExchangeSequenceField", CThostFtdcQryExchangeSequenceField);
    ("CThostFtdcExchangeSequenceField", CThostFtdcExchangeSequenceField);
    ("CThostFtdcQryMaxOrderVolumeWithPriceField", CThostFtdcQryMaxOrderVolumeWithPriceField);
    ("CThostFtdcQryBrokerTradingParamsField", CThostFtdcQryBrokerTradingParamsField);
    ("CThostFtdcBrokerTradingParamsField", CThostFtdcBrokerTradingParamsField);
    ("CThostFtdcQryBrokerTradingAlgosField", CThostFtdcQryBrokerTradingAlgosField);
    ("CThostFtdcBrokerTradingAlgosField", CThostFtdcBrokerTradingAlgosField);
    ("CThostFtdcQueryBrokerDepositField", CThostFtdcQueryBrokerDepositField);
    ("CThostFtdcBrokerDepositField", CThostFtdcBrokerDepositField);
    ("CThostFtdcQryCFMMCBrokerKeyField", CThostFtdcQryCFMMCBrokerKeyField);
    ("CThostFtdcCFMMCBrokerKeyField", CThostFtdcCFMMCBrokerKeyField);
    ("CThostFtdcCFMMCTradingAccountKeyField", CThostFtdcCFMMCTradingAccountKeyField);
    ("CThostFtdcQryCFMMCTradingAccountKeyField", CThostFtdcQryCFMMCTradingAccountKeyField);
    ("CThostFtdcBrokerUserOTPParamField", CThostFtdcBrokerUserOTPParamField);
    ("CThostFtdcManualSyncBrokerUserOTPField", CThostFtdcManualSyncBrokerUserOTPField);
    ("CThostFtdcCommRateModelField", CThostFtdcCommRateModelField);
    ("CThostFtdcQryCommRateModelField", CThostFtdcQryCommRateModelField);
    ("CThostFtdcMarginModelField", CThostFtdcMarginModelField);
    ("CThostFtdcQryMarginModelField", CThostFtdcQryMarginModelField);
    ("CThostFtdcEWarrantOffsetField", CThostFtdcEWarrantOffsetField);
    ("CThostFtdcQryEWarrantOffsetField", CThostFtdcQryEWarrantOffsetField);
    ("CThostFtdcQryInvestorProductGroupMarginField", CThostFtdcQryInvestorProductGroupMarginField);
    ("CThostFtdcInvestorProductGroupMarginField", CThostFtdcInvestorProductGroupMarginField);
    ("CThostFtdcQueryCFMMCTradingAccountTokenField", CThostFtdcQueryCFMMCTradingAccountTokenField);
    ("CThostFtdcCFMMCTradingAccountTokenField", CThostFtdcCFMMCTradingAccountTokenField);
    ("CThostFtdcQryProductGroupField", CThostFtdcQryProductGroupField);
    ("CThostFtdcProductGroupField", CThostFtdcProductGroupField);
    ("CThostFtdcBulletinField", CThostFtdcBulletinField);
    ("CThostFtdcQryBulletinField", CThostFtdcQryBulletinField);
    ("CThostFtdcMulticastInstrumentField", CThostFtdcMulticastInstrumentField);
    ("CThostFtdcQryMulticastInstrumentField", CThostFtdcQryMulticastInstrumentField);
    ("CThostFtdcAppIDAuthAssignField", CThostFtdcAppIDAuthAssignField);
    ("CThostFtdcReqOpenAccountField", CThostFtdcReqOpenAccountField);
    ("CThostFtdcReqCancelAccountField", CThostFtdcReqCancelAccountField);
    ("CThostFtdcReqChangeAccountField", CThostFtdcReqChangeAccountField);
    ("CThostFtdcReqTransferField", CThostFtdcReqTransferField);
    ("CThostFtdcRspTransferField", CThostFtdcRspTransferField);
    ("CThostFtdcReqRepealField", CThostFtdcReqRepealField);
    ("CThostFtdcRspRepealField", CThostFtdcRspRepealField);
    ("CThostFtdcReqQueryAccountField", CThostFtdcReqQueryAccountField);
    ("CThostFtdcRspQueryAccountField", CThostFtdcRspQueryAccountField);
    ("CThostFtdcFutureSignIOField", CThostFtdcFutureSignIOField);
    ("CThostFtdcRspFutureSignInField", CThostFtdcRspFutureSignInField);
    ("CThostFtdcReqFutureSignOutField", CThostFtdcReqFutureSignOutField);
    ("CThostFtdcRspFutureSignOutField", CThostFtdcRspFutureSignOutField);
    ("CThostFtdcReqQueryTradeResultBySerialField", CThostFtdcReqQueryTradeResultBySerialField);
    ("CThostFtdcRspQueryTradeResultBySerialField", CThostFtdcRspQueryTradeResultBySerialField);
    ("CThostFtdcReqDayEndFileReadyField", CThostFtdcReqDayEndFileReadyField);
    ("CThostFtdcReturnResultField", CThostFtdcReturnResultField);
    ("CThostFtdcVerifyFuturePasswordField", CThostFtdcVerifyFuturePasswordField);
    ("CThostFtdcVerifyCustInfoField", CThostFtdcVerifyCustInfoField);
    ("CThostFtdcVerifyFuturePasswordAndCustInfoField", CThostFtdcVerifyFuturePasswordAndCustInfoField);
    ("CThostFtdcDepositResultInformField", CThostFtdcDepositResultInformField);
    ("CThostFtdcReqSyncKeyField", CThostFtdcReqSyncKeyField);
    ("CThostFtdcRspSyncKeyField", CThostFtdcRspSyncKeyField);
    ("CThostFtdcNotifyQueryAccountField", CThostFtdcNotifyQueryAccountField);
    ("CThostFtdcTransferSerialField", CThostFtdcTransferSerialField);
    ("CThostFtdcQryTransferSerialField", CThostFtdcQryTransferSerialField);
    ("CThostFtdcNotifyFutureSignInField", CThostFtdcNotifyFutureSignInField) ].

End Structs2.
