(* ===== verification/Structs3.v ===== *)
(** * CTP structures, part 3

    The struct declarations of ThostFtdcUserApiStruct.h, one definition each:
    field names and types in order. *)

From S2P Require Import Prelude Layout DataTypes.

Module Structs3.
Import Layout DataTypes.
Local Open Scope string_scope.
Local Open Scope list_scope.

Definition CThostFtdcNotifyFutureSignOutField : struct :=
  [ ("TradeCode", TThostFtdcTradeCodeType);
    ("BankID", TThostFtdcBankIDType);
    ("BankBranchID", TThostFtdcBankBrchIDType);
    ("BrokerID", TThostFtdcBrokerIDType);
    ("BrokerBranchID", TThostFtdcFutureBranchIDType);
    ("TradeDate", TThostFtdcTradeDateType);
    ("TradeTime", TThostFtdcTradeTimeType);
    ("BankSerial", TThostFtdcBankSerialType);
    ("TradingDay", TThostFtdcTradeDateType);
    ("PlateSerial", TThostFtdcSerialType);
    ("LastFragment", TThostFtdcLastFragmentType);
    ("SessionID", TThostFtdcSessionIDType);
    ("InstallID", TThostFtdcInstallIDType);
    ("UserID", TThostFtdcUserIDType);
    ("Digest", TThostFtdcDigestType);
    ("CurrencyID", TThostFtdcCurrencyIDType);
    ("DeviceID", TThostFtdcDeviceIDType);
    ("BrokerIDByBank", TThostFtdcBankCodingForFutureType);
    ("OperNo", TThostFtdcOperNoType);
    ("RequestID", TThostFtdcRequestIDType);
    ("TID", TThostFtdcTIDType);
    ("ErrorID", TThostFtdcErrorIDType);
    ("ErrorMsg", TThostFtdcErrorMsgType) ].

Definition CThostFtdcNotifySyncKeyField : struct :=
  [ ("TradeCode", TThostFtdcTradeCodeType);
    ("BankID", TThostFtdcBankIDType);
    ("BankBranchID", TThostFtdcBankBrchIDType);
    ("BrokerID", TThostFtdcBrokerIDType);
    ("BrokerBranchID", TThostFtdcFutureBranchIDType);
    ("TradeDate", TThostFtdcTradeDateType);
    ("TradeTime", TThostFtdcTradeTimeType);
    ("BankSerial", TThostFtdcBankSerialType);
    ("TradingDay", TThostFtdcTradeDateType);
    ("PlateSerial", TThostFtdcSerialType);
    ("LastFragment", TThostFtdcLastFragmentType);
    ("SessionID", TThostFtdcSessionIDType);
    ("InstallID", TThostFtdcInstallIDType);
    ("UserID", TThostFtdcUserIDType);
    ("Message", TThostFtdcAddInfoType);
    ("DeviceID", TThostFtdcDeviceIDType);
    ("BrokerIDByBank", TThostFtdcBankCodingForFutureType);
    ("OperNo", TThostFtdcOperNoType);
    ("RequestID", TThostFtdcRequestIDType);
    ("TID", TThostFtdcTIDType);
    ("ErrorID", TThostFtdcErrorIDType);
    ("ErrorMsg", TThostFtdcErrorMsgType) ].

Definition CThostFtdcQryAccountregisterField : struct :=
  [ ("BrokerID", TThostFtdcBrokerIDType);
    ("AccountID", TThostFtdcAccountIDType);
    ("BankID", TThostFtdcBankIDType);
    ("BankBranchID", TThostFtdcBankBrchIDType);
    ("CurrencyID", TThostFtdcCurrencyIDType) ].

Definition CThostFtdcAccountregisterField : struct :=
  [ ("TradeDay", TThostFtdcTradeDateType);
    ("BankID", TThostFtdcBankIDType);
    ("BankBranchID", TThostFtdcBankBrchIDType);
    ("BankAccount", TThostFtdcBankAccountType);
    ("BrokerID", TThostFtdcBrokerIDType);
    ("BrokerBranchID", TThostFtdcFutureBranchIDType);
    ("AccountID", TThostFtdcAccountIDType);
    ("IdCardType", TThostFtdcIdCardTypeType);
    ("IdentifiedCardNo", TThostFtdcIdentifiedCardNoType);
    ("CustomerName", TThostFtdcIndividualNameType);
    ("CurrencyID", TThostFtdcCurrencyIDType);
    ("OpenOrDestroy", TThostFtdcOpenOrDestroyType);
    ("RegDate", TThostFtdcTradeDateType);
    ("OutDate", TThostFtdcTradeDateType);
    ("TID", TThostFtdcTIDType);
    ("CustType", TThostFtdcCustTypeType);
    ("BankAccType", TThostFtdcBankAccTypeType);
    ("LongCustomerName", TThostFtdcLongIndividualNameType) ].

Definition CThostFtdcOpenAccountField : struct :=
  [ ("TradeCode", TThostFtdcTradeCodeType);
    ("BankID", TThostFtdcBankIDType);
    ("BankBranchID", TThostFtdcBankBrchIDType);
    ("BrokerID", TThostFtdcBrokerIDType);
    ("BrokerBranchID", TThostFtdcFutureBranchIDType);
    ("TradeDate", TThostFtdcTradeDateType);
    ("TradeTime", TThostFtdcTradeTimeType);
    ("BankSerial", TThostFtdcBankSerialType);
    ("TradingDay", TThostFtdcTradeDateType);
    ("PlateSerial", TThostFtdcSerialType);
    ("LastFragment", TThostFtdcLastFragmentType);
    ("SessionID", TThostFtdcSessionIDType);
    ("CustomerName", TThostFtdcIndividualNameType);
    ("IdCardType", TThostFtdcIdCardTypeType);
    ("IdentifiedCardNo", TThostFtdcIdentifiedCardNoType);
    ("Gender", TThostFtdcGenderType);
    ("CountryCode", TThostFtdcCountryCodeType);
    ("CustType", TThostFtdcCustTypeType);
    ("Address", TThostFtdcAddressType);
    ("ZipCode", TThostFtdcZipCodeType);
    ("Telephone", TThostFtdcTelephoneType);
    ("MobilePhone", TThostFtdcMobilePhoneType);
    ("Fax", TThostFtdcFaxType);
    ("EMail", TThostFtdcEMailType);
    ("MoneyAccountStatus", TThostFtdcMoneyAccountStatusType);
    ("BankAccount", TThostFtdcBankAccountType);
    ("BankPassWord", TThostFtdcPasswordType);
    ("AccountID", TThostFtdcAccountIDType);
    ("Password", TThostFtdcPasswordType);
    ("InstallID", TThostFtdcInstallIDType);
    ("VerifyCertNoFlag", TThostFtdcYesNoIndicatorType);
    ("CurrencyID", TThostFtdcCurrencyIDType);
    ("CashExchangeCode", TThostFtdcCashExchangeCodeType);
    ("Digest", TThostFtdcDigestType);
    ("BankAccType", TThostFtdcBankAccTypeType);
    ("DeviceID", TThostFtdcDeviceIDType);
    ("BankSecuAccType", TThostFtdcBankAccTypeType);
    ("BrokerIDByBank", TThostFtdcBankCodingForFutureType);
    ("BankSecuAcc", TThostFtdcBankAccountType);
    ("BankPwdFlag", TThostFtdcPwdFlagType);
    ("SecuPwdFlag", TThostFtdcPwdFlagType);
    ("OperNo", TThostFtdcOperNoType);
    ("TID", TThostFtdcTIDType);
    ("UserID", TThostFtdcUserIDType);
    ("ErrorID", TThostFtdcErrorIDType);
    ("ErrorMsg", TThostFtdcErrorMsgType);
    ("LongCustomerName", TThostFtdcLongIndividualNameType) ].

Definition CThostFtdcCancelAccountField : struct :=
  [ ("TradeCode", TThostFtdcTradeCodeType);
    ("BankID", TThostFtdcBankIDType);
    ("BankBranchID", TThostFtdcBankBrchIDType);
    ("BrokerID", TThostFtdcBrokerIDType);
    ("BrokerBranchID", TThostFtdcFutureBranchIDType);
    ("TradeDate", TThostFtdcTradeDateType);
    ("TradeTime", TThostFtdcTradeTimeType);
    ("BankSerial", TThostFtdcBankSerialType);
    ("TradingDay", TThostFtdcTradeDateType);
    ("PlateSerial", TThostFtdcSerialType);
    ("LastFragment", TThostFtdcLastFragmentType);
    ("SessionID", TThostFtdcSessionIDType);
    ("CustomerName", TThostFtdcIndividualNameType);
    ("IdCardType", TThostFtdcIdCardTypeType);
    ("IdentifiedCardNo", TThostFtdcIdentifiedCardNoType);
    ("Gender", TThostFtdcGenderType);
    ("CountryCode", TThostFtdcCountryCodeType);
    ("CustType", TThostFtdcCustTypeType);
    ("Address", TThostFtdcAddressType);
    ("ZipCode", TThostFtdcZipCodeType);
    ("Telephone", TThostFtdcTelephoneType);
    ("MobilePhone", TThostFtdcMobilePhoneType);
    ("Fax", TThostFtdcFaxType);
    ("EMail", TThostFtdcEMailType);
    ("MoneyAccountStatus", TThostFtdcMoneyAccountStatusType);
    ("BankAccount", TThostFtdcBankAccountType);
    ("BankPassWord", TThostFtdcPasswordType);
    ("AccountID", TThostFtdcAccountIDType);
    ("Password", TThostFtdcPasswordType);
    ("InstallID", TThostFtdcInstallIDType);
    ("VerifyCertNoFlag", TThostFtdcYesNoIndicatorType);
    ("CurrencyID", TThostFtdcCurrencyIDType);
    ("CashExchangeCode", TThostFtdcCashExchangeCodeType);
    ("Digest", TThostFtdcDigestType);
    ("BankAccType", TThostFtdcBankAccTypeType);
    ("DeviceID", TThostFtdcDeviceIDType);
    ("BankSecuAccType", TThostFtdcBankAccTypeType);
    ("BrokerIDByBank", TThostFtdcBankCodingForFutureType);
    ("BankSecuAcc", TThostFtdcBankAccountType);
    ("BankPwdFlag", TThostFtdcPwdFlagType);
    ("SecuPwdFlag", TThostFtdcPwdFlagType);
    ("OperNo", TThostFtdcOperNoType);
    ("TID", TThostFtdcTIDType);
    ("UserID", TThostFtdcUserIDType);
    ("ErrorID", TThostFtdcErrorIDType);
    ("ErrorMsg", TThostFtdcErrorMsgType);
    ("LongCustomerName", TThostFtdcLongIndividualNameType) ].

Definition CThostFtdcChangeAccountField : struct :=
  [ ("TradeCode", TThostFtdcTradeCodeType);
    ("BankID", TThostFtdcBankIDType);
    ("BankBranchID", TThostFtdcBankBrchIDType);
    ("BrokerID", TThostFtdcBrokerIDType);
    ("BrokerBranchID", TThostFtdcFutureBranchIDType);
    ("TradeDate", TThostFtdcTradeDateType);
    ("TradeTime", TThostFtdcTradeTimeType);
    ("BankSerial", TThostFtdcBankSerialType);
    ("TradingDay", TThostFtdcTradeDateType);
    ("PlateSerial", TThostFtdcSerialType);
    ("LastFragment", TThostFtdcLastFragmentType);
    ("SessionID", TThostFtdcSessionIDType);
    ("CustomerName", TThostFtdcIndividualNameType);
    ("IdCardType", TThostFtdcIdCardTypeType);
    ("IdentifiedCardNo", TThostFtdcIdentifiedCardNoType);
    ("Gender", TThostFtdcGenderType);
    ("CountryCode", TThostFtdcCountryCodeType);
    ("CustType", TThostFtdcCustTypeType);
    ("Address", TThostFtdcAddressType);
    ("ZipCode", TThostFtdcZipCodeType);
    ("Telephone", TThostFtdcTelephoneType);
    ("MobilePhone", TThostFtdcMobilePhoneType);
    ("Fax", TThostFtdcFaxType);
    ("EMail", TThostFtdcEMailType);
    ("MoneyAccountStatus", TThostFtdcMoneyAccountStatusType);
    ("BankAccount", TThostFtdcBankAccountType);
    ("BankPassWord", TThostFtdcPasswordType);
    ("NewBankAccount", TThostFtdcBankAccountType);
    ("NewBankPassWord", TThostFtdcPasswordType);
    ("AccountID", TThostFtdcAccountIDType);
    ("Password", TThostFtdcPasswordType);
    ("BankAccType", TThostFtdcBankAccTypeType);
    ("InstallID", TThostFtdcInstallIDType);
    ("VerifyCertNoFlag", TThostFtdcYesNoIndicatorType);
    ("CurrencyID", TThostFtdcCurrencyIDType);
    ("BrokerIDByBank", TThostFtdcBankCodingForFutureType);
    ("BankPwdFlag", TThostFtdcPwdFlagType);
    ("SecuPwdFlag", TThostFtdcPwdFlagType);
    ("TID", TThostFtdcTIDType);
    ("Digest", TThostFtdcDigestType);
    ("ErrorID", TThostFtdcErrorIDType);
    ("ErrorMsg", TThostFtdcErrorMsgType);
    ("LongCustomerName", TThostFtdcLongIndividualNameType) ].

Definition CThostFtdcSecAgentACIDMapField : struct :=
  [ ("BrokerID", TThostFtdcBrokerIDType);
    ("UserID", TThostFtdcUserIDType);
    ("AccountID", TThostFtdcAccountIDType);
    ("CurrencyID", TThostFtdcCurrencyIDType);
    ("BrokerSecAgentID", TThostFtdcAccountIDType) ].

Definition CThostFtdcQrySecAgentACIDMapField : struct :=
  [ ("BrokerID", TThostFtdcBrokerIDType);
    ("UserID", TThostFtdcUserIDType);
    ("AccountID", TThostFtdcAccountIDType);
    ("CurrencyID", TThostFtdcCurrencyIDType) ].

Definition CThostFtdcUserRightsAssignField : struct :=
  [ ("BrokerID", TThostFtdcBrokerIDType);
    ("UserID", TThostFtdcUserIDType);
    ("DRIdentityID", TThostFtdcDRIdentityIDType) ].

Definition CThostFtdcBrokerUserRightAssignField : struct :=
  [ ("BrokerID", TThostFtdcBrokerIDType);
    ("DRIdentityID", TThostFtdcDRIdentityIDType);
    ("Tradeable", TThostFtdcBoolType) ].

Definition CThostFtdcDRTransferField : struct :=
  [ ("OrigDRIdentityID", TThostFtdcDRIdentityIDType);
    ("DestDRIdentityID", TThostFtdcDRIdentityIDType);
    ("OrigBrokerID", TThostFtdcBrokerIDType);
    ("DestBrokerID", TThostFtdcBrokerIDType) ].

Definition CThostFtdcFensUserInfoField : struct :=
  [ ("BrokerID", TThostFtdcBrokerIDType);
    ("UserID", TThostFtdcUserIDType);
    ("LoginMode", TThostFtdcLoginModeType) ].

Definition CThostFtdcCurrTransferIdentityField : struct :=
  [ ("IdentityID", TThostFtdcDRIdentityIDType) ].

Definition CThostFtdcLoginForbiddenUserField : struct :=
  [ ("BrokerID", TThostFtdcBrokerIDType);
    ("UserID", TThostFtdcUserIDType);
    ("reserve1", TThostFtdcOldIPAddressType);
    ("IPAddress", TThostFtdcIPAddressType) ].

Definition CThostFtdcQryLoginForbiddenUserField : struct :=
  [ ("BrokerID", TThostFtdcBrokerIDType);
    ("UserID", TThostFtdcUserIDType) ].

Definition CThostFtdcTradingAccountReserveField : struct :=
  [ ("BrokerID", TThostFtdcBrokerIDType);
    ("AccountID", TThostFtdcAccountIDType);
    ("Reserve", TThostFtdcMoneyType);
    ("CurrencyID", TThostFtdcCurrencyIDType) ].

Definition CThostFtdcQryLoginForbiddenIPField : struct :=
  [ ("reserve1", TThostFtdcOldIPAddressType);
    ("IPAddress", TThostFtdcIPAddressType) ].

Definition CThostFtdcQryIPListField : struct :=
  [ ("reserve1", TThostFtdcOldIPAddressType);
    ("IPAddress", TThostFtdcIPAddressType) ].

Definition CThostFtdcQryUserRightsAssignField : struct :=
  [ ("BrokerID", TThostFtdcBrokerIDType);
    ("UserID", TThostFtdcUserIDType) ].

Definition CThostFtdcReserveOpenAccountConfirmField : struct :=
  [ ("TradeCode", TThostFtdcTradeCodeType);
    ("BankID", TThostFtdcBankIDType);
    ("BankBranchID", TThostFtdcBankBrchIDType);
    ("BrokerID", TThostFtdcBrokerIDType);
    ("BrokerBranchID", TThostFtdcFutureBranchIDType);
    ("TradeDate", TThostFtdcTradeDateType);
    ("TradeTime", TThostFtdcTradeTimeType);
    ("BankSerial", TThostFtdcBankSerialType);
    ("TradingDay", TThostFtdcTradeDateType);
    ("PlateSerial", TThostFtdcSerialType);
    ("LastFragment", TThostFtdcLastFragmentType);
    ("SessionID", TThostFtdcSessionIDType);
    ("CustomerName", TThostFtdcLongIndividualNameType);
    ("IdCardType", TThostFtdcIdCardTypeType);
    ("IdentifiedCardNo", TThostFtdcIdentifiedCardNoType);
    ("Gender", TThostFtdcGenderType);
    ("CountryCode", TThostFtdcCountryCodeType);
    ("CustType", TThostFtdcCustTypeType);
    ("Address", TThostFtdcAddressType);
    ("ZipCode", TThostFtdcZipCodeType);
    ("Telephone", TThostFtdcTelephoneType);
    ("MobilePhone", TThostFtdcMobilePhoneType);
    ("Fax", TThostFtdcFaxType);
    ("EMail", TThostFtdcEMailType);
    ("MoneyAccountStatus", TThostFtdcMoneyAccountStatusType);
    ("BankAccount", TThostFtdcBankAccountType);
    ("BankPassWord", TThostFtdcPasswordType);
    ("InstallID", TThostFtdcInstallIDType);
    ("VerifyCertNoFlag", TThostFtdcYesNoIndicatorType);
    ("CurrencyID", TThostFtdcCurrencyIDType);
    ("Digest", TThostFtdcDigestType);
    ("BankAccType", TThostFtdcBankAccTypeType);
    ("BrokerIDByBank", TThostFtdcBankCodingForFutureType);
    ("TID", TThostFtdcTIDType);
    ("AccountID", TThostFtdcAccountIDType);
    ("Password", TThostFtdcPasswordType);
    ("BankReserveOpenSeq", TThostFtdcBankSerialType);
    ("BookDate", TThostFtdcTradeDateType);
    ("BookPsw", TThostFtdcPasswordType);
    ("ErrorID", TThostFtdcErrorIDType);
    ("ErrorMsg", TThostFtdcErrorMsgType) ].

Definition CThostFtdcReserveOpenAccountField : struct :=
  [ ("TradeCode", TThostFtdcTradeCodeType);
    ("BankID", TThostFtdcBankIDType);
    ("BankBranchID", TThostFtdcBankBrchIDType);
    ("BrokerID", TThostFtdcBrokerIDType);
    ("BrokerBranchID", TThostFtdcFutureBranchIDType);
    ("TradeDate", TThostFtdcTradeDateType);
    ("TradeTime", TThostFtdcTradeTimeType);
    ("BankSerial", TThostFtdcBankSerialType);
    ("TradingDay", TThostFtdcTradeDateType);
    ("PlateSerial", TThostFtdcSerialType);
    ("LastFragment", TThostFtdcLastFragmentType);
    ("SessionID", TThostFtdcSessionIDType);
    ("CustomerName", TThostFtdcLongIndividualNameType);
    ("IdCardType", TThostFtdcIdCardTypeType);
    ("IdentifiedCardNo", TThostFtdcIdentifiedCardNoType);
    ("Gender", TThostFtdcGenderType);
    ("CountryCode", TThostFtdcCountryCodeType);
    ("CustType", TThostFtdcCustTypeType);
    ("Address", TThostFtdcAddressType);
    ("ZipCode", TThostFtdcZipCodeType);
    ("Telephone", TThostFtdcTelephoneType);
    ("MobilePhone", TThostFtdcMobilePhoneType);
    ("Fax", TThostFtdcFaxType);
    ("EMail", TThostFtdcEMailType);
    ("MoneyAccountStatus", TThostFtdcMoneyAccountStatusType);
    ("BankAccount", TThostFtdcBankAccountType);
    ("BankPassWord", TThostFtdcPasswordType);
    ("InstallID", TThostFtdcInstallIDType);
    ("VerifyCertNoFlag", TThostFtdcYesNoIndicatorType);
    ("CurrencyID", TThostFtdcCurrencyIDType);
    ("Digest", TThostFtdcDigestType);
    ("BankAccType", TThostFtdcBankAccTypeType);
    ("BrokerIDByBank", TThostFtdcBankCodingForFutureType);
    ("TID", TThostFtdcTIDType);
    ("ReserveOpenAccStas", TThostFtdcReserveOpenAccStasType);
    ("ErrorID", TThostFtdcErrorIDType);
    ("ErrorMsg", TThostFtdcErrorMsgType) ].

Definition CThostFtdcAccountPropertyField : struct :=
  [ ("BrokerID", TThostFtdcBrokerIDType);
    ("AccountID", TThostFtdcAccountIDType);
    ("BankID", TThostFtdcBankIDType);
    ("BankAccount", TThostFtdcBankAccountType);
    ("OpenName", TThostFtdcInvestorFullNameType);
    ("OpenBank", TThostFtdcOpenBankType);
    ("IsActive", TThostFtdcBoolType);
    ("AccountSourceType", TThostFtdcAccountSourceTypeType);
    ("OpenDate", TThostFtdcDateType);
    ("CancelDate", TThostFtdcDateType);
    ("OperatorID", TThostFtdcOperatorIDType);
    ("OperateDate", TThostFtdcDateType);
    ("OperateTime", TThostFtdcTimeType);
    ("CurrencyID", TThostFtdcCurrencyIDType) ].

Definition CThostFtdcQryCurrDRIdentityField : struct :=
  [ ("DRIdentityID", TThostFtdcDRIdentityIDType) ].

Definition CThostFtdcCurrDRIdentityField : struct :=
  [ ("DRIdentityID", TThostFtdcDRIdentityIDType) ].

Definition CThostFtdcQrySecAgentCheckModeField : struct :=
  [ ("BrokerID", TThostFtdcBrokerIDType);
    ("InvestorID", TThostFtdcInvestorIDType) ].

Definition CThostFtdcQrySecAgentTradeInfoField : struct :=
  [ ("BrokerID", TThostFtdcBrokerIDType);
    ("BrokerSecAgentID", TThostFtdcAccountIDType) ].

Definition CThostFtdcReqUserAuthMethodField : struct :=
  [ ("TradingDay", TThostFtdcDateType);
    ("BrokerID", TThostFtdcBrokerIDType);
    ("UserID", TThostFtdcUserIDType) ].

Definition CThostFtdcRspUserAuthMethodField : struct :=
  [ ("UsableAuthMethod", TThostFtdcCurrentAuthMethodType) ].

Definition CThostFtdcReqGenUserCaptchaField : struct :=
  [ ("TradingDay", TThostFtdcDateType);
    ("BrokerID", TThostFtdcBrokerIDType);
    ("UserID", TThostFtdcUserIDType) ].

Definition CThostFtdcRspGenUserCaptchaField : struct :=
  [ ("BrokerID", TThostFtdcBrokerIDType);
    ("UserID", TThostFtdcUserIDType);
    ("CaptchaInfoLen", TThostFtdcCaptchaInfoLenType);
    ("CaptchaInfo", TThostFtdcCaptchaInfoType) ].

Definition CThostFtdcReqGenUserTextField : struct :=
  [ ("TradingDay", TThostFtdcDateType);
    ("BrokerID", TThostFtdcBrokerIDType);
    ("UserID", TThostFtdcUserIDType) ].

Definition CThostFtdcRspGenUserTextField : struct :=
  [ ("UserTextSeq", TThostFtdcUserTextSeqType) ].

Definition CThostFtdcReqUserLoginWithCaptchaField : struct :=
  [ ("TradingDay", TThostFtdcDateType);
    ("BrokerID", TThostFtdcBrokerIDType);
    ("UserID", TThostFtdcUserIDType);
    ("Password", TThostFtdcPasswordType);
    ("UserProductInfo", TThostFtdcProductInfoType);
    ("InterfaceProductInfo", TThostFtdcProductInfoType);
    ("ProtocolInfo", TThostFtdcProtocolInfoType);
    ("MacAddress", TThostFtdcMacAddressType);
    ("reserve1", TThostFtdcOldIPAddressType);
    ("LoginRemark", TThostFtdcLoginRemarkType);
    ("Captcha", TThostFtdcPasswordType);
    ("ClientIPPort", TThostFtdcIPPortType);
    ("ClientIPAddress", TThostFtdcIPAddressType) ].

Definition CThostFtdcReqUserLoginWithTextField : struct :=
  [ ("TradingDay", TThostFtdcDateType);
    ("BrokerID", TThostFtdcBrokerIDType);
    ("UserID", TThostFtdcUserIDType);
    ("Password", TThostFtdcPasswordType);
    ("UserProductInfo", TThostFtdcProductInfoType);
    ("InterfaceProductInfo", TThostFtdcProductInfoType);
    ("ProtocolInfo", TThostFtdcProtocolInfoType);
    ("MacAddress", TThostFtdcMacAddressType);
    ("reserve1", TThostFtdcOldIPAddressType);
    ("LoginRemark", TThostFtdcLoginRemarkType);
    ("Text", TThostFtdcPasswordType);
    ("ClientIPPort", TThostFtdcIPPortType);
    ("ClientIPAddress", TThostFtdcIPAddressType) ].

Definition CThostFtdcReqUserLoginWithOTPField : struct :=
  [ ("TradingDay", TThostFtdcDateType);
    ("BrokerID", TThostFtdcBrokerIDType);
    ("UserID", TThostFtdcUserIDType);
    ("Password", TThostFtdcPasswordType);
    ("UserProductInfo", TThostFtdcProductInfoType);
    ("InterfaceProductInfo", TThostFtdcProductInfoType);
    ("ProtocolInfo", TThostFtdcProtocolInfoType);
    ("MacAddress", TThostFtdcMacAddressType);
    ("reserve1", TThostFtdcOldIPAddressType);
    ("LoginRemark", TThostFtdcLoginRemarkType);
    ("OTPPassword", TThostFtdcPasswordType);
    ("ClientIPPort", TThostFtdcIPPortType);
    ("ClientIPAddress", TThostFtdcIPAddressType) ].

Definition CThostFtdcReqApiHandshakeField : struct :=
  [ ("CryptoKeyVersion", TThostFtdcCryptoKeyVersionType) ].

Definition CThostFtdcRspApiHandshakeField : struct :=
  [ ("FrontHandshakeDataLen", TThostFtdcHandshakeDataLenType);
    ("FrontHandshakeData", TThostFtdcHandshakeDataType);
    ("IsApiAuthEnabled", TThostFtdcBoolType) ].

Definition CThostFtdcReqVerifyApiKeyField : struct :=
  [ ("ApiHandshakeDataLen", TThostFtdcHandshakeDataLenType);
    ("ApiHandshakeData", TThostFtdcHandshakeDataType) ].

Definition CThostFtdcDepartmentUserField : struct :=
  [ ("BrokerID", TThostFtdcBrokerIDType);
    ("UserID", TThostFtdcUserIDType);
    ("InvestorRange", TThostFtdcDepartmentRangeType);
    ("InvestorID", TThostFtdcInvestorIDType) ].

Definition CThostFtdcQueryFreqField : struct :=
  [ ("QueryFreq", TThostFtdcQueryFreqType);
    ("FTDPkgFreq", TThostFtdcQueryFreqType) ].

Definition CThostFtdcAuthForbiddenIPField : struct :=
  [ ("IPAddress", TThostFtdcIPAddressType) ].

Definition CThostFtdcQryAuthForbiddenIPField : struct :=
  [ ("IPAddress", TThostFtdcIPAddressType) ].

Definition CThostFtdcSyncDelaySwapFrozenField : struct :=
  [ ("DelaySwapSeqNo", TThostFtdcDepositSeqNoType);
    ("BrokerID", TThostFtdcBrokerIDType);
    ("InvestorID", TThostFtdcInvestorIDType);
    ("FromCurrencyID", TThostFtdcCurrencyIDType);
    ("FromRemainSwap", TThostFtdcMoneyType);
    ("IsManualSwap", TThostFtdcBoolType) ].

Definition CThostFtdcUserSystemInfoField : struct :=
  [ ("BrokerID", TThostFtdcBrokerIDType);
    ("UserID", TThostFtdcUserIDType);
    ("ClientSystemInfoLen", TThostFtdcSystemInfoLenType);
    ("ClientSystemInfo", TThostFtdcClientSystemInfoType);
    ("reserve1", TThostFtdcOldIPAddressType);
    ("ClientIPPort", TThostFtdcIPPortType);
    ("ClientLoginTime", TThostFtdcTimeType);
    ("ClientAppID", TThostFtdcAppIDType);
    ("ClientPublicIP", TThostFtdcIPAddressType);
    ("ClientLoginRemark", TThostFtdcClientLoginRemarkType) ].

Definition CThostFtdcAuthUserIDField : struct :=
  [ ("BrokerID", TThostFtdcBrokerIDType);
    ("AppID", TThostFtdcAppIDType);
    ("UserID", TThostFtdcUserIDType);
    ("AuthType", TThostFtdcAuthTypeType) ].

Definition CThostFtdcAuthIPField : struct :=
  [ ("BrokerID", TThostFtdcBrokerIDType);
    ("AppID", TThostFtdcAppIDType);
    ("IPAddress", TThostFtdcIPAddressType) ].

Definition CThostFtdcQryClassifiedInstrumentField : struct :=
  [ ("InstrumentID", TThostFtdcInstrumentIDType);
    ("ExchangeID", TThostFtdcExchangeIDType);
    ("ExchangeInstID", TThostFtdcExchangeInstIDType);
    ("ProductID", TThostFtdcInstrumentIDType);
    ("TradingType", TThostFtdcTradingTypeType);
    ("ClassType", TThostFtdcClassTypeType) ].

Definition CThostFtdcQryCombPromotionParamField : struct :=
  [ ("ExchangeID", TThostFtdcExchangeIDType);
    ("InstrumentID", TThostFtdcInstrumentIDType) ].

Definition CThostFtdcCombPromotionParamField : struct :=
  [ ("ExchangeID", TThostFtdcExchangeIDType);
    ("InstrumentID", TThostFtdcInstrumentIDType);
    ("CombHedgeFlag", TThostFtdcCombHedgeFlagType);
    ("Xparameter", TThostFtdcDiscountRatioType) ].

Definition CThostFtdcReqUserLoginSMField : struct :=
  [ ("TradingDay", TThostFtdcDateType);
    ("BrokerID", TThostFtdcBrokerIDType);
    ("UserID", TThostFtdcUserIDType);
    ("Password", TThostFtdcPasswordType);
    ("UserProductInfo", TThostFtdcProductInfoType);
    ("InterfaceProductInfo", TThostFtdcProductInfoType);
    ("ProtocolInfo", TThostFtdcProtocolInfoType);
    ("MacAddress", TThostFtdcMacAddressType);
    ("OneTimePassword", TThostFtdcPasswordType);
    ("reserve1", TThostFtdcOldIPAddressType);
    ("LoginRemark", TThostFtdcLoginRemarkType);
    ("ClientIPPort", TThostFtdcIPPortType);
    ("ClientIPAddress", TThostFtdcIPAddressType);
    ("BrokerName", TThostFtdcBrokerNameType);
    ("AuthCode", TThostFtdcAuthCodeType);
    ("AppID", TThostFtdcAppIDType);
    ("PIN", TThostFtdcPasswordType) ].

Definition CThostFtdcQryRiskSettleInvstPositionField : struct :=
  [ ("BrokerID", TThostFtdcBrokerIDType);
    ("InvestorID", TThostFtdcInvestorIDType);
    ("InstrumentID", TThostFtdcInstrumentIDType) ].

Definition CThostFtdcQryRiskSettleProductStatusField : struct :=
  [ ("ProductID", TThostFtdcInstrumentIDType) ].

Definition CThostFtdcRiskSettleInvstPositionField : struct :=
  [ ("InstrumentID", TThostFtdcInstrumentIDType);
    ("BrokerID", TThostFtdcBrokerIDType);
    ("InvestorID", TThostFtdcInvestorIDType);
    ("PosiDirection", TThostFtdcPosiDirectionType);
    ("HedgeFlag", TThostFtdcHedgeFlagType);
    ("PositionDate", TThostFtdcPositionDateType);
    ("YdPosition", TThostFtdcVolumeType);
    ("Position", TThostFtdcVolumeType);
    ("LongFrozen", TThostFtdcVolumeType);
    ("ShortFrozen", TThostFtdcVolumeType);
    ("LongFrozenAmount", TThostFtdcMoneyType);
    ("ShortFrozenAmount", TThostFtdcMoneyType);
    ("OpenVolume", TThostFtdcVolumeType);
    ("CloseVolume", TThostFtdcVolumeType);
    ("OpenAmount", TThostFtdcMoneyType);
    ("CloseAmount", TThostFtdcMoneyType);
    ("PositionCost", TThostFtdcMoneyType);
    ("PreMargin", TThostFtdcMoneyType);
    ("UseMargin", TThostFtdcMoneyType);
    ("FrozenMargin", TThostFtdcMoneyType);
    ("FrozenCash", TThostFtdcMoneyType);
    ("FrozenCommission", TThostFtdcMoneyType);
    ("CashIn", TThostFtdcMoneyType);
    ("Commission", TThostFtdcMoneyType);
    ("CloseProfit", TThostFtdcMoneyType);
    ("PositionProfit", TThostFtdcMoneyType);
    ("PreSettlementPrice", TThostFtdcPriceType);
    ("SettlementPrice", TThostFtdcPriceType);
    ("TradingDay", TThostFtdcDateType);
    ("SettlementID", TThostFtdcSettlementIDType);
    ("OpenCost", TThostFtdcMoneyType);
    ("ExchangeMargin", TThostFtdcMoneyType);
    ("CombPosition", TThostFtdcVolumeType);
    ("CombLongFrozen", TThostFtdcVolumeType);
    ("CombShortFrozen", TThostFtdcVolumeType);
    ("CloseProfitByDate", TThostFtdcMoneyType);
    ("CloseProfitByTrade", TThostFtdcMoneyType);
    ("TodayPosition", TThostFtdcVolumeType);
    ("MarginRateByMoney", TThostFtdcRatioType);
    ("MarginRateByVolume", TThostFtdcRatioType);
    ("StrikeFrozen", TThostFtdcVolumeType);
    ("StrikeFrozenAmount", TThostFtdcMoneyType);
    ("AbandonFrozen", TThostFtdcVolumeType);
    ("ExchangeID", TThostFtdcExchangeIDType);
    ("YdStrikeFrozen", TThostFtdcVolumeType);
    ("InvestUnitID", TThostFtdcInvestUnitIDType);
    ("PositionCostOffset", TThostFtdcMoneyType);
    ("TasPosition", TThostFtdcVolumeType);
    ("TasPositionCost", TThostFtdcMoneyType) ].

Definition CThostFtdcRiskSettleProductStatusField : struct :=
  [ ("ExchangeID", TThostFtdcExchangeIDType);
    ("ProductID", TThostFtdcInstrumentIDType);
    ("ProductStatus", TThostFtdcProductStatusType) ].

Definition CThostFtdcSyncDeltaInfoField : struct :=
  [ ("SyncDeltaSequenceNo", TThostFtdcSequenceNoType);
    ("SyncDeltaStatus", TThostFtdcSyncDeltaStatusType);
    ("SyncDescription", TThostFtdcSyncDescriptionType);
    ("IsOnlyTrdDelta", TThostFtdcBoolType) ].

Definition CThostFtdcSyncDeltaProductStatusField : struct :=
  [ ("SyncDeltaSequenceNo", TThostFtdcSequenceNoType);
    ("ExchangeID", TThostFtdcExchangeIDType);
    ("ProductID", TThostFtdcInstrumentIDType);
    ("ProductStatus", TThostFtdcProductStatusType) ].

Definition CThostFtdcSyncDeltaInvstPosDtlField : struct :=
  [ ("InstrumentID", TThostFtdcInstrumentIDType);
    ("BrokerID", TThostFtdcBrokerIDType);
    ("InvestorID", TThostFtdcInvestorIDType);
    ("HedgeFlag", TThostFtdcHedgeFlagType);
    ("Direction", TThostFtdcDirectionType);
    ("OpenDate", TThostFtdcDateType);
    ("TradeID", TThostFtdcTradeIDType);
    ("Volume", TThostFtdcVolumeType);
    ("OpenPrice", TThostFtdcPriceType);
    ("TradingDay", TThostFtdcDateType);
    ("SettlementID", TThostFtdcSettlementIDType);
    ("TradeType", TThostFtdcTradeTypeType);
    ("CombInstrumentID", TThostFtdcInstrumentIDType);
    ("ExchangeID", TThostFtdcExchangeIDType);
    ("CloseProfitByDate", TThostFtdcMoneyType);
    ("CloseProfitByTrade", TThostFtdcMoneyType);
    ("PositionProfitByDate", TThostFtdcMoneyType);
    ("PositionProfitByTrade", TThostFtdcMoneyType);
    ("Margin", TThostFtdcMoneyType);
    ("ExchMargin", TThostFtdcMoneyType);
    ("MarginRateByMoney", TThostFtdcRatioType);
    ("MarginRateByVolume", TThostFtdcRatioType);
    ("LastSettlementPrice", TThostFtdcPriceType);
    ("SettlementPrice", TThostFtdcPriceType);
    ("CloseVolume", TThostFtdcVolumeType);
    ("CloseAmount", TThostFtdcMoneyType);
    ("TimeFirstVolume", TThostFtdcVolumeType);
    ("SpecPosiType", TThostFtdcSpecPosiTypeType);
    ("ActionDirection", TThostFtdcActionDirectionType);
    ("SyncDeltaSequenceNo", TThostFtdcSequenceNoType) ].

Definition CThostFtdcSyncDeltaInvstPosCombDtlField : struct :=
  [ ("TradingDay", TThostFtdcDateType);
    ("OpenDate", TThostFtdcDateType);
    ("ExchangeID", TThostFtdcExchangeIDType);
    ("SettlementID", TThostFtdcSettlementIDType);
    ("BrokerID", TThostFtdcBrokerIDType);
    ("InvestorID", TThostFtdcInvestorIDType);
    ("ComTradeID", TThostFtdcTradeIDType);
    ("TradeID", TThostFtdcTradeIDType);
    ("InstrumentID", TThostFtdcInstrumentIDType);
    ("HedgeFlag", TThostFtdcHedgeFlagType);
    ("Direction", TThostFtdcDirectionType);
    ("TotalAmt", TThostFtdcVolumeType);
    ("Margin", TThostFtdcMoneyType);
    ("ExchMargin", TThostFtdcMoneyType);
    ("MarginRateByMoney", TThostFtdcRatioType);
    ("MarginRateByVolume", TThostFtdcRatioType);
    ("LegID", TThostFtdcLegIDType);
    ("LegMultiple", TThostFtdcLegMultipleType);
    ("TradeGroupID", TThostFtdcTradeGroupIDType);
    ("ActionDirection", TThostFtdcActionDirectionType);
    ("SyncDeltaSequenceNo", TThostFtdcSequenceNoType) ].

Definition CThostFtdcSyncDeltaTradingAccountField : struct :=
  [ ("BrokerID", TThostFtdcBrokerIDType);
    ("AccountID", TThostFtdcAccountIDType);
    ("PreMortgage", TThostFtdcMoneyType);
    ("PreCredit", TThostFtdcMoneyType);
    ("PreDeposit", TThostFtdcMoneyType);
    ("PreBalance", TThostFtdcMoneyType);
    ("PreMargin", TThostFtdcMoneyType);
    ("InterestBase", TThostFtdcMoneyType);
    ("Interest", TThostFtdcMoneyType);
    ("Deposit", TThostFtdcMoneyType);
    ("Withdraw", TThostFtdcMoneyType);
    ("FrozenMargin", TThostFtdcMoneyType);
    ("FrozenCash", TThostFtdcMoneyType);
    ("FrozenCommission", TThostFtdcMoneyType);
    ("CurrMargin", TThostFtdcMoneyType);
    ("CashIn", TThostFtdcMoneyType);
    ("Commission", TThostFtdcMoneyType);
    ("CloseProfit", TThostFtdcMoneyType);
    ("PositionProfit", TThostFtdcMoneyType);
    ("Balance", TThostFtdcMoneyType);
    ("Available", TThostFtdcMoneyType);
    ("WithdrawQuota", TThostFtdcMoneyType);
    ("Reserve", TThostFtdcMoneyType);
    ("TradingDay", TThostFtdcDateType);
    ("SettlementID", TThostFtdcSettlementIDType);
    ("Credit", TThostFtdcMoneyType);
    ("Mortgage", TThostFtdcMoneyType);
    ("ExchangeMargin", TThostFtdcMoneyType);
    ("DeliveryMargin", TThostFtdcMoneyType);
    ("ExchangeDeliveryMargin", TThostFtdcMoneyType);
    ("ReserveBalance", TThostFtdcMoneyType);
    ("CurrencyID", TThostFtdcCurrencyIDType);
    ("PreFundMortgageIn", TThostFtdcMoneyType);
    ("PreFundMortgageOut", TThostFtdcMoneyType);
    ("FundMortgageIn", TThostFtdcMoneyType);
    ("FundMortgageOut", TThostFtdcMoneyType);
    ("FundMortgageAvailable", TThostFtdcMoneyType);
    ("MortgageableFund", TThostFtdcMoneyType);
    ("SpecProductMargin", TThostFtdcMoneyType);
    ("SpecProductFrozenMargin", TThostFtdcMoneyType);
    ("SpecProductCommission", TThostFtdcMoneyType);
    ("SpecProductFrozenCommission", TThostFtdcMoneyType);
    ("SpecProductPositionProfit", TThostFtdcMoneyType);
    ("SpecProductCloseProfit", TThostFtdcMoneyType);
    ("SpecProductPositionProfitByAlg", TThostFtdcMoneyType);
    ("SpecProductExchangeMargin", TThostFtdcMoneyType);
    ("FrozenSwap", TThostFtdcMoneyType);
    ("RemainSwap", TThostFtdcMoneyType);
    ("SyncDeltaSequenceNo", TThostFtdcSequenceNoType) ].

Definition CThostFtdcSyncDeltaInitInvstMarginField : struct :=
  [ ("BrokerID", TThostFtdcBrokerIDType);
    ("InvestorID", TThostFtdcInvestorIDType);
    ("LastRiskTotalInvstMargin", TThostFtdcMoneyType);
    ("LastRiskTotalExchMargin", TThostFtdcMoneyType);
    ("ThisSyncInvstMargin", TThostFtdcMoneyType);
    ("ThisSyncExchMargin", TThostFtdcMoneyType);
    ("RemainRiskInvstMargin", TThostFtdcMoneyType);
    ("RemainRiskExchMargin", TThostFtdcMoneyType);
    ("LastRiskSpecTotalInvstMargin", TThostFtdcMoneyType);
    ("LastRiskSpecTotalExchMargin", TThostFtdcMoneyType);
    ("ThisSyncSpecInvstMargin", TThostFtdcMoneyType);
    ("ThisSyncSpecExchMargin", TThostFtdcMoneyType);
    ("RemainRiskSpecInvstMargin", TThostFtdcMoneyType);
    ("RemainRiskSpecExchMargin", TThostFtdcMoneyType);
    ("SyncDeltaSequenceNo", TThostFtdcSequenceNoType) ].

Definition CThostFtdcSyncDeltaDceCombInstrumentField : struct :=
  [ ("CombInstrumentID", TThostFtdcInstrumentIDType);
    ("ExchangeID", TThostFtdcExchangeIDType);
    ("ExchangeInstID", TThostFtdcExchangeInstIDType);
    ("TradeGroupID", TThostFtdcTradeGroupIDType);
    ("CombHedgeFlag", TThostFtdcHedgeFlagType);
    ("CombinationType", TThostFtdcDceCombinationTypeType);
    ("Direction", TThostFtdcDirectionType);
    ("ProductID", TThostFtdcInstrumentIDType);
    ("Xparameter", TThostFtdcDiscountRatioType);
    ("ActionDirection", TThostFtdcActionDirectionType);
    ("SyncDeltaSequenceNo", TThostFtdcSequenceNoType) ].

Definition CThostFtdcSyncDeltaInvstMarginRateField : struct :=
  [ ("InstrumentID", TThostFtdcInstrumentIDType);
    ("InvestorRange", TThostFtdcInvestorRangeType);
    ("BrokerID", TThostFtdcBrokerIDType);
    ("InvestorID", TThostFtdcInvestorIDType);
    ("HedgeFlag", TThostFtdcHedgeFlagType);
    ("LongMarginRatioByMoney", TThostFtdcRatioType);
    ("LongMarginRatioByVolume", TThostFtdcMoneyType);
    ("ShortMarginRatioByMoney", TThostFtdcRatioType);
    ("ShortMarginRatioByVolume", TThostFtdcMoneyType);
    ("IsRelative", TThostFtdcBoolType);
    ("ActionDirection", TThostFtdcActionDirectionType);
    ("SyncDeltaSequenceNo", TThostFtdcSequenceNoType) ].

Definition CThostFtdcSyncDeltaExchMarginRateField : struct :=
  [ ("BrokerID", TThostFtdcBrokerIDType);
    ("InstrumentID", TThostFtdcInstrumentIDType);
    ("HedgeFlag", TThostFtdcHedgeFlagType);
    ("LongMarginRatioByMoney", TThostFtdcRatioType);
    ("LongMarginRatioByVolume", TThostFtdcMoneyType);
    ("ShortMarginRatioByMoney", TThostFtdcRatioType);
    ("ShortMarginRatioByVolume", TThostFtdcMoneyType);
    ("ActionDirection", TThostFtdcActionDirectionType);
    ("SyncDeltaSequenceNo", TThostFtdcSequenceNoType) ].

Definition CThostFtdcSyncDeltaOptExchMarginField : struct :=
  [ ("BrokerID", TThostFtdcBrokerIDType);
    ("InstrumentID", TThostFtdcInstrumentIDType);
    ("SShortMarginRatioByMoney", TThostFtdcRatioType);
    ("SShortMarginRatioByVolume", TThostFtdcMoneyType);
    ("HShortMarginRatioByMoney", TThostFtdcRatioType);
    ("HShortMarginRatioByVolume", TThostFtdcMoneyType);
    ("AShortMarginRatioByMoney", TThostFtdcRatioType);
    ("AShortMarginRatioByVolume", TThostFtdcMoneyType);
    ("MShortMarginRatioByMoney", TThostFtdcRatioType);
    ("MShortMarginRatioByVolume", TThostFtdcMoneyType);
    ("ActionDirection", TThostFtdcActionDirectionType);
    ("SyncDeltaSequenceNo", TThostFtdcSequenceNoType) ].

Definition CThostFtdcSyncDeltaOptInvstMarginField : struct :=
  [ ("InstrumentID", TThostFtdcInstrumentIDType);
    ("InvestorRange", TThostFtdcInvestorRangeType);
    ("BrokerID", TThostFtdcBrokerIDType);
    ("InvestorID", TThostFtdcInvestorIDType);
    ("SShortMarginRatioByMoney", TThostFtdcRatioType);
    ("SShortMarginRatioByVolume", TThostFtdcMoneyType);
    ("HShortMarginRatioByMoney", TThostFtdcRatioType);
    ("HShortMarginRatioByVolume", TThostFtdcMoneyType);
    ("AShortMarginRatioByMoney", TThostFtdcRatioType);
    ("AShortMarginRatioByVolume", TThostFtdcMoneyType);
    ("IsRelative", TThostFtdcBoolType);
    ("MShortMarginRatioByMoney", TThostFtdcRatioType);
    ("MShortMarginRatioByVolume", TThostFtdcMoneyType);
    ("ActionDirection", TThostFtdcActionDirectionType);
    ("SyncDeltaSequenceNo", TThostFtdcSequenceNoType) ].

Definition CThostFtdcSyncDeltaInvstMarginRateULField : struct :=
  [ ("InstrumentID", TThostFtdcInstrumentIDType);
    ("InvestorRange", TThostFtdcInvestorRangeType);
    ("BrokerID", TThostFtdcBrokerIDType);
    ("InvestorID", TThostFtdcInvestorIDType);
    ("HedgeFlag", TThostFtdcHedgeFlagType);
    ("LongMarginRatioByMoney", TThostFtdcRatioType);
    ("LongMarginRatioByVolume", TThostFtdcMoneyType);
    ("ShortMarginRatioByMoney", TThostFtdcRatioType);
    ("ShortMarginRatioByVolume", TThostFtdcMoneyType);
    ("ActionDirection", TThostFtdcActionDirectionType);
    ("SyncDeltaSequenceNo", TThostFtdcSequenceNoType) ].

Definition CThostFtdcSyncDeltaOptInvstCommRateField : struct :=
  [ ("InstrumentID", TThostFtdcInstrumentIDType);
    ("InvestorRange", TThostFtdcInvestorRangeType);
    ("BrokerID", TThostFtdcBrokerIDType);
    ("InvestorID", TThostFtdcInvestorIDType);
    ("OpenRatioByMoney", TThostFtdcRatioType);
    ("OpenRatioByVolume", TThostFtdcRatioType);
    ("CloseRatioByMoney", TThostFtdcRatioType);
    ("CloseRatioByVolume", TThostFtdcRatioType);
    ("CloseTodayRatioByMoney", TThostFtdcRatioType);
    ("CloseTodayRatioByVolume", TThostFtdcRatioType);
    ("StrikeRatioByMoney", TThostFtdcRatioType);
    ("StrikeRatioByVolume", TThostFtdcRatioType);
    ("ActionDirection", TThostFtdcActionDirectionType);
    ("SyncDeltaSequenceNo", TThostFtdcSequenceNoType) ].

Definition CThostFtdcSyncDeltaInvstCommRateField : struct :=
  [ ("InstrumentID", TThostFtdcInstrumentIDType);
    ("InvestorRange", TThostFtdcInvestorRangeType);
    ("BrokerID", TThostFtdcBrokerIDType);
    ("InvestorID", TThostFtdcInvestorIDType);
    ("OpenRatioByMoney", TThostFtdcRatioType);
    ("OpenRatioByVolume", TThostFtdcRatioType);
    ("CloseRatioByMoney", TThostFtdcRatioType);
    ("CloseRatioByVolume", TThostFtdcRatioType);
    ("CloseTodayRatioByMoney", TThostFtdcRatioType);
    ("CloseTodayRatioByVolume", TThostFtdcRatioType);
    ("ActionDirection", TThostFtdcActionDirectionType);
    ("SyncDeltaSequenceNo", TThostFtdcSequenceNoType) ].

Definition CThostFtdcSyncDeltaProductExchRateField : struct :=
  [ ("ProductID", TThostFtdcInstrumentIDType);
    ("QuoteCurrencyID", TThostFtdcCurrencyIDType);
    ("ExchangeRate", TThostFtdcExchangeRateType);
    ("ActionDirection", TThostFtdcActionDirectionType);
    ("SyncDeltaSequenceNo", TThostFtdcSequenceNoType) ].

Definition CThostFtdcSyncDeltaDepthMarketDataField : struct :=
  [ ("TradingDay", TThostFtdcDateType);
    ("InstrumentID", TThostFtdcInstrumentIDType);
    ("ExchangeID", TThostFtdcExchangeIDType);
    ("ExchangeInstID", TThostFtdcExchangeInstIDType);
    ("LastPrice", TThostFtdcPriceType);
    ("PreSettlementPrice", TThostFtdcPriceType);
    ("PreClosePrice", TThostFtdcPriceType);
    ("PreOpenInterest", TThostFtdcLargeVolumeType);
    ("OpenPrice", TThostFtdcPriceType);
    ("HighestPrice", TThostFtdcPriceType);
    ("LowestPrice", TThostFtdcPriceType);
    ("Volume", TThostFtdcVolumeType);
    ("Turnover", TThostFtdcMoneyType);
    ("OpenInterest", TThostFtdcLargeVolumeType);
    ("ClosePrice", TThostFtdcPriceType);
    ("SettlementPrice", TThostFtdcPriceType);
    ("UpperLimitPrice", TThostFtdcPriceType);
    ("LowerLimitPrice", TThostFtdcPriceType);
    ("PreDelta", TThostFtdcRatioType);
    ("CurrDelta", TThostFtdcRatioType);
    ("UpdateTime", TThostFtdcTimeType);
    ("UpdateMillisec", TThostFtdcMillisecType);
    ("BidPrice1", TThostFtdcPriceType);
    ("BidVolume1", TThostFtdcVolumeType);
    ("AskPrice1", TThostFtdcPriceType);
    ("AskVolume1", TThostFtdcVolumeType);
    ("BidPrice2", TThostFtdcPriceType);
    ("BidVolume2", TThostFtdcVolumeType);
    ("AskPrice2", TThostFtdcPriceType);
    ("AskVolume2", TThostFtdcVolumeType);
    ("BidPrice3", TThostFtdcPriceType);
    ("BidVolume3", TThostFtdcVolumeType);
    ("AskPrice3", TThostFtdcPriceType);
    ("AskVolume3", TThostFtdcVolumeType);
    ("BidPrice4", TThostFtdcPriceType);
    ("BidVolume4", TThostFtdcVolumeType);
    ("AskPrice4", TThostFtdcPriceType);
    ("AskVolume4", TThostFtdcVolumeType);
    ("BidPrice5", TThostFtdcPriceType);
    ("BidVolume5", TThostFtdcVolumeType);
    ("AskPrice5", TThostFtdcPriceType);
    ("AskVolume5", TThostFtdcVolumeType);
    ("AveragePrice", TThostFtdcPriceType);
    ("ActionDay", TThostFtdcDateType);
    ("BandingUpperPrice", TThostFtdcPriceType);
    ("BandingLowerPrice", TThostFtdcPriceType);
    ("ActionDirection", TThostFtdcActionDirectionType);
    ("SyncDeltaSequenceNo", TThostFtdcSequenceNoType) ].

Definition CThostFtdcSyncDeltaIndexPriceField : struct :=
  [ ("BrokerID", TThostFtdcBrokerIDType);
    ("InstrumentID", TThostFtdcInstrumentIDType);
    ("ClosePrice", TThostFtdcPriceType);
    ("ActionDirection", TThostFtdcActionDirectionType);
    ("SyncDeltaSequenceNo", TThostFtdcSequenceNoType) ].

Definition CThostFtdcSyncDeltaEWarrantOffsetField : struct :=
  [ ("TradingDay", TThostFtdcTradeDateType);
    ("BrokerID", TThostFtdcBrokerIDType);
    ("InvestorID", TThostFtdcInvestorIDType);
    ("ExchangeID", TThostFtdcExchangeIDType);
    ("InstrumentID", TThostFtdcInstrumentIDType);
    ("Direction", TThostFtdcDirectionType);
    ("HedgeFlag", TThostFtdcHedgeFlagType);
    ("Volume", TThostFtdcVolumeType);
    ("ActionDirection", TThostFtdcActionDirectionType);
    ("SyncDeltaSequenceNo", TThostFtdcSequenceNoType) ].

Definition CThostFtdcSPBMFutureParameterField : struct :=
  [ ("TradingDay", TThostFtdcDateType);
    ("ExchangeID", TThostFtdcExchangeIDType);
    ("InstrumentID", TThostFtdcInstrumentIDType);
    ("ProdFamilyCode", TThostFtdcInstrumentIDType);
    ("Cvf", TThostFtdcVolumeMultipleType);
    ("TimeRange", TThostFtdcTimeRangeType);
    ("MarginRate", TThostFtdcRatioType);
    ("LockRateX", TThostFtdcRatioType);
    ("AddOnRate", TThostFtdcRatioType);
    ("PreSettlementPrice", TThostFtdcPriceType);
    ("AddOnLockRateX2", TThostFtdcRatioType) ].

Definition CThostFtdcSPBMOptionParameterField : struct :=
  [ ("TradingDay", TThostFtdcDateType);
    ("ExchangeID", TThostFtdcExchangeIDType);
    ("InstrumentID", TThostFtdcInstrumentIDType);
    ("ProdFamilyCode", TThostFtdcInstrumentIDType);
    ("Cvf", TThostFtdcVolumeMultipleType);
    ("DownPrice", TThostFtdcPriceType);
    ("Delta", TThostFtdcDeltaType);
    ("SlimiDelta", TThostFtdcDeltaType);
    ("PreSettlementPrice", TThostFtdcPriceType) ].

Definition CThostFtdcSPBMIntraParameterField : struct :=
  [ ("TradingDay", TThostFtdcDateType);
    ("ExchangeID", TThostFtdcExchangeIDType);
    ("ProdFamilyCode", TThostFtdcInstrumentIDType);
    ("IntraRateY", TThostFtdcRatioType);
    ("AddOnIntraRateY2", TThostFtdcRatioType) ].

Definition CThostFtdcSPBMInterParameterField : struct :=
  [ ("TradingDay", TThostFtdcDateType);
    ("ExchangeID", TThostFtdcExchangeIDType);
    ("SpreadId", TThostFtdcSpreadIdType);
    ("InterRateZ", TThostFtdcRatioType);
    ("Leg1ProdFamilyCode", TThostFtdcInstrumentIDType);
    ("Leg2ProdFamilyCode", TThostFtdcInstrumentIDType) ].

Definition CThostFtdcSyncSPBMParameterEndField : struct :=
  [ ("TradingDay", TThostFtdcDateType) ].

Definition CThostFtdcQrySPBMFutureParameterField : struct :=
  [ ("ExchangeID", TThostFtdcExchangeIDType);
    ("InstrumentID", TThostFtdcInstrumentIDType);
    ("ProdFamilyCode", TThostFtdcInstrumentIDType) ].

Definition CThostFtdcQrySPBMOptionParameterField : struct :=
  [ ("ExchangeID", TThostFtdcExchangeIDType);
    ("InstrumentID", TThostFtdcInstrumentIDType);
    ("ProdFamilyCode", TThostFtdcInstrumentIDType) ].

Definition CThostFtdcQrySPBMIntraParameterField : struct :=
  [ ("ExchangeID", TThostFtdcExchangeIDType);
    ("ProdFamilyCode", TThostFtdcInstrumentIDType) ].

Definition CThostFtdcQrySPBMInterParameterField : struct :=
  [ ("ExchangeID", TThostFtdcExchangeIDType);
    ("Leg1ProdFamilyCode", TThostFtdcInstrumentIDType);
    ("Leg2ProdFamilyCode", TThostFtdcInstrumentIDType) ].

Definition CThostFtdcSPBMPortfDefinitionField : struct :=
  [ ("ExchangeID", TThostFtdcExchangeIDType);
    ("PortfolioDefID", TThostFtdcPortfolioDefIDType);
    ("ProdFamilyCode", TThostFtdcInstrumentIDType);
    ("IsSPBM", TThostFtdcBoolType) ].

Definition CThostFtdcSPBMInvestorPortfDefField : struct :=
  [ ("ExchangeID", TThostFtdcExchangeIDType);
    ("BrokerID", TThostFtdcBrokerIDType);
    ("InvestorID", TThostFtdcInvestorIDType);
    ("PortfolioDefID", TThostFtdcPortfolioDefIDType) ].

Definition CThostFtdcInvestorPortfMarginRatioField : struct :=
  [ ("InvestorRange", TThostFtdcInvestorRangeType);
    ("BrokerID", TThostFtdcBrokerIDType);
    ("InvestorID", TThostFtdcInvestorIDType);
    ("ExchangeID", TThostFtdcExchangeIDType);
    ("MarginRatio", TThostFtdcRatioType);
    ("ProductGroupID", TThostFtdcProductIDType) ].

Definition CThostFtdcQrySPBMPortfDefinitionField : struct :=
  [ ("ExchangeID", TThostFtdcExchangeIDType);
    ("PortfolioDefID", TThostFtdcPortfolioDefIDType);
    ("ProdFamilyCode", TThostFtdcInstrumentIDType) ].

Definition CThostFtdcQrySPBMInvestorPortfDefField : struct :=
  [ ("ExchangeID", TThostFtdcExchangeIDType);
    ("BrokerID", TThostFtdcBrokerIDType);
    ("InvestorID", TThostFtdcInvestorIDType) ].

Definition CThostFtdcQryInvestorPortfMarginRatioField : struct :=
  [ ("BrokerID", TThostFtdcBrokerIDType);
    ("InvestorID", TThostFtdcInvestorIDType);
    ("ExchangeID", TThostFtdcExchangeIDType);
    ("ProductGroupID", TThostFtdcProductIDType) ].

Definition CThostFtdcInvestorProdSPBMDetailField : struct :=
  [ ("ExchangeID", TThostFtdcExchangeIDType);
    ("BrokerID", TThostFtdcBrokerIDType);
    ("InvestorID", TThostFtdcInvestorIDType);
    ("ProdFamilyCode", TThostFtdcInstrumentIDType);
    ("IntraInstrMargin", TThostFtdcMoneyType);
    ("BCollectingMargin", TThostFtdcMoneyType);
    ("SCollectingMargin", TThostFtdcMoneyType);
    ("IntraProdMargin", TThostFtdcMoneyType);
    ("NetMargin", TThostFtdcMoneyType);
    ("InterProdMargin", TThostFtdcMoneyType);
    ("SingleMargin", TThostFtdcMoneyType);
    ("AddOnMargin", TThostFtdcMoneyType);
    ("DeliveryMargin", TThostFtdcMoneyType);
    ("CallOptionMinRisk", TThostFtdcMoneyType);
    ("PutOptionMinRisk", TThostFtdcMoneyType);
    ("OptionMinRisk", TThostFtdcMoneyType);
    ("OptionValueOffset", TThostFtdcMoneyType);
    ("OptionRoyalty", TThostFtdcMoneyType);
    ("RealOptionValueOffset", TThostFtdcMoneyType);
    ("Margin", TThostFtdcMoneyType);
    ("ExchMargin", TThostFtdcMoneyType) ].

Definition CThostFtdcQryInvestorProdSPBMDetailField : struct :=
  [ ("ExchangeID", TThostFtdcExchangeIDType);
    ("BrokerID", TThostFtdcBrokerIDType);
    ("InvestorID", TThostFtdcInvestorIDType);
    ("ProdFamilyCode", TThostFtdcInstrumentIDType) ].

Definition CThostFtdcPortfTradeParamSettingField : struct :=
  [ ("ExchangeID", TThostFtdcExchangeIDType);
    ("BrokerID", TThostFtdcBrokerIDType);
    ("InvestorID", TThostFtdcInvestorIDType);
    ("Portfolio", TThostFtdcPortfolioType);
    ("IsActionVerify", TThostFtdcBoolType);
    ("IsCloseVerify", TThostFtdcBoolType) ].

Definition CThostFtdcInvestorTradingRightField : struct :=
  [ ("BrokerID", TThostFtdcBrokerIDType);
    ("InvestorID", TThostFtdcInvestorIDType);
    ("InvstTradingRight", TThostFtdcInvstTradingRightType) ].

Definition CThostFtdcMortgageParamField : struct :=
  [ ("BrokerID", TThostFtdcBrokerIDType);
    ("AccountID", TThostFtdcAccountIDType);
    ("MortgageBalance", TThostFtdcRatioType);
    ("CheckMortgageRatio", TThostFtdcBoolType) ].

Definition CThostFtdcWithDrawParamField : struct :=
  [ ("BrokerID", TThostFtdcBrokerIDType);
    ("AccountID", TThostFtdcAccountIDType);
    ("WithDrawParamID", TThostFtdcWithDrawParamIDType);
    ("WithDrawParamValue", TThostFtdcWithDrawParamValueType) ].

Definition CThostFtdcThostUserFunctionField : struct :=
  [ ("BrokerID", TThostFtdcBrokerIDType);
    ("UserID", TThostFtdcUserIDType);
    ("ThostFunctionCode", TThostFtdcThostFunctionCodeType) ].

Definition CThostFtdcQryThostUserFunctionField : struct :=
  [ ("BrokerID", TThostFtdcBrokerIDType);
    ("UserID", TThostFtdcUserIDType) ].

Definition CThostFtdcSPBMAddOnInterParameterField : struct :=
  [ ("TradingDay", TThostFtdcDateType);
    ("ExchangeID", TThostFtdcExchangeIDType);
    ("SpreadId", TThostFtdcSpreadIdType);
    ("AddOnInterRateZ2", TThostFtdcRatioType);
    ("Leg1ProdFamilyCode", TThostFtdcInstrumentIDType);
    ("Leg2ProdFamilyCode", TThostFtdcInstrumentIDType) ].

Definition CThostFtdcQrySPBMAddOnInterParameterField : struct :=
  [ ("ExchangeID", TThostFtdcExchangeIDType);
    ("Leg1ProdFamilyCode", TThostFtdcInstrumentIDType);
    ("Leg2ProdFamilyCode", TThostFtdcInstrumentIDType) ].

Definition CThostFtdcQryInvestorCommoditySPMMMarginField : struct :=
  [ ("BrokerID", TThostFtdcBrokerIDType);
    ("InvestorID", TThostFtdcInvestorIDType);
    ("CommodityID", TThostFtdcSPMMProductIDType) ].

Definition CThostFtdcQryInvestorCommodityGroupSPMMMarginField : struct :=
  [ ("BrokerID", TThostFtdcBrokerIDType);
    ("InvestorID", TThostFtdcInvestorIDType);
    ("CommodityGroupID", TThostFtdcSPMMProductIDType) ].

Definition CThostFtdcQrySPMMInstParamField : struct :=
  [ ("InstrumentID", TThostFtdcInstrumentIDType) ].

Definition CThostFtdcQrySPMMProductParamField : struct :=
  [ ("ProductID", TThostFtdcSPMMProductIDType) ].

Definition CThostFtdcInvestorCommoditySPMMMarginField : struct :=
  [ ("ExchangeID", TThostFtdcExchangeIDType);
    ("BrokerID", TThostFtdcBrokerIDType);
    ("InvestorID", TThostFtdcInvestorIDType);
    ("CommodityID", TThostFtdcSPMMProductIDType);
    ("MarginBeforeDiscount", TThostFtdcMoneyType);
    ("MarginNoDiscount", TThostFtdcMoneyType);
    ("LongPosRisk", TThostFtdcMoneyType);
    ("LongOpenFrozenRisk", TThostFtdcMoneyType);
    ("LongCloseFrozenRisk", TThostFtdcMoneyType);
    ("ShortPosRisk", TThostFtdcMoneyType);
    ("ShortOpenFrozenRisk", TThostFtdcMoneyType);
    ("ShortCloseFrozenRisk", TThostFtdcMoneyType);
    ("IntraCommodityRate", TThostFtdcSPMMDiscountRatioType);
    ("OptionDiscountRate", TThostFtdcSPMMDiscountRatioType);
    ("PosDiscount", TThostFtdcMoneyType);
    ("OpenFrozenDiscount", TThostFtdcMoneyType);
    ("NetRisk", TThostFtdcMoneyType);
    ("CloseFrozenMargin", TThostFtdcMoneyType);
    ("FrozenCommission", TThostFtdcMoneyType);
    ("Commission", TThostFtdcMoneyType);
    ("FrozenCash", TThostFtdcMoneyType);
    ("CashIn", TThostFtdcMoneyType);
    ("StrikeFrozenMargin", TThostFtdcMoneyType) ].

Definition CThostFtdcInvestorCommodityGroupSPMMMarginField : struct :=
  [ ("ExchangeID", TThostFtdcExchangeIDType);
    ("BrokerID", TThostFtdcBrokerIDType);
    ("InvestorID", TThostFtdcInvestorIDType);
    ("CommodityGroupID", TThostFtdcSPMMProductIDType);
    ("MarginBeforeDiscount", TThostFtdcMoneyType);
    ("MarginNoDiscount", TThostFtdcMoneyType);
    ("LongRisk", TThostFtdcMoneyType);
    ("ShortRisk", TThostFtdcMoneyType);
    ("CloseFrozenMargin", TThostFtdcMoneyType);
    ("InterCommodityRate", TThostFtdcSPMMDiscountRatioType);
    ("MiniMarginRatio", TThostFtdcSPMMDiscountRatioType);
    ("AdjustRatio", TThostFtdcRatioType);
    ("IntraCommodityDiscount", TThostFtdcMoneyType);
    ("InterCommodityDiscount", TThostFtdcMoneyType);
    ("ExchMargin", TThostFtdcMoneyType);
    ("InvestorMargin", TThostFtdcMoneyType);
    ("FrozenCommission", TThostFtdcMoneyType);
    ("Commission", TThostFtdcMoneyType);
    ("FrozenCash", TThostFtdcMoneyType);
    ("CashIn", TThostFtdcMoneyType);
    ("StrikeFrozenMargin", TThostFtdcMoneyType) ].

Definition CThostFtdcSPMMInstParamField : struct :=
  [ ("ExchangeID", TThostFtdcExchangeIDType);
    ("InstrumentID", TThostFtdcInstrumentIDType);
    ("InstMarginCalID", TThostFtdcInstMarginCalIDType);
    ("CommodityID", TThostFtdcSPMMProductIDType);
    ("CommodityGroupID", TThostFtdcSPMMProductIDType) ].

Definition CThostFtdcSPMMProductParamField : struct :=
  [ ("ExchangeID", TThostFtdcExchangeIDType);
    ("ProductID", TThostFtdcSPMMProductIDType);
    ("CommodityID", TThostFtdcSPMMProductIDType);
    ("CommodityGroupID", TThostFtdcSPMMProductIDType) ].

Definition CThostFtdcQryTraderAssignField : struct :=
  [ ("TraderID", TThostFtdcTraderIDType) ].

Definition CThostFtdcTraderAssignField : struct :=
  [ ("BrokerID", TThostFtdcBrokerIDType);
    ("ExchangeID", TThostFtdcExchangeIDType);
    ("TraderID", TThostFtdcTraderIDType);
    ("ParticipantID", TThostFtdcParticipantIDType);
    ("DRIdentityID", TThostFtdcDRIdentityIDType) ].

Definition CThostFtdcInvestorInfoCntSettingField : struct :=
  [ ("ExchangeID", TThostFtdcExchangeIDType);
    ("BrokerID", TThostFtdcBrokerIDType);
    ("InvestorID", TThostFtdcInvestorIDType);
    ("ProductID", TThostFtdcProductIDType);
    ("IsCalInfoComm", TThostFtdcBoolType);
    ("IsLimitInfoMax", TThostFtdcBoolType);
    ("InfoMaxLimit", TThostFtdcVolumeType) ].

Definition CThostFtdcRCAMSCombProductInfoField : struct :=
  [ ("TradingDay", TThostFtdcDateType);
    ("ExchangeID", TThostFtdcExchangeIDType);
    ("ProductID", TThostFtdcProductIDType);
    ("CombProductID", TThostFtdcProductIDType);
    ("ProductGroupID", TThostFtdcProductIDType) ].

Definition CThostFtdcRCAMSInstrParameterField : struct :=
  [ ("TradingDay", TThostFtdcDateType);
    ("ExchangeID", TThostFtdcExchangeIDType);
    ("ProductID", TThostFtdcProductIDType);
    ("HedgeRate", TThostFtdcHedgeRateType) ].

Definition CThostFtdcRCAMSIntraParameterField : struct :=
  [ ("TradingDay", TThostFtdcDateType);
    ("ExchangeID", TThostFtdcExchangeIDType);
    ("CombProductID", TThostFtdcProductIDType);
    ("HedgeRate", TThostFtdcHedgeRateType) ].

Definition CThostFtdcRCAMSInterParameterField : struct :=
  [ ("TradingDay", TThostFtdcDateType);
    ("ExchangeID", TThostFtdcExchangeIDType);
    ("ProductGroupID", TThostFtdcProductIDType);
    ("Priority", TThostFtdcRCAMSPriorityType);
    ("CreditRate", TThostFtdcHedgeRateType);
    ("CombProduct1", TThostFtdcProductIDType);
    ("CombProduct2", TThostFtdcProductIDType) ].

Definition CThostFtdcRCAMSShortOptAdjustParamField : struct :=
  [ ("TradingDay", TThostFtdcDateType);
    ("ExchangeID", TThostFtdcExchangeIDType);
    ("CombProductID", TThostFtdcProductIDType);
    ("HedgeFlag", TThostFtdcHedgeFlagType);
    ("AdjustValue", TThostFtdcAdjustValueType) ].

Definition CThostFtdcRCAMSInvestorCombPositionField : struct :=
  [ ("ExchangeID", TThostFtdcExchangeIDType);
    ("BrokerID", TThostFtdcBrokerIDType);
    ("InvestorID", TThostFtdcInvestorIDType);
    ("InstrumentID", TThostFtdcInstrumentIDType);
    ("HedgeFlag", TThostFtdcHedgeFlagType);
    ("PosiDirection", TThostFtdcPosiDirectionType);
    ("CombInstrumentID", TThostFtdcInstrumentIDType);
    ("LegID", TThostFtdcLegIDType);
    ("ExchangeInstID", TThostFtdcExchangeInstIDType);
    ("TotalAmt", TThostFtdcVolumeType);
    ("ExchMargin", TThostFtdcMoneyType);
    ("Margin", TThostFtdcMoneyType) ].

Definition CThostFtdcInvestorProdRCAMSMarginField : struct :=
  [ ("ExchangeID", TThostFtdcExchangeIDType);
    ("BrokerID", TThostFtdcBrokerIDType);
    ("InvestorID", TThostFtdcInvestorIDType);
    ("CombProductID", TThostFtdcProductIDType);
    ("HedgeFlag", TThostFtdcHedgeFlagType);
    ("ProductGroupID", TThostFtdcProductIDType);
    ("RiskBeforeDiscount", TThostFtdcMoneyType);
    ("IntraInstrRisk", TThostFtdcMoneyType);
    ("BPosRisk", TThostFtdcMoneyType);
    ("SPosRisk", TThostFtdcMoneyType);
    ("IntraProdRisk", TThostFtdcMoneyType);
    ("NetRisk", TThostFtdcMoneyType);
    ("InterProdRisk", TThostFtdcMoneyType);
    ("ShortOptRiskAdj", TThostFtdcMoneyType);
    ("OptionRoyalty", TThostFtdcMoneyType);
    ("MMSACloseFrozenMargin", TThostFtdcMoneyType);
    ("CloseCombFrozenMargin", TThostFtdcMoneyType);
    ("CloseFrozenMargin", TThostFtdcMoneyType);
    ("MMSAOpenFrozenMargin", TThostFtdcMoneyType);
    ("DeliveryOpenFrozenMargin", TThostFtdcMoneyType);
    ("OpenFrozenMargin", TThostFtdcMoneyType);
    ("UseFrozenMargin", TThostFtdcMoneyType);
    ("MMSAExchMargin", TThostFtdcMoneyType);
    ("DeliveryExchMargin", TThostFtdcMoneyType);
    ("CombExchMargin", TThostFtdcMoneyType);
    ("ExchMargin", TThostFtdcMoneyType);
    ("UseMargin", TThostFtdcMoneyType) ].

Definition CThostFtdcQryRCAMSCombProductInfoField : struct :=
  [ ("ProductID", TThostFtdcProductIDType);
    ("CombProductID", TThostFtdcProductIDType);
    ("ProductGroupID", TThostFtdcProductIDType) ].

Definition CThostFtdcQryRCAMSInstrParameterField : struct :=
  [ ("ProductID", TThostFtdcProductIDType) ].

Definition CThostFtdcQryRCAMSIntraParameterField : struct :=
  [ ("CombProductID", TThostFtdcProductIDType) ].

Definition CThostFtdcQryRCAMSInterParameterField : struct :=
  [ ("ProductGroupID", TThostFtdcProductIDType);
    ("CombProduct1", TThostFtdcProductIDType);
    ("CombProduct2", TThostFtdcProductIDType) ].

Definition CThostFtdcQryRCAMSShortOptAdjustParamField : struct :=
  [ ("CombProductID", TThostFtdcProductIDType) ].

Definition CThostFtdcQryRCAMSInvestorCombPositionField : struct :=
  [ ("BrokerID", TThostFtdcBrokerIDType);
    ("InvestorID", TThostFtdcInvestorIDType);
    ("InstrumentID", TThostFtdcInstrumentIDType);
    ("CombInstrumentID", TThostFtdcInstrumentIDType) ].

Definition CThostFtdcQryInvestorProdRCAMSMarginField : struct :=
  [ ("BrokerID", TThostFtdcBrokerIDType);
    ("InvestorID", TThostFtdcInvestorIDType);
    ("CombProductID", TThostFtdcProductIDType);
    ("ProductGroupID", TThostFtdcProductIDType) ].

Definition CThostFtdcRULEInstrParameterField : struct :=
  [ ("TradingDay", TThostFtdcDateType);
    ("ExchangeID", TThostFtdcExchangeIDType);
    ("InstrumentID", TThostFtdcInstrumentIDType);
    ("InstrumentClass", TThostFtdcInstrumentClassType);
    ("StdInstrumentID", TThostFtdcInstrumentIDType);
    ("BSpecRatio", TThostFtdcRatioType);
    ("SSpecRatio", TThostFtdcRatioType);
    ("BHedgeRatio", TThostFtdcRatioType);
    ("SHedgeRatio", TThostFtdcRatioType);
    ("BAddOnMargin", TThostFtdcMoneyType);
    ("SAddOnMargin", TThostFtdcMoneyType);
    ("CommodityGroupID", TThostFtdcCommodityGroupIDType) ].

Definition CThostFtdcRULEIntraParameterField : struct :=
  [ ("TradingDay", TThostFtdcDateType);
    ("ExchangeID", TThostFtdcExchangeIDType);
    ("ProdFamilyCode", TThostFtdcInstrumentIDType);
    ("StdInstrumentID", TThostFtdcInstrumentIDType);
    ("StdInstrMargin", TThostFtdcMoneyType);
    ("UsualIntraRate", TThostFtdcRatioType);
    ("DeliveryIntraRate", TThostFtdcRatioType) ].

Definition CThostFtdcRULEInterParameterField : struct :=
  [ ("TradingDay", TThostFtdcDateType);
    ("ExchangeID", TThostFtdcExchangeIDType);
    ("SpreadId", TThostFtdcSpreadIdType);
    ("InterRate", TThostFtdcRatioType);
    ("Leg1ProdFamilyCode", TThostFtdcInstrumentIDType);
    ("Leg2ProdFamilyCode", TThostFtdcInstrumentIDType);
    ("Leg1PropFactor", TThostFtdcCommonIntType);
    ("Leg2PropFactor", TThostFtdcCommonIntType);
    ("CommodityGroupID", TThostFtdcCommodityGroupIDType);
    ("CommodityGroupName", TThostFtdcInstrumentNameType) ].

Definition CThostFtdcQryRULEInstrParameterField : struct :=
  [ ("ExchangeID", TThostFtdcExchangeIDType);
    ("InstrumentID", TThostFtdcInstrumentIDType) ].

Definition CThostFtdcQryRULEIntraParameterField : struct :=
  [ ("ExchangeID", TThostFtdcExchangeIDType);
    ("ProdFamilyCode", TThostFtdcInstrumentIDType) ].

Definition CThostFtdcQryRULEInterParameterField : struct :=
  [ ("ExchangeID", TThostFtdcExchangeIDType);
    ("Leg1ProdFamilyCode", TThostFtdcInstrumentIDType);
    ("Leg2ProdFamilyCode", TThostFtdcInstrumentIDType);
    ("CommodityGroupID", TThostFtdcCommodityGroupIDType) ].

Definition CThostFtdcInvestorProdRULEMarginField : struct :=
  [ ("ExchangeID", TThostFtdcExchangeIDType);
    ("BrokerID", TThostFtdcBrokerIDType);
    ("InvestorID", TThostFtdcInvestorIDType);
    ("ProdFamilyCode", TThostFtdcInstrumentIDType);
    ("InstrumentClass", TThostFtdcInstrumentClassType);
    ("CommodityGroupID", TThostFtdcCommodityGroupIDType);
    ("BStdPosition", TThostFtdcStdPositionType);
    ("SStdPosition", TThostFtdcStdPositionType);
    ("BStdOpenFrozen", TThostFtdcStdPositionType);
    ("SStdOpenFrozen", TThostFtdcStdPositionType);
    ("BStdCloseFrozen", TThostFtdcStdPositionType);
    ("SStdCloseFrozen", TThostFtdcStdPositionType);
    ("IntraProdStdPosition", TThostFtdcStdPositionType);
    ("NetStdPosition", TThostFtdcStdPositionType);
    ("InterProdStdPosition", TThostFtdcStdPositionType);
    ("SingleStdPosition", TThostFtdcStdPositionType);
    ("IntraProdMargin", TThostFtdcMoneyType);
    ("InterProdMargin", TThostFtdcMoneyType);
    ("SingleMargin", TThostFtdcMoneyType);
    ("NonCombMargin", TThostFtdcMoneyType);
    ("AddOnMargin", TThostFtdcMoneyType);
    ("ExchMargin", TThostFtdcMoneyType);
    ("AddOnFrozenMargin", TThostFtdcMoneyType);
    ("OpenFrozenMargin", TThostFtdcMoneyType);
    ("CloseFrozenMargin", TThostFtdcMoneyType);
    ("Margin", TThostFtdcMoneyType);
    ("FrozenMargin", TThostFtdcMoneyType) ].

Definition CThostFtdcQryInvestorProdRULEMarginField : struct :=
  [ ("ExchangeID", TThostFtdcExchangeIDType);
    ("BrokerID", TThostFtdcBrokerIDType);
    ("InvestorID", TThostFtdcInvestorIDType);
    ("ProdFamilyCode", TThostFtdcInstrumentIDType);
    ("CommodityGroupID", TThostFtdcCommodityGroupIDType) ].

Definition CThostFtdcSyncDeltaSPBMPortfDefinitionField : struct :=
  [ ("ExchangeID", TThostFtdcExchangeIDType);
    ("PortfolioDefID", TThostFtdcPortfolioDefIDType);
    ("ProdFamilyCode", TThostFtdcInstrumentIDType);
    ("IsSPBM", TThostFtdcBoolType);
    ("ActionDirection", TThostFtdcActionDirectionType);
    ("SyncDeltaSequenceNo", TThostFtdcSequenceNoType) ].

Definition CThostFtdcSyncDeltaSPBMInvstPortfDefField : struct :=
  [ ("ExchangeID", TThostFtdcExchangeIDType);
    ("BrokerID", TThostFtdcBrokerIDType);
    ("InvestorID", TThostFtdcInvestorIDType);
    ("PortfolioDefID", TThostFtdcPortfolioDefIDType);
    ("ActionDirection", TThostFtdcActionDirectionType);
    ("SyncDeltaSequenceNo", TThostFtdcSequenceNoType) ].

Definition CThostFtdcSyncDeltaSPBMFutureParameterField : struct :=
  [ ("TradingDay", TThostFtdcDateType);
    ("ExchangeID", TThostFtdcExchangeIDType);
    ("InstrumentID", TThostFtdcInstrumentIDType);
    ("ProdFamilyCode", TThostFtdcInstrumentIDType);
    ("Cvf", TThostFtdcVolumeMultipleType);
    ("TimeRange", TThostFtdcTimeRangeType);
    ("MarginRate", TThostFtdcRatioType);
    ("LockRateX", TThostFtdcRatioType);
    ("AddOnRate", TThostFtdcRatioType);
    ("PreSettlementPrice", TThostFtdcPriceType);
    ("AddOnLockRateX2", TThostFtdcRatioType);
    ("ActionDirection", TThostFtdcActionDirectionType);
    ("SyncDeltaSequenceNo", TThostFtdcSequenceNoType) ].

Definition CThostFtdcSyncDeltaSPBMOptionParameterField : struct :=
  [ ("TradingDay", TThostFtdcDateType);
    ("ExchangeID", TThostFtdcExchangeIDType);
    ("InstrumentID", TThostFtdcInstrumentIDType);
    ("ProdFamilyCode", TThostFtdcInstrumentIDType);
    ("Cvf", TThostFtdcVolumeMultipleType);
    ("DownPrice", TThostFtdcPriceType);
    ("Delta", TThostFtdcDeltaType);
    ("SlimiDelta", TThostFtdcDeltaType);
    ("PreSettlementPrice", TThostFtdcPriceType);
    ("ActionDirection", TThostFtdcActionDirectionType);
    ("SyncDeltaSequenceNo", TThostFtdcSequenceNoType) ].

Definition CThostFtdcSyncDeltaSPBMIntraParameterField : struct :=
  [ ("TradingDay", TThostFtdcDateType);
    ("ExchangeID", TThostFtdcExchangeIDType);
    ("ProdFamilyCode", TThostFtdcInstrumentIDType);
    ("IntraRateY", TThostFtdcRatioType);
    ("AddOnIntraRateY2", TThostFtdcRatioType);
    ("ActionDirection", TThostFtdcActionDirectionType);
    ("SyncDeltaSequenceNo", TThostFtdcSequenceNoType) ].

Definition CThostFtdcSyncDeltaSPBMInterParameterField : struct :=
  [ ("TradingDay", TThostFtdcDateType);
    ("ExchangeID", TThostFtdcExchangeIDType);
    ("SpreadId", TThostFtdcSpreadIdType);
    ("InterRateZ", TThostFtdcRatioType);
    ("Leg1ProdFamilyCode", TThostFtdcInstrumentIDType);
    ("Leg2ProdFamilyCode", TThostFtdcInstrumentIDType);
    ("ActionDirection", TThostFtdcActionDirectionType);
    ("SyncDeltaSequenceNo", TThostFtdcSequenceNoType) ].

Definition CThostFtdcSyncDeltaSPBMAddOnInterParamField : struct :=
  [ ("TradingDay", TThostFtdcDateType);
    ("ExchangeID", TThostFtdcExchangeIDType);
    ("SpreadId", TThostFtdcSpreadIdType);
    ("AddOnInterRateZ2", TThostFtdcRatioType);
    ("Leg1ProdFamilyCode", TThostFtdcInstrumentIDType);
    ("Leg2ProdFamilyCode", TThostFtdcInstrumentIDType);
    ("ActionDirection", TThostFtdcActionDirectionType);
    ("SyncDeltaSequenceNo", TThostFtdcSequenceNoType) ].

Definition CThostFtdcSyncDeltaSPMMInstParamField : struct :=
  [ ("ExchangeID", TThostFtdcExchangeIDType);
    ("InstrumentID", TThostFtdcInstrumentIDType);
    ("InstMarginCalID", TThostFtdcInstMarginCalIDType);
    ("CommodityID", TThostFtdcSPMMProductIDType);
    ("CommodityGroupID", TThostFtdcSPMMProductIDType);
    ("ActionDirection", TThostFtdcActionDirectionType);
    ("SyncDeltaSequenceNo", TThostFtdcSequenceNoType) ].

Definition CThostFtdcSyncDeltaSPMMProductParamField : struct :=
  [ ("ExchangeID", TThostFtdcExchangeIDType);
    ("ProductID", TThostFtdcSPMMProductIDType);
    ("CommodityID", TThostFtdcSPMMProductIDType);
    ("CommodityGroupID", TThostFtdcSPMMProductIDType);
    ("ActionDirection", TThostFtdcActionDirectionType);
    ("SyncDeltaSequenceNo", TThostFtdcSequenceNoType) ].

Definition CThostFtdcSyncDeltaInvestorSPMMModelField : struct :=
  [ ("ExchangeID", TThostFtdcExchangeIDType);
    ("BrokerID", TThostFtdcBrokerIDType);
    ("InvestorID", TThostFtdcInvestorIDType);
    ("SPMMModelID", TThostFtdcSPMMModelIDType);
    ("ActionDirection", TThostFtdcActionDirectionType);
    ("SyncDeltaSequenceNo", TThostFtdcSequenceNoType) ].

Definition CThostFtdcSyncDeltaSPMMModelParamField : struct :=
  [ ("ExchangeID", TThostFtdcExchangeIDType);
    ("SPMMModelID", TThostFtdcSPMMModelIDType);
    ("CommodityGroupID", TThostFtdcSPMMProductIDType);
    ("IntraCommodityRate", TThostFtdcSPMMDiscountRatioType);
    ("InterCommodityRate", TThostFtdcSPMMDiscountRatioType);
    ("OptionDiscountRate", TThostFtdcSPMMDiscountRatioType);
    ("MiniMarginRatio", TThostFtdcSPMMDiscountRatioType);
    ("ActionDirection", TThostFtdcActionDirectionType);
    ("SyncDeltaSequenceNo", TThostFtdcSequenceNoType) ].

Definition CThostFtdcSyncDeltaRCAMSCombProdInfoField : struct :=
  [ ("TradingDay", TThostFtdcDateType);
    ("ExchangeID", TThostFtdcExchangeIDType);
    ("ProductID", TThostFtdcProductIDType);
    ("CombProductID", TThostFtdcProductIDType);
    ("ProductGroupID", TThostFtdcProductIDType);
    ("ActionDirection", TThostFtdcActionDirectionType);
    ("SyncDeltaSequenceNo", TThostFtdcSequenceNoType) ].

Definition CThostFtdcSyncDeltaRCAMSInstrParameterField : struct :=
  [ ("TradingDay", TThostFtdcDateType);
    ("ExchangeID", TThostFtdcExchangeIDType);
    ("ProductID", TThostFtdcProductIDType);
    ("HedgeRate", TThostFtdcHedgeRateType);
    ("ActionDirection", TThostFtdcActionDirectionType);
    ("SyncDeltaSequenceNo", TThostFtdcSequenceNoType) ].

Definition CThostFtdcSyncDeltaRCAMSIntraParameterField : struct :=
  [ ("TradingDay", TThostFtdcDateType);
    ("ExchangeID", TThostFtdcExchangeIDType);
    ("CombProductID", TThostFtdcProductIDType);
    ("HedgeRate", TThostFtdcHedgeRateType);
    ("ActionDirection", TThostFtdcActionDirectionType);
    ("SyncDeltaSequenceNo", TThostFtdcSequenceNoType) ].

Definition CThostFtdcSyncDeltaRCAMSInterParameterField : struct :=
  [ ("TradingDay", TThostFtdcDateType);
    ("ExchangeID", TThostFtdcExchangeIDType);
    ("ProductGroupID", TThostFtdcProductIDType);
    ("Priority", TThostFtdcRCAMSPriorityType);
    ("CreditRate", TThostFtdcHedgeRateType);
    ("CombProduct1", TThostFtdcProductIDType);
    ("CombProduct2", TThostFtdcProductIDType);
    ("ActionDirection", TThostFtdcActionDirectionType);
    ("SyncDeltaSequenceNo", TThostFtdcSequenceNoType) ].

Definition CThostFtdcSyncDeltaRCAMSSOptAdjParamField : struct :=
  [ ("TradingDay", TThostFtdcDateType);
    ("ExchangeID", TThostFtdcExchangeIDType);
    ("CombProductID", TThostFtdcProductIDType);
    ("HedgeFlag", TThostFtdcHedgeFlagType);
    ("AdjustValue", TThostFtdcAdjustValueType);
    ("ActionDirection", TThostFtdcActionDirectionType);
    ("SyncDeltaSequenceNo", TThostFtdcSequenceNoType) ].

Definition CThostFtdcSyncDeltaRCAMSCombRuleDtlField : struct :=
  [ ("TradingDay", TThostFtdcDateType);
    ("ExchangeID", TThostFtdcExchangeIDType);
    ("ProdGroup", TThostFtdcProductIDType);
    ("RuleId", TThostFtdcRuleIdType);
    ("Priority", TThostFtdcRCAMSPriorityType);
    ("HedgeFlag", TThostFtdcHedgeFlagType);
    ("CombMargin", TThostFtdcMoneyType);
    ("ExchangeInstID", TThostFtdcExchangeInstIDType);
    ("LegID", TThostFtdcLegIDType);
    ("LegInstrumentID", TThostFtdcInstrumentIDType);
    ("Direction", TThostFtdcDirectionType);
    ("LegMultiple", TThostFtdcLegMultipleType);
    ("ActionDirection", TThostFtdcActionDirectionType);
    ("SyncDeltaSequenceNo", TThostFtdcSequenceNoType) ].

Definition CThostFtdcSyncDeltaRCAMSInvstCombPosField : struct :=
  [ ("ExchangeID", TThostFtdcExchangeIDType);
    ("BrokerID", TThostFtdcBrokerIDType);
    ("InvestorID", TThostFtdcInvestorIDType);
    ("InstrumentID", TThostFtdcInstrumentIDType);
    ("HedgeFlag", TThostFtdcHedgeFlagType);
    ("PosiDirection", TThostFtdcPosiDirectionType);
    ("CombInstrumentID", TThostFtdcInstrumentIDType);
    ("LegID", TThostFtdcLegIDType);
    ("ExchangeInstID", TThostFtdcExchangeInstIDType);
    ("TotalAmt", TThostFtdcVolumeType);
    ("ExchMargin", TThostFtdcMoneyType);
    ("Margin", TThostFtdcMoneyType);
    ("ActionDirection", TThostFtdcActionDirectionType);
    ("SyncDeltaSequenceNo", TThostFtdcSequenceNoType) ].

Definition CThostFtdcSyncDeltaRULEInstrParameterField : struct :=
  [ ("TradingDay", TThostFtdcDateType);
    ("ExchangeID", TThostFtdcExchangeIDType);
    ("InstrumentID", TThostFtdcInstrumentIDType);
    ("InstrumentClass", TThostFtdcInstrumentClassType);
    ("StdInstrumentID", TThostFtdcInstrumentIDType);
    ("BSpecRatio", TThostFtdcRatioType);
    ("SSpecRatio", TThostFtdcRatioType);
    ("BHedgeRatio", TThostFtdcRatioType);
    ("SHedgeRatio", TThostFtdcRatioType);
    ("BAddOnMargin", TThostFtdcMoneyType);
    ("SAddOnMargin", TThostFtdcMoneyType);
    ("CommodityGroupID", TThostFtdcCommodityGroupIDType);
    ("ActionDirection", TThostFtdcActionDirectionType);
    ("SyncDeltaSequenceNo", TThostFtdcSequenceNoType) ].

Definition CThostFtdcSyncDeltaRULEIntraParameterField : struct :=
  [ ("TradingDay", TThostFtdcDateType);
    ("ExchangeID", TThostFtdcExchangeIDType);
    ("ProdFamilyCode", TThostFtdcInstrumentIDType);
    ("StdInstrumentID", TThostFtdcInstrumentIDType);
    ("StdInstrMargin", TThostFtdcMoneyType);
    ("UsualIntraRate", TThostFtdcRatioType);
    ("DeliveryIntraRate", TThostFtdcRatioType);
    ("ActionDirection", TThostFtdcActionDirectionType);
    ("SyncDeltaSequenceNo", TThostFtdcSequenceNoType) ].

Definition CThostFtdcSyncDeltaRULEInterParameterField : struct :=
  [ ("TradingDay", TThostFtdcDateType);
    ("ExchangeID", TThostFtdcExchangeIDType);
    ("SpreadId", TThostFtdcSpreadIdType);
    ("InterRate", TThostFtdcRatioType);
    ("Leg1ProdFamilyCode", TThostFtdcInstrumentIDType);
    ("Leg2ProdFamilyCode", TThostFtdcInstrumentIDType);
    ("Leg1PropFactor", TThostFtdcCommonIntType);
    ("Leg2PropFactor", TThostFtdcCommonIntType);
    ("CommodityGroupID", TThostFtdcCommodityGroupIDType);
    ("CommodityGroupName", TThostFtdcInstrumentNameType);
    ("ActionDirection", TThostFtdcActionDirectionType);
    ("SyncDeltaSequenceNo", TThostFtdcSequenceNoType) ].

Definition CThostFtdcExitEmergencyField : struct :=
  [ ("BrokerID", TThostFtdcBrokerIDType) ].

Definition CThostFtdcInvestorPortfMarginModelField : struct :=
  [ ("BrokerID", TThostFtdcBrokerIDType);
    ("InvestorID", TThostFtdcInvestorIDType);
    ("MarginModelID", TThostFtdcInvestorIDType) ].

Definition CThostFtdcInvestorPortfSettingField : struct :=
  [ ("ExchangeID", TThostFtdcExchangeIDType);
    ("BrokerID", TThostFtdcBrokerIDType);
    ("InvestorID", TThostFtdcInvestorIDType);
    ("HedgeFlag", TThostFtdcHedgeFlagType);
    ("UsePortf", TThostFtdcBoolType) ].

Definition CThostFtdcQryInvestorPortfSettingField : struct :=
  [ ("ExchangeID", TThostFtdcExchangeIDType);
    ("BrokerID", TThostFtdcBrokerIDType);
    ("InvestorID", TThostFtdcInvestorIDType) ].

Definition CThostFtdcFrontInfoField : struct :=
  [ ("FrontAddr", TThostFtdcAddressType);
    ("QryFreq", TThostFtdcQueryFreqType);
    ("FTDPkgFreq", TThostFtdcQueryFreqType) ].

(** The declarations above, by name. *)
Definition structs : list (string * struct) :=
  [ ("CThostFtdcNotifyFutureSignOutField", CThostFtdcNotifyFutureSignOutField);
    ("CThostFtdcNotifySyncKeyField", CThostFtdcNotifySyncKeyField);
    ("CThostFtdcQryAccountregisterField", CThostFtdcQryAccountregisterField);
    ("CThostFtdcAccountregisterField", CThostFtdcAccountregisterField);
    ("CThostFtdcOpenAccountField", CThostFtdcOpenAccountField);
    ("CThostFtdcCancelAccountField", CThostFtdcCancelAccountField);
    ("CThostFtdcChangeAccountField", CThostFtdcChangeAccountField);
    ("CThostFtdcSecAgentACIDMapField", CThostFtdcSecAgentACIDMapField);
    ("CThostFtdcQrySecAgentACIDMapField", CThostFtdcQrySecAgentACIDMapField);
    ("CThostFtdcUserRightsAssignField", CThostFtdcUserRightsAssignField);
    ("CThostFtdcBrokerUserRightAssignField", CThostFtdcBrokerUserRightAssignField);
    ("CThostFtdcDRTransferField", CThostFtdcDRTransferField);
    ("CThostFtdcFensUserInfoField", CThostFtdcFensUserInfoField);
    ("CThostFtdcCurrTransferIdentityField", CThostFtdcCurrTransferIdentityField);
    ("CThostFtdcLoginForbiddenUserField", CThostFtdcLoginForbiddenUserField);
    ("CThostFtdcQryLoginForbiddenUserField", CThostFtdcQryLoginForbiddenUserField);
    ("CThostFtdcTradingAccountReserveField", CThostFtdcTradingAccountReserveField);
    ("CThostFtdcQryLoginForbiddenIPField", CThostFtdcQryLoginForbiddenIPField);
    ("CThostFtdcQryIPListField", CThostFtdcQryIPListField);
    ("CThostFtdcQryUserRightsAssignField", CThostFtdcQryUserRightsAssignField);
    ("CThostFtdcReserveOpenAccountConfirmField", CThostFtdcReserveOpenAccountConfirmField);
    ("CThostFtdcReserveOpenAccountField", CThostFtdcReserveOpenAccountField);
    ("CThostFtdcAccountPropertyField", CThostFtdcAccountPropertyField);
    ("CThostFtdcQryCurrDRIdentityField", CThostFtdcQryCurrDRIdentityField);
    ("CThostFtdcCurrDRIdentityField", CThostFtdcCurrDRIdentityField);
    ("CThostFtdcQrySecAgentCheckModeField", CThostFtdcQrySecAgentCheckModeField);
    ("CThostFtdcQrySecAgentTradeInfoField", CThostFtdcQrySecAgentTradeInfoField);
    ("CThostFtdcReqUserAuthMethodField", CThostFtdcReqUserAuthMethodField);
    ("CThostFtdcRspUserAuthMethodField", CThostFtdcRspUserAuthMethodField);
    ("CThostFtdcReqGenUserCaptchaField", CThostFtdcReqGenUserCaptchaField);
    ("CThostFtdcRspGenUserCaptchaField", CThostFtdcRspGenUserCaptchaField);
    ("CThostFtdcReqGenUserTextField", CThostFtdcReqGenUserTextField);
    ("CThostFtdcRspGenUserTextField", CThostFtdcRspGenUserTextField);
    ("CThostFtdcReqUserLoginWithCaptchaField", CThostFtdcReqUserLoginWithCaptchaField);
    ("CThostFtdcReqUserLoginWithTextField", CThostFtdcReqUserLoginWithTextField);
    ("CThostFtdcReqUserLoginWithOTPField", CThostFtdcReqUserLoginWithOTPField);
    ("CThostFtdcReqApiHandshakeField", CThostFtdcReqApiHandshakeField);
    ("CThostFtdcRspApiHandshakeField", CThostFtdcRspApiHandshakeField);
    ("CThostFtdcReqVerifyApiKeyField", CThostFtdcReqVerifyApiKeyField);
    ("CThostFtdcDepartmentUserField", CThostFtdcDepartmentUserField);
    ("CThostFtdcQueryFreqField", CThostFtdcQueryFreqField);
    ("CThostFtdcAuthForbiddenIPField", CThostFtdcAuthForbiddenIPField);
    ("CThostFtdcQryAuthForbiddenIPField", CThostFtdcQryAuthForbiddenIPField);
    ("CThostFtdcSyncDelaySwapFrozenField", CThostFtdcSyncDelaySwapFrozenField);
    ("CThostFtdcUserSystemInfoField", CThostFtdcUserSystemInfoField);
    ("CThostFtdcAuthUserIDField", CThostFtdcAuthUserIDField);
    ("CThostFtdcAuthIPField", CThostFtdcAuthIPField);
    ("CThostFtdcQryClassifiedInstrumentField", CThostFtdcQryClassifiedInstrumentField);
    ("CThostFtdcQryCombPromotionParamField", CThostFtdcQryCombPromotionParamField);
    ("CThostFtdcCombPromotionParamField", CThostFtdcCombPromotionParamField);
    ("CThostFtdcReqUserLoginSMField", CThostFtdcReqUserLoginSMField);
    ("CThostFtdcQryRiskSettleInvstPositionField", CThostFtdcQryRiskSettleInvstPositionField);
    ("CThostFtdcQryRiskSettleProductStatusField", CThostFtdcQryRiskSettleProductStatusField);
    ("CThostFtdcRiskSettleInvstPositionField", CThostFtdcRiskSettleInvstPositionField);
    ("CThostFtdcRiskSettleProductStatusField", CThostFtdcRiskSettleProductStatusField);
    ("CThostFtdcSyncDeltaInfoField", CThostFtdcSyncDeltaInfoField);
    ("CThostFtdcSyncDeltaProductStatusField", CThostFtdcSyncDeltaProductStatusField);
    ("CThostFtdcSyncDeltaInvstPosDtlField", CThostFtdcSyncDeltaInvstPosDtlField);
    ("CThostFtdcSyncDeltaInvstPosCombDtlField", CThostFtdcSyncDeltaInvstPosCombDtlField);
    ("CThostFtdcSyncDeltaTradingAccountField", CThostFtdcSyncDeltaTradingAccountField);
    ("CThostFtdcSyncDeltaInitInvstMarginField", CThostFtdcSyncDeltaInitInvstMarginField);
    ("CThostFtdcSyncDeltaDceCombInstrumentField", CThostFtdcSyncDeltaDceCombInstrumentField);
    ("CThostFtdcSyncDeltaInvstMarginRateField", CThostFtdcSyncDeltaInvstMarginRateField);
    ("CThostFtdcSyncDeltaExchMarginRateField", CThostFtdcSyncDeltaExchMarginRateField);
    ("CThostFtdcSyncDeltaOptExchMarginField", CThostFtdcSyncDeltaOptExchMarginField);
    ("CThostFtdcSyncDeltaOptInvstMarginField", CThostFtdcSyncDeltaOptInvstMarginField);
    ("CThostFtdcSyncDeltaInvstMarginRateULField", CThostFtdcSyncDeltaInvstMarginRateULField);
    ("CThostFtdcSyncDeltaOptInvstCommRateField", CThostFtdcSyncDeltaOptInvstCommRateField);
    ("CThostFtdcSyncDeltaInvstCommRateField", CThostFtdcSyncDeltaInvstCommRateField);
    ("CThostFtdcSyncDeltaProductExchRateField", CThostFtdcSyncDeltaProductExchRateField);
    ("CThostFtdcSyncDeltaDepthMarketDataField", CThostFtdcSyncDeltaDepthMarketDataField);
    ("CThostFtdcSyncDeltaIndexPriceField", CThostFtdcSyncDeltaIndexPriceField);
    ("CThostFtdcSyncDeltaEWarrantOffsetField", CThostFtdcSyncDeltaEWarrantOffsetField);
    ("CThostFtdcSPBMFutureParameterField", CThostFtdcSPBMFutureParameterField);
    ("CThostFtdcSPBMOptionParameterField", CThostFtdcSPBMOptionParameterField);
    ("CThostFtdcSPBMIntraParameterField", CThostFtdcSPBMIntraParameterField);
    ("CThostFtdcSPBMInterParameterField", CThostFtdcSPBMInterParameterField);
    ("CThostFtdcSyncSPBMParameterEndField", CThostFtdcSyncSPBMParameterEndField);
    ("CThostFtdcQrySPBMFutureParameterField", CThostFtdcQrySPBMFutureParameterField);
    ("CThostFtdcQrySPBMOptionParameterField", CThostFtdcQrySPBMOptionParameterField);
    ("CThostFtdcQrySPBMIntraParameterField", CThostFtdcQrySPBMIntraParameterField);
    ("CThostFtdcQrySPBMInterParameterField", CThostFtdcQrySPBMInterParameterField);
    ("CThostFtdcSPBMPortfDefinitionField", CThostFtdcSPBMPortfDefinitionField);
    ("CThostFtdcSPBMInvestorPortfDefField", CThostFtdcSPBMInvestorPortfDefField);
    ("CThostFtdcInvestorPortfMarginRatioField", CThostFtdcInvestorPortfMarginRatioField);
    ("CThostFtdcQrySPBMPortfDefinitionField", CThostFtdcQrySPBMPortfDefinitionField);
    ("CThostFtdcQrySPBMInvestorPortfDefField", CThostFtdcQrySPBMInvestorPortfDefField);
    ("CThostFtdcQryInvestorPortfMarginRatioField", CThostFtdcQryInvestorPortfMarginRatioField);
    ("CThostFtdcInvestorProdSPBMDetailField", CThostFtdcInvestorProdSPBMDetailField);
    ("CThostFtdcQryInvestorProdSPBMDetailField", CThostFtdcQryInvestorProdSPBMDetailField);
    ("CThostFtdcPortfTradeParamSettingField", CThostFtdcPortfTradeParamSettingField);
    ("CThostFtdcInvestorTradingRightField", CThostFtdcInvestorTradingRightField);
    ("CThostFtdcMortgageParamField", CThostFtdcMortgageParamField);
    ("CThostFtdcWithDrawParamField", CThostFtdcWithDrawParamField);
    ("CThostFtdcThostUserFunctionField", CThostFtdcThostUserFunctionField);
    ("CThostFtdcQryThostUserFunctionField", CThostFtdcQryThostUserFunctionField);
    ("CThostFtdcSPBMAddOnInterParameterField", CThostFtdcSPBMAddOnInterParameterField);
    ("CThostFtdcQrySPBMAddOnInterParameterField", CThostFtdcQrySPBMAddOnInterParameterField);
    ("CThostFtdcQryInvestorCommoditySPMMMarginField", CThostFtdcQryInvestorCommoditySPMMMarginField);
    ("CThostFtdcQryInvestorCommodityGroupSPMMMarginField", CThostFtdcQryInvestorCommodityGroupSPMMMarginField);
    ("CThostFtdcQrySPMMInstParamField", CThostFtdcQrySPMMInstParamField);
    ("CThostFtdcQrySPMMProductParamField", CThostFtdcQrySPMMProductParamField);
    ("CThostFtdcInvestorCommoditySPMMMarginField", CThostFtdcInvestorCommoditySPMMMarginField);
    ("CThostFtdcInvestorCommodityGroupSPMMMarginField", CThostFtdcInvestorCommodityGroupSPMMMarginField);
    ("CThostFtdcSPMMInstParamField", CThostFtdcSPMMInstParamField);
    ("CThostFtdcSPMMProductParamField", CThostFtdcSPMMProductParamField);
    ("CThostFtdcQryTraderAssignField", CThostFtdcQryTraderAssignField);
    ("CThostFtdcTraderAssignField", CThostFtdcTraderAssignField);
    ("CThostFtdcInvestorInfoCntSettingField", CThostFtdcInvestorInfoCntSettingField);
    ("CThostFtdcRCAMSCombProductInfoField", CThostFtdcRCAMSCombProductInfoField);
    ("CThostFtdcRCAMSInstrParameterField", CThostFtdcRCAMSInstrParameterField);
    ("CThostFtdcRCAMSIntraParameterField", CThostFtdcRCAMSIntraParameterField);
    ("CThostFtdcRCAMSInterParameterField", CThostFtdcRCAMSInterParameterField);
    ("CThostFtdcRCAMSShortOptAdjustParamField", CThostFtdcRCAMSShortOptAdjustParamField);
    ("CThostFtdcRCAMSInvestorCombPositionField", CThostFtdcRCAMSInvestorCombPositionField);
    ("CThostFtdcInvestorProdRCAMSMarginField", CThostFtdcInvestorProdRCAMSMarginField);
    ("CThostFtdcQryRCAMSCombProductInfoField", CThostFtdcQryRCAMSCombProductInfoField);
    ("CThostFtdcQryRCAMSInstrParameterField", CThostFtdcQryRCAMSInstrParameterField);
    ("CThostFtdcQryRCAMSIntraParameterField", CThostFtdcQryRCAMSIntraParameterField);
    ("CThostFtdcQryRCAMSInterParameterField", CThostFtdcQryRCAMSInterParameterField);
    ("CThostFtdcQryRCAMSShortOptAdjustParamField", CThostFtdcQryRCAMSShortOptAdjustParamField);
    ("CThostFtdcQryRCAMSInvestorCombPositionField", CThostFtdcQryRCAMSInvestorCombPositionField);
    ("CThostFtdcQryInvestorProdRCAMSMarginField", CThostFtdcQryInvestorProdRCAMSMarginField);
    ("CThostFtdcRULEInstrParameterField", CThostFtdcRULEInstrParameterField);
    ("CThostFtdcRULEIntraParameterField", CThostFtdcRULEIntraParameterField);
    ("CThostFtdcRULEInterParameterField", CThostFtdcRULEInterParameterField);
    ("CThostFtdcQryRULEInstrParameterField", CThostFtdcQryRULEInstrParameterField);
    ("CThostFtdcQryRULEIntraParameterField", CThostFtdcQryRULEIntraParameterField);
    ("CThostFtdcQryRULEInterParameterField", CThostFtdcQryRULEInterParameterField);
    ("CThostFtdcInvestorProdRULEMarginField", CThostFtdcInvestorProdRULEMarginField);
    ("CThostFtdcQryInvestorProdRULEMarginField", CThostFtdcQryInvestorProdRULEMarginField);
    ("CThostFtdcSyncDeltaSPBMPortfDefinitionField", CThostFtdcSyncDeltaSPBMPortfDefinitionField);
    ("CThostFtdcSyncDeltaSPBMInvstPortfDefField", CThostFtdcSyncDeltaSPBMInvstPortfDefField);
    ("CThostFtdcSyncDeltaSPBMFutureParameterField", CThostFtdcSyncDeltaSPBMFutureParameterField);
    ("CThostFtdcSyncDeltaSPBMOptionParameterField", CThostFtdcSyncDeltaSPBMOptionParameterField);
    ("CThostFtdcSyncDeltaSPBMIntraParameterField", CThostFtdcSyncDeltaSPBMIntraParameterField);
    ("CThostFtdcSyncDeltaSPBMInterParameterField", CThostFtdcSyncDeltaSPBMInterParameterField);
    ("CThostFtdcSyncDeltaSPBMAddOnInterParamField", CThostFtdcSyncDeltaSPBMAddOnInterParamField);
    ("CThostFtdcSyncDeltaSPMMInstParamField", CThostFtdcSyncDeltaSPMMInstParamField);
    ("CThostFtdcSyncDeltaSPMMProductParamField", CThostFtdcSyncDeltaSPMMProductParamField);
    ("CThostFtdcSyncDeltaInvestorSPMMModelField", CThostFtdcSyncDeltaInvestorSPMMModelField);
    ("CThostFtdcSyncDeltaSPMMModelParamField", CThostFtdcSyncDeltaSPMMModelParamField);
    ("CThostFtdcSyncDeltaRCAMSCombProdInfoField", CThostFtdcSyncDeltaRCAMSCombProdInfoField);
    ("CThostFtdcSyncDeltaRCAMSInstrParameterField", CThostFtdcSyncDeltaRCAMSInstrParameterField);
    ("CThostFtdcSyncDeltaRCAMSIntraParameterField", CThostFtdcSyncDeltaRCAMSIntraParameterField);
    ("CThostFtdcSyncDeltaRCAMSInterParameterField", CThostFtdcSyncDeltaRCAMSInterParameterField);
    ("CThostFtdcSyncDeltaRCAMSSOptAdjParamField", CThostFtdcSyncDeltaRCAMSSOptAdjParamField);
    ("CThostFtdcSyncDeltaRCAMSCombRuleDtlField", CThostFtdcSyncDeltaRCAMSCombRuleDtlField);
    ("CThostFtdcSyncDeltaRCAMSInvstCombPosField", CThostFtdcSyncDeltaRCAMSInvstCombPosField);
    ("CThostFtdcSyncDeltaRULEInstrParameterField", CThostFtdcSyncDeltaRULEInstrParameterField);
    ("CThostFtdcSyncDeltaRULEIntraParameterField", CThostFtdcSyncDeltaRULEIntraParameterField);
    ("CThostFtdcSyncDeltaRULEInterParameterField", CThostFtdcSyncDeltaRULEInterParameterField);
    ("CThostFtdcExitEmergencyField", CThostFtdcExitEmergencyField);
    ("CThostFtdcInvestorPortfMarginModelField", CThostFtdcInvestorPortfMarginModelField);
    ("CThostFtdcInvestorPortfSettingField", CThostFtdcInvestorPortfSettingField);
    ("CThostFtdcQryInvestorPortfSettingField", CThostFtdcQryInvestorPortfSettingField);
    ("CThostFtdcFrontInfoField", CThostFtdcFrontInfoField) ].

End Structs3.
