(* ===== verification/Wraps1.v ===== *)
(** * Accessor wrappers of the CTP structures, part 1

    For each structure the accessors ctp_wrap.cpp defines, in order: the field
    whose member the pair [_wrap_X_F_set], [_wrap_X_F_get] names, the
    conversion the setter uses with the number of bytes it copies, and the
    conversion the getter uses; and the index of the [SWIGTYPE] macro they
    convert their first argument with.  For the structures up to line 187500
    of that file the pairs after the first are in groups of their own. *)

From S2P Require Import Prelude Layout Accessor.

Module Wraps1.
Import Layout Accessor.
Local Open Scope string_scope.
Local Open Scope list_scope.

Definition wrap_CThostFtdcDisseminationField : wrapper :=
  mk_wrapper 41
  [ ("SequenceSeries", TShort, GShort);
    ("SequenceNo", TInt, GInt) ].

Definition rows_CThostFtdcReqUserLoginField_BrokerID : list row :=
  [ ("BrokerID", TChars 11, GString) ].
Definition rows_CThostFtdcReqUserLoginField_UserID : list row :=
  [ ("UserID", TChars 16, GString) ].
Definition rows_CThostFtdcReqUserLoginField_Password : list row :=
  [ ("Password", TChars 41, GString) ].
Definition rows_CThostFtdcReqUserLoginField_UserProductInfo : list row :=
  [ ("UserProductInfo", TChars 11, GString) ].
Definition rows_CThostFtdcReqUserLoginField_InterfaceProductInfo : list row :=
  [ ("InterfaceProductInfo", TChars 11, GString) ].
Definition rows_CThostFtdcReqUserLoginField_ProtocolInfo : list row :=
  [ ("ProtocolInfo", TChars 11, GString) ].
Definition rows_CThostFtdcReqUserLoginField_MacAddress : list row :=
  [ ("MacAddress", TChars 21, GString) ].
Definition rows_CThostFtdcReqUserLoginField_OneTimePassword : list row :=
  [ ("OneTimePassword", TChars 41, GString) ].
Definition rows_CThostFtdcReqUserLoginField_reserve1 : list row :=
  [ ("reserve1", TChars 16, GString) ].
Definition rows_CThostFtdcReqUserLoginField_LoginRemark : list row :=
  [ ("LoginRemark", TChars 36, GString) ].
Definition rows_CThostFtdcReqUserLoginField_ClientIPPort : list row :=
  [ ("ClientIPPort", TInt, GInt) ].
Definition rows_CThostFtdcReqUserLoginField_ClientIPAddress : list row :=
  [ ("ClientIPAddress", TChars 33, GString) ].
Definition wrap_CThostFtdcReqUserLoginField : wrapper :=
  mk_wrapper 338
  ([ ("TradingDay", TChars 9, GString) ]
   ++ rows_CThostFtdcReqUserLoginField_BrokerID
   ++ rows_CThostFtdcReqUserLoginField_UserID
   ++ rows_CThostFtdcReqUserLoginField_Password
   ++ rows_CThostFtdcReqUserLoginField_UserProductInfo
   ++ rows_CThostFtdcReqUserLoginField_InterfaceProductInfo
   ++ rows_CThostFtdcReqUserLoginField_ProtocolInfo
   ++ rows_CThostFtdcReqUserLoginField_MacAddress
   ++ rows_CThostFtdcReqUserLoginField_OneTimePassword
   ++ rows_CThostFtdcReqUserLoginField_reserve1
   ++ rows_CThostFtdcReqUserLoginField_LoginRemark
   ++ rows_CThostFtdcReqUserLoginField_ClientIPPort
   ++ rows_CThostFtdcReqUserLoginField_ClientIPAddress).

Definition rows_CThostFtdcRspUserLoginField_LoginTime : list row :=
  [ ("LoginTime", TChars 9, GString) ].
Definition rows_CThostFtdcRspUserLoginField_BrokerID : list row :=
  [ ("BrokerID", TChars 11, GString) ].
Definition rows_CThostFtdcRspUserLoginField_UserID : list row :=
  [ ("UserID", TChars 16, GString) ].
Definition rows_CThostFtdcRspUserLoginField_SystemName : list row :=
  [ ("SystemName", TChars 41, GString) ].
Definition rows_CThostFtdcRspUserLoginField_FrontID : list row :=
  [ ("FrontID", TInt, GInt);
    ("SessionID", TInt, GInt) ].
Definition rows_CThostFtdcRspUserLoginField_MaxOrderRef : list row :=
  [ ("MaxOrderRef", TChars 13, GString) ].
Definition rows_CThostFtdcRspUserLoginField_SHFETime : list row :=
  [ ("SHFETime", TChars 9, GString) ].
Definition rows_CThostFtdcRspUserLoginField_DCETime : list row :=
  [ ("DCETime", TChars 9, GString) ].
Definition rows_CThostFtdcRspUserLoginField_CZCETime : list row :=
  [ ("CZCETime", TChars 9, GString) ].
Definition rows_CThostFtdcRspUserLoginField_FFEXTime : list row :=
  [ ("FFEXTime", TChars 9, GString) ].
Definition rows_CThostFtdcRspUserLoginField_INETime : list row :=
  [ ("INETime", TChars 9, GString) ].
Definition rows_CThostFtdcRspUserLoginField_SysVersion : list row :=
  [ ("SysVersion", TChars 41, GString) ].
Definition rows_CThostFtdcRspUserLoginField_GFEXTime : list row :=
  [ ("GFEXTime", TChars 9, GString) ].
Definition wrap_CThostFtdcRspUserLoginField : wrapper :=
  mk_wrapper 363
  ([ ("TradingDay", TChars 9, GString) ]
   ++ rows_CThostFtdcRspUserLoginField_LoginTime
   ++ rows_CThostFtdcRspUserLoginField_BrokerID
   ++ rows_CThostFtdcRspUserLoginField_UserID
   ++ rows_CThostFtdcRspUserLoginField_SystemName
   ++ rows_CThostFtdcRspUserLoginField_FrontID
   ++ rows_CThostFtdcRspUserLoginField_MaxOrderRef
   ++ rows_CThostFtdcRspUserLoginField_SHFETime
   ++ rows_CThostFtdcRspUserLoginField_DCETime
   ++ rows_CThostFtdcRspUserLoginField_CZCETime
   ++ rows_CThostFtdcRspUserLoginField_FFEXTime
   ++ rows_CThostFtdcRspUserLoginField_INETime
   ++ rows_CThostFtdcRspUserLoginField_SysVersion
   ++ rows_CThostFtdcRspUserLoginField_GFEXTime).

Definition rows_CThostFtdcUserLogoutField_UserID : list row :=
  [ ("UserID", TChars 16, GString) ].
Definition wrap_CThostFtdcUserLogoutField : wrapper :=
  mk_wrapper 464
  ([ ("BrokerID", TChars 11, GString) ]
   ++ rows_CThostFtdcUserLogoutField_UserID).

Definition rows_CThostFtdcForceUserLogoutField_UserID : list row :=
  [ ("UserID", TChars 16, GString) ].
Definition wrap_CThostFtdcForceUserLogoutField : wrapper :=
  mk_wrapper 74
  ([ ("BrokerID", TChars 11, GString) ]
   ++ rows_CThostFtdcForceUserLogoutField_UserID).

Definition rows_CThostFtdcReqAuthenticateField_UserID : list row :=
  [ ("UserID", TChars 16, GString) ].
Definition rows_CThostFtdcReqAuthenticateField_UserProductInfo : list row :=
  [ ("UserProductInfo", TChars 11, GString) ].
Definition rows_CThostFtdcReqAuthenticateField_AuthCode : list row :=
  [ ("AuthCode", TChars 17, GString) ].
Definition rows_CThostFtdcReqAuthenticateField_AppID : list row :=
  [ ("AppID", TChars 33, GString) ].
Definition wrap_CThostFtdcReqAuthenticateField : wrapper :=
  mk_wrapper 324
  ([ ("BrokerID", TChars 11, GString) ]
   ++ rows_CThostFtdcReqAuthenticateField_UserID
   ++ rows_CThostFtdcReqAuthenticateField_UserProductInfo
   ++ rows_CThostFtdcReqAuthenticateField_AuthCode
   ++ rows_CThostFtdcReqAuthenticateField_AppID).

Definition rows_CThostFtdcRspAuthenticateField_UserID : list row :=
  [ ("UserID", TChars 16, GString) ].
Definition rows_CThostFtdcRspAuthenticateField_UserProductInfo : list row :=
  [ ("UserProductInfo", TChars 11, GString) ].
Definition rows_CThostFtdcRspAuthenticateField_AppID : list row :=
  [ ("AppID", TChars 33, GString) ].
Definition rows_CThostFtdcRspAuthenticateField_AppType : list row :=
  [ ("AppType", TChar, GChar) ].
Definition wrap_CThostFtdcRspAuthenticateField : wrapper :=
  mk_wrapper 350
  ([ ("BrokerID", TChars 11, GString) ]
   ++ rows_CThostFtdcRspAuthenticateField_UserID
   ++ rows_CThostFtdcRspAuthenticateField_UserProductInfo
   ++ rows_CThostFtdcRspAuthenticateField_AppID
   ++ rows_CThostFtdcRspAuthenticateField_AppType).

Definition rows_CThostFtdcAuthenticationInfoField_UserID : list row :=
  [ ("UserID", TChars 16, GString) ].
Definition rows_CThostFtdcAuthenticationInfoField_UserProductInfo : list row :=
  [ ("UserProductInfo", TChars 11, GString) ].
Definition rows_CThostFtdcAuthenticationInfoField_AuthInfo : list row :=
  [ ("AuthInfo", TChars 129, GString) ].
Definition rows_CThostFtdcAuthenticationInfoField_IsResult : list row :=
  [ ("IsResult", TInt, GInt) ].
Definition rows_CThostFtdcAuthenticationInfoField_AppID : list row :=
  [ ("AppID", TChars 33, GString) ].
Definition rows_CThostFtdcAuthenticationInfoField_AppType : list row :=
  [ ("AppType", TChar, GChar) ].
Definition rows_CThostFtdcAuthenticationInfoField_reserve1 : list row :=
  [ ("reserve1", TChars 16, GString) ].
Definition rows_CThostFtdcAuthenticationInfoField_ClientIPAddress : list row :=
  [ ("ClientIPAddress", TChars 33, GString) ].
Definition wrap_CThostFtdcAuthenticationInfoField : wrapper :=
  mk_wrapper 6
  ([ ("BrokerID", TChars 11, GString) ]
   ++ rows_CThostFtdcAuthenticationInfoField_UserID
   ++ rows_CThostFtdcAuthenticationInfoField_UserProductInfo
   ++ rows_CThostFtdcAuthenticationInfoField_AuthInfo
   ++ rows_CThostFtdcAuthenticationInfoField_IsResult
   ++ rows_CThostFtdcAuthenticationInfoField_AppID
   ++ rows_CThostFtdcAuthenticationInfoField_AppType
   ++ rows_CThostFtdcAuthenticationInfoField_reserve1
   ++ rows_CThostFtdcAuthenticationInfoField_ClientIPAddress).

Definition rows_CThostFtdcRspUserLogin2Field_LoginTime : list row :=
  [ ("LoginTime", TChars 9, GString) ].
Definition rows_CThostFtdcRspUserLogin2Field_BrokerID : list row :=
  [ ("BrokerID", TChars 11, GString) ].
Definition rows_CThostFtdcRspUserLogin2Field_UserID : list row :=
  [ ("UserID", TChars 16, GString) ].
Definition rows_CThostFtdcRspUserLogin2Field_SystemName : list row :=
  [ ("SystemName", TChars 41, GString) ].
Definition rows_CThostFtdcRspUserLogin2Field_FrontID : list row :=
  [ ("FrontID", TInt, GInt);
    ("SessionID", TInt, GInt) ].
Definition rows_CThostFtdcRspUserLogin2Field_MaxOrderRef : list row :=
  [ ("MaxOrderRef", TChars 13, GString) ].
Definition rows_CThostFtdcRspUserLogin2Field_SHFETime : list row :=
  [ ("SHFETime", TChars 9, GString) ].
Definition rows_CThostFtdcRspUserLogin2Field_DCETime : list row :=
  [ ("DCETime", TChars 9, GString) ].
Definition rows_CThostFtdcRspUserLogin2Field_CZCETime : list row :=
  [ ("CZCETime", TChars 9, GString) ].
Definition rows_CThostFtdcRspUserLogin2Field_FFEXTime : list row :=
  [ ("FFEXTime", TChars 9, GString) ].
Definition rows_CThostFtdcRspUserLogin2Field_INETime : list row :=
  [ ("INETime", TChars 9, GString) ].
Definition rows_CThostFtdcRspUserLogin2Field_RandomString : list row :=
  [ ("RandomString", TChars 17, GString) ].
Definition wrap_CThostFtdcRspUserLogin2Field : wrapper :=
  mk_wrapper 362
  ([ ("TradingDay", TChars 9, GString) ]
   ++ rows_CThostFtdcRspUserLogin2Field_LoginTime
   ++ rows_CThostFtdcRspUserLogin2Field_BrokerID
   ++ rows_CThostFtdcRspUserLogin2Field_UserID
   ++ rows_CThostFtdcRspUserLogin2Field_SystemName
   ++ rows_CThostFtdcRspUserLogin2Field_FrontID
   ++ rows_CThostFtdcRspUserLogin2Field_MaxOrderRef
   ++ rows_CThostFtdcRspUserLogin2Field_SHFETime
   ++ rows_CThostFtdcRspUserLogin2Field_DCETime
   ++ rows_CThostFtdcRspUserLogin2Field_CZCETime
   ++ rows_CThostFtdcRspUserLogin2Field_FFEXTime
   ++ rows_CThostFtdcRspUserLogin2Field_INETime
   ++ rows_CThostFtdcRspUserLogin2Field_RandomString).

Definition rows_CThostFtdcTransferHeaderField_TradeCode : list row :=
  [ ("TradeCode", TChars 7, GString) ].
Definition rows_CThostFtdcTransferHeaderField_TradeDate : list row :=
  [ ("TradeDate", TChars 9, GString) ].
Definition rows_CThostFtdcTransferHeaderField_TradeTime : list row :=
  [ ("TradeTime", TChars 9, GString) ].
Definition rows_CThostFtdcTransferHeaderField_TradeSerial : list row :=
  [ ("TradeSerial", TChars 9, GString) ].
Definition rows_CThostFtdcTransferHeaderField_FutureID : list row :=
  [ ("FutureID", TChars 11, GString) ].
Definition rows_CThostFtdcTransferHeaderField_BankID : list row :=
  [ ("BankID", TChars 4, GString) ].
Definition rows_CThostFtdcTransferHeaderField_BankBrchID : list row :=
  [ ("BankBrchID", TChars 5, GString) ].
Definition rows_CThostFtdcTransferHeaderField_OperNo : list row :=
  [ ("OperNo", TChars 17, GString) ].
Definition rows_CThostFtdcTransferHeaderField_DeviceID : list row :=
  [ ("DeviceID", TChars 3, GString) ].
Definition rows_CThostFtdcTransferHeaderField_RecordNum : list row :=
  [ ("RecordNum", TChars 7, GString) ].
Definition rows_CThostFtdcTransferHeaderField_SessionID : list row :=
  [ ("SessionID", TInt, GInt);
    ("RequestID", TInt, GInt) ].
Definition wrap_CThostFtdcTransferHeaderField : wrapper :=
  mk_wrapper 457
  ([ ("Version", TChars 4, GString) ]
   ++ rows_CThostFtdcTransferHeaderField_TradeCode
   ++ rows_CThostFtdcTransferHeaderField_TradeDate
   ++ rows_CThostFtdcTransferHeaderField_TradeTime
   ++ rows_CThostFtdcTransferHeaderField_TradeSerial
   ++ rows_CThostFtdcTransferHeaderField_FutureID
   ++ rows_CThostFtdcTransferHeaderField_BankID
   ++ rows_CThostFtdcTransferHeaderField_BankBrchID
   ++ rows_CThostFtdcTransferHeaderField_OperNo
   ++ rows_CThostFtdcTransferHeaderField_DeviceID
   ++ rows_CThostFtdcTransferHeaderField_RecordNum
   ++ rows_CThostFtdcTransferHeaderField_SessionID).

Definition rows_CThostFtdcTransferBankToFutureReqField_FuturePwdFlag : list row :=
  [ ("FuturePwdFlag", TChar, GChar) ].
Definition rows_CThostFtdcTransferBankToFutureReqField_FutureAccPwd : list row :=
  [ ("FutureAccPwd", TChars 17, GString) ].
Definition rows_CThostFtdcTransferBankToFutureReqField_TradeAmt : list row :=
  [ ("TradeAmt", TDouble, GDouble);
    ("CustFee", TDouble, GDouble) ].
Definition rows_CThostFtdcTransferBankToFutureReqField_CurrencyCode : list row :=
  [ ("CurrencyCode", TChars 4, GString) ].
Definition wrap_CThostFtdcTransferBankToFutureReqField : wrapper :=
  mk_wrapper 453
  ([ ("FutureAccount", TChars 13, GString) ]
   ++ rows_CThostFtdcTransferBankToFutureReqField_FuturePwdFlag
   ++ rows_CThostFtdcTransferBankToFutureReqField_FutureAccPwd
   ++ rows_CThostFtdcTransferBankToFutureReqField_TradeAmt
   ++ rows_CThostFtdcTransferBankToFutureReqField_CurrencyCode).

Definition rows_CThostFtdcTransferBankToFutureRspField_RetInfo : list row :=
  [ ("RetInfo", TChars 129, GString) ].
Definition rows_CThostFtdcTransferBankToFutureRspField_FutureAccount : list row :=
  [ ("FutureAccount", TChars 13, GString) ].
Definition rows_CThostFtdcTransferBankToFutureRspField_TradeAmt : list row :=
  [ ("TradeAmt", TDouble, GDouble);
    ("CustFee", TDouble, GDouble) ].
Definition rows_CThostFtdcTransferBankToFutureRspField_CurrencyCode : list row :=
  [ ("CurrencyCode", TChars 4, GString) ].
Definition wrap_CThostFtdcTransferBankToFutureRspField : wrapper :=
  mk_wrapper 454
  ([ ("RetCode", TChars 5, GString) ]
   ++ rows_CThostFtdcTransferBankToFutureRspField_RetInfo
   ++ rows_CThostFtdcTransferBankToFutureRspField_FutureAccount
   ++ rows_CThostFtdcTransferBankToFutureRspField_TradeAmt
   ++ rows_CThostFtdcTransferBankToFutureRspField_CurrencyCode).

Definition rows_CThostFtdcTransferFutureToBankReqField_FuturePwdFlag : list row :=
  [ ("FuturePwdFlag", TChar, GChar) ].
Definition rows_CThostFtdcTransferFutureToBankReqField_FutureAccPwd : list row :=
  [ ("FutureAccPwd", TChars 17, GString) ].
Definition rows_CThostFtdcTransferFutureToBankReqField_TradeAmt : list row :=
  [ ("TradeAmt", TDouble, GDouble);
    ("CustFee", TDouble, GDouble) ].
Definition rows_CThostFtdcTransferFutureToBankReqField_CurrencyCode : list row :=
  [ ("CurrencyCode", TChars 4, GString) ].
Definition wrap_CThostFtdcTransferFutureToBankReqField : wrapper :=
  mk_wrapper 455
  ([ ("FutureAccount", TChars 13, GString) ]
   ++ rows_CThostFtdcTransferFutureToBankReqField_FuturePwdFlag
   ++ rows_CThostFtdcTransferFutureToBankReqField_FutureAccPwd
   ++ rows_CThostFtdcTransferFutureToBankReqField_TradeAmt
   ++ rows_CThostFtdcTransferFutureToBankReqField_CurrencyCode).

Definition rows_CThostFtdcTransferFutureToBankRspField_RetInfo : list row :=
  [ ("RetInfo", TChars 129, GString) ].
Definition rows_CThostFtdcTransferFutureToBankRspField_FutureAccount : list row :=
  [ ("FutureAccount", TChars 13, GString) ].
Definition rows_CThostFtdcTransferFutureToBankRspField_TradeAmt : list row :=
  [ ("TradeAmt", TDouble, GDouble);
    ("CustFee", TDouble, GDouble) ].
Definition rows_CThostFtdcTransferFutureToBankRspField_CurrencyCode : list row :=
  [ ("CurrencyCode", TChars 4, GString) ].
Definition wrap_CThostFtdcTransferFutureToBankRspField : wrapper :=
  mk_wrapper 456
  ([ ("RetCode", TChars 5, GString) ]
   ++ rows_CThostFtdcTransferFutureToBankRspField_RetInfo
   ++ rows_CThostFtdcTransferFutureToBankRspField_FutureAccount
   ++ rows_CThostFtdcTransferFutureToBankRspField_TradeAmt
   ++ rows_CThostFtdcTransferFutureToBankRspField_CurrencyCode).

Definition rows_CThostFtdcTransferQryBankReqField_FuturePwdFlag : list row :=
  [ ("FuturePwdFlag", TChar, GChar) ].
Definition rows_CThostFtdcTransferQryBankReqField_FutureAccPwd : list row :=
  [ ("FutureAccPwd", TChars 17, GString) ].
Definition rows_CThostFtdcTransferQryBankReqField_CurrencyCode : list row :=
  [ ("CurrencyCode", TChars 4, GString) ].
Definition wrap_CThostFtdcTransferQryBankReqField : wrapper :=
  mk_wrapper 458
  ([ ("FutureAccount", TChars 13, GString) ]
   ++ rows_CThostFtdcTransferQryBankReqField_FuturePwdFlag
   ++ rows_CThostFtdcTransferQryBankReqField_FutureAccPwd
   ++ rows_CThostFtdcTransferQryBankReqField_CurrencyCode).

Definition rows_CThostFtdcTransferQryBankRspField_RetInfo : list row :=
  [ ("RetInfo", TChars 129, GString) ].
Definition rows_CThostFtdcTransferQryBankRspField_FutureAccount : list row :=
  [ ("FutureAccount", TChars 13, GString) ].
Definition rows_CThostFtdcTransferQryBankRspField_TradeAmt : list row :=
  [ ("TradeAmt", TDouble, GDouble);
    ("UseAmt", TDouble, GDouble) ].
Definition rows_CThostFtdcTransferQryBankRspField_FetchAmt : list row :=
  [ ("FetchAmt", TDouble, GDouble) ].
Definition rows_CThostFtdcTransferQryBankRspField_CurrencyCode : list row :=
  [ ("CurrencyCode", TChars 4, GString) ].
Definition wrap_CThostFtdcTransferQryBankRspField : wrapper :=
  mk_wrapper 459
  ([ ("RetCode", TChars 5, GString) ]
   ++ rows_CThostFtdcTransferQryBankRspField_RetInfo
   ++ rows_CThostFtdcTransferQryBankRspField_FutureAccount
   ++ rows_CThostFtdcTransferQryBankRspField_TradeAmt
   ++ rows_CThostFtdcTransferQryBankRspField_FetchAmt
   ++ rows_CThostFtdcTransferQryBankRspField_CurrencyCode).

Definition wrap_CThostFtdcTransferQryDetailReqField : wrapper :=
  mk_wrapper 460
  [ ("FutureAccount", TChars 13, GString) ].

Definition rows_CThostFtdcTransferQryDetailRspField_TradeTime : list row :=
  [ ("TradeTime", TChars 9, GString) ].
Definition rows_CThostFtdcTransferQryDetailRspField_TradeCode : list row :=
  [ ("TradeCode", TChars 7, GString) ].
Definition rows_CThostFtdcTransferQryDetailRspField_FutureSerial : list row :=
  [ ("FutureSerial", TInt, GInt) ].
Definition rows_CThostFtdcTransferQryDetailRspField_FutureID : list row :=
  [ ("FutureID", TChars 11, GString) ].
Definition rows_CThostFtdcTransferQryDetailRspField_FutureAccount : list row :=
  [ ("FutureAccount", TChars 22, GString) ].
Definition rows_CThostFtdcTransferQryDetailRspField_BankSerial : list row :=
  [ ("BankSerial", TInt, GInt) ].
Definition rows_CThostFtdcTransferQryDetailRspField_BankID : list row :=
  [ ("BankID", TChars 4, GString) ].
Definition rows_CThostFtdcTransferQryDetailRspField_BankBrchID : list row :=
  [ ("BankBrchID", TChars 5, GString) ].
Definition rows_CThostFtdcTransferQryDetailRspField_BankAccount : list row :=
  [ ("BankAccount", TChars 41, GString) ].
Definition rows_CThostFtdcTransferQryDetailRspField_CertCode : list row :=
  [ ("CertCode", TChars 21, GString) ].
Definition rows_CThostFtdcTransferQryDetailRspField_CurrencyCode : list row :=
  [ ("CurrencyCode", TChars 4, GString) ].
Definition rows_CThostFtdcTransferQryDetailRspField_TxAmount : list row :=
  [ ("TxAmount", TDouble, GDouble);
    ("Flag", TChar, GChar) ].
Definition wrap_CThostFtdcTransferQryDetailRspField : wrapper :=
  mk_wrapper 461
  ([ ("TradeDate", TChars 9, GString) ]
   ++ rows_CThostFtdcTransferQryDetailRspField_TradeTime
   ++ rows_CThostFtdcTransferQryDetailRspField_TradeCode
   ++ rows_CThostFtdcTransferQryDetailRspField_FutureSerial
   ++ rows_CThostFtdcTransferQryDetailRspField_FutureID
   ++ rows_CThostFtdcTransferQryDetailRspField_FutureAccount
   ++ rows_CThostFtdcTransferQryDetailRspField_BankSerial
   ++ rows_CThostFtdcTransferQryDetailRspField_BankID
   ++ rows_CThostFtdcTransferQryDetailRspField_BankBrchID
   ++ rows_CThostFtdcTransferQryDetailRspField_BankAccount
   ++ rows_CThostFtdcTransferQryDetailRspField_CertCode
   ++ rows_CThostFtdcTransferQryDetailRspField_CurrencyCode
   ++ rows_CThostFtdcTransferQryDetailRspField_TxAmount).

Definition rows_CThostFtdcRspInfoField_ErrorMsg : list row :=
  [ ("ErrorMsg", TChars 81, GString) ].
Definition wrap_CThostFtdcRspInfoField : wrapper :=
  mk_wrapper 355
  ([ ("ErrorID", TInt, GInt) ]
   ++ rows_CThostFtdcRspInfoField_ErrorMsg).

Definition rows_CThostFtdcExchangeField_ExchangeName : list row :=
  [ ("ExchangeName", TChars 61, GString) ].
Definition rows_CThostFtdcExchangeField_ExchangeProperty : list row :=
  [ ("ExchangeProperty", TChar, GChar) ].
Definition wrap_CThostFtdcExchangeField : wrapper :=
  mk_wrapper 52
  ([ ("ExchangeID", TChars 9, GString) ]
   ++ rows_CThostFtdcExchangeField_ExchangeName
   ++ rows_CThostFtdcExchangeField_ExchangeProperty).

Definition rows_CThostFtdcProductField_ProductName : list row :=
  [ ("ProductName", TChars 21, GString) ].
Definition rows_CThostFtdcProductField_ExchangeID : list row :=
  [ ("ExchangeID", TChars 9, GString) ].
Definition rows_CThostFtdcProductField_ProductClass : list row :=
  [ ("ProductClass", TChar, GChar);
    ("VolumeMultiple", TInt, GInt) ].
Definition rows_CThostFtdcProductField_PriceTick : list row :=
  [ ("PriceTick", TDouble, GDouble);
    ("MaxMarketOrderVolume", TInt, GInt) ].
Definition rows_CThostFtdcProductField_MinMarketOrderVolume : list row :=
  [ ("MinMarketOrderVolume", TInt, GInt);
    ("MaxLimitOrderVolume", TInt, GInt) ].
Definition rows_CThostFtdcProductField_MinLimitOrderVolume : list row :=
  [ ("MinLimitOrderVolume", TInt, GInt);
    ("PositionType", TChar, GChar) ].
Definition rows_CThostFtdcProductField_PositionDateType : list row :=
  [ ("PositionDateType", TChar, GChar);
    ("CloseDealType", TChar, GChar) ].
Definition rows_CThostFtdcProductField_TradeCurrencyID : list row :=
  [ ("TradeCurrencyID", TChars 4, GString) ].
Definition rows_CThostFtdcProductField_MortgageFundUseRange : list row :=
  [ ("MortgageFundUseRange", TChar, GChar) ].
Definition rows_CThostFtdcProductField_reserve2 : list row :=
  [ ("reserve2", TChars 31, GString) ].
Definition rows_CThostFtdcProductField_UnderlyingMultiple : list row :=
  [ ("UnderlyingMultiple", TDouble, GDouble) ].
Definition rows_CThostFtdcProductField_ProductID : list row :=
  [ ("ProductID", TChars 81, GString) ].
Definition rows_CThostFtdcProductField_ExchangeProductID : list row :=
  [ ("ExchangeProductID", TChars 81, GString) ].
Definition rows_CThostFtdcProductField_OpenLimitControlLevel : list row :=
  [ ("OpenLimitControlLevel", TChar, GChar);
    ("OrderFreqControlLevel", TChar, GChar) ].
Definition wrap_CThostFtdcProductField : wrapper :=
  mk_wrapper 169
  ([ ("reserve1", TChars 31, GString) ]
   ++ rows_CThostFtdcProductField_ProductName
   ++ rows_CThostFtdcProductField_ExchangeID
   ++ rows_CThostFtdcProductField_ProductClass
   ++ rows_CThostFtdcProductField_PriceTick
   ++ rows_CThostFtdcProductField_MinMarketOrderVolume
   ++ rows_CThostFtdcProductField_MinLimitOrderVolume
   ++ rows_CThostFtdcProductField_PositionDateType
   ++ rows_CThostFtdcProductField_TradeCurrencyID
   ++ rows_CThostFtdcProductField_MortgageFundUseRange
   ++ rows_CThostFtdcProductField_reserve2
   ++ rows_CThostFtdcProductField_UnderlyingMultiple
   ++ rows_CThostFtdcProductField_ProductID
   ++ rows_CThostFtdcProductField_ExchangeProductID
   ++ rows_CThostFtdcProductField_OpenLimitControlLevel).

Definition rows_CThostFtdcInstrumentField_ExchangeID : list row :=
  [ ("ExchangeID", TChars 9, GString) ].
Definition rows_CThostFtdcInstrumentField_InstrumentName : list row :=
  [ ("InstrumentName", TChars 21, GString) ].
Definition rows_CThostFtdcInstrumentField_reserve2 : list row :=
  [ ("reserve2", TChars 31, GString) ].
Definition rows_CThostFtdcInstrumentField_reserve3 : list row :=
  [ ("reserve3", TChars 31, GString) ].
Definition rows_CThostFtdcInstrumentField_ProductClass : list row :=
  [ ("ProductClass", TChar, GChar);
    ("DeliveryYear", TInt, GInt) ].
Definition rows_CThostFtdcInstrumentField_DeliveryMonth : list row :=
  [ ("DeliveryMonth", TInt, GInt);
    ("MaxMarketOrderVolume", TInt, GInt) ].
Definition rows_CThostFtdcInstrumentField_MinMarketOrderVolume : list row :=
  [ ("MinMarketOrderVolume", TInt, GInt);
    ("MaxLimitOrderVolume", TInt, GInt) ].
Definition rows_CThostFtdcInstrumentField_MinLimitOrderVolume : list row :=
  [ ("MinLimitOrderVolume", TInt, GInt);
    ("VolumeMultiple", TInt, GInt) ].
Definition rows_CThostFtdcInstrumentField_PriceTick : list row :=
  [ ("PriceTick", TDouble, GDouble) ].
Definition rows_CThostFtdcInstrumentField_CreateDate : list row :=
  [ ("CreateDate", TChars 9, GString) ].
Definition rows_CThostFtdcInstrumentField_OpenDate : list row :=
  [ ("OpenDate", TChars 9, GString) ].
Definition rows_CThostFtdcInstrumentField_ExpireDate : list row :=
  [ ("ExpireDate", TChars 9, GString) ].
Definition rows_CThostFtdcInstrumentField_StartDelivDate : list row :=
  [ ("StartDelivDate", TChars 9, GString) ].
Definition rows_CThostFtdcInstrumentField_EndDelivDate : list row :=
  [ ("EndDelivDate", TChars 9, GString) ].
Definition rows_CThostFtdcInstrumentField_InstLifePhase : list row :=
  [ ("InstLifePhase", TChar, GChar);
    ("IsTrading", TInt, GInt) ].
Definition rows_CThostFtdcInstrumentField_PositionType : list row :=
  [ ("PositionType", TChar, GChar);
    ("PositionDateType", TChar, GChar) ].
Definition rows_CThostFtdcInstrumentField_LongMarginRatio : list row :=
  [ ("LongMarginRatio", TDouble, GDouble);
    ("ShortMarginRatio", TDouble, GDouble) ].
Definition rows_CThostFtdcInstrumentField_MaxMarginSideAlgorithm : list row :=
  [ ("MaxMarginSideAlgorithm", TChar, GChar) ].
Definition rows_CThostFtdcInstrumentField_reserve4 : list row :=
  [ ("reserve4", TChars 31, GString) ].
Definition rows_CThostFtdcInstrumentField_StrikePrice : list row :=
  [ ("StrikePrice", TDouble, GDouble);
    ("OptionsType", TChar, GChar) ].
Definition rows_CThostFtdcInstrumentField_UnderlyingMultiple : list row :=
  [ ("UnderlyingMultiple", TDouble, GDouble);
    ("CombinationType", TChar, GChar) ].
Definition rows_CThostFtdcInstrumentField_InstrumentID : list row :=
  [ ("InstrumentID", TChars 81, GString) ].
Definition rows_CThostFtdcInstrumentField_ExchangeInstID : list row :=
  [ ("ExchangeInstID", TChars 81, GString) ].
Definition rows_CThostFtdcInstrumentField_ProductID : list row :=
  [ ("ProductID", TChars 81, GString) ].
Definition rows_CThostFtdcInstrumentField_UnderlyingInstrID : list row :=
  [ ("UnderlyingInstrID", TChars 81, GString) ].
Definition wrap_CThostFtdcInstrumentField : wrapper :=
  mk_wrapper 93
  ([ ("reserve1", TChars 31, GString) ]
   ++ rows_CThostFtdcInstrumentField_ExchangeID
   ++ rows_CThostFtdcInstrumentField_InstrumentName
   ++ rows_CThostFtdcInstrumentField_reserve2
   ++ rows_CThostFtdcInstrumentField_reserve3
   ++ rows_CThostFtdcInstrumentField_ProductClass
   ++ rows_CThostFtdcInstrumentField_DeliveryMonth
   ++ rows_CThostFtdcInstrumentField_MinMarketOrderVolume
   ++ rows_CThostFtdcInstrumentField_MinLimitOrderVolume
   ++ rows_CThostFtdcInstrumentField_PriceTick
   ++ rows_CThostFtdcInstrumentField_CreateDate
   ++ rows_CThostFtdcInstrumentField_OpenDate
   ++ rows_CThostFtdcInstrumentField_ExpireDate
   ++ rows_CThostFtdcInstrumentField_StartDelivDate
   ++ rows_CThostFtdcInstrumentField_EndDelivDate
   ++ rows_CThostFtdcInstrumentField_InstLifePhase
   ++ rows_CThostFtdcInstrumentField_PositionType
   ++ rows_CThostFtdcInstrumentField_LongMarginRatio
   ++ rows_CThostFtdcInstrumentField_MaxMarginSideAlgorithm
   ++ rows_CThostFtdcInstrumentField_reserve4
   ++ rows_CThostFtdcInstrumentField_StrikePrice
   ++ rows_CThostFtdcInstrumentField_UnderlyingMultiple
   ++ rows_CThostFtdcInstrumentField_InstrumentID
   ++ rows_CThostFtdcInstrumentField_ExchangeInstID
   ++ rows_CThostFtdcInstrumentField_ProductID
   ++ rows_CThostFtdcInstrumentField_UnderlyingInstrID).

Definition rows_CThostFtdcBrokerField_BrokerAbbr : list row :=
  [ ("BrokerAbbr", TChars 9, GString) ].
Definition rows_CThostFtdcBrokerField_BrokerName : list row :=
  [ ("BrokerName", TChars 81, GString) ].
Definition rows_CThostFtdcBrokerField_IsActive : list row :=
  [ ("IsActive", TInt, GInt) ].
Definition wrap_CThostFtdcBrokerField : wrapper :=
  mk_wrapper 9
  ([ ("BrokerID", TChars 11, GString) ]
   ++ rows_CThostFtdcBrokerField_BrokerAbbr
   ++ rows_CThostFtdcBrokerField_BrokerName
   ++ rows_CThostFtdcBrokerField_IsActive).

Definition rows_CThostFtdcTraderField_TraderID : list row :=
  [ ("TraderID", TChars 21, GString) ].
Definition rows_CThostFtdcTraderField_ParticipantID : list row :=
  [ ("ParticipantID", TChars 11, GString) ].
Definition rows_CThostFtdcTraderField_Password : list row :=
  [ ("Password", TChars 41, GString) ].
Definition rows_CThostFtdcTraderField_InstallCount : list row :=
  [ ("InstallCount", TInt, GInt) ].
Definition rows_CThostFtdcTraderField_BrokerID : list row :=
  [ ("BrokerID", TChars 11, GString) ].
Definition rows_CThostFtdcTraderField_OrderCancelAlg : list row :=
  [ ("OrderCancelAlg", TChar, GChar);
    ("TradeInstallCount", TInt, GInt) ].
Definition rows_CThostFtdcTraderField_MDInstallCount : list row :=
  [ ("MDInstallCount", TInt, GInt) ].
Definition wrap_CThostFtdcTraderField : wrapper :=
  mk_wrapper 441
  ([ ("ExchangeID", TChars 9, GString) ]
   ++ rows_CThostFtdcTraderField_TraderID
   ++ rows_CThostFtdcTraderField_ParticipantID
   ++ rows_CThostFtdcTraderField_Password
   ++ rows_CThostFtdcTraderField_InstallCount
   ++ rows_CThostFtdcTraderField_BrokerID
   ++ rows_CThostFtdcTraderField_OrderCancelAlg
   ++ rows_CThostFtdcTraderField_MDInstallCount).

Definition rows_CThostFtdcInvestorField_BrokerID : list row :=
  [ ("BrokerID", TChars 11, GString) ].
Definition rows_CThostFtdcInvestorField_InvestorGroupID : list row :=
  [ ("InvestorGroupID", TChars 13, GString) ].
Definition rows_CThostFtdcInvestorField_InvestorName : list row :=
  [ ("InvestorName", TChars 81, GString) ].
Definition rows_CThostFtdcInvestorField_IdentifiedCardType : list row :=
  [ ("IdentifiedCardType", TChar, GChar) ].
Definition rows_CThostFtdcInvestorField_IdentifiedCardNo : list row :=
  [ ("IdentifiedCardNo", TChars 51, GString) ].
Definition rows_CThostFtdcInvestorField_IsActive : list row :=
  [ ("IsActive", TInt, GInt) ].
Definition rows_CThostFtdcInvestorField_Telephone : list row :=
  [ ("Telephone", TChars 41, GString) ].
Definition rows_CThostFtdcInvestorField_Address : list row :=
  [ ("Address", TChars 101, GString) ].
Definition rows_CThostFtdcInvestorField_OpenDate : list row :=
  [ ("OpenDate", TChars 9, GString) ].
Definition rows_CThostFtdcInvestorField_Mobile : list row :=
  [ ("Mobile", TChars 41, GString) ].
Definition rows_CThostFtdcInvestorField_CommModelID : list row :=
  [ ("CommModelID", TChars 13, GString) ].
Definition rows_CThostFtdcInvestorField_MarginModelID : list row :=
  [ ("MarginModelID", TChars 13, GString) ].
Definition rows_CThostFtdcInvestorField_IsOrderFreq : list row :=
  [ ("IsOrderFreq", TChar, GChar);
    ("IsOpenVolLimit", TChar, GChar) ].
Definition wrap_CThostFtdcInvestorField : wrapper :=
  mk_wrapper 104
  ([ ("InvestorID", TChars 13, GString) ]
   ++ rows_CThostFtdcInvestorField_BrokerID
   ++ rows_CThostFtdcInvestorField_InvestorGroupID
   ++ rows_CThostFtdcInvestorField_InvestorName
   ++ rows_CThostFtdcInvestorField_IdentifiedCardType
   ++ rows_CThostFtdcInvestorField_IdentifiedCardNo
   ++ rows_CThostFtdcInvestorField_IsActive
   ++ rows_CThostFtdcInvestorField_Telephone
   ++ rows_CThostFtdcInvestorField_Address
   ++ rows_CThostFtdcInvestorField_OpenDate
   ++ rows_CThostFtdcInvestorField_Mobile
   ++ rows_CThostFtdcInvestorField_CommModelID
   ++ rows_CThostFtdcInvestorField_MarginModelID
   ++ rows_CThostFtdcInvestorField_IsOrderFreq).

Definition rows_CThostFtdcTradingCodeField_BrokerID : list row :=
  [ ("BrokerID", TChars 11, GString) ].
Definition rows_CThostFtdcTradingCodeField_ExchangeID : list row :=
  [ ("ExchangeID", TChars 9, GString) ].
Definition rows_CThostFtdcTradingCodeField_ClientID : list row :=
  [ ("ClientID", TChars 11, GString) ].
Definition rows_CThostFtdcTradingCodeField_IsActive : list row :=
  [ ("IsActive", TInt, GInt);
    ("ClientIDType", TChar, GChar) ].
Definition rows_CThostFtdcTradingCodeField_BranchID : list row :=
  [ ("BranchID", TChars 9, GString) ].
Definition rows_CThostFtdcTradingCodeField_BizType : list row :=
  [ ("BizType", TChar, GChar) ].
Definition rows_CThostFtdcTradingCodeField_InvestUnitID : list row :=
  [ ("InvestUnitID", TChars 17, GString) ].
Definition wrap_CThostFtdcTradingCodeField : wrapper :=
  mk_wrapper 449
  ([ ("InvestorID", TChars 13, GString) ]
   ++ rows_CThostFtdcTradingCodeField_BrokerID
   ++ rows_CThostFtdcTradingCodeField_ExchangeID
   ++ rows_CThostFtdcTradingCodeField_ClientID
   ++ rows_CThostFtdcTradingCodeField_IsActive
   ++ rows_CThostFtdcTradingCodeField_BranchID
   ++ rows_CThostFtdcTradingCodeField_BizType
   ++ rows_CThostFtdcTradingCodeField_InvestUnitID).

Definition rows_CThostFtdcPartBrokerField_ExchangeID : list row :=
  [ ("ExchangeID", TChars 9, GString) ].
Definition rows_CThostFtdcPartBrokerField_ParticipantID : list row :=
  [ ("ParticipantID", TChars 11, GString) ].
Definition rows_CThostFtdcPartBrokerField_IsActive : list row :=
  [ ("IsActive", TInt, GInt) ].
Definition wrap_CThostFtdcPartBrokerField : wrapper :=
  mk_wrapper 165
  ([ ("BrokerID", TChars 11, GString) ]
   ++ rows_CThostFtdcPartBrokerField_ExchangeID
   ++ rows_CThostFtdcPartBrokerField_ParticipantID
   ++ rows_CThostFtdcPartBrokerField_IsActive).

Definition rows_CThostFtdcSuperUserField_UserName : list row :=
  [ ("UserName", TChars 81, GString) ].
Definition rows_CThostFtdcSuperUserField_Password : list row :=
  [ ("Password", TChars 41, GString) ].
Definition rows_CThostFtdcSuperUserField_IsActive : list row :=
  [ ("IsActive", TInt, GInt) ].
Definition wrap_CThostFtdcSuperUserField : wrapper :=
  mk_wrapper 381
  ([ ("UserID", TChars 16, GString) ]
   ++ rows_CThostFtdcSuperUserField_UserName
   ++ rows_CThostFtdcSuperUserField_Password
   ++ rows_CThostFtdcSuperUserField_IsActive).

Definition rows_CThostFtdcSuperUserFunctionField_FunctionCode : list row :=
  [ ("FunctionCode", TChar, GChar) ].
Definition wrap_CThostFtdcSuperUserFunctionField : wrapper :=
  mk_wrapper 382
  ([ ("UserID", TChars 16, GString) ]
   ++ rows_CThostFtdcSuperUserFunctionField_FunctionCode).

Definition rows_CThostFtdcInvestorGroupField_InvestorGroupID : list row :=
  [ ("InvestorGroupID", TChars 13, GString) ].
Definition rows_CThostFtdcInvestorGroupField_InvestorGroupName : list row :=
  [ ("InvestorGroupName", TChars 41, GString) ].
Definition wrap_CThostFtdcInvestorGroupField : wrapper :=
  mk_wrapper 105
  ([ ("BrokerID", TChars 11, GString) ]
   ++ rows_CThostFtdcInvestorGroupField_InvestorGroupID
   ++ rows_CThostFtdcInvestorGroupField_InvestorGroupName).

Definition rows_CThostFtdcTradingAccountField_AccountID : list row :=
  [ ("AccountID", TChars 13, GString) ].
Definition rows_CThostFtdcTradingAccountField_PreMortgage : list row :=
  [ ("PreMortgage", TDouble, GDouble);
    ("PreCredit", TDouble, GDouble) ].
Definition rows_CThostFtdcTradingAccountField_PreDeposit : list row :=
  [ ("PreDeposit", TDouble, GDouble);
    ("PreBalance", TDouble, GDouble) ].
Definition rows_CThostFtdcTradingAccountField_PreMargin : list row :=
  [ ("PreMargin", TDouble, GDouble);
    ("InterestBase", TDouble, GDouble) ].
Definition rows_CThostFtdcTradingAccountField_Interest : list row :=
  [ ("Interest", TDouble, GDouble);
    ("Deposit", TDouble, GDouble) ].
Definition rows_CThostFtdcTradingAccountField_Withdraw : list row :=
  [ ("Withdraw", TDouble, GDouble);
    ("FrozenMargin", TDouble, GDouble) ].
Definition rows_CThostFtdcTradingAccountField_FrozenCash : list row :=
  [ ("FrozenCash", TDouble, GDouble);
    ("FrozenCommission", TDouble, GDouble) ].
Definition rows_CThostFtdcTradingAccountField_CurrMargin : list row :=
  [ ("CurrMargin", TDouble, GDouble);
    ("CashIn", TDouble, GDouble) ].
Definition rows_CThostFtdcTradingAccountField_Commission : list row :=
  [ ("Commission", TDouble, GDouble);
    ("CloseProfit", TDouble, GDouble) ].
Definition rows_CThostFtdcTradingAccountField_PositionProfit : list row :=
  [ ("PositionProfit", TDouble, GDouble);
    ("Balance", TDouble, GDouble) ].
Definition rows_CThostFtdcTradingAccountField_Available : list row :=
  [ ("Available", TDouble, GDouble);
    ("WithdrawQuota", TDouble, GDouble) ].
Definition rows_CThostFtdcTradingAccountField_Reserve : list row :=
  [ ("Reserve", TDouble, GDouble) ].
Definition rows_CThostFtdcTradingAccountField_TradingDay : list row :=
  [ ("TradingDay", TChars 9, GString) ].
Definition rows_CThostFtdcTradingAccountField_SettlementID : list row :=
  [ ("SettlementID", TInt, GInt);
    ("Credit", TDouble, GDouble) ].
Definition rows_CThostFtdcTradingAccountField_Mortgage : list row :=
  [ ("Mortgage", TDouble, GDouble);
    ("ExchangeMargin", TDouble, GDouble) ].
Definition rows_CThostFtdcTradingAccountField_DeliveryMargin : list row :=
  [ ("DeliveryMargin", TDouble, GDouble);
    ("ExchangeDeliveryMargin", TDouble, GDouble) ].
Definition rows_CThostFtdcTradingAccountField_ReserveBalance : list row :=
  [ ("ReserveBalance", TDouble, GDouble) ].
Definition rows_CThostFtdcTradingAccountField_CurrencyID : list row :=
  [ ("CurrencyID", TChars 4, GString) ].
Definition rows_CThostFtdcTradingAccountField_PreFundMortgageIn : list row :=
  [ ("PreFundMortgageIn", TDouble, GDouble);
    ("PreFundMortgageOut", TDouble, GDouble) ].
Definition rows_CThostFtdcTradingAccountField_FundMortgageIn : list row :=
  [ ("FundMortgageIn", TDouble, GDouble);
    ("FundMortgageOut", TDouble, GDouble) ].
Definition rows_CThostFtdcTradingAccountField_FundMortgageAvailable : list row :=
  [ ("FundMortgageAvailable", TDouble, GDouble);
    ("MortgageableFund", TDouble, GDouble) ].
Definition rows_CThostFtdcTradingAccountField_SpecProductMargin : list row :=
  [ ("SpecProductMargin", TDouble, GDouble);
    ("SpecProductFrozenMargin", TDouble, GDouble) ].
Definition rows_CThostFtdcTradingAccountField_SpecProductCommission : list row :=
  [ ("SpecProductCommission", TDouble, GDouble);
    ("SpecProductFrozenCommission", TDouble, GDouble) ].
Definition rows_CThostFtdcTradingAccountField_SpecProductPositionProfit : list row :=
  [ ("SpecProductPositionProfit", TDouble, GDouble);
    ("SpecProductCloseProfit", TDouble, GDouble) ].
Definition rows_CThostFtdcTradingAccountField_SpecProductPositionProfitByAlg : list row :=
  [ ("SpecProductPositionProfitByAlg", TDouble, GDouble);
    ("SpecProductExchangeMargin", TDouble, GDouble) ].
Definition rows_CThostFtdcTradingAccountField_BizType : list row :=
  [ ("BizType", TChar, GChar);
    ("FrozenSwap", TDouble, GDouble) ].
Definition rows_CThostFtdcTradingAccountField_RemainSwap : list row :=
  [ ("RemainSwap", TDouble, GDouble) ].
Definition wrap_CThostFtdcTradingAccountField : wrapper :=
  mk_wrapper 444
  ([ ("BrokerID", TChars 11, GString) ]
   ++ rows_CThostFtdcTradingAccountField_AccountID
   ++ rows_CThostFtdcTradingAccountField_PreMortgage
   ++ rows_CThostFtdcTradingAccountField_PreDeposit
   ++ rows_CThostFtdcTradingAccountField_PreMargin
   ++ rows_CThostFtdcTradingAccountField_Interest
   ++ rows_CThostFtdcTradingAccountField_Withdraw
   ++ rows_CThostFtdcTradingAccountField_FrozenCash
   ++ rows_CThostFtdcTradingAccountField_CurrMargin
   ++ rows_CThostFtdcTradingAccountField_Commission
   ++ rows_CThostFtdcTradingAccountField_PositionProfit
   ++ rows_CThostFtdcTradingAccountField_Available
   ++ rows_CThostFtdcTradingAccountField_Reserve
   ++ rows_CThostFtdcTradingAccountField_TradingDay
   ++ rows_CThostFtdcTradingAccountField_SettlementID
   ++ rows_CThostFtdcTradingAccountField_Mortgage
   ++ rows_CThostFtdcTradingAccountField_DeliveryMargin
   ++ rows_CThostFtdcTradingAccountField_ReserveBalance
   ++ rows_CThostFtdcTradingAccountField_CurrencyID
   ++ rows_CThostFtdcTradingAccountField_PreFundMortgageIn
   ++ rows_CThostFtdcTradingAccountField_FundMortgageIn
   ++ rows_CThostFtdcTradingAccountField_FundMortgageAvailable
   ++ rows_CThostFtdcTradingAccountField_SpecProductMargin
   ++ rows_CThostFtdcTradingAccountField_SpecProductCommission
   ++ rows_CThostFtdcTradingAccountField_SpecProductPositionProfit
   ++ rows_CThostFtdcTradingAccountField_SpecProductPositionProfitByAlg
   ++ rows_CThostFtdcTradingAccountField_BizType
   ++ rows_CThostFtdcTradingAccountField_RemainSwap).

Definition rows_CThostFtdcInvestorPositionField_BrokerID : list row :=
  [ ("BrokerID", TChars 11, GString) ].
Definition rows_CThostFtdcInvestorPositionField_InvestorID : list row :=
  [ ("InvestorID", TChars 13, GString) ].
Definition rows_CThostFtdcInvestorPositionField_PosiDirection : list row :=
  [ ("PosiDirection", TChar, GChar);
    ("HedgeFlag", TChar, GChar) ].
Definition rows_CThostFtdcInvestorPositionField_PositionDate : list row :=
  [ ("PositionDate", TChar, GChar);
    ("YdPosition", TInt, GInt) ].
Definition rows_CThostFtdcInvestorPositionField_Position : list row :=
  [ ("Position", TInt, GInt);
    ("LongFrozen", TInt, GInt) ].
Definition rows_CThostFtdcInvestorPositionField_ShortFrozen : list row :=
  [ ("ShortFrozen", TInt, GInt);
    ("LongFrozenAmount", TDouble, GDouble) ].
Definition rows_CThostFtdcInvestorPositionField_ShortFrozenAmount : list row :=
  [ ("ShortFrozenAmount", TDouble, GDouble);
    ("OpenVolume", TInt, GInt) ].
Definition rows_CThostFtdcInvestorPositionField_CloseVolume : list row :=
  [ ("CloseVolume", TInt, GInt);
    ("OpenAmount", TDouble, GDouble) ].
Definition rows_CThostFtdcInvestorPositionField_CloseAmount : list row :=
  [ ("CloseAmount", TDouble, GDouble);
    ("PositionCost", TDouble, GDouble) ].
Definition rows_CThostFtdcInvestorPositionField_PreMargin : list row :=
  [ ("PreMargin", TDouble, GDouble);
    ("UseMargin", TDouble, GDouble) ].
Definition rows_CThostFtdcInvestorPositionField_FrozenMargin : list row :=
  [ ("FrozenMargin", TDouble, GDouble);
    ("FrozenCash", TDouble, GDouble) ].
Definition rows_CThostFtdcInvestorPositionField_FrozenCommission : list row :=
  [ ("FrozenCommission", TDouble, GDouble);
    ("CashIn", TDouble, GDouble) ].
Definition rows_CThostFtdcInvestorPositionField_Commission : list row :=
  [ ("Commission", TDouble, GDouble);
    ("CloseProfit", TDouble, GDouble) ].
Definition rows_CThostFtdcInvestorPositionField_PositionProfit : list row :=
  [ ("PositionProfit", TDouble, GDouble);
    ("PreSettlementPrice", TDouble, GDouble) ].
Definition rows_CThostFtdcInvestorPositionField_SettlementPrice : list row :=
  [ ("SettlementPrice", TDouble, GDouble) ].
Definition rows_CThostFtdcInvestorPositionField_TradingDay : list row :=
  [ ("TradingDay", TChars 9, GString) ].
Definition rows_CThostFtdcInvestorPositionField_SettlementID : list row :=
  [ ("SettlementID", TInt, GInt);
    ("OpenCost", TDouble, GDouble) ].
Definition rows_CThostFtdcInvestorPositionField_ExchangeMargin : list row :=
  [ ("ExchangeMargin", TDouble, GDouble);
    ("CombPosition", TInt, GInt) ].
Definition rows_CThostFtdcInvestorPositionField_CombLongFrozen : list row :=
  [ ("CombLongFrozen", TInt, GInt);
    ("CombShortFrozen", TInt, GInt) ].
Definition rows_CThostFtdcInvestorPositionField_CloseProfitByDate : list row :=
  [ ("CloseProfitByDate", TDouble, GDouble);
    ("CloseProfitByTrade", TDouble, GDouble) ].
Definition rows_CThostFtdcInvestorPositionField_TodayPosition : list row :=
  [ ("TodayPosition", TInt, GInt);
    ("MarginRateByMoney", TDouble, GDouble) ].
Definition rows_CThostFtdcInvestorPositionField_MarginRateByVolume : list row :=
  [ ("MarginRateByVolume", TDouble, GDouble);
    ("StrikeFrozen", TInt, GInt) ].
Definition rows_CThostFtdcInvestorPositionField_StrikeFrozenAmount : list row :=
  [ ("StrikeFrozenAmount", TDouble, GDouble);
    ("AbandonFrozen", TInt, GInt) ].
Definition rows_CThostFtdcInvestorPositionField_ExchangeID : list row :=
  [ ("ExchangeID", TChars 9, GString) ].
Definition rows_CThostFtdcInvestorPositionField_YdStrikeFrozen : list row :=
  [ ("YdStrikeFrozen", TInt, GInt) ].
Definition rows_CThostFtdcInvestorPositionField_InvestUnitID : list row :=
  [ ("InvestUnitID", TChars 17, GString) ].
Definition rows_CThostFtdcInvestorPositionField_PositionCostOffset : list row :=
  [ ("PositionCostOffset", TDouble, GDouble);
    ("TasPosition", TInt, GInt) ].
Definition rows_CThostFtdcInvestorPositionField_TasPositionCost : list row :=
  [ ("TasPositionCost", TDouble, GDouble) ].
Definition rows_CThostFtdcInvestorPositionField_InstrumentID : list row :=
  [ ("InstrumentID", TChars 81, GString) ].
Definition wrap_CThostFtdcInvestorPositionField : wrapper :=
  mk_wrapper 112
  ([ ("reserve1", TChars 31, GString) ]
   ++ rows_CThostFtdcInvestorPositionField_BrokerID
   ++ rows_CThostFtdcInvestorPositionField_InvestorID
   ++ rows_CThostFtdcInvestorPositionField_PosiDirection
   ++ rows_CThostFtdcInvestorPositionField_PositionDate
   ++ rows_CThostFtdcInvestorPositionField_Position
   ++ rows_CThostFtdcInvestorPositionField_ShortFrozen
   ++ rows_CThostFtdcInvestorPositionField_ShortFrozenAmount
   ++ rows_CThostFtdcInvestorPositionField_CloseVolume
   ++ rows_CThostFtdcInvestorPositionField_CloseAmount
   ++ rows_CThostFtdcInvestorPositionField_PreMargin
   ++ rows_CThostFtdcInvestorPositionField_FrozenMargin
   ++ rows_CThostFtdcInvestorPositionField_FrozenCommission
   ++ rows_CThostFtdcInvestorPositionField_Commission
   ++ rows_CThostFtdcInvestorPositionField_PositionProfit
   ++ rows_CThostFtdcInvestorPositionField_SettlementPrice
   ++ rows_CThostFtdcInvestorPositionField_TradingDay
   ++ rows_CThostFtdcInvestorPositionField_SettlementID
   ++ rows_CThostFtdcInvestorPositionField_ExchangeMargin
   ++ rows_CThostFtdcInvestorPositionField_CombLongFrozen
   ++ rows_CThostFtdcInvestorPositionField_CloseProfitByDate
   ++ rows_CThostFtdcInvestorPositionField_TodayPosition
   ++ rows_CThostFtdcInvestorPositionField_MarginRateByVolume
   ++ rows_CThostFtdcInvestorPositionField_StrikeFrozenAmount
   ++ rows_CThostFtdcInvestorPositionField_ExchangeID
   ++ rows_CThostFtdcInvestorPositionField_YdStrikeFrozen
   ++ rows_CThostFtdcInvestorPositionField_InvestUnitID
   ++ rows_CThostFtdcInvestorPositionField_PositionCostOffset
   ++ rows_CThostFtdcInvestorPositionField_TasPositionCost
   ++ rows_CThostFtdcInvestorPositionField_InstrumentID).

Definition rows_CThostFtdcInstrumentMarginRateField_InvestorRange : list row :=
  [ ("InvestorRange", TChar, GChar) ].
Definition rows_CThostFtdcInstrumentMarginRateField_BrokerID : list row :=
  [ ("BrokerID", TChars 11, GString) ].
Definition rows_CThostFtdcInstrumentMarginRateField_InvestorID : list row :=
  [ ("InvestorID", TChars 13, GString) ].
Definition rows_CThostFtdcInstrumentMarginRateField_HedgeFlag : list row :=
  [ ("HedgeFlag", TChar, GChar);
    ("LongMarginRatioByMoney", TDouble, GDouble) ].
Definition rows_CThostFtdcInstrumentMarginRateField_LongMarginRatioByVolume : list row :=
  [ ("LongMarginRatioByVolume", TDouble, GDouble);
    ("ShortMarginRatioByMoney", TDouble, GDouble) ].
Definition rows_CThostFtdcInstrumentMarginRateField_ShortMarginRatioByVolume : list row :=
  [ ("ShortMarginRatioByVolume", TDouble, GDouble);
    ("IsRelative", TInt, GInt) ].
Definition rows_CThostFtdcInstrumentMarginRateField_ExchangeID : list row :=
  [ ("ExchangeID", TChars 9, GString) ].
Definition rows_CThostFtdcInstrumentMarginRateField_InvestUnitID : list row :=
  [ ("InvestUnitID", TChars 17, GString) ].
Definition rows_CThostFtdcInstrumentMarginRateField_InstrumentID : list row :=
  [ ("InstrumentID", TChars 81, GString) ].
Definition wrap_CThostFtdcInstrumentMarginRateField : wrapper :=
  mk_wrapper 95
  ([ ("reserve1", TChars 31, GString) ]
   ++ rows_CThostFtdcInstrumentMarginRateField_InvestorRange
   ++ rows_CThostFtdcInstrumentMarginRateField_BrokerID
   ++ rows_CThostFtdcInstrumentMarginRateField_InvestorID
   ++ rows_CThostFtdcInstrumentMarginRateField_HedgeFlag
   ++ rows_CThostFtdcInstrumentMarginRateField_LongMarginRatioByVolume
   ++ rows_CThostFtdcInstrumentMarginRateField_ShortMarginRatioByVolume
   ++ rows_CThostFtdcInstrumentMarginRateField_ExchangeID
   ++ rows_CThostFtdcInstrumentMarginRateField_InvestUnitID
   ++ rows_CThostFtdcInstrumentMarginRateField_InstrumentID).

Definition rows_CThostFtdcInstrumentCommissionRateField_InvestorRange : list row :=
  [ ("InvestorRange", TChar, GChar) ].
Definition rows_CThostFtdcInstrumentCommissionRateField_BrokerID : list row :=
  [ ("BrokerID", TChars 11, GString) ].
Definition rows_CThostFtdcInstrumentCommissionRateField_InvestorID : list row :=
  [ ("InvestorID", TChars 13, GString) ].
Definition rows_CThostFtdcInstrumentCommissionRateField_OpenRatioByMoney : list row :=
  [ ("OpenRatioByMoney", TDouble, GDouble);
    ("OpenRatioByVolume", TDouble, GDouble) ].
Definition rows_CThostFtdcInstrumentCommissionRateField_CloseRatioByMoney : list row :=
  [ ("CloseRatioByMoney", TDouble, GDouble);
    ("CloseRatioByVolume", TDouble, GDouble) ].
Definition rows_CThostFtdcInstrumentCommissionRateField_CloseTodayRatioByMoney : list row :=
  [ ("CloseTodayRatioByMoney", TDouble, GDouble);
    ("CloseTodayRatioByVolume", TDouble, GDouble) ].
Definition rows_CThostFtdcInstrumentCommissionRateField_ExchangeID : list row :=
  [ ("ExchangeID", TChars 9, GString) ].
Definition rows_CThostFtdcInstrumentCommissionRateField_BizType : list row :=
  [ ("BizType", TChar, GChar) ].
Definition rows_CThostFtdcInstrumentCommissionRateField_InvestUnitID : list row :=
  [ ("InvestUnitID", TChars 17, GString) ].
Definition rows_CThostFtdcInstrumentCommissionRateField_InstrumentID : list row :=
  [ ("InstrumentID", TChars 81, GString) ].
Definition wrap_CThostFtdcInstrumentCommissionRateField : wrapper :=
  mk_wrapper 92
  ([ ("reserve1", TChars 31, GString) ]
   ++ rows_CThostFtdcInstrumentCommissionRateField_InvestorRange
   ++ rows_CThostFtdcInstrumentCommissionRateField_BrokerID
   ++ rows_CThostFtdcInstrumentCommissionRateField_InvestorID
   ++ rows_CThostFtdcInstrumentCommissionRateField_OpenRatioByMoney
   ++ rows_CThostFtdcInstrumentCommissionRateField_CloseRatioByMoney
   ++ rows_CThostFtdcInstrumentCommissionRateField_CloseTodayRatioByMoney
   ++ rows_CThostFtdcInstrumentCommissionRateField_ExchangeID
   ++ rows_CThostFtdcInstrumentCommissionRateField_BizType
   ++ rows_CThostFtdcInstrumentCommissionRateField_InvestUnitID
   ++ rows_CThostFtdcInstrumentCommissionRateField_InstrumentID).

Definition rows_CThostFtdcDepthMarketDataField_reserve1 : list row :=
  [ ("reserve1", TChars 31, GString) ].
Definition rows_CThostFtdcDepthMarketDataField_ExchangeID : list row :=
  [ ("ExchangeID", TChars 9, GString) ].
Definition rows_CThostFtdcDepthMarketDataField_reserve2 : list row :=
  [ ("reserve2", TChars 31, GString) ].
Definition rows_CThostFtdcDepthMarketDataField_LastPrice : list row :=
  [ ("LastPrice", TDouble, GDouble);
    ("PreSettlementPrice", TDouble, GDouble) ].
Definition rows_CThostFtdcDepthMarketDataField_PreClosePrice : list row :=
  [ ("PreClosePrice", TDouble, GDouble);
    ("PreOpenInterest", TDouble, GDouble) ].
Definition rows_CThostFtdcDepthMarketDataField_OpenPrice : list row :=
  [ ("OpenPrice", TDouble, GDouble);
    ("HighestPrice", TDouble, GDouble) ].
Definition rows_CThostFtdcDepthMarketDataField_LowestPrice : list row :=
  [ ("LowestPrice", TDouble, GDouble);
    ("Volume", TInt, GInt) ].
Definition rows_CThostFtdcDepthMarketDataField_Turnover : list row :=
  [ ("Turnover", TDouble, GDouble);
    ("OpenInterest", TDouble, GDouble) ].
Definition rows_CThostFtdcDepthMarketDataField_ClosePrice : list row :=
  [ ("ClosePrice", TDouble, GDouble);
    ("SettlementPrice", TDouble, GDouble) ].
Definition rows_CThostFtdcDepthMarketDataField_UpperLimitPrice : list row :=
  [ ("UpperLimitPrice", TDouble, GDouble);
    ("LowerLimitPrice", TDouble, GDouble) ].
Definition rows_CThostFtdcDepthMarketDataField_PreDelta : list row :=
  [ ("PreDelta", TDouble, GDouble);
    ("CurrDelta", TDouble, GDouble) ].
Definition rows_CThostFtdcDepthMarketDataField_UpdateTime : list row :=
  [ ("UpdateTime", TChars 9, GString) ].
Definition rows_CThostFtdcDepthMarketDataField_UpdateMillisec : list row :=
  [ ("UpdateMillisec", TInt, GInt);
    ("BidPrice1", TDouble, GDouble) ].
Definition rows_CThostFtdcDepthMarketDataField_BidVolume1 : list row :=
  [ ("BidVolume1", TInt, GInt);
    ("AskPrice1", TDouble, GDouble) ].
Definition rows_CThostFtdcDepthMarketDataField_AskVolume1 : list row :=
  [ ("AskVolume1", TInt, GInt);
    ("BidPrice2", TDouble, GDouble) ].
Definition rows_CThostFtdcDepthMarketDataField_BidVolume2 : list row :=
  [ ("BidVolume2", TInt, GInt);
    ("AskPrice2", TDouble, GDouble) ].
Definition rows_CThostFtdcDepthMarketDataField_AskVolume2 : list row :=
  [ ("AskVolume2", TInt, GInt);
    ("BidPrice3", TDouble, GDouble) ].
Definition rows_CThostFtdcDepthMarketDataField_BidVolume3 : list row :=
  [ ("BidVolume3", TInt, GInt);
    ("AskPrice3", TDouble, GDouble) ].
Definition rows_CThostFtdcDepthMarketDataField_AskVolume3 : list row :=
  [ ("AskVolume3", TInt, GInt);
    ("BidPrice4", TDouble, GDouble) ].
Definition rows_CThostFtdcDepthMarketDataField_BidVolume4 : list row :=
  [ ("BidVolume4", TInt, GInt);
    ("AskPrice4", TDouble, GDouble) ].
Definition rows_CThostFtdcDepthMarketDataField_AskVolume4 : list row :=
  [ ("AskVolume4", TInt, GInt);
    ("BidPrice5", TDouble, GDouble) ].
Definition rows_CThostFtdcDepthMarketDataField_BidVolume5 : list row :=
  [ ("BidVolume5", TInt, GInt);
    ("AskPrice5", TDouble, GDouble) ].
Definition rows_CThostFtdcDepthMarketDataField_AskVolume5 : list row :=
  [ ("AskVolume5", TInt, GInt);
    ("AveragePrice", TDouble, GDouble) ].
Definition rows_CThostFtdcDepthMarketDataField_ActionDay : list row :=
  [ ("ActionDay", TChars 9, GString) ].
Definition rows_CThostFtdcDepthMarketDataField_InstrumentID : list row :=
  [ ("InstrumentID", TChars 81, GString) ].
Definition rows_CThostFtdcDepthMarketDataField_ExchangeInstID : list row :=
  [ ("ExchangeInstID", TChars 81, GString) ].
Definition rows_CThostFtdcDepthMarketDataField_BandingUpperPrice : list row :=
  [ ("BandingUpperPrice", TDouble, GDouble);
    ("BandingLowerPrice", TDouble, GDouble) ].
Definition wrap_CThostFtdcDepthMarketDataField : wrapper :=
  mk_wrapper 39
  ([ ("TradingDay", TChars 9, GString) ]
   ++ rows_CThostFtdcDepthMarketDataField_reserve1
   ++ rows_CThostFtdcDepthMarketDataField_ExchangeID
   ++ rows_CThostFtdcDepthMarketDataField_reserve2
   ++ rows_CThostFtdcDepthMarketDataField_LastPrice
   ++ rows_CThostFtdcDepthMarketDataField_PreClosePrice
   ++ rows_CThostFtdcDepthMarketDataField_OpenPrice
   ++ rows_CThostFtdcDepthMarketDataField_LowestPrice
   ++ rows_CThostFtdcDepthMarketDataField_Turnover
   ++ rows_CThostFtdcDepthMarketDataField_ClosePrice
   ++ rows_CThostFtdcDepthMarketDataField_UpperLimitPrice
   ++ rows_CThostFtdcDepthMarketDataField_PreDelta
   ++ rows_CThostFtdcDepthMarketDataField_UpdateTime
   ++ rows_CThostFtdcDepthMarketDataField_UpdateMillisec
   ++ rows_CThostFtdcDepthMarketDataField_BidVolume1
   ++ rows_CThostFtdcDepthMarketDataField_AskVolume1
   ++ rows_CThostFtdcDepthMarketDataField_BidVolume2
   ++ rows_CThostFtdcDepthMarketDataField_AskVolume2
   ++ rows_CThostFtdcDepthMarketDataField_BidVolume3
   ++ rows_CThostFtdcDepthMarketDataField_AskVolume3
   ++ rows_CThostFtdcDepthMarketDataField_BidVolume4
   ++ rows_CThostFtdcDepthMarketDataField_AskVolume4
   ++ rows_CThostFtdcDepthMarketDataField_BidVolume5
   ++ rows_CThostFtdcDepthMarketDataField_AskVolume5
   ++ rows_CThostFtdcDepthMarketDataField_ActionDay
   ++ rows_CThostFtdcDepthMarketDataField_InstrumentID
   ++ rows_CThostFtdcDepthMarketDataField_ExchangeInstID
   ++ rows_CThostFtdcDepthMarketDataField_BandingUpperPrice).

Definition rows_CThostFtdcInstrumentTradingRightField_InvestorRange : list row :=
  [ ("InvestorRange", TChar, GChar) ].
Definition rows_CThostFtdcInstrumentTradingRightField_BrokerID : list row :=
  [ ("BrokerID", TChars 11, GString) ].
Definition rows_CThostFtdcInstrumentTradingRightField_InvestorID : list row :=
  [ ("InvestorID", TChars 13, GString) ].
Definition rows_CThostFtdcInstrumentTradingRightField_TradingRight : list row :=
  [ ("TradingRight", TChar, GChar) ].
Definition rows_CThostFtdcInstrumentTradingRightField_InstrumentID : list row :=
  [ ("InstrumentID", TChars 81, GString) ].
Definition wrap_CThostFtdcInstrumentTradingRightField : wrapper :=
  mk_wrapper 99
  ([ ("reserve1", TChars 31, GString) ]
   ++ rows_CThostFtdcInstrumentTradingRightField_InvestorRange
   ++ rows_CThostFtdcInstrumentTradingRightField_BrokerID
   ++ rows_CThostFtdcInstrumentTradingRightField_InvestorID
   ++ rows_CThostFtdcInstrumentTradingRightField_TradingRight
   ++ rows_CThostFtdcInstrumentTradingRightField_InstrumentID).

Definition rows_CThostFtdcBrokerUserField_UserID : list row :=
  [ ("UserID", TChars 16, GString) ].
Definition rows_CThostFtdcBrokerUserField_UserName : list row :=
  [ ("UserName", TChars 81, GString) ].
Definition rows_CThostFtdcBrokerUserField_UserType : list row :=
  [ ("UserType", TChar, GChar);
    ("IsActive", TInt, GInt) ].
Definition rows_CThostFtdcBrokerUserField_IsUsingOTP : list row :=
  [ ("IsUsingOTP", TInt, GInt);
    ("IsAuthForce", TInt, GInt) ].
Definition wrap_CThostFtdcBrokerUserField : wrapper :=
  mk_wrapper 14
  ([ ("BrokerID", TChars 11, GString) ]
   ++ rows_CThostFtdcBrokerUserField_UserID
   ++ rows_CThostFtdcBrokerUserField_UserName
   ++ rows_CThostFtdcBrokerUserField_UserType
   ++ rows_CThostFtdcBrokerUserField_IsUsingOTP).

Definition rows_CThostFtdcBrokerUserPasswordField_UserID : list row :=
  [ ("UserID", TChars 16, GString) ].
Definition rows_CThostFtdcBrokerUserPasswordField_Password : list row :=
  [ ("Password", TChars 41, GString) ].
Definition rows_CThostFtdcBrokerUserPasswordField_LastUpdateTime : list row :=
  [ ("LastUpdateTime", TChars 17, GString) ].
Definition rows_CThostFtdcBrokerUserPasswordField_LastLoginTime : list row :=
  [ ("LastLoginTime", TChars 17, GString) ].
Definition rows_CThostFtdcBrokerUserPasswordField_ExpireDate : list row :=
  [ ("ExpireDate", TChars 9, GString) ].
Definition rows_CThostFtdcBrokerUserPasswordField_WeakExpireDate : list row :=
  [ ("WeakExpireDate", TChars 9, GString) ].
Definition wrap_CThostFtdcBrokerUserPasswordField : wrapper :=
  mk_wrapper 17
  ([ ("BrokerID", TChars 11, GString) ]
   ++ rows_CThostFtdcBrokerUserPasswordField_UserID
   ++ rows_CThostFtdcBrokerUserPasswordField_Password
   ++ rows_CThostFtdcBrokerUserPasswordField_LastUpdateTime
   ++ rows_CThostFtdcBrokerUserPasswordField_LastLoginTime
   ++ rows_CThostFtdcBrokerUserPasswordField_ExpireDate
   ++ rows_CThostFtdcBrokerUserPasswordField_WeakExpireDate).

Definition rows_CThostFtdcBrokerUserFunctionField_UserID : list row :=
  [ ("UserID", TChars 16, GString) ].
Definition rows_CThostFtdcBrokerUserFunctionField_BrokerFunctionCode : list row :=
  [ ("BrokerFunctionCode", TChar, GChar) ].
Definition wrap_CThostFtdcBrokerUserFunctionField : wrapper :=
  mk_wrapper 15
  ([ ("BrokerID", TChars 11, GString) ]
   ++ rows_CThostFtdcBrokerUserFunctionField_UserID
   ++ rows_CThostFtdcBrokerUserFunctionField_BrokerFunctionCode).

Definition rows_CThostFtdcTraderOfferField_TraderID : list row :=
  [ ("TraderID", TChars 21, GString) ].
Definition rows_CThostFtdcTraderOfferField_ParticipantID : list row :=
  [ ("ParticipantID", TChars 11, GString) ].
Definition rows_CThostFtdcTraderOfferField_Password : list row :=
  [ ("Password", TChars 41, GString) ].
Definition rows_CThostFtdcTraderOfferField_InstallID : list row :=
  [ ("InstallID", TInt, GInt) ].
Definition rows_CThostFtdcTraderOfferField_OrderLocalID : list row :=
  [ ("OrderLocalID", TChars 13, GString) ].
Definition rows_CThostFtdcTraderOfferField_TraderConnectStatus : list row :=
  [ ("TraderConnectStatus", TChar, GChar) ].
Definition rows_CThostFtdcTraderOfferField_ConnectRequestDate : list row :=
  [ ("ConnectRequestDate", TChars 9, GString) ].
Definition rows_CThostFtdcTraderOfferField_ConnectRequestTime : list row :=
  [ ("ConnectRequestTime", TChars 9, GString) ].
Definition rows_CThostFtdcTraderOfferField_LastReportDate : list row :=
  [ ("LastReportDate", TChars 9, GString) ].
Definition rows_CThostFtdcTraderOfferField_LastReportTime : list row :=
  [ ("LastReportTime", TChars 9, GString) ].
Definition rows_CThostFtdcTraderOfferField_ConnectDate : list row :=
  [ ("ConnectDate", TChars 9, GString) ].
Definition rows_CThostFtdcTraderOfferField_ConnectTime : list row :=
  [ ("ConnectTime", TChars 9, GString) ].
Definition rows_CThostFtdcTraderOfferField_StartDate : list row :=
  [ ("StartDate", TChars 9, GString) ].
Definition rows_CThostFtdcTraderOfferField_StartTime : list row :=
  [ ("StartTime", TChars 9, GString) ].
Definition rows_CThostFtdcTraderOfferField_TradingDay : list row :=
  [ ("TradingDay", TChars 9, GString) ].
Definition rows_CThostFtdcTraderOfferField_BrokerID : list row :=
  [ ("BrokerID", TChars 11, GString) ].
Definition rows_CThostFtdcTraderOfferField_MaxTradeID : list row :=
  [ ("MaxTradeID", TChars 21, GString) ].
Definition rows_CThostFtdcTraderOfferField_MaxOrderMessageReference : list row :=
  [ ("MaxOrderMessageReference", TChars 7, GString) ].
Definition rows_CThostFtdcTraderOfferField_OrderCancelAlg : list row :=
  [ ("OrderCancelAlg", TChar, GChar) ].
Definition wrap_CThostFtdcTraderOfferField : wrapper :=
  mk_wrapper 442
  ([ ("ExchangeID", TChars 9, GString) ]
   ++ rows_CThostFtdcTraderOfferField_TraderID
   ++ rows_CThostFtdcTraderOfferField_ParticipantID
   ++ rows_CThostFtdcTraderOfferField_Password
   ++ rows_CThostFtdcTraderOfferField_InstallID
   ++ rows_CThostFtdcTraderOfferField_OrderLocalID
   ++ rows_CThostFtdcTraderOfferField_TraderConnectStatus
   ++ rows_CThostFtdcTraderOfferField_ConnectRequestDate
   ++ rows_CThostFtdcTraderOfferField_ConnectRequestTime
   ++ rows_CThostFtdcTraderOfferField_LastReportDate
   ++ rows_CThostFtdcTraderOfferField_LastReportTime
   ++ rows_CThostFtdcTraderOfferField_ConnectDate
   ++ rows_CThostFtdcTraderOfferField_ConnectTime
   ++ rows_CThostFtdcTraderOfferField_StartDate
   ++ rows_CThostFtdcTraderOfferField_StartTime
   ++ rows_CThostFtdcTraderOfferField_TradingDay
   ++ rows_CThostFtdcTraderOfferField_BrokerID
   ++ rows_CThostFtdcTraderOfferField_MaxTradeID
   ++ rows_CThostFtdcTraderOfferField_MaxOrderMessageReference
   ++ rows_CThostFtdcTraderOfferField_OrderCancelAlg).

Definition rows_CThostFtdcSettlementInfoField_SettlementID : list row :=
  [ ("SettlementID", TInt, GInt) ].
Definition rows_CThostFtdcSettlementInfoField_BrokerID : list row :=
  [ ("BrokerID", TChars 11, GString) ].
Definition rows_CThostFtdcSettlementInfoField_InvestorID : list row :=
  [ ("InvestorID", TChars 13, GString) ].
Definition rows_CThostFtdcSettlementInfoField_SequenceNo : list row :=
  [ ("SequenceNo", TInt, GInt) ].
Definition rows_CThostFtdcSettlementInfoField_Content : list row :=
  [ ("Content", TChars 501, GString) ].
Definition rows_CThostFtdcSettlementInfoField_AccountID : list row :=
  [ ("AccountID", TChars 13, GString) ].
Definition rows_CThostFtdcSettlementInfoField_CurrencyID : list row :=
  [ ("CurrencyID", TChars 4, GString) ].
Definition wrap_CThostFtdcSettlementInfoField : wrapper :=
  mk_wrapper 377
  ([ ("TradingDay", TChars 9, GString) ]
   ++ rows_CThostFtdcSettlementInfoField_SettlementID
   ++ rows_CThostFtdcSettlementInfoField_BrokerID
   ++ rows_CThostFtdcSettlementInfoField_InvestorID
   ++ rows_CThostFtdcSettlementInfoField_SequenceNo
   ++ rows_CThostFtdcSettlementInfoField_Content
   ++ rows_CThostFtdcSettlementInfoField_AccountID
   ++ rows_CThostFtdcSettlementInfoField_CurrencyID).

Definition rows_CThostFtdcInstrumentMarginRateAdjustField_InvestorRange : list row :=
  [ ("InvestorRange", TChar, GChar) ].
Definition rows_CThostFtdcInstrumentMarginRateAdjustField_BrokerID : list row :=
  [ ("BrokerID", TChars 11, GString) ].
Definition rows_CThostFtdcInstrumentMarginRateAdjustField_InvestorID : list row :=
  [ ("InvestorID", TChars 13, GString) ].
Definition rows_CThostFtdcInstrumentMarginRateAdjustField_HedgeFlag : list row :=
  [ ("HedgeFlag", TChar, GChar);
    ("LongMarginRatioByMoney", TDouble, GDouble) ].
Definition rows_CThostFtdcInstrumentMarginRateAdjustField_LongMarginRatioByVolume : list row :=
  [ ("LongMarginRatioByVolume", TDouble, GDouble);
    ("ShortMarginRatioByMoney", TDouble, GDouble) ].
Definition rows_CThostFtdcInstrumentMarginRateAdjustField_ShortMarginRatioByVolume : list row :=
  [ ("ShortMarginRatioByVolume", TDouble, GDouble);
    ("IsRelative", TInt, GInt) ].
Definition rows_CThostFtdcInstrumentMarginRateAdjustField_InstrumentID : list row :=
  [ ("InstrumentID", TChars 81, GString) ].
Definition wrap_CThostFtdcInstrumentMarginRateAdjustField : wrapper :=
  mk_wrapper 94
  ([ ("reserve1", TChars 31, GString) ]
   ++ rows_CThostFtdcInstrumentMarginRateAdjustField_InvestorRange
   ++ rows_CThostFtdcInstrumentMarginRateAdjustField_BrokerID
   ++ rows_CThostFtdcInstrumentMarginRateAdjustField_InvestorID
   ++ rows_CThostFtdcInstrumentMarginRateAdjustField_HedgeFlag
   ++ rows_CThostFtdcInstrumentMarginRateAdjustField_LongMarginRatioByVolume
   ++ rows_CThostFtdcInstrumentMarginRateAdjustField_ShortMarginRatioByVolume
   ++ rows_CThostFtdcInstrumentMarginRateAdjustField_InstrumentID).

Definition rows_CThostFtdcExchangeMarginRateField_reserve1 : list row :=
  [ ("reserve1", TChars 31, GString) ].
Definition rows_CThostFtdcExchangeMarginRateField_HedgeFlag : list row :=
  [ ("HedgeFlag", TChar, GChar);
    ("LongMarginRatioByMoney", TDouble, GDouble) ].
Definition rows_CThostFtdcExchangeMarginRateField_LongMarginRatioByVolume : list row :=
  [ ("LongMarginRatioByVolume", TDouble, GDouble);
    ("ShortMarginRatioByMoney", TDouble, GDouble) ].
Definition rows_CThostFtdcExchangeMarginRateField_ShortMarginRatioByVolume : list row :=
  [ ("ShortMarginRatioByVolume", TDouble, GDouble) ].
Definition rows_CThostFtdcExchangeMarginRateField_ExchangeID : list row :=
  [ ("ExchangeID", TChars 9, GString) ].
Definition rows_CThostFtdcExchangeMarginRateField_InstrumentID : list row :=
  [ ("InstrumentID", TChars 81, GString) ].
Definition wrap_CThostFtdcExchangeMarginRateField : wrapper :=
  mk_wrapper 55
  ([ ("BrokerID", TChars 11, GString) ]
   ++ rows_CThostFtdcExchangeMarginRateField_reserve1
   ++ rows_CThostFtdcExchangeMarginRateField_HedgeFlag
   ++ rows_CThostFtdcExchangeMarginRateField_LongMarginRatioByVolume
   ++ rows_CThostFtdcExchangeMarginRateField_ShortMarginRatioByVolume
   ++ rows_CThostFtdcExchangeMarginRateField_ExchangeID
   ++ rows_CThostFtdcExchangeMarginRateField_InstrumentID).

Definition rows_CThostFtdcExchangeMarginRateAdjustField_reserve1 : list row :=
  [ ("reserve1", TChars 31, GString) ].
Definition rows_CThostFtdcExchangeMarginRateAdjustField_HedgeFlag : list row :=
  [ ("HedgeFlag", TChar, GChar);
    ("LongMarginRatioByMoney", TDouble, GDouble) ].
Definition rows_CThostFtdcExchangeMarginRateAdjustField_LongMarginRatioByVolume : list row :=
  [ ("LongMarginRatioByVolume", TDouble, GDouble);
    ("ShortMarginRatioByMoney", TDouble, GDouble) ].
Definition rows_CThostFtdcExchangeMarginRateAdjustField_ShortMarginRatioByVolume : list row :=
  [ ("ShortMarginRatioByVolume", TDouble, GDouble);
    ("ExchLongMarginRatioByMoney", TDouble, GDouble) ].
Definition rows_CThostFtdcExchangeMarginRateAdjustField_ExchLongMarginRatioByVolume : list row :=
  [ ("ExchLongMarginRatioByVolume", TDouble, GDouble);
    ("ExchShortMarginRatioByMoney", TDouble, GDouble) ].
Definition rows_CThostFtdcExchangeMarginRateAdjustField_ExchShortMarginRatioByVolume : list row :=
  [ ("ExchShortMarginRatioByVolume", TDouble, GDouble);
    ("NoLongMarginRatioByMoney", TDouble, GDouble) ].
Definition rows_CThostFtdcExchangeMarginRateAdjustField_NoLongMarginRatioByVolume : list row :=
  [ ("NoLongMarginRatioByVolume", TDouble, GDouble);
    ("NoShortMarginRatioByMoney", TDouble, GDouble) ].
Definition rows_CThostFtdcExchangeMarginRateAdjustField_NoShortMarginRatioByVolume : list row :=
  [ ("NoShortMarginRatioByVolume", TDouble, GDouble) ].
Definition rows_CThostFtdcExchangeMarginRateAdjustField_InstrumentID : list row :=
  [ ("InstrumentID", TChars 81, GString) ].
Definition wrap_CThostFtdcExchangeMarginRateAdjustField : wrapper :=
  mk_wrapper 54
  ([ ("BrokerID", TChars 11, GString) ]
   ++ rows_CThostFtdcExchangeMarginRateAdjustField_reserve1
   ++ rows_CThostFtdcExchangeMarginRateAdjustField_HedgeFlag
   ++ rows_CThostFtdcExchangeMarginRateAdjustField_LongMarginRatioByVolume
   ++ rows_CThostFtdcExchangeMarginRateAdjustField_ShortMarginRatioByVolume
   ++ rows_CThostFtdcExchangeMarginRateAdjustField_ExchLongMarginRatioByVolume
   ++ rows_CThostFtdcExchangeMarginRateAdjustField_ExchShortMarginRatioByVolume
   ++ rows_CThostFtdcExchangeMarginRateAdjustField_NoLongMarginRatioByVolume
   ++ rows_CThostFtdcExchangeMarginRateAdjustField_NoShortMarginRatioByVolume
   ++ rows_CThostFtdcExchangeMarginRateAdjustField_InstrumentID).

Definition rows_CThostFtdcExchangeRateField_FromCurrencyID : list row :=
  [ ("FromCurrencyID", TChars 4, GString) ].
Definition rows_CThostFtdcExchangeRateField_FromCurrencyUnit : list row :=
  [ ("FromCurrencyUnit", TDouble, GDouble) ].
Definition rows_CThostFtdcExchangeRateField_ToCurrencyID : list row :=
  [ ("ToCurrencyID", TChars 4, GString) ].
Definition rows_CThostFtdcExchangeRateField_ExchangeRate : list row :=
  [ ("ExchangeRate", TDouble, GDouble) ].
Definition wrap_CThostFtdcExchangeRateField : wrapper :=
  mk_wrapper 64
  ([ ("BrokerID", TChars 11, GString) ]
   ++ rows_CThostFtdcExchangeRateField_FromCurrencyID
   ++ rows_CThostFtdcExchangeRateField_FromCurrencyUnit
   ++ rows_CThostFtdcExchangeRateField_ToCurrencyID
   ++ rows_CThostFtdcExchangeRateField_ExchangeRate).

Definition rows_CThostFtdcSettlementRefField_SettlementID : list row :=
  [ ("SettlementID", TInt, GInt) ].
Definition wrap_CThostFtdcSettlementRefField : wrapper :=
  mk_wrapper 378
  ([ ("TradingDay", TChars 9, GString) ]
   ++ rows_CThostFtdcSettlementRefField_SettlementID).

Definition rows_CThostFtdcCurrentTimeField_CurrTime : list row :=
  [ ("CurrTime", TChars 9, GString) ].
Definition rows_CThostFtdcCurrentTimeField_CurrMillisec : list row :=
  [ ("CurrMillisec", TInt, GInt) ].
Definition rows_CThostFtdcCurrentTimeField_ActionDay : list row :=
  [ ("ActionDay", TChars 9, GString) ].
Definition wrap_CThostFtdcCurrentTimeField : wrapper :=
  mk_wrapper 35
  ([ ("CurrDate", TChars 9, GString) ]
   ++ rows_CThostFtdcCurrentTimeField_CurrTime
   ++ rows_CThostFtdcCurrentTimeField_CurrMillisec
   ++ rows_CThostFtdcCurrentTimeField_ActionDay).

Definition rows_CThostFtdcCommPhaseField_CommPhaseNo : list row :=
  [ ("CommPhaseNo", TShort, GShort) ].
Definition rows_CThostFtdcCommPhaseField_SystemID : list row :=
  [ ("SystemID", TChars 21, GString) ].
Definition wrap_CThostFtdcCommPhaseField : wrapper :=
  mk_wrapper 30
  ([ ("TradingDay", TChars 9, GString) ]
   ++ rows_CThostFtdcCommPhaseField_CommPhaseNo
   ++ rows_CThostFtdcCommPhaseField_SystemID).

Definition rows_CThostFtdcLoginInfoField_BrokerID : list row :=
  [ ("BrokerID", TChars 11, GString) ].
Definition rows_CThostFtdcLoginInfoField_UserID : list row :=
  [ ("UserID", TChars 16, GString) ].
Definition rows_CThostFtdcLoginInfoField_LoginDate : list row :=
  [ ("LoginDate", TChars 9, GString) ].
Definition rows_CThostFtdcLoginInfoField_LoginTime : list row :=
  [ ("LoginTime", TChars 9, GString) ].
Definition rows_CThostFtdcLoginInfoField_reserve1 : list row :=
  [ ("reserve1", TChars 16, GString) ].
Definition rows_CThostFtdcLoginInfoField_UserProductInfo : list row :=
  [ ("UserProductInfo", TChars 11, GString) ].
Definition rows_CThostFtdcLoginInfoField_InterfaceProductInfo : list row :=
  [ ("InterfaceProductInfo", TChars 11, GString) ].
Definition rows_CThostFtdcLoginInfoField_ProtocolInfo : list row :=
  [ ("ProtocolInfo", TChars 11, GString) ].
Definition rows_CThostFtdcLoginInfoField_SystemName : list row :=
  [ ("SystemName", TChars 41, GString) ].
Definition rows_CThostFtdcLoginInfoField_PasswordDeprecated : list row :=
  [ ("PasswordDeprecated", TChars 41, GString) ].
Definition rows_CThostFtdcLoginInfoField_MaxOrderRef : list row :=
  [ ("MaxOrderRef", TChars 13, GString) ].
Definition rows_CThostFtdcLoginInfoField_SHFETime : list row :=
  [ ("SHFETime", TChars 9, GString) ].
Definition rows_CThostFtdcLoginInfoField_DCETime : list row :=
  [ ("DCETime", TChars 9, GString) ].
Definition rows_CThostFtdcLoginInfoField_CZCETime : list row :=
  [ ("CZCETime", TChars 9, GString) ].
Definition rows_CThostFtdcLoginInfoField_FFEXTime : list row :=
  [ ("FFEXTime", TChars 9, GString) ].
Definition rows_CThostFtdcLoginInfoField_MacAddress : list row :=
  [ ("MacAddress", TChars 21, GString) ].
Definition rows_CThostFtdcLoginInfoField_OneTimePassword : list row :=
  [ ("OneTimePassword", TChars 41, GString) ].
Definition rows_CThostFtdcLoginInfoField_INETime : list row :=
  [ ("INETime", TChars 9, GString) ].
Definition rows_CThostFtdcLoginInfoField_IsQryControl : list row :=
  [ ("IsQryControl", TInt, GInt) ].
Definition rows_CThostFtdcLoginInfoField_LoginRemark : list row :=
  [ ("LoginRemark", TChars 36, GString) ].
Definition rows_CThostFtdcLoginInfoField_Password : list row :=
  [ ("Password", TChars 41, GString) ].
Definition rows_CThostFtdcLoginInfoField_IPAddress : list row :=
  [ ("IPAddress", TChars 33, GString) ].
Definition wrap_CThostFtdcLoginInfoField : wrapper :=
  mk_wrapper 123
  ([ ("FrontID", TInt, GInt);
    ("SessionID", TInt, GInt) ]
   ++ rows_CThostFtdcLoginInfoField_BrokerID
   ++ rows_CThostFtdcLoginInfoField_UserID
   ++ rows_CThostFtdcLoginInfoField_LoginDate
   ++ rows_CThostFtdcLoginInfoField_LoginTime
   ++ rows_CThostFtdcLoginInfoField_reserve1
   ++ rows_CThostFtdcLoginInfoField_UserProductInfo
   ++ rows_CThostFtdcLoginInfoField_InterfaceProductInfo
   ++ rows_CThostFtdcLoginInfoField_ProtocolInfo
   ++ rows_CThostFtdcLoginInfoField_SystemName
   ++ rows_CThostFtdcLoginInfoField_PasswordDeprecated
   ++ rows_CThostFtdcLoginInfoField_MaxOrderRef
   ++ rows_CThostFtdcLoginInfoField_SHFETime
   ++ rows_CThostFtdcLoginInfoField_DCETime
   ++ rows_CThostFtdcLoginInfoField_CZCETime
   ++ rows_CThostFtdcLoginInfoField_FFEXTime
   ++ rows_CThostFtdcLoginInfoField_MacAddress
   ++ rows_CThostFtdcLoginInfoField_OneTimePassword
   ++ rows_CThostFtdcLoginInfoField_INETime
   ++ rows_CThostFtdcLoginInfoField_IsQryControl
   ++ rows_CThostFtdcLoginInfoField_LoginRemark
   ++ rows_CThostFtdcLoginInfoField_Password
   ++ rows_CThostFtdcLoginInfoField_IPAddress).

Definition rows_CThostFtdcLogoutAllField_SystemName : list row :=
  [ ("SystemName", TChars 41, GString) ].
Definition wrap_CThostFtdcLogoutAllField : wrapper :=
  mk_wrapper 124
  ([ ("FrontID", TInt, GInt);
    ("SessionID", TInt, GInt) ]
   ++ rows_CThostFtdcLogoutAllField_SystemName).

Definition rows_CThostFtdcFrontStatusField_LastReportDate : list row :=
  [ ("LastReportDate", TChars 9, GString) ].
Definition rows_CThostFtdcFrontStatusField_LastReportTime : list row :=
  [ ("LastReportTime", TChars 9, GString) ].
Definition rows_CThostFtdcFrontStatusField_IsActive : list row :=
  [ ("IsActive", TInt, GInt) ].
Definition wrap_CThostFtdcFrontStatusField : wrapper :=
  mk_wrapper 76
  ([ ("FrontID", TInt, GInt) ]
   ++ rows_CThostFtdcFrontStatusField_LastReportDate
   ++ rows_CThostFtdcFrontStatusField_LastReportTime
   ++ rows_CThostFtdcFrontStatusField_IsActive).

Definition rows_CThostFtdcUserPasswordUpdateField_UserID : list row :=
  [ ("UserID", TChars 16, GString) ].
Definition rows_CThostFtdcUserPasswordUpdateField_OldPassword : list row :=
  [ ("OldPassword", TChars 41, GString) ].
Definition rows_CThostFtdcUserPasswordUpdateField_NewPassword : list row :=
  [ ("NewPassword", TChars 41, GString) ].
Definition wrap_CThostFtdcUserPasswordUpdateField : wrapper :=
  mk_wrapper 465
  ([ ("BrokerID", TChars 11, GString) ]
   ++ rows_CThostFtdcUserPasswordUpdateField_UserID
   ++ rows_CThostFtdcUserPasswordUpdateField_OldPassword
   ++ rows_CThostFtdcUserPasswordUpdateField_NewPassword).

Definition rows_CThostFtdcInputOrderField_InvestorID : list row :=
  [ ("InvestorID", TChars 13, GString) ].
Definition rows_CThostFtdcInputOrderField_reserve1 : list row :=
  [ ("reserve1", TChars 31, GString) ].
Definition rows_CThostFtdcInputOrderField_OrderRef : list row :=
  [ ("OrderRef", TChars 13, GString) ].
Definition rows_CThostFtdcInputOrderField_UserID : list row :=
  [ ("UserID", TChars 16, GString) ].
Definition rows_CThostFtdcInputOrderField_OrderPriceType : list row :=
  [ ("OrderPriceType", TChar, GChar);
    ("Direction", TChar, GChar) ].
Definition rows_CThostFtdcInputOrderField_CombOffsetFlag : list row :=
  [ ("CombOffsetFlag", TChars 5, GString) ].
Definition rows_CThostFtdcInputOrderField_CombHedgeFlag : list row :=
  [ ("CombHedgeFlag", TChars 5, GString) ].
Definition rows_CThostFtdcInputOrderField_LimitPrice : list row :=
  [ ("LimitPrice", TDouble, GDouble);
    ("VolumeTotalOriginal", TInt, GInt) ].
Definition rows_CThostFtdcInputOrderField_TimeCondition : list row :=
  [ ("TimeCondition", TChar, GChar) ].
Definition rows_CThostFtdcInputOrderField_GTDDate : list row :=
  [ ("GTDDate", TChars 9, GString) ].
Definition rows_CThostFtdcInputOrderField_VolumeCondition : list row :=
  [ ("VolumeCondition", TChar, GChar);
    ("MinVolume", TInt, GInt) ].
Definition rows_CThostFtdcInputOrderField_ContingentCondition : list row :=
  [ ("ContingentCondition", TChar, GChar);
    ("StopPrice", TDouble, GDouble) ].
Definition rows_CThostFtdcInputOrderField_ForceCloseReason : list row :=
  [ ("ForceCloseReason", TChar, GChar);
    ("IsAutoSuspend", TInt, GInt) ].
Definition rows_CThostFtdcInputOrderField_BusinessUnit : list row :=
  [ ("BusinessUnit", TChars 21, GString) ].
Definition rows_CThostFtdcInputOrderField_RequestID : list row :=
  [ ("RequestID", TInt, GInt);
    ("UserForceClose", TInt, GInt) ].
Definition rows_CThostFtdcInputOrderField_IsSwapOrder : list row :=
  [ ("IsSwapOrder", TInt, GInt) ].
Definition rows_CThostFtdcInputOrderField_ExchangeID : list row :=
  [ ("ExchangeID", TChars 9, GString) ].
Definition rows_CThostFtdcInputOrderField_InvestUnitID : list row :=
  [ ("InvestUnitID", TChars 17, GString) ].
Definition rows_CThostFtdcInputOrderField_AccountID : list row :=
  [ ("AccountID", TChars 13, GString) ].
Definition rows_CThostFtdcInputOrderField_CurrencyID : list row :=
  [ ("CurrencyID", TChars 4, GString) ].
Definition rows_CThostFtdcInputOrderField_ClientID : list row :=
  [ ("ClientID", TChars 11, GString) ].
Definition rows_CThostFtdcInputOrderField_reserve2 : list row :=
  [ ("reserve2", TChars 16, GString) ].
Definition rows_CThostFtdcInputOrderField_MacAddress : list row :=
  [ ("MacAddress", TChars 21, GString) ].
Definition rows_CThostFtdcInputOrderField_InstrumentID : list row :=
  [ ("InstrumentID", TChars 81, GString) ].
Definition rows_CThostFtdcInputOrderField_IPAddress : list row :=
  [ ("IPAddress", TChars 33, GString) ].
Definition rows_CThostFtdcInputOrderField_OrderMemo : list row :=
  [ ("OrderMemo", TChars 13, GString) ].
Definition rows_CThostFtdcInputOrderField_SessionReqSeq : list row :=
  [ ("SessionReqSeq", TInt, GInt) ].
Definition wrap_CThostFtdcInputOrderField : wrapper :=
  mk_wrapper 89
  ([ ("BrokerID", TChars 11, GString) ]
   ++ rows_CThostFtdcInputOrderField_InvestorID
   ++ rows_CThostFtdcInputOrderField_reserve1
   ++ rows_CThostFtdcInputOrderField_OrderRef
   ++ rows_CThostFtdcInputOrderField_UserID
   ++ rows_CThostFtdcInputOrderField_OrderPriceType
   ++ rows_CThostFtdcInputOrderField_CombOffsetFlag
   ++ rows_CThostFtdcInputOrderField_CombHedgeFlag
   ++ rows_CThostFtdcInputOrderField_LimitPrice
   ++ rows_CThostFtdcInputOrderField_TimeCondition
   ++ rows_CThostFtdcInputOrderField_GTDDate
   ++ rows_CThostFtdcInputOrderField_VolumeCondition
   ++ rows_CThostFtdcInputOrderField_ContingentCondition
   ++ rows_CThostFtdcInputOrderField_ForceCloseReason
   ++ rows_CThostFtdcInputOrderField_BusinessUnit
   ++ rows_CThostFtdcInputOrderField_RequestID
   ++ rows_CThostFtdcInputOrderField_IsSwapOrder
   ++ rows_CThostFtdcInputOrderField_ExchangeID
   ++ rows_CThostFtdcInputOrderField_InvestUnitID
   ++ rows_CThostFtdcInputOrderField_AccountID
   ++ rows_CThostFtdcInputOrderField_CurrencyID
   ++ rows_CThostFtdcInputOrderField_ClientID
   ++ rows_CThostFtdcInputOrderField_reserve2
   ++ rows_CThostFtdcInputOrderField_MacAddress
   ++ rows_CThostFtdcInputOrderField_InstrumentID
   ++ rows_CThostFtdcInputOrderField_IPAddress
   ++ rows_CThostFtdcInputOrderField_OrderMemo
   ++ rows_CThostFtdcInputOrderField_SessionReqSeq).

Definition rows_CThostFtdcOrderField_InvestorID : list row :=
  [ ("InvestorID", TChars 13, GString) ].
Definition rows_CThostFtdcOrderField_reserve1 : list row :=
  [ ("reserve1", TChars 31, GString) ].
Definition rows_CThostFtdcOrderField_OrderRef : list row :=
  [ ("OrderRef", TChars 13, GString) ].
Definition rows_CThostFtdcOrderField_UserID : list row :=
  [ ("UserID", TChars 16, GString) ].
Definition rows_CThostFtdcOrderField_OrderPriceType : list row :=
  [ ("OrderPriceType", TChar, GChar);
    ("Direction", TChar, GChar) ].
Definition rows_CThostFtdcOrderField_CombOffsetFlag : list row :=
  [ ("CombOffsetFlag", TChars 5, GString) ].
Definition rows_CThostFtdcOrderField_CombHedgeFlag : list row :=
  [ ("CombHedgeFlag", TChars 5, GString) ].
Definition rows_CThostFtdcOrderField_LimitPrice : list row :=
  [ ("LimitPrice", TDouble, GDouble);
    ("VolumeTotalOriginal", TInt, GInt) ].
Definition rows_CThostFtdcOrderField_TimeCondition : list row :=
  [ ("TimeCondition", TChar, GChar) ].
Definition rows_CThostFtdcOrderField_GTDDate : list row :=
  [ ("GTDDate", TChars 9, GString) ].
Definition rows_CThostFtdcOrderField_VolumeCondition : list row :=
  [ ("VolumeCondition", TChar, GChar);
    ("MinVolume", TInt, GInt) ].
Definition rows_CThostFtdcOrderField_ContingentCondition : list row :=
  [ ("ContingentCondition", TChar, GChar);
    ("StopPrice", TDouble, GDouble) ].
Definition rows_CThostFtdcOrderField_ForceCloseReason : list row :=
  [ ("ForceCloseReason", TChar, GChar);
    ("IsAutoSuspend", TInt, GInt) ].
Definition rows_CThostFtdcOrderField_BusinessUnit : list row :=
  [ ("BusinessUnit", TChars 21, GString) ].
Definition rows_CThostFtdcOrderField_RequestID : list row :=
  [ ("RequestID", TInt, GInt) ].
Definition rows_CThostFtdcOrderField_OrderLocalID : list row :=
  [ ("OrderLocalID", TChars 13, GString) ].
Definition rows_CThostFtdcOrderField_ExchangeID : list row :=
  [ ("ExchangeID", TChars 9, GString) ].
Definition rows_CThostFtdcOrderField_ParticipantID : list row :=
  [ ("ParticipantID", TChars 11, GString) ].
Definition rows_CThostFtdcOrderField_ClientID : list row :=
  [ ("ClientID", TChars 11, GString) ].
Definition rows_CThostFtdcOrderField_reserve2 : list row :=
  [ ("reserve2", TChars 31, GString) ].
Definition rows_CThostFtdcOrderField_TraderID : list row :=
  [ ("TraderID", TChars 21, GString) ].
Definition rows_CThostFtdcOrderField_InstallID : list row :=
  [ ("InstallID", TInt, GInt);
    ("OrderSubmitStatus", TChar, GChar) ].
Definition rows_CThostFtdcOrderField_NotifySequence : list row :=
  [ ("NotifySequence", TInt, GInt) ].
Definition rows_CThostFtdcOrderField_TradingDay : list row :=
  [ ("TradingDay", TChars 9, GString) ].
Definition rows_CThostFtdcOrderField_SettlementID : list row :=
  [ ("SettlementID", TInt, GInt) ].
Definition rows_CThostFtdcOrderField_OrderSysID : list row :=
  [ ("OrderSysID", TChars 21, GString) ].
Definition rows_CThostFtdcOrderField_OrderSource : list row :=
  [ ("OrderSource", TChar, GChar);
    ("OrderStatus", TChar, GChar) ].
Definition rows_CThostFtdcOrderField_OrderType : list row :=
  [ ("OrderType", TChar, GChar);
    ("VolumeTraded", TInt, GInt) ].
Definition rows_CThostFtdcOrderField_VolumeTotal : list row :=
  [ ("VolumeTotal", TInt, GInt) ].
Definition rows_CThostFtdcOrderField_InsertDate : list row :=
  [ ("InsertDate", TChars 9, GString) ].
Definition rows_CThostFtdcOrderField_InsertTime : list row :=
  [ ("InsertTime", TChars 9, GString) ].
Definition rows_CThostFtdcOrderField_ActiveTime : list row :=
  [ ("ActiveTime", TChars 9, GString) ].
Definition rows_CThostFtdcOrderField_SuspendTime : list row :=
  [ ("SuspendTime", TChars 9, GString) ].
Definition rows_CThostFtdcOrderField_UpdateTime : list row :=
  [ ("UpdateTime", TChars 9, GString) ].
Definition rows_CThostFtdcOrderField_CancelTime : list row :=
  [ ("CancelTime", TChars 9, GString) ].
Definition rows_CThostFtdcOrderField_ActiveTraderID : list row :=
  [ ("ActiveTraderID", TChars 21, GString) ].
Definition rows_CThostFtdcOrderField_ClearingPartID : list row :=
  [ ("ClearingPartID", TChars 11, GString) ].
Definition rows_CThostFtdcOrderField_SequenceNo : list row :=
  [ ("SequenceNo", TInt, GInt);
    ("FrontID", TInt, GInt) ].
Definition rows_CThostFtdcOrderField_SessionID : list row :=
  [ ("SessionID", TInt, GInt) ].
Definition rows_CThostFtdcOrderField_UserProductInfo : list row :=
  [ ("UserProductInfo", TChars 11, GString) ].
Definition rows_CThostFtdcOrderField_StatusMsg : list row :=
  [ ("StatusMsg", TChars 81, GString) ].
Definition rows_CThostFtdcOrderField_UserForceClose : list row :=
  [ ("UserForceClose", TInt, GInt) ].
Definition rows_CThostFtdcOrderField_ActiveUserID : list row :=
  [ ("ActiveUserID", TChars 16, GString) ].
Definition rows_CThostFtdcOrderField_BrokerOrderSeq : list row :=
  [ ("BrokerOrderSeq", TInt, GInt) ].
Definition rows_CThostFtdcOrderField_RelativeOrderSysID : list row :=
  [ ("RelativeOrderSysID", TChars 21, GString) ].
Definition rows_CThostFtdcOrderField_ZCETotalTradedVolume : list row :=
  [ ("ZCETotalTradedVolume", TInt, GInt);
    ("IsSwapOrder", TInt, GInt) ].
Definition rows_CThostFtdcOrderField_BranchID : list row :=
  [ ("BranchID", TChars 9, GString) ].
Definition rows_CThostFtdcOrderField_InvestUnitID : list row :=
  [ ("InvestUnitID", TChars 17, GString) ].
Definition rows_CThostFtdcOrderField_AccountID : list row :=
  [ ("AccountID", TChars 13, GString) ].
Definition rows_CThostFtdcOrderField_CurrencyID : list row :=
  [ ("CurrencyID", TChars 4, GString) ].
Definition rows_CThostFtdcOrderField_reserve3 : list row :=
  [ ("reserve3", TChars 16, GString) ].
Definition rows_CThostFtdcOrderField_MacAddress : list row :=
  [ ("MacAddress", TChars 21, GString) ].
Definition rows_CThostFtdcOrderField_InstrumentID : list row :=
  [ ("InstrumentID", TChars 81, GString) ].
Definition rows_CThostFtdcOrderField_ExchangeInstID : list row :=
  [ ("ExchangeInstID", TChars 81, GString) ].
Definition rows_CThostFtdcOrderField_IPAddress : list row :=
  [ ("IPAddress", TChars 33, GString) ].
Definition rows_CThostFtdcOrderField_OrderMemo : list row :=
  [ ("OrderMemo", TChars 13, GString) ].
Definition rows_CThostFtdcOrderField_SessionReqSeq : list row :=
  [ ("SessionReqSeq", TInt, GInt) ].
Definition wrap_CThostFtdcOrderField : wrapper :=
  mk_wrapper 162
  ([ ("BrokerID", TChars 11, GString) ]
   ++ rows_CThostFtdcOrderField_InvestorID
   ++ rows_CThostFtdcOrderField_reserve1
   ++ rows_CThostFtdcOrderField_OrderRef
   ++ rows_CThostFtdcOrderField_UserID
   ++ rows_CThostFtdcOrderField_OrderPriceType
   ++ rows_CThostFtdcOrderField_CombOffsetFlag
   ++ rows_CThostFtdcOrderField_CombHedgeFlag
   ++ rows_CThostFtdcOrderField_LimitPrice
   ++ rows_CThostFtdcOrderField_TimeCondition
   ++ rows_CThostFtdcOrderField_GTDDate
   ++ rows_CThostFtdcOrderField_VolumeCondition
   ++ rows_CThostFtdcOrderField_ContingentCondition
   ++ rows_CThostFtdcOrderField_ForceCloseReason
   ++ rows_CThostFtdcOrderField_BusinessUnit
   ++ rows_CThostFtdcOrderField_RequestID
   ++ rows_CThostFtdcOrderField_OrderLocalID
   ++ rows_CThostFtdcOrderField_ExchangeID
   ++ rows_CThostFtdcOrderField_ParticipantID
   ++ rows_CThostFtdcOrderField_ClientID
   ++ rows_CThostFtdcOrderField_reserve2
   ++ rows_CThostFtdcOrderField_TraderID
   ++ rows_CThostFtdcOrderField_InstallID
   ++ rows_CThostFtdcOrderField_NotifySequence
   ++ rows_CThostFtdcOrderField_TradingDay
   ++ rows_CThostFtdcOrderField_SettlementID
   ++ rows_CThostFtdcOrderField_OrderSysID
   ++ rows_CThostFtdcOrderField_OrderSource
   ++ rows_CThostFtdcOrderField_OrderType
   ++ rows_CThostFtdcOrderField_VolumeTotal
   ++ rows_CThostFtdcOrderField_InsertDate
   ++ rows_CThostFtdcOrderField_InsertTime
   ++ rows_CThostFtdcOrderField_ActiveTime
   ++ rows_CThostFtdcOrderField_SuspendTime
   ++ rows_CThostFtdcOrderField_UpdateTime
   ++ rows_CThostFtdcOrderField_CancelTime
   ++ rows_CThostFtdcOrderField_ActiveTraderID
   ++ rows_CThostFtdcOrderField_ClearingPartID
   ++ rows_CThostFtdcOrderField_SequenceNo
   ++ rows_CThostFtdcOrderField_SessionID
   ++ rows_CThostFtdcOrderField_UserProductInfo
   ++ rows_CThostFtdcOrderField_StatusMsg
   ++ rows_CThostFtdcOrderField_UserForceClose
   ++ rows_CThostFtdcOrderField_ActiveUserID
   ++ rows_CThostFtdcOrderField_BrokerOrderSeq
   ++ rows_CThostFtdcOrderField_RelativeOrderSysID
   ++ rows_CThostFtdcOrderField_ZCETotalTradedVolume
   ++ rows_CThostFtdcOrderField_BranchID
   ++ rows_CThostFtdcOrderField_InvestUnitID
   ++ rows_CThostFtdcOrderField_AccountID
   ++ rows_CThostFtdcOrderField_CurrencyID
   ++ rows_CThostFtdcOrderField_reserve3
   ++ rows_CThostFtdcOrderField_MacAddress
   ++ rows_CThostFtdcOrderField_InstrumentID
   ++ rows_CThostFtdcOrderField_ExchangeInstID
   ++ rows_CThostFtdcOrderField_IPAddress
   ++ rows_CThostFtdcOrderField_OrderMemo
   ++ rows_CThostFtdcOrderField_SessionReqSeq).

Definition rows_CThostFtdcExchangeOrderField_CombOffsetFlag : list row :=
  [ ("CombOffsetFlag", TChars 5, GString) ].
Definition rows_CThostFtdcExchangeOrderField_CombHedgeFlag : list row :=
  [ ("CombHedgeFlag", TChars 5, GString) ].
Definition rows_CThostFtdcExchangeOrderField_LimitPrice : list row :=
  [ ("LimitPrice", TDouble, GDouble);
    ("VolumeTotalOriginal", TInt, GInt) ].
Definition rows_CThostFtdcExchangeOrderField_TimeCondition : list row :=
  [ ("TimeCondition", TChar, GChar) ].
Definition rows_CThostFtdcExchangeOrderField_GTDDate : list row :=
  [ ("GTDDate", TChars 9, GString) ].
Definition rows_CThostFtdcExchangeOrderField_VolumeCondition : list row :=
  [ ("VolumeCondition", TChar, GChar);
    ("MinVolume", TInt, GInt) ].
Definition rows_CThostFtdcExchangeOrderField_ContingentCondition : list row :=
  [ ("ContingentCondition", TChar, GChar);
    ("StopPrice", TDouble, GDouble) ].
Definition rows_CThostFtdcExchangeOrderField_ForceCloseReason : list row :=
  [ ("ForceCloseReason", TChar, GChar);
    ("IsAutoSuspend", TInt, GInt) ].
Definition rows_CThostFtdcExchangeOrderField_BusinessUnit : list row :=
  [ ("BusinessUnit", TChars 21, GString) ].
Definition rows_CThostFtdcExchangeOrderField_RequestID : list row :=
  [ ("RequestID", TInt, GInt) ].
Definition rows_CThostFtdcExchangeOrderField_OrderLocalID : list row :=
  [ ("OrderLocalID", TChars 13, GString) ].
Definition rows_CThostFtdcExchangeOrderField_ExchangeID : list row :=
  [ ("ExchangeID", TChars 9, GString) ].
Definition rows_CThostFtdcExchangeOrderField_ParticipantID : list row :=
  [ ("ParticipantID", TChars 11, GString) ].
Definition rows_CThostFtdcExchangeOrderField_ClientID : list row :=
  [ ("ClientID", TChars 11, GString) ].
Definition rows_CThostFtdcExchangeOrderField_reserve1 : list row :=
  [ ("reserve1", TChars 31, GString) ].
Definition rows_CThostFtdcExchangeOrderField_TraderID : list row :=
  [ ("TraderID", TChars 21, GString) ].
Definition rows_CThostFtdcExchangeOrderField_InstallID : list row :=
  [ ("InstallID", TInt, GInt);
    ("OrderSubmitStatus", TChar, GChar) ].
Definition rows_CThostFtdcExchangeOrderField_NotifySequence : list row :=
  [ ("NotifySequence", TInt, GInt) ].
Definition rows_CThostFtdcExchangeOrderField_TradingDay : list row :=
  [ ("TradingDay", TChars 9, GString) ].
Definition rows_CThostFtdcExchangeOrderField_SettlementID : list row :=
  [ ("SettlementID", TInt, GInt) ].
Definition rows_CThostFtdcExchangeOrderField_OrderSysID : list row :=
  [ ("OrderSysID", TChars 21, GString) ].
Definition rows_CThostFtdcExchangeOrderField_OrderSource : list row :=
  [ ("OrderSource", TChar, GChar);
    ("OrderStatus", TChar, GChar) ].
Definition rows_CThostFtdcExchangeOrderField_OrderType : list row :=
  [ ("OrderType", TChar, GChar);
    ("VolumeTraded", TInt, GInt) ].
Definition rows_CThostFtdcExchangeOrderField_VolumeTotal : list row :=
  [ ("VolumeTotal", TInt, GInt) ].
Definition rows_CThostFtdcExchangeOrderField_InsertDate : list row :=
  [ ("InsertDate", TChars 9, GString) ].
Definition rows_CThostFtdcExchangeOrderField_InsertTime : list row :=
  [ ("InsertTime", TChars 9, GString) ].
Definition rows_CThostFtdcExchangeOrderField_ActiveTime : list row :=
  [ ("ActiveTime", TChars 9, GString) ].
Definition rows_CThostFtdcExchangeOrderField_SuspendTime : list row :=
  [ ("SuspendTime", TChars 9, GString) ].
Definition rows_CThostFtdcExchangeOrderField_UpdateTime : list row :=
  [ ("UpdateTime", TChars 9, GString) ].
Definition rows_CThostFtdcExchangeOrderField_CancelTime : list row :=
  [ ("CancelTime", TChars 9, GString) ].
Definition rows_CThostFtdcExchangeOrderField_ActiveTraderID : list row :=
  [ ("ActiveTraderID", TChars 21, GString) ].
Definition rows_CThostFtdcExchangeOrderField_ClearingPartID : list row :=
  [ ("ClearingPartID", TChars 11, GString) ].
Definition rows_CThostFtdcExchangeOrderField_SequenceNo : list row :=
  [ ("SequenceNo", TInt, GInt) ].
Definition rows_CThostFtdcExchangeOrderField_BranchID : list row :=
  [ ("BranchID", TChars 9, GString) ].
Definition rows_CThostFtdcExchangeOrderField_reserve2 : list row :=
  [ ("reserve2", TChars 16, GString) ].
Definition rows_CThostFtdcExchangeOrderField_MacAddress : list row :=
  [ ("MacAddress", TChars 21, GString) ].
Definition rows_CThostFtdcExchangeOrderField_ExchangeInstID : list row :=
  [ ("ExchangeInstID", TChars 81, GString) ].
Definition rows_CThostFtdcExchangeOrderField_IPAddress : list row :=
  [ ("IPAddress", TChars 33, GString) ].
Definition wrap_CThostFtdcExchangeOrderField : wrapper :=
  mk_wrapper 60
  ([ ("OrderPriceType", TChar, GChar);
    ("Direction", TChar, GChar) ]
   ++ rows_CThostFtdcExchangeOrderField_CombOffsetFlag
   ++ rows_CThostFtdcExchangeOrderField_CombHedgeFlag
   ++ rows_CThostFtdcExchangeOrderField_LimitPrice
   ++ rows_CThostFtdcExchangeOrderField_TimeCondition
   ++ rows_CThostFtdcExchangeOrderField_GTDDate
   ++ rows_CThostFtdcExchangeOrderField_VolumeCondition
   ++ rows_CThostFtdcExchangeOrderField_ContingentCondition
   ++ rows_CThostFtdcExchangeOrderField_ForceCloseReason
   ++ rows_CThostFtdcExchangeOrderField_BusinessUnit
   ++ rows_CThostFtdcExchangeOrderField_RequestID
   ++ rows_CThostFtdcExchangeOrderField_OrderLocalID
   ++ rows_CThostFtdcExchangeOrderField_ExchangeID
   ++ rows_CThostFtdcExchangeOrderField_ParticipantID
   ++ rows_CThostFtdcExchangeOrderField_ClientID
   ++ rows_CThostFtdcExchangeOrderField_reserve1
   ++ rows_CThostFtdcExchangeOrderField_TraderID
   ++ rows_CThostFtdcExchangeOrderField_InstallID
   ++ rows_CThostFtdcExchangeOrderField_NotifySequence
   ++ rows_CThostFtdcExchangeOrderField_TradingDay
   ++ rows_CThostFtdcExchangeOrderField_SettlementID
   ++ rows_CThostFtdcExchangeOrderField_OrderSysID
   ++ rows_CThostFtdcExchangeOrderField_OrderSource
   ++ rows_CThostFtdcExchangeOrderField_OrderType
   ++ rows_CThostFtdcExchangeOrderField_VolumeTotal
   ++ rows_CThostFtdcExchangeOrderField_InsertDate
   ++ rows_CThostFtdcExchangeOrderField_InsertTime
   ++ rows_CThostFtdcExchangeOrderField_ActiveTime
   ++ rows_CThostFtdcExchangeOrderField_SuspendTime
   ++ rows_CThostFtdcExchangeOrderField_UpdateTime
   ++ rows_CThostFtdcExchangeOrderField_CancelTime
   ++ rows_CThostFtdcExchangeOrderField_ActiveTraderID
   ++ rows_CThostFtdcExchangeOrderField_ClearingPartID
   ++ rows_CThostFtdcExchangeOrderField_SequenceNo
   ++ rows_CThostFtdcExchangeOrderField_BranchID
   ++ rows_CThostFtdcExchangeOrderField_reserve2
   ++ rows_CThostFtdcExchangeOrderField_MacAddress
   ++ rows_CThostFtdcExchangeOrderField_ExchangeInstID
   ++ rows_CThostFtdcExchangeOrderField_IPAddress).

Definition rows_CThostFtdcExchangeOrderInsertErrorField_ParticipantID : list row :=
  [ ("ParticipantID", TChars 11, GString) ].
Definition rows_CThostFtdcExchangeOrderInsertErrorField_TraderID : list row :=
  [ ("TraderID", TChars 21, GString) ].
Definition rows_CThostFtdcExchangeOrderInsertErrorField_InstallID : list row :=
  [ ("InstallID", TInt, GInt) ].
Definition rows_CThostFtdcExchangeOrderInsertErrorField_OrderLocalID : list row :=
  [ ("OrderLocalID", TChars 13, GString) ].
Definition rows_CThostFtdcExchangeOrderInsertErrorField_ErrorID : list row :=
  [ ("ErrorID", TInt, GInt) ].
Definition rows_CThostFtdcExchangeOrderInsertErrorField_ErrorMsg : list row :=
  [ ("ErrorMsg", TChars 81, GString) ].
Definition wrap_CThostFtdcExchangeOrderInsertErrorField : wrapper :=
  mk_wrapper 61
  ([ ("ExchangeID", TChars 9, GString) ]
   ++ rows_CThostFtdcExchangeOrderInsertErrorField_ParticipantID
   ++ rows_CThostFtdcExchangeOrderInsertErrorField_TraderID
   ++ rows_CThostFtdcExchangeOrderInsertErrorField_InstallID
   ++ rows_CThostFtdcExchangeOrderInsertErrorField_OrderLocalID
   ++ rows_CThostFtdcExchangeOrderInsertErrorField_ErrorID
   ++ rows_CThostFtdcExchangeOrderInsertErrorField_ErrorMsg).

Definition rows_CThostFtdcInputOrderActionField_InvestorID : list row :=
  [ ("InvestorID", TChars 13, GString) ].
Definition rows_CThostFtdcInputOrderActionField_OrderActionRef : list row :=
  [ ("OrderActionRef", TInt, GInt) ].
Definition rows_CThostFtdcInputOrderActionField_OrderRef : list row :=
  [ ("OrderRef", TChars 13, GString) ].
Definition rows_CThostFtdcInputOrderActionField_RequestID : list row :=
  [ ("RequestID", TInt, GInt);
    ("FrontID", TInt, GInt) ].
Definition rows_CThostFtdcInputOrderActionField_SessionID : list row :=
  [ ("SessionID", TInt, GInt) ].
Definition rows_CThostFtdcInputOrderActionField_ExchangeID : list row :=
  [ ("ExchangeID", TChars 9, GString) ].
Definition rows_CThostFtdcInputOrderActionField_OrderSysID : list row :=
  [ ("OrderSysID", TChars 21, GString) ].
Definition rows_CThostFtdcInputOrderActionField_ActionFlag : list row :=
  [ ("ActionFlag", TChar, GChar);
    ("LimitPrice", TDouble, GDouble) ].
Definition rows_CThostFtdcInputOrderActionField_VolumeChange : list row :=
  [ ("VolumeChange", TInt, GInt) ].
Definition rows_CThostFtdcInputOrderActionField_UserID : list row :=
  [ ("UserID", TChars 16, GString) ].
Definition rows_CThostFtdcInputOrderActionField_reserve1 : list row :=
  [ ("reserve1", TChars 31, GString) ].
Definition rows_CThostFtdcInputOrderActionField_InvestUnitID : list row :=
  [ ("InvestUnitID", TChars 17, GString) ].
Definition rows_CThostFtdcInputOrderActionField_reserve2 : list row :=
  [ ("reserve2", TChars 16, GString) ].
Definition rows_CThostFtdcInputOrderActionField_MacAddress : list row :=
  [ ("MacAddress", TChars 21, GString) ].
Definition rows_CThostFtdcInputOrderActionField_InstrumentID : list row :=
  [ ("InstrumentID", TChars 81, GString) ].
Definition rows_CThostFtdcInputOrderActionField_IPAddress : list row :=
  [ ("IPAddress", TChars 33, GString) ].
Definition rows_CThostFtdcInputOrderActionField_OrderMemo : list row :=
  [ ("OrderMemo", TChars 13, GString) ].
Definition rows_CThostFtdcInputOrderActionField_SessionReqSeq : list row :=
  [ ("SessionReqSeq", TInt, GInt) ].
Definition wrap_CThostFtdcInputOrderActionField : wrapper :=
  mk_wrapper 88
  ([ ("BrokerID", TChars 11, GString) ]
   ++ rows_CThostFtdcInputOrderActionField_InvestorID
   ++ rows_CThostFtdcInputOrderActionField_OrderActionRef
   ++ rows_CThostFtdcInputOrderActionField_OrderRef
   ++ rows_CThostFtdcInputOrderActionField_RequestID
   ++ rows_CThostFtdcInputOrderActionField_SessionID
   ++ rows_CThostFtdcInputOrderActionField_ExchangeID
   ++ rows_CThostFtdcInputOrderActionField_OrderSysID
   ++ rows_CThostFtdcInputOrderActionField_ActionFlag
   ++ rows_CThostFtdcInputOrderActionField_VolumeChange
   ++ rows_CThostFtdcInputOrderActionField_UserID
   ++ rows_CThostFtdcInputOrderActionField_reserve1
   ++ rows_CThostFtdcInputOrderActionField_InvestUnitID
   ++ rows_CThostFtdcInputOrderActionField_reserve2
   ++ rows_CThostFtdcInputOrderActionField_MacAddress
   ++ rows_CThostFtdcInputOrderActionField_InstrumentID
   ++ rows_CThostFtdcInputOrderActionField_IPAddress
   ++ rows_CThostFtdcInputOrderActionField_OrderMemo
   ++ rows_CThostFtdcInputOrderActionField_SessionReqSeq).

Definition rows_CThostFtdcOrderActionField_InvestorID : list row :=
  [ ("InvestorID", TChars 13, GString) ].
Definition rows_CThostFtdcOrderActionField_OrderActionRef : list row :=
  [ ("OrderActionRef", TInt, GInt) ].
Definition rows_CThostFtdcOrderActionField_OrderRef : list row :=
  [ ("OrderRef", TChars 13, GString) ].
Definition rows_CThostFtdcOrderActionField_RequestID : list row :=
  [ ("RequestID", TInt, GInt);
    ("FrontID", TInt, GInt) ].
Definition rows_CThostFtdcOrderActionField_SessionID : list row :=
  [ ("SessionID", TInt, GInt) ].
Definition rows_CThostFtdcOrderActionField_ExchangeID : list row :=
  [ ("ExchangeID", TChars 9, GString) ].
Definition rows_CThostFtdcOrderActionField_OrderSysID : list row :=
  [ ("OrderSysID", TChars 21, GString) ].
Definition rows_CThostFtdcOrderActionField_ActionFlag : list row :=
  [ ("ActionFlag", TChar, GChar);
    ("LimitPrice", TDouble, GDouble) ].
Definition rows_CThostFtdcOrderActionField_VolumeChange : list row :=
  [ ("VolumeChange", TInt, GInt) ].
Definition rows_CThostFtdcOrderActionField_ActionDate : list row :=
  [ ("ActionDate", TChars 9, GString) ].
Definition rows_CThostFtdcOrderActionField_ActionTime : list row :=
  [ ("ActionTime", TChars 9, GString) ].
Definition rows_CThostFtdcOrderActionField_TraderID : list row :=
  [ ("TraderID", TChars 21, GString) ].
Definition rows_CThostFtdcOrderActionField_InstallID : list row :=
  [ ("InstallID", TInt, GInt) ].
Definition rows_CThostFtdcOrderActionField_OrderLocalID : list row :=
  [ ("OrderLocalID", TChars 13, GString) ].
Definition rows_CThostFtdcOrderActionField_ActionLocalID : list row :=
  [ ("ActionLocalID", TChars 13, GString) ].
Definition rows_CThostFtdcOrderActionField_ParticipantID : list row :=
  [ ("ParticipantID", TChars 11, GString) ].
Definition rows_CThostFtdcOrderActionField_ClientID : list row :=
  [ ("ClientID", TChars 11, GString) ].
Definition rows_CThostFtdcOrderActionField_BusinessUnit : list row :=
  [ ("BusinessUnit", TChars 21, GString) ].
Definition rows_CThostFtdcOrderActionField_OrderActionStatus : list row :=
  [ ("OrderActionStatus", TChar, GChar) ].
Definition rows_CThostFtdcOrderActionField_UserID : list row :=
  [ ("UserID", TChars 16, GString) ].
Definition rows_CThostFtdcOrderActionField_StatusMsg : list row :=
  [ ("StatusMsg", TChars 81, GString) ].
Definition rows_CThostFtdcOrderActionField_reserve1 : list row :=
  [ ("reserve1", TChars 31, GString) ].
Definition rows_CThostFtdcOrderActionField_BranchID : list row :=
  [ ("BranchID", TChars 9, GString) ].
Definition rows_CThostFtdcOrderActionField_InvestUnitID : list row :=
  [ ("InvestUnitID", TChars 17, GString) ].
Definition rows_CThostFtdcOrderActionField_reserve2 : list row :=
  [ ("reserve2", TChars 16, GString) ].
Definition rows_CThostFtdcOrderActionField_MacAddress : list row :=
  [ ("MacAddress", TChars 21, GString) ].
Definition rows_CThostFtdcOrderActionField_InstrumentID : list row :=
  [ ("InstrumentID", TChars 81, GString) ].
Definition rows_CThostFtdcOrderActionField_IPAddress : list row :=
  [ ("IPAddress", TChars 33, GString) ].
Definition rows_CThostFtdcOrderActionField_OrderMemo : list row :=
  [ ("OrderMemo", TChars 13, GString) ].
Definition rows_CThostFtdcOrderActionField_SessionReqSeq : list row :=
  [ ("SessionReqSeq", TInt, GInt) ].
Definition wrap_CThostFtdcOrderActionField : wrapper :=
  mk_wrapper 161
  ([ ("BrokerID", TChars 11, GString) ]
   ++ rows_CThostFtdcOrderActionField_InvestorID
   ++ rows_CThostFtdcOrderActionField_OrderActionRef
   ++ rows_CThostFtdcOrderActionField_OrderRef
   ++ rows_CThostFtdcOrderActionField_RequestID
   ++ rows_CThostFtdcOrderActionField_SessionID
   ++ rows_CThostFtdcOrderActionField_ExchangeID
   ++ rows_CThostFtdcOrderActionField_OrderSysID
   ++ rows_CThostFtdcOrderActionField_ActionFlag
   ++ rows_CThostFtdcOrderActionField_VolumeChange
   ++ rows_CThostFtdcOrderActionField_ActionDate
   ++ rows_CThostFtdcOrderActionField_ActionTime
   ++ rows_CThostFtdcOrderActionField_TraderID
   ++ rows_CThostFtdcOrderActionField_InstallID
   ++ rows_CThostFtdcOrderActionField_OrderLocalID
   ++ rows_CThostFtdcOrderActionField_ActionLocalID
   ++ rows_CThostFtdcOrderActionField_ParticipantID
   ++ rows_CThostFtdcOrderActionField_ClientID
   ++ rows_CThostFtdcOrderActionField_BusinessUnit
   ++ rows_CThostFtdcOrderActionField_OrderActionStatus
   ++ rows_CThostFtdcOrderActionField_UserID
   ++ rows_CThostFtdcOrderActionField_StatusMsg
   ++ rows_CThostFtdcOrderActionField_reserve1
   ++ rows_CThostFtdcOrderActionField_BranchID
   ++ rows_CThostFtdcOrderActionField_InvestUnitID
   ++ rows_CThostFtdcOrderActionField_reserve2
   ++ rows_CThostFtdcOrderActionField_MacAddress
   ++ rows_CThostFtdcOrderActionField_InstrumentID
   ++ rows_CThostFtdcOrderActionField_IPAddress
   ++ rows_CThostFtdcOrderActionField_OrderMemo
   ++ rows_CThostFtdcOrderActionField_SessionReqSeq).

Definition rows_CThostFtdcExchangeOrderActionField_OrderSysID : list row :=
  [ ("OrderSysID", TChars 21, GString) ].
Definition rows_CThostFtdcExchangeOrderActionField_ActionFlag : list row :=
  [ ("ActionFlag", TChar, GChar);
    ("LimitPrice", TDouble, GDouble) ].
Definition rows_CThostFtdcExchangeOrderActionField_VolumeChange : list row :=
  [ ("VolumeChange", TInt, GInt) ].
Definition rows_CThostFtdcExchangeOrderActionField_ActionDate : list row :=
  [ ("ActionDate", TChars 9, GString) ].
Definition rows_CThostFtdcExchangeOrderActionField_ActionTime : list row :=
  [ ("ActionTime", TChars 9, GString) ].
Definition rows_CThostFtdcExchangeOrderActionField_TraderID : list row :=
  [ ("TraderID", TChars 21, GString) ].
Definition rows_CThostFtdcExchangeOrderActionField_InstallID : list row :=
  [ ("InstallID", TInt, GInt) ].
Definition rows_CThostFtdcExchangeOrderActionField_OrderLocalID : list row :=
  [ ("OrderLocalID", TChars 13, GString) ].
Definition rows_CThostFtdcExchangeOrderActionField_ActionLocalID : list row :=
  [ ("ActionLocalID", TChars 13, GString) ].
Definition rows_CThostFtdcExchangeOrderActionField_ParticipantID : list row :=
  [ ("ParticipantID", TChars 11, GString) ].
Definition rows_CThostFtdcExchangeOrderActionField_ClientID : list row :=
  [ ("ClientID", TChars 11, GString) ].
Definition rows_CThostFtdcExchangeOrderActionField_BusinessUnit : list row :=
  [ ("BusinessUnit", TChars 21, GString) ].
Definition rows_CThostFtdcExchangeOrderActionField_OrderActionStatus : list row :=
  [ ("OrderActionStatus", TChar, GChar) ].
Definition rows_CThostFtdcExchangeOrderActionField_UserID : list row :=
  [ ("UserID", TChars 16, GString) ].
Definition rows_CThostFtdcExchangeOrderActionField_BranchID : list row :=
  [ ("BranchID", TChars 9, GString) ].
Definition rows_CThostFtdcExchangeOrderActionField_reserve1 : list row :=
  [ ("reserve1", TChars 16, GString) ].
Definition rows_CThostFtdcExchangeOrderActionField_MacAddress : list row :=
  [ ("MacAddress", TChars 21, GString) ].
Definition rows_CThostFtdcExchangeOrderActionField_IPAddress : list row :=
  [ ("IPAddress", TChars 33, GString) ].
Definition wrap_CThostFtdcExchangeOrderActionField : wrapper :=
  mk_wrapper 59
  ([ ("ExchangeID", TChars 9, GString) ]
   ++ rows_CThostFtdcExchangeOrderActionField_OrderSysID
   ++ rows_CThostFtdcExchangeOrderActionField_ActionFlag
   ++ rows_CThostFtdcExchangeOrderActionField_VolumeChange
   ++ rows_CThostFtdcExchangeOrderActionField_ActionDate
   ++ rows_CThostFtdcExchangeOrderActionField_ActionTime
   ++ rows_CThostFtdcExchangeOrderActionField_TraderID
   ++ rows_CThostFtdcExchangeOrderActionField_InstallID
   ++ rows_CThostFtdcExchangeOrderActionField_OrderLocalID
   ++ rows_CThostFtdcExchangeOrderActionField_ActionLocalID
   ++ rows_CThostFtdcExchangeOrderActionField_ParticipantID
   ++ rows_CThostFtdcExchangeOrderActionField_ClientID
   ++ rows_CThostFtdcExchangeOrderActionField_BusinessUnit
   ++ rows_CThostFtdcExchangeOrderActionField_OrderActionStatus
   ++ rows_CThostFtdcExchangeOrderActionField_UserID
   ++ rows_CThostFtdcExchangeOrderActionField_BranchID
   ++ rows_CThostFtdcExchangeOrderActionField_reserve1
   ++ rows_CThostFtdcExchangeOrderActionField_MacAddress
   ++ rows_CThostFtdcExchangeOrderActionField_IPAddress).

Definition rows_CThostFtdcExchangeOrderActionErrorField_OrderSysID : list row :=
  [ ("OrderSysID", TChars 21, GString) ].
Definition rows_CThostFtdcExchangeOrderActionErrorField_TraderID : list row :=
  [ ("TraderID", TChars 21, GString) ].
Definition rows_CThostFtdcExchangeOrderActionErrorField_InstallID : list row :=
  [ ("InstallID", TInt, GInt) ].
Definition rows_CThostFtdcExchangeOrderActionErrorField_OrderLocalID : list row :=
  [ ("OrderLocalID", TChars 13, GString) ].
Definition rows_CThostFtdcExchangeOrderActionErrorField_ActionLocalID : list row :=
  [ ("ActionLocalID", TChars 13, GString) ].
Definition rows_CThostFtdcExchangeOrderActionErrorField_ErrorID : list row :=
  [ ("ErrorID", TInt, GInt) ].
Definition rows_CThostFtdcExchangeOrderActionErrorField_ErrorMsg : list row :=
  [ ("ErrorMsg", TChars 81, GString) ].
Definition wrap_CThostFtdcExchangeOrderActionErrorField : wrapper :=
  mk_wrapper 58
  ([ ("ExchangeID", TChars 9, GString) ]
   ++ rows_CThostFtdcExchangeOrderActionErrorField_OrderSysID
   ++ rows_CThostFtdcExchangeOrderActionErrorField_TraderID
   ++ rows_CThostFtdcExchangeOrderActionErrorField_InstallID
   ++ rows_CThostFtdcExchangeOrderActionErrorField_OrderLocalID
   ++ rows_CThostFtdcExchangeOrderActionErrorField_ActionLocalID
   ++ rows_CThostFtdcExchangeOrderActionErrorField_ErrorID
   ++ rows_CThostFtdcExchangeOrderActionErrorField_ErrorMsg).

Definition rows_CThostFtdcExchangeTradeField_TradeID : list row :=
  [ ("TradeID", TChars 21, GString) ].
Definition rows_CThostFtdcExchangeTradeField_Direction : list row :=
  [ ("Direction", TChar, GChar) ].
Definition rows_CThostFtdcExchangeTradeField_OrderSysID : list row :=
  [ ("OrderSysID", TChars 21, GString) ].
Definition rows_CThostFtdcExchangeTradeField_ParticipantID : list row :=
  [ ("ParticipantID", TChars 11, GString) ].
Definition rows_CThostFtdcExchangeTradeField_ClientID : list row :=
  [ ("ClientID", TChars 11, GString) ].
Definition rows_CThostFtdcExchangeTradeField_TradingRole : list row :=
  [ ("TradingRole", TChar, GChar) ].
Definition rows_CThostFtdcExchangeTradeField_reserve1 : list row :=
  [ ("reserve1", TChars 31, GString) ].
Definition rows_CThostFtdcExchangeTradeField_OffsetFlag : list row :=
  [ ("OffsetFlag", TChar, GChar);
    ("HedgeFlag", TChar, GChar) ].
Definition rows_CThostFtdcExchangeTradeField_Price : list row :=
  [ ("Price", TDouble, GDouble);
    ("Volume", TInt, GInt) ].
Definition rows_CThostFtdcExchangeTradeField_TradeDate : list row :=
  [ ("TradeDate", TChars 9, GString) ].
Definition rows_CThostFtdcExchangeTradeField_TradeTime : list row :=
  [ ("TradeTime", TChars 9, GString) ].
Definition rows_CThostFtdcExchangeTradeField_TradeType : list row :=
  [ ("TradeType", TChar, GChar);
    ("PriceSource", TChar, GChar) ].
Definition rows_CThostFtdcExchangeTradeField_TraderID : list row :=
  [ ("TraderID", TChars 21, GString) ].
Definition rows_CThostFtdcExchangeTradeField_OrderLocalID : list row :=
  [ ("OrderLocalID", TChars 13, GString) ].
Definition rows_CThostFtdcExchangeTradeField_ClearingPartID : list row :=
  [ ("ClearingPartID", TChars 11, GString) ].
Definition rows_CThostFtdcExchangeTradeField_BusinessUnit : list row :=
  [ ("BusinessUnit", TChars 21, GString) ].
Definition rows_CThostFtdcExchangeTradeField_SequenceNo : list row :=
  [ ("SequenceNo", TInt, GInt);
    ("TradeSource", TChar, GChar) ].
Definition rows_CThostFtdcExchangeTradeField_ExchangeInstID : list row :=
  [ ("ExchangeInstID", TChars 81, GString) ].
Definition wrap_CThostFtdcExchangeTradeField : wrapper :=
  mk_wrapper 66
  ([ ("ExchangeID", TChars 9, GString) ]
   ++ rows_CThostFtdcExchangeTradeField_TradeID
   ++ rows_CThostFtdcExchangeTradeField_Direction
   ++ rows_CThostFtdcExchangeTradeField_OrderSysID
   ++ rows_CThostFtdcExchangeTradeField_ParticipantID
   ++ rows_CThostFtdcExchangeTradeField_ClientID
   ++ rows_CThostFtdcExchangeTradeField_TradingRole
   ++ rows_CThostFtdcExchangeTradeField_reserve1
   ++ rows_CThostFtdcExchangeTradeField_OffsetFlag
   ++ rows_CThostFtdcExchangeTradeField_Price
   ++ rows_CThostFtdcExchangeTradeField_TradeDate
   ++ rows_CThostFtdcExchangeTradeField_TradeTime
   ++ rows_CThostFtdcExchangeTradeField_TradeType
   ++ rows_CThostFtdcExchangeTradeField_TraderID
   ++ rows_CThostFtdcExchangeTradeField_OrderLocalID
   ++ rows_CThostFtdcExchangeTradeField_ClearingPartID
   ++ rows_CThostFtdcExchangeTradeField_BusinessUnit
   ++ rows_CThostFtdcExchangeTradeField_SequenceNo
   ++ rows_CThostFtdcExchangeTradeField_ExchangeInstID).

Definition rows_CThostFtdcTradeField_InvestorID : list row :=
  [ ("InvestorID", TChars 13, GString) ].
Definition rows_CThostFtdcTradeField_reserve1 : list row :=
  [ ("reserve1", TChars 31, GString) ].
Definition rows_CThostFtdcTradeField_OrderRef : list row :=
  [ ("OrderRef", TChars 13, GString) ].
Definition rows_CThostFtdcTradeField_UserID : list row :=
  [ ("UserID", TChars 16, GString) ].
Definition rows_CThostFtdcTradeField_ExchangeID : list row :=
  [ ("ExchangeID", TChars 9, GString) ].
Definition rows_CThostFtdcTradeField_TradeID : list row :=
  [ ("TradeID", TChars 21, GString) ].
Definition rows_CThostFtdcTradeField_Direction : list row :=
  [ ("Direction", TChar, GChar) ].
Definition rows_CThostFtdcTradeField_OrderSysID : list row :=
  [ ("OrderSysID", TChars 21, GString) ].
Definition rows_CThostFtdcTradeField_ParticipantID : list row :=
  [ ("ParticipantID", TChars 11, GString) ].
Definition rows_CThostFtdcTradeField_ClientID : list row :=
  [ ("ClientID", TChars 11, GString) ].
Definition rows_CThostFtdcTradeField_TradingRole : list row :=
  [ ("TradingRole", TChar, GChar) ].
Definition rows_CThostFtdcTradeField_reserve2 : list row :=
  [ ("reserve2", TChars 31, GString) ].
Definition rows_CThostFtdcTradeField_OffsetFlag : list row :=
  [ ("OffsetFlag", TChar, GChar);
    ("HedgeFlag", TChar, GChar) ].
Definition rows_CThostFtdcTradeField_Price : list row :=
  [ ("Price", TDouble, GDouble);
    ("Volume", TInt, GInt) ].
Definition rows_CThostFtdcTradeField_TradeDate : list row :=
  [ ("TradeDate", TChars 9, GString) ].
Definition rows_CThostFtdcTradeField_TradeTime : list row :=
  [ ("TradeTime", TChars 9, GString) ].
Definition rows_CThostFtdcTradeField_TradeType : list row :=
  [ ("TradeType", TChar, GChar);
    ("PriceSource", TChar, GChar) ].
Definition rows_CThostFtdcTradeField_TraderID : list row :=
  [ ("TraderID", TChars 21, GString) ].
Definition rows_CThostFtdcTradeField_OrderLocalID : list row :=
  [ ("OrderLocalID", TChars 13, GString) ].
Definition rows_CThostFtdcTradeField_ClearingPartID : list row :=
  [ ("ClearingPartID", TChars 11, GString) ].
Definition rows_CThostFtdcTradeField_BusinessUnit : list row :=
  [ ("BusinessUnit", TChars 21, GString) ].
Definition rows_CThostFtdcTradeField_SequenceNo : list row :=
  [ ("SequenceNo", TInt, GInt) ].
Definition rows_CThostFtdcTradeField_TradingDay : list row :=
  [ ("TradingDay", TChars 9, GString) ].
Definition rows_CThostFtdcTradeField_SettlementID : list row :=
  [ ("SettlementID", TInt, GInt);
    ("BrokerOrderSeq", TInt, GInt) ].
Definition rows_CThostFtdcTradeField_TradeSource : list row :=
  [ ("TradeSource", TChar, GChar) ].
Definition rows_CThostFtdcTradeField_InvestUnitID : list row :=
  [ ("InvestUnitID", TChars 17, GString) ].
Definition rows_CThostFtdcTradeField_InstrumentID : list row :=
  [ ("InstrumentID", TChars 81, GString) ].
Definition rows_CThostFtdcTradeField_ExchangeInstID : list row :=
  [ ("ExchangeInstID", TChars 81, GString) ].
Definition wrap_CThostFtdcTradeField : wrapper :=
  mk_wrapper 437
  ([ ("BrokerID", TChars 11, GString) ]
   ++ rows_CThostFtdcTradeField_InvestorID
   ++ rows_CThostFtdcTradeField_reserve1
   ++ rows_CThostFtdcTradeField_OrderRef
   ++ rows_CThostFtdcTradeField_UserID
   ++ rows_CThostFtdcTradeField_ExchangeID
   ++ rows_CThostFtdcTradeField_TradeID
   ++ rows_CThostFtdcTradeField_Direction
   ++ rows_CThostFtdcTradeField_OrderSysID
   ++ rows_CThostFtdcTradeField_ParticipantID
   ++ rows_CThostFtdcTradeField_ClientID
   ++ rows_CThostFtdcTradeField_TradingRole
   ++ rows_CThostFtdcTradeField_reserve2
   ++ rows_CThostFtdcTradeField_OffsetFlag
   ++ rows_CThostFtdcTradeField_Price
   ++ rows_CThostFtdcTradeField_TradeDate
   ++ rows_CThostFtdcTradeField_TradeTime
   ++ rows_CThostFtdcTradeField_TradeType
   ++ rows_CThostFtdcTradeField_TraderID
   ++ rows_CThostFtdcTradeField_OrderLocalID
   ++ rows_CThostFtdcTradeField_ClearingPartID
   ++ rows_CThostFtdcTradeField_BusinessUnit
   ++ rows_CThostFtdcTradeField_SequenceNo
   ++ rows_CThostFtdcTradeField_TradingDay
   ++ rows_CThostFtdcTradeField_SettlementID
   ++ rows_CThostFtdcTradeField_TradeSource
   ++ rows_CThostFtdcTradeField_InvestUnitID
   ++ rows_CThostFtdcTradeField_InstrumentID
   ++ rows_CThostFtdcTradeField_ExchangeInstID).

Definition rows_CThostFtdcUserSessionField_BrokerID : list row :=
  [ ("BrokerID", TChars 11, GString) ].
Definition rows_CThostFtdcUserSessionField_UserID : list row :=
  [ ("UserID", TChars 16, GString) ].
Definition rows_CThostFtdcUserSessionField_LoginDate : list row :=
  [ ("LoginDate", TChars 9, GString) ].
Definition rows_CThostFtdcUserSessionField_LoginTime : list row :=
  [ ("LoginTime", TChars 9, GString) ].
Definition rows_CThostFtdcUserSessionField_reserve1 : list row :=
  [ ("reserve1", TChars 16, GString) ].
Definition rows_CThostFtdcUserSessionField_UserProductInfo : list row :=
  [ ("UserProductInfo", TChars 11, GString) ].
Definition rows_CThostFtdcUserSessionField_InterfaceProductInfo : list row :=
  [ ("InterfaceProductInfo", TChars 11, GString) ].
Definition rows_CThostFtdcUserSessionField_ProtocolInfo : list row :=
  [ ("ProtocolInfo", TChars 11, GString) ].
Definition rows_CThostFtdcUserSessionField_MacAddress : list row :=
  [ ("MacAddress", TChars 21, GString) ].
Definition rows_CThostFtdcUserSessionField_LoginRemark : list row :=
  [ ("LoginRemark", TChars 36, GString) ].
Definition rows_CThostFtdcUserSessionField_IPAddress : list row :=
  [ ("IPAddress", TChars 33, GString) ].
Definition wrap_CThostFtdcUserSessionField : wrapper :=
  mk_wrapper 468
  ([ ("FrontID", TInt, GInt);
    ("SessionID", TInt, GInt) ]
   ++ rows_CThostFtdcUserSessionField_BrokerID
   ++ rows_CThostFtdcUserSessionField_UserID
   ++ rows_CThostFtdcUserSessionField_LoginDate
   ++ rows_CThostFtdcUserSessionField_LoginTime
   ++ rows_CThostFtdcUserSessionField_reserve1
   ++ rows_CThostFtdcUserSessionField_UserProductInfo
   ++ rows_CThostFtdcUserSessionField_InterfaceProductInfo
   ++ rows_CThostFtdcUserSessionField_ProtocolInfo
   ++ rows_CThostFtdcUserSessionField_MacAddress
   ++ rows_CThostFtdcUserSessionField_LoginRemark
   ++ rows_CThostFtdcUserSessionField_IPAddress).

Definition rows_CThostFtdcQryMaxOrderVolumeField_InvestorID : list row :=
  [ ("InvestorID", TChars 13, GString) ].
Definition rows_CThostFtdcQryMaxOrderVolumeField_reserve1 : list row :=
  [ ("reserve1", TChars 31, GString) ].
Definition rows_CThostFtdcQryMaxOrderVolumeField_Direction : list row :=
  [ ("Direction", TChar, GChar);
    ("OffsetFlag", TChar, GChar) ].
Definition rows_CThostFtdcQryMaxOrderVolumeField_HedgeFlag : list row :=
  [ ("HedgeFlag", TChar, GChar);
    ("MaxVolume", TInt, GInt) ].
Definition rows_CThostFtdcQryMaxOrderVolumeField_ExchangeID : list row :=
  [ ("ExchangeID", TChars 9, GString) ].
Definition rows_CThostFtdcQryMaxOrderVolumeField_InvestUnitID : list row :=
  [ ("InvestUnitID", TChars 17, GString) ].
Definition rows_CThostFtdcQryMaxOrderVolumeField_InstrumentID : list row :=
  [ ("InstrumentID", TChars 81, GString) ].
Definition wrap_CThostFtdcQryMaxOrderVolumeField : wrapper :=
  mk_wrapper 244
  ([ ("BrokerID", TChars 11, GString) ]
   ++ rows_CThostFtdcQryMaxOrderVolumeField_InvestorID
   ++ rows_CThostFtdcQryMaxOrderVolumeField_reserve1
   ++ rows_CThostFtdcQryMaxOrderVolumeField_Direction
   ++ rows_CThostFtdcQryMaxOrderVolumeField_HedgeFlag
   ++ rows_CThostFtdcQryMaxOrderVolumeField_ExchangeID
   ++ rows_CThostFtdcQryMaxOrderVolumeField_InvestUnitID
   ++ rows_CThostFtdcQryMaxOrderVolumeField_InstrumentID).

Definition rows_CThostFtdcSettlementInfoConfirmField_InvestorID : list row :=
  [ ("InvestorID", TChars 13, GString) ].
Definition rows_CThostFtdcSettlementInfoConfirmField_ConfirmDate : list row :=
  [ ("ConfirmDate", TChars 9, GString) ].
Definition rows_CThostFtdcSettlementInfoConfirmField_ConfirmTime : list row :=
  [ ("ConfirmTime", TChars 9, GString) ].
Definition rows_CThostFtdcSettlementInfoConfirmField_SettlementID : list row :=
  [ ("SettlementID", TInt, GInt) ].
Definition rows_CThostFtdcSettlementInfoConfirmField_AccountID : list row :=
  [ ("AccountID", TChars 13, GString) ].
Definition rows_CThostFtdcSettlementInfoConfirmField_CurrencyID : list row :=
  [ ("CurrencyID", TChars 4, GString) ].
Definition wrap_CThostFtdcSettlementInfoConfirmField : wrapper :=
  mk_wrapper 376
  ([ ("BrokerID", TChars 11, GString) ]
   ++ rows_CThostFtdcSettlementInfoConfirmField_InvestorID
   ++ rows_CThostFtdcSettlementInfoConfirmField_ConfirmDate
   ++ rows_CThostFtdcSettlementInfoConfirmField_ConfirmTime
   ++ rows_CThostFtdcSettlementInfoConfirmField_SettlementID
   ++ rows_CThostFtdcSettlementInfoConfirmField_AccountID
   ++ rows_CThostFtdcSettlementInfoConfirmField_CurrencyID).

Definition rows_CThostFtdcSyncDepositField_BrokerID : list row :=
  [ ("BrokerID", TChars 11, GString) ].
Definition rows_CThostFtdcSyncDepositField_InvestorID : list row :=
  [ ("InvestorID", TChars 13, GString) ].
Definition rows_CThostFtdcSyncDepositField_Deposit : list row :=
  [ ("Deposit", TDouble, GDouble);
    ("IsForce", TInt, GInt) ].
Definition rows_CThostFtdcSyncDepositField_CurrencyID : list row :=
  [ ("CurrencyID", TChars 4, GString) ].
Definition rows_CThostFtdcSyncDepositField_IsFromSopt : list row :=
  [ ("IsFromSopt", TInt, GInt) ].
Definition rows_CThostFtdcSyncDepositField_TradingPassword : list row :=
  [ ("TradingPassword", TChars 41, GString) ].
Definition rows_CThostFtdcSyncDepositField_IsSecAgentTranfer : list row :=
  [ ("IsSecAgentTranfer", TInt, GInt) ].
Definition wrap_CThostFtdcSyncDepositField : wrapper :=
  mk_wrapper 424
  ([ ("DepositSeqNo", TChars 15, GString) ]
   ++ rows_CThostFtdcSyncDepositField_BrokerID
   ++ rows_CThostFtdcSyncDepositField_InvestorID
   ++ rows_CThostFtdcSyncDepositField_Deposit
   ++ rows_CThostFtdcSyncDepositField_CurrencyID
   ++ rows_CThostFtdcSyncDepositField_IsFromSopt
   ++ rows_CThostFtdcSyncDepositField_TradingPassword
   ++ rows_CThostFtdcSyncDepositField_IsSecAgentTranfer).

Definition rows_CThostFtdcSyncFundMortgageField_BrokerID : list row :=
  [ ("BrokerID", TChars 11, GString) ].
Definition rows_CThostFtdcSyncFundMortgageField_InvestorID : list row :=
  [ ("InvestorID", TChars 13, GString) ].
Definition rows_CThostFtdcSyncFundMortgageField_FromCurrencyID : list row :=
  [ ("FromCurrencyID", TChars 4, GString) ].
Definition rows_CThostFtdcSyncFundMortgageField_MortgageAmount : list row :=
  [ ("MortgageAmount", TDouble, GDouble) ].
Definition rows_CThostFtdcSyncFundMortgageField_ToCurrencyID : list row :=
  [ ("ToCurrencyID", TChars 4, GString) ].
Definition wrap_CThostFtdcSyncFundMortgageField : wrapper :=
  mk_wrapper 425
  ([ ("MortgageSeqNo", TChars 15, GString) ]
   ++ rows_CThostFtdcSyncFundMortgageField_BrokerID
   ++ rows_CThostFtdcSyncFundMortgageField_InvestorID
   ++ rows_CThostFtdcSyncFundMortgageField_FromCurrencyID
   ++ rows_CThostFtdcSyncFundMortgageField_MortgageAmount
   ++ rows_CThostFtdcSyncFundMortgageField_ToCurrencyID).

Definition wrap_CThostFtdcBrokerSyncField : wrapper :=
  mk_wrapper 10
  [ ("BrokerID", TChars 11, GString) ].

Definition rows_CThostFtdcSyncingInvestorField_BrokerID : list row :=
  [ ("BrokerID", TChars 11, GString) ].
Definition rows_CThostFtdcSyncingInvestorField_InvestorGroupID : list row :=
  [ ("InvestorGroupID", TChars 13, GString) ].
Definition rows_CThostFtdcSyncingInvestorField_InvestorName : list row :=
  [ ("InvestorName", TChars 81, GString) ].
Definition rows_CThostFtdcSyncingInvestorField_IdentifiedCardType : list row :=
  [ ("IdentifiedCardType", TChar, GChar) ].
Definition rows_CThostFtdcSyncingInvestorField_IdentifiedCardNo : list row :=
  [ ("IdentifiedCardNo", TChars 51, GString) ].
Definition rows_CThostFtdcSyncingInvestorField_IsActive : list row :=
  [ ("IsActive", TInt, GInt) ].
Definition rows_CThostFtdcSyncingInvestorField_Telephone : list row :=
  [ ("Telephone", TChars 41, GString) ].
Definition rows_CThostFtdcSyncingInvestorField_Address : list row :=
  [ ("Address", TChars 101, GString) ].
Definition rows_CThostFtdcSyncingInvestorField_OpenDate : list row :=
  [ ("OpenDate", TChars 9, GString) ].
Definition rows_CThostFtdcSyncingInvestorField_Mobile : list row :=
  [ ("Mobile", TChars 41, GString) ].
Definition rows_CThostFtdcSyncingInvestorField_CommModelID : list row :=
  [ ("CommModelID", TChars 13, GString) ].
Definition rows_CThostFtdcSyncingInvestorField_MarginModelID : list row :=
  [ ("MarginModelID", TChars 13, GString) ].
Definition rows_CThostFtdcSyncingInvestorField_IsOrderFreq : list row :=
  [ ("IsOrderFreq", TChar, GChar);
    ("IsOpenVolLimit", TChar, GChar) ].
Definition wrap_CThostFtdcSyncingInvestorField : wrapper :=
  mk_wrapper 431
  ([ ("InvestorID", TChars 13, GString) ]
   ++ rows_CThostFtdcSyncingInvestorField_BrokerID
   ++ rows_CThostFtdcSyncingInvestorField_InvestorGroupID
   ++ rows_CThostFtdcSyncingInvestorField_InvestorName
   ++ rows_CThostFtdcSyncingInvestorField_IdentifiedCardType
   ++ rows_CThostFtdcSyncingInvestorField_IdentifiedCardNo
   ++ rows_CThostFtdcSyncingInvestorField_IsActive
   ++ rows_CThostFtdcSyncingInvestorField_Telephone
   ++ rows_CThostFtdcSyncingInvestorField_Address
   ++ rows_CThostFtdcSyncingInvestorField_OpenDate
   ++ rows_CThostFtdcSyncingInvestorField_Mobile
   ++ rows_CThostFtdcSyncingInvestorField_CommModelID
   ++ rows_CThostFtdcSyncingInvestorField_MarginModelID
   ++ rows_CThostFtdcSyncingInvestorField_IsOrderFreq).

Definition rows_CThostFtdcSyncingTradingCodeField_BrokerID : list row :=
  [ ("BrokerID", TChars 11, GString) ].
Definition rows_CThostFtdcSyncingTradingCodeField_ExchangeID : list row :=
  [ ("ExchangeID", TChars 9, GString) ].
Definition rows_CThostFtdcSyncingTradingCodeField_ClientID : list row :=
  [ ("ClientID", TChars 11, GString) ].
Definition rows_CThostFtdcSyncingTradingCodeField_IsActive : list row :=
  [ ("IsActive", TInt, GInt);
    ("ClientIDType", TChar, GChar) ].
Definition wrap_CThostFtdcSyncingTradingCodeField : wrapper :=
  mk_wrapper 435
  ([ ("InvestorID", TChars 13, GString) ]
   ++ rows_CThostFtdcSyncingTradingCodeField_BrokerID
   ++ rows_CThostFtdcSyncingTradingCodeField_ExchangeID
   ++ rows_CThostFtdcSyncingTradingCodeField_ClientID
   ++ rows_CThostFtdcSyncingTradingCodeField_IsActive).

Definition rows_CThostFtdcSyncingInvestorGroupField_InvestorGroupID : list row :=
  [ ("InvestorGroupID", TChars 13, GString) ].
Definition rows_CThostFtdcSyncingInvestorGroupField_InvestorGroupName : list row :=
  [ ("InvestorGroupName", TChars 41, GString) ].
Definition wrap_CThostFtdcSyncingInvestorGroupField : wrapper :=
  mk_wrapper 432
  ([ ("BrokerID", TChars 11, GString) ]
   ++ rows_CThostFtdcSyncingInvestorGroupField_InvestorGroupID
   ++ rows_CThostFtdcSyncingInvestorGroupField_InvestorGroupName).

Definition rows_CThostFtdcSyncingTradingAccountField_AccountID : list row :=
  [ ("AccountID", TChars 13, GString) ].
Definition rows_CThostFtdcSyncingTradingAccountField_PreMortgage : list row :=
  [ ("PreMortgage", TDouble, GDouble);
    ("PreCredit", TDouble, GDouble) ].
Definition rows_CThostFtdcSyncingTradingAccountField_PreDeposit : list row :=
  [ ("PreDeposit", TDouble, GDouble);
    ("PreBalance", TDouble, GDouble) ].
Definition rows_CThostFtdcSyncingTradingAccountField_PreMargin : list row :=
  [ ("PreMargin", TDouble, GDouble);
    ("InterestBase", TDouble, GDouble) ].
Definition rows_CThostFtdcSyncingTradingAccountField_Interest : list row :=
  [ ("Interest", TDouble, GDouble);
    ("Deposit", TDouble, GDouble) ].
Definition rows_CThostFtdcSyncingTradingAccountField_Withdraw : list row :=
  [ ("Withdraw", TDouble, GDouble);
    ("FrozenMargin", TDouble, GDouble) ].
Definition rows_CThostFtdcSyncingTradingAccountField_FrozenCash : list row :=
  [ ("FrozenCash", TDouble, GDouble);
    ("FrozenCommission", TDouble, GDouble) ].
Definition rows_CThostFtdcSyncingTradingAccountField_CurrMargin : list row :=
  [ ("CurrMargin", TDouble, GDouble);
    ("CashIn", TDouble, GDouble) ].
Definition rows_CThostFtdcSyncingTradingAccountField_Commission : list row :=
  [ ("Commission", TDouble, GDouble);
    ("CloseProfit", TDouble, GDouble) ].
Definition rows_CThostFtdcSyncingTradingAccountField_PositionProfit : list row :=
  [ ("PositionProfit", TDouble, GDouble);
    ("Balance", TDouble, GDouble) ].
Definition rows_CThostFtdcSyncingTradingAccountField_Available : list row :=
  [ ("Available", TDouble, GDouble);
    ("WithdrawQuota", TDouble, GDouble) ].
Definition rows_CThostFtdcSyncingTradingAccountField_Reserve : list row :=
  [ ("Reserve", TDouble, GDouble) ].
Definition rows_CThostFtdcSyncingTradingAccountField_TradingDay : list row :=
  [ ("TradingDay", TChars 9, GString) ].
Definition rows_CThostFtdcSyncingTradingAccountField_SettlementID : list row :=
  [ ("SettlementID", TInt, GInt);
    ("Credit", TDouble, GDouble) ].
Definition rows_CThostFtdcSyncingTradingAccountField_Mortgage : list row :=
  [ ("Mortgage", TDouble, GDouble);
    ("ExchangeMargin", TDouble, GDouble) ].
Definition rows_CThostFtdcSyncingTradingAccountField_DeliveryMargin : list row :=
  [ ("DeliveryMargin", TDouble, GDouble);
    ("ExchangeDeliveryMargin", TDouble, GDouble) ].
Definition rows_CThostFtdcSyncingTradingAccountField_ReserveBalance : list row :=
  [ ("ReserveBalance", TDouble, GDouble) ].
Definition rows_CThostFtdcSyncingTradingAccountField_CurrencyID : list row :=
  [ ("CurrencyID", TChars 4, GString) ].
Definition rows_CThostFtdcSyncingTradingAccountField_PreFundMortgageIn : list row :=
  [ ("PreFundMortgageIn", TDouble, GDouble);
    ("PreFundMortgageOut", TDouble, GDouble) ].
Definition rows_CThostFtdcSyncingTradingAccountField_FundMortgageIn : list row :=
  [ ("FundMortgageIn", TDouble, GDouble);
    ("FundMortgageOut", TDouble, GDouble) ].
Definition rows_CThostFtdcSyncingTradingAccountField_FundMortgageAvailable : list row :=
  [ ("FundMortgageAvailable", TDouble, GDouble);
    ("MortgageableFund", TDouble, GDouble) ].
Definition rows_CThostFtdcSyncingTradingAccountField_SpecProductMargin : list row :=
  [ ("SpecProductMargin", TDouble, GDouble);
    ("SpecProductFrozenMargin", TDouble, GDouble) ].
Definition rows_CThostFtdcSyncingTradingAccountField_SpecProductCommission : list row :=
  [ ("SpecProductCommission", TDouble, GDouble);
    ("SpecProductFrozenCommission", TDouble, GDouble) ].
Definition rows_CThostFtdcSyncingTradingAccountField_SpecProductPositionProfit : list row :=
  [ ("SpecProductPositionProfit", TDouble, GDouble);
    ("SpecProductCloseProfit", TDouble, GDouble) ].
Definition rows_CThostFtdcSyncingTradingAccountField_SpecProductPositionProfitByAlg : list row :=
  [ ("SpecProductPositionProfitByAlg", TDouble, GDouble);
    ("SpecProductExchangeMargin", TDouble, GDouble) ].
Definition rows_CThostFtdcSyncingTradingAccountField_FrozenSwap : list row :=
  [ ("FrozenSwap", TDouble, GDouble);
    ("RemainSwap", TDouble, GDouble) ].
Definition wrap_CThostFtdcSyncingTradingAccountField : wrapper :=
  mk_wrapper 434
  ([ ("BrokerID", TChars 11, GString) ]
   ++ rows_CThostFtdcSyncingTradingAccountField_AccountID
   ++ rows_CThostFtdcSyncingTradingAccountField_PreMortgage
   ++ rows_CThostFtdcSyncingTradingAccountField_PreDeposit
   ++ rows_CThostFtdcSyncingTradingAccountField_PreMargin
   ++ rows_CThostFtdcSyncingTradingAccountField_Interest
   ++ rows_CThostFtdcSyncingTradingAccountField_Withdraw
   ++ rows_CThostFtdcSyncingTradingAccountField_FrozenCash
   ++ rows_CThostFtdcSyncingTradingAccountField_CurrMargin
   ++ rows_CThostFtdcSyncingTradingAccountField_Commission
   ++ rows_CThostFtdcSyncingTradingAccountField_PositionProfit
   ++ rows_CThostFtdcSyncingTradingAccountField_Available
   ++ rows_CThostFtdcSyncingTradingAccountField_Reserve
   ++ rows_CThostFtdcSyncingTradingAccountField_TradingDay
   ++ rows_CThostFtdcSyncingTradingAccountField_SettlementID
   ++ rows_CThostFtdcSyncingTradingAccountField_Mortgage
   ++ rows_CThostFtdcSyncingTradingAccountField_DeliveryMargin
   ++ rows_CThostFtdcSyncingTradingAccountField_ReserveBalance
   ++ rows_CThostFtdcSyncingTradingAccountField_CurrencyID
   ++ rows_CThostFtdcSyncingTradingAccountField_PreFundMortgageIn
   ++ rows_CThostFtdcSyncingTradingAccountField_FundMortgageIn
   ++ rows_CThostFtdcSyncingTradingAccountField_FundMortgageAvailable
   ++ rows_CThostFtdcSyncingTradingAccountField_SpecProductMargin
   ++ rows_CThostFtdcSyncingTradingAccountField_SpecProductCommission
   ++ rows_CThostFtdcSyncingTradingAccountField_SpecProductPositionProfit
   ++ rows_CThostFtdcSyncingTradingAccountField_SpecProductPositionProfitByAlg
   ++ rows_CThostFtdcSyncingTradingAccountField_FrozenSwap).

Definition rows_CThostFtdcSyncingInvestorPositionField_BrokerID : list row :=
  [ ("BrokerID", TChars 11, GString) ].
Definition rows_CThostFtdcSyncingInvestorPositionField_InvestorID : list row :=
  [ ("InvestorID", TChars 13, GString) ].
Definition rows_CThostFtdcSyncingInvestorPositionField_PosiDirection : list row :=
  [ ("PosiDirection", TChar, GChar);
    ("HedgeFlag", TChar, GChar) ].
Definition rows_CThostFtdcSyncingInvestorPositionField_PositionDate : list row :=
  [ ("PositionDate", TChar, GChar);
    ("YdPosition", TInt, GInt) ].
Definition rows_CThostFtdcSyncingInvestorPositionField_Position : list row :=
  [ ("Position", TInt, GInt);
    ("LongFrozen", TInt, GInt) ].
Definition rows_CThostFtdcSyncingInvestorPositionField_ShortFrozen : list row :=
  [ ("ShortFrozen", TInt, GInt);
    ("LongFrozenAmount", TDouble, GDouble) ].
Definition rows_CThostFtdcSyncingInvestorPositionField_ShortFrozenAmount : list row :=
  [ ("ShortFrozenAmount", TDouble, GDouble);
    ("OpenVolume", TInt, GInt) ].
Definition rows_CThostFtdcSyncingInvestorPositionField_CloseVolume : list row :=
  [ ("CloseVolume", TInt, GInt);
    ("OpenAmount", TDouble, GDouble) ].
Definition rows_CThostFtdcSyncingInvestorPositionField_CloseAmount : list row :=
  [ ("CloseAmount", TDouble, GDouble);
    ("PositionCost", TDouble, GDouble) ].
Definition rows_CThostFtdcSyncingInvestorPositionField_PreMargin : list row :=
  [ ("PreMargin", TDouble, GDouble);
    ("UseMargin", TDouble, GDouble) ].
Definition rows_CThostFtdcSyncingInvestorPositionField_FrozenMargin : list row :=
  [ ("FrozenMargin", TDouble, GDouble);
    ("FrozenCash", TDouble, GDouble) ].
Definition rows_CThostFtdcSyncingInvestorPositionField_FrozenCommission : list row :=
  [ ("FrozenCommission", TDouble, GDouble);
    ("CashIn", TDouble, GDouble) ].
Definition rows_CThostFtdcSyncingInvestorPositionField_Commission : list row :=
  [ ("Commission", TDouble, GDouble);
    ("CloseProfit", TDouble, GDouble) ].
Definition rows_CThostFtdcSyncingInvestorPositionField_PositionProfit : list row :=
  [ ("PositionProfit", TDouble, GDouble);
    ("PreSettlementPrice", TDouble, GDouble) ].
Definition rows_CThostFtdcSyncingInvestorPositionField_SettlementPrice : list row :=
  [ ("SettlementPrice", TDouble, GDouble) ].
Definition rows_CThostFtdcSyncingInvestorPositionField_TradingDay : list row :=
  [ ("TradingDay", TChars 9, GString) ].
Definition rows_CThostFtdcSyncingInvestorPositionField_SettlementID : list row :=
  [ ("SettlementID", TInt, GInt);
    ("OpenCost", TDouble, GDouble) ].
Definition rows_CThostFtdcSyncingInvestorPositionField_ExchangeMargin : list row :=
  [ ("ExchangeMargin", TDouble, GDouble);
    ("CombPosition", TInt, GInt) ].
Definition rows_CThostFtdcSyncingInvestorPositionField_CombLongFrozen : list row :=
  [ ("CombLongFrozen", TInt, GInt);
    ("CombShortFrozen", TInt, GInt) ].
Definition rows_CThostFtdcSyncingInvestorPositionField_CloseProfitByDate : list row :=
  [ ("CloseProfitByDate", TDouble, GDouble);
    ("CloseProfitByTrade", TDouble, GDouble) ].
Definition rows_CThostFtdcSyncingInvestorPositionField_TodayPosition : list row :=
  [ ("TodayPosition", TInt, GInt);
    ("MarginRateByMoney", TDouble, GDouble) ].
Definition rows_CThostFtdcSyncingInvestorPositionField_MarginRateByVolume : list row :=
  [ ("MarginRateByVolume", TDouble, GDouble);
    ("StrikeFrozen", TInt, GInt) ].
Definition rows_CThostFtdcSyncingInvestorPositionField_StrikeFrozenAmount : list row :=
  [ ("StrikeFrozenAmount", TDouble, GDouble);
    ("AbandonFrozen", TInt, GInt) ].
Definition rows_CThostFtdcSyncingInvestorPositionField_ExchangeID : list row :=
  [ ("ExchangeID", TChars 9, GString) ].
Definition rows_CThostFtdcSyncingInvestorPositionField_YdStrikeFrozen : list row :=
  [ ("YdStrikeFrozen", TInt, GInt) ].
Definition rows_CThostFtdcSyncingInvestorPositionField_InvestUnitID : list row :=
  [ ("InvestUnitID", TChars 17, GString) ].
Definition rows_CThostFtdcSyncingInvestorPositionField_PositionCostOffset : list row :=
  [ ("PositionCostOffset", TDouble, GDouble);
    ("TasPosition", TInt, GInt) ].
Definition rows_CThostFtdcSyncingInvestorPositionField_TasPositionCost : list row :=
  [ ("TasPositionCost", TDouble, GDouble) ].
Definition rows_CThostFtdcSyncingInvestorPositionField_InstrumentID : list row :=
  [ ("InstrumentID", TChars 81, GString) ].
Definition wrap_CThostFtdcSyncingInvestorPositionField : wrapper :=
  mk_wrapper 433
  ([ ("reserve1", TChars 31, GString) ]
   ++ rows_CThostFtdcSyncingInvestorPositionField_BrokerID
   ++ rows_CThostFtdcSyncingInvestorPositionField_InvestorID
   ++ rows_CThostFtdcSyncingInvestorPositionField_PosiDirection
   ++ rows_CThostFtdcSyncingInvestorPositionField_PositionDate
   ++ rows_CThostFtdcSyncingInvestorPositionField_Position
   ++ rows_CThostFtdcSyncingInvestorPositionField_ShortFrozen
   ++ rows_CThostFtdcSyncingInvestorPositionField_ShortFrozenAmount
   ++ rows_CThostFtdcSyncingInvestorPositionField_CloseVolume
   ++ rows_CThostFtdcSyncingInvestorPositionField_CloseAmount
   ++ rows_CThostFtdcSyncingInvestorPositionField_PreMargin
   ++ rows_CThostFtdcSyncingInvestorPositionField_FrozenMargin
   ++ rows_CThostFtdcSyncingInvestorPositionField_FrozenCommission
   ++ rows_CThostFtdcSyncingInvestorPositionField_Commission
   ++ rows_CThostFtdcSyncingInvestorPositionField_PositionProfit
   ++ rows_CThostFtdcSyncingInvestorPositionField_SettlementPrice
   ++ rows_CThostFtdcSyncingInvestorPositionField_TradingDay
   ++ rows_CThostFtdcSyncingInvestorPositionField_SettlementID
   ++ rows_CThostFtdcSyncingInvestorPositionField_ExchangeMargin
   ++ rows_CThostFtdcSyncingInvestorPositionField_CombLongFrozen
   ++ rows_CThostFtdcSyncingInvestorPositionField_CloseProfitByDate
   ++ rows_CThostFtdcSyncingInvestorPositionField_TodayPosition
   ++ rows_CThostFtdcSyncingInvestorPositionField_MarginRateByVolume
   ++ rows_CThostFtdcSyncingInvestorPositionField_StrikeFrozenAmount
   ++ rows_CThostFtdcSyncingInvestorPositionField_ExchangeID
   ++ rows_CThostFtdcSyncingInvestorPositionField_YdStrikeFrozen
   ++ rows_CThostFtdcSyncingInvestorPositionField_InvestUnitID
   ++ rows_CThostFtdcSyncingInvestorPositionField_PositionCostOffset
   ++ rows_CThostFtdcSyncingInvestorPositionField_TasPositionCost
   ++ rows_CThostFtdcSyncingInvestorPositionField_InstrumentID).

Definition rows_CThostFtdcSyncingInstrumentMarginRateField_InvestorRange : list row :=
  [ ("InvestorRange", TChar, GChar) ].
Definition rows_CThostFtdcSyncingInstrumentMarginRateField_BrokerID : list row :=
  [ ("BrokerID", TChars 11, GString) ].
Definition rows_CThostFtdcSyncingInstrumentMarginRateField_InvestorID : list row :=
  [ ("InvestorID", TChars 13, GString) ].
Definition rows_CThostFtdcSyncingInstrumentMarginRateField_HedgeFlag : list row :=
  [ ("HedgeFlag", TChar, GChar);
    ("LongMarginRatioByMoney", TDouble, GDouble) ].
Definition rows_CThostFtdcSyncingInstrumentMarginRateField_LongMarginRatioByVolume : list row :=
  [ ("LongMarginRatioByVolume", TDouble, GDouble);
    ("ShortMarginRatioByMoney", TDouble, GDouble) ].
Definition rows_CThostFtdcSyncingInstrumentMarginRateField_ShortMarginRatioByVolume : list row :=
  [ ("ShortMarginRatioByVolume", TDouble, GDouble);
    ("IsRelative", TInt, GInt) ].
Definition rows_CThostFtdcSyncingInstrumentMarginRateField_InstrumentID : list row :=
  [ ("InstrumentID", TChars 81, GString) ].
Definition wrap_CThostFtdcSyncingInstrumentMarginRateField : wrapper :=
  mk_wrapper 429
  ([ ("reserve1", TChars 31, GString) ]
   ++ rows_CThostFtdcSyncingInstrumentMarginRateField_InvestorRange
   ++ rows_CThostFtdcSyncingInstrumentMarginRateField_BrokerID
   ++ rows_CThostFtdcSyncingInstrumentMarginRateField_InvestorID
   ++ rows_CThostFtdcSyncingInstrumentMarginRateField_HedgeFlag
   ++ rows_CThostFtdcSyncingInstrumentMarginRateField_LongMarginRatioByVolume
   ++ rows_CThostFtdcSyncingInstrumentMarginRateField_ShortMarginRatioByVolume
   ++ rows_CThostFtdcSyncingInstrumentMarginRateField_InstrumentID).

Definition rows_CThostFtdcSyncingInstrumentCommissionRateField_InvestorRange : list row :=
  [ ("InvestorRange", TChar, GChar) ].
Definition rows_CThostFtdcSyncingInstrumentCommissionRateField_BrokerID : list row :=
  [ ("BrokerID", TChars 11, GString) ].
Definition rows_CThostFtdcSyncingInstrumentCommissionRateField_InvestorID : list row :=
  [ ("InvestorID", TChars 13, GString) ].
Definition rows_CThostFtdcSyncingInstrumentCommissionRateField_OpenRatioByMoney : list row :=
  [ ("OpenRatioByMoney", TDouble, GDouble);
    ("OpenRatioByVolume", TDouble, GDouble) ].
Definition rows_CThostFtdcSyncingInstrumentCommissionRateField_CloseRatioByMoney : list row :=
  [ ("CloseRatioByMoney", TDouble, GDouble);
    ("CloseRatioByVolume", TDouble, GDouble) ].
Definition rows_CThostFtdcSyncingInstrumentCommissionRateField_CloseTodayRatioByMoney : list row :=
  [ ("CloseTodayRatioByMoney", TDouble, GDouble);
    ("CloseTodayRatioByVolume", TDouble, GDouble) ].
Definition rows_CThostFtdcSyncingInstrumentCommissionRateField_InstrumentID : list row :=
  [ ("InstrumentID", TChars 81, GString) ].
Definition wrap_CThostFtdcSyncingInstrumentCommissionRateField : wrapper :=
  mk_wrapper 428
  ([ ("reserve1", TChars 31, GString) ]
   ++ rows_CThostFtdcSyncingInstrumentCommissionRateField_InvestorRange
   ++ rows_CThostFtdcSyncingInstrumentCommissionRateField_BrokerID
   ++ rows_CThostFtdcSyncingInstrumentCommissionRateField_InvestorID
   ++ rows_CThostFtdcSyncingInstrumentCommissionRateField_OpenRatioByMoney
   ++ rows_CThostFtdcSyncingInstrumentCommissionRateField_CloseRatioByMoney
   ++ rows_CThostFtdcSyncingInstrumentCommissionRateField_CloseTodayRatioByMoney
   ++ rows_CThostFtdcSyncingInstrumentCommissionRateField_InstrumentID).

Definition rows_CThostFtdcSyncingInstrumentTradingRightField_InvestorRange : list row :=
  [ ("InvestorRange", TChar, GChar) ].
Definition rows_CThostFtdcSyncingInstrumentTradingRightField_BrokerID : list row :=
  [ ("BrokerID", TChars 11, GString) ].
Definition rows_CThostFtdcSyncingInstrumentTradingRightField_InvestorID : list row :=
  [ ("InvestorID", TChars 13, GString) ].
Definition rows_CThostFtdcSyncingInstrumentTradingRightField_TradingRight : list row :=
  [ ("TradingRight", TChar, GChar) ].
Definition rows_CThostFtdcSyncingInstrumentTradingRightField_InstrumentID : list row :=
  [ ("InstrumentID", TChars 81, GString) ].
Definition wrap_CThostFtdcSyncingInstrumentTradingRightField : wrapper :=
  mk_wrapper 430
  ([ ("reserve1", TChars 31, GString) ]
   ++ rows_CThostFtdcSyncingInstrumentTradingRightField_InvestorRange
   ++ rows_CThostFtdcSyncingInstrumentTradingRightField_BrokerID
   ++ rows_CThostFtdcSyncingInstrumentTradingRightField_InvestorID
   ++ rows_CThostFtdcSyncingInstrumentTradingRightField_TradingRight
   ++ rows_CThostFtdcSyncingInstrumentTradingRightField_InstrumentID).

Definition rows_CThostFtdcQryOrderField_InvestorID : list row :=
  [ ("InvestorID", TChars 13, GString) ].
Definition rows_CThostFtdcQryOrderField_reserve1 : list row :=
  [ ("reserve1", TChars 31, GString) ].
Definition rows_CThostFtdcQryOrderField_ExchangeID : list row :=
  [ ("ExchangeID", TChars 9, GString) ].
Definition rows_CThostFtdcQryOrderField_OrderSysID : list row :=
  [ ("OrderSysID", TChars 21, GString) ].
Definition rows_CThostFtdcQryOrderField_InsertTimeStart : list row :=
  [ ("InsertTimeStart", TChars 9, GString) ].
Definition rows_CThostFtdcQryOrderField_InsertTimeEnd : list row :=
  [ ("InsertTimeEnd", TChars 9, GString) ].
Definition rows_CThostFtdcQryOrderField_InvestUnitID : list row :=
  [ ("InvestUnitID", TChars 17, GString) ].
Definition rows_CThostFtdcQryOrderField_InstrumentID : list row :=
  [ ("InstrumentID", TChars 81, GString) ].
Definition wrap_CThostFtdcQryOrderField : wrapper :=
  mk_wrapper 254
  ([ ("BrokerID", TChars 11, GString) ]
   ++ rows_CThostFtdcQryOrderField_InvestorID
   ++ rows_CThostFtdcQryOrderField_reserve1
   ++ rows_CThostFtdcQryOrderField_ExchangeID
   ++ rows_CThostFtdcQryOrderField_OrderSysID
   ++ rows_CThostFtdcQryOrderField_InsertTimeStart
   ++ rows_CThostFtdcQryOrderField_InsertTimeEnd
   ++ rows_CThostFtdcQryOrderField_InvestUnitID
   ++ rows_CThostFtdcQryOrderField_InstrumentID).

Definition rows_CThostFtdcQryTradeField_InvestorID : list row :=
  [ ("InvestorID", TChars 13, GString) ].
Definition rows_CThostFtdcQryTradeField_reserve1 : list row :=
  [ ("reserve1", TChars 31, GString) ].
Definition rows_CThostFtdcQryTradeField_ExchangeID : list row :=
  [ ("ExchangeID", TChars 9, GString) ].
Definition rows_CThostFtdcQryTradeField_TradeID : list row :=
  [ ("TradeID", TChars 21, GString) ].
Definition rows_CThostFtdcQryTradeField_TradeTimeStart : list row :=
  [ ("TradeTimeStart", TChars 9, GString) ].
Definition rows_CThostFtdcQryTradeField_TradeTimeEnd : list row :=
  [ ("TradeTimeEnd", TChars 9, GString) ].
Definition rows_CThostFtdcQryTradeField_InvestUnitID : list row :=
  [ ("InvestUnitID", TChars 17, GString) ].
Definition rows_CThostFtdcQryTradeField_InstrumentID : list row :=
  [ ("InstrumentID", TChars 81, GString) ].
Definition wrap_CThostFtdcQryTradeField : wrapper :=
  mk_wrapper 296
  ([ ("BrokerID", TChars 11, GString) ]
   ++ rows_CThostFtdcQryTradeField_InvestorID
   ++ rows_CThostFtdcQryTradeField_reserve1
   ++ rows_CThostFtdcQryTradeField_ExchangeID
   ++ rows_CThostFtdcQryTradeField_TradeID
   ++ rows_CThostFtdcQryTradeField_TradeTimeStart
   ++ rows_CThostFtdcQryTradeField_TradeTimeEnd
   ++ rows_CThostFtdcQryTradeField_InvestUnitID
   ++ rows_CThostFtdcQryTradeField_InstrumentID).

Definition rows_CThostFtdcQryInvestorPositionField_InvestorID : list row :=
  [ ("InvestorID", TChars 13, GString) ].
Definition rows_CThostFtdcQryInvestorPositionField_reserve1 : list row :=
  [ ("reserve1", TChars 31, GString) ].
Definition rows_CThostFtdcQryInvestorPositionField_ExchangeID : list row :=
  [ ("ExchangeID", TChars 9, GString) ].
Definition rows_CThostFtdcQryInvestorPositionField_InvestUnitID : list row :=
  [ ("InvestUnitID", TChars 17, GString) ].
Definition rows_CThostFtdcQryInvestorPositionField_InstrumentID : list row :=
  [ ("InstrumentID", TChars 81, GString) ].
Definition wrap_CThostFtdcQryInvestorPositionField : wrapper :=
  mk_wrapper 232
  ([ ("BrokerID", TChars 11, GString) ]
   ++ rows_CThostFtdcQryInvestorPositionField_InvestorID
   ++ rows_CThostFtdcQryInvestorPositionField_reserve1
   ++ rows_CThostFtdcQryInvestorPositionField_ExchangeID
   ++ rows_CThostFtdcQryInvestorPositionField_InvestUnitID
   ++ rows_CThostFtdcQryInvestorPositionField_InstrumentID).

Definition rows_CThostFtdcQryTradingAccountField_InvestorID : list row :=
  [ ("InvestorID", TChars 13, GString) ].
Definition rows_CThostFtdcQryTradingAccountField_CurrencyID : list row :=
  [ ("CurrencyID", TChars 4, GString) ].
Definition rows_CThostFtdcQryTradingAccountField_BizType : list row :=
  [ ("BizType", TChar, GChar) ].
Definition rows_CThostFtdcQryTradingAccountField_AccountID : list row :=
  [ ("AccountID", TChars 13, GString) ].
Definition wrap_CThostFtdcQryTradingAccountField : wrapper :=
  mk_wrapper 300
  ([ ("BrokerID", TChars 11, GString) ]
   ++ rows_CThostFtdcQryTradingAccountField_InvestorID
   ++ rows_CThostFtdcQryTradingAccountField_CurrencyID
   ++ rows_CThostFtdcQryTradingAccountField_BizType
   ++ rows_CThostFtdcQryTradingAccountField_AccountID).

Definition rows_CThostFtdcQryInvestorField_InvestorID : list row :=
  [ ("InvestorID", TChars 13, GString) ].
Definition wrap_CThostFtdcQryInvestorField : wrapper :=
  mk_wrapper 226
  ([ ("BrokerID", TChars 11, GString) ]
   ++ rows_CThostFtdcQryInvestorField_InvestorID).

Definition rows_CThostFtdcQryTradingCodeField_InvestorID : list row :=
  [ ("InvestorID", TChars 13, GString) ].
Definition rows_CThostFtdcQryTradingCodeField_ExchangeID : list row :=
  [ ("ExchangeID", TChars 9, GString) ].
Definition rows_CThostFtdcQryTradingCodeField_ClientID : list row :=
  [ ("ClientID", TChars 11, GString) ].
Definition rows_CThostFtdcQryTradingCodeField_ClientIDType : list row :=
  [ ("ClientIDType", TChar, GChar) ].
Definition rows_CThostFtdcQryTradingCodeField_InvestUnitID : list row :=
  [ ("InvestUnitID", TChars 17, GString) ].
Definition wrap_CThostFtdcQryTradingCodeField : wrapper :=
  mk_wrapper 301
  ([ ("BrokerID", TChars 11, GString) ]
   ++ rows_CThostFtdcQryTradingCodeField_InvestorID
   ++ rows_CThostFtdcQryTradingCodeField_ExchangeID
   ++ rows_CThostFtdcQryTradingCodeField_ClientID
   ++ rows_CThostFtdcQryTradingCodeField_ClientIDType
   ++ rows_CThostFtdcQryTradingCodeField_InvestUnitID).

Definition wrap_CThostFtdcQryInvestorGroupField : wrapper :=
  mk_wrapper 227
  [ ("BrokerID", TChars 11, GString) ].

Definition rows_CThostFtdcQryInstrumentMarginRateField_InvestorID : list row :=
  [ ("InvestorID", TChars 13, GString) ].
Definition rows_CThostFtdcQryInstrumentMarginRateField_reserve1 : list row :=
  [ ("reserve1", TChars 31, GString) ].
Definition rows_CThostFtdcQryInstrumentMarginRateField_HedgeFlag : list row :=
  [ ("HedgeFlag", TChar, GChar) ].
Definition rows_CThostFtdcQryInstrumentMarginRateField_ExchangeID : list row :=
  [ ("ExchangeID", TChars 9, GString) ].
Definition rows_CThostFtdcQryInstrumentMarginRateField_InvestUnitID : list row :=
  [ ("InvestUnitID", TChars 17, GString) ].
Definition rows_CThostFtdcQryInstrumentMarginRateField_InstrumentID : list row :=
  [ ("InstrumentID", TChars 81, GString) ].
Definition wrap_CThostFtdcQryInstrumentMarginRateField : wrapper :=
  mk_wrapper 219
  ([ ("BrokerID", TChars 11, GString) ]
   ++ rows_CThostFtdcQryInstrumentMarginRateField_InvestorID
   ++ rows_CThostFtdcQryInstrumentMarginRateField_reserve1
   ++ rows_CThostFtdcQryInstrumentMarginRateField_HedgeFlag
   ++ rows_CThostFtdcQryInstrumentMarginRateField_ExchangeID
   ++ rows_CThostFtdcQryInstrumentMarginRateField_InvestUnitID
   ++ rows_CThostFtdcQryInstrumentMarginRateField_InstrumentID).

Definition rows_CThostFtdcQryInstrumentCommissionRateField_InvestorID : list row :=
  [ ("InvestorID", TChars 13, GString) ].
Definition rows_CThostFtdcQryInstrumentCommissionRateField_reserve1 : list row :=
  [ ("reserve1", TChars 31, GString) ].
Definition rows_CThostFtdcQryInstrumentCommissionRateField_ExchangeID : list row :=
  [ ("ExchangeID", TChars 9, GString) ].
Definition rows_CThostFtdcQryInstrumentCommissionRateField_InvestUnitID : list row :=
  [ ("InvestUnitID", TChars 17, GString) ].
Definition rows_CThostFtdcQryInstrumentCommissionRateField_InstrumentID : list row :=
  [ ("InstrumentID", TChars 81, GString) ].
Definition wrap_CThostFtdcQryInstrumentCommissionRateField : wrapper :=
  mk_wrapper 217
  ([ ("BrokerID", TChars 11, GString) ]
   ++ rows_CThostFtdcQryInstrumentCommissionRateField_InvestorID
   ++ rows_CThostFtdcQryInstrumentCommissionRateField_reserve1
   ++ rows_CThostFtdcQryInstrumentCommissionRateField_ExchangeID
   ++ rows_CThostFtdcQryInstrumentCommissionRateField_InvestUnitID
   ++ rows_CThostFtdcQryInstrumentCommissionRateField_InstrumentID).

Definition rows_CThostFtdcQryInstrumentTradingRightField_InvestorID : list row :=
  [ ("InvestorID", TChars 13, GString) ].
Definition rows_CThostFtdcQryInstrumentTradingRightField_reserve1 : list row :=
  [ ("reserve1", TChars 31, GString) ].
Definition rows_CThostFtdcQryInstrumentTradingRightField_InstrumentID : list row :=
  [ ("InstrumentID", TChars 81, GString) ].
Definition wrap_CThostFtdcQryInstrumentTradingRightField : wrapper :=
  mk_wrapper 222
  ([ ("BrokerID", TChars 11, GString) ]
   ++ rows_CThostFtdcQryInstrumentTradingRightField_InvestorID
   ++ rows_CThostFtdcQryInstrumentTradingRightField_reserve1
   ++ rows_CThostFtdcQryInstrumentTradingRightField_InstrumentID).

Definition wrap_CThostFtdcQryBrokerField : wrapper :=
  mk_wrapper 174
  [ ("BrokerID", TChars 11, GString) ].

Definition rows_CThostFtdcQryTraderField_ParticipantID : list row :=
  [ ("ParticipantID", TChars 11, GString) ].
Definition rows_CThostFtdcQryTraderField_TraderID : list row :=
  [ ("TraderID", TChars 21, GString) ].
Definition wrap_CThostFtdcQryTraderField : wrapper :=
  mk_wrapper 298
  ([ ("ExchangeID", TChars 9, GString) ]
   ++ rows_CThostFtdcQryTraderField_ParticipantID
   ++ rows_CThostFtdcQryTraderField_TraderID).

Definition wrap_CThostFtdcQrySuperUserFunctionField : wrapper :=
  mk_wrapper 290
  [ ("UserID", TChars 16, GString) ].

Definition rows_CThostFtdcQryUserSessionField_BrokerID : list row :=
  [ ("BrokerID", TChars 11, GString) ].
Definition rows_CThostFtdcQryUserSessionField_UserID : list row :=
  [ ("UserID", TChars 16, GString) ].
Definition wrap_CThostFtdcQryUserSessionField : wrapper :=
  mk_wrapper 306
  ([ ("FrontID", TInt, GInt);
    ("SessionID", TInt, GInt) ]
   ++ rows_CThostFtdcQryUserSessionField_BrokerID
   ++ rows_CThostFtdcQryUserSessionField_UserID).

Definition rows_CThostFtdcQryPartBrokerField_BrokerID : list row :=
  [ ("BrokerID", TChars 11, GString) ].
Definition rows_CThostFtdcQryPartBrokerField_ParticipantID : list row :=
  [ ("ParticipantID", TChars 11, GString) ].
Definition wrap_CThostFtdcQryPartBrokerField : wrapper :=
  mk_wrapper 257
  ([ ("ExchangeID", TChars 9, GString) ]
   ++ rows_CThostFtdcQryPartBrokerField_BrokerID
   ++ rows_CThostFtdcQryPartBrokerField_ParticipantID).

Definition wrap_CThostFtdcQryFrontStatusField : wrapper :=
  mk_wrapper 214
  [ ("FrontID", TInt, GInt) ].

Definition rows_CThostFtdcQryExchangeOrderField_ClientID : list row :=
  [ ("ClientID", TChars 11, GString) ].
Definition rows_CThostFtdcQryExchangeOrderField_reserve1 : list row :=
  [ ("reserve1", TChars 31, GString) ].
Definition rows_CThostFtdcQryExchangeOrderField_ExchangeID : list row :=
  [ ("ExchangeID", TChars 9, GString) ].
Definition rows_CThostFtdcQryExchangeOrderField_TraderID : list row :=
  [ ("TraderID", TChars 21, GString) ].
Definition rows_CThostFtdcQryExchangeOrderField_ExchangeInstID : list row :=
  [ ("ExchangeInstID", TChars 81, GString) ].
Definition wrap_CThostFtdcQryExchangeOrderField : wrapper :=
  mk_wrapper 205
  ([ ("ParticipantID", TChars 11, GString) ]
   ++ rows_CThostFtdcQryExchangeOrderField_ClientID
   ++ rows_CThostFtdcQryExchangeOrderField_reserve1
   ++ rows_CThostFtdcQryExchangeOrderField_ExchangeID
   ++ rows_CThostFtdcQryExchangeOrderField_TraderID
   ++ rows_CThostFtdcQryExchangeOrderField_ExchangeInstID).

Definition rows_CThostFtdcQryOrderActionField_InvestorID : list row :=
  [ ("InvestorID", TChars 13, GString) ].
Definition rows_CThostFtdcQryOrderActionField_ExchangeID : list row :=
  [ ("ExchangeID", TChars 9, GString) ].
Definition wrap_CThostFtdcQryOrderActionField : wrapper :=
  mk_wrapper 253
  ([ ("BrokerID", TChars 11, GString) ]
   ++ rows_CThostFtdcQryOrderActionField_InvestorID
   ++ rows_CThostFtdcQryOrderActionField_ExchangeID).

Definition rows_CThostFtdcQryExchangeOrderActionField_ClientID : list row :=
  [ ("ClientID", TChars 11, GString) ].
Definition rows_CThostFtdcQryExchangeOrderActionField_ExchangeID : list row :=
  [ ("ExchangeID", TChars 9, GString) ].
Definition rows_CThostFtdcQryExchangeOrderActionField_TraderID : list row :=
  [ ("TraderID", TChars 21, GString) ].
Definition wrap_CThostFtdcQryExchangeOrderActionField : wrapper :=
  mk_wrapper 204
  ([ ("ParticipantID", TChars 11, GString) ]
   ++ rows_CThostFtdcQryExchangeOrderActionField_ClientID
   ++ rows_CThostFtdcQryExchangeOrderActionField_ExchangeID
   ++ rows_CThostFtdcQryExchangeOrderActionField_TraderID).

Definition wrap_CThostFtdcQrySuperUserField : wrapper :=
  mk_wrapper 289
  [ ("UserID", TChars 16, GString) ].

Definition wrap_CThostFtdcQryExchangeField : wrapper :=
  mk_wrapper 200
  [ ("ExchangeID", TChars 9, GString) ].

Definition rows_CThostFtdcQryProductField_ProductClass : list row :=
  [ ("ProductClass", TChar, GChar) ].
Definition rows_CThostFtdcQryProductField_ExchangeID : list row :=
  [ ("ExchangeID", TChars 9, GString) ].
Definition rows_CThostFtdcQryProductField_ProductID : list row :=
  [ ("ProductID", TChars 81, GString) ].
Definition wrap_CThostFtdcQryProductField : wrapper :=
  mk_wrapper 259
  ([ ("reserve1", TChars 31, GString) ]
   ++ rows_CThostFtdcQryProductField_ProductClass
   ++ rows_CThostFtdcQryProductField_ExchangeID
   ++ rows_CThostFtdcQryProductField_ProductID).

Definition rows_CThostFtdcQryInstrumentField_ExchangeID : list row :=
  [ ("ExchangeID", TChars 9, GString) ].
Definition rows_CThostFtdcQryInstrumentField_reserve2 : list row :=
  [ ("reserve2", TChars 31, GString) ].
Definition rows_CThostFtdcQryInstrumentField_reserve3 : list row :=
  [ ("reserve3", TChars 31, GString) ].
Definition rows_CThostFtdcQryInstrumentField_InstrumentID : list row :=
  [ ("InstrumentID", TChars 81, GString) ].
Definition rows_CThostFtdcQryInstrumentField_ExchangeInstID : list row :=
  [ ("ExchangeInstID", TChars 81, GString) ].
Definition rows_CThostFtdcQryInstrumentField_ProductID : list row :=
  [ ("ProductID", TChars 81, GString) ].
Definition wrap_CThostFtdcQryInstrumentField : wrapper :=
  mk_wrapper 218
  ([ ("reserve1", TChars 31, GString) ]
   ++ rows_CThostFtdcQryInstrumentField_ExchangeID
   ++ rows_CThostFtdcQryInstrumentField_reserve2
   ++ rows_CThostFtdcQryInstrumentField_reserve3
   ++ rows_CThostFtdcQryInstrumentField_InstrumentID
   ++ rows_CThostFtdcQryInstrumentField_ExchangeInstID
   ++ rows_CThostFtdcQryInstrumentField_ProductID).

Definition rows_CThostFtdcQryDepthMarketDataField_ExchangeID : list row :=
  [ ("ExchangeID", TChars 9, GString) ].
Definition rows_CThostFtdcQryDepthMarketDataField_InstrumentID : list row :=
  [ ("InstrumentID", TChars 81, GString) ].
Definition rows_CThostFtdcQryDepthMarketDataField_ProductClass : list row :=
  [ ("ProductClass", TChar, GChar) ].
Definition wrap_CThostFtdcQryDepthMarketDataField : wrapper :=
  mk_wrapper 191
  ([ ("reserve1", TChars 31, GString) ]
   ++ rows_CThostFtdcQryDepthMarketDataField_ExchangeID
   ++ rows_CThostFtdcQryDepthMarketDataField_InstrumentID
   ++ rows_CThostFtdcQryDepthMarketDataField_ProductClass).

Definition rows_CThostFtdcQryBrokerUserField_UserID : list row :=
  [ ("UserID", TChars 16, GString) ].
Definition wrap_CThostFtdcQryBrokerUserField : wrapper :=
  mk_wrapper 178
  ([ ("BrokerID", TChars 11, GString) ]
   ++ rows_CThostFtdcQryBrokerUserField_UserID).

Definition rows_CThostFtdcQryBrokerUserFunctionField_UserID : list row :=
  [ ("UserID", TChars 16, GString) ].
Definition wrap_CThostFtdcQryBrokerUserFunctionField : wrapper :=
  mk_wrapper 179
  ([ ("BrokerID", TChars 11, GString) ]
   ++ rows_CThostFtdcQryBrokerUserFunctionField_UserID).

Definition rows_CThostFtdcQryTraderOfferField_ParticipantID : list row :=
  [ ("ParticipantID", TChars 11, GString) ].
Definition rows_CThostFtdcQryTraderOfferField_TraderID : list row :=
  [ ("TraderID", TChars 21, GString) ].
Definition wrap_CThostFtdcQryTraderOfferField : wrapper :=
  mk_wrapper 299
  ([ ("ExchangeID", TChars 9, GString) ]
   ++ rows_CThostFtdcQryTraderOfferField_ParticipantID
   ++ rows_CThostFtdcQryTraderOfferField_TraderID).

Definition rows_CThostFtdcQrySyncDepositField_DepositSeqNo : list row :=
  [ ("DepositSeqNo", TChars 15, GString) ].
Definition wrap_CThostFtdcQrySyncDepositField : wrapper :=
  mk_wrapper 292
  ([ ("BrokerID", TChars 11, GString) ]
   ++ rows_CThostFtdcQrySyncDepositField_DepositSeqNo).

Definition rows_CThostFtdcQrySettlementInfoField_InvestorID : list row :=
  [ ("InvestorID", TChars 13, GString) ].
Definition rows_CThostFtdcQrySettlementInfoField_TradingDay : list row :=
  [ ("TradingDay", TChars 9, GString) ].
Definition rows_CThostFtdcQrySettlementInfoField_AccountID : list row :=
  [ ("AccountID", TChars 13, GString) ].
Definition rows_CThostFtdcQrySettlementInfoField_CurrencyID : list row :=
  [ ("CurrencyID", TChars 4, GString) ].
Definition wrap_CThostFtdcQrySettlementInfoField : wrapper :=
  mk_wrapper 287
  ([ ("BrokerID", TChars 11, GString) ]
   ++ rows_CThostFtdcQrySettlementInfoField_InvestorID
   ++ rows_CThostFtdcQrySettlementInfoField_TradingDay
   ++ rows_CThostFtdcQrySettlementInfoField_AccountID
   ++ rows_CThostFtdcQrySettlementInfoField_CurrencyID).

Definition rows_CThostFtdcQryExchangeMarginRateField_reserve1 : list row :=
  [ ("reserve1", TChars 31, GString) ].
Definition rows_CThostFtdcQryExchangeMarginRateField_HedgeFlag : list row :=
  [ ("HedgeFlag", TChar, GChar) ].
Definition rows_CThostFtdcQryExchangeMarginRateField_ExchangeID : list row :=
  [ ("ExchangeID", TChars 9, GString) ].
Definition rows_CThostFtdcQryExchangeMarginRateField_InstrumentID : list row :=
  [ ("InstrumentID", TChars 81, GString) ].
Definition wrap_CThostFtdcQryExchangeMarginRateField : wrapper :=
  mk_wrapper 203
  ([ ("BrokerID", TChars 11, GString) ]
   ++ rows_CThostFtdcQryExchangeMarginRateField_reserve1
   ++ rows_CThostFtdcQryExchangeMarginRateField_HedgeFlag
   ++ rows_CThostFtdcQryExchangeMarginRateField_ExchangeID
   ++ rows_CThostFtdcQryExchangeMarginRateField_InstrumentID).

Definition rows_CThostFtdcQryExchangeMarginRateAdjustField_reserve1 : list row :=
  [ ("reserve1", TChars 31, GString) ].
Definition rows_CThostFtdcQryExchangeMarginRateAdjustField_HedgeFlag : list row :=
  [ ("HedgeFlag", TChar, GChar) ].
Definition rows_CThostFtdcQryExchangeMarginRateAdjustField_InstrumentID : list row :=
  [ ("InstrumentID", TChars 81, GString) ].
Definition wrap_CThostFtdcQryExchangeMarginRateAdjustField : wrapper :=
  mk_wrapper 202
  ([ ("BrokerID", TChars 11, GString) ]
   ++ rows_CThostFtdcQryExchangeMarginRateAdjustField_reserve1
   ++ rows_CThostFtdcQryExchangeMarginRateAdjustField_HedgeFlag
   ++ rows_CThostFtdcQryExchangeMarginRateAdjustField_InstrumentID).

Definition rows_CThostFtdcQryExchangeRateField_FromCurrencyID : list row :=
  [ ("FromCurrencyID", TChars 4, GString) ].
Definition rows_CThostFtdcQryExchangeRateField_ToCurrencyID : list row :=
  [ ("ToCurrencyID", TChars 4, GString) ].
Definition wrap_CThostFtdcQryExchangeRateField : wrapper :=
  mk_wrapper 208
  ([ ("BrokerID", TChars 11, GString) ]
   ++ rows_CThostFtdcQryExchangeRateField_FromCurrencyID
   ++ rows_CThostFtdcQryExchangeRateField_ToCurrencyID).

Definition rows_CThostFtdcQrySyncFundMortgageField_MortgageSeqNo : list row :=
  [ ("MortgageSeqNo", TChars 15, GString) ].
Definition wrap_CThostFtdcQrySyncFundMortgageField : wrapper :=
  mk_wrapper 293
  ([ ("BrokerID", TChars 11, GString) ]
   ++ rows_CThostFtdcQrySyncFundMortgageField_MortgageSeqNo).

Definition rows_CThostFtdcQryHisOrderField_InvestorID : list row :=
  [ ("InvestorID", TChars 13, GString) ].
Definition rows_CThostFtdcQryHisOrderField_reserve1 : list row :=
  [ ("reserve1", TChars 31, GString) ].
Definition rows_CThostFtdcQryHisOrderField_ExchangeID : list row :=
  [ ("ExchangeID", TChars 9, GString) ].
Definition rows_CThostFtdcQryHisOrderField_OrderSysID : list row :=
  [ ("OrderSysID", TChars 21, GString) ].
Definition rows_CThostFtdcQryHisOrderField_InsertTimeStart : list row :=
  [ ("InsertTimeStart", TChars 9, GString) ].
Definition rows_CThostFtdcQryHisOrderField_InsertTimeEnd : list row :=
  [ ("InsertTimeEnd", TChars 9, GString) ].
Definition rows_CThostFtdcQryHisOrderField_TradingDay : list row :=
  [ ("TradingDay", TChars 9, GString) ].
Definition rows_CThostFtdcQryHisOrderField_SettlementID : list row :=
  [ ("SettlementID", TInt, GInt) ].
Definition rows_CThostFtdcQryHisOrderField_InstrumentID : list row :=
  [ ("InstrumentID", TChars 81, GString) ].
Definition wrap_CThostFtdcQryHisOrderField : wrapper :=
  mk_wrapper 215
  ([ ("BrokerID", TChars 11, GString) ]
   ++ rows_CThostFtdcQryHisOrderField_InvestorID
   ++ rows_CThostFtdcQryHisOrderField_reserve1
   ++ rows_CThostFtdcQryHisOrderField_ExchangeID
   ++ rows_CThostFtdcQryHisOrderField_OrderSysID
   ++ rows_CThostFtdcQryHisOrderField_InsertTimeStart
   ++ rows_CThostFtdcQryHisOrderField_InsertTimeEnd
   ++ rows_CThostFtdcQryHisOrderField_TradingDay
   ++ rows_CThostFtdcQryHisOrderField_SettlementID
   ++ rows_CThostFtdcQryHisOrderField_InstrumentID).

Definition rows_CThostFtdcOptionInstrMiniMarginField_InvestorRange : list row :=
  [ ("InvestorRange", TChar, GChar) ].
Definition rows_CThostFtdcOptionInstrMiniMarginField_BrokerID : list row :=
  [ ("BrokerID", TChars 11, GString) ].
Definition rows_CThostFtdcOptionInstrMiniMarginField_InvestorID : list row :=
  [ ("InvestorID", TChars 13, GString) ].
Definition rows_CThostFtdcOptionInstrMiniMarginField_MinMargin : list row :=
  [ ("MinMargin", TDouble, GDouble);
    ("ValueMethod", TChar, GChar) ].
Definition rows_CThostFtdcOptionInstrMiniMarginField_IsRelative : list row :=
  [ ("IsRelative", TInt, GInt) ].
Definition rows_CThostFtdcOptionInstrMiniMarginField_InstrumentID : list row :=
  [ ("InstrumentID", TChars 81, GString) ].
Definition wrap_CThostFtdcOptionInstrMiniMarginField : wrapper :=
  mk_wrapper 156
  ([ ("reserve1", TChars 31, GString) ]
   ++ rows_CThostFtdcOptionInstrMiniMarginField_InvestorRange
   ++ rows_CThostFtdcOptionInstrMiniMarginField_BrokerID
   ++ rows_CThostFtdcOptionInstrMiniMarginField_InvestorID
   ++ rows_CThostFtdcOptionInstrMiniMarginField_MinMargin
   ++ rows_CThostFtdcOptionInstrMiniMarginField_IsRelative
   ++ rows_CThostFtdcOptionInstrMiniMarginField_InstrumentID).

Definition rows_CThostFtdcOptionInstrMarginAdjustField_InvestorRange : list row :=
  [ ("InvestorRange", TChar, GChar) ].
Definition rows_CThostFtdcOptionInstrMarginAdjustField_BrokerID : list row :=
  [ ("BrokerID", TChars 11, GString) ].
Definition rows_CThostFtdcOptionInstrMarginAdjustField_InvestorID : list row :=
  [ ("InvestorID", TChars 13, GString) ].
Definition rows_CThostFtdcOptionInstrMarginAdjustField_SShortMarginRatioByMoney : list row :=
  [ ("SShortMarginRatioByMoney", TDouble, GDouble);
    ("SShortMarginRatioByVolume", TDouble, GDouble) ].
Definition rows_CThostFtdcOptionInstrMarginAdjustField_HShortMarginRatioByMoney : list row :=
  [ ("HShortMarginRatioByMoney", TDouble, GDouble);
    ("HShortMarginRatioByVolume", TDouble, GDouble) ].
Definition rows_CThostFtdcOptionInstrMarginAdjustField_AShortMarginRatioByMoney : list row :=
  [ ("AShortMarginRatioByMoney", TDouble, GDouble);
    ("AShortMarginRatioByVolume", TDouble, GDouble) ].
Definition rows_CThostFtdcOptionInstrMarginAdjustField_IsRelative : list row :=
  [ ("IsRelative", TInt, GInt);
    ("MShortMarginRatioByMoney", TDouble, GDouble) ].
Definition rows_CThostFtdcOptionInstrMarginAdjustField_MShortMarginRatioByVolume : list row :=
  [ ("MShortMarginRatioByVolume", TDouble, GDouble) ].
Definition rows_CThostFtdcOptionInstrMarginAdjustField_InstrumentID : list row :=
  [ ("InstrumentID", TChars 81, GString) ].
Definition wrap_CThostFtdcOptionInstrMarginAdjustField : wrapper :=
  mk_wrapper 155
  ([ ("reserve1", TChars 31, GString) ]
   ++ rows_CThostFtdcOptionInstrMarginAdjustField_InvestorRange
   ++ rows_CThostFtdcOptionInstrMarginAdjustField_BrokerID
   ++ rows_CThostFtdcOptionInstrMarginAdjustField_InvestorID
   ++ rows_CThostFtdcOptionInstrMarginAdjustField_SShortMarginRatioByMoney
   ++ rows_CThostFtdcOptionInstrMarginAdjustField_HShortMarginRatioByMoney
   ++ rows_CThostFtdcOptionInstrMarginAdjustField_AShortMarginRatioByMoney
   ++ rows_CThostFtdcOptionInstrMarginAdjustField_IsRelative
   ++ rows_CThostFtdcOptionInstrMarginAdjustField_MShortMarginRatioByVolume
   ++ rows_CThostFtdcOptionInstrMarginAdjustField_InstrumentID).

Definition rows_CThostFtdcOptionInstrCommRateField_InvestorRange : list row :=
  [ ("InvestorRange", TChar, GChar) ].
Definition rows_CThostFtdcOptionInstrCommRateField_BrokerID : list row :=
  [ ("BrokerID", TChars 11, GString) ].
Definition rows_CThostFtdcOptionInstrCommRateField_InvestorID : list row :=
  [ ("InvestorID", TChars 13, GString) ].
Definition rows_CThostFtdcOptionInstrCommRateField_OpenRatioByMoney : list row :=
  [ ("OpenRatioByMoney", TDouble, GDouble);
    ("OpenRatioByVolume", TDouble, GDouble) ].
Definition rows_CThostFtdcOptionInstrCommRateField_CloseRatioByMoney : list row :=
  [ ("CloseRatioByMoney", TDouble, GDouble);
    ("CloseRatioByVolume", TDouble, GDouble) ].
Definition rows_CThostFtdcOptionInstrCommRateField_CloseTodayRatioByMoney : list row :=
  [ ("CloseTodayRatioByMoney", TDouble, GDouble);
    ("CloseTodayRatioByVolume", TDouble, GDouble) ].
Definition rows_CThostFtdcOptionInstrCommRateField_StrikeRatioByMoney : list row :=
  [ ("StrikeRatioByMoney", TDouble, GDouble);
    ("StrikeRatioByVolume", TDouble, GDouble) ].
Definition rows_CThostFtdcOptionInstrCommRateField_ExchangeID : list row :=
  [ ("ExchangeID", TChars 9, GString) ].
Definition rows_CThostFtdcOptionInstrCommRateField_InvestUnitID : list row :=
  [ ("InvestUnitID", TChars 17, GString) ].
Definition rows_CThostFtdcOptionInstrCommRateField_InstrumentID : list row :=
  [ ("InstrumentID", TChars 81, GString) ].
Definition wrap_CThostFtdcOptionInstrCommRateField : wrapper :=
  mk_wrapper 153
  ([ ("reserve1", TChars 31, GString) ]
   ++ rows_CThostFtdcOptionInstrCommRateField_InvestorRange
   ++ rows_CThostFtdcOptionInstrCommRateField_BrokerID
   ++ rows_CThostFtdcOptionInstrCommRateField_InvestorID
   ++ rows_CThostFtdcOptionInstrCommRateField_OpenRatioByMoney
   ++ rows_CThostFtdcOptionInstrCommRateField_CloseRatioByMoney
   ++ rows_CThostFtdcOptionInstrCommRateField_CloseTodayRatioByMoney
   ++ rows_CThostFtdcOptionInstrCommRateField_StrikeRatioByMoney
   ++ rows_CThostFtdcOptionInstrCommRateField_ExchangeID
   ++ rows_CThostFtdcOptionInstrCommRateField_InvestUnitID
   ++ rows_CThostFtdcOptionInstrCommRateField_InstrumentID).

Definition rows_CThostFtdcOptionInstrTradeCostField_InvestorID : list row :=
  [ ("InvestorID", TChars 13, GString) ].
Definition rows_CThostFtdcOptionInstrTradeCostField_reserve1 : list row :=
  [ ("reserve1", TChars 31, GString) ].
Definition rows_CThostFtdcOptionInstrTradeCostField_HedgeFlag : list row :=
  [ ("HedgeFlag", TChar, GChar);
    ("FixedMargin", TDouble, GDouble) ].
Definition rows_CThostFtdcOptionInstrTradeCostField_MiniMargin : list row :=
  [ ("MiniMargin", TDouble, GDouble);
    ("Royalty", TDouble, GDouble) ].
Definition rows_CThostFtdcOptionInstrTradeCostField_ExchFixedMargin : list row :=
  [ ("ExchFixedMargin", TDouble, GDouble);
    ("ExchMiniMargin", TDouble, GDouble) ].
Definition rows_CThostFtdcOptionInstrTradeCostField_ExchangeID : list row :=
  [ ("ExchangeID", TChars 9, GString) ].
Definition rows_CThostFtdcOptionInstrTradeCostField_InvestUnitID : list row :=
  [ ("InvestUnitID", TChars 17, GString) ].
Definition rows_CThostFtdcOptionInstrTradeCostField_InstrumentID : list row :=
  [ ("InstrumentID", TChars 81, GString) ].
Definition wrap_CThostFtdcOptionInstrTradeCostField : wrapper :=
  mk_wrapper 157
  ([ ("BrokerID", TChars 11, GString) ]
   ++ rows_CThostFtdcOptionInstrTradeCostField_InvestorID
   ++ rows_CThostFtdcOptionInstrTradeCostField_reserve1
   ++ rows_CThostFtdcOptionInstrTradeCostField_HedgeFlag
   ++ rows_CThostFtdcOptionInstrTradeCostField_MiniMargin
   ++ rows_CThostFtdcOptionInstrTradeCostField_ExchFixedMargin
   ++ rows_CThostFtdcOptionInstrTradeCostField_ExchangeID
   ++ rows_CThostFtdcOptionInstrTradeCostField_InvestUnitID
   ++ rows_CThostFtdcOptionInstrTradeCostField_InstrumentID).

Definition rows_CThostFtdcQryOptionInstrTradeCostField_InvestorID : list row :=
  [ ("InvestorID", TChars 13, GString) ].
Definition rows_CThostFtdcQryOptionInstrTradeCostField_reserve1 : list row :=
  [ ("reserve1", TChars 31, GString) ].
Definition rows_CThostFtdcQryOptionInstrTradeCostField_HedgeFlag : list row :=
  [ ("HedgeFlag", TChar, GChar);
    ("InputPrice", TDouble, GDouble) ].
Definition rows_CThostFtdcQryOptionInstrTradeCostField_UnderlyingPrice : list row :=
  [ ("UnderlyingPrice", TDouble, GDouble) ].
Definition rows_CThostFtdcQryOptionInstrTradeCostField_ExchangeID : list row :=
  [ ("ExchangeID", TChars 9, GString) ].
Definition rows_CThostFtdcQryOptionInstrTradeCostField_InvestUnitID : list row :=
  [ ("InvestUnitID", TChars 17, GString) ].
Definition rows_CThostFtdcQryOptionInstrTradeCostField_InstrumentID : list row :=
  [ ("InstrumentID", TChars 81, GString) ].
Definition wrap_CThostFtdcQryOptionInstrTradeCostField : wrapper :=
  mk_wrapper 249
  ([ ("BrokerID", TChars 11, GString) ]
   ++ rows_CThostFtdcQryOptionInstrTradeCostField_InvestorID
   ++ rows_CThostFtdcQryOptionInstrTradeCostField_reserve1
   ++ rows_CThostFtdcQryOptionInstrTradeCostField_HedgeFlag
   ++ rows_CThostFtdcQryOptionInstrTradeCostField_UnderlyingPrice
   ++ rows_CThostFtdcQryOptionInstrTradeCostField_ExchangeID
   ++ rows_CThostFtdcQryOptionInstrTradeCostField_InvestUnitID
   ++ rows_CThostFtdcQryOptionInstrTradeCostField_InstrumentID).

Definition rows_CThostFtdcQryOptionInstrCommRateField_InvestorID : list row :=
  [ ("InvestorID", TChars 13, GString) ].
Definition rows_CThostFtdcQryOptionInstrCommRateField_reserve1 : list row :=
  [ ("reserve1", TChars 31, GString) ].
Definition rows_CThostFtdcQryOptionInstrCommRateField_ExchangeID : list row :=
  [ ("ExchangeID", TChars 9, GString) ].
Definition rows_CThostFtdcQryOptionInstrCommRateField_InvestUnitID : list row :=
  [ ("InvestUnitID", TChars 17, GString) ].
Definition rows_CThostFtdcQryOptionInstrCommRateField_InstrumentID : list row :=
  [ ("InstrumentID", TChars 81, GString) ].
Definition wrap_CThostFtdcQryOptionInstrCommRateField : wrapper :=
  mk_wrapper 248
  ([ ("BrokerID", TChars 11, GString) ]
   ++ rows_CThostFtdcQryOptionInstrCommRateField_InvestorID
   ++ rows_CThostFtdcQryOptionInstrCommRateField_reserve1
   ++ rows_CThostFtdcQryOptionInstrCommRateField_ExchangeID
   ++ rows_CThostFtdcQryOptionInstrCommRateField_InvestUnitID
   ++ rows_CThostFtdcQryOptionInstrCommRateField_InstrumentID).

Definition rows_CThostFtdcIndexPriceField_reserve1 : list row :=
  [ ("reserve1", TChars 31, GString) ].
Definition rows_CThostFtdcIndexPriceField_ClosePrice : list row :=
  [ ("ClosePrice", TDouble, GDouble) ].
Definition rows_CThostFtdcIndexPriceField_InstrumentID : list row :=
  [ ("InstrumentID", TChars 81, GString) ].
Definition wrap_CThostFtdcIndexPriceField : wrapper :=
  mk_wrapper 80
  ([ ("BrokerID", TChars 11, GString) ]
   ++ rows_CThostFtdcIndexPriceField_reserve1
   ++ rows_CThostFtdcIndexPriceField_ClosePrice
   ++ rows_CThostFtdcIndexPriceField_InstrumentID).

Definition rows_CThostFtdcInputExecOrderField_InvestorID : list row :=
  [ ("InvestorID", TChars 13, GString) ].
Definition rows_CThostFtdcInputExecOrderField_reserve1 : list row :=
  [ ("reserve1", TChars 31, GString) ].
Definition rows_CThostFtdcInputExecOrderField_ExecOrderRef : list row :=
  [ ("ExecOrderRef", TChars 13, GString) ].
Definition rows_CThostFtdcInputExecOrderField_UserID : list row :=
  [ ("UserID", TChars 16, GString) ].
Definition rows_CThostFtdcInputExecOrderField_Volume : list row :=
  [ ("Volume", TInt, GInt);
    ("RequestID", TInt, GInt) ].
Definition rows_CThostFtdcInputExecOrderField_BusinessUnit : list row :=
  [ ("BusinessUnit", TChars 21, GString) ].
Definition rows_CThostFtdcInputExecOrderField_OffsetFlag : list row :=
  [ ("OffsetFlag", TChar, GChar);
    ("HedgeFlag", TChar, GChar) ].
Definition rows_CThostFtdcInputExecOrderField_ActionType : list row :=
  [ ("ActionType", TChar, GChar);
    ("PosiDirection", TChar, GChar) ].
Definition rows_CThostFtdcInputExecOrderField_ReservePositionFlag : list row :=
  [ ("ReservePositionFlag", TChar, GChar);
    ("CloseFlag", TChar, GChar) ].
Definition rows_CThostFtdcInputExecOrderField_ExchangeID : list row :=
  [ ("ExchangeID", TChars 9, GString) ].
Definition rows_CThostFtdcInputExecOrderField_InvestUnitID : list row :=
  [ ("InvestUnitID", TChars 17, GString) ].
Definition rows_CThostFtdcInputExecOrderField_AccountID : list row :=
  [ ("AccountID", TChars 13, GString) ].
Definition rows_CThostFtdcInputExecOrderField_CurrencyID : list row :=
  [ ("CurrencyID", TChars 4, GString) ].
Definition rows_CThostFtdcInputExecOrderField_ClientID : list row :=
  [ ("ClientID", TChars 11, GString) ].
Definition rows_CThostFtdcInputExecOrderField_reserve2 : list row :=
  [ ("reserve2", TChars 16, GString) ].
Definition rows_CThostFtdcInputExecOrderField_MacAddress : list row :=
  [ ("MacAddress", TChars 21, GString) ].
Definition rows_CThostFtdcInputExecOrderField_InstrumentID : list row :=
  [ ("InstrumentID", TChars 81, GString) ].
Definition rows_CThostFtdcInputExecOrderField_IPAddress : list row :=
  [ ("IPAddress", TChars 33, GString) ].
Definition wrap_CThostFtdcInputExecOrderField : wrapper :=
  mk_wrapper 84
  ([ ("BrokerID", TChars 11, GString) ]
   ++ rows_CThostFtdcInputExecOrderField_InvestorID
   ++ rows_CThostFtdcInputExecOrderField_reserve1
   ++ rows_CThostFtdcInputExecOrderField_ExecOrderRef
   ++ rows_CThostFtdcInputExecOrderField_UserID
   ++ rows_CThostFtdcInputExecOrderField_Volume
   ++ rows_CThostFtdcInputExecOrderField_BusinessUnit
   ++ rows_CThostFtdcInputExecOrderField_OffsetFlag
   ++ rows_CThostFtdcInputExecOrderField_ActionType
   ++ rows_CThostFtdcInputExecOrderField_ReservePositionFlag
   ++ rows_CThostFtdcInputExecOrderField_ExchangeID
   ++ rows_CThostFtdcInputExecOrderField_InvestUnitID
   ++ rows_CThostFtdcInputExecOrderField_AccountID
   ++ rows_CThostFtdcInputExecOrderField_CurrencyID
   ++ rows_CThostFtdcInputExecOrderField_ClientID
   ++ rows_CThostFtdcInputExecOrderField_reserve2
   ++ rows_CThostFtdcInputExecOrderField_MacAddress
   ++ rows_CThostFtdcInputExecOrderField_InstrumentID
   ++ rows_CThostFtdcInputExecOrderField_IPAddress).

Definition rows_CThostFtdcInputExecOrderActionField_InvestorID : list row :=
  [ ("InvestorID", TChars 13, GString) ].
Definition rows_CThostFtdcInputExecOrderActionField_ExecOrderActionRef : list row :=
  [ ("ExecOrderActionRef", TInt, GInt) ].
Definition rows_CThostFtdcInputExecOrderActionField_ExecOrderRef : list row :=
  [ ("ExecOrderRef", TChars 13, GString) ].
Definition rows_CThostFtdcInputExecOrderActionField_RequestID : list row :=
  [ ("RequestID", TInt, GInt);
    ("FrontID", TInt, GInt) ].
Definition rows_CThostFtdcInputExecOrderActionField_SessionID : list row :=
  [ ("SessionID", TInt, GInt) ].
Definition rows_CThostFtdcInputExecOrderActionField_ExchangeID : list row :=
  [ ("ExchangeID", TChars 9, GString) ].
Definition rows_CThostFtdcInputExecOrderActionField_ExecOrderSysID : list row :=
  [ ("ExecOrderSysID", TChars 21, GString) ].
Definition rows_CThostFtdcInputExecOrderActionField_ActionFlag : list row :=
  [ ("ActionFlag", TChar, GChar) ].
Definition rows_CThostFtdcInputExecOrderActionField_UserID : list row :=
  [ ("UserID", TChars 16, GString) ].
Definition rows_CThostFtdcInputExecOrderActionField_reserve1 : list row :=
  [ ("reserve1", TChars 31, GString) ].
Definition rows_CThostFtdcInputExecOrderActionField_InvestUnitID : list row :=
  [ ("InvestUnitID", TChars 17, GString) ].
Definition rows_CThostFtdcInputExecOrderActionField_reserve2 : list row :=
  [ ("reserve2", TChars 16, GString) ].
Definition rows_CThostFtdcInputExecOrderActionField_MacAddress : list row :=
  [ ("MacAddress", TChars 21, GString) ].
Definition rows_CThostFtdcInputExecOrderActionField_InstrumentID : list row :=
  [ ("InstrumentID", TChars 81, GString) ].
Definition rows_CThostFtdcInputExecOrderActionField_IPAddress : list row :=
  [ ("IPAddress", TChars 33, GString) ].
Definition wrap_CThostFtdcInputExecOrderActionField : wrapper :=
  mk_wrapper 83
  ([ ("BrokerID", TChars 11, GString) ]
   ++ rows_CThostFtdcInputExecOrderActionField_InvestorID
   ++ rows_CThostFtdcInputExecOrderActionField_ExecOrderActionRef
   ++ rows_CThostFtdcInputExecOrderActionField_ExecOrderRef
   ++ rows_CThostFtdcInputExecOrderActionField_RequestID
   ++ rows_CThostFtdcInputExecOrderActionField_SessionID
   ++ rows_CThostFtdcInputExecOrderActionField_ExchangeID
   ++ rows_CThostFtdcInputExecOrderActionField_ExecOrderSysID
   ++ rows_CThostFtdcInputExecOrderActionField_ActionFlag
   ++ rows_CThostFtdcInputExecOrderActionField_UserID
   ++ rows_CThostFtdcInputExecOrderActionField_reserve1
   ++ rows_CThostFtdcInputExecOrderActionField_InvestUnitID
   ++ rows_CThostFtdcInputExecOrderActionField_reserve2
   ++ rows_CThostFtdcInputExecOrderActionField_MacAddress
   ++ rows_CThostFtdcInputExecOrderActionField_InstrumentID
   ++ rows_CThostFtdcInputExecOrderActionField_IPAddress).

Definition rows_CThostFtdcExecOrderField_InvestorID : list row :=
  [ ("InvestorID", TChars 13, GString) ].
Definition rows_CThostFtdcExecOrderField_reserve1 : list row :=
  [ ("reserve1", TChars 31, GString) ].
Definition rows_CThostFtdcExecOrderField_ExecOrderRef : list row :=
  [ ("ExecOrderRef", TChars 13, GString) ].
Definition rows_CThostFtdcExecOrderField_UserID : list row :=
  [ ("UserID", TChars 16, GString) ].
Definition rows_CThostFtdcExecOrderField_Volume : list row :=
  [ ("Volume", TInt, GInt);
    ("RequestID", TInt, GInt) ].
Definition rows_CThostFtdcExecOrderField_BusinessUnit : list row :=
  [ ("BusinessUnit", TChars 21, GString) ].
Definition rows_CThostFtdcExecOrderField_OffsetFlag : list row :=
  [ ("OffsetFlag", TChar, GChar);
    ("HedgeFlag", TChar, GChar) ].
Definition rows_CThostFtdcExecOrderField_ActionType : list row :=
  [ ("ActionType", TChar, GChar);
    ("PosiDirection", TChar, GChar) ].
Definition rows_CThostFtdcExecOrderField_ReservePositionFlag : list row :=
  [ ("ReservePositionFlag", TChar, GChar);
    ("CloseFlag", TChar, GChar) ].
Definition rows_CThostFtdcExecOrderField_ExecOrderLocalID : list row :=
  [ ("ExecOrderLocalID", TChars 13, GString) ].
Definition rows_CThostFtdcExecOrderField_ExchangeID : list row :=
  [ ("ExchangeID", TChars 9, GString) ].
Definition rows_CThostFtdcExecOrderField_ParticipantID : list row :=
  [ ("ParticipantID", TChars 11, GString) ].
Definition rows_CThostFtdcExecOrderField_ClientID : list row :=
  [ ("ClientID", TChars 11, GString) ].
Definition rows_CThostFtdcExecOrderField_reserve2 : list row :=
  [ ("reserve2", TChars 31, GString) ].
Definition rows_CThostFtdcExecOrderField_TraderID : list row :=
  [ ("TraderID", TChars 21, GString) ].
Definition rows_CThostFtdcExecOrderField_InstallID : list row :=
  [ ("InstallID", TInt, GInt);
    ("OrderSubmitStatus", TChar, GChar) ].
Definition rows_CThostFtdcExecOrderField_NotifySequence : list row :=
  [ ("NotifySequence", TInt, GInt) ].
Definition rows_CThostFtdcExecOrderField_TradingDay : list row :=
  [ ("TradingDay", TChars 9, GString) ].
Definition rows_CThostFtdcExecOrderField_SettlementID : list row :=
  [ ("SettlementID", TInt, GInt) ].
Definition rows_CThostFtdcExecOrderField_ExecOrderSysID : list row :=
  [ ("ExecOrderSysID", TChars 21, GString) ].
Definition rows_CThostFtdcExecOrderField_InsertDate : list row :=
  [ ("InsertDate", TChars 9, GString) ].
Definition rows_CThostFtdcExecOrderField_InsertTime : list row :=
  [ ("InsertTime", TChars 9, GString) ].
Definition rows_CThostFtdcExecOrderField_CancelTime : list row :=
  [ ("CancelTime", TChars 9, GString) ].
Definition rows_CThostFtdcExecOrderField_ExecResult : list row :=
  [ ("ExecResult", TChar, GChar) ].
Definition rows_CThostFtdcExecOrderField_ClearingPartID : list row :=
  [ ("ClearingPartID", TChars 11, GString) ].
Definition rows_CThostFtdcExecOrderField_SequenceNo : list row :=
  [ ("SequenceNo", TInt, GInt);
    ("FrontID", TInt, GInt) ].
Definition rows_CThostFtdcExecOrderField_SessionID : list row :=
  [ ("SessionID", TInt, GInt) ].
Definition rows_CThostFtdcExecOrderField_UserProductInfo : list row :=
  [ ("UserProductInfo", TChars 11, GString) ].
Definition rows_CThostFtdcExecOrderField_StatusMsg : list row :=
  [ ("StatusMsg", TChars 81, GString) ].
Definition rows_CThostFtdcExecOrderField_ActiveUserID : list row :=
  [ ("ActiveUserID", TChars 16, GString) ].
Definition rows_CThostFtdcExecOrderField_BrokerExecOrderSeq : list row :=
  [ ("BrokerExecOrderSeq", TInt, GInt) ].
Definition rows_CThostFtdcExecOrderField_BranchID : list row :=
  [ ("BranchID", TChars 9, GString) ].
Definition rows_CThostFtdcExecOrderField_InvestUnitID : list row :=
  [ ("InvestUnitID", TChars 17, GString) ].
Definition rows_CThostFtdcExecOrderField_AccountID : list row :=
  [ ("AccountID", TChars 13, GString) ].
Definition rows_CThostFtdcExecOrderField_CurrencyID : list row :=
  [ ("CurrencyID", TChars 4, GString) ].
Definition rows_CThostFtdcExecOrderField_reserve3 : list row :=
  [ ("reserve3", TChars 16, GString) ].
Definition rows_CThostFtdcExecOrderField_MacAddress : list row :=
  [ ("MacAddress", TChars 21, GString) ].
Definition rows_CThostFtdcExecOrderField_InstrumentID : list row :=
  [ ("InstrumentID", TChars 81, GString) ].
Definition rows_CThostFtdcExecOrderField_ExchangeInstID : list row :=
  [ ("ExchangeInstID", TChars 81, GString) ].
Definition rows_CThostFtdcExecOrderField_IPAddress : list row :=
  [ ("IPAddress", TChars 33, GString) ].
Definition wrap_CThostFtdcExecOrderField : wrapper :=
  mk_wrapper 68
  ([ ("BrokerID", TChars 11, GString) ]
   ++ rows_CThostFtdcExecOrderField_InvestorID
   ++ rows_CThostFtdcExecOrderField_reserve1
   ++ rows_CThostFtdcExecOrderField_ExecOrderRef
   ++ rows_CThostFtdcExecOrderField_UserID
   ++ rows_CThostFtdcExecOrderField_Volume
   ++ rows_CThostFtdcExecOrderField_BusinessUnit
   ++ rows_CThostFtdcExecOrderField_OffsetFlag
   ++ rows_CThostFtdcExecOrderField_ActionType
   ++ rows_CThostFtdcExecOrderField_ReservePositionFlag
   ++ rows_CThostFtdcExecOrderField_ExecOrderLocalID
   ++ rows_CThostFtdcExecOrderField_ExchangeID
   ++ rows_CThostFtdcExecOrderField_ParticipantID
   ++ rows_CThostFtdcExecOrderField_ClientID
   ++ rows_CThostFtdcExecOrderField_reserve2
   ++ rows_CThostFtdcExecOrderField_TraderID
   ++ rows_CThostFtdcExecOrderField_InstallID
   ++ rows_CThostFtdcExecOrderField_NotifySequence
   ++ rows_CThostFtdcExecOrderField_TradingDay
   ++ rows_CThostFtdcExecOrderField_SettlementID
   ++ rows_CThostFtdcExecOrderField_ExecOrderSysID
   ++ rows_CThostFtdcExecOrderField_InsertDate
   ++ rows_CThostFtdcExecOrderField_InsertTime
   ++ rows_CThostFtdcExecOrderField_CancelTime
   ++ rows_CThostFtdcExecOrderField_ExecResult
   ++ rows_CThostFtdcExecOrderField_ClearingPartID
   ++ rows_CThostFtdcExecOrderField_SequenceNo
   ++ rows_CThostFtdcExecOrderField_SessionID
   ++ rows_CThostFtdcExecOrderField_UserProductInfo
   ++ rows_CThostFtdcExecOrderField_StatusMsg
   ++ rows_CThostFtdcExecOrderField_ActiveUserID
   ++ rows_CThostFtdcExecOrderField_BrokerExecOrderSeq
   ++ rows_CThostFtdcExecOrderField_BranchID
   ++ rows_CThostFtdcExecOrderField_InvestUnitID
   ++ rows_CThostFtdcExecOrderField_AccountID
   ++ rows_CThostFtdcExecOrderField_CurrencyID
   ++ rows_CThostFtdcExecOrderField_reserve3
   ++ rows_CThostFtdcExecOrderField_MacAddress
   ++ rows_CThostFtdcExecOrderField_InstrumentID
   ++ rows_CThostFtdcExecOrderField_ExchangeInstID
   ++ rows_CThostFtdcExecOrderField_IPAddress).

Definition rows_CThostFtdcExecOrderActionField_InvestorID : list row :=
  [ ("InvestorID", TChars 13, GString) ].
Definition rows_CThostFtdcExecOrderActionField_ExecOrderActionRef : list row :=
  [ ("ExecOrderActionRef", TInt, GInt) ].
Definition rows_CThostFtdcExecOrderActionField_ExecOrderRef : list row :=
  [ ("ExecOrderRef", TChars 13, GString) ].
Definition rows_CThostFtdcExecOrderActionField_RequestID : list row :=
  [ ("RequestID", TInt, GInt);
    ("FrontID", TInt, GInt) ].
Definition rows_CThostFtdcExecOrderActionField_SessionID : list row :=
  [ ("SessionID", TInt, GInt) ].
Definition rows_CThostFtdcExecOrderActionField_ExchangeID : list row :=
  [ ("ExchangeID", TChars 9, GString) ].
Definition rows_CThostFtdcExecOrderActionField_ExecOrderSysID : list row :=
  [ ("ExecOrderSysID", TChars 21, GString) ].
Definition rows_CThostFtdcExecOrderActionField_ActionFlag : list row :=
  [ ("ActionFlag", TChar, GChar) ].
Definition rows_CThostFtdcExecOrderActionField_ActionDate : list row :=
  [ ("ActionDate", TChars 9, GString) ].
Definition rows_CThostFtdcExecOrderActionField_ActionTime : list row :=
  [ ("ActionTime", TChars 9, GString) ].
Definition rows_CThostFtdcExecOrderActionField_TraderID : list row :=
  [ ("TraderID", TChars 21, GString) ].
Definition rows_CThostFtdcExecOrderActionField_InstallID : list row :=
  [ ("InstallID", TInt, GInt) ].
Definition rows_CThostFtdcExecOrderActionField_ExecOrderLocalID : list row :=
  [ ("ExecOrderLocalID", TChars 13, GString) ].
Definition rows_CThostFtdcExecOrderActionField_ActionLocalID : list row :=
  [ ("ActionLocalID", TChars 13, GString) ].
Definition rows_CThostFtdcExecOrderActionField_ParticipantID : list row :=
  [ ("ParticipantID", TChars 11, GString) ].
Definition rows_CThostFtdcExecOrderActionField_ClientID : list row :=
  [ ("ClientID", TChars 11, GString) ].
Definition rows_CThostFtdcExecOrderActionField_BusinessUnit : list row :=
  [ ("BusinessUnit", TChars 21, GString) ].
Definition rows_CThostFtdcExecOrderActionField_OrderActionStatus : list row :=
  [ ("OrderActionStatus", TChar, GChar) ].
Definition rows_CThostFtdcExecOrderActionField_UserID : list row :=
  [ ("UserID", TChars 16, GString) ].
Definition rows_CThostFtdcExecOrderActionField_ActionType : list row :=
  [ ("ActionType", TChar, GChar) ].
Definition rows_CThostFtdcExecOrderActionField_StatusMsg : list row :=
  [ ("StatusMsg", TChars 81, GString) ].
Definition rows_CThostFtdcExecOrderActionField_reserve1 : list row :=
  [ ("reserve1", TChars 31, GString) ].
Definition rows_CThostFtdcExecOrderActionField_BranchID : list row :=
  [ ("BranchID", TChars 9, GString) ].
Definition rows_CThostFtdcExecOrderActionField_InvestUnitID : list row :=
  [ ("InvestUnitID", TChars 17, GString) ].
Definition rows_CThostFtdcExecOrderActionField_reserve2 : list row :=
  [ ("reserve2", TChars 16, GString) ].
Definition rows_CThostFtdcExecOrderActionField_MacAddress : list row :=
  [ ("MacAddress", TChars 21, GString) ].
Definition rows_CThostFtdcExecOrderActionField_InstrumentID : list row :=
  [ ("InstrumentID", TChars 81, GString) ].
Definition rows_CThostFtdcExecOrderActionField_IPAddress : list row :=
  [ ("IPAddress", TChars 33, GString) ].
Definition wrap_CThostFtdcExecOrderActionField : wrapper :=
  mk_wrapper 67
  ([ ("BrokerID", TChars 11, GString) ]
   ++ rows_CThostFtdcExecOrderActionField_InvestorID
   ++ rows_CThostFtdcExecOrderActionField_ExecOrderActionRef
   ++ rows_CThostFtdcExecOrderActionField_ExecOrderRef
   ++ rows_CThostFtdcExecOrderActionField_RequestID
   ++ rows_CThostFtdcExecOrderActionField_SessionID
   ++ rows_CThostFtdcExecOrderActionField_ExchangeID
   ++ rows_CThostFtdcExecOrderActionField_ExecOrderSysID
   ++ rows_CThostFtdcExecOrderActionField_ActionFlag
   ++ rows_CThostFtdcExecOrderActionField_ActionDate
   ++ rows_CThostFtdcExecOrderActionField_ActionTime
   ++ rows_CThostFtdcExecOrderActionField_TraderID
   ++ rows_CThostFtdcExecOrderActionField_InstallID
   ++ rows_CThostFtdcExecOrderActionField_ExecOrderLocalID
   ++ rows_CThostFtdcExecOrderActionField_ActionLocalID
   ++ rows_CThostFtdcExecOrderActionField_ParticipantID
   ++ rows_CThostFtdcExecOrderActionField_ClientID
   ++ rows_CThostFtdcExecOrderActionField_BusinessUnit
   ++ rows_CThostFtdcExecOrderActionField_OrderActionStatus
   ++ rows_CThostFtdcExecOrderActionField_UserID
   ++ rows_CThostFtdcExecOrderActionField_ActionType
   ++ rows_CThostFtdcExecOrderActionField_StatusMsg
   ++ rows_CThostFtdcExecOrderActionField_reserve1
   ++ rows_CThostFtdcExecOrderActionField_BranchID
   ++ rows_CThostFtdcExecOrderActionField_InvestUnitID
   ++ rows_CThostFtdcExecOrderActionField_reserve2
   ++ rows_CThostFtdcExecOrderActionField_MacAddress
   ++ rows_CThostFtdcExecOrderActionField_InstrumentID
   ++ rows_CThostFtdcExecOrderActionField_IPAddress).

Definition rows_CThostFtdcQryExecOrderField_InvestorID : list row :=
  [ ("InvestorID", TChars 13, GString) ].
Definition rows_CThostFtdcQryExecOrderField_reserve1 : list row :=
  [ ("reserve1", TChars 31, GString) ].
Definition rows_CThostFtdcQryExecOrderField_ExchangeID : list row :=
  [ ("ExchangeID", TChars 9, GString) ].
Definition rows_CThostFtdcQryExecOrderField_ExecOrderSysID : list row :=
  [ ("ExecOrderSysID", TChars 21, GString) ].
Definition rows_CThostFtdcQryExecOrderField_InsertTimeStart : list row :=
  [ ("InsertTimeStart", TChars 9, GString) ].
Definition rows_CThostFtdcQryExecOrderField_InsertTimeEnd : list row :=
  [ ("InsertTimeEnd", TChars 9, GString) ].
Definition rows_CThostFtdcQryExecOrderField_InstrumentID : list row :=
  [ ("InstrumentID", TChars 81, GString) ].
Definition wrap_CThostFtdcQryExecOrderField : wrapper :=
  mk_wrapper 211
  ([ ("BrokerID", TChars 11, GString) ]
   ++ rows_CThostFtdcQryExecOrderField_InvestorID
   ++ rows_CThostFtdcQryExecOrderField_reserve1
   ++ rows_CThostFtdcQryExecOrderField_ExchangeID
   ++ rows_CThostFtdcQryExecOrderField_ExecOrderSysID
   ++ rows_CThostFtdcQryExecOrderField_InsertTimeStart
   ++ rows_CThostFtdcQryExecOrderField_InsertTimeEnd
   ++ rows_CThostFtdcQryExecOrderField_InstrumentID).

Definition rows_CThostFtdcExchangeExecOrderField_BusinessUnit : list row :=
  [ ("BusinessUnit", TChars 21, GString) ].
Definition rows_CThostFtdcExchangeExecOrderField_OffsetFlag : list row :=
  [ ("OffsetFlag", TChar, GChar);
    ("HedgeFlag", TChar, GChar) ].
Definition rows_CThostFtdcExchangeExecOrderField_ActionType : list row :=
  [ ("ActionType", TChar, GChar);
    ("PosiDirection", TChar, GChar) ].
Definition rows_CThostFtdcExchangeExecOrderField_ReservePositionFlag : list row :=
  [ ("ReservePositionFlag", TChar, GChar);
    ("CloseFlag", TChar, GChar) ].
Definition rows_CThostFtdcExchangeExecOrderField_ExecOrderLocalID : list row :=
  [ ("ExecOrderLocalID", TChars 13, GString) ].
Definition rows_CThostFtdcExchangeExecOrderField_ExchangeID : list row :=
  [ ("ExchangeID", TChars 9, GString) ].
Definition rows_CThostFtdcExchangeExecOrderField_ParticipantID : list row :=
  [ ("ParticipantID", TChars 11, GString) ].
Definition rows_CThostFtdcExchangeExecOrderField_ClientID : list row :=
  [ ("ClientID", TChars 11, GString) ].
Definition rows_CThostFtdcExchangeExecOrderField_reserve1 : list row :=
  [ ("reserve1", TChars 31, GString) ].
Definition rows_CThostFtdcExchangeExecOrderField_TraderID : list row :=
  [ ("TraderID", TChars 21, GString) ].
Definition rows_CThostFtdcExchangeExecOrderField_InstallID : list row :=
  [ ("InstallID", TInt, GInt);
    ("OrderSubmitStatus", TChar, GChar) ].
Definition rows_CThostFtdcExchangeExecOrderField_NotifySequence : list row :=
  [ ("NotifySequence", TInt, GInt) ].
Definition rows_CThostFtdcExchangeExecOrderField_TradingDay : list row :=
  [ ("TradingDay", TChars 9, GString) ].
Definition rows_CThostFtdcExchangeExecOrderField_SettlementID : list row :=
  [ ("SettlementID", TInt, GInt) ].
Definition rows_CThostFtdcExchangeExecOrderField_ExecOrderSysID : list row :=
  [ ("ExecOrderSysID", TChars 21, GString) ].
Definition rows_CThostFtdcExchangeExecOrderField_InsertDate : list row :=
  [ ("InsertDate", TChars 9, GString) ].
Definition rows_CThostFtdcExchangeExecOrderField_InsertTime : list row :=
  [ ("InsertTime", TChars 9, GString) ].
Definition rows_CThostFtdcExchangeExecOrderField_CancelTime : list row :=
  [ ("CancelTime", TChars 9, GString) ].
Definition rows_CThostFtdcExchangeExecOrderField_ExecResult : list row :=
  [ ("ExecResult", TChar, GChar) ].
Definition rows_CThostFtdcExchangeExecOrderField_ClearingPartID : list row :=
  [ ("ClearingPartID", TChars 11, GString) ].
Definition rows_CThostFtdcExchangeExecOrderField_SequenceNo : list row :=
  [ ("SequenceNo", TInt, GInt) ].
Definition rows_CThostFtdcExchangeExecOrderField_BranchID : list row :=
  [ ("BranchID", TChars 9, GString) ].
Definition rows_CThostFtdcExchangeExecOrderField_reserve2 : list row :=
  [ ("reserve2", TChars 16, GString) ].
Definition rows_CThostFtdcExchangeExecOrderField_MacAddress : list row :=
  [ ("MacAddress", TChars 21, GString) ].
Definition rows_CThostFtdcExchangeExecOrderField_ExchangeInstID : list row :=
  [ ("ExchangeInstID", TChars 81, GString) ].
Definition rows_CThostFtdcExchangeExecOrderField_IPAddress : list row :=
  [ ("IPAddress", TChars 33, GString) ].
Definition wrap_CThostFtdcExchangeExecOrderField : wrapper :=
  mk_wrapper 51
  ([ ("Volume", TInt, GInt);
    ("RequestID", TInt, GInt) ]
   ++ rows_CThostFtdcExchangeExecOrderField_BusinessUnit
   ++ rows_CThostFtdcExchangeExecOrderField_OffsetFlag
   ++ rows_CThostFtdcExchangeExecOrderField_ActionType
   ++ rows_CThostFtdcExchangeExecOrderField_ReservePositionFlag
   ++ rows_CThostFtdcExchangeExecOrderField_ExecOrderLocalID
   ++ rows_CThostFtdcExchangeExecOrderField_ExchangeID
   ++ rows_CThostFtdcExchangeExecOrderField_ParticipantID
   ++ rows_CThostFtdcExchangeExecOrderField_ClientID
   ++ rows_CThostFtdcExchangeExecOrderField_reserve1
   ++ rows_CThostFtdcExchangeExecOrderField_TraderID
   ++ rows_CThostFtdcExchangeExecOrderField_InstallID
   ++ rows_CThostFtdcExchangeExecOrderField_NotifySequence
   ++ rows_CThostFtdcExchangeExecOrderField_TradingDay
   ++ rows_CThostFtdcExchangeExecOrderField_SettlementID
   ++ rows_CThostFtdcExchangeExecOrderField_ExecOrderSysID
   ++ rows_CThostFtdcExchangeExecOrderField_InsertDate
   ++ rows_CThostFtdcExchangeExecOrderField_InsertTime
   ++ rows_CThostFtdcExchangeExecOrderField_CancelTime
   ++ rows_CThostFtdcExchangeExecOrderField_ExecResult
   ++ rows_CThostFtdcExchangeExecOrderField_ClearingPartID
   ++ rows_CThostFtdcExchangeExecOrderField_SequenceNo
   ++ rows_CThostFtdcExchangeExecOrderField_BranchID
   ++ rows_CThostFtdcExchangeExecOrderField_reserve2
   ++ rows_CThostFtdcExchangeExecOrderField_MacAddress
   ++ rows_CThostFtdcExchangeExecOrderField_ExchangeInstID
   ++ rows_CThostFtdcExchangeExecOrderField_IPAddress).

Definition rows_CThostFtdcQryExchangeExecOrderField_ClientID : list row :=
  [ ("ClientID", TChars 11, GString) ].
Definition rows_CThostFtdcQryExchangeExecOrderField_reserve1 : list row :=
  [ ("reserve1", TChars 31, GString) ].
Definition rows_CThostFtdcQryExchangeExecOrderField_ExchangeID : list row :=
  [ ("ExchangeID", TChars 9, GString) ].
Definition rows_CThostFtdcQryExchangeExecOrderField_TraderID : list row :=
  [ ("TraderID", TChars 21, GString) ].
Definition rows_CThostFtdcQryExchangeExecOrderField_ExchangeInstID : list row :=
  [ ("ExchangeInstID", TChars 81, GString) ].
Definition wrap_CThostFtdcQryExchangeExecOrderField : wrapper :=
  mk_wrapper 199
  ([ ("ParticipantID", TChars 11, GString) ]
   ++ rows_CThostFtdcQryExchangeExecOrderField_ClientID
   ++ rows_CThostFtdcQryExchangeExecOrderField_reserve1
   ++ rows_CThostFtdcQryExchangeExecOrderField_ExchangeID
   ++ rows_CThostFtdcQryExchangeExecOrderField_TraderID
   ++ rows_CThostFtdcQryExchangeExecOrderField_ExchangeInstID).

Definition rows_CThostFtdcQryExecOrderActionField_InvestorID : list row :=
  [ ("InvestorID", TChars 13, GString) ].
Definition rows_CThostFtdcQryExecOrderActionField_ExchangeID : list row :=
  [ ("ExchangeID", TChars 9, GString) ].
Definition wrap_CThostFtdcQryExecOrderActionField : wrapper :=
  mk_wrapper 210
  ([ ("BrokerID", TChars 11, GString) ]
   ++ rows_CThostFtdcQryExecOrderActionField_InvestorID
   ++ rows_CThostFtdcQryExecOrderActionField_ExchangeID).

Definition rows_CThostFtdcExchangeExecOrderActionField_ExecOrderSysID : list row :=
  [ ("ExecOrderSysID", TChars 21, GString) ].
Definition rows_CThostFtdcExchangeExecOrderActionField_ActionFlag : list row :=
  [ ("ActionFlag", TChar, GChar) ].
Definition rows_CThostFtdcExchangeExecOrderActionField_ActionDate : list row :=
  [ ("ActionDate", TChars 9, GString) ].
Definition rows_CThostFtdcExchangeExecOrderActionField_ActionTime : list row :=
  [ ("ActionTime", TChars 9, GString) ].
Definition rows_CThostFtdcExchangeExecOrderActionField_TraderID : list row :=
  [ ("TraderID", TChars 21, GString) ].
Definition rows_CThostFtdcExchangeExecOrderActionField_InstallID : list row :=
  [ ("InstallID", TInt, GInt) ].
Definition rows_CThostFtdcExchangeExecOrderActionField_ExecOrderLocalID : list row :=
  [ ("ExecOrderLocalID", TChars 13, GString) ].
Definition rows_CThostFtdcExchangeExecOrderActionField_ActionLocalID : list row :=
  [ ("ActionLocalID", TChars 13, GString) ].
Definition rows_CThostFtdcExchangeExecOrderActionField_ParticipantID : list row :=
  [ ("ParticipantID", TChars 11, GString) ].
Definition rows_CThostFtdcExchangeExecOrderActionField_ClientID : list row :=
  [ ("ClientID", TChars 11, GString) ].
Definition rows_CThostFtdcExchangeExecOrderActionField_BusinessUnit : list row :=
  [ ("BusinessUnit", TChars 21, GString) ].
Definition rows_CThostFtdcExchangeExecOrderActionField_OrderActionStatus : list row :=
  [ ("OrderActionStatus", TChar, GChar) ].
Definition rows_CThostFtdcExchangeExecOrderActionField_UserID : list row :=
  [ ("UserID", TChars 16, GString) ].
Definition rows_CThostFtdcExchangeExecOrderActionField_ActionType : list row :=
  [ ("ActionType", TChar, GChar) ].
Definition rows_CThostFtdcExchangeExecOrderActionField_BranchID : list row :=
  [ ("BranchID", TChars 9, GString) ].
Definition rows_CThostFtdcExchangeExecOrderActionField_reserve1 : list row :=
  [ ("reserve1", TChars 16, GString) ].
Definition rows_CThostFtdcExchangeExecOrderActionField_MacAddress : list row :=
  [ ("MacAddress", TChars 21, GString) ].
Definition rows_CThostFtdcExchangeExecOrderActionField_reserve2 : list row :=
  [ ("reserve2", TChars 31, GString) ].
Definition rows_CThostFtdcExchangeExecOrderActionField_Volume : list row :=
  [ ("Volume", TInt, GInt) ].
Definition rows_CThostFtdcExchangeExecOrderActionField_IPAddress : list row :=
  [ ("IPAddress", TChars 33, GString) ].
Definition rows_CThostFtdcExchangeExecOrderActionField_ExchangeInstID : list row :=
  [ ("ExchangeInstID", TChars 81, GString) ].
Definition wrap_CThostFtdcExchangeExecOrderActionField : wrapper :=
  mk_wrapper 50
  ([ ("ExchangeID", TChars 9, GString) ]
   ++ rows_CThostFtdcExchangeExecOrderActionField_ExecOrderSysID
   ++ rows_CThostFtdcExchangeExecOrderActionField_ActionFlag
   ++ rows_CThostFtdcExchangeExecOrderActionField_ActionDate
   ++ rows_CThostFtdcExchangeExecOrderActionField_ActionTime
   ++ rows_CThostFtdcExchangeExecOrderActionField_TraderID
   ++ rows_CThostFtdcExchangeExecOrderActionField_InstallID
   ++ rows_CThostFtdcExchangeExecOrderActionField_ExecOrderLocalID
   ++ rows_CThostFtdcExchangeExecOrderActionField_ActionLocalID
   ++ rows_CThostFtdcExchangeExecOrderActionField_ParticipantID
   ++ rows_CThostFtdcExchangeExecOrderActionField_ClientID
   ++ rows_CThostFtdcExchangeExecOrderActionField_BusinessUnit
   ++ rows_CThostFtdcExchangeExecOrderActionField_OrderActionStatus
   ++ rows_CThostFtdcExchangeExecOrderActionField_UserID
   ++ rows_CThostFtdcExchangeExecOrderActionField_ActionType
   ++ rows_CThostFtdcExchangeExecOrderActionField_BranchID
   ++ rows_CThostFtdcExchangeExecOrderActionField_reserve1
   ++ rows_CThostFtdcExchangeExecOrderActionField_MacAddress
   ++ rows_CThostFtdcExchangeExecOrderActionField_reserve2
   ++ rows_CThostFtdcExchangeExecOrderActionField_Volume
   ++ rows_CThostFtdcExchangeExecOrderActionField_IPAddress
   ++ rows_CThostFtdcExchangeExecOrderActionField_ExchangeInstID).

Definition rows_CThostFtdcQryExchangeExecOrderActionField_ClientID : list row :=
  [ ("ClientID", TChars 11, GString) ].
Definition rows_CThostFtdcQryExchangeExecOrderActionField_ExchangeID : list row :=
  [ ("ExchangeID", TChars 9, GString) ].
Definition rows_CThostFtdcQryExchangeExecOrderActionField_TraderID : list row :=
  [ ("TraderID", TChars 21, GString) ].
Definition wrap_CThostFtdcQryExchangeExecOrderActionField : wrapper :=
  mk_wrapper 198
  ([ ("ParticipantID", TChars 11, GString) ]
   ++ rows_CThostFtdcQryExchangeExecOrderActionField_ClientID
   ++ rows_CThostFtdcQryExchangeExecOrderActionField_ExchangeID
   ++ rows_CThostFtdcQryExchangeExecOrderActionField_TraderID).

Definition rows_CThostFtdcErrExecOrderField_InvestorID : list row :=
  [ ("InvestorID", TChars 13, GString) ].
Definition rows_CThostFtdcErrExecOrderField_reserve1 : list row :=
  [ ("reserve1", TChars 31, GString) ].
Definition rows_CThostFtdcErrExecOrderField_ExecOrderRef : list row :=
  [ ("ExecOrderRef", TChars 13, GString) ].
Definition rows_CThostFtdcErrExecOrderField_UserID : list row :=
  [ ("UserID", TChars 16, GString) ].
Definition rows_CThostFtdcErrExecOrderField_Volume : list row :=
  [ ("Volume", TInt, GInt);
    ("RequestID", TInt, GInt) ].
Definition rows_CThostFtdcErrExecOrderField_BusinessUnit : list row :=
  [ ("BusinessUnit", TChars 21, GString) ].
Definition rows_CThostFtdcErrExecOrderField_OffsetFlag : list row :=
  [ ("OffsetFlag", TChar, GChar);
    ("HedgeFlag", TChar, GChar) ].
Definition rows_CThostFtdcErrExecOrderField_ActionType : list row :=
  [ ("ActionType", TChar, GChar);
    ("PosiDirection", TChar, GChar) ].
Definition rows_CThostFtdcErrExecOrderField_ReservePositionFlag : list row :=
  [ ("ReservePositionFlag", TChar, GChar);
    ("CloseFlag", TChar, GChar) ].
Definition rows_CThostFtdcErrExecOrderField_ExchangeID : list row :=
  [ ("ExchangeID", TChars 9, GString) ].
Definition rows_CThostFtdcErrExecOrderField_InvestUnitID : list row :=
  [ ("InvestUnitID", TChars 17, GString) ].
Definition rows_CThostFtdcErrExecOrderField_AccountID : list row :=
  [ ("AccountID", TChars 13, GString) ].
Definition rows_CThostFtdcErrExecOrderField_CurrencyID : list row :=
  [ ("CurrencyID", TChars 4, GString) ].
Definition rows_CThostFtdcErrExecOrderField_ClientID : list row :=
  [ ("ClientID", TChars 11, GString) ].
Definition rows_CThostFtdcErrExecOrderField_reserve2 : list row :=
  [ ("reserve2", TChars 16, GString) ].
Definition rows_CThostFtdcErrExecOrderField_MacAddress : list row :=
  [ ("MacAddress", TChars 21, GString) ].
Definition rows_CThostFtdcErrExecOrderField_ErrorID : list row :=
  [ ("ErrorID", TInt, GInt) ].
Definition rows_CThostFtdcErrExecOrderField_ErrorMsg : list row :=
  [ ("ErrorMsg", TChars 81, GString) ].
Definition rows_CThostFtdcErrExecOrderField_InstrumentID : list row :=
  [ ("InstrumentID", TChars 81, GString) ].
Definition rows_CThostFtdcErrExecOrderField_IPAddress : list row :=
  [ ("IPAddress", TChars 33, GString) ].
Definition wrap_CThostFtdcErrExecOrderField : wrapper :=
  mk_wrapper 44
  ([ ("BrokerID", TChars 11, GString) ]
   ++ rows_CThostFtdcErrExecOrderField_InvestorID
   ++ rows_CThostFtdcErrExecOrderField_reserve1
   ++ rows_CThostFtdcErrExecOrderField_ExecOrderRef
   ++ rows_CThostFtdcErrExecOrderField_UserID
   ++ rows_CThostFtdcErrExecOrderField_Volume
   ++ rows_CThostFtdcErrExecOrderField_BusinessUnit
   ++ rows_CThostFtdcErrExecOrderField_OffsetFlag
   ++ rows_CThostFtdcErrExecOrderField_ActionType
   ++ rows_CThostFtdcErrExecOrderField_ReservePositionFlag
   ++ rows_CThostFtdcErrExecOrderField_ExchangeID
   ++ rows_CThostFtdcErrExecOrderField_InvestUnitID
   ++ rows_CThostFtdcErrExecOrderField_AccountID
   ++ rows_CThostFtdcErrExecOrderField_CurrencyID
   ++ rows_CThostFtdcErrExecOrderField_ClientID
   ++ rows_CThostFtdcErrExecOrderField_reserve2
   ++ rows_CThostFtdcErrExecOrderField_MacAddress
   ++ rows_CThostFtdcErrExecOrderField_ErrorID
   ++ rows_CThostFtdcErrExecOrderField_ErrorMsg
   ++ rows_CThostFtdcErrExecOrderField_InstrumentID
   ++ rows_CThostFtdcErrExecOrderField_IPAddress).

Definition rows_CThostFtdcQryErrExecOrderField_InvestorID : list row :=
  [ ("InvestorID", TChars 13, GString) ].
Definition wrap_CThostFtdcQryErrExecOrderField : wrapper :=
  mk_wrapper 194
  ([ ("BrokerID", TChars 11, GString) ]
   ++ rows_CThostFtdcQryErrExecOrderField_InvestorID).

Definition rows_CThostFtdcErrExecOrderActionField_InvestorID : list row :=
  [ ("InvestorID", TChars 13, GString) ].
Definition rows_CThostFtdcErrExecOrderActionField_ExecOrderActionRef : list row :=
  [ ("ExecOrderActionRef", TInt, GInt) ].
Definition rows_CThostFtdcErrExecOrderActionField_ExecOrderRef : list row :=
  [ ("ExecOrderRef", TChars 13, GString) ].
Definition rows_CThostFtdcErrExecOrderActionField_RequestID : list row :=
  [ ("RequestID", TInt, GInt);
    ("FrontID", TInt, GInt) ].
Definition rows_CThostFtdcErrExecOrderActionField_SessionID : list row :=
  [ ("SessionID", TInt, GInt) ].
Definition rows_CThostFtdcErrExecOrderActionField_ExchangeID : list row :=
  [ ("ExchangeID", TChars 9, GString) ].
Definition rows_CThostFtdcErrExecOrderActionField_ExecOrderSysID : list row :=
  [ ("ExecOrderSysID", TChars 21, GString) ].
Definition rows_CThostFtdcErrExecOrderActionField_ActionFlag : list row :=
  [ ("ActionFlag", TChar, GChar) ].
Definition rows_CThostFtdcErrExecOrderActionField_UserID : list row :=
  [ ("UserID", TChars 16, GString) ].
Definition rows_CThostFtdcErrExecOrderActionField_reserve1 : list row :=
  [ ("reserve1", TChars 31, GString) ].
Definition rows_CThostFtdcErrExecOrderActionField_InvestUnitID : list row :=
  [ ("InvestUnitID", TChars 17, GString) ].
Definition rows_CThostFtdcErrExecOrderActionField_reserve2 : list row :=
  [ ("reserve2", TChars 16, GString) ].
Definition rows_CThostFtdcErrExecOrderActionField_MacAddress : list row :=
  [ ("MacAddress", TChars 21, GString) ].
Definition rows_CThostFtdcErrExecOrderActionField_ErrorID : list row :=
  [ ("ErrorID", TInt, GInt) ].
Definition rows_CThostFtdcErrExecOrderActionField_ErrorMsg : list row :=
  [ ("ErrorMsg", TChars 81, GString) ].
Definition rows_CThostFtdcErrExecOrderActionField_InstrumentID : list row :=
  [ ("InstrumentID", TChars 81, GString) ].
Definition rows_CThostFtdcErrExecOrderActionField_IPAddress : list row :=
  [ ("IPAddress", TChars 33, GString) ].
Definition wrap_CThostFtdcErrExecOrderActionField : wrapper :=
  mk_wrapper 43
  ([ ("BrokerID", TChars 11, GString) ]
   ++ rows_CThostFtdcErrExecOrderActionField_InvestorID
   ++ rows_CThostFtdcErrExecOrderActionField_ExecOrderActionRef
   ++ rows_CThostFtdcErrExecOrderActionField_ExecOrderRef
   ++ rows_CThostFtdcErrExecOrderActionField_RequestID
   ++ rows_CThostFtdcErrExecOrderActionField_SessionID
   ++ rows_CThostFtdcErrExecOrderActionField_ExchangeID
   ++ rows_CThostFtdcErrExecOrderActionField_ExecOrderSysID
   ++ rows_CThostFtdcErrExecOrderActionField_ActionFlag
   ++ rows_CThostFtdcErrExecOrderActionField_UserID
   ++ rows_CThostFtdcErrExecOrderActionField_reserve1
   ++ rows_CThostFtdcErrExecOrderActionField_InvestUnitID
   ++ rows_CThostFtdcErrExecOrderActionField_reserve2
   ++ rows_CThostFtdcErrExecOrderActionField_MacAddress
   ++ rows_CThostFtdcErrExecOrderActionField_ErrorID
   ++ rows_CThostFtdcErrExecOrderActionField_ErrorMsg
   ++ rows_CThostFtdcErrExecOrderActionField_InstrumentID
   ++ rows_CThostFtdcErrExecOrderActionField_IPAddress).

Definition rows_CThostFtdcQryErrExecOrderActionField_InvestorID : list row :=
  [ ("InvestorID", TChars 13, GString) ].
Definition wrap_CThostFtdcQryErrExecOrderActionField : wrapper :=
  mk_wrapper 193
  ([ ("BrokerID", TChars 11, GString) ]
   ++ rows_CThostFtdcQryErrExecOrderActionField_InvestorID).

Definition rows_CThostFtdcOptionInstrTradingRightField_InvestorRange : list row :=
  [ ("InvestorRange", TChar, GChar) ].
Definition rows_CThostFtdcOptionInstrTradingRightField_BrokerID : list row :=
  [ ("BrokerID", TChars 11, GString) ].
Definition rows_CThostFtdcOptionInstrTradingRightField_InvestorID : list row :=
  [ ("InvestorID", TChars 13, GString) ].
Definition rows_CThostFtdcOptionInstrTradingRightField_Direction : list row :=
  [ ("Direction", TChar, GChar);
    ("TradingRight", TChar, GChar) ].
Definition rows_CThostFtdcOptionInstrTradingRightField_InstrumentID : list row :=
  [ ("InstrumentID", TChars 81, GString) ].
Definition wrap_CThostFtdcOptionInstrTradingRightField : wrapper :=
  mk_wrapper 158
  ([ ("reserve1", TChars 31, GString) ]
   ++ rows_CThostFtdcOptionInstrTradingRightField_InvestorRange
   ++ rows_CThostFtdcOptionInstrTradingRightField_BrokerID
   ++ rows_CThostFtdcOptionInstrTradingRightField_InvestorID
   ++ rows_CThostFtdcOptionInstrTradingRightField_Direction
   ++ rows_CThostFtdcOptionInstrTradingRightField_InstrumentID).

Definition rows_CThostFtdcQryOptionInstrTradingRightField_InvestorID : list row :=
  [ ("InvestorID", TChars 13, GString) ].
Definition rows_CThostFtdcQryOptionInstrTradingRightField_reserve1 : list row :=
  [ ("reserve1", TChars 31, GString) ].
Definition rows_CThostFtdcQryOptionInstrTradingRightField_Direction : list row :=
  [ ("Direction", TChar, GChar) ].
Definition rows_CThostFtdcQryOptionInstrTradingRightField_InstrumentID : list row :=
  [ ("InstrumentID", TChars 81, GString) ].
Definition wrap_CThostFtdcQryOptionInstrTradingRightField : wrapper :=
  mk_wrapper 250
  ([ ("BrokerID", TChars 11, GString) ]
   ++ rows_CThostFtdcQryOptionInstrTradingRightField_InvestorID
   ++ rows_CThostFtdcQryOptionInstrTradingRightField_reserve1
   ++ rows_CThostFtdcQryOptionInstrTradingRightField_Direction
   ++ rows_CThostFtdcQryOptionInstrTradingRightField_InstrumentID).

Definition rows_CThostFtdcInputForQuoteField_InvestorID : list row :=
  [ ("InvestorID", TChars 13, GString) ].
Definition rows_CThostFtdcInputForQuoteField_reserve1 : list row :=
  [ ("reserve1", TChars 31, GString) ].
Definition rows_CThostFtdcInputForQuoteField_ForQuoteRef : list row :=
  [ ("ForQuoteRef", TChars 13, GString) ].
Definition rows_CThostFtdcInputForQuoteField_UserID : list row :=
  [ ("UserID", TChars 16, GString) ].
Definition rows_CThostFtdcInputForQuoteField_ExchangeID : list row :=
  [ ("ExchangeID", TChars 9, GString) ].
Definition rows_CThostFtdcInputForQuoteField_InvestUnitID : list row :=
  [ ("InvestUnitID", TChars 17, GString) ].
Definition rows_CThostFtdcInputForQuoteField_reserve2 : list row :=
  [ ("reserve2", TChars 16, GString) ].
Definition rows_CThostFtdcInputForQuoteField_MacAddress : list row :=
  [ ("MacAddress", TChars 21, GString) ].
Definition rows_CThostFtdcInputForQuoteField_InstrumentID : list row :=
  [ ("InstrumentID", TChars 81, GString) ].
Definition rows_CThostFtdcInputForQuoteField_IPAddress : list row :=
  [ ("IPAddress", TChars 33, GString) ].
Definition wrap_CThostFtdcInputForQuoteField : wrapper :=
  mk_wrapper 85
  ([ ("BrokerID", TChars 11, GString) ]
   ++ rows_CThostFtdcInputForQuoteField_InvestorID
   ++ rows_CThostFtdcInputForQuoteField_reserve1
   ++ rows_CThostFtdcInputForQuoteField_ForQuoteRef
   ++ rows_CThostFtdcInputForQuoteField_UserID
   ++ rows_CThostFtdcInputForQuoteField_ExchangeID
   ++ rows_CThostFtdcInputForQuoteField_InvestUnitID
   ++ rows_CThostFtdcInputForQuoteField_reserve2
   ++ rows_CThostFtdcInputForQuoteField_MacAddress
   ++ rows_CThostFtdcInputForQuoteField_InstrumentID
   ++ rows_CThostFtdcInputForQuoteField_IPAddress).

Definition rows_CThostFtdcForQuoteField_InvestorID : list row :=
  [ ("InvestorID", TChars 13, GString) ].
Definition rows_CThostFtdcForQuoteField_reserve1 : list row :=
  [ ("reserve1", TChars 31, GString) ].
Definition rows_CThostFtdcForQuoteField_ForQuoteRef : list row :=
  [ ("ForQuoteRef", TChars 13, GString) ].
Definition rows_CThostFtdcForQuoteField_UserID : list row :=
  [ ("UserID", TChars 16, GString) ].
Definition rows_CThostFtdcForQuoteField_ForQuoteLocalID : list row :=
  [ ("ForQuoteLocalID", TChars 13, GString) ].
Definition rows_CThostFtdcForQuoteField_ExchangeID : list row :=
  [ ("ExchangeID", TChars 9, GString) ].
Definition rows_CThostFtdcForQuoteField_ParticipantID : list row :=
  [ ("ParticipantID", TChars 11, GString) ].
Definition rows_CThostFtdcForQuoteField_ClientID : list row :=
  [ ("ClientID", TChars 11, GString) ].
Definition rows_CThostFtdcForQuoteField_reserve2 : list row :=
  [ ("reserve2", TChars 31, GString) ].
Definition rows_CThostFtdcForQuoteField_TraderID : list row :=
  [ ("TraderID", TChars 21, GString) ].
Definition rows_CThostFtdcForQuoteField_InstallID : list row :=
  [ ("InstallID", TInt, GInt) ].
Definition rows_CThostFtdcForQuoteField_InsertDate : list row :=
  [ ("InsertDate", TChars 9, GString) ].
Definition rows_CThostFtdcForQuoteField_InsertTime : list row :=
  [ ("InsertTime", TChars 9, GString) ].
Definition rows_CThostFtdcForQuoteField_ForQuoteStatus : list row :=
  [ ("ForQuoteStatus", TChar, GChar);
    ("FrontID", TInt, GInt) ].
Definition rows_CThostFtdcForQuoteField_SessionID : list row :=
  [ ("SessionID", TInt, GInt) ].
Definition rows_CThostFtdcForQuoteField_StatusMsg : list row :=
  [ ("StatusMsg", TChars 81, GString) ].
Definition rows_CThostFtdcForQuoteField_ActiveUserID : list row :=
  [ ("ActiveUserID", TChars 16, GString) ].
Definition rows_CThostFtdcForQuoteField_BrokerForQutoSeq : list row :=
  [ ("BrokerForQutoSeq", TInt, GInt) ].
Definition rows_CThostFtdcForQuoteField_InvestUnitID : list row :=
  [ ("InvestUnitID", TChars 17, GString) ].
Definition rows_CThostFtdcForQuoteField_reserve3 : list row :=
  [ ("reserve3", TChars 16, GString) ].
Definition rows_CThostFtdcForQuoteField_MacAddress : list row :=
  [ ("MacAddress", TChars 21, GString) ].
Definition rows_CThostFtdcForQuoteField_InstrumentID : list row :=
  [ ("InstrumentID", TChars 81, GString) ].
Definition rows_CThostFtdcForQuoteField_ExchangeInstID : list row :=
  [ ("ExchangeInstID", TChars 81, GString) ].
Definition rows_CThostFtdcForQuoteField_IPAddress : list row :=
  [ ("IPAddress", TChars 33, GString) ].
Definition wrap_CThostFtdcForQuoteField : wrapper :=
  mk_wrapper 71
  ([ ("BrokerID", TChars 11, GString) ]
   ++ rows_CThostFtdcForQuoteField_InvestorID
   ++ rows_CThostFtdcForQuoteField_reserve1
   ++ rows_CThostFtdcForQuoteField_ForQuoteRef
   ++ rows_CThostFtdcForQuoteField_UserID
   ++ rows_CThostFtdcForQuoteField_ForQuoteLocalID
   ++ rows_CThostFtdcForQuoteField_ExchangeID
   ++ rows_CThostFtdcForQuoteField_ParticipantID
   ++ rows_CThostFtdcForQuoteField_ClientID
   ++ rows_CThostFtdcForQuoteField_reserve2
   ++ rows_CThostFtdcForQuoteField_TraderID
   ++ rows_CThostFtdcForQuoteField_InstallID
   ++ rows_CThostFtdcForQuoteField_InsertDate
   ++ rows_CThostFtdcForQuoteField_InsertTime
   ++ rows_CThostFtdcForQuoteField_ForQuoteStatus
   ++ rows_CThostFtdcForQuoteField_SessionID
   ++ rows_CThostFtdcForQuoteField_StatusMsg
   ++ rows_CThostFtdcForQuoteField_ActiveUserID
   ++ rows_CThostFtdcForQuoteField_BrokerForQutoSeq
   ++ rows_CThostFtdcForQuoteField_InvestUnitID
   ++ rows_CThostFtdcForQuoteField_reserve3
   ++ rows_CThostFtdcForQuoteField_MacAddress
   ++ rows_CThostFtdcForQuoteField_InstrumentID
   ++ rows_CThostFtdcForQuoteField_ExchangeInstID
   ++ rows_CThostFtdcForQuoteField_IPAddress).

Definition rows_CThostFtdcQryForQuoteField_InvestorID : list row :=
  [ ("InvestorID", TChars 13, GString) ].
Definition rows_CThostFtdcQryForQuoteField_reserve1 : list row :=
  [ ("reserve1", TChars 31, GString) ].
Definition rows_CThostFtdcQryForQuoteField_ExchangeID : list row :=
  [ ("ExchangeID", TChars 9, GString) ].
Definition rows_CThostFtdcQryForQuoteField_InsertTimeStart : list row :=
  [ ("InsertTimeStart", TChars 9, GString) ].
Definition rows_CThostFtdcQryForQuoteField_InsertTimeEnd : list row :=
  [ ("InsertTimeEnd", TChars 9, GString) ].
Definition rows_CThostFtdcQryForQuoteField_InvestUnitID : list row :=
  [ ("InvestUnitID", TChars 17, GString) ].
Definition rows_CThostFtdcQryForQuoteField_InstrumentID : list row :=
  [ ("InstrumentID", TChars 81, GString) ].
Definition wrap_CThostFtdcQryForQuoteField : wrapper :=
  mk_wrapper 212
  ([ ("BrokerID", TChars 11, GString) ]
   ++ rows_CThostFtdcQryForQuoteField_InvestorID
   ++ rows_CThostFtdcQryForQuoteField_reserve1
   ++ rows_CThostFtdcQryForQuoteField_ExchangeID
   ++ rows_CThostFtdcQryForQuoteField_InsertTimeStart
   ++ rows_CThostFtdcQryForQuoteField_InsertTimeEnd
   ++ rows_CThostFtdcQryForQuoteField_InvestUnitID
   ++ rows_CThostFtdcQryForQuoteField_InstrumentID).

Definition rows_CThostFtdcExchangeForQuoteField_ExchangeID : list row :=
  [ ("ExchangeID", TChars 9, GString) ].
Definition rows_CThostFtdcExchangeForQuoteField_ParticipantID : list row :=
  [ ("ParticipantID", TChars 11, GString) ].
Definition rows_CThostFtdcExchangeForQuoteField_ClientID : list row :=
  [ ("ClientID", TChars 11, GString) ].
Definition rows_CThostFtdcExchangeForQuoteField_reserve1 : list row :=
  [ ("reserve1", TChars 31, GString) ].
Definition rows_CThostFtdcExchangeForQuoteField_TraderID : list row :=
  [ ("TraderID", TChars 21, GString) ].
Definition rows_CThostFtdcExchangeForQuoteField_InstallID : list row :=
  [ ("InstallID", TInt, GInt) ].
Definition rows_CThostFtdcExchangeForQuoteField_InsertDate : list row :=
  [ ("InsertDate", TChars 9, GString) ].
Definition rows_CThostFtdcExchangeForQuoteField_InsertTime : list row :=
  [ ("InsertTime", TChars 9, GString) ].
Definition rows_CThostFtdcExchangeForQuoteField_ForQuoteStatus : list row :=
  [ ("ForQuoteStatus", TChar, GChar) ].
Definition rows_CThostFtdcExchangeForQuoteField_reserve2 : list row :=
  [ ("reserve2", TChars 16, GString) ].
Definition rows_CThostFtdcExchangeForQuoteField_MacAddress : list row :=
  [ ("MacAddress", TChars 21, GString) ].
Definition rows_CThostFtdcExchangeForQuoteField_ExchangeInstID : list row :=
  [ ("ExchangeInstID", TChars 81, GString) ].
Definition rows_CThostFtdcExchangeForQuoteField_IPAddress : list row :=
  [ ("IPAddress", TChars 33, GString) ].
Definition wrap_CThostFtdcExchangeForQuoteField : wrapper :=
  mk_wrapper 53
  ([ ("ForQuoteLocalID", TChars 13, GString) ]
   ++ rows_CThostFtdcExchangeForQuoteField_ExchangeID
   ++ rows_CThostFtdcExchangeForQuoteField_ParticipantID
   ++ rows_CThostFtdcExchangeForQuoteField_ClientID
   ++ rows_CThostFtdcExchangeForQuoteField_reserve1
   ++ rows_CThostFtdcExchangeForQuoteField_TraderID
   ++ rows_CThostFtdcExchangeForQuoteField_InstallID
   ++ rows_CThostFtdcExchangeForQuoteField_InsertDate
   ++ rows_CThostFtdcExchangeForQuoteField_InsertTime
   ++ rows_CThostFtdcExchangeForQuoteField_ForQuoteStatus
   ++ rows_CThostFtdcExchangeForQuoteField_reserve2
   ++ rows_CThostFtdcExchangeForQuoteField_MacAddress
   ++ rows_CThostFtdcExchangeForQuoteField_ExchangeInstID
   ++ rows_CThostFtdcExchangeForQuoteField_IPAddress).

Definition rows_CThostFtdcQryExchangeForQuoteField_ClientID : list row :=
  [ ("ClientID", TChars 11, GString) ].
Definition rows_CThostFtdcQryExchangeForQuoteField_reserve1 : list row :=
  [ ("reserve1", TChars 31, GString) ].
Definition rows_CThostFtdcQryExchangeForQuoteField_ExchangeID : list row :=
  [ ("ExchangeID", TChars 9, GString) ].
Definition rows_CThostFtdcQryExchangeForQuoteField_TraderID : list row :=
  [ ("TraderID", TChars 21, GString) ].
Definition rows_CThostFtdcQryExchangeForQuoteField_ExchangeInstID : list row :=
  [ ("ExchangeInstID", TChars 81, GString) ].
Definition wrap_CThostFtdcQryExchangeForQuoteField : wrapper :=
  mk_wrapper 201
  ([ ("ParticipantID", TChars 11, GString) ]
   ++ rows_CThostFtdcQryExchangeForQuoteField_ClientID
   ++ rows_CThostFtdcQryExchangeForQuoteField_reserve1
   ++ rows_CThostFtdcQryExchangeForQuoteField_ExchangeID
   ++ rows_CThostFtdcQryExchangeForQuoteField_TraderID
   ++ rows_CThostFtdcQryExchangeForQuoteField_ExchangeInstID).

Definition rows_CThostFtdcInputQuoteField_InvestorID : list row :=
  [ ("InvestorID", TChars 13, GString) ].
Definition rows_CThostFtdcInputQuoteField_reserve1 : list row :=
  [ ("reserve1", TChars 31, GString) ].
Definition rows_CThostFtdcInputQuoteField_QuoteRef : list row :=
  [ ("QuoteRef", TChars 13, GString) ].
Definition rows_CThostFtdcInputQuoteField_UserID : list row :=
  [ ("UserID", TChars 16, GString) ].
Definition rows_CThostFtdcInputQuoteField_AskPrice : list row :=
  [ ("AskPrice", TDouble, GDouble);
    ("BidPrice", TDouble, GDouble) ].
Definition rows_CThostFtdcInputQuoteField_AskVolume : list row :=
  [ ("AskVolume", TInt, GInt);
    ("BidVolume", TInt, GInt) ].
Definition rows_CThostFtdcInputQuoteField_RequestID : list row :=
  [ ("RequestID", TInt, GInt) ].
Definition rows_CThostFtdcInputQuoteField_BusinessUnit : list row :=
  [ ("BusinessUnit", TChars 21, GString) ].
Definition rows_CThostFtdcInputQuoteField_AskOffsetFlag : list row :=
  [ ("AskOffsetFlag", TChar, GChar);
    ("BidOffsetFlag", TChar, GChar) ].
Definition rows_CThostFtdcInputQuoteField_AskHedgeFlag : list row :=
  [ ("AskHedgeFlag", TChar, GChar);
    ("BidHedgeFlag", TChar, GChar) ].
Definition rows_CThostFtdcInputQuoteField_AskOrderRef : list row :=
  [ ("AskOrderRef", TChars 13, GString) ].
Definition rows_CThostFtdcInputQuoteField_BidOrderRef : list row :=
  [ ("BidOrderRef", TChars 13, GString) ].
Definition rows_CThostFtdcInputQuoteField_ForQuoteSysID : list row :=
  [ ("ForQuoteSysID", TChars 21, GString) ].
Definition rows_CThostFtdcInputQuoteField_ExchangeID : list row :=
  [ ("ExchangeID", TChars 9, GString) ].
Definition rows_CThostFtdcInputQuoteField_InvestUnitID : list row :=
  [ ("InvestUnitID", TChars 17, GString) ].
Definition rows_CThostFtdcInputQuoteField_ClientID : list row :=
  [ ("ClientID", TChars 11, GString) ].
Definition rows_CThostFtdcInputQuoteField_reserve2 : list row :=
  [ ("reserve2", TChars 16, GString) ].
Definition rows_CThostFtdcInputQuoteField_MacAddress : list row :=
  [ ("MacAddress", TChars 21, GString) ].
Definition rows_CThostFtdcInputQuoteField_InstrumentID : list row :=
  [ ("InstrumentID", TChars 81, GString) ].
Definition rows_CThostFtdcInputQuoteField_IPAddress : list row :=
  [ ("IPAddress", TChars 33, GString) ].
Definition rows_CThostFtdcInputQuoteField_ReplaceSysID : list row :=
  [ ("ReplaceSysID", TChars 21, GString) ].
Definition rows_CThostFtdcInputQuoteField_TimeCondition : list row :=
  [ ("TimeCondition", TChar, GChar) ].
Definition rows_CThostFtdcInputQuoteField_OrderMemo : list row :=
  [ ("OrderMemo", TChars 13, GString) ].
Definition rows_CThostFtdcInputQuoteField_SessionReqSeq : list row :=
  [ ("SessionReqSeq", TInt, GInt) ].
Definition wrap_CThostFtdcInputQuoteField : wrapper :=
  mk_wrapper 91
  ([ ("BrokerID", TChars 11, GString) ]
   ++ rows_CThostFtdcInputQuoteField_InvestorID
   ++ rows_CThostFtdcInputQuoteField_reserve1
   ++ rows_CThostFtdcInputQuoteField_QuoteRef
   ++ rows_CThostFtdcInputQuoteField_UserID
   ++ rows_CThostFtdcInputQuoteField_AskPrice
   ++ rows_CThostFtdcInputQuoteField_AskVolume
   ++ rows_CThostFtdcInputQuoteField_RequestID
   ++ rows_CThostFtdcInputQuoteField_BusinessUnit
   ++ rows_CThostFtdcInputQuoteField_AskOffsetFlag
   ++ rows_CThostFtdcInputQuoteField_AskHedgeFlag
   ++ rows_CThostFtdcInputQuoteField_AskOrderRef
   ++ rows_CThostFtdcInputQuoteField_BidOrderRef
   ++ rows_CThostFtdcInputQuoteField_ForQuoteSysID
   ++ rows_CThostFtdcInputQuoteField_ExchangeID
   ++ rows_CThostFtdcInputQuoteField_InvestUnitID
   ++ rows_CThostFtdcInputQuoteField_ClientID
   ++ rows_CThostFtdcInputQuoteField_reserve2
   ++ rows_CThostFtdcInputQuoteField_MacAddress
   ++ rows_CThostFtdcInputQuoteField_InstrumentID
   ++ rows_CThostFtdcInputQuoteField_IPAddress
   ++ rows_CThostFtdcInputQuoteField_ReplaceSysID
   ++ rows_CThostFtdcInputQuoteField_TimeCondition
   ++ rows_CThostFtdcInputQuoteField_OrderMemo
   ++ rows_CThostFtdcInputQuoteField_SessionReqSeq).

Definition rows_CThostFtdcInputQuoteActionField_InvestorID : list row :=
  [ ("InvestorID", TChars 13, GString) ].
Definition rows_CThostFtdcInputQuoteActionField_QuoteActionRef : list row :=
  [ ("QuoteActionRef", TInt, GInt) ].
Definition rows_CThostFtdcInputQuoteActionField_QuoteRef : list row :=
  [ ("QuoteRef", TChars 13, GString) ].
Definition rows_CThostFtdcInputQuoteActionField_RequestID : list row :=
  [ ("RequestID", TInt, GInt);
    ("FrontID", TInt, GInt) ].
Definition rows_CThostFtdcInputQuoteActionField_SessionID : list row :=
  [ ("SessionID", TInt, GInt) ].
Definition rows_CThostFtdcInputQuoteActionField_ExchangeID : list row :=
  [ ("ExchangeID", TChars 9, GString) ].
Definition rows_CThostFtdcInputQuoteActionField_QuoteSysID : list row :=
  [ ("QuoteSysID", TChars 21, GString) ].
Definition rows_CThostFtdcInputQuoteActionField_ActionFlag : list row :=
  [ ("ActionFlag", TChar, GChar) ].
Definition rows_CThostFtdcInputQuoteActionField_UserID : list row :=
  [ ("UserID", TChars 16, GString) ].
Definition rows_CThostFtdcInputQuoteActionField_reserve1 : list row :=
  [ ("reserve1", TChars 31, GString) ].
Definition rows_CThostFtdcInputQuoteActionField_InvestUnitID : list row :=
  [ ("InvestUnitID", TChars 17, GString) ].
Definition rows_CThostFtdcInputQuoteActionField_ClientID : list row :=
  [ ("ClientID", TChars 11, GString) ].
Definition rows_CThostFtdcInputQuoteActionField_reserve2 : list row :=
  [ ("reserve2", TChars 16, GString) ].
Definition rows_CThostFtdcInputQuoteActionField_MacAddress : list row :=
  [ ("MacAddress", TChars 21, GString) ].
Definition rows_CThostFtdcInputQuoteActionField_InstrumentID : list row :=
  [ ("InstrumentID", TChars 81, GString) ].
Definition rows_CThostFtdcInputQuoteActionField_IPAddress : list row :=
  [ ("IPAddress", TChars 33, GString) ].
Definition rows_CThostFtdcInputQuoteActionField_OrderMemo : list row :=
  [ ("OrderMemo", TChars 13, GString) ].
Definition rows_CThostFtdcInputQuoteActionField_SessionReqSeq : list row :=
  [ ("SessionReqSeq", TInt, GInt) ].
Definition wrap_CThostFtdcInputQuoteActionField : wrapper :=
  mk_wrapper 90
  ([ ("BrokerID", TChars 11, GString) ]
   ++ rows_CThostFtdcInputQuoteActionField_InvestorID
   ++ rows_CThostFtdcInputQuoteActionField_QuoteActionRef
   ++ rows_CThostFtdcInputQuoteActionField_QuoteRef
   ++ rows_CThostFtdcInputQuoteActionField_RequestID
   ++ rows_CThostFtdcInputQuoteActionField_SessionID
   ++ rows_CThostFtdcInputQuoteActionField_ExchangeID
   ++ rows_CThostFtdcInputQuoteActionField_QuoteSysID
   ++ rows_CThostFtdcInputQuoteActionField_ActionFlag
   ++ rows_CThostFtdcInputQuoteActionField_UserID
   ++ rows_CThostFtdcInputQuoteActionField_reserve1
   ++ rows_CThostFtdcInputQuoteActionField_InvestUnitID
   ++ rows_CThostFtdcInputQuoteActionField_ClientID
   ++ rows_CThostFtdcInputQuoteActionField_reserve2
   ++ rows_CThostFtdcInputQuoteActionField_MacAddress
   ++ rows_CThostFtdcInputQuoteActionField_InstrumentID
   ++ rows_CThostFtdcInputQuoteActionField_IPAddress
   ++ rows_CThostFtdcInputQuoteActionField_OrderMemo
   ++ rows_CThostFtdcInputQuoteActionField_SessionReqSeq).

Definition rows_CThostFtdcQuoteField_InvestorID : list row :=
  [ ("InvestorID", TChars 13, GString) ].
Definition rows_CThostFtdcQuoteField_reserve1 : list row :=
  [ ("reserve1", TChars 31, GString) ].
Definition rows_CThostFtdcQuoteField_QuoteRef : list row :=
  [ ("QuoteRef", TChars 13, GString) ].
Definition rows_CThostFtdcQuoteField_UserID : list row :=
  [ ("UserID", TChars 16, GString) ].
Definition rows_CThostFtdcQuoteField_AskPrice : list row :=
  [ ("AskPrice", TDouble, GDouble);
    ("BidPrice", TDouble, GDouble) ].
Definition rows_CThostFtdcQuoteField_AskVolume : list row :=
  [ ("AskVolume", TInt, GInt);
    ("BidVolume", TInt, GInt) ].
Definition rows_CThostFtdcQuoteField_RequestID : list row :=
  [ ("RequestID", TInt, GInt) ].
Definition rows_CThostFtdcQuoteField_BusinessUnit : list row :=
  [ ("BusinessUnit", TChars 21, GString) ].
Definition rows_CThostFtdcQuoteField_AskOffsetFlag : list row :=
  [ ("AskOffsetFlag", TChar, GChar);
    ("BidOffsetFlag", TChar, GChar) ].
Definition rows_CThostFtdcQuoteField_AskHedgeFlag : list row :=
  [ ("AskHedgeFlag", TChar, GChar);
    ("BidHedgeFlag", TChar, GChar) ].
Definition rows_CThostFtdcQuoteField_QuoteLocalID : list row :=
  [ ("QuoteLocalID", TChars 13, GString) ].
Definition rows_CThostFtdcQuoteField_ExchangeID : list row :=
  [ ("ExchangeID", TChars 9, GString) ].
Definition rows_CThostFtdcQuoteField_ParticipantID : list row :=
  [ ("ParticipantID", TChars 11, GString) ].
Definition rows_CThostFtdcQuoteField_ClientID : list row :=
  [ ("ClientID", TChars 11, GString) ].
Definition rows_CThostFtdcQuoteField_reserve2 : list row :=
  [ ("reserve2", TChars 31, GString) ].
Definition rows_CThostFtdcQuoteField_TraderID : list row :=
  [ ("TraderID", TChars 21, GString) ].
Definition rows_CThostFtdcQuoteField_InstallID : list row :=
  [ ("InstallID", TInt, GInt);
    ("NotifySequence", TInt, GInt) ].
Definition rows_CThostFtdcQuoteField_OrderSubmitStatus : list row :=
  [ ("OrderSubmitStatus", TChar, GChar) ].
Definition rows_CThostFtdcQuoteField_TradingDay : list row :=
  [ ("TradingDay", TChars 9, GString) ].
Definition rows_CThostFtdcQuoteField_SettlementID : list row :=
  [ ("SettlementID", TInt, GInt) ].
Definition rows_CThostFtdcQuoteField_QuoteSysID : list row :=
  [ ("QuoteSysID", TChars 21, GString) ].
Definition rows_CThostFtdcQuoteField_InsertDate : list row :=
  [ ("InsertDate", TChars 9, GString) ].
Definition rows_CThostFtdcQuoteField_InsertTime : list row :=
  [ ("InsertTime", TChars 9, GString) ].
Definition rows_CThostFtdcQuoteField_CancelTime : list row :=
  [ ("CancelTime", TChars 9, GString) ].
Definition rows_CThostFtdcQuoteField_QuoteStatus : list row :=
  [ ("QuoteStatus", TChar, GChar) ].
Definition rows_CThostFtdcQuoteField_ClearingPartID : list row :=
  [ ("ClearingPartID", TChars 11, GString) ].
Definition rows_CThostFtdcQuoteField_SequenceNo : list row :=
  [ ("SequenceNo", TInt, GInt) ].
Definition rows_CThostFtdcQuoteField_AskOrderSysID : list row :=
  [ ("AskOrderSysID", TChars 21, GString) ].
Definition rows_CThostFtdcQuoteField_BidOrderSysID : list row :=
  [ ("BidOrderSysID", TChars 21, GString) ].
Definition rows_CThostFtdcQuoteField_FrontID : list row :=
  [ ("FrontID", TInt, GInt);
    ("SessionID", TInt, GInt) ].
Definition rows_CThostFtdcQuoteField_UserProductInfo : list row :=
  [ ("UserProductInfo", TChars 11, GString) ].
Definition rows_CThostFtdcQuoteField_StatusMsg : list row :=
  [ ("StatusMsg", TChars 81, GString) ].
Definition rows_CThostFtdcQuoteField_ActiveUserID : list row :=
  [ ("ActiveUserID", TChars 16, GString) ].
Definition rows_CThostFtdcQuoteField_BrokerQuoteSeq : list row :=
  [ ("BrokerQuoteSeq", TInt, GInt) ].
Definition rows_CThostFtdcQuoteField_AskOrderRef : list row :=
  [ ("AskOrderRef", TChars 13, GString) ].
Definition rows_CThostFtdcQuoteField_BidOrderRef : list row :=
  [ ("BidOrderRef", TChars 13, GString) ].
Definition rows_CThostFtdcQuoteField_ForQuoteSysID : list row :=
  [ ("ForQuoteSysID", TChars 21, GString) ].
Definition rows_CThostFtdcQuoteField_BranchID : list row :=
  [ ("BranchID", TChars 9, GString) ].
Definition rows_CThostFtdcQuoteField_InvestUnitID : list row :=
  [ ("InvestUnitID", TChars 17, GString) ].
Definition rows_CThostFtdcQuoteField_AccountID : list row :=
  [ ("AccountID", TChars 13, GString) ].
Definition rows_CThostFtdcQuoteField_CurrencyID : list row :=
  [ ("CurrencyID", TChars 4, GString) ].
Definition rows_CThostFtdcQuoteField_reserve3 : list row :=
  [ ("reserve3", TChars 16, GString) ].
Definition rows_CThostFtdcQuoteField_MacAddress : list row :=
  [ ("MacAddress", TChars 21, GString) ].
Definition rows_CThostFtdcQuoteField_InstrumentID : list row :=
  [ ("InstrumentID", TChars 81, GString) ].
Definition rows_CThostFtdcQuoteField_ExchangeInstID : list row :=
  [ ("ExchangeInstID", TChars 81, GString) ].
Definition rows_CThostFtdcQuoteField_IPAddress : list row :=
  [ ("IPAddress", TChars 33, GString) ].
Definition rows_CThostFtdcQuoteField_ReplaceSysID : list row :=
  [ ("ReplaceSysID", TChars 21, GString) ].
Definition rows_CThostFtdcQuoteField_TimeCondition : list row :=
  [ ("TimeCondition", TChar, GChar) ].
Definition rows_CThostFtdcQuoteField_OrderMemo : list row :=
  [ ("OrderMemo", TChars 13, GString) ].
Definition rows_CThostFtdcQuoteField_SessionReqSeq : list row :=
  [ ("SessionReqSeq", TInt, GInt) ].
Definition wrap_CThostFtdcQuoteField : wrapper :=
  mk_wrapper 311
  ([ ("BrokerID", TChars 11, GString) ]
   ++ rows_CThostFtdcQuoteField_InvestorID
   ++ rows_CThostFtdcQuoteField_reserve1
   ++ rows_CThostFtdcQuoteField_QuoteRef
   ++ rows_CThostFtdcQuoteField_UserID
   ++ rows_CThostFtdcQuoteField_AskPrice
   ++ rows_CThostFtdcQuoteField_AskVolume
   ++ rows_CThostFtdcQuoteField_RequestID
   ++ rows_CThostFtdcQuoteField_BusinessUnit
   ++ rows_CThostFtdcQuoteField_AskOffsetFlag
   ++ rows_CThostFtdcQuoteField_AskHedgeFlag
   ++ rows_CThostFtdcQuoteField_QuoteLocalID
   ++ rows_CThostFtdcQuoteField_ExchangeID
   ++ rows_CThostFtdcQuoteField_ParticipantID
   ++ rows_CThostFtdcQuoteField_ClientID
   ++ rows_CThostFtdcQuoteField_reserve2
   ++ rows_CThostFtdcQuoteField_TraderID
   ++ rows_CThostFtdcQuoteField_InstallID
   ++ rows_CThostFtdcQuoteField_OrderSubmitStatus
   ++ rows_CThostFtdcQuoteField_TradingDay
   ++ rows_CThostFtdcQuoteField_SettlementID
   ++ rows_CThostFtdcQuoteField_QuoteSysID
   ++ rows_CThostFtdcQuoteField_InsertDate
   ++ rows_CThostFtdcQuoteField_InsertTime
   ++ rows_CThostFtdcQuoteField_CancelTime
   ++ rows_CThostFtdcQuoteField_QuoteStatus
   ++ rows_CThostFtdcQuoteField_ClearingPartID
   ++ rows_CThostFtdcQuoteField_SequenceNo
   ++ rows_CThostFtdcQuoteField_AskOrderSysID
   ++ rows_CThostFtdcQuoteField_BidOrderSysID
   ++ rows_CThostFtdcQuoteField_FrontID
   ++ rows_CThostFtdcQuoteField_UserProductInfo
   ++ rows_CThostFtdcQuoteField_StatusMsg
   ++ rows_CThostFtdcQuoteField_ActiveUserID
   ++ rows_CThostFtdcQuoteField_BrokerQuoteSeq
   ++ rows_CThostFtdcQuoteField_AskOrderRef
   ++ rows_CThostFtdcQuoteField_BidOrderRef
   ++ rows_CThostFtdcQuoteField_ForQuoteSysID
   ++ rows_CThostFtdcQuoteField_BranchID
   ++ rows_CThostFtdcQuoteField_InvestUnitID
   ++ rows_CThostFtdcQuoteField_AccountID
   ++ rows_CThostFtdcQuoteField_CurrencyID
   ++ rows_CThostFtdcQuoteField_reserve3
   ++ rows_CThostFtdcQuoteField_MacAddress
   ++ rows_CThostFtdcQuoteField_InstrumentID
   ++ rows_CThostFtdcQuoteField_ExchangeInstID
   ++ rows_CThostFtdcQuoteField_IPAddress
   ++ rows_CThostFtdcQuoteField_ReplaceSysID
   ++ rows_CThostFtdcQuoteField_TimeCondition
   ++ rows_CThostFtdcQuoteField_OrderMemo
   ++ rows_CThostFtdcQuoteField_SessionReqSeq).

Definition rows_CThostFtdcQuoteActionField_InvestorID : list row :=
  [ ("InvestorID", TChars 13, GString) ].
Definition rows_CThostFtdcQuoteActionField_QuoteActionRef : list row :=
  [ ("QuoteActionRef", TInt, GInt) ].
Definition rows_CThostFtdcQuoteActionField_QuoteRef : list row :=
  [ ("QuoteRef", TChars 13, GString) ].
Definition rows_CThostFtdcQuoteActionField_RequestID : list row :=
  [ ("RequestID", TInt, GInt);
    ("FrontID", TInt, GInt) ].
Definition rows_CThostFtdcQuoteActionField_SessionID : list row :=
  [ ("SessionID", TInt, GInt) ].
Definition rows_CThostFtdcQuoteActionField_ExchangeID : list row :=
  [ ("ExchangeID", TChars 9, GString) ].
Definition rows_CThostFtdcQuoteActionField_QuoteSysID : list row :=
  [ ("QuoteSysID", TChars 21, GString) ].
Definition rows_CThostFtdcQuoteActionField_ActionFlag : list row :=
  [ ("ActionFlag", TChar, GChar) ].
Definition rows_CThostFtdcQuoteActionField_ActionDate : list row :=
  [ ("ActionDate", TChars 9, GString) ].
Definition rows_CThostFtdcQuoteActionField_ActionTime : list row :=
  [ ("ActionTime", TChars 9, GString) ].
Definition rows_CThostFtdcQuoteActionField_TraderID : list row :=
  [ ("TraderID", TChars 21, GString) ].
Definition rows_CThostFtdcQuoteActionField_InstallID : list row :=
  [ ("InstallID", TInt, GInt) ].
Definition rows_CThostFtdcQuoteActionField_QuoteLocalID : list row :=
  [ ("QuoteLocalID", TChars 13, GString) ].
Definition rows_CThostFtdcQuoteActionField_ActionLocalID : list row :=
  [ ("ActionLocalID", TChars 13, GString) ].
Definition rows_CThostFtdcQuoteActionField_ParticipantID : list row :=
  [ ("ParticipantID", TChars 11, GString) ].
Definition rows_CThostFtdcQuoteActionField_ClientID : list row :=
  [ ("ClientID", TChars 11, GString) ].
Definition rows_CThostFtdcQuoteActionField_BusinessUnit : list row :=
  [ ("BusinessUnit", TChars 21, GString) ].
Definition rows_CThostFtdcQuoteActionField_OrderActionStatus : list row :=
  [ ("OrderActionStatus", TChar, GChar) ].
Definition rows_CThostFtdcQuoteActionField_UserID : list row :=
  [ ("UserID", TChars 16, GString) ].
Definition rows_CThostFtdcQuoteActionField_StatusMsg : list row :=
  [ ("StatusMsg", TChars 81, GString) ].
Definition rows_CThostFtdcQuoteActionField_reserve1 : list row :=
  [ ("reserve1", TChars 31, GString) ].
Definition rows_CThostFtdcQuoteActionField_BranchID : list row :=
  [ ("BranchID", TChars 9, GString) ].
Definition rows_CThostFtdcQuoteActionField_InvestUnitID : list row :=
  [ ("InvestUnitID", TChars 17, GString) ].
Definition rows_CThostFtdcQuoteActionField_reserve2 : list row :=
  [ ("reserve2", TChars 16, GString) ].
Definition rows_CThostFtdcQuoteActionField_MacAddress : list row :=
  [ ("MacAddress", TChars 21, GString) ].
Definition rows_CThostFtdcQuoteActionField_InstrumentID : list row :=
  [ ("InstrumentID", TChars 81, GString) ].
Definition rows_CThostFtdcQuoteActionField_IPAddress : list row :=
  [ ("IPAddress", TChars 33, GString) ].
Definition rows_CThostFtdcQuoteActionField_OrderMemo : list row :=
  [ ("OrderMemo", TChars 13, GString) ].
Definition rows_CThostFtdcQuoteActionField_SessionReqSeq : list row :=
  [ ("SessionReqSeq", TInt, GInt) ].
Definition wrap_CThostFtdcQuoteActionField : wrapper :=
  mk_wrapper 310
  ([ ("BrokerID", TChars 11, GString) ]
   ++ rows_CThostFtdcQuoteActionField_InvestorID
   ++ rows_CThostFtdcQuoteActionField_QuoteActionRef
   ++ rows_CThostFtdcQuoteActionField_QuoteRef
   ++ rows_CThostFtdcQuoteActionField_RequestID
   ++ rows_CThostFtdcQuoteActionField_SessionID
   ++ rows_CThostFtdcQuoteActionField_ExchangeID
   ++ rows_CThostFtdcQuoteActionField_QuoteSysID
   ++ rows_CThostFtdcQuoteActionField_ActionFlag
   ++ rows_CThostFtdcQuoteActionField_ActionDate
   ++ rows_CThostFtdcQuoteActionField_ActionTime
   ++ rows_CThostFtdcQuoteActionField_TraderID
   ++ rows_CThostFtdcQuoteActionField_InstallID
   ++ rows_CThostFtdcQuoteActionField_QuoteLocalID
   ++ rows_CThostFtdcQuoteActionField_ActionLocalID
   ++ rows_CThostFtdcQuoteActionField_ParticipantID
   ++ rows_CThostFtdcQuoteActionField_ClientID
   ++ rows_CThostFtdcQuoteActionField_BusinessUnit
   ++ rows_CThostFtdcQuoteActionField_OrderActionStatus
   ++ rows_CThostFtdcQuoteActionField_UserID
   ++ rows_CThostFtdcQuoteActionField_StatusMsg
   ++ rows_CThostFtdcQuoteActionField_reserve1
   ++ rows_CThostFtdcQuoteActionField_BranchID
   ++ rows_CThostFtdcQuoteActionField_InvestUnitID
   ++ rows_CThostFtdcQuoteActionField_reserve2
   ++ rows_CThostFtdcQuoteActionField_MacAddress
   ++ rows_CThostFtdcQuoteActionField_InstrumentID
   ++ rows_CThostFtdcQuoteActionField_IPAddress
   ++ rows_CThostFtdcQuoteActionField_OrderMemo
   ++ rows_CThostFtdcQuoteActionField_SessionReqSeq).

Definition rows_CThostFtdcQryQuoteField_InvestorID : list row :=
  [ ("InvestorID", TChars 13, GString) ].
Definition rows_CThostFtdcQryQuoteField_reserve1 : list row :=
  [ ("reserve1", TChars 31, GString) ].
Definition rows_CThostFtdcQryQuoteField_ExchangeID : list row :=
  [ ("ExchangeID", TChars 9, GString) ].
Definition rows_CThostFtdcQryQuoteField_QuoteSysID : list row :=
  [ ("QuoteSysID", TChars 21, GString) ].
Definition rows_CThostFtdcQryQuoteField_InsertTimeStart : list row :=
  [ ("InsertTimeStart", TChars 9, GString) ].
Definition rows_CThostFtdcQryQuoteField_InsertTimeEnd : list row :=
  [ ("InsertTimeEnd", TChars 9, GString) ].
Definition rows_CThostFtdcQryQuoteField_InvestUnitID : list row :=
  [ ("InvestUnitID", TChars 17, GString) ].
Definition rows_CThostFtdcQryQuoteField_InstrumentID : list row :=
  [ ("InstrumentID", TChars 81, GString) ].
Definition wrap_CThostFtdcQryQuoteField : wrapper :=
  mk_wrapper 262
  ([ ("BrokerID", TChars 11, GString) ]
   ++ rows_CThostFtdcQryQuoteField_InvestorID
   ++ rows_CThostFtdcQryQuoteField_reserve1
   ++ rows_CThostFtdcQryQuoteField_ExchangeID
   ++ rows_CThostFtdcQryQuoteField_QuoteSysID
   ++ rows_CThostFtdcQryQuoteField_InsertTimeStart
   ++ rows_CThostFtdcQryQuoteField_InsertTimeEnd
   ++ rows_CThostFtdcQryQuoteField_InvestUnitID
   ++ rows_CThostFtdcQryQuoteField_InstrumentID).

Definition rows_CThostFtdcExchangeQuoteField_AskVolume : list row :=
  [ ("AskVolume", TInt, GInt);
    ("BidVolume", TInt, GInt) ].
Definition rows_CThostFtdcExchangeQuoteField_RequestID : list row :=
  [ ("RequestID", TInt, GInt) ].
Definition rows_CThostFtdcExchangeQuoteField_BusinessUnit : list row :=
  [ ("BusinessUnit", TChars 21, GString) ].
Definition rows_CThostFtdcExchangeQuoteField_AskOffsetFlag : list row :=
  [ ("AskOffsetFlag", TChar, GChar);
    ("BidOffsetFlag", TChar, GChar) ].
Definition rows_CThostFtdcExchangeQuoteField_AskHedgeFlag : list row :=
  [ ("AskHedgeFlag", TChar, GChar);
    ("BidHedgeFlag", TChar, GChar) ].
Definition rows_CThostFtdcExchangeQuoteField_QuoteLocalID : list row :=
  [ ("QuoteLocalID", TChars 13, GString) ].
Definition rows_CThostFtdcExchangeQuoteField_ExchangeID : list row :=
  [ ("ExchangeID", TChars 9, GString) ].
Definition rows_CThostFtdcExchangeQuoteField_ParticipantID : list row :=
  [ ("ParticipantID", TChars 11, GString) ].
Definition rows_CThostFtdcExchangeQuoteField_ClientID : list row :=
  [ ("ClientID", TChars 11, GString) ].
Definition rows_CThostFtdcExchangeQuoteField_reserve1 : list row :=
  [ ("reserve1", TChars 31, GString) ].
Definition rows_CThostFtdcExchangeQuoteField_TraderID : list row :=
  [ ("TraderID", TChars 21, GString) ].
Definition rows_CThostFtdcExchangeQuoteField_InstallID : list row :=
  [ ("InstallID", TInt, GInt);
    ("NotifySequence", TInt, GInt) ].
Definition rows_CThostFtdcExchangeQuoteField_OrderSubmitStatus : list row :=
  [ ("OrderSubmitStatus", TChar, GChar) ].
Definition rows_CThostFtdcExchangeQuoteField_TradingDay : list row :=
  [ ("TradingDay", TChars 9, GString) ].
Definition rows_CThostFtdcExchangeQuoteField_SettlementID : list row :=
  [ ("SettlementID", TInt, GInt) ].
Definition rows_CThostFtdcExchangeQuoteField_QuoteSysID : list row :=
  [ ("QuoteSysID", TChars 21, GString) ].
Definition rows_CThostFtdcExchangeQuoteField_InsertDate : list row :=
  [ ("InsertDate", TChars 9, GString) ].
Definition rows_CThostFtdcExchangeQuoteField_InsertTime : list row :=
  [ ("InsertTime", TChars 9, GString) ].
Definition rows_CThostFtdcExchangeQuoteField_CancelTime : list row :=
  [ ("CancelTime", TChars 9, GString) ].
Definition rows_CThostFtdcExchangeQuoteField_QuoteStatus : list row :=
  [ ("QuoteStatus", TChar, GChar) ].
Definition rows_CThostFtdcExchangeQuoteField_ClearingPartID : list row :=
  [ ("ClearingPartID", TChars 11, GString) ].
Definition rows_CThostFtdcExchangeQuoteField_SequenceNo : list row :=
  [ ("SequenceNo", TInt, GInt) ].
Definition rows_CThostFtdcExchangeQuoteField_AskOrderSysID : list row :=
  [ ("AskOrderSysID", TChars 21, GString) ].
Definition rows_CThostFtdcExchangeQuoteField_BidOrderSysID : list row :=
  [ ("BidOrderSysID", TChars 21, GString) ].
Definition rows_CThostFtdcExchangeQuoteField_ForQuoteSysID : list row :=
  [ ("ForQuoteSysID", TChars 21, GString) ].
Definition rows_CThostFtdcExchangeQuoteField_BranchID : list row :=
  [ ("BranchID", TChars 9, GString) ].
Definition rows_CThostFtdcExchangeQuoteField_reserve2 : list row :=
  [ ("reserve2", TChars 16, GString) ].
Definition rows_CThostFtdcExchangeQuoteField_MacAddress : list row :=
  [ ("MacAddress", TChars 21, GString) ].
Definition rows_CThostFtdcExchangeQuoteField_ExchangeInstID : list row :=
  [ ("ExchangeInstID", TChars 81, GString) ].
Definition rows_CThostFtdcExchangeQuoteField_IPAddress : list row :=
  [ ("IPAddress", TChars 33, GString) ].
Definition rows_CThostFtdcExchangeQuoteField_TimeCondition : list row :=
  [ ("TimeCondition", TChar, GChar) ].
Definition wrap_CThostFtdcExchangeQuoteField : wrapper :=
  mk_wrapper 63
  ([ ("AskPrice", TDouble, GDouble);
    ("BidPrice", TDouble, GDouble) ]
   ++ rows_CThostFtdcExchangeQuoteField_AskVolume
   ++ rows_CThostFtdcExchangeQuoteField_RequestID
   ++ rows_CThostFtdcExchangeQuoteField_BusinessUnit
   ++ rows_CThostFtdcExchangeQuoteField_AskOffsetFlag
   ++ rows_CThostFtdcExchangeQuoteField_AskHedgeFlag
   ++ rows_CThostFtdcExchangeQuoteField_QuoteLocalID
   ++ rows_CThostFtdcExchangeQuoteField_ExchangeID
   ++ rows_CThostFtdcExchangeQuoteField_ParticipantID
   ++ rows_CThostFtdcExchangeQuoteField_ClientID
   ++ rows_CThostFtdcExchangeQuoteField_reserve1
   ++ rows_CThostFtdcExchangeQuoteField_TraderID
   ++ rows_CThostFtdcExchangeQuoteField_InstallID
   ++ rows_CThostFtdcExchangeQuoteField_OrderSubmitStatus
   ++ rows_CThostFtdcExchangeQuoteField_TradingDay
   ++ rows_CThostFtdcExchangeQuoteField_SettlementID
   ++ rows_CThostFtdcExchangeQuoteField_QuoteSysID
   ++ rows_CThostFtdcExchangeQuoteField_InsertDate
   ++ rows_CThostFtdcExchangeQuoteField_InsertTime
   ++ rows_CThostFtdcExchangeQuoteField_CancelTime
   ++ rows_CThostFtdcExchangeQuoteField_QuoteStatus
   ++ rows_CThostFtdcExchangeQuoteField_ClearingPartID
   ++ rows_CThostFtdcExchangeQuoteField_SequenceNo
   ++ rows_CThostFtdcExchangeQuoteField_AskOrderSysID
   ++ rows_CThostFtdcExchangeQuoteField_BidOrderSysID
   ++ rows_CThostFtdcExchangeQuoteField_ForQuoteSysID
   ++ rows_CThostFtdcExchangeQuoteField_BranchID
   ++ rows_CThostFtdcExchangeQuoteField_reserve2
   ++ rows_CThostFtdcExchangeQuoteField_MacAddress
   ++ rows_CThostFtdcExchangeQuoteField_ExchangeInstID
   ++ rows_CThostFtdcExchangeQuoteField_IPAddress
   ++ rows_CThostFtdcExchangeQuoteField_TimeCondition).

Definition rows_CThostFtdcQryExchangeQuoteField_ClientID : list row :=
  [ ("ClientID", TChars 11, GString) ].
Definition rows_CThostFtdcQryExchangeQuoteField_reserve1 : list row :=
  [ ("reserve1", TChars 31, GString) ].
Definition rows_CThostFtdcQryExchangeQuoteField_ExchangeID : list row :=
  [ ("ExchangeID", TChars 9, GString) ].
Definition rows_CThostFtdcQryExchangeQuoteField_TraderID : list row :=
  [ ("TraderID", TChars 21, GString) ].
Definition rows_CThostFtdcQryExchangeQuoteField_ExchangeInstID : list row :=
  [ ("ExchangeInstID", TChars 81, GString) ].
Definition wrap_CThostFtdcQryExchangeQuoteField : wrapper :=
  mk_wrapper 207
  ([ ("ParticipantID", TChars 11, GString) ]
   ++ rows_CThostFtdcQryExchangeQuoteField_ClientID
   ++ rows_CThostFtdcQryExchangeQuoteField_reserve1
   ++ rows_CThostFtdcQryExchangeQuoteField_ExchangeID
   ++ rows_CThostFtdcQryExchangeQuoteField_TraderID
   ++ rows_CThostFtdcQryExchangeQuoteField_ExchangeInstID).

Definition rows_CThostFtdcQryQuoteActionField_InvestorID : list row :=
  [ ("InvestorID", TChars 13, GString) ].
Definition rows_CThostFtdcQryQuoteActionField_ExchangeID : list row :=
  [ ("ExchangeID", TChars 9, GString) ].
Definition wrap_CThostFtdcQryQuoteActionField : wrapper :=
  mk_wrapper 261
  ([ ("BrokerID", TChars 11, GString) ]
   ++ rows_CThostFtdcQryQuoteActionField_InvestorID
   ++ rows_CThostFtdcQryQuoteActionField_ExchangeID).

Definition rows_CThostFtdcExchangeQuoteActionField_QuoteSysID : list row :=
  [ ("QuoteSysID", TChars 21, GString) ].
Definition rows_CThostFtdcExchangeQuoteActionField_ActionFlag : list row :=
  [ ("ActionFlag", TChar, GChar) ].
Definition rows_CThostFtdcExchangeQuoteActionField_ActionDate : list row :=
  [ ("ActionDate", TChars 9, GString) ].
Definition rows_CThostFtdcExchangeQuoteActionField_ActionTime : list row :=
  [ ("ActionTime", TChars 9, GString) ].
Definition rows_CThostFtdcExchangeQuoteActionField_TraderID : list row :=
  [ ("TraderID", TChars 21, GString) ].
Definition rows_CThostFtdcExchangeQuoteActionField_InstallID : list row :=
  [ ("InstallID", TInt, GInt) ].
Definition rows_CThostFtdcExchangeQuoteActionField_QuoteLocalID : list row :=
  [ ("QuoteLocalID", TChars 13, GString) ].
Definition rows_CThostFtdcExchangeQuoteActionField_ActionLocalID : list row :=
  [ ("ActionLocalID", TChars 13, GString) ].
Definition rows_CThostFtdcExchangeQuoteActionField_ParticipantID : list row :=
  [ ("ParticipantID", TChars 11, GString) ].
Definition rows_CThostFtdcExchangeQuoteActionField_ClientID : list row :=
  [ ("ClientID", TChars 11, GString) ].
Definition rows_CThostFtdcExchangeQuoteActionField_BusinessUnit : list row :=
  [ ("BusinessUnit", TChars 21, GString) ].
Definition rows_CThostFtdcExchangeQuoteActionField_OrderActionStatus : list row :=
  [ ("OrderActionStatus", TChar, GChar) ].
Definition rows_CThostFtdcExchangeQuoteActionField_UserID : list row :=
  [ ("UserID", TChars 16, GString) ].
Definition rows_CThostFtdcExchangeQuoteActionField_reserve1 : list row :=
  [ ("reserve1", TChars 16, GString) ].
Definition rows_CThostFtdcExchangeQuoteActionField_MacAddress : list row :=
  [ ("MacAddress", TChars 21, GString) ].
Definition rows_CThostFtdcExchangeQuoteActionField_IPAddress : list row :=
  [ ("IPAddress", TChars 33, GString) ].
Definition wrap_CThostFtdcExchangeQuoteActionField : wrapper :=
  mk_wrapper 62
  ([ ("ExchangeID", TChars 9, GString) ]
   ++ rows_CThostFtdcExchangeQuoteActionField_QuoteSysID
   ++ rows_CThostFtdcExchangeQuoteActionField_ActionFlag
   ++ rows_CThostFtdcExchangeQuoteActionField_ActionDate
   ++ rows_CThostFtdcExchangeQuoteActionField_ActionTime
   ++ rows_CThostFtdcExchangeQuoteActionField_TraderID
   ++ rows_CThostFtdcExchangeQuoteActionField_InstallID
   ++ rows_CThostFtdcExchangeQuoteActionField_QuoteLocalID
   ++ rows_CThostFtdcExchangeQuoteActionField_ActionLocalID
   ++ rows_CThostFtdcExchangeQuoteActionField_ParticipantID
   ++ rows_CThostFtdcExchangeQuoteActionField_ClientID
   ++ rows_CThostFtdcExchangeQuoteActionField_BusinessUnit
   ++ rows_CThostFtdcExchangeQuoteActionField_OrderActionStatus
   ++ rows_CThostFtdcExchangeQuoteActionField_UserID
   ++ rows_CThostFtdcExchangeQuoteActionField_reserve1
   ++ rows_CThostFtdcExchangeQuoteActionField_MacAddress
   ++ rows_CThostFtdcExchangeQuoteActionField_IPAddress).

Definition rows_CThostFtdcQryExchangeQuoteActionField_ClientID : list row :=
  [ ("ClientID", TChars 11, GString) ].
Definition rows_CThostFtdcQryExchangeQuoteActionField_ExchangeID : list row :=
  [ ("ExchangeID", TChars 9, GString) ].
Definition rows_CThostFtdcQryExchangeQuoteActionField_TraderID : list row :=
  [ ("TraderID", TChars 21, GString) ].
Definition wrap_CThostFtdcQryExchangeQuoteActionField : wrapper :=
  mk_wrapper 206
  ([ ("ParticipantID", TChars 11, GString) ]
   ++ rows_CThostFtdcQryExchangeQuoteActionField_ClientID
   ++ rows_CThostFtdcQryExchangeQuoteActionField_ExchangeID
   ++ rows_CThostFtdcQryExchangeQuoteActionField_TraderID).

Definition rows_CThostFtdcOptionInstrDeltaField_InvestorRange : list row :=
  [ ("InvestorRange", TChar, GChar) ].
Definition rows_CThostFtdcOptionInstrDeltaField_BrokerID : list row :=
  [ ("BrokerID", TChars 11, GString) ].
Definition rows_CThostFtdcOptionInstrDeltaField_InvestorID : list row :=
  [ ("InvestorID", TChars 13, GString) ].
Definition rows_CThostFtdcOptionInstrDeltaField_Delta : list row :=
  [ ("Delta", TDouble, GDouble) ].
Definition rows_CThostFtdcOptionInstrDeltaField_InstrumentID : list row :=
  [ ("InstrumentID", TChars 81, GString) ].
Definition wrap_CThostFtdcOptionInstrDeltaField : wrapper :=
  mk_wrapper 154
  ([ ("reserve1", TChars 31, GString) ]
   ++ rows_CThostFtdcOptionInstrDeltaField_InvestorRange
   ++ rows_CThostFtdcOptionInstrDeltaField_BrokerID
   ++ rows_CThostFtdcOptionInstrDeltaField_InvestorID
   ++ rows_CThostFtdcOptionInstrDeltaField_Delta
   ++ rows_CThostFtdcOptionInstrDeltaField_InstrumentID).

Definition rows_CThostFtdcForQuoteRspField_reserve1 : list row :=
  [ ("reserve1", TChars 31, GString) ].
Definition rows_CThostFtdcForQuoteRspField_ForQuoteSysID : list row :=
  [ ("ForQuoteSysID", TChars 21, GString) ].
Definition rows_CThostFtdcForQuoteRspField_ForQuoteTime : list row :=
  [ ("ForQuoteTime", TChars 9, GString) ].
Definition rows_CThostFtdcForQuoteRspField_ActionDay : list row :=
  [ ("ActionDay", TChars 9, GString) ].
Definition rows_CThostFtdcForQuoteRspField_ExchangeID : list row :=
  [ ("ExchangeID", TChars 9, GString) ].
Definition rows_CThostFtdcForQuoteRspField_InstrumentID : list row :=
  [ ("InstrumentID", TChars 81, GString) ].
Definition wrap_CThostFtdcForQuoteRspField : wrapper :=
  mk_wrapper 73
  ([ ("TradingDay", TChars 9, GString) ]
   ++ rows_CThostFtdcForQuoteRspField_reserve1
   ++ rows_CThostFtdcForQuoteRspField_ForQuoteSysID
   ++ rows_CThostFtdcForQuoteRspField_ForQuoteTime
   ++ rows_CThostFtdcForQuoteRspField_ActionDay
   ++ rows_CThostFtdcForQuoteRspField_ExchangeID
   ++ rows_CThostFtdcForQuoteRspField_InstrumentID).

Definition rows_CThostFtdcStrikeOffsetField_InvestorRange : list row :=
  [ ("InvestorRange", TChar, GChar) ].
Definition rows_CThostFtdcStrikeOffsetField_BrokerID : list row :=
  [ ("BrokerID", TChars 11, GString) ].
Definition rows_CThostFtdcStrikeOffsetField_InvestorID : list row :=
  [ ("InvestorID", TChars 13, GString) ].
Definition rows_CThostFtdcStrikeOffsetField_Offset : list row :=
  [ ("Offset", TDouble, GDouble);
    ("OffsetType", TChar, GChar) ].
Definition rows_CThostFtdcStrikeOffsetField_InstrumentID : list row :=
  [ ("InstrumentID", TChars 81, GString) ].
Definition wrap_CThostFtdcStrikeOffsetField : wrapper :=
  mk_wrapper 380
  ([ ("reserve1", TChars 31, GString) ]
   ++ rows_CThostFtdcStrikeOffsetField_InvestorRange
   ++ rows_CThostFtdcStrikeOffsetField_BrokerID
   ++ rows_CThostFtdcStrikeOffsetField_InvestorID
   ++ rows_CThostFtdcStrikeOffsetField_Offset
   ++ rows_CThostFtdcStrikeOffsetField_InstrumentID).

Definition rows_CThostFtdcQryStrikeOffsetField_InvestorID : list row :=
  [ ("InvestorID", TChars 13, GString) ].
Definition rows_CThostFtdcQryStrikeOffsetField_reserve1 : list row :=
  [ ("reserve1", TChars 31, GString) ].
Definition rows_CThostFtdcQryStrikeOffsetField_InstrumentID : list row :=
  [ ("InstrumentID", TChars 81, GString) ].
Definition wrap_CThostFtdcQryStrikeOffsetField : wrapper :=
  mk_wrapper 288
  ([ ("BrokerID", TChars 11, GString) ]
   ++ rows_CThostFtdcQryStrikeOffsetField_InvestorID
   ++ rows_CThostFtdcQryStrikeOffsetField_reserve1
   ++ rows_CThostFtdcQryStrikeOffsetField_InstrumentID).

Definition rows_CThostFtdcInputBatchOrderActionField_InvestorID : list row :=
  [ ("InvestorID", TChars 13, GString) ].
Definition rows_CThostFtdcInputBatchOrderActionField_OrderActionRef : list row :=
  [ ("OrderActionRef", TInt, GInt);
    ("RequestID", TInt, GInt) ].
Definition rows_CThostFtdcInputBatchOrderActionField_FrontID : list row :=
  [ ("FrontID", TInt, GInt);
    ("SessionID", TInt, GInt) ].
Definition rows_CThostFtdcInputBatchOrderActionField_ExchangeID : list row :=
  [ ("ExchangeID", TChars 9, GString) ].
Definition rows_CThostFtdcInputBatchOrderActionField_UserID : list row :=
  [ ("UserID", TChars 16, GString) ].
Definition rows_CThostFtdcInputBatchOrderActionField_InvestUnitID : list row :=
  [ ("InvestUnitID", TChars 17, GString) ].
Definition rows_CThostFtdcInputBatchOrderActionField_reserve1 : list row :=
  [ ("reserve1", TChars 16, GString) ].
Definition rows_CThostFtdcInputBatchOrderActionField_MacAddress : list row :=
  [ ("MacAddress", TChars 21, GString) ].
Definition rows_CThostFtdcInputBatchOrderActionField_IPAddress : list row :=
  [ ("IPAddress", TChars 33, GString) ].
Definition wrap_CThostFtdcInputBatchOrderActionField : wrapper :=
  mk_wrapper 81
  ([ ("BrokerID", TChars 11, GString) ]
   ++ rows_CThostFtdcInputBatchOrderActionField_InvestorID
   ++ rows_CThostFtdcInputBatchOrderActionField_OrderActionRef
   ++ rows_CThostFtdcInputBatchOrderActionField_FrontID
   ++ rows_CThostFtdcInputBatchOrderActionField_ExchangeID
   ++ rows_CThostFtdcInputBatchOrderActionField_UserID
   ++ rows_CThostFtdcInputBatchOrderActionField_InvestUnitID
   ++ rows_CThostFtdcInputBatchOrderActionField_reserve1
   ++ rows_CThostFtdcInputBatchOrderActionField_MacAddress
   ++ rows_CThostFtdcInputBatchOrderActionField_IPAddress).

Definition rows_CThostFtdcBatchOrderActionField_InvestorID : list row :=
  [ ("InvestorID", TChars 13, GString) ].
Definition rows_CThostFtdcBatchOrderActionField_OrderActionRef : list row :=
  [ ("OrderActionRef", TInt, GInt);
    ("RequestID", TInt, GInt) ].
Definition rows_CThostFtdcBatchOrderActionField_FrontID : list row :=
  [ ("FrontID", TInt, GInt);
    ("SessionID", TInt, GInt) ].
Definition rows_CThostFtdcBatchOrderActionField_ExchangeID : list row :=
  [ ("ExchangeID", TChars 9, GString) ].
Definition rows_CThostFtdcBatchOrderActionField_ActionDate : list row :=
  [ ("ActionDate", TChars 9, GString) ].
Definition rows_CThostFtdcBatchOrderActionField_ActionTime : list row :=
  [ ("ActionTime", TChars 9, GString) ].
Definition rows_CThostFtdcBatchOrderActionField_TraderID : list row :=
  [ ("TraderID", TChars 21, GString) ].
Definition rows_CThostFtdcBatchOrderActionField_InstallID : list row :=
  [ ("InstallID", TInt, GInt) ].
Definition rows_CThostFtdcBatchOrderActionField_ActionLocalID : list row :=
  [ ("ActionLocalID", TChars 13, GString) ].
Definition rows_CThostFtdcBatchOrderActionField_ParticipantID : list row :=
  [ ("ParticipantID", TChars 11, GString) ].
Definition rows_CThostFtdcBatchOrderActionField_ClientID : list row :=
  [ ("ClientID", TChars 11, GString) ].
Definition rows_CThostFtdcBatchOrderActionField_BusinessUnit : list row :=
  [ ("BusinessUnit", TChars 21, GString) ].
Definition rows_CThostFtdcBatchOrderActionField_OrderActionStatus : list row :=
  [ ("OrderActionStatus", TChar, GChar) ].
Definition rows_CThostFtdcBatchOrderActionField_UserID : list row :=
  [ ("UserID", TChars 16, GString) ].
Definition rows_CThostFtdcBatchOrderActionField_StatusMsg : list row :=
  [ ("StatusMsg", TChars 81, GString) ].
Definition rows_CThostFtdcBatchOrderActionField_InvestUnitID : list row :=
  [ ("InvestUnitID", TChars 17, GString) ].
Definition rows_CThostFtdcBatchOrderActionField_reserve1 : list row :=
  [ ("reserve1", TChars 16, GString) ].
Definition rows_CThostFtdcBatchOrderActionField_MacAddress : list row :=
  [ ("MacAddress", TChars 21, GString) ].
Definition rows_CThostFtdcBatchOrderActionField_IPAddress : list row :=
  [ ("IPAddress", TChars 33, GString) ].
Definition wrap_CThostFtdcBatchOrderActionField : wrapper :=
  mk_wrapper 7
  ([ ("BrokerID", TChars 11, GString) ]
   ++ rows_CThostFtdcBatchOrderActionField_InvestorID
   ++ rows_CThostFtdcBatchOrderActionField_OrderActionRef
   ++ rows_CThostFtdcBatchOrderActionField_FrontID
   ++ rows_CThostFtdcBatchOrderActionField_ExchangeID
   ++ rows_CThostFtdcBatchOrderActionField_ActionDate
   ++ rows_CThostFtdcBatchOrderActionField_ActionTime
   ++ rows_CThostFtdcBatchOrderActionField_TraderID
   ++ rows_CThostFtdcBatchOrderActionField_InstallID
   ++ rows_CThostFtdcBatchOrderActionField_ActionLocalID
   ++ rows_CThostFtdcBatchOrderActionField_ParticipantID
   ++ rows_CThostFtdcBatchOrderActionField_ClientID
   ++ rows_CThostFtdcBatchOrderActionField_BusinessUnit
   ++ rows_CThostFtdcBatchOrderActionField_OrderActionStatus
   ++ rows_CThostFtdcBatchOrderActionField_UserID
   ++ rows_CThostFtdcBatchOrderActionField_StatusMsg
   ++ rows_CThostFtdcBatchOrderActionField_InvestUnitID
   ++ rows_CThostFtdcBatchOrderActionField_reserve1
   ++ rows_CThostFtdcBatchOrderActionField_MacAddress
   ++ rows_CThostFtdcBatchOrderActionField_IPAddress).

Definition rows_CThostFtdcExchangeBatchOrderActionField_ActionDate : list row :=
  [ ("ActionDate", TChars 9, GString) ].
Definition rows_CThostFtdcExchangeBatchOrderActionField_ActionTime : list row :=
  [ ("ActionTime", TChars 9, GString) ].
Definition rows_CThostFtdcExchangeBatchOrderActionField_TraderID : list row :=
  [ ("TraderID", TChars 21, GString) ].
Definition rows_CThostFtdcExchangeBatchOrderActionField_InstallID : list row :=
  [ ("InstallID", TInt, GInt) ].
Definition rows_CThostFtdcExchangeBatchOrderActionField_ActionLocalID : list row :=
  [ ("ActionLocalID", TChars 13, GString) ].
Definition rows_CThostFtdcExchangeBatchOrderActionField_ParticipantID : list row :=
  [ ("ParticipantID", TChars 11, GString) ].
Definition rows_CThostFtdcExchangeBatchOrderActionField_ClientID : list row :=
  [ ("ClientID", TChars 11, GString) ].
Definition rows_CThostFtdcExchangeBatchOrderActionField_BusinessUnit : list row :=
  [ ("BusinessUnit", TChars 21, GString) ].
Definition rows_CThostFtdcExchangeBatchOrderActionField_OrderActionStatus : list row :=
  [ ("OrderActionStatus", TChar, GChar) ].
Definition rows_CThostFtdcExchangeBatchOrderActionField_UserID : list row :=
  [ ("UserID", TChars 16, GString) ].
Definition rows_CThostFtdcExchangeBatchOrderActionField_reserve1 : list row :=
  [ ("reserve1", TChars 16, GString) ].
Definition rows_CThostFtdcExchangeBatchOrderActionField_MacAddress : list row :=
  [ ("MacAddress", TChars 21, GString) ].
Definition rows_CThostFtdcExchangeBatchOrderActionField_IPAddress : list row :=
  [ ("IPAddress", TChars 33, GString) ].
Definition wrap_CThostFtdcExchangeBatchOrderActionField : wrapper :=
  mk_wrapper 48
  ([ ("ExchangeID", TChars 9, GString) ]
   ++ rows_CThostFtdcExchangeBatchOrderActionField_ActionDate
   ++ rows_CThostFtdcExchangeBatchOrderActionField_ActionTime
   ++ rows_CThostFtdcExchangeBatchOrderActionField_TraderID
   ++ rows_CThostFtdcExchangeBatchOrderActionField_InstallID
   ++ rows_CThostFtdcExchangeBatchOrderActionField_ActionLocalID
   ++ rows_CThostFtdcExchangeBatchOrderActionField_ParticipantID
   ++ rows_CThostFtdcExchangeBatchOrderActionField_ClientID
   ++ rows_CThostFtdcExchangeBatchOrderActionField_BusinessUnit
   ++ rows_CThostFtdcExchangeBatchOrderActionField_OrderActionStatus
   ++ rows_CThostFtdcExchangeBatchOrderActionField_UserID
   ++ rows_CThostFtdcExchangeBatchOrderActionField_reserve1
   ++ rows_CThostFtdcExchangeBatchOrderActionField_MacAddress
   ++ rows_CThostFtdcExchangeBatchOrderActionField_IPAddress).

Definition rows_CThostFtdcQryBatchOrderActionField_InvestorID : list row :=
  [ ("InvestorID", TChars 13, GString) ].
Definition rows_CThostFtdcQryBatchOrderActionField_ExchangeID : list row :=
  [ ("ExchangeID", TChars 9, GString) ].
Definition wrap_CThostFtdcQryBatchOrderActionField : wrapper :=
  mk_wrapper 173
  ([ ("BrokerID", TChars 11, GString) ]
   ++ rows_CThostFtdcQryBatchOrderActionField_InvestorID
   ++ rows_CThostFtdcQryBatchOrderActionField_ExchangeID).

Definition rows_CThostFtdcCombInstrumentGuardField_reserve1 : list row :=
  [ ("reserve1", TChars 31, GString) ].
Definition rows_CThostFtdcCombInstrumentGuardField_GuarantRatio : list row :=
  [ ("GuarantRatio", TDouble, GDouble) ].
Definition rows_CThostFtdcCombInstrumentGuardField_ExchangeID : list row :=
  [ ("ExchangeID", TChars 9, GString) ].
Definition rows_CThostFtdcCombInstrumentGuardField_InstrumentID : list row :=
  [ ("InstrumentID", TChars 81, GString) ].
Definition wrap_CThostFtdcCombInstrumentGuardField : wrapper :=
  mk_wrapper 27
  ([ ("BrokerID", TChars 11, GString) ]
   ++ rows_CThostFtdcCombInstrumentGuardField_reserve1
   ++ rows_CThostFtdcCombInstrumentGuardField_GuarantRatio
   ++ rows_CThostFtdcCombInstrumentGuardField_ExchangeID
   ++ rows_CThostFtdcCombInstrumentGuardField_InstrumentID).

(** The wrappers above, by the name of their structure. *)
Definition wrappers : list (string * wrapper) :=
  [ ("CThostFtdcDisseminationField", wrap_CThostFtdcDisseminationField);
    ("CThostFtdcReqUserLoginField", wrap_CThostFtdcReqUserLoginField);
    ("CThostFtdcRspUserLoginField", wrap_CThostFtdcRspUserLoginField);
    ("CThostFtdcUserLogoutField", wrap_CThostFtdcUserLogoutField);
    ("CThostFtdcForceUserLogoutField", wrap_CThostFtdcForceUserLogoutField);
    ("CThostFtdcReqAuthenticateField", wrap_CThostFtdcReqAuthenticateField);
    ("CThostFtdcRspAuthenticateField", wrap_CThostFtdcRspAuthenticateField);
    ("CThostFtdcAuthenticationInfoField", wrap_CThostFtdcAuthenticationInfoField);
    ("CThostFtdcRspUserLogin2Field", wrap_CThostFtdcRspUserLogin2Field);
    ("CThostFtdcTransferHeaderField", wrap_CThostFtdcTransferHeaderField);
    ("CThostFtdcTransferBankToFutureReqField", wrap_CThostFtdcTransferBankToFutureReqField);
    ("CThostFtdcTransferBankToFutureRspField", wrap_CThostFtdcTransferBankToFutureRspField);
    ("CThostFtdcTransferFutureToBankReqField", wrap_CThostFtdcTransferFutureToBankReqField);
    ("CThostFtdcTransferFutureToBankRspField", wrap_CThostFtdcTransferFutureToBankRspField);
    ("CThostFtdcTransferQryBankReqField", wrap_CThostFtdcTransferQryBankReqField);
    ("CThostFtdcTransferQryBankRspField", wrap_CThostFtdcTransferQryBankRspField);
    ("CThostFtdcTransferQryDetailReqField", wrap_CThostFtdcTransferQryDetailReqField);
    ("CThostFtdcTransferQryDetailRspField", wrap_CThostFtdcTransferQryDetailRspField);
    ("CThostFtdcRspInfoField", wrap_CThostFtdcRspInfoField);
    ("CThostFtdcExchangeField", wrap_CThostFtdcExchangeField);
    ("CThostFtdcProductField", wrap_CThostFtdcProductField);
    ("CThostFtdcInstrumentField", wrap_CThostFtdcInstrumentField);
    ("CThostFtdcBrokerField", wrap_CThostFtdcBrokerField);
    ("CThostFtdcTraderField", wrap_CThostFtdcTraderField);
    ("CThostFtdcInvestorField", wrap_CThostFtdcInvestorField);
    ("CThostFtdcTradingCodeField", wrap_CThostFtdcTradingCodeField);
    ("CThostFtdcPartBrokerField", wrap_CThostFtdcPartBrokerField);
    ("CThostFtdcSuperUserField", wrap_CThostFtdcSuperUserField);
    ("CThostFtdcSuperUserFunctionField", wrap_CThostFtdcSuperUserFunctionField);
    ("CThostFtdcInvestorGroupField", wrap_CThostFtdcInvestorGroupField);
    ("CThostFtdcTradingAccountField", wrap_CThostFtdcTradingAccountField);
    ("CThostFtdcInvestorPositionField", wrap_CThostFtdcInvestorPositionField);
    ("CThostFtdcInstrumentMarginRateField", wrap_CThostFtdcInstrumentMarginRateField);
    ("CThostFtdcInstrumentCommissionRateField", wrap_CThostFtdcInstrumentCommissionRateField);
    ("CThostFtdcDepthMarketDataField", wrap_CThostFtdcDepthMarketDataField);
    ("CThostFtdcInstrumentTradingRightField", wrap_CThostFtdcInstrumentTradingRightField);
    ("CThostFtdcBrokerUserField", wrap_CThostFtdcBrokerUserField);
    ("CThostFtdcBrokerUserPasswordField", wrap_CThostFtdcBrokerUserPasswordField);
    ("CThostFtdcBrokerUserFunctionField", wrap_CThostFtdcBrokerUserFunctionField);
    ("CThostFtdcTraderOfferField", wrap_CThostFtdcTraderOfferField);
    ("CThostFtdcSettlementInfoField", wrap_CThostFtdcSettlementInfoField);
    ("CThostFtdcInstrumentMarginRateAdjustField", wrap_CThostFtdcInstrumentMarginRateAdjustField);
    ("CThostFtdcExchangeMarginRateField", wrap_CThostFtdcExchangeMarginRateField);
    ("CThostFtdcExchangeMarginRateAdjustField", wrap_CThostFtdcExchangeMarginRateAdjustField);
    ("CThostFtdcExchangeRateField", wrap_CThostFtdcExchangeRateField);
    ("CThostFtdcSettlementRefField", wrap_CThostFtdcSettlementRefField);
    ("CThostFtdcCurrentTimeField", wrap_CThostFtdcCurrentTimeField);
    ("CThostFtdcCommPhaseField", wrap_CThostFtdcCommPhaseField);
    ("CThostFtdcLoginInfoField", wrap_CThostFtdcLoginInfoField);
    ("CThostFtdcLogoutAllField", wrap_CThostFtdcLogoutAllField);
    ("CThostFtdcFrontStatusField", wrap_CThostFtdcFrontStatusField);
    ("CThostFtdcUserPasswordUpdateField", wrap_CThostFtdcUserPasswordUpdateField);
    ("CThostFtdcInputOrderField", wrap_CThostFtdcInputOrderField);
    ("CThostFtdcOrderField", wrap_CThostFtdcOrderField);
    ("CThostFtdcExchangeOrderField", wrap_CThostFtdcExchangeOrderField);
    ("CThostFtdcExchangeOrderInsertErrorField", wrap_CThostFtdcExchangeOrderInsertErrorField);
    ("CThostFtdcInputOrderActionField", wrap_CThostFtdcInputOrderActionField);
    ("CThostFtdcOrderActionField", wrap_CThostFtdcOrderActionField);
    ("CThostFtdcExchangeOrderActionField", wrap_CThostFtdcExchangeOrderActionField);
    ("CThostFtdcExchangeOrderActionErrorField", wrap_CThostFtdcExchangeOrderActionErrorField);
    ("CThostFtdcExchangeTradeField", wrap_CThostFtdcExchangeTradeField);
    ("CThostFtdcTradeField", wrap_CThostFtdcTradeField);
    ("CThostFtdcUserSessionField", wrap_CThostFtdcUserSessionField);
    ("CThostFtdcQryMaxOrderVolumeField", wrap_CThostFtdcQryMaxOrderVolumeField);
    ("CThostFtdcSettlementInfoConfirmField", wrap_CThostFtdcSettlementInfoConfirmField);
    ("CThostFtdcSyncDepositField", wrap_CThostFtdcSyncDepositField);
    ("CThostFtdcSyncFundMortgageField", wrap_CThostFtdcSyncFundMortgageField);
    ("CThostFtdcBrokerSyncField", wrap_CThostFtdcBrokerSyncField);
    ("CThostFtdcSyncingInvestorField", wrap_CThostFtdcSyncingInvestorField);
    ("CThostFtdcSyncingTradingCodeField", wrap_CThostFtdcSyncingTradingCodeField);
    ("CThostFtdcSyncingInvestorGroupField", wrap_CThostFtdcSyncingInvestorGroupField);
    ("CThostFtdcSyncingTradingAccountField", wrap_CThostFtdcSyncingTradingAccountField);
    ("CThostFtdcSyncingInvestorPositionField", wrap_CThostFtdcSyncingInvestorPositionField);
    ("CThostFtdcSyncingInstrumentMarginRateField", wrap_CThostFtdcSyncingInstrumentMarginRateField);
    ("CThostFtdcSyncingInstrumentCommissionRateField", wrap_CThostFtdcSyncingInstrumentCommissionRateField);
    ("CThostFtdcSyncingInstrumentTradingRightField", wrap_CThostFtdcSyncingInstrumentTradingRightField);
    ("CThostFtdcQryOrderField", wrap_CThostFtdcQryOrderField);
    ("CThostFtdcQryTradeField", wrap_CThostFtdcQryTradeField);
    ("CThostFtdcQryInvestorPositionField", wrap_CThostFtdcQryInvestorPositionField);
    ("CThostFtdcQryTradingAccountField", wrap_CThostFtdcQryTradingAccountField);
    ("CThostFtdcQryInvestorField", wrap_CThostFtdcQryInvestorField);
    ("CThostFtdcQryTradingCodeField", wrap_CThostFtdcQryTradingCodeField);
    ("CThostFtdcQryInvestorGroupField", wrap_CThostFtdcQryInvestorGroupField);
    ("CThostFtdcQryInstrumentMarginRateField", wrap_CThostFtdcQryInstrumentMarginRateField);
    ("CThostFtdcQryInstrumentCommissionRateField", wrap_CThostFtdcQryInstrumentCommissionRateField);
    ("CThostFtdcQryInstrumentTradingRightField", wrap_CThostFtdcQryInstrumentTradingRightField);
    ("CThostFtdcQryBrokerField", wrap_CThostFtdcQryBrokerField);
    ("CThostFtdcQryTraderField", wrap_CThostFtdcQryTraderField);
    ("CThostFtdcQrySuperUserFunctionField", wrap_CThostFtdcQrySuperUserFunctionField);
    ("CThostFtdcQryUserSessionField", wrap_CThostFtdcQryUserSessionField);
    ("CThostFtdcQryPartBrokerField", wrap_CThostFtdcQryPartBrokerField);
    ("CThostFtdcQryFrontStatusField", wrap_CThostFtdcQryFrontStatusField);
    ("CThostFtdcQryExchangeOrderField", wrap_CThostFtdcQryExchangeOrderField);
    ("CThostFtdcQryOrderActionField", wrap_CThostFtdcQryOrderActionField);
    ("CThostFtdcQryExchangeOrderActionField", wrap_CThostFtdcQryExchangeOrderActionField);
    ("CThostFtdcQrySuperUserField", wrap_CThostFtdcQrySuperUserField);
    ("CThostFtdcQryExchangeField", wrap_CThostFtdcQryExchangeField);
    ("CThostFtdcQryProductField", wrap_CThostFtdcQryProductField);
    ("CThostFtdcQryInstrumentField", wrap_CThostFtdcQryInstrumentField);
    ("CThostFtdcQryDepthMarketDataField", wrap_CThostFtdcQryDepthMarketDataField);
    ("CThostFtdcQryBrokerUserField", wrap_CThostFtdcQryBrokerUserField);
    ("CThostFtdcQryBrokerUserFunctionField", wrap_CThostFtdcQryBrokerUserFunctionField);
    ("CThostFtdcQryTraderOfferField", wrap_CThostFtdcQryTraderOfferField);
    ("CThostFtdcQrySyncDepositField", wrap_CThostFtdcQrySyncDepositField);
    ("CThostFtdcQrySettlementInfoField", wrap_CThostFtdcQrySettlementInfoField);
    ("CThostFtdcQryExchangeMarginRateField", wrap_CThostFtdcQryExchangeMarginRateField);
    ("CThostFtdcQryExchangeMarginRateAdjustField", wrap_CThostFtdcQryExchangeMarginRateAdjustField);
    ("CThostFtdcQryExchangeRateField", wrap_CThostFtdcQryExchangeRateField);
    ("CThostFtdcQrySyncFundMortgageField", wrap_CThostFtdcQrySyncFundMortgageField);
    ("CThostFtdcQryHisOrderField", wrap_CThostFtdcQryHisOrderField);
    ("CThostFtdcOptionInstrMiniMarginField", wrap_CThostFtdcOptionInstrMiniMarginField);
    ("CThostFtdcOptionInstrMarginAdjustField", wrap_CThostFtdcOptionInstrMarginAdjustField);
    ("CThostFtdcOptionInstrCommRateField", wrap_CThostFtdcOptionInstrCommRateField);
    ("CThostFtdcOptionInstrTradeCostField", wrap_CThostFtdcOptionInstrTradeCostField);
    ("CThostFtdcQryOptionInstrTradeCostField", wrap_CThostFtdcQryOptionInstrTradeCostField);
    ("CThostFtdcQryOptionInstrCommRateField", wrap_CThostFtdcQryOptionInstrCommRateField);
    ("CThostFtdcIndexPriceField", wrap_CThostFtdcIndexPriceField);
    ("CThostFtdcInputExecOrderField", wrap_CThostFtdcInputExecOrderField);
    ("CThostFtdcInputExecOrderActionField", wrap_CThostFtdcInputExecOrderActionField);
    ("CThostFtdcExecOrderField", wrap_CThostFtdcExecOrderField);
    ("CThostFtdcExecOrderActionField", wrap_CThostFtdcExecOrderActionField);
    ("CThostFtdcQryExecOrderField", wrap_CThostFtdcQryExecOrderField);
    ("CThostFtdcExchangeExecOrderField", wrap_CThostFtdcExchangeExecOrderField);
    ("CThostFtdcQryExchangeExecOrderField", wrap_CThostFtdcQryExchangeExecOrderField);
    ("CThostFtdcQryExecOrderActionField", wrap_CThostFtdcQryExecOrderActionField);
    ("CThostFtdcExchangeExecOrderActionField", wrap_CThostFtdcExchangeExecOrderActionField);
    ("CThostFtdcQryExchangeExecOrderActionField", wrap_CThostFtdcQryExchangeExecOrderActionField);
    ("CThostFtdcErrExecOrderField", wrap_CThostFtdcErrExecOrderField);
    ("CThostFtdcQryErrExecOrderField", wrap_CThostFtdcQryErrExecOrderField);
    ("CThostFtdcErrExecOrderActionField", wrap_CThostFtdcErrExecOrderActionField);
    ("CThostFtdcQryErrExecOrderActionField", wrap_CThostFtdcQryErrExecOrderActionField);
    ("CThostFtdcOptionInstrTradingRightField", wrap_CThostFtdcOptionInstrTradingRightField);
    ("CThostFtdcQryOptionInstrTradingRightField", wrap_CThostFtdcQryOptionInstrTradingRightField);
    ("CThostFtdcInputForQuoteField", wrap_CThostFtdcInputForQuoteField);
    ("CThostFtdcForQuoteField", wrap_CThostFtdcForQuoteField);
    ("CThostFtdcQryForQuoteField", wrap_CThostFtdcQryForQuoteField);
    ("CThostFtdcExchangeForQuoteField", wrap_CThostFtdcExchangeForQuoteField);
    ("CThostFtdcQryExchangeForQuoteField", wrap_CThostFtdcQryExchangeForQuoteField);
    ("CThostFtdcInputQuoteField", wrap_CThostFtdcInputQuoteField);
    ("CThostFtdcInputQuoteActionField", wrap_CThostFtdcInputQuoteActionField);
    ("CThostFtdcQuoteField", wrap_CThostFtdcQuoteField);
    ("CThostFtdcQuoteActionField", wrap_CThostFtdcQuoteActionField);
    ("CThostFtdcQryQuoteField", wrap_CThostFtdcQryQuoteField);
    ("CThostFtdcExchangeQuoteField", wrap_CThostFtdcExchangeQuoteField);
    ("CThostFtdcQryExchangeQuoteField", wrap_CThostFtdcQryExchangeQuoteField);
    ("CThostFtdcQryQuoteActionField", wrap_CThostFtdcQryQuoteActionField);
    ("CThostFtdcExchangeQuoteActionField", wrap_CThostFtdcExchangeQuoteActionField);
    ("CThostFtdcQryExchangeQuoteActionField", wrap_CThostFtdcQryExchangeQuoteActionField);
    ("CThostFtdcOptionInstrDeltaField", wrap_CThostFtdcOptionInstrDeltaField);
    ("CThostFtdcForQuoteRspField", wrap_CThostFtdcForQuoteRspField);
    ("CThostFtdcStrikeOffsetField", wrap_CThostFtdcStrikeOffsetField);
    ("CThostFtdcQryStrikeOffsetField", wrap_CThostFtdcQryStrikeOffsetField);
    ("CThostFtdcInputBatchOrderActionField", wrap_CThostFtdcInputBatchOrderActionField);
    ("CThostFtdcBatchOrderActionField", wrap_CThostFtdcBatchOrderActionField);
    ("CThostFtdcExchangeBatchOrderActionField", wrap_CThostFtdcExchangeBatchOrderActionField);
    ("CThostFtdcQryBatchOrderActionField", wrap_CThostFtdcQryBatchOrderActionField);
    ("CThostFtdcCombInstrumentGuardField", wrap_CThostFtdcCombInstrumentGuardField) ].

End Wraps1.
