(* ===== verification/Wraps2.v ===== *)
(** * Accessor wrappers of the CTP structures, part 2

    For each structure the accessors ctp_wrap.cpp defines, in order: the field
    whose member the pair [_wrap_X_F_set], [_wrap_X_F_get] names, the
    conversion the setter uses with the number of bytes it copies, and the
    conversion the getter uses; and the index of the [SWIGTYPE] macro they
    convert their first argument with.  For the structures up to line 187500
    of that file the pairs after the first are in groups of their own. *)

From S2P Require Import Prelude Layout Accessor.

Module Wraps2.
Import Layout Accessor.
Local Open Scope string_scope.
Local Open Scope list_scope.

Definition rows_CThostFtdcQryCombInstrumentGuardField_reserve1 : list row :=
  [ ("reserve1", TChars 31, GString) ].
Definition rows_CThostFtdcQryCombInstrumentGuardField_ExchangeID : list row :=
  [ ("ExchangeID", TChars 9, GString) ].
Definition rows_CThostFtdcQryCombInstrumentGuardField_InstrumentID : list row :=
  [ ("InstrumentID", TChars 81, GString) ].
Definition wrap_CThostFtdcQryCombInstrumentGuardField : wrapper :=
  mk_wrapper 185
  ([ ("BrokerID", TChars 11, GString) ]
   ++ rows_CThostFtdcQryCombInstrumentGuardField_reserve1
   ++ rows_CThostFtdcQryCombInstrumentGuardField_ExchangeID
   ++ rows_CThostFtdcQryCombInstrumentGuardField_InstrumentID).

Definition rows_CThostFtdcInputCombActionField_InvestorID : list row :=
  [ ("InvestorID", TChars 13, GString) ].
Definition rows_CThostFtdcInputCombActionField_reserve1 : list row :=
  [ ("reserve1", TChars 31, GString) ].
Definition rows_CThostFtdcInputCombActionField_CombActionRef : list row :=
  [ ("CombActionRef", TChars 13, GString) ].
Definition rows_CThostFtdcInputCombActionField_UserID : list row :=
  [ ("UserID", TChars 16, GString) ].
Definition rows_CThostFtdcInputCombActionField_Direction : list row :=
  [ ("Direction", TChar, GChar);
    ("Volume", TInt, GInt) ].
Definition rows_CThostFtdcInputCombActionField_CombDirection : list row :=
  [ ("CombDirection", TChar, GChar);
    ("HedgeFlag", TChar, GChar) ].
Definition rows_CThostFtdcInputCombActionField_ExchangeID : list row :=
  [ ("ExchangeID", TChars 9, GString) ].
Definition rows_CThostFtdcInputCombActionField_reserve2 : list row :=
  [ ("reserve2", TChars 16, GString) ].
Definition rows_CThostFtdcInputCombActionField_MacAddress : list row :=
  [ ("MacAddress", TChars 21, GString) ].
Definition rows_CThostFtdcInputCombActionField_InvestUnitID : list row :=
  [ ("InvestUnitID", TChars 17, GString) ].
Definition rows_CThostFtdcInputCombActionField_FrontID : list row :=
  [ ("FrontID", TInt, GInt);
    ("SessionID", TInt, GInt) ].
Definition rows_CThostFtdcInputCombActionField_InstrumentID : list row :=
  [ ("InstrumentID", TChars 81, GString) ].
Definition rows_CThostFtdcInputCombActionField_IPAddress : list row :=
  [ ("IPAddress", TChars 33, GString) ].
Definition wrap_CThostFtdcInputCombActionField : wrapper :=
  mk_wrapper 82
  ([ ("BrokerID", TChars 11, GString) ]
   ++ rows_CThostFtdcInputCombActionField_InvestorID
   ++ rows_CThostFtdcInputCombActionField_reserve1
   ++ rows_CThostFtdcInputCombActionField_CombActionRef
   ++ rows_CThostFtdcInputCombActionField_UserID
   ++ rows_CThostFtdcInputCombActionField_Direction
   ++ rows_CThostFtdcInputCombActionField_CombDirection
   ++ rows_CThostFtdcInputCombActionField_ExchangeID
   ++ rows_CThostFtdcInputCombActionField_reserve2
   ++ rows_CThostFtdcInputCombActionField_MacAddress
   ++ rows_CThostFtdcInputCombActionField_InvestUnitID
   ++ rows_CThostFtdcInputCombActionField_FrontID
   ++ rows_CThostFtdcInputCombActionField_InstrumentID
   ++ rows_CThostFtdcInputCombActionField_IPAddress).

Definition wrap_CThostFtdcCombActionField : wrapper :=
  mk_wrapper 26
  [ ("BrokerID", TChars 11, GString);
    ("InvestorID", TChars 13, GString);
    ("reserve1", TChars 31, GString);
    ("CombActionRef", TChars 13, GString);
    ("UserID", TChars 16, GString);
    ("Direction", TChar, GChar);
    ("Volume", TInt, GInt);
    ("CombDirection", TChar, GChar);
    ("HedgeFlag", TChar, GChar);
    ("ActionLocalID", TChars 13, GString);
    ("ExchangeID", TChars 9, GString);
    ("ParticipantID", TChars 11, GString);
    ("ClientID", TChars 11, GString);
    ("reserve2", TChars 31, GString);
    ("TraderID", TChars 21, GString);
    ("InstallID", TInt, GInt);
    ("ActionStatus", TChar, GChar);
    ("NotifySequence", TInt, GInt);
    ("TradingDay", TChars 9, GString);
    ("SettlementID", TInt, GInt);
    ("SequenceNo", TInt, GInt);
    ("FrontID", TInt, GInt);
    ("SessionID", TInt, GInt);
    ("UserProductInfo", TChars 11, GString);
    ("StatusMsg", TChars 81, GString);
    ("reserve3", TChars 16, GString);
    ("MacAddress", TChars 21, GString);
    ("ComTradeID", TChars 21, GString);
    ("BranchID", TChars 9, GString);
    ("InvestUnitID", TChars 17, GString);
    ("InstrumentID", TChars 81, GString);
    ("ExchangeInstID", TChars 81, GString);
    ("IPAddress", TChars 33, GString) ].

Definition wrap_CThostFtdcQryCombActionField : wrapper :=
  mk_wrapper 184
  [ ("BrokerID", TChars 11, GString);
    ("InvestorID", TChars 13, GString);
    ("reserve1", TChars 31, GString);
    ("ExchangeID", TChars 9, GString);
    ("InvestUnitID", TChars 17, GString);
    ("InstrumentID", TChars 81, GString) ].

Definition wrap_CThostFtdcExchangeCombActionField : wrapper :=
  mk_wrapper 49
  [ ("Direction", TChar, GChar);
    ("Volume", TInt, GInt);
    ("CombDirection", TChar, GChar);
    ("HedgeFlag", TChar, GChar);
    ("ActionLocalID", TChars 13, GString);
    ("ExchangeID", TChars 9, GString);
    ("ParticipantID", TChars 11, GString);
    ("ClientID", TChars 11, GString);
    ("reserve1", TChars 31, GString);
    ("TraderID", TChars 21, GString);
    ("InstallID", TInt, GInt);
    ("ActionStatus", TChar, GChar);
    ("NotifySequence", TInt, GInt);
    ("TradingDay", TChars 9, GString);
    ("SettlementID", TInt, GInt);
    ("SequenceNo", TInt, GInt);
    ("reserve2", TChars 16, GString);
    ("MacAddress", TChars 21, GString);
    ("ComTradeID", TChars 21, GString);
    ("BranchID", TChars 9, GString);
    ("ExchangeInstID", TChars 81, GString);
    ("IPAddress", TChars 33, GString) ].

Definition wrap_CThostFtdcQryExchangeCombActionField : wrapper :=
  mk_wrapper 197
  [ ("ParticipantID", TChars 11, GString);
    ("ClientID", TChars 11, GString);
    ("reserve1", TChars 31, GString);
    ("ExchangeID", TChars 9, GString);
    ("TraderID", TChars 21, GString);
    ("ExchangeInstID", TChars 81, GString) ].

Definition wrap_CThostFtdcProductExchRateField : wrapper :=
  mk_wrapper 168
  [ ("reserve1", TChars 31, GString);
    ("QuoteCurrencyID", TChars 4, GString);
    ("ExchangeRate", TDouble, GDouble);
    ("ExchangeID", TChars 9, GString);
    ("ProductID", TChars 81, GString) ].

Definition wrap_CThostFtdcQryProductExchRateField : wrapper :=
  mk_wrapper 258
  [ ("reserve1", TChars 31, GString);
    ("ExchangeID", TChars 9, GString);
    ("ProductID", TChars 81, GString) ].

Definition wrap_CThostFtdcQryForQuoteParamField : wrapper :=
  mk_wrapper 213
  [ ("BrokerID", TChars 11, GString);
    ("reserve1", TChars 31, GString);
    ("ExchangeID", TChars 9, GString);
    ("InstrumentID", TChars 81, GString) ].

Definition wrap_CThostFtdcForQuoteParamField : wrapper :=
  mk_wrapper 72
  [ ("BrokerID", TChars 11, GString);
    ("reserve1", TChars 31, GString);
    ("ExchangeID", TChars 9, GString);
    ("LastPrice", TDouble, GDouble);
    ("PriceInterval", TDouble, GDouble);
    ("InstrumentID", TChars 81, GString) ].

Definition wrap_CThostFtdcMMOptionInstrCommRateField : wrapper :=
  mk_wrapper 127
  [ ("reserve1", TChars 31, GString);
    ("InvestorRange", TChar, GChar);
    ("BrokerID", TChars 11, GString);
    ("InvestorID", TChars 13, GString);
    ("OpenRatioByMoney", TDouble, GDouble);
    ("OpenRatioByVolume", TDouble, GDouble);
    ("CloseRatioByMoney", TDouble, GDouble);
    ("CloseRatioByVolume", TDouble, GDouble);
    ("CloseTodayRatioByMoney", TDouble, GDouble);
    ("CloseTodayRatioByVolume", TDouble, GDouble);
    ("StrikeRatioByMoney", TDouble, GDouble);
    ("StrikeRatioByVolume", TDouble, GDouble);
    ("InstrumentID", TChars 81, GString) ].

Definition wrap_CThostFtdcQryMMOptionInstrCommRateField : wrapper :=
  mk_wrapper 242
  [ ("BrokerID", TChars 11, GString);
    ("InvestorID", TChars 13, GString);
    ("reserve1", TChars 31, GString);
    ("InstrumentID", TChars 81, GString) ].

Definition wrap_CThostFtdcMMInstrumentCommissionRateField : wrapper :=
  mk_wrapper 126
  [ ("reserve1", TChars 31, GString);
    ("InvestorRange", TChar, GChar);
    ("BrokerID", TChars 11, GString);
    ("InvestorID", TChars 13, GString);
    ("OpenRatioByMoney", TDouble, GDouble);
    ("OpenRatioByVolume", TDouble, GDouble);
    ("CloseRatioByMoney", TDouble, GDouble);
    ("CloseRatioByVolume", TDouble, GDouble);
    ("CloseTodayRatioByMoney", TDouble, GDouble);
    ("CloseTodayRatioByVolume", TDouble, GDouble);
    ("InstrumentID", TChars 81, GString) ].

Definition wrap_CThostFtdcQryMMInstrumentCommissionRateField : wrapper :=
  mk_wrapper 241
  [ ("BrokerID", TChars 11, GString);
    ("InvestorID", TChars 13, GString);
    ("reserve1", TChars 31, GString);
    ("InstrumentID", TChars 81, GString) ].

Definition wrap_CThostFtdcInstrumentOrderCommRateField : wrapper :=
  mk_wrapper 97
  [ ("reserve1", TChars 31, GString);
    ("InvestorRange", TChar, GChar);
    ("BrokerID", TChars 11, GString);
    ("InvestorID", TChars 13, GString);
    ("HedgeFlag", TChar, GChar);
    ("OrderCommByVolume", TDouble, GDouble);
    ("OrderActionCommByVolume", TDouble, GDouble);
    ("ExchangeID", TChars 9, GString);
    ("InvestUnitID", TChars 17, GString);
    ("InstrumentID", TChars 81, GString);
    ("OrderCommByTrade", TDouble, GDouble);
    ("OrderActionCommByTrade", TDouble, GDouble) ].

Definition wrap_CThostFtdcQryInstrumentOrderCommRateField : wrapper :=
  mk_wrapper 220
  [ ("BrokerID", TChars 11, GString);
    ("InvestorID", TChars 13, GString);
    ("reserve1", TChars 31, GString);
    ("InstrumentID", TChars 81, GString) ].

Definition wrap_CThostFtdcTradeParamField : wrapper :=
  mk_wrapper 438
  [ ("BrokerID", TChars 11, GString);
    ("TradeParamID", TChar, GChar);
    ("TradeParamValue", TChars 256, GString);
    ("Memo", TChars 161, GString) ].

Definition wrap_CThostFtdcInstrumentMarginRateULField : wrapper :=
  mk_wrapper 96
  [ ("reserve1", TChars 31, GString);
    ("InvestorRange", TChar, GChar);
    ("BrokerID", TChars 11, GString);
    ("InvestorID", TChars 13, GString);
    ("HedgeFlag", TChar, GChar);
    ("LongMarginRatioByMoney", TDouble, GDouble);
    ("LongMarginRatioByVolume", TDouble, GDouble);
    ("ShortMarginRatioByMoney", TDouble, GDouble);
    ("ShortMarginRatioByVolume", TDouble, GDouble);
    ("InstrumentID", TChars 81, GString) ].

Definition wrap_CThostFtdcFutureLimitPosiParamField : wrapper :=
  mk_wrapper 77
  [ ("InvestorRange", TChar, GChar);
    ("BrokerID", TChars 11, GString);
    ("InvestorID", TChars 13, GString);
    ("reserve1", TChars 31, GString);
    ("SpecOpenVolume", TInt, GInt);
    ("ArbiOpenVolume", TInt, GInt);
    ("OpenVolume", TInt, GInt);
    ("ProductID", TChars 81, GString) ].

Definition wrap_CThostFtdcLoginForbiddenIPField : wrapper :=
  mk_wrapper 121
  [ ("reserve1", TChars 16, GString);
    ("IPAddress", TChars 33, GString) ].

Definition wrap_CThostFtdcIPListField : wrapper :=
  mk_wrapper 79
  [ ("reserve1", TChars 16, GString);
    ("IsWhite", TInt, GInt);
    ("IPAddress", TChars 33, GString) ].

Definition wrap_CThostFtdcInputOptionSelfCloseField : wrapper :=
  mk_wrapper 87
  [ ("BrokerID", TChars 11, GString);
    ("InvestorID", TChars 13, GString);
    ("reserve1", TChars 31, GString);
    ("OptionSelfCloseRef", TChars 13, GString);
    ("UserID", TChars 16, GString);
    ("Volume", TInt, GInt);
    ("RequestID", TInt, GInt);
    ("BusinessUnit", TChars 21, GString);
    ("HedgeFlag", TChar, GChar);
    ("OptSelfCloseFlag", TChar, GChar);
    ("ExchangeID", TChars 9, GString);
    ("InvestUnitID", TChars 17, GString);
    ("AccountID", TChars 13, GString);
    ("CurrencyID", TChars 4, GString);
    ("ClientID", TChars 11, GString);
    ("reserve2", TChars 16, GString);
    ("MacAddress", TChars 21, GString);
    ("InstrumentID", TChars 81, GString);
    ("IPAddress", TChars 33, GString) ].

Definition wrap_CThostFtdcInputOptionSelfCloseActionField : wrapper :=
  mk_wrapper 86
  [ ("BrokerID", TChars 11, GString);
    ("InvestorID", TChars 13, GString);
    ("OptionSelfCloseActionRef", TInt, GInt);
    ("OptionSelfCloseRef", TChars 13, GString);
    ("RequestID", TInt, GInt);
    ("FrontID", TInt, GInt);
    ("SessionID", TInt, GInt);
    ("ExchangeID", TChars 9, GString);
    ("OptionSelfCloseSysID", TChars 21, GString);
    ("ActionFlag", TChar, GChar);
    ("UserID", TChars 16, GString);
    ("reserve1", TChars 31, GString);
    ("InvestUnitID", TChars 17, GString);
    ("reserve2", TChars 16, GString);
    ("MacAddress", TChars 21, GString);
    ("InstrumentID", TChars 81, GString);
    ("IPAddress", TChars 33, GString) ].

Definition wrap_CThostFtdcOptionSelfCloseField : wrapper :=
  mk_wrapper 160
  [ ("BrokerID", TChars 11, GString);
    ("InvestorID", TChars 13, GString);
    ("reserve1", TChars 31, GString);
    ("OptionSelfCloseRef", TChars 13, GString);
    ("UserID", TChars 16, GString);
    ("Volume", TInt, GInt);
    ("RequestID", TInt, GInt);
    ("BusinessUnit", TChars 21, GString);
    ("HedgeFlag", TChar, GChar);
    ("OptSelfCloseFlag", TChar, GChar);
    ("OptionSelfCloseLocalID", TChars 13, GString);
    ("ExchangeID", TChars 9, GString);
    ("ParticipantID", TChars 11, GString);
    ("ClientID", TChars 11, GString);
    ("reserve2", TChars 31, GString);
    ("TraderID", TChars 21, GString);
    ("InstallID", TInt, GInt);
    ("OrderSubmitStatus", TChar, GChar);
    ("NotifySequence", TInt, GInt);
    ("TradingDay", TChars 9, GString);
    ("SettlementID", TInt, GInt);
    ("OptionSelfCloseSysID", TChars 21, GString);
    ("InsertDate", TChars 9, GString);
    ("InsertTime", TChars 9, GString);
    ("CancelTime", TChars 9, GString);
    ("ExecResult", TChar, GChar);
    ("ClearingPartID", TChars 11, GString);
    ("SequenceNo", TInt, GInt);
    ("FrontID", TInt, GInt);
    ("SessionID", TInt, GInt);
    ("UserProductInfo", TChars 11, GString);
    ("StatusMsg", TChars 81, GString);
    ("ActiveUserID", TChars 16, GString);
    ("BrokerOptionSelfCloseSeq", TInt, GInt);
    ("BranchID", TChars 9, GString);
    ("InvestUnitID", TChars 17, GString);
    ("AccountID", TChars 13, GString);
    ("CurrencyID", TChars 4, GString);
    ("reserve3", TChars 16, GString);
    ("MacAddress", TChars 21, GString);
    ("InstrumentID", TChars 81, GString);
    ("ExchangeInstID", TChars 81, GString);
    ("IPAddress", TChars 33, GString) ].

Definition wrap_CThostFtdcOptionSelfCloseActionField : wrapper :=
  mk_wrapper 159
  [ ("BrokerID", TChars 11, GString);
    ("InvestorID", TChars 13, GString);
    ("OptionSelfCloseActionRef", TInt, GInt);
    ("OptionSelfCloseRef", TChars 13, GString);
    ("RequestID", TInt, GInt);
    ("FrontID", TInt, GInt);
    ("SessionID", TInt, GInt);
    ("ExchangeID", TChars 9, GString);
    ("OptionSelfCloseSysID", TChars 21, GString);
    ("ActionFlag", TChar, GChar);
    ("ActionDate", TChars 9, GString);
    ("ActionTime", TChars 9, GString);
    ("TraderID", TChars 21, GString);
    ("InstallID", TInt, GInt);
    ("OptionSelfCloseLocalID", TChars 13, GString);
    ("ActionLocalID", TChars 13, GString);
    ("ParticipantID", TChars 11, GString);
    ("ClientID", TChars 11, GString);
    ("BusinessUnit", TChars 21, GString);
    ("OrderActionStatus", TChar, GChar);
    ("UserID", TChars 16, GString);
    ("StatusMsg", TChars 81, GString);
    ("reserve1", TChars 31, GString);
    ("BranchID", TChars 9, GString);
    ("InvestUnitID", TChars 17, GString);
    ("reserve2", TChars 16, GString);
    ("MacAddress", TChars 21, GString);
    ("InstrumentID", TChars 81, GString);
    ("IPAddress", TChars 33, GString) ].

Definition wrap_CThostFtdcQryOptionSelfCloseField : wrapper :=
  mk_wrapper 252
  [ ("BrokerID", TChars 11, GString);
    ("InvestorID", TChars 13, GString);
    ("reserve1", TChars 31, GString);
    ("ExchangeID", TChars 9, GString);
    ("OptionSelfCloseSysID", TChars 21, GString);
    ("InsertTimeStart", TChars 9, GString);
    ("InsertTimeEnd", TChars 9, GString);
    ("InstrumentID", TChars 81, GString) ].

Definition wrap_CThostFtdcExchangeOptionSelfCloseField : wrapper :=
  mk_wrapper 57
  [ ("Volume", TInt, GInt);
    ("RequestID", TInt, GInt);
    ("BusinessUnit", TChars 21, GString);
    ("HedgeFlag", TChar, GChar);
    ("OptSelfCloseFlag", TChar, GChar);
    ("OptionSelfCloseLocalID", TChars 13, GString);
    ("ExchangeID", TChars 9, GString);
    ("ParticipantID", TChars 11, GString);
    ("ClientID", TChars 11, GString);
    ("reserve1", TChars 31, GString);
    ("TraderID", TChars 21, GString);
    ("InstallID", TInt, GInt);
    ("OrderSubmitStatus", TChar, GChar);
    ("NotifySequence", TInt, GInt);
    ("TradingDay", TChars 9, GString);
    ("SettlementID", TInt, GInt);
    ("OptionSelfCloseSysID", TChars 21, GString);
    ("InsertDate", TChars 9, GString);
    ("InsertTime", TChars 9, GString);
    ("CancelTime", TChars 9, GString);
    ("ExecResult", TChar, GChar);
    ("ClearingPartID", TChars 11, GString);
    ("SequenceNo", TInt, GInt);
    ("BranchID", TChars 9, GString);
    ("reserve2", TChars 16, GString);
    ("MacAddress", TChars 21, GString);
    ("ExchangeInstID", TChars 81, GString);
    ("IPAddress", TChars 33, GString) ].

Definition wrap_CThostFtdcQryOptionSelfCloseActionField : wrapper :=
  mk_wrapper 251
  [ ("BrokerID", TChars 11, GString);
    ("InvestorID", TChars 13, GString);
    ("ExchangeID", TChars 9, GString) ].

Definition wrap_CThostFtdcExchangeOptionSelfCloseActionField : wrapper :=
  mk_wrapper 56
  [ ("ExchangeID", TChars 9, GString);
    ("OptionSelfCloseSysID", TChars 21, GString);
    ("ActionFlag", TChar, GChar);
    ("ActionDate", TChars 9, GString);
    ("ActionTime", TChars 9, GString);
    ("TraderID", TChars 21, GString);
    ("InstallID", TInt, GInt);
    ("OptionSelfCloseLocalID", TChars 13, GString);
    ("ActionLocalID", TChars 13, GString);
    ("ParticipantID", TChars 11, GString);
    ("ClientID", TChars 11, GString);
    ("BusinessUnit", TChars 21, GString);
    ("OrderActionStatus", TChar, GChar);
    ("UserID", TChars 16, GString);
    ("BranchID", TChars 9, GString);
    ("reserve1", TChars 16, GString);
    ("MacAddress", TChars 21, GString);
    ("reserve2", TChars 31, GString);
    ("OptSelfCloseFlag", TChar, GChar);
    ("IPAddress", TChars 33, GString);
    ("ExchangeInstID", TChars 81, GString) ].

Definition wrap_CThostFtdcSyncDelaySwapField : wrapper :=
  mk_wrapper 383
  [ ("DelaySwapSeqNo", TChars 15, GString);
    ("BrokerID", TChars 11, GString);
    ("InvestorID", TChars 13, GString);
    ("FromCurrencyID", TChars 4, GString);
    ("FromAmount", TDouble, GDouble);
    ("FromFrozenSwap", TDouble, GDouble);
    ("FromRemainSwap", TDouble, GDouble);
    ("ToCurrencyID", TChars 4, GString);
    ("ToAmount", TDouble, GDouble);
    ("IsManualSwap", TInt, GInt);
    ("IsAllRemainSetZero", TInt, GInt) ].

Definition wrap_CThostFtdcQrySyncDelaySwapField : wrapper :=
  mk_wrapper 291
  [ ("BrokerID", TChars 11, GString);
    ("DelaySwapSeqNo", TChars 15, GString) ].

Definition wrap_CThostFtdcInvestUnitField : wrapper :=
  mk_wrapper 100
  [ ("BrokerID", TChars 11, GString);
    ("InvestorID", TChars 13, GString);
    ("InvestUnitID", TChars 17, GString);
    ("InvestorUnitName", TChars 81, GString);
    ("InvestorGroupID", TChars 13, GString);
    ("CommModelID", TChars 13, GString);
    ("MarginModelID", TChars 13, GString);
    ("AccountID", TChars 13, GString);
    ("CurrencyID", TChars 4, GString) ].

Definition wrap_CThostFtdcQryInvestUnitField : wrapper :=
  mk_wrapper 223
  [ ("BrokerID", TChars 11, GString);
    ("InvestorID", TChars 13, GString);
    ("InvestUnitID", TChars 17, GString) ].

Definition wrap_CThostFtdcSecAgentCheckModeField : wrapper :=
  mk_wrapper 374
  [ ("InvestorID", TChars 13, GString);
    ("BrokerID", TChars 11, GString);
    ("CurrencyID", TChars 4, GString);
    ("BrokerSecAgentID", TChars 13, GString);
    ("CheckSelfAccount", TInt, GInt) ].

Definition wrap_CThostFtdcSecAgentTradeInfoField : wrapper :=
  mk_wrapper 375
  [ ("BrokerID", TChars 11, GString);
    ("BrokerSecAgentID", TChars 13, GString);
    ("InvestorID", TChars 13, GString);
    ("LongCustomerName", TChars 161, GString) ].

Definition wrap_CThostFtdcMarketDataField : wrapper :=
  mk_wrapper 139
  [ ("TradingDay", TChars 9, GString);
    ("reserve1", TChars 31, GString);
    ("ExchangeID", TChars 9, GString);
    ("reserve2", TChars 31, GString);
    ("LastPrice", TDouble, GDouble);
    ("PreSettlementPrice", TDouble, GDouble);
    ("PreClosePrice", TDouble, GDouble);
    ("PreOpenInterest", TDouble, GDouble);
    ("OpenPrice", TDouble, GDouble);
    ("HighestPrice", TDouble, GDouble);
    ("LowestPrice", TDouble, GDouble);
    ("Volume", TInt, GInt);
    ("Turnover", TDouble, GDouble);
    ("OpenInterest", TDouble, GDouble);
    ("ClosePrice", TDouble, GDouble);
    ("SettlementPrice", TDouble, GDouble);
    ("UpperLimitPrice", TDouble, GDouble);
    ("LowerLimitPrice", TDouble, GDouble);
    ("PreDelta", TDouble, GDouble);
    ("CurrDelta", TDouble, GDouble);
    ("UpdateTime", TChars 9, GString);
    ("UpdateMillisec", TInt, GInt);
    ("ActionDay", TChars 9, GString);
    ("InstrumentID", TChars 81, GString);
    ("ExchangeInstID", TChars 81, GString) ].

Definition wrap_CThostFtdcMarketDataBaseField : wrapper :=
  mk_wrapper 134
  [ ("TradingDay", TChars 9, GString);
    ("PreSettlementPrice", TDouble, GDouble);
    ("PreClosePrice", TDouble, GDouble);
    ("PreOpenInterest", TDouble, GDouble);
    ("PreDelta", TDouble, GDouble) ].

Definition wrap_CThostFtdcMarketDataStaticField : wrapper :=
  mk_wrapper 141
  [ ("OpenPrice", TDouble, GDouble);
    ("HighestPrice", TDouble, GDouble);
    ("LowestPrice", TDouble, GDouble);
    ("ClosePrice", TDouble, GDouble);
    ("UpperLimitPrice", TDouble, GDouble);
    ("LowerLimitPrice", TDouble, GDouble);
    ("SettlementPrice", TDouble, GDouble);
    ("CurrDelta", TDouble, GDouble) ].

Definition wrap_CThostFtdcMarketDataLastMatchField : wrapper :=
  mk_wrapper 140
  [ ("LastPrice", TDouble, GDouble);
    ("Volume", TInt, GInt);
    ("Turnover", TDouble, GDouble);
    ("OpenInterest", TDouble, GDouble) ].

Definition wrap_CThostFtdcMarketDataBestPriceField : wrapper :=
  mk_wrapper 135
  [ ("BidPrice1", TDouble, GDouble);
    ("BidVolume1", TInt, GInt);
    ("AskPrice1", TDouble, GDouble);
    ("AskVolume1", TInt, GInt) ].

Definition wrap_CThostFtdcMarketDataBid23Field : wrapper :=
  mk_wrapper 136
  [ ("BidPrice2", TDouble, GDouble);
    ("BidVolume2", TInt, GInt);
    ("BidPrice3", TDouble, GDouble);
    ("BidVolume3", TInt, GInt) ].

Definition wrap_CThostFtdcMarketDataAsk23Field : wrapper :=
  mk_wrapper 130
  [ ("AskPrice2", TDouble, GDouble);
    ("AskVolume2", TInt, GInt);
    ("AskPrice3", TDouble, GDouble);
    ("AskVolume3", TInt, GInt) ].

Definition wrap_CThostFtdcMarketDataBid45Field : wrapper :=
  mk_wrapper 137
  [ ("BidPrice4", TDouble, GDouble);
    ("BidVolume4", TInt, GInt);
    ("BidPrice5", TDouble, GDouble);
    ("BidVolume5", TInt, GInt) ].

(** ctp_wrap.cpp, lines 223131 to 223376. *)
Definition wrap_CThostFtdcMarketDataAsk45Field : wrapper :=
  mk_wrapper 131
  [ ("AskPrice4", TDouble, GDouble);
    ("AskVolume4", TInt, GInt);
    ("AskPrice5", TDouble, GDouble);
    ("AskVolume5", TInt, GInt) ].

(** ctp_wrap.cpp, lines 223473 to 223908. *)
Definition wrap_CThostFtdcMarketDataUpdateTimeField : wrapper :=
  mk_wrapper 142
  [ ("reserve1", TChars 31, GString);
    ("UpdateTime", TChars 9, GString);
    ("UpdateMillisec", TInt, GInt);
    ("ActionDay", TChars 9, GString);
    ("InstrumentID", TChars 81, GString) ].

(** ctp_wrap.cpp, lines 224005 to 224126. *)
Definition wrap_CThostFtdcMarketDataBandingPriceField : wrapper :=
  mk_wrapper 133
  [ ("BandingUpperPrice", TDouble, GDouble);
    ("BandingLowerPrice", TDouble, GDouble) ].

(** ctp_wrap.cpp, lines 224223 to 224314. *)
Definition wrap_CThostFtdcMarketDataExchangeField : wrapper :=
  mk_wrapper 138
  [ ("ExchangeID", TChars 9, GString) ].

(** ctp_wrap.cpp, lines 224411 to 224596. *)
Definition wrap_CThostFtdcSpecificInstrumentField : wrapper :=
  mk_wrapper 379
  [ ("reserve1", TChars 31, GString);
    ("InstrumentID", TChars 81, GString) ].

(** ctp_wrap.cpp, lines 224693 to 225534. *)
Definition wrap_CThostFtdcInstrumentStatusField : wrapper :=
  mk_wrapper 98
  [ ("ExchangeID", TChars 9, GString);
    ("reserve1", TChars 31, GString);
    ("SettlementGroupID", TChars 9, GString);
    ("reserve2", TChars 31, GString);
    ("InstrumentStatus", TChar, GChar);
    ("TradingSegmentSN", TInt, GInt);
    ("EnterTime", TChars 9, GString);
    ("EnterReason", TChar, GChar);
    ("ExchangeInstID", TChars 81, GString);
    ("InstrumentID", TChars 81, GString) ].

(** ctp_wrap.cpp, lines 225631 to 225910. *)
Definition wrap_CThostFtdcQryInstrumentStatusField : wrapper :=
  mk_wrapper 221
  [ ("ExchangeID", TChars 9, GString);
    ("reserve1", TChars 31, GString);
    ("ExchangeInstID", TChars 81, GString) ].

(** ctp_wrap.cpp, lines 226007 to 226380. *)
Definition wrap_CThostFtdcInvestorAccountField : wrapper :=
  mk_wrapper 101
  [ ("BrokerID", TChars 11, GString);
    ("InvestorID", TChars 13, GString);
    ("AccountID", TChars 13, GString);
    ("CurrencyID", TChars 4, GString) ].

(** ctp_wrap.cpp, lines 226477 to 226912. *)
Definition wrap_CThostFtdcPositionProfitAlgorithmField : wrapper :=
  mk_wrapper 167
  [ ("BrokerID", TChars 11, GString);
    ("AccountID", TChars 13, GString);
    ("Algorithm", TChar, GChar);
    ("Memo", TChars 161, GString);
    ("CurrencyID", TChars 4, GString) ].

(** ctp_wrap.cpp, lines 227009 to 227318. *)
Definition wrap_CThostFtdcDiscountField : wrapper :=
  mk_wrapper 40
  [ ("BrokerID", TChars 11, GString);
    ("InvestorRange", TChar, GChar);
    ("InvestorID", TChars 13, GString);
    ("Discount", TDouble, GDouble) ].

(** ctp_wrap.cpp, lines 227415 to 227600. *)
Definition wrap_CThostFtdcQryTransferBankField : wrapper :=
  mk_wrapper 303
  [ ("BankID", TChars 4, GString);
    ("BankBrchID", TChars 5, GString) ].

(** ctp_wrap.cpp, lines 227697 to 228038. *)
Definition wrap_CThostFtdcTransferBankField : wrapper :=
  mk_wrapper 452
  [ ("BankID", TChars 4, GString);
    ("BankBrchID", TChars 5, GString);
    ("BankName", TChars 101, GString);
    ("IsActive", TInt, GInt) ].

(** ctp_wrap.cpp, lines 228135 to 228696. *)
Definition wrap_CThostFtdcQryInvestorPositionDetailField : wrapper :=
  mk_wrapper 231
  [ ("BrokerID", TChars 11, GString);
    ("InvestorID", TChars 13, GString);
    ("reserve1", TChars 31, GString);
    ("ExchangeID", TChars 9, GString);
    ("InvestUnitID", TChars 17, GString);
    ("InstrumentID", TChars 81, GString) ].

(** ctp_wrap.cpp, lines 228793 to 231064. *)
Definition wrap_CThostFtdcInvestorPositionDetailField : wrapper :=
  mk_wrapper 111
  [ ("reserve1", TChars 31, GString);
    ("BrokerID", TChars 11, GString);
    ("InvestorID", TChars 13, GString);
    ("HedgeFlag", TChar, GChar);
    ("Direction", TChar, GChar);
    ("OpenDate", TChars 9, GString);
    ("TradeID", TChars 21, GString);
    ("Volume", TInt, GInt);
    ("OpenPrice", TDouble, GDouble);
    ("TradingDay", TChars 9, GString);
    ("SettlementID", TInt, GInt);
    ("TradeType", TChar, GChar);
    ("reserve2", TChars 31, GString);
    ("ExchangeID", TChars 9, GString);
    ("CloseProfitByDate", TDouble, GDouble);
    ("CloseProfitByTrade", TDouble, GDouble);
    ("PositionProfitByDate", TDouble, GDouble);
    ("PositionProfitByTrade", TDouble, GDouble);
    ("Margin", TDouble, GDouble);
    ("ExchMargin", TDouble, GDouble);
    ("MarginRateByMoney", TDouble, GDouble);
    ("MarginRateByVolume", TDouble, GDouble);
    ("LastSettlementPrice", TDouble, GDouble);
    ("SettlementPrice", TDouble, GDouble);
    ("CloseVolume", TInt, GInt);
    ("CloseAmount", TDouble, GDouble);
    ("TimeFirstVolume", TInt, GInt);
    ("InvestUnitID", TChars 17, GString);
    ("SpecPosiType", TChar, GChar);
    ("InstrumentID", TChars 81, GString);
    ("CombInstrumentID", TChars 81, GString) ].

(** ctp_wrap.cpp, lines 231161 to 231534. *)
Definition wrap_CThostFtdcTradingAccountPasswordField : wrapper :=
  mk_wrapper 445
  [ ("BrokerID", TChars 11, GString);
    ("AccountID", TChars 13, GString);
    ("Password", TChars 41, GString);
    ("CurrencyID", TChars 4, GString) ].

(** ctp_wrap.cpp, lines 231631 to 233412. *)
Definition wrap_CThostFtdcMDTraderOfferField : wrapper :=
  mk_wrapper 125
  [ ("ExchangeID", TChars 9, GString);
    ("TraderID", TChars 21, GString);
    ("ParticipantID", TChars 11, GString);
    ("Password", TChars 41, GString);
    ("InstallID", TInt, GInt);
    ("OrderLocalID", TChars 13, GString);
    ("TraderConnectStatus", TChar, GChar);
    ("ConnectRequestDate", TChars 9, GString);
    ("ConnectRequestTime", TChars 9, GString);
    ("LastReportDate", TChars 9, GString);
    ("LastReportTime", TChars 9, GString);
    ("ConnectDate", TChars 9, GString);
    ("ConnectTime", TChars 9, GString);
    ("StartDate", TChars 9, GString);
    ("StartTime", TChars 9, GString);
    ("TradingDay", TChars 9, GString);
    ("BrokerID", TChars 11, GString);
    ("MaxTradeID", TChars 21, GString);
    ("MaxOrderMessageReference", TChars 7, GString);
    ("OrderCancelAlg", TChar, GChar) ].

(** ctp_wrap.cpp, lines 233509 to 233788. *)
Definition wrap_CThostFtdcQryMDTraderOfferField : wrapper :=
  mk_wrapper 240
  [ ("ExchangeID", TChars 9, GString);
    ("ParticipantID", TChars 11, GString);
    ("TraderID", TChars 21, GString) ].

(** ctp_wrap.cpp, lines 233885 to 233976. *)
Definition wrap_CThostFtdcQryNoticeField : wrapper :=
  mk_wrapper 247
  [ ("BrokerID", TChars 11, GString) ].

(** ctp_wrap.cpp, lines 234073 to 234352. *)
Definition wrap_CThostFtdcNoticeField : wrapper :=
  mk_wrapper 147
  [ ("BrokerID", TChars 11, GString);
    ("Content", TChars 501, GString);
    ("SequenceLabel", TChars 2, GString) ].

(** ctp_wrap.cpp, lines 234449 to 234758. *)
Definition wrap_CThostFtdcUserRightField : wrapper :=
  mk_wrapper 466
  [ ("BrokerID", TChars 11, GString);
    ("UserID", TChars 16, GString);
    ("UserRightType", TChar, GChar);
    ("IsForbidden", TInt, GInt) ].

(** ctp_wrap.cpp, lines 234855 to 235228. *)
Definition wrap_CThostFtdcQrySettlementInfoConfirmField : wrapper :=
  mk_wrapper 286
  [ ("BrokerID", TChars 11, GString);
    ("InvestorID", TChars 13, GString);
    ("AccountID", TChars 13, GString);
    ("CurrencyID", TChars 4, GString) ].

(** ctp_wrap.cpp, lines 235325 to 235416. *)
Definition wrap_CThostFtdcLoadSettlementInfoField : wrapper :=
  mk_wrapper 120
  [ ("BrokerID", TChars 11, GString) ].

(** ctp_wrap.cpp, lines 235513 to 236194. *)
Definition wrap_CThostFtdcBrokerWithdrawAlgorithmField : wrapper :=
  mk_wrapper 19
  [ ("BrokerID", TChars 11, GString);
    ("WithdrawAlgorithm", TChar, GChar);
    ("UsingRatio", TDouble, GDouble);
    ("IncludeCloseProfit", TChar, GChar);
    ("AllWithoutTrade", TChar, GChar);
    ("AvailIncludeCloseProfit", TChar, GChar);
    ("IsBrokerUserEvent", TInt, GInt);
    ("CurrencyID", TChars 4, GString);
    ("FundMortgageRatio", TDouble, GDouble);
    ("BalanceAlgorithm", TChar, GChar) ].

(** ctp_wrap.cpp, lines 236291 to 236664. *)
Definition wrap_CThostFtdcTradingAccountPasswordUpdateV1Field : wrapper :=
  mk_wrapper 447
  [ ("BrokerID", TChars 11, GString);
    ("InvestorID", TChars 13, GString);
    ("OldPassword", TChars 41, GString);
    ("NewPassword", TChars 41, GString) ].

(** ctp_wrap.cpp, lines 236761 to 237228. *)
Definition wrap_CThostFtdcTradingAccountPasswordUpdateField : wrapper :=
  mk_wrapper 446
  [ ("BrokerID", TChars 11, GString);
    ("AccountID", TChars 13, GString);
    ("OldPassword", TChars 41, GString);
    ("NewPassword", TChars 41, GString);
    ("CurrencyID", TChars 4, GString) ].

(** ctp_wrap.cpp, lines 237325 to 237760. *)
Definition wrap_CThostFtdcQryCombinationLegField : wrapper :=
  mk_wrapper 187
  [ ("reserve1", TChars 31, GString);
    ("LegID", TInt, GInt);
    ("reserve2", TChars 31, GString);
    ("CombInstrumentID", TChars 81, GString);
    ("LegInstrumentID", TChars 81, GString) ].

(** ctp_wrap.cpp, lines 237857 to 237948. *)
Definition wrap_CThostFtdcQrySyncStatusField : wrapper :=
  mk_wrapper 294
  [ ("TradingDay", TChars 9, GString) ].

(** ctp_wrap.cpp, lines 238045 to 238666. *)
Definition wrap_CThostFtdcCombinationLegField : wrapper :=
  mk_wrapper 29
  [ ("reserve1", TChars 31, GString);
    ("LegID", TInt, GInt);
    ("reserve2", TChars 31, GString);
    ("Direction", TChar, GChar);
    ("LegMultiple", TInt, GInt);
    ("ImplyLevel", TInt, GInt);
    ("CombInstrumentID", TChars 81, GString);
    ("LegInstrumentID", TChars 81, GString) ].

(** ctp_wrap.cpp, lines 238763 to 238916. *)
Definition wrap_CThostFtdcSyncStatusField : wrapper :=
  mk_wrapper 427
  [ ("TradingDay", TChars 9, GString);
    ("DataSyncStatus", TChar, GChar) ].

(** ctp_wrap.cpp, lines 239013 to 239198. *)
Definition wrap_CThostFtdcQryLinkManField : wrapper :=
  mk_wrapper 237
  [ ("BrokerID", TChars 11, GString);
    ("InvestorID", TChars 13, GString) ].

(** ctp_wrap.cpp, lines 239295 to 240324. *)
Definition wrap_CThostFtdcLinkManField : wrapper :=
  mk_wrapper 119
  [ ("BrokerID", TChars 11, GString);
    ("InvestorID", TChars 13, GString);
    ("PersonType", TChar, GChar);
    ("IdentifiedCardType", TChar, GChar);
    ("IdentifiedCardNo", TChars 51, GString);
    ("PersonName", TChars 81, GString);
    ("Telephone", TChars 41, GString);
    ("Address", TChars 101, GString);
    ("ZipCode", TChars 7, GString);
    ("Priority", TInt, GInt);
    ("UOAZipCode", TChars 11, GString);
    ("PersonFullName", TChars 101, GString) ].

(** ctp_wrap.cpp, lines 240421 to 240668. *)
Definition wrap_CThostFtdcQryBrokerUserEventField : wrapper :=
  mk_wrapper 177
  [ ("BrokerID", TChars 11, GString);
    ("UserID", TChars 16, GString);
    ("UserEventType", TChar, GChar) ].

(** ctp_wrap.cpp, lines 240765 to 241794. *)
Definition wrap_CThostFtdcBrokerUserEventField : wrapper :=
  mk_wrapper 13
  [ ("BrokerID", TChars 11, GString);
    ("UserID", TChars 16, GString);
    ("UserEventType", TChar, GChar);
    ("EventSequenceNo", TInt, GInt);
    ("EventDate", TChars 9, GString);
    ("EventTime", TChars 9, GString);
    ("UserEventInfo", TChars 1025, GString);
    ("InvestorID", TChars 13, GString);
    ("reserve1", TChars 31, GString);
    ("InstrumentID", TChars 81, GString);
    ("DRIdentityID", TInt, GInt);
    ("TradingDay", TChars 9, GString) ].

(** ctp_wrap.cpp, lines 241891 to 242170. *)
Definition wrap_CThostFtdcQryContractBankField : wrapper :=
  mk_wrapper 189
  [ ("BrokerID", TChars 11, GString);
    ("BankID", TChars 4, GString);
    ("BankBrchID", TChars 5, GString) ].

(** ctp_wrap.cpp, lines 242267 to 242640. *)
Definition wrap_CThostFtdcContractBankField : wrapper :=
  mk_wrapper 32
  [ ("BrokerID", TChars 11, GString);
    ("BankID", TChars 4, GString);
    ("BankBrchID", TChars 5, GString);
    ("BankName", TChars 101, GString) ].

(** ctp_wrap.cpp, lines 242737 to 244544. *)
Definition wrap_CThostFtdcInvestorPositionCombineDetailField : wrapper :=
  mk_wrapper 110
  [ ("TradingDay", TChars 9, GString);
    ("OpenDate", TChars 9, GString);
    ("ExchangeID", TChars 9, GString);
    ("SettlementID", TInt, GInt);
    ("BrokerID", TChars 11, GString);
    ("InvestorID", TChars 13, GString);
    ("ComTradeID", TChars 21, GString);
    ("TradeID", TChars 21, GString);
    ("reserve1", TChars 31, GString);
    ("HedgeFlag", TChar, GChar);
    ("Direction", TChar, GChar);
    ("TotalAmt", TInt, GInt);
    ("Margin", TDouble, GDouble);
    ("ExchMargin", TDouble, GDouble);
    ("MarginRateByMoney", TDouble, GDouble);
    ("MarginRateByVolume", TDouble, GDouble);
    ("LegID", TInt, GInt);
    ("LegMultiple", TInt, GInt);
    ("reserve2", TChars 31, GString);
    ("TradeGroupID", TInt, GInt);
    ("InvestUnitID", TChars 17, GString);
    ("InstrumentID", TChars 81, GString);
    ("CombInstrumentID", TChars 81, GString) ].

(** ctp_wrap.cpp, lines 244641 to 247572. *)
Definition wrap_CThostFtdcParkedOrderField : wrapper :=
  mk_wrapper 164
  [ ("BrokerID", TChars 11, GString);
    ("InvestorID", TChars 13, GString);
    ("reserve1", TChars 31, GString);
    ("OrderRef", TChars 13, GString);
    ("UserID", TChars 16, GString);
    ("OrderPriceType", TChar, GChar);
    ("Direction", TChar, GChar);
    ("CombOffsetFlag", TChars 5, GString);
    ("CombHedgeFlag", TChars 5, GString);
    ("LimitPrice", TDouble, GDouble);
    ("VolumeTotalOriginal", TInt, GInt);
    ("TimeCondition", TChar, GChar);
    ("GTDDate", TChars 9, GString);
    ("VolumeCondition", TChar, GChar);
    ("MinVolume", TInt, GInt);
    ("ContingentCondition", TChar, GChar);
    ("StopPrice", TDouble, GDouble);
    ("ForceCloseReason", TChar, GChar);
    ("IsAutoSuspend", TInt, GInt);
    ("BusinessUnit", TChars 21, GString);
    ("RequestID", TInt, GInt);
    ("UserForceClose", TInt, GInt);
    ("ExchangeID", TChars 9, GString);
    ("ParkedOrderID", TChars 13, GString);
    ("UserType", TChar, GChar);
    ("Status", TChar, GChar);
    ("ErrorID", TInt, GInt);
    ("ErrorMsg", TChars 81, GString);
    ("IsSwapOrder", TInt, GInt);
    ("AccountID", TChars 13, GString);
    ("CurrencyID", TChars 4, GString);
    ("ClientID", TChars 11, GString);
    ("InvestUnitID", TChars 17, GString);
    ("reserve2", TChars 16, GString);
    ("MacAddress", TChars 21, GString);
    ("InstrumentID", TChars 81, GString);
    ("IPAddress", TChars 33, GString) ].

(** ctp_wrap.cpp, lines 247669 to 249602. *)
Definition wrap_CThostFtdcParkedOrderActionField : wrapper :=
  mk_wrapper 163
  [ ("BrokerID", TChars 11, GString);
    ("InvestorID", TChars 13, GString);
    ("OrderActionRef", TInt, GInt);
    ("OrderRef", TChars 13, GString);
    ("RequestID", TInt, GInt);
    ("FrontID", TInt, GInt);
    ("SessionID", TInt, GInt);
    ("ExchangeID", TChars 9, GString);
    ("OrderSysID", TChars 21, GString);
    ("ActionFlag", TChar, GChar);
    ("LimitPrice", TDouble, GDouble);
    ("VolumeChange", TInt, GInt);
    ("UserID", TChars 16, GString);
    ("reserve1", TChars 31, GString);
    ("ParkedOrderActionID", TChars 13, GString);
    ("UserType", TChar, GChar);
    ("Status", TChar, GChar);
    ("ErrorID", TInt, GInt);
    ("ErrorMsg", TChars 81, GString);
    ("InvestUnitID", TChars 17, GString);
    ("reserve2", TChars 16, GString);
    ("MacAddress", TChars 21, GString);
    ("InstrumentID", TChars 81, GString);
    ("IPAddress", TChars 33, GString) ].

(** ctp_wrap.cpp, lines 249699 to 250260. *)
Definition wrap_CThostFtdcQryParkedOrderField : wrapper :=
  mk_wrapper 256
  [ ("BrokerID", TChars 11, GString);
    ("InvestorID", TChars 13, GString);
    ("reserve1", TChars 31, GString);
    ("ExchangeID", TChars 9, GString);
    ("InvestUnitID", TChars 17, GString);
    ("InstrumentID", TChars 81, GString) ].

(** ctp_wrap.cpp, lines 250357 to 250918. *)
Definition wrap_CThostFtdcQryParkedOrderActionField : wrapper :=
  mk_wrapper 255
  [ ("BrokerID", TChars 11, GString);
    ("InvestorID", TChars 13, GString);
    ("reserve1", TChars 31, GString);
    ("ExchangeID", TChars 9, GString);
    ("InvestUnitID", TChars 17, GString);
    ("InstrumentID", TChars 81, GString) ].

(** ctp_wrap.cpp, lines 251015 to 251388. *)
Definition wrap_CThostFtdcRemoveParkedOrderField : wrapper :=
  mk_wrapper 322
  [ ("BrokerID", TChars 11, GString);
    ("InvestorID", TChars 13, GString);
    ("ParkedOrderID", TChars 13, GString);
    ("InvestUnitID", TChars 17, GString) ].

(** ctp_wrap.cpp, lines 251485 to 251858. *)
Definition wrap_CThostFtdcRemoveParkedOrderActionField : wrapper :=
  mk_wrapper 321
  [ ("BrokerID", TChars 11, GString);
    ("InvestorID", TChars 13, GString);
    ("ParkedOrderActionID", TChars 13, GString);
    ("InvestUnitID", TChars 17, GString) ].

(** ctp_wrap.cpp, lines 251955 to 252420. *)
Definition wrap_CThostFtdcInvestorWithdrawAlgorithmField : wrapper :=
  mk_wrapper 118
  [ ("BrokerID", TChars 11, GString);
    ("InvestorRange", TChar, GChar);
    ("InvestorID", TChars 13, GString);
    ("UsingRatio", TDouble, GDouble);
    ("CurrencyID", TChars 4, GString);
    ("FundMortgageRatio", TDouble, GDouble) ].

(** ctp_wrap.cpp, lines 252517 to 253078. *)
Definition wrap_CThostFtdcQryInvestorPositionCombineDetailField : wrapper :=
  mk_wrapper 230
  [ ("BrokerID", TChars 11, GString);
    ("InvestorID", TChars 13, GString);
    ("reserve1", TChars 31, GString);
    ("ExchangeID", TChars 9, GString);
    ("InvestUnitID", TChars 17, GString);
    ("CombInstrumentID", TChars 81, GString) ].

(** ctp_wrap.cpp, lines 253175 to 253234. *)
Definition wrap_CThostFtdcMarketDataAveragePriceField : wrapper :=
  mk_wrapper 132
  [ ("AveragePrice", TDouble, GDouble) ].

(** ctp_wrap.cpp, lines 253331 to 253610. *)
Definition wrap_CThostFtdcVerifyInvestorPasswordField : wrapper :=
  mk_wrapper 473
  [ ("BrokerID", TChars 11, GString);
    ("InvestorID", TChars 13, GString);
    ("Password", TChars 41, GString) ].

(** ctp_wrap.cpp, lines 253707 to 254362. *)
Definition wrap_CThostFtdcUserIPField : wrapper :=
  mk_wrapper 463
  [ ("BrokerID", TChars 11, GString);
    ("UserID", TChars 16, GString);
    ("reserve1", TChars 16, GString);
    ("reserve2", TChars 16, GString);
    ("MacAddress", TChars 21, GString);
    ("IPAddress", TChars 33, GString);
    ("IPMask", TChars 33, GString) ].

(** ctp_wrap.cpp, lines 254459 to 255050. *)
Definition wrap_CThostFtdcTradingNoticeInfoField : wrapper :=
  mk_wrapper 451
  [ ("BrokerID", TChars 11, GString);
    ("InvestorID", TChars 13, GString);
    ("SendTime", TChars 9, GString);
    ("FieldContent", TChars 501, GString);
    ("SequenceSeries", TShort, GShort);
    ("SequenceNo", TInt, GInt);
    ("InvestUnitID", TChars 17, GString) ].

(** ctp_wrap.cpp, lines 255147 to 255894. *)
Definition wrap_CThostFtdcTradingNoticeField : wrapper :=
  mk_wrapper 450
  [ ("BrokerID", TChars 11, GString);
    ("InvestorRange", TChar, GChar);
    ("InvestorID", TChars 13, GString);
    ("SequenceSeries", TShort, GShort);
    ("UserID", TChars 16, GString);
    ("SendTime", TChars 9, GString);
    ("SequenceNo", TInt, GInt);
    ("FieldContent", TChars 501, GString);
    ("InvestUnitID", TChars 17, GString) ].

(** ctp_wrap.cpp, lines 255991 to 256270. *)
Definition wrap_CThostFtdcQryTradingNoticeField : wrapper :=
  mk_wrapper 302
  [ ("BrokerID", TChars 11, GString);
    ("InvestorID", TChars 13, GString);
    ("InvestUnitID", TChars 17, GString) ].

(** ctp_wrap.cpp, lines 256367 to 256552. *)
Definition wrap_CThostFtdcQryErrOrderField : wrapper :=
  mk_wrapper 196
  [ ("BrokerID", TChars 11, GString);
    ("InvestorID", TChars 13, GString) ].

(** ctp_wrap.cpp, lines 256649 to 259518. *)
Definition wrap_CThostFtdcErrOrderField : wrapper :=
  mk_wrapper 46
  [ ("BrokerID", TChars 11, GString);
    ("InvestorID", TChars 13, GString);
    ("reserve1", TChars 31, GString);
    ("OrderRef", TChars 13, GString);
    ("UserID", TChars 16, GString);
    ("OrderPriceType", TChar, GChar);
    ("Direction", TChar, GChar);
    ("CombOffsetFlag", TChars 5, GString);
    ("CombHedgeFlag", TChars 5, GString);
    ("LimitPrice", TDouble, GDouble);
    ("VolumeTotalOriginal", TInt, GInt);
    ("TimeCondition", TChar, GChar);
    ("GTDDate", TChars 9, GString);
    ("VolumeCondition", TChar, GChar);
    ("MinVolume", TInt, GInt);
    ("ContingentCondition", TChar, GChar);
    ("StopPrice", TDouble, GDouble);
    ("ForceCloseReason", TChar, GChar);
    ("IsAutoSuspend", TInt, GInt);
    ("BusinessUnit", TChars 21, GString);
    ("RequestID", TInt, GInt);
    ("UserForceClose", TInt, GInt);
    ("ErrorID", TInt, GInt);
    ("ErrorMsg", TChars 81, GString);
    ("IsSwapOrder", TInt, GInt);
    ("ExchangeID", TChars 9, GString);
    ("InvestUnitID", TChars 17, GString);
    ("AccountID", TChars 13, GString);
    ("CurrencyID", TChars 4, GString);
    ("ClientID", TChars 11, GString);
    ("reserve2", TChars 16, GString);
    ("MacAddress", TChars 21, GString);
    ("InstrumentID", TChars 81, GString);
    ("IPAddress", TChars 33, GString);
    ("OrderMemo", TChars 13, GString);
    ("SessionReqSeq", TInt, GInt) ].

(** ctp_wrap.cpp, lines 259615 to 265076. *)
Definition wrap_CThostFtdcErrorConditionalOrderField : wrapper :=
  mk_wrapper 47
  [ ("BrokerID", TChars 11, GString);
    ("InvestorID", TChars 13, GString);
    ("reserve1", TChars 31, GString);
    ("OrderRef", TChars 13, GString);
    ("UserID", TChars 16, GString);
    ("OrderPriceType", TChar, GChar);
    ("Direction", TChar, GChar);
    ("CombOffsetFlag", TChars 5, GString);
    ("CombHedgeFlag", TChars 5, GString);
    ("LimitPrice", TDouble, GDouble);
    ("VolumeTotalOriginal", TInt, GInt);
    ("TimeCondition", TChar, GChar);
    ("GTDDate", TChars 9, GString);
    ("VolumeCondition", TChar, GChar);
    ("MinVolume", TInt, GInt);
    ("ContingentCondition", TChar, GChar);
    ("StopPrice", TDouble, GDouble);
    ("ForceCloseReason", TChar, GChar);
    ("IsAutoSuspend", TInt, GInt);
    ("BusinessUnit", TChars 21, GString);
    ("RequestID", TInt, GInt);
    ("OrderLocalID", TChars 13, GString);
    ("ExchangeID", TChars 9, GString);
    ("ParticipantID", TChars 11, GString);
    ("ClientID", TChars 11, GString);
    ("reserve2", TChars 31, GString);
    ("TraderID", TChars 21, GString);
    ("InstallID", TInt, GInt);
    ("OrderSubmitStatus", TChar, GChar);
    ("NotifySequence", TInt, GInt);
    ("TradingDay", TChars 9, GString);
    ("SettlementID", TInt, GInt);
    ("OrderSysID", TChars 21, GString);
    ("OrderSource", TChar, GChar);
    ("OrderStatus", TChar, GChar);
    ("OrderType", TChar, GChar);
    ("VolumeTraded", TInt, GInt);
    ("VolumeTotal", TInt, GInt);
    ("InsertDate", TChars 9, GString);
    ("InsertTime", TChars 9, GString);
    ("ActiveTime", TChars 9, GString);
    ("SuspendTime", TChars 9, GString);
    ("UpdateTime", TChars 9, GString);
    ("CancelTime", TChars 9, GString);
    ("ActiveTraderID", TChars 21, GString);
    ("ClearingPartID", TChars 11, GString);
    ("SequenceNo", TInt, GInt);
    ("FrontID", TInt, GInt);
    ("SessionID", TInt, GInt);
    ("UserProductInfo", TChars 11, GString);
    ("StatusMsg", TChars 81, GString);
    ("UserForceClose", TInt, GInt);
    ("ActiveUserID", TChars 16, GString);
    ("BrokerOrderSeq", TInt, GInt);
    ("RelativeOrderSysID", TChars 21, GString);
    ("ZCETotalTradedVolume", TInt, GInt);
    ("ErrorID", TInt, GInt);
    ("ErrorMsg", TChars 81, GString);
    ("IsSwapOrder", TInt, GInt);
    ("BranchID", TChars 9, GString);
    ("InvestUnitID", TChars 17, GString);
    ("AccountID", TChars 13, GString);
    ("CurrencyID", TChars 4, GString);
    ("reserve3", TChars 16, GString);
    ("MacAddress", TChars 21, GString);
    ("InstrumentID", TChars 81, GString);
    ("ExchangeInstID", TChars 81, GString);
    ("IPAddress", TChars 33, GString) ].

(** ctp_wrap.cpp, lines 265173 to 265358. *)
Definition wrap_CThostFtdcQryErrOrderActionField : wrapper :=
  mk_wrapper 195
  [ ("BrokerID", TChars 11, GString);
    ("InvestorID", TChars 13, GString) ].

(** ctp_wrap.cpp, lines 265455 to 268390. *)
Definition wrap_CThostFtdcErrOrderActionField : wrapper :=
  mk_wrapper 45
  [ ("BrokerID", TChars 11, GString);
    ("InvestorID", TChars 13, GString);
    ("OrderActionRef", TInt, GInt);
    ("OrderRef", TChars 13, GString);
    ("RequestID", TInt, GInt);
    ("FrontID", TInt, GInt);
    ("SessionID", TInt, GInt);
    ("ExchangeID", TChars 9, GString);
    ("OrderSysID", TChars 21, GString);
    ("ActionFlag", TChar, GChar);
    ("LimitPrice", TDouble, GDouble);
    ("VolumeChange", TInt, GInt);
    ("ActionDate", TChars 9, GString);
    ("ActionTime", TChars 9, GString);
    ("TraderID", TChars 21, GString);
    ("InstallID", TInt, GInt);
    ("OrderLocalID", TChars 13, GString);
    ("ActionLocalID", TChars 13, GString);
    ("ParticipantID", TChars 11, GString);
    ("ClientID", TChars 11, GString);
    ("BusinessUnit", TChars 21, GString);
    ("OrderActionStatus", TChar, GChar);
    ("UserID", TChars 16, GString);
    ("StatusMsg", TChars 81, GString);
    ("reserve1", TChars 31, GString);
    ("BranchID", TChars 9, GString);
    ("InvestUnitID", TChars 17, GString);
    ("reserve2", TChars 16, GString);
    ("MacAddress", TChars 21, GString);
    ("ErrorID", TInt, GInt);
    ("ErrorMsg", TChars 81, GString);
    ("InstrumentID", TChars 81, GString);
    ("IPAddress", TChars 33, GString);
    ("OrderMemo", TChars 13, GString);
    ("SessionReqSeq", TInt, GInt) ].

(** ctp_wrap.cpp, lines 268487 to 268578. *)
Definition wrap_CThostFtdcQryExchangeSequenceField : wrapper :=
  mk_wrapper 209
  [ ("ExchangeID", TChars 9, GString) ].

(** ctp_wrap.cpp, lines 268675 to 268890. *)
Definition wrap_CThostFtdcExchangeSequenceField : wrapper :=
  mk_wrapper 65
  [ ("ExchangeID", TChars 9, GString);
    ("SequenceNo", TInt, GInt);
    ("MarketStatus", TChar, GChar) ].

(** ctp_wrap.cpp, lines 268987 to 269858. *)
Definition wrap_CThostFtdcQryMaxOrderVolumeWithPriceField : wrapper :=
  mk_wrapper 245
  [ ("BrokerID", TChars 11, GString);
    ("InvestorID", TChars 13, GString);
    ("reserve1", TChars 31, GString);
    ("Direction", TChar, GChar);
    ("OffsetFlag", TChar, GChar);
    ("HedgeFlag", TChar, GChar);
    ("MaxVolume", TInt, GInt);
    ("Price", TDouble, GDouble);
    ("ExchangeID", TChars 9, GString);
    ("InvestUnitID", TChars 17, GString);
    ("InstrumentID", TChars 81, GString) ].

(** ctp_wrap.cpp, lines 269955 to 270328. *)
Definition wrap_CThostFtdcQryBrokerTradingParamsField : wrapper :=
  mk_wrapper 176
  [ ("BrokerID", TChars 11, GString);
    ("InvestorID", TChars 13, GString);
    ("CurrencyID", TChars 4, GString);
    ("AccountID", TChars 13, GString) ].

(** ctp_wrap.cpp, lines 270425 to 271046. *)
Definition wrap_CThostFtdcBrokerTradingParamsField : wrapper :=
  mk_wrapper 12
  [ ("BrokerID", TChars 11, GString);
    ("InvestorID", TChars 13, GString);
    ("MarginPriceType", TChar, GChar);
    ("Algorithm", TChar, GChar);
    ("AvailIncludeCloseProfit", TChar, GChar);
    ("CurrencyID", TChars 4, GString);
    ("OptionRoyaltyPriceType", TChar, GChar);
    ("AccountID", TChars 13, GString) ].

(** ctp_wrap.cpp, lines 271143 to 271516. *)
Definition wrap_CThostFtdcQryBrokerTradingAlgosField : wrapper :=
  mk_wrapper 175
  [ ("BrokerID", TChars 11, GString);
    ("ExchangeID", TChars 9, GString);
    ("reserve1", TChars 31, GString);
    ("InstrumentID", TChars 81, GString) ].

(** ctp_wrap.cpp, lines 271613 to 272172. *)
Definition wrap_CThostFtdcBrokerTradingAlgosField : wrapper :=
  mk_wrapper 11
  [ ("BrokerID", TChars 11, GString);
    ("ExchangeID", TChars 9, GString);
    ("reserve1", TChars 31, GString);
    ("HandlePositionAlgoID", TChar, GChar);
    ("FindMarginRateAlgoID", TChar, GChar);
    ("HandleTradingAccountAlgoID", TChar, GChar);
    ("InstrumentID", TChars 81, GString) ].

(** ctp_wrap.cpp, lines 272269 to 272454. *)
Definition wrap_CThostFtdcQueryBrokerDepositField : wrapper :=
  mk_wrapper 307
  [ ("BrokerID", TChars 11, GString);
    ("ExchangeID", TChars 9, GString) ].

(** ctp_wrap.cpp, lines 272551 to 273482. *)
Definition wrap_CThostFtdcBrokerDepositField : wrapper :=
  mk_wrapper 8
  [ ("TradingDay", TChars 9, GString);
    ("BrokerID", TChars 11, GString);
    ("ParticipantID", TChars 11, GString);
    ("ExchangeID", TChars 9, GString);
    ("PreBalance", TDouble, GDouble);
    ("CurrMargin", TDouble, GDouble);
    ("CloseProfit", TDouble, GDouble);
    ("Balance", TDouble, GDouble);
    ("Deposit", TDouble, GDouble);
    ("Withdraw", TDouble, GDouble);
    ("Available", TDouble, GDouble);
    ("Reserve", TDouble, GDouble);
    ("FrozenMargin", TDouble, GDouble) ].

(** ctp_wrap.cpp, lines 273579 to 273670. *)
Definition wrap_CThostFtdcQryCFMMCBrokerKeyField : wrapper :=
  mk_wrapper 181
  [ ("BrokerID", TChars 11, GString) ].

(** ctp_wrap.cpp, lines 273767 to 274358. *)
Definition wrap_CThostFtdcCFMMCBrokerKeyField : wrapper :=
  mk_wrapper 21
  [ ("BrokerID", TChars 11, GString);
    ("ParticipantID", TChars 11, GString);
    ("CreateDate", TChars 9, GString);
    ("CreateTime", TChars 9, GString);
    ("KeyID", TInt, GInt);
    ("CurrentKey", TChars 21, GString);
    ("KeyKind", TChar, GChar) ].

(** ctp_wrap.cpp, lines 274455 to 274890. *)
Definition wrap_CThostFtdcCFMMCTradingAccountKeyField : wrapper :=
  mk_wrapper 22
  [ ("BrokerID", TChars 11, GString);
    ("ParticipantID", TChars 11, GString);
    ("AccountID", TChars 13, GString);
    ("KeyID", TInt, GInt);
    ("CurrentKey", TChars 21, GString) ].

(** ctp_wrap.cpp, lines 274987 to 275172. *)
Definition wrap_CThostFtdcQryCFMMCTradingAccountKeyField : wrapper :=
  mk_wrapper 182
  [ ("BrokerID", TChars 11, GString);
    ("InvestorID", TChars 13, GString) ].

(** ctp_wrap.cpp, lines 275269 to 275922. *)
Definition wrap_CThostFtdcBrokerUserOTPParamField : wrapper :=
  mk_wrapper 16
  [ ("BrokerID", TChars 11, GString);
    ("UserID", TChars 16, GString);
    ("OTPVendorsID", TChars 2, GString);
    ("SerialNumber", TChars 17, GString);
    ("AuthKey", TChars 41, GString);
    ("LastDrift", TInt, GInt);
    ("LastSuccess", TInt, GInt);
    ("OTPType", TChar, GChar) ].

(** ctp_wrap.cpp, lines 276019 to 276454. *)
Definition wrap_CThostFtdcManualSyncBrokerUserOTPField : wrapper :=
  mk_wrapper 128
  [ ("BrokerID", TChars 11, GString);
    ("UserID", TChars 16, GString);
    ("OTPType", TChar, GChar);
    ("FirstOTP", TChars 41, GString);
    ("SecondOTP", TChars 41, GString) ].

(** ctp_wrap.cpp, lines 276551 to 276830. *)
Definition wrap_CThostFtdcCommRateModelField : wrapper :=
  mk_wrapper 31
  [ ("BrokerID", TChars 11, GString);
    ("CommModelID", TChars 13, GString);
    ("CommModelName", TChars 161, GString) ].

(** ctp_wrap.cpp, lines 276927 to 277112. *)
Definition wrap_CThostFtdcQryCommRateModelField : wrapper :=
  mk_wrapper 188
  [ ("BrokerID", TChars 11, GString);
    ("CommModelID", TChars 13, GString) ].

(** ctp_wrap.cpp, lines 277209 to 277488. *)
Definition wrap_CThostFtdcMarginModelField : wrapper :=
  mk_wrapper 129
  [ ("BrokerID", TChars 11, GString);
    ("MarginModelID", TChars 13, GString);
    ("MarginModelName", TChars 161, GString) ].

(** ctp_wrap.cpp, lines 277585 to 277770. *)
Definition wrap_CThostFtdcQryMarginModelField : wrapper :=
  mk_wrapper 243
  [ ("BrokerID", TChars 11, GString);
    ("MarginModelID", TChars 13, GString) ].

(** ctp_wrap.cpp, lines 277867 to 278708. *)
Definition wrap_CThostFtdcEWarrantOffsetField : wrapper :=
  mk_wrapper 42
  [ ("TradingDay", TChars 9, GString);
    ("BrokerID", TChars 11, GString);
    ("InvestorID", TChars 13, GString);
    ("ExchangeID", TChars 9, GString);
    ("reserve1", TChars 31, GString);
    ("Direction", TChar, GChar);
    ("HedgeFlag", TChar, GChar);
    ("Volume", TInt, GInt);
    ("InvestUnitID", TChars 17, GString);
    ("InstrumentID", TChars 81, GString) ].

(** ctp_wrap.cpp, lines 278805 to 279366. *)
Definition wrap_CThostFtdcQryEWarrantOffsetField : wrapper :=
  mk_wrapper 192
  [ ("BrokerID", TChars 11, GString);
    ("InvestorID", TChars 13, GString);
    ("ExchangeID", TChars 9, GString);
    ("reserve1", TChars 31, GString);
    ("InvestUnitID", TChars 17, GString);
    ("InstrumentID", TChars 81, GString) ].

(** ctp_wrap.cpp, lines 279463 to 280086. *)
Definition wrap_CThostFtdcQryInvestorProductGroupMarginField : wrapper :=
  mk_wrapper 236
  [ ("BrokerID", TChars 11, GString);
    ("InvestorID", TChars 13, GString);
    ("reserve1", TChars 31, GString);
    ("HedgeFlag", TChar, GChar);
    ("ExchangeID", TChars 9, GString);
    ("InvestUnitID", TChars 17, GString);
    ("ProductGroupID", TChars 81, GString) ].

(** ctp_wrap.cpp, lines 280183 to 282264. *)
Definition wrap_CThostFtdcInvestorProductGroupMarginField : wrapper :=
  mk_wrapper 116
  [ ("reserve1", TChars 31, GString);
    ("BrokerID", TChars 11, GString);
    ("InvestorID", TChars 13, GString);
    ("TradingDay", TChars 9, GString);
    ("SettlementID", TInt, GInt);
    ("FrozenMargin", TDouble, GDouble);
    ("LongFrozenMargin", TDouble, GDouble);
    ("ShortFrozenMargin", TDouble, GDouble);
    ("UseMargin", TDouble, GDouble);
    ("LongUseMargin", TDouble, GDouble);
    ("ShortUseMargin", TDouble, GDouble);
    ("ExchMargin", TDouble, GDouble);
    ("LongExchMargin", TDouble, GDouble);
    ("ShortExchMargin", TDouble, GDouble);
    ("CloseProfit", TDouble, GDouble);
    ("FrozenCommission", TDouble, GDouble);
    ("Commission", TDouble, GDouble);
    ("FrozenCash", TDouble, GDouble);
    ("CashIn", TDouble, GDouble);
    ("PositionProfit", TDouble, GDouble);
    ("OffsetAmount", TDouble, GDouble);
    ("LongOffsetAmount", TDouble, GDouble);
    ("ShortOffsetAmount", TDouble, GDouble);
    ("ExchOffsetAmount", TDouble, GDouble);
    ("LongExchOffsetAmount", TDouble, GDouble);
    ("ShortExchOffsetAmount", TDouble, GDouble);
    ("HedgeFlag", TChar, GChar);
    ("ExchangeID", TChars 9, GString);
    ("InvestUnitID", TChars 17, GString);
    ("ProductGroupID", TChars 81, GString) ].

(** ctp_wrap.cpp, lines 282361 to 282640. *)
Definition wrap_CThostFtdcQueryCFMMCTradingAccountTokenField : wrapper :=
  mk_wrapper 308
  [ ("BrokerID", TChars 11, GString);
    ("InvestorID", TChars 13, GString);
    ("InvestUnitID", TChars 17, GString) ].

(** ctp_wrap.cpp, lines 282737 to 283172. *)
Definition wrap_CThostFtdcCFMMCTradingAccountTokenField : wrapper :=
  mk_wrapper 23
  [ ("BrokerID", TChars 11, GString);
    ("ParticipantID", TChars 11, GString);
    ("AccountID", TChars 13, GString);
    ("KeyID", TInt, GInt);
    ("Token", TChars 21, GString) ].

(** ctp_wrap.cpp, lines 283269 to 283548. *)
Definition wrap_CThostFtdcQryProductGroupField : wrapper :=
  mk_wrapper 260
  [ ("reserve1", TChars 31, GString);
    ("ExchangeID", TChars 9, GString);
    ("ProductID", TChars 81, GString) ].

(** ctp_wrap.cpp, lines 283645 to 284112. *)
Definition wrap_CThostFtdcProductGroupField : wrapper :=
  mk_wrapper 170
  [ ("reserve1", TChars 31, GString);
    ("ExchangeID", TChars 9, GString);
    ("reserve2", TChars 31, GString);
    ("ProductID", TChars 81, GString);
    ("ProductGroupID", TChars 81, GString) ].

(** ctp_wrap.cpp, lines 284209 to 285238. *)
Definition wrap_CThostFtdcBulletinField : wrapper :=
  mk_wrapper 20
  [ ("ExchangeID", TChars 9, GString);
    ("TradingDay", TChars 9, GString);
    ("BulletinID", TInt, GInt);
    ("SequenceNo", TInt, GInt);
    ("NewsType", TChars 3, GString);
    ("NewsUrgency", TChar, GChar);
    ("SendTime", TChars 9, GString);
    ("Abstract", TChars 81, GString);
    ("ComeFrom", TChars 21, GString);
    ("Content", TChars 501, GString);
    ("URLLink", TChars 201, GString);
    ("MarketID", TChars 31, GString) ].

(** ctp_wrap.cpp, lines 285335 to 285706. *)
Definition wrap_CThostFtdcQryBulletinField : wrapper :=
  mk_wrapper 180
  [ ("ExchangeID", TChars 9, GString);
    ("BulletinID", TInt, GInt);
    ("SequenceNo", TInt, GInt);
    ("NewsType", TChars 3, GString);
    ("NewsUrgency", TChar, GChar) ].

(** ctp_wrap.cpp, lines 285803 to 286298. *)
Definition wrap_CThostFtdcMulticastInstrumentField : wrapper :=
  mk_wrapper 146
  [ ("TopicID", TInt, GInt);
    ("reserve1", TChars 31, GString);
    ("InstrumentNo", TInt, GInt);
    ("CodePrice", TDouble, GDouble);
    ("VolumeMultiple", TInt, GInt);
    ("PriceTick", TDouble, GDouble);
    ("InstrumentID", TChars 81, GString) ].

(** ctp_wrap.cpp, lines 286395 to 286642. *)
Definition wrap_CThostFtdcQryMulticastInstrumentField : wrapper :=
  mk_wrapper 246
  [ ("TopicID", TInt, GInt);
    ("reserve1", TChars 31, GString);
    ("InstrumentID", TChars 81, GString) ].

(** ctp_wrap.cpp, lines 286739 to 286986. *)
Definition wrap_CThostFtdcAppIDAuthAssignField : wrapper :=
  mk_wrapper 2
  [ ("BrokerID", TChars 11, GString);
    ("AppID", TChars 33, GString);
    ("DRIdentityID", TInt, GInt) ].

(** ctp_wrap.cpp, lines 287083 to 290830. *)
Definition wrap_CThostFtdcReqOpenAccountField : wrapper :=
  mk_wrapper 331
  [ ("TradeCode", TChars 7, GString);
    ("BankID", TChars 4, GString);
    ("BankBranchID", TChars 5, GString);
    ("BrokerID", TChars 11, GString);
    ("BrokerBranchID", TChars 31, GString);
    ("TradeDate", TChars 9, GString);
    ("TradeTime", TChars 9, GString);
    ("BankSerial", TChars 13, GString);
    ("TradingDay", TChars 9, GString);
    ("PlateSerial", TInt, GInt);
    ("LastFragment", TChar, GChar);
    ("SessionID", TInt, GInt);
    ("CustomerName", TChars 51, GString);
    ("IdCardType", TChar, GChar);
    ("IdentifiedCardNo", TChars 51, GString);
    ("Gender", TChar, GChar);
    ("CountryCode", TChars 21, GString);
    ("CustType", TChar, GChar);
    ("Address", TChars 101, GString);
    ("ZipCode", TChars 7, GString);
    ("Telephone", TChars 41, GString);
    ("MobilePhone", TChars 21, GString);
    ("Fax", TChars 41, GString);
    ("EMail", TChars 41, GString);
    ("MoneyAccountStatus", TChar, GChar);
    ("BankAccount", TChars 41, GString);
    ("BankPassWord", TChars 41, GString);
    ("AccountID", TChars 13, GString);
    ("Password", TChars 41, GString);
    ("InstallID", TInt, GInt);
    ("VerifyCertNoFlag", TChar, GChar);
    ("CurrencyID", TChars 4, GString);
    ("CashExchangeCode", TChar, GChar);
    ("Digest", TChars 36, GString);
    ("BankAccType", TChar, GChar);
    ("DeviceID", TChars 3, GString);
    ("BankSecuAccType", TChar, GChar);
    ("BrokerIDByBank", TChars 33, GString);
    ("BankSecuAcc", TChars 41, GString);
    ("BankPwdFlag", TChar, GChar);
    ("SecuPwdFlag", TChar, GChar);
    ("OperNo", TChars 17, GString);
    ("TID", TInt, GInt);
    ("UserID", TChars 16, GString);
    ("LongCustomerName", TChars 161, GString) ].

(** ctp_wrap.cpp, lines 290927 to 294674. *)
Definition wrap_CThostFtdcReqCancelAccountField : wrapper :=
  mk_wrapper 325
  [ ("TradeCode", TChars 7, GString);
    ("BankID", TChars 4, GString);
    ("BankBranchID", TChars 5, GString);
    ("BrokerID", TChars 11, GString);
    ("BrokerBranchID", TChars 31, GString);
    ("TradeDate", TChars 9, GString);
    ("TradeTime", TChars 9, GString);
    ("BankSerial", TChars 13, GString);
    ("TradingDay", TChars 9, GString);
    ("PlateSerial", TInt, GInt);
    ("LastFragment", TChar, GChar);
    ("SessionID", TInt, GInt);
    ("CustomerName", TChars 51, GString);
    ("IdCardType", TChar, GChar);
    ("IdentifiedCardNo", TChars 51, GString);
    ("Gender", TChar, GChar);
    ("CountryCode", TChars 21, GString);
    ("CustType", TChar, GChar);
    ("Address", TChars 101, GString);
    ("ZipCode", TChars 7, GString);
    ("Telephone", TChars 41, GString);
    ("MobilePhone", TChars 21, GString);
    ("Fax", TChars 41, GString);
    ("EMail", TChars 41, GString);
    ("MoneyAccountStatus", TChar, GChar);
    ("BankAccount", TChars 41, GString);
    ("BankPassWord", TChars 41, GString);
    ("AccountID", TChars 13, GString);
    ("Password", TChars 41, GString);
    ("InstallID", TInt, GInt);
    ("VerifyCertNoFlag", TChar, GChar);
    ("CurrencyID", TChars 4, GString);
    ("CashExchangeCode", TChar, GChar);
    ("Digest", TChars 36, GString);
    ("BankAccType", TChar, GChar);
    ("DeviceID", TChars 3, GString);
    ("BankSecuAccType", TChar, GChar);
    ("BrokerIDByBank", TChars 33, GString);
    ("BankSecuAcc", TChars 41, GString);
    ("BankPwdFlag", TChar, GChar);
    ("SecuPwdFlag", TChar, GChar);
    ("OperNo", TChars 17, GString);
    ("TID", TInt, GInt);
    ("UserID", TChars 16, GString);
    ("LongCustomerName", TChars 161, GString) ].

(** ctp_wrap.cpp, lines 294771 to 298206. *)
Definition wrap_CThostFtdcReqChangeAccountField : wrapper :=
  mk_wrapper 326
  [ ("TradeCode", TChars 7, GString);
    ("BankID", TChars 4, GString);
    ("BankBranchID", TChars 5, GString);
    ("BrokerID", TChars 11, GString);
    ("BrokerBranchID", TChars 31, GString);
    ("TradeDate", TChars 9, GString);
    ("TradeTime", TChars 9, GString);
    ("BankSerial", TChars 13, GString);
    ("TradingDay", TChars 9, GString);
    ("PlateSerial", TInt, GInt);
    ("LastFragment", TChar, GChar);
    ("SessionID", TInt, GInt);
    ("CustomerName", TChars 51, GString);
    ("IdCardType", TChar, GChar);
    ("IdentifiedCardNo", TChars 51, GString);
    ("Gender", TChar, GChar);
    ("CountryCode", TChars 21, GString);
    ("CustType", TChar, GChar);
    ("Address", TChars 101, GString);
    ("ZipCode", TChars 7, GString);
    ("Telephone", TChars 41, GString);
    ("MobilePhone", TChars 21, GString);
    ("Fax", TChars 41, GString);
    ("EMail", TChars 41, GString);
    ("MoneyAccountStatus", TChar, GChar);
    ("BankAccount", TChars 41, GString);
    ("BankPassWord", TChars 41, GString);
    ("NewBankAccount", TChars 41, GString);
    ("NewBankPassWord", TChars 41, GString);
    ("AccountID", TChars 13, GString);
    ("Password", TChars 41, GString);
    ("BankAccType", TChar, GChar);
    ("InstallID", TInt, GInt);
    ("VerifyCertNoFlag", TChar, GChar);
    ("CurrencyID", TChars 4, GString);
    ("BrokerIDByBank", TChars 33, GString);
    ("BankPwdFlag", TChar, GChar);
    ("SecuPwdFlag", TChar, GChar);
    ("TID", TInt, GInt);
    ("Digest", TChars 36, GString);
    ("LongCustomerName", TChars 161, GString) ].

(** ctp_wrap.cpp, lines 298303 to 301796. *)
Definition wrap_CThostFtdcReqTransferField : wrapper :=
  mk_wrapper 336
  [ ("TradeCode", TChars 7, GString);
    ("BankID", TChars 4, GString);
    ("BankBranchID", TChars 5, GString);
    ("BrokerID", TChars 11, GString);
    ("BrokerBranchID", TChars 31, GString);
    ("TradeDate", TChars 9, GString);
    ("TradeTime", TChars 9, GString);
    ("BankSerial", TChars 13, GString);
    ("TradingDay", TChars 9, GString);
    ("PlateSerial", TInt, GInt);
    ("LastFragment", TChar, GChar);
    ("SessionID", TInt, GInt);
    ("CustomerName", TChars 51, GString);
    ("IdCardType", TChar, GChar);
    ("IdentifiedCardNo", TChars 51, GString);
    ("CustType", TChar, GChar);
    ("BankAccount", TChars 41, GString);
    ("BankPassWord", TChars 41, GString);
    ("AccountID", TChars 13, GString);
    ("Password", TChars 41, GString);
    ("InstallID", TInt, GInt);
    ("FutureSerial", TInt, GInt);
    ("UserID", TChars 16, GString);
    ("VerifyCertNoFlag", TChar, GChar);
    ("CurrencyID", TChars 4, GString);
    ("TradeAmount", TDouble, GDouble);
    ("FutureFetchAmount", TDouble, GDouble);
    ("FeePayFlag", TChar, GChar);
    ("CustFee", TDouble, GDouble);
    ("BrokerFee", TDouble, GDouble);
    ("Message", TChars 129, GString);
    ("Digest", TChars 36, GString);
    ("BankAccType", TChar, GChar);
    ("DeviceID", TChars 3, GString);
    ("BankSecuAccType", TChar, GChar);
    ("BrokerIDByBank", TChars 33, GString);
    ("BankSecuAcc", TChars 41, GString);
    ("BankPwdFlag", TChar, GChar);
    ("SecuPwdFlag", TChar, GChar);
    ("OperNo", TChars 17, GString);
    ("RequestID", TInt, GInt);
    ("TID", TInt, GInt);
    ("TransferStatus", TChar, GChar);
    ("LongCustomerName", TChars 161, GString) ].

(** ctp_wrap.cpp, lines 301893 to 305542. *)
Definition wrap_CThostFtdcRspTransferField : wrapper :=
  mk_wrapper 360
  [ ("TradeCode", TChars 7, GString);
    ("BankID", TChars 4, GString);
    ("BankBranchID", TChars 5, GString);
    ("BrokerID", TChars 11, GString);
    ("BrokerBranchID", TChars 31, GString);
    ("TradeDate", TChars 9, GString);
    ("TradeTime", TChars 9, GString);
    ("BankSerial", TChars 13, GString);
    ("TradingDay", TChars 9, GString);
    ("PlateSerial", TInt, GInt);
    ("LastFragment", TChar, GChar);
    ("SessionID", TInt, GInt);
    ("CustomerName", TChars 51, GString);
    ("IdCardType", TChar, GChar);
    ("IdentifiedCardNo", TChars 51, GString);
    ("CustType", TChar, GChar);
    ("BankAccount", TChars 41, GString);
    ("BankPassWord", TChars 41, GString);
    ("AccountID", TChars 13, GString);
    ("Password", TChars 41, GString);
    ("InstallID", TInt, GInt);
    ("FutureSerial", TInt, GInt);
    ("UserID", TChars 16, GString);
    ("VerifyCertNoFlag", TChar, GChar);
    ("CurrencyID", TChars 4, GString);
    ("TradeAmount", TDouble, GDouble);
    ("FutureFetchAmount", TDouble, GDouble);
    ("FeePayFlag", TChar, GChar);
    ("CustFee", TDouble, GDouble);
    ("BrokerFee", TDouble, GDouble);
    ("Message", TChars 129, GString);
    ("Digest", TChars 36, GString);
    ("BankAccType", TChar, GChar);
    ("DeviceID", TChars 3, GString);
    ("BankSecuAccType", TChar, GChar);
    ("BrokerIDByBank", TChars 33, GString);
    ("BankSecuAcc", TChars 41, GString);
    ("BankPwdFlag", TChar, GChar);
    ("SecuPwdFlag", TChar, GChar);
    ("OperNo", TChars 17, GString);
    ("RequestID", TInt, GInt);
    ("TID", TInt, GInt);
    ("TransferStatus", TChar, GChar);
    ("ErrorID", TInt, GInt);
    ("ErrorMsg", TChars 81, GString);
    ("LongCustomerName", TChars 161, GString) ].

(** ctp_wrap.cpp, lines 305639 to 309598. *)
Definition wrap_CThostFtdcReqRepealField : wrapper :=
  mk_wrapper 334
  [ ("RepealTimeInterval", TInt, GInt);
    ("RepealedTimes", TInt, GInt);
    ("BankRepealFlag", TChar, GChar);
    ("BrokerRepealFlag", TChar, GChar);
    ("PlateRepealSerial", TInt, GInt);
    ("BankRepealSerial", TChars 13, GString);
    ("FutureRepealSerial", TInt, GInt);
    ("TradeCode", TChars 7, GString);
    ("BankID", TChars 4, GString);
    ("BankBranchID", TChars 5, GString);
    ("BrokerID", TChars 11, GString);
    ("BrokerBranchID", TChars 31, GString);
    ("TradeDate", TChars 9, GString);
    ("TradeTime", TChars 9, GString);
    ("BankSerial", TChars 13, GString);
    ("TradingDay", TChars 9, GString);
    ("PlateSerial", TInt, GInt);
    ("LastFragment", TChar, GChar);
    ("SessionID", TInt, GInt);
    ("CustomerName", TChars 51, GString);
    ("IdCardType", TChar, GChar);
    ("IdentifiedCardNo", TChars 51, GString);
    ("CustType", TChar, GChar);
    ("BankAccount", TChars 41, GString);
    ("BankPassWord", TChars 41, GString);
    ("AccountID", TChars 13, GString);
    ("Password", TChars 41, GString);
    ("InstallID", TInt, GInt);
    ("FutureSerial", TInt, GInt);
    ("UserID", TChars 16, GString);
    ("VerifyCertNoFlag", TChar, GChar);
    ("CurrencyID", TChars 4, GString);
    ("TradeAmount", TDouble, GDouble);
    ("FutureFetchAmount", TDouble, GDouble);
    ("FeePayFlag", TChar, GChar);
    ("CustFee", TDouble, GDouble);
    ("BrokerFee", TDouble, GDouble);
    ("Message", TChars 129, GString);
    ("Digest", TChars 36, GString);
    ("BankAccType", TChar, GChar);
    ("DeviceID", TChars 3, GString);
    ("BankSecuAccType", TChar, GChar);
    ("BrokerIDByBank", TChars 33, GString);
    ("BankSecuAcc", TChars 41, GString);
    ("BankPwdFlag", TChar, GChar);
    ("SecuPwdFlag", TChar, GChar);
    ("OperNo", TChars 17, GString);
    ("RequestID", TInt, GInt);
    ("TID", TInt, GInt);
    ("TransferStatus", TChar, GChar);
    ("LongCustomerName", TChars 161, GString) ].

(** ctp_wrap.cpp, lines 309695 to 313810. *)
Definition wrap_CThostFtdcRspRepealField : wrapper :=
  mk_wrapper 358
  [ ("RepealTimeInterval", TInt, GInt);
    ("RepealedTimes", TInt, GInt);
    ("BankRepealFlag", TChar, GChar);
    ("BrokerRepealFlag", TChar, GChar);
    ("PlateRepealSerial", TInt, GInt);
    ("BankRepealSerial", TChars 13, GString);
    ("FutureRepealSerial", TInt, GInt);
    ("TradeCode", TChars 7, GString);
    ("BankID", TChars 4, GString);
    ("BankBranchID", TChars 5, GString);
    ("BrokerID", TChars 11, GString);
    ("BrokerBranchID", TChars 31, GString);
    ("TradeDate", TChars 9, GString);
    ("TradeTime", TChars 9, GString);
    ("BankSerial", TChars 13, GString);
    ("TradingDay", TChars 9, GString);
    ("PlateSerial", TInt, GInt);
    ("LastFragment", TChar, GChar);
    ("SessionID", TInt, GInt);
    ("CustomerName", TChars 51, GString);
    ("IdCardType", TChar, GChar);
    ("IdentifiedCardNo", TChars 51, GString);
    ("CustType", TChar, GChar);
    ("BankAccount", TChars 41, GString);
    ("BankPassWord", TChars 41, GString);
    ("AccountID", TChars 13, GString);
    ("Password", TChars 41, GString);
    ("InstallID", TInt, GInt);
    ("FutureSerial", TInt, GInt);
    ("UserID", TChars 16, GString);
    ("VerifyCertNoFlag", TChar, GChar);
    ("CurrencyID", TChars 4, GString);
    ("TradeAmount", TDouble, GDouble);
    ("FutureFetchAmount", TDouble, GDouble);
    ("FeePayFlag", TChar, GChar);
    ("CustFee", TDouble, GDouble);
    ("BrokerFee", TDouble, GDouble);
    ("Message", TChars 129, GString);
    ("Digest", TChars 36, GString);
    ("BankAccType", TChar, GChar);
    ("DeviceID", TChars 3, GString);
    ("BankSecuAccType", TChar, GChar);
    ("BrokerIDByBank", TChars 33, GString);
    ("BankSecuAcc", TChars 41, GString);
    ("BankPwdFlag", TChar, GChar);
    ("SecuPwdFlag", TChar, GChar);
    ("OperNo", TChars 17, GString);
    ("RequestID", TInt, GInt);
    ("TID", TInt, GInt);
    ("TransferStatus", TChar, GChar);
    ("ErrorID", TInt, GInt);
    ("ErrorMsg", TChars 81, GString);
    ("LongCustomerName", TChars 161, GString) ].

(** ctp_wrap.cpp, lines 313907 to 316934. *)
Definition wrap_CThostFtdcReqQueryAccountField : wrapper :=
  mk_wrapper 332
  [ ("TradeCode", TChars 7, GString);
    ("BankID", TChars 4, GString);
    ("BankBranchID", TChars 5, GString);
    ("BrokerID", TChars 11, GString);
    ("BrokerBranchID", TChars 31, GString);
    ("TradeDate", TChars 9, GString);
    ("TradeTime", TChars 9, GString);
    ("BankSerial", TChars 13, GString);
    ("TradingDay", TChars 9, GString);
    ("PlateSerial", TInt, GInt);
    ("LastFragment", TChar, GChar);
    ("SessionID", TInt, GInt);
    ("CustomerName", TChars 51, GString);
    ("IdCardType", TChar, GChar);
    ("IdentifiedCardNo", TChars 51, GString);
    ("CustType", TChar, GChar);
    ("BankAccount", TChars 41, GString);
    ("BankPassWord", TChars 41, GString);
    ("AccountID", TChars 13, GString);
    ("Password", TChars 41, GString);
    ("FutureSerial", TInt, GInt);
    ("InstallID", TInt, GInt);
    ("UserID", TChars 16, GString);
    ("VerifyCertNoFlag", TChar, GChar);
    ("CurrencyID", TChars 4, GString);
    ("Digest", TChars 36, GString);
    ("BankAccType", TChar, GChar);
    ("DeviceID", TChars 3, GString);
    ("BankSecuAccType", TChar, GChar);
    ("BrokerIDByBank", TChars 33, GString);
    ("BankSecuAcc", TChars 41, GString);
    ("BankPwdFlag", TChar, GChar);
    ("SecuPwdFlag", TChar, GChar);
    ("OperNo", TChars 17, GString);
    ("RequestID", TInt, GInt);
    ("TID", TInt, GInt);
    ("LongCustomerName", TChars 161, GString) ].

(** ctp_wrap.cpp, lines 317031 to 320182. *)
Definition wrap_CThostFtdcRspQueryAccountField : wrapper :=
  mk_wrapper 356
  [ ("TradeCode", TChars 7, GString);
    ("BankID", TChars 4, GString);
    ("BankBranchID", TChars 5, GString);
    ("BrokerID", TChars 11, GString);
    ("BrokerBranchID", TChars 31, GString);
    ("TradeDate", TChars 9, GString);
    ("TradeTime", TChars 9, GString);
    ("BankSerial", TChars 13, GString);
    ("TradingDay", TChars 9, GString);
    ("PlateSerial", TInt, GInt);
    ("LastFragment", TChar, GChar);
    ("SessionID", TInt, GInt);
    ("CustomerName", TChars 51, GString);
    ("IdCardType", TChar, GChar);
    ("IdentifiedCardNo", TChars 51, GString);
    ("CustType", TChar, GChar);
    ("BankAccount", TChars 41, GString);
    ("BankPassWord", TChars 41, GString);
    ("AccountID", TChars 13, GString);
    ("Password", TChars 41, GString);
    ("FutureSerial", TInt, GInt);
    ("InstallID", TInt, GInt);
    ("UserID", TChars 16, GString);
    ("VerifyCertNoFlag", TChar, GChar);
    ("CurrencyID", TChars 4, GString);
    ("Digest", TChars 36, GString);
    ("BankAccType", TChar, GChar);
    ("DeviceID", TChars 3, GString);
    ("BankSecuAccType", TChar, GChar);
    ("BrokerIDByBank", TChars 33, GString);
    ("BankSecuAcc", TChars 41, GString);
    ("BankPwdFlag", TChar, GChar);
    ("SecuPwdFlag", TChar, GChar);
    ("OperNo", TChars 17, GString);
    ("RequestID", TInt, GInt);
    ("TID", TInt, GInt);
    ("BankUseAmount", TDouble, GDouble);
    ("BankFetchAmount", TDouble, GDouble);
    ("LongCustomerName", TChars 161, GString) ].

(** ctp_wrap.cpp, lines 320279 to 322058. *)
Definition wrap_CThostFtdcFutureSignIOField : wrapper :=
  mk_wrapper 78
  [ ("TradeCode", TChars 7, GString);
    ("BankID", TChars 4, GString);
    ("BankBranchID", TChars 5, GString);
    ("BrokerID", TChars 11, GString);
    ("BrokerBranchID", TChars 31, GString);
    ("TradeDate", TChars 9, GString);
    ("TradeTime", TChars 9, GString);
    ("BankSerial", TChars 13, GString);
    ("TradingDay", TChars 9, GString);
    ("PlateSerial", TInt, GInt);
    ("LastFragment", TChar, GChar);
    ("SessionID", TInt, GInt);
    ("InstallID", TInt, GInt);
    ("UserID", TChars 16, GString);
    ("Digest", TChars 36, GString);
    ("CurrencyID", TChars 4, GString);
    ("DeviceID", TChars 3, GString);
    ("BrokerIDByBank", TChars 33, GString);
    ("OperNo", TChars 17, GString);
    ("RequestID", TInt, GInt);
    ("TID", TInt, GInt) ].

(** ctp_wrap.cpp, lines 322155 to 324278. *)
Definition wrap_CThostFtdcRspFutureSignInField : wrapper :=
  mk_wrapper 351
  [ ("TradeCode", TChars 7, GString);
    ("BankID", TChars 4, GString);
    ("BankBranchID", TChars 5, GString);
    ("BrokerID", TChars 11, GString);
    ("BrokerBranchID", TChars 31, GString);
    ("TradeDate", TChars 9, GString);
    ("TradeTime", TChars 9, GString);
    ("BankSerial", TChars 13, GString);
    ("TradingDay", TChars 9, GString);
    ("PlateSerial", TInt, GInt);
    ("LastFragment", TChar, GChar);
    ("SessionID", TInt, GInt);
    ("InstallID", TInt, GInt);
    ("UserID", TChars 16, GString);
    ("Digest", TChars 36, GString);
    ("CurrencyID", TChars 4, GString);
    ("DeviceID", TChars 3, GString);
    ("BrokerIDByBank", TChars 33, GString);
    ("OperNo", TChars 17, GString);
    ("RequestID", TInt, GInt);
    ("TID", TInt, GInt);
    ("ErrorID", TInt, GInt);
    ("ErrorMsg", TChars 81, GString);
    ("PinKey", TChars 129, GString);
    ("MacKey", TChars 129, GString) ].

(** ctp_wrap.cpp, lines 324375 to 326154. *)
Definition wrap_CThostFtdcReqFutureSignOutField : wrapper :=
  mk_wrapper 328
  [ ("TradeCode", TChars 7, GString);
    ("BankID", TChars 4, GString);
    ("BankBranchID", TChars 5, GString);
    ("BrokerID", TChars 11, GString);
    ("BrokerBranchID", TChars 31, GString);
    ("TradeDate", TChars 9, GString);
    ("TradeTime", TChars 9, GString);
    ("BankSerial", TChars 13, GString);
    ("TradingDay", TChars 9, GString);
    ("PlateSerial", TInt, GInt);
    ("LastFragment", TChar, GChar);
    ("SessionID", TInt, GInt);
    ("InstallID", TInt, GInt);
    ("UserID", TChars 16, GString);
    ("Digest", TChars 36, GString);
    ("CurrencyID", TChars 4, GString);
    ("DeviceID", TChars 3, GString);
    ("BrokerIDByBank", TChars 33, GString);
    ("OperNo", TChars 17, GString);
    ("RequestID", TInt, GInt);
    ("TID", TInt, GInt) ].

(** ctp_wrap.cpp, lines 326251 to 328186. *)
Definition wrap_CThostFtdcRspFutureSignOutField : wrapper :=
  mk_wrapper 352
  [ ("TradeCode", TChars 7, GString);
    ("BankID", TChars 4, GString);
    ("BankBranchID", TChars 5, GString);
    ("BrokerID", TChars 11, GString);
    ("BrokerBranchID", TChars 31, GString);
    ("TradeDate", TChars 9, GString);
    ("TradeTime", TChars 9, GString);
    ("BankSerial", TChars 13, GString);
    ("TradingDay", TChars 9, GString);
    ("PlateSerial", TInt, GInt);
    ("LastFragment", TChar, GChar);
    ("SessionID", TInt, GInt);
    ("InstallID", TInt, GInt);
    ("UserID", TChars 16, GString);
    ("Digest", TChars 36, GString);
    ("CurrencyID", TChars 4, GString);
    ("DeviceID", TChars 3, GString);
    ("BrokerIDByBank", TChars 33, GString);
    ("OperNo", TChars 17, GString);
    ("RequestID", TInt, GInt);
    ("TID", TInt, GInt);
    ("ErrorID", TInt, GInt);
    ("ErrorMsg", TChars 81, GString) ].

(** ctp_wrap.cpp, lines 328283 to 330562. *)
Definition wrap_CThostFtdcReqQueryTradeResultBySerialField : wrapper :=
  mk_wrapper 333
  [ ("TradeCode", TChars 7, GString);
    ("BankID", TChars 4, GString);
    ("BankBranchID", TChars 5, GString);
    ("BrokerID", TChars 11, GString);
    ("BrokerBranchID", TChars 31, GString);
    ("TradeDate", TChars 9, GString);
    ("TradeTime", TChars 9, GString);
    ("BankSerial", TChars 13, GString);
    ("TradingDay", TChars 9, GString);
    ("PlateSerial", TInt, GInt);
    ("LastFragment", TChar, GChar);
    ("SessionID", TInt, GInt);
    ("Reference", TInt, GInt);
    ("RefrenceIssureType", TChar, GChar);
    ("RefrenceIssure", TChars 36, GString);
    ("CustomerName", TChars 51, GString);
    ("IdCardType", TChar, GChar);
    ("IdentifiedCardNo", TChars 51, GString);
    ("CustType", TChar, GChar);
    ("BankAccount", TChars 41, GString);
    ("BankPassWord", TChars 41, GString);
    ("AccountID", TChars 13, GString);
    ("Password", TChars 41, GString);
    ("CurrencyID", TChars 4, GString);
    ("TradeAmount", TDouble, GDouble);
    ("Digest", TChars 36, GString);
    ("LongCustomerName", TChars 161, GString) ].

(** ctp_wrap.cpp, lines 330659 to 332876. *)
Definition wrap_CThostFtdcRspQueryTradeResultBySerialField : wrapper :=
  mk_wrapper 357
  [ ("TradeCode", TChars 7, GString);
    ("BankID", TChars 4, GString);
    ("BankBranchID", TChars 5, GString);
    ("BrokerID", TChars 11, GString);
    ("BrokerBranchID", TChars 31, GString);
    ("TradeDate", TChars 9, GString);
    ("TradeTime", TChars 9, GString);
    ("BankSerial", TChars 13, GString);
    ("TradingDay", TChars 9, GString);
    ("PlateSerial", TInt, GInt);
    ("LastFragment", TChar, GChar);
    ("SessionID", TInt, GInt);
    ("ErrorID", TInt, GInt);
    ("ErrorMsg", TChars 81, GString);
    ("Reference", TInt, GInt);
    ("RefrenceIssureType", TChar, GChar);
    ("RefrenceIssure", TChars 36, GString);
    ("OriginReturnCode", TChars 7, GString);
    ("OriginDescrInfoForReturnCode", TChars 129, GString);
    ("BankAccount", TChars 41, GString);
    ("BankPassWord", TChars 41, GString);
    ("AccountID", TChars 13, GString);
    ("Password", TChars 41, GString);
    ("CurrencyID", TChars 4, GString);
    ("TradeAmount", TDouble, GDouble);
    ("Digest", TChars 36, GString) ].

(** ctp_wrap.cpp, lines 332973 to 334158. *)
Definition wrap_CThostFtdcReqDayEndFileReadyField : wrapper :=
  mk_wrapper 327
  [ ("TradeCode", TChars 7, GString);
    ("BankID", TChars 4, GString);
    ("BankBranchID", TChars 5, GString);
    ("BrokerID", TChars 11, GString);
    ("BrokerBranchID", TChars 31, GString);
    ("TradeDate", TChars 9, GString);
    ("TradeTime", TChars 9, GString);
    ("BankSerial", TChars 13, GString);
    ("TradingDay", TChars 9, GString);
    ("PlateSerial", TInt, GInt);
    ("LastFragment", TChar, GChar);
    ("SessionID", TInt, GInt);
    ("FileBusinessCode", TChar, GChar);
    ("Digest", TChars 36, GString) ].

(** ctp_wrap.cpp, lines 334255 to 334440. *)
Definition wrap_CThostFtdcReturnResultField : wrapper :=
  mk_wrapper 346
  [ ("ReturnCode", TChars 7, GString);
    ("DescrInfoForReturnCode", TChars 129, GString) ].

(** ctp_wrap.cpp, lines 334537 to 336160. *)
Definition wrap_CThostFtdcVerifyFuturePasswordField : wrapper :=
  mk_wrapper 472
  [ ("TradeCode", TChars 7, GString);
    ("BankID", TChars 4, GString);
    ("BankBranchID", TChars 5, GString);
    ("BrokerID", TChars 11, GString);
    ("BrokerBranchID", TChars 31, GString);
    ("TradeDate", TChars 9, GString);
    ("TradeTime", TChars 9, GString);
    ("BankSerial", TChars 13, GString);
    ("TradingDay", TChars 9, GString);
    ("PlateSerial", TInt, GInt);
    ("LastFragment", TChar, GChar);
    ("SessionID", TInt, GInt);
    ("AccountID", TChars 13, GString);
    ("Password", TChars 41, GString);
    ("BankAccount", TChars 41, GString);
    ("BankPassWord", TChars 41, GString);
    ("InstallID", TInt, GInt);
    ("TID", TInt, GInt);
    ("CurrencyID", TChars 4, GString) ].

(** ctp_wrap.cpp, lines 336257 to 336660. *)
Definition wrap_CThostFtdcVerifyCustInfoField : wrapper :=
  mk_wrapper 470
  [ ("CustomerName", TChars 51, GString);
    ("IdCardType", TChar, GChar);
    ("IdentifiedCardNo", TChars 51, GString);
    ("CustType", TChar, GChar);
    ("LongCustomerName", TChars 161, GString) ].

(** ctp_wrap.cpp, lines 336757 to 337442. *)
Definition wrap_CThostFtdcVerifyFuturePasswordAndCustInfoField : wrapper :=
  mk_wrapper 471
  [ ("CustomerName", TChars 51, GString);
    ("IdCardType", TChar, GChar);
    ("IdentifiedCardNo", TChars 51, GString);
    ("CustType", TChar, GChar);
    ("AccountID", TChars 13, GString);
    ("Password", TChars 41, GString);
    ("CurrencyID", TChars 4, GString);
    ("LongCustomerName", TChars 161, GString) ].

(** ctp_wrap.cpp, lines 337539 to 338130. *)
Definition wrap_CThostFtdcDepositResultInformField : wrapper :=
  mk_wrapper 38
  [ ("DepositSeqNo", TChars 15, GString);
    ("BrokerID", TChars 11, GString);
    ("InvestorID", TChars 13, GString);
    ("Deposit", TDouble, GDouble);
    ("RequestID", TInt, GInt);
    ("ReturnCode", TChars 7, GString);
    ("DescrInfoForReturnCode", TChars 129, GString) ].

(** ctp_wrap.cpp, lines 338227 to 339912. *)
Definition wrap_CThostFtdcReqSyncKeyField : wrapper :=
  mk_wrapper 335
  [ ("TradeCode", TChars 7, GString);
    ("BankID", TChars 4, GString);
    ("BankBranchID", TChars 5, GString);
    ("BrokerID", TChars 11, GString);
    ("BrokerBranchID", TChars 31, GString);
    ("TradeDate", TChars 9, GString);
    ("TradeTime", TChars 9, GString);
    ("BankSerial", TChars 13, GString);
    ("TradingDay", TChars 9, GString);
    ("PlateSerial", TInt, GInt);
    ("LastFragment", TChar, GChar);
    ("SessionID", TInt, GInt);
    ("InstallID", TInt, GInt);
    ("UserID", TChars 16, GString);
    ("Message", TChars 129, GString);
    ("DeviceID", TChars 3, GString);
    ("BrokerIDByBank", TChars 33, GString);
    ("OperNo", TChars 17, GString);
    ("RequestID", TInt, GInt);
    ("TID", TInt, GInt) ].

(** ctp_wrap.cpp, lines 340009 to 341850. *)
Definition wrap_CThostFtdcRspSyncKeyField : wrapper :=
  mk_wrapper 359
  [ ("TradeCode", TChars 7, GString);
    ("BankID", TChars 4, GString);
    ("BankBranchID", TChars 5, GString);
    ("BrokerID", TChars 11, GString);
    ("BrokerBranchID", TChars 31, GString);
    ("TradeDate", TChars 9, GString);
    ("TradeTime", TChars 9, GString);
    ("BankSerial", TChars 13, GString);
    ("TradingDay", TChars 9, GString);
    ("PlateSerial", TInt, GInt);
    ("LastFragment", TChar, GChar);
    ("SessionID", TInt, GInt);
    ("InstallID", TInt, GInt);
    ("UserID", TChars 16, GString);
    ("Message", TChars 129, GString);
    ("DeviceID", TChars 3, GString);
    ("BrokerIDByBank", TChars 33, GString);
    ("OperNo", TChars 17, GString);
    ("RequestID", TInt, GInt);
    ("TID", TInt, GInt);
    ("ErrorID", TInt, GInt);
    ("ErrorMsg", TChars 81, GString) ].

(** ctp_wrap.cpp, lines 341947 to 345254. *)
Definition wrap_CThostFtdcNotifyQueryAccountField : wrapper :=
  mk_wrapper 150
  [ ("TradeCode", TChars 7, GString);
    ("BankID", TChars 4, GString);
    ("BankBranchID", TChars 5, GString);
    ("BrokerID", TChars 11, GString);
    ("BrokerBranchID", TChars 31, GString);
    ("TradeDate", TChars 9, GString);
    ("TradeTime", TChars 9, GString);
    ("BankSerial", TChars 13, GString);
    ("TradingDay", TChars 9, GString);
    ("PlateSerial", TInt, GInt);
    ("LastFragment", TChar, GChar);
    ("SessionID", TInt, GInt);
    ("CustomerName", TChars 51, GString);
    ("IdCardType", TChar, GChar);
    ("IdentifiedCardNo", TChars 51, GString);
    ("CustType", TChar, GChar);
    ("BankAccount", TChars 41, GString);
    ("BankPassWord", TChars 41, GString);
    ("AccountID", TChars 13, GString);
    ("Password", TChars 41, GString);
    ("FutureSerial", TInt, GInt);
    ("InstallID", TInt, GInt);
    ("UserID", TChars 16, GString);
    ("VerifyCertNoFlag", TChar, GChar);
    ("CurrencyID", TChars 4, GString);
    ("Digest", TChars 36, GString);
    ("BankAccType", TChar, GChar);
    ("DeviceID", TChars 3, GString);
    ("BankSecuAccType", TChar, GChar);
    ("BrokerIDByBank", TChars 33, GString);
    ("BankSecuAcc", TChars 41, GString);
    ("BankPwdFlag", TChar, GChar);
    ("SecuPwdFlag", TChar, GChar);
    ("OperNo", TChars 17, GString);
    ("RequestID", TInt, GInt);
    ("TID", TInt, GInt);
    ("BankUseAmount", TDouble, GDouble);
    ("BankFetchAmount", TDouble, GDouble);
    ("ErrorID", TInt, GInt);
    ("ErrorMsg", TChars 81, GString);
    ("LongCustomerName", TChars 161, GString) ].

(** ctp_wrap.cpp, lines 345351 to 347628. *)
Definition wrap_CThostFtdcTransferSerialField : wrapper :=
  mk_wrapper 462
  [ ("PlateSerial", TInt, GInt);
    ("TradeDate", TChars 9, GString);
    ("TradingDay", TChars 9, GString);
    ("TradeTime", TChars 9, GString);
    ("TradeCode", TChars 7, GString);
    ("SessionID", TInt, GInt);
    ("BankID", TChars 4, GString);
    ("BankBranchID", TChars 5, GString);
    ("BankAccType", TChar, GChar);
    ("BankAccount", TChars 41, GString);
    ("BankSerial", TChars 13, GString);
    ("BrokerID", TChars 11, GString);
    ("BrokerBranchID", TChars 31, GString);
    ("FutureAccType", TChar, GChar);
    ("AccountID", TChars 13, GString);
    ("InvestorID", TChars 13, GString);
    ("FutureSerial", TInt, GInt);
    ("IdCardType", TChar, GChar);
    ("IdentifiedCardNo", TChars 51, GString);
    ("CurrencyID", TChars 4, GString);
    ("TradeAmount", TDouble, GDouble);
    ("CustFee", TDouble, GDouble);
    ("BrokerFee", TDouble, GDouble);
    ("AvailabilityFlag", TChar, GChar);
    ("OperatorCode", TChars 17, GString);
    ("BankNewAccount", TChars 41, GString);
    ("ErrorID", TInt, GInt);
    ("ErrorMsg", TChars 81, GString) ].

(** ctp_wrap.cpp, lines 347725 to 348098. *)
Definition wrap_CThostFtdcQryTransferSerialField : wrapper :=
  mk_wrapper 304
  [ ("BrokerID", TChars 11, GString);
    ("AccountID", TChars 13, GString);
    ("BankID", TChars 4, GString);
    ("CurrencyID", TChars 4, GString) ].

(** ctp_wrap.cpp, lines 348195 to 350318. *)
Definition wrap_CThostFtdcNotifyFutureSignInField : wrapper :=
  mk_wrapper 148
  [ ("TradeCode", TChars 7, GString);
    ("BankID", TChars 4, GString);
    ("BankBranchID", TChars 5, GString);
    ("BrokerID", TChars 11, GString);
    ("BrokerBranchID", TChars 31, GString);
    ("TradeDate", TChars 9, GString);
    ("TradeTime", TChars 9, GString);
    ("BankSerial", TChars 13, GString);
    ("TradingDay", TChars 9, GString);
    ("PlateSerial", TInt, GInt);
    ("LastFragment", TChar, GChar);
    ("SessionID", TInt, GInt);
    ("InstallID", TInt, GInt);
    ("UserID", TChars 16, GString);
    ("Digest", TChars 36, GString);
    ("CurrencyID", TChars 4, GString);
    ("DeviceID", TChars 3, GString);
    ("BrokerIDByBank", TChars 33, GString);
    ("OperNo", TChars 17, GString);
    ("RequestID", TInt, GInt);
    ("TID", TInt, GInt);
    ("ErrorID", TInt, GInt);
    ("ErrorMsg", TChars 81, GString);
    ("PinKey", TChars 129, GString);
    ("MacKey", TChars 129, GString) ].

(** The wrappers above, by the name of their structure. *)
Definition wrappers : list (string * wrapper) :=
  [ ("CThostFtdcQryCombInstrumentGuardField", wrap_CThostFtdcQryCombInstrumentGuardField);
    ("CThostFtdcInputCombActionField", wrap_CThostFtdcInputCombActionField);
    ("CThostFtdcCombActionField", wrap_CThostFtdcCombActionField);
    ("CThostFtdcQryCombActionField", wrap_CThostFtdcQryCombActionField);
    ("CThostFtdcExchangeCombActionField", wrap_CThostFtdcExchangeCombActionField);
    ("CThostFtdcQryExchangeCombActionField", wrap_CThostFtdcQryExchangeCombActionField);
    ("CThostFtdcProductExchRateField", wrap_CThostFtdcProductExchRateField);
    ("CThostFtdcQryProductExchRateField", wrap_CThostFtdcQryProductExchRateField);
    ("CThostFtdcQryForQuoteParamField", wrap_CThostFtdcQryForQuoteParamField);
    ("CThostFtdcForQuoteParamField", wrap_CThostFtdcForQuoteParamField);
    ("CThostFtdcMMOptionInstrCommRateField", wrap_CThostFtdcMMOptionInstrCommRateField);
    ("CThostFtdcQryMMOptionInstrCommRateField", wrap_CThostFtdcQryMMOptionInstrCommRateField);
    ("CThostFtdcMMInstrumentCommissionRateField", wrap_CThostFtdcMMInstrumentCommissionRateField);
    ("CThostFtdcQryMMInstrumentCommissionRateField", wrap_CThostFtdcQryMMInstrumentCommissionRateField);
    ("CThostFtdcInstrumentOrderCommRateField", wrap_CThostFtdcInstrumentOrderCommRateField);
    ("CThostFtdcQryInstrumentOrderCommRateField", wrap_CThostFtdcQryInstrumentOrderCommRateField);
    ("CThostFtdcTradeParamField", wrap_CThostFtdcTradeParamField);
    ("CThostFtdcInstrumentMarginRateULField", wrap_CThostFtdcInstrumentMarginRateULField);
    ("CThostFtdcFutureLimitPosiParamField", wrap_CThostFtdcFutureLimitPosiParamField);
    ("CThostFtdcLoginForbiddenIPField", wrap_CThostFtdcLoginForbiddenIPField);
    ("CThostFtdcIPListField", wrap_CThostFtdcIPListField);
    ("CThostFtdcInputOptionSelfCloseField", wrap_CThostFtdcInputOptionSelfCloseField);
    ("CThostFtdcInputOptionSelfCloseActionField", wrap_CThostFtdcInputOptionSelfCloseActionField);
    ("CThostFtdcOptionSelfCloseField", wrap_CThostFtdcOptionSelfCloseField);
    ("CThostFtdcOptionSelfCloseActionField", wrap_CThostFtdcOptionSelfCloseActionField);
    ("CThostFtdcQryOptionSelfCloseField", wrap_CThostFtdcQryOptionSelfCloseField);
    ("CThostFtdcExchangeOptionSelfCloseField", wrap_CThostFtdcExchangeOptionSelfCloseField);
    ("CThostFtdcQryOptionSelfCloseActionField", wrap_CThostFtdcQryOptionSelfCloseActionField);
    ("CThostFtdcExchangeOptionSelfCloseActionField", wrap_CThostFtdcExchangeOptionSelfCloseActionField);
    ("CThostFtdcSyncDelaySwapField", wrap_CThostFtdcSyncDelaySwapField);
    ("CThostFtdcQrySyncDelaySwapField", wrap_CThostFtdcQrySyncDelaySwapField);
    ("CThostFtdcInvestUnitField", wrap_CThostFtdcInvestUnitField);
    ("CThostFtdcQryInvestUnitField", wrap_CThostFtdcQryInvestUnitField);
    ("CThostFtdcSecAgentCheckModeField", wrap_CThostFtdcSecAgentCheckModeField);
    ("CThostFtdcSecAgentTradeInfoField", wrap_CThostFtdcSecAgentTradeInfoField);
    ("CThostFtdcMarketDataField", wrap_CThostFtdcMarketDataField);
    ("CThostFtdcMarketDataBaseField", wrap_CThostFtdcMarketDataBaseField);
    ("CThostFtdcMarketDataStaticField", wrap_CThostFtdcMarketDataStaticField);
    ("CThostFtdcMarketDataLastMatchField", wrap_CThostFtdcMarketDataLastMatchField);
    ("CThostFtdcMarketDataBestPriceField", wrap_CThostFtdcMarketDataBestPriceField);
    ("CThostFtdcMarketDataBid23Field", wrap_CThostFtdcMarketDataBid23Field);
    ("CThostFtdcMarketDataAsk23Field", wrap_CThostFtdcMarketDataAsk23Field);
    ("CThostFtdcMarketDataBid45Field", wrap_CThostFtdcMarketDataBid45Field);
    ("CThostFtdcMarketDataAsk45Field", wrap_CThostFtdcMarketDataAsk45Field);
    ("CThostFtdcMarketDataUpdateTimeField", wrap_CThostFtdcMarketDataUpdateTimeField);
    ("CThostFtdcMarketDataBandingPriceField", wrap_CThostFtdcMarketDataBandingPriceField);
    ("CThostFtdcMarketDataExchangeField", wrap_CThostFtdcMarketDataExchangeField);
    ("CThostFtdcSpecificInstrumentField", wrap_CThostFtdcSpecificInstrumentField);
    ("CThostFtdcInstrumentStatusField", wrap_CThostFtdcInstrumentStatusField);
    ("CThostFtdcQryInstrumentStatusField", wrap_CThostFtdcQryInstrumentStatusField);
    ("CThostFtdcInvestorAccountField", wrap_CThostFtdcInvestorAccountField);
    ("CThostFtdcPositionProfitAlgorithmField", wrap_CThostFtdcPositionProfitAlgorithmField);
    ("CThostFtdcDiscountField", wrap_CThostFtdcDiscountField);
    ("CThostFtdcQryTransferBankField", wrap_CThostFtdcQryTransferBankField);
    ("CThostFtdcTransferBankField", wrap_CThostFtdcTransferBankField);
    ("CThostFtdcQryInvestorPositionDetailField", wrap_CThostFtdcQryInvestorPositionDetailField);
    ("CThostFtdcInvestorPositionDetailField", wrap_CThostFtdcInvestorPositionDetailField);
    ("CThostFtdcTradingAccountPasswordField", wrap_CThostFtdcTradingAccountPasswordField);
    ("CThostFtdcMDTraderOfferField", wrap_CThostFtdcMDTraderOfferField);
    ("CThostFtdcQryMDTraderOfferField", wrap_CThostFtdcQryMDTraderOfferField);
    ("CThostFtdcQryNoticeField", wrap_CThostFtdcQryNoticeField);
    ("CThostFtdcNoticeField", wrap_CThostFtdcNoticeField);
    ("CThostFtdcUserRightField", wrap_CThostFtdcUserRightField);
    ("CThostFtdcQrySettlementInfoConfirmField", wrap_CThostFtdcQrySettlementInfoConfirmField);
    ("CThostFtdcLoadSettlementInfoField", wrap_CThostFtdcLoadSettlementInfoField);
    ("CThostFtdcBrokerWithdrawAlgorithmField", wrap_CThostFtdcBrokerWithdrawAlgorithmField);
    ("CThostFtdcTradingAccountPasswordUpdateV1Field", wrap_CThostFtdcTradingAccountPasswordUpdateV1Field);
    ("CThostFtdcTradingAccountPasswordUpdateField", wrap_CThostFtdcTradingAccountPasswordUpdateField);
    ("CThostFtdcQryCombinationLegField", wrap_CThostFtdcQryCombinationLegField);
    ("CThostFtdcQrySyncStatusField", wrap_CThostFtdcQrySyncStatusField);
    ("CThostFtdcCombinationLegField", wrap_CThostFtdcCombinationLegField);
    ("CThostFtdcSyncStatusField", wrap_CThostFtdcSyncStatusField);
    ("CThostFtdcQryLinkManField", wrap_CThostFtdcQryLinkManField);
    ("CThostFtdcLinkManField", wrap_CThostFtdcLinkManField);
    ("CThostFtdcQryBrokerUserEventField", wrap_CThostFtdcQryBrokerUserEventField);
    ("CThostFtdcBrokerUserEventField", wrap_CThostFtdcBrokerUserEventField);
    ("CThostFtdcQryContractBankField", wrap_CThostFtdcQryContractBankField);
    ("CThostFtdcContractBankField", wrap_CThostFtdcContractBankField);
    ("CThostFtdcInvestorPositionCombineDetailField", wrap_CThostFtdcInvestorPositionCombineDetailField);
    ("CThostFtdcParkedOrderField", wrap_CThostFtdcParkedOrderField);
    ("CThostFtdcParkedOrderActionField", wrap_CThostFtdcParkedOrderActionField);
    ("CThostFtdcQryParkedOrderField", wrap_CThostFtdcQryParkedOrderField);
    ("CThostFtdcQryParkedOrderActionField", wrap_CThostFtdcQryParkedOrderActionField);
    ("CThostFtdcRemoveParkedOrderField", wrap_CThostFtdcRemoveParkedOrderField);
    ("CThostFtdcRemoveParkedOrderActionField", wrap_CThostFtdcRemoveParkedOrderActionField);
    ("CThostFtdcInvestorWithdrawAlgorithmField", wrap_CThostFtdcInvestorWithdrawAlgorithmField);
    ("CThostFtdcQryInvestorPositionCombineDetailField", wrap_CThostFtdcQryInvestorPositionCombineDetailField);
    ("CThostFtdcMarketDataAveragePriceField", wrap_CThostFtdcMarketDataAveragePriceField);
    ("CThostFtdcVerifyInvestorPasswordField", wrap_CThostFtdcVerifyInvestorPasswordField);
    ("CThostFtdcUserIPField", wrap_CThostFtdcUserIPField);
    ("CThostFtdcTradingNoticeInfoField", wrap_CThostFtdcTradingNoticeInfoField);
    ("CThostFtdcTradingNoticeField", wrap_CThostFtdcTradingNoticeField);
    ("CThostFtdcQryTradingNoticeField", wrap_CThostFtdcQryTradingNoticeField);
    ("CThostFtdcQryErrOrderField", wrap_CThostFtdcQryErrOrderField);
    ("CThostFtdcErrOrderField", wrap_CThostFtdcErrOrderField);
    ("CThostFtdcErrorConditionalOrderField", wrap_CThostFtdcErrorConditionalOrderField);
    ("CThostFtdcQryErrOrderActionField", wrap_CThostFtdcQryErrOrderActionField);
    ("CThostFtdcErrOrderActionField", wrap_CThostFtdcErrOrderActionField);
    ("CThostFtdcQryExchangeSequenceField", wrap_CThostFtdcQryExchangeSequenceField);
    ("CThostFtdcExchangeSequenceField", wrap_CThostFtdcExchangeSequenceField);
    ("CThostFtdcQryMaxOrderVolumeWithPriceField", wrap_CThostFtdcQryMaxOrderVolumeWithPriceField);
    ("CThostFtdcQryBrokerTradingParamsField", wrap_CThostFtdcQryBrokerTradingParamsField);
    ("CThostFtdcBrokerTradingParamsField", wrap_CThostFtdcBrokerTradingParamsField);
    ("CThostFtdcQryBrokerTradingAlgosField", wrap_CThostFtdcQryBrokerTradingAlgosField);
    ("CThostFtdcBrokerTradingAlgosField", wrap_CThostFtdcBrokerTradingAlgosField);
    ("CThostFtdcQueryBrokerDepositField", wrap_CThostFtdcQueryBrokerDepositField);
    ("CThostFtdcBrokerDepositField", wrap_CThostFtdcBrokerDepositField);
    ("CThostFtdcQryCFMMCBrokerKeyField", wrap_CThostFtdcQryCFMMCBrokerKeyField);
    ("CThostFtdcCFMMCBrokerKeyField", wrap_CThostFtdcCFMMCBrokerKeyField);
    ("CThostFtdcCFMMCTradingAccountKeyField", wrap_CThostFtdcCFMMCTradingAccountKeyField);
    ("CThostFtdcQryCFMMCTradingAccountKeyField", wrap_CThostFtdcQryCFMMCTradingAccountKeyField);
    ("CThostFtdcBrokerUserOTPParamField", wrap_CThostFtdcBrokerUserOTPParamField);
    ("CThostFtdcManualSyncBrokerUserOTPField", wrap_CThostFtdcManualSyncBrokerUserOTPField);
    ("CThostFtdcCommRateModelField", wrap_CThostFtdcCommRateModelField);
    ("CThostFtdcQryCommRateModelField", wrap_CThostFtdcQryCommRateModelField);
    ("CThostFtdcMarginModelField", wrap_CThostFtdcMarginModelField);
    ("CThostFtdcQryMarginModelField", wrap_CThostFtdcQryMarginModelField);
    ("CThostFtdcEWarrantOffsetField", wrap_CThostFtdcEWarrantOffsetField);
    ("CThostFtdcQryEWarrantOffsetField", wrap_CThostFtdcQryEWarrantOffsetField);
    ("CThostFtdcQryInvestorProductGroupMarginField", wrap_CThostFtdcQryInvestorProductGroupMarginField);
    ("CThostFtdcInvestorProductGroupMarginField", wrap_CThostFtdcInvestorProductGroupMarginField);
    ("CThostFtdcQueryCFMMCTradingAccountTokenField", wrap_CThostFtdcQueryCFMMCTradingAccountTokenField);
    ("CThostFtdcCFMMCTradingAccountTokenField", wrap_CThostFtdcCFMMCTradingAccountTokenField);
    ("CThostFtdcQryProductGroupField", wrap_CThostFtdcQryProductGroupField);
    ("CThostFtdcProductGroupField", wrap_CThostFtdcProductGroupField);
    ("CThostFtdcBulletinField", wrap_CThostFtdcBulletinField);
    ("CThostFtdcQryBulletinField", wrap_CThostFtdcQryBulletinField);
    ("CThostFtdcMulticastInstrumentField", wrap_CThostFtdcMulticastInstrumentField);
    ("CThostFtdcQryMulticastInstrumentField", wrap_CThostFtdcQryMulticastInstrumentField);
    ("CThostFtdcAppIDAuthAssignField", wrap_CThostFtdcAppIDAuthAssignField);
    ("CThostFtdcReqOpenAccountField", wrap_CThostFtdcReqOpenAccountField);
    ("CThostFtdcReqCancelAccountField", wrap_CThostFtdcReqCancelAccountField);
    ("CThostFtdcReqChangeAccountField", wrap_CThostFtdcReqChangeAccountField);
    ("CThostFtdcReqTransferField", wrap_CThostFtdcReqTransferField);
    ("CThostFtdcRspTransferField", wrap_CThostFtdcRspTransferField);
    ("CThostFtdcReqRepealField", wrap_CThostFtdcReqRepealField);
    ("CThostFtdcRspRepealField", wrap_CThostFtdcRspRepealField);
    ("CThostFtdcReqQueryAccountField", wrap_CThostFtdcReqQueryAccountField);
    ("CThostFtdcRspQueryAccountField", wrap_CThostFtdcRspQueryAccountField);
    ("CThostFtdcFutureSignIOField", wrap_CThostFtdcFutureSignIOField);
    ("CThostFtdcRspFutureSignInField", wrap_CThostFtdcRspFutureSignInField);
    ("CThostFtdcReqFutureSignOutField", wrap_CThostFtdcReqFutureSignOutField);
    ("CThostFtdcRspFutureSignOutField", wrap_CThostFtdcRspFutureSignOutField);
    ("CThostFtdcReqQueryTradeResultBySerialField", wrap_CThostFtdcReqQueryTradeResultBySerialField);
    ("CThostFtdcRspQueryTradeResultBySerialField", wrap_CThostFtdcRspQueryTradeResultBySerialField);
    ("CThostFtdcReqDayEndFileReadyField", wrap_CThostFtdcReqDayEndFileReadyField);
    ("CThostFtdcReturnResultField", wrap_CThostFtdcReturnResultField);
    ("CThostFtdcVerifyFuturePasswordField", wrap_CThostFtdcVerifyFuturePasswordField);
    ("CThostFtdcVerifyCustInfoField", wrap_CThostFtdcVerifyCustInfoField);
    ("CThostFtdcVerifyFuturePasswordAndCustInfoField", wrap_CThostFtdcVerifyFuturePasswordAndCustInfoField);
    ("CThostFtdcDepositResultInformField", wrap_CThostFtdcDepositResultInformField);
    ("CThostFtdcReqSyncKeyField", wrap_CThostFtdcReqSyncKeyField);
    ("CThostFtdcRspSyncKeyField", wrap_CThostFtdcRspSyncKeyField);
    ("CThostFtdcNotifyQueryAccountField", wrap_CThostFtdcNotifyQueryAccountField);
    ("CThostFtdcTransferSerialField", wrap_CThostFtdcTransferSerialField);
    ("CThostFtdcQryTransferSerialField", wrap_CThostFtdcQryTransferSerialField);
    ("CThostFtdcNotifyFutureSignInField", wrap_CThostFtdcNotifyFutureSignInField) ].

End Wraps2.
