(* ===== verification/Wraps3.v ===== *)
(** * Accessor wrappers of the CTP structures, part 3

    For each structure the accessors ctp_wrap.cpp defines, in order: the field
    whose member the pair [_wrap_X_F_set], [_wrap_X_F_get] names, the
    conversion the setter uses with the number of bytes it copies, and the
    conversion the getter uses; and the index of the [SWIGTYPE] macro they
    convert their first argument with. *)

From S2P Require Import Prelude Layout Accessor.

Module Wraps3.
Import Layout Accessor.
Local Open Scope string_scope.
Local Open Scope list_scope.

(** ctp_wrap.cpp, lines 350415 to 352350. *)
Definition wrap_CThostFtdcNotifyFutureSignOutField : wrapper :=
  mk_wrapper 149
  [ ("TradeCode", TChars 7, GString);
    ("BankID", TChars 4, GString);
    ("BankBranchID", TChars 5, GString);
    ("BrokerID", TChars 11, GString);
    ("BrokerBranchID", TChars 31, GString);
    ("TradeDate", TChars 9, GString);
    ("TradeTime", TChars 9, GString);
    ("BankSerial", TChars 13, GString);
    ("TradingDay", TChars 9, GString);
    ("PlateSerial", TInt, GInt);
    ("LastFragment", TChar, GChar);
    ("SessionID", TInt, GInt);
    ("InstallID", TInt, GInt);
    ("UserID", TChars 16, GString);
    ("Digest", TChars 36, GString);
    ("CurrencyID", TChars 4, GString);
    ("DeviceID", TChars 3, GString);
    ("BrokerIDByBank", TChars 33, GString);
    ("OperNo", TChars 17, GString);
    ("RequestID", TInt, GInt);
    ("TID", TInt, GInt);
    ("ErrorID", TInt, GInt);
    ("ErrorMsg", TChars 81, GString) ].

(** ctp_wrap.cpp, lines 352447 to 354288. *)
Definition wrap_CThostFtdcNotifySyncKeyField : wrapper :=
  mk_wrapper 151
  [ ("TradeCode", TChars 7, GString);
    ("BankID", TChars 4, GString);
    ("BankBranchID", TChars 5, GString);
    ("BrokerID", TChars 11, GString);
    ("BrokerBranchID", TChars 31, GString);
    ("TradeDate", TChars 9, GString);
    ("TradeTime", TChars 9, GString);
    ("BankSerial", TChars 13, GString);
    ("TradingDay", TChars 9, GString);
    ("PlateSerial", TInt, GInt);
    ("LastFragment", TChar, GChar);
    ("SessionID", TInt, GInt);
    ("InstallID", TInt, GInt);
    ("UserID", TChars 16, GString);
    ("Message", TChars 129, GString);
    ("DeviceID", TChars 3, GString);
    ("BrokerIDByBank", TChars 33, GString);
    ("OperNo", TChars 17, GString);
    ("RequestID", TInt, GInt);
    ("TID", TInt, GInt);
    ("ErrorID", TInt, GInt);
    ("ErrorMsg", TChars 81, GString) ].

(** ctp_wrap.cpp, lines 354385 to 354852. *)
Definition wrap_CThostFtdcQryAccountregisterField : wrapper :=
  mk_wrapper 171
  [ ("BrokerID", TChars 11, GString);
    ("AccountID", TChars 13, GString);
    ("BankID", TChars 4, GString);
    ("BankBranchID", TChars 5, GString);
    ("CurrencyID", TChars 4, GString) ].

(** ctp_wrap.cpp, lines 354949 to 356478. *)
Definition wrap_CThostFtdcAccountregisterField : wrapper :=
  mk_wrapper 1
  [ ("TradeDay", TChars 9, GString);
    ("BankID", TChars 4, GString);
    ("BankBranchID", TChars 5, GString);
    ("BankAccount", TChars 41, GString);
    ("BrokerID", TChars 11, GString);
    ("BrokerBranchID", TChars 31, GString);
    ("AccountID", TChars 13, GString);
    ("IdCardType", TChar, GChar);
    ("IdentifiedCardNo", TChars 51, GString);
    ("CustomerName", TChars 51, GString);
    ("CurrencyID", TChars 4, GString);
    ("OpenOrDestroy", TChar, GChar);
    ("RegDate", TChars 9, GString);
    ("OutDate", TChars 9, GString);
    ("TID", TInt, GInt);
    ("CustType", TChar, GChar);
    ("BankAccType", TChar, GChar);
    ("LongCustomerName", TChars 161, GString) ].

(** ctp_wrap.cpp, lines 356575 to 360478. *)
Definition wrap_CThostFtdcOpenAccountField : wrapper :=
  mk_wrapper 152
  [ ("TradeCode", TChars 7, GString);
    ("BankID", TChars 4, GString);
    ("BankBranchID", TChars 5, GString);
    ("BrokerID", TChars 11, GString);
    ("BrokerBranchID", TChars 31, GString);
    ("TradeDate", TChars 9, GString);
    ("TradeTime", TChars 9, GString);
    ("BankSerial", TChars 13, GString);
    ("TradingDay", TChars 9, GString);
    ("PlateSerial", TInt, GInt);
    ("LastFragment", TChar, GChar);
    ("SessionID", TInt, GInt);
    ("CustomerName", TChars 51, GString);
    ("IdCardType", TChar, GChar);
    ("IdentifiedCardNo", TChars 51, GString);
    ("Gender", TChar, GChar);
    ("CountryCode", TChars 21, GString);
    ("CustType", TChar, GChar);
    ("Address", TChars 101, GString);
    ("ZipCode", TChars 7, GString);
    ("Telephone", TChars 41, GString);
    ("MobilePhone", TChars 21, GString);
    ("Fax", TChars 41, GString);
    ("EMail", TChars 41, GString);
    ("MoneyAccountStatus", TChar, GChar);
    ("BankAccount", TChars 41, GString);
    ("BankPassWord", TChars 41, GString);
    ("AccountID", TChars 13, GString);
    ("Password", TChars 41, GString);
    ("InstallID", TInt, GInt);
    ("VerifyCertNoFlag", TChar, GChar);
    ("CurrencyID", TChars 4, GString);
    ("CashExchangeCode", TChar, GChar);
    ("Digest", TChars 36, GString);
    ("BankAccType", TChar, GChar);
    ("DeviceID", TChars 3, GString);
    ("BankSecuAccType", TChar, GChar);
    ("BrokerIDByBank", TChars 33, GString);
    ("BankSecuAcc", TChars 41, GString);
    ("BankPwdFlag", TChar, GChar);
    ("SecuPwdFlag", TChar, GChar);
    ("OperNo", TChars 17, GString);
    ("TID", TInt, GInt);
    ("UserID", TChars 16, GString);
    ("ErrorID", TInt, GInt);
    ("ErrorMsg", TChars 81, GString);
    ("LongCustomerName", TChars 161, GString) ].

(** ctp_wrap.cpp, lines 360575 to 364478. *)
Definition wrap_CThostFtdcCancelAccountField : wrapper :=
  mk_wrapper 24
  [ ("TradeCode", TChars 7, GString);
    ("BankID", TChars 4, GString);
    ("BankBranchID", TChars 5, GString);
    ("BrokerID", TChars 11, GString);
    ("BrokerBranchID", TChars 31, GString);
    ("TradeDate", TChars 9, GString);
    ("TradeTime", TChars 9, GString);
    ("BankSerial", TChars 13, GString);
    ("TradingDay", TChars 9, GString);
    ("PlateSerial", TInt, GInt);
    ("LastFragment", TChar, GChar);
    ("SessionID", TInt, GInt);
    ("CustomerName", TChars 51, GString);
    ("IdCardType", TChar, GChar);
    ("IdentifiedCardNo", TChars 51, GString);
    ("Gender", TChar, GChar);
    ("CountryCode", TChars 21, GString);
    ("CustType", TChar, GChar);
    ("Address", TChars 101, GString);
    ("ZipCode", TChars 7, GString);
    ("Telephone", TChars 41, GString);
    ("MobilePhone", TChars 21, GString);
    ("Fax", TChars 41, GString);
    ("EMail", TChars 41, GString);
    ("MoneyAccountStatus", TChar, GChar);
    ("BankAccount", TChars 41, GString);
    ("BankPassWord", TChars 41, GString);
    ("AccountID", TChars 13, GString);
    ("Password", TChars 41, GString);
    ("InstallID", TInt, GInt);
    ("VerifyCertNoFlag", TChar, GChar);
    ("CurrencyID", TChars 4, GString);
    ("CashExchangeCode", TChar, GChar);
    ("Digest", TChars 36, GString);
    ("BankAccType", TChar, GChar);
    ("DeviceID", TChars 3, GString);
    ("BankSecuAccType", TChar, GChar);
    ("BrokerIDByBank", TChars 33, GString);
    ("BankSecuAcc", TChars 41, GString);
    ("BankPwdFlag", TChar, GChar);
    ("SecuPwdFlag", TChar, GChar);
    ("OperNo", TChars 17, GString);
    ("TID", TInt, GInt);
    ("UserID", TChars 16, GString);
    ("ErrorID", TInt, GInt);
    ("ErrorMsg", TChars 81, GString);
    ("LongCustomerName", TChars 161, GString) ].

(** ctp_wrap.cpp, lines 364575 to 368166. *)
Definition wrap_CThostFtdcChangeAccountField : wrapper :=
  mk_wrapper 25
  [ ("TradeCode", TChars 7, GString);
    ("BankID", TChars 4, GString);
    ("BankBranchID", TChars 5, GString);
    ("BrokerID", TChars 11, GString);
    ("BrokerBranchID", TChars 31, GString);
    ("TradeDate", TChars 9, GString);
    ("TradeTime", TChars 9, GString);
    ("BankSerial", TChars 13, GString);
    ("TradingDay", TChars 9, GString);
    ("PlateSerial", TInt, GInt);
    ("LastFragment", TChar, GChar);
    ("SessionID", TInt, GInt);
    ("CustomerName", TChars 51, GString);
    ("IdCardType", TChar, GChar);
    ("IdentifiedCardNo", TChars 51, GString);
    ("Gender", TChar, GChar);
    ("CountryCode", TChars 21, GString);
    ("CustType", TChar, GChar);
    ("Address", TChars 101, GString);
    ("ZipCode", TChars 7, GString);
    ("Telephone", TChars 41, GString);
    ("MobilePhone", TChars 21, GString);
    ("Fax", TChars 41, GString);
    ("EMail", TChars 41, GString);
    ("MoneyAccountStatus", TChar, GChar);
    ("BankAccount", TChars 41, GString);
    ("BankPassWord", TChars 41, GString);
    ("NewBankAccount", TChars 41, GString);
    ("NewBankPassWord", TChars 41, GString);
    ("AccountID", TChars 13, GString);
    ("Password", TChars 41, GString);
    ("BankAccType", TChar, GChar);
    ("InstallID", TInt, GInt);
    ("VerifyCertNoFlag", TChar, GChar);
    ("CurrencyID", TChars 4, GString);
    ("BrokerIDByBank", TChars 33, GString);
    ("BankPwdFlag", TChar, GChar);
    ("SecuPwdFlag", TChar, GChar);
    ("TID", TInt, GInt);
    ("Digest", TChars 36, GString);
    ("ErrorID", TInt, GInt);
    ("ErrorMsg", TChars 81, GString);
    ("LongCustomerName", TChars 161, GString) ].

(** ctp_wrap.cpp, lines 368263 to 368730. *)
Definition wrap_CThostFtdcSecAgentACIDMapField : wrapper :=
  mk_wrapper 373
  [ ("BrokerID", TChars 11, GString);
    ("UserID", TChars 16, GString);
    ("AccountID", TChars 13, GString);
    ("CurrencyID", TChars 4, GString);
    ("BrokerSecAgentID", TChars 13, GString) ].

(** ctp_wrap.cpp, lines 368827 to 369200. *)
Definition wrap_CThostFtdcQrySecAgentACIDMapField : wrapper :=
  mk_wrapper 283
  [ ("BrokerID", TChars 11, GString);
    ("UserID", TChars 16, GString);
    ("AccountID", TChars 13, GString);
    ("CurrencyID", TChars 4, GString) ].

(** ctp_wrap.cpp, lines 369297 to 369544. *)
Definition wrap_CThostFtdcUserRightsAssignField : wrapper :=
  mk_wrapper 467
  [ ("BrokerID", TChars 11, GString);
    ("UserID", TChars 16, GString);
    ("DRIdentityID", TInt, GInt) ].

(** ctp_wrap.cpp, lines 369641 to 369856. *)
Definition wrap_CThostFtdcBrokerUserRightAssignField : wrapper :=
  mk_wrapper 18
  [ ("BrokerID", TChars 11, GString);
    ("DRIdentityID", TInt, GInt);
    ("Tradeable", TInt, GInt) ].

(** ctp_wrap.cpp, lines 369953 to 370262. *)
Definition wrap_CThostFtdcDRTransferField : wrapper :=
  mk_wrapper 36
  [ ("OrigDRIdentityID", TInt, GInt);
    ("DestDRIdentityID", TInt, GInt);
    ("OrigBrokerID", TChars 11, GString);
    ("DestBrokerID", TChars 11, GString) ].

(** ctp_wrap.cpp, lines 370359 to 370606. *)
Definition wrap_CThostFtdcFensUserInfoField : wrapper :=
  mk_wrapper 70
  [ ("BrokerID", TChars 11, GString);
    ("UserID", TChars 16, GString);
    ("LoginMode", TChar, GChar) ].

(** ctp_wrap.cpp, lines 370703 to 370762. *)
Definition wrap_CThostFtdcCurrTransferIdentityField : wrapper :=
  mk_wrapper 34
  [ ("IdentityID", TInt, GInt) ].

(** ctp_wrap.cpp, lines 370859 to 371232. *)
Definition wrap_CThostFtdcLoginForbiddenUserField : wrapper :=
  mk_wrapper 122
  [ ("BrokerID", TChars 11, GString);
    ("UserID", TChars 16, GString);
    ("reserve1", TChars 16, GString);
    ("IPAddress", TChars 33, GString) ].

(** ctp_wrap.cpp, lines 371329 to 371514. *)
Definition wrap_CThostFtdcQryLoginForbiddenUserField : wrapper :=
  mk_wrapper 239
  [ ("BrokerID", TChars 11, GString);
    ("UserID", TChars 16, GString) ].

(** ctp_wrap.cpp, lines 371611 to 371952. *)
Definition wrap_CThostFtdcTradingAccountReserveField : wrapper :=
  mk_wrapper 448
  [ ("BrokerID", TChars 11, GString);
    ("AccountID", TChars 13, GString);
    ("Reserve", TDouble, GDouble);
    ("CurrencyID", TChars 4, GString) ].

(** ctp_wrap.cpp, lines 372049 to 372234. *)
Definition wrap_CThostFtdcQryLoginForbiddenIPField : wrapper :=
  mk_wrapper 238
  [ ("reserve1", TChars 16, GString);
    ("IPAddress", TChars 33, GString) ].

(** ctp_wrap.cpp, lines 372331 to 372516. *)
Definition wrap_CThostFtdcQryIPListField : wrapper :=
  mk_wrapper 216
  [ ("reserve1", TChars 16, GString);
    ("IPAddress", TChars 33, GString) ].

(** ctp_wrap.cpp, lines 372613 to 372798. *)
Definition wrap_CThostFtdcQryUserRightsAssignField : wrapper :=
  mk_wrapper 305
  [ ("BrokerID", TChars 11, GString);
    ("UserID", TChars 16, GString) ].

(** ctp_wrap.cpp, lines 372895 to 376362. *)
Definition wrap_CThostFtdcReserveOpenAccountConfirmField : wrapper :=
  mk_wrapper 344
  [ ("TradeCode", TChars 7, GString);
    ("BankID", TChars 4, GString);
    ("BankBranchID", TChars 5, GString);
    ("BrokerID", TChars 11, GString);
    ("BrokerBranchID", TChars 31, GString);
    ("TradeDate", TChars 9, GString);
    ("TradeTime", TChars 9, GString);
    ("BankSerial", TChars 13, GString);
    ("TradingDay", TChars 9, GString);
    ("PlateSerial", TInt, GInt);
    ("LastFragment", TChar, GChar);
    ("SessionID", TInt, GInt);
    ("CustomerName", TChars 161, GString);
    ("IdCardType", TChar, GChar);
    ("IdentifiedCardNo", TChars 51, GString);
    ("Gender", TChar, GChar);
    ("CountryCode", TChars 21, GString);
    ("CustType", TChar, GChar);
    ("Address", TChars 101, GString);
    ("ZipCode", TChars 7, GString);
    ("Telephone", TChars 41, GString);
    ("MobilePhone", TChars 21, GString);
    ("Fax", TChars 41, GString);
    ("EMail", TChars 41, GString);
    ("MoneyAccountStatus", TChar, GChar);
    ("BankAccount", TChars 41, GString);
    ("BankPassWord", TChars 41, GString);
    ("InstallID", TInt, GInt);
    ("VerifyCertNoFlag", TChar, GChar);
    ("CurrencyID", TChars 4, GString);
    ("Digest", TChars 36, GString);
    ("BankAccType", TChar, GChar);
    ("BrokerIDByBank", TChars 33, GString);
    ("TID", TInt, GInt);
    ("AccountID", TChars 13, GString);
    ("Password", TChars 41, GString);
    ("BankReserveOpenSeq", TChars 13, GString);
    ("BookDate", TChars 9, GString);
    ("BookPsw", TChars 41, GString);
    ("ErrorID", TInt, GInt);
    ("ErrorMsg", TChars 81, GString) ].

(** ctp_wrap.cpp, lines 376459 to 379518. *)
Definition wrap_CThostFtdcReserveOpenAccountField : wrapper :=
  mk_wrapper 345
  [ ("TradeCode", TChars 7, GString);
    ("BankID", TChars 4, GString);
    ("BankBranchID", TChars 5, GString);
    ("BrokerID", TChars 11, GString);
    ("BrokerBranchID", TChars 31, GString);
    ("TradeDate", TChars 9, GString);
    ("TradeTime", TChars 9, GString);
    ("BankSerial", TChars 13, GString);
    ("TradingDay", TChars 9, GString);
    ("PlateSerial", TInt, GInt);
    ("LastFragment", TChar, GChar);
    ("SessionID", TInt, GInt);
    ("CustomerName", TChars 161, GString);
    ("IdCardType", TChar, GChar);
    ("IdentifiedCardNo", TChars 51, GString);
    ("Gender", TChar, GChar);
    ("CountryCode", TChars 21, GString);
    ("CustType", TChar, GChar);
    ("Address", TChars 101, GString);
    ("ZipCode", TChars 7, GString);
    ("Telephone", TChars 41, GString);
    ("MobilePhone", TChars 21, GString);
    ("Fax", TChars 41, GString);
    ("EMail", TChars 41, GString);
    ("MoneyAccountStatus", TChar, GChar);
    ("BankAccount", TChars 41, GString);
    ("BankPassWord", TChars 41, GString);
    ("InstallID", TInt, GInt);
    ("VerifyCertNoFlag", TChar, GChar);
    ("CurrencyID", TChars 4, GString);
    ("Digest", TChars 36, GString);
    ("BankAccType", TChar, GChar);
    ("BrokerIDByBank", TChars 33, GString);
    ("TID", TInt, GInt);
    ("ReserveOpenAccStas", TChar, GChar);
    ("ErrorID", TInt, GInt);
    ("ErrorMsg", TChars 81, GString) ].

(** ctp_wrap.cpp, lines 379615 to 380864. *)
Definition wrap_CThostFtdcAccountPropertyField : wrapper :=
  mk_wrapper 0
  [ ("BrokerID", TChars 11, GString);
    ("AccountID", TChars 13, GString);
    ("BankID", TChars 4, GString);
    ("BankAccount", TChars 41, GString);
    ("OpenName", TChars 101, GString);
    ("OpenBank", TChars 101, GString);
    ("IsActive", TInt, GInt);
    ("AccountSourceType", TChar, GChar);
    ("OpenDate", TChars 9, GString);
    ("CancelDate", TChars 9, GString);
    ("OperatorID", TChars 65, GString);
    ("OperateDate", TChars 9, GString);
    ("OperateTime", TChars 9, GString);
    ("CurrencyID", TChars 4, GString) ].

(** ctp_wrap.cpp, lines 380961 to 381020. *)
Definition wrap_CThostFtdcQryCurrDRIdentityField : wrapper :=
  mk_wrapper 190
  [ ("DRIdentityID", TInt, GInt) ].

(** ctp_wrap.cpp, lines 381117 to 381176. *)
Definition wrap_CThostFtdcCurrDRIdentityField : wrapper :=
  mk_wrapper 33
  [ ("DRIdentityID", TInt, GInt) ].

(** ctp_wrap.cpp, lines 381273 to 381458. *)
Definition wrap_CThostFtdcQrySecAgentCheckModeField : wrapper :=
  mk_wrapper 284
  [ ("BrokerID", TChars 11, GString);
    ("InvestorID", TChars 13, GString) ].

(** ctp_wrap.cpp, lines 381555 to 381740. *)
Definition wrap_CThostFtdcQrySecAgentTradeInfoField : wrapper :=
  mk_wrapper 285
  [ ("BrokerID", TChars 11, GString);
    ("BrokerSecAgentID", TChars 13, GString) ].

(** ctp_wrap.cpp, lines 381837 to 382116. *)
Definition wrap_CThostFtdcReqUserAuthMethodField : wrapper :=
  mk_wrapper 337
  [ ("TradingDay", TChars 9, GString);
    ("BrokerID", TChars 11, GString);
    ("UserID", TChars 16, GString) ].

(** ctp_wrap.cpp, lines 382213 to 382272. *)
Definition wrap_CThostFtdcRspUserAuthMethodField : wrapper :=
  mk_wrapper 361
  [ ("UsableAuthMethod", TInt, GInt) ].

(** ctp_wrap.cpp, lines 382369 to 382648. *)
Definition wrap_CThostFtdcReqGenUserCaptchaField : wrapper :=
  mk_wrapper 329
  [ ("TradingDay", TChars 9, GString);
    ("BrokerID", TChars 11, GString);
    ("UserID", TChars 16, GString) ].

(** ctp_wrap.cpp, lines 382745 to 383086. *)
Definition wrap_CThostFtdcRspGenUserCaptchaField : wrapper :=
  mk_wrapper 353
  [ ("BrokerID", TChars 11, GString);
    ("UserID", TChars 16, GString);
    ("CaptchaInfoLen", TInt, GInt);
    ("CaptchaInfo", TChars 2561, GString) ].

(** ctp_wrap.cpp, lines 383183 to 383462. *)
Definition wrap_CThostFtdcReqGenUserTextField : wrapper :=
  mk_wrapper 330
  [ ("TradingDay", TChars 9, GString);
    ("BrokerID", TChars 11, GString);
    ("UserID", TChars 16, GString) ].

(** ctp_wrap.cpp, lines 383559 to 383618. *)
Definition wrap_CThostFtdcRspGenUserTextField : wrapper :=
  mk_wrapper 354
  [ ("UserTextSeq", TInt, GInt) ].

(** ctp_wrap.cpp, lines 383715 to 384902. *)
Definition wrap_CThostFtdcReqUserLoginWithCaptchaField : wrapper :=
  mk_wrapper 340
  [ ("TradingDay", TChars 9, GString);
    ("BrokerID", TChars 11, GString);
    ("UserID", TChars 16, GString);
    ("Password", TChars 41, GString);
    ("UserProductInfo", TChars 11, GString);
    ("InterfaceProductInfo", TChars 11, GString);
    ("ProtocolInfo", TChars 11, GString);
    ("MacAddress", TChars 21, GString);
    ("reserve1", TChars 16, GString);
    ("LoginRemark", TChars 36, GString);
    ("Captcha", TChars 41, GString);
    ("ClientIPPort", TInt, GInt);
    ("ClientIPAddress", TChars 33, GString) ].

(** ctp_wrap.cpp, lines 384999 to 386186. *)
Definition wrap_CThostFtdcReqUserLoginWithTextField : wrapper :=
  mk_wrapper 342
  [ ("TradingDay", TChars 9, GString);
    ("BrokerID", TChars 11, GString);
    ("UserID", TChars 16, GString);
    ("Password", TChars 41, GString);
    ("UserProductInfo", TChars 11, GString);
    ("InterfaceProductInfo", TChars 11, GString);
    ("ProtocolInfo", TChars 11, GString);
    ("MacAddress", TChars 21, GString);
    ("reserve1", TChars 16, GString);
    ("LoginRemark", TChars 36, GString);
    ("Text", TChars 41, GString);
    ("ClientIPPort", TInt, GInt);
    ("ClientIPAddress", TChars 33, GString) ].

(** ctp_wrap.cpp, lines 386283 to 387470. *)
Definition wrap_CThostFtdcReqUserLoginWithOTPField : wrapper :=
  mk_wrapper 341
  [ ("TradingDay", TChars 9, GString);
    ("BrokerID", TChars 11, GString);
    ("UserID", TChars 16, GString);
    ("Password", TChars 41, GString);
    ("UserProductInfo", TChars 11, GString);
    ("InterfaceProductInfo", TChars 11, GString);
    ("ProtocolInfo", TChars 11, GString);
    ("MacAddress", TChars 21, GString);
    ("reserve1", TChars 16, GString);
    ("LoginRemark", TChars 36, GString);
    ("OTPPassword", TChars 41, GString);
    ("ClientIPPort", TInt, GInt);
    ("ClientIPAddress", TChars 33, GString) ].

(** ctp_wrap.cpp, lines 387567 to 387658. *)
Definition wrap_CThostFtdcReqApiHandshakeField : wrapper :=
  mk_wrapper 323
  [ ("CryptoKeyVersion", TChars 31, GString) ].

(** ctp_wrap.cpp, lines 387755 to 387970. *)
Definition wrap_CThostFtdcRspApiHandshakeField : wrapper :=
  mk_wrapper 349
  [ ("FrontHandshakeDataLen", TInt, GInt);
    ("FrontHandshakeData", TChars 301, GString);
    ("IsApiAuthEnabled", TInt, GInt) ].

(** ctp_wrap.cpp, lines 388067 to 388220. *)
Definition wrap_CThostFtdcReqVerifyApiKeyField : wrapper :=
  mk_wrapper 343
  [ ("ApiHandshakeDataLen", TInt, GInt);
    ("ApiHandshakeData", TChars 301, GString) ].

(** ctp_wrap.cpp, lines 388317 to 388658. *)
Definition wrap_CThostFtdcDepartmentUserField : wrapper :=
  mk_wrapper 37
  [ ("BrokerID", TChars 11, GString);
    ("UserID", TChars 16, GString);
    ("InvestorRange", TChar, GChar);
    ("InvestorID", TChars 13, GString) ].

(** ctp_wrap.cpp, lines 388755 to 388876. *)
Definition wrap_CThostFtdcQueryFreqField : wrapper :=
  mk_wrapper 309
  [ ("QueryFreq", TInt, GInt);
    ("FTDPkgFreq", TInt, GInt) ].

(** ctp_wrap.cpp, lines 388973 to 389064. *)
Definition wrap_CThostFtdcAuthForbiddenIPField : wrapper :=
  mk_wrapper 3
  [ ("IPAddress", TChars 33, GString) ].

(** ctp_wrap.cpp, lines 389161 to 389252. *)
Definition wrap_CThostFtdcQryAuthForbiddenIPField : wrapper :=
  mk_wrapper 172
  [ ("IPAddress", TChars 33, GString) ].

(** ctp_wrap.cpp, lines 389349 to 389846. *)
Definition wrap_CThostFtdcSyncDelaySwapFrozenField : wrapper :=
  mk_wrapper 384
  [ ("DelaySwapSeqNo", TChars 15, GString);
    ("BrokerID", TChars 11, GString);
    ("InvestorID", TChars 13, GString);
    ("FromCurrencyID", TChars 4, GString);
    ("FromRemainSwap", TDouble, GDouble);
    ("IsManualSwap", TInt, GInt) ].

(** ctp_wrap.cpp, lines 389943 to 390816. *)
Definition wrap_CThostFtdcUserSystemInfoField : wrapper :=
  mk_wrapper 469
  [ ("BrokerID", TChars 11, GString);
    ("UserID", TChars 16, GString);
    ("ClientSystemInfoLen", TInt, GInt);
    ("ClientSystemInfo", TChars 273, GString);
    ("reserve1", TChars 16, GString);
    ("ClientIPPort", TInt, GInt);
    ("ClientLoginTime", TChars 9, GString);
    ("ClientAppID", TChars 33, GString);
    ("ClientPublicIP", TChars 33, GString);
    ("ClientLoginRemark", TChars 151, GString) ].

(** ctp_wrap.cpp, lines 390913 to 391254. *)
Definition wrap_CThostFtdcAuthUserIDField : wrapper :=
  mk_wrapper 5
  [ ("BrokerID", TChars 11, GString);
    ("AppID", TChars 33, GString);
    ("UserID", TChars 16, GString);
    ("AuthType", TChar, GChar) ].

(** ctp_wrap.cpp, lines 391351 to 391630. *)
Definition wrap_CThostFtdcAuthIPField : wrapper :=
  mk_wrapper 4
  [ ("BrokerID", TChars 11, GString);
    ("AppID", TChars 33, GString);
    ("IPAddress", TChars 33, GString) ].

(** ctp_wrap.cpp, lines 391727 to 392224. *)
Definition wrap_CThostFtdcQryClassifiedInstrumentField : wrapper :=
  mk_wrapper 183
  [ ("InstrumentID", TChars 81, GString);
    ("ExchangeID", TChars 9, GString);
    ("ExchangeInstID", TChars 81, GString);
    ("ProductID", TChars 81, GString);
    ("TradingType", TChar, GChar);
    ("ClassType", TChar, GChar) ].

(** ctp_wrap.cpp, lines 392321 to 392506. *)
Definition wrap_CThostFtdcQryCombPromotionParamField : wrapper :=
  mk_wrapper 186
  [ ("ExchangeID", TChars 9, GString);
    ("InstrumentID", TChars 81, GString) ].

(** ctp_wrap.cpp, lines 392603 to 392944. *)
Definition wrap_CThostFtdcCombPromotionParamField : wrapper :=
  mk_wrapper 28
  [ ("ExchangeID", TChars 9, GString);
    ("InstrumentID", TChars 81, GString);
    ("CombHedgeFlag", TChars 5, GString);
    ("Xparameter", TDouble, GDouble) ].

(** ctp_wrap.cpp, lines 393041 to 394604. *)
Definition wrap_CThostFtdcReqUserLoginSMField : wrapper :=
  mk_wrapper 339
  [ ("TradingDay", TChars 9, GString);
    ("BrokerID", TChars 11, GString);
    ("UserID", TChars 16, GString);
    ("Password", TChars 41, GString);
    ("UserProductInfo", TChars 11, GString);
    ("InterfaceProductInfo", TChars 11, GString);
    ("ProtocolInfo", TChars 11, GString);
    ("MacAddress", TChars 21, GString);
    ("OneTimePassword", TChars 41, GString);
    ("reserve1", TChars 16, GString);
    ("LoginRemark", TChars 36, GString);
    ("ClientIPPort", TInt, GInt);
    ("ClientIPAddress", TChars 33, GString);
    ("BrokerName", TChars 81, GString);
    ("AuthCode", TChars 17, GString);
    ("AppID", TChars 33, GString);
    ("PIN", TChars 41, GString) ].

(** ctp_wrap.cpp, lines 394701 to 394980. *)
Definition wrap_CThostFtdcQryRiskSettleInvstPositionField : wrapper :=
  mk_wrapper 272
  [ ("BrokerID", TChars 11, GString);
    ("InvestorID", TChars 13, GString);
    ("InstrumentID", TChars 81, GString) ].

(** ctp_wrap.cpp, lines 395077 to 395168. *)
Definition wrap_CThostFtdcQryRiskSettleProductStatusField : wrapper :=
  mk_wrapper 273
  [ ("ProductID", TChars 81, GString) ].

(** ctp_wrap.cpp, lines 395265 to 398492. *)
Definition wrap_CThostFtdcRiskSettleInvstPositionField : wrapper :=
  mk_wrapper 347
  [ ("InstrumentID", TChars 81, GString);
    ("BrokerID", TChars 11, GString);
    ("InvestorID", TChars 13, GString);
    ("PosiDirection", TChar, GChar);
    ("HedgeFlag", TChar, GChar);
    ("PositionDate", TChar, GChar);
    ("YdPosition", TInt, GInt);
    ("Position", TInt, GInt);
    ("LongFrozen", TInt, GInt);
    ("ShortFrozen", TInt, GInt);
    ("LongFrozenAmount", TDouble, GDouble);
    ("ShortFrozenAmount", TDouble, GDouble);
    ("OpenVolume", TInt, GInt);
    ("CloseVolume", TInt, GInt);
    ("OpenAmount", TDouble, GDouble);
    ("CloseAmount", TDouble, GDouble);
    ("PositionCost", TDouble, GDouble);
    ("PreMargin", TDouble, GDouble);
    ("UseMargin", TDouble, GDouble);
    ("FrozenMargin", TDouble, GDouble);
    ("FrozenCash", TDouble, GDouble);
    ("FrozenCommission", TDouble, GDouble);
    ("CashIn", TDouble, GDouble);
    ("Commission", TDouble, GDouble);
    ("CloseProfit", TDouble, GDouble);
    ("PositionProfit", TDouble, GDouble);
    ("PreSettlementPrice", TDouble, GDouble);
    ("SettlementPrice", TDouble, GDouble);
    ("TradingDay", TChars 9, GString);
    ("SettlementID", TInt, GInt);
    ("OpenCost", TDouble, GDouble);
    ("ExchangeMargin", TDouble, GDouble);
    ("CombPosition", TInt, GInt);
    ("CombLongFrozen", TInt, GInt);
    ("CombShortFrozen", TInt, GInt);
    ("CloseProfitByDate", TDouble, GDouble);
    ("CloseProfitByTrade", TDouble, GDouble);
    ("TodayPosition", TInt, GInt);
    ("MarginRateByMoney", TDouble, GDouble);
    ("MarginRateByVolume", TDouble, GDouble);
    ("StrikeFrozen", TInt, GInt);
    ("StrikeFrozenAmount", TDouble, GDouble);
    ("AbandonFrozen", TInt, GInt);
    ("ExchangeID", TChars 9, GString);
    ("YdStrikeFrozen", TInt, GInt);
    ("InvestUnitID", TChars 17, GString);
    ("PositionCostOffset", TDouble, GDouble);
    ("TasPosition", TInt, GInt);
    ("TasPositionCost", TDouble, GDouble) ].

(** ctp_wrap.cpp, lines 398589 to 398836. *)
Definition wrap_CThostFtdcRiskSettleProductStatusField : wrapper :=
  mk_wrapper 348
  [ ("ExchangeID", TChars 9, GString);
    ("ProductID", TChars 81, GString);
    ("ProductStatus", TChar, GChar) ].

(** ctp_wrap.cpp, lines 398933 to 399210. *)
Definition wrap_CThostFtdcSyncDeltaInfoField : wrapper :=
  mk_wrapper 390
  [ ("SyncDeltaSequenceNo", TInt, GInt);
    ("SyncDeltaStatus", TChar, GChar);
    ("SyncDescription", TChars 257, GString);
    ("IsOnlyTrdDelta", TInt, GInt) ].

(** ctp_wrap.cpp, lines 399307 to 399616. *)
Definition wrap_CThostFtdcSyncDeltaProductStatusField : wrapper :=
  mk_wrapper 402
  [ ("SyncDeltaSequenceNo", TInt, GInt);
    ("ExchangeID", TChars 9, GString);
    ("ProductID", TChars 81, GString);
    ("ProductStatus", TChar, GChar) ].

(** ctp_wrap.cpp, lines 399713 to 401826. *)
Definition wrap_CThostFtdcSyncDeltaInvstPosDtlField : wrapper :=
  mk_wrapper 397
  [ ("InstrumentID", TChars 81, GString);
    ("BrokerID", TChars 11, GString);
    ("InvestorID", TChars 13, GString);
    ("HedgeFlag", TChar, GChar);
    ("Direction", TChar, GChar);
    ("OpenDate", TChars 9, GString);
    ("TradeID", TChars 21, GString);
    ("Volume", TInt, GInt);
    ("OpenPrice", TDouble, GDouble);
    ("TradingDay", TChars 9, GString);
    ("SettlementID", TInt, GInt);
    ("TradeType", TChar, GChar);
    ("CombInstrumentID", TChars 81, GString);
    ("ExchangeID", TChars 9, GString);
    ("CloseProfitByDate", TDouble, GDouble);
    ("CloseProfitByTrade", TDouble, GDouble);
    ("PositionProfitByDate", TDouble, GDouble);
    ("PositionProfitByTrade", TDouble, GDouble);
    ("Margin", TDouble, GDouble);
    ("ExchMargin", TDouble, GDouble);
    ("MarginRateByMoney", TDouble, GDouble);
    ("MarginRateByVolume", TDouble, GDouble);
    ("LastSettlementPrice", TDouble, GDouble);
    ("SettlementPrice", TDouble, GDouble);
    ("CloseVolume", TInt, GInt);
    ("CloseAmount", TDouble, GDouble);
    ("TimeFirstVolume", TInt, GInt);
    ("SpecPosiType", TChar, GChar);
    ("ActionDirection", TChar, GChar);
    ("SyncDeltaSequenceNo", TInt, GInt) ].

(** ctp_wrap.cpp, lines 401923 to 403478. *)
Definition wrap_CThostFtdcSyncDeltaInvstPosCombDtlField : wrapper :=
  mk_wrapper 396
  [ ("TradingDay", TChars 9, GString);
    ("OpenDate", TChars 9, GString);
    ("ExchangeID", TChars 9, GString);
    ("SettlementID", TInt, GInt);
    ("BrokerID", TChars 11, GString);
    ("InvestorID", TChars 13, GString);
    ("ComTradeID", TChars 21, GString);
    ("TradeID", TChars 21, GString);
    ("InstrumentID", TChars 81, GString);
    ("HedgeFlag", TChar, GChar);
    ("Direction", TChar, GChar);
    ("TotalAmt", TInt, GInt);
    ("Margin", TDouble, GDouble);
    ("ExchMargin", TDouble, GDouble);
    ("MarginRateByMoney", TDouble, GDouble);
    ("MarginRateByVolume", TDouble, GDouble);
    ("LegID", TInt, GInt);
    ("LegMultiple", TInt, GInt);
    ("TradeGroupID", TInt, GInt);
    ("ActionDirection", TChar, GChar);
    ("SyncDeltaSequenceNo", TInt, GInt) ].

(** ctp_wrap.cpp, lines 403575 to 406738. *)
Definition wrap_CThostFtdcSyncDeltaTradingAccountField : wrapper :=
  mk_wrapper 423
  [ ("BrokerID", TChars 11, GString);
    ("AccountID", TChars 13, GString);
    ("PreMortgage", TDouble, GDouble);
    ("PreCredit", TDouble, GDouble);
    ("PreDeposit", TDouble, GDouble);
    ("PreBalance", TDouble, GDouble);
    ("PreMargin", TDouble, GDouble);
    ("InterestBase", TDouble, GDouble);
    ("Interest", TDouble, GDouble);
    ("Deposit", TDouble, GDouble);
    ("Withdraw", TDouble, GDouble);
    ("FrozenMargin", TDouble, GDouble);
    ("FrozenCash", TDouble, GDouble);
    ("FrozenCommission", TDouble, GDouble);
    ("CurrMargin", TDouble, GDouble);
    ("CashIn", TDouble, GDouble);
    ("Commission", TDouble, GDouble);
    ("CloseProfit", TDouble, GDouble);
    ("PositionProfit", TDouble, GDouble);
    ("Balance", TDouble, GDouble);
    ("Available", TDouble, GDouble);
    ("WithdrawQuota", TDouble, GDouble);
    ("Reserve", TDouble, GDouble);
    ("TradingDay", TChars 9, GString);
    ("SettlementID", TInt, GInt);
    ("Credit", TDouble, GDouble);
    ("Mortgage", TDouble, GDouble);
    ("ExchangeMargin", TDouble, GDouble);
    ("DeliveryMargin", TDouble, GDouble);
    ("ExchangeDeliveryMargin", TDouble, GDouble);
    ("ReserveBalance", TDouble, GDouble);
    ("CurrencyID", TChars 4, GString);
    ("PreFundMortgageIn", TDouble, GDouble);
    ("PreFundMortgageOut", TDouble, GDouble);
    ("FundMortgageIn", TDouble, GDouble);
    ("FundMortgageOut", TDouble, GDouble);
    ("FundMortgageAvailable", TDouble, GDouble);
    ("MortgageableFund", TDouble, GDouble);
    ("SpecProductMargin", TDouble, GDouble);
    ("SpecProductFrozenMargin", TDouble, GDouble);
    ("SpecProductCommission", TDouble, GDouble);
    ("SpecProductFrozenCommission", TDouble, GDouble);
    ("SpecProductPositionProfit", TDouble, GDouble);
    ("SpecProductCloseProfit", TDouble, GDouble);
    ("SpecProductPositionProfitByAlg", TDouble, GDouble);
    ("SpecProductExchangeMargin", TDouble, GDouble);
    ("FrozenSwap", TDouble, GDouble);
    ("RemainSwap", TDouble, GDouble);
    ("SyncDeltaSequenceNo", TInt, GInt) ].

(** ctp_wrap.cpp, lines 406835 to 407826. *)
Definition wrap_CThostFtdcSyncDeltaInitInvstMarginField : wrapper :=
  mk_wrapper 391
  [ ("BrokerID", TChars 11, GString);
    ("InvestorID", TChars 13, GString);
    ("LastRiskTotalInvstMargin", TDouble, GDouble);
    ("LastRiskTotalExchMargin", TDouble, GDouble);
    ("ThisSyncInvstMargin", TDouble, GDouble);
    ("ThisSyncExchMargin", TDouble, GDouble);
    ("RemainRiskInvstMargin", TDouble, GDouble);
    ("RemainRiskExchMargin", TDouble, GDouble);
    ("LastRiskSpecTotalInvstMargin", TDouble, GDouble);
    ("LastRiskSpecTotalExchMargin", TDouble, GDouble);
    ("ThisSyncSpecInvstMargin", TDouble, GDouble);
    ("ThisSyncSpecExchMargin", TDouble, GDouble);
    ("RemainRiskSpecInvstMargin", TDouble, GDouble);
    ("RemainRiskSpecExchMargin", TDouble, GDouble);
    ("SyncDeltaSequenceNo", TInt, GInt) ].

(** ctp_wrap.cpp, lines 407923 to 408730. *)
Definition wrap_CThostFtdcSyncDeltaDceCombInstrumentField : wrapper :=
  mk_wrapper 385
  [ ("CombInstrumentID", TChars 81, GString);
    ("ExchangeID", TChars 9, GString);
    ("ExchangeInstID", TChars 81, GString);
    ("TradeGroupID", TInt, GInt);
    ("CombHedgeFlag", TChar, GChar);
    ("CombinationType", TChar, GChar);
    ("Direction", TChar, GChar);
    ("ProductID", TChars 81, GString);
    ("Xparameter", TDouble, GDouble);
    ("ActionDirection", TChar, GChar);
    ("SyncDeltaSequenceNo", TInt, GInt) ].

(** ctp_wrap.cpp, lines 408827 to 409664. *)
Definition wrap_CThostFtdcSyncDeltaInvstMarginRateField : wrapper :=
  mk_wrapper 394
  [ ("InstrumentID", TChars 81, GString);
    ("InvestorRange", TChar, GChar);
    ("BrokerID", TChars 11, GString);
    ("InvestorID", TChars 13, GString);
    ("HedgeFlag", TChar, GChar);
    ("LongMarginRatioByMoney", TDouble, GDouble);
    ("LongMarginRatioByVolume", TDouble, GDouble);
    ("ShortMarginRatioByMoney", TDouble, GDouble);
    ("ShortMarginRatioByVolume", TDouble, GDouble);
    ("IsRelative", TInt, GInt);
    ("ActionDirection", TChar, GChar);
    ("SyncDeltaSequenceNo", TInt, GInt) ].

(** ctp_wrap.cpp, lines 409761 to 410380. *)
Definition wrap_CThostFtdcSyncDeltaExchMarginRateField : wrapper :=
  mk_wrapper 388
  [ ("BrokerID", TChars 11, GString);
    ("InstrumentID", TChars 81, GString);
    ("HedgeFlag", TChar, GChar);
    ("LongMarginRatioByMoney", TDouble, GDouble);
    ("LongMarginRatioByVolume", TDouble, GDouble);
    ("ShortMarginRatioByMoney", TDouble, GDouble);
    ("ShortMarginRatioByVolume", TDouble, GDouble);
    ("ActionDirection", TChar, GChar);
    ("SyncDeltaSequenceNo", TInt, GInt) ].

(** ctp_wrap.cpp, lines 410477 to 411282. *)
Definition wrap_CThostFtdcSyncDeltaOptExchMarginField : wrapper :=
  mk_wrapper 398
  [ ("BrokerID", TChars 11, GString);
    ("InstrumentID", TChars 81, GString);
    ("SShortMarginRatioByMoney", TDouble, GDouble);
    ("SShortMarginRatioByVolume", TDouble, GDouble);
    ("HShortMarginRatioByMoney", TDouble, GDouble);
    ("HShortMarginRatioByVolume", TDouble, GDouble);
    ("AShortMarginRatioByMoney", TDouble, GDouble);
    ("AShortMarginRatioByVolume", TDouble, GDouble);
    ("MShortMarginRatioByMoney", TDouble, GDouble);
    ("MShortMarginRatioByVolume", TDouble, GDouble);
    ("ActionDirection", TChar, GChar);
    ("SyncDeltaSequenceNo", TInt, GInt) ].

(** ctp_wrap.cpp, lines 411379 to 412402. *)
Definition wrap_CThostFtdcSyncDeltaOptInvstMarginField : wrapper :=
  mk_wrapper 400
  [ ("InstrumentID", TChars 81, GString);
    ("InvestorRange", TChar, GChar);
    ("BrokerID", TChars 11, GString);
    ("InvestorID", TChars 13, GString);
    ("SShortMarginRatioByMoney", TDouble, GDouble);
    ("SShortMarginRatioByVolume", TDouble, GDouble);
    ("HShortMarginRatioByMoney", TDouble, GDouble);
    ("HShortMarginRatioByVolume", TDouble, GDouble);
    ("AShortMarginRatioByMoney", TDouble, GDouble);
    ("AShortMarginRatioByVolume", TDouble, GDouble);
    ("IsRelative", TInt, GInt);
    ("MShortMarginRatioByMoney", TDouble, GDouble);
    ("MShortMarginRatioByVolume", TDouble, GDouble);
    ("ActionDirection", TChar, GChar);
    ("SyncDeltaSequenceNo", TInt, GInt) ].

(** ctp_wrap.cpp, lines 412499 to 413274. *)
Definition wrap_CThostFtdcSyncDeltaInvstMarginRateULField : wrapper :=
  mk_wrapper 395
  [ ("InstrumentID", TChars 81, GString);
    ("InvestorRange", TChar, GChar);
    ("BrokerID", TChars 11, GString);
    ("InvestorID", TChars 13, GString);
    ("HedgeFlag", TChar, GChar);
    ("LongMarginRatioByMoney", TDouble, GDouble);
    ("LongMarginRatioByVolume", TDouble, GDouble);
    ("ShortMarginRatioByMoney", TDouble, GDouble);
    ("ShortMarginRatioByVolume", TDouble, GDouble);
    ("ActionDirection", TChar, GChar);
    ("SyncDeltaSequenceNo", TInt, GInt) ].

(** ctp_wrap.cpp, lines 413371 to 414332. *)
Definition wrap_CThostFtdcSyncDeltaOptInvstCommRateField : wrapper :=
  mk_wrapper 399
  [ ("InstrumentID", TChars 81, GString);
    ("InvestorRange", TChar, GChar);
    ("BrokerID", TChars 11, GString);
    ("InvestorID", TChars 13, GString);
    ("OpenRatioByMoney", TDouble, GDouble);
    ("OpenRatioByVolume", TDouble, GDouble);
    ("CloseRatioByMoney", TDouble, GDouble);
    ("CloseRatioByVolume", TDouble, GDouble);
    ("CloseTodayRatioByMoney", TDouble, GDouble);
    ("CloseTodayRatioByVolume", TDouble, GDouble);
    ("StrikeRatioByMoney", TDouble, GDouble);
    ("StrikeRatioByVolume", TDouble, GDouble);
    ("ActionDirection", TChar, GChar);
    ("SyncDeltaSequenceNo", TInt, GInt) ].

(** ctp_wrap.cpp, lines 414429 to 415266. *)
Definition wrap_CThostFtdcSyncDeltaInvstCommRateField : wrapper :=
  mk_wrapper 393
  [ ("InstrumentID", TChars 81, GString);
    ("InvestorRange", TChar, GChar);
    ("BrokerID", TChars 11, GString);
    ("InvestorID", TChars 13, GString);
    ("OpenRatioByMoney", TDouble, GDouble);
    ("OpenRatioByVolume", TDouble, GDouble);
    ("CloseRatioByMoney", TDouble, GDouble);
    ("CloseRatioByVolume", TDouble, GDouble);
    ("CloseTodayRatioByMoney", TDouble, GDouble);
    ("CloseTodayRatioByVolume", TDouble, GDouble);
    ("ActionDirection", TChar, GChar);
    ("SyncDeltaSequenceNo", TInt, GInt) ].

(** ctp_wrap.cpp, lines 415363 to 415734. *)
Definition wrap_CThostFtdcSyncDeltaProductExchRateField : wrapper :=
  mk_wrapper 401
  [ ("ProductID", TChars 81, GString);
    ("QuoteCurrencyID", TChars 4, GString);
    ("ExchangeRate", TDouble, GDouble);
    ("ActionDirection", TChar, GChar);
    ("SyncDeltaSequenceNo", TInt, GInt) ].

(** ctp_wrap.cpp, lines 415831 to 418996. *)
Definition wrap_CThostFtdcSyncDeltaDepthMarketDataField : wrapper :=
  mk_wrapper 386
  [ ("TradingDay", TChars 9, GString);
    ("InstrumentID", TChars 81, GString);
    ("ExchangeID", TChars 9, GString);
    ("ExchangeInstID", TChars 81, GString);
    ("LastPrice", TDouble, GDouble);
    ("PreSettlementPrice", TDouble, GDouble);
    ("PreClosePrice", TDouble, GDouble);
    ("PreOpenInterest", TDouble, GDouble);
    ("OpenPrice", TDouble, GDouble);
    ("HighestPrice", TDouble, GDouble);
    ("LowestPrice", TDouble, GDouble);
    ("Volume", TInt, GInt);
    ("Turnover", TDouble, GDouble);
    ("OpenInterest", TDouble, GDouble);
    ("ClosePrice", TDouble, GDouble);
    ("SettlementPrice", TDouble, GDouble);
    ("UpperLimitPrice", TDouble, GDouble);
    ("LowerLimitPrice", TDouble, GDouble);
    ("PreDelta", TDouble, GDouble);
    ("CurrDelta", TDouble, GDouble);
    ("UpdateTime", TChars 9, GString);
    ("UpdateMillisec", TInt, GInt);
    ("BidPrice1", TDouble, GDouble);
    ("BidVolume1", TInt, GInt);
    ("AskPrice1", TDouble, GDouble);
    ("AskVolume1", TInt, GInt);
    ("BidPrice2", TDouble, GDouble);
    ("BidVolume2", TInt, GInt);
    ("AskPrice2", TDouble, GDouble);
    ("AskVolume2", TInt, GInt);
    ("BidPrice3", TDouble, GDouble);
    ("BidVolume3", TInt, GInt);
    ("AskPrice3", TDouble, GDouble);
    ("AskVolume3", TInt, GInt);
    ("BidPrice4", TDouble, GDouble);
    ("BidVolume4", TInt, GInt);
    ("AskPrice4", TDouble, GDouble);
    ("AskVolume4", TInt, GInt);
    ("BidPrice5", TDouble, GDouble);
    ("BidVolume5", TInt, GInt);
    ("AskPrice5", TDouble, GDouble);
    ("AskVolume5", TInt, GInt);
    ("AveragePrice", TDouble, GDouble);
    ("ActionDay", TChars 9, GString);
    ("BandingUpperPrice", TDouble, GDouble);
    ("BandingLowerPrice", TDouble, GDouble);
    ("ActionDirection", TChar, GChar);
    ("SyncDeltaSequenceNo", TInt, GInt) ].

(** ctp_wrap.cpp, lines 419093 to 419464. *)
Definition wrap_CThostFtdcSyncDeltaIndexPriceField : wrapper :=
  mk_wrapper 389
  [ ("BrokerID", TChars 11, GString);
    ("InstrumentID", TChars 81, GString);
    ("ClosePrice", TDouble, GDouble);
    ("ActionDirection", TChar, GChar);
    ("SyncDeltaSequenceNo", TInt, GInt) ].

(** ctp_wrap.cpp, lines 419561 to 420338. *)
Definition wrap_CThostFtdcSyncDeltaEWarrantOffsetField : wrapper :=
  mk_wrapper 387
  [ ("TradingDay", TChars 9, GString);
    ("BrokerID", TChars 11, GString);
    ("InvestorID", TChars 13, GString);
    ("ExchangeID", TChars 9, GString);
    ("InstrumentID", TChars 81, GString);
    ("Direction", TChar, GChar);
    ("HedgeFlag", TChar, GChar);
    ("Volume", TInt, GInt);
    ("ActionDirection", TChar, GChar);
    ("SyncDeltaSequenceNo", TInt, GInt) ].

(** ctp_wrap.cpp, lines 420435 to 421242. *)
Definition wrap_CThostFtdcSPBMFutureParameterField : wrapper :=
  mk_wrapper 365
  [ ("TradingDay", TChars 9, GString);
    ("ExchangeID", TChars 9, GString);
    ("InstrumentID", TChars 81, GString);
    ("ProdFamilyCode", TChars 81, GString);
    ("Cvf", TInt, GInt);
    ("TimeRange", TChar, GChar);
    ("MarginRate", TDouble, GDouble);
    ("LockRateX", TDouble, GDouble);
    ("AddOnRate", TDouble, GDouble);
    ("PreSettlementPrice", TDouble, GDouble);
    ("AddOnLockRateX2", TDouble, GDouble) ].

(** ctp_wrap.cpp, lines 421339 to 422022. *)
Definition wrap_CThostFtdcSPBMOptionParameterField : wrapper :=
  mk_wrapper 369
  [ ("TradingDay", TChars 9, GString);
    ("ExchangeID", TChars 9, GString);
    ("InstrumentID", TChars 81, GString);
    ("ProdFamilyCode", TChars 81, GString);
    ("Cvf", TInt, GInt);
    ("DownPrice", TDouble, GDouble);
    ("Delta", TDouble, GDouble);
    ("SlimiDelta", TDouble, GDouble);
    ("PreSettlementPrice", TDouble, GDouble) ].

(** ctp_wrap.cpp, lines 422119 to 422522. *)
Definition wrap_CThostFtdcSPBMIntraParameterField : wrapper :=
  mk_wrapper 367
  [ ("TradingDay", TChars 9, GString);
    ("ExchangeID", TChars 9, GString);
    ("ProdFamilyCode", TChars 81, GString);
    ("IntraRateY", TDouble, GDouble);
    ("AddOnIntraRateY2", TDouble, GDouble) ].

(** ctp_wrap.cpp, lines 422619 to 423116. *)
Definition wrap_CThostFtdcSPBMInterParameterField : wrapper :=
  mk_wrapper 366
  [ ("TradingDay", TChars 9, GString);
    ("ExchangeID", TChars 9, GString);
    ("SpreadId", TInt, GInt);
    ("InterRateZ", TDouble, GDouble);
    ("Leg1ProdFamilyCode", TChars 81, GString);
    ("Leg2ProdFamilyCode", TChars 81, GString) ].

(** ctp_wrap.cpp, lines 423213 to 423304. *)
Definition wrap_CThostFtdcSyncSPBMParameterEndField : wrapper :=
  mk_wrapper 426
  [ ("TradingDay", TChars 9, GString) ].

(** ctp_wrap.cpp, lines 423401 to 423680. *)
Definition wrap_CThostFtdcQrySPBMFutureParameterField : wrapper :=
  mk_wrapper 275
  [ ("ExchangeID", TChars 9, GString);
    ("InstrumentID", TChars 81, GString);
    ("ProdFamilyCode", TChars 81, GString) ].

(** ctp_wrap.cpp, lines 423777 to 424056. *)
Definition wrap_CThostFtdcQrySPBMOptionParameterField : wrapper :=
  mk_wrapper 279
  [ ("ExchangeID", TChars 9, GString);
    ("InstrumentID", TChars 81, GString);
    ("ProdFamilyCode", TChars 81, GString) ].

(** ctp_wrap.cpp, lines 424153 to 424338. *)
Definition wrap_CThostFtdcQrySPBMIntraParameterField : wrapper :=
  mk_wrapper 277
  [ ("ExchangeID", TChars 9, GString);
    ("ProdFamilyCode", TChars 81, GString) ].

(** ctp_wrap.cpp, lines 424435 to 424714. *)
Definition wrap_CThostFtdcQrySPBMInterParameterField : wrapper :=
  mk_wrapper 276
  [ ("ExchangeID", TChars 9, GString);
    ("Leg1ProdFamilyCode", TChars 81, GString);
    ("Leg2ProdFamilyCode", TChars 81, GString) ].

(** ctp_wrap.cpp, lines 424811 to 425120. *)
Definition wrap_CThostFtdcSPBMPortfDefinitionField : wrapper :=
  mk_wrapper 370
  [ ("ExchangeID", TChars 9, GString);
    ("PortfolioDefID", TInt, GInt);
    ("ProdFamilyCode", TChars 81, GString);
    ("IsSPBM", TInt, GInt) ].

(** ctp_wrap.cpp, lines 425217 to 425558. *)
Definition wrap_CThostFtdcSPBMInvestorPortfDefField : wrapper :=
  mk_wrapper 368
  [ ("ExchangeID", TChars 9, GString);
    ("BrokerID", TChars 11, GString);
    ("InvestorID", TChars 13, GString);
    ("PortfolioDefID", TInt, GInt) ].

(** ctp_wrap.cpp, lines 425655 to 426152. *)
Definition wrap_CThostFtdcInvestorPortfMarginRatioField : wrapper :=
  mk_wrapper 108
  [ ("InvestorRange", TChar, GChar);
    ("BrokerID", TChars 11, GString);
    ("InvestorID", TChars 13, GString);
    ("ExchangeID", TChars 9, GString);
    ("MarginRatio", TDouble, GDouble);
    ("ProductGroupID", TChars 41, GString) ].

(** ctp_wrap.cpp, lines 426249 to 426496. *)
Definition wrap_CThostFtdcQrySPBMPortfDefinitionField : wrapper :=
  mk_wrapper 280
  [ ("ExchangeID", TChars 9, GString);
    ("PortfolioDefID", TInt, GInt);
    ("ProdFamilyCode", TChars 81, GString) ].

(** ctp_wrap.cpp, lines 426593 to 426872. *)
Definition wrap_CThostFtdcQrySPBMInvestorPortfDefField : wrapper :=
  mk_wrapper 278
  [ ("ExchangeID", TChars 9, GString);
    ("BrokerID", TChars 11, GString);
    ("InvestorID", TChars 13, GString) ].

(** ctp_wrap.cpp, lines 426969 to 427342. *)
Definition wrap_CThostFtdcQryInvestorPortfMarginRatioField : wrapper :=
  mk_wrapper 228
  [ ("BrokerID", TChars 11, GString);
    ("InvestorID", TChars 13, GString);
    ("ExchangeID", TChars 9, GString);
    ("ProductGroupID", TChars 41, GString) ].

(** ctp_wrap.cpp, lines 427439 to 428866. *)
Definition wrap_CThostFtdcInvestorProdSPBMDetailField : wrapper :=
  mk_wrapper 115
  [ ("ExchangeID", TChars 9, GString);
    ("BrokerID", TChars 11, GString);
    ("InvestorID", TChars 13, GString);
    ("ProdFamilyCode", TChars 81, GString);
    ("IntraInstrMargin", TDouble, GDouble);
    ("BCollectingMargin", TDouble, GDouble);
    ("SCollectingMargin", TDouble, GDouble);
    ("IntraProdMargin", TDouble, GDouble);
    ("NetMargin", TDouble, GDouble);
    ("InterProdMargin", TDouble, GDouble);
    ("SingleMargin", TDouble, GDouble);
    ("AddOnMargin", TDouble, GDouble);
    ("DeliveryMargin", TDouble, GDouble);
    ("CallOptionMinRisk", TDouble, GDouble);
    ("PutOptionMinRisk", TDouble, GDouble);
    ("OptionMinRisk", TDouble, GDouble);
    ("OptionValueOffset", TDouble, GDouble);
    ("OptionRoyalty", TDouble, GDouble);
    ("RealOptionValueOffset", TDouble, GDouble);
    ("Margin", TDouble, GDouble);
    ("ExchMargin", TDouble, GDouble) ].

(** ctp_wrap.cpp, lines 428963 to 429336. *)
Definition wrap_CThostFtdcQryInvestorProdSPBMDetailField : wrapper :=
  mk_wrapper 235
  [ ("ExchangeID", TChars 9, GString);
    ("BrokerID", TChars 11, GString);
    ("InvestorID", TChars 13, GString);
    ("ProdFamilyCode", TChars 81, GString) ].

(** ctp_wrap.cpp, lines 429433 to 429898. *)
Definition wrap_CThostFtdcPortfTradeParamSettingField : wrapper :=
  mk_wrapper 166
  [ ("ExchangeID", TChars 9, GString);
    ("BrokerID", TChars 11, GString);
    ("InvestorID", TChars 13, GString);
    ("Portfolio", TChar, GChar);
    ("IsActionVerify", TInt, GInt);
    ("IsCloseVerify", TInt, GInt) ].

(** ctp_wrap.cpp, lines 429995 to 430242. *)
Definition wrap_CThostFtdcInvestorTradingRightField : wrapper :=
  mk_wrapper 117
  [ ("BrokerID", TChars 11, GString);
    ("InvestorID", TChars 13, GString);
    ("InvstTradingRight", TChar, GChar) ].

(** ctp_wrap.cpp, lines 430339 to 430648. *)
Definition wrap_CThostFtdcMortgageParamField : wrapper :=
  mk_wrapper 145
  [ ("BrokerID", TChars 11, GString);
    ("AccountID", TChars 13, GString);
    ("MortgageBalance", TDouble, GDouble);
    ("CheckMortgageRatio", TInt, GInt) ].

(** ctp_wrap.cpp, lines 430745 to 431086. *)
Definition wrap_CThostFtdcWithDrawParamField : wrapper :=
  mk_wrapper 474
  [ ("BrokerID", TChars 11, GString);
    ("AccountID", TChars 13, GString);
    ("WithDrawParamID", TChar, GChar);
    ("WithDrawParamValue", TChars 41, GString) ].

(** ctp_wrap.cpp, lines 431183 to 431430. *)
Definition wrap_CThostFtdcThostUserFunctionField : wrapper :=
  mk_wrapper 436
  [ ("BrokerID", TChars 11, GString);
    ("UserID", TChars 16, GString);
    ("ThostFunctionCode", TInt, GInt) ].

(** ctp_wrap.cpp, lines 431527 to 431712. *)
Definition wrap_CThostFtdcQryThostUserFunctionField : wrapper :=
  mk_wrapper 295
  [ ("BrokerID", TChars 11, GString);
    ("UserID", TChars 16, GString) ].

(** ctp_wrap.cpp, lines 431809 to 432306. *)
Definition wrap_CThostFtdcSPBMAddOnInterParameterField : wrapper :=
  mk_wrapper 364
  [ ("TradingDay", TChars 9, GString);
    ("ExchangeID", TChars 9, GString);
    ("SpreadId", TInt, GInt);
    ("AddOnInterRateZ2", TDouble, GDouble);
    ("Leg1ProdFamilyCode", TChars 81, GString);
    ("Leg2ProdFamilyCode", TChars 81, GString) ].

(** ctp_wrap.cpp, lines 432403 to 432682. *)
Definition wrap_CThostFtdcQrySPBMAddOnInterParameterField : wrapper :=
  mk_wrapper 274
  [ ("ExchangeID", TChars 9, GString);
    ("Leg1ProdFamilyCode", TChars 81, GString);
    ("Leg2ProdFamilyCode", TChars 81, GString) ].

(** ctp_wrap.cpp, lines 432779 to 433058. *)
Definition wrap_CThostFtdcQryInvestorCommoditySPMMMarginField : wrapper :=
  mk_wrapper 225
  [ ("BrokerID", TChars 11, GString);
    ("InvestorID", TChars 13, GString);
    ("CommodityID", TChars 41, GString) ].

(** ctp_wrap.cpp, lines 433155 to 433434. *)
Definition wrap_CThostFtdcQryInvestorCommodityGroupSPMMMarginField : wrapper :=
  mk_wrapper 224
  [ ("BrokerID", TChars 11, GString);
    ("InvestorID", TChars 13, GString);
    ("CommodityGroupID", TChars 41, GString) ].

(** ctp_wrap.cpp, lines 433531 to 433622. *)
Definition wrap_CThostFtdcQrySPMMInstParamField : wrapper :=
  mk_wrapper 281
  [ ("InstrumentID", TChars 81, GString) ].

(** ctp_wrap.cpp, lines 433719 to 433810. *)
Definition wrap_CThostFtdcQrySPMMProductParamField : wrapper :=
  mk_wrapper 282
  [ ("ProductID", TChars 41, GString) ].

(** ctp_wrap.cpp, lines 433907 to 435458. *)
Definition wrap_CThostFtdcInvestorCommoditySPMMMarginField : wrapper :=
  mk_wrapper 103
  [ ("ExchangeID", TChars 9, GString);
    ("BrokerID", TChars 11, GString);
    ("InvestorID", TChars 13, GString);
    ("CommodityID", TChars 41, GString);
    ("MarginBeforeDiscount", TDouble, GDouble);
    ("MarginNoDiscount", TDouble, GDouble);
    ("LongPosRisk", TDouble, GDouble);
    ("LongOpenFrozenRisk", TDouble, GDouble);
    ("LongCloseFrozenRisk", TDouble, GDouble);
    ("ShortPosRisk", TDouble, GDouble);
    ("ShortOpenFrozenRisk", TDouble, GDouble);
    ("ShortCloseFrozenRisk", TDouble, GDouble);
    ("IntraCommodityRate", TDouble, GDouble);
    ("OptionDiscountRate", TDouble, GDouble);
    ("PosDiscount", TDouble, GDouble);
    ("OpenFrozenDiscount", TDouble, GDouble);
    ("NetRisk", TDouble, GDouble);
    ("CloseFrozenMargin", TDouble, GDouble);
    ("FrozenCommission", TDouble, GDouble);
    ("Commission", TDouble, GDouble);
    ("FrozenCash", TDouble, GDouble);
    ("CashIn", TDouble, GDouble);
    ("StrikeFrozenMargin", TDouble, GDouble) ].

(** ctp_wrap.cpp, lines 435555 to 436982. *)
Definition wrap_CThostFtdcInvestorCommodityGroupSPMMMarginField : wrapper :=
  mk_wrapper 102
  [ ("ExchangeID", TChars 9, GString);
    ("BrokerID", TChars 11, GString);
    ("InvestorID", TChars 13, GString);
    ("CommodityGroupID", TChars 41, GString);
    ("MarginBeforeDiscount", TDouble, GDouble);
    ("MarginNoDiscount", TDouble, GDouble);
    ("LongRisk", TDouble, GDouble);
    ("ShortRisk", TDouble, GDouble);
    ("CloseFrozenMargin", TDouble, GDouble);
    ("InterCommodityRate", TDouble, GDouble);
    ("MiniMarginRatio", TDouble, GDouble);
    ("AdjustRatio", TDouble, GDouble);
    ("IntraCommodityDiscount", TDouble, GDouble);
    ("InterCommodityDiscount", TDouble, GDouble);
    ("ExchMargin", TDouble, GDouble);
    ("InvestorMargin", TDouble, GDouble);
    ("FrozenCommission", TDouble, GDouble);
    ("Commission", TDouble, GDouble);
    ("FrozenCash", TDouble, GDouble);
    ("CashIn", TDouble, GDouble);
    ("StrikeFrozenMargin", TDouble, GDouble) ].

(** ctp_wrap.cpp, lines 437079 to 437514. *)
Definition wrap_CThostFtdcSPMMInstParamField : wrapper :=
  mk_wrapper 371
  [ ("ExchangeID", TChars 9, GString);
    ("InstrumentID", TChars 81, GString);
    ("InstMarginCalID", TChar, GChar);
    ("CommodityID", TChars 41, GString);
    ("CommodityGroupID", TChars 41, GString) ].

(** ctp_wrap.cpp, lines 437611 to 437984. *)
Definition wrap_CThostFtdcSPMMProductParamField : wrapper :=
  mk_wrapper 372
  [ ("ExchangeID", TChars 9, GString);
    ("ProductID", TChars 41, GString);
    ("CommodityID", TChars 41, GString);
    ("CommodityGroupID", TChars 41, GString) ].

(** ctp_wrap.cpp, lines 438081 to 438172. *)
Definition wrap_CThostFtdcQryTraderAssignField : wrapper :=
  mk_wrapper 297
  [ ("TraderID", TChars 21, GString) ].

(** ctp_wrap.cpp, lines 438269 to 438704. *)
Definition wrap_CThostFtdcTraderAssignField : wrapper :=
  mk_wrapper 440
  [ ("BrokerID", TChars 11, GString);
    ("ExchangeID", TChars 9, GString);
    ("TraderID", TChars 21, GString);
    ("ParticipantID", TChars 11, GString);
    ("DRIdentityID", TInt, GInt) ].

(** ctp_wrap.cpp, lines 438801 to 439360. *)
Definition wrap_CThostFtdcInvestorInfoCntSettingField : wrapper :=
  mk_wrapper 106
  [ ("ExchangeID", TChars 9, GString);
    ("BrokerID", TChars 11, GString);
    ("InvestorID", TChars 13, GString);
    ("ProductID", TChars 41, GString);
    ("IsCalInfoComm", TInt, GInt);
    ("IsLimitInfoMax", TInt, GInt);
    ("InfoMaxLimit", TInt, GInt) ].

(** ctp_wrap.cpp, lines 439457 to 439924. *)
Definition wrap_CThostFtdcRCAMSCombProductInfoField : wrapper :=
  mk_wrapper 312
  [ ("TradingDay", TChars 9, GString);
    ("ExchangeID", TChars 9, GString);
    ("ProductID", TChars 41, GString);
    ("CombProductID", TChars 41, GString);
    ("ProductGroupID", TChars 41, GString) ].

(** ctp_wrap.cpp, lines 440021 to 440362. *)
Definition wrap_CThostFtdcRCAMSInstrParameterField : wrapper :=
  mk_wrapper 313
  [ ("TradingDay", TChars 9, GString);
    ("ExchangeID", TChars 9, GString);
    ("ProductID", TChars 41, GString);
    ("HedgeRate", TDouble, GDouble) ].

(** ctp_wrap.cpp, lines 440459 to 440800. *)
Definition wrap_CThostFtdcRCAMSIntraParameterField : wrapper :=
  mk_wrapper 315
  [ ("TradingDay", TChars 9, GString);
    ("ExchangeID", TChars 9, GString);
    ("CombProductID", TChars 41, GString);
    ("HedgeRate", TDouble, GDouble) ].

(** ctp_wrap.cpp, lines 440897 to 441488. *)
Definition wrap_CThostFtdcRCAMSInterParameterField : wrapper :=
  mk_wrapper 314
  [ ("TradingDay", TChars 9, GString);
    ("ExchangeID", TChars 9, GString);
    ("ProductGroupID", TChars 41, GString);
    ("Priority", TInt, GInt);
    ("CreditRate", TDouble, GDouble);
    ("CombProduct1", TChars 41, GString);
    ("CombProduct2", TChars 41, GString) ].

(** ctp_wrap.cpp, lines 441585 to 441988. *)
Definition wrap_CThostFtdcRCAMSShortOptAdjustParamField : wrapper :=
  mk_wrapper 317
  [ ("TradingDay", TChars 9, GString);
    ("ExchangeID", TChars 9, GString);
    ("CombProductID", TChars 41, GString);
    ("HedgeFlag", TChar, GChar);
    ("AdjustValue", TDouble, GDouble) ].

(** ctp_wrap.cpp, lines 442085 to 443018. *)
Definition wrap_CThostFtdcRCAMSInvestorCombPositionField : wrapper :=
  mk_wrapper 316
  [ ("ExchangeID", TChars 9, GString);
    ("BrokerID", TChars 11, GString);
    ("InvestorID", TChars 13, GString);
    ("InstrumentID", TChars 81, GString);
    ("HedgeFlag", TChar, GChar);
    ("PosiDirection", TChar, GChar);
    ("CombInstrumentID", TChars 81, GString);
    ("LegID", TInt, GInt);
    ("ExchangeInstID", TChars 81, GString);
    ("TotalAmt", TInt, GInt);
    ("ExchMargin", TDouble, GDouble);
    ("Margin", TDouble, GDouble) ].

(** ctp_wrap.cpp, lines 443115 to 444946. *)
Definition wrap_CThostFtdcInvestorProdRCAMSMarginField : wrapper :=
  mk_wrapper 113
  [ ("ExchangeID", TChars 9, GString);
    ("BrokerID", TChars 11, GString);
    ("InvestorID", TChars 13, GString);
    ("CombProductID", TChars 41, GString);
    ("HedgeFlag", TChar, GChar);
    ("ProductGroupID", TChars 41, GString);
    ("RiskBeforeDiscount", TDouble, GDouble);
    ("IntraInstrRisk", TDouble, GDouble);
    ("BPosRisk", TDouble, GDouble);
    ("SPosRisk", TDouble, GDouble);
    ("IntraProdRisk", TDouble, GDouble);
    ("NetRisk", TDouble, GDouble);
    ("InterProdRisk", TDouble, GDouble);
    ("ShortOptRiskAdj", TDouble, GDouble);
    ("OptionRoyalty", TDouble, GDouble);
    ("MMSACloseFrozenMargin", TDouble, GDouble);
    ("CloseCombFrozenMargin", TDouble, GDouble);
    ("CloseFrozenMargin", TDouble, GDouble);
    ("MMSAOpenFrozenMargin", TDouble, GDouble);
    ("DeliveryOpenFrozenMargin", TDouble, GDouble);
    ("OpenFrozenMargin", TDouble, GDouble);
    ("UseFrozenMargin", TDouble, GDouble);
    ("MMSAExchMargin", TDouble, GDouble);
    ("DeliveryExchMargin", TDouble, GDouble);
    ("CombExchMargin", TDouble, GDouble);
    ("ExchMargin", TDouble, GDouble);
    ("UseMargin", TDouble, GDouble) ].

(** ctp_wrap.cpp, lines 445043 to 445322. *)
Definition wrap_CThostFtdcQryRCAMSCombProductInfoField : wrapper :=
  mk_wrapper 263
  [ ("ProductID", TChars 41, GString);
    ("CombProductID", TChars 41, GString);
    ("ProductGroupID", TChars 41, GString) ].

(** ctp_wrap.cpp, lines 445419 to 445510. *)
Definition wrap_CThostFtdcQryRCAMSInstrParameterField : wrapper :=
  mk_wrapper 264
  [ ("ProductID", TChars 41, GString) ].

(** ctp_wrap.cpp, lines 445607 to 445698. *)
Definition wrap_CThostFtdcQryRCAMSIntraParameterField : wrapper :=
  mk_wrapper 266
  [ ("CombProductID", TChars 41, GString) ].

(** ctp_wrap.cpp, lines 445795 to 446074. *)
Definition wrap_CThostFtdcQryRCAMSInterParameterField : wrapper :=
  mk_wrapper 265
  [ ("ProductGroupID", TChars 41, GString);
    ("CombProduct1", TChars 41, GString);
    ("CombProduct2", TChars 41, GString) ].

(** ctp_wrap.cpp, lines 446171 to 446262. *)
Definition wrap_CThostFtdcQryRCAMSShortOptAdjustParamField : wrapper :=
  mk_wrapper 268
  [ ("CombProductID", TChars 41, GString) ].

(** ctp_wrap.cpp, lines 446359 to 446732. *)
Definition wrap_CThostFtdcQryRCAMSInvestorCombPositionField : wrapper :=
  mk_wrapper 267
  [ ("BrokerID", TChars 11, GString);
    ("InvestorID", TChars 13, GString);
    ("InstrumentID", TChars 81, GString);
    ("CombInstrumentID", TChars 81, GString) ].

(** ctp_wrap.cpp, lines 446829 to 447202. *)
Definition wrap_CThostFtdcQryInvestorProdRCAMSMarginField : wrapper :=
  mk_wrapper 233
  [ ("BrokerID", TChars 11, GString);
    ("InvestorID", TChars 13, GString);
    ("CombProductID", TChars 41, GString);
    ("ProductGroupID", TChars 41, GString) ].

(** ctp_wrap.cpp, lines 447299 to 448168. *)
Definition wrap_CThostFtdcRULEInstrParameterField : wrapper :=
  mk_wrapper 318
  [ ("TradingDay", TChars 9, GString);
    ("ExchangeID", TChars 9, GString);
    ("InstrumentID", TChars 81, GString);
    ("InstrumentClass", TChar, GChar);
    ("StdInstrumentID", TChars 81, GString);
    ("BSpecRatio", TDouble, GDouble);
    ("SSpecRatio", TDouble, GDouble);
    ("BHedgeRatio", TDouble, GDouble);
    ("SHedgeRatio", TDouble, GDouble);
    ("BAddOnMargin", TDouble, GDouble);
    ("SAddOnMargin", TDouble, GDouble);
    ("CommodityGroupID", TInt, GInt) ].

(** ctp_wrap.cpp, lines 448265 to 448824. *)
Definition wrap_CThostFtdcRULEIntraParameterField : wrapper :=
  mk_wrapper 320
  [ ("TradingDay", TChars 9, GString);
    ("ExchangeID", TChars 9, GString);
    ("ProdFamilyCode", TChars 81, GString);
    ("StdInstrumentID", TChars 81, GString);
    ("StdInstrMargin", TDouble, GDouble);
    ("UsualIntraRate", TDouble, GDouble);
    ("DeliveryIntraRate", TDouble, GDouble) ].

(** ctp_wrap.cpp, lines 448921 to 449698. *)
Definition wrap_CThostFtdcRULEInterParameterField : wrapper :=
  mk_wrapper 319
  [ ("TradingDay", TChars 9, GString);
    ("ExchangeID", TChars 9, GString);
    ("SpreadId", TInt, GInt);
    ("InterRate", TDouble, GDouble);
    ("Leg1ProdFamilyCode", TChars 81, GString);
    ("Leg2ProdFamilyCode", TChars 81, GString);
    ("Leg1PropFactor", TInt, GInt);
    ("Leg2PropFactor", TInt, GInt);
    ("CommodityGroupID", TInt, GInt);
    ("CommodityGroupName", TChars 21, GString) ].

(** ctp_wrap.cpp, lines 449795 to 449980. *)
Definition wrap_CThostFtdcQryRULEInstrParameterField : wrapper :=
  mk_wrapper 269
  [ ("ExchangeID", TChars 9, GString);
    ("InstrumentID", TChars 81, GString) ].

(** ctp_wrap.cpp, lines 450077 to 450262. *)
Definition wrap_CThostFtdcQryRULEIntraParameterField : wrapper :=
  mk_wrapper 271
  [ ("ExchangeID", TChars 9, GString);
    ("ProdFamilyCode", TChars 81, GString) ].

(** ctp_wrap.cpp, lines 450359 to 450700. *)
Definition wrap_CThostFtdcQryRULEInterParameterField : wrapper :=
  mk_wrapper 270
  [ ("ExchangeID", TChars 9, GString);
    ("Leg1ProdFamilyCode", TChars 81, GString);
    ("Leg2ProdFamilyCode", TChars 81, GString);
    ("CommodityGroupID", TInt, GInt) ].

(** ctp_wrap.cpp, lines 450797 to 452596. *)
Definition wrap_CThostFtdcInvestorProdRULEMarginField : wrapper :=
  mk_wrapper 114
  [ ("ExchangeID", TChars 9, GString);
    ("BrokerID", TChars 11, GString);
    ("InvestorID", TChars 13, GString);
    ("ProdFamilyCode", TChars 81, GString);
    ("InstrumentClass", TChar, GChar);
    ("CommodityGroupID", TInt, GInt);
    ("BStdPosition", TDouble, GDouble);
    ("SStdPosition", TDouble, GDouble);
    ("BStdOpenFrozen", TDouble, GDouble);
    ("SStdOpenFrozen", TDouble, GDouble);
    ("BStdCloseFrozen", TDouble, GDouble);
    ("SStdCloseFrozen", TDouble, GDouble);
    ("IntraProdStdPosition", TDouble, GDouble);
    ("NetStdPosition", TDouble, GDouble);
    ("InterProdStdPosition", TDouble, GDouble);
    ("SingleStdPosition", TDouble, GDouble);
    ("IntraProdMargin", TDouble, GDouble);
    ("InterProdMargin", TDouble, GDouble);
    ("SingleMargin", TDouble, GDouble);
    ("NonCombMargin", TDouble, GDouble);
    ("AddOnMargin", TDouble, GDouble);
    ("ExchMargin", TDouble, GDouble);
    ("AddOnFrozenMargin", TDouble, GDouble);
    ("OpenFrozenMargin", TDouble, GDouble);
    ("CloseFrozenMargin", TDouble, GDouble);
    ("Margin", TDouble, GDouble);
    ("FrozenMargin", TDouble, GDouble) ].

(** ctp_wrap.cpp, lines 452693 to 453128. *)
Definition wrap_CThostFtdcQryInvestorProdRULEMarginField : wrapper :=
  mk_wrapper 234
  [ ("ExchangeID", TChars 9, GString);
    ("BrokerID", TChars 11, GString);
    ("InvestorID", TChars 13, GString);
    ("ProdFamilyCode", TChars 81, GString);
    ("CommodityGroupID", TInt, GInt) ].

(** ctp_wrap.cpp, lines 453225 to 453658. *)
Definition wrap_CThostFtdcSyncDeltaSPBMPortfDefinitionField : wrapper :=
  mk_wrapper 419
  [ ("ExchangeID", TChars 9, GString);
    ("PortfolioDefID", TInt, GInt);
    ("ProdFamilyCode", TChars 81, GString);
    ("IsSPBM", TInt, GInt);
    ("ActionDirection", TChar, GChar);
    ("SyncDeltaSequenceNo", TInt, GInt) ].

(** ctp_wrap.cpp, lines 453755 to 454220. *)
Definition wrap_CThostFtdcSyncDeltaSPBMInvstPortfDefField : wrapper :=
  mk_wrapper 417
  [ ("ExchangeID", TChars 9, GString);
    ("BrokerID", TChars 11, GString);
    ("InvestorID", TChars 13, GString);
    ("PortfolioDefID", TInt, GInt);
    ("ActionDirection", TChar, GChar);
    ("SyncDeltaSequenceNo", TInt, GInt) ].

(** ctp_wrap.cpp, lines 454317 to 455248. *)
Definition wrap_CThostFtdcSyncDeltaSPBMFutureParameterField : wrapper :=
  mk_wrapper 414
  [ ("TradingDay", TChars 9, GString);
    ("ExchangeID", TChars 9, GString);
    ("InstrumentID", TChars 81, GString);
    ("ProdFamilyCode", TChars 81, GString);
    ("Cvf", TInt, GInt);
    ("TimeRange", TChar, GChar);
    ("MarginRate", TDouble, GDouble);
    ("LockRateX", TDouble, GDouble);
    ("AddOnRate", TDouble, GDouble);
    ("PreSettlementPrice", TDouble, GDouble);
    ("AddOnLockRateX2", TDouble, GDouble);
    ("ActionDirection", TChar, GChar);
    ("SyncDeltaSequenceNo", TInt, GInt) ].

(** ctp_wrap.cpp, lines 455345 to 456152. *)
Definition wrap_CThostFtdcSyncDeltaSPBMOptionParameterField : wrapper :=
  mk_wrapper 418
  [ ("TradingDay", TChars 9, GString);
    ("ExchangeID", TChars 9, GString);
    ("InstrumentID", TChars 81, GString);
    ("ProdFamilyCode", TChars 81, GString);
    ("Cvf", TInt, GInt);
    ("DownPrice", TDouble, GDouble);
    ("Delta", TDouble, GDouble);
    ("SlimiDelta", TDouble, GDouble);
    ("PreSettlementPrice", TDouble, GDouble);
    ("ActionDirection", TChar, GChar);
    ("SyncDeltaSequenceNo", TInt, GInt) ].

(** ctp_wrap.cpp, lines 456249 to 456776. *)
Definition wrap_CThostFtdcSyncDeltaSPBMIntraParameterField : wrapper :=
  mk_wrapper 416
  [ ("TradingDay", TChars 9, GString);
    ("ExchangeID", TChars 9, GString);
    ("ProdFamilyCode", TChars 81, GString);
    ("IntraRateY", TDouble, GDouble);
    ("AddOnIntraRateY2", TDouble, GDouble);
    ("ActionDirection", TChar, GChar);
    ("SyncDeltaSequenceNo", TInt, GInt) ].

(** ctp_wrap.cpp, lines 456873 to 457494. *)
Definition wrap_CThostFtdcSyncDeltaSPBMInterParameterField : wrapper :=
  mk_wrapper 415
  [ ("TradingDay", TChars 9, GString);
    ("ExchangeID", TChars 9, GString);
    ("SpreadId", TInt, GInt);
    ("InterRateZ", TDouble, GDouble);
    ("Leg1ProdFamilyCode", TChars 81, GString);
    ("Leg2ProdFamilyCode", TChars 81, GString);
    ("ActionDirection", TChar, GChar);
    ("SyncDeltaSequenceNo", TInt, GInt) ].

(** ctp_wrap.cpp, lines 457591 to 458212. *)
Definition wrap_CThostFtdcSyncDeltaSPBMAddOnInterParamField : wrapper :=
  mk_wrapper 413
  [ ("TradingDay", TChars 9, GString);
    ("ExchangeID", TChars 9, GString);
    ("SpreadId", TInt, GInt);
    ("AddOnInterRateZ2", TDouble, GDouble);
    ("Leg1ProdFamilyCode", TChars 81, GString);
    ("Leg2ProdFamilyCode", TChars 81, GString);
    ("ActionDirection", TChar, GChar);
    ("SyncDeltaSequenceNo", TInt, GInt) ].

(** ctp_wrap.cpp, lines 458309 to 458868. *)
Definition wrap_CThostFtdcSyncDeltaSPMMInstParamField : wrapper :=
  mk_wrapper 420
  [ ("ExchangeID", TChars 9, GString);
    ("InstrumentID", TChars 81, GString);
    ("InstMarginCalID", TChar, GChar);
    ("CommodityID", TChars 41, GString);
    ("CommodityGroupID", TChars 41, GString);
    ("ActionDirection", TChar, GChar);
    ("SyncDeltaSequenceNo", TInt, GInt) ].

(** ctp_wrap.cpp, lines 458965 to 459462. *)
Definition wrap_CThostFtdcSyncDeltaSPMMProductParamField : wrapper :=
  mk_wrapper 422
  [ ("ExchangeID", TChars 9, GString);
    ("ProductID", TChars 41, GString);
    ("CommodityID", TChars 41, GString);
    ("CommodityGroupID", TChars 41, GString);
    ("ActionDirection", TChar, GChar);
    ("SyncDeltaSequenceNo", TInt, GInt) ].

(** ctp_wrap.cpp, lines 459559 to 460056. *)
Definition wrap_CThostFtdcSyncDeltaInvestorSPMMModelField : wrapper :=
  mk_wrapper 392
  [ ("ExchangeID", TChars 9, GString);
    ("BrokerID", TChars 11, GString);
    ("InvestorID", TChars 13, GString);
    ("SPMMModelID", TChars 33, GString);
    ("ActionDirection", TChar, GChar);
    ("SyncDeltaSequenceNo", TInt, GInt) ].

(** ctp_wrap.cpp, lines 460153 to 460804. *)
Definition wrap_CThostFtdcSyncDeltaSPMMModelParamField : wrapper :=
  mk_wrapper 421
  [ ("ExchangeID", TChars 9, GString);
    ("SPMMModelID", TChars 33, GString);
    ("CommodityGroupID", TChars 41, GString);
    ("IntraCommodityRate", TDouble, GDouble);
    ("InterCommodityRate", TDouble, GDouble);
    ("OptionDiscountRate", TDouble, GDouble);
    ("MiniMarginRatio", TDouble, GDouble);
    ("ActionDirection", TChar, GChar);
    ("SyncDeltaSequenceNo", TInt, GInt) ].

(** ctp_wrap.cpp, lines 460901 to 461492. *)
Definition wrap_CThostFtdcSyncDeltaRCAMSCombProdInfoField : wrapper :=
  mk_wrapper 403
  [ ("TradingDay", TChars 9, GString);
    ("ExchangeID", TChars 9, GString);
    ("ProductID", TChars 41, GString);
    ("CombProductID", TChars 41, GString);
    ("ProductGroupID", TChars 41, GString);
    ("ActionDirection", TChar, GChar);
    ("SyncDeltaSequenceNo", TInt, GInt) ].

(** ctp_wrap.cpp, lines 461589 to 462054. *)
Definition wrap_CThostFtdcSyncDeltaRCAMSInstrParameterField : wrapper :=
  mk_wrapper 405
  [ ("TradingDay", TChars 9, GString);
    ("ExchangeID", TChars 9, GString);
    ("ProductID", TChars 41, GString);
    ("HedgeRate", TDouble, GDouble);
    ("ActionDirection", TChar, GChar);
    ("SyncDeltaSequenceNo", TInt, GInt) ].

(** ctp_wrap.cpp, lines 462151 to 462616. *)
Definition wrap_CThostFtdcSyncDeltaRCAMSIntraParameterField : wrapper :=
  mk_wrapper 407
  [ ("TradingDay", TChars 9, GString);
    ("ExchangeID", TChars 9, GString);
    ("CombProductID", TChars 41, GString);
    ("HedgeRate", TDouble, GDouble);
    ("ActionDirection", TChar, GChar);
    ("SyncDeltaSequenceNo", TInt, GInt) ].

(** ctp_wrap.cpp, lines 462713 to 463428. *)
Definition wrap_CThostFtdcSyncDeltaRCAMSInterParameterField : wrapper :=
  mk_wrapper 406
  [ ("TradingDay", TChars 9, GString);
    ("ExchangeID", TChars 9, GString);
    ("ProductGroupID", TChars 41, GString);
    ("Priority", TInt, GInt);
    ("CreditRate", TDouble, GDouble);
    ("CombProduct1", TChars 41, GString);
    ("CombProduct2", TChars 41, GString);
    ("ActionDirection", TChar, GChar);
    ("SyncDeltaSequenceNo", TInt, GInt) ].

(** ctp_wrap.cpp, lines 463525 to 464052. *)
Definition wrap_CThostFtdcSyncDeltaRCAMSSOptAdjParamField : wrapper :=
  mk_wrapper 409
  [ ("TradingDay", TChars 9, GString);
    ("ExchangeID", TChars 9, GString);
    ("CombProductID", TChars 41, GString);
    ("HedgeFlag", TChar, GChar);
    ("AdjustValue", TDouble, GDouble);
    ("ActionDirection", TChar, GChar);
    ("SyncDeltaSequenceNo", TInt, GInt) ].

(** ctp_wrap.cpp, lines 464149 to 465206. *)
Definition wrap_CThostFtdcSyncDeltaRCAMSCombRuleDtlField : wrapper :=
  mk_wrapper 404
  [ ("TradingDay", TChars 9, GString);
    ("ExchangeID", TChars 9, GString);
    ("ProdGroup", TChars 41, GString);
    ("RuleId", TChars 51, GString);
    ("Priority", TInt, GInt);
    ("HedgeFlag", TChar, GChar);
    ("CombMargin", TDouble, GDouble);
    ("ExchangeInstID", TChars 81, GString);
    ("LegID", TInt, GInt);
    ("LegInstrumentID", TChars 81, GString);
    ("Direction", TChar, GChar);
    ("LegMultiple", TInt, GInt);
    ("ActionDirection", TChar, GChar);
    ("SyncDeltaSequenceNo", TInt, GInt) ].

(** ctp_wrap.cpp, lines 465303 to 466360. *)
Definition wrap_CThostFtdcSyncDeltaRCAMSInvstCombPosField : wrapper :=
  mk_wrapper 408
  [ ("ExchangeID", TChars 9, GString);
    ("BrokerID", TChars 11, GString);
    ("InvestorID", TChars 13, GString);
    ("InstrumentID", TChars 81, GString);
    ("HedgeFlag", TChar, GChar);
    ("PosiDirection", TChar, GChar);
    ("CombInstrumentID", TChars 81, GString);
    ("LegID", TInt, GInt);
    ("ExchangeInstID", TChars 81, GString);
    ("TotalAmt", TInt, GInt);
    ("ExchMargin", TDouble, GDouble);
    ("Margin", TDouble, GDouble);
    ("ActionDirection", TChar, GChar);
    ("SyncDeltaSequenceNo", TInt, GInt) ].

(** ctp_wrap.cpp, lines 466457 to 467450. *)
Definition wrap_CThostFtdcSyncDeltaRULEInstrParameterField : wrapper :=
  mk_wrapper 410
  [ ("TradingDay", TChars 9, GString);
    ("ExchangeID", TChars 9, GString);
    ("InstrumentID", TChars 81, GString);
    ("InstrumentClass", TChar, GChar);
    ("StdInstrumentID", TChars 81, GString);
    ("BSpecRatio", TDouble, GDouble);
    ("SSpecRatio", TDouble, GDouble);
    ("BHedgeRatio", TDouble, GDouble);
    ("SHedgeRatio", TDouble, GDouble);
    ("BAddOnMargin", TDouble, GDouble);
    ("SAddOnMargin", TDouble, GDouble);
    ("CommodityGroupID", TInt, GInt);
    ("ActionDirection", TChar, GChar);
    ("SyncDeltaSequenceNo", TInt, GInt) ].

(** ctp_wrap.cpp, lines 467547 to 468230. *)
Definition wrap_CThostFtdcSyncDeltaRULEIntraParameterField : wrapper :=
  mk_wrapper 412
  [ ("TradingDay", TChars 9, GString);
    ("ExchangeID", TChars 9, GString);
    ("ProdFamilyCode", TChars 81, GString);
    ("StdInstrumentID", TChars 81, GString);
    ("StdInstrMargin", TDouble, GDouble);
    ("UsualIntraRate", TDouble, GDouble);
    ("DeliveryIntraRate", TDouble, GDouble);
    ("ActionDirection", TChar, GChar);
    ("SyncDeltaSequenceNo", TInt, GInt) ].

(** ctp_wrap.cpp, lines 468327 to 469228. *)
Definition wrap_CThostFtdcSyncDeltaRULEInterParameterField : wrapper :=
  mk_wrapper 411
  [ ("TradingDay", TChars 9, GString);
    ("ExchangeID", TChars 9, GString);
    ("SpreadId", TInt, GInt);
    ("InterRate", TDouble, GDouble);
    ("Leg1ProdFamilyCode", TChars 81, GString);
    ("Leg2ProdFamilyCode", TChars 81, GString);
    ("Leg1PropFactor", TInt, GInt);
    ("Leg2PropFactor", TInt, GInt);
    ("CommodityGroupID", TInt, GInt);
    ("CommodityGroupName", TChars 21, GString);
    ("ActionDirection", TChar, GChar);
    ("SyncDeltaSequenceNo", TInt, GInt) ].

(** ctp_wrap.cpp, lines 469325 to 469416. *)
Definition wrap_CThostFtdcExitEmergencyField : wrapper :=
  mk_wrapper 69
  [ ("BrokerID", TChars 11, GString) ].

(** ctp_wrap.cpp, lines 469513 to 469792. *)
Definition wrap_CThostFtdcInvestorPortfMarginModelField : wrapper :=
  mk_wrapper 107
  [ ("BrokerID", TChars 11, GString);
    ("InvestorID", TChars 13, GString);
    ("MarginModelID", TChars 13, GString) ].

(** ctp_wrap.cpp, lines 469889 to 470292. *)
Definition wrap_CThostFtdcInvestorPortfSettingField : wrapper :=
  mk_wrapper 109
  [ ("ExchangeID", TChars 9, GString);
    ("BrokerID", TChars 11, GString);
    ("InvestorID", TChars 13, GString);
    ("HedgeFlag", TChar, GChar);
    ("UsePortf", TInt, GInt) ].

(** ctp_wrap.cpp, lines 470389 to 470668. *)
Definition wrap_CThostFtdcQryInvestorPortfSettingField : wrapper :=
  mk_wrapper 229
  [ ("ExchangeID", TChars 9, GString);
    ("BrokerID", TChars 11, GString);
    ("InvestorID", TChars 13, GString) ].

(** ctp_wrap.cpp, lines 470765 to 470980. *)
Definition wrap_CThostFtdcFrontInfoField : wrapper :=
  mk_wrapper 75
  [ ("FrontAddr", TChars 101, GString);
    ("QryFreq", TInt, GInt);
    ("FTDPkgFreq", TInt, GInt) ].

(** The wrappers above, by the name of their structure. *)
Definition wrappers : list (string * wrapper) :=
  [ ("CThostFtdcNotifyFutureSignOutField", wrap_CThostFtdcNotifyFutureSignOutField);
    ("CThostFtdcNotifySyncKeyField", wrap_CThostFtdcNotifySyncKeyField);
    ("CThostFtdcQryAccountregisterField", wrap_CThostFtdcQryAccountregisterField);
    ("CThostFtdcAccountregisterField", wrap_CThostFtdcAccountregisterField);
    ("CThostFtdcOpenAccountField", wrap_CThostFtdcOpenAccountField);
    ("CThostFtdcCancelAccountField", wrap_CThostFtdcCancelAccountField);
    ("CThostFtdcChangeAccountField", wrap_CThostFtdcChangeAccountField);
    ("CThostFtdcSecAgentACIDMapField", wrap_CThostFtdcSecAgentACIDMapField);
    ("CThostFtdcQrySecAgentACIDMapField", wrap_CThostFtdcQrySecAgentACIDMapField);
    ("CThostFtdcUserRightsAssignField", wrap_CThostFtdcUserRightsAssignField);
    ("CThostFtdcBrokerUserRightAssignField", wrap_CThostFtdcBrokerUserRightAssignField);
    ("CThostFtdcDRTransferField", wrap_CThostFtdcDRTransferField);
    ("CThostFtdcFensUserInfoField", wrap_CThostFtdcFensUserInfoField);
    ("CThostFtdcCurrTransferIdentityField", wrap_CThostFtdcCurrTransferIdentityField);
    ("CThostFtdcLoginForbiddenUserField", wrap_CThostFtdcLoginForbiddenUserField);
    ("CThostFtdcQryLoginForbiddenUserField", wrap_CThostFtdcQryLoginForbiddenUserField);
    ("CThostFtdcTradingAccountReserveField", wrap_CThostFtdcTradingAccountReserveField);
    ("CThostFtdcQryLoginForbiddenIPField", wrap_CThostFtdcQryLoginForbiddenIPField);
    ("CThostFtdcQryIPListField", wrap_CThostFtdcQryIPListField);
    ("CThostFtdcQryUserRightsAssignField", wrap_CThostFtdcQryUserRightsAssignField);
    ("CThostFtdcReserveOpenAccountConfirmField", wrap_CThostFtdcReserveOpenAccountConfirmField);
    ("CThostFtdcReserveOpenAccountField", wrap_CThostFtdcReserveOpenAccountField);
    ("CThostFtdcAccountPropertyField", wrap_CThostFtdcAccountPropertyField);
    ("CThostFtdcQryCurrDRIdentityField", wrap_CThostFtdcQryCurrDRIdentityField);
    ("CThostFtdcCurrDRIdentityField", wrap_CThostFtdcCurrDRIdentityField);
    ("CThostFtdcQrySecAgentCheckModeField", wrap_CThostFtdcQrySecAgentCheckModeField);
    ("CThostFtdcQrySecAgentTradeInfoField", wrap_CThostFtdcQrySecAgentTradeInfoField);
    ("CThostFtdcReqUserAuthMethodField", wrap_CThostFtdcReqUserAuthMethodField);
    ("CThostFtdcRspUserAuthMethodField", wrap_CThostFtdcRspUserAuthMethodField);
    ("CThostFtdcReqGenUserCaptchaField", wrap_CThostFtdcReqGenUserCaptchaField);
    ("CThostFtdcRspGenUserCaptchaField", wrap_CThostFtdcRspGenUserCaptchaField);
    ("CThostFtdcReqGenUserTextField", wrap_CThostFtdcReqGenUserTextField);
    ("CThostFtdcRspGenUserTextField", wrap_CThostFtdcRspGenUserTextField);
    ("CThostFtdcReqUserLoginWithCaptchaField", wrap_CThostFtdcReqUserLoginWithCaptchaField);
    ("CThostFtdcReqUserLoginWithTextField", wrap_CThostFtdcReqUserLoginWithTextField);
    ("CThostFtdcReqUserLoginWithOTPField", wrap_CThostFtdcReqUserLoginWithOTPField);
    ("CThostFtdcReqApiHandshakeField", wrap_CThostFtdcReqApiHandshakeField);
    ("CThostFtdcRspApiHandshakeField", wrap_CThostFtdcRspApiHandshakeField);
    ("CThostFtdcReqVerifyApiKeyField", wrap_CThostFtdcReqVerifyApiKeyField);
    ("CThostFtdcDepartmentUserField", wrap_CThostFtdcDepartmentUserField);
    ("CThostFtdcQueryFreqField", wrap_CThostFtdcQueryFreqField);
    ("CThostFtdcAuthForbiddenIPField", wrap_CThostFtdcAuthForbiddenIPField);
    ("CThostFtdcQryAuthForbiddenIPField", wrap_CThostFtdcQryAuthForbiddenIPField);
    ("CThostFtdcSyncDelaySwapFrozenField", wrap_CThostFtdcSyncDelaySwapFrozenField);
    ("CThostFtdcUserSystemInfoField", wrap_CThostFtdcUserSystemInfoField);
    ("CThostFtdcAuthUserIDField", wrap_CThostFtdcAuthUserIDField);
    ("CThostFtdcAuthIPField", wrap_CThostFtdcAuthIPField);
    ("CThostFtdcQryClassifiedInstrumentField", wrap_CThostFtdcQryClassifiedInstrumentField);
    ("CThostFtdcQryCombPromotionParamField", wrap_CThostFtdcQryCombPromotionParamField);
    ("CThostFtdcCombPromotionParamField", wrap_CThostFtdcCombPromotionParamField);
    ("CThostFtdcReqUserLoginSMField", wrap_CThostFtdcReqUserLoginSMField);
    ("CThostFtdcQryRiskSettleInvstPositionField", wrap_CThostFtdcQryRiskSettleInvstPositionField);
    ("CThostFtdcQryRiskSettleProductStatusField", wrap_CThostFtdcQryRiskSettleProductStatusField);
    ("CThostFtdcRiskSettleInvstPositionField", wrap_CThostFtdcRiskSettleInvstPositionField);
    ("CThostFtdcRiskSettleProductStatusField", wrap_CThostFtdcRiskSettleProductStatusField);
    ("CThostFtdcSyncDeltaInfoField", wrap_CThostFtdcSyncDeltaInfoField);
    ("CThostFtdcSyncDeltaProductStatusField", wrap_CThostFtdcSyncDeltaProductStatusField);
    ("CThostFtdcSyncDeltaInvstPosDtlField", wrap_CThostFtdcSyncDeltaInvstPosDtlField);
    ("CThostFtdcSyncDeltaInvstPosCombDtlField", wrap_CThostFtdcSyncDeltaInvstPosCombDtlField);
    ("CThostFtdcSyncDeltaTradingAccountField", wrap_CThostFtdcSyncDeltaTradingAccountField);
    ("CThostFtdcSyncDeltaInitInvstMarginField", wrap_CThostFtdcSyncDeltaInitInvstMarginField);
    ("CThostFtdcSyncDeltaDceCombInstrumentField", wrap_CThostFtdcSyncDeltaDceCombInstrumentField);
    ("CThostFtdcSyncDeltaInvstMarginRateField", wrap_CThostFtdcSyncDeltaInvstMarginRateField);
    ("CThostFtdcSyncDeltaExchMarginRateField", wrap_CThostFtdcSyncDeltaExchMarginRateField);
    ("CThostFtdcSyncDeltaOptExchMarginField", wrap_CThostFtdcSyncDeltaOptExchMarginField);
    ("CThostFtdcSyncDeltaOptInvstMarginField", wrap_CThostFtdcSyncDeltaOptInvstMarginField);
    ("CThostFtdcSyncDeltaInvstMarginRateULField", wrap_CThostFtdcSyncDeltaInvstMarginRateULField);
    ("CThostFtdcSyncDeltaOptInvstCommRateField", wrap_CThostFtdcSyncDeltaOptInvstCommRateField);
    ("CThostFtdcSyncDeltaInvstCommRateField", wrap_CThostFtdcSyncDeltaInvstCommRateField);
    ("CThostFtdcSyncDeltaProductExchRateField", wrap_CThostFtdcSyncDeltaProductExchRateField);
    ("CThostFtdcSyncDeltaDepthMarketDataField", wrap_CThostFtdcSyncDeltaDepthMarketDataField);
    ("CThostFtdcSyncDeltaIndexPriceField", wrap_CThostFtdcSyncDeltaIndexPriceField);
    ("CThostFtdcSyncDeltaEWarrantOffsetField", wrap_CThostFtdcSyncDeltaEWarrantOffsetField);
    ("CThostFtdcSPBMFutureParameterField", wrap_CThostFtdcSPBMFutureParameterField);
    ("CThostFtdcSPBMOptionParameterField", wrap_CThostFtdcSPBMOptionParameterField);
    ("CThostFtdcSPBMIntraParameterField", wrap_CThostFtdcSPBMIntraParameterField);
    ("CThostFtdcSPBMInterParameterField", wrap_CThostFtdcSPBMInterParameterField);
    ("CThostFtdcSyncSPBMParameterEndField", wrap_CThostFtdcSyncSPBMParameterEndField);
    ("CThostFtdcQrySPBMFutureParameterField", wrap_CThostFtdcQrySPBMFutureParameterField);
    ("CThostFtdcQrySPBMOptionParameterField", wrap_CThostFtdcQrySPBMOptionParameterField);
    ("CThostFtdcQrySPBMIntraParameterField", wrap_CThostFtdcQrySPBMIntraParameterField);
    ("CThostFtdcQrySPBMInterParameterField", wrap_CThostFtdcQrySPBMInterParameterField);
    ("CThostFtdcSPBMPortfDefinitionField", wrap_CThostFtdcSPBMPortfDefinitionField);
    ("CThostFtdcSPBMInvestorPortfDefField", wrap_CThostFtdcSPBMInvestorPortfDefField);
    ("CThostFtdcInvestorPortfMarginRatioField", wrap_CThostFtdcInvestorPortfMarginRatioField);
    ("CThostFtdcQrySPBMPortfDefinitionField", wrap_CThostFtdcQrySPBMPortfDefinitionField);
    ("CThostFtdcQrySPBMInvestorPortfDefField", wrap_CThostFtdcQrySPBMInvestorPortfDefField);
    ("CThostFtdcQryInvestorPortfMarginRatioField", wrap_CThostFtdcQryInvestorPortfMarginRatioField);
    ("CThostFtdcInvestorProdSPBMDetailField", wrap_CThostFtdcInvestorProdSPBMDetailField);
    ("CThostFtdcQryInvestorProdSPBMDetailField", wrap_CThostFtdcQryInvestorProdSPBMDetailField);
    ("CThostFtdcPortfTradeParamSettingField", wrap_CThostFtdcPortfTradeParamSettingField);
    ("CThostFtdcInvestorTradingRightField", wrap_CThostFtdcInvestorTradingRightField);
    ("CThostFtdcMortgageParamField", wrap_CThostFtdcMortgageParamField);
    ("CThostFtdcWithDrawParamField", wrap_CThostFtdcWithDrawParamField);
    ("CThostFtdcThostUserFunctionField", wrap_CThostFtdcThostUserFunctionField);
    ("CThostFtdcQryThostUserFunctionField", wrap_CThostFtdcQryThostUserFunctionField);
    ("CThostFtdcSPBMAddOnInterParameterField", wrap_CThostFtdcSPBMAddOnInterParameterField);
    ("CThostFtdcQrySPBMAddOnInterParameterField", wrap_CThostFtdcQrySPBMAddOnInterParameterField);
    ("CThostFtdcQryInvestorCommoditySPMMMarginField", wrap_CThostFtdcQryInvestorCommoditySPMMMarginField);
    ("CThostFtdcQryInvestorCommodityGroupSPMMMarginField", wrap_CThostFtdcQryInvestorCommodityGroupSPMMMarginField);
    ("CThostFtdcQrySPMMInstParamField", wrap_CThostFtdcQrySPMMInstParamField);
    ("CThostFtdcQrySPMMProductParamField", wrap_CThostFtdcQrySPMMProductParamField);
    ("CThostFtdcInvestorCommoditySPMMMarginField", wrap_CThostFtdcInvestorCommoditySPMMMarginField);
    ("CThostFtdcInvestorCommodityGroupSPMMMarginField", wrap_CThostFtdcInvestorCommodityGroupSPMMMarginField);
    ("CThostFtdcSPMMInstParamField", wrap_CThostFtdcSPMMInstParamField);
    ("CThostFtdcSPMMProductParamField", wrap_CThostFtdcSPMMProductParamField);
    ("CThostFtdcQryTraderAssignField", wrap_CThostFtdcQryTraderAssignField);
    ("CThostFtdcTraderAssignField", wrap_CThostFtdcTraderAssignField);
    ("CThostFtdcInvestorInfoCntSettingField", wrap_CThostFtdcInvestorInfoCntSettingField);
    ("CThostFtdcRCAMSCombProductInfoField", wrap_CThostFtdcRCAMSCombProductInfoField);
    ("CThostFtdcRCAMSInstrParameterField", wrap_CThostFtdcRCAMSInstrParameterField);
    ("CThostFtdcRCAMSIntraParameterField", wrap_CThostFtdcRCAMSIntraParameterField);
    ("CThostFtdcRCAMSInterParameterField", wrap_CThostFtdcRCAMSInterParameterField);
    ("CThostFtdcRCAMSShortOptAdjustParamField", wrap_CThostFtdcRCAMSShortOptAdjustParamField);
    ("CThostFtdcRCAMSInvestorCombPositionField", wrap_CThostFtdcRCAMSInvestorCombPositionField);
    ("CThostFtdcInvestorProdRCAMSMarginField", wrap_CThostFtdcInvestorProdRCAMSMarginField);
    ("CThostFtdcQryRCAMSCombProductInfoField", wrap_CThostFtdcQryRCAMSCombProductInfoField);
    ("CThostFtdcQryRCAMSInstrParameterField", wrap_CThostFtdcQryRCAMSInstrParameterField);
    ("CThostFtdcQryRCAMSIntraParameterField", wrap_CThostFtdcQryRCAMSIntraParameterField);
    ("CThostFtdcQryRCAMSInterParameterField", wrap_CThostFtdcQryRCAMSInterParameterField);
    ("CThostFtdcQryRCAMSShortOptAdjustParamField", wrap_CThostFtdcQryRCAMSShortOptAdjustParamField);
    ("CThostFtdcQryRCAMSInvestorCombPositionField", wrap_CThostFtdcQryRCAMSInvestorCombPositionField);
    ("CThostFtdcQryInvestorProdRCAMSMarginField", wrap_CThostFtdcQryInvestorProdRCAMSMarginField);
    ("CThostFtdcRULEInstrParameterField", wrap_CThostFtdcRULEInstrParameterField);
    ("CThostFtdcRULEIntraParameterField", wrap_CThostFtdcRULEIntraParameterField);
    ("CThostFtdcRULEInterParameterField", wrap_CThostFtdcRULEInterParameterField);
    ("CThostFtdcQryRULEInstrParameterField", wrap_CThostFtdcQryRULEInstrParameterField);
    ("CThostFtdcQryRULEIntraParameterField", wrap_CThostFtdcQryRULEIntraParameterField);
    ("CThostFtdcQryRULEInterParameterField", wrap_CThostFtdcQryRULEInterParameterField);
    ("CThostFtdcInvestorProdRULEMarginField", wrap_CThostFtdcInvestorProdRULEMarginField);
    ("CThostFtdcQryInvestorProdRULEMarginField", wrap_CThostFtdcQryInvestorProdRULEMarginField);
    ("CThostFtdcSyncDeltaSPBMPortfDefinitionField", wrap_CThostFtdcSyncDeltaSPBMPortfDefinitionField);
    ("CThostFtdcSyncDeltaSPBMInvstPortfDefField", wrap_CThostFtdcSyncDeltaSPBMInvstPortfDefField);
    ("CThostFtdcSyncDeltaSPBMFutureParameterField", wrap_CThostFtdcSyncDeltaSPBMFutureParameterField);
    ("CThostFtdcSyncDeltaSPBMOptionParameterField", wrap_CThostFtdcSyncDeltaSPBMOptionParameterField);
    ("CThostFtdcSyncDeltaSPBMIntraParameterField", wrap_CThostFtdcSyncDeltaSPBMIntraParameterField);
    ("CThostFtdcSyncDeltaSPBMInterParameterField", wrap_CThostFtdcSyncDeltaSPBMInterParameterField);
    ("CThostFtdcSyncDeltaSPBMAddOnInterParamField", wrap_CThostFtdcSyncDeltaSPBMAddOnInterParamField);
    ("CThostFtdcSyncDeltaSPMMInstParamField", wrap_CThostFtdcSyncDeltaSPMMInstParamField);
    ("CThostFtdcSyncDeltaSPMMProductParamField", wrap_CThostFtdcSyncDeltaSPMMProductParamField);
    ("CThostFtdcSyncDeltaInvestorSPMMModelField", wrap_CThostFtdcSyncDeltaInvestorSPMMModelField);
    ("CThostFtdcSyncDeltaSPMMModelParamField", wrap_CThostFtdcSyncDeltaSPMMModelParamField);
    ("CThostFtdcSyncDeltaRCAMSCombProdInfoField", wrap_CThostFtdcSyncDeltaRCAMSCombProdInfoField);
    ("CThostFtdcSyncDeltaRCAMSInstrParameterField", wrap_CThostFtdcSyncDeltaRCAMSInstrParameterField);
    ("CThostFtdcSyncDeltaRCAMSIntraParameterField", wrap_CThostFtdcSyncDeltaRCAMSIntraParameterField);
    ("CThostFtdcSyncDeltaRCAMSInterParameterField", wrap_CThostFtdcSyncDeltaRCAMSInterParameterField);
    ("CThostFtdcSyncDeltaRCAMSSOptAdjParamField", wrap_CThostFtdcSyncDeltaRCAMSSOptAdjParamField);
    ("CThostFtdcSyncDeltaRCAMSCombRuleDtlField", wrap_CThostFtdcSyncDeltaRCAMSCombRuleDtlField);
    ("CThostFtdcSyncDeltaRCAMSInvstCombPosField", wrap_CThostFtdcSyncDeltaRCAMSInvstCombPosField);
    ("CThostFtdcSyncDeltaRULEInstrParameterField", wrap_CThostFtdcSyncDeltaRULEInstrParameterField);
    ("CThostFtdcSyncDeltaRULEIntraParameterField", wrap_CThostFtdcSyncDeltaRULEIntraParameterField);
    ("CThostFtdcSyncDeltaRULEInterParameterField", wrap_CThostFtdcSyncDeltaRULEInterParameterField);
    ("CThostFtdcExitEmergencyField", wrap_CThostFtdcExitEmergencyField);
    ("CThostFtdcInvestorPortfMarginModelField", wrap_CThostFtdcInvestorPortfMarginModelField);
    ("CThostFtdcInvestorPortfSettingField", wrap_CThostFtdcInvestorPortfSettingField);
    ("CThostFtdcQryInvestorPortfSettingField", wrap_CThostFtdcQryInvestorPortfSettingField);
    ("CThostFtdcFrontInfoField", wrap_CThostFtdcFrontInfoField) ].

End Wraps3.
