(* ===== verification/CtpStructs.v ===== *)
(** * The structures of the ctp module and their wrappers

    All CTP structures and all accessor wrappers, and the agreement between
    the two: every accessor names a declared field, copies exactly its declared
    size, reads it as it is declared, and checks for the structure's own type. *)

From S2P Require Import Prelude CtpTypes Utf8 World Runtime Conversions Iconv Layout Accessor Structs1 Structs2 Structs3 Wraps1 Wraps2 Wraps3.

Module CtpStructs.
Import World Utf8 Runtime Iconv Layout Accessor.

Definition ctp_structs : list (string * struct) :=
  Structs1.structs ++ Structs2.structs ++ Structs3.structs.
Definition ctp_wrappers : list (string * wrapper) :=
  Wraps1.wrappers ++ Wraps2.wrappers ++ Wraps3.wrappers.

(** The rows the declaration asks for. *)
Definition rows_of (s : struct) : list (string * ctype * getter) :=
  map (fun p => (fst p, snd p, getter_of (snd p))) s.

Definition small (row : string * ctype * getter) : bool :=
  match row with (_, TChars n, _) => (0 <? Z.of_nat n) && (Z.of_nat n <=? 4096) | _ => true end.

Lemma names_agree : map fst ctp_structs = map fst ctp_wrappers.
Proof. reflexivity. Qed.

Lemma rows_agree : map (fun p => rows_of (snd p)) ctp_structs = map (fun p => wr_rows (snd p)) ctp_wrappers.
Proof. reflexivity. Qed.

Lemma types_agree :
  map (fun p => fst <$> CtpTypes.swigt !! wr_type (snd p)) ctp_wrappers
  = map (fun p => Some ("_p_" +:+ fst p)) ctp_wrappers.
Proof. vm_compute. reflexivity. Qed.

Lemma rows_small : forallb (fun p => forallb small (wr_rows (snd p))) ctp_wrappers = true.
Proof. vm_compute. reflexivity. Qed.

#[local] Opaque ctp_structs ctp_wrappers CtpTypes.swigt.

(** The structure a wrapper belongs to, and how the two agree. *)
Lemma wrapper_structure i name wr : ctp_wrappers !! i = Some (name, wr) ->
  exists s, ctp_structs !! i = Some (name, s) /\ wr_rows wr = rows_of s
    /\ (exists str, CtpTypes.swigt !! wr_type wr = Some ("_p_" +:+ name, str))
    /\ Forall (fun row => small row = true) (wr_rows wr).
Proof.
  intros Hw.
  assert (Hn : map fst ctp_structs !! i = Some name) by (rewrite names_agree, list_lookup_fmap, Hw; done).
  rewrite list_lookup_fmap in Hn. destruct (ctp_structs !! i) as [[n s]|] eqn:Es; [|done].
  simpl in Hn. injection Hn as ->. exists s. split; [done|].
  assert (Hr : map (fun p => rows_of (snd p)) ctp_structs !! i = Some (rows_of s))
    by (rewrite list_lookup_fmap, Es; done).
  rewrite rows_agree, list_lookup_fmap, Hw in Hr. simpl in Hr. split; [congruence|].
  assert (Ht : map (fun p => Some ("_p_" +:+ fst p)) ctp_wrappers !! i = Some (Some ("_p_" +:+ name)))
    by (rewrite list_lookup_fmap, Hw; done).
  rewrite <- types_agree, list_lookup_fmap, Hw in Ht. simpl in Ht. injection Ht as Ht.
  split.
  - destruct (CtpTypes.swigt !! wr_type wr) as [[nm str]|]; [|done]. simpl in Ht. injection Ht as ->. eauto.
  - pose proof rows_small as Hs. rewrite forallb_forall in Hs.
    specialize (Hs (name, wr)). rewrite <- list_elem_of_In in Hs.
    specialize (Hs (list_elem_of_lookup_2 _ _ _ Hw)). rewrite forallb_forall in Hs.
    apply Forall_forall. intros row Hrow. apply Hs. by apply list_elem_of_In.
Qed.

(** Row [j] of a wrapper is the [j]-th declared field. *)
Lemma row_is_field i name wr n s j f k g f' k' o : ctp_wrappers !! i = Some (name, wr) ->
  ctp_structs !! i = Some (n, s) -> wr_rows wr !! j = Some (f, k, g) -> fields s !! j = Some (f', k', o) ->
  f' = f /\ k' = k /\ g = getter_of k /\ (wr_type wr < length CtpTypes.swigt)%nat.
Proof.
  intros Hw Hs Hr Hf. destruct (wrapper_structure i name wr Hw) as (s' & Hs' & Hrows & (str & Ht) & _).
  assert (s' = s) as -> by congruence. destruct (layout_sound s j f' k' o Hf) as (Hsj & _).
  rewrite Hrows in Hr. unfold rows_of in Hr. rewrite list_lookup_fmap, Hsj in Hr. cbn in Hr.
  injection Hr as <- <- <-. do 3 (split; [done|]). by eapply lookup_lt_Some.
Qed.

(** The array of a text field is not empty. *)
Lemma row_sized i name wr j f k g : ctp_wrappers !! i = Some (name, wr) -> wr_rows wr !! j = Some (f, k, g) -> sized k.
Proof.
  intros Hw Hr. destruct (wrapper_structure i name wr Hw) as (_ & _ & _ & _ & Hsm).
  pose proof (proj1 (Forall_lookup _ _) Hsm j _ Hr) as Hk. destruct k; try done. cbn in Hk. zbool. cbn. lia.
Qed.

(** ** Properties *)

(** C27. Accessors match the declarations: the [i]-th wrapper belongs to the
    [i]-th structure of the header; its accessors are one pair per declared
    field, in order, each with the conversion of the field's declared type, so
    that a text setter copies exactly the declared number of bytes (at most
    4096); and it accepts only pointers whose type is the descriptor of that
    structure. *)
Theorem wrappers_match i name wr : ctp_wrappers !! i = Some (name, wr) ->
  exists s, ctp_structs !! i = Some (name, s) /\ wr_rows wr = rows_of s
    /\ (exists str, CtpTypes.swigt !! wr_type wr = Some ("_p_" +:+ name, str))
    /\ Forall (fun row => small row = true) (wr_rows wr).
Proof. apply wrapper_structure. Qed.

(** C9. Every field of every structure: take any structure of the module in
    mapped memory, any of its accessor rows, and any number, boolean or text with
    a UTF-8 form that the conversion of the setter accepts, and let a text
    converter be available and no error be set.  The accessors are those of the field declared at that
    place; the setter succeeds and the field then holds exactly the converted
    bytes; the getter gives the value of these bytes whenever they have one.
    For an int, a float, an ASCII character and ASCII text that fits with its
    terminator ([encodes]) that is the value assigned.  Other text is stored in
    UTF-8 and read as GBK: when it has no NUL and fits with its terminator, the
    getter gives the conversion of its UTF-8 bytes where that succeeds, so it
    need not read back as it was.  No byte outside the field changes, and
    in particular every other field of the structure, wherever the layout puts
    it, keeps its bytes; and the only reference taken is the one on the [None]
    that is returned. *)
Theorem ctp_fields_roundtrip `{!IconvEnv, !IconvLaws _} addr client long_w implicit warn
    w args obj0 obj1 meth meth' tname i name wr n s j f k g f' k' o p v b :
  let E := ctp_types addr client in
  32 <= long_w -> iconv_open_result <> -1 -> w_gil w = true -> w_err w = None -> args <> 0 ->
  ctp_wrappers !! i = Some (name, wr) -> ctp_structs !! i = Some (n, s) ->
  wr_rows wr !! j = Some (f, k, g) -> fields s !! j = Some (f', k', o) ->
  w_heap w !! args = Some (OTuple [obj0; obj1]) -> wraps_ptr w obj0 (wr_type wr) p -> 0 < p ->
  mapped w p (Z.to_nat (struct_size s)) -> w_heap w !! obj1 = Some v -> obj1 <> 0 -> obj1 <> Py_None ->
  plain v -> value_spec k' v = (SWIG_OK, Some b) ->
  f' = f /\ k' = k /\
  exists w1, wrap_set (H := E) long_w implicit meth name tname (wr_type wr) k o args w = (Ret Py_None, w1)
    /\ let get := wrap_get (H := E) implicit warn meth' name f (wr_type wr) g o obj0 in
       holds w1 (p + o) b /\ Z.of_nat (length b) = sizeof k
    /\ (forall v', field_value k b = Some v' -> gives get w1 v')
    /\ (encodes k v b -> gives get w1 v)
    /\ (forall m cps u out, k = TChars m -> v = OStr cps -> utf8_encode cps = Some u -> cps <> [] ->
          Forall (fun c => c <> 0) cps -> (length u < m)%nat -> iconv_run u buf_size = Converted out ->
          gives get w1 (OStr (utf8_decode out)))
    /\ (forall a, ~ (p + o <= a < p + o + sizeof k) -> w_mem w1 !! a = w_mem w !! a)
    /\ (forall j' h u q, fields s !! j' = Some (h, u, q) -> j <> j' ->
          forall a, p + q <= a < p + q + sizeof u -> w_mem w1 !! a = w_mem w !! a)
    /\ (forall x, refs w1 x = refs w x + if decide (Py_None = x) then 1 else 0).
Proof.
  intros E Hl Ho Hg He Ha Hw Hs Hr Hf Ht Hp Hp0 Hm Hv Hz1 Hn1 Hpl Hspec.
  destruct (row_is_field i name wr n s j f k g f' k' o Hw Hs Hr Hf) as (-> & -> & -> & Hty).
  split; [done|]. split; [done|]. pose proof (row_sized i name wr j f k _ Hw Hr) as Hk.
  destruct (layout_sound s j f k o Hf) as (_ & Ho0 & Hend & _ & Hdisj).
  assert (Hb : Z.of_nat (length b) = sizeof k).
  { destruct (value_spec_cases k v Hk) as [(b' & Eb & Hb)|(code & Eb & _)]; rewrite Hspec in Eb; [|done].
    by injection Eb as ->. }
  destruct (wrap_set_stores (H := E) long_w implicit w args obj0 obj1 meth name tname (wr_type wr) k o p b)
    as (w1 & E1 & Hmem & Hheap & Hg1 & He1 & _ & Hrefs); try done; [lia| | |].
  { intros w1 S. rewrite <- Hspec. apply (convert_spec long_w Hl implicit w1 obj1 k v);
      rewrite ?(same_gil _ _ S), ?(same_err _ _ S), ?(same_heap _ _ S); done. }
  { intros m Hlt. replace (p + o + Z.of_nat m) with (p + Z.of_nat (Z.to_nat (o + Z.of_nat m))) by lia.
    apply Hm. lia. }
  assert (Hh : holds w1 (p + o) b) by (intros m c Hc; rewrite Hmem; by apply (holds_store w)).
  assert (Hget : forall v', field_value k b = Some v' ->
    gives (wrap_get (H := E) implicit warn meth' name f (wr_type wr) (getter_of k) o obj0) w1 v').
  { intros v' Hv'. eapply (wrap_get_value (H := E) _ _ w1 obj0 meth' name f (wr_type wr) k o p v' b); try done; [|lia].
    unfold wraps_ptr. rewrite Hheap. exact Hp. }
  exists w1. split; [done|]. cbv zeta. do 3 (split; [done|]). split; [intros Henc; by apply Hget, encodes_value|]. split.
  { intros m cps u out -> -> Hu Hne Hnn Hlu Hi. apply Hget.
    destruct (text_read_as_gbk cps u m Hu Hne Hnn Hlu) as (arr & Ea & Hfv). rewrite Hspec in Ea. injection Ea as <-.
    by rewrite Hfv, Hi. }
  split; [intros a Hout; by rewrite Hmem, store_bytes_lookup, decide_False by lia|]. split; [|done].
  intros j' h u q Hj' Hne a Hin. destruct (Hdisj j' h u q Hj' Hne); rewrite Hmem, store_bytes_lookup, decide_False by lia; done.
Qed.

#[local] Transparent ctp_structs ctp_wrappers CtpTypes.swigt.

Lemma wrappers_match_witness :
  exists s, ctp_structs !! 1%nat = Some ("CThostFtdcReqUserLoginField"%string, s)
    /\ wr_rows Wraps1.wrap_CThostFtdcReqUserLoginField = rows_of s.
Proof.
  destruct (wrappers_match 1 "CThostFtdcReqUserLoginField" Wraps1.wrap_CThostFtdcReqUserLoginField eq_refl)
    as (s & H1 & H2 & _). exists s. split; [exact H1|exact H2].
Defined.

(** A login structure at 4096 and a user name for it. *)
Definition sample_login : world :=
  mk_world {[100 := OSwig (mk_swigobj 4096 (Some 338%nat) 1 None); 102 := OStr (chars "080095"); 103 := OTuple [100; 102]]}
    ∅ 200 None true (store_bytes ∅ 4096 (replicate 400 7)) {[4096 := 400%nat]} 8192 ∅ (-1) [].

Lemma ctp_fields_roundtrip_witness :
  exists w1, wrap_set (H := ctp_types (fun _ => 0) (fun _ => true)) 64 (fun _ => None)
      "CThostFtdcReqUserLoginField_UserID_set" "CThostFtdcReqUserLoginField" "char [16]" 338 (TChars 16) 20 103
      sample_login = (Ret Py_None, w1)
    /\ gives (wrap_get (H := ctp_types (fun _ => 0) (fun _ => true)) (H0 := sample_identity) (fun _ => None)
                (fun _ => ret 0) "CThostFtdcReqUserLoginField_UserID_get" "CThostFtdcReqUserLoginField" "UserID"
                338 GString 20 100) w1 (OStr (chars "080095")).
Proof.
  destruct (ctp_fields_roundtrip (H := sample_identity) (IconvLaws0 := sample_identity_laws) (fun _ => 0) (fun _ => true)
    64 (fun _ => None) (fun _ => ret 0) sample_login 103 100 102 "CThostFtdcReqUserLoginField_UserID_set"
    "CThostFtdcReqUserLoginField_UserID_get" "char [16]" 1 "CThostFtdcReqUserLoginField"
    Wraps1.wrap_CThostFtdcReqUserLoginField "CThostFtdcReqUserLoginField" Structs1.CThostFtdcReqUserLoginField
    2 "UserID" (TChars 16) GString "UserID" (TChars 16) 20 4096 (OStr (chars "080095"))
    (chars "080095" ++ replicate 10 0)) as (_ & _ & w1 & E & _ & _ & _ & G & _).
  - discriminate.
  - discriminate.
  - reflexivity.
  - reflexivity.
  - discriminate.
  - reflexivity.
  - reflexivity.
  - reflexivity.
  - reflexivity.
  - reflexivity.
  - split; [discriminate|]. split; [discriminate|]. eexists 100, _.
    split; [reflexivity|]. do 3 (split; [reflexivity|]). left. reflexivity.
  - reflexivity.
  - intros m Hm. cbn [w_mem sample_login]. rewrite store_bytes_lookup, length_replicate.
    change (Z.to_nat (struct_size Structs1.CThostFtdcReqUserLoginField)) with 264%nat in Hm.
    rewrite decide_True by lia. exists 7. rewrite lookup_replicate. split; [reflexivity|lia].
  - reflexivity.
  - discriminate.
  - discriminate.
  - eexists. reflexivity.
  - reflexivity.
  - exists w1. split; [exact E|]. apply G. apply (enc_text (chars "080095") 16).
    + repeat constructor; discriminate.
    + repeat constructor; discriminate.
    + split; [apply Nat.ltb_lt; reflexivity|apply Nat.leb_le; reflexivity].
Defined.

End CtpStructs.
