(* ===== verification/Director.v ===== *)
(** * Directors: C++ callbacks that run Python methods

    Models, from ctp_wrap.cpp and ctp_wrap.h, the class [Swig::Director], the
    exception classes, [SwigVar_PyObject], and the template of the callback
    methods [SwigDirector_*::On*] with the error handling of the feature
    director:except: an exception of the Python method is passed to its method
    [pyError]; the system exceptions, and a failure of [pyError] itself, leave
    the callback as a C++ exception.  ctp_wrap.cpp defines
    SWIG_PYTHON_DIRECTOR_NO_VTABLE, so a callback looks its method up by name at
    each call.  The interpreter is a parameter, [PyEnv], with its documented
    contract [PyLaws]. *)

From S2P Require Import Prelude TypeTable World Runtime Conversions.

Module Director.
Import World Runtime Conversions.

(** The interpreter: the result of a call, a new reference or 0, and the world it leaves. *)
Class PyEnv := py_run : pycall -> world -> Z * world.

(** The contract of a call made with the lock and with no error set: it
    returns with the lock, with a result or with an error set, and native code
    owns the same references as before, plus the result. *)
Record returned (w : world) (r : Z) (w' : world) : Prop := {
  ret_gil : w_gil w' = true;
  ret_err : if r =? 0 then exists e, w_err w' = Some e /\ e_type e <> 0 else w_err w' = None;
  ret_refs : forall x, refs w' x = refs w x + if decide (r <> 0 /\ r = x) then 1 else 0;
  ret_fresh : fresh_ok w';
  ret_dirs : w_dirs w' = w_dirs w;      (** the director outlives its callback *)
  ret_calls : w_calls w' = w_calls w;   (** the calls of the frame; its callees have their own *)
}.

Class PyLaws (E : PyEnv) : Prop :=
  py_returns : forall c w r w', w_gil w = true -> w_err w = None -> fresh_ok w ->
    py_run c w = (r, w') -> returned w r w'.

(** ** Exceptions *)

(** The constructor of [DirectorException]: the message, and the Python error
    unless one is already set. *)
Definition raise_director {A} (exn : list Z -> cxx) (error : ekind) (hdr msg : list Z) : M A :=
  let swig_msg := match msg with [] => hdr | _ => hdr ++ 32 :: msg end in
  thread_block (e <- PyErr_Occurred ;;
                match e with None => PyErr_SetString error swig_msg | Some _ => ret tt end) ;;;
  throw (exn swig_msg).

(** [DirectorException::raise(msg)] and [throw DirectorMethodException(msg)]. *)
Definition DirectorException_raise {A} (msg : list Z) : M A :=
  raise_director DirectorException RuntimeError msg [].
Definition DirectorMethodException_raise {A} (msg : list Z) : M A :=
  raise_director DirectorMethodException RuntimeError (chars "SWIG director method error.") msg.

(** ** References held by a scope *)

(** [SwigVar_PyObject o = m;]: the destructor releases it. *)
Definition swigvar {A} (m : M Z) (k : Z -> M A) : M A :=
  o <- m ;; finally (k o) (thread_block (Py_XDECREF o)).

(** ** The class Director *)

Definition director_at (this : Z) : M director :=
  d <- gets w_dirs ;; match d !! this with Some d => ret d | None => stuck Unmapped end.

Definition set_director (this : Z) (d : director) : M unit :=
  modify (fun w => set_dirs (<[this := d]> (w_dirs w)) w).

(** The constructor [Director(self)]. *)
Definition Director_new (this self : Z) : M unit := set_director this (mk_director self false).

Definition swig_get_self (this : Z) : M Z := d <- director_at this ;; ret (d_self d).

Definition swig_incref (this : Z) : M unit :=
  d <- director_at this ;; if d_disown d then Py_INCREF (d_self d) else ret tt.

Definition swig_decref (this : Z) : M unit :=
  d <- director_at this ;; if d_disown d then thread_block (Py_DECREF (d_self d)) else ret tt.

Definition swig_disown (this : Z) : M unit :=
  d <- director_at this ;;
  if d_disown d then ret tt
  else set_director this (mk_director (d_self d) true) ;;; swig_incref this.

(** The destructor [~Director]. *)
Definition Director_delete (this : Z) : M unit :=
  swig_decref this ;;; modify (fun w => set_dirs (delete this (w_dirs w)) w).

(** ** Callbacks *)

(** An argument of a callback: a pointer to a structure with its type, an
    [int], or a [bool]. *)
Inductive darg := APtr (p : Z) (ty : nat) | AInt (z : Z) | ABool (b : bool).

Section Callback.
Context `{TypeEnv} `{PyEnv}.

Definition run (c : pycall) : M Z :=
  need_gil ;;; modify (log (EPy c)) ;;; fun w => let (r, w') := py_run c w in (Ret r, w').

Definition conv_arg (a : darg) : M Z :=
  match a with
  | APtr p ty => SWIG_Python_NewPointerObj p (Some ty) 0
  | AInt z => SWIG_From_int z
  | ABool b => SWIG_From_bool b
  end.

(** [obj0], [obj1], ...: converted in order, released in reverse. *)
Fixpoint with_args (l : list darg) (objs : list Z) (k : list Z -> M unit) : M unit :=
  match l with
  | [] => k objs
  | a :: l' => swigvar (conv_arg a) (fun o => with_args l' (objs ++ [o]) k)
  end.

(** A call of the method [name] of the Python object, between the temporaries
    for the name and for the result; [k] runs while both are held. *)
Definition named_call (this : Z) (name : string) (args : list Z) (k : Z -> M unit) : M unit :=
  swigvar (new_object (OStr (chars name))) (fun _ =>
    self <- swig_get_self this ;; swigvar (run (CallMethod self (chars name) args)) k).

(** [PyErr_NormalizeException]: an instance is made for a null value. *)
Definition PyErr_NormalizeException (value : Z) : M Z :=
  if value =? 0 then new_object OOther else ret value.

(** [PyErr_Print] reports the error and clears it; on SystemExit the process ends. *)
Definition PyErr_Print : M unit :=
  error <- PyErr_Occurred ;;
  match error with
  | Some e => if bool_decide (e_kind e = SystemExit) then stuck Exited else PyErr_Clear
  | None => ret tt
  end.

Definition is_system (k : ekind) : bool :=
  bool_decide (k = SystemExit) || bool_decide (k = SystemError) || bool_decide (k = KeyboardInterrupt).

(** The block [if (!result)]. *)
Definition handle_error (this : Z) : M unit :=
  error <- PyErr_Occurred ;;
  match error with
  | None => ret tt
  | Some e =>
      if is_system (e_kind e) then DirectorMethodException_raise []
      else
        f <- PyErr_Fetch ;;
        let '(etype, value, traceback) := f in
        value <- PyErr_NormalizeException value ;;
        let value := if value =? 0 then Py_None else value in
        let traceback := if traceback =? 0 then Py_None else traceback in
        named_call this "pyError" [etype; value; traceback] (fun _ => ret tt) ;;;
        Py_XDECREF etype ;;; Py_XDECREF value ;;; Py_XDECREF traceback ;;;
        error <- PyErr_Occurred ;;
        match error with
        | None => ret tt
        | Some _ => PyErr_Print ;;; DirectorMethodException_raise []
        end
  end.

Definition self_uninitialized (cls : string) : list Z :=
  str_cat ["'self' uninitialized, maybe you forgot to call "; cls; ".__init__."]%string.

(** The body of a callback, after its arguments are converted. *)
Definition callback_body (cls name : string) (this : Z) (objs : list Z) : M unit :=
  self <- swig_get_self this ;;
  (if self =? 0 then DirectorException_raise (self_uninitialized cls) else ret tt) ;;;
  named_call this name objs (fun result => if result =? 0 then handle_error this else ret tt).

(** The template of [SwigDirector_cls::name(args)]. *)
Definition director_method (cls name : string) (this : Z) (args : list darg) : M unit :=
  thread_block (with_args args [] (callback_body cls name this)).
End Callback.

(** ** Lemmas *)

Definition not_stuck {A} (r : res A) : Prop := match r with Stuck _ => False | _ => True end.
Lemma set_gil_id w g : w_gil w = g -> set_gil g w = w.
Proof. intros <-. by destruct w. Qed.

Lemma thread_block_held {A} (m : M A) w r w' : w_gil w = true -> m w = (r, w') -> not_stuck r ->
  w_gil w' = true -> thread_block m w = (r, w').
Proof.
  intros Hg E Hr Hg'. rewrite thread_block_eq, (set_gil_id w true Hg), E.
  destruct r; [| |done]; rewrite Hg', set_gil_id by congruence; done.
Qed.

Lemma released_fresh l w w' : released l w w' -> fresh_ok w -> fresh_ok w'.
Proof. intros Hr. unfold fresh_ok. by rewrite (rel_heap _ _ _ Hr), (rel_fresh _ _ _ Hr). Qed.

Lemma swigvar_run {A} (m : M Z) (k : Z -> M A) w o w1 r w2 :
  m w = (Ret o, w1) -> k o w1 = (r, w2) -> w_gil w2 = true -> not_stuck r ->
  exists w3, swigvar m k w = (r, w3) /\ released (one o) w2 w3.
Proof.
  intros Em Ek Hg Hr. unfold swigvar. rewrite (bind_eq _ _ _ _ _ Em). unfold finally. rewrite Ek.
  destruct (xdecref_released o w2 Hg) as (w3 & E & Hrel). exists w3.
  assert (Eb : thread_block (Py_XDECREF o) w2 = (Ret tt, w3)).
  { apply thread_block_held; try done. by rewrite (rel_gil _ _ _ Hrel). }
  destruct r; [| |done]; rewrite (bind_eq _ _ _ _ _ Eb); done.
Qed.

Section CallbackLemmas.
Context `{!TypeEnv, !PyEnv, !PyLaws _}.

Lemma run_eq c w r w' : w_gil w = true -> py_run c (log (EPy c) w) = (r, w') -> run c w = (Ret r, w').
Proof.
  intros Hg E. unfold run. rewrite (bind_eq _ _ _ _ _ (need_gil_eq w Hg)). unfold bind, modify. by rewrite E.
Qed.

(** What the Python method is given for an argument. *)
Definition arg_object (w : world) (a : darg) (o : Z) : Prop :=
  match a with
  | APtr p ty => if p =? 0 then o = Py_None
                 else o <> 0 /\ o <> Py_None
                   /\ exists t, w_heap w !! t = Some (OSwig (mk_swigobj p (Some ty) 0 None))
                                /\ (o = t \/ w_heap w !! o = Some (OInst (Some t)) /\ t <> 0)
  | AInt z => w_heap w !! o = Some (OInt z)
  | ABool b => o = if b then Py_True else Py_False
  end.

Record built (w : world) (args : list darg) (objs : list Z) (w' : world) : Prop := {
  bt_gil : w_gil w' = true;
  bt_fresh : fresh_ok w';
  bt_err : w_err w' = w_err w;
  bt_dirs : w_dirs w' = w_dirs w;
  bt_mem : w_mem w' = w_mem w;
  bt_refs : forall x, refs w' x = refs w x + cnt objs x;
  bt_nonzero : Forall (fun o => o <> 0) objs;
  bt_mono : forall x v, w_heap w !! x = Some v -> w_heap w' !! x = Some v;
  bt_objs : Forall2 (arg_object w') args objs;
  bt_calls : w_calls w' = w_calls w;
}.

Lemma arg_object_mono w w' a o : (forall x v, w_heap w !! x = Some v -> w_heap w' !! x = Some v) ->
  arg_object w a o -> arg_object w' a o.
Proof.
  intros Hm. destruct a as [p ty|z|b]; simpl; auto. case_if; [done|].
  intros (Hz & Hn & t & Ht & [->|[Ho Htz]]); do 2 (split; [done|]); exists t; split; auto.
Qed.

Lemma conv_arg_built a w : w_gil w = true -> fresh_ok w ->
  exists o w', conv_arg a w = (Ret o, w') /\ built w [a] [o] w'.
Proof.
  intros Hg Hf. destruct a as [p ty|z|b]; cbn [conv_arg].
  - destruct (decide (p = 0)) as [->|Hp].
    + exists Py_None. eexists. split; [by apply py_void_eq|].
      split; try done; [|by constructor|by constructor].
      intros x. rewrite refs_add, cnt_single. done.
    + destruct (new_pointer_obj_spec w p ty 0 Hg Hf Hp)
        as (obj & o & w' & E & Hg' & Hf' & Hff & Ho & Hres & He & Hm & [Hd Hc] & Hold & _ & Hr).
      exists obj, w'. split; [done|]. split; try done.
      * intros x. rewrite Hr, cnt_single. change (capsule_ref _ x) with 0. lia.
      * constructor; [|constructor]. unfold first_free in Hff. lia.
      * intros x v Hx. rewrite Hold; [done|]. destruct (decide (x < w_fresh w)); [done|].
        rewrite (proj2 Hf) in Hx by lia. done.
      * constructor; [|constructor]. simpl. rewrite (proj2 (Z.eqb_neq _ _) Hp).
        unfold first_free, Py_None in *. split; [lia|]. split; [lia|]. exists o.
        split; [exact Ho|]. destruct Hres as (s & _ & [->|[Hi Ho0]]); auto.
  - destruct (new_object_run (OInt z) w Hg Hf) as (w' & E & H1 & H2 & H3 & H4 & H5 & H6 & H7 & H8 & H9 & H10).
    exists (w_fresh w), w'. split; [done|]. split; try done.
    + intros x. by rewrite H10, one_nonzero.
    + by constructor.
    + by constructor; [|constructor].
  - unfold SWIG_From_bool, PyBool_FromLong. destruct b; simpl;
      rewrite (bind_eq _ _ _ _ _ (incref_eq w Hg _)); (eexists _, _; split; [reflexivity|]);
      (split; try done; [|by constructor|by constructor]); intros x; rewrite refs_add, cnt_single; done.
Qed.

Lemma built_app w l objs w1 a o w2 : built w l objs w1 -> built w1 [a] [o] w2 ->
  built w (l ++ [a]) (objs ++ [o]) w2.
Proof.
  intros [A1 A2 A3 A4 A5 A6 A7 A8 A9 A10] [B1 B2 B3 B4 B5 B6 B7 B8 B9 B10]. split; try congruence; try done.
  - intros x. rewrite B6, A6, cnt_app. lia.
  - by apply Forall_app.
  - auto.
  - apply Forall2_app; [|done]. eapply Forall2_impl; [exact A9|]. intros. by eapply arg_object_mono.
Qed.

(** The arguments built so far, and those still to be built. *)
Lemma with_args_run l : forall w0 done_ objs0 w k, built w0 done_ objs0 w ->
  exists objs w1, built w0 (done_ ++ l) (objs0 ++ objs) w1
    /\ forall r w2, k (objs0 ++ objs) w1 = (r, w2) -> w_gil w2 = true -> not_stuck r ->
       exists w3, with_args l objs0 k w = (r, w3) /\ released (rev objs) w2 w3.
Proof.
  induction l as [|a l IH]; intros w0 done_ objs0 w k Hb.
  { exists [], w. rewrite !app_nil_r. split; [done|]. intros r w2 E Hg Hr.
    exists w2. split; [done|apply released_nil]. }
  destruct (conv_arg_built a w (bt_gil _ _ _ _ Hb) (bt_fresh _ _ _ _ Hb)) as (o & w' & E & Hb').
  destruct (IH w0 (done_ ++ [a]) (objs0 ++ [o]) w' k) as (objs & w1 & Hb1 & Hrun).
  { by eapply built_app. }
  exists (o :: objs), w1. rewrite <- !app_assoc in *. split; [exact Hb1|].
  intros r w2 Ek Hg Hr. destruct (Hrun r w2 Ek Hg Hr) as (w3 & E3 & Hrel).
  destruct (swigvar_run (conv_arg a) (fun o => with_args l (objs0 ++ [o]) k) w o w' r w3) as (w4 & E4 & Hrel4);
    try done.
  { by rewrite (rel_gil _ _ _ Hrel). }
  exists w4. split; [done|]. simpl. eapply released_trans; [exact Hrel|].
  unfold one in Hrel4. destruct (o =? 0) eqn:Eo; zbool; [|done].
  pose proof (bt_nonzero _ _ _ _ Hb') as Hnz. by inversion Hnz.
Qed.

(** *** Raising *)

Lemma raise_director_eq {A} exn k hdr msg w : w_gil w = true ->
  let swig_msg := match msg with [] => hdr | _ => hdr ++ 32 :: msg end in
  raise_director (A := A) exn k hdr msg w
  = (Throw (exn swig_msg), match w_err w with Some _ => w | None => set_err (Some (err_of k swig_msg)) w end).
Proof.
  intros Hg swig_msg. unfold raise_director. fold swig_msg.
  assert (E : thread_block (e <- PyErr_Occurred ;;
      match e with None => PyErr_SetString k swig_msg | Some _ => ret tt end) w
    = (Ret tt, match w_err w with Some _ => w | None => set_err (Some (err_of k swig_msg)) w end)).
  { apply thread_block_held; try done; [|by destruct (w_err w)].
    rewrite (bind_eq _ _ _ _ _ (occurred_eq w Hg)). destruct (w_err w); [done|].
    by apply set_string_eq. }
  by rewrite (bind_eq _ _ _ _ _ E).
Qed.

(** *** The error handler *)

Lemma director_at_eq w this d : w_dirs w !! this = Some d -> director_at this w = (Ret d, w).
Proof. intros Hd. unfold director_at, bind, gets. by rewrite Hd. Qed.

Lemma get_self_eq w this d : w_dirs w !! this = Some d -> swig_get_self this w = (Ret (d_self d), w).
Proof. intros Hd. unfold swig_get_self. by rewrite (bind_eq _ _ _ _ _ (director_at_eq w this d Hd)). Qed.

Lemma own_same o w : w_heap (own o w) = w_heap w /\ w_fresh (own o w) = w_fresh w
  /\ w_err (own o w) = w_err w /\ w_gil (own o w) = w_gil w /\ w_dirs (own o w) = w_dirs w
  /\ w_calls (own o w) = w_calls w.
Proof. unfold own. by case_if. Qed.

(** After [PyErr_Fetch]: the indicator is clear and the three references are owned. *)
Lemma fetch_run w e : w_gil w = true -> w_err w = Some e -> fresh_ok w ->
  exists w1, PyErr_Fetch w = (Ret (e_type e, e_value e, e_tb e), w1)
    /\ w_gil w1 = true /\ w_err w1 = None /\ fresh_ok w1 /\ w_dirs w1 = w_dirs w /\ w_calls w1 = w_calls w
    /\ (forall x, refs w1 x = refs w x + cnt (one (e_type e)) x + cnt (one (e_value e)) x + cnt (one (e_tb e)) x).
Proof.
  intros Hg He Hf. unfold PyErr_Fetch. rewrite (bind_eq _ _ _ _ _ (need_gil_eq w Hg)), He.
  eexists. split; [reflexivity|]. set (w0 := set_err None w).
  destruct (own_same (e_type e) w0) as (A1 & A2 & A3 & A4 & A5 & A6).
  destruct (own_same (e_value e) (own (e_type e) w0)) as (B1 & B2 & B3 & B4 & B5 & B6).
  destruct (own_same (e_tb e) (own (e_value e) (own (e_type e) w0))) as (C1 & C2 & C3 & C4 & C5 & C6).
  split; [by rewrite C4, B4, A4|]. split; [by rewrite C3, B3, A3|].
  split; [unfold fresh_ok; rewrite C1, C2, B1, B2, A1, A2; exact Hf|].
  split; [by rewrite C5, B5, A5|]. split; [by rewrite C6, B6, A6|].
  intros x. rewrite !own_refs. change (refs w0 x) with (refs w x). lia.
Qed.

Lemma normalize_run w value : w_gil w = true -> fresh_ok w ->
  exists v w1, PyErr_NormalizeException value w = (Ret v, w1) /\ v <> 0
    /\ w_gil w1 = true /\ w_err w1 = w_err w /\ fresh_ok w1 /\ w_dirs w1 = w_dirs w /\ w_calls w1 = w_calls w
    /\ (value <> 0 -> v = value)
    /\ (forall x, refs w1 x + cnt (one value) x = refs w x + cnt [v] x).
Proof.
  intros Hg Hf. unfold PyErr_NormalizeException, one. destruct (value =? 0) eqn:E; zbool.
  - destruct (new_object_run OOther w Hg Hf) as (w1 & En & H1 & H2 & H3 & H4 & _ & H6 & H7 & _ & _ & H10).
    exists (w_fresh w), w1. do 5 (split; [done|]). split; [done|]. split; [done|]. split; [done|].
    intros x. rewrite H10, one_nonzero, cnt_nil by done. lia.
  - exists value, w. by do 8 (split; [done|]).
Qed.

(** Dropping one's own references in a row. *)
Lemma xdecref3 a b c (k : M unit) w : w_gil w = true ->
  exists w1, (Py_XDECREF a ;;; Py_XDECREF b ;;; Py_XDECREF c ;;; k) w = k w1
             /\ released (one a ++ one b ++ one c) w w1.
Proof.
  intros Hg. destruct (xdecref_released a w Hg) as (w1 & E1 & R1).
  destruct (xdecref_released b w1) as (w2 & E2 & R2); [by rewrite (rel_gil _ _ _ R1)|].
  destruct (xdecref_released c w2) as (w3 & E3 & R3); [by rewrite (rel_gil _ _ _ R2), (rel_gil _ _ _ R1)|].
  exists w3. rewrite (bind_eq _ _ _ _ _ E1), (bind_eq _ _ _ _ _ E2), (bind_eq _ _ _ _ _ E3).
  split; [done|]. eapply released_trans; [exact R1|]. by eapply released_trans.
Qed.


Lemma handle_error_system w this e : w_gil w = true -> w_err w = Some e -> is_system (e_kind e) = true ->
  handle_error this w = (Throw (DirectorMethodException (chars "SWIG director method error.")), w).
Proof.
  intros Hg He Hs. unfold handle_error. rewrite (bind_eq _ _ _ _ _ (occurred_eq w Hg)), He, Hs.
  unfold DirectorMethodException_raise. rewrite raise_director_eq by done. by rewrite He.
Qed.

(** A call by name: what is called, in which world, and what is left afterwards. *)
Lemma named_call_run w this d name args (k : Z -> M unit) : w_gil w = true -> w_err w = None -> fresh_ok w ->
  w_dirs w !! this = Some d ->
  let c := CallMethod (d_self d) (chars name) args in
  exists wc, w_gil wc = true /\ w_err wc = None /\ fresh_ok wc /\ w_dirs wc = w_dirs w
    /\ w_calls wc = w_calls w ++ [EPy c] /\ w_mem wc = w_mem w
    /\ (forall x v, w_heap w !! x = Some v -> w_heap wc !! x = Some v)
    /\ forall q wq, py_run c wc = (q, wq) ->
       forall r wr, k q wq = (r, wr) -> w_gil wr = true -> not_stuck r ->
       exists w', named_call this name args k w = (r, w')
         /\ w_gil w' = true /\ (fresh_ok wr -> fresh_ok w') /\ w_dirs w' = w_dirs wr /\ w_err w' = w_err wr
         /\ w_calls w' = w_calls wr /\ (forall x, refs w' x = refs w x + (refs wr x - refs wq x)).
Proof.
  intros Hg He Hf Hd c.
  destruct (new_object_run (OStr (chars name)) w Hg Hf) as (w1 & E1 & N1 & G1 & F1 & R1 & Em & D1 & C1 & _ & M1 & X1).
  assert (He1 : w_err w1 = None) by congruence.
  exists (log (EPy c) w1). do 4 (split; [done|]). split; [cbn; by rewrite C1|]. split; [exact Em|]. split; [exact M1|].
  intros q wq Eq r wr Ek Hgr Hr.
  pose proof (py_returns c (log (EPy c) w1) q wq G1 He1 F1 Eq) as [Q1 Q2 Q3 Q4 Q5 Q6].
  destruct (swigvar_run (run c) k w1 q wq r wr) as (w2 & E2 & R2); [by apply run_eq|done|done|done|].
  assert (Hself : swig_get_self this w1 = (Ret (d_self d), w1)) by (apply get_self_eq; by rewrite D1).
  destruct (swigvar_run (new_object (OStr (chars name))) (fun _ =>
      self <- swig_get_self this ;; swigvar (run (CallMethod self (chars name) args)) k)
      w (w_fresh w) w1 r w2) as (w3 & E3 & R3);
    [done|by rewrite (bind_eq _ _ _ _ _ Hself)|by rewrite (rel_gil _ _ _ R2)|done|].
  exists w3. split; [done|]. split; [by rewrite (rel_gil _ _ _ R3), (rel_gil _ _ _ R2)|].
  split; [intros; by eapply released_fresh; [exact R3|]; eapply released_fresh|].
  split; [by rewrite (rel_dirs _ _ _ R3), (rel_dirs _ _ _ R2)|].
  split; [by rewrite (rel_err _ _ _ R3), (rel_err _ _ _ R2)|].
  split; [by rewrite (rel_calls _ _ _ R3), (rel_calls _ _ _ R2)|].
  intros x. rewrite (rel_refs _ _ _ R3), (rel_refs _ _ _ R2), Q3.
  change (refs (log (EPy c) w1) x) with (refs w1 x). rewrite X1, (cnt_one q). lia.
Qed.

(** What is released when the handler has put None in place of a missing traceback. *)
Lemma traceback_refs t x :
  cnt (one (if t =? 0 then Py_None else t)) x = cnt (one t) x + if decide (t = 0 /\ x = Py_None) then 1 else 0.
Proof.
  rewrite !cnt_one. destruct (t =? 0) eqn:Et; zbool; unfold Py_None in *; repeat case_decide; lia || tauto.
Qed.

Lemma print_eq w e : w_gil w = true -> w_err w = Some e -> e_kind e <> SystemExit ->
  PyErr_Print w = (Ret tt, set_err None w).
Proof.
  intros Hg He Hk. unfold PyErr_Print. rewrite (bind_eq _ _ _ _ _ (occurred_eq w Hg)), He.
  rewrite bool_decide_false by done. by apply clear_eq.
Qed.

(** The arguments [pyError] is called with, and what its outcome decides. *)
Lemma handle_error_run w this d e : w_gil w = true -> fresh_ok w -> w_dirs w !! this = Some d ->
  w_err w = Some e -> e_type e <> 0 -> is_system (e_kind e) = false ->
  exists value wc, value <> 0 /\ (e_value e <> 0 -> value = e_value e)
    /\ let c := CallMethod (d_self d) (chars "pyError") [e_type e; value; if e_tb e =? 0 then Py_None else e_tb e] in
       w_gil wc = true /\ w_err wc = None /\ fresh_ok wc /\ w_calls wc = w_calls w ++ [EPy c]
       /\ forall q wq, py_run c wc = (q, wq) -> (forall e', w_err wq = Some e' -> e_kind e' <> SystemExit) ->
       exists w', handle_error this w
         = (if q =? 0 then Throw (DirectorMethodException (chars "SWIG director method error.")) else Ret tt, w')
       /\ w_gil w' = true /\ fresh_ok w' /\ w_dirs w' = w_dirs w /\ w_calls w' = w_calls wc
       /\ w_err w' = (if q =? 0 then Some (err_of RuntimeError (chars "SWIG director method error.")) else None)
       /\ (forall x, refs w' x = refs w x - (if decide (e_tb e = 0 /\ x = Py_None) then 1 else 0)).
Proof.
  intros Hg Hf Hd He Hty Hs. unfold handle_error.
  rewrite (bind_eq _ _ _ _ _ (occurred_eq w Hg)), He, Hs.
  destruct (fetch_run w e Hg He Hf) as (w1 & E1 & Hg1 & He1 & Hf1 & Hd1 & Hc1 & Hr1).
  rewrite (bind_eq _ _ _ _ _ E1).
  destruct (normalize_run w1 (e_value e) Hg1 Hf1) as (v & w2 & E2 & Hv & Hg2 & He2 & Hf2 & Hd2 & Hc2 & Hval & Hr2).
  rewrite (bind_eq _ _ _ _ _ E2). rewrite (proj2 (Z.eqb_neq _ _) Hv).
  set (tb := if e_tb e =? 0 then Py_None else e_tb e).
  destruct (named_call_run w2 this d "pyError" [e_type e; v; tb] (fun _ => ret tt))
    as (wc & G1 & G2 & G3 & G5 & G4 & _ & _ & Hrun); try done; [by rewrite He2|by rewrite Hd2, Hd1|].
  exists v, wc. split; [done|]. split; [done|]. do 3 (split; [done|]). split; [by rewrite G4, Hc2, Hc1|].
  intros q wq Eq Hx. pose proof (py_returns _ _ _ _ G1 G2 G3 Eq) as [Q1 Q2 Q3 Q4 Q5 Q6].
  destruct (Hrun q wq Eq (Ret tt) wq eq_refl Q1 I) as (w3 & E3 & K1 & K2 & K3 & K4 & K5 & K6).
  rewrite (bind_eq _ _ _ _ _ E3).
  destruct (xdecref3 (e_type e) v tb (error <- PyErr_Occurred ;;
     match error with None => ret tt | Some _ => PyErr_Print ;;; DirectorMethodException_raise [] end) w3 K1)
    as (w4 & E4 & R4). rewrite E4.
  assert (Hg4 : w_gil w4 = true) by by rewrite (rel_gil _ _ _ R4).
  assert (Hd4 : w_dirs w4 = w_dirs w) by by rewrite (rel_dirs _ _ _ R4), K3, Q5, G5, Hd2, Hd1.
  assert (Hc4 : w_calls w4 = w_calls wc) by by rewrite (rel_calls _ _ _ R4), K5, Q6.
  assert (Hf4 : fresh_ok w4) by (eapply released_fresh; [done|]; by apply K2).
  assert (He4 : w_err w4 = w_err wq) by by rewrite (rel_err _ _ _ R4).
  assert (Hr4 : forall x, refs w4 x = refs w x - (if decide (e_tb e = 0 /\ x = Py_None) then 1 else 0)).
  { intros x. rewrite (rel_refs _ _ _ R4), K6, !cnt_app. unfold tb. rewrite traceback_refs.
    specialize (Hr1 x). specialize (Hr2 x). rewrite (one_nonzero v Hv). lia. }
  rewrite (bind_eq _ _ _ _ _ (occurred_eq w4 Hg4)), He4.
  destruct (q =? 0).
  - destruct Q2 as (e' & He' & _). rewrite He'. rewrite (bind_eq _ _ _ _ _ (print_eq w4 e' Hg4 ltac:(congruence) (Hx e' He'))).
    unfold DirectorMethodException_raise. rewrite raise_director_eq by done. by eexists.
  - rewrite Q2. exists w4. do 5 (split; [done|]). split; [by rewrite He4|done].
Qed.

(** *** The callback *)

(** The frame around the body: the arguments before it, the lock and the releases after it. *)
Lemma director_frame cls name this args w : fresh_ok w ->
  exists objs w1, built (set_gil true w) args objs w1
    /\ forall r w2, callback_body cls name this objs w1 = (r, w2) -> w_gil w2 = true -> not_stuck r ->
       exists w', director_method cls name this args w = (r, w') /\ released objs (set_gil (w_gil w) w2) w'.
Proof.
  intros Hf. set (w0 := set_gil true w).
  assert (Hb0 : built w0 [] [] w0) by (constructor; try done; intros x; rewrite cnt_nil; lia).
  destruct (with_args_run args w0 [] [] w0 (callback_body cls name this) Hb0) as (objs & w1 & Hb & Hrun).
  cbn [app] in *. exists objs, w1. split; [done|]. intros r w2 E Hg Hr.
  destruct (Hrun r w2 E Hg Hr) as (w3 & E3 & [R1 R2 R3 R4 R5 R6 R7 R8]).
  exists (set_gil (w_gil w) w3). split.
  - unfold director_method. rewrite thread_block_eq. fold w0. rewrite E3, R5, Hg. by destruct r.
  - constructor; try done. intros x. change (refs (set_gil (w_gil w) w3) x) with (refs w3 x).
    rewrite R1. change (refs (set_gil (w_gil w) w2) x) with (refs w2 x). unfold cnt. do 2 f_equal.
    apply Permutation_count_occ, Permutation_sym, Permutation_rev.
Qed.

(** The whole callback, given what follows the Python call. *)
Lemma director_run cls name this args w d : fresh_ok w -> w_err w = None ->
  w_dirs w !! this = Some d -> d_self d <> 0 ->
  exists objs wc, let c := CallMethod (d_self d) (chars name) objs in
    Forall2 (arg_object wc) args objs /\ w_gil wc = true /\ w_err wc = None
    /\ w_dirs wc = w_dirs w /\ fresh_ok wc /\ w_calls wc = w_calls w ++ [EPy c] /\ w_mem wc = w_mem w
    /\ forall q wq, py_run c wc = (q, wq) ->
       forall r wr, (if q =? 0 then handle_error this else ret tt) wq = (r, wr) -> w_gil wr = true -> not_stuck r ->
       exists w', director_method cls name this args w = (r, w') /\ w_gil w' = w_gil w
         /\ w_err w' = w_err wr /\ w_dirs w' = w_dirs wr /\ w_calls w' = w_calls wr
         /\ (forall x, refs w' x = refs w x + (refs wr x - refs wq x)).
Proof.
  intros Hf He Hd Hself.
  destruct (director_frame cls name this args w Hf) as (objs & w1 & [B1 B2 B3 B4 B5 B6 B7 B8 B9 B10] & Hrun).
  assert (Hd1 : w_dirs w1 !! this = Some d) by by rewrite B4.
  assert (He1 : w_err w1 = None) by by rewrite B3.
  destruct (named_call_run w1 this d name objs (fun result => if result =? 0 then handle_error this else ret tt))
    as (wc & C1 & C2 & C3 & C4 & C5 & Cm & C6 & Hcall); try done.
  exists objs, wc. split; [eapply Forall2_impl; [exact B9|]; intros; by eapply arg_object_mono|].
  split; [done|]. split; [done|]. split; [by rewrite C4, B4|]. split; [done|]. split; [by rewrite C5, B10|]. split; [by rewrite Cm, B5|].
  intros q wq Eq r wr Ek Hgr Hr.
  destruct (Hcall q wq Eq r wr Ek Hgr Hr) as (w2 & E2 & D1 & _ & D2 & D3 & D4 & D5).
  destruct (Hrun r w2) as (w3 & E3 & [R1 R2 R3 R4 R5 R6 R7 R8]); [|done|done|].
  { unfold callback_body. rewrite (bind_eq _ _ _ _ _ (get_self_eq w1 this d Hd1)), (proj2 (Z.eqb_neq _ _) Hself).
    by rewrite (bind_eq (ret tt) _ w1 tt w1 eq_refl). }
  exists w3. split; [done|]. split; [done|]. split; [by rewrite R4|]. split; [by rewrite R7|].
  split; [by rewrite R8|]. intros x. rewrite R1. change (refs (set_gil (w_gil w) w2) x) with (refs w2 x).
  rewrite D5, B6. change (refs (set_gil true w) x) with (refs w x). lia.
Qed.

(** *** Every outcome *)

(** [pyError] of the object does not ask the interpreter to exit. *)
Definition error_stays (d : director) : Prop :=
  forall args w w' e, fresh_ok w -> py_run (CallMethod (d_self d) (chars "pyError") args) w = (0, w') ->
    w_err w' = Some e -> e_kind e <> SystemExit.

(** Nothing the interpreter does after the Python call leaves the handler stuck. *)
Lemma handler_safe w this d q wq c : error_stays d -> w_gil w = true -> w_err w = None -> fresh_ok w ->
  w_dirs w !! this = Some d -> py_run c w = (q, wq) ->
  exists r wr, (if q =? 0 then handle_error this else ret tt) wq = (r, wr) /\ w_gil wr = true /\ not_stuck r.
Proof.
  intros Hx Hg He Hf Hd Eq. pose proof (py_returns _ _ _ _ Hg He Hf Eq) as [Q1 Q2 Q3 Q4 Q5 Q6].
  destruct (q =? 0); [|by exists (Ret tt), wq].
  destruct Q2 as (e & Hee & Hty). destruct (is_system (e_kind e)) eqn:Hs.
  { rewrite (handle_error_system wq this e Q1 Hee Hs). by eexists _, wq. }
  destruct (handle_error_run wq this d e Q1 Q4) as (value & wc & _ & _ & G1 & G2 & G3 & _ & Hrun); try done.
  { by rewrite Q5. }
  destruct (py_run (CallMethod (d_self d) (chars "pyError") [e_type e; value; if e_tb e =? 0 then Py_None else e_tb e]) wc)
    as [q' wq'] eqn:Eq'.
  pose proof (py_returns _ _ _ _ G1 G2 G3 Eq') as [_ P2 _ _ _ _].
  destruct (Hrun q' wq' eq_refl) as (w' & E & G4 & _).
  { intros e' He'. destruct (q' =? 0) eqn:E0; zbool; [subst; by eapply Hx|congruence]. }
  rewrite E. eexists _, w'. split; [reflexivity|]. split; [done|]. by case_if.
Qed.

(** The body always ends, whatever the interpreter answers. *)
Lemma body_safe cls name this objs w d : error_stays d -> w_gil w = true -> w_err w = None -> fresh_ok w ->
  w_dirs w !! this = Some d ->
  exists r w', callback_body cls name this objs w = (r, w') /\ w_gil w' = true /\ not_stuck r.
Proof.
  intros Hx Hg He Hf Hd. unfold callback_body. rewrite (bind_eq _ _ _ _ _ (get_self_eq w this d Hd)).
  destruct (d_self d =? 0).
  { unfold DirectorException_raise, bind. rewrite raise_director_eq by done.
    eexists _, _. split; [reflexivity|]. by destruct (w_err w). }
  rewrite (bind_eq (ret tt) _ w tt w eq_refl).
  destruct (named_call_run w this d name objs (fun result => if result =? 0 then handle_error this else ret tt))
    as (wc & C1 & C2 & C3 & C4 & _ & _ & _ & Hcall); try done.
  destruct (py_run (CallMethod (d_self d) (chars name) objs) wc) as [q wq] eqn:Eq.
  destruct (handler_safe wc this d q wq _ Hx C1 C2 C3 ltac:(by rewrite C4) Eq) as (r & wr & Ek & Hgr & Hns).
  destruct (Hcall q wq eq_refl r wr Ek Hgr Hns) as (w3 & E3 & D1 & _). eauto.
Qed.

Lemma director_safe cls name this args w d : error_stays d -> fresh_ok w -> w_err w = None ->
  w_dirs w !! this = Some d ->
  exists r w', director_method cls name this args w = (r, w') /\ not_stuck r /\ w_gil w' = w_gil w.
Proof.
  intros Hx Hf He Hd.
  destruct (director_frame cls name this args w Hf) as (objs & w1 & [B1 B2 B3 B4 B5 B6 B7 B8 B9 B10] & Hrun).
  destruct (body_safe cls name this objs w1 d) as (r & w2 & Eb & Hg2 & Hns); try done;
    [by rewrite B3|by rewrite B4|].
  destruct (Hrun r w2 Eb Hg2 Hns) as (w3 & E3 & R3). exists r, w3.
  split; [done|]. split; [done|]. by rewrite (rel_gil _ _ _ R3).
Qed.
End CallbackLemmas.

(** ** Properties *)

(** C5. Callbacks are safe: for every interpreter that keeps its contract,
    every callback, called on any thread with or without the lock, makes all
    its interpreter calls with the lock held, ends by returning or by throwing,
    and gives the lock back as it found it, unless [pyError] raises SystemExit. *)
Theorem director_lock_restored `{!TypeEnv, !PyEnv, !PyLaws _} cls name this args w d :
  error_stays d -> fresh_ok w -> w_err w = None -> w_dirs w !! this = Some d ->
  exists r w', director_method cls name this args w = (r, w') /\ not_stuck r /\ w_gil w' = w_gil w.
Proof. apply director_safe. Qed.

(** An interpreter in which every call succeeds with a new object, except calls
    of OnRspError, which raise ValueError without a traceback, and of
    OnFrontDisconnected, which raise SystemExit. *)
Definition sample_error (k : ekind) : pyerr := mk_err k [] (exc_type k) 600 0.
Definition raising (name : list Z) : option ekind :=
  if decide (name = chars "OnRspError") then Some ValueError
  else if decide (name = chars "OnFrontDisconnected") then Some SystemExit else None.
Definition sample_interp : PyEnv := fun c w =>
  match c with
  | CallMethod _ name _ =>
      match raising name with
      | Some k => (0, set_err (Some (sample_error k)) w)
      | None => (w_fresh w, set_fresh (w_fresh w + 1) (add_ref (w_fresh w) 1 (set_heap (<[w_fresh w := OOther]> (w_heap w)) w)))
      end
  end.

Lemma sample_new_returned w : w_gil w = true -> w_err w = None -> fresh_ok w ->
  returned w (w_fresh w)
    (set_fresh (w_fresh w + 1) (add_ref (w_fresh w) 1 (set_heap (<[w_fresh w := OOther]> (w_heap w)) w))).
Proof.
  intros Hg He Hf. pose proof (proj1 Hf) as Hff. unfold first_free in Hff.
  destruct (new_object_resolves w OOther (w_fresh w) _ Hg Hf (new_object_eq w Hg OOther))
    as (_ & Hg' & Hf' & _ & He' & _ & [Hd' Hc'] & _ & Hr').
  constructor; try done.
  - rewrite (proj2 (Z.eqb_neq _ _)) by lia. by rewrite He'.
  - intros x. rewrite Hr'. repeat case_decide; tauto || lia.
Qed.

#[local] Instance sample_interp_laws : PyLaws sample_interp.
Proof.
  intros [self name args] w r w' Hg He Hf E. unfold py_run, sample_interp in E.
  destruct (raising name) as [k|]; injection E as <- <-; [|by apply sample_new_returned].
  constructor; try done.
  - exists (sample_error k). split; [done|]. by destruct k.
  - intros x. rewrite decide_False by tauto. change (refs w x = refs w x + 0). lia.
Qed.

Definition sample_director : director := mk_director 300 false.
Definition sample_callback_world : world :=
  mk_world {[300 := OInst (Some 301); 301 := OSwig (mk_swigobj 4096 (Some 144%nat) 1 None)]} ∅ 1000 None false ∅ ∅ 8192
    {[4096 := sample_director]} (-1) [].

Lemma sample_fresh : fresh_ok sample_callback_world.
Proof.
  split; [discriminate|]. intros o Ho. cbn in Ho. unfold sample_callback_world, w_heap.
  rewrite lookup_insert_ne, lookup_singleton_ne by lia. done.
Qed.

Lemma sample_stays : error_stays (H0 := sample_interp) sample_director.
Proof. intros args w w' e [Hf _] E He. injection E as E0 _. unfold first_free in Hf. lia. Qed.

Lemma director_lock_restored_witness :
  exists r w', director_method (H := ctp_types (fun _ => 0) (fun _ => true)) (H0 := sample_interp)
      "CThostFtdcMdSpi" "OnRtnDepthMarketData" 4096 [APtr 16384 82] sample_callback_world = (r, w')
    /\ not_stuck r /\ w_gil w' = false.
Proof.
  apply (director_lock_restored (H := ctp_types (fun _ => 0) (fun _ => true)) (H0 := sample_interp)
    "CThostFtdcMdSpi" "OnRtnDepthMarketData" 4096 [APtr 16384 82] sample_callback_world sample_director).
  - exact sample_stays.
  - exact sample_fresh.
  - reflexivity.
  - reflexivity.
Defined.

(** C3. Delivery: a callback calls the Python method of its name exactly once,
    with the lock, with None for a null pointer and otherwise a wrapper
    that does not own the pointer and has the declared type, an int and a bool
    of the same values; when the method returns, the callback returns with no
    error set, owning exactly the references it owned before, and has made no
    other call. *)
Theorem director_delivers `{!TypeEnv, !PyEnv, !PyLaws _} cls name this args w d :
  fresh_ok w -> w_err w = None -> w_dirs w !! this = Some d -> d_self d <> 0 ->
  exists objs wc, let c := CallMethod (d_self d) (chars name) objs in
    Forall2 (arg_object wc) args objs /\ w_gil wc = true /\ w_err wc = None /\ fresh_ok wc
    /\ forall q wq, py_run c wc = (q, wq) -> q <> 0 ->
       exists w', director_method cls name this args w = (Ret tt, w') /\ w_gil w' = w_gil w
         /\ w_err w' = None /\ (forall x, refs w' x = refs w x)
         /\ w_calls w' = w_calls w ++ [EPy c].
Proof.
  intros Hf He Hd Hself.
  destruct (director_run cls name this args w d Hf He Hd Hself)
    as (objs & wc & H1 & H2 & H3 & _ & Hfc & Hc & Hm & Hrun).
  exists objs, wc. do 4 (split; [done|]). intros q wq Eq Hq.
  pose proof (py_returns _ _ _ _ H2 H3 Hfc Eq) as [Q1 Q2 _ _ _ Q6].
  rewrite (proj2 (Z.eqb_neq _ _) Hq) in Q2.
  destruct (Hrun q wq Eq (Ret tt) wq) as (w' & E & D1 & D2 & _ & D3 & D4);
    [by rewrite (proj2 (Z.eqb_neq _ _) Hq)|done|done|].
  exists w'. split; [done|]. split; [done|]. split; [by rewrite D2|].
  split; [intros x; rewrite D4; lia|]. by rewrite D3, Q6.
Qed.

Lemma director_delivers_witness :
  exists w', director_method (H := ctp_types (fun _ => 0) (fun _ => true)) (H0 := sample_interp)
      "CThostFtdcMdSpi" "OnRspUserLogin" 4096 [APtr 0 200; APtr 0 200; AInt 7; ABool true] sample_callback_world
      = (Ret tt, w')
    /\ w_gil w' = false.
Proof.
  destruct (director_delivers (H := ctp_types (fun _ => 0) (fun _ => true)) (H0 := sample_interp)
    "CThostFtdcMdSpi" "OnRspUserLogin" 4096 [APtr 0 200; APtr 0 200; AInt 7; ABool true] sample_callback_world
    sample_director) as (objs & wc & _ & _ & _ & [Hfree _] & Hrun).
  - exact sample_fresh.
  - reflexivity.
  - reflexivity.
  - discriminate.
  - unfold first_free in Hfree. destruct (Hrun _ _ eq_refl) as (w' & E' & Hg & _).
    + intros E. cbn in E. lia.
    + exists w'. split; [exact E'|exact Hg].
Defined.

(** C4. Exceptions in a callback: when the Python method raises an exception
    other than SystemExit, SystemError and KeyboardInterrupt, or does not exist,
    [pyError] is called, once, with its class, its value (made when it is missing) and its
    traceback or None.  If [pyError] returns, the callback returns with no error
    set; the references it owns are as before, except that None has lost one
    when there was no traceback, since the handler releases the None it put in
    its place without having taken a reference. *)
Theorem director_reports_error `{!TypeEnv, !PyEnv, !PyLaws _} cls name this args w d :
  fresh_ok w -> w_err w = None -> w_dirs w !! this = Some d -> d_self d <> 0 ->
  exists objs wc, let c := CallMethod (d_self d) (chars name) objs in
    Forall2 (arg_object wc) args objs /\ w_calls wc = w_calls w ++ [EPy c]
    /\ forall wq e, py_run c wc = (0, wq) -> w_err wq = Some e -> is_system (e_kind e) = false ->
       exists value wp, value <> 0 /\ (e_value e <> 0 -> value = e_value e) /\ w_err wp = None /\ fresh_ok wp
         /\ let c' := CallMethod (d_self d) (chars "pyError")
                       [e_type e; value; if e_tb e =? 0 then Py_None else e_tb e] in
            forall q wq', py_run c' wp = (q, wq') -> q <> 0 ->
            exists w', director_method cls name this args w = (Ret tt, w') /\ w_gil w' = w_gil w
              /\ w_err w' = None /\ w_calls w' = w_calls w ++ [EPy c; EPy c']
              /\ forall x, refs w' x = refs w x - (if decide (e_tb e = 0 /\ x = Py_None) then 1 else 0).
Proof.
  intros Hf He Hd Hself.
  destruct (director_run cls name this args w d Hf He Hd Hself)
    as (objs & wc & H1 & H2 & H3 & H4 & Hfc & Hc & Hm & Hrun).
  exists objs, wc. split; [done|]. split; [done|]. intros wq e Eq Hee Hs.
  pose proof (py_returns _ _ _ _ H2 H3 Hfc Eq) as [Q1 Q2 _ Q4 Q5 Q6].
  destruct Q2 as (e' & He' & Hty). assert (e' = e) as -> by congruence.
  destruct (handle_error_run wq this d e Q1 Q4) as (value & wp & V1 & V2 & V3 & V4 & V5 & V6 & Hh); try done.
  { by rewrite Q5, H4. }
  exists value, wp. do 4 (split; [done|]). intros c q wq' Eq' Hq.
  pose proof (py_returns _ _ _ _ V3 V4 V5 Eq') as [_ P2 _ _ _ _]. rewrite (proj2 (Z.eqb_neq _ _) Hq) in P2.
  destruct (Hh q wq' Eq') as (wr & Er & G1 & G2 & G3 & Gc & G4 & G5); [congruence|].
  rewrite (proj2 (Z.eqb_neq _ _) Hq) in Er, G4.
  destruct (Hrun 0 wq Eq (Ret tt) wr) as (w' & E & D1 & D2 & _ & D3 & D4); [done..|].
  exists w'. split; [done|]. split; [done|]. split; [by rewrite D2|].
  split; [by rewrite D3, Gc, V6, Q6, Hc, <- app_assoc|]. intros x. rewrite D4, G5. lia.
Qed.

Lemma director_reports_error_witness :
  exists w', director_method (H := ctp_types (fun _ => 0) (fun _ => true)) (H0 := sample_interp)
      "CThostFtdcMdSpi" "OnRspError" 4096 [APtr 0 200; AInt 7; ABool true] sample_callback_world = (Ret tt, w')
    /\ refs w' Py_None = -1.
Proof.
  destruct (director_reports_error (H := ctp_types (fun _ => 0) (fun _ => true)) (H0 := sample_interp)
    "CThostFtdcMdSpi" "OnRspError" 4096 [APtr 0 200; AInt 7; ABool true] sample_callback_world
    sample_director) as (objs & wc & _ & _ & Hrun).
  - exact sample_fresh.
  - reflexivity.
  - reflexivity.
  - discriminate.
  - destruct (Hrun (set_err (Some (sample_error ValueError)) wc) (sample_error ValueError) eq_refl eq_refl eq_refl)
      as (value & wp & _ & _ & _ & [Hfree _] & Hrun'). unfold first_free in Hfree.
    destruct (Hrun' _ _ eq_refl) as (w' & E' & _ & _ & _ & Hr).
    + intros E. cbn in E. lia.
    + exists w'. split; [exact E'|]. rewrite Hr. rewrite decide_True by (split; reflexivity). reflexivity.
Defined.

(** C13. Exceptions that leave a callback: SystemExit, SystemError and
    KeyboardInterrupt leave it as a [DirectorMethodException] with the Python
    error still set and without a call of [pyError]; any other exception leaves
    it the same way when [pyError] raises in turn (and not SystemExit, which ends
    the process), with the new error replaced by RuntimeError.  The lock is
    given back, and nothing is caught between the callback and the CTP thread
    that made it. *)
Theorem director_propagates `{!TypeEnv, !PyEnv, !PyLaws _} cls name this args w d :
  fresh_ok w -> w_err w = None -> w_dirs w !! this = Some d -> d_self d <> 0 ->
  let thrown := Throw (DirectorMethodException (chars "SWIG director method error.")) in
  exists objs wc, let c := CallMethod (d_self d) (chars name) objs in
    Forall2 (arg_object wc) args objs /\ w_calls wc = w_calls w ++ [EPy c]
    /\ forall wq e, py_run c wc = (0, wq) -> w_err wq = Some e ->
    if is_system (e_kind e)
    then exists w', director_method cls name this args w = (thrown, w') /\ w_gil w' = w_gil w
           /\ w_err w' = Some e /\ (forall x, refs w' x = refs w x)
           /\ w_calls w' = w_calls w ++ [EPy c]
    else exists value wp, let c' := CallMethod (d_self d) (chars "pyError")
                     [e_type e; value; if e_tb e =? 0 then Py_None else e_tb e] in
           forall wq', py_run c' wp = (0, wq') -> (forall e', w_err wq' = Some e' -> e_kind e' <> SystemExit) ->
           exists w', director_method cls name this args w = (thrown, w') /\ w_gil w' = w_gil w
             /\ w_err w' = Some (err_of RuntimeError (chars "SWIG director method error."))
             /\ w_calls w' = w_calls w ++ [EPy c; EPy c'].
Proof.
  intros Hf He Hd Hself thrown.
  destruct (director_run cls name this args w d Hf He Hd Hself)
    as (objs & wc & H1 & H2 & H3 & H4 & Hfc & Hc & Hm & Hrun).
  exists objs, wc. split; [done|]. split; [done|]. intros wq e Eq Hee.
  pose proof (py_returns _ _ _ _ H2 H3 Hfc Eq) as [Q1 Q2 _ Q4 Q5 Q6].
  destruct Q2 as (e' & He' & Hty). assert (e' = e) as -> by congruence.
  destruct (is_system (e_kind e)) eqn:Hs.
  - destruct (Hrun 0 wq Eq thrown wq) as (w' & E & D1 & D2 & _ & D3 & D4);
      [exact (handle_error_system wq this e Q1 Hee Hs)|done|done|].
    exists w'. split; [done|]. split; [done|]. split; [by rewrite D2|].
    split; [intros x; rewrite D4; lia|]. by rewrite D3, Q6.
  - destruct (handle_error_run wq this d e Q1 Q4) as (value & wp & _ & _ & _ & _ & _ & V6 & Hh); try done.
    { by rewrite Q5, H4. }
    exists value, wp. intros c wq' Eq' Hx. destruct (Hh 0 wq' Eq' Hx) as (wr & Er & G1 & _ & _ & Gc & G4 & _).
    destruct (Hrun 0 wq Eq thrown wr) as (w' & E & D1 & D2 & _ & D3 & _); [done..|].
    exists w'. split; [done|]. split; [done|]. split; [by rewrite D2|]. by rewrite D3, Gc, V6, Q6, Hc, <- app_assoc.
Qed.

Lemma director_propagates_witness :
  exists w', director_method (H := ctp_types (fun _ => 0) (fun _ => true)) (H0 := sample_interp)
      "CThostFtdcMdSpi" "OnFrontDisconnected" 4096 [AInt 4097] sample_callback_world
      = (Throw (DirectorMethodException (chars "SWIG director method error.")), w')
    /\ w_err w' = Some (sample_error SystemExit).
Proof.
  destruct (director_propagates (H := ctp_types (fun _ => 0) (fun _ => true)) (H0 := sample_interp)
    "CThostFtdcMdSpi" "OnFrontDisconnected" 4096 [AInt 4097] sample_callback_world
    sample_director) as (objs & wc & _ & _ & Hrun).
  - exact sample_fresh.
  - reflexivity.
  - reflexivity.
  - discriminate.
  - destruct (Hrun (set_err (Some (sample_error SystemExit)) wc) (sample_error SystemExit) eq_refl eq_refl)
      as (w' & E & _ & He & _). exists w'. split; [exact E|exact He].
Defined.

End Director.
