(* ===== verification/Lifecycle.v ===== *)
(** * The life of a callback object

    Models the wrappers [_wrap_new_*Spi], [_wrap_delete_*Spi] and
    [_wrap_disown_*Spi] of ctp_wrap.cpp, the same template for
    [CThostFtdcMdSpi] and [CThostFtdcTraderSpi].  An object made for a Python
    subclass is a director; the address of the C++ object identifies it in
    [w_dirs].  The sizes of the C++ objects are parameters. *)

From S2P Require Import Prelude TypeTable CtpTypes World Runtime Conversions Iconv Layout Accessor Director.

Module Lifecycle.
Import World Runtime Conversions Accessor Director.

Section Wrappers.
Context `{TypeEnv} (implicit : nat -> option (Z -> M Z)) (spi_size director_size : nat).

(** [new SwigDirector_cls(arg1)] for a subclass, else [new cls()].
    (ctp_wrap.cpp, lines 472061 to 472066.) *)
Definition new_spi (arg1 : Z) : M Z :=
  if negb (arg1 =? Py_None) then
    result <- alloc (replicate director_size 0) ;; Director_new result arg1 ;;; ret result
  else alloc (replicate spi_size 0).

(** ctp_wrap.cpp, lines 472047 to 472091. *)
Definition wrap_new_spi (cls : string) (ty : nat) (args : Z) : M Z :=
  if args =? 0 then ret 0
  else
    r <- guarded (cls +:+ "::" +:+ cls +:+ "(PyObject *)") (new_spi args) ;;
    match r with
    | None => ret 0
    | Some result => SWIG_Python_NewPointerObj result (Some ty) SWIG_POINTER_NEW
    end.

(** [delete arg1]: the classes of ThostFtdcMdApi.h and ThostFtdcTraderApi.h have
    no virtual destructor, so that deleting an object of a derived class, a
    director, through them is undefined.
    (ctp_wrap.cpp, line 472113.) *)
Definition delete_spi (arg1 : Z) : M unit :=
  if arg1 =? 0 then ret tt
  else
    dirs <- gets w_dirs ;;
    match dirs !! arg1 with
    | Some _ => stuck BadDelete
    | None => free arg1
    end.

(** ctp_wrap.cpp, lines 472094 to 472137. *)
Definition wrap_delete_spi (cls : string) (ty : nat) (args : Z) : M Z :=
  if args =? 0 then ret 0
  else
    c1 <- SWIG_ConvertPtr implicit args ty SWIG_POINTER_DISOWN ;;
    let '(res1, arg1) := c1 in
    if negb (SWIG_IsOK res1) then
      exception_fail (SWIG_ArgError res1) (arg_msg ("delete_" +:+ cls) "1" (cls +:+ " *"))
    else
      r <- guarded (cls +:+ "::~" +:+ cls +:+ "()") (delete_spi arg1) ;;
      match r with
      | None => ret 0
      | Some _ => SWIG_Py_Void
      end.

(** [SWIG_DIRECTOR_CAST] finds the director; [swig_disown] runs without the lock.
    (ctp_wrap.cpp, lines 472140 to 472168.) *)
Definition wrap_disown_spi (cls : string) (ty : nat) (args : Z) : M Z :=
  if args =? 0 then ret 0
  else
    c1 <- SWIG_ConvertPtr implicit args ty 0 ;;
    let '(res1, arg1) := c1 in
    if negb (SWIG_IsOK res1) then
      exception_fail (SWIG_ArgError res1) (arg_msg ("disown_" +:+ cls) "1" (cls +:+ " *"))
    else
      thread_allow (dirs <- gets w_dirs ;;
                    match dirs !! arg1 with
                    | Some _ => swig_disown arg1
                    | None => ret tt
                    end) ;;;
      SWIG_Py_Void.
End Wrappers.

(** ** Lemmas *)

Section Lemmas.
Context `{!TypeEnv, !ExactTypes _} (implicit : nat -> option (Z -> M Z)) (spi_size director_size : nat).

(** Converting with the disown flag finds the pointer and leaves C++ alone. *)
Lemma convert_disown w obj ty p : w_gil w = true -> (ty < te_size)%nat -> wraps_ptr w obj ty p ->
  exists w', SWIG_ConvertPtr implicit obj ty SWIG_POINTER_DISOWN w = (Ret (SWIG_OK, p), w') /\ w_gil w' = true
    /\ w_dirs w' = w_dirs w /\ w_blocks w' = w_blocks w /\ (forall x, refs w' x = refs w x).
Proof.
  intros Hg Hty (Hz & Hnone & o & s & Ho & Hp & Ht & Hn & Hr).
  destruct (convert_disown_run implicit w obj o s ty) as (w' & E & S); [done..|by exists s|done|].
  exists w'. subst p. split; [exact E|]. split; [by rewrite (same_gil _ _ S)|].
  split; [by rewrite (same_dirs _ _ S)|]. split; [by rewrite (same_blocks _ _ S)|]. exact (same_refs _ _ S).
Qed.

Lemma new_pointer_blocks w ptr ty flags obj w' :
  SWIG_Python_NewPointerObj ptr ty flags w = (Ret obj, w') -> w_blocks w' = w_blocks w.
Proof.
  unfold SWIG_Python_NewPointerObj, SWIG_Py_Void, SwigPyObject_New, SWIG_Python_NewShadowInstance, Py_INCREF, Py_XINCREF,
    new_object, Py_DECREF, need_gil, bind, modify, ret, stuck.
  intros E. repeat (case_match; simplify_eq/=); done.
Qed.

(** The object [wrap_new_spi] makes, and what it registers. *)
Lemma new_spi_made cls ty args w : w_gil w = true -> fresh_ok w -> w_brk w <> 0 -> args <> 0 ->
  exists obj w', wrap_new_spi spi_size director_size cls ty args w = (Ret obj, w') /\ w_gil w' = true
    /\ wraps_ptr w' obj ty (w_brk w) /\ (forall x, refs w' x = refs w x + (if decide (obj = x) then 1 else 0) + capsule_ref SWIG_POINTER_OWN x)
    /\ w_blocks w' = <[w_brk w := if decide (args = Py_None) then spi_size else director_size]> (w_blocks w)
    /\ w_dirs w' = if decide (args = Py_None) then w_dirs w
                   else <[w_brk w := mk_director args false]> (w_dirs w).
Proof.
  intros Hg Hf Hb Ha. unfold wrap_new_spi. rewrite (proj2 (Z.eqb_neq _ _) Ha).
  set (w1 := snd (new_spi spi_size director_size args (set_gil false w))).
  assert (E : new_spi spi_size director_size args (set_gil false w) = (Ret (w_brk w), w1)).
  { unfold w1, new_spi. by destruct (args =? Py_None). }
  assert (Eg : guarded (cls +:+ "::" +:+ cls +:+ "(PyObject *)") (new_spi spi_size director_size args) w
               = (Ret (Some (w_brk w)), set_gil true w1)).
  { by apply guarded_ok. }
  rewrite (bind_eq _ _ _ _ _ Eg). set (w2 := set_gil true w1).
  assert (F : w_heap w2 = w_heap w /\ w_fresh w2 = w_fresh w /\ w_refs w2 = w_refs w
    /\ w_blocks w2 = <[w_brk w := if decide (args = Py_None) then spi_size else director_size]> (w_blocks w)
    /\ w_dirs w2 = if decide (args = Py_None) then w_dirs w else <[w_brk w := mk_director args false]> (w_dirs w)).
  { unfold w2, w1, new_spi. destruct (args =? Py_None) eqn:En; zbool;
      rewrite ?(decide_True (P := args = Py_None)), ?(decide_False (P := args = Py_None)) by done;
      cbn; by rewrite length_replicate. }
  destruct F as (F1 & F2 & F3 & F4 & F5).
  assert (Hf2 : fresh_ok w2) by (unfold fresh_ok; rewrite F1, F2; exact Hf).
  destruct (new_pointer_obj_spec w2 (w_brk w) ty SWIG_POINTER_NEW eq_refl Hf2 Hb)
    as (obj & o & w' & E' & Hg' & _ & Hfree & Ho & (s & Hs & Hr) & _ & _ & [Hd _] & _ & _ & Hrefs).
  unfold first_free in Hfree. exists obj, w'. split; [done|]. split; [done|]. split.
  { split; [lia|]. split; [unfold Py_None; lia|]. eexists o, _. split; [exact Ho|]. do 3 (split; [done|]). exact Hr. }
  split; [intros x; rewrite Hrefs; unfold refs; by rewrite F3|].
  split; [|by rewrite Hd].
  rewrite <- F4. by rewrite (new_pointer_blocks w2 (w_brk w) (Some ty) SWIG_POINTER_NEW obj w' E').
Qed.
End Lemmas.

(** ** Properties *)

(** C31. Giving a callback object to C++: [disown] on a director that Python
    still owns increments the reference count of the Python object after the
    wrapper has released the lock; when the director is disowned already
    nothing is counted and None is returned. *)
Theorem disown_without_lock `{!TypeEnv, !ExactTypes _} implicit cls ty w obj p d :
  w_gil w = true -> (ty < te_size)%nat -> wraps_ptr w obj ty p -> w_dirs w !! p = Some d ->
  if d_disown d
  then exists w', wrap_disown_spi implicit cls ty obj w = (Ret Py_None, w') /\ w_gil w' = true
         /\ forall x, refs w' x = refs w x + if decide (Py_None = x) then 1 else 0
  else exists w', wrap_disown_spi implicit cls ty obj w = (Stuck NoGIL, w') /\ w_gil w' = false.
Proof.
  intros Hg Hty Hw Hd. destruct (convert_wraps implicit w obj ty p Hg Hty Hw) as (w1 & E & S).
  unfold wrap_disown_spi. rewrite (proj2 (Z.eqb_neq obj 0)) by (by destruct Hw). rewrite (bind_eq _ _ _ _ _ E).
  change (SWIG_IsOK SWIG_OK) with true. cbn [negb].
  assert (Hg1 : w_gil w1 = true) by by rewrite (same_gil _ _ S).
  set (body := fun dirs : gmap Z director => match dirs !! p with Some _ => swig_disown p | None => ret tt end).
  assert (Eb : bind (gets w_dirs) body (set_gil false w1) = swig_disown p (set_gil false w1)).
  { unfold bind, gets, body. cbn [set_gil w_dirs]. by rewrite (same_dirs _ _ S), Hd. }
  assert (Ed : director_at p (set_gil false w1) = (Ret d, set_gil false w1)).
  { apply director_at_eq. cbn. by rewrite (same_dirs _ _ S). }
  unfold swig_disown in Eb. rewrite (bind_eq _ _ _ _ _ Ed) in Eb. destruct (d_disown d).
  - assert (Ea : thread_allow (bind (gets w_dirs) body) w1 = (Ret tt, set_gil true w1))
      by (rewrite thread_allow_eq, Eb; done).
    rewrite (bind_eq _ _ _ _ _ Ea). eexists. split; [by apply py_void_eq|]. split; [done|].
    intros x. rewrite refs_add. change (refs (set_gil true w1) x) with (refs w1 x). by rewrite (same_refs _ _ S).
  - eexists. split; [|shelve]. apply bind_stuck. rewrite thread_allow_eq, Eb by done.
    unfold set_director, swig_incref, director_at, bind, modify, gets. cbn [set_dirs set_gil w_dirs].
    rewrite lookup_insert_eq. cbn. reflexivity.
    Unshelve. done.
Qed.

Lemma disown_without_lock_witness :
  exists w', wrap_disown_spi (H := ctp_types (fun _ => 0) (fun _ => true)) (fun _ => None) "CThostFtdcMdSpi" 144 300
               (set_gil true sample_callback_world) = (Stuck NoGIL, w').
Proof.
  destruct (disown_without_lock (H := ctp_types (fun _ => 0) (fun _ => true)) (fun _ => None) "CThostFtdcMdSpi" 144
    (set_gil true sample_callback_world) 300 4096 sample_director) as (w' & E & _).
  - reflexivity.
  - apply Nat.ltb_lt. reflexivity.
  - split; [discriminate|]. split; [discriminate|]. eexists 301, _.
    split; [reflexivity|]. do 3 (split; [reflexivity|]). right. split; [reflexivity|discriminate].
  - reflexivity.
  - exists w'. exact E.
Defined.

(** C32. Deleting a callback object: the object made for a Python subclass is a
    director of that Python object and takes no reference to it, only one to the
    new wrapped pointer and one to the capsule of the module; deleting it is
    undefined, as the C++ class has no virtual destructor, and so the director's
    own destructor is not what runs.  An object made for None is a plain one:
    deleting it returns None and gives its block back. *)
Theorem delete_director_undefined `{!TypeEnv, !ExactTypes _} implicit spi_size director_size cls ty args w :
  w_gil w = true -> fresh_ok w -> (ty < te_size)%nat -> w_brk w <> 0 -> args <> 0 ->
  w_blocks w !! w_brk w = None -> w_dirs w !! w_brk w = None ->
  exists obj w1, wrap_new_spi spi_size director_size cls ty args w = (Ret obj, w1)
    /\ (forall x, refs w1 x = refs w x + (if decide (obj = x) then 1 else 0) + capsule_ref SWIG_POINTER_OWN x)
    /\ if decide (args = Py_None)
       then exists w2, wrap_delete_spi implicit cls ty obj w1 = (Ret Py_None, w2) /\ w_blocks w2 = w_blocks w
       else w_dirs w1 !! w_brk w = Some (mk_director args false)
            /\ exists w2, wrap_delete_spi implicit cls ty obj w1 = (Stuck BadDelete, w2).
Proof.
  intros Hg Hf Hty Hb Ha Hblk Hdir.
  destruct (new_spi_made spi_size director_size cls ty args w Hg Hf Hb Ha)
    as (obj & w1 & E & Hg1 & Hw & Hr & Hbl & Hdi).
  exists obj, w1. split; [done|]. split; [done|].
  destruct (convert_disown implicit w1 obj ty (w_brk w) Hg1 Hty Hw) as (w2 & Ec & Hg2 & Hd2 & Hb2 & _).
  unfold wrap_delete_spi. rewrite (proj2 (Z.eqb_neq obj 0)) by (by destruct Hw).
  rewrite (bind_eq _ _ _ _ _ Ec). change (SWIG_IsOK SWIG_OK) with true. cbn [negb].
  set (w3 := set_gil false w2).
  assert (Edel : delete_spi (w_brk w) w3 = match w_dirs w3 !! w_brk w with
                                           | Some _ => (Stuck BadDelete, w3) | None => free (w_brk w) w3 end).
  { unfold delete_spi. rewrite (proj2 (Z.eqb_neq _ _) Hb). unfold bind, gets. by destruct (w_dirs w3 !! w_brk w). }
  unfold w3 at 2 in Edel. cbn [set_gil w_dirs] in Edel. rewrite Hd2, Hdi in Edel.
  case_decide as Hn.
  - rewrite Hdir in Edel. unfold free in Edel. rewrite (proj2 (Z.eqb_neq _ _) Hb) in Edel.
    cbn [w3 set_gil w_blocks] in Edel. rewrite Hb2, Hbl, lookup_insert_eq in Edel.
    rewrite (bind_eq _ _ _ _ _ (guarded_ok _ _ _ _ _ Hg2 Edel)).
    eexists. split; [by apply py_void_eq|]. cbn. by apply delete_insert_id.
  - split; [rewrite Hdi; apply lookup_insert_eq|]. rewrite lookup_insert_eq in Edel. eexists.
    apply bind_stuck. by apply guarded_stuck.
Qed.

Lemma delete_director_undefined_witness :
  exists obj w1 w2, wrap_new_spi (H := ctp_types (fun _ => 0) (fun _ => true)) 8 96 "CThostFtdcMdSpi" 144 300
        (set_gil true sample_callback_world) = (Ret obj, w1)
    /\ wrap_delete_spi (H := ctp_types (fun _ => 0) (fun _ => true)) (fun _ => None) "CThostFtdcMdSpi" 144 obj w1
       = (Stuck BadDelete, w2).
Proof.
  destruct (delete_director_undefined (H := ctp_types (fun _ => 0) (fun _ => true)) (fun _ => None) 8 96
    "CThostFtdcMdSpi" 144 300 (set_gil true sample_callback_world)) as (obj & w1 & E & _ & Hd).
  - reflexivity.
  - exact sample_fresh.
  - apply Nat.ltb_lt. reflexivity.
  - discriminate.
  - discriminate.
  - reflexivity.
  - reflexivity.
  - rewrite decide_False in Hd by discriminate. destruct Hd as (_ & w2 & Ed).
    exists obj, w1, w2. split; [exact E|exact Ed].
Defined.

End Lifecycle.
