(* ===== verification/Frames.v ===== *)
(** * What the accessors leave alone

    A computation [keeps] the wrapped pointers when, unless it is stuck, it ends
    with the lock as it was, changes no object that was there, makes no new
    wrapped pointer, neither allocates nor frees C memory and leaves every
    mapped byte mapped.  The predicate is
    closed under the combinators of the monad; the setters and getters of every
    structure satisfy it for all arguments and on every path. *)

From S2P Require Import Prelude TypeTable CtpTypes Utf8 World Runtime Conversions Iconv Layout Accessor Director.

Module Frames.
Import TypeTable World Utf8 Runtime Conversions Iconv Layout Accessor.

(** From a world whose fresh addresses are free: [w'] has the same objects
    below the first fresh address and no wrapped pointer above it. *)
Record kept (w w' : world) : Prop := {
  kp_gil : w_gil w' = w_gil w;
  kp_blocks : w_blocks w' = w_blocks w;
  kp_brk : w_brk w' = w_brk w;
  kp_mem : forall a, is_Some (w_mem w' !! a) <-> is_Some (w_mem w !! a);
  kp_free : fresh_ok w -> fresh_ok w';
  kp_fresh : w_fresh w <= w_fresh w';
  kp_old : forall o, o < w_fresh w -> w_heap w' !! o = w_heap w !! o;
  kp_new : fresh_ok w -> forall o s, w_fresh w <= o -> w_heap w' !! o <> Some (OSwig s);
}.

#[export] Instance kept_preorder : PreOrder kept.
Proof.
  split.
  - intros w. constructor; try done. intros Hf o s Ho. rewrite (proj2 Hf) by done. done.
  - intros u v w A B. constructor.
    + by rewrite (kp_gil _ _ B), (kp_gil _ _ A).
    + by rewrite (kp_blocks _ _ B), (kp_blocks _ _ A).
    + by rewrite (kp_brk _ _ B), (kp_brk _ _ A).
    + intros a. by rewrite (kp_mem _ _ B), (kp_mem _ _ A).
    + intros Hf. by apply B, A.
    + etrans; [apply A|apply B].
    + intros o Ho. pose proof (kp_fresh _ _ A). rewrite (kp_old _ _ B) by lia. by apply A.
    + intros Hf o s Ho. destruct (decide (o < w_fresh v)) as [Hlt|Hge].
      * rewrite (kp_old _ _ B) by done. by apply A.
      * apply B; [by apply A|lia].
Qed.

(** Worlds that agree on everything [kept] looks at. *)
Lemma kept_agree w w' : w_gil w' = w_gil w -> w_blocks w' = w_blocks w -> w_brk w' = w_brk w ->
  w_fresh w' = w_fresh w -> w_heap w' = w_heap w -> (forall a, is_Some (w_mem w' !! a) <-> is_Some (w_mem w !! a)) ->
  kept w w'.
Proof.
  intros H1 H2 H3 H4 H5 H6. constructor; try done.
  - unfold fresh_ok. by rewrite H4, H5.
  - lia.
  - intros o _. by rewrite H5.
  - intros Hf o s Ho. rewrite H5, (proj2 Hf) by done. done.
Qed.

Definition keeps {A} (m : M A) : Prop := forall w r w', m w = (r, w') -> Director.not_stuck r -> kept w w'.

(** ** Combinators *)

Lemma keeps_ret {A} (a : A) : keeps (ret a).
Proof. intros w r w' [= <- <-] _. done. Qed.

Lemma keeps_throw {A} e : keeps (@throw A e).
Proof. intros w r w' [= <- <-] _. done. Qed.

Lemma keeps_stuck {A} u : keeps (@stuck A u).
Proof. intros w r w' [= <- <-] []. Qed.

Lemma keeps_gets {A} (f : world -> A) : keeps (gets f).
Proof. intros w r w' [= <- <-] _. done. Qed.

Lemma keeps_bind {A B} (m : M A) (k : A -> M B) : keeps m -> (forall a, keeps (k a)) -> keeps (bind m k).
Proof.
  intros Hm Hk w r w' E Hr. unfold bind in E. destruct (m w) as [[a|e|u] w1] eqn:Em.
  - trans w1; [by apply (Hm _ _ _ Em)|]. by eapply Hk.
  - injection E as <- <-. by apply (Hm _ _ _ Em).
  - by injection E as <- <-.
Qed.

(** Only the combination with the value the first part returned. *)
Lemma keeps_bind_gets {A} {B} (f : world -> A) (k : A -> M B) :
  (forall w r w', k (f w) w = (r, w') -> Director.not_stuck r -> kept w w') -> keeps (bind (gets f) k).
Proof. intros Hk w r w' E Hr. by apply (Hk w r w'). Qed.

Lemma keeps_need_gil : keeps need_gil.
Proof. intros w r w' E Hr. unfold need_gil in E. destruct (w_gil w); by injection E as <- <-. Qed.

Lemma keeps_modify f : (forall w, kept w (f w)) -> keeps (modify f).
Proof. intros Hf w r w' [= <- <-] _. apply Hf. Qed.

Lemma keeps_load p n : keeps (load p n).
Proof.
  intros w r w' E Hr. unfold load in E. destruct (mapM _ _); injection E as <- <-; done.
Qed.

Lemma keeps_store p bs : keeps (store p bs).
Proof.
  intros w r w' E Hr. unfold store in E. destruct (mapM _ _) as [old|] eqn:Em; injection E as <- <-; [|done].
  apply kept_agree; try done. intros a. cbn. rewrite store_bytes_lookup. case_decide as Ha; [|done].
  apply mapM_Some_1 in Em. set (i := Z.to_nat (a - p)).
  assert (Hi : seq 0 (length bs) !! i = Some i) by (apply lookup_seq_lt; lia).
  destruct (Forall2_lookup_l _ _ _ _ _ Em Hi) as (b & _ & Hb). replace (p + Z.of_nat i) with a in Hb by lia.
  rewrite Hb. split; [done|]. intros _. apply lookup_lt_is_Some. lia.
Qed.

Lemma keeps_object_at o : keeps (object_at o).
Proof.
  apply keeps_bind; [apply keeps_need_gil|]. intros _. apply keeps_bind; [apply keeps_gets|]. intros h.
  destruct (h !! o); [apply keeps_ret|apply keeps_stuck].
Qed.

Lemma keeps_new_object v : (forall s, v <> OSwig s) -> keeps (new_object v).
Proof.
  intros Hv w r w' E Hr. unfold new_object, need_gil in E. destruct (w_gil w) eqn:Hg; [|by injection E as <- <-].
  injection E as <- <-. constructor; try done.
  - intros [Hf1 Hf2]. split; cbn; [lia|]. intros o Ho. rewrite lookup_insert_ne by lia. apply Hf2. lia.
  - cbn. lia.
  - intros o Ho. cbn. by rewrite lookup_insert_ne by lia.
  - intros Hf o s Ho. cbn. destruct (decide (o = w_fresh w)) as [->|Hne].
    + rewrite lookup_insert_eq. intros [= ->]. by apply (Hv s).
    + rewrite lookup_insert_ne by done. by rewrite (proj2 Hf).
Qed.

Lemma keeps_thread_allow {A} (m : M A) : keeps m -> keeps (thread_allow m).
Proof.
  intros Hm w r w' E Hr. destruct (w_gil w) eqn:Hg.
  - rewrite thread_allow_eq in E by done. destruct (m (set_gil false w)) as [r1 w1] eqn:Em.
    assert (Hk : Director.not_stuck r1 -> kept w (set_gil true w1)).
    { intros H1. pose proof (Hm _ _ _ Em H1) as K. destruct K as [K1 K2 K3 K4 K5 K6 K7 K8].
      by constructor. }
    destruct r1; injection E as <- <-; first [done | by apply Hk].
  - unfold thread_allow, PyEval_SaveThread, need_gil, bind in E. rewrite Hg in E. by injection E as <- <-.
Qed.

Lemma keeps_thread_block {A} (m : M A) : keeps m -> keeps (thread_block m).
Proof.
  intros Hm w r w' E Hr. rewrite thread_block_eq in E. destruct (m (set_gil true w)) as [r1 w1] eqn:Em.
  assert (Hk : Director.not_stuck r1 -> kept w (set_gil (w_gil w) w1)).
  { intros H1. pose proof (Hm _ _ _ Em H1) as K. destruct K as [K1 K2 K3 K4 K5 K6 K7 K8]. by constructor. }
  destruct r1; try destruct (w_gil w1); injection E as <- <-; first [done | by apply Hk].
Qed.

Create HintDb keeps discriminated.
#[export] Hint Resolve keeps_ret keeps_throw keeps_stuck keeps_gets keeps_need_gil keeps_load keeps_store
  keeps_object_at keeps_thread_allow keeps_thread_block : keeps.
#[export] Hint Resolve keeps_bind | 10 : keeps.

(** Goes through a computation and resolves its parts. *)
Ltac keeps :=
  repeat match goal with
  | |- keeps (bind _ _) => apply keeps_bind; [|intros ?]
  | |- keeps (if ?b then _ else _) => destruct b
  | |- keeps (match ?x with _ => _ end) => destruct x
  | |- keeps (let '(_, _) := ?x in _) => destruct x
  | |- keeps (modify _) => apply keeps_modify; intros ?; by apply kept_agree
  | |- keeps (new_object _) => apply keeps_new_object; discriminate
  | |- keeps _ => solve [auto with keeps]
  end.

(** ** The Python/C interface and the runtime *)

Lemma keeps_set_string k msg : keeps (PyErr_SetString k msg).
Proof. unfold PyErr_SetString. keeps. Qed.
Lemma keeps_clear : keeps PyErr_Clear.
Proof. unfold PyErr_Clear. keeps. Qed.
Lemma keeps_occurred : keeps PyErr_Occurred.
Proof. unfold PyErr_Occurred. keeps. Qed.
Lemma keeps_incref o : keeps (Py_INCREF o).
Proof. unfold Py_INCREF. keeps. Qed.
Lemma keeps_decref o : keeps (Py_DECREF o).
Proof. unfold Py_DECREF. keeps. Qed.
Lemma keeps_void : keeps SWIG_Py_Void.
Proof. unfold SWIG_Py_Void, Py_INCREF. keeps. Qed.
#[export] Hint Resolve keeps_set_string keeps_clear keeps_occurred keeps_incref keeps_decref keeps_void : keeps.

Lemma keeps_swig_at o : keeps (swig_at o).
Proof. unfold swig_at. keeps. Qed.
Lemma keeps_unpack args name min max : keeps (SWIG_Python_UnpackTuple args name min max).
Proof. unfold SWIG_Python_UnpackTuple. keeps. Qed.
Lemma keeps_fail code msg : keeps (exception_fail code msg).
Proof. unfold exception_fail, SWIG_Error, SWIG_Python_SetErrorMsg. keeps. Qed.
#[export] Hint Resolve keeps_swig_at keeps_unpack keeps_fail : keeps.

Lemma keeps_this fuel o : keeps (get_swig_this fuel o).
Proof. revert o; induction fuel; intros o; cbn [get_swig_this]; keeps. Qed.
Lemma keeps_get_this o : keeps (SWIG_Python_GetSwigThis o).
Proof. unfold SWIG_Python_GetSwigThis. apply keeps_bind; [keeps|]. intros h. apply keeps_this. Qed.
#[export] Hint Resolve keeps_get_this : keeps.

(** Without flags the object found is stored back as it was. *)
Lemma keeps_finish found : keeps (finish_convert found 0).
Proof.
  destruct found as [[[o p] nm]|]; [|apply keeps_ret]. intros w r w' E Hr. unfold finish_convert in E.
  assert (Hs : swig_at o w = (Stuck NoGIL, w) \/ swig_at o w = (Stuck BadObject, w)
               \/ w_gil w = true /\ exists s, w_heap w !! o = Some (OSwig s)).
  { unfold swig_at, object_at, need_gil, bind, gets. destruct (w_gil w); [|by left].
    destruct (w_heap w !! o) as [[]|]; eauto. }
  destruct Hs as [Hs|[Hs|(Hg & s & Ho)]].
  - rewrite (bind_stuck _ _ _ _ _ Hs) in E. by injection E as <- <-.
  - rewrite (bind_stuck _ _ _ _ _ Hs) in E. by injection E as <- <-.
  - rewrite (bind_eq _ _ _ _ _ (swig_at_eq w o s Hg Ho)) in E.
    change (Z.land 0 SWIG_POINTER_RELEASE =? SWIG_POINTER_RELEASE) with false in E. cbn [andb] in E.
    change (has_flag 0 SWIG_POINTER_CLEAR) with false in E. change (has_flag 0 SWIG_POINTER_DISOWN) with false in E.
    cbv iota in E. rewrite (bind_eq _ _ _ _ _ (store_object_eq w Hg o _)) in E.
    replace (mk_swigobj (s_ptr s) (s_ty s) (s_own s) (s_next s)) with s in E by by destruct s.
    rewrite (set_heap_id w o (OSwig s) Ho) in E. injection E as <- <-. done.
Qed.
#[export] Hint Resolve keeps_finish : keeps.

Section Acc.
Context (long_w : Z) `{!TypeEnv} (implicit : nat -> option (Z -> M Z)).
Context `{!IconvEnv} (PyErr_WarnEx : list Z -> M Z) (Hwarn : forall msg, keeps (PyErr_WarnEx msg)).

Lemma keeps_chain fuel sobj ty : keeps (convert_chain fuel sobj ty).
Proof.
  revert sobj; induction fuel as [|fuel IH]; intros [o|]; cbn [convert_chain]; keeps; eauto with keeps.
Qed.

Lemma keeps_convert obj ty : keeps (SWIG_ConvertPtr implicit obj ty 0).
Proof.
  unfold SWIG_ConvertPtr, SWIG_Python_ConvertPtrAndOwn.
  change (has_flag 0 SWIG_POINTER_IMPLICIT_CONV) with false.
  apply keeps_bind; [|intros [[res p] ow]; apply keeps_ret].
  destruct (obj =? 0); [apply keeps_ret|]. destruct ((obj =? Py_None) && _); [apply keeps_ret|].
  apply keeps_bind; [auto with keeps|intros sobj]. apply keeps_bind; [auto with keeps|intros h].
  apply keeps_bind; [apply keeps_chain|intros found]. destruct found; auto with keeps.
Qed.
#[local] Hint Resolve keeps_convert : keeps.

Lemma keeps_cstr fuel p : keeps (read_cstr fuel p).
Proof. revert p; induction fuel; intros p; cbn [read_cstr]; keeps; auto. Qed.
Lemma keeps_c_string p : keeps (c_string p).
Proof. unfold c_string. apply keeps_bind; [auto with keeps|]. intros m. apply keeps_cstr. Qed.
#[local] Hint Resolve keeps_c_string : keeps.

Lemma keeps_as_double obj : keeps (SWIG_AsVal_double obj).
Proof. unfold SWIG_AsVal_double, PyLong_AsDouble. keeps. Qed.
Lemma keeps_as_long obj : keeps (SWIG_AsVal_long long_w obj).
Proof. unfold SWIG_AsVal_long, PyLong_AsLong. keeps. Qed.
#[local] Hint Resolve keeps_as_double keeps_as_long : keeps.

Lemma keeps_as_chars d obj : keeps (as_char_ptr implicit d obj).
Proof. unfold as_char_ptr. keeps. Qed.
Lemma keeps_as_array obj n : keeps (SWIG_AsCharArray implicit obj n).
Proof.
  unfold SWIG_AsCharArray, SWIG_AsCharPtrAndSize. apply keeps_bind; [apply keeps_as_chars|]. intros [res c]. keeps.
Qed.
#[local] Hint Resolve keeps_as_array : keeps.

Lemma keeps_convert_value k obj : keeps (convert_value long_w implicit k obj).
Proof. unfold convert_value, SWIG_AsVal_short, SWIG_AsVal_int, SWIG_AsVal_char. keeps. Qed.
Lemma keeps_store_field k p off b : keeps (store_field k p off b).
Proof. unfold store_field. keeps. Qed.
#[local] Hint Resolve keeps_convert_value keeps_store_field : keeps.

Lemma keeps_string_out field p : keeps (string_out PyErr_WarnEx field p).
Proof.
  unfold string_out, SWIG_FromCharPtr, SWIG_FromCharPtrAndSize, _ctp_get_iconv, warn_or. keeps; apply Hwarn.
Qed.
#[local] Hint Resolve keeps_string_out : keeps.

Lemma keeps_wrap_set meth sname tname ty k off args :
  keeps (wrap_set long_w implicit meth sname tname ty k off args).
Proof. unfold wrap_set. keeps. Qed.

Lemma keeps_wrap_get meth sname field ty g off args :
  keeps (wrap_get implicit PyErr_WarnEx meth sname field ty g off args).
Proof.
  unfold wrap_get, read_field, SWIG_From_int, SWIG_From_short, SWIG_From_double, SWIG_From_char, SWIG_FromCharPtrAndSize.
  keeps.
Qed.
End Acc.

End Frames.
