(* ===== verification/Classes.v ===== *)
(** * The classes of the CTP structures

    For each structure what the functions [_wrap_new_X], [_wrap_delete_X] and
    [X_swigregister] of ctp_wrap.cpp say of it: the name their messages carry,
    the C++ structure [new] makes, and the index of the [SWIGTYPE] macro each of
    the three passes.  The bodies are otherwise those of the templates
    [wrap_new] and [wrap_delete] of Accessor and [swigregister] of ClientData,
    and [X_swiginit] only calls [SWIG_Python_InitShadowInstance]. *)

From S2P Require Import Prelude TypeTable CtpTypes World Runtime ClientData Conversions Iconv Layout Accessor Structs1 Structs2 Structs3.

Module Classes.
Import TypeTable World Runtime ClientData Layout Accessor.
Local Open Scope string_scope.
Local Open Scope list_scope.

(** The name in the messages, the structure made, and the types of the new
    object, of the object deleted and of the registration. *)
Record class := mk_class {
  cl_name : string; cl_struct : struct; cl_new : nat; cl_delete : nat; cl_register : nat }.

Definition class_CThostFtdcDisseminationField : class :=
  mk_class "CThostFtdcDisseminationField" Structs1.CThostFtdcDisseminationField 41 41 41.
Definition class_CThostFtdcReqUserLoginField : class :=
  mk_class "CThostFtdcReqUserLoginField" Structs1.CThostFtdcReqUserLoginField 338 338 338.
Definition class_CThostFtdcRspUserLoginField : class :=
  mk_class "CThostFtdcRspUserLoginField" Structs1.CThostFtdcRspUserLoginField 363 363 363.
Definition class_CThostFtdcUserLogoutField : class :=
  mk_class "CThostFtdcUserLogoutField" Structs1.CThostFtdcUserLogoutField 464 464 464.
Definition class_CThostFtdcForceUserLogoutField : class :=
  mk_class "CThostFtdcForceUserLogoutField" Structs1.CThostFtdcForceUserLogoutField 74 74 74.
Definition class_CThostFtdcReqAuthenticateField : class :=
  mk_class "CThostFtdcReqAuthenticateField" Structs1.CThostFtdcReqAuthenticateField 324 324 324.
Definition class_CThostFtdcRspAuthenticateField : class :=
  mk_class "CThostFtdcRspAuthenticateField" Structs1.CThostFtdcRspAuthenticateField 350 350 350.
Definition class_CThostFtdcAuthenticationInfoField : class :=
  mk_class "CThostFtdcAuthenticationInfoField" Structs1.CThostFtdcAuthenticationInfoField 6 6 6.
Definition class_CThostFtdcRspUserLogin2Field : class :=
  mk_class "CThostFtdcRspUserLogin2Field" Structs1.CThostFtdcRspUserLogin2Field 362 362 362.
Definition class_CThostFtdcTransferHeaderField : class :=
  mk_class "CThostFtdcTransferHeaderField" Structs1.CThostFtdcTransferHeaderField 457 457 457.
Definition class_CThostFtdcTransferBankToFutureReqField : class :=
  mk_class "CThostFtdcTransferBankToFutureReqField" Structs1.CThostFtdcTransferBankToFutureReqField 453 453 453.
Definition class_CThostFtdcTransferBankToFutureRspField : class :=
  mk_class "CThostFtdcTransferBankToFutureRspField" Structs1.CThostFtdcTransferBankToFutureRspField 454 454 454.
Definition class_CThostFtdcTransferFutureToBankReqField : class :=
  mk_class "CThostFtdcTransferFutureToBankReqField" Structs1.CThostFtdcTransferFutureToBankReqField 455 455 455.
Definition class_CThostFtdcTransferFutureToBankRspField : class :=
  mk_class "CThostFtdcTransferFutureToBankRspField" Structs1.CThostFtdcTransferFutureToBankRspField 456 456 456.
Definition class_CThostFtdcTransferQryBankReqField : class :=
  mk_class "CThostFtdcTransferQryBankReqField" Structs1.CThostFtdcTransferQryBankReqField 458 458 458.
Definition class_CThostFtdcTransferQryBankRspField : class :=
  mk_class "CThostFtdcTransferQryBankRspField" Structs1.CThostFtdcTransferQryBankRspField 459 459 459.
Definition class_CThostFtdcTransferQryDetailReqField : class :=
  mk_class "CThostFtdcTransferQryDetailReqField" Structs1.CThostFtdcTransferQryDetailReqField 460 460 460.
Definition class_CThostFtdcTransferQryDetailRspField : class :=
  mk_class "CThostFtdcTransferQryDetailRspField" Structs1.CThostFtdcTransferQryDetailRspField 461 461 461.
Definition class_CThostFtdcRspInfoField : class :=
  mk_class "CThostFtdcRspInfoField" Structs1.CThostFtdcRspInfoField 355 355 355.
Definition class_CThostFtdcExchangeField : class :=
  mk_class "CThostFtdcExchangeField" Structs1.CThostFtdcExchangeField 52 52 52.
Definition class_CThostFtdcProductField : class :=
  mk_class "CThostFtdcProductField" Structs1.CThostFtdcProductField 169 169 169.
Definition class_CThostFtdcInstrumentField : class :=
  mk_class "CThostFtdcInstrumentField" Structs1.CThostFtdcInstrumentField 93 93 93.
Definition class_CThostFtdcBrokerField : class :=
  mk_class "CThostFtdcBrokerField" Structs1.CThostFtdcBrokerField 9 9 9.
Definition class_CThostFtdcTraderField : class :=
  mk_class "CThostFtdcTraderField" Structs1.CThostFtdcTraderField 441 441 441.
Definition class_CThostFtdcInvestorField : class :=
  mk_class "CThostFtdcInvestorField" Structs1.CThostFtdcInvestorField 104 104 104.
Definition class_CThostFtdcTradingCodeField : class :=
  mk_class "CThostFtdcTradingCodeField" Structs1.CThostFtdcTradingCodeField 449 449 449.
Definition class_CThostFtdcPartBrokerField : class :=
  mk_class "CThostFtdcPartBrokerField" Structs1.CThostFtdcPartBrokerField 165 165 165.
Definition class_CThostFtdcSuperUserField : class :=
  mk_class "CThostFtdcSuperUserField" Structs1.CThostFtdcSuperUserField 381 381 381.
Definition class_CThostFtdcSuperUserFunctionField : class :=
  mk_class "CThostFtdcSuperUserFunctionField" Structs1.CThostFtdcSuperUserFunctionField 382 382 382.
Definition class_CThostFtdcInvestorGroupField : class :=
  mk_class "CThostFtdcInvestorGroupField" Structs1.CThostFtdcInvestorGroupField 105 105 105.
Definition class_CThostFtdcTradingAccountField : class :=
  mk_class "CThostFtdcTradingAccountField" Structs1.CThostFtdcTradingAccountField 444 444 444.
Definition class_CThostFtdcInvestorPositionField : class :=
  mk_class "CThostFtdcInvestorPositionField" Structs1.CThostFtdcInvestorPositionField 112 112 112.
Definition class_CThostFtdcInstrumentMarginRateField : class :=
  mk_class "CThostFtdcInstrumentMarginRateField" Structs1.CThostFtdcInstrumentMarginRateField 95 95 95.
Definition class_CThostFtdcInstrumentCommissionRateField : class :=
  mk_class "CThostFtdcInstrumentCommissionRateField" Structs1.CThostFtdcInstrumentCommissionRateField 92 92 92.
Definition class_CThostFtdcDepthMarketDataField : class :=
  mk_class "CThostFtdcDepthMarketDataField" Structs1.CThostFtdcDepthMarketDataField 39 39 39.
Definition class_CThostFtdcInstrumentTradingRightField : class :=
  mk_class "CThostFtdcInstrumentTradingRightField" Structs1.CThostFtdcInstrumentTradingRightField 99 99 99.
Definition class_CThostFtdcBrokerUserField : class :=
  mk_class "CThostFtdcBrokerUserField" Structs1.CThostFtdcBrokerUserField 14 14 14.
Definition class_CThostFtdcBrokerUserPasswordField : class :=
  mk_class "CThostFtdcBrokerUserPasswordField" Structs1.CThostFtdcBrokerUserPasswordField 17 17 17.
Definition class_CThostFtdcBrokerUserFunctionField : class :=
  mk_class "CThostFtdcBrokerUserFunctionField" Structs1.CThostFtdcBrokerUserFunctionField 15 15 15.
Definition class_CThostFtdcTraderOfferField : class :=
  mk_class "CThostFtdcTraderOfferField" Structs1.CThostFtdcTraderOfferField 442 442 442.
Definition class_CThostFtdcSettlementInfoField : class :=
  mk_class "CThostFtdcSettlementInfoField" Structs1.CThostFtdcSettlementInfoField 377 377 377.
Definition class_CThostFtdcInstrumentMarginRateAdjustField : class :=
  mk_class "CThostFtdcInstrumentMarginRateAdjustField" Structs1.CThostFtdcInstrumentMarginRateAdjustField 94 94 94.
Definition class_CThostFtdcExchangeMarginRateField : class :=
  mk_class "CThostFtdcExchangeMarginRateField" Structs1.CThostFtdcExchangeMarginRateField 55 55 55.
Definition class_CThostFtdcExchangeMarginRateAdjustField : class :=
  mk_class "CThostFtdcExchangeMarginRateAdjustField" Structs1.CThostFtdcExchangeMarginRateAdjustField 54 54 54.
Definition class_CThostFtdcExchangeRateField : class :=
  mk_class "CThostFtdcExchangeRateField" Structs1.CThostFtdcExchangeRateField 64 64 64.
Definition class_CThostFtdcSettlementRefField : class :=
  mk_class "CThostFtdcSettlementRefField" Structs1.CThostFtdcSettlementRefField 378 378 378.
Definition class_CThostFtdcCurrentTimeField : class :=
  mk_class "CThostFtdcCurrentTimeField" Structs1.CThostFtdcCurrentTimeField 35 35 35.
Definition class_CThostFtdcCommPhaseField : class :=
  mk_class "CThostFtdcCommPhaseField" Structs1.CThostFtdcCommPhaseField 30 30 30.
Definition class_CThostFtdcLoginInfoField : class :=
  mk_class "CThostFtdcLoginInfoField" Structs1.CThostFtdcLoginInfoField 123 123 123.
Definition class_CThostFtdcLogoutAllField : class :=
  mk_class "CThostFtdcLogoutAllField" Structs1.CThostFtdcLogoutAllField 124 124 124.
Definition class_CThostFtdcFrontStatusField : class :=
  mk_class "CThostFtdcFrontStatusField" Structs1.CThostFtdcFrontStatusField 76 76 76.
Definition class_CThostFtdcUserPasswordUpdateField : class :=
  mk_class "CThostFtdcUserPasswordUpdateField" Structs1.CThostFtdcUserPasswordUpdateField 465 465 465.
Definition class_CThostFtdcInputOrderField : class :=
  mk_class "CThostFtdcInputOrderField" Structs1.CThostFtdcInputOrderField 89 89 89.
Definition class_CThostFtdcOrderField : class :=
  mk_class "CThostFtdcOrderField" Structs1.CThostFtdcOrderField 162 162 162.
Definition class_CThostFtdcExchangeOrderField : class :=
  mk_class "CThostFtdcExchangeOrderField" Structs1.CThostFtdcExchangeOrderField 60 60 60.
Definition class_CThostFtdcExchangeOrderInsertErrorField : class :=
  mk_class "CThostFtdcExchangeOrderInsertErrorField" Structs1.CThostFtdcExchangeOrderInsertErrorField 61 61 61.
Definition class_CThostFtdcInputOrderActionField : class :=
  mk_class "CThostFtdcInputOrderActionField" Structs1.CThostFtdcInputOrderActionField 88 88 88.
Definition class_CThostFtdcOrderActionField : class :=
  mk_class "CThostFtdcOrderActionField" Structs1.CThostFtdcOrderActionField 161 161 161.
Definition class_CThostFtdcExchangeOrderActionField : class :=
  mk_class "CThostFtdcExchangeOrderActionField" Structs1.CThostFtdcExchangeOrderActionField 59 59 59.
Definition class_CThostFtdcExchangeOrderActionErrorField : class :=
  mk_class "CThostFtdcExchangeOrderActionErrorField" Structs1.CThostFtdcExchangeOrderActionErrorField 58 58 58.
Definition class_CThostFtdcExchangeTradeField : class :=
  mk_class "CThostFtdcExchangeTradeField" Structs1.CThostFtdcExchangeTradeField 66 66 66.
Definition class_CThostFtdcTradeField : class :=
  mk_class "CThostFtdcTradeField" Structs1.CThostFtdcTradeField 437 437 437.
Definition class_CThostFtdcUserSessionField : class :=
  mk_class "CThostFtdcUserSessionField" Structs1.CThostFtdcUserSessionField 468 468 468.
Definition class_CThostFtdcQryMaxOrderVolumeField : class :=
  mk_class "CThostFtdcQryMaxOrderVolumeField" Structs1.CThostFtdcQryMaxOrderVolumeField 244 244 244.
Definition class_CThostFtdcSettlementInfoConfirmField : class :=
  mk_class "CThostFtdcSettlementInfoConfirmField" Structs1.CThostFtdcSettlementInfoConfirmField 376 376 376.
Definition class_CThostFtdcSyncDepositField : class :=
  mk_class "CThostFtdcSyncDepositField" Structs1.CThostFtdcSyncDepositField 424 424 424.
Definition class_CThostFtdcSyncFundMortgageField : class :=
  mk_class "CThostFtdcSyncFundMortgageField" Structs1.CThostFtdcSyncFundMortgageField 425 425 425.
Definition class_CThostFtdcBrokerSyncField : class :=
  mk_class "CThostFtdcBrokerSyncField" Structs1.CThostFtdcBrokerSyncField 10 10 10.
Definition class_CThostFtdcSyncingInvestorField : class :=
  mk_class "CThostFtdcSyncingInvestorField" Structs1.CThostFtdcSyncingInvestorField 431 431 431.
Definition class_CThostFtdcSyncingTradingCodeField : class :=
  mk_class "CThostFtdcSyncingTradingCodeField" Structs1.CThostFtdcSyncingTradingCodeField 435 435 435.
Definition class_CThostFtdcSyncingInvestorGroupField : class :=
  mk_class "CThostFtdcSyncingInvestorGroupField" Structs1.CThostFtdcSyncingInvestorGroupField 432 432 432.
Definition class_CThostFtdcSyncingTradingAccountField : class :=
  mk_class "CThostFtdcSyncingTradingAccountField" Structs1.CThostFtdcSyncingTradingAccountField 434 434 434.
Definition class_CThostFtdcSyncingInvestorPositionField : class :=
  mk_class "CThostFtdcSyncingInvestorPositionField" Structs1.CThostFtdcSyncingInvestorPositionField 433 433 433.
Definition class_CThostFtdcSyncingInstrumentMarginRateField : class :=
  mk_class "CThostFtdcSyncingInstrumentMarginRateField" Structs1.CThostFtdcSyncingInstrumentMarginRateField 429 429 429.
Definition class_CThostFtdcSyncingInstrumentCommissionRateField : class :=
  mk_class "CThostFtdcSyncingInstrumentCommissionRateField" Structs1.CThostFtdcSyncingInstrumentCommissionRateField 428 428 428.
Definition class_CThostFtdcSyncingInstrumentTradingRightField : class :=
  mk_class "CThostFtdcSyncingInstrumentTradingRightField" Structs1.CThostFtdcSyncingInstrumentTradingRightField 430 430 430.
Definition class_CThostFtdcQryOrderField : class :=
  mk_class "CThostFtdcQryOrderField" Structs1.CThostFtdcQryOrderField 254 254 254.
Definition class_CThostFtdcQryTradeField : class :=
  mk_class "CThostFtdcQryTradeField" Structs1.CThostFtdcQryTradeField 296 296 296.
Definition class_CThostFtdcQryInvestorPositionField : class :=
  mk_class "CThostFtdcQryInvestorPositionField" Structs1.CThostFtdcQryInvestorPositionField 232 232 232.
Definition class_CThostFtdcQryTradingAccountField : class :=
  mk_class "CThostFtdcQryTradingAccountField" Structs1.CThostFtdcQryTradingAccountField 300 300 300.
Definition class_CThostFtdcQryInvestorField : class :=
  mk_class "CThostFtdcQryInvestorField" Structs1.CThostFtdcQryInvestorField 226 226 226.
Definition class_CThostFtdcQryTradingCodeField : class :=
  mk_class "CThostFtdcQryTradingCodeField" Structs1.CThostFtdcQryTradingCodeField 301 301 301.
Definition class_CThostFtdcQryInvestorGroupField : class :=
  mk_class "CThostFtdcQryInvestorGroupField" Structs1.CThostFtdcQryInvestorGroupField 227 227 227.
Definition class_CThostFtdcQryInstrumentMarginRateField : class :=
  mk_class "CThostFtdcQryInstrumentMarginRateField" Structs1.CThostFtdcQryInstrumentMarginRateField 219 219 219.
Definition class_CThostFtdcQryInstrumentCommissionRateField : class :=
  mk_class "CThostFtdcQryInstrumentCommissionRateField" Structs1.CThostFtdcQryInstrumentCommissionRateField 217 217 217.
Definition class_CThostFtdcQryInstrumentTradingRightField : class :=
  mk_class "CThostFtdcQryInstrumentTradingRightField" Structs1.CThostFtdcQryInstrumentTradingRightField 222 222 222.
Definition class_CThostFtdcQryBrokerField : class :=
  mk_class "CThostFtdcQryBrokerField" Structs1.CThostFtdcQryBrokerField 174 174 174.
Definition class_CThostFtdcQryTraderField : class :=
  mk_class "CThostFtdcQryTraderField" Structs1.CThostFtdcQryTraderField 298 298 298.
Definition class_CThostFtdcQrySuperUserFunctionField : class :=
  mk_class "CThostFtdcQrySuperUserFunctionField" Structs1.CThostFtdcQrySuperUserFunctionField 290 290 290.
Definition class_CThostFtdcQryUserSessionField : class :=
  mk_class "CThostFtdcQryUserSessionField" Structs1.CThostFtdcQryUserSessionField 306 306 306.
Definition class_CThostFtdcQryPartBrokerField : class :=
  mk_class "CThostFtdcQryPartBrokerField" Structs1.CThostFtdcQryPartBrokerField 257 257 257.
Definition class_CThostFtdcQryFrontStatusField : class :=
  mk_class "CThostFtdcQryFrontStatusField" Structs1.CThostFtdcQryFrontStatusField 214 214 214.
Definition class_CThostFtdcQryExchangeOrderField : class :=
  mk_class "CThostFtdcQryExchangeOrderField" Structs1.CThostFtdcQryExchangeOrderField 205 205 205.
Definition class_CThostFtdcQryOrderActionField : class :=
  mk_class "CThostFtdcQryOrderActionField" Structs1.CThostFtdcQryOrderActionField 253 253 253.
Definition class_CThostFtdcQryExchangeOrderActionField : class :=
  mk_class "CThostFtdcQryExchangeOrderActionField" Structs1.CThostFtdcQryExchangeOrderActionField 204 204 204.
Definition class_CThostFtdcQrySuperUserField : class :=
  mk_class "CThostFtdcQrySuperUserField" Structs1.CThostFtdcQrySuperUserField 289 289 289.
Definition class_CThostFtdcQryExchangeField : class :=
  mk_class "CThostFtdcQryExchangeField" Structs1.CThostFtdcQryExchangeField 200 200 200.
Definition class_CThostFtdcQryProductField : class :=
  mk_class "CThostFtdcQryProductField" Structs1.CThostFtdcQryProductField 259 259 259.
Definition class_CThostFtdcQryInstrumentField : class :=
  mk_class "CThostFtdcQryInstrumentField" Structs1.CThostFtdcQryInstrumentField 218 218 218.
Definition class_CThostFtdcQryDepthMarketDataField : class :=
  mk_class "CThostFtdcQryDepthMarketDataField" Structs1.CThostFtdcQryDepthMarketDataField 191 191 191.
Definition class_CThostFtdcQryBrokerUserField : class :=
  mk_class "CThostFtdcQryBrokerUserField" Structs1.CThostFtdcQryBrokerUserField 178 178 178.
Definition class_CThostFtdcQryBrokerUserFunctionField : class :=
  mk_class "CThostFtdcQryBrokerUserFunctionField" Structs1.CThostFtdcQryBrokerUserFunctionField 179 179 179.
Definition class_CThostFtdcQryTraderOfferField : class :=
  mk_class "CThostFtdcQryTraderOfferField" Structs1.CThostFtdcQryTraderOfferField 299 299 299.
Definition class_CThostFtdcQrySyncDepositField : class :=
  mk_class "CThostFtdcQrySyncDepositField" Structs1.CThostFtdcQrySyncDepositField 292 292 292.
Definition class_CThostFtdcQrySettlementInfoField : class :=
  mk_class "CThostFtdcQrySettlementInfoField" Structs1.CThostFtdcQrySettlementInfoField 287 287 287.
Definition class_CThostFtdcQryExchangeMarginRateField : class :=
  mk_class "CThostFtdcQryExchangeMarginRateField" Structs1.CThostFtdcQryExchangeMarginRateField 203 203 203.
Definition class_CThostFtdcQryExchangeMarginRateAdjustField : class :=
  mk_class "CThostFtdcQryExchangeMarginRateAdjustField" Structs1.CThostFtdcQryExchangeMarginRateAdjustField 202 202 202.
Definition class_CThostFtdcQryExchangeRateField : class :=
  mk_class "CThostFtdcQryExchangeRateField" Structs1.CThostFtdcQryExchangeRateField 208 208 208.
Definition class_CThostFtdcQrySyncFundMortgageField : class :=
  mk_class "CThostFtdcQrySyncFundMortgageField" Structs1.CThostFtdcQrySyncFundMortgageField 293 293 293.
Definition class_CThostFtdcQryHisOrderField : class :=
  mk_class "CThostFtdcQryHisOrderField" Structs1.CThostFtdcQryHisOrderField 215 215 215.
Definition class_CThostFtdcOptionInstrMiniMarginField : class :=
  mk_class "CThostFtdcOptionInstrMiniMarginField" Structs1.CThostFtdcOptionInstrMiniMarginField 156 156 156.
Definition class_CThostFtdcOptionInstrMarginAdjustField : class :=
  mk_class "CThostFtdcOptionInstrMarginAdjustField" Structs1.CThostFtdcOptionInstrMarginAdjustField 155 155 155.
Definition class_CThostFtdcOptionInstrCommRateField : class :=
  mk_class "CThostFtdcOptionInstrCommRateField" Structs1.CThostFtdcOptionInstrCommRateField 153 153 153.
Definition class_CThostFtdcOptionInstrTradeCostField : class :=
  mk_class "CThostFtdcOptionInstrTradeCostField" Structs1.CThostFtdcOptionInstrTradeCostField 157 157 157.
Definition class_CThostFtdcQryOptionInstrTradeCostField : class :=
  mk_class "CThostFtdcQryOptionInstrTradeCostField" Structs1.CThostFtdcQryOptionInstrTradeCostField 249 249 249.
Definition class_CThostFtdcQryOptionInstrCommRateField : class :=
  mk_class "CThostFtdcQryOptionInstrCommRateField" Structs1.CThostFtdcQryOptionInstrCommRateField 248 248 248.
Definition class_CThostFtdcIndexPriceField : class :=
  mk_class "CThostFtdcIndexPriceField" Structs1.CThostFtdcIndexPriceField 80 80 80.
Definition class_CThostFtdcInputExecOrderField : class :=
  mk_class "CThostFtdcInputExecOrderField" Structs1.CThostFtdcInputExecOrderField 84 84 84.
Definition class_CThostFtdcInputExecOrderActionField : class :=
  mk_class "CThostFtdcInputExecOrderActionField" Structs1.CThostFtdcInputExecOrderActionField 83 83 83.
Definition class_CThostFtdcExecOrderField : class :=
  mk_class "CThostFtdcExecOrderField" Structs1.CThostFtdcExecOrderField 68 68 68.
Definition class_CThostFtdcExecOrderActionField : class :=
  mk_class "CThostFtdcExecOrderActionField" Structs1.CThostFtdcExecOrderActionField 67 67 67.
Definition class_CThostFtdcQryExecOrderField : class :=
  mk_class "CThostFtdcQryExecOrderField" Structs1.CThostFtdcQryExecOrderField 211 211 211.
Definition class_CThostFtdcExchangeExecOrderField : class :=
  mk_class "CThostFtdcExchangeExecOrderField" Structs1.CThostFtdcExchangeExecOrderField 51 51 51.
Definition class_CThostFtdcQryExchangeExecOrderField : class :=
  mk_class "CThostFtdcQryExchangeExecOrderField" Structs1.CThostFtdcQryExchangeExecOrderField 199 199 199.
Definition class_CThostFtdcQryExecOrderActionField : class :=
  mk_class "CThostFtdcQryExecOrderActionField" Structs1.CThostFtdcQryExecOrderActionField 210 210 210.
Definition class_CThostFtdcExchangeExecOrderActionField : class :=
  mk_class "CThostFtdcExchangeExecOrderActionField" Structs1.CThostFtdcExchangeExecOrderActionField 50 50 50.
Definition class_CThostFtdcQryExchangeExecOrderActionField : class :=
  mk_class "CThostFtdcQryExchangeExecOrderActionField" Structs1.CThostFtdcQryExchangeExecOrderActionField 198 198 198.
Definition class_CThostFtdcErrExecOrderField : class :=
  mk_class "CThostFtdcErrExecOrderField" Structs1.CThostFtdcErrExecOrderField 44 44 44.
Definition class_CThostFtdcQryErrExecOrderField : class :=
  mk_class "CThostFtdcQryErrExecOrderField" Structs1.CThostFtdcQryErrExecOrderField 194 194 194.
Definition class_CThostFtdcErrExecOrderActionField : class :=
  mk_class "CThostFtdcErrExecOrderActionField" Structs1.CThostFtdcErrExecOrderActionField 43 43 43.
Definition class_CThostFtdcQryErrExecOrderActionField : class :=
  mk_class "CThostFtdcQryErrExecOrderActionField" Structs1.CThostFtdcQryErrExecOrderActionField 193 193 193.
Definition class_CThostFtdcOptionInstrTradingRightField : class :=
  mk_class "CThostFtdcOptionInstrTradingRightField" Structs1.CThostFtdcOptionInstrTradingRightField 158 158 158.
Definition class_CThostFtdcQryOptionInstrTradingRightField : class :=
  mk_class "CThostFtdcQryOptionInstrTradingRightField" Structs1.CThostFtdcQryOptionInstrTradingRightField 250 250 250.
Definition class_CThostFtdcInputForQuoteField : class :=
  mk_class "CThostFtdcInputForQuoteField" Structs1.CThostFtdcInputForQuoteField 85 85 85.
Definition class_CThostFtdcForQuoteField : class :=
  mk_class "CThostFtdcForQuoteField" Structs1.CThostFtdcForQuoteField 71 71 71.
Definition class_CThostFtdcQryForQuoteField : class :=
  mk_class "CThostFtdcQryForQuoteField" Structs1.CThostFtdcQryForQuoteField 212 212 212.
Definition class_CThostFtdcExchangeForQuoteField : class :=
  mk_class "CThostFtdcExchangeForQuoteField" Structs1.CThostFtdcExchangeForQuoteField 53 53 53.
Definition class_CThostFtdcQryExchangeForQuoteField : class :=
  mk_class "CThostFtdcQryExchangeForQuoteField" Structs1.CThostFtdcQryExchangeForQuoteField 201 201 201.
Definition class_CThostFtdcInputQuoteField : class :=
  mk_class "CThostFtdcInputQuoteField" Structs1.CThostFtdcInputQuoteField 91 91 91.
Definition class_CThostFtdcInputQuoteActionField : class :=
  mk_class "CThostFtdcInputQuoteActionField" Structs1.CThostFtdcInputQuoteActionField 90 90 90.
Definition class_CThostFtdcQuoteField : class :=
  mk_class "CThostFtdcQuoteField" Structs1.CThostFtdcQuoteField 311 311 311.
Definition class_CThostFtdcQuoteActionField : class :=
  mk_class "CThostFtdcQuoteActionField" Structs1.CThostFtdcQuoteActionField 310 310 310.
Definition class_CThostFtdcQryQuoteField : class :=
  mk_class "CThostFtdcQryQuoteField" Structs1.CThostFtdcQryQuoteField 262 262 262.
Definition class_CThostFtdcExchangeQuoteField : class :=
  mk_class "CThostFtdcExchangeQuoteField" Structs1.CThostFtdcExchangeQuoteField 63 63 63.
Definition class_CThostFtdcQryExchangeQuoteField : class :=
  mk_class "CThostFtdcQryExchangeQuoteField" Structs1.CThostFtdcQryExchangeQuoteField 207 207 207.
Definition class_CThostFtdcQryQuoteActionField : class :=
  mk_class "CThostFtdcQryQuoteActionField" Structs1.CThostFtdcQryQuoteActionField 261 261 261.
Definition class_CThostFtdcExchangeQuoteActionField : class :=
  mk_class "CThostFtdcExchangeQuoteActionField" Structs1.CThostFtdcExchangeQuoteActionField 62 62 62.
Definition class_CThostFtdcQryExchangeQuoteActionField : class :=
  mk_class "CThostFtdcQryExchangeQuoteActionField" Structs1.CThostFtdcQryExchangeQuoteActionField 206 206 206.
Definition class_CThostFtdcOptionInstrDeltaField : class :=
  mk_class "CThostFtdcOptionInstrDeltaField" Structs1.CThostFtdcOptionInstrDeltaField 154 154 154.
Definition class_CThostFtdcForQuoteRspField : class :=
  mk_class "CThostFtdcForQuoteRspField" Structs1.CThostFtdcForQuoteRspField 73 73 73.
Definition class_CThostFtdcStrikeOffsetField : class :=
  mk_class "CThostFtdcStrikeOffsetField" Structs1.CThostFtdcStrikeOffsetField 380 380 380.
Definition class_CThostFtdcQryStrikeOffsetField : class :=
  mk_class "CThostFtdcQryStrikeOffsetField" Structs1.CThostFtdcQryStrikeOffsetField 288 288 288.
Definition class_CThostFtdcInputBatchOrderActionField : class :=
  mk_class "CThostFtdcInputBatchOrderActionField" Structs1.CThostFtdcInputBatchOrderActionField 81 81 81.
Definition class_CThostFtdcBatchOrderActionField : class :=
  mk_class "CThostFtdcBatchOrderActionField" Structs1.CThostFtdcBatchOrderActionField 7 7 7.
Definition class_CThostFtdcExchangeBatchOrderActionField : class :=
  mk_class "CThostFtdcExchangeBatchOrderActionField" Structs1.CThostFtdcExchangeBatchOrderActionField 48 48 48.
Definition class_CThostFtdcQryBatchOrderActionField : class :=
  mk_class "CThostFtdcQryBatchOrderActionField" Structs1.CThostFtdcQryBatchOrderActionField 173 173 173.
Definition class_CThostFtdcCombInstrumentGuardField : class :=
  mk_class "CThostFtdcCombInstrumentGuardField" Structs1.CThostFtdcCombInstrumentGuardField 27 27 27.
Definition class_CThostFtdcQryCombInstrumentGuardField : class :=
  mk_class "CThostFtdcQryCombInstrumentGuardField" Structs2.CThostFtdcQryCombInstrumentGuardField 185 185 185.
Definition class_CThostFtdcInputCombActionField : class :=
  mk_class "CThostFtdcInputCombActionField" Structs2.CThostFtdcInputCombActionField 82 82 82.
Definition class_CThostFtdcCombActionField : class :=
  mk_class "CThostFtdcCombActionField" Structs2.CThostFtdcCombActionField 26 26 26.
Definition class_CThostFtdcQryCombActionField : class :=
  mk_class "CThostFtdcQryCombActionField" Structs2.CThostFtdcQryCombActionField 184 184 184.
Definition class_CThostFtdcExchangeCombActionField : class :=
  mk_class "CThostFtdcExchangeCombActionField" Structs2.CThostFtdcExchangeCombActionField 49 49 49.
Definition class_CThostFtdcQryExchangeCombActionField : class :=
  mk_class "CThostFtdcQryExchangeCombActionField" Structs2.CThostFtdcQryExchangeCombActionField 197 197 197.
Definition class_CThostFtdcProductExchRateField : class :=
  mk_class "CThostFtdcProductExchRateField" Structs2.CThostFtdcProductExchRateField 168 168 168.
Definition class_CThostFtdcQryProductExchRateField : class :=
  mk_class "CThostFtdcQryProductExchRateField" Structs2.CThostFtdcQryProductExchRateField 258 258 258.
Definition class_CThostFtdcQryForQuoteParamField : class :=
  mk_class "CThostFtdcQryForQuoteParamField" Structs2.CThostFtdcQryForQuoteParamField 213 213 213.
Definition class_CThostFtdcForQuoteParamField : class :=
  mk_class "CThostFtdcForQuoteParamField" Structs2.CThostFtdcForQuoteParamField 72 72 72.
Definition class_CThostFtdcMMOptionInstrCommRateField : class :=
  mk_class "CThostFtdcMMOptionInstrCommRateField" Structs2.CThostFtdcMMOptionInstrCommRateField 127 127 127.
Definition class_CThostFtdcQryMMOptionInstrCommRateField : class :=
  mk_class "CThostFtdcQryMMOptionInstrCommRateField" Structs2.CThostFtdcQryMMOptionInstrCommRateField 242 242 242.
Definition class_CThostFtdcMMInstrumentCommissionRateField : class :=
  mk_class "CThostFtdcMMInstrumentCommissionRateField" Structs2.CThostFtdcMMInstrumentCommissionRateField 126 126 126.
Definition class_CThostFtdcQryMMInstrumentCommissionRateField : class :=
  mk_class "CThostFtdcQryMMInstrumentCommissionRateField" Structs2.CThostFtdcQryMMInstrumentCommissionRateField 241 241 241.
Definition class_CThostFtdcInstrumentOrderCommRateField : class :=
  mk_class "CThostFtdcInstrumentOrderCommRateField" Structs2.CThostFtdcInstrumentOrderCommRateField 97 97 97.
Definition class_CThostFtdcQryInstrumentOrderCommRateField : class :=
  mk_class "CThostFtdcQryInstrumentOrderCommRateField" Structs2.CThostFtdcQryInstrumentOrderCommRateField 220 220 220.
Definition class_CThostFtdcTradeParamField : class :=
  mk_class "CThostFtdcTradeParamField" Structs2.CThostFtdcTradeParamField 438 438 438.
Definition class_CThostFtdcInstrumentMarginRateULField : class :=
  mk_class "CThostFtdcInstrumentMarginRateULField" Structs2.CThostFtdcInstrumentMarginRateULField 96 96 96.
Definition class_CThostFtdcFutureLimitPosiParamField : class :=
  mk_class "CThostFtdcFutureLimitPosiParamField" Structs2.CThostFtdcFutureLimitPosiParamField 77 77 77.
Definition class_CThostFtdcLoginForbiddenIPField : class :=
  mk_class "CThostFtdcLoginForbiddenIPField" Structs2.CThostFtdcLoginForbiddenIPField 121 121 121.
Definition class_CThostFtdcIPListField : class :=
  mk_class "CThostFtdcIPListField" Structs2.CThostFtdcIPListField 79 79 79.
Definition class_CThostFtdcInputOptionSelfCloseField : class :=
  mk_class "CThostFtdcInputOptionSelfCloseField" Structs2.CThostFtdcInputOptionSelfCloseField 87 87 87.
Definition class_CThostFtdcInputOptionSelfCloseActionField : class :=
  mk_class "CThostFtdcInputOptionSelfCloseActionField" Structs2.CThostFtdcInputOptionSelfCloseActionField 86 86 86.
Definition class_CThostFtdcOptionSelfCloseField : class :=
  mk_class "CThostFtdcOptionSelfCloseField" Structs2.CThostFtdcOptionSelfCloseField 160 160 160.
Definition class_CThostFtdcOptionSelfCloseActionField : class :=
  mk_class "CThostFtdcOptionSelfCloseActionField" Structs2.CThostFtdcOptionSelfCloseActionField 159 159 159.
Definition class_CThostFtdcQryOptionSelfCloseField : class :=
  mk_class "CThostFtdcQryOptionSelfCloseField" Structs2.CThostFtdcQryOptionSelfCloseField 252 252 252.
Definition class_CThostFtdcExchangeOptionSelfCloseField : class :=
  mk_class "CThostFtdcExchangeOptionSelfCloseField" Structs2.CThostFtdcExchangeOptionSelfCloseField 57 57 57.
Definition class_CThostFtdcQryOptionSelfCloseActionField : class :=
  mk_class "CThostFtdcQryOptionSelfCloseActionField" Structs2.CThostFtdcQryOptionSelfCloseActionField 251 251 251.
Definition class_CThostFtdcExchangeOptionSelfCloseActionField : class :=
  mk_class "CThostFtdcExchangeOptionSelfCloseActionField" Structs2.CThostFtdcExchangeOptionSelfCloseActionField 56 56 56.
Definition class_CThostFtdcSyncDelaySwapField : class :=
  mk_class "CThostFtdcSyncDelaySwapField" Structs2.CThostFtdcSyncDelaySwapField 383 383 383.
Definition class_CThostFtdcQrySyncDelaySwapField : class :=
  mk_class "CThostFtdcQrySyncDelaySwapField" Structs2.CThostFtdcQrySyncDelaySwapField 291 291 291.
Definition class_CThostFtdcInvestUnitField : class :=
  mk_class "CThostFtdcInvestUnitField" Structs2.CThostFtdcInvestUnitField 100 100 100.
Definition class_CThostFtdcQryInvestUnitField : class :=
  mk_class "CThostFtdcQryInvestUnitField" Structs2.CThostFtdcQryInvestUnitField 223 223 223.
Definition class_CThostFtdcSecAgentCheckModeField : class :=
  mk_class "CThostFtdcSecAgentCheckModeField" Structs2.CThostFtdcSecAgentCheckModeField 374 374 374.
Definition class_CThostFtdcSecAgentTradeInfoField : class :=
  mk_class "CThostFtdcSecAgentTradeInfoField" Structs2.CThostFtdcSecAgentTradeInfoField 375 375 375.
Definition class_CThostFtdcMarketDataField : class :=
  mk_class "CThostFtdcMarketDataField" Structs2.CThostFtdcMarketDataField 139 139 139.
Definition class_CThostFtdcMarketDataBaseField : class :=
  mk_class "CThostFtdcMarketDataBaseField" Structs2.CThostFtdcMarketDataBaseField 134 134 134.
Definition class_CThostFtdcMarketDataStaticField : class :=
  mk_class "CThostFtdcMarketDataStaticField" Structs2.CThostFtdcMarketDataStaticField 141 141 141.
Definition class_CThostFtdcMarketDataLastMatchField : class :=
  mk_class "CThostFtdcMarketDataLastMatchField" Structs2.CThostFtdcMarketDataLastMatchField 140 140 140.
Definition class_CThostFtdcMarketDataBestPriceField : class :=
  mk_class "CThostFtdcMarketDataBestPriceField" Structs2.CThostFtdcMarketDataBestPriceField 135 135 135.
Definition class_CThostFtdcMarketDataBid23Field : class :=
  mk_class "CThostFtdcMarketDataBid23Field" Structs2.CThostFtdcMarketDataBid23Field 136 136 136.
Definition class_CThostFtdcMarketDataAsk23Field : class :=
  mk_class "CThostFtdcMarketDataAsk23Field" Structs2.CThostFtdcMarketDataAsk23Field 130 130 130.
Definition class_CThostFtdcMarketDataBid45Field : class :=
  mk_class "CThostFtdcMarketDataBid45Field" Structs2.CThostFtdcMarketDataBid45Field 137 137 137.
(** ctp_wrap.cpp, lines 223379 to 223471. *)
Definition class_CThostFtdcMarketDataAsk45Field : class :=
  mk_class "CThostFtdcMarketDataAsk45Field" Structs2.CThostFtdcMarketDataAsk45Field 131 131 131.
(** ctp_wrap.cpp, lines 223911 to 224003. *)
Definition class_CThostFtdcMarketDataUpdateTimeField : class :=
  mk_class "CThostFtdcMarketDataUpdateTimeField" Structs2.CThostFtdcMarketDataUpdateTimeField 142 142 142.
(** ctp_wrap.cpp, lines 224129 to 224221. *)
Definition class_CThostFtdcMarketDataBandingPriceField : class :=
  mk_class "CThostFtdcMarketDataBandingPriceField" Structs2.CThostFtdcMarketDataBandingPriceField 133 133 133.
(** ctp_wrap.cpp, lines 224317 to 224409. *)
Definition class_CThostFtdcMarketDataExchangeField : class :=
  mk_class "CThostFtdcMarketDataExchangeField" Structs2.CThostFtdcMarketDataExchangeField 138 138 138.
(** ctp_wrap.cpp, lines 224599 to 224691. *)
Definition class_CThostFtdcSpecificInstrumentField : class :=
  mk_class "CThostFtdcSpecificInstrumentField" Structs2.CThostFtdcSpecificInstrumentField 379 379 379.
(** ctp_wrap.cpp, lines 225537 to 225629. *)
Definition class_CThostFtdcInstrumentStatusField : class :=
  mk_class "CThostFtdcInstrumentStatusField" Structs2.CThostFtdcInstrumentStatusField 98 98 98.
(** ctp_wrap.cpp, lines 225913 to 226005. *)
Definition class_CThostFtdcQryInstrumentStatusField : class :=
  mk_class "CThostFtdcQryInstrumentStatusField" Structs2.CThostFtdcQryInstrumentStatusField 221 221 221.
(** ctp_wrap.cpp, lines 226383 to 226475. *)
Definition class_CThostFtdcInvestorAccountField : class :=
  mk_class "CThostFtdcInvestorAccountField" Structs2.CThostFtdcInvestorAccountField 101 101 101.
(** ctp_wrap.cpp, lines 226915 to 227007. *)
Definition class_CThostFtdcPositionProfitAlgorithmField : class :=
  mk_class "CThostFtdcPositionProfitAlgorithmField" Structs2.CThostFtdcPositionProfitAlgorithmField 167 167 167.
(** ctp_wrap.cpp, lines 227321 to 227413. *)
Definition class_CThostFtdcDiscountField : class :=
  mk_class "CThostFtdcDiscountField" Structs2.CThostFtdcDiscountField 40 40 40.
(** ctp_wrap.cpp, lines 227603 to 227695. *)
Definition class_CThostFtdcQryTransferBankField : class :=
  mk_class "CThostFtdcQryTransferBankField" Structs2.CThostFtdcQryTransferBankField 303 303 303.
(** ctp_wrap.cpp, lines 228041 to 228133. *)
Definition class_CThostFtdcTransferBankField : class :=
  mk_class "CThostFtdcTransferBankField" Structs2.CThostFtdcTransferBankField 452 452 452.
(** ctp_wrap.cpp, lines 228699 to 228791. *)
Definition class_CThostFtdcQryInvestorPositionDetailField : class :=
  mk_class "CThostFtdcQryInvestorPositionDetailField" Structs2.CThostFtdcQryInvestorPositionDetailField 231 231 231.
(** ctp_wrap.cpp, lines 231067 to 231159. *)
Definition class_CThostFtdcInvestorPositionDetailField : class :=
  mk_class "CThostFtdcInvestorPositionDetailField" Structs2.CThostFtdcInvestorPositionDetailField 111 111 111.
(** ctp_wrap.cpp, lines 231537 to 231629. *)
Definition class_CThostFtdcTradingAccountPasswordField : class :=
  mk_class "CThostFtdcTradingAccountPasswordField" Structs2.CThostFtdcTradingAccountPasswordField 445 445 445.
(** ctp_wrap.cpp, lines 233415 to 233507. *)
Definition class_CThostFtdcMDTraderOfferField : class :=
  mk_class "CThostFtdcMDTraderOfferField" Structs2.CThostFtdcMDTraderOfferField 125 125 125.
(** ctp_wrap.cpp, lines 233791 to 233883. *)
Definition class_CThostFtdcQryMDTraderOfferField : class :=
  mk_class "CThostFtdcQryMDTraderOfferField" Structs2.CThostFtdcQryMDTraderOfferField 240 240 240.
(** ctp_wrap.cpp, lines 233979 to 234071. *)
Definition class_CThostFtdcQryNoticeField : class :=
  mk_class "CThostFtdcQryNoticeField" Structs2.CThostFtdcQryNoticeField 247 247 247.
(** ctp_wrap.cpp, lines 234355 to 234447. *)
Definition class_CThostFtdcNoticeField : class :=
  mk_class "CThostFtdcNoticeField" Structs2.CThostFtdcNoticeField 147 147 147.
(** ctp_wrap.cpp, lines 234761 to 234853. *)
Definition class_CThostFtdcUserRightField : class :=
  mk_class "CThostFtdcUserRightField" Structs2.CThostFtdcUserRightField 466 466 466.
(** ctp_wrap.cpp, lines 235231 to 235323. *)
Definition class_CThostFtdcQrySettlementInfoConfirmField : class :=
  mk_class "CThostFtdcQrySettlementInfoConfirmField" Structs2.CThostFtdcQrySettlementInfoConfirmField 286 286 286.
(** ctp_wrap.cpp, lines 235419 to 235511. *)
Definition class_CThostFtdcLoadSettlementInfoField : class :=
  mk_class "CThostFtdcLoadSettlementInfoField" Structs2.CThostFtdcLoadSettlementInfoField 120 120 120.
(** ctp_wrap.cpp, lines 236197 to 236289. *)
Definition class_CThostFtdcBrokerWithdrawAlgorithmField : class :=
  mk_class "CThostFtdcBrokerWithdrawAlgorithmField" Structs2.CThostFtdcBrokerWithdrawAlgorithmField 19 19 19.
(** ctp_wrap.cpp, lines 236667 to 236759. *)
Definition class_CThostFtdcTradingAccountPasswordUpdateV1Field : class :=
  mk_class "CThostFtdcTradingAccountPasswordUpdateV1Field" Structs2.CThostFtdcTradingAccountPasswordUpdateV1Field 447 447 447.
(** ctp_wrap.cpp, lines 237231 to 237323. *)
Definition class_CThostFtdcTradingAccountPasswordUpdateField : class :=
  mk_class "CThostFtdcTradingAccountPasswordUpdateField" Structs2.CThostFtdcTradingAccountPasswordUpdateField 446 446 446.
(** ctp_wrap.cpp, lines 237763 to 237855. *)
Definition class_CThostFtdcQryCombinationLegField : class :=
  mk_class "CThostFtdcQryCombinationLegField" Structs2.CThostFtdcQryCombinationLegField 187 187 187.
(** ctp_wrap.cpp, lines 237951 to 238043. *)
Definition class_CThostFtdcQrySyncStatusField : class :=
  mk_class "CThostFtdcQrySyncStatusField" Structs2.CThostFtdcQrySyncStatusField 294 294 294.
(** ctp_wrap.cpp, lines 238669 to 238761. *)
Definition class_CThostFtdcCombinationLegField : class :=
  mk_class "CThostFtdcCombinationLegField" Structs2.CThostFtdcCombinationLegField 29 29 29.
(** ctp_wrap.cpp, lines 238919 to 239011. *)
Definition class_CThostFtdcSyncStatusField : class :=
  mk_class "CThostFtdcSyncStatusField" Structs2.CThostFtdcSyncStatusField 427 427 427.
(** ctp_wrap.cpp, lines 239201 to 239293. *)
Definition class_CThostFtdcQryLinkManField : class :=
  mk_class "CThostFtdcQryLinkManField" Structs2.CThostFtdcQryLinkManField 237 237 237.
(** ctp_wrap.cpp, lines 240327 to 240419. *)
Definition class_CThostFtdcLinkManField : class :=
  mk_class "CThostFtdcLinkManField" Structs2.CThostFtdcLinkManField 119 119 119.
(** ctp_wrap.cpp, lines 240671 to 240763. *)
Definition class_CThostFtdcQryBrokerUserEventField : class :=
  mk_class "CThostFtdcQryBrokerUserEventField" Structs2.CThostFtdcQryBrokerUserEventField 177 177 177.
(** ctp_wrap.cpp, lines 241797 to 241889. *)
Definition class_CThostFtdcBrokerUserEventField : class :=
  mk_class "CThostFtdcBrokerUserEventField" Structs2.CThostFtdcBrokerUserEventField 13 13 13.
(** ctp_wrap.cpp, lines 242173 to 242265. *)
Definition class_CThostFtdcQryContractBankField : class :=
  mk_class "CThostFtdcQryContractBankField" Structs2.CThostFtdcQryContractBankField 189 189 189.
(** ctp_wrap.cpp, lines 242643 to 242735. *)
Definition class_CThostFtdcContractBankField : class :=
  mk_class "CThostFtdcContractBankField" Structs2.CThostFtdcContractBankField 32 32 32.
(** ctp_wrap.cpp, lines 244547 to 244639. *)
Definition class_CThostFtdcInvestorPositionCombineDetailField : class :=
  mk_class "CThostFtdcInvestorPositionCombineDetailField" Structs2.CThostFtdcInvestorPositionCombineDetailField 110 110 110.
(** ctp_wrap.cpp, lines 247575 to 247667. *)
Definition class_CThostFtdcParkedOrderField : class :=
  mk_class "CThostFtdcParkedOrderField" Structs2.CThostFtdcParkedOrderField 164 164 164.
(** ctp_wrap.cpp, lines 249605 to 249697. *)
Definition class_CThostFtdcParkedOrderActionField : class :=
  mk_class "CThostFtdcParkedOrderActionField" Structs2.CThostFtdcParkedOrderActionField 163 163 163.
(** ctp_wrap.cpp, lines 250263 to 250355. *)
Definition class_CThostFtdcQryParkedOrderField : class :=
  mk_class "CThostFtdcQryParkedOrderField" Structs2.CThostFtdcQryParkedOrderField 256 256 256.
(** ctp_wrap.cpp, lines 250921 to 251013. *)
Definition class_CThostFtdcQryParkedOrderActionField : class :=
  mk_class "CThostFtdcQryParkedOrderActionField" Structs2.CThostFtdcQryParkedOrderActionField 255 255 255.
(** ctp_wrap.cpp, lines 251391 to 251483. *)
Definition class_CThostFtdcRemoveParkedOrderField : class :=
  mk_class "CThostFtdcRemoveParkedOrderField" Structs2.CThostFtdcRemoveParkedOrderField 322 322 322.
(** ctp_wrap.cpp, lines 251861 to 251953. *)
Definition class_CThostFtdcRemoveParkedOrderActionField : class :=
  mk_class "CThostFtdcRemoveParkedOrderActionField" Structs2.CThostFtdcRemoveParkedOrderActionField 321 321 321.
(** ctp_wrap.cpp, lines 252423 to 252515. *)
Definition class_CThostFtdcInvestorWithdrawAlgorithmField : class :=
  mk_class "CThostFtdcInvestorWithdrawAlgorithmField" Structs2.CThostFtdcInvestorWithdrawAlgorithmField 118 118 118.
(** ctp_wrap.cpp, lines 253081 to 253173. *)
Definition class_CThostFtdcQryInvestorPositionCombineDetailField : class :=
  mk_class "CThostFtdcQryInvestorPositionCombineDetailField" Structs2.CThostFtdcQryInvestorPositionCombineDetailField 230 230 230.
(** ctp_wrap.cpp, lines 253237 to 253329. *)
Definition class_CThostFtdcMarketDataAveragePriceField : class :=
  mk_class "CThostFtdcMarketDataAveragePriceField" Structs2.CThostFtdcMarketDataAveragePriceField 132 132 132.
(** ctp_wrap.cpp, lines 253613 to 253705. *)
Definition class_CThostFtdcVerifyInvestorPasswordField : class :=
  mk_class "CThostFtdcVerifyInvestorPasswordField" Structs2.CThostFtdcVerifyInvestorPasswordField 473 473 473.
(** ctp_wrap.cpp, lines 254365 to 254457. *)
Definition class_CThostFtdcUserIPField : class :=
  mk_class "CThostFtdcUserIPField" Structs2.CThostFtdcUserIPField 463 463 463.
(** ctp_wrap.cpp, lines 255053 to 255145. *)
Definition class_CThostFtdcTradingNoticeInfoField : class :=
  mk_class "CThostFtdcTradingNoticeInfoField" Structs2.CThostFtdcTradingNoticeInfoField 451 451 451.
(** ctp_wrap.cpp, lines 255897 to 255989. *)
Definition class_CThostFtdcTradingNoticeField : class :=
  mk_class "CThostFtdcTradingNoticeField" Structs2.CThostFtdcTradingNoticeField 450 450 450.
(** ctp_wrap.cpp, lines 256273 to 256365. *)
Definition class_CThostFtdcQryTradingNoticeField : class :=
  mk_class "CThostFtdcQryTradingNoticeField" Structs2.CThostFtdcQryTradingNoticeField 302 302 302.
(** ctp_wrap.cpp, lines 256555 to 256647. *)
Definition class_CThostFtdcQryErrOrderField : class :=
  mk_class "CThostFtdcQryErrOrderField" Structs2.CThostFtdcQryErrOrderField 196 196 196.
(** ctp_wrap.cpp, lines 259521 to 259613. *)
Definition class_CThostFtdcErrOrderField : class :=
  mk_class "CThostFtdcErrOrderField" Structs2.CThostFtdcErrOrderField 46 46 46.
(** ctp_wrap.cpp, lines 265079 to 265171. *)
Definition class_CThostFtdcErrorConditionalOrderField : class :=
  mk_class "CThostFtdcErrorConditionalOrderField" Structs2.CThostFtdcErrorConditionalOrderField 47 47 47.
(** ctp_wrap.cpp, lines 265361 to 265453. *)
Definition class_CThostFtdcQryErrOrderActionField : class :=
  mk_class "CThostFtdcQryErrOrderActionField" Structs2.CThostFtdcQryErrOrderActionField 195 195 195.
(** ctp_wrap.cpp, lines 268393 to 268485. *)
Definition class_CThostFtdcErrOrderActionField : class :=
  mk_class "CThostFtdcErrOrderActionField" Structs2.CThostFtdcErrOrderActionField 45 45 45.
(** ctp_wrap.cpp, lines 268581 to 268673. *)
Definition class_CThostFtdcQryExchangeSequenceField : class :=
  mk_class "CThostFtdcQryExchangeSequenceField" Structs2.CThostFtdcQryExchangeSequenceField 209 209 209.
(** ctp_wrap.cpp, lines 268893 to 268985. *)
Definition class_CThostFtdcExchangeSequenceField : class :=
  mk_class "CThostFtdcExchangeSequenceField" Structs2.CThostFtdcExchangeSequenceField 65 65 65.
(** ctp_wrap.cpp, lines 269861 to 269953. *)
Definition class_CThostFtdcQryMaxOrderVolumeWithPriceField : class :=
  mk_class "CThostFtdcQryMaxOrderVolumeWithPriceField" Structs2.CThostFtdcQryMaxOrderVolumeWithPriceField 245 245 245.
(** ctp_wrap.cpp, lines 270331 to 270423. *)
Definition class_CThostFtdcQryBrokerTradingParamsField : class :=
  mk_class "CThostFtdcQryBrokerTradingParamsField" Structs2.CThostFtdcQryBrokerTradingParamsField 176 176 176.
(** ctp_wrap.cpp, lines 271049 to 271141. *)
Definition class_CThostFtdcBrokerTradingParamsField : class :=
  mk_class "CThostFtdcBrokerTradingParamsField" Structs2.CThostFtdcBrokerTradingParamsField 12 12 12.
(** ctp_wrap.cpp, lines 271519 to 271611. *)
Definition class_CThostFtdcQryBrokerTradingAlgosField : class :=
  mk_class "CThostFtdcQryBrokerTradingAlgosField" Structs2.CThostFtdcQryBrokerTradingAlgosField 175 175 175.
(** ctp_wrap.cpp, lines 272175 to 272267. *)
Definition class_CThostFtdcBrokerTradingAlgosField : class :=
  mk_class "CThostFtdcBrokerTradingAlgosField" Structs2.CThostFtdcBrokerTradingAlgosField 11 11 11.
(** ctp_wrap.cpp, lines 272457 to 272549. *)
Definition class_CThostFtdcQueryBrokerDepositField : class :=
  mk_class "CThostFtdcQueryBrokerDepositField" Structs2.CThostFtdcQueryBrokerDepositField 307 307 307.
(** ctp_wrap.cpp, lines 273485 to 273577. *)
Definition class_CThostFtdcBrokerDepositField : class :=
  mk_class "CThostFtdcBrokerDepositField" Structs2.CThostFtdcBrokerDepositField 8 8 8.
(** ctp_wrap.cpp, lines 273673 to 273765. *)
Definition class_CThostFtdcQryCFMMCBrokerKeyField : class :=
  mk_class "CThostFtdcQryCFMMCBrokerKeyField" Structs2.CThostFtdcQryCFMMCBrokerKeyField 181 181 181.
(** ctp_wrap.cpp, lines 274361 to 274453. *)
Definition class_CThostFtdcCFMMCBrokerKeyField : class :=
  mk_class "CThostFtdcCFMMCBrokerKeyField" Structs2.CThostFtdcCFMMCBrokerKeyField 21 21 21.
(** ctp_wrap.cpp, lines 274893 to 274985. *)
Definition class_CThostFtdcCFMMCTradingAccountKeyField : class :=
  mk_class "CThostFtdcCFMMCTradingAccountKeyField" Structs2.CThostFtdcCFMMCTradingAccountKeyField 22 22 22.
(** ctp_wrap.cpp, lines 275175 to 275267. *)
Definition class_CThostFtdcQryCFMMCTradingAccountKeyField : class :=
  mk_class "CThostFtdcQryCFMMCTradingAccountKeyField" Structs2.CThostFtdcQryCFMMCTradingAccountKeyField 182 182 182.
(** ctp_wrap.cpp, lines 275925 to 276017. *)
Definition class_CThostFtdcBrokerUserOTPParamField : class :=
  mk_class "CThostFtdcBrokerUserOTPParamField" Structs2.CThostFtdcBrokerUserOTPParamField 16 16 16.
(** ctp_wrap.cpp, lines 276457 to 276549. *)
Definition class_CThostFtdcManualSyncBrokerUserOTPField : class :=
  mk_class "CThostFtdcManualSyncBrokerUserOTPField" Structs2.CThostFtdcManualSyncBrokerUserOTPField 128 128 128.
(** ctp_wrap.cpp, lines 276833 to 276925. *)
Definition class_CThostFtdcCommRateModelField : class :=
  mk_class "CThostFtdcCommRateModelField" Structs2.CThostFtdcCommRateModelField 31 31 31.
(** ctp_wrap.cpp, lines 277115 to 277207. *)
Definition class_CThostFtdcQryCommRateModelField : class :=
  mk_class "CThostFtdcQryCommRateModelField" Structs2.CThostFtdcQryCommRateModelField 188 188 188.
(** ctp_wrap.cpp, lines 277491 to 277583. *)
Definition class_CThostFtdcMarginModelField : class :=
  mk_class "CThostFtdcMarginModelField" Structs2.CThostFtdcMarginModelField 129 129 129.
(** ctp_wrap.cpp, lines 277773 to 277865. *)
Definition class_CThostFtdcQryMarginModelField : class :=
  mk_class "CThostFtdcQryMarginModelField" Structs2.CThostFtdcQryMarginModelField 243 243 243.
(** ctp_wrap.cpp, lines 278711 to 278803. *)
Definition class_CThostFtdcEWarrantOffsetField : class :=
  mk_class "CThostFtdcEWarrantOffsetField" Structs2.CThostFtdcEWarrantOffsetField 42 42 42.
(** ctp_wrap.cpp, lines 279369 to 279461. *)
Definition class_CThostFtdcQryEWarrantOffsetField : class :=
  mk_class "CThostFtdcQryEWarrantOffsetField" Structs2.CThostFtdcQryEWarrantOffsetField 192 192 192.
(** ctp_wrap.cpp, lines 280089 to 280181. *)
Definition class_CThostFtdcQryInvestorProductGroupMarginField : class :=
  mk_class "CThostFtdcQryInvestorProductGroupMarginField" Structs2.CThostFtdcQryInvestorProductGroupMarginField 236 236 236.
(** ctp_wrap.cpp, lines 282267 to 282359. *)
Definition class_CThostFtdcInvestorProductGroupMarginField : class :=
  mk_class "CThostFtdcInvestorProductGroupMarginField" Structs2.CThostFtdcInvestorProductGroupMarginField 116 116 116.
(** ctp_wrap.cpp, lines 282643 to 282735. *)
Definition class_CThostFtdcQueryCFMMCTradingAccountTokenField : class :=
  mk_class "CThostFtdcQueryCFMMCTradingAccountTokenField" Structs2.CThostFtdcQueryCFMMCTradingAccountTokenField 308 308 308.
(** ctp_wrap.cpp, lines 283175 to 283267. *)
Definition class_CThostFtdcCFMMCTradingAccountTokenField : class :=
  mk_class "CThostFtdcCFMMCTradingAccountTokenField" Structs2.CThostFtdcCFMMCTradingAccountTokenField 23 23 23.
(** ctp_wrap.cpp, lines 283551 to 283643. *)
Definition class_CThostFtdcQryProductGroupField : class :=
  mk_class "CThostFtdcQryProductGroupField" Structs2.CThostFtdcQryProductGroupField 260 260 260.
(** ctp_wrap.cpp, lines 284115 to 284207. *)
Definition class_CThostFtdcProductGroupField : class :=
  mk_class "CThostFtdcProductGroupField" Structs2.CThostFtdcProductGroupField 170 170 170.
(** ctp_wrap.cpp, lines 285241 to 285333. *)
Definition class_CThostFtdcBulletinField : class :=
  mk_class "CThostFtdcBulletinField" Structs2.CThostFtdcBulletinField 20 20 20.
(** ctp_wrap.cpp, lines 285709 to 285801. *)
Definition class_CThostFtdcQryBulletinField : class :=
  mk_class "CThostFtdcQryBulletinField" Structs2.CThostFtdcQryBulletinField 180 180 180.
(** ctp_wrap.cpp, lines 286301 to 286393. *)
Definition class_CThostFtdcMulticastInstrumentField : class :=
  mk_class "CThostFtdcMulticastInstrumentField" Structs2.CThostFtdcMulticastInstrumentField 146 146 146.
(** ctp_wrap.cpp, lines 286645 to 286737. *)
Definition class_CThostFtdcQryMulticastInstrumentField : class :=
  mk_class "CThostFtdcQryMulticastInstrumentField" Structs2.CThostFtdcQryMulticastInstrumentField 246 246 246.
(** ctp_wrap.cpp, lines 286989 to 287081. *)
Definition class_CThostFtdcAppIDAuthAssignField : class :=
  mk_class "CThostFtdcAppIDAuthAssignField" Structs2.CThostFtdcAppIDAuthAssignField 2 2 2.
(** ctp_wrap.cpp, lines 290833 to 290925. *)
Definition class_CThostFtdcReqOpenAccountField : class :=
  mk_class "CThostFtdcReqOpenAccountField" Structs2.CThostFtdcReqOpenAccountField 331 331 331.
(** ctp_wrap.cpp, lines 294677 to 294769. *)
Definition class_CThostFtdcReqCancelAccountField : class :=
  mk_class "CThostFtdcReqCancelAccountField" Structs2.CThostFtdcReqCancelAccountField 325 325 325.
(** ctp_wrap.cpp, lines 298209 to 298301. *)
Definition class_CThostFtdcReqChangeAccountField : class :=
  mk_class "CThostFtdcReqChangeAccountField" Structs2.CThostFtdcReqChangeAccountField 326 326 326.
(** ctp_wrap.cpp, lines 301799 to 301891. *)
Definition class_CThostFtdcReqTransferField : class :=
  mk_class "CThostFtdcReqTransferField" Structs2.CThostFtdcReqTransferField 336 336 336.
(** ctp_wrap.cpp, lines 305545 to 305637. *)
Definition class_CThostFtdcRspTransferField : class :=
  mk_class "CThostFtdcRspTransferField" Structs2.CThostFtdcRspTransferField 360 360 360.
(** ctp_wrap.cpp, lines 309601 to 309693. *)
Definition class_CThostFtdcReqRepealField : class :=
  mk_class "CThostFtdcReqRepealField" Structs2.CThostFtdcReqRepealField 334 334 334.
(** ctp_wrap.cpp, lines 313813 to 313905. *)
Definition class_CThostFtdcRspRepealField : class :=
  mk_class "CThostFtdcRspRepealField" Structs2.CThostFtdcRspRepealField 358 358 358.
(** ctp_wrap.cpp, lines 316937 to 317029. *)
Definition class_CThostFtdcReqQueryAccountField : class :=
  mk_class "CThostFtdcReqQueryAccountField" Structs2.CThostFtdcReqQueryAccountField 332 332 332.
(** ctp_wrap.cpp, lines 320185 to 320277. *)
Definition class_CThostFtdcRspQueryAccountField : class :=
  mk_class "CThostFtdcRspQueryAccountField" Structs2.CThostFtdcRspQueryAccountField 356 356 356.
(** ctp_wrap.cpp, lines 322061 to 322153. *)
Definition class_CThostFtdcFutureSignIOField : class :=
  mk_class "CThostFtdcFutureSignIOField" Structs2.CThostFtdcFutureSignIOField 78 78 78.
(** ctp_wrap.cpp, lines 324281 to 324373. *)
Definition class_CThostFtdcRspFutureSignInField : class :=
  mk_class "CThostFtdcRspFutureSignInField" Structs2.CThostFtdcRspFutureSignInField 351 351 351.
(** ctp_wrap.cpp, lines 326157 to 326249. *)
Definition class_CThostFtdcReqFutureSignOutField : class :=
  mk_class "CThostFtdcReqFutureSignOutField" Structs2.CThostFtdcReqFutureSignOutField 328 328 328.
(** ctp_wrap.cpp, lines 328189 to 328281. *)
Definition class_CThostFtdcRspFutureSignOutField : class :=
  mk_class "CThostFtdcRspFutureSignOutField" Structs2.CThostFtdcRspFutureSignOutField 352 352 352.
(** ctp_wrap.cpp, lines 330565 to 330657. *)
Definition class_CThostFtdcReqQueryTradeResultBySerialField : class :=
  mk_class "CThostFtdcReqQueryTradeResultBySerialField" Structs2.CThostFtdcReqQueryTradeResultBySerialField 333 333 333.
(** ctp_wrap.cpp, lines 332879 to 332971. *)
Definition class_CThostFtdcRspQueryTradeResultBySerialField : class :=
  mk_class "CThostFtdcRspQueryTradeResultBySerialField" Structs2.CThostFtdcRspQueryTradeResultBySerialField 357 357 357.
(** ctp_wrap.cpp, lines 334161 to 334253. *)
Definition class_CThostFtdcReqDayEndFileReadyField : class :=
  mk_class "CThostFtdcReqDayEndFileReadyField" Structs2.CThostFtdcReqDayEndFileReadyField 327 327 327.
(** ctp_wrap.cpp, lines 334443 to 334535. *)
Definition class_CThostFtdcReturnResultField : class :=
  mk_class "CThostFtdcReturnResultField" Structs2.CThostFtdcReturnResultField 346 346 346.
(** ctp_wrap.cpp, lines 336163 to 336255. *)
Definition class_CThostFtdcVerifyFuturePasswordField : class :=
  mk_class "CThostFtdcVerifyFuturePasswordField" Structs2.CThostFtdcVerifyFuturePasswordField 472 472 472.
(** ctp_wrap.cpp, lines 336663 to 336755. *)
Definition class_CThostFtdcVerifyCustInfoField : class :=
  mk_class "CThostFtdcVerifyCustInfoField" Structs2.CThostFtdcVerifyCustInfoField 470 470 470.
(** ctp_wrap.cpp, lines 337445 to 337537. *)
Definition class_CThostFtdcVerifyFuturePasswordAndCustInfoField : class :=
  mk_class "CThostFtdcVerifyFuturePasswordAndCustInfoField" Structs2.CThostFtdcVerifyFuturePasswordAndCustInfoField 471 471 471.
(** ctp_wrap.cpp, lines 338133 to 338225. *)
Definition class_CThostFtdcDepositResultInformField : class :=
  mk_class "CThostFtdcDepositResultInformField" Structs2.CThostFtdcDepositResultInformField 38 38 38.
(** ctp_wrap.cpp, lines 339915 to 340007. *)
Definition class_CThostFtdcReqSyncKeyField : class :=
  mk_class "CThostFtdcReqSyncKeyField" Structs2.CThostFtdcReqSyncKeyField 335 335 335.
(** ctp_wrap.cpp, lines 341853 to 341945. *)
Definition class_CThostFtdcRspSyncKeyField : class :=
  mk_class "CThostFtdcRspSyncKeyField" Structs2.CThostFtdcRspSyncKeyField 359 359 359.
(** ctp_wrap.cpp, lines 345257 to 345349. *)
Definition class_CThostFtdcNotifyQueryAccountField : class :=
  mk_class "CThostFtdcNotifyQueryAccountField" Structs2.CThostFtdcNotifyQueryAccountField 150 150 150.
(** ctp_wrap.cpp, lines 347631 to 347723. *)
Definition class_CThostFtdcTransferSerialField : class :=
  mk_class "CThostFtdcTransferSerialField" Structs2.CThostFtdcTransferSerialField 462 462 462.
(** ctp_wrap.cpp, lines 348101 to 348193. *)
Definition class_CThostFtdcQryTransferSerialField : class :=
  mk_class "CThostFtdcQryTransferSerialField" Structs2.CThostFtdcQryTransferSerialField 304 304 304.
(** ctp_wrap.cpp, lines 350321 to 350413. *)
Definition class_CThostFtdcNotifyFutureSignInField : class :=
  mk_class "CThostFtdcNotifyFutureSignInField" Structs2.CThostFtdcNotifyFutureSignInField 148 148 148.
(** ctp_wrap.cpp, lines 352353 to 352445. *)
Definition class_CThostFtdcNotifyFutureSignOutField : class :=
  mk_class "CThostFtdcNotifyFutureSignOutField" Structs3.CThostFtdcNotifyFutureSignOutField 149 149 149.
(** ctp_wrap.cpp, lines 354291 to 354383. *)
Definition class_CThostFtdcNotifySyncKeyField : class :=
  mk_class "CThostFtdcNotifySyncKeyField" Structs3.CThostFtdcNotifySyncKeyField 151 151 151.
(** ctp_wrap.cpp, lines 354855 to 354947. *)
Definition class_CThostFtdcQryAccountregisterField : class :=
  mk_class "CThostFtdcQryAccountregisterField" Structs3.CThostFtdcQryAccountregisterField 171 171 171.
(** ctp_wrap.cpp, lines 356481 to 356573. *)
Definition class_CThostFtdcAccountregisterField : class :=
  mk_class "CThostFtdcAccountregisterField" Structs3.CThostFtdcAccountregisterField 1 1 1.
(** ctp_wrap.cpp, lines 360481 to 360573. *)
Definition class_CThostFtdcOpenAccountField : class :=
  mk_class "CThostFtdcOpenAccountField" Structs3.CThostFtdcOpenAccountField 152 152 152.
(** ctp_wrap.cpp, lines 364481 to 364573. *)
Definition class_CThostFtdcCancelAccountField : class :=
  mk_class "CThostFtdcCancelAccountField" Structs3.CThostFtdcCancelAccountField 24 24 24.
(** ctp_wrap.cpp, lines 368169 to 368261. *)
Definition class_CThostFtdcChangeAccountField : class :=
  mk_class "CThostFtdcChangeAccountField" Structs3.CThostFtdcChangeAccountField 25 25 25.
(** ctp_wrap.cpp, lines 368733 to 368825. *)
Definition class_CThostFtdcSecAgentACIDMapField : class :=
  mk_class "CThostFtdcSecAgentACIDMapField" Structs3.CThostFtdcSecAgentACIDMapField 373 373 373.
(** ctp_wrap.cpp, lines 369203 to 369295. *)
Definition class_CThostFtdcQrySecAgentACIDMapField : class :=
  mk_class "CThostFtdcQrySecAgentACIDMapField" Structs3.CThostFtdcQrySecAgentACIDMapField 283 283 283.
(** ctp_wrap.cpp, lines 369547 to 369639. *)
Definition class_CThostFtdcUserRightsAssignField : class :=
  mk_class "CThostFtdcUserRightsAssignField" Structs3.CThostFtdcUserRightsAssignField 467 467 467.
(** ctp_wrap.cpp, lines 369859 to 369951. *)
Definition class_CThostFtdcBrokerUserRightAssignField : class :=
  mk_class "CThostFtdcBrokerUserRightAssignField" Structs3.CThostFtdcBrokerUserRightAssignField 18 18 18.
(** ctp_wrap.cpp, lines 370265 to 370357. *)
Definition class_CThostFtdcDRTransferField : class :=
  mk_class "CThostFtdcDRTransferField" Structs3.CThostFtdcDRTransferField 36 36 36.
(** ctp_wrap.cpp, lines 370609 to 370701. *)
Definition class_CThostFtdcFensUserInfoField : class :=
  mk_class "CThostFtdcFensUserInfoField" Structs3.CThostFtdcFensUserInfoField 70 70 70.
(** ctp_wrap.cpp, lines 370765 to 370857. *)
Definition class_CThostFtdcCurrTransferIdentityField : class :=
  mk_class "CThostFtdcCurrTransferIdentityField" Structs3.CThostFtdcCurrTransferIdentityField 34 34 34.
(** ctp_wrap.cpp, lines 371235 to 371327. *)
Definition class_CThostFtdcLoginForbiddenUserField : class :=
  mk_class "CThostFtdcLoginForbiddenUserField" Structs3.CThostFtdcLoginForbiddenUserField 122 122 122.
(** ctp_wrap.cpp, lines 371517 to 371609. *)
Definition class_CThostFtdcQryLoginForbiddenUserField : class :=
  mk_class "CThostFtdcQryLoginForbiddenUserField" Structs3.CThostFtdcQryLoginForbiddenUserField 239 239 239.
(** ctp_wrap.cpp, lines 371955 to 372047. *)
Definition class_CThostFtdcTradingAccountReserveField : class :=
  mk_class "CThostFtdcTradingAccountReserveField" Structs3.CThostFtdcTradingAccountReserveField 448 448 448.
(** ctp_wrap.cpp, lines 372237 to 372329. *)
Definition class_CThostFtdcQryLoginForbiddenIPField : class :=
  mk_class "CThostFtdcQryLoginForbiddenIPField" Structs3.CThostFtdcQryLoginForbiddenIPField 238 238 238.
(** ctp_wrap.cpp, lines 372519 to 372611. *)
Definition class_CThostFtdcQryIPListField : class :=
  mk_class "CThostFtdcQryIPListField" Structs3.CThostFtdcQryIPListField 216 216 216.
(** ctp_wrap.cpp, lines 372801 to 372893. *)
Definition class_CThostFtdcQryUserRightsAssignField : class :=
  mk_class "CThostFtdcQryUserRightsAssignField" Structs3.CThostFtdcQryUserRightsAssignField 305 305 305.
(** ctp_wrap.cpp, lines 376365 to 376457. *)
Definition class_CThostFtdcReserveOpenAccountConfirmField : class :=
  mk_class "CThostFtdcReserveOpenAccountConfirmField" Structs3.CThostFtdcReserveOpenAccountConfirmField 344 344 344.
(** ctp_wrap.cpp, lines 379521 to 379613. *)
Definition class_CThostFtdcReserveOpenAccountField : class :=
  mk_class "CThostFtdcReserveOpenAccountField" Structs3.CThostFtdcReserveOpenAccountField 345 345 345.
(** ctp_wrap.cpp, lines 380867 to 380959. *)
Definition class_CThostFtdcAccountPropertyField : class :=
  mk_class "CThostFtdcAccountPropertyField" Structs3.CThostFtdcAccountPropertyField 0 0 0.
(** ctp_wrap.cpp, lines 381023 to 381115. *)
Definition class_CThostFtdcQryCurrDRIdentityField : class :=
  mk_class "CThostFtdcQryCurrDRIdentityField" Structs3.CThostFtdcQryCurrDRIdentityField 190 190 190.
(** ctp_wrap.cpp, lines 381179 to 381271. *)
Definition class_CThostFtdcCurrDRIdentityField : class :=
  mk_class "CThostFtdcCurrDRIdentityField" Structs3.CThostFtdcCurrDRIdentityField 33 33 33.
(** ctp_wrap.cpp, lines 381461 to 381553. *)
Definition class_CThostFtdcQrySecAgentCheckModeField : class :=
  mk_class "CThostFtdcQrySecAgentCheckModeField" Structs3.CThostFtdcQrySecAgentCheckModeField 284 284 284.
(** ctp_wrap.cpp, lines 381743 to 381835. *)
Definition class_CThostFtdcQrySecAgentTradeInfoField : class :=
  mk_class "CThostFtdcQrySecAgentTradeInfoField" Structs3.CThostFtdcQrySecAgentTradeInfoField 285 285 285.
(** ctp_wrap.cpp, lines 382119 to 382211. *)
Definition class_CThostFtdcReqUserAuthMethodField : class :=
  mk_class "CThostFtdcReqUserAuthMethodField" Structs3.CThostFtdcReqUserAuthMethodField 337 337 337.
(** ctp_wrap.cpp, lines 382275 to 382367. *)
Definition class_CThostFtdcRspUserAuthMethodField : class :=
  mk_class "CThostFtdcRspUserAuthMethodField" Structs3.CThostFtdcRspUserAuthMethodField 361 361 361.
(** ctp_wrap.cpp, lines 382651 to 382743. *)
Definition class_CThostFtdcReqGenUserCaptchaField : class :=
  mk_class "CThostFtdcReqGenUserCaptchaField" Structs3.CThostFtdcReqGenUserCaptchaField 329 329 329.
(** ctp_wrap.cpp, lines 383089 to 383181. *)
Definition class_CThostFtdcRspGenUserCaptchaField : class :=
  mk_class "CThostFtdcRspGenUserCaptchaField" Structs3.CThostFtdcRspGenUserCaptchaField 353 353 353.
(** ctp_wrap.cpp, lines 383465 to 383557. *)
Definition class_CThostFtdcReqGenUserTextField : class :=
  mk_class "CThostFtdcReqGenUserTextField" Structs3.CThostFtdcReqGenUserTextField 330 330 330.
(** ctp_wrap.cpp, lines 383621 to 383713. *)
Definition class_CThostFtdcRspGenUserTextField : class :=
  mk_class "CThostFtdcRspGenUserTextField" Structs3.CThostFtdcRspGenUserTextField 354 354 354.
(** ctp_wrap.cpp, lines 384905 to 384997. *)
Definition class_CThostFtdcReqUserLoginWithCaptchaField : class :=
  mk_class "CThostFtdcReqUserLoginWithCaptchaField" Structs3.CThostFtdcReqUserLoginWithCaptchaField 340 340 340.
(** ctp_wrap.cpp, lines 386189 to 386281. *)
Definition class_CThostFtdcReqUserLoginWithTextField : class :=
  mk_class "CThostFtdcReqUserLoginWithTextField" Structs3.CThostFtdcReqUserLoginWithTextField 342 342 342.
(** ctp_wrap.cpp, lines 387473 to 387565. *)
Definition class_CThostFtdcReqUserLoginWithOTPField : class :=
  mk_class "CThostFtdcReqUserLoginWithOTPField" Structs3.CThostFtdcReqUserLoginWithOTPField 341 341 341.
(** ctp_wrap.cpp, lines 387661 to 387753. *)
Definition class_CThostFtdcReqApiHandshakeField : class :=
  mk_class "CThostFtdcReqApiHandshakeField" Structs3.CThostFtdcReqApiHandshakeField 323 323 323.
(** ctp_wrap.cpp, lines 387973 to 388065. *)
Definition class_CThostFtdcRspApiHandshakeField : class :=
  mk_class "CThostFtdcRspApiHandshakeField" Structs3.CThostFtdcRspApiHandshakeField 349 349 349.
(** ctp_wrap.cpp, lines 388223 to 388315. *)
Definition class_CThostFtdcReqVerifyApiKeyField : class :=
  mk_class "CThostFtdcReqVerifyApiKeyField" Structs3.CThostFtdcReqVerifyApiKeyField 343 343 343.
(** ctp_wrap.cpp, lines 388661 to 388753. *)
Definition class_CThostFtdcDepartmentUserField : class :=
  mk_class "CThostFtdcDepartmentUserField" Structs3.CThostFtdcDepartmentUserField 37 37 37.
(** ctp_wrap.cpp, lines 388879 to 388971. *)
Definition class_CThostFtdcQueryFreqField : class :=
  mk_class "CThostFtdcQueryFreqField" Structs3.CThostFtdcQueryFreqField 309 309 309.
(** ctp_wrap.cpp, lines 389067 to 389159. *)
Definition class_CThostFtdcAuthForbiddenIPField : class :=
  mk_class "CThostFtdcAuthForbiddenIPField" Structs3.CThostFtdcAuthForbiddenIPField 3 3 3.
(** ctp_wrap.cpp, lines 389255 to 389347. *)
Definition class_CThostFtdcQryAuthForbiddenIPField : class :=
  mk_class "CThostFtdcQryAuthForbiddenIPField" Structs3.CThostFtdcQryAuthForbiddenIPField 172 172 172.
(** ctp_wrap.cpp, lines 389849 to 389941. *)
Definition class_CThostFtdcSyncDelaySwapFrozenField : class :=
  mk_class "CThostFtdcSyncDelaySwapFrozenField" Structs3.CThostFtdcSyncDelaySwapFrozenField 384 384 384.
(** ctp_wrap.cpp, lines 390819 to 390911. *)
Definition class_CThostFtdcUserSystemInfoField : class :=
  mk_class "CThostFtdcUserSystemInfoField" Structs3.CThostFtdcUserSystemInfoField 469 469 469.
(** ctp_wrap.cpp, lines 391257 to 391349. *)
Definition class_CThostFtdcAuthUserIDField : class :=
  mk_class "CThostFtdcAuthUserIDField" Structs3.CThostFtdcAuthUserIDField 5 5 5.
(** ctp_wrap.cpp, lines 391633 to 391725. *)
Definition class_CThostFtdcAuthIPField : class :=
  mk_class "CThostFtdcAuthIPField" Structs3.CThostFtdcAuthIPField 4 4 4.
(** ctp_wrap.cpp, lines 392227 to 392319. *)
Definition class_CThostFtdcQryClassifiedInstrumentField : class :=
  mk_class "CThostFtdcQryClassifiedInstrumentField" Structs3.CThostFtdcQryClassifiedInstrumentField 183 183 183.
(** ctp_wrap.cpp, lines 392509 to 392601. *)
Definition class_CThostFtdcQryCombPromotionParamField : class :=
  mk_class "CThostFtdcQryCombPromotionParamField" Structs3.CThostFtdcQryCombPromotionParamField 186 186 186.
(** ctp_wrap.cpp, lines 392947 to 393039. *)
Definition class_CThostFtdcCombPromotionParamField : class :=
  mk_class "CThostFtdcCombPromotionParamField" Structs3.CThostFtdcCombPromotionParamField 28 28 28.
(** ctp_wrap.cpp, lines 394607 to 394699. *)
Definition class_CThostFtdcReqUserLoginSMField : class :=
  mk_class "CThostFtdcReqUserLoginSMField" Structs3.CThostFtdcReqUserLoginSMField 339 339 339.
(** ctp_wrap.cpp, lines 394983 to 395075. *)
Definition class_CThostFtdcQryRiskSettleInvstPositionField : class :=
  mk_class "CThostFtdcQryRiskSettleInvstPositionField" Structs3.CThostFtdcQryRiskSettleInvstPositionField 272 272 272.
(** ctp_wrap.cpp, lines 395171 to 395263. *)
Definition class_CThostFtdcQryRiskSettleProductStatusField : class :=
  mk_class "CThostFtdcQryRiskSettleProductStatusField" Structs3.CThostFtdcQryRiskSettleProductStatusField 273 273 273.
(** ctp_wrap.cpp, lines 398495 to 398587. *)
Definition class_CThostFtdcRiskSettleInvstPositionField : class :=
  mk_class "CThostFtdcRiskSettleInvstPositionField" Structs3.CThostFtdcRiskSettleInvstPositionField 347 347 347.
(** ctp_wrap.cpp, lines 398839 to 398931. *)
Definition class_CThostFtdcRiskSettleProductStatusField : class :=
  mk_class "CThostFtdcRiskSettleProductStatusField" Structs3.CThostFtdcRiskSettleProductStatusField 348 348 348.
(** ctp_wrap.cpp, lines 399213 to 399305. *)
Definition class_CThostFtdcSyncDeltaInfoField : class :=
  mk_class "CThostFtdcSyncDeltaInfoField" Structs3.CThostFtdcSyncDeltaInfoField 390 390 390.
(** ctp_wrap.cpp, lines 399619 to 399711. *)
Definition class_CThostFtdcSyncDeltaProductStatusField : class :=
  mk_class "CThostFtdcSyncDeltaProductStatusField" Structs3.CThostFtdcSyncDeltaProductStatusField 402 402 402.
(** ctp_wrap.cpp, lines 401829 to 401921. *)
Definition class_CThostFtdcSyncDeltaInvstPosDtlField : class :=
  mk_class "CThostFtdcSyncDeltaInvstPosDtlField" Structs3.CThostFtdcSyncDeltaInvstPosDtlField 397 397 397.
(** ctp_wrap.cpp, lines 403481 to 403573. *)
Definition class_CThostFtdcSyncDeltaInvstPosCombDtlField : class :=
  mk_class "CThostFtdcSyncDeltaInvstPosCombDtlField" Structs3.CThostFtdcSyncDeltaInvstPosCombDtlField 396 396 396.
(** ctp_wrap.cpp, lines 406741 to 406833. *)
Definition class_CThostFtdcSyncDeltaTradingAccountField : class :=
  mk_class "CThostFtdcSyncDeltaTradingAccountField" Structs3.CThostFtdcSyncDeltaTradingAccountField 423 423 423.
(** ctp_wrap.cpp, lines 407829 to 407921. *)
Definition class_CThostFtdcSyncDeltaInitInvstMarginField : class :=
  mk_class "CThostFtdcSyncDeltaInitInvstMarginField" Structs3.CThostFtdcSyncDeltaInitInvstMarginField 391 391 391.
(** ctp_wrap.cpp, lines 408733 to 408825. *)
Definition class_CThostFtdcSyncDeltaDceCombInstrumentField : class :=
  mk_class "CThostFtdcSyncDeltaDceCombInstrumentField" Structs3.CThostFtdcSyncDeltaDceCombInstrumentField 385 385 385.
(** ctp_wrap.cpp, lines 409667 to 409759. *)
Definition class_CThostFtdcSyncDeltaInvstMarginRateField : class :=
  mk_class "CThostFtdcSyncDeltaInvstMarginRateField" Structs3.CThostFtdcSyncDeltaInvstMarginRateField 394 394 394.
(** ctp_wrap.cpp, lines 410383 to 410475. *)
Definition class_CThostFtdcSyncDeltaExchMarginRateField : class :=
  mk_class "CThostFtdcSyncDeltaExchMarginRateField" Structs3.CThostFtdcSyncDeltaExchMarginRateField 388 388 388.
(** ctp_wrap.cpp, lines 411285 to 411377. *)
Definition class_CThostFtdcSyncDeltaOptExchMarginField : class :=
  mk_class "CThostFtdcSyncDeltaOptExchMarginField" Structs3.CThostFtdcSyncDeltaOptExchMarginField 398 398 398.
(** ctp_wrap.cpp, lines 412405 to 412497. *)
Definition class_CThostFtdcSyncDeltaOptInvstMarginField : class :=
  mk_class "CThostFtdcSyncDeltaOptInvstMarginField" Structs3.CThostFtdcSyncDeltaOptInvstMarginField 400 400 400.
(** ctp_wrap.cpp, lines 413277 to 413369. *)
Definition class_CThostFtdcSyncDeltaInvstMarginRateULField : class :=
  mk_class "CThostFtdcSyncDeltaInvstMarginRateULField" Structs3.CThostFtdcSyncDeltaInvstMarginRateULField 395 395 395.
(** ctp_wrap.cpp, lines 414335 to 414427. *)
Definition class_CThostFtdcSyncDeltaOptInvstCommRateField : class :=
  mk_class "CThostFtdcSyncDeltaOptInvstCommRateField" Structs3.CThostFtdcSyncDeltaOptInvstCommRateField 399 399 399.
(** ctp_wrap.cpp, lines 415269 to 415361. *)
Definition class_CThostFtdcSyncDeltaInvstCommRateField : class :=
  mk_class "CThostFtdcSyncDeltaInvstCommRateField" Structs3.CThostFtdcSyncDeltaInvstCommRateField 393 393 393.
(** ctp_wrap.cpp, lines 415737 to 415829. *)
Definition class_CThostFtdcSyncDeltaProductExchRateField : class :=
  mk_class "CThostFtdcSyncDeltaProductExchRateField" Structs3.CThostFtdcSyncDeltaProductExchRateField 401 401 401.
(** ctp_wrap.cpp, lines 418999 to 419091. *)
Definition class_CThostFtdcSyncDeltaDepthMarketDataField : class :=
  mk_class "CThostFtdcSyncDeltaDepthMarketDataField" Structs3.CThostFtdcSyncDeltaDepthMarketDataField 386 386 386.
(** ctp_wrap.cpp, lines 419467 to 419559. *)
Definition class_CThostFtdcSyncDeltaIndexPriceField : class :=
  mk_class "CThostFtdcSyncDeltaIndexPriceField" Structs3.CThostFtdcSyncDeltaIndexPriceField 389 389 389.
(** ctp_wrap.cpp, lines 420341 to 420433. *)
Definition class_CThostFtdcSyncDeltaEWarrantOffsetField : class :=
  mk_class "CThostFtdcSyncDeltaEWarrantOffsetField" Structs3.CThostFtdcSyncDeltaEWarrantOffsetField 387 387 387.
(** ctp_wrap.cpp, lines 421245 to 421337. *)
Definition class_CThostFtdcSPBMFutureParameterField : class :=
  mk_class "CThostFtdcSPBMFutureParameterField" Structs3.CThostFtdcSPBMFutureParameterField 365 365 365.
(** ctp_wrap.cpp, lines 422025 to 422117. *)
Definition class_CThostFtdcSPBMOptionParameterField : class :=
  mk_class "CThostFtdcSPBMOptionParameterField" Structs3.CThostFtdcSPBMOptionParameterField 369 369 369.
(** ctp_wrap.cpp, lines 422525 to 422617. *)
Definition class_CThostFtdcSPBMIntraParameterField : class :=
  mk_class "CThostFtdcSPBMIntraParameterField" Structs3.CThostFtdcSPBMIntraParameterField 367 367 367.
(** ctp_wrap.cpp, lines 423119 to 423211. *)
Definition class_CThostFtdcSPBMInterParameterField : class :=
  mk_class "CThostFtdcSPBMInterParameterField" Structs3.CThostFtdcSPBMInterParameterField 366 366 366.
(** ctp_wrap.cpp, lines 423307 to 423399. *)
Definition class_CThostFtdcSyncSPBMParameterEndField : class :=
  mk_class "CThostFtdcSyncSPBMParameterEndField" Structs3.CThostFtdcSyncSPBMParameterEndField 426 426 426.
(** ctp_wrap.cpp, lines 423683 to 423775. *)
Definition class_CThostFtdcQrySPBMFutureParameterField : class :=
  mk_class "CThostFtdcQrySPBMFutureParameterField" Structs3.CThostFtdcQrySPBMFutureParameterField 275 275 275.
(** ctp_wrap.cpp, lines 424059 to 424151. *)
Definition class_CThostFtdcQrySPBMOptionParameterField : class :=
  mk_class "CThostFtdcQrySPBMOptionParameterField" Structs3.CThostFtdcQrySPBMOptionParameterField 279 279 279.
(** ctp_wrap.cpp, lines 424341 to 424433. *)
Definition class_CThostFtdcQrySPBMIntraParameterField : class :=
  mk_class "CThostFtdcQrySPBMIntraParameterField" Structs3.CThostFtdcQrySPBMIntraParameterField 277 277 277.
(** ctp_wrap.cpp, lines 424717 to 424809. *)
Definition class_CThostFtdcQrySPBMInterParameterField : class :=
  mk_class "CThostFtdcQrySPBMInterParameterField" Structs3.CThostFtdcQrySPBMInterParameterField 276 276 276.
(** ctp_wrap.cpp, lines 425123 to 425215. *)
Definition class_CThostFtdcSPBMPortfDefinitionField : class :=
  mk_class "CThostFtdcSPBMPortfDefinitionField" Structs3.CThostFtdcSPBMPortfDefinitionField 370 370 370.
(** ctp_wrap.cpp, lines 425561 to 425653. *)
Definition class_CThostFtdcSPBMInvestorPortfDefField : class :=
  mk_class "CThostFtdcSPBMInvestorPortfDefField" Structs3.CThostFtdcSPBMInvestorPortfDefField 368 368 368.
(** ctp_wrap.cpp, lines 426155 to 426247. *)
Definition class_CThostFtdcInvestorPortfMarginRatioField : class :=
  mk_class "CThostFtdcInvestorPortfMarginRatioField" Structs3.CThostFtdcInvestorPortfMarginRatioField 108 108 108.
(** ctp_wrap.cpp, lines 426499 to 426591. *)
Definition class_CThostFtdcQrySPBMPortfDefinitionField : class :=
  mk_class "CThostFtdcQrySPBMPortfDefinitionField" Structs3.CThostFtdcQrySPBMPortfDefinitionField 280 280 280.
(** ctp_wrap.cpp, lines 426875 to 426967. *)
Definition class_CThostFtdcQrySPBMInvestorPortfDefField : class :=
  mk_class "CThostFtdcQrySPBMInvestorPortfDefField" Structs3.CThostFtdcQrySPBMInvestorPortfDefField 278 278 278.
(** ctp_wrap.cpp, lines 427345 to 427437. *)
Definition class_CThostFtdcQryInvestorPortfMarginRatioField : class :=
  mk_class "CThostFtdcQryInvestorPortfMarginRatioField" Structs3.CThostFtdcQryInvestorPortfMarginRatioField 228 228 228.
(** ctp_wrap.cpp, lines 428869 to 428961. *)
Definition class_CThostFtdcInvestorProdSPBMDetailField : class :=
  mk_class "CThostFtdcInvestorProdSPBMDetailField" Structs3.CThostFtdcInvestorProdSPBMDetailField 115 115 115.
(** ctp_wrap.cpp, lines 429339 to 429431. *)
Definition class_CThostFtdcQryInvestorProdSPBMDetailField : class :=
  mk_class "CThostFtdcQryInvestorProdSPBMDetailField" Structs3.CThostFtdcQryInvestorProdSPBMDetailField 235 235 235.
(** ctp_wrap.cpp, lines 429901 to 429993. *)
Definition class_CThostFtdcPortfTradeParamSettingField : class :=
  mk_class "CThostFtdcPortfTradeParamSettingField" Structs3.CThostFtdcPortfTradeParamSettingField 166 166 166.
(** ctp_wrap.cpp, lines 430245 to 430337. *)
Definition class_CThostFtdcInvestorTradingRightField : class :=
  mk_class "CThostFtdcInvestorTradingRightField" Structs3.CThostFtdcInvestorTradingRightField 117 117 117.
(** ctp_wrap.cpp, lines 430651 to 430743. *)
Definition class_CThostFtdcMortgageParamField : class :=
  mk_class "CThostFtdcMortgageParamField" Structs3.CThostFtdcMortgageParamField 145 145 145.
(** ctp_wrap.cpp, lines 431089 to 431181. *)
Definition class_CThostFtdcWithDrawParamField : class :=
  mk_class "CThostFtdcWithDrawParamField" Structs3.CThostFtdcWithDrawParamField 474 474 474.
(** ctp_wrap.cpp, lines 431433 to 431525. *)
Definition class_CThostFtdcThostUserFunctionField : class :=
  mk_class "CThostFtdcThostUserFunctionField" Structs3.CThostFtdcThostUserFunctionField 436 436 436.
(** ctp_wrap.cpp, lines 431715 to 431807. *)
Definition class_CThostFtdcQryThostUserFunctionField : class :=
  mk_class "CThostFtdcQryThostUserFunctionField" Structs3.CThostFtdcQryThostUserFunctionField 295 295 295.
(** ctp_wrap.cpp, lines 432309 to 432401. *)
Definition class_CThostFtdcSPBMAddOnInterParameterField : class :=
  mk_class "CThostFtdcSPBMAddOnInterParameterField" Structs3.CThostFtdcSPBMAddOnInterParameterField 364 364 364.
(** ctp_wrap.cpp, lines 432685 to 432777. *)
Definition class_CThostFtdcQrySPBMAddOnInterParameterField : class :=
  mk_class "CThostFtdcQrySPBMAddOnInterParameterField" Structs3.CThostFtdcQrySPBMAddOnInterParameterField 274 274 274.
(** ctp_wrap.cpp, lines 433061 to 433153. *)
Definition class_CThostFtdcQryInvestorCommoditySPMMMarginField : class :=
  mk_class "CThostFtdcQryInvestorCommoditySPMMMarginField" Structs3.CThostFtdcQryInvestorCommoditySPMMMarginField 225 225 225.
(** ctp_wrap.cpp, lines 433437 to 433529. *)
Definition class_CThostFtdcQryInvestorCommodityGroupSPMMMarginField : class :=
  mk_class "CThostFtdcQryInvestorCommodityGroupSPMMMarginField" Structs3.CThostFtdcQryInvestorCommodityGroupSPMMMarginField 224 224 224.
(** ctp_wrap.cpp, lines 433625 to 433717. *)
Definition class_CThostFtdcQrySPMMInstParamField : class :=
  mk_class "CThostFtdcQrySPMMInstParamField" Structs3.CThostFtdcQrySPMMInstParamField 281 281 281.
(** ctp_wrap.cpp, lines 433813 to 433905. *)
Definition class_CThostFtdcQrySPMMProductParamField : class :=
  mk_class "CThostFtdcQrySPMMProductParamField" Structs3.CThostFtdcQrySPMMProductParamField 282 282 282.
(** ctp_wrap.cpp, lines 435461 to 435553. *)
Definition class_CThostFtdcInvestorCommoditySPMMMarginField : class :=
  mk_class "CThostFtdcInvestorCommoditySPMMMarginField" Structs3.CThostFtdcInvestorCommoditySPMMMarginField 103 103 103.
(** ctp_wrap.cpp, lines 436985 to 437077. *)
Definition class_CThostFtdcInvestorCommodityGroupSPMMMarginField : class :=
  mk_class "CThostFtdcInvestorCommodityGroupSPMMMarginField" Structs3.CThostFtdcInvestorCommodityGroupSPMMMarginField 102 102 102.
(** ctp_wrap.cpp, lines 437517 to 437609. *)
Definition class_CThostFtdcSPMMInstParamField : class :=
  mk_class "CThostFtdcSPMMInstParamField" Structs3.CThostFtdcSPMMInstParamField 371 371 371.
(** ctp_wrap.cpp, lines 437987 to 438079. *)
Definition class_CThostFtdcSPMMProductParamField : class :=
  mk_class "CThostFtdcSPMMProductParamField" Structs3.CThostFtdcSPMMProductParamField 372 372 372.
(** ctp_wrap.cpp, lines 438175 to 438267. *)
Definition class_CThostFtdcQryTraderAssignField : class :=
  mk_class "CThostFtdcQryTraderAssignField" Structs3.CThostFtdcQryTraderAssignField 297 297 297.
(** ctp_wrap.cpp, lines 438707 to 438799. *)
Definition class_CThostFtdcTraderAssignField : class :=
  mk_class "CThostFtdcTraderAssignField" Structs3.CThostFtdcTraderAssignField 440 440 440.
(** ctp_wrap.cpp, lines 439363 to 439455. *)
Definition class_CThostFtdcInvestorInfoCntSettingField : class :=
  mk_class "CThostFtdcInvestorInfoCntSettingField" Structs3.CThostFtdcInvestorInfoCntSettingField 106 106 106.
(** ctp_wrap.cpp, lines 439927 to 440019. *)
Definition class_CThostFtdcRCAMSCombProductInfoField : class :=
  mk_class "CThostFtdcRCAMSCombProductInfoField" Structs3.CThostFtdcRCAMSCombProductInfoField 312 312 312.
(** ctp_wrap.cpp, lines 440365 to 440457. *)
Definition class_CThostFtdcRCAMSInstrParameterField : class :=
  mk_class "CThostFtdcRCAMSInstrParameterField" Structs3.CThostFtdcRCAMSInstrParameterField 313 313 313.
(** ctp_wrap.cpp, lines 440803 to 440895. *)
Definition class_CThostFtdcRCAMSIntraParameterField : class :=
  mk_class "CThostFtdcRCAMSIntraParameterField" Structs3.CThostFtdcRCAMSIntraParameterField 315 315 315.
(** ctp_wrap.cpp, lines 441491 to 441583. *)
Definition class_CThostFtdcRCAMSInterParameterField : class :=
  mk_class "CThostFtdcRCAMSInterParameterField" Structs3.CThostFtdcRCAMSInterParameterField 314 314 314.
(** ctp_wrap.cpp, lines 441991 to 442083. *)
Definition class_CThostFtdcRCAMSShortOptAdjustParamField : class :=
  mk_class "CThostFtdcRCAMSShortOptAdjustParamField" Structs3.CThostFtdcRCAMSShortOptAdjustParamField 317 317 317.
(** ctp_wrap.cpp, lines 443021 to 443113. *)
Definition class_CThostFtdcRCAMSInvestorCombPositionField : class :=
  mk_class "CThostFtdcRCAMSInvestorCombPositionField" Structs3.CThostFtdcRCAMSInvestorCombPositionField 316 316 316.
(** ctp_wrap.cpp, lines 444949 to 445041. *)
Definition class_CThostFtdcInvestorProdRCAMSMarginField : class :=
  mk_class "CThostFtdcInvestorProdRCAMSMarginField" Structs3.CThostFtdcInvestorProdRCAMSMarginField 113 113 113.
(** ctp_wrap.cpp, lines 445325 to 445417. *)
Definition class_CThostFtdcQryRCAMSCombProductInfoField : class :=
  mk_class "CThostFtdcQryRCAMSCombProductInfoField" Structs3.CThostFtdcQryRCAMSCombProductInfoField 263 263 263.
(** ctp_wrap.cpp, lines 445513 to 445605. *)
Definition class_CThostFtdcQryRCAMSInstrParameterField : class :=
  mk_class "CThostFtdcQryRCAMSInstrParameterField" Structs3.CThostFtdcQryRCAMSInstrParameterField 264 264 264.
(** ctp_wrap.cpp, lines 445701 to 445793. *)
Definition class_CThostFtdcQryRCAMSIntraParameterField : class :=
  mk_class "CThostFtdcQryRCAMSIntraParameterField" Structs3.CThostFtdcQryRCAMSIntraParameterField 266 266 266.
(** ctp_wrap.cpp, lines 446077 to 446169. *)
Definition class_CThostFtdcQryRCAMSInterParameterField : class :=
  mk_class "CThostFtdcQryRCAMSInterParameterField" Structs3.CThostFtdcQryRCAMSInterParameterField 265 265 265.
(** ctp_wrap.cpp, lines 446265 to 446357. *)
Definition class_CThostFtdcQryRCAMSShortOptAdjustParamField : class :=
  mk_class "CThostFtdcQryRCAMSShortOptAdjustParamField" Structs3.CThostFtdcQryRCAMSShortOptAdjustParamField 268 268 268.
(** ctp_wrap.cpp, lines 446735 to 446827. *)
Definition class_CThostFtdcQryRCAMSInvestorCombPositionField : class :=
  mk_class "CThostFtdcQryRCAMSInvestorCombPositionField" Structs3.CThostFtdcQryRCAMSInvestorCombPositionField 267 267 267.
(** ctp_wrap.cpp, lines 447205 to 447297. *)
Definition class_CThostFtdcQryInvestorProdRCAMSMarginField : class :=
  mk_class "CThostFtdcQryInvestorProdRCAMSMarginField" Structs3.CThostFtdcQryInvestorProdRCAMSMarginField 233 233 233.
(** ctp_wrap.cpp, lines 448171 to 448263. *)
Definition class_CThostFtdcRULEInstrParameterField : class :=
  mk_class "CThostFtdcRULEInstrParameterField" Structs3.CThostFtdcRULEInstrParameterField 318 318 318.
(** ctp_wrap.cpp, lines 448827 to 448919. *)
Definition class_CThostFtdcRULEIntraParameterField : class :=
  mk_class "CThostFtdcRULEIntraParameterField" Structs3.CThostFtdcRULEIntraParameterField 320 320 320.
(** ctp_wrap.cpp, lines 449701 to 449793. *)
Definition class_CThostFtdcRULEInterParameterField : class :=
  mk_class "CThostFtdcRULEInterParameterField" Structs3.CThostFtdcRULEInterParameterField 319 319 319.
(** ctp_wrap.cpp, lines 449983 to 450075. *)
Definition class_CThostFtdcQryRULEInstrParameterField : class :=
  mk_class "CThostFtdcQryRULEInstrParameterField" Structs3.CThostFtdcQryRULEInstrParameterField 269 269 269.
(** ctp_wrap.cpp, lines 450265 to 450357. *)
Definition class_CThostFtdcQryRULEIntraParameterField : class :=
  mk_class "CThostFtdcQryRULEIntraParameterField" Structs3.CThostFtdcQryRULEIntraParameterField 271 271 271.
(** ctp_wrap.cpp, lines 450703 to 450795. *)
Definition class_CThostFtdcQryRULEInterParameterField : class :=
  mk_class "CThostFtdcQryRULEInterParameterField" Structs3.CThostFtdcQryRULEInterParameterField 270 270 270.
(** ctp_wrap.cpp, lines 452599 to 452691. *)
Definition class_CThostFtdcInvestorProdRULEMarginField : class :=
  mk_class "CThostFtdcInvestorProdRULEMarginField" Structs3.CThostFtdcInvestorProdRULEMarginField 114 114 114.
(** ctp_wrap.cpp, lines 453131 to 453223. *)
Definition class_CThostFtdcQryInvestorProdRULEMarginField : class :=
  mk_class "CThostFtdcQryInvestorProdRULEMarginField" Structs3.CThostFtdcQryInvestorProdRULEMarginField 234 234 234.
(** ctp_wrap.cpp, lines 453661 to 453753. *)
Definition class_CThostFtdcSyncDeltaSPBMPortfDefinitionField : class :=
  mk_class "CThostFtdcSyncDeltaSPBMPortfDefinitionField" Structs3.CThostFtdcSyncDeltaSPBMPortfDefinitionField 419 419 419.
(** ctp_wrap.cpp, lines 454223 to 454315. *)
Definition class_CThostFtdcSyncDeltaSPBMInvstPortfDefField : class :=
  mk_class "CThostFtdcSyncDeltaSPBMInvstPortfDefField" Structs3.CThostFtdcSyncDeltaSPBMInvstPortfDefField 417 417 417.
(** ctp_wrap.cpp, lines 455251 to 455343. *)
Definition class_CThostFtdcSyncDeltaSPBMFutureParameterField : class :=
  mk_class "CThostFtdcSyncDeltaSPBMFutureParameterField" Structs3.CThostFtdcSyncDeltaSPBMFutureParameterField 414 414 414.
(** ctp_wrap.cpp, lines 456155 to 456247. *)
Definition class_CThostFtdcSyncDeltaSPBMOptionParameterField : class :=
  mk_class "CThostFtdcSyncDeltaSPBMOptionParameterField" Structs3.CThostFtdcSyncDeltaSPBMOptionParameterField 418 418 418.
(** ctp_wrap.cpp, lines 456779 to 456871. *)
Definition class_CThostFtdcSyncDeltaSPBMIntraParameterField : class :=
  mk_class "CThostFtdcSyncDeltaSPBMIntraParameterField" Structs3.CThostFtdcSyncDeltaSPBMIntraParameterField 416 416 416.
(** ctp_wrap.cpp, lines 457497 to 457589. *)
Definition class_CThostFtdcSyncDeltaSPBMInterParameterField : class :=
  mk_class "CThostFtdcSyncDeltaSPBMInterParameterField" Structs3.CThostFtdcSyncDeltaSPBMInterParameterField 415 415 415.
(** ctp_wrap.cpp, lines 458215 to 458307. *)
Definition class_CThostFtdcSyncDeltaSPBMAddOnInterParamField : class :=
  mk_class "CThostFtdcSyncDeltaSPBMAddOnInterParamField" Structs3.CThostFtdcSyncDeltaSPBMAddOnInterParamField 413 413 413.
(** ctp_wrap.cpp, lines 458871 to 458963. *)
Definition class_CThostFtdcSyncDeltaSPMMInstParamField : class :=
  mk_class "CThostFtdcSyncDeltaSPMMInstParamField" Structs3.CThostFtdcSyncDeltaSPMMInstParamField 420 420 420.
(** ctp_wrap.cpp, lines 459465 to 459557. *)
Definition class_CThostFtdcSyncDeltaSPMMProductParamField : class :=
  mk_class "CThostFtdcSyncDeltaSPMMProductParamField" Structs3.CThostFtdcSyncDeltaSPMMProductParamField 422 422 422.
(** ctp_wrap.cpp, lines 460059 to 460151. *)
Definition class_CThostFtdcSyncDeltaInvestorSPMMModelField : class :=
  mk_class "CThostFtdcSyncDeltaInvestorSPMMModelField" Structs3.CThostFtdcSyncDeltaInvestorSPMMModelField 392 392 392.
(** ctp_wrap.cpp, lines 460807 to 460899. *)
Definition class_CThostFtdcSyncDeltaSPMMModelParamField : class :=
  mk_class "CThostFtdcSyncDeltaSPMMModelParamField" Structs3.CThostFtdcSyncDeltaSPMMModelParamField 421 421 421.
(** ctp_wrap.cpp, lines 461495 to 461587. *)
Definition class_CThostFtdcSyncDeltaRCAMSCombProdInfoField : class :=
  mk_class "CThostFtdcSyncDeltaRCAMSCombProdInfoField" Structs3.CThostFtdcSyncDeltaRCAMSCombProdInfoField 403 403 403.
(** ctp_wrap.cpp, lines 462057 to 462149. *)
Definition class_CThostFtdcSyncDeltaRCAMSInstrParameterField : class :=
  mk_class "CThostFtdcSyncDeltaRCAMSInstrParameterField" Structs3.CThostFtdcSyncDeltaRCAMSInstrParameterField 405 405 405.
(** ctp_wrap.cpp, lines 462619 to 462711. *)
Definition class_CThostFtdcSyncDeltaRCAMSIntraParameterField : class :=
  mk_class "CThostFtdcSyncDeltaRCAMSIntraParameterField" Structs3.CThostFtdcSyncDeltaRCAMSIntraParameterField 407 407 407.
(** ctp_wrap.cpp, lines 463431 to 463523. *)
Definition class_CThostFtdcSyncDeltaRCAMSInterParameterField : class :=
  mk_class "CThostFtdcSyncDeltaRCAMSInterParameterField" Structs3.CThostFtdcSyncDeltaRCAMSInterParameterField 406 406 406.
(** ctp_wrap.cpp, lines 464055 to 464147. *)
Definition class_CThostFtdcSyncDeltaRCAMSSOptAdjParamField : class :=
  mk_class "CThostFtdcSyncDeltaRCAMSSOptAdjParamField" Structs3.CThostFtdcSyncDeltaRCAMSSOptAdjParamField 409 409 409.
(** ctp_wrap.cpp, lines 465209 to 465301. *)
Definition class_CThostFtdcSyncDeltaRCAMSCombRuleDtlField : class :=
  mk_class "CThostFtdcSyncDeltaRCAMSCombRuleDtlField" Structs3.CThostFtdcSyncDeltaRCAMSCombRuleDtlField 404 404 404.
(** ctp_wrap.cpp, lines 466363 to 466455. *)
Definition class_CThostFtdcSyncDeltaRCAMSInvstCombPosField : class :=
  mk_class "CThostFtdcSyncDeltaRCAMSInvstCombPosField" Structs3.CThostFtdcSyncDeltaRCAMSInvstCombPosField 408 408 408.
(** ctp_wrap.cpp, lines 467453 to 467545. *)
Definition class_CThostFtdcSyncDeltaRULEInstrParameterField : class :=
  mk_class "CThostFtdcSyncDeltaRULEInstrParameterField" Structs3.CThostFtdcSyncDeltaRULEInstrParameterField 410 410 410.
(** ctp_wrap.cpp, lines 468233 to 468325. *)
Definition class_CThostFtdcSyncDeltaRULEIntraParameterField : class :=
  mk_class "CThostFtdcSyncDeltaRULEIntraParameterField" Structs3.CThostFtdcSyncDeltaRULEIntraParameterField 412 412 412.
(** ctp_wrap.cpp, lines 469231 to 469323. *)
Definition class_CThostFtdcSyncDeltaRULEInterParameterField : class :=
  mk_class "CThostFtdcSyncDeltaRULEInterParameterField" Structs3.CThostFtdcSyncDeltaRULEInterParameterField 411 411 411.
(** ctp_wrap.cpp, lines 469419 to 469511. *)
Definition class_CThostFtdcExitEmergencyField : class :=
  mk_class "CThostFtdcExitEmergencyField" Structs3.CThostFtdcExitEmergencyField 69 69 69.
(** ctp_wrap.cpp, lines 469795 to 469887. *)
Definition class_CThostFtdcInvestorPortfMarginModelField : class :=
  mk_class "CThostFtdcInvestorPortfMarginModelField" Structs3.CThostFtdcInvestorPortfMarginModelField 107 107 107.
(** ctp_wrap.cpp, lines 470295 to 470387. *)
Definition class_CThostFtdcInvestorPortfSettingField : class :=
  mk_class "CThostFtdcInvestorPortfSettingField" Structs3.CThostFtdcInvestorPortfSettingField 109 109 109.
(** ctp_wrap.cpp, lines 470671 to 470763. *)
Definition class_CThostFtdcQryInvestorPortfSettingField : class :=
  mk_class "CThostFtdcQryInvestorPortfSettingField" Structs3.CThostFtdcQryInvestorPortfSettingField 229 229 229.
(** ctp_wrap.cpp, lines 470983 to 471075. *)
Definition class_CThostFtdcFrontInfoField : class :=
  mk_class "CThostFtdcFrontInfoField" Structs3.CThostFtdcFrontInfoField 75 75 75.

(** All of them, in the order of the source. *)
Definition ctp_classes : list class :=
  [ class_CThostFtdcDisseminationField;
    class_CThostFtdcReqUserLoginField;
    class_CThostFtdcRspUserLoginField;
    class_CThostFtdcUserLogoutField;
    class_CThostFtdcForceUserLogoutField;
    class_CThostFtdcReqAuthenticateField;
    class_CThostFtdcRspAuthenticateField;
    class_CThostFtdcAuthenticationInfoField;
    class_CThostFtdcRspUserLogin2Field;
    class_CThostFtdcTransferHeaderField;
    class_CThostFtdcTransferBankToFutureReqField;
    class_CThostFtdcTransferBankToFutureRspField;
    class_CThostFtdcTransferFutureToBankReqField;
    class_CThostFtdcTransferFutureToBankRspField;
    class_CThostFtdcTransferQryBankReqField;
    class_CThostFtdcTransferQryBankRspField;
    class_CThostFtdcTransferQryDetailReqField;
    class_CThostFtdcTransferQryDetailRspField;
    class_CThostFtdcRspInfoField;
    class_CThostFtdcExchangeField;
    class_CThostFtdcProductField;
    class_CThostFtdcInstrumentField;
    class_CThostFtdcBrokerField;
    class_CThostFtdcTraderField;
    class_CThostFtdcInvestorField;
    class_CThostFtdcTradingCodeField;
    class_CThostFtdcPartBrokerField;
    class_CThostFtdcSuperUserField;
    class_CThostFtdcSuperUserFunctionField;
    class_CThostFtdcInvestorGroupField;
    class_CThostFtdcTradingAccountField;
    class_CThostFtdcInvestorPositionField;
    class_CThostFtdcInstrumentMarginRateField;
    class_CThostFtdcInstrumentCommissionRateField;
    class_CThostFtdcDepthMarketDataField;
    class_CThostFtdcInstrumentTradingRightField;
    class_CThostFtdcBrokerUserField;
    class_CThostFtdcBrokerUserPasswordField;
    class_CThostFtdcBrokerUserFunctionField;
    class_CThostFtdcTraderOfferField;
    class_CThostFtdcSettlementInfoField;
    class_CThostFtdcInstrumentMarginRateAdjustField;
    class_CThostFtdcExchangeMarginRateField;
    class_CThostFtdcExchangeMarginRateAdjustField;
    class_CThostFtdcExchangeRateField;
    class_CThostFtdcSettlementRefField;
    class_CThostFtdcCurrentTimeField;
    class_CThostFtdcCommPhaseField;
    class_CThostFtdcLoginInfoField;
    class_CThostFtdcLogoutAllField;
    class_CThostFtdcFrontStatusField;
    class_CThostFtdcUserPasswordUpdateField;
    class_CThostFtdcInputOrderField;
    class_CThostFtdcOrderField;
    class_CThostFtdcExchangeOrderField;
    class_CThostFtdcExchangeOrderInsertErrorField;
    class_CThostFtdcInputOrderActionField;
    class_CThostFtdcOrderActionField;
    class_CThostFtdcExchangeOrderActionField;
    class_CThostFtdcExchangeOrderActionErrorField;
    class_CThostFtdcExchangeTradeField;
    class_CThostFtdcTradeField;
    class_CThostFtdcUserSessionField;
    class_CThostFtdcQryMaxOrderVolumeField;
    class_CThostFtdcSettlementInfoConfirmField;
    class_CThostFtdcSyncDepositField;
    class_CThostFtdcSyncFundMortgageField;
    class_CThostFtdcBrokerSyncField;
    class_CThostFtdcSyncingInvestorField;
    class_CThostFtdcSyncingTradingCodeField;
    class_CThostFtdcSyncingInvestorGroupField;
    class_CThostFtdcSyncingTradingAccountField;
    class_CThostFtdcSyncingInvestorPositionField;
    class_CThostFtdcSyncingInstrumentMarginRateField;
    class_CThostFtdcSyncingInstrumentCommissionRateField;
    class_CThostFtdcSyncingInstrumentTradingRightField;
    class_CThostFtdcQryOrderField;
    class_CThostFtdcQryTradeField;
    class_CThostFtdcQryInvestorPositionField;
    class_CThostFtdcQryTradingAccountField;
    class_CThostFtdcQryInvestorField;
    class_CThostFtdcQryTradingCodeField;
    class_CThostFtdcQryInvestorGroupField;
    class_CThostFtdcQryInstrumentMarginRateField;
    class_CThostFtdcQryInstrumentCommissionRateField;
    class_CThostFtdcQryInstrumentTradingRightField;
    class_CThostFtdcQryBrokerField;
    class_CThostFtdcQryTraderField;
    class_CThostFtdcQrySuperUserFunctionField;
    class_CThostFtdcQryUserSessionField;
    class_CThostFtdcQryPartBrokerField;
    class_CThostFtdcQryFrontStatusField;
    class_CThostFtdcQryExchangeOrderField;
    class_CThostFtdcQryOrderActionField;
    class_CThostFtdcQryExchangeOrderActionField;
    class_CThostFtdcQrySuperUserField;
    class_CThostFtdcQryExchangeField;
    class_CThostFtdcQryProductField;
    class_CThostFtdcQryInstrumentField;
    class_CThostFtdcQryDepthMarketDataField;
    class_CThostFtdcQryBrokerUserField;
    class_CThostFtdcQryBrokerUserFunctionField;
    class_CThostFtdcQryTraderOfferField;
    class_CThostFtdcQrySyncDepositField;
    class_CThostFtdcQrySettlementInfoField;
    class_CThostFtdcQryExchangeMarginRateField;
    class_CThostFtdcQryExchangeMarginRateAdjustField;
    class_CThostFtdcQryExchangeRateField;
    class_CThostFtdcQrySyncFundMortgageField;
    class_CThostFtdcQryHisOrderField;
    class_CThostFtdcOptionInstrMiniMarginField;
    class_CThostFtdcOptionInstrMarginAdjustField;
    class_CThostFtdcOptionInstrCommRateField;
    class_CThostFtdcOptionInstrTradeCostField;
    class_CThostFtdcQryOptionInstrTradeCostField;
    class_CThostFtdcQryOptionInstrCommRateField;
    class_CThostFtdcIndexPriceField;
    class_CThostFtdcInputExecOrderField;
    class_CThostFtdcInputExecOrderActionField;
    class_CThostFtdcExecOrderField;
    class_CThostFtdcExecOrderActionField;
    class_CThostFtdcQryExecOrderField;
    class_CThostFtdcExchangeExecOrderField;
    class_CThostFtdcQryExchangeExecOrderField;
    class_CThostFtdcQryExecOrderActionField;
    class_CThostFtdcExchangeExecOrderActionField;
    class_CThostFtdcQryExchangeExecOrderActionField;
    class_CThostFtdcErrExecOrderField;
    class_CThostFtdcQryErrExecOrderField;
    class_CThostFtdcErrExecOrderActionField;
    class_CThostFtdcQryErrExecOrderActionField;
    class_CThostFtdcOptionInstrTradingRightField;
    class_CThostFtdcQryOptionInstrTradingRightField;
    class_CThostFtdcInputForQuoteField;
    class_CThostFtdcForQuoteField;
    class_CThostFtdcQryForQuoteField;
    class_CThostFtdcExchangeForQuoteField;
    class_CThostFtdcQryExchangeForQuoteField;
    class_CThostFtdcInputQuoteField;
    class_CThostFtdcInputQuoteActionField;
    class_CThostFtdcQuoteField;
    class_CThostFtdcQuoteActionField;
    class_CThostFtdcQryQuoteField;
    class_CThostFtdcExchangeQuoteField;
    class_CThostFtdcQryExchangeQuoteField;
    class_CThostFtdcQryQuoteActionField;
    class_CThostFtdcExchangeQuoteActionField;
    class_CThostFtdcQryExchangeQuoteActionField;
    class_CThostFtdcOptionInstrDeltaField;
    class_CThostFtdcForQuoteRspField;
    class_CThostFtdcStrikeOffsetField;
    class_CThostFtdcQryStrikeOffsetField;
    class_CThostFtdcInputBatchOrderActionField;
    class_CThostFtdcBatchOrderActionField;
    class_CThostFtdcExchangeBatchOrderActionField;
    class_CThostFtdcQryBatchOrderActionField;
    class_CThostFtdcCombInstrumentGuardField;
    class_CThostFtdcQryCombInstrumentGuardField;
    class_CThostFtdcInputCombActionField;
    class_CThostFtdcCombActionField;
    class_CThostFtdcQryCombActionField;
    class_CThostFtdcExchangeCombActionField;
    class_CThostFtdcQryExchangeCombActionField;
    class_CThostFtdcProductExchRateField;
    class_CThostFtdcQryProductExchRateField;
    class_CThostFtdcQryForQuoteParamField;
    class_CThostFtdcForQuoteParamField;
    class_CThostFtdcMMOptionInstrCommRateField;
    class_CThostFtdcQryMMOptionInstrCommRateField;
    class_CThostFtdcMMInstrumentCommissionRateField;
    class_CThostFtdcQryMMInstrumentCommissionRateField;
    class_CThostFtdcInstrumentOrderCommRateField;
    class_CThostFtdcQryInstrumentOrderCommRateField;
    class_CThostFtdcTradeParamField;
    class_CThostFtdcInstrumentMarginRateULField;
    class_CThostFtdcFutureLimitPosiParamField;
    class_CThostFtdcLoginForbiddenIPField;
    class_CThostFtdcIPListField;
    class_CThostFtdcInputOptionSelfCloseField;
    class_CThostFtdcInputOptionSelfCloseActionField;
    class_CThostFtdcOptionSelfCloseField;
    class_CThostFtdcOptionSelfCloseActionField;
    class_CThostFtdcQryOptionSelfCloseField;
    class_CThostFtdcExchangeOptionSelfCloseField;
    class_CThostFtdcQryOptionSelfCloseActionField;
    class_CThostFtdcExchangeOptionSelfCloseActionField;
    class_CThostFtdcSyncDelaySwapField;
    class_CThostFtdcQrySyncDelaySwapField;
    class_CThostFtdcInvestUnitField;
    class_CThostFtdcQryInvestUnitField;
    class_CThostFtdcSecAgentCheckModeField;
    class_CThostFtdcSecAgentTradeInfoField;
    class_CThostFtdcMarketDataField;
    class_CThostFtdcMarketDataBaseField;
    class_CThostFtdcMarketDataStaticField;
    class_CThostFtdcMarketDataLastMatchField;
    class_CThostFtdcMarketDataBestPriceField;
    class_CThostFtdcMarketDataBid23Field;
    class_CThostFtdcMarketDataAsk23Field;
    class_CThostFtdcMarketDataBid45Field;
    class_CThostFtdcMarketDataAsk45Field;
    class_CThostFtdcMarketDataUpdateTimeField;
    class_CThostFtdcMarketDataBandingPriceField;
    class_CThostFtdcMarketDataExchangeField;
    class_CThostFtdcSpecificInstrumentField;
    class_CThostFtdcInstrumentStatusField;
    class_CThostFtdcQryInstrumentStatusField;
    class_CThostFtdcInvestorAccountField;
    class_CThostFtdcPositionProfitAlgorithmField;
    class_CThostFtdcDiscountField;
    class_CThostFtdcQryTransferBankField;
    class_CThostFtdcTransferBankField;
    class_CThostFtdcQryInvestorPositionDetailField;
    class_CThostFtdcInvestorPositionDetailField;
    class_CThostFtdcTradingAccountPasswordField;
    class_CThostFtdcMDTraderOfferField;
    class_CThostFtdcQryMDTraderOfferField;
    class_CThostFtdcQryNoticeField;
    class_CThostFtdcNoticeField;
    class_CThostFtdcUserRightField;
    class_CThostFtdcQrySettlementInfoConfirmField;
    class_CThostFtdcLoadSettlementInfoField;
    class_CThostFtdcBrokerWithdrawAlgorithmField;
    class_CThostFtdcTradingAccountPasswordUpdateV1Field;
    class_CThostFtdcTradingAccountPasswordUpdateField;
    class_CThostFtdcQryCombinationLegField;
    class_CThostFtdcQrySyncStatusField;
    class_CThostFtdcCombinationLegField;
    class_CThostFtdcSyncStatusField;
    class_CThostFtdcQryLinkManField;
    class_CThostFtdcLinkManField;
    class_CThostFtdcQryBrokerUserEventField;
    class_CThostFtdcBrokerUserEventField;
    class_CThostFtdcQryContractBankField;
    class_CThostFtdcContractBankField;
    class_CThostFtdcInvestorPositionCombineDetailField;
    class_CThostFtdcParkedOrderField;
    class_CThostFtdcParkedOrderActionField;
    class_CThostFtdcQryParkedOrderField;
    class_CThostFtdcQryParkedOrderActionField;
    class_CThostFtdcRemoveParkedOrderField;
    class_CThostFtdcRemoveParkedOrderActionField;
    class_CThostFtdcInvestorWithdrawAlgorithmField;
    class_CThostFtdcQryInvestorPositionCombineDetailField;
    class_CThostFtdcMarketDataAveragePriceField;
    class_CThostFtdcVerifyInvestorPasswordField;
    class_CThostFtdcUserIPField;
    class_CThostFtdcTradingNoticeInfoField;
    class_CThostFtdcTradingNoticeField;
    class_CThostFtdcQryTradingNoticeField;
    class_CThostFtdcQryErrOrderField;
    class_CThostFtdcErrOrderField;
    class_CThostFtdcErrorConditionalOrderField;
    class_CThostFtdcQryErrOrderActionField;
    class_CThostFtdcErrOrderActionField;
    class_CThostFtdcQryExchangeSequenceField;
    class_CThostFtdcExchangeSequenceField;
    class_CThostFtdcQryMaxOrderVolumeWithPriceField;
    class_CThostFtdcQryBrokerTradingParamsField;
    class_CThostFtdcBrokerTradingParamsField;
    class_CThostFtdcQryBrokerTradingAlgosField;
    class_CThostFtdcBrokerTradingAlgosField;
    class_CThostFtdcQueryBrokerDepositField;
    class_CThostFtdcBrokerDepositField;
    class_CThostFtdcQryCFMMCBrokerKeyField;
    class_CThostFtdcCFMMCBrokerKeyField;
    class_CThostFtdcCFMMCTradingAccountKeyField;
    class_CThostFtdcQryCFMMCTradingAccountKeyField;
    class_CThostFtdcBrokerUserOTPParamField;
    class_CThostFtdcManualSyncBrokerUserOTPField;
    class_CThostFtdcCommRateModelField;
    class_CThostFtdcQryCommRateModelField;
    class_CThostFtdcMarginModelField;
    class_CThostFtdcQryMarginModelField;
    class_CThostFtdcEWarrantOffsetField;
    class_CThostFtdcQryEWarrantOffsetField;
    class_CThostFtdcQryInvestorProductGroupMarginField;
    class_CThostFtdcInvestorProductGroupMarginField;
    class_CThostFtdcQueryCFMMCTradingAccountTokenField;
    class_CThostFtdcCFMMCTradingAccountTokenField;
    class_CThostFtdcQryProductGroupField;
    class_CThostFtdcProductGroupField;
    class_CThostFtdcBulletinField;
    class_CThostFtdcQryBulletinField;
    class_CThostFtdcMulticastInstrumentField;
    class_CThostFtdcQryMulticastInstrumentField;
    class_CThostFtdcAppIDAuthAssignField;
    class_CThostFtdcReqOpenAccountField;
    class_CThostFtdcReqCancelAccountField;
    class_CThostFtdcReqChangeAccountField;
    class_CThostFtdcReqTransferField;
    class_CThostFtdcRspTransferField;
    class_CThostFtdcReqRepealField;
    class_CThostFtdcRspRepealField;
    class_CThostFtdcReqQueryAccountField;
    class_CThostFtdcRspQueryAccountField;
    class_CThostFtdcFutureSignIOField;
    class_CThostFtdcRspFutureSignInField;
    class_CThostFtdcReqFutureSignOutField;
    class_CThostFtdcRspFutureSignOutField;
    class_CThostFtdcReqQueryTradeResultBySerialField;
    class_CThostFtdcRspQueryTradeResultBySerialField;
    class_CThostFtdcReqDayEndFileReadyField;
    class_CThostFtdcReturnResultField;
    class_CThostFtdcVerifyFuturePasswordField;
    class_CThostFtdcVerifyCustInfoField;
    class_CThostFtdcVerifyFuturePasswordAndCustInfoField;
    class_CThostFtdcDepositResultInformField;
    class_CThostFtdcReqSyncKeyField;
    class_CThostFtdcRspSyncKeyField;
    class_CThostFtdcNotifyQueryAccountField;
    class_CThostFtdcTransferSerialField;
    class_CThostFtdcQryTransferSerialField;
    class_CThostFtdcNotifyFutureSignInField;
    class_CThostFtdcNotifyFutureSignOutField;
    class_CThostFtdcNotifySyncKeyField;
    class_CThostFtdcQryAccountregisterField;
    class_CThostFtdcAccountregisterField;
    class_CThostFtdcOpenAccountField;
    class_CThostFtdcCancelAccountField;
    class_CThostFtdcChangeAccountField;
    class_CThostFtdcSecAgentACIDMapField;
    class_CThostFtdcQrySecAgentACIDMapField;
    class_CThostFtdcUserRightsAssignField;
    class_CThostFtdcBrokerUserRightAssignField;
    class_CThostFtdcDRTransferField;
    class_CThostFtdcFensUserInfoField;
    class_CThostFtdcCurrTransferIdentityField;
    class_CThostFtdcLoginForbiddenUserField;
    class_CThostFtdcQryLoginForbiddenUserField;
    class_CThostFtdcTradingAccountReserveField;
    class_CThostFtdcQryLoginForbiddenIPField;
    class_CThostFtdcQryIPListField;
    class_CThostFtdcQryUserRightsAssignField;
    class_CThostFtdcReserveOpenAccountConfirmField;
    class_CThostFtdcReserveOpenAccountField;
    class_CThostFtdcAccountPropertyField;
    class_CThostFtdcQryCurrDRIdentityField;
    class_CThostFtdcCurrDRIdentityField;
    class_CThostFtdcQrySecAgentCheckModeField;
    class_CThostFtdcQrySecAgentTradeInfoField;
    class_CThostFtdcReqUserAuthMethodField;
    class_CThostFtdcRspUserAuthMethodField;
    class_CThostFtdcReqGenUserCaptchaField;
    class_CThostFtdcRspGenUserCaptchaField;
    class_CThostFtdcReqGenUserTextField;
    class_CThostFtdcRspGenUserTextField;
    class_CThostFtdcReqUserLoginWithCaptchaField;
    class_CThostFtdcReqUserLoginWithTextField;
    class_CThostFtdcReqUserLoginWithOTPField;
    class_CThostFtdcReqApiHandshakeField;
    class_CThostFtdcRspApiHandshakeField;
    class_CThostFtdcReqVerifyApiKeyField;
    class_CThostFtdcDepartmentUserField;
    class_CThostFtdcQueryFreqField;
    class_CThostFtdcAuthForbiddenIPField;
    class_CThostFtdcQryAuthForbiddenIPField;
    class_CThostFtdcSyncDelaySwapFrozenField;
    class_CThostFtdcUserSystemInfoField;
    class_CThostFtdcAuthUserIDField;
    class_CThostFtdcAuthIPField;
    class_CThostFtdcQryClassifiedInstrumentField;
    class_CThostFtdcQryCombPromotionParamField;
    class_CThostFtdcCombPromotionParamField;
    class_CThostFtdcReqUserLoginSMField;
    class_CThostFtdcQryRiskSettleInvstPositionField;
    class_CThostFtdcQryRiskSettleProductStatusField;
    class_CThostFtdcRiskSettleInvstPositionField;
    class_CThostFtdcRiskSettleProductStatusField;
    class_CThostFtdcSyncDeltaInfoField;
    class_CThostFtdcSyncDeltaProductStatusField;
    class_CThostFtdcSyncDeltaInvstPosDtlField;
    class_CThostFtdcSyncDeltaInvstPosCombDtlField;
    class_CThostFtdcSyncDeltaTradingAccountField;
    class_CThostFtdcSyncDeltaInitInvstMarginField;
    class_CThostFtdcSyncDeltaDceCombInstrumentField;
    class_CThostFtdcSyncDeltaInvstMarginRateField;
    class_CThostFtdcSyncDeltaExchMarginRateField;
    class_CThostFtdcSyncDeltaOptExchMarginField;
    class_CThostFtdcSyncDeltaOptInvstMarginField;
    class_CThostFtdcSyncDeltaInvstMarginRateULField;
    class_CThostFtdcSyncDeltaOptInvstCommRateField;
    class_CThostFtdcSyncDeltaInvstCommRateField;
    class_CThostFtdcSyncDeltaProductExchRateField;
    class_CThostFtdcSyncDeltaDepthMarketDataField;
    class_CThostFtdcSyncDeltaIndexPriceField;
    class_CThostFtdcSyncDeltaEWarrantOffsetField;
    class_CThostFtdcSPBMFutureParameterField;
    class_CThostFtdcSPBMOptionParameterField;
    class_CThostFtdcSPBMIntraParameterField;
    class_CThostFtdcSPBMInterParameterField;
    class_CThostFtdcSyncSPBMParameterEndField;
    class_CThostFtdcQrySPBMFutureParameterField;
    class_CThostFtdcQrySPBMOptionParameterField;
    class_CThostFtdcQrySPBMIntraParameterField;
    class_CThostFtdcQrySPBMInterParameterField;
    class_CThostFtdcSPBMPortfDefinitionField;
    class_CThostFtdcSPBMInvestorPortfDefField;
    class_CThostFtdcInvestorPortfMarginRatioField;
    class_CThostFtdcQrySPBMPortfDefinitionField;
    class_CThostFtdcQrySPBMInvestorPortfDefField;
    class_CThostFtdcQryInvestorPortfMarginRatioField;
    class_CThostFtdcInvestorProdSPBMDetailField;
    class_CThostFtdcQryInvestorProdSPBMDetailField;
    class_CThostFtdcPortfTradeParamSettingField;
    class_CThostFtdcInvestorTradingRightField;
    class_CThostFtdcMortgageParamField;
    class_CThostFtdcWithDrawParamField;
    class_CThostFtdcThostUserFunctionField;
    class_CThostFtdcQryThostUserFunctionField;
    class_CThostFtdcSPBMAddOnInterParameterField;
    class_CThostFtdcQrySPBMAddOnInterParameterField;
    class_CThostFtdcQryInvestorCommoditySPMMMarginField;
    class_CThostFtdcQryInvestorCommodityGroupSPMMMarginField;
    class_CThostFtdcQrySPMMInstParamField;
    class_CThostFtdcQrySPMMProductParamField;
    class_CThostFtdcInvestorCommoditySPMMMarginField;
    class_CThostFtdcInvestorCommodityGroupSPMMMarginField;
    class_CThostFtdcSPMMInstParamField;
    class_CThostFtdcSPMMProductParamField;
    class_CThostFtdcQryTraderAssignField;
    class_CThostFtdcTraderAssignField;
    class_CThostFtdcInvestorInfoCntSettingField;
    class_CThostFtdcRCAMSCombProductInfoField;
    class_CThostFtdcRCAMSInstrParameterField;
    class_CThostFtdcRCAMSIntraParameterField;
    class_CThostFtdcRCAMSInterParameterField;
    class_CThostFtdcRCAMSShortOptAdjustParamField;
    class_CThostFtdcRCAMSInvestorCombPositionField;
    class_CThostFtdcInvestorProdRCAMSMarginField;
    class_CThostFtdcQryRCAMSCombProductInfoField;
    class_CThostFtdcQryRCAMSInstrParameterField;
    class_CThostFtdcQryRCAMSIntraParameterField;
    class_CThostFtdcQryRCAMSInterParameterField;
    class_CThostFtdcQryRCAMSShortOptAdjustParamField;
    class_CThostFtdcQryRCAMSInvestorCombPositionField;
    class_CThostFtdcQryInvestorProdRCAMSMarginField;
    class_CThostFtdcRULEInstrParameterField;
    class_CThostFtdcRULEIntraParameterField;
    class_CThostFtdcRULEInterParameterField;
    class_CThostFtdcQryRULEInstrParameterField;
    class_CThostFtdcQryRULEIntraParameterField;
    class_CThostFtdcQryRULEInterParameterField;
    class_CThostFtdcInvestorProdRULEMarginField;
    class_CThostFtdcQryInvestorProdRULEMarginField;
    class_CThostFtdcSyncDeltaSPBMPortfDefinitionField;
    class_CThostFtdcSyncDeltaSPBMInvstPortfDefField;
    class_CThostFtdcSyncDeltaSPBMFutureParameterField;
    class_CThostFtdcSyncDeltaSPBMOptionParameterField;
    class_CThostFtdcSyncDeltaSPBMIntraParameterField;
    class_CThostFtdcSyncDeltaSPBMInterParameterField;
    class_CThostFtdcSyncDeltaSPBMAddOnInterParamField;
    class_CThostFtdcSyncDeltaSPMMInstParamField;
    class_CThostFtdcSyncDeltaSPMMProductParamField;
    class_CThostFtdcSyncDeltaInvestorSPMMModelField;
    class_CThostFtdcSyncDeltaSPMMModelParamField;
    class_CThostFtdcSyncDeltaRCAMSCombProdInfoField;
    class_CThostFtdcSyncDeltaRCAMSInstrParameterField;
    class_CThostFtdcSyncDeltaRCAMSIntraParameterField;
    class_CThostFtdcSyncDeltaRCAMSInterParameterField;
    class_CThostFtdcSyncDeltaRCAMSSOptAdjParamField;
    class_CThostFtdcSyncDeltaRCAMSCombRuleDtlField;
    class_CThostFtdcSyncDeltaRCAMSInvstCombPosField;
    class_CThostFtdcSyncDeltaRULEInstrParameterField;
    class_CThostFtdcSyncDeltaRULEIntraParameterField;
    class_CThostFtdcSyncDeltaRULEInterParameterField;
    class_CThostFtdcExitEmergencyField;
    class_CThostFtdcInvestorPortfMarginModelField;
    class_CThostFtdcInvestorPortfSettingField;
    class_CThostFtdcQryInvestorPortfSettingField;
    class_CThostFtdcFrontInfoField ].

(** ** The functions of a class *)

Section Class_.
Context `{TypeEnv} (implicit : nat -> option (Z -> M Z)).

Definition class_new (c : class) (args : Z) : M Z := wrap_new (cl_name c) (cl_new c) (cl_struct c) args.
Definition class_delete (c : class) (args : Z) : M Z := wrap_delete implicit (cl_name c) (cl_delete c) args.
End Class_.

(** The types the three functions pass are one, and it is the type of the structure. *)
Definition class_ok (c : class) : bool :=
  (cl_new c =? cl_delete c)%nat && (cl_new c =? cl_register c)%nat
  && match CtpTypes.swigt !! cl_new c with
     | Some p => bool_decide (fst p = "_p_" +:+ cl_name c)
     | None => false
     end
  && (0 <? struct_size (cl_struct c))%Z.

Lemma classes_ok : forallb class_ok ctp_classes = true.
Proof. vm_compute. reflexivity. Qed.

#[local] Opaque CtpTypes.swigt ctp_classes.

Lemma class_types c : c ∈ ctp_classes ->
  cl_delete c = cl_new c /\ cl_register c = cl_new c /\ (cl_new c < length CtpTypes.swigt)%nat
  /\ (exists str, CtpTypes.swigt !! cl_new c = Some ("_p_" +:+ cl_name c, str))
  /\ (0 < struct_size (cl_struct c))%Z.
Proof.
  intros Hc. pose proof classes_ok as Hok. rewrite forallb_forall in Hok.
  specialize (Hok c (proj1 (list_elem_of_In _ _) Hc)). unfold class_ok in Hok.
  rewrite !andb_true_iff, !Nat.eqb_eq, Z.ltb_lt in Hok. destruct Hok as [[[H1 H2] H3] H4].
  destruct (CtpTypes.swigt !! cl_new c) as [[n str]|] eqn:E; [|done]. apply bool_decide_eq_true in H3. cbn in H3. subst n.
  split; [done|]. split; [done|]. split; [by eapply lookup_lt_Some|]. split; [by eexists|done].
Qed.
#[local] Transparent CtpTypes.swigt ctp_classes.

End Classes.
