(* ===== verification/Ownership.v ===== *)
(** * Who owns the structures

    The life of the CTP structures Python code makes and meets.  The operations
    are those of ctp_wrap.cpp: [_wrap_new_X] and [_wrap_delete_X], the
    accessors, pointer objects for structures that belong to C++,
    [SWIG_Python_InitShadowInstance], the methods [disown] and [acquire], and
    [SwigPyObject_dealloc], which calls [_wrap_delete_X] through the class data
    of the type.  [step] is one operation that has come back; a [ledger] is what
    a user of the module has to keep in mind: which object owns which structure,
    and which structures are live.  None of the operations tests whether a
    structure is live or who owns it: [delete_X] frees the structure of any
    object, and [acquire] makes an owner of any object.  The operations refine
    the ledger in all these cases; an owner's structure can only be lost by a
    [delete_X] through an object that does not own it, or by an [acquire] of a
    structure that was not free to take. *)

From S2P Require Import Prelude TypeTable CtpTypes World Runtime ClientData SwigObject Conversions Iconv Layout Accessor Director Frames Classes.

Module Ownership.
Import TypeTable World Runtime ClientData SwigObject Conversions Iconv Layout Accessor Frames Classes.

(** ** The ledger *)

(** The structures that are owned, by their owner, with the size of its class,
    and the blocks that are live, with their sizes. *)
Record ledger := mk_ledger { l_owned : gmap Z (Z * nat); l_live : gmap Z nat }.

Definition nobody (a : ledger) (p : Z) : Prop := forall o n, l_owned a !! o <> Some (p, n).

Inductive label :=
| LNew (o : Z) (n : nat)   (** a structure of [n] bytes is made, owned by [o] *)
| LTouch                   (** accessors, borrowed pointers, proxies *)
| LDisown (o : Z)
| LAdopt (o p : Z)         (** [acquire] of a live structure nobody owns *)
| LGrab (o p : Z)          (** [acquire] of any other pointer *)
| LDelete (o p : Z)        (** [delete_X] through the owner, or of a structure nobody owns *)
| LTake (o p : Z)          (** [delete_X] through [o] of a structure others own *)
| LDealloc (o : Z).

Inductive lstep : label -> ledger -> ledger -> Prop :=
| ls_new a o p n : l_owned a !! o = None -> l_live a !! p = None ->
    lstep (LNew o n) a (mk_ledger (<[o := (p, n)]> (l_owned a)) (<[p := n]> (l_live a)))
| ls_touch a : lstep LTouch a a
| ls_disown a o : lstep (LDisown o) a (mk_ledger (delete o (l_owned a)) (l_live a))
| ls_adopt a o p n : l_owned a !! o = None -> l_live a !! p = Some n -> nobody a p ->
    lstep (LAdopt o p) a (mk_ledger (<[o := (p, n)]> (l_owned a)) (l_live a))
| ls_grab a o p n : l_owned a !! o = None -> l_live a !! p <> Some n \/ ~ nobody a p ->
    lstep (LGrab o p) a (mk_ledger (<[o := (p, n)]> (l_owned a)) (l_live a))
| ls_delete a o p n : l_live a !! p = Some n ->
    (exists m, l_owned a !! o = Some (p, m)) \/ l_owned a !! o = None /\ nobody a p ->
    lstep (LDelete o p) a (mk_ledger (delete o (l_owned a)) (delete p (l_live a)))
| ls_take a o p n : l_live a !! p = Some n -> l_owned a !! o = None -> ~ nobody a p ->
    lstep (LTake o p) a (mk_ledger (l_owned a) (delete p (l_live a)))
| ls_dealloc a o p n m : l_owned a !! o = Some (p, n) -> l_live a !! p = Some m ->
    lstep (LDealloc o) a (mk_ledger (delete o (l_owned a)) (delete p (l_live a)))
| ls_dealloc_none a o : l_owned a !! o = None -> lstep (LDealloc o) a a.

(** A sequence of steps. *)
Inductive lrun : list label -> ledger -> ledger -> Prop :=
| lrun_nil a : lrun [] a a
| lrun_cons l ls a b c : lstep l a b -> lrun ls b c -> lrun (l :: ls) a c.

(** The structure at [p] is live for as long as it is owned, and owned once. *)
Definition well_owned (a : ledger) (p : Z) : Prop :=
  (forall o n, l_owned a !! o = Some (p, n) -> l_live a !! p = Some n)
  /\ (forall o o' n n', l_owned a !! o = Some (p, n) -> l_owned a !! o' = Some (p, n') -> o = o').

Definition sound (a : ledger) : Prop := forall p, well_owned a p.

(** The steps that can take a structure from its owner. *)
Definition blamed (p : Z) (l : label) : Prop := exists o, l = LGrab o p \/ l = LTake o p.

#[export] Instance blamed_dec p l : Decision (blamed p l).
Proof.
  destruct l as [o n| |o|o q|o q|o q|o q|o]; try (right; intros [x [H|H]]; discriminate);
    (destruct (decide (q = p)) as [->|Hne]; [left; exists o; auto|right; intros [x [H|H]]; congruence]).
Defined.

(** ** The operations *)

Definition class_size (c : class) : nat := Z.to_nat (struct_size (cl_struct c)).

(** What a wrapped pointer says: the address, the type and the ownership. *)
Definition view (v : pyobj) : option (Z * option nat * Z) :=
  match v with OSwig s => Some (s_ptr s, s_ty s, s_own s) | _ => None end.
Definition view_at (w : world) (o : Z) : option (Z * option nat * Z) := w_heap w !! o ≫= view.

(** ** What ties the two *)

(** Every block is mapped and lies apart from the others, below the next one. *)
Record memory_ok (w : world) : Prop := {
  mo_brk : 0 < w_brk w;
  mo_bound : forall p n, w_blocks w !! p = Some n -> 0 < p /\ p + Z.of_nat n < w_brk w;
  mo_mapped : forall p n, w_blocks w !! p = Some n -> mapped w p n;
  mo_apart : forall p n q m, w_blocks w !! p = Some n -> w_blocks w !! q = Some m -> p <> q ->
    p + Z.of_nat n <= q \/ q + Z.of_nat m <= p;
}.

Record tracks (a : ledger) (w : world) : Prop := {
  tr_gil : w_gil w = true;
  tr_fresh : fresh_ok w;
  tr_memory : memory_ok w;
  tr_addr : forall o, is_Some (view_at w o) -> o <> 0 /\ o <> Py_None;
  tr_flag : forall o p ty own, view_at w o = Some (p, ty, own) -> p <> 0 /\ (own = 0 \/ own = SWIG_POINTER_OWN);
  tr_owner : forall o p ty, view_at w o = Some (p, ty, SWIG_POINTER_OWN) ->
    exists c, c ∈ ctp_classes /\ ty = Some (cl_new c) /\ l_owned a !! o = Some (p, class_size c);
  tr_owned : forall o p n, l_owned a !! o = Some (p, n) -> exists ty, view_at w o = Some (p, ty, SWIG_POINTER_OWN);
  tr_live : w_blocks w = l_live a;
}.

(** ** Lemmas *)

(** *** Ledgers *)

(** An owner more, of another structure or of one nobody owns. *)
Lemma well_owned_insert a p o q n live : well_owned a p -> (q = p -> nobody a p) ->
  (q = p -> live !! p = Some n) -> (q <> p -> live !! p = l_live a !! p) ->
  well_owned (mk_ledger (<[o := (q, n)]> (l_owned a)) live) p.
Proof.
  intros [H1 H2] Hno Hq Hne. split; cbn [l_owned l_live].
  - intros x k Hx. apply lookup_insert_Some in Hx as [[-> E]|[_ Hx]]; [injection E as -> ->; by apply Hq|].
    destruct (decide (q = p)) as [E|]; [by destruct (Hno E x k)|]. rewrite Hne by done. eauto.
  - intros x y k k' Hx Hy. apply lookup_insert_Some in Hx as [[-> E]|[_ Hx]], Hy as [[-> E']|[_ Hy]]; [done| | |eauto].
    + injection E as -> _. by destruct (Hno eq_refl y k').
    + injection E' as -> _. by destruct (Hno eq_refl x k).
Qed.

(** A structure that goes, with an owner of it or without any. *)
Lemma well_owned_delete a p o q : well_owned a p ->
  (exists m, l_owned a !! o = Some (q, m)) \/ l_owned a !! o = None /\ nobody a q ->
  well_owned (mk_ledger (delete o (l_owned a)) (delete q (l_live a))) p.
Proof.
  intros [H1 H2] Ho. split; cbn [l_owned l_live].
  - intros x k [Hne Hx]%lookup_delete_Some. rewrite lookup_delete_ne; [eauto|]. intros ->.
    destruct Ho as [[m Ho]|[_ Hno]]; [by apply Hne, (H2 o x m k)|by apply (Hno x k)].
  - intros x y k k' [_ Hx]%lookup_delete_Some [_ Hy]%lookup_delete_Some. eauto.
Qed.

(** Every other step leaves the structure with its owner. *)
Lemma well_owned_step l a b p : lstep l a b -> well_owned a p -> ~ blamed p l -> well_owned b p.
Proof.
  intros Hs Hw Hl. unfold blamed in Hl. pose proof Hw as [H1 H2].
  destruct Hs as [a o q n Ho Hq|a|a o|a o q n Ho Hq Hno|a o q n Ho Hq|a o q n Hq Ho|a o q n Hq Ho Hno|a o q n m Ho Hq|a o Ho];
    try done.
  - apply well_owned_insert; [done|..].
    + intros -> x k Hx. apply H1 in Hx. congruence.
    + intros ->. apply lookup_insert_eq.
    + intros Hne. by apply lookup_insert_ne.
  - split; cbn [l_owned l_live]; [intros x k [_ Hx]%lookup_delete_Some; eauto|].
    intros x y k k' [_ Hx]%lookup_delete_Some [_ Hy]%lookup_delete_Some. eauto.
  - apply well_owned_insert; [done|by intros <-|by intros <-|done].
  - assert (q <> p) by (intros ->; apply Hl; eauto). by apply well_owned_insert.
  - by apply well_owned_delete.
  - assert (q <> p) by (intros ->; apply Hl; eauto). split; [|done].
    intros x k Hx. cbn. rewrite lookup_delete_ne by done. eauto.
  - apply well_owned_delete; [done|left; eauto].
Qed.

Lemma well_owned_run ls a b p : lrun ls a b -> well_owned a p -> well_owned b p \/ exists l, l ∈ ls /\ blamed p l.
Proof.
  induction 1 as [a|l ls a b c Hs Hr IH]; intros Hp; [by left|].
  destruct (decide (blamed p l)) as [Hl|Hl]; [right; exists l; split; [left|done]|].
  destruct IH as [Hc|(l' & Hin & Hl')]; [by eapply well_owned_step|by left|right].
  exists l'. split; [by right|done].
Qed.

Lemma sound_run ls a b : lrun ls a b -> sound a -> Forall (fun l => forall p, ~ blamed p l) ls -> sound b.
Proof.
  intros Hr Ha Hls p. destruct (well_owned_run ls a b p Hr (Ha p)) as [H|(l & Hin & Hl)]; [done|].
  rewrite Forall_forall in Hls. by destruct (Hls l Hin p).
Qed.

(** Only [disown] makes structures nobody owns. *)
Lemma unowned_run ls a b p n : lrun ls a b -> Forall (fun l => forall o, l <> LDisown o) ls ->
  l_live b !! p = Some n -> nobody b p -> l_live a !! p = Some n /\ nobody a p.
Proof.
  induction 1 as [a|l ls a b c Hs Hr IH]; intros Hls Hp Hno; [done|]. apply Forall_cons in Hls as [Hl Hls].
  destruct (IH Hls Hp Hno) as [Hp' Hno']. clear IH Hr Hp Hno Hls.
  assert (Hdel : forall o q, l_live a !! q <> None -> (forall k m, l_owned a !! o = Some (k, m) -> k = q) ->
    delete q (l_live a) !! p = Some n -> (forall x k, delete o (l_owned a) !! x <> Some (p, k)) ->
    l_live a !! p = Some n /\ nobody a p).
  { intros o q _ Hoq [Hne Hq]%lookup_delete_Some Hx. split; [done|]. intros x k Hk.
    destruct (decide (x = o)) as [->|Hxo]; [by apply Hoq in Hk|]. apply (Hx x k). by rewrite lookup_delete_ne. }
  destruct Hs as [a o q m Ho Hq|a|a o|a o q m Ho Hq Hno|a o q m Ho Hq|a o q m Hq Ho|a o q m Hq Ho Hno|a o q m m' Ho Hq|a o Ho];
    cbn [l_owned l_live] in *; try done.
  - destruct (decide (q = p)) as [->|Hne]; [by destruct (Hno' o m); cbn; rewrite lookup_insert_eq|].
    rewrite lookup_insert_ne in Hp' by done. split; [done|]. intros x k Hk. apply (Hno' x k). cbn.
    rewrite lookup_insert_ne; [done|]. intros ->. congruence.
  - by destruct (Hl o).
  - split; [done|]. intros x k Hk. apply (Hno' x k). cbn. rewrite lookup_insert_ne; [done|]. intros ->. congruence.
  - split; [done|]. intros x k Hk. apply (Hno' x k). cbn. rewrite lookup_insert_ne; [done|]. intros ->. congruence.
  - apply (Hdel o q); [congruence| |done|exact Hno']. intros k j Hk. destruct Ho as [[? Ho]|[Ho _]]; congruence.
  - apply lookup_delete_Some in Hp' as [_ Hp']. by split.
  - apply (Hdel o q); [congruence| |done|exact Hno']. intros k j Hk. congruence.
Qed.

(** *** Memory *)

Lemma unmap_lookup m p n a :
  unmap m p n !! a = if decide (p <= a < p + Z.of_nat n) then None else m !! a.
Proof.
  revert m p; induction n as [|n IH]; intros m p; cbn [unmap]; [by rewrite decide_False by lia|].
  rewrite IH. destruct (decide (a = p)) as [->|Hne].
  - rewrite decide_False, decide_True by lia. apply lookup_delete_eq.
  - rewrite lookup_delete_ne by done. repeat case_decide; lia || done.
Qed.

(** The blocks are the same and so are the mapped addresses. *)
Record same_memory (w w' : world) : Prop := {
  sm_blocks : w_blocks w' = w_blocks w;
  sm_brk : w_brk w' = w_brk w;
  sm_mapped : forall a, is_Some (w_mem w' !! a) <-> is_Some (w_mem w !! a);
}.

Lemma memory_same w w' : memory_ok w -> same_memory w w' -> memory_ok w'.
Proof.
  intros [M1 M2 M3 M4] [S1 S2 S3]. constructor; rewrite ?S1, ?S2; try done.
  intros p n Hp i Hi. apply S3. by apply (M3 p n).
Qed.

Lemma memory_alloc w w' n : memory_ok w -> w_blocks w' = <[w_brk w := n]> (w_blocks w) ->
  w_brk w' = w_brk w + Z.of_nat n + 1 -> w_mem w' = store_bytes (w_mem w) (w_brk w) (replicate n 0) -> memory_ok w'.
Proof.
  intros [M1 M2 M3 M4] Hb Hk Hm. constructor; rewrite ?Hk, ?Hb.
  - lia.
  - intros p m [[<- <-]|[_ Hp]]%lookup_insert_Some; [lia|]. specialize (M2 p m Hp). lia.
  - intros p m Hp i Hi. rewrite Hm, store_bytes_lookup, length_replicate.
    case_decide as Ha; [rewrite lookup_replicate_2 by lia; by eexists|].
    apply lookup_insert_Some in Hp as [[<- <-]|[_ Hp]]; [lia|]. by apply (M3 p m).
  - intros p m q l [[<- <-]|[Hp Hp']]%lookup_insert_Some [[<- <-]|[Hq Hq']]%lookup_insert_Some Hne; [done|..].
    + specialize (M2 q l Hq'). lia.
    + specialize (M2 p m Hp'). lia.
    + by apply M4.
Qed.

Lemma memory_free w w' p n : memory_ok w -> w_blocks w !! p = Some n -> w_blocks w' = delete p (w_blocks w) ->
  w_brk w' = w_brk w -> w_mem w' = unmap (w_mem w) p n -> memory_ok w'.
Proof.
  intros [M1 M2 M3 M4] Hp Hb Hk Hm. constructor; rewrite ?Hk, ?Hb; try done.
  - intros q m [_ Hq]%lookup_delete_Some. by apply M2.
  - intros q m [Hne Hq]%lookup_delete_Some i Hi. rewrite Hm, unmap_lookup.
    rewrite decide_False; [by apply (M3 q m)|]. destruct (M4 p n q m Hp Hq Hne); lia.
  - intros q m q' m' [_ Hq]%lookup_delete_Some [_ Hq']%lookup_delete_Some. by apply M4.
Qed.

(** *** Changes of the ledger *)

(** At most the object [o] says something else. *)
Record changed (o : Z) (v : option (Z * option nat * Z)) (w w' : world) : Prop := {
  ch_gil : w_gil w' = true;
  ch_fresh : fresh_ok w';
  ch_at : view_at w' o = v;
  ch_other : forall x, x <> o -> view_at w' x = view_at w x;
  ch_addr : is_Some v -> o <> 0 /\ o <> Py_None;
  ch_null : forall p ty own, v = Some (p, ty, own) -> p <> 0;
}.

Definition not_owner (v : option (Z * option nat * Z)) : Prop :=
  match v with Some (_, _, own) => own = 0 | None => True end.

Lemma not_owner_flag v p ty own : not_owner v -> v = Some (p, ty, own) -> own = 0.
Proof. by intros Hv ->. Qed.

(** An owner is in the ledger, and no one else. *)
Lemma tracks_not_owner a w o : tracks a w -> not_owner (view_at w o) -> l_owned a !! o = None.
Proof.
  intros T Hn. destruct (l_owned a !! o) as [[p n]|] eqn:E; [|done].
  destruct (tr_owned _ _ T o p n E) as [ty Ev]. by rewrite Ev in Hn.
Qed.

Lemma tracks_view a w o : tracks a w ->
  not_owner (view_at w o) \/ exists p c, c ∈ ctp_classes /\ view_at w o = Some (p, Some (cl_new c), SWIG_POINTER_OWN)
                               /\ l_owned a !! o = Some (p, class_size c).
Proof.
  intros T. destruct (view_at w o) as [[[p ty] own]|] eqn:E; [|by left].
  destruct (tr_flag _ _ T o p ty own E) as [_ [->| ->]]; [by left|].
  destruct (tr_owner _ _ T o p ty E) as (c & Hc & -> & Ho). right. eauto.
Qed.

(** Nobody owns the structure, in the ledger and in the world. *)
Lemma tracks_nobody a w p : tracks a w -> nobody a p <-> forall o ty, view_at w o <> Some (p, ty, SWIG_POINTER_OWN).
Proof.
  intros T. split.
  - intros Hno o ty Hv. destruct (tr_owner _ _ T o p ty Hv) as (c & _ & _ & Ho). by apply (Hno o (class_size c)).
  - intros Hno o n Ho. destruct (tr_owned _ _ T o p n Ho) as [ty Hv]. by apply (Hno o ty).
Qed.

Lemma tracks_addr a w w' o v : tracks a w -> changed o v w w' -> forall x, is_Some (view_at w' x) -> x <> 0 /\ x <> Py_None.
Proof.
  intros T [C1 C2 C3 C4 C5 C6] x Hx. destruct (decide (x = o)) as [->|Hne]; [rewrite C3 in Hx; by apply C5|].
  rewrite C4 in Hx by done. by apply T.
Qed.

(** The object is no owner afterwards. *)
Lemma tracks_clear a w w' o v : tracks a w -> changed o v w w' -> not_owner v -> memory_ok w' ->
  tracks (mk_ledger (delete o (l_owned a)) (w_blocks w')) w'.
Proof.
  intros T C Hv HM. pose proof (tracks_addr a w w' o v T C) as Had. destruct C as [C1 C2 C3 C4 C5 C6].
  constructor; try done; cbn [l_owned l_live].
  - intros x p ty own Hx. destruct (decide (x = o)) as [->|Hne]; [|rewrite C4 in Hx by done; by apply T in Hx].
    rewrite C3 in Hx. split; [by eapply C6|left]. by eapply not_owner_flag.
  - intros x p ty Hx. destruct (decide (x = o)) as [->|Hne]; [rewrite C3 in Hx; by apply not_owner_flag in Hx|].
    rewrite lookup_delete_ne by done. rewrite C4 in Hx by done. by apply T.
  - intros x p n [Hne Hx]%lookup_delete_Some. rewrite C4 by done. by apply T in Hx.
Qed.

(** The object is an owner afterwards. *)
Lemma tracks_own a w w' o p c : tracks a w -> c ∈ ctp_classes ->
  changed o (Some (p, Some (cl_new c), SWIG_POINTER_OWN)) w w' -> memory_ok w' ->
  tracks (mk_ledger (<[o := (p, class_size c)]> (l_owned a)) (w_blocks w')) w'.
Proof.
  intros T Hc C HM. pose proof (tracks_addr a w w' o _ T C) as Had. destruct C as [C1 C2 C3 C4 C5 C6].
  constructor; try done; cbn [l_owned l_live].
  - intros x q ty own Hx. destruct (decide (x = o)) as [->|Hne]; [|rewrite C4 in Hx by done; by apply T in Hx].
    rewrite C3 in Hx. injection Hx as <- <- <-. split; [by eapply C6|by right].
  - intros x q ty Hx. destruct (decide (x = o)) as [->|Hne].
    + rewrite C3 in Hx. injection Hx as <- <-. exists c. by rewrite lookup_insert_eq.
    + rewrite lookup_insert_ne by done. rewrite C4 in Hx by done. by apply T.
  - intros x q m [[<- [= <- <-]]|[Hne Hx]]%lookup_insert_Some; [eauto|]. rewrite C4 by done. by apply T in Hx.
Qed.

(** The object neither was nor is an owner. *)
Lemma tracks_idle a w w' o v : tracks a w -> changed o v w w' -> not_owner (view_at w o) -> not_owner v ->
  same_memory w w' -> tracks a w'.
Proof.
  intros T C Hn Hv S. pose proof (tracks_not_owner a w o T Hn) as Ha.
  pose proof (tracks_clear a w w' o v T C Hv (memory_same w w' (tr_memory _ _ T) S)) as T'.
  rewrite delete_id, (sm_blocks _ _ S), (tr_live _ _ T) in T' by done. by destruct a.
Qed.

(** *** Operations that leave what the objects say alone *)

Record alike (w w' : world) : Prop := {
  al_gil : w_gil w' = w_gil w;
  al_fresh : fresh_ok w';
  al_view : forall x, view_at w' x = view_at w x;
  al_memory : same_memory w w';
}.

Lemma same_memory_refl w : same_memory w w.
Proof. by constructor. Qed.

Lemma alike_trans u v w : alike u v -> alike v w -> alike u w.
Proof.
  intros [A1 A2 A3 [A4 A5 A6]] [B1 B2 B3 [B4 B5 B6]]. constructor; [congruence|done|congruence|].
  constructor; [congruence..|]. intros a. by rewrite B6, A6.
Qed.

Lemma kept_alike w w' : fresh_ok w -> kept w w' -> alike w w'.
Proof.
  intros Hf K. constructor; [apply K|by apply K| |constructor; apply K].
  intros x. unfold view_at. destruct (decide (x < w_fresh w)) as [Hlt|Hge]; [by rewrite (kp_old _ _ K)|].
  rewrite (proj2 Hf x) by lia. pose proof (kp_new _ _ K Hf x) as Hn.
  destruct (w_heap w' !! x) as [[]|]; try done. destruct (Hn s); [lia|done].
Qed.

Definition steady {A} (m : M A) : Prop := forall w r w', fresh_ok w -> m w = (Ret r, w') -> alike w w'.

Lemma steady_keeps {A} (m : M A) : keeps m -> steady m.
Proof. intros K w r w' Hf E. apply kept_alike; [done|]. by apply (K _ _ _ E). Qed.

Lemma bind_returns {A B} (m : M A) (k : A -> M B) w r w' : bind m k w = (Ret r, w') ->
  exists a w1, m w = (Ret a, w1) /\ k a w1 = (Ret r, w').
Proof. unfold bind. destruct (m w) as [[a|e|u] w1]; [eauto|done..]. Qed.

Lemma steady_bind {A B} (m : M A) (k : A -> M B) : steady m -> (forall a, steady (k a)) -> steady (bind m k).
Proof.
  intros Hm Hk w r w' Hf (a & w1 & E1 & E2)%bind_returns. pose proof (Hm _ _ _ Hf E1) as A1.
  eapply alike_trans; [exact A1|]. eapply Hk; [apply A1|exact E2].
Qed.

(** A stored object that says what the old one said. *)
Lemma fresh_store w o u v : fresh_ok w -> w_heap w !! o = Some u -> fresh_ok (set_heap (<[o := v]> (w_heap w)) w).
Proof.
  intros [Hf1 Hf2] Ho. split; [done|]. intros x Hx. cbn in *. rewrite lookup_insert_ne; [by apply Hf2|].
  intros <-. rewrite Hf2 in Ho by done. done.
Qed.

Lemma view_store w o v x : view_at (set_heap (<[o := v]> (w_heap w)) w) x = if decide (x = o) then view v else view_at w x.
Proof. unfold view_at. cbn. case_decide; [subst; by rewrite lookup_insert_eq|by rewrite lookup_insert_ne]. Qed.

Lemma alike_store w o u v : fresh_ok w -> w_heap w !! o = Some u -> view v = view u ->
  alike w (set_heap (<[o := v]> (w_heap w)) w).
Proof.
  intros Hf Ho Hv. constructor; [done|by eapply fresh_store| |by constructor].
  intros x. rewrite view_store. case_decide as Hx; [|done]. subst. unfold view_at. by rewrite Ho.
Qed.

Lemma alike_ref o n w : fresh_ok w -> alike w (add_ref o n w).
Proof. intros Hf. by constructor. Qed.

Lemma append_steady v next : steady (SwigPyObject_append v next).
Proof.
  intros w r w' Hf E. unfold SwigPyObject_append, SwigPyObject_Check in E.
  destruct (w_gil w) eqn:Hg; [|by unfold object_at, need_gil, bind in E; rewrite Hg in E].
  destruct (w_heap w !! next) as [u|] eqn:Hn;
    [|by unfold object_at, need_gil, bind, gets in E; rewrite Hg, Hn in E].
  rewrite bind_assoc, (bind_eq _ _ _ _ _ (object_at_eq w Hg next u Hn)), (bind_eq (ret _) _ w _ w eq_refl) in E.
  destruct u as [| | | | | | | |n| |]; try (rewrite (bind_eq _ _ _ _ _ (set_string_eq w Hg _ _)) in E;
    injection E as <- <-; by constructor).
  destruct (w_heap w !! v) as [[| | | | | | | |s| |]|] eqn:Hv;
    try (by unfold swig_at, object_at, need_gil, bind, gets in E; rewrite Hg, Hv in E).
  rewrite (bind_eq _ _ _ _ _ (swig_at_eq w v s Hg Hv)), (bind_eq _ _ _ _ _ (swig_at_eq w next n Hg Hn)) in E.
  rewrite (bind_eq _ _ _ _ _ (store_object_eq w Hg next _)) in E. set (w1 := set_heap _ w) in E.
  assert (A1 : alike w w1) by by apply (alike_store w next (OSwig n)).
  assert (Hv1 : exists s1, w_heap w1 !! v = Some (OSwig s1)).
  { cbn. destruct (decide (v = next)) as [->|Hne]; [rewrite lookup_insert_eq|rewrite lookup_insert_ne by done]; eauto. }
  destruct Hv1 as [s1 Hv1]. rewrite (bind_eq _ _ _ _ _ (swig_at_eq w1 v s1 Hg Hv1)) in E.
  rewrite (bind_eq _ _ _ _ _ (store_object_eq w1 Hg v _)) in E. set (w2 := set_heap _ w1) in E.
  assert (A2 : alike w1 w2) by (apply (alike_store w1 v (OSwig s1)); [apply A1|done|done]).
  rewrite (bind_eq _ _ _ _ _ (incref_eq w2 Hg next)), (bind_eq _ _ _ _ _ (py_void_eq (add_ref next 1 w2) Hg)) in E.
  injection E as <- <-. eapply alike_trans; [exact A1|]. eapply alike_trans; [exact A2|].
  eapply alike_trans; apply alike_ref; apply A2.
Qed.

(** The two arguments of [swiginit]. *)
Lemma unpack_pair args name obj0 obj1 w code a b w1 : w_heap w !! args = Some (OTuple [obj0; obj1]) ->
  SWIG_Python_UnpackTuple args name 2 2 w = (Ret (code, [a; b]), w1) ->
  w_gil w = true /\ w1 = w /\ a = obj0 /\ b = obj1.
Proof.
  intros Ht E. destruct (w_gil w) eqn:Hg.
  - destruct (decide (args = 0)) as [->|Ha]; [by unfold SWIG_Python_UnpackTuple, PyErr_SetString, bind, need_gil in E; cbn in E; rewrite Hg in E|].
    rewrite (unpack_exact w args name [obj0; obj1] 2 Hg Ha Ht eq_refl) in E. by injection E as <- <- <- <-.
  - unfold SWIG_Python_UnpackTuple in E. destruct (args =? 0);
      [cbn [andb Z.eqb] in E; unfold PyErr_SetString, bind, need_gil in E; cbn in E; by rewrite Hg in E|].
    unfold object_at, bind, need_gil in E. by rewrite Hg in E.
Qed.

Lemma init_steady args obj0 obj1 this w r w' : fresh_ok w -> w_heap w !! args = Some (OTuple [obj0; obj1]) ->
  w_heap w !! obj0 = Some (OInst this) -> SWIG_Python_InitShadowInstance args w = (Ret r, w') -> alike w w'.
Proof.
  intros Hf Ht Hi E. unfold SWIG_Python_InitShadowInstance in E.
  apply bind_returns in E as ([code items] & w1 & Eu & E).
  destruct items as [|a [|b [|? ?]]];
    try (injection E as <- <-; by apply (steady_keeps _ (keeps_unpack args "swiginit" 2 2) _ _ _ Hf Eu)).
  apply (unpack_pair args _ obj0 obj1) in Eu as (Hg & -> & -> & ->); [|done].
  apply bind_returns in E as (t & w2 & Eg & E). pose proof (keeps_get_this obj0 _ _ _ Eg I) as K.
  pose proof (kept_alike _ _ Hf K) as A2. eapply alike_trans; [exact A2|]. destruct t as [s|].
  - revert E. apply steady_bind; [|intros _; apply steady_keeps; keeps|apply A2].
    apply steady_bind; [apply append_steady|]. intros ov. apply steady_keeps. destruct ov; keeps.
  - assert (Hg2 : w_gil w2 = true) by by rewrite (kp_gil _ _ K).
    rewrite (bind_eq _ _ _ _ _ (store_object_eq w2 Hg2 _ _)) in E.
    assert (Hlt : obj0 < w_fresh w).
    { destruct (decide (obj0 < w_fresh w)); [done|]. by rewrite (proj2 Hf) in Hi by lia. }
    assert (Hi2 : w_heap w2 !! obj0 = Some (OInst this)) by by rewrite (kp_old _ _ K).
    pose proof (alike_store w2 obj0 (OInst this) (OInst (Some obj1)) (al_fresh _ _ A2) Hi2 eq_refl) as A3.
    eapply alike_trans; [exact A3|]. revert E. apply steady_keeps; [keeps|apply A3].
Qed.

Lemma fresh_addr w : fresh_ok w -> w_fresh w <> 0 /\ w_fresh w <> Py_None.
Proof. intros [Hf _]. unfold first_free, Py_None in *. lia. Qed.

Section Life.
Context (addr : string -> Z) (registered : nat -> bool).
#[local] Instance life_types : TypeEnv := ctp_types addr registered.
#[local] Instance life_exact : ExactTypes life_types := ctp_exact addr registered.
Context (long_w : Z) (implicit : nat -> option (Z -> M Z)) `{!IconvEnv} (PyErr_WarnEx : list Z -> M Z).
Context (clientdata : nat -> option client) (type_text : nat -> list Z * option (list Z)).
(** The builtin functions of the module that are destructors, and the others. *)
Context (function_class : Z -> option class) (other_function : Z -> Z -> M Z).

(** A builtin function of one argument is called with that argument. *)
Definition call_builtin (f arg : Z) : M Z :=
  match function_class f with Some c => class_delete implicit c arg | None => other_function f arg end.

Definition dealloc (o : Z) : M unit := SwigPyObject_dealloc clientdata type_text call_builtin o.

(** [SWIG_ConvertPtr] finds the pointer object [o], with the pointer [p], for
    [obj]: [obj] itself, its attribute [this], or a later object of the chain. *)
Definition finds (w : world) (ty : nat) (obj o p : Z) : Prop :=
  obj <> 0 /\ obj <> Py_None /\ exists newmemory w1,
    (sobj <- SWIG_Python_GetSwigThis obj ;;
     h <- gets w_heap ;;
     convert_chain (S (size h)) sobj (Some ty)) w = (Ret (Some (o, p, newmemory)), w1).

Definition owned_in (w : world) (p : Z) : Prop := exists o ty, view_at w o = Some (p, ty, SWIG_POINTER_OWN).

(** What [delete_X(obj)] does to the ledger, for any object whatever. *)
Inductive delete_label (ty : nat) (obj : Z) (w : world) : label -> Prop :=
| dl_none : (forall o p, ~ finds w ty obj o p) -> delete_label ty obj w LTouch
| dl_delete o p : finds w ty obj o p ->
    (exists t, view_at w o = Some (p, t, SWIG_POINTER_OWN)) \/ ~ owned_in w p -> delete_label ty obj w (LDelete o p)
| dl_take o p : finds w ty obj o p -> (forall t, view_at w o <> Some (p, t, SWIG_POINTER_OWN)) -> owned_in w p ->
    delete_label ty obj w (LTake o p).

(** What [acquire] of the object [o], a pointer [p] to a structure of [c], does. *)
Inductive acquire_label (c : class) (o p : Z) (own : Z) (w : world) : label -> Prop :=
| al_again : own = SWIG_POINTER_OWN -> acquire_label c o p own w LTouch
| al_adopt : own = 0 -> w_blocks w !! p = Some (class_size c) -> ~ owned_in w p -> acquire_label c o p own w (LAdopt o p)
| al_grab : own = 0 -> w_blocks w !! p <> Some (class_size c) \/ owned_in w p -> acquire_label c o p own w (LGrab o p).

(** One operation that has come back, with any arguments.  [st_caught]: the
    interpreter takes the error a function has set. *)
Inductive step : label -> world -> world -> Prop :=
| st_new c w obj w' : c ∈ ctp_classes -> class_new c 0 w = (Ret obj, w') -> step (LNew obj (class_size c)) w w'
| st_set meth sname tname ty k off args w r w' :
    wrap_set long_w implicit meth sname tname ty k off args w = (r, w') -> Director.not_stuck r -> step LTouch w w'
| st_get meth sname field ty g off args w r w' :
    wrap_get implicit PyErr_WarnEx meth sname field ty g off args w = (r, w') -> Director.not_stuck r -> step LTouch w w'
| st_caught w : step LTouch w (set_err None w)
| st_borrow ptr ty flags w obj w' : has_flag flags SWIG_POINTER_OWN = false ->
    SWIG_Python_NewPointerObj ptr ty flags w = (Ret obj, w') -> step LTouch w w'
| st_init args obj0 obj1 this w r w' : w_heap w !! args = Some (OTuple [obj0; obj1]) ->
    w_heap w !! obj0 = Some (OInst this) ->
    SWIG_Python_InitShadowInstance args w = (Ret r, w') -> step LTouch w w'
| st_disown o w r w' : SwigPyObject_disown o w = (Ret r, w') -> step (LDisown o) w w'
| st_acquire c o p own l w r w' : c ∈ ctp_classes -> view_at w o = Some (p, Some (cl_new c), own) ->
    SwigPyObject_acquire o w = (Ret r, w') -> acquire_label c o p own w l -> step l w w'
| st_delete c obj l w r w' : c ∈ ctp_classes ->
    class_delete implicit c obj w = (Ret r, w') -> delete_label (cl_new c) obj w l -> step l w w'
| st_dealloc o w w' : dealloc o w = (Ret tt, w') -> step (LDealloc o) w w'.

(** The class data of every structure names its destructor, as registration
    leaves it: a builtin function of one argument. *)
Definition wired : Prop := forall c, c ∈ ctp_classes ->
  exists blk data, clientdata (cl_new c) = Some (blk, data) /\ cd_destroy data <> 0 /\ cd_delargs data = false
    /\ function_class (cd_destroy data) = Some c.
(** *** Each operation *)

Lemma class_new_run c w : w_gil w = true -> fresh_ok w -> 0 < w_brk w ->
  exists w', class_new c 0 w = (Ret (w_fresh w), w')
    /\ changed (w_fresh w) (Some (w_brk w, Some (cl_new c), SWIG_POINTER_OWN)) w w'
    /\ w_blocks w' = <[w_brk w := class_size c]> (w_blocks w) /\ w_brk w' = w_brk w + Z.of_nat (class_size c) + 1
    /\ w_mem w' = store_bytes (w_mem w) (w_brk w) (replicate (class_size c) 0)
    /\ w_heap w' = <[w_fresh w := OSwig (mk_swigobj (w_brk w) (Some (cl_new c)) SWIG_POINTER_OWN None)]> (w_heap w)
    /\ w_err w' = w_err w /\ w_calls w' = w_calls w
    /\ (forall x, refs w' x = refs w x + (if decide (w_fresh w = x) then 1 else 0) + capsule_ref SWIG_POINTER_OWN x).
Proof.
  intros Hg Hf Hb. unfold class_new, wrap_new. set (n := class_size c).
  rewrite (bind_eq (SWIG_Python_UnpackTuple 0 _ 0 0) _ w (1, []) w eq_refl). cbn [fst Z.eqb Pos.eqb].
  set (w1 := snd (alloc (replicate n 0) (set_gil false w))).
  assert (Ea : alloc (replicate n 0) (set_gil false w) = (Ret (w_brk w), w1)) by done.
  rewrite (bind_eq _ _ _ _ _ (guarded_ok _ _ _ _ _ Hg Ea)). set (w2 := set_gil true w1).
  unfold SWIG_Python_NewPointerObj. rewrite (proj2 (Z.eqb_neq _ _)) by lia.
  change (has_flag SWIG_POINTER_NEW SWIG_POINTER_OWN) with true.
  change (has_flag SWIG_POINTER_NEW SWIG_POINTER_NOSHADOW) with true. cbv iota zeta. cbn [negb].
  rewrite andb_false_r. change (w_fresh w) with (w_fresh w2).
  destruct (swig_new_resolves w2 (w_brk w) (Some (cl_new c)) SWIG_POINTER_OWN eq_refl Hf)
    as (w' & E & G1 & G2 & G3 & G4 & G5 & [G6 G7] & [G8 G9] & G10 & G11).
  exists w'. split; [by rewrite (bind_eq _ _ _ _ _ E)|]. split.
  { constructor; try done.
    - unfold view_at. by rewrite G3, lookup_insert_eq.
    - intros x Hx. unfold view_at. by rewrite G3, lookup_insert_ne.
    - intros _. by apply fresh_addr.
    - intros p ty own [= <- _ _]. lia. }
  rewrite G8, G9, G5, G4, G7, G3. cbn [w2 w1 alloc snd set_gil set_mem set_blocks w_blocks w_brk w_mem].
  rewrite length_replicate. do 6 (split; [done|]). exact G11.
Qed.

(** A pointer object that owns nothing. *)
Lemma borrow_run ptr ty flags w obj w' : w_gil w = true -> fresh_ok w -> has_flag flags SWIG_POINTER_OWN = false ->
  SWIG_Python_NewPointerObj ptr ty flags w = (Ret obj, w') ->
  exists v, changed (w_fresh w) v w w' /\ not_owner v /\ same_memory w w'.
Proof.
  intros Hg Hf Hfl E. assert (Hnone : view_at w (w_fresh w) = None) by (unfold view_at; by rewrite (proj2 Hf)).
  unfold SWIG_Python_NewPointerObj in E. destruct (ptr =? 0) eqn:Ep.
  { rewrite (py_void_eq w Hg) in E. injection E as <- <-. exists None. split_and!; [|done|done]. by constructor. }
  rewrite Hfl in E. cbv zeta in E.
  destruct (swig_new_resolves w ptr ty 0 Hg Hf) as (w1 & E1 & G1 & G2 & G3 & _ & G5 & _ & [G8 G9] & G10 & _).
  rewrite (bind_eq _ _ _ _ _ E1) in E. exists (Some (ptr, ty, 0)).
  assert (C1 : changed (w_fresh w) (Some (ptr, ty, 0)) w w1).
  { constructor; try done.
    - unfold view_at; by rewrite G3, lookup_insert_eq.
    - intros x Hx. unfold view_at. by rewrite G3, lookup_insert_ne.
    - intros _. by apply fresh_addr.
    - intros q t own [= <- _ _]. zbool. done. }
  assert (S1 : same_memory w w1) by (constructor; [done..|]; intros a; by rewrite G5).
  assert (A : alike w1 w').
  { revert E. case_match; [|intros [= <- <-]; by constructor].
    apply steady_keeps; [|done]. unfold SWIG_Python_NewShadowInstance. keeps. }
  destruct A as [A1 A2 A3 A4]. split; [|split; [done|]].
  - destruct C1 as [C1 C2 C3 C4 C5 C6]. constructor; [congruence|done|by rewrite A3| |done|done]. intros x Hx. rewrite A3. by apply C4.
  - destruct S1 as [S1 S2 S3], A4 as [S4 S5 S6]. constructor; [congruence..|]. intros a. by rewrite S6, S3.
Qed.

(** [disown] and [acquire]. *)
Lemma set_own_changed o own' w r w' : fresh_ok w -> (is_Some (view_at w o) -> o <> 0 /\ o <> Py_None) ->
  (forall p ty own, view_at w o = Some (p, ty, own) -> p <> 0) ->
  (set_own o own' ;;; SWIG_Py_Void) w = (Ret r, w') ->
  exists p ty own0, view_at w o = Some (p, ty, own0) /\ changed o (Some (p, ty, own')) w w' /\ same_memory w w'.
Proof.
  intros Hf Hadr Hnull E. unfold set_own in E. rewrite bind_assoc in E. apply bind_returns in E as (s & w1 & E1 & E).
  assert (Hs : w_gil w = true /\ w_heap w !! o = Some (OSwig s) /\ w1 = w).
  { unfold swig_at, object_at, need_gil, bind, gets in E1. destruct (w_gil w); [|done].
    destruct (w_heap w !! o) as [[]|]; try done. by injection E1 as <- <-. }
  destruct Hs as (Hg & Ho & ->).
  rewrite (bind_eq _ _ _ _ _ (store_object_eq w Hg o _)), py_void_eq in E by done. injection E as <- <-.
  assert (Hv : view_at w o = Some (s_ptr s, s_ty s, s_own s)) by (unfold view_at; by rewrite Ho).
  exists (s_ptr s), (s_ty s), (s_own s). split; [done|]. split; [|by constructor].
  set (w1 := set_heap _ w). constructor; [done|by eapply (fresh_store w o)| | | |].
  - change (view_at w1 o = Some (s_ptr s, s_ty s, own')). unfold w1. by rewrite view_store, decide_True.
  - intros x Hx. change (view_at w1 x = view_at w x). unfold w1. by rewrite view_store, decide_False.
  - intros _. apply Hadr. eauto.
  - intros p ty own [= <- _ _]. by eapply Hnull.
Qed.

(** [delete_X] on an object that has the type of the class. *)
Lemma class_delete_run c obj o s n w : c ∈ ctp_classes -> w_gil w = true -> obj <> 0 -> obj <> Py_None ->
  resolves w obj o -> w_heap w !! o = Some (OSwig s) -> s_ty s = Some (cl_new c) ->
  s_ptr s <> 0 -> w_blocks w !! s_ptr s = Some n ->
  exists w', class_delete implicit c obj w = (Ret Py_None, w') /\ w_gil w' = true
    /\ w_heap w' = <[o := OSwig (mk_swigobj (s_ptr s) (s_ty s) 0 (s_next s))]> (w_heap w) /\ w_fresh w' = w_fresh w
    /\ w_blocks w' = delete (s_ptr s) (w_blocks w) /\ w_brk w' = w_brk w /\ w_mem w' = unmap (w_mem w) (s_ptr s) n
    /\ w_err w' = w_err w /\ w_calls w' = w_calls w
    /\ (forall x, refs w' x = refs w x + cnt (one Py_None) x).
Proof.
  intros Hc Hg Hz Hnn Hr Ho Ht Hp Hb. destruct (class_types c Hc) as (Hd & _).
  unfold class_delete, wrap_delete. rewrite (proj2 (Z.eqb_neq _ _) Hz), Hd.
  destruct (convert_disown_run implicit w obj o s (cl_new c) Hg Hz Hnn Ho Hr Ht) as (w1 & E1 & S).
  rewrite (bind_eq _ _ _ _ _ E1). change (SWIG_IsOK SWIG_OK) with true. cbn [negb].
  assert (Hg1 : w_gil w1 = true) by by rewrite (same_gil _ _ S).
  assert (Ef : free (s_ptr s) (set_gil false w1) = (Ret tt, set_mem (unmap (w_mem w1) (s_ptr s) n)
    (set_blocks (delete (s_ptr s) (w_blocks w1)) (w_brk w1) (set_gil false w1)))).
  { unfold free. rewrite (proj2 (Z.eqb_neq _ _) Hp). cbn [set_gil w_blocks].
    rewrite (same_blocks _ _ S). cbn [set_heap w_blocks]. by rewrite Hb. }
  rewrite (bind_eq _ _ _ _ _ (guarded_ok _ _ _ _ _ Hg1 Ef)). eexists. split; [by apply py_void_eq|].
  split; [done|]. destruct S as [S1 S2 S3 S4 S5 S6 S7 S8 S9 S10 S11]. cbn in *.
  split; [congruence|]. split; [congruence|]. split; [by rewrite S7|]. split; [congruence|].
  split; [by rewrite S6|]. split; [congruence|]. split; [congruence|].
  intros x. rewrite refs_add, cnt_single. f_equal. exact (S2 x).
Qed.

Context (Hwired : wired) (Hwarn : forall msg, keeps (PyErr_WarnEx msg)).

(** The collector frees an owner: its destructor runs on it and frees the structure. *)
Lemma dealloc_owner c o s n w : c ∈ ctp_classes -> w_gil w = true -> fresh_ok w -> o <> 0 -> o <> Py_None ->
  w_heap w !! o = Some (OSwig s) -> s_ty s = Some (cl_new c) -> s_own s = SWIG_POINTER_OWN ->
  s_ptr s <> 0 -> w_blocks w !! s_ptr s = Some n ->
  exists w', dealloc o w = (Ret tt, w') /\ changed o None w w'
    /\ w_blocks w' = delete (s_ptr s) (w_blocks w) /\ w_brk w' = w_brk w /\ w_mem w' = unmap (w_mem w) (s_ptr s) n
    /\ w_err w' = w_err w /\ w_heap w' = delete o (w_heap w)
    /\ (exists f, function_class f = Some c /\ w_calls w' = w_calls w ++ [EFunction f o])
    /\ (forall x, refs w' x = refs w x - capsule_ref SWIG_POINTER_OWN x - cnt (one (default 0 (s_next s))) x).
Proof.
  intros Hc Hg Hf Hz Hnn Ho Ht Hown Hp Hb. destruct (Hwired c Hc) as (blk & data & Hd & Hdz & Hda & Hfc).
  assert (Hcd : s_ty s ≫= clientdata = Some (blk, data)) by by rewrite Ht.
  destruct (dealloc_run clientdata type_text call_builtin o s blk data w Hg Ho Hown Hcd Hdz) as (w1 & F & Hrun).
  destruct F as (F1 & F2 & F3 & F4 & F5 & F6 & F7 & F8 & F9 & F10).
  set (wl := log (EFunction (cd_destroy data) o) w1).
  destruct (class_delete_run c o o s n wl) as (w2 & E2 & G1 & G2 & G3 & G4 & G5 & G6 & G7 & G8 & G9); try done.
  { exists s. cbn. rewrite F3. split; [done|by left]. }
  { cbn. by rewrite F3. } { cbn. by rewrite F6. }
  assert (Ed : destroy_call call_builtin o s data w1 = (Ret Py_None, w2)).
  { unfold destroy_call. rewrite Hda. unfold run_function.
    rewrite (bind_eq (modify (log (EFunction (cd_destroy data) o))) _ w1 tt wl eq_refl).
    unfold call_builtin. by rewrite Hfc. }
  destruct (Hrun Py_None w2 Ed G1 G9) as (w' & E & K1 & K2 & K3 & K4 & K5 & K6 & K7 & K8 & K9 & K10).
  cbn [wl log w_heap w_fresh w_blocks w_brk w_mem w_err w_calls] in *.
  assert (Hh : w_heap w' = delete o (w_heap w)) by by rewrite K3, G2, delete_insert_eq, F3.
  exists w'. split; [exact E|]. split.
  { constructor; [done| | | | |].
    - destruct Hf as [Hf1 Hf2]. split; [by rewrite K4, G3, F4|]. rewrite K4, G3, F4. intros x Hx. rewrite Hh.
      apply lookup_delete_None. right. by apply Hf2.
    - unfold view_at. by rewrite Hh, lookup_delete_eq.
    - intros x Hx. unfold view_at. by rewrite Hh, lookup_delete_ne by done.
    - by intros [].
    - done. }
  split; [by rewrite K6, G4, F6|]. split; [by rewrite K7, G5, F7|]. split; [by rewrite K5, G6, F5|].
  split; [done|]. split; [done|]. split; [exists (cd_destroy data); split; [done|by rewrite K9, G8, F9]|].
  intros x. rewrite K10, (one_nonzero Swig_Capsule_global), cnt_single by done. done.
Qed.

(** An object that owns nothing: only the object goes. *)
Lemma dealloc_idle o s w : w_gil w = true -> fresh_ok w -> w_heap w !! o = Some (OSwig s) ->
  s_own s <> SWIG_POINTER_OWN ->
  exists w', dealloc o w = (Ret tt, w') /\ changed o None w w' /\ same_memory w w' /\ w_err w' = w_err w
    /\ w_calls w' = w_calls w.
Proof.
  intros Hg Hf Ho Hown. destruct (dealloc_borrowed clientdata type_text call_builtin o s w Hg Ho Hown) as (w' & E & R).
  exists w'. split; [exact E|]. destruct R as [R1 R2 R3 R4 R5 R6 R7 R8 R9 R10 R11]. cbn in *. split.
  { constructor; [congruence| | | | |].
    - destruct Hf as [Hf1 Hf2]. unfold fresh_ok. rewrite R3. split; [done|]. intros x Hx. rewrite R2.
      apply lookup_delete_None. right. by apply Hf2.
    - unfold view_at. by rewrite R2, lookup_delete_eq.
    - intros x Hx. unfold view_at. by rewrite R2, lookup_delete_ne by done.
    - by intros [].
    - done. }
  split; [constructor; [done..|]; intros a; by rewrite R6|]. split; [done|done].
Qed.

(** A structure that is not there any more is freed again: undefined. *)
Lemma class_delete_dead c obj o s w : c ∈ ctp_classes -> w_gil w = true -> obj <> 0 -> obj <> Py_None ->
  resolves w obj o -> w_heap w !! o = Some (OSwig s) -> s_ty s = Some (cl_new c) ->
  s_ptr s <> 0 -> w_blocks w !! s_ptr s = None -> exists w', class_delete implicit c obj w = (Stuck BadFree, w').
Proof.
  intros Hc Hg Hz Hnn Hr Ho Ht Hp Hb. destruct (class_types c Hc) as (Hd & _).
  unfold class_delete, wrap_delete. rewrite (proj2 (Z.eqb_neq _ _) Hz), Hd.
  destruct (convert_disown_run implicit w obj o s (cl_new c) Hg Hz Hnn Ho Hr Ht) as (w1 & E1 & S).
  rewrite (bind_eq _ _ _ _ _ E1). change (SWIG_IsOK SWIG_OK) with true. cbn [negb].
  assert (Hg1 : w_gil w1 = true) by by rewrite (same_gil _ _ S).
  assert (Ef : free (s_ptr s) (set_gil false w1) = (Stuck BadFree, set_gil false w1)).
  { unfold free. rewrite (proj2 (Z.eqb_neq _ _) Hp). cbn [set_gil w_blocks].
    rewrite (same_blocks _ _ S). cbn [set_heap w_blocks]. by rewrite Hb. }
  rewrite (bind_stuck _ _ _ _ _ (guarded_stuck _ _ _ _ _ Hg1 Ef)). eauto.
Qed.

Lemma dealloc_dead c o s w : c ∈ ctp_classes -> w_gil w = true -> o <> 0 -> o <> Py_None ->
  w_heap w !! o = Some (OSwig s) -> s_ty s = Some (cl_new c) -> s_own s = SWIG_POINTER_OWN ->
  s_ptr s <> 0 -> w_blocks w !! s_ptr s = None -> exists w', dealloc o w = (Stuck BadFree, w').
Proof.
  intros Hc Hg Hz Hnn Ho Ht Hown Hp Hb. destruct (Hwired c Hc) as (blk & data & Hd & Hdz & Hda & Hfc).
  unfold dealloc, SwigPyObject_dealloc. rewrite (bind_eq _ _ _ _ _ (swig_at_eq w o s Hg Ho)), Hown, Z.eqb_refl.
  unfold run_destructor. rewrite Ht. cbn [mbind option_bind]. rewrite Hd, (proj2 (Z.eqb_neq _ _) Hdz), ?bind_assoc.
  rewrite (bind_eq (gets w_err) _ w (w_err w) w eq_refl), ?bind_assoc.
  destruct (fetch_frame w Hg) as (e & w1 & E1 & F1 & F2 & F3 & F4 & F5 & F6 & _).
  rewrite (bind_eq _ _ _ _ _ E1), ?bind_assoc. unfold destroy_call. rewrite Hda. unfold run_function. rewrite ?bind_assoc.
  set (wl := log (EFunction (cd_destroy data) o) w1).
  rewrite (bind_eq (modify (log (EFunction (cd_destroy data) o))) _ w1 tt wl eq_refl).
  unfold call_builtin. rewrite Hfc.
  destruct (class_delete_dead c o o s wl) as (w' & E'); try done.
  { exists s. cbn. rewrite F3. split; [done|by left]. }
  { cbn. by rewrite F3. } { cbn. by rewrite F6. }
  rewrite (bind_stuck _ _ _ _ _ E'). eauto.
Qed.

(** *** Deleting through any object *)

Lemma finds_unique w ty obj o p o' p' : finds w ty obj o p -> finds w ty obj o' p' -> o' = o /\ p' = p.
Proof. intros (_ & _ & n & w1 & E) (_ & _ & n' & w1' & E'). rewrite E in E'. by injection E' as <- <- _ _. Qed.

(** No cast of the module changes a pointer. *)
Lemma cast_plain t m j ptr : SWIG_TypeCast (match te_cast t with
    | Some l => match l !! m with Some arr => arr !! j | None => None end
    | None => None end) ptr = (ptr, 0).
Proof.
  cbn [te_cast life_types ctp_types]. destruct (CtpTypes.swigt !! t) as [q|] eqn:Hq.
  - rewrite (CtpTypes.type_casts_self addr t q Hq). by destruct m as [|m], j as [|[|j]].
  - by rewrite (CtpTypes.type_casts_none addr t Hq).
Qed.

Lemma chain_finds fuel sobj t w found w1 : convert_chain fuel sobj (Some t) w = (Ret found, w1) ->
  w1 = w /\ forall o p n, found = Some (o, p, n) -> exists s, w_heap w !! o = Some (OSwig s) /\ s_ptr s = p.
Proof.
  revert sobj; induction fuel as [|fuel IH]; intros [o|] E; cbn [convert_chain] in E;
    [done|by injection E as <- <-| |by injection E as <- <-].
  apply bind_returns in E as (s & w2 & E1 & E).
  assert (Hs : w_heap w !! o = Some (OSwig s) /\ w2 = w).
  { unfold swig_at, object_at, need_gil, bind, gets in E1. destruct (w_gil w); [|done].
    destruct (w_heap w !! o) as [[]|]; try done. by injection E1 as <- <-. }
  destruct Hs as [Ho ->]. case_decide.
  { injection E as <- <-. split; [done|]. intros o' p n [= <- <- _]. eauto. }
  destruct (s_ty s) as [to|]; [|done]. destruct (SWIG_TypeCheck _ _) as [[[m j]|]|]; [|by apply (IH (s_next s))|done].
  rewrite cast_plain in E. injection E as <- <-. split; [done|]. intros o' p n [= <- <- _]. eauto.
Qed.

Lemma convert_disown_cases ty obj w x w1 : w_gil w = true -> fresh_ok w -> obj <> 0 -> obj <> Py_None ->
  SWIG_ConvertPtr implicit obj ty SWIG_POINTER_DISOWN w = (Ret x, w1) ->
  ((forall o p, ~ finds w ty obj o p) /\ x = (SWIG_ERROR, 0) /\ alike w w1)
  \/ exists o s w0, finds w ty obj o (s_ptr s) /\ alike w w0 /\ w_heap w0 !! o = Some (OSwig s) /\ x = (SWIG_OK, s_ptr s)
       /\ w1 = set_heap (<[o := OSwig (mk_swigobj (s_ptr s) (s_ty s) 0 (s_next s))]> (w_heap w0)) w0.
Proof.
  intros Hg Hf Hz Hnn E. unfold SWIG_ConvertPtr, SWIG_Python_ConvertPtrAndOwn in E.
  rewrite (proj2 (Z.eqb_neq _ _) Hz), (proj2 (Z.eqb_neq _ _) Hnn) in E. cbn [andb] in E.
  change (has_flag SWIG_POINTER_DISOWN SWIG_POINTER_IMPLICIT_CONV) with false in E. cbv iota in E.
  rewrite bind_assoc in E. apply bind_returns in E as (sobj & w0 & E0 & E).
  assert (A : alike w w0) by by apply (steady_keeps _ (keeps_get_this obj) _ _ _ Hf E0).
  rewrite bind_assoc, (bind_eq (gets w_heap) _ w0 (w_heap w0) w0 eq_refl), bind_assoc in E.
  apply bind_returns in E as (found & w2 & Ec & E).
  assert (Efind : (sobj <- SWIG_Python_GetSwigThis obj ;; h <- gets w_heap ;; convert_chain (S (size h)) sobj (Some ty)) w
    = (Ret found, w2)) by by rewrite (bind_eq _ _ _ _ _ E0), (bind_eq (gets w_heap) _ w0 (w_heap w0) w0 eq_refl).
  destruct (chain_finds _ _ _ _ _ _ Ec) as [-> Hfound]. destruct found as [[[o p] n]|].
  - right. destruct (Hfound o p n eq_refl) as (s & Ho & <-). exists o, s, w0.
    assert (Hg0 : w_gil w0 = true) by by rewrite (al_gil _ _ A).
    cbn [finish_convert] in E. rewrite bind_assoc, (bind_eq _ _ _ _ _ (swig_at_eq w0 o s Hg0 Ho)) in E.
    change (Z.land SWIG_POINTER_DISOWN SWIG_POINTER_RELEASE =? SWIG_POINTER_RELEASE) with false in E.
    change (has_flag SWIG_POINTER_DISOWN SWIG_POINTER_CLEAR) with false in E.
    change (has_flag SWIG_POINTER_DISOWN SWIG_POINTER_DISOWN) with true in E. cbn [andb] in E.
    rewrite bind_assoc, (bind_eq _ _ _ _ _ (store_object_eq w0 Hg0 o _)) in E.
    injection E as <- <-. split; [split; [done|]; split; [done|]; eauto|done].
  - left. injection E as <- <-. split; [|done]. intros o p (_ & _ & n & w3 & E3). congruence.
Qed.

(** [delete_X(obj)] that comes back: [obj] leads to no structure of that type, or
    the structure was live and is freed, whoever owned it. *)
Lemma class_delete_cases a c obj w r w' : tracks a w -> c ∈ ctp_classes -> class_delete implicit c obj w = (Ret r, w') ->
  ((forall o p, ~ finds w (cl_new c) obj o p) /\ alike w w')
  \/ exists o p ty own n, finds w (cl_new c) obj o p /\ view_at w o = Some (p, ty, own)
       /\ changed o (Some (p, ty, 0)) w w' /\ memory_ok w'
       /\ w_blocks w !! p = Some n /\ w_blocks w' = delete p (w_blocks w).
Proof.
  intros T Hc E. pose proof (tr_gil _ _ T) as Hg. pose proof (tr_fresh _ _ T) as Hf.
  destruct (class_types c Hc) as (Hd & _). unfold class_delete, wrap_delete in E. rewrite Hd in E.
  destruct (obj =? 0) eqn:Ez; zbool.
  { injection E as <- <-. left. split; [by intros o p [Hz _]|by constructor]. }
  destruct (decide (obj = Py_None)) as [->|Hnn].
  { rewrite (bind_eq (SWIG_ConvertPtr implicit Py_None (cl_new c) SWIG_POINTER_DISOWN) _ w (SWIG_OK, 0) w eq_refl) in E.
    change (SWIG_IsOK SWIG_OK) with true in E. cbn [negb] in E.
    rewrite (bind_eq _ _ _ _ _ (guarded_ok _ (free 0) w tt (set_gil false w) Hg eq_refl)), py_void_eq in E by done.
    injection E as <- <-. left. split; [by intros o p (_ & Hn & _)|]. by constructor. }
  apply bind_returns in E as (x & w1 & E1 & E).
  destruct (convert_disown_cases _ _ _ _ _ Hg Hf Ez Hnn E1) as [(Hno & -> & A)|(o & s & w0 & Hfi & A & Ho & -> & ->)].
  - left. split; [done|]. eapply alike_trans; [exact A|].
    apply (steady_keeps _ (keeps_fail _ _) _ _ _ (al_fresh _ _ A) E).
  - right. change (SWIG_IsOK SWIG_OK) with true in E. cbn [negb] in E. set (w2 := set_heap _ w0) in E.
    assert (Hg2 : w_gil w2 = true) by (cbn; rewrite (al_gil _ _ A); done).
    assert (Hv : view_at w o = Some (s_ptr s, s_ty s, s_own s)) by (rewrite <- (al_view _ _ A); unfold view_at; by rewrite Ho).
    destruct (tr_flag _ _ T _ _ _ _ Hv) as [Hp _].
    pose proof (memory_same _ _ (tr_memory _ _ T) (al_memory _ _ A)) as M0.
    destruct (w_blocks w0 !! s_ptr s) as [n|] eqn:Hb.
    2: { rewrite (bind_stuck _ _ _ _ _ (guarded_stuck _ (free (s_ptr s)) w2 BadFree (set_gil false w2) Hg2
           ltac:(unfold free; rewrite (proj2 (Z.eqb_neq _ _) Hp); cbn; by rewrite Hb))) in E. done. }
    rewrite (bind_eq _ _ _ _ _ (guarded_ok _ (free (s_ptr s)) w2 tt _ Hg2
       ltac:(unfold free; rewrite (proj2 (Z.eqb_neq _ _) Hp); cbn [set_gil w2 set_heap w_blocks]; rewrite Hb; reflexivity))) in E.
    rewrite py_void_eq in E by done. injection E as <- <-.
    exists o, (s_ptr s), (s_ty s), (s_own s), n. split; [done|]. split; [done|].
    split; [|split; [by eapply (memory_free w0)|]; by rewrite <- (sm_blocks _ _ (al_memory _ _ A))].
    pose proof (fresh_store w0 o _ (OSwig (mk_swigobj (s_ptr s) (s_ty s) 0 (s_next s))) (al_fresh _ _ A) Ho) as Hf2.
    constructor; [done|exact Hf2|exact (eq_trans (view_store w0 o _ o) (decide_True _ _ eq_refl))| | |by intros ? ? ? [= <- _ _]].
    + intros y Hy. rewrite <- (al_view _ _ A). exact (eq_trans (view_store w0 o _ y) (decide_False _ _ Hy)).
    + intros _. apply (tr_addr _ _ T). rewrite Hv. by eexists.
Qed.

(** *** The refinement *)

Lemma view_swig w o p ty own : view_at w o = Some (p, ty, own) ->
  exists s, w_heap w !! o = Some (OSwig s) /\ s_ptr s = p /\ s_ty s = ty /\ s_own s = own.
Proof.
  unfold view_at. destruct (w_heap w !! o) as [[| | | | | | | |s| |]|]; cbn; try done. intros [= <- <- <-]. by exists s.
Qed.

Lemma tracks_alike a w w' : tracks a w -> alike w w' -> tracks a w'.
Proof.
  intros T A. apply (tracks_idle a w w' (w_fresh w) None); try done.
  - constructor; [rewrite (al_gil _ _ A); apply T|apply A| |by intros; apply A|by intros []|done].
    rewrite (al_view _ _ A). unfold view_at. by rewrite (proj2 (tr_fresh _ _ T)).
  - unfold view_at. by rewrite (proj2 (tr_fresh _ _ T)).
  - apply A.
Qed.

(** An owner of a tracked world, as the deallocation sees it. *)
Lemma owner_swig a w o p ty : tracks a w -> view_at w o = Some (p, ty, SWIG_POINTER_OWN) ->
  exists c s, c ∈ ctp_classes /\ o <> 0 /\ o <> Py_None /\ w_heap w !! o = Some (OSwig s) /\ s_ptr s = p
    /\ ty = Some (cl_new c) /\ s_ty s = Some (cl_new c) /\ s_own s = SWIG_POINTER_OWN /\ p <> 0
    /\ l_owned a !! o = Some (p, class_size c).
Proof.
  intros T Hv. destruct (tr_owner _ _ T _ _ _ Hv) as (c & Hc & -> & Hl).
  destruct (view_swig _ _ _ _ _ Hv) as (s & Ho & Hp & Ht & Hown). destruct (tr_addr _ _ T o) as [Hz Hnn]; [by eexists|].
  destruct (tr_flag _ _ T _ _ _ _ Hv) as [Hp0 _]. by exists c, s.
Qed.

(** The owner of a live structure can be freed, and the rest stays. *)
Lemma owner_dealloc a w o p n m : tracks a w -> l_owned a !! o = Some (p, n) -> w_blocks w !! p = Some m ->
  exists w', dealloc o w = (Ret tt, w') /\ w_blocks w' = delete p (w_blocks w) /\ w_err w' = w_err w
    /\ tracks (mk_ledger (delete o (l_owned a)) (delete p (l_live a))) w'.
Proof.
  intros T Hl Hb. destruct (tr_owned _ _ T _ _ _ Hl) as [ty Hv].
  destruct (owner_swig a w o p ty T Hv) as (c & s & Hc & Hz & Hnn & Ho & <- & _ & Ht & Hown & Hp & _).
  pose proof (tr_gil _ _ T) as Hg. pose proof (tr_fresh _ _ T) as Hf.
  destruct (dealloc_owner c o s m w) as (w1 & E1 & C & B1 & B2 & B3 & He & _); try done.
  exists w1. split; [done|]. split; [done|]. split; [done|].
  pose proof (tracks_clear a w w1 o None T C I (memory_free w w1 _ m (tr_memory _ _ T) Hb B1 B2 B3)) as T1.
  by rewrite B1, (tr_live _ _ T) in T1.
Qed.

Lemma dealloc_step a w o w' : tracks a w -> dealloc o w = (Ret tt, w') ->
  exists a', lstep (LDealloc o) a a' /\ tracks a' w'.
Proof.
  intros T E. pose proof (tr_gil _ _ T) as Hg. pose proof (tr_fresh _ _ T) as Hf.
  destruct (tracks_view a w o T) as [Hn|(p & c & _ & Hv & Hl)].
  - assert (Ho : exists s, w_heap w !! o = Some (OSwig s)).
    { unfold dealloc, SwigPyObject_dealloc in E. apply bind_returns in E as (s & w1 & E1 & _).
      unfold swig_at, object_at, need_gil, bind, gets in E1. rewrite Hg in E1.
      destruct (w_heap w !! o) as [[]|]; try done. eauto. }
    destruct Ho as [s Ho]. destruct (dealloc_idle o s w Hg Hf Ho) as (w1 & E1 & C & S & _).
    { unfold view_at in Hn. rewrite Ho in Hn. cbn in Hn. by rewrite Hn. }
    rewrite E in E1. injection E1 as <-. exists a. split; [by apply ls_dealloc_none, (tracks_not_owner a w)|].
    by apply (tracks_idle a w w' o None).
  - destruct (w_blocks w !! p) as [m|] eqn:Hb.
    + destruct (owner_dealloc a w o p _ m T Hl Hb) as (w1 & E1 & _ & _ & T1). rewrite E in E1. injection E1 as <-.
      eexists. split; [eapply ls_dealloc; [exact Hl|by rewrite <- (tr_live _ _ T)]|done].
    + destruct (owner_swig a w o p _ T Hv) as (c' & s & Hc & Hz & Hnn & Ho & <- & _ & Ht & Hown & Hp & _).
      destruct (dealloc_dead c' o s w) as (w1 & E1); try done. congruence.
Qed.

Lemma new_step a w c obj w' : tracks a w -> c ∈ ctp_classes -> class_new c 0 w = (Ret obj, w') ->
  exists a', lstep (LNew obj (class_size c)) a a' /\ tracks a' w'.
Proof.
  intros T Hc E. pose proof (tr_gil _ _ T) as Hg. pose proof (tr_fresh _ _ T) as Hf. pose proof (tr_memory _ _ T) as HM.
  destruct (class_new_run c w Hg Hf (mo_brk _ HM)) as (w1 & E1 & C & B1 & B2 & B3 & _).
  rewrite E in E1. injection E1 as -> <-.
  pose proof (tracks_own a w w' _ _ c T Hc C (memory_alloc w w' _ HM B1 B2 B3)) as T'. rewrite B1, (tr_live _ _ T) in T'.
  eexists. split; [apply ls_new|exact T'].
  - apply (tracks_not_owner a w); [done|]. unfold view_at. by rewrite (proj2 Hf).
  - rewrite <- (tr_live _ _ T). destruct (w_blocks w !! w_brk w) as [n|] eqn:En; [|done]. apply (mo_bound _ HM) in En. lia.
Qed.

Lemma tracks_owned_in a w p : tracks a w -> owned_in w p -> ~ nobody a p.
Proof. intros T (o & ty & Hv) Hno. by apply (proj1 (tracks_nobody a w p T) Hno o ty). Qed.

Lemma tracks_not_owned_in a w p : tracks a w -> ~ owned_in w p -> nobody a p.
Proof. intros T Hno. apply (tracks_nobody a w p T). intros o ty Hv. apply Hno. by exists o, ty. Qed.

Lemma acquire_step a w c o p own l r w' : tracks a w -> c ∈ ctp_classes -> view_at w o = Some (p, Some (cl_new c), own) ->
  SwigPyObject_acquire o w = (Ret r, w') -> acquire_label c o p own w l -> exists a', lstep l a a' /\ tracks a' w'.
Proof.
  intros T Hc Hv E Hl.
  destruct (set_own_changed o SWIG_POINTER_OWN w r w' (tr_fresh _ _ T) (tr_addr _ _ T o)
    (fun p ty own H => proj1 (tr_flag _ _ T o p ty own H)) E) as (p' & ty & own0 & Hv' & C & S).
  rewrite Hv in Hv'. injection Hv' as <- <- <-.
  pose proof (tracks_own a w w' o p c T Hc C (memory_same _ _ (tr_memory _ _ T) S)) as T'.
  rewrite (sm_blocks _ _ S), (tr_live _ _ T) in T'.
  assert (Hon : own = 0 -> l_owned a !! o = None) by (intros ->; apply (tracks_not_owner a w); [done|]; by rewrite Hv).
  destruct Hl as [->|E0 Hb Hno|E0 Hb].
  - exists a. split; [constructor|]. eapply tracks_alike; [done|]. destruct C as [C1 C2 C3 C4 _ _].
    constructor; [by rewrite C1, (tr_gil _ _ T)|done| |done]. intros x.
    destruct (decide (x = o)) as [->|Hne]; [by rewrite C3|by apply C4].
  - eexists. split; [|exact T']. apply ls_adopt; [by apply Hon|by rewrite <- (tr_live _ _ T)|by apply (tracks_not_owned_in a w)].
  - eexists. split; [|exact T']. apply ls_grab; [by apply Hon|]. rewrite <- (tr_live _ _ T).
    destruct Hb as [Hb|Hb]; [by left|right; by apply (tracks_owned_in a w)].
Qed.

Lemma delete_step a w c obj l r w' : tracks a w -> c ∈ ctp_classes -> class_delete implicit c obj w = (Ret r, w') ->
  delete_label (cl_new c) obj w l -> exists a', lstep l a a' /\ tracks a' w'.
Proof.
  intros T Hc E Hl.
  destruct (class_delete_cases a c obj w r w' T Hc E) as [[Hno A]|(o & p & ty & own & n & Hfi & Hv & C & HM & Hb & Hb')].
  { exists a. destruct Hl as [_|o p Hfi _|o p Hfi _ _]; [|by destruct (Hno o p)..].
    split; [constructor|by eapply tracks_alike]. }
  pose proof (tracks_clear a w w' o _ T C eq_refl HM) as T'. rewrite Hb' in T'.
  rewrite (tr_live _ _ T) in Hb, T'. pose proof (tr_flag _ _ T _ _ _ _ Hv) as [_ Hown].
  assert (Hnot : own = 0 -> l_owned a !! o = None) by (intros ->; apply (tracks_not_owner a w); [done|by rewrite Hv]).
  destruct Hl as [Hno|o' p' Hfi' Hw|o' p' Hfi' Hw Hin]; [by destruct (Hno o p)|..];
    destruct (finds_unique _ _ _ _ _ _ _ Hfi Hfi') as [-> ->]; eexists.
  - split; [|exact T']. eapply ls_delete; [exact Hb|]. destruct Hw as [[t Ht]|Hno].
    + left. destruct (tr_owner _ _ T _ _ _ Ht) as (c' & _ & _ & Ho). eauto.
    + right. split; [|by apply (tracks_not_owned_in a w)]. apply Hnot. destruct Hown as [->| ->]; [done|].
      destruct Hno. by exists o, ty.
  - assert (own = 0) as -> by (destruct Hown as [->| ->]; [done|by destruct (Hw ty)]).
    rewrite delete_id in T' by by apply Hnot. split; [|exact T'].
    eapply ls_take; [exact Hb|by apply Hnot|by apply (tracks_owned_in a w)].
Qed.

(** One operation is one step of the ledger. *)
Lemma step_refines a l w w' : tracks a w -> step l w w' -> exists a', lstep l a a' /\ tracks a' w'.
Proof.
  intros T. pose proof (tr_gil _ _ T) as Hg. pose proof (tr_fresh _ _ T) as Hf.
  destruct 1 as [c w obj w' Hc E|meth sname tname ty k off args w r w' E Hr|meth sname field ty g off args w r w' E Hr|w
    |ptr ty flags w obj w' Hfl E|args obj0 obj1 this w r w' Ht Hi E|o w r w' E|c o p own l w r w' Hc Hv E Hl
    |c obj l w r w' Hc E Hl|o w w' E].
  - by eapply new_step.
  - exists a. split; [constructor|]. eapply tracks_alike; [done|]. apply kept_alike; [done|].
    by apply (keeps_wrap_set long_w implicit meth sname tname ty k off args _ _ _ E).
  - exists a. split; [constructor|]. eapply tracks_alike; [done|]. apply kept_alike; [done|].
    by apply (keeps_wrap_get implicit PyErr_WarnEx Hwarn meth sname field ty g off args _ _ _ E).
  - exists a. split; [constructor|]. eapply tracks_alike; [done|]. by constructor.
  - exists a. split; [constructor|]. destruct (borrow_run ptr ty flags w obj w' Hg Hf Hfl E) as (v & C & Hv & S).
    apply (tracks_idle a w w' (w_fresh w) v); try done. unfold view_at. by rewrite (proj2 Hf).
  - exists a. split; [constructor|]. eapply tracks_alike; [done|]. by eapply init_steady.
  - destruct (set_own_changed o 0 w r w' Hf (tr_addr _ _ T o) (fun p ty own H => proj1 (tr_flag _ _ T o p ty own H)) E)
      as (p & ty & own0 & Hv & C & S).
    pose proof (tracks_clear a w w' o _ T C eq_refl (memory_same _ _ (tr_memory _ _ T) S)) as T'.
    rewrite (sm_blocks _ _ S), (tr_live _ _ T) in T'. eexists. split; [constructor|exact T'].
  - by eapply acquire_step.
  - by eapply delete_step.
  - by eapply dealloc_step.
Qed.

(** A sequence of operations. *)
Inductive run : list label -> world -> world -> Prop :=
| run_nil w : run [] w w
| run_cons l ls w w1 w2 : step l w w1 -> run ls w1 w2 -> run (l :: ls) w w2.

Lemma run_refines a ls w w' : tracks a w -> run ls w w' -> exists a', lrun ls a a' /\ tracks a' w'.
Proof.
  intros T Hr; revert a T; induction Hr as [w|l ls w w1 w2 Hs Hr IH]; intros a T.
  - exists a. split; [constructor|done].
  - destruct (step_refines a l w w1 T Hs) as (a1 & H1 & T1). destruct (IH a1 T1) as (a2 & H2 & T2).
    exists a2. split; [by eapply lrun_cons|done].
Qed.

(** The collector frees the objects of a list. *)
Fixpoint dealloc_all (os : list Z) : M unit :=
  match os with [] => ret tt | o :: os' => dealloc o ;;; dealloc_all os' end.

Lemma dealloc_all_run os a w : tracks a w -> sound a -> NoDup os ->
  (forall o, is_Some (l_owned a !! o) <-> o ∈ os) ->
  exists w', dealloc_all os w = (Ret tt, w') /\ w_err w' = w_err w
    /\ (forall o p ty, view_at w' o <> Some (p, ty, SWIG_POINTER_OWN))
    /\ (forall p n, w_blocks w' !! p = Some n <-> l_live a !! p = Some n /\ nobody a p).
Proof.
  revert a w; induction os as [|o os IH]; intros a w T Hs Hd Hall.
  { assert (Ha : forall o, l_owned a !! o = None) by (intros o; apply eq_None_not_Some; rewrite Hall; apply not_elem_of_nil).
    exists w. split; [done|]. split; [done|]. split.
    - intros o p ty Hv. destruct (tr_owner _ _ T o p ty Hv) as (c & _ & _ & Ho). by rewrite Ha in Ho.
    - intros p n. rewrite (tr_live _ _ T). split; [|by intros [? _]]. intros Hp. split; [done|]. intros o k. by rewrite Ha. }
  apply NoDup_cons in Hd as [Hni Hd]. destruct (proj2 (Hall o)) as [[p n] Hl]; [left|].
  assert (Hb : w_blocks w !! p = Some n) by (rewrite (tr_live _ _ T); by eapply (proj1 (Hs p))).
  destruct (owner_dealloc a w o p n n T Hl Hb) as (w1 & E1 & _ & He1 & T1).
  destruct (IH _ w1 T1) as (w2 & E2 & He2 & Hv2 & Hb2); [|done|..].
  - intros q. apply well_owned_delete; [apply Hs|left; eauto].
  - intros x. cbn [l_owned]. destruct (decide (x = o)) as [->|Hne].
    + rewrite lookup_delete_eq. split; [by intros []|done].
    + rewrite lookup_delete_ne, Hall, elem_of_cons by done. tauto.
  - exists w2. split; [cbn [dealloc_all]; by rewrite (bind_eq _ _ _ _ _ E1)|]. split; [congruence|]. split; [done|].
    intros q m. rewrite Hb2. unfold nobody. cbn [l_owned l_live]. rewrite lookup_delete_Some. split.
    + intros [[Hne Hq] Hno]. split; [done|]. intros x k Hx. apply (Hno x k).
      rewrite lookup_delete_ne; [done|]. intros ->. congruence.
    + intros [Hq Hno]. split; [split; [|done]|]; [intros ->; by apply (Hno o n)|].
      intros x k [_ Hx]%lookup_delete_Some. by apply (Hno x k).
Qed.

(** *** Using a structure *)

(** Bytes that are mapped have values. *)
Lemma mapped_holds w q n : mapped w q n -> exists b, length b = n /\ holds w q b.
Proof.
  revert q; induction n as [|n IH]; intros q Hm; [exists []; split; [done|]; by intros ? ?|].
  destruct (Hm O) as [x Hx]; [lia|]. rewrite Z.add_0_r in Hx.
  destruct (IH (q + 1)) as (b & Hl & Hb).
  { intros i Hi. replace (q + 1 + Z.of_nat i) with (q + Z.of_nat (S i)) by lia. apply Hm. lia. }
  exists (x :: b). split; [simpl; lia|]. by apply holds_cons.
Qed.

(** What a client can do through [obj] with the structure of [c] at [p], for
    every place [off] and type [k] of a field inside it: every setter call with a
    plain value comes back, the getter finds bytes and gives their value,
    and [delete_X] frees exactly this structure. *)
Definition usable (c : class) (obj p : Z) (w : world) : Prop :=
  (forall meth tname k off args obj1 v, w_err w = None -> args <> 0 -> w_heap w !! args = Some (OTuple [obj; obj1]) ->
     w_heap w !! obj1 = Some v -> obj1 <> 0 -> obj1 <> Py_None -> plain v -> sized k ->
     0 <= off -> off + sizeof k <= Z.of_nat (class_size c) ->
     exists r w1, wrap_set long_w implicit meth (cl_name c) tname (cl_new c) k off args w = (Ret r, w1))
  /\ (forall meth field k off, 0 <= off -> off + sizeof k <= Z.of_nat (class_size c) ->
     exists b, Z.of_nat (length b) = sizeof k /\ holds w (p + off) b
       /\ forall v, iconv_open_result <> -1 -> field_value k b = Some v ->
            gives (wrap_get implicit PyErr_WarnEx meth (cl_name c) field (cl_new c) (getter_of k) off obj) w v)
  /\ exists w1, class_delete implicit c obj w = (Ret Py_None, w1) /\ w_blocks w1 = delete p (w_blocks w).

Lemma live_usable a c obj p w : tracks a w -> 32 <= long_w -> c ∈ ctp_classes ->
  w_blocks w !! p = Some (class_size c) -> wraps_ptr w obj (cl_new c) p -> usable c obj p w.
Proof.
  intros T Hlong Hc Hb Hw. pose proof (tr_gil _ _ T) as Hg.
  destruct (mo_bound _ (tr_memory _ _ T) _ _ Hb) as [Hp _]. pose proof (mo_mapped _ (tr_memory _ _ T) _ _ Hb) as Hm.
  assert (Hf : forall off n, 0 <= off -> off + Z.of_nat n <= Z.of_nat (class_size c) -> mapped w (p + off) n).
  { intros off n H0 Hn i Hi. replace (p + off + Z.of_nat i) with (p + Z.of_nat (Z.to_nat (off + Z.of_nat i))) by lia.
    apply Hm. lia. }
  assert (Hty : (cl_new c < te_size)%nat) by by destruct (class_types c Hc) as (_ & _ & Hty & _).
  assert (Hk : forall k, 0 <= sizeof k) by (intros []; simpl; lia). split; [|split].
  - intros meth tname k off args obj1 v He Ha Ht Hv Hz Hn Hpl Hsz H0 Hend. pose proof (Hk k).
    destruct (wrap_set_plain long_w Hlong implicit w args obj obj1 meth (cl_name c) tname (cl_new c) k off p v)
      as (w1 & _ & _ & Hs); try done; [lia|apply Hf; lia|].
    destruct (value_spec k v) as [code [b|]]; destruct Hs as [Hs _]; eauto.
  - intros meth field k off H0 Hend. pose proof (Hk k).
    destruct (mapped_holds w (p + off) (Z.to_nat (sizeof k))) as (b & Hl & Hh); [apply Hf; lia|].
    exists b. split; [lia|]. split; [done|]. intros v Ho Hv.
    apply (wrap_get_value implicit PyErr_WarnEx w obj meth (cl_name c) field (cl_new c) k off p v b); done || lia.
  - destruct Hw as (Hz & Hnn & o & s & Ho & Hsp & Ht & _ & Hr).
    destruct (class_delete_run c obj o s (class_size c) w) as (w1 & E & _ & _ & _ & B & _); try done;
      [by exists s|lia|by rewrite Hsp|]. exists w1. by rewrite B, Hsp.
Qed.
End Life.

(** ** Properties *)

(** The destructor of the type [ty] at address [1000 + ty]. *)
Definition sample_client (ty : nat) : option client :=
  Some (4096, mk_client 300 0 300 (1000 + Z.of_nat ty) false 0 0).
Definition sample_class (f : Z) : option class :=
  snd <$> list_find (fun c => 1000 + Z.of_nat (cl_new c) = f) ctp_classes.
Definition sample_text (ty : nat) : list Z * option (list Z) := (chars "_p_void", Some (chars "void *")).

Lemma classes_distinct : NoDup (map cl_new ctp_classes).
Proof.
  apply (NoDup_fmap_1 N.of_nat). apply (bool_decide_unpack _). vm_compute. exact I.
Qed.

#[local] Opaque ctp_classes.
Lemma sample_wired : wired sample_client sample_class.
Proof.
  intros c Hc. eexists _, _. split; [reflexivity|]. cbn [cd_destroy cd_delargs]. split; [lia|]. split; [done|].
  unfold sample_class. apply list_elem_of_lookup in Hc as [i Hi].
  destruct (list_find_elem_of (fun c' => 1000 + Z.of_nat (cl_new c') = 1000 + Z.of_nat (cl_new c)) ctp_classes c)
    as [[j c'] Hf]; [by eapply list_elem_of_lookup_2|done|].
  rewrite Hf. cbn. f_equal. apply list_find_Some in Hf as (Hj & Heq & _).
  assert (Hij : j = i).
  { eapply (NoDup_lookup _ j i (cl_new c)); [apply classes_distinct| |]; rewrite list_lookup_fmap.
    - rewrite Hj. cbn. f_equal. lia.
    - by rewrite Hi. }
  subst j. congruence.
Qed.
#[local] Transparent ctp_classes.

(** An empty process, in which two structures are made. *)
Definition sample_start : world := mk_world ∅ ∅ 100 None true ∅ ∅ 4096 ∅ (-1) [].
Definition sample_new (w : world) : world :=
  snd (class_new (H := ctp_types (fun _ => 0) (fun _ => true)) class_CThostFtdcDisseminationField 0 w).

Lemma sample_tracks : tracks (mk_ledger ∅ ∅) sample_start.
Proof.
  assert (Hv : forall o, view_at sample_start o = None) by (intros o; unfold view_at; cbn; by rewrite lookup_empty).
  constructor; try done; try (intros o; rewrite Hv; by intros []); try (intros; by rewrite Hv in *).
Qed.

Lemma sample_sound : sound (mk_ledger ∅ ∅).
Proof. intros p. split; intros *; cbn [l_owned]; by rewrite !lookup_empty. Qed.

Lemma sample_made : class_CThostFtdcDisseminationField ∈ ctp_classes.
Proof. left. Qed.

Lemma sample_run : run (fun _ => 0) (fun _ => true) 64 (fun _ => None) (H := sample_identity) (fun _ => ret 0) sample_client
  sample_text sample_class (fun _ _ => ret 0) [LNew 100 (class_size class_CThostFtdcDisseminationField); LNew 101 (class_size class_CThostFtdcDisseminationField)] sample_start
  (sample_new (sample_new sample_start)).
Proof.
  assert (Hn : forall w o, fst (class_new (H := ctp_types (fun _ => 0) (fun _ => true)) class_CThostFtdcDisseminationField 0 w) = Ret o ->
    class_new (H := ctp_types (fun _ => 0) (fun _ => true)) class_CThostFtdcDisseminationField 0 w = (Ret o, sample_new w)).
  { intros w o Ho. unfold sample_new. rewrite <- Ho. by destruct class_new. }
  eapply run_cons; [apply st_new; [exact sample_made|apply Hn; reflexivity]|].
  eapply run_cons; [apply st_new; [exact sample_made|apply Hn; reflexivity]|apply run_nil].
Qed.

(** A structure, and a second object made for its address, which does not own it. *)
Definition sample_borrowed : world :=
  snd (SWIG_Python_NewPointerObj (H := ctp_types (fun _ => 0) (fun _ => true)) 4096
    (Some (cl_new class_CThostFtdcDisseminationField)) 0 (sample_new sample_start)).
(** [delete_X] through that object. *)
Definition sample_taken : world :=
  snd (class_delete (H := ctp_types (fun _ => 0) (fun _ => true)) (fun _ => None) class_CThostFtdcDisseminationField 102 sample_borrowed).

Lemma ran {A} (m : M A) w a : fst (m w) = Ret a -> m w = (Ret a, snd (m w)).
Proof. intros <-. by destruct (m w). Qed.

Lemma sample_first : class_new (H := ctp_types (fun _ => 0) (fun _ => true)) class_CThostFtdcDisseminationField 0 sample_start
  = (Ret 100, sample_new sample_start).
Proof. unfold sample_new. apply ran. vm_compute. reflexivity. Qed.

Lemma sample_borrow : SWIG_Python_NewPointerObj (H := ctp_types (fun _ => 0) (fun _ => true)) 4096
  (Some (cl_new class_CThostFtdcDisseminationField)) 0 (sample_new sample_start) = (Ret 102, sample_borrowed).
Proof. unfold sample_borrowed. apply ran. vm_compute. reflexivity. Qed.

Lemma sample_take : class_delete (H := ctp_types (fun _ => 0) (fun _ => true)) (fun _ => None)
  class_CThostFtdcDisseminationField 102 sample_borrowed = (Ret Py_None, sample_taken).
Proof. unfold sample_taken. apply ran. vm_compute. reflexivity. Qed.

Lemma sample_take_label : delete_label (fun _ => 0) (fun _ => true) (cl_new class_CThostFtdcDisseminationField) 102
  sample_borrowed (LTake 101 4096).
Proof.
  apply dl_take.
  - split; [discriminate|]. split; [discriminate|]. exists 0. eexists. apply ran. vm_compute. reflexivity.
  - intros t. vm_compute. discriminate.
  - exists 100, (Some (cl_new class_CThostFtdcDisseminationField)). vm_compute. reflexivity.
Qed.

#[local] Opaque sample_borrowed sample_taken sample_new.
Lemma sample_take_run : run (fun _ => 0) (fun _ => true) 64 (fun _ => None) (H := sample_identity) (fun _ => ret 0) sample_client
  sample_text sample_class (fun _ _ => ret 0)
  [LNew 100 (class_size class_CThostFtdcDisseminationField); LTouch; LTake 101 4096] sample_start sample_taken.
Proof.
  eapply run_cons; [apply st_new; [exact sample_made|exact sample_first]|].
  eapply run_cons; [eapply st_borrow; [|exact sample_borrow]; reflexivity|].
  eapply run_cons; [|apply run_nil].
  eapply st_delete; [exact sample_made|exact sample_take|exact sample_take_label].
Qed.
#[local] Transparent sample_borrowed sample_taken sample_new.

Lemma sample_owners o : o ∈ [101; 100] <->
  exists p ty, view_at (sample_new (sample_new sample_start)) o = Some (p, ty, SWIG_POINTER_OWN).
Proof.
  unfold view_at. change (w_heap (sample_new (sample_new sample_start)))
    with (<[101 := OSwig (mk_swigobj 4105 (Some (cl_new class_CThostFtdcDisseminationField)) SWIG_POINTER_OWN None)]>
         (<[100 := OSwig (mk_swigobj 4096 (Some (cl_new class_CThostFtdcDisseminationField)) SWIG_POINTER_OWN None)]>
            (∅ : gmap Z pyobj))).
  rewrite !elem_of_cons, elem_of_nil. split.
  - intros [->|[->|[]]]; eexists _, _; reflexivity.
  - intros (p & ty & Hv). destruct (decide (o = 101)) as [->|Hne]; [by left|].
    rewrite lookup_insert_ne in Hv by done. destruct (decide (o = 100)) as [->|Hne']; [by right; left|].
    rewrite lookup_insert_ne, lookup_empty in Hv by done. done.
Qed.

(** C6. Ownership is a ledger: whatever sequence of operations comes back, each
    is one step of the ledger of owners and live structures, and the ledger
    agrees with the objects and the blocks afterwards.  The operations are:
    making structures, every setter and getter with any arguments, borrowing
    pointers, initialising proxies, [disown] of any object, deallocation of any
    object, [acquire] of any pointer to a structure, whether the structure is
    live, dead or owned by another object, and [delete_X] of any object, which
    frees the structure it leads to no matter who owns it. *)
Theorem ownership_refined addr registered long_w implicit `{!IconvEnv} warn clientdata type_text function_class other
    a ls w w' :
  wired clientdata function_class -> (forall msg, keeps (warn msg)) -> tracks a w ->
  run addr registered long_w implicit warn clientdata type_text function_class other ls w w' ->
  exists a', lrun ls a a' /\ tracks a' w'.
Proof. intros Hw Hk T Hr. by eapply run_refines. Qed.

Lemma ownership_refined_witness :
  exists a', lrun [LNew 100 (class_size class_CThostFtdcDisseminationField); LNew 101 (class_size class_CThostFtdcDisseminationField)] (mk_ledger ∅ ∅) a'
    /\ tracks a' (sample_new (sample_new sample_start)).
Proof.
  exact (ownership_refined (fun _ => 0) (fun _ => true) 64 (fun _ => None) (H := sample_identity) (fun _ => ret 0) sample_client
    sample_text sample_class (fun _ _ => ret 0) (mk_ledger ∅ ∅) _ sample_start (sample_new (sample_new sample_start))
    sample_wired (fun _ => keeps_ret 0) sample_tracks sample_run).
Defined.

(** C7. Who is to blame for a double free: take any sequence of operations that
    comes back, from a state in which every owner has its own live structure, and
    any object that owns a pointer afterwards.  If its structure is gone,
    deallocating the object frees the block again, which is undefined.  Unless
    some operation deleted the structure through an object that did not own it
    while another did, or acquired it when it was not a live structure without
    an owner, this does not happen: the structure is live and all its bytes are
    mapped; no other object owns it; deallocating the owner comes back, frees
    exactly this structure, leaves the error indicator and every other block;
    and through every object or proxy that wraps it as this structure, without
    a chain of further pointers, every setter call with a number, a boolean or a
    text comes back when no error is set, every getter finds the bytes of its
    field mapped and gives their value when they have one (text that is not
    terminated in its field, or does not convert, has none), and [delete_X]
    comes back and frees it. *)
Theorem owners_freed_once addr registered long_w implicit `{!IconvEnv} `{!IconvLaws _} warn clientdata type_text
    function_class other a ls w w' o p ty :
  wired clientdata function_class -> (forall msg, keeps (warn msg)) -> 32 <= long_w -> tracks a w -> sound a ->
  run addr registered long_w implicit warn clientdata type_text function_class other ls w w' ->
  view_at w' o = Some (p, ty, SWIG_POINTER_OWN) ->
  let delete_ := dealloc addr registered implicit clientdata type_text function_class other in
  (w_blocks w' !! p = None -> exists w'', delete_ o w' = (Stuck BadFree, w''))
  /\ ((exists l, l ∈ ls /\ blamed p l)
      \/ exists c w'', c ∈ ctp_classes /\ ty = Some (cl_new c)
         /\ w_blocks w' !! p = Some (class_size c) /\ mapped w' p (class_size c)
         /\ (forall o' ty', view_at w' o' = Some (p, ty', SWIG_POINTER_OWN) -> o' = o)
         /\ delete_ o w' = (Ret tt, w'') /\ w_blocks w'' = delete p (w_blocks w') /\ w_err w'' = w_err w'
         /\ (forall obj, wraps_ptr w' obj (cl_new c) p -> usable addr registered long_w implicit warn c obj p w')).
Proof.
  intros Hw Hk Hlong T Ha Hr Hv delete_. edestruct run_refines as (a' & Hl & T'); [exact Hw|exact Hk|exact T|exact Hr|].
  destruct (owner_swig a' w' o p ty T' Hv) as (c & s & Hc & Hz & Hnn & Ho & <- & -> & Ht & Hown & Hp & Hlo). split.
  { intros Hb. eapply (dealloc_dead addr registered implicit clientdata type_text function_class other Hw c o s);
      try done; apply T'. }
  destruct (well_owned_run ls a a' (s_ptr s) Hl (Ha _)) as [[H1 H2]|Hbl]; [right|by left].
  pose proof (H1 _ _ Hlo) as Hb. rewrite <- (tr_live _ _ T') in Hb.
  edestruct (owner_dealloc addr registered implicit clientdata type_text function_class other Hw a' w' o _ _ _ T' Hlo Hb)
    as (w2 & E & Hb2 & He & _).
  exists c, w2. split; [done|]. split; [done|]. split; [done|]. split; [by apply (mo_mapped _ (tr_memory _ _ T'))|]. split.
  { intros o' ty' Hv'. destruct (tr_owner _ _ T' _ _ _ Hv') as (c' & _ & _ & Hlo'). by eapply H2. }
  do 3 (split; [done|]). intros obj Hobj. by eapply live_usable.
Qed.

Lemma owners_freed_once_witness :
  exists w'', dealloc (fun _ => 0) (fun _ => true) (fun _ => None) sample_client sample_text sample_class (fun _ _ => ret 0) 100
                (sample_new (sample_new sample_start)) = (Ret tt, w'')
    /\ w_blocks w'' = delete 4096 (w_blocks (sample_new (sample_new sample_start)))
    /\ exists w3, dealloc (fun _ => 0) (fun _ => true) (fun _ => None) sample_client sample_text sample_class (fun _ _ => ret 0) 100
         sample_taken = (Stuck BadFree, w3).
Proof.
  destruct (owners_freed_once (fun _ => 0) (fun _ => true) 64 (fun _ => None) (H := sample_identity)
    (IconvLaws0 := sample_identity_laws) (fun _ => ret 0) sample_client
    sample_text sample_class (fun _ _ => ret 0) (mk_ledger ∅ ∅) _ sample_start sample_taken
    100 4096 (Some (cl_new class_CThostFtdcDisseminationField))
    sample_wired (fun _ => keeps_ret 0) ltac:(discriminate) sample_tracks sample_sound sample_take_run
    ltac:(vm_compute; reflexivity)) as [Hdead _].
  destruct (owners_freed_once (fun _ => 0) (fun _ => true) 64 (fun _ => None) (H := sample_identity)
    (IconvLaws0 := sample_identity_laws) (fun _ => ret 0) sample_client
    sample_text sample_class (fun _ _ => ret 0) (mk_ledger ∅ ∅) _ sample_start (sample_new (sample_new sample_start))
    100 4096 (Some (cl_new class_CThostFtdcDisseminationField))
    sample_wired (fun _ => keeps_ret 0) ltac:(discriminate) sample_tracks sample_sound sample_run eq_refl)
    as [_ [(l & Hl & x & Hx)|(c & w'' & _ & _ & _ & _ & _ & E & Hb & _)]].
  - exfalso. apply elem_of_cons in Hl as [->|Hl]; [by destruct Hx|].
    apply elem_of_cons in Hl as [->|Hl]; [by destruct Hx|by apply elem_of_nil in Hl].
  - exists w''. split; [exact E|]. split; [exact Hb|]. apply Hdead. vm_compute. reflexivity.
Defined.

(** C8. All structures are released: take any sequence of operations that comes
    back, from a state in which every owner has its own live structure, in which
    no operation deletes a structure through an object that does not own it
    while another does, nor acquires what is not a live structure without an
    owner.  Then the collector can deallocate the objects that own a structure,
    in any order; afterwards no object owns anything, the error indicator is as
    before and the live blocks are exactly those that had no owner.  When
    nothing was disowned, these are blocks that were live at the start. *)
Theorem structures_all_released addr registered long_w implicit `{!IconvEnv} warn clientdata type_text function_class
    other a ls w w' os :
  wired clientdata function_class -> (forall msg, keeps (warn msg)) -> tracks a w -> sound a ->
  run addr registered long_w implicit warn clientdata type_text function_class other ls w w' ->
  Forall (fun l => forall p, ~ blamed p l) ls -> NoDup os ->
  (forall o, o ∈ os <-> exists p ty, view_at w' o = Some (p, ty, SWIG_POINTER_OWN)) ->
  exists w'', dealloc_all addr registered implicit clientdata type_text function_class other os w' = (Ret tt, w'')
    /\ w_err w'' = w_err w' /\ (forall o p ty, view_at w'' o <> Some (p, ty, SWIG_POINTER_OWN))
    /\ (forall p n, w_blocks w'' !! p = Some n <->
          w_blocks w' !! p = Some n /\ forall o ty, view_at w' o <> Some (p, ty, SWIG_POINTER_OWN))
    /\ (Forall (fun l => forall o, l <> LDisown o) ls -> w_blocks w'' ⊆ w_blocks w).
Proof.
  intros Hw Hk T Ha Hr Hls Hd Hos. edestruct run_refines as (a' & Hl & T'); [exact Hw|exact Hk|exact T|exact Hr|].
  edestruct (dealloc_all_run addr registered implicit clientdata type_text function_class other Hw os a' w' T'
    (sound_run ls a a' Hl Ha Hls) Hd) as (w2 & E & He & Hno & Hb).
  { intros o. rewrite Hos. split.
    - intros [[p n] Ho]. destruct (tr_owned _ _ T' _ _ _ Ho) as [ty Hv]. eauto.
    - intros (p & ty & Hv). destruct (tr_owner _ _ T' _ _ _ Hv) as (c & _ & _ & Ho). eauto. }
  exists w2. split; [exact E|]. split; [exact He|]. split; [exact Hno|]. split.
  - intros p n. by rewrite Hb, (tracks_nobody a' w' p T'), <- (tr_live _ _ T').
  - intros Hdis. apply map_subseteq_spec. intros p n [Hp Hn]%Hb. rewrite (tr_live _ _ T).
    by apply (unowned_run ls a a' p n Hl Hdis Hp Hn).
Qed.

Lemma structures_all_released_witness :
  exists w'', dealloc_all (fun _ => 0) (fun _ => true) (fun _ => None) sample_client sample_text sample_class (fun _ _ => ret 0)
                [101; 100] (sample_new (sample_new sample_start)) = (Ret tt, w'') /\ w_blocks w'' ⊆ ∅.
Proof.
  destruct (structures_all_released (fun _ => 0) (fun _ => true) 64 (fun _ => None) (H := sample_identity) (fun _ => ret 0)
    sample_client sample_text sample_class (fun _ _ => ret 0) (mk_ledger ∅ ∅) _ sample_start
    (sample_new (sample_new sample_start)) [101; 100]
    sample_wired (fun _ => keeps_ret 0) sample_tracks sample_sound sample_run) as (w'' & E & _ & _ & _ & Hl).
  - repeat constructor; intros p [x [Hx|Hx]]; discriminate.
  - apply (bool_decide_unpack (NoDup [101; 100])). reflexivity.
  - exact sample_owners.
  - exists w''. split; [exact E|]. apply Hl. repeat constructor; discriminate.
Defined.

(** The life of one structure: for every class of the module the
    constructor returns an object that owns a new block of the size of the
    structure, every byte of it zero.  Deallocating the object calls the
    destructor of that class once and gives back the block, the object and the
    reference to the capsule.  Calling [delete_X] first also gives the block
    back, and the deallocation then calls nothing, but the reference to the
    capsule is never released. *)
Lemma structure_life addr registered implicit clientdata type_text function_class other c w :
  wired clientdata function_class -> c ∈ ctp_classes -> tracks (mk_ledger ∅ (w_blocks w)) w ->
  let o := w_fresh w in
  let delete_ := dealloc addr registered implicit clientdata type_text function_class other in
  exists w1, class_new (H := ctp_types addr registered) c 0 w = (Ret o, w1)
    /\ w_blocks w1 = <[w_brk w := class_size c]> (w_blocks w)
    /\ (forall i, (i < class_size c)%nat -> w_mem w1 !! (w_brk w + Z.of_nat i) = Some 0)
    /\ (exists w2 f, delete_ o w1 = (Ret tt, w2) /\ w_blocks w2 = w_blocks w /\ w_heap w2 = w_heap w
          /\ w_err w2 = w_err w /\ function_class f = Some c /\ w_calls w2 = w_calls w ++ [EFunction f o]
          /\ forall x, refs w2 x = refs w x + if decide (o = x) then 1 else 0)
    /\ (exists w2 w3, class_delete (H := ctp_types addr registered) implicit c o w1 = (Ret Py_None, w2)
          /\ delete_ o w2 = (Ret tt, w3) /\ w_blocks w3 = w_blocks w /\ w_heap w3 = w_heap w
          /\ w_err w3 = w_err w /\ w_calls w3 = w_calls w
          /\ refs w3 Swig_Capsule_global = refs w Swig_Capsule_global + 1).
Proof.
  intros Hw Hc T o delete_. pose proof (tr_gil _ _ T) as Hg. pose proof (tr_fresh _ _ T) as Hf.
  pose proof (mo_brk _ (tr_memory _ _ T)) as Hb0. destruct (fresh_addr w Hf) as [Hz Hnn].
  destruct (class_new_run addr registered c w Hg Hf Hb0) as (w1 & E1 & C1 & B1 & B2 & B3 & Hh1 & He1 & Hc1 & Hr1).
  assert (Hnb : w_blocks w !! w_brk w = None).
  { destruct (w_blocks w !! w_brk w) as [n|] eqn:En; [|done]. apply (mo_bound _ (tr_memory _ _ T)) in En. lia. }
  assert (Hno : w_heap w !! o = None) by by apply Hf.
  exists w1. split; [exact E1|]. split; [exact B1|]. split.
  { intros i Hi. rewrite B3, store_bytes_lookup, length_replicate, decide_True by lia.
    apply lookup_replicate_2. lia. }
  set (s := mk_swigobj _ _ _ _) in Hh1. assert (Ho1 : w_heap w1 !! o = Some (OSwig s)) by by rewrite Hh1, lookup_insert_eq.
  assert (Hbl1 : w_blocks w1 !! s_ptr s = Some (class_size c)) by by rewrite B1, lookup_insert_eq.
  assert (Hp : s_ptr s <> 0) by (cbn; lia).
  pose proof (ch_gil _ _ _ _ C1) as Hg1. pose proof (ch_fresh _ _ _ _ C1) as Hf1. split.
  - edestruct (dealloc_owner addr registered implicit clientdata type_text function_class other Hw c o s (class_size c) w1)
      as (w2 & E2 & _ & D1 & _ & _ & He2 & Hh2 & (f & Hfc & Hc2) & Hr2); try done.
    exists w2, f. split; [exact E2|]. split; [by rewrite D1, B1; apply delete_insert_id|].
    split; [by rewrite Hh2, Hh1; apply delete_insert_id|]. split; [congruence|]. split; [done|]. split; [congruence|].
    intros x. rewrite Hr2, Hr1. change (cnt (one (default 0 (s_next s))) x) with 0. unfold o. lia.
  - edestruct (class_delete_run addr registered implicit c o o s (class_size c) w1)
      as (w2 & E2 & G1 & G2 & G3 & G4 & _ & _ & G7 & G8 & G9); try done; [exists s; split; [done|by left]|].
    set (s' := mk_swigobj _ _ 0 _) in G2. assert (Ho2 : w_heap w2 !! o = Some (OSwig s')) by by rewrite G2, lookup_insert_eq.
    edestruct (dealloc_borrowed clientdata type_text
      (call_builtin addr registered implicit function_class other) o s' w2 G1 Ho2) as (w3 & E3 & R); [done|].
    assert (Hcap : refs w3 Swig_Capsule_global = refs w2 Swig_Capsule_global).
    { rewrite (rel_refs _ _ _ R). change (cnt _ _) with 0. change (refs (set_heap _ w2) ?x) with (refs w2 x). lia. }
    exists w2, w3. split; [exact E2|]. split; [exact E3|].
    split; [rewrite (rel_blocks _ _ _ R); cbn; rewrite G4, B1; by apply delete_insert_id|].
    split; [rewrite (rel_heap _ _ _ R); cbn; rewrite G2, delete_insert_eq, Hh1; by apply delete_insert_id|].
    split; [rewrite (rel_err _ _ _ R); cbn; congruence|]. split; [rewrite (rel_calls _ _ _ R); cbn; congruence|].
    rewrite Hcap, G9, Hr1, decide_False by (destruct Hf as [Hf _]; unfold first_free, Swig_Capsule_global in *; lia).
    change (cnt (one Py_None) Swig_Capsule_global) with 0.
    change (capsule_ref SWIG_POINTER_OWN Swig_Capsule_global) with 1. lia.
Qed.

End Ownership.
