(* ===== verification/Callbacks.v ===== *)
(** * The callbacks of the ctp module

    Every method of the two director classes of ctp_wrap.cpp,
    [SwigDirector_CThostFtdcMdSpi] and [SwigDirector_CThostFtdcTraderSpi], as an
    instance of the template [director_method]: its name and its parameters with
    the [SWIGTYPE] index of each structure.  [invoke] runs it.  The class
    declarations of ctp_wrap.h and the virtual methods the CTP headers declare
    are given beside them. *)

From S2P Require Import Prelude CtpTypes World Runtime Director.

Module Callbacks.
Import World Runtime Director.
Local Open Scope string_scope.
Local Open Scope list_scope.
Local Open Scope nat_scope.

(** A parameter: a pointer to a structure, identified by [A], an [int], a [bool]. *)
Inductive param (A : Type) := PPtr (t : A) | PInt | PBool.
Arguments PPtr {A} t.
Arguments PInt {A}.
Arguments PBool {A}.

Record callback := mk_callback {
  cb_class : string; cb_name : string; cb_params : list (param nat) }.

(** The value of a parameter as the template converts it. *)
Definition as_arg (p : param nat) (v : Z) : darg :=
  match p with
  | PPtr ty => APtr v ty
  | PInt => AInt v
  | PBool => ABool (negb (v =? 0)%Z)
  end.

Definition invoke `{TypeEnv, PyEnv} (cb : callback) (this : Z) (vals : list Z) : M unit :=
  director_method (cb_class cb) (cb_name cb) this (zip_with as_arg (cb_params cb) vals).

(** ** The methods *)

Definition CThostFtdcMdSpi_OnFrontConnected : callback :=
  mk_callback "CThostFtdcMdSpi" "OnFrontConnected" [].
Definition CThostFtdcMdSpi_OnFrontDisconnected : callback :=
  mk_callback "CThostFtdcMdSpi" "OnFrontDisconnected" [PInt].
Definition CThostFtdcMdSpi_OnHeartBeatWarning : callback :=
  mk_callback "CThostFtdcMdSpi" "OnHeartBeatWarning" [PInt].
Definition CThostFtdcMdSpi_OnRspUserLogin : callback :=
  mk_callback "CThostFtdcMdSpi" "OnRspUserLogin" [PPtr 363; PPtr 355; PInt; PBool].
Definition CThostFtdcMdSpi_OnRspUserLogout : callback :=
  mk_callback "CThostFtdcMdSpi" "OnRspUserLogout" [PPtr 464; PPtr 355; PInt; PBool].
Definition CThostFtdcMdSpi_OnRspQryMulticastInstrument : callback :=
  mk_callback "CThostFtdcMdSpi" "OnRspQryMulticastInstrument" [PPtr 146; PPtr 355; PInt; PBool].
Definition CThostFtdcMdSpi_OnRspError : callback :=
  mk_callback "CThostFtdcMdSpi" "OnRspError" [PPtr 355; PInt; PBool].
Definition CThostFtdcMdSpi_OnRspSubMarketData : callback :=
  mk_callback "CThostFtdcMdSpi" "OnRspSubMarketData" [PPtr 379; PPtr 355; PInt; PBool].
Definition CThostFtdcMdSpi_OnRspUnSubMarketData : callback :=
  mk_callback "CThostFtdcMdSpi" "OnRspUnSubMarketData" [PPtr 379; PPtr 355; PInt; PBool].
Definition CThostFtdcMdSpi_OnRspSubForQuoteRsp : callback :=
  mk_callback "CThostFtdcMdSpi" "OnRspSubForQuoteRsp" [PPtr 379; PPtr 355; PInt; PBool].
Definition CThostFtdcMdSpi_OnRspUnSubForQuoteRsp : callback :=
  mk_callback "CThostFtdcMdSpi" "OnRspUnSubForQuoteRsp" [PPtr 379; PPtr 355; PInt; PBool].
Definition CThostFtdcMdSpi_OnRtnDepthMarketData : callback :=
  mk_callback "CThostFtdcMdSpi" "OnRtnDepthMarketData" [PPtr 39].
Definition CThostFtdcMdSpi_OnRtnForQuoteRsp : callback :=
  mk_callback "CThostFtdcMdSpi" "OnRtnForQuoteRsp" [PPtr 73].
Definition CThostFtdcTraderSpi_OnFrontConnected : callback :=
  mk_callback "CThostFtdcTraderSpi" "OnFrontConnected" [].
Definition CThostFtdcTraderSpi_OnFrontDisconnected : callback :=
  mk_callback "CThostFtdcTraderSpi" "OnFrontDisconnected" [PInt].
Definition CThostFtdcTraderSpi_OnHeartBeatWarning : callback :=
  mk_callback "CThostFtdcTraderSpi" "OnHeartBeatWarning" [PInt].
Definition CThostFtdcTraderSpi_OnRspAuthenticate : callback :=
  mk_callback "CThostFtdcTraderSpi" "OnRspAuthenticate" [PPtr 350; PPtr 355; PInt; PBool].
Definition CThostFtdcTraderSpi_OnRspUserLogin : callback :=
  mk_callback "CThostFtdcTraderSpi" "OnRspUserLogin" [PPtr 363; PPtr 355; PInt; PBool].
Definition CThostFtdcTraderSpi_OnRspUserLogout : callback :=
  mk_callback "CThostFtdcTraderSpi" "OnRspUserLogout" [PPtr 464; PPtr 355; PInt; PBool].
Definition CThostFtdcTraderSpi_OnRspUserPasswordUpdate : callback :=
  mk_callback "CThostFtdcTraderSpi" "OnRspUserPasswordUpdate" [PPtr 465; PPtr 355; PInt; PBool].
Definition CThostFtdcTraderSpi_OnRspTradingAccountPasswordUpdate : callback :=
  mk_callback "CThostFtdcTraderSpi" "OnRspTradingAccountPasswordUpdate" [PPtr 446; PPtr 355; PInt; PBool].
Definition CThostFtdcTraderSpi_OnRspUserAuthMethod : callback :=
  mk_callback "CThostFtdcTraderSpi" "OnRspUserAuthMethod" [PPtr 361; PPtr 355; PInt; PBool].
Definition CThostFtdcTraderSpi_OnRspGenUserCaptcha : callback :=
  mk_callback "CThostFtdcTraderSpi" "OnRspGenUserCaptcha" [PPtr 353; PPtr 355; PInt; PBool].
Definition CThostFtdcTraderSpi_OnRspGenUserText : callback :=
  mk_callback "CThostFtdcTraderSpi" "OnRspGenUserText" [PPtr 354; PPtr 355; PInt; PBool].
Definition CThostFtdcTraderSpi_OnRspOrderInsert : callback :=
  mk_callback "CThostFtdcTraderSpi" "OnRspOrderInsert" [PPtr 89; PPtr 355; PInt; PBool].
Definition CThostFtdcTraderSpi_OnRspParkedOrderInsert : callback :=
  mk_callback "CThostFtdcTraderSpi" "OnRspParkedOrderInsert" [PPtr 164; PPtr 355; PInt; PBool].
Definition CThostFtdcTraderSpi_OnRspParkedOrderAction : callback :=
  mk_callback "CThostFtdcTraderSpi" "OnRspParkedOrderAction" [PPtr 163; PPtr 355; PInt; PBool].
Definition CThostFtdcTraderSpi_OnRspOrderAction : callback :=
  mk_callback "CThostFtdcTraderSpi" "OnRspOrderAction" [PPtr 88; PPtr 355; PInt; PBool].
Definition CThostFtdcTraderSpi_OnRspQryMaxOrderVolume : callback :=
  mk_callback "CThostFtdcTraderSpi" "OnRspQryMaxOrderVolume" [PPtr 244; PPtr 355; PInt; PBool].
Definition CThostFtdcTraderSpi_OnRspSettlementInfoConfirm : callback :=
  mk_callback "CThostFtdcTraderSpi" "OnRspSettlementInfoConfirm" [PPtr 376; PPtr 355; PInt; PBool].
Definition CThostFtdcTraderSpi_OnRspRemoveParkedOrder : callback :=
  mk_callback "CThostFtdcTraderSpi" "OnRspRemoveParkedOrder" [PPtr 322; PPtr 355; PInt; PBool].
Definition CThostFtdcTraderSpi_OnRspRemoveParkedOrderAction : callback :=
  mk_callback "CThostFtdcTraderSpi" "OnRspRemoveParkedOrderAction" [PPtr 321; PPtr 355; PInt; PBool].
Definition CThostFtdcTraderSpi_OnRspExecOrderInsert : callback :=
  mk_callback "CThostFtdcTraderSpi" "OnRspExecOrderInsert" [PPtr 84; PPtr 355; PInt; PBool].
Definition CThostFtdcTraderSpi_OnRspExecOrderAction : callback :=
  mk_callback "CThostFtdcTraderSpi" "OnRspExecOrderAction" [PPtr 83; PPtr 355; PInt; PBool].
Definition CThostFtdcTraderSpi_OnRspForQuoteInsert : callback :=
  mk_callback "CThostFtdcTraderSpi" "OnRspForQuoteInsert" [PPtr 85; PPtr 355; PInt; PBool].
Definition CThostFtdcTraderSpi_OnRspQuoteInsert : callback :=
  mk_callback "CThostFtdcTraderSpi" "OnRspQuoteInsert" [PPtr 91; PPtr 355; PInt; PBool].
Definition CThostFtdcTraderSpi_OnRspQuoteAction : callback :=
  mk_callback "CThostFtdcTraderSpi" "OnRspQuoteAction" [PPtr 90; PPtr 355; PInt; PBool].
Definition CThostFtdcTraderSpi_OnRspBatchOrderAction : callback :=
  mk_callback "CThostFtdcTraderSpi" "OnRspBatchOrderAction" [PPtr 81; PPtr 355; PInt; PBool].
Definition CThostFtdcTraderSpi_OnRspOptionSelfCloseInsert : callback :=
  mk_callback "CThostFtdcTraderSpi" "OnRspOptionSelfCloseInsert" [PPtr 87; PPtr 355; PInt; PBool].
Definition CThostFtdcTraderSpi_OnRspOptionSelfCloseAction : callback :=
  mk_callback "CThostFtdcTraderSpi" "OnRspOptionSelfCloseAction" [PPtr 86; PPtr 355; PInt; PBool].
Definition CThostFtdcTraderSpi_OnRspCombActionInsert : callback :=
  mk_callback "CThostFtdcTraderSpi" "OnRspCombActionInsert" [PPtr 82; PPtr 355; PInt; PBool].
Definition CThostFtdcTraderSpi_OnRspQryOrder : callback :=
  mk_callback "CThostFtdcTraderSpi" "OnRspQryOrder" [PPtr 162; PPtr 355; PInt; PBool].
Definition CThostFtdcTraderSpi_OnRspQryTrade : callback :=
  mk_callback "CThostFtdcTraderSpi" "OnRspQryTrade" [PPtr 437; PPtr 355; PInt; PBool].
Definition CThostFtdcTraderSpi_OnRspQryInvestorPosition : callback :=
  mk_callback "CThostFtdcTraderSpi" "OnRspQryInvestorPosition" [PPtr 112; PPtr 355; PInt; PBool].
Definition CThostFtdcTraderSpi_OnRspQryTradingAccount : callback :=
  mk_callback "CThostFtdcTraderSpi" "OnRspQryTradingAccount" [PPtr 444; PPtr 355; PInt; PBool].
Definition CThostFtdcTraderSpi_OnRspQryInvestor : callback :=
  mk_callback "CThostFtdcTraderSpi" "OnRspQryInvestor" [PPtr 104; PPtr 355; PInt; PBool].
Definition CThostFtdcTraderSpi_OnRspQryTradingCode : callback :=
  mk_callback "CThostFtdcTraderSpi" "OnRspQryTradingCode" [PPtr 449; PPtr 355; PInt; PBool].
Definition CThostFtdcTraderSpi_OnRspQryInstrumentMarginRate : callback :=
  mk_callback "CThostFtdcTraderSpi" "OnRspQryInstrumentMarginRate" [PPtr 95; PPtr 355; PInt; PBool].
Definition CThostFtdcTraderSpi_OnRspQryInstrumentCommissionRate : callback :=
  mk_callback "CThostFtdcTraderSpi" "OnRspQryInstrumentCommissionRate" [PPtr 92; PPtr 355; PInt; PBool].
Definition CThostFtdcTraderSpi_OnRspQryExchange : callback :=
  mk_callback "CThostFtdcTraderSpi" "OnRspQryExchange" [PPtr 52; PPtr 355; PInt; PBool].
Definition CThostFtdcTraderSpi_OnRspQryProduct : callback :=
  mk_callback "CThostFtdcTraderSpi" "OnRspQryProduct" [PPtr 169; PPtr 355; PInt; PBool].
Definition CThostFtdcTraderSpi_OnRspQryInstrument : callback :=
  mk_callback "CThostFtdcTraderSpi" "OnRspQryInstrument" [PPtr 93; PPtr 355; PInt; PBool].
Definition CThostFtdcTraderSpi_OnRspQryDepthMarketData : callback :=
  mk_callback "CThostFtdcTraderSpi" "OnRspQryDepthMarketData" [PPtr 39; PPtr 355; PInt; PBool].
Definition CThostFtdcTraderSpi_OnRspQryTraderOffer : callback :=
  mk_callback "CThostFtdcTraderSpi" "OnRspQryTraderOffer" [PPtr 442; PPtr 355; PInt; PBool].
Definition CThostFtdcTraderSpi_OnRspQrySettlementInfo : callback :=
  mk_callback "CThostFtdcTraderSpi" "OnRspQrySettlementInfo" [PPtr 377; PPtr 355; PInt; PBool].
Definition CThostFtdcTraderSpi_OnRspQryTransferBank : callback :=
  mk_callback "CThostFtdcTraderSpi" "OnRspQryTransferBank" [PPtr 452; PPtr 355; PInt; PBool].
Definition CThostFtdcTraderSpi_OnRspQryInvestorPositionDetail : callback :=
  mk_callback "CThostFtdcTraderSpi" "OnRspQryInvestorPositionDetail" [PPtr 111; PPtr 355; PInt; PBool].
Definition CThostFtdcTraderSpi_OnRspQryNotice : callback :=
  mk_callback "CThostFtdcTraderSpi" "OnRspQryNotice" [PPtr 147; PPtr 355; PInt; PBool].
Definition CThostFtdcTraderSpi_OnRspQrySettlementInfoConfirm : callback :=
  mk_callback "CThostFtdcTraderSpi" "OnRspQrySettlementInfoConfirm" [PPtr 376; PPtr 355; PInt; PBool].
Definition CThostFtdcTraderSpi_OnRspQryInvestorPositionCombineDetail : callback :=
  mk_callback "CThostFtdcTraderSpi" "OnRspQryInvestorPositionCombineDetail" [PPtr 110; PPtr 355; PInt; PBool].
Definition CThostFtdcTraderSpi_OnRspQryCFMMCTradingAccountKey : callback :=
  mk_callback "CThostFtdcTraderSpi" "OnRspQryCFMMCTradingAccountKey" [PPtr 22; PPtr 355; PInt; PBool].
Definition CThostFtdcTraderSpi_OnRspQryEWarrantOffset : callback :=
  mk_callback "CThostFtdcTraderSpi" "OnRspQryEWarrantOffset" [PPtr 42; PPtr 355; PInt; PBool].
Definition CThostFtdcTraderSpi_OnRspQryInvestorProductGroupMargin : callback :=
  mk_callback "CThostFtdcTraderSpi" "OnRspQryInvestorProductGroupMargin" [PPtr 116; PPtr 355; PInt; PBool].
Definition CThostFtdcTraderSpi_OnRspQryExchangeMarginRate : callback :=
  mk_callback "CThostFtdcTraderSpi" "OnRspQryExchangeMarginRate" [PPtr 55; PPtr 355; PInt; PBool].
Definition CThostFtdcTraderSpi_OnRspQryExchangeMarginRateAdjust : callback :=
  mk_callback "CThostFtdcTraderSpi" "OnRspQryExchangeMarginRateAdjust" [PPtr 54; PPtr 355; PInt; PBool].
Definition CThostFtdcTraderSpi_OnRspQryExchangeRate : callback :=
  mk_callback "CThostFtdcTraderSpi" "OnRspQryExchangeRate" [PPtr 64; PPtr 355; PInt; PBool].
Definition CThostFtdcTraderSpi_OnRspQrySecAgentACIDMap : callback :=
  mk_callback "CThostFtdcTraderSpi" "OnRspQrySecAgentACIDMap" [PPtr 373; PPtr 355; PInt; PBool].
Definition CThostFtdcTraderSpi_OnRspQryProductExchRate : callback :=
  mk_callback "CThostFtdcTraderSpi" "OnRspQryProductExchRate" [PPtr 168; PPtr 355; PInt; PBool].
Definition CThostFtdcTraderSpi_OnRspQryProductGroup : callback :=
  mk_callback "CThostFtdcTraderSpi" "OnRspQryProductGroup" [PPtr 170; PPtr 355; PInt; PBool].
Definition CThostFtdcTraderSpi_OnRspQryMMInstrumentCommissionRate : callback :=
  mk_callback "CThostFtdcTraderSpi" "OnRspQryMMInstrumentCommissionRate" [PPtr 126; PPtr 355; PInt; PBool].
Definition CThostFtdcTraderSpi_OnRspQryMMOptionInstrCommRate : callback :=
  mk_callback "CThostFtdcTraderSpi" "OnRspQryMMOptionInstrCommRate" [PPtr 127; PPtr 355; PInt; PBool].
Definition CThostFtdcTraderSpi_OnRspQryInstrumentOrderCommRate : callback :=
  mk_callback "CThostFtdcTraderSpi" "OnRspQryInstrumentOrderCommRate" [PPtr 97; PPtr 355; PInt; PBool].
Definition CThostFtdcTraderSpi_OnRspQrySecAgentTradingAccount : callback :=
  mk_callback "CThostFtdcTraderSpi" "OnRspQrySecAgentTradingAccount" [PPtr 444; PPtr 355; PInt; PBool].
Definition CThostFtdcTraderSpi_OnRspQrySecAgentCheckMode : callback :=
  mk_callback "CThostFtdcTraderSpi" "OnRspQrySecAgentCheckMode" [PPtr 374; PPtr 355; PInt; PBool].
Definition CThostFtdcTraderSpi_OnRspQrySecAgentTradeInfo : callback :=
  mk_callback "CThostFtdcTraderSpi" "OnRspQrySecAgentTradeInfo" [PPtr 375; PPtr 355; PInt; PBool].
Definition CThostFtdcTraderSpi_OnRspQryOptionInstrTradeCost : callback :=
  mk_callback "CThostFtdcTraderSpi" "OnRspQryOptionInstrTradeCost" [PPtr 157; PPtr 355; PInt; PBool].
Definition CThostFtdcTraderSpi_OnRspQryOptionInstrCommRate : callback :=
  mk_callback "CThostFtdcTraderSpi" "OnRspQryOptionInstrCommRate" [PPtr 153; PPtr 355; PInt; PBool].
Definition CThostFtdcTraderSpi_OnRspQryExecOrder : callback :=
  mk_callback "CThostFtdcTraderSpi" "OnRspQryExecOrder" [PPtr 68; PPtr 355; PInt; PBool].
Definition CThostFtdcTraderSpi_OnRspQryForQuote : callback :=
  mk_callback "CThostFtdcTraderSpi" "OnRspQryForQuote" [PPtr 71; PPtr 355; PInt; PBool].
Definition CThostFtdcTraderSpi_OnRspQryQuote : callback :=
  mk_callback "CThostFtdcTraderSpi" "OnRspQryQuote" [PPtr 311; PPtr 355; PInt; PBool].
Definition CThostFtdcTraderSpi_OnRspQryOptionSelfClose : callback :=
  mk_callback "CThostFtdcTraderSpi" "OnRspQryOptionSelfClose" [PPtr 160; PPtr 355; PInt; PBool].
Definition CThostFtdcTraderSpi_OnRspQryInvestUnit : callback :=
  mk_callback "CThostFtdcTraderSpi" "OnRspQryInvestUnit" [PPtr 100; PPtr 355; PInt; PBool].
Definition CThostFtdcTraderSpi_OnRspQryCombInstrumentGuard : callback :=
  mk_callback "CThostFtdcTraderSpi" "OnRspQryCombInstrumentGuard" [PPtr 27; PPtr 355; PInt; PBool].
Definition CThostFtdcTraderSpi_OnRspQryCombAction : callback :=
  mk_callback "CThostFtdcTraderSpi" "OnRspQryCombAction" [PPtr 26; PPtr 355; PInt; PBool].
Definition CThostFtdcTraderSpi_OnRspQryTransferSerial : callback :=
  mk_callback "CThostFtdcTraderSpi" "OnRspQryTransferSerial" [PPtr 462; PPtr 355; PInt; PBool].
Definition CThostFtdcTraderSpi_OnRspQryAccountregister : callback :=
  mk_callback "CThostFtdcTraderSpi" "OnRspQryAccountregister" [PPtr 1; PPtr 355; PInt; PBool].
Definition CThostFtdcTraderSpi_OnRspError : callback :=
  mk_callback "CThostFtdcTraderSpi" "OnRspError" [PPtr 355; PInt; PBool].
Definition CThostFtdcTraderSpi_OnRtnOrder : callback :=
  mk_callback "CThostFtdcTraderSpi" "OnRtnOrder" [PPtr 162].
Definition CThostFtdcTraderSpi_OnRtnTrade : callback :=
  mk_callback "CThostFtdcTraderSpi" "OnRtnTrade" [PPtr 437].
Definition CThostFtdcTraderSpi_OnErrRtnOrderInsert : callback :=
  mk_callback "CThostFtdcTraderSpi" "OnErrRtnOrderInsert" [PPtr 89; PPtr 355].
Definition CThostFtdcTraderSpi_OnErrRtnOrderAction : callback :=
  mk_callback "CThostFtdcTraderSpi" "OnErrRtnOrderAction" [PPtr 161; PPtr 355].
Definition CThostFtdcTraderSpi_OnRtnInstrumentStatus : callback :=
  mk_callback "CThostFtdcTraderSpi" "OnRtnInstrumentStatus" [PPtr 98].
Definition CThostFtdcTraderSpi_OnRtnBulletin : callback :=
  mk_callback "CThostFtdcTraderSpi" "OnRtnBulletin" [PPtr 20].
Definition CThostFtdcTraderSpi_OnRtnTradingNotice : callback :=
  mk_callback "CThostFtdcTraderSpi" "OnRtnTradingNotice" [PPtr 451].
Definition CThostFtdcTraderSpi_OnRtnErrorConditionalOrder : callback :=
  mk_callback "CThostFtdcTraderSpi" "OnRtnErrorConditionalOrder" [PPtr 47].
Definition CThostFtdcTraderSpi_OnRtnExecOrder : callback :=
  mk_callback "CThostFtdcTraderSpi" "OnRtnExecOrder" [PPtr 68].
Definition CThostFtdcTraderSpi_OnErrRtnExecOrderInsert : callback :=
  mk_callback "CThostFtdcTraderSpi" "OnErrRtnExecOrderInsert" [PPtr 84; PPtr 355].
Definition CThostFtdcTraderSpi_OnErrRtnExecOrderAction : callback :=
  mk_callback "CThostFtdcTraderSpi" "OnErrRtnExecOrderAction" [PPtr 67; PPtr 355].
Definition CThostFtdcTraderSpi_OnErrRtnForQuoteInsert : callback :=
  mk_callback "CThostFtdcTraderSpi" "OnErrRtnForQuoteInsert" [PPtr 85; PPtr 355].
Definition CThostFtdcTraderSpi_OnRtnQuote : callback :=
  mk_callback "CThostFtdcTraderSpi" "OnRtnQuote" [PPtr 311].
Definition CThostFtdcTraderSpi_OnErrRtnQuoteInsert : callback :=
  mk_callback "CThostFtdcTraderSpi" "OnErrRtnQuoteInsert" [PPtr 91; PPtr 355].
Definition CThostFtdcTraderSpi_OnErrRtnQuoteAction : callback :=
  mk_callback "CThostFtdcTraderSpi" "OnErrRtnQuoteAction" [PPtr 310; PPtr 355].
Definition CThostFtdcTraderSpi_OnRtnForQuoteRsp : callback :=
  mk_callback "CThostFtdcTraderSpi" "OnRtnForQuoteRsp" [PPtr 73].
Definition CThostFtdcTraderSpi_OnRtnCFMMCTradingAccountToken : callback :=
  mk_callback "CThostFtdcTraderSpi" "OnRtnCFMMCTradingAccountToken" [PPtr 23].
Definition CThostFtdcTraderSpi_OnErrRtnBatchOrderAction : callback :=
  mk_callback "CThostFtdcTraderSpi" "OnErrRtnBatchOrderAction" [PPtr 7; PPtr 355].
Definition CThostFtdcTraderSpi_OnRtnOptionSelfClose : callback :=
  mk_callback "CThostFtdcTraderSpi" "OnRtnOptionSelfClose" [PPtr 160].
Definition CThostFtdcTraderSpi_OnErrRtnOptionSelfCloseInsert : callback :=
  mk_callback "CThostFtdcTraderSpi" "OnErrRtnOptionSelfCloseInsert" [PPtr 87; PPtr 355].
Definition CThostFtdcTraderSpi_OnErrRtnOptionSelfCloseAction : callback :=
  mk_callback "CThostFtdcTraderSpi" "OnErrRtnOptionSelfCloseAction" [PPtr 159; PPtr 355].
Definition CThostFtdcTraderSpi_OnRtnCombAction : callback :=
  mk_callback "CThostFtdcTraderSpi" "OnRtnCombAction" [PPtr 26].
Definition CThostFtdcTraderSpi_OnErrRtnCombActionInsert : callback :=
  mk_callback "CThostFtdcTraderSpi" "OnErrRtnCombActionInsert" [PPtr 82; PPtr 355].
Definition CThostFtdcTraderSpi_OnRspQryContractBank : callback :=
  mk_callback "CThostFtdcTraderSpi" "OnRspQryContractBank" [PPtr 32; PPtr 355; PInt; PBool].
Definition CThostFtdcTraderSpi_OnRspQryParkedOrder : callback :=
  mk_callback "CThostFtdcTraderSpi" "OnRspQryParkedOrder" [PPtr 164; PPtr 355; PInt; PBool].
Definition CThostFtdcTraderSpi_OnRspQryParkedOrderAction : callback :=
  mk_callback "CThostFtdcTraderSpi" "OnRspQryParkedOrderAction" [PPtr 163; PPtr 355; PInt; PBool].
Definition CThostFtdcTraderSpi_OnRspQryTradingNotice : callback :=
  mk_callback "CThostFtdcTraderSpi" "OnRspQryTradingNotice" [PPtr 450; PPtr 355; PInt; PBool].
Definition CThostFtdcTraderSpi_OnRspQryBrokerTradingParams : callback :=
  mk_callback "CThostFtdcTraderSpi" "OnRspQryBrokerTradingParams" [PPtr 12; PPtr 355; PInt; PBool].
Definition CThostFtdcTraderSpi_OnRspQryBrokerTradingAlgos : callback :=
  mk_callback "CThostFtdcTraderSpi" "OnRspQryBrokerTradingAlgos" [PPtr 11; PPtr 355; PInt; PBool].
Definition CThostFtdcTraderSpi_OnRspQueryCFMMCTradingAccountToken : callback :=
  mk_callback "CThostFtdcTraderSpi" "OnRspQueryCFMMCTradingAccountToken" [PPtr 308; PPtr 355; PInt; PBool].
Definition CThostFtdcTraderSpi_OnRtnFromBankToFutureByBank : callback :=
  mk_callback "CThostFtdcTraderSpi" "OnRtnFromBankToFutureByBank" [PPtr 360].
Definition CThostFtdcTraderSpi_OnRtnFromFutureToBankByBank : callback :=
  mk_callback "CThostFtdcTraderSpi" "OnRtnFromFutureToBankByBank" [PPtr 360].
Definition CThostFtdcTraderSpi_OnRtnRepealFromBankToFutureByBank : callback :=
  mk_callback "CThostFtdcTraderSpi" "OnRtnRepealFromBankToFutureByBank" [PPtr 358].
Definition CThostFtdcTraderSpi_OnRtnRepealFromFutureToBankByBank : callback :=
  mk_callback "CThostFtdcTraderSpi" "OnRtnRepealFromFutureToBankByBank" [PPtr 358].
Definition CThostFtdcTraderSpi_OnRtnFromBankToFutureByFuture : callback :=
  mk_callback "CThostFtdcTraderSpi" "OnRtnFromBankToFutureByFuture" [PPtr 360].
Definition CThostFtdcTraderSpi_OnRtnFromFutureToBankByFuture : callback :=
  mk_callback "CThostFtdcTraderSpi" "OnRtnFromFutureToBankByFuture" [PPtr 360].
Definition CThostFtdcTraderSpi_OnRtnRepealFromBankToFutureByFutureManual : callback :=
  mk_callback "CThostFtdcTraderSpi" "OnRtnRepealFromBankToFutureByFutureManual" [PPtr 358].
Definition CThostFtdcTraderSpi_OnRtnRepealFromFutureToBankByFutureManual : callback :=
  mk_callback "CThostFtdcTraderSpi" "OnRtnRepealFromFutureToBankByFutureManual" [PPtr 358].
Definition CThostFtdcTraderSpi_OnRtnQueryBankBalanceByFuture : callback :=
  mk_callback "CThostFtdcTraderSpi" "OnRtnQueryBankBalanceByFuture" [PPtr 150].
Definition CThostFtdcTraderSpi_OnErrRtnBankToFutureByFuture : callback :=
  mk_callback "CThostFtdcTraderSpi" "OnErrRtnBankToFutureByFuture" [PPtr 336; PPtr 355].
Definition CThostFtdcTraderSpi_OnErrRtnFutureToBankByFuture : callback :=
  mk_callback "CThostFtdcTraderSpi" "OnErrRtnFutureToBankByFuture" [PPtr 336; PPtr 355].
Definition CThostFtdcTraderSpi_OnErrRtnRepealBankToFutureByFutureManual : callback :=
  mk_callback "CThostFtdcTraderSpi" "OnErrRtnRepealBankToFutureByFutureManual" [PPtr 334; PPtr 355].
Definition CThostFtdcTraderSpi_OnErrRtnRepealFutureToBankByFutureManual : callback :=
  mk_callback "CThostFtdcTraderSpi" "OnErrRtnRepealFutureToBankByFutureManual" [PPtr 334; PPtr 355].
Definition CThostFtdcTraderSpi_OnErrRtnQueryBankBalanceByFuture : callback :=
  mk_callback "CThostFtdcTraderSpi" "OnErrRtnQueryBankBalanceByFuture" [PPtr 332; PPtr 355].
Definition CThostFtdcTraderSpi_OnRtnRepealFromBankToFutureByFuture : callback :=
  mk_callback "CThostFtdcTraderSpi" "OnRtnRepealFromBankToFutureByFuture" [PPtr 358].
Definition CThostFtdcTraderSpi_OnRtnRepealFromFutureToBankByFuture : callback :=
  mk_callback "CThostFtdcTraderSpi" "OnRtnRepealFromFutureToBankByFuture" [PPtr 358].
Definition CThostFtdcTraderSpi_OnRspFromBankToFutureByFuture : callback :=
  mk_callback "CThostFtdcTraderSpi" "OnRspFromBankToFutureByFuture" [PPtr 336; PPtr 355; PInt; PBool].
Definition CThostFtdcTraderSpi_OnRspFromFutureToBankByFuture : callback :=
  mk_callback "CThostFtdcTraderSpi" "OnRspFromFutureToBankByFuture" [PPtr 336; PPtr 355; PInt; PBool].
Definition CThostFtdcTraderSpi_OnRspQueryBankAccountMoneyByFuture : callback :=
  mk_callback "CThostFtdcTraderSpi" "OnRspQueryBankAccountMoneyByFuture" [PPtr 332; PPtr 355; PInt; PBool].
Definition CThostFtdcTraderSpi_OnRtnOpenAccountByBank : callback :=
  mk_callback "CThostFtdcTraderSpi" "OnRtnOpenAccountByBank" [PPtr 152].
Definition CThostFtdcTraderSpi_OnRtnCancelAccountByBank : callback :=
  mk_callback "CThostFtdcTraderSpi" "OnRtnCancelAccountByBank" [PPtr 24].
Definition CThostFtdcTraderSpi_OnRtnChangeAccountByBank : callback :=
  mk_callback "CThostFtdcTraderSpi" "OnRtnChangeAccountByBank" [PPtr 25].
Definition CThostFtdcTraderSpi_OnRspQryClassifiedInstrument : callback :=
  mk_callback "CThostFtdcTraderSpi" "OnRspQryClassifiedInstrument" [PPtr 93; PPtr 355; PInt; PBool].
Definition CThostFtdcTraderSpi_OnRspQryCombPromotionParam : callback :=
  mk_callback "CThostFtdcTraderSpi" "OnRspQryCombPromotionParam" [PPtr 28; PPtr 355; PInt; PBool].
Definition CThostFtdcTraderSpi_OnRspQryRiskSettleInvstPosition : callback :=
  mk_callback "CThostFtdcTraderSpi" "OnRspQryRiskSettleInvstPosition" [PPtr 347; PPtr 355; PInt; PBool].
Definition CThostFtdcTraderSpi_OnRspQryRiskSettleProductStatus : callback :=
  mk_callback "CThostFtdcTraderSpi" "OnRspQryRiskSettleProductStatus" [PPtr 348; PPtr 355; PInt; PBool].
Definition CThostFtdcTraderSpi_OnRspQrySPBMFutureParameter : callback :=
  mk_callback "CThostFtdcTraderSpi" "OnRspQrySPBMFutureParameter" [PPtr 365; PPtr 355; PInt; PBool].
Definition CThostFtdcTraderSpi_OnRspQrySPBMOptionParameter : callback :=
  mk_callback "CThostFtdcTraderSpi" "OnRspQrySPBMOptionParameter" [PPtr 369; PPtr 355; PInt; PBool].
Definition CThostFtdcTraderSpi_OnRspQrySPBMIntraParameter : callback :=
  mk_callback "CThostFtdcTraderSpi" "OnRspQrySPBMIntraParameter" [PPtr 367; PPtr 355; PInt; PBool].
Definition CThostFtdcTraderSpi_OnRspQrySPBMInterParameter : callback :=
  mk_callback "CThostFtdcTraderSpi" "OnRspQrySPBMInterParameter" [PPtr 366; PPtr 355; PInt; PBool].
Definition CThostFtdcTraderSpi_OnRspQrySPBMPortfDefinition : callback :=
  mk_callback "CThostFtdcTraderSpi" "OnRspQrySPBMPortfDefinition" [PPtr 370; PPtr 355; PInt; PBool].
Definition CThostFtdcTraderSpi_OnRspQrySPBMInvestorPortfDef : callback :=
  mk_callback "CThostFtdcTraderSpi" "OnRspQrySPBMInvestorPortfDef" [PPtr 368; PPtr 355; PInt; PBool].
Definition CThostFtdcTraderSpi_OnRspQryInvestorPortfMarginRatio : callback :=
  mk_callback "CThostFtdcTraderSpi" "OnRspQryInvestorPortfMarginRatio" [PPtr 108; PPtr 355; PInt; PBool].
Definition CThostFtdcTraderSpi_OnRspQryInvestorProdSPBMDetail : callback :=
  mk_callback "CThostFtdcTraderSpi" "OnRspQryInvestorProdSPBMDetail" [PPtr 115; PPtr 355; PInt; PBool].
Definition CThostFtdcTraderSpi_OnRspQryInvestorCommoditySPMMMargin : callback :=
  mk_callback "CThostFtdcTraderSpi" "OnRspQryInvestorCommoditySPMMMargin" [PPtr 103; PPtr 355; PInt; PBool].
Definition CThostFtdcTraderSpi_OnRspQryInvestorCommodityGroupSPMMMargin : callback :=
  mk_callback "CThostFtdcTraderSpi" "OnRspQryInvestorCommodityGroupSPMMMargin" [PPtr 102; PPtr 355; PInt; PBool].
Definition CThostFtdcTraderSpi_OnRspQrySPMMInstParam : callback :=
  mk_callback "CThostFtdcTraderSpi" "OnRspQrySPMMInstParam" [PPtr 371; PPtr 355; PInt; PBool].
Definition CThostFtdcTraderSpi_OnRspQrySPMMProductParam : callback :=
  mk_callback "CThostFtdcTraderSpi" "OnRspQrySPMMProductParam" [PPtr 372; PPtr 355; PInt; PBool].
Definition CThostFtdcTraderSpi_OnRspQrySPBMAddOnInterParameter : callback :=
  mk_callback "CThostFtdcTraderSpi" "OnRspQrySPBMAddOnInterParameter" [PPtr 364; PPtr 355; PInt; PBool].
Definition CThostFtdcTraderSpi_OnRspQryRCAMSCombProductInfo : callback :=
  mk_callback "CThostFtdcTraderSpi" "OnRspQryRCAMSCombProductInfo" [PPtr 312; PPtr 355; PInt; PBool].
Definition CThostFtdcTraderSpi_OnRspQryRCAMSInstrParameter : callback :=
  mk_callback "CThostFtdcTraderSpi" "OnRspQryRCAMSInstrParameter" [PPtr 313; PPtr 355; PInt; PBool].
Definition CThostFtdcTraderSpi_OnRspQryRCAMSIntraParameter : callback :=
  mk_callback "CThostFtdcTraderSpi" "OnRspQryRCAMSIntraParameter" [PPtr 315; PPtr 355; PInt; PBool].
Definition CThostFtdcTraderSpi_OnRspQryRCAMSInterParameter : callback :=
  mk_callback "CThostFtdcTraderSpi" "OnRspQryRCAMSInterParameter" [PPtr 314; PPtr 355; PInt; PBool].
Definition CThostFtdcTraderSpi_OnRspQryRCAMSShortOptAdjustParam : callback :=
  mk_callback "CThostFtdcTraderSpi" "OnRspQryRCAMSShortOptAdjustParam" [PPtr 317; PPtr 355; PInt; PBool].
Definition CThostFtdcTraderSpi_OnRspQryRCAMSInvestorCombPosition : callback :=
  mk_callback "CThostFtdcTraderSpi" "OnRspQryRCAMSInvestorCombPosition" [PPtr 316; PPtr 355; PInt; PBool].
Definition CThostFtdcTraderSpi_OnRspQryInvestorProdRCAMSMargin : callback :=
  mk_callback "CThostFtdcTraderSpi" "OnRspQryInvestorProdRCAMSMargin" [PPtr 113; PPtr 355; PInt; PBool].
Definition CThostFtdcTraderSpi_OnRspQryRULEInstrParameter : callback :=
  mk_callback "CThostFtdcTraderSpi" "OnRspQryRULEInstrParameter" [PPtr 318; PPtr 355; PInt; PBool].
Definition CThostFtdcTraderSpi_OnRspQryRULEIntraParameter : callback :=
  mk_callback "CThostFtdcTraderSpi" "OnRspQryRULEIntraParameter" [PPtr 320; PPtr 355; PInt; PBool].
Definition CThostFtdcTraderSpi_OnRspQryRULEInterParameter : callback :=
  mk_callback "CThostFtdcTraderSpi" "OnRspQryRULEInterParameter" [PPtr 319; PPtr 355; PInt; PBool].
Definition CThostFtdcTraderSpi_OnRspQryInvestorProdRULEMargin : callback :=
  mk_callback "CThostFtdcTraderSpi" "OnRspQryInvestorProdRULEMargin" [PPtr 114; PPtr 355; PInt; PBool].
Definition CThostFtdcTraderSpi_OnRspQryInvestorPortfSetting : callback :=
  mk_callback "CThostFtdcTraderSpi" "OnRspQryInvestorPortfSetting" [PPtr 109; PPtr 355; PInt; PBool].

Definition md_callbacks : list callback :=
  [ CThostFtdcMdSpi_OnFrontConnected;
    CThostFtdcMdSpi_OnFrontDisconnected;
    CThostFtdcMdSpi_OnHeartBeatWarning;
    CThostFtdcMdSpi_OnRspUserLogin;
    CThostFtdcMdSpi_OnRspUserLogout;
    CThostFtdcMdSpi_OnRspQryMulticastInstrument;
    CThostFtdcMdSpi_OnRspError;
    CThostFtdcMdSpi_OnRspSubMarketData;
    CThostFtdcMdSpi_OnRspUnSubMarketData;
    CThostFtdcMdSpi_OnRspSubForQuoteRsp;
    CThostFtdcMdSpi_OnRspUnSubForQuoteRsp;
    CThostFtdcMdSpi_OnRtnDepthMarketData;
    CThostFtdcMdSpi_OnRtnForQuoteRsp ].

Definition trader_callbacks : list callback :=
  [ CThostFtdcTraderSpi_OnFrontConnected;
    CThostFtdcTraderSpi_OnFrontDisconnected;
    CThostFtdcTraderSpi_OnHeartBeatWarning;
    CThostFtdcTraderSpi_OnRspAuthenticate;
    CThostFtdcTraderSpi_OnRspUserLogin;
    CThostFtdcTraderSpi_OnRspUserLogout;
    CThostFtdcTraderSpi_OnRspUserPasswordUpdate;
    CThostFtdcTraderSpi_OnRspTradingAccountPasswordUpdate;
    CThostFtdcTraderSpi_OnRspUserAuthMethod;
    CThostFtdcTraderSpi_OnRspGenUserCaptcha;
    CThostFtdcTraderSpi_OnRspGenUserText;
    CThostFtdcTraderSpi_OnRspOrderInsert;
    CThostFtdcTraderSpi_OnRspParkedOrderInsert;
    CThostFtdcTraderSpi_OnRspParkedOrderAction;
    CThostFtdcTraderSpi_OnRspOrderAction;
    CThostFtdcTraderSpi_OnRspQryMaxOrderVolume;
    CThostFtdcTraderSpi_OnRspSettlementInfoConfirm;
    CThostFtdcTraderSpi_OnRspRemoveParkedOrder;
    CThostFtdcTraderSpi_OnRspRemoveParkedOrderAction;
    CThostFtdcTraderSpi_OnRspExecOrderInsert;
    CThostFtdcTraderSpi_OnRspExecOrderAction;
    CThostFtdcTraderSpi_OnRspForQuoteInsert;
    CThostFtdcTraderSpi_OnRspQuoteInsert;
    CThostFtdcTraderSpi_OnRspQuoteAction;
    CThostFtdcTraderSpi_OnRspBatchOrderAction;
    CThostFtdcTraderSpi_OnRspOptionSelfCloseInsert;
    CThostFtdcTraderSpi_OnRspOptionSelfCloseAction;
    CThostFtdcTraderSpi_OnRspCombActionInsert;
    CThostFtdcTraderSpi_OnRspQryOrder;
    CThostFtdcTraderSpi_OnRspQryTrade;
    CThostFtdcTraderSpi_OnRspQryInvestorPosition;
    CThostFtdcTraderSpi_OnRspQryTradingAccount;
    CThostFtdcTraderSpi_OnRspQryInvestor;
    CThostFtdcTraderSpi_OnRspQryTradingCode;
    CThostFtdcTraderSpi_OnRspQryInstrumentMarginRate;
    CThostFtdcTraderSpi_OnRspQryInstrumentCommissionRate;
    CThostFtdcTraderSpi_OnRspQryExchange;
    CThostFtdcTraderSpi_OnRspQryProduct;
    CThostFtdcTraderSpi_OnRspQryInstrument;
    CThostFtdcTraderSpi_OnRspQryDepthMarketData;
    CThostFtdcTraderSpi_OnRspQryTraderOffer;
    CThostFtdcTraderSpi_OnRspQrySettlementInfo;
    CThostFtdcTraderSpi_OnRspQryTransferBank;
    CThostFtdcTraderSpi_OnRspQryInvestorPositionDetail;
    CThostFtdcTraderSpi_OnRspQryNotice;
    CThostFtdcTraderSpi_OnRspQrySettlementInfoConfirm;
    CThostFtdcTraderSpi_OnRspQryInvestorPositionCombineDetail;
    CThostFtdcTraderSpi_OnRspQryCFMMCTradingAccountKey;
    CThostFtdcTraderSpi_OnRspQryEWarrantOffset;
    CThostFtdcTraderSpi_OnRspQryInvestorProductGroupMargin;
    CThostFtdcTraderSpi_OnRspQryExchangeMarginRate;
    CThostFtdcTraderSpi_OnRspQryExchangeMarginRateAdjust;
    CThostFtdcTraderSpi_OnRspQryExchangeRate;
    CThostFtdcTraderSpi_OnRspQrySecAgentACIDMap;
    CThostFtdcTraderSpi_OnRspQryProductExchRate;
    CThostFtdcTraderSpi_OnRspQryProductGroup;
    CThostFtdcTraderSpi_OnRspQryMMInstrumentCommissionRate;
    CThostFtdcTraderSpi_OnRspQryMMOptionInstrCommRate;
    CThostFtdcTraderSpi_OnRspQryInstrumentOrderCommRate;
    CThostFtdcTraderSpi_OnRspQrySecAgentTradingAccount;
    CThostFtdcTraderSpi_OnRspQrySecAgentCheckMode;
    CThostFtdcTraderSpi_OnRspQrySecAgentTradeInfo;
    CThostFtdcTraderSpi_OnRspQryOptionInstrTradeCost;
    CThostFtdcTraderSpi_OnRspQryOptionInstrCommRate;
    CThostFtdcTraderSpi_OnRspQryExecOrder;
    CThostFtdcTraderSpi_OnRspQryForQuote;
    CThostFtdcTraderSpi_OnRspQryQuote;
    CThostFtdcTraderSpi_OnRspQryOptionSelfClose;
    CThostFtdcTraderSpi_OnRspQryInvestUnit;
    CThostFtdcTraderSpi_OnRspQryCombInstrumentGuard;
    CThostFtdcTraderSpi_OnRspQryCombAction;
    CThostFtdcTraderSpi_OnRspQryTransferSerial;
    CThostFtdcTraderSpi_OnRspQryAccountregister;
    CThostFtdcTraderSpi_OnRspError;
    CThostFtdcTraderSpi_OnRtnOrder;
    CThostFtdcTraderSpi_OnRtnTrade;
    CThostFtdcTraderSpi_OnErrRtnOrderInsert;
    CThostFtdcTraderSpi_OnErrRtnOrderAction;
    CThostFtdcTraderSpi_OnRtnInstrumentStatus;
    CThostFtdcTraderSpi_OnRtnBulletin;
    CThostFtdcTraderSpi_OnRtnTradingNotice;
    CThostFtdcTraderSpi_OnRtnErrorConditionalOrder;
    CThostFtdcTraderSpi_OnRtnExecOrder;
    CThostFtdcTraderSpi_OnErrRtnExecOrderInsert;
    CThostFtdcTraderSpi_OnErrRtnExecOrderAction;
    CThostFtdcTraderSpi_OnErrRtnForQuoteInsert;
    CThostFtdcTraderSpi_OnRtnQuote;
    CThostFtdcTraderSpi_OnErrRtnQuoteInsert;
    CThostFtdcTraderSpi_OnErrRtnQuoteAction;
    CThostFtdcTraderSpi_OnRtnForQuoteRsp;
    CThostFtdcTraderSpi_OnRtnCFMMCTradingAccountToken;
    CThostFtdcTraderSpi_OnErrRtnBatchOrderAction;
    CThostFtdcTraderSpi_OnRtnOptionSelfClose;
    CThostFtdcTraderSpi_OnErrRtnOptionSelfCloseInsert;
    CThostFtdcTraderSpi_OnErrRtnOptionSelfCloseAction;
    CThostFtdcTraderSpi_OnRtnCombAction;
    CThostFtdcTraderSpi_OnErrRtnCombActionInsert;
    CThostFtdcTraderSpi_OnRspQryContractBank;
    CThostFtdcTraderSpi_OnRspQryParkedOrder;
    CThostFtdcTraderSpi_OnRspQryParkedOrderAction;
    CThostFtdcTraderSpi_OnRspQryTradingNotice;
    CThostFtdcTraderSpi_OnRspQryBrokerTradingParams;
    CThostFtdcTraderSpi_OnRspQryBrokerTradingAlgos;
    CThostFtdcTraderSpi_OnRspQueryCFMMCTradingAccountToken;
    CThostFtdcTraderSpi_OnRtnFromBankToFutureByBank;
    CThostFtdcTraderSpi_OnRtnFromFutureToBankByBank;
    CThostFtdcTraderSpi_OnRtnRepealFromBankToFutureByBank;
    CThostFtdcTraderSpi_OnRtnRepealFromFutureToBankByBank;
    CThostFtdcTraderSpi_OnRtnFromBankToFutureByFuture;
    CThostFtdcTraderSpi_OnRtnFromFutureToBankByFuture;
    CThostFtdcTraderSpi_OnRtnRepealFromBankToFutureByFutureManual;
    CThostFtdcTraderSpi_OnRtnRepealFromFutureToBankByFutureManual;
    CThostFtdcTraderSpi_OnRtnQueryBankBalanceByFuture;
    CThostFtdcTraderSpi_OnErrRtnBankToFutureByFuture;
    CThostFtdcTraderSpi_OnErrRtnFutureToBankByFuture;
    CThostFtdcTraderSpi_OnErrRtnRepealBankToFutureByFutureManual;
    CThostFtdcTraderSpi_OnErrRtnRepealFutureToBankByFutureManual;
    CThostFtdcTraderSpi_OnErrRtnQueryBankBalanceByFuture;
    CThostFtdcTraderSpi_OnRtnRepealFromBankToFutureByFuture;
    CThostFtdcTraderSpi_OnRtnRepealFromFutureToBankByFuture;
    CThostFtdcTraderSpi_OnRspFromBankToFutureByFuture;
    CThostFtdcTraderSpi_OnRspFromFutureToBankByFuture;
    CThostFtdcTraderSpi_OnRspQueryBankAccountMoneyByFuture;
    CThostFtdcTraderSpi_OnRtnOpenAccountByBank;
    CThostFtdcTraderSpi_OnRtnCancelAccountByBank;
    CThostFtdcTraderSpi_OnRtnChangeAccountByBank;
    CThostFtdcTraderSpi_OnRspQryClassifiedInstrument;
    CThostFtdcTraderSpi_OnRspQryCombPromotionParam;
    CThostFtdcTraderSpi_OnRspQryRiskSettleInvstPosition;
    CThostFtdcTraderSpi_OnRspQryRiskSettleProductStatus;
    CThostFtdcTraderSpi_OnRspQrySPBMFutureParameter;
    CThostFtdcTraderSpi_OnRspQrySPBMOptionParameter;
    CThostFtdcTraderSpi_OnRspQrySPBMIntraParameter;
    CThostFtdcTraderSpi_OnRspQrySPBMInterParameter;
    CThostFtdcTraderSpi_OnRspQrySPBMPortfDefinition;
    CThostFtdcTraderSpi_OnRspQrySPBMInvestorPortfDef;
    CThostFtdcTraderSpi_OnRspQryInvestorPortfMarginRatio;
    CThostFtdcTraderSpi_OnRspQryInvestorProdSPBMDetail;
    CThostFtdcTraderSpi_OnRspQryInvestorCommoditySPMMMargin;
    CThostFtdcTraderSpi_OnRspQryInvestorCommodityGroupSPMMMargin;
    CThostFtdcTraderSpi_OnRspQrySPMMInstParam;
    CThostFtdcTraderSpi_OnRspQrySPMMProductParam;
    CThostFtdcTraderSpi_OnRspQrySPBMAddOnInterParameter;
    CThostFtdcTraderSpi_OnRspQryRCAMSCombProductInfo;
    CThostFtdcTraderSpi_OnRspQryRCAMSInstrParameter;
    CThostFtdcTraderSpi_OnRspQryRCAMSIntraParameter;
    CThostFtdcTraderSpi_OnRspQryRCAMSInterParameter;
    CThostFtdcTraderSpi_OnRspQryRCAMSShortOptAdjustParam;
    CThostFtdcTraderSpi_OnRspQryRCAMSInvestorCombPosition;
    CThostFtdcTraderSpi_OnRspQryInvestorProdRCAMSMargin;
    CThostFtdcTraderSpi_OnRspQryRULEInstrParameter;
    CThostFtdcTraderSpi_OnRspQryRULEIntraParameter;
    CThostFtdcTraderSpi_OnRspQryRULEInterParameter;
    CThostFtdcTraderSpi_OnRspQryInvestorProdRULEMargin;
    CThostFtdcTraderSpi_OnRspQryInvestorPortfSetting ].

(** ** The class declarations *)

Definition SwigDirector_CThostFtdcMdSpi : list (string * list (param string)) :=
  [ ("OnFrontConnected", []);
    ("OnFrontDisconnected", [PInt]);
    ("OnHeartBeatWarning", [PInt]);
    ("OnRspUserLogin", [PPtr "CThostFtdcRspUserLoginField"; PPtr "CThostFtdcRspInfoField"; PInt; PBool]);
    ("OnRspUserLogout", [PPtr "CThostFtdcUserLogoutField"; PPtr "CThostFtdcRspInfoField"; PInt; PBool]);
    ("OnRspQryMulticastInstrument", [PPtr "CThostFtdcMulticastInstrumentField"; PPtr "CThostFtdcRspInfoField"; PInt; PBool]);
    ("OnRspError", [PPtr "CThostFtdcRspInfoField"; PInt; PBool]);
    ("OnRspSubMarketData", [PPtr "CThostFtdcSpecificInstrumentField"; PPtr "CThostFtdcRspInfoField"; PInt; PBool]);
    ("OnRspUnSubMarketData", [PPtr "CThostFtdcSpecificInstrumentField"; PPtr "CThostFtdcRspInfoField"; PInt; PBool]);
    ("OnRspSubForQuoteRsp", [PPtr "CThostFtdcSpecificInstrumentField"; PPtr "CThostFtdcRspInfoField"; PInt; PBool]);
    ("OnRspUnSubForQuoteRsp", [PPtr "CThostFtdcSpecificInstrumentField"; PPtr "CThostFtdcRspInfoField"; PInt; PBool]);
    ("OnRtnDepthMarketData", [PPtr "CThostFtdcDepthMarketDataField"]);
    ("OnRtnForQuoteRsp", [PPtr "CThostFtdcForQuoteRspField"]) ].

Definition SwigDirector_CThostFtdcTraderSpi_0 : list (string * list (param string)) :=
  [ ("OnFrontConnected", []);
    ("OnFrontDisconnected", [PInt]);
    ("OnHeartBeatWarning", [PInt]);
    ("OnRspAuthenticate", [PPtr "CThostFtdcRspAuthenticateField"; PPtr "CThostFtdcRspInfoField"; PInt; PBool]);
    ("OnRspUserLogin", [PPtr "CThostFtdcRspUserLoginField"; PPtr "CThostFtdcRspInfoField"; PInt; PBool]);
    ("OnRspUserLogout", [PPtr "CThostFtdcUserLogoutField"; PPtr "CThostFtdcRspInfoField"; PInt; PBool]);
    ("OnRspUserPasswordUpdate", [PPtr "CThostFtdcUserPasswordUpdateField"; PPtr "CThostFtdcRspInfoField"; PInt; PBool]);
    ("OnRspTradingAccountPasswordUpdate", [PPtr "CThostFtdcTradingAccountPasswordUpdateField"; PPtr "CThostFtdcRspInfoField"; PInt; PBool]);
    ("OnRspUserAuthMethod", [PPtr "CThostFtdcRspUserAuthMethodField"; PPtr "CThostFtdcRspInfoField"; PInt; PBool]);
    ("OnRspGenUserCaptcha", [PPtr "CThostFtdcRspGenUserCaptchaField"; PPtr "CThostFtdcRspInfoField"; PInt; PBool]);
    ("OnRspGenUserText", [PPtr "CThostFtdcRspGenUserTextField"; PPtr "CThostFtdcRspInfoField"; PInt; PBool]);
    ("OnRspOrderInsert", [PPtr "CThostFtdcInputOrderField"; PPtr "CThostFtdcRspInfoField"; PInt; PBool]);
    ("OnRspParkedOrderInsert", [PPtr "CThostFtdcParkedOrderField"; PPtr "CThostFtdcRspInfoField"; PInt; PBool]);
    ("OnRspParkedOrderAction", [PPtr "CThostFtdcParkedOrderActionField"; PPtr "CThostFtdcRspInfoField"; PInt; PBool]);
    ("OnRspOrderAction", [PPtr "CThostFtdcInputOrderActionField"; PPtr "CThostFtdcRspInfoField"; PInt; PBool]);
    ("OnRspQryMaxOrderVolume", [PPtr "CThostFtdcQryMaxOrderVolumeField"; PPtr "CThostFtdcRspInfoField"; PInt; PBool]);
    ("OnRspSettlementInfoConfirm", [PPtr "CThostFtdcSettlementInfoConfirmField"; PPtr "CThostFtdcRspInfoField"; PInt; PBool]);
    ("OnRspRemoveParkedOrder", [PPtr "CThostFtdcRemoveParkedOrderField"; PPtr "CThostFtdcRspInfoField"; PInt; PBool]);
    ("OnRspRemoveParkedOrderAction", [PPtr "CThostFtdcRemoveParkedOrderActionField"; PPtr "CThostFtdcRspInfoField"; PInt; PBool]);
    ("OnRspExecOrderInsert", [PPtr "CThostFtdcInputExecOrderField"; PPtr "CThostFtdcRspInfoField"; PInt; PBool]);
    ("OnRspExecOrderAction", [PPtr "CThostFtdcInputExecOrderActionField"; PPtr "CThostFtdcRspInfoField"; PInt; PBool]);
    ("OnRspForQuoteInsert", [PPtr "CThostFtdcInputForQuoteField"; PPtr "CThostFtdcRspInfoField"; PInt; PBool]);
    ("OnRspQuoteInsert", [PPtr "CThostFtdcInputQuoteField"; PPtr "CThostFtdcRspInfoField"; PInt; PBool]);
    ("OnRspQuoteAction", [PPtr "CThostFtdcInputQuoteActionField"; PPtr "CThostFtdcRspInfoField"; PInt; PBool]);
    ("OnRspBatchOrderAction", [PPtr "CThostFtdcInputBatchOrderActionField"; PPtr "CThostFtdcRspInfoField"; PInt; PBool]);
    ("OnRspOptionSelfCloseInsert", [PPtr "CThostFtdcInputOptionSelfCloseField"; PPtr "CThostFtdcRspInfoField"; PInt; PBool]);
    ("OnRspOptionSelfCloseAction", [PPtr "CThostFtdcInputOptionSelfCloseActionField"; PPtr "CThostFtdcRspInfoField"; PInt; PBool]);
    ("OnRspCombActionInsert", [PPtr "CThostFtdcInputCombActionField"; PPtr "CThostFtdcRspInfoField"; PInt; PBool]);
    ("OnRspQryOrder", [PPtr "CThostFtdcOrderField"; PPtr "CThostFtdcRspInfoField"; PInt; PBool]);
    ("OnRspQryTrade", [PPtr "CThostFtdcTradeField"; PPtr "CThostFtdcRspInfoField"; PInt; PBool]);
    ("OnRspQryInvestorPosition", [PPtr "CThostFtdcInvestorPositionField"; PPtr "CThostFtdcRspInfoField"; PInt; PBool]);
    ("OnRspQryTradingAccount", [PPtr "CThostFtdcTradingAccountField"; PPtr "CThostFtdcRspInfoField"; PInt; PBool]);
    ("OnRspQryInvestor", [PPtr "CThostFtdcInvestorField"; PPtr "CThostFtdcRspInfoField"; PInt; PBool]);
    ("OnRspQryTradingCode", [PPtr "CThostFtdcTradingCodeField"; PPtr "CThostFtdcRspInfoField"; PInt; PBool]);
    ("OnRspQryInstrumentMarginRate", [PPtr "CThostFtdcInstrumentMarginRateField"; PPtr "CThostFtdcRspInfoField"; PInt; PBool]);
    ("OnRspQryInstrumentCommissionRate", [PPtr "CThostFtdcInstrumentCommissionRateField"; PPtr "CThostFtdcRspInfoField"; PInt; PBool]);
    ("OnRspQryExchange", [PPtr "CThostFtdcExchangeField"; PPtr "CThostFtdcRspInfoField"; PInt; PBool]);
    ("OnRspQryProduct", [PPtr "CThostFtdcProductField"; PPtr "CThostFtdcRspInfoField"; PInt; PBool]);
    ("OnRspQryInstrument", [PPtr "CThostFtdcInstrumentField"; PPtr "CThostFtdcRspInfoField"; PInt; PBool]);
    ("OnRspQryDepthMarketData", [PPtr "CThostFtdcDepthMarketDataField"; PPtr "CThostFtdcRspInfoField"; PInt; PBool]);
    ("OnRspQryTraderOffer", [PPtr "CThostFtdcTraderOfferField"; PPtr "CThostFtdcRspInfoField"; PInt; PBool]);
    ("OnRspQrySettlementInfo", [PPtr "CThostFtdcSettlementInfoField"; PPtr "CThostFtdcRspInfoField"; PInt; PBool]);
    ("OnRspQryTransferBank", [PPtr "CThostFtdcTransferBankField"; PPtr "CThostFtdcRspInfoField"; PInt; PBool]);
    ("OnRspQryInvestorPositionDetail", [PPtr "CThostFtdcInvestorPositionDetailField"; PPtr "CThostFtdcRspInfoField"; PInt; PBool]);
    ("OnRspQryNotice", [PPtr "CThostFtdcNoticeField"; PPtr "CThostFtdcRspInfoField"; PInt; PBool]);
    ("OnRspQrySettlementInfoConfirm", [PPtr "CThostFtdcSettlementInfoConfirmField"; PPtr "CThostFtdcRspInfoField"; PInt; PBool]);
    ("OnRspQryInvestorPositionCombineDetail", [PPtr "CThostFtdcInvestorPositionCombineDetailField"; PPtr "CThostFtdcRspInfoField"; PInt; PBool]);
    ("OnRspQryCFMMCTradingAccountKey", [PPtr "CThostFtdcCFMMCTradingAccountKeyField"; PPtr "CThostFtdcRspInfoField"; PInt; PBool]);
    ("OnRspQryEWarrantOffset", [PPtr "CThostFtdcEWarrantOffsetField"; PPtr "CThostFtdcRspInfoField"; PInt; PBool]);
    ("OnRspQryInvestorProductGroupMargin", [PPtr "CThostFtdcInvestorProductGroupMarginField"; PPtr "CThostFtdcRspInfoField"; PInt; PBool]);
    ("OnRspQryExchangeMarginRate", [PPtr "CThostFtdcExchangeMarginRateField"; PPtr "CThostFtdcRspInfoField"; PInt; PBool]);
    ("OnRspQryExchangeMarginRateAdjust", [PPtr "CThostFtdcExchangeMarginRateAdjustField"; PPtr "CThostFtdcRspInfoField"; PInt; PBool]);
    ("OnRspQryExchangeRate", [PPtr "CThostFtdcExchangeRateField"; PPtr "CThostFtdcRspInfoField"; PInt; PBool]);
    ("OnRspQrySecAgentACIDMap", [PPtr "CThostFtdcSecAgentACIDMapField"; PPtr "CThostFtdcRspInfoField"; PInt; PBool]);
    ("OnRspQryProductExchRate", [PPtr "CThostFtdcProductExchRateField"; PPtr "CThostFtdcRspInfoField"; PInt; PBool]);
    ("OnRspQryProductGroup", [PPtr "CThostFtdcProductGroupField"; PPtr "CThostFtdcRspInfoField"; PInt; PBool]);
    ("OnRspQryMMInstrumentCommissionRate", [PPtr "CThostFtdcMMInstrumentCommissionRateField"; PPtr "CThostFtdcRspInfoField"; PInt; PBool]);
    ("OnRspQryMMOptionInstrCommRate", [PPtr "CThostFtdcMMOptionInstrCommRateField"; PPtr "CThostFtdcRspInfoField"; PInt; PBool]);
    ("OnRspQryInstrumentOrderCommRate", [PPtr "CThostFtdcInstrumentOrderCommRateField"; PPtr "CThostFtdcRspInfoField"; PInt; PBool]);
    ("OnRspQrySecAgentTradingAccount", [PPtr "CThostFtdcTradingAccountField"; PPtr "CThostFtdcRspInfoField"; PInt; PBool]);
    ("OnRspQrySecAgentCheckMode", [PPtr "CThostFtdcSecAgentCheckModeField"; PPtr "CThostFtdcRspInfoField"; PInt; PBool]);
    ("OnRspQrySecAgentTradeInfo", [PPtr "CThostFtdcSecAgentTradeInfoField"; PPtr "CThostFtdcRspInfoField"; PInt; PBool]);
    ("OnRspQryOptionInstrTradeCost", [PPtr "CThostFtdcOptionInstrTradeCostField"; PPtr "CThostFtdcRspInfoField"; PInt; PBool]);
    ("OnRspQryOptionInstrCommRate", [PPtr "CThostFtdcOptionInstrCommRateField"; PPtr "CThostFtdcRspInfoField"; PInt; PBool]);
    ("OnRspQryExecOrder", [PPtr "CThostFtdcExecOrderField"; PPtr "CThostFtdcRspInfoField"; PInt; PBool]);
    ("OnRspQryForQuote", [PPtr "CThostFtdcForQuoteField"; PPtr "CThostFtdcRspInfoField"; PInt; PBool]);
    ("OnRspQryQuote", [PPtr "CThostFtdcQuoteField"; PPtr "CThostFtdcRspInfoField"; PInt; PBool]);
    ("OnRspQryOptionSelfClose", [PPtr "CThostFtdcOptionSelfCloseField"; PPtr "CThostFtdcRspInfoField"; PInt; PBool]);
    ("OnRspQryInvestUnit", [PPtr "CThostFtdcInvestUnitField"; PPtr "CThostFtdcRspInfoField"; PInt; PBool]);
    ("OnRspQryCombInstrumentGuard", [PPtr "CThostFtdcCombInstrumentGuardField"; PPtr "CThostFtdcRspInfoField"; PInt; PBool]);
    ("OnRspQryCombAction", [PPtr "CThostFtdcCombActionField"; PPtr "CThostFtdcRspInfoField"; PInt; PBool]);
    ("OnRspQryTransferSerial", [PPtr "CThostFtdcTransferSerialField"; PPtr "CThostFtdcRspInfoField"; PInt; PBool]);
    ("OnRspQryAccountregister", [PPtr "CThostFtdcAccountregisterField"; PPtr "CThostFtdcRspInfoField"; PInt; PBool]);
    ("OnRspError", [PPtr "CThostFtdcRspInfoField"; PInt; PBool]);
    ("OnRtnOrder", [PPtr "CThostFtdcOrderField"]);
    ("OnRtnTrade", [PPtr "CThostFtdcTradeField"]);
    ("OnErrRtnOrderInsert", [PPtr "CThostFtdcInputOrderField"; PPtr "CThostFtdcRspInfoField"]);
    ("OnErrRtnOrderAction", [PPtr "CThostFtdcOrderActionField"; PPtr "CThostFtdcRspInfoField"]);
    ("OnRtnInstrumentStatus", [PPtr "CThostFtdcInstrumentStatusField"]);
    ("OnRtnBulletin", [PPtr "CThostFtdcBulletinField"]);
    ("OnRtnTradingNotice", [PPtr "CThostFtdcTradingNoticeInfoField"]);
    ("OnRtnErrorConditionalOrder", [PPtr "CThostFtdcErrorConditionalOrderField"]);
    ("OnRtnExecOrder", [PPtr "CThostFtdcExecOrderField"]);
    ("OnErrRtnExecOrderInsert", [PPtr "CThostFtdcInputExecOrderField"; PPtr "CThostFtdcRspInfoField"]);
    ("OnErrRtnExecOrderAction", [PPtr "CThostFtdcExecOrderActionField"; PPtr "CThostFtdcRspInfoField"]);
    ("OnErrRtnForQuoteInsert", [PPtr "CThostFtdcInputForQuoteField"; PPtr "CThostFtdcRspInfoField"]);
    ("OnRtnQuote", [PPtr "CThostFtdcQuoteField"]);
    ("OnErrRtnQuoteInsert", [PPtr "CThostFtdcInputQuoteField"; PPtr "CThostFtdcRspInfoField"]);
    ("OnErrRtnQuoteAction", [PPtr "CThostFtdcQuoteActionField"; PPtr "CThostFtdcRspInfoField"]);
    ("OnRtnForQuoteRsp", [PPtr "CThostFtdcForQuoteRspField"]);
    ("OnRtnCFMMCTradingAccountToken", [PPtr "CThostFtdcCFMMCTradingAccountTokenField"]);
    ("OnErrRtnBatchOrderAction", [PPtr "CThostFtdcBatchOrderActionField"; PPtr "CThostFtdcRspInfoField"]);
    ("OnRtnOptionSelfClose", [PPtr "CThostFtdcOptionSelfCloseField"]);
    ("OnErrRtnOptionSelfCloseInsert", [PPtr "CThostFtdcInputOptionSelfCloseField"; PPtr "CThostFtdcRspInfoField"]);
    ("OnErrRtnOptionSelfCloseAction", [PPtr "CThostFtdcOptionSelfCloseActionField"; PPtr "CThostFtdcRspInfoField"]);
    ("OnRtnCombAction", [PPtr "CThostFtdcCombActionField"]);
    ("OnErrRtnCombActionInsert", [PPtr "CThostFtdcInputCombActionField"; PPtr "CThostFtdcRspInfoField"]);
    ("OnRspQryContractBank", [PPtr "CThostFtdcContractBankField"; PPtr "CThostFtdcRspInfoField"; PInt; PBool]);
    ("OnRspQryParkedOrder", [PPtr "CThostFtdcParkedOrderField"; PPtr "CThostFtdcRspInfoField"; PInt; PBool]);
    ("OnRspQryParkedOrderAction", [PPtr "CThostFtdcParkedOrderActionField"; PPtr "CThostFtdcRspInfoField"; PInt; PBool]);
    ("OnRspQryTradingNotice", [PPtr "CThostFtdcTradingNoticeField"; PPtr "CThostFtdcRspInfoField"; PInt; PBool]);
    ("OnRspQryBrokerTradingParams", [PPtr "CThostFtdcBrokerTradingParamsField"; PPtr "CThostFtdcRspInfoField"; PInt; PBool]);
    ("OnRspQryBrokerTradingAlgos", [PPtr "CThostFtdcBrokerTradingAlgosField"; PPtr "CThostFtdcRspInfoField"; PInt; PBool]);
    ("OnRspQueryCFMMCTradingAccountToken", [PPtr "CThostFtdcQueryCFMMCTradingAccountTokenField"; PPtr "CThostFtdcRspInfoField"; PInt; PBool]);
    ("OnRtnFromBankToFutureByBank", [PPtr "CThostFtdcRspTransferField"]);
    ("OnRtnFromFutureToBankByBank", [PPtr "CThostFtdcRspTransferField"]);
    ("OnRtnRepealFromBankToFutureByBank", [PPtr "CThostFtdcRspRepealField"]);
    ("OnRtnRepealFromFutureToBankByBank", [PPtr "CThostFtdcRspRepealField"]);
    ("OnRtnFromBankToFutureByFuture", [PPtr "CThostFtdcRspTransferField"]);
    ("OnRtnFromFutureToBankByFuture", [PPtr "CThostFtdcRspTransferField"]);
    ("OnRtnRepealFromBankToFutureByFutureManual", [PPtr "CThostFtdcRspRepealField"]);
    ("OnRtnRepealFromFutureToBankByFutureManual", [PPtr "CThostFtdcRspRepealField"]);
    ("OnRtnQueryBankBalanceByFuture", [PPtr "CThostFtdcNotifyQueryAccountField"]);
    ("OnErrRtnBankToFutureByFuture", [PPtr "CThostFtdcReqTransferField"; PPtr "CThostFtdcRspInfoField"]);
    ("OnErrRtnFutureToBankByFuture", [PPtr "CThostFtdcReqTransferField"; PPtr "CThostFtdcRspInfoField"]);
    ("OnErrRtnRepealBankToFutureByFutureManual", [PPtr "CThostFtdcReqRepealField"; PPtr "CThostFtdcRspInfoField"]);
    ("OnErrRtnRepealFutureToBankByFutureManual", [PPtr "CThostFtdcReqRepealField"; PPtr "CThostFtdcRspInfoField"]);
    ("OnErrRtnQueryBankBalanceByFuture", [PPtr "CThostFtdcReqQueryAccountField"; PPtr "CThostFtdcRspInfoField"]);
    ("OnRtnRepealFromBankToFutureByFuture", [PPtr "CThostFtdcRspRepealField"]);
    ("OnRtnRepealFromFutureToBankByFuture", [PPtr "CThostFtdcRspRepealField"]);
    ("OnRspFromBankToFutureByFuture", [PPtr "CThostFtdcReqTransferField"; PPtr "CThostFtdcRspInfoField"; PInt; PBool]);
    ("OnRspFromFutureToBankByFuture", [PPtr "CThostFtdcReqTransferField"; PPtr "CThostFtdcRspInfoField"; PInt; PBool]);
    ("OnRspQueryBankAccountMoneyByFuture", [PPtr "CThostFtdcReqQueryAccountField"; PPtr "CThostFtdcRspInfoField"; PInt; PBool]);
    ("OnRtnOpenAccountByBank", [PPtr "CThostFtdcOpenAccountField"]);
    ("OnRtnCancelAccountByBank", [PPtr "CThostFtdcCancelAccountField"]);
    ("OnRtnChangeAccountByBank", [PPtr "CThostFtdcChangeAccountField"]);
    ("OnRspQryClassifiedInstrument", [PPtr "CThostFtdcInstrumentField"; PPtr "CThostFtdcRspInfoField"; PInt; PBool]);
    ("OnRspQryCombPromotionParam", [PPtr "CThostFtdcCombPromotionParamField"; PPtr "CThostFtdcRspInfoField"; PInt; PBool]);
    ("OnRspQryRiskSettleInvstPosition", [PPtr "CThostFtdcRiskSettleInvstPositionField"; PPtr "CThostFtdcRspInfoField"; PInt; PBool]);
    ("OnRspQryRiskSettleProductStatus", [PPtr "CThostFtdcRiskSettleProductStatusField"; PPtr "CThostFtdcRspInfoField"; PInt; PBool]);
    ("OnRspQrySPBMFutureParameter", [PPtr "CThostFtdcSPBMFutureParameterField"; PPtr "CThostFtdcRspInfoField"; PInt; PBool]);
    ("OnRspQrySPBMOptionParameter", [PPtr "CThostFtdcSPBMOptionParameterField"; PPtr "CThostFtdcRspInfoField"; PInt; PBool]);
    ("OnRspQrySPBMIntraParameter", [PPtr "CThostFtdcSPBMIntraParameterField"; PPtr "CThostFtdcRspInfoField"; PInt; PBool]);
    ("OnRspQrySPBMInterParameter", [PPtr "CThostFtdcSPBMInterParameterField"; PPtr "CThostFtdcRspInfoField"; PInt; PBool]);
    ("OnRspQrySPBMPortfDefinition", [PPtr "CThostFtdcSPBMPortfDefinitionField"; PPtr "CThostFtdcRspInfoField"; PInt; PBool]);
    ("OnRspQrySPBMInvestorPortfDef", [PPtr "CThostFtdcSPBMInvestorPortfDefField"; PPtr "CThostFtdcRspInfoField"; PInt; PBool]);
    ("OnRspQryInvestorPortfMarginRatio", [PPtr "CThostFtdcInvestorPortfMarginRatioField"; PPtr "CThostFtdcRspInfoField"; PInt; PBool]);
    ("OnRspQryInvestorProdSPBMDetail", [PPtr "CThostFtdcInvestorProdSPBMDetailField"; PPtr "CThostFtdcRspInfoField"; PInt; PBool]);
    ("OnRspQryInvestorCommoditySPMMMargin", [PPtr "CThostFtdcInvestorCommoditySPMMMarginField"; PPtr "CThostFtdcRspInfoField"; PInt; PBool]);
    ("OnRspQryInvestorCommodityGroupSPMMMargin", [PPtr "CThostFtdcInvestorCommodityGroupSPMMMarginField"; PPtr "CThostFtdcRspInfoField"; PInt; PBool]) ].

Definition SwigDirector_CThostFtdcTraderSpi_1 : list (string * list (param string)) :=
  [ ("OnRspQrySPMMInstParam", [PPtr "CThostFtdcSPMMInstParamField"; PPtr "CThostFtdcRspInfoField"; PInt; PBool]);
    ("OnRspQrySPMMProductParam", [PPtr "CThostFtdcSPMMProductParamField"; PPtr "CThostFtdcRspInfoField"; PInt; PBool]);
    ("OnRspQrySPBMAddOnInterParameter", [PPtr "CThostFtdcSPBMAddOnInterParameterField"; PPtr "CThostFtdcRspInfoField"; PInt; PBool]);
    ("OnRspQryRCAMSCombProductInfo", [PPtr "CThostFtdcRCAMSCombProductInfoField"; PPtr "CThostFtdcRspInfoField"; PInt; PBool]);
    ("OnRspQryRCAMSInstrParameter", [PPtr "CThostFtdcRCAMSInstrParameterField"; PPtr "CThostFtdcRspInfoField"; PInt; PBool]);
    ("OnRspQryRCAMSIntraParameter", [PPtr "CThostFtdcRCAMSIntraParameterField"; PPtr "CThostFtdcRspInfoField"; PInt; PBool]);
    ("OnRspQryRCAMSInterParameter", [PPtr "CThostFtdcRCAMSInterParameterField"; PPtr "CThostFtdcRspInfoField"; PInt; PBool]);
    ("OnRspQryRCAMSShortOptAdjustParam", [PPtr "CThostFtdcRCAMSShortOptAdjustParamField"; PPtr "CThostFtdcRspInfoField"; PInt; PBool]);
    ("OnRspQryRCAMSInvestorCombPosition", [PPtr "CThostFtdcRCAMSInvestorCombPositionField"; PPtr "CThostFtdcRspInfoField"; PInt; PBool]);
    ("OnRspQryInvestorProdRCAMSMargin", [PPtr "CThostFtdcInvestorProdRCAMSMarginField"; PPtr "CThostFtdcRspInfoField"; PInt; PBool]);
    ("OnRspQryRULEInstrParameter", [PPtr "CThostFtdcRULEInstrParameterField"; PPtr "CThostFtdcRspInfoField"; PInt; PBool]);
    ("OnRspQryRULEIntraParameter", [PPtr "CThostFtdcRULEIntraParameterField"; PPtr "CThostFtdcRspInfoField"; PInt; PBool]);
    ("OnRspQryRULEInterParameter", [PPtr "CThostFtdcRULEInterParameterField"; PPtr "CThostFtdcRspInfoField"; PInt; PBool]);
    ("OnRspQryInvestorProdRULEMargin", [PPtr "CThostFtdcInvestorProdRULEMarginField"; PPtr "CThostFtdcRspInfoField"; PInt; PBool]);
    ("OnRspQryInvestorPortfSetting", [PPtr "CThostFtdcInvestorPortfSettingField"; PPtr "CThostFtdcRspInfoField"; PInt; PBool]) ].

Definition SwigDirector_CThostFtdcTraderSpi : list (string * list (param string)) := SwigDirector_CThostFtdcTraderSpi_0 ++ SwigDirector_CThostFtdcTraderSpi_1.

Definition CThostFtdcMdSpi_virtuals : list (string * list (param string)) :=
  [ ("OnFrontConnected", []);
    ("OnFrontDisconnected", [PInt]);
    ("OnHeartBeatWarning", [PInt]);
    ("OnRspUserLogin", [PPtr "CThostFtdcRspUserLoginField"; PPtr "CThostFtdcRspInfoField"; PInt; PBool]);
    ("OnRspUserLogout", [PPtr "CThostFtdcUserLogoutField"; PPtr "CThostFtdcRspInfoField"; PInt; PBool]);
    ("OnRspQryMulticastInstrument", [PPtr "CThostFtdcMulticastInstrumentField"; PPtr "CThostFtdcRspInfoField"; PInt; PBool]);
    ("OnRspError", [PPtr "CThostFtdcRspInfoField"; PInt; PBool]);
    ("OnRspSubMarketData", [PPtr "CThostFtdcSpecificInstrumentField"; PPtr "CThostFtdcRspInfoField"; PInt; PBool]);
    ("OnRspUnSubMarketData", [PPtr "CThostFtdcSpecificInstrumentField"; PPtr "CThostFtdcRspInfoField"; PInt; PBool]);
    ("OnRspSubForQuoteRsp", [PPtr "CThostFtdcSpecificInstrumentField"; PPtr "CThostFtdcRspInfoField"; PInt; PBool]);
    ("OnRspUnSubForQuoteRsp", [PPtr "CThostFtdcSpecificInstrumentField"; PPtr "CThostFtdcRspInfoField"; PInt; PBool]);
    ("OnRtnDepthMarketData", [PPtr "CThostFtdcDepthMarketDataField"]);
    ("OnRtnForQuoteRsp", [PPtr "CThostFtdcForQuoteRspField"]) ].

Definition CThostFtdcTraderSpi_virtuals_0 : list (string * list (param string)) :=
  [ ("OnFrontConnected", []);
    ("OnFrontDisconnected", [PInt]);
    ("OnHeartBeatWarning", [PInt]);
    ("OnRspAuthenticate", [PPtr "CThostFtdcRspAuthenticateField"; PPtr "CThostFtdcRspInfoField"; PInt; PBool]);
    ("OnRspUserLogin", [PPtr "CThostFtdcRspUserLoginField"; PPtr "CThostFtdcRspInfoField"; PInt; PBool]);
    ("OnRspUserLogout", [PPtr "CThostFtdcUserLogoutField"; PPtr "CThostFtdcRspInfoField"; PInt; PBool]);
    ("OnRspUserPasswordUpdate", [PPtr "CThostFtdcUserPasswordUpdateField"; PPtr "CThostFtdcRspInfoField"; PInt; PBool]);
    ("OnRspTradingAccountPasswordUpdate", [PPtr "CThostFtdcTradingAccountPasswordUpdateField"; PPtr "CThostFtdcRspInfoField"; PInt; PBool]);
    ("OnRspUserAuthMethod", [PPtr "CThostFtdcRspUserAuthMethodField"; PPtr "CThostFtdcRspInfoField"; PInt; PBool]);
    ("OnRspGenUserCaptcha", [PPtr "CThostFtdcRspGenUserCaptchaField"; PPtr "CThostFtdcRspInfoField"; PInt; PBool]);
    ("OnRspGenUserText", [PPtr "CThostFtdcRspGenUserTextField"; PPtr "CThostFtdcRspInfoField"; PInt; PBool]);
    ("OnRspOrderInsert", [PPtr "CThostFtdcInputOrderField"; PPtr "CThostFtdcRspInfoField"; PInt; PBool]);
    ("OnRspParkedOrderInsert", [PPtr "CThostFtdcParkedOrderField"; PPtr "CThostFtdcRspInfoField"; PInt; PBool]);
    ("OnRspParkedOrderAction", [PPtr "CThostFtdcParkedOrderActionField"; PPtr "CThostFtdcRspInfoField"; PInt; PBool]);
    ("OnRspOrderAction", [PPtr "CThostFtdcInputOrderActionField"; PPtr "CThostFtdcRspInfoField"; PInt; PBool]);
    ("OnRspQryMaxOrderVolume", [PPtr "CThostFtdcQryMaxOrderVolumeField"; PPtr "CThostFtdcRspInfoField"; PInt; PBool]);
    ("OnRspSettlementInfoConfirm", [PPtr "CThostFtdcSettlementInfoConfirmField"; PPtr "CThostFtdcRspInfoField"; PInt; PBool]);
    ("OnRspRemoveParkedOrder", [PPtr "CThostFtdcRemoveParkedOrderField"; PPtr "CThostFtdcRspInfoField"; PInt; PBool]);
    ("OnRspRemoveParkedOrderAction", [PPtr "CThostFtdcRemoveParkedOrderActionField"; PPtr "CThostFtdcRspInfoField"; PInt; PBool]);
    ("OnRspExecOrderInsert", [PPtr "CThostFtdcInputExecOrderField"; PPtr "CThostFtdcRspInfoField"; PInt; PBool]);
    ("OnRspExecOrderAction", [PPtr "CThostFtdcInputExecOrderActionField"; PPtr "CThostFtdcRspInfoField"; PInt; PBool]);
    ("OnRspForQuoteInsert", [PPtr "CThostFtdcInputForQuoteField"; PPtr "CThostFtdcRspInfoField"; PInt; PBool]);
    ("OnRspQuoteInsert", [PPtr "CThostFtdcInputQuoteField"; PPtr "CThostFtdcRspInfoField"; PInt; PBool]);
    ("OnRspQuoteAction", [PPtr "CThostFtdcInputQuoteActionField"; PPtr "CThostFtdcRspInfoField"; PInt; PBool]);
    ("OnRspBatchOrderAction", [PPtr "CThostFtdcInputBatchOrderActionField"; PPtr "CThostFtdcRspInfoField"; PInt; PBool]);
    ("OnRspOptionSelfCloseInsert", [PPtr "CThostFtdcInputOptionSelfCloseField"; PPtr "CThostFtdcRspInfoField"; PInt; PBool]);
    ("OnRspOptionSelfCloseAction", [PPtr "CThostFtdcInputOptionSelfCloseActionField"; PPtr "CThostFtdcRspInfoField"; PInt; PBool]);
    ("OnRspCombActionInsert", [PPtr "CThostFtdcInputCombActionField"; PPtr "CThostFtdcRspInfoField"; PInt; PBool]);
    ("OnRspQryOrder", [PPtr "CThostFtdcOrderField"; PPtr "CThostFtdcRspInfoField"; PInt; PBool]);
    ("OnRspQryTrade", [PPtr "CThostFtdcTradeField"; PPtr "CThostFtdcRspInfoField"; PInt; PBool]);
    ("OnRspQryInvestorPosition", [PPtr "CThostFtdcInvestorPositionField"; PPtr "CThostFtdcRspInfoField"; PInt; PBool]);
    ("OnRspQryTradingAccount", [PPtr "CThostFtdcTradingAccountField"; PPtr "CThostFtdcRspInfoField"; PInt; PBool]);
    ("OnRspQryInvestor", [PPtr "CThostFtdcInvestorField"; PPtr "CThostFtdcRspInfoField"; PInt; PBool]);
    ("OnRspQryTradingCode", [PPtr "CThostFtdcTradingCodeField"; PPtr "CThostFtdcRspInfoField"; PInt; PBool]);
    ("OnRspQryInstrumentMarginRate", [PPtr "CThostFtdcInstrumentMarginRateField"; PPtr "CThostFtdcRspInfoField"; PInt; PBool]);
    ("OnRspQryInstrumentCommissionRate", [PPtr "CThostFtdcInstrumentCommissionRateField"; PPtr "CThostFtdcRspInfoField"; PInt; PBool]);
    ("OnRspQryExchange", [PPtr "CThostFtdcExchangeField"; PPtr "CThostFtdcRspInfoField"; PInt; PBool]);
    ("OnRspQryProduct", [PPtr "CThostFtdcProductField"; PPtr "CThostFtdcRspInfoField"; PInt; PBool]);
    ("OnRspQryInstrument", [PPtr "CThostFtdcInstrumentField"; PPtr "CThostFtdcRspInfoField"; PInt; PBool]);
    ("OnRspQryDepthMarketData", [PPtr "CThostFtdcDepthMarketDataField"; PPtr "CThostFtdcRspInfoField"; PInt; PBool]);
    ("OnRspQryTraderOffer", [PPtr "CThostFtdcTraderOfferField"; PPtr "CThostFtdcRspInfoField"; PInt; PBool]);
    ("OnRspQrySettlementInfo", [PPtr "CThostFtdcSettlementInfoField"; PPtr "CThostFtdcRspInfoField"; PInt; PBool]);
    ("OnRspQryTransferBank", [PPtr "CThostFtdcTransferBankField"; PPtr "CThostFtdcRspInfoField"; PInt; PBool]);
    ("OnRspQryInvestorPositionDetail", [PPtr "CThostFtdcInvestorPositionDetailField"; PPtr "CThostFtdcRspInfoField"; PInt; PBool]);
    ("OnRspQryNotice", [PPtr "CThostFtdcNoticeField"; PPtr "CThostFtdcRspInfoField"; PInt; PBool]);
    ("OnRspQrySettlementInfoConfirm", [PPtr "CThostFtdcSettlementInfoConfirmField"; PPtr "CThostFtdcRspInfoField"; PInt; PBool]);
    ("OnRspQryInvestorPositionCombineDetail", [PPtr "CThostFtdcInvestorPositionCombineDetailField"; PPtr "CThostFtdcRspInfoField"; PInt; PBool]);
    ("OnRspQryCFMMCTradingAccountKey", [PPtr "CThostFtdcCFMMCTradingAccountKeyField"; PPtr "CThostFtdcRspInfoField"; PInt; PBool]);
    ("OnRspQryEWarrantOffset", [PPtr "CThostFtdcEWarrantOffsetField"; PPtr "CThostFtdcRspInfoField"; PInt; PBool]);
    ("OnRspQryInvestorProductGroupMargin", [PPtr "CThostFtdcInvestorProductGroupMarginField"; PPtr "CThostFtdcRspInfoField"; PInt; PBool]);
    ("OnRspQryExchangeMarginRate", [PPtr "CThostFtdcExchangeMarginRateField"; PPtr "CThostFtdcRspInfoField"; PInt; PBool]);
    ("OnRspQryExchangeMarginRateAdjust", [PPtr "CThostFtdcExchangeMarginRateAdjustField"; PPtr "CThostFtdcRspInfoField"; PInt; PBool]);
    ("OnRspQryExchangeRate", [PPtr "CThostFtdcExchangeRateField"; PPtr "CThostFtdcRspInfoField"; PInt; PBool]);
    ("OnRspQrySecAgentACIDMap", [PPtr "CThostFtdcSecAgentACIDMapField"; PPtr "CThostFtdcRspInfoField"; PInt; PBool]);
    ("OnRspQryProductExchRate", [PPtr "CThostFtdcProductExchRateField"; PPtr "CThostFtdcRspInfoField"; PInt; PBool]);
    ("OnRspQryProductGroup", [PPtr "CThostFtdcProductGroupField"; PPtr "CThostFtdcRspInfoField"; PInt; PBool]);
    ("OnRspQryMMInstrumentCommissionRate", [PPtr "CThostFtdcMMInstrumentCommissionRateField"; PPtr "CThostFtdcRspInfoField"; PInt; PBool]);
    ("OnRspQryMMOptionInstrCommRate", [PPtr "CThostFtdcMMOptionInstrCommRateField"; PPtr "CThostFtdcRspInfoField"; PInt; PBool]);
    ("OnRspQryInstrumentOrderCommRate", [PPtr "CThostFtdcInstrumentOrderCommRateField"; PPtr "CThostFtdcRspInfoField"; PInt; PBool]);
    ("OnRspQrySecAgentTradingAccount", [PPtr "CThostFtdcTradingAccountField"; PPtr "CThostFtdcRspInfoField"; PInt; PBool]);
    ("OnRspQrySecAgentCheckMode", [PPtr "CThostFtdcSecAgentCheckModeField"; PPtr "CThostFtdcRspInfoField"; PInt; PBool]);
    ("OnRspQrySecAgentTradeInfo", [PPtr "CThostFtdcSecAgentTradeInfoField"; PPtr "CThostFtdcRspInfoField"; PInt; PBool]);
    ("OnRspQryOptionInstrTradeCost", [PPtr "CThostFtdcOptionInstrTradeCostField"; PPtr "CThostFtdcRspInfoField"; PInt; PBool]);
    ("OnRspQryOptionInstrCommRate", [PPtr "CThostFtdcOptionInstrCommRateField"; PPtr "CThostFtdcRspInfoField"; PInt; PBool]);
    ("OnRspQryExecOrder", [PPtr "CThostFtdcExecOrderField"; PPtr "CThostFtdcRspInfoField"; PInt; PBool]);
    ("OnRspQryForQuote", [PPtr "CThostFtdcForQuoteField"; PPtr "CThostFtdcRspInfoField"; PInt; PBool]);
    ("OnRspQryQuote", [PPtr "CThostFtdcQuoteField"; PPtr "CThostFtdcRspInfoField"; PInt; PBool]);
    ("OnRspQryOptionSelfClose", [PPtr "CThostFtdcOptionSelfCloseField"; PPtr "CThostFtdcRspInfoField"; PInt; PBool]);
    ("OnRspQryInvestUnit", [PPtr "CThostFtdcInvestUnitField"; PPtr "CThostFtdcRspInfoField"; PInt; PBool]);
    ("OnRspQryCombInstrumentGuard", [PPtr "CThostFtdcCombInstrumentGuardField"; PPtr "CThostFtdcRspInfoField"; PInt; PBool]);
    ("OnRspQryCombAction", [PPtr "CThostFtdcCombActionField"; PPtr "CThostFtdcRspInfoField"; PInt; PBool]);
    ("OnRspQryTransferSerial", [PPtr "CThostFtdcTransferSerialField"; PPtr "CThostFtdcRspInfoField"; PInt; PBool]);
    ("OnRspQryAccountregister", [PPtr "CThostFtdcAccountregisterField"; PPtr "CThostFtdcRspInfoField"; PInt; PBool]);
    ("OnRspError", [PPtr "CThostFtdcRspInfoField"; PInt; PBool]);
    ("OnRtnOrder", [PPtr "CThostFtdcOrderField"]) ].

Definition CThostFtdcTraderSpi_virtuals_1 : list (string * list (param string)) :=
  [ ("OnRtnTrade", [PPtr "CThostFtdcTradeField"]);
    ("OnErrRtnOrderInsert", [PPtr "CThostFtdcInputOrderField"; PPtr "CThostFtdcRspInfoField"]);
    ("OnErrRtnOrderAction", [PPtr "CThostFtdcOrderActionField"; PPtr "CThostFtdcRspInfoField"]);
    ("OnRtnInstrumentStatus", [PPtr "CThostFtdcInstrumentStatusField"]);
    ("OnRtnBulletin", [PPtr "CThostFtdcBulletinField"]);
    ("OnRtnTradingNotice", [PPtr "CThostFtdcTradingNoticeInfoField"]);
    ("OnRtnErrorConditionalOrder", [PPtr "CThostFtdcErrorConditionalOrderField"]);
    ("OnRtnExecOrder", [PPtr "CThostFtdcExecOrderField"]);
    ("OnErrRtnExecOrderInsert", [PPtr "CThostFtdcInputExecOrderField"; PPtr "CThostFtdcRspInfoField"]);
    ("OnErrRtnExecOrderAction", [PPtr "CThostFtdcExecOrderActionField"; PPtr "CThostFtdcRspInfoField"]);
    ("OnErrRtnForQuoteInsert", [PPtr "CThostFtdcInputForQuoteField"; PPtr "CThostFtdcRspInfoField"]);
    ("OnRtnQuote", [PPtr "CThostFtdcQuoteField"]);
    ("OnErrRtnQuoteInsert", [PPtr "CThostFtdcInputQuoteField"; PPtr "CThostFtdcRspInfoField"]);
    ("OnErrRtnQuoteAction", [PPtr "CThostFtdcQuoteActionField"; PPtr "CThostFtdcRspInfoField"]);
    ("OnRtnForQuoteRsp", [PPtr "CThostFtdcForQuoteRspField"]);
    ("OnRtnCFMMCTradingAccountToken", [PPtr "CThostFtdcCFMMCTradingAccountTokenField"]);
    ("OnErrRtnBatchOrderAction", [PPtr "CThostFtdcBatchOrderActionField"; PPtr "CThostFtdcRspInfoField"]);
    ("OnRtnOptionSelfClose", [PPtr "CThostFtdcOptionSelfCloseField"]);
    ("OnErrRtnOptionSelfCloseInsert", [PPtr "CThostFtdcInputOptionSelfCloseField"; PPtr "CThostFtdcRspInfoField"]);
    ("OnErrRtnOptionSelfCloseAction", [PPtr "CThostFtdcOptionSelfCloseActionField"; PPtr "CThostFtdcRspInfoField"]);
    ("OnRtnCombAction", [PPtr "CThostFtdcCombActionField"]);
    ("OnErrRtnCombActionInsert", [PPtr "CThostFtdcInputCombActionField"; PPtr "CThostFtdcRspInfoField"]);
    ("OnRspQryContractBank", [PPtr "CThostFtdcContractBankField"; PPtr "CThostFtdcRspInfoField"; PInt; PBool]);
    ("OnRspQryParkedOrder", [PPtr "CThostFtdcParkedOrderField"; PPtr "CThostFtdcRspInfoField"; PInt; PBool]);
    ("OnRspQryParkedOrderAction", [PPtr "CThostFtdcParkedOrderActionField"; PPtr "CThostFtdcRspInfoField"; PInt; PBool]);
    ("OnRspQryTradingNotice", [PPtr "CThostFtdcTradingNoticeField"; PPtr "CThostFtdcRspInfoField"; PInt; PBool]);
    ("OnRspQryBrokerTradingParams", [PPtr "CThostFtdcBrokerTradingParamsField"; PPtr "CThostFtdcRspInfoField"; PInt; PBool]);
    ("OnRspQryBrokerTradingAlgos", [PPtr "CThostFtdcBrokerTradingAlgosField"; PPtr "CThostFtdcRspInfoField"; PInt; PBool]);
    ("OnRspQueryCFMMCTradingAccountToken", [PPtr "CThostFtdcQueryCFMMCTradingAccountTokenField"; PPtr "CThostFtdcRspInfoField"; PInt; PBool]);
    ("OnRtnFromBankToFutureByBank", [PPtr "CThostFtdcRspTransferField"]);
    ("OnRtnFromFutureToBankByBank", [PPtr "CThostFtdcRspTransferField"]);
    ("OnRtnRepealFromBankToFutureByBank", [PPtr "CThostFtdcRspRepealField"]);
    ("OnRtnRepealFromFutureToBankByBank", [PPtr "CThostFtdcRspRepealField"]);
    ("OnRtnFromBankToFutureByFuture", [PPtr "CThostFtdcRspTransferField"]);
    ("OnRtnFromFutureToBankByFuture", [PPtr "CThostFtdcRspTransferField"]);
    ("OnRtnRepealFromBankToFutureByFutureManual", [PPtr "CThostFtdcRspRepealField"]);
    ("OnRtnRepealFromFutureToBankByFutureManual", [PPtr "CThostFtdcRspRepealField"]);
    ("OnRtnQueryBankBalanceByFuture", [PPtr "CThostFtdcNotifyQueryAccountField"]);
    ("OnErrRtnBankToFutureByFuture", [PPtr "CThostFtdcReqTransferField"; PPtr "CThostFtdcRspInfoField"]);
    ("OnErrRtnFutureToBankByFuture", [PPtr "CThostFtdcReqTransferField"; PPtr "CThostFtdcRspInfoField"]);
    ("OnErrRtnRepealBankToFutureByFutureManual", [PPtr "CThostFtdcReqRepealField"; PPtr "CThostFtdcRspInfoField"]);
    ("OnErrRtnRepealFutureToBankByFutureManual", [PPtr "CThostFtdcReqRepealField"; PPtr "CThostFtdcRspInfoField"]);
    ("OnErrRtnQueryBankBalanceByFuture", [PPtr "CThostFtdcReqQueryAccountField"; PPtr "CThostFtdcRspInfoField"]);
    ("OnRtnRepealFromBankToFutureByFuture", [PPtr "CThostFtdcRspRepealField"]);
    ("OnRtnRepealFromFutureToBankByFuture", [PPtr "CThostFtdcRspRepealField"]);
    ("OnRspFromBankToFutureByFuture", [PPtr "CThostFtdcReqTransferField"; PPtr "CThostFtdcRspInfoField"; PInt; PBool]);
    ("OnRspFromFutureToBankByFuture", [PPtr "CThostFtdcReqTransferField"; PPtr "CThostFtdcRspInfoField"; PInt; PBool]);
    ("OnRspQueryBankAccountMoneyByFuture", [PPtr "CThostFtdcReqQueryAccountField"; PPtr "CThostFtdcRspInfoField"; PInt; PBool]);
    ("OnRtnOpenAccountByBank", [PPtr "CThostFtdcOpenAccountField"]);
    ("OnRtnCancelAccountByBank", [PPtr "CThostFtdcCancelAccountField"]);
    ("OnRtnChangeAccountByBank", [PPtr "CThostFtdcChangeAccountField"]);
    ("OnRspQryClassifiedInstrument", [PPtr "CThostFtdcInstrumentField"; PPtr "CThostFtdcRspInfoField"; PInt; PBool]);
    ("OnRspQryCombPromotionParam", [PPtr "CThostFtdcCombPromotionParamField"; PPtr "CThostFtdcRspInfoField"; PInt; PBool]);
    ("OnRspQryRiskSettleInvstPosition", [PPtr "CThostFtdcRiskSettleInvstPositionField"; PPtr "CThostFtdcRspInfoField"; PInt; PBool]);
    ("OnRspQryRiskSettleProductStatus", [PPtr "CThostFtdcRiskSettleProductStatusField"; PPtr "CThostFtdcRspInfoField"; PInt; PBool]);
    ("OnRspQrySPBMFutureParameter", [PPtr "CThostFtdcSPBMFutureParameterField"; PPtr "CThostFtdcRspInfoField"; PInt; PBool]);
    ("OnRspQrySPBMOptionParameter", [PPtr "CThostFtdcSPBMOptionParameterField"; PPtr "CThostFtdcRspInfoField"; PInt; PBool]);
    ("OnRspQrySPBMIntraParameter", [PPtr "CThostFtdcSPBMIntraParameterField"; PPtr "CThostFtdcRspInfoField"; PInt; PBool]);
    ("OnRspQrySPBMInterParameter", [PPtr "CThostFtdcSPBMInterParameterField"; PPtr "CThostFtdcRspInfoField"; PInt; PBool]);
    ("OnRspQrySPBMPortfDefinition", [PPtr "CThostFtdcSPBMPortfDefinitionField"; PPtr "CThostFtdcRspInfoField"; PInt; PBool]);
    ("OnRspQrySPBMInvestorPortfDef", [PPtr "CThostFtdcSPBMInvestorPortfDefField"; PPtr "CThostFtdcRspInfoField"; PInt; PBool]);
    ("OnRspQryInvestorPortfMarginRatio", [PPtr "CThostFtdcInvestorPortfMarginRatioField"; PPtr "CThostFtdcRspInfoField"; PInt; PBool]);
    ("OnRspQryInvestorProdSPBMDetail", [PPtr "CThostFtdcInvestorProdSPBMDetailField"; PPtr "CThostFtdcRspInfoField"; PInt; PBool]);
    ("OnRspQryInvestorCommoditySPMMMargin", [PPtr "CThostFtdcInvestorCommoditySPMMMarginField"; PPtr "CThostFtdcRspInfoField"; PInt; PBool]);
    ("OnRspQryInvestorCommodityGroupSPMMMargin", [PPtr "CThostFtdcInvestorCommodityGroupSPMMMarginField"; PPtr "CThostFtdcRspInfoField"; PInt; PBool]);
    ("OnRspQrySPMMInstParam", [PPtr "CThostFtdcSPMMInstParamField"; PPtr "CThostFtdcRspInfoField"; PInt; PBool]);
    ("OnRspQrySPMMProductParam", [PPtr "CThostFtdcSPMMProductParamField"; PPtr "CThostFtdcRspInfoField"; PInt; PBool]);
    ("OnRspQrySPBMAddOnInterParameter", [PPtr "CThostFtdcSPBMAddOnInterParameterField"; PPtr "CThostFtdcRspInfoField"; PInt; PBool]);
    ("OnRspQryRCAMSCombProductInfo", [PPtr "CThostFtdcRCAMSCombProductInfoField"; PPtr "CThostFtdcRspInfoField"; PInt; PBool]);
    ("OnRspQryRCAMSInstrParameter", [PPtr "CThostFtdcRCAMSInstrParameterField"; PPtr "CThostFtdcRspInfoField"; PInt; PBool]);
    ("OnRspQryRCAMSIntraParameter", [PPtr "CThostFtdcRCAMSIntraParameterField"; PPtr "CThostFtdcRspInfoField"; PInt; PBool]);
    ("OnRspQryRCAMSInterParameter", [PPtr "CThostFtdcRCAMSInterParameterField"; PPtr "CThostFtdcRspInfoField"; PInt; PBool]);
    ("OnRspQryRCAMSShortOptAdjustParam", [PPtr "CThostFtdcRCAMSShortOptAdjustParamField"; PPtr "CThostFtdcRspInfoField"; PInt; PBool]);
    ("OnRspQryRCAMSInvestorCombPosition", [PPtr "CThostFtdcRCAMSInvestorCombPositionField"; PPtr "CThostFtdcRspInfoField"; PInt; PBool]);
    ("OnRspQryInvestorProdRCAMSMargin", [PPtr "CThostFtdcInvestorProdRCAMSMarginField"; PPtr "CThostFtdcRspInfoField"; PInt; PBool]) ].

Definition CThostFtdcTraderSpi_virtuals_2 : list (string * list (param string)) :=
  [ ("OnRspQryRULEInstrParameter", [PPtr "CThostFtdcRULEInstrParameterField"; PPtr "CThostFtdcRspInfoField"; PInt; PBool]);
    ("OnRspQryRULEIntraParameter", [PPtr "CThostFtdcRULEIntraParameterField"; PPtr "CThostFtdcRspInfoField"; PInt; PBool]);
    ("OnRspQryRULEInterParameter", [PPtr "CThostFtdcRULEInterParameterField"; PPtr "CThostFtdcRspInfoField"; PInt; PBool]);
    ("OnRspQryInvestorProdRULEMargin", [PPtr "CThostFtdcInvestorProdRULEMarginField"; PPtr "CThostFtdcRspInfoField"; PInt; PBool]);
    ("OnRspQryInvestorPortfSetting", [PPtr "CThostFtdcInvestorPortfSettingField"; PPtr "CThostFtdcRspInfoField"; PInt; PBool]) ].

Definition CThostFtdcTraderSpi_virtuals : list (string * list (param string)) :=
  CThostFtdcTraderSpi_virtuals_0 ++ CThostFtdcTraderSpi_virtuals_1 ++ CThostFtdcTraderSpi_virtuals_2.

(** ** The tables agree *)

(** A parameter with the structure's name in place of its type index. *)
Definition named_param (p : param nat) : option (param string) :=
  match p with
  | PPtr ty => match CtpTypes.swigt !! ty with Some q => Some (PPtr (fst q)) | None => None end
  | PInt => Some PInt
  | PBool => Some PBool
  end.

(** The declared parameter, with the prefix of the mangled names. *)
Definition mangled_param (p : param string) : param string :=
  match p with PPtr t => PPtr ("_p_" +:+ t) | PInt => PInt | PBool => PBool end.

Definition signature (cb : callback) : string * list (option (param string)) :=
  (cb_name cb, map named_param (cb_params cb)).

Definition declared (d : string * list (param string)) : string * list (option (param string)) :=
  (fst d, map (fun p => Some (mangled_param p)) (snd d)).

Inductive spi := Md | Trader.
Definition spi_name (s : spi) : string := match s with Md => "CThostFtdcMdSpi" | Trader => "CThostFtdcTraderSpi" end.
Definition callbacks_of (s : spi) : list callback := match s with Md => md_callbacks | Trader => trader_callbacks end.
Definition declaration_of (s : spi) : list (string * list (param string)) :=
  match s with Md => SwigDirector_CThostFtdcMdSpi | Trader => SwigDirector_CThostFtdcTraderSpi end.
Definition virtuals_of (s : spi) : list (string * list (param string)) :=
  match s with Md => CThostFtdcMdSpi_virtuals | Trader => CThostFtdcTraderSpi_virtuals end.

(** ** Properties *)

(** C28. Callback tables: the director classes override every virtual method of
    the CTP callback classes, in the same order and with the same parameters,
    so that no callback of the library is lost; each override calls the Python
    method of its own name, of its own class, and wraps each structure with the
    descriptor of its declared type.  No two callbacks of a class share a name. *)
Theorem callbacks_match s :
  declaration_of s = virtuals_of s
  /\ map signature (callbacks_of s) = map declared (declaration_of s)
  /\ Forall (fun cb => cb_class cb = spi_name s) (callbacks_of s)
  /\ NoDup (map cb_name (callbacks_of s)).
Proof.
  destruct s; (split; [reflexivity|]); (split; [vm_compute; reflexivity|]);
    (split; [repeat (constructor; [reflexivity|]); constructor|]); apply (bool_decide_unpack _); vm_compute; exact I.
Qed.

End Callbacks.
