(* ===== verification/Api.v ===== *)
(** * Wrappers of the API classes

    Models the templates of the wrappers for [CThostFtdcMdApi] and
    [CThostFtdcTraderApi] in ctp_wrap.cpp: requests that pass a structure and a
    request number, the four subscription calls whose list argument goes
    through the typemap for [char *[], int], and the login entry point
    [bt_api_ctp_req_user_login_darwin_arm64_v677_20240716] with its wrapper.
    The CTP library is a parameter, [CtpEnv], with the contract [CtpLaws]. *)

From S2P Require Import Prelude TypeTable CtpTypes Utf8 World Runtime Conversions Iconv Layout Accessor Structs1.

Module Api.
Import World Utf8 Runtime Conversions Iconv Layout Accessor.

(** A virtual method of an API object, by name, and a call through a function
    pointer; both run without the lock. *)
Class CtpEnv := {
  ctp_method : string -> Z -> list Z -> M Z;
  ctp_indirect : Z -> list Z -> M Z;
}.

(** What a call leaves to its caller: the lock is still released, the Python
    side and the blocks of the caller are untouched, and a director exception
    comes with the Python error it has set.  What other threads of the
    interpreter do while the lock is released is left out. *)
Record left_ (w : world) (r : res Z) (w' : world) : Prop := {
  lf_gil : w_gil w' = false;
  lf_heap : w_heap w' = w_heap w;
  lf_fresh : w_fresh w' = w_fresh w;
  lf_refs : forall x, refs w' x = refs w x;
  lf_blocks : w_blocks w' = w_blocks w;
  lf_calls : w_calls w' = w_calls w;    (** the calls of the wrapper; callbacks have their own *)
  lf_outcome : match r with
               | Ret _ | Throw (StdException _) | Throw UnknownException
               | Throw (DirectorPureVirtualException _) => w_err w' = w_err w
               | Throw _ => is_Some (w_err w')
               | Stuck _ => False
               end;
}.

Class CtpLaws (E : CtpEnv) : Prop := {
  ctp_method_left : forall name this args w r w', w_gil w = false ->
    ctp_method name this args w = (r, w') -> left_ w r w';
  ctp_indirect_left : forall f args w r w', w_gil w = false ->
    ctp_indirect f args w = (r, w') -> left_ w r w';
}.

Section Wrappers.
Context (long_w : Z) `{TypeEnv} (implicit : nat -> option (Z -> M Z)) `{CtpEnv}.
(** The UTF-8 buffer a string object keeps, [PyUnicode_AsUTF8]. *)
Context (utf8_buffer : Z -> Z).

(** [(arg1)->method(...)] on a null pointer is undefined.
    (ctp_wrap.cpp, line 486800.) *)
Definition call_virtual (method : string) (arg1 : Z) (args : list Z) : M Z :=
  if arg1 =? 0 then stuck Unmapped
  else modify (log (EVirtual method arg1 args)) ;;; ctp_method method arg1 args.

(** The end of a wrapper that returns an [int].
    (ctp_wrap.cpp, lines 486820 to 486823.) *)
Definition int_result (r : option Z) : M Z :=
  match r with
  | None => ret 0
  | Some result => SWIG_From_int result
  end.

(** The template of a wrapper with two pointers and an [int] after the tuple:
    the message names [meth], [t1] and [t2], and the C++ declaration [decl].
    (ctp_wrap.cpp, lines 486765 to 486824.) *)
Definition wrap_ptr_ptr_int (meth t1 t2 decl : string) (ty1 ty2 : nat)
    (call : Z -> Z -> Z -> M Z) (args : Z) : M Z :=
  u <- SWIG_Python_UnpackTuple args meth 3 3 ;;
  match u with
  | (_, [obj0; obj1; obj2]) =>
      c1 <- SWIG_ConvertPtr implicit obj0 ty1 0 ;;
      let '(res1, arg1) := c1 in
      if negb (SWIG_IsOK res1) then exception_fail (SWIG_ArgError res1) (arg_msg meth "1" (t1 +:+ " *"))
      else
        c2 <- SWIG_ConvertPtr implicit obj1 ty2 0 ;;
        let '(res2, arg2) := c2 in
        if negb (SWIG_IsOK res2) then exception_fail (SWIG_ArgError res2) (arg_msg meth "2" (t2 +:+ " *"))
        else
          c3 <- SWIG_AsVal_int long_w obj2 ;;
          match c3 with
          | (ecode3, Some arg3) => r <- guarded decl (call arg1 arg2 arg3) ;; int_result r
          | (ecode3, None) => exception_fail (SWIG_ArgError ecode3) (arg_msg meth "3" "int")
          end
  | _ => ret 0
  end.

(** [_wrap_Api_Req*], a request of the API class [cls] with the structure [field].
    (ctp_wrap.cpp, line 486805.) *)
Definition request_decl (cls method field : string) : string :=
  (cls +:+ "::" +:+ method +:+ "(" +:+ field +:+ " *,int)")%string.
(** ctp_wrap.cpp, lines 486765 to 486824. *)
Definition wrap_api_request (cls method field : string) (api_ty field_ty : nat) : Z -> M Z :=
  wrap_ptr_ptr_int (cls +:+ "_" +:+ method) cls field (request_decl cls method field) api_ty field_ty
    (fun arg1 arg2 arg3 => call_virtual method arg1 [arg2; arg3]).

(** ** The list typemap *)

(** The loop over the list: [None] when an item is not a string or cannot be
    encoded, with the error set.  An item that is not a string frees the array. *)
Fixpoint fill_names (items : list Z) (arg2 : Z) (i : nat) : M (option unit) :=
  match items with
  | [] => store (arg2 + 8 * Z.of_nat i) (le_bytes 8 0) ;;; ret (Some tt)
  | o :: items' =>
      v <- object_at o ;;
      match v with
      | OStr s =>
          match utf8_encode s with
          | Some _ => store (arg2 + 8 * Z.of_nat i) (le_bytes 8 (utf8_buffer o)) ;;;
                      fill_names items' arg2 (S i)
          | None => store (arg2 + 8 * Z.of_nat i) (le_bytes 8 0) ;;;
                    PyErr_SetString TypeError (chars "failed to convert UTF-8") ;;; ret None
          end
      | _ => free arg2 ;;; PyErr_SetString TypeError (chars "list must contain strings") ;;; ret None
      end
  end.

(** [arg2], [arg3]; [inl] when the typemap jumps to [fail], with the [arg2] to free. *)
Definition names_in (obj : Z) : M (Z + Z * Z) :=
  v <- object_at obj ;;
  match v with
  | OList items =>
      let size := wraps 32 (Z.of_nat (length items)) in
      arg2 <- alloc (replicate (Z.to_nat ((size + 1) * 8)) 0) ;;
      r <- fill_names (take (Z.to_nat size) items) arg2 0 ;;
      ret match r with Some _ => inr (arg2, size) | None => inl arg2 end
  | _ => PyErr_SetString TypeError (chars "not a list") ;;; ret (inl 0)
  end.

(** The rest of the wrapper after the typemap, with the label [fail]. *)
Definition subscribe_decl (cls method : string) : string := (cls +:+ "::" +:+ method +:+ "(char *[],int)")%string.
Definition subscribe_call (cls method : string) (arg1 : Z) (n : Z + Z * Z) : M Z :=
  match n with
  | inl arg2 => free arg2 ;;; ret 0
  | inr (arg2, arg3) =>
      r <- guarded (subscribe_decl cls method) (call_virtual method arg1 [arg2; arg3]) ;;
      resultobj <- int_result r ;;
      free arg2 ;;; ret resultobj
  end.

(** [_wrap_CThostFtdcMdApi_SubscribeMarketData] and its three siblings. *)
Definition wrap_subscribe (cls method : string) (api_ty : nat) (args : Z) : M Z :=
  let meth := (cls +:+ "_" +:+ method)%string in
  u <- SWIG_Python_UnpackTuple args meth 2 2 ;;
  match u with
  | (_, [obj0; obj1]) =>
      c1 <- SWIG_ConvertPtr implicit obj0 api_ty 0 ;;
      let '(res1, arg1) := c1 in
      if negb (SWIG_IsOK res1) then
        exception_fail (SWIG_ArgError res1) (arg_msg meth "1" (cls +:+ " *"))
      else
        n <- names_in obj1 ;; subscribe_call cls method arg1 n
  | _ => ret 0
  end.

(** ** The audited login entry point *)

Definition kReqUserLoginVtableSlot : Z := 14.
Definition kLoginEnvelopePayloadCapacity : Z := 0x22c - 0x20.

(** The macros the login wrapper uses. *)
Definition SWIGTYPE_p_CThostFtdcTraderApi : nat := 439.
Definition SWIGTYPE_p_CThostFtdcReqUserLoginField : nat := 338.

(** [audited]: built with BT_API_CTP_DARWIN_ARM64_AUDITED_TRADER_ABI. *)
Definition bt_api_ctp_req_user_login_darwin_arm64_v677_20240716 (audited : bool)
    (api field request_id : Z) : M Z :=
  if audited then
    if (api =? 0) || (field =? 0) then throw (StdException (chars "CTP login API and field are required"))
    else
      b <- load api 8 ;;
      let vtable := le_value b in
      let unavailable := throw (StdException (chars "audited CTP login vtable slot is unavailable")) in
      if vtable =? 0 then unavailable
      else
        b <- load (vtable + 8 * kReqUserLoginVtableSlot) 8 ;;
        let request := le_value b in
        if request =? 0 then unavailable
        else
          let args := [api; field; request_id; struct_size Structs1.CThostFtdcReqUserLoginField; field] in
          modify (log (EIndirect request args)) ;;; ctp_indirect request args
  else throw (StdException (chars "audited Darwin arm64 CTP login ABI shim is unavailable")).

(** Its wrapper. *)
Definition login_name : string := "bt_api_ctp_req_user_login_darwin_arm64_v677_20240716".
Definition login_decl : string :=
  (login_name +:+ "(CThostFtdcTraderApi *,CThostFtdcReqUserLoginField *,int)")%string.
(** ctp_wrap.cpp, lines 493530 to 493588. *)
Definition wrap_login (audited : bool) : Z -> M Z :=
  wrap_ptr_ptr_int login_name "CThostFtdcTraderApi" "CThostFtdcReqUserLoginField" login_decl
    SWIGTYPE_p_CThostFtdcTraderApi SWIGTYPE_p_CThostFtdcReqUserLoginField
    (bt_api_ctp_req_user_login_darwin_arm64_v677_20240716 audited).
End Wrappers.

(** ** Lemmas *)

Lemma login_macros :
  CtpTypes.SWIGTYPE !! SWIGTYPE_p_CThostFtdcTraderApi = Some ("p_CThostFtdcTraderApi"%string, 439)
  /\ CtpTypes.SWIGTYPE !! SWIGTYPE_p_CThostFtdcReqUserLoginField = Some ("p_CThostFtdcReqUserLoginField"%string, 338).
Proof. split; reflexivity. Qed.

Section ApiLemmas.
Context (long_w : Z) (Hlong : 32 <= long_w) `{!TypeEnv, !ExactTypes _}.
Context (implicit : nat -> option (Z -> M Z)) `{!CtpEnv, !CtpLaws _} (utf8_buffer : Z -> Z).

(** The Python error a C++ exception becomes; the director's own is kept. *)
Definition caught (decl : string) (e : cxx) (err : option pyerr) : option pyerr :=
  match e with
  | DirectorPureVirtualException _ => Some (err_of NotImplementedError (str_cat [decl; " not implemented"]%string))
  | DirectorException _ | DirectorMethodException _ => err
  | StdException what => Some (err_of Exception_ what)
  | UnknownException => Some (err_of RuntimeError (chars "Unknown error caught in CTP SWIG wrapper..."))
  end.

(** The world after the calls [evs]. *)
Definition noted (evs : list event) (w : world) : world := foldl (fun w e => log e w) w evs.

Lemma guarded_run decl (m : M Z) w r w1 : w_gil w = true -> m (set_gil false w) = (r, w1) ->
  guarded decl m w =
    match r with
    | Ret n => (Ret (Some n), set_gil true w1)
    | Throw e => (Ret None, set_err (caught decl e (w_err w1)) (set_gil true w1))
    | Stuck u => (Stuck u, w1)
    end.
Proof.
  intros Hg E. unfold guarded, catch, bind. rewrite thread_allow_eq, E by done.
  assert (Hid : forall w0, set_err (w_err w0) w0 = w0) by (by intros []).
  destruct r as [n|e|u]; [done| |done].
  destruct e; cbn [caught];
    first [ exact (f_equal (pair (Ret None)) (eq_sym (Hid (set_gil true w1))))
          | unfold PyErr_SetString, need_gil, modify, bind; reflexivity ].
Qed.

Lemma call_virtual_eq method p args w : p <> 0 ->
  call_virtual method p args w = ctp_method method p args (log (EVirtual method p args) w).
Proof. intros Hp. unfold call_virtual. by rewrite (proj2 (Z.eqb_neq _ _) Hp). Qed.

(** The pointer arguments of a request: a wrapped structure, or None for null. *)
Definition ptr_arg (w : world) (obj : Z) (ty : nat) (p : Z) : Prop :=
  wraps_ptr w obj ty p \/ (obj = Py_None /\ p = 0).

Lemma convert_ptr_arg w obj ty p : w_gil w = true -> (ty < te_size)%nat -> ptr_arg w obj ty p ->
  exists w', SWIG_ConvertPtr implicit obj ty 0 w = (Ret (SWIG_OK, p), w') /\ same w w'.
Proof.
  intros Hg Hty [Hw|[-> ->]]; [by apply convert_wraps|]. exists w. split; [reflexivity|done].
Qed.

Lemma ptr_arg_same w w' obj ty p : same w w' -> ptr_arg w obj ty p -> ptr_arg w' obj ty p.
Proof. intros Hs [Hw|Hn]; [left; by eapply wraps_ptr_same|by right]. Qed.

(** With arguments of the right types the template reaches the call. *)
Lemma request_run w args o0 o1 o2 meth t1 t2 decl api_ty field_ty call p q z :
  w_gil w = true -> w_err w = None -> args <> 0 -> (api_ty < te_size)%nat -> (field_ty < te_size)%nat ->
  w_heap w !! args = Some (OTuple [o0; o1; o2]) -> ptr_arg w o0 api_ty p -> ptr_arg w o1 field_ty q ->
  w_heap w !! o2 = Some (OInt z) -> INT_MIN <= z <= INT_MAX ->
  exists wc, same w wc /\
    wrap_ptr_ptr_int long_w implicit meth t1 t2 decl api_ty field_ty call args w
    = bind (guarded decl (call p q z)) int_result wc.
Proof.
  intros Hg He Ha Hat Hft Ht Ha0 Ha1 Ha2 Hz. unfold wrap_ptr_ptr_int.
  rewrite (bind_eq _ _ _ _ _ (unpack_exact w args _ _ 3 Hg Ha Ht eq_refl)).
  destruct (convert_ptr_arg w o0 api_ty p Hg Hat Ha0) as (w1 & E1 & S1).
  rewrite (bind_eq _ _ _ _ _ E1). change (SWIG_IsOK SWIG_OK) with true. cbn [negb].
  assert (Hg1 : w_gil w1 = true) by by rewrite (same_gil _ _ S1).
  destruct (convert_ptr_arg w1 o1 field_ty q Hg1 Hft (ptr_arg_same _ _ _ _ _ S1 Ha1)) as (w2 & E2 & S2).
  rewrite (bind_eq _ _ _ _ _ E2). change (SWIG_IsOK SWIG_OK) with true. cbn [negb].
  assert (S : same w w2) by by etrans.
  assert (Hg2 : w_gil w2 = true) by by rewrite (same_gil _ _ S).
  assert (He2 : w_err w2 = None) by by rewrite (same_err _ _ S).
  assert (H22 : w_heap w2 !! o2 = Some (OInt z)) by by rewrite (same_heap _ _ S).
  exists w2. split; [done|]. unfold SWIG_AsVal_int.
  rewrite (bind_eq _ _ _ _ _ (as_val_narrow long_w Hlong INT_MIN INT_MAX w2 o2 _ Hg2 He2 H22 ltac:(done) ltac:(done))).
  unfold int_spec. cbn [as_long]. rewrite !(proj2 (Z.leb_le _ _)) by lia. done.
Qed.

(** The outcome of a call made with the lock released, as the wrapper reports it. *)
Definition reported (decl : string) (w : world) (r : res Z) (w1 : world) (out : res Z * world) : Prop :=
  exists o w', out = (Ret o, w') /\ w_gil w' = true /\ w_calls w' = w_calls w
    /\ match r with
       | Ret n => o = w_fresh w /\ w_heap w' !! o = Some (OInt n) /\ w_err w' = w_err w
                  /\ forall x, refs w' x = refs w x + if decide (o = x) then 1 else 0
       | Throw e => o = 0 /\ w_err w' = caught decl e (w_err w1) /\ is_Some (w_err w')
                    /\ forall x, refs w' x = refs w x
       | Stuck _ => False
       end.

Lemma same_log e w w' : same w w' -> same (log e w) (log e w').
Proof. intros []. constructor; try done. cbn. congruence. Qed.

Lemma noted_fields evs w : w_heap (noted evs w) = w_heap w /\ w_fresh (noted evs w) = w_fresh w
  /\ w_refs (noted evs w) = w_refs w /\ w_err (noted evs w) = w_err w /\ w_blocks (noted evs w) = w_blocks w.
Proof. unfold noted. revert w; induction evs as [|e evs IH]; intros w; [done|]. exact (IH (log e w)). Qed.

(** [evs]: the calls [m] makes before the library is left. *)
Lemma guarded_reported decl m evs w r w1 : w_gil w = true -> m (set_gil false w) = (r, w1) ->
  left_ (set_gil false (noted evs w)) r w1 ->
  let out := bind (guarded decl m) int_result w in
  reported decl (noted evs w) r w1 out /\ w_blocks (snd out) = w_blocks w.
Proof.
  intros Hg E [L1 L2 L3 L4 L5 Lc L6]. cbn in L2, L3, L5, Lc, L6.
  destruct (noted_fields evs w) as (_ & N2 & _ & _ & N5). rewrite N2 in L3. rewrite N5 in L5.
  pose proof (guarded_run decl m w r w1 Hg E) as Eg.
  destruct r as [n|e|u]; [| |done].
  - rewrite (bind_eq _ _ _ _ _ Eg). cbn [int_result]. unfold SWIG_From_int.
    rewrite (new_object_eq (set_gil true w1) eq_refl). split; [|exact L5]. eexists _, _.
    split; [reflexivity|]. split; [done|]. split; [exact Lc|]. cbn. rewrite L3, N2. split; [done|].
    split; [apply lookup_insert_eq|]. split; [done|].
    intros x. etrans; [exact (refs_add (set_gil true w1) (w_fresh w) 1 x)|].
    by rewrite <- (L4 x : refs w1 x = refs (noted evs w) x).
  - rewrite (bind_eq _ _ _ _ _ Eg). split; [|exact L5]. eexists 0, _. split; [reflexivity|]. split; [done|].
    split; [exact Lc|]. split; [done|]. split; [done|]. split; [|exact L4]. destruct e; done.
Qed.

(** ** The array of names *)

(** A list item the typemap accepts. *)
Definition encodable (w : world) (o : Z) : Prop :=
  exists s b, w_heap w !! o = Some (OStr s) /\ utf8_encode s = Some b.

(** The memory after the items from slot [i] on are stored. *)
Fixpoint name_slots (m : gmap Z Z) (arg2 : Z) (i : nat) (items : list Z) : gmap Z Z :=
  match items with
  | [] => m
  | o :: items' => name_slots (store_bytes m (arg2 + 8 * Z.of_nat i) (le_bytes 8 (utf8_buffer o))) arg2 (S i) items'
  end.

Lemma mapped_store w p bs q n : mapped w q n -> mapped (set_mem (store_bytes (w_mem w) p bs) w) q n.
Proof.
  intros Hm i Hi. cbn. rewrite store_bytes_lookup. case_decide; [|by apply Hm].
  apply lookup_lt_is_Some_2. lia.
Qed.

Lemma mapped_sub w p n off k : mapped w p n -> (off + k <= n)%nat -> mapped w (p + Z.of_nat off) k.
Proof. intros Hm Hk i Hi. rewrite <- Z.add_assoc, <- Nat2Z.inj_add. apply Hm. lia. Qed.

Lemma mapped_slot w p n i : mapped w p n -> (8 * i + 8 <= n)%nat -> mapped w (p + 8 * Z.of_nat i) 8.
Proof.
  intros Hm Hi. replace (8 * Z.of_nat i) with (Z.of_nat (8 * i)) by lia. by apply (mapped_sub w p n).
Qed.

Lemma store_slot w p n i z : mapped w p n -> (8 * i + 8 <= n)%nat ->
  store (p + 8 * Z.of_nat i) (le_bytes 8 z) w
  = (Ret tt, set_mem (store_bytes (w_mem w) (p + 8 * Z.of_nat i) (le_bytes 8 z)) w).
Proof. intros Hm Hi. apply store_mapped. rewrite length_le_bytes. by eapply mapped_slot. Qed.

(** The loop stores the accepted items and goes on with the others. *)
Lemma fill_prefix pre rest arg2 n i w : w_gil w = true -> Forall (encodable w) pre -> mapped w arg2 n ->
  (8 * (i + length pre) <= n)%nat ->
  exists w', w' = set_mem (name_slots (w_mem w) arg2 i pre) w /\ mapped w' arg2 n
    /\ fill_names utf8_buffer (pre ++ rest) arg2 i w = fill_names utf8_buffer rest arg2 (i + length pre) w'.
Proof.
  revert i w; induction pre as [|o pre IH]; intros i w Hg Hpre Hm Hi.
  { exists w. rewrite Nat.add_0_r. by destruct w. }
  apply Forall_cons in Hpre as [(s & b & Ho & Hb) Hpre]. cbn [length] in Hi.
  cbn [app fill_names]. rewrite (bind_eq _ _ _ _ _ (object_at_eq _ Hg _ _ Ho)), Hb.
  rewrite (bind_eq _ _ _ _ _ (store_slot w arg2 n i (utf8_buffer o) Hm ltac:(lia))).
  destruct (IH (S i) (set_mem (store_bytes (w_mem w) (arg2 + 8 * Z.of_nat i) (le_bytes 8 (utf8_buffer o))) w))
    as (w' & -> & Hm' & E); [done|done|by apply mapped_store|lia|].
  eexists. split; [reflexivity|]. split; [exact Hm'|]. rewrite E. cbn [length]. by rewrite Nat.add_succ_r.
Qed.

Lemma name_slots_below items m arg2 i a : a < arg2 + 8 * Z.of_nat i ->
  name_slots m arg2 i items !! a = m !! a.
Proof.
  revert m i; induction items as [|o items IH]; intros m i Ha; cbn [name_slots]; [done|].
  rewrite IH by lia. rewrite store_bytes_lookup, decide_False by lia. done.
Qed.

(** Every slot holds the buffer of its item. *)
Lemma name_slots_hold items w arg2 i j o : items !! j = Some o ->
  holds (set_mem (name_slots (w_mem w) arg2 i items) w) (arg2 + 8 * Z.of_nat (i + j)) (le_bytes 8 (utf8_buffer o)).
Proof.
  revert w i j; induction items as [|o' items IH]; intros w i j Hj; [done|]. cbn [name_slots].
  destruct j as [|j]; cbn in Hj; simplify_eq.
  - rewrite Nat.add_0_r. intros k c Hk. apply lookup_lt_Some in Hk as Hlt. rewrite length_le_bytes in Hlt.
    cbn [set_mem w_mem]. rewrite name_slots_below by lia.
    exact (holds_store w (arg2 + 8 * Z.of_nat i) (le_bytes 8 (utf8_buffer o)) k c Hk).
  - rewrite Nat.add_succ_r.
    exact (IH (set_mem (store_bytes (w_mem w) (arg2 + 8 * Z.of_nat i) (le_bytes 8 (utf8_buffer o'))) w) (S i) j Hj).
Qed.

(** A new block is mapped and live. *)
Definition block_for (w : world) (n : nat) : world :=
  set_mem (store_bytes (w_mem w) (w_brk w) (replicate n 0))
    (set_blocks (<[w_brk w := n]> (w_blocks w)) (w_brk w + Z.of_nat n + 1) w).

Lemma alloc_block w n : alloc (replicate n 0) w = (Ret (w_brk w), block_for w n).
Proof. unfold alloc, block_for. by rewrite length_replicate. Qed.

Lemma block_mapped w n : mapped (block_for w n) (w_brk w) n.
Proof.
  intros i Hi. cbn. rewrite store_bytes_lookup, decide_True by (rewrite length_replicate; lia).
  apply lookup_lt_is_Some_2. rewrite length_replicate. lia.
Qed.

Lemma free_live w p n : p <> 0 -> w_blocks w !! p = Some n ->
  free p w = (Ret tt, set_mem (unmap (w_mem w) p n) (set_blocks (delete p (w_blocks w)) (w_brk w) w)).
Proof. intros Hp Hn. unfold free. by rewrite (proj2 (Z.eqb_neq _ _) Hp), Hn. Qed.

Lemma free_dead w p : p <> 0 -> w_blocks w !! p = None -> free p w = (Stuck BadFree, w).
Proof. intros Hp Hn. unfold free. by rewrite (proj2 (Z.eqb_neq _ _) Hp), Hn. Qed.

(** The typemap on a list of strings: the array, its size and a null at the end. *)
Definition names_at (w : world) (arg2 : Z) (items : list Z) : Prop :=
  (forall j o, items !! j = Some o -> holds w (arg2 + 8 * Z.of_nat j) (le_bytes 8 (utf8_buffer o)))
  /\ holds w (arg2 + 8 * Z.of_nat (length items)) (le_bytes 8 0).

Definition array_size (items : list Z) : nat := 8 * (length items + 1).

(** The part of the typemap before the loop. *)
Lemma names_in_list w obj items : w_gil w = true -> w_heap w !! obj = Some (OList items) ->
  Z.of_nat (length items) < 2 ^ 31 ->
  names_in utf8_buffer obj w
  = bind (fill_names utf8_buffer items (w_brk w) 0)
      (fun r => ret match r with Some _ => inr (w_brk w, Z.of_nat (length items)) | None => inl (w_brk w) end)
      (block_for w (array_size items)).
Proof.
  intros Hg Ho Hl. unfold names_in. rewrite (bind_eq _ _ _ _ _ (object_at_eq _ Hg _ _ Ho)).
  rewrite wraps_small by (cbn; lia).
  replace (Z.to_nat ((Z.of_nat (length items) + 1) * 8)) with (array_size items) by (unfold array_size; lia).
  rewrite (bind_eq _ _ _ _ _ (alloc_block _ _)), Nat2Z.id, firstn_all. done.
Qed.

Lemma names_in_ok w obj items : w_gil w = true -> w_heap w !! obj = Some (OList items) ->
  Z.of_nat (length items) < 2 ^ 31 -> Forall (encodable w) items ->
  exists m, let wc := set_mem m (block_for w (array_size items)) in
    names_in utf8_buffer obj w = (Ret (inr (w_brk w, Z.of_nat (length items))), wc)
    /\ names_at wc (w_brk w) items.
Proof.
  intros Hg Ho Hl Hi. rewrite (names_in_list w obj items) by done.
  set (wb := block_for w (array_size items)).
  destruct (fill_prefix items [] (w_brk w) (array_size items) 0 wb) as (w' & -> & Hm & E);
    [done|done|apply block_mapped|unfold array_size; lia|].
  rewrite app_nil_r, Nat.add_0_l in E. cbn [fill_names] in E.
  rewrite (bind_eq _ _ _ _ _ (store_slot _ (w_brk w) (array_size items) (length items) 0 Hm ltac:(unfold array_size; lia))) in E.
  eexists. split; [by rewrite (bind_eq _ _ _ _ _ E)|]. split.
  - intros j o Hj. pose proof (name_slots_hold items wb (w_brk w) 0 j o Hj) as Hh.
    apply lookup_lt_Some in Hj.
    eapply holds_store_other; [reflexivity|reflexivity|reflexivity| |exact Hh].
    rewrite !length_le_bytes. lia.
  - exact (holds_store (set_mem (name_slots (w_mem wb) (w_brk w) 0 items) wb) _ _).
Qed.

(** An item that is no string frees the array and leaves its address behind. *)
Lemma names_in_bad w obj pre bad post v : w_gil w = true ->
  w_heap w !! obj = Some (OList (pre ++ bad :: post)) ->
  Z.of_nat (length (pre ++ bad :: post)) < 2 ^ 31 -> Forall (encodable w) pre ->
  w_heap w !! bad = Some v -> (forall s, v <> OStr s) -> w_brk w <> 0 ->
  exists w', names_in utf8_buffer obj w = (Ret (inl (w_brk w)), w') /\ w_blocks w' !! w_brk w = None
    /\ w_err w' = Some (err_of TypeError (chars "list must contain strings")) /\ w_calls w' = w_calls w.
Proof.
  intros Hg Ho Hl Hpre Hb Hv Hk. rewrite (names_in_list w obj _) by done.
  set (items := pre ++ bad :: post) in *. set (wb := block_for w (array_size items)).
  destruct (fill_prefix pre (bad :: post) (w_brk w) (array_size items) 0 wb) as (w' & -> & Hm & E);
    [done|done|apply block_mapped|unfold array_size, items; rewrite length_app; lia|].
  fold items in E. cbn [fill_names] in E.
  set (w1 := set_mem _ wb) in E. rewrite (bind_eq _ _ w1 _ _ (object_at_eq w1 Hg bad v Hb)) in E.
  assert (Hlive : w_blocks w1 !! w_brk w = Some (array_size items)) by apply lookup_insert_eq.
  assert (E2 : fill_names utf8_buffer items (w_brk w) 0 wb =
    bind (free (w_brk w)) (fun _ => bind (PyErr_SetString TypeError (chars "list must contain strings"))
                                       (fun _ => ret None)) w1).
  { rewrite E. destruct v; try done. by destruct (Hv cps). }
  rewrite (bind_eq _ _ _ _ _ (free_live w1 _ _ Hk Hlive)) in E2.
  set (w2 := set_mem (unmap _ _ _) _) in E2. cbn beta in E2.
  rewrite (bind_eq _ _ w2 _ _ (set_string_eq w2 Hg TypeError _)) in E2.
  eexists. split; [by rewrite (bind_eq _ _ _ _ _ E2)|]. split; [apply lookup_delete_eq|by split].
Qed.

(** The wrapper up to the typemap. *)
Lemma subscribe_run w args o0 o1 (cls method : string) api_ty p : w_gil w = true -> args <> 0 -> (api_ty < te_size)%nat ->
  w_heap w !! args = Some (OTuple [o0; o1]) -> wraps_ptr w o0 api_ty p ->
  exists wc, same w wc /\
    wrap_subscribe implicit utf8_buffer cls method api_ty args w
    = bind (names_in utf8_buffer o1) (subscribe_call cls method p) wc.
Proof.
  intros Hg Ha Hty Ht Hp. unfold wrap_subscribe.
  rewrite (bind_eq _ _ _ _ _ (unpack_exact w args _ _ 2 Hg Ha Ht eq_refl)).
  destruct (convert_wraps implicit w o0 api_ty p Hg Hty Hp) as (w1 & E1 & S1).
  exists w1. split; [done|]. by rewrite (bind_eq _ _ _ _ _ E1).
Qed.

Lemma encodable_same w w' o : same w w' -> encodable w o -> encodable w' o.
Proof. intros S (s & b & Ho & Hb). exists s, b. by rewrite (same_heap _ _ S). Qed.

(** The call and the release of the array after it. *)
Lemma subscribe_call_reported (cls method : string) p arg2 n size w r w1 : w_gil w = true -> p <> 0 -> arg2 <> 0 ->
  w_blocks w !! arg2 = Some size ->
  let wc := log (EVirtual method p [arg2; n]) w in
  ctp_method method p [arg2; n] (set_gil false wc) = (r, w1) ->
  let out := subscribe_call cls method p (inr (arg2, n)) w in
  reported (subscribe_decl cls method) wc r w1 out /\ w_blocks (snd out) = delete arg2 (w_blocks w).
Proof.
  intros Hg Hp H2 Hb wc E. pose proof (ctp_method_left _ _ _ (set_gil false wc) _ _ eq_refl E) as L.
  assert (E' : call_virtual method p [arg2; n] (set_gil false w) = (r, w1)) by by rewrite call_virtual_eq.
  destruct (guarded_reported (subscribe_decl cls method) _ [EVirtual method p [arg2; n]] w r w1 Hg E' L)
    as [(o & w' & Eo & Hrest) Hbl].
  rewrite Eo in Hbl. cbn [snd] in Hbl. cbn zeta.
  replace (subscribe_call cls method p (inr (arg2, n)) w)
    with (bind (bind (guarded (subscribe_decl cls method) (call_virtual method p [arg2; n])) int_result)
            (fun resultobj => bind (free arg2) (fun _ => ret resultobj)) w) by apply bind_assoc.
  rewrite (bind_eq _ _ _ _ _ Eo), (bind_eq _ _ _ _ _ (free_live w' arg2 size H2 ltac:(by rewrite Hbl))).
  split; [by eexists _, _|]. cbn in *. by rewrite Hbl.
Qed.

Lemma holds_mem w w' p l : w_mem w' = w_mem w -> holds w p l -> holds w' p l.
Proof. intros E Hh i b Hi. rewrite E. by apply Hh. Qed.

Definition login_missing : cxx := StdException (chars "CTP login API and field are required").
Definition login_no_slot : cxx := StdException (chars "audited CTP login vtable slot is unavailable").
Definition login_no_shim : cxx := StdException (chars "audited Darwin arm64 CTP login ABI shim is unavailable").

Lemma load_le_bytes w p v : holds w p (le_bytes 8 v) -> 0 <= v < 2 ^ 64 ->
  exists l, load p 8 w = (Ret l, w) /\ le_value l = v.
Proof.
  intros Hh Hv. exists (le_bytes 8 v). split; [exact (load_holds w p _ Hh)|].
  rewrite le_value_bytes. apply Z.mod_small. cbn. lia.
Qed.

(** What the login entry point does for pointers that are not null: it needs the
    vtable, and the function in its slot. *)
Lemma login_calls w p q z vtable : p <> 0 -> q <> 0 -> holds w p (le_bytes 8 vtable) -> 0 <= vtable < 2 ^ 64 ->
  let login := bt_api_ctp_req_user_login_darwin_arm64_v677_20240716 true p q z w in
  (vtable = 0 -> login = (Throw login_no_slot, w))
  /\ forall request, vtable <> 0 -> holds w (vtable + 8 * kReqUserLoginVtableSlot) (le_bytes 8 request) ->
       0 <= request < 2 ^ 64 ->
       let args := [p; q; z; struct_size Structs1.CThostFtdcReqUserLoginField; q] in
       login = if request =? 0 then (Throw login_no_slot, w) else ctp_indirect request args (log (EIndirect request args) w).
Proof.
  intros Hp Hq Hv Hv0. unfold bt_api_ctp_req_user_login_darwin_arm64_v677_20240716.
  rewrite (proj2 (Z.eqb_neq _ _) Hp), (proj2 (Z.eqb_neq _ _) Hq). cbn [orb].
  destruct (load_le_bytes w p vtable Hv Hv0) as (l & El & Hl). rewrite (bind_eq _ _ _ _ _ El), Hl. split.
  - intros ->. done.
  - intros request Hne Hr Hr0. rewrite (proj2 (Z.eqb_neq vtable 0)) by done.
    destruct (load_le_bytes w _ request Hr Hr0) as (l' & El' & Hl'). rewrite (bind_eq _ _ _ _ _ El'), Hl'.
    by destruct (request =? 0).
Qed.
End ApiLemmas.

(** ** Properties *)

(** A request with arguments of the right types. *)
Lemma api_request_reported `{!TypeEnv, !ExactTypes _, !CtpEnv, !CtpLaws _} long_w implicit
    w args o0 o1 o2 cls method field api_ty field_ty p q z :
  32 <= long_w -> w_gil w = true -> w_err w = None -> args <> 0 ->
  (api_ty < te_size)%nat -> (field_ty < te_size)%nat ->
  w_heap w !! args = Some (OTuple [o0; o1; o2]) -> wraps_ptr w o0 api_ty p -> p <> 0 ->
  ptr_arg w o1 field_ty q -> w_heap w !! o2 = Some (OInt z) -> INT_MIN <= z <= INT_MAX ->
  exists wc, same (log (EVirtual method p [q; z]) w) wc
    /\ forall r w1, ctp_method method p [q; z] (set_gil false wc) = (r, w1) ->
    reported (request_decl cls method field) wc r w1
      (wrap_api_request long_w implicit cls method field api_ty field_ty args w).
Proof.
  intros Hl Hg He Ha Hat Hft Ht Ha0 Hp Ha1 Ha2 Hz.
  destruct (request_run long_w Hl implicit w args o0 o1 o2 (cls +:+ "_" +:+ method) cls field
    (request_decl cls method field) api_ty field_ty (fun arg1 arg2 arg3 => call_virtual method arg1 [arg2; arg3]) p q z) as (wc & S & E); try done.
  { by left. }
  exists (log (EVirtual method p [q; z]) wc). split; [by apply same_log|].
  intros r w1 Er. unfold wrap_api_request. rewrite E.
  apply (guarded_reported _ _ [EVirtual method p [q; z]]).
  - by rewrite (same_gil _ _ S).
  - by rewrite call_virtual_eq.
  - by eapply ctp_method_left; [|exact Er].
Qed.

(** C10. Requests: a request wrapper called with an API object, a structure (or
    None) and an int in range calls the library once, without the lock, with
    exactly these values; it returns a new int holding the library's result,
    or, when a C++ exception leaves the library, null with a Python error set:
    the director's own, NotImplementedError, Exception with the exception's
    text, or RuntimeError.  The lock is held again and no reference is lost. *)
Theorem request_contract `{!TypeEnv, !ExactTypes _, !CtpEnv, !CtpLaws _} long_w implicit
    w args o0 o1 o2 cls method field api_ty field_ty p q z :
  32 <= long_w -> w_gil w = true -> w_err w = None -> args <> 0 ->
  (api_ty < te_size)%nat -> (field_ty < te_size)%nat ->
  w_heap w !! args = Some (OTuple [o0; o1; o2]) -> wraps_ptr w o0 api_ty p -> p <> 0 ->
  ptr_arg w o1 field_ty q -> w_heap w !! o2 = Some (OInt z) -> INT_MIN <= z <= INT_MAX ->
  exists wc, same (log (EVirtual method p [q; z]) w) wc
    /\ forall r w1, ctp_method method p [q; z] (set_gil false wc) = (r, w1) ->
    reported (request_decl cls method field) wc r w1
      (wrap_api_request long_w implicit cls method field api_ty field_ty args w).
Proof. apply api_request_reported. Qed.

(** A library in which every request is accepted with the result 0. *)
Definition sample_ctp : CtpEnv := {| ctp_method _ _ _ := ret 0; ctp_indirect _ _ := ret 0 |}.
#[local] Instance sample_ctp_laws : CtpLaws sample_ctp.
Proof.
  split; intros; unfold sample_ctp, ctp_method, ctp_indirect, ret in *; simplify_eq; by constructor.
Qed.

Definition sample_request : world :=
  mk_world {[100 := OSwig (mk_swigobj 4096 (Some SWIGTYPE_p_CThostFtdcTraderApi) 0 None);
             101 := OSwig (mk_swigobj 8192 (Some SWIGTYPE_p_CThostFtdcReqUserLoginField) 1 None);
             102 := OInt 7; 103 := OTuple [100; 101; 102]; 104 := OList [102]; 105 := OTuple [108; 104];
             106 := OStr (chars "rb2510"); 107 := OList [106];
             108 := OSwig (mk_swigobj 4096 (Some 143%nat) 0 None); 109 := OTuple [108; 107]]}
    ∅ 200 None true (store_bytes (store_bytes ∅ 4096 (le_bytes 8 12288)) (12288 + 112) (le_bytes 8 20480)) ∅ 65536 ∅ (-1) [].

Lemma sample_api_wraps : wraps_ptr sample_request 100 SWIGTYPE_p_CThostFtdcTraderApi 4096.
Proof.
  split; [discriminate|]. split; [discriminate|]. eexists 100, _.
  split; [reflexivity|]. do 3 (split; [reflexivity|]). left. reflexivity.
Defined.

Lemma sample_md_wraps : wraps_ptr sample_request 108 143 4096.
Proof.
  split; [discriminate|]. split; [discriminate|]. eexists 108, _.
  split; [reflexivity|]. do 3 (split; [reflexivity|]). left. reflexivity.
Defined.

Lemma sample_field_wraps : wraps_ptr sample_request 101 SWIGTYPE_p_CThostFtdcReqUserLoginField 8192.
Proof.
  split; [discriminate|]. split; [discriminate|]. eexists 101, _.
  split; [reflexivity|]. do 3 (split; [reflexivity|]). left. reflexivity.
Defined.

(** The library object starts with its vtable, whose slot 14 is filled. *)
Lemma sample_vtable : holds sample_request 4096 (le_bytes 8 12288).
Proof. intros i b Hi. do 8 (destruct i as [|i]; [cbn in Hi; injection Hi as <-; reflexivity|]). discriminate. Defined.

Lemma sample_slot : holds sample_request (12288 + 8 * 14) (le_bytes 8 20480).
Proof. intros i b Hi. do 8 (destruct i as [|i]; [cbn in Hi; injection Hi as <-; reflexivity|]). discriminate. Defined.

Lemma request_contract_witness :
  exists o w', wrap_api_request (H := ctp_types (fun _ => 0) (fun _ => true)) (H0 := sample_ctp) 64 (fun _ => None)
      "CThostFtdcTraderApi" "ReqUserLogin" "CThostFtdcReqUserLoginField"
      SWIGTYPE_p_CThostFtdcTraderApi SWIGTYPE_p_CThostFtdcReqUserLoginField 103 sample_request = (Ret o, w')
    /\ w_heap w' !! o = Some (OInt 0).
Proof.
  destruct (request_contract (H := ctp_types (fun _ => 0) (fun _ => true)) (H0 := sample_ctp) 64 (fun _ => None)
    sample_request 103 100 101 102 "CThostFtdcTraderApi" "ReqUserLogin" "CThostFtdcReqUserLoginField"
    SWIGTYPE_p_CThostFtdcTraderApi SWIGTYPE_p_CThostFtdcReqUserLoginField 4096 8192 7) as (wc & _ & Hr).
  - discriminate.
  - reflexivity.
  - reflexivity.
  - discriminate.
  - apply Nat.ltb_lt. reflexivity.
  - apply Nat.ltb_lt. reflexivity.
  - reflexivity.
  - exact sample_api_wraps.
  - discriminate.
  - left. exact sample_field_wraps.
  - reflexivity.
  - split; discriminate.
  - destruct (Hr (Ret 0) (set_gil false wc) eq_refl) as (o & w' & E & _ & _ & _ & Ho & _).
    exists o, w'. split; [exact E|exact Ho].
Defined.

(** C11. Subscriptions: given a list of encodable strings the wrapper passes the
    library an array with one pointer per item, in order, and a null after the
    last, and the number of items; it reports the outcome like a request and
    frees the array exactly once, whether the library returned or threw. *)
Theorem subscribe_contract `{!TypeEnv, !ExactTypes _, !CtpEnv, !CtpLaws _} implicit utf8_buffer
    w args o0 o1 items (cls method : string) api_ty p :
  w_gil w = true -> args <> 0 -> (api_ty < te_size)%nat -> w_brk w <> 0 -> w_blocks w !! w_brk w = None ->
  w_heap w !! args = Some (OTuple [o0; o1]) -> wraps_ptr w o0 api_ty p -> p <> 0 ->
  w_heap w !! o1 = Some (OList items) -> Forall (encodable w) items -> Z.of_nat (length items) < 2 ^ 31 ->
  exists wc, names_at utf8_buffer wc (w_brk w) items
    /\ w_heap wc = w_heap w /\ w_err wc = w_err w /\ (forall x, refs wc x = refs w x)
    /\ w_calls wc = w_calls w ++ [EVirtual method p [w_brk w; Z.of_nat (length items)]]
    /\ forall r w1, ctp_method method p [w_brk w; Z.of_nat (length items)] (set_gil false wc) = (r, w1) ->
         let out := wrap_subscribe implicit utf8_buffer cls method api_ty args w in
         reported (subscribe_decl cls method) wc r w1 out /\ w_blocks (snd out) = w_blocks w.
Proof.
  intros Hg Ha Hty Hk Hfree Ht Hp Hp0 Ho Hi Hl.
  destruct (subscribe_run implicit utf8_buffer w args o0 o1 cls method api_ty p) as (wc & S & E); try done.
  pose proof S as [S1 S2 S3 S4 S5 S6 S7 S8 S9 S10 S11].
  destruct (names_in_ok utf8_buffer wc o1 items) as (m & En & Hn); [by rewrite S5|by rewrite S1|done| |].
  { eapply Forall_impl; [exact Hi|]. intros o. by apply encodable_same. }
  rewrite S8 in En, Hn.
  exists (log (EVirtual method p [w_brk w; Z.of_nat (length items)]) (set_mem m (block_for wc (array_size items)))).
  split; [exact Hn|]. do 2 (split; [done|]). split; [exact S2|]. split; [cbn; by rewrite S11|].
  intros r w1 Er. rewrite E, (bind_eq _ _ _ _ _ En).
  destruct (subscribe_call_reported cls method p (w_brk w) (Z.of_nat (length items)) (array_size items)
    (set_mem m (block_for wc (array_size items))) r w1) as [R1 R2]; try done.
  { by rewrite <- S5 in Hg. }
  { cbn. rewrite S8. apply lookup_insert_eq. }
  split; [exact R1|]. rewrite R2. cbn. rewrite S7, S8. by apply delete_insert_id.
Qed.

Lemma subscribe_contract_witness :
  exists o w', wrap_subscribe (H := ctp_types (fun _ => 0) (fun _ => true)) (H0 := sample_ctp) (fun _ => None)
      (fun o => 30000 + o) "CThostFtdcMdApi" "SubscribeMarketData" 143 109
      sample_request = (Ret o, w')
    /\ w_heap w' !! o = Some (OInt 0) /\ w_blocks w' = ∅.
Proof.
  destruct (subscribe_contract (H := ctp_types (fun _ => 0) (fun _ => true)) (H0 := sample_ctp) (fun _ => None)
    (fun o => 30000 + o) sample_request 109 108 107 [106] "CThostFtdcMdApi" "SubscribeMarketData"
    143 4096) as (wc & _ & _ & _ & _ & _ & Hr).
  - reflexivity.
  - discriminate.
  - apply Nat.ltb_lt. reflexivity.
  - discriminate.
  - reflexivity.
  - reflexivity.
  - exact sample_md_wraps.
  - discriminate.
  - reflexivity.
  - constructor; [|constructor]. eexists _, _. split; reflexivity.
  - reflexivity.
  - destruct (Hr (Ret 0) (set_gil false wc) eq_refl) as [(o & w' & E & _ & _ & _ & Ho & _) Hb].
    exists o, w'. split; [exact E|]. split; [exact Ho|]. rewrite E in Hb. exact Hb.
Defined.

(** C12. Subscriptions, an item that is not a string: the typemap frees the
    array before it jumps to [fail], where the array is freed again.  The list
    and the object are otherwise valid; the error the code meant to raise is
    already set. *)
Theorem subscribe_double_free `{!TypeEnv, !ExactTypes _, !CtpEnv} implicit utf8_buffer
    w args o0 o1 pre bad post v (cls method : string) api_ty p :
  w_gil w = true -> args <> 0 -> (api_ty < te_size)%nat -> w_brk w <> 0 ->
  w_heap w !! args = Some (OTuple [o0; o1]) -> wraps_ptr w o0 api_ty p ->
  w_heap w !! o1 = Some (OList (pre ++ bad :: post)) -> Forall (encodable w) pre ->
  w_heap w !! bad = Some v -> (forall s, v <> OStr s) ->
  Z.of_nat (length (pre ++ bad :: post)) < 2 ^ 31 ->
  exists w', wrap_subscribe implicit utf8_buffer cls method api_ty args w = (Stuck BadFree, w')
    /\ w_err w' = Some (err_of TypeError (chars "list must contain strings"))
    /\ w_calls w' = w_calls w.
Proof.
  intros Hg Ha Hty Hk Ht Hp Ho Hi Hb Hv Hl.
  destruct (subscribe_run implicit utf8_buffer w args o0 o1 cls method api_ty p) as (wc & S & E); try done.
  destruct (names_in_bad utf8_buffer wc o1 pre bad post v) as (w' & En & Hd & He & Hc);
    rewrite ?(same_heap _ _ S), ?(same_gil _ _ S), ?(same_brk _ _ S); try done.
  { eapply Forall_impl; [exact Hi|]. intros o. by apply encodable_same. }
  exists w'. split; [|split; [done|by rewrite Hc, (same_calls _ _ S)]].
  rewrite E, (bind_eq _ _ _ _ _ En). cbn [subscribe_call].
  apply bind_stuck, free_dead; [by rewrite (same_brk _ _ S)|done].
Qed.

Lemma subscribe_double_free_witness :
  exists w', wrap_subscribe (H := ctp_types (fun _ => 0) (fun _ => true)) (H0 := sample_ctp) (fun _ => None)
      (fun o => 30000 + o) "CThostFtdcMdApi" "SubscribeMarketData" 143 105
      sample_request = (Stuck BadFree, w').
Proof.
  destruct (subscribe_double_free (H := ctp_types (fun _ => 0) (fun _ => true)) (H0 := sample_ctp) (fun _ => None)
    (fun o => 30000 + o) sample_request 105 108 104 [] 102 [] (OInt 7) "CThostFtdcMdApi" "SubscribeMarketData"
    143 4096) as (w' & E & _).
  - reflexivity.
  - discriminate.
  - apply Nat.ltb_lt. reflexivity.
  - discriminate.
  - reflexivity.
  - exact sample_md_wraps.
  - reflexivity.
  - constructor.
  - reflexivity.
  - discriminate.
  - reflexivity.
  - exists w'. exact E.
Defined.

(** C26. Login: take any call with an API object or [None], a login structure or
    [None], and an int.  Without the audited build it ends in an Exception saying
    that the shim is unavailable.  In the audited build a null API or a null
    structure ends in an Exception saying so, and, where the vtable pointer and
    the slot can be read, a null vtable or a null function in its slot 14 in one
    saying that the slot is unavailable; in none
    of these cases is the library entered.  Otherwise the function in the slot is
    called once with the object, the structure, the request number, the size of
    the structure, which fits the envelope of 0x20c bytes, and the structure
    again, and its result or exception is reported. *)
Theorem login_contract `{!TypeEnv, !ExactTypes _, !CtpEnv, !CtpLaws _} long_w implicit (audited : bool)
    w args o0 o1 o2 p q z :
  32 <= long_w -> w_gil w = true -> w_err w = None -> args <> 0 ->
  (SWIGTYPE_p_CThostFtdcTraderApi < te_size)%nat -> (SWIGTYPE_p_CThostFtdcReqUserLoginField < te_size)%nat ->
  w_heap w !! args = Some (OTuple [o0; o1; o2]) ->
  ptr_arg w o0 SWIGTYPE_p_CThostFtdcTraderApi p -> ptr_arg w o1 SWIGTYPE_p_CThostFtdcReqUserLoginField q ->
  w_heap w !! o2 = Some (OInt z) -> INT_MIN <= z <= INT_MAX ->
  let out := wrap_login long_w implicit audited args w in
  let login := [p; q; z; struct_size Structs1.CThostFtdcReqUserLoginField; q] in
  struct_size Structs1.CThostFtdcReqUserLoginField <= kLoginEnvelopePayloadCapacity
  /\ exists wc, same w wc
     /\ let refused e := reported login_decl wc (Throw e) (set_gil false wc) out in
     (audited = false -> refused login_no_shim)
     /\ (audited = true -> p = 0 \/ q = 0 -> refused login_missing)
     /\ (audited = true -> p <> 0 -> q <> 0 -> forall vtable, holds w p (le_bytes 8 vtable) -> 0 <= vtable < 2 ^ 64 ->
         (vtable = 0 -> refused login_no_slot)
         /\ forall request, vtable <> 0 -> holds w (vtable + 8 * 14) (le_bytes 8 request) -> 0 <= request < 2 ^ 64 ->
            (request = 0 -> refused login_no_slot)
            /\ (request <> 0 -> same (log (EIndirect request login) w) (log (EIndirect request login) wc)
                /\ forall r w1, ctp_indirect request login (set_gil false (log (EIndirect request login) wc)) = (r, w1) ->
                     reported login_decl (log (EIndirect request login) wc) r w1 out)).
Proof.
  intros Hl Hg He Ha Hta Htf Ht Ha0 Ha1 Ha2 Hz out login. split; [by apply Z.leb_le|].
  destruct (request_run long_w Hl implicit w args o0 o1 o2 login_name "CThostFtdcTraderApi"
    "CThostFtdcReqUserLoginField" login_decl SWIGTYPE_p_CThostFtdcTraderApi SWIGTYPE_p_CThostFtdcReqUserLoginField
    (bt_api_ctp_req_user_login_darwin_arm64_v677_20240716 audited) p q z) as (wc & S & E); try done.
  assert (Hgc : w_gil wc = true) by by rewrite (same_gil _ _ S). exists wc. split; [done|]. intros refused.
  assert (Hrefused : forall m, bt_api_ctp_req_user_login_darwin_arm64_v677_20240716 audited p q z (set_gil false wc)
    = (Throw (StdException m), set_gil false wc) -> refused (StdException m)).
  { intros m Ee. unfold refused, out, wrap_login. rewrite E. apply (guarded_reported _ _ []); [done|exact Ee|by constructor]. }
  split; [intros ->; by apply Hrefused|]. split.
  { intros -> Hpq. apply Hrefused. unfold bt_api_ctp_req_user_login_darwin_arm64_v677_20240716.
    rewrite (proj2 (orb_true_iff _ _)); [done|]. destruct Hpq as [->| ->]; [by left|by right]. }
  intros -> Hp Hq vtable Hv Hv0.
  assert (Hmem : w_mem (set_gil false wc) = w_mem w) by exact (same_mem _ _ S).
  destruct (login_calls (set_gil false wc) p q z vtable Hp Hq (holds_mem _ _ _ _ Hmem Hv) Hv0) as [Hnv Hcall].
  split; [intros Hz0; apply Hrefused; by apply Hnv|]. intros request Hne Hr Hr0.
  specialize (Hcall request Hne (holds_mem _ _ _ _ Hmem Hr) Hr0). cbv zeta in Hcall. split.
  { intros ->. apply Hrefused. exact Hcall. }
  intros Hrz. split; [by apply same_log|]. intros r w1 Er. rewrite (proj2 (Z.eqb_neq _ _) Hrz) in Hcall.
  unfold out, wrap_login. rewrite E.
  apply (guarded_reported _ _ [EIndirect request login]); [done|rewrite Hcall; exact Er|by eapply ctp_indirect_left; [|exact Er]].
Qed.

Lemma login_contract_witness :
  exists o w', wrap_login (H := ctp_types (fun _ => 0) (fun _ => true)) (H0 := sample_ctp) 64 (fun _ => None) true 103
      sample_request = (Ret o, w')
    /\ w_heap w' !! o = Some (OInt 0).
Proof.
  destruct (login_contract (H := ctp_types (fun _ => 0) (fun _ => true)) (H0 := sample_ctp) 64 (fun _ => None) true
    sample_request 103 100 101 102 4096 8192 7) as (_ & wc & _ & _ & _ & Hv).
  - discriminate.
  - reflexivity.
  - reflexivity.
  - discriminate.
  - apply Nat.ltb_lt. reflexivity.
  - apply Nat.ltb_lt. reflexivity.
  - reflexivity.
  - left. exact sample_api_wraps.
  - left. exact sample_field_wraps.
  - reflexivity.
  - split; discriminate.
  - destruct (Hv eq_refl ltac:(discriminate) ltac:(discriminate) 12288 sample_vtable ltac:(split; [discriminate|reflexivity]))
      as [_ Hr].
    destruct (Hr 20480 ltac:(discriminate) sample_slot ltac:(split; [discriminate|reflexivity])) as [_ Hc].
    destruct (Hc ltac:(discriminate)) as [_ Hd].
    destruct (Hd (Ret 0) (set_gil false (log (EIndirect 20480 [4096; 8192; 7; struct_size Structs1.CThostFtdcReqUserLoginField; 8192]) wc)) eq_refl)
      as (o & w' & E & _ & _ & _ & Ho & _).
    exists o, w'. split; [exact E|exact Ho].
Defined.

End Api.
