(* ===== verification/Packed.v ===== *)
(** * Packed values, function pointers and linked variables

    The parts of the SWIG runtime in ctp_wrap.cpp that no wrapper of the module
    uses: [SwigPyPacked], which carries the bytes of a C value, function pointers
    in the documentation of builtin functions ([SWIG_Python_FixMethods],
    [SWIG_Python_ConvertFunctionPtr]), [SwigVarLink], the object whose attributes
    are C variables, and [SWIG_TypeDynamicCast].  The objects of the two types are kept in stores
    of their own, by address. *)

From S2P Require Import Prelude PackData TypeNames TypeTable CtpTypes World Runtime SwigObject Api.

Module Packed.
Import PackData TypeTable World Runtime.

(** ** Packed values *)

Record SwigPyPacked := mk_packed { pk_pack : Z; pk_ty : nat; pk_size : nat }.
Abbreviation packs := (gmap Z SwigPyPacked).

(** [malloc] succeeds; [memcpy] reads the value. *)
Definition SwigPyPacked_New (ptr : Z) (size ty : nat) (ps : packs) : M (Z * packs) :=
  sobj <- new_object OOther ;;
  value <- load ptr size ;;
  pack <- alloc value ;;
  ret (sobj, <[sobj := mk_packed pack ty size]> ps).

(** The type test, exact or by name. *)
Definition SwigPyPacked_Check (op : Z) (ps : packs) : option SwigPyPacked := ps !! op.

Definition SwigPyPacked_dealloc (v : Z) (ps : packs) : M packs :=
  match SwigPyPacked_Check v ps with
  | Some sobj => free (pk_pack sobj) ;;; free_object v ;;; ret (delete v ps)
  | None => free_object v ;;; ret ps
  end.

Definition SwigPyPacked_UnpackData (obj ptr : Z) (size : nat) (ps : packs) : M (option nat) :=
  match SwigPyPacked_Check obj ps with
  | Some sobj =>
      if negb (pk_size sobj =? size)%nat then ret None
      else value <- load (pk_pack sobj) size ;; store ptr value ;;; ret (Some (pk_ty sobj))
  | None => ret None
  end.

(** [strncmp] on memory. *)
Fixpoint strncmp_at (p q : Z) (n : nat) : M Z :=
  match n with
  | O => ret 0
  | S n' =>
      a <- load p 1 ;; b <- load q 1 ;;
      let x := le_value a in let y := le_value b in
      if negb (x =? y) then ret (x - y) else if x =? 0 then ret 0 else strncmp_at (p + 1) (q + 1) n'
  end.

Definition SwigPyPacked_compare (v w : SwigPyPacked) : M Z :=
  let s := if (pk_size v <? pk_size w)%nat then -1 else if (pk_size w <? pk_size v)%nat then 1 else 0 in
  if negb (s =? 0) then ret s else strncmp_at (pk_pack v) (pk_pack w) (2 * pk_size v).

(** The limit of [char result[SWIG_BUFFER_SIZE]]. *)
Definition SWIG_BUFFER_SIZE : Z := 1024.

Section Types.
Context `{TypeEnv}.

(** The hexadecimal text, when it fits. *)
Definition packed_text (v : SwigPyPacked) : M (option (list Z)) :=
  value <- load (pk_pack v) (pk_size v) ;;
  let '(result, ok) := SWIG_PackDataName value None SWIG_BUFFER_SIZE in
  ret (if ok then Some (cstr result) else None).

Definition SwigPyPacked_repr (v : SwigPyPacked) : M Z :=
  result <- packed_text v ;;
  new_object (OStr match result with
                   | Some result => chars "<Swig Packed at " ++ result ++ te_name (pk_ty v) ++ chars ">"
                   | None => chars "<Swig Packed " ++ te_name (pk_ty v) ++ chars ">"
                   end).

Definition SwigPyPacked_str (v : SwigPyPacked) : M Z :=
  result <- packed_text v ;;
  new_object (OStr (default [] result ++ te_name (pk_ty v))).

Definition SWIG_Python_ConvertPacked (obj ptr : Z) (sz : nat) (ty : option nat) (ps : packs) : M Z :=
  to <- SwigPyPacked_UnpackData obj ptr sz ps ;;
  match to, ty with
  | None, _ => ret SWIG_ERROR
  | Some _, None => ret SWIG_OK
  | Some to, Some ty =>
      if (to =? ty)%nat then ret SWIG_OK
      else match SWIG_TypeCheck (te_name to) (te_cast ty) with
           | None => stuck Endless
           | Some None => ret SWIG_ERROR
           | Some (Some _) => ret SWIG_OK
           end
  end.

Definition SWIG_Python_NewPackedObj (ptr : Z) (sz ty : nat) (ps : packs) : M (Z * packs) :=
  if ptr =? 0 then v <- SWIG_Py_Void ;; ret (v, ps) else SwigPyPacked_New ptr sz ty ps.

(** ** Function pointers *)

(** A [PyMethodDef] and a [swig_const_info], whose type is [SWIG_PY_POINTER] or not. *)
Record PyMethodDef := mk_method { ml_name : list Z; ml_doc : option (list Z) }.
Record swig_const_info := mk_const { k_pointer : bool; k_name : list Z; k_pvalue : Z; k_ptype : nat }.

(** [strstr]: the text from the first occurrence on. *)
Fixpoint strstr (s sub : list Z) : option (list Z) :=
  if bool_decide (sub = take (length sub) s) then Some s
  else match s with [] => None | _ :: s' => strstr s' sub end.

Definition swig_ptr_mark : list Z := chars "swig_ptr: ".

(** [strncmp(const_table[j].name, name, strlen(const_table[j].name)) == 0]. *)
Definition const_named (name : list Z) (ci : swig_const_info) : bool :=
  bool_decide (k_name ci = take (length (k_name ci)) name).

(** The body of the loop over the methods.
    (ctp_wrap.cpp, lines 508500 to 508534.) *)
Definition fix_method (const_table : list swig_const_info) (m : PyMethodDef) : PyMethodDef :=
  match ml_doc m with
  | None => m
  | Some doc =>
      match strstr doc swig_ptr_mark with
      | None => m
      | Some c =>
          match filter (fun ci => const_named (drop 10 c) ci = true) const_table with
          | ci :: _ =>
              if negb (k_pointer ci) || (k_pvalue ci =? 0) then m
              else
                let name := te_name (k_ptype ci) in
                let ldoc := (length doc - length c)%nat in
                let lptr := Z.of_nat (length name) + 2 * sizeof_voidp + 2 in
                mk_method (ml_name m)
                  (Some (take ldoc doc ++ swig_ptr_mark ++ cstr (fst (SWIG_PackVoidPtr (k_pvalue ci) name lptr))))
          | [] => m
          end
      end
  end.

Definition SWIG_Python_FixMethods (methods : list PyMethodDef) (const_table : list swig_const_info) : list PyMethodDef :=
  map (fix_method const_table) methods.

Section Function.
(** The documentation of a builtin function, when the object is one. *)
Context (implicit : nat -> option (Z -> M Z)) (PyCFunction : Z -> option (option (list Z))).

Definition SWIG_Python_ConvertFunctionPtr (obj : Z) (ty : nat) : M (Z * Z) :=
  match PyCFunction obj with
  | None => SWIG_ConvertPtr implicit obj ty 0
  | Some doc =>
      match doc ≫= fun d => strstr d swig_ptr_mark with
      | None => ret (SWIG_ERROR, 0)
      | Some desc =>
          let '(vptr, r) := SWIG_UnpackVoidPtr (drop 10 desc) (le_bytes 8 0) (te_name ty) in
          match r with
          | None => ret (SWIG_ERROR, 0)
          | Some desc =>
              match SWIG_TypeCheck desc (te_cast ty) with
              | None => stuck Endless
              | Some None => ret (SWIG_ERROR, 0)
              | Some (Some (k, j)) =>
                  let tc := te_cast ty ≫= fun heads => heads !! k ≫= fun head => head !! j in
                  ret (SWIG_OK, fst (SWIG_TypeCast tc (le_value vptr)))
              end
          end
      end
  end.
End Function.
End Types.

(** ** Linked variables *)

(** [swig_globalvar] with its block and that of its name. *)
Record swig_globalvar := mk_var { gv_block : Z; gv_name_block : Z; gv_name : list Z; gv_get : M Z; gv_set : Z -> M Z }.

(** The objects of [SwigVarLink], with their list [vars]. *)
Abbreviation varlinks := (gmap Z (list swig_globalvar)).

Definition SWIG_Python_newvarlink (vs : varlinks) : M (Z * varlinks) :=
  result <- new_object OOther ;; ret (result, <[result := []]> vs).

(** [sizeof(swig_globalvar)] with 8-byte pointers. *)
Definition var_size : nat := 32.

Definition SWIG_Python_addvarlink (p : Z) (name : list Z) (get_attr : M Z) (set_attr : Z -> M Z) (vs : varlinks) : M varlinks :=
  match vs !! p with
  | None => stuck BadObject
  | Some vars =>
      gv <- alloc (replicate var_size 0) ;;
      copy <- alloc (name ++ [0]) ;;
      ret (<[p := mk_var gv copy name get_attr set_attr :: vars]> vs)
  end.

(** The [while (var)] loop. *)
Definition find_var (vars : list swig_globalvar) (n : list Z) : option swig_globalvar :=
  snd <$> list_find (fun v => strcmp (gv_name v) n = 0) vars.

Definition unknown_variable (n : list Z) : list Z := chars "Unknown C global variable '" ++ n ++ chars "'".

Definition SwigVarLink_getattr (vars : list swig_globalvar) (n : list Z) : M Z :=
  res <- match find_var vars n with Some var => gv_get var | None => ret 0 end ;;
  error <- PyErr_Occurred ;;
  (if (res =? 0) && bool_decide (error = None) then PyErr_SetString AttributeError (unknown_variable n) else ret tt) ;;;
  ret res.

Definition SwigVarLink_setattr (vars : list swig_globalvar) (n : list Z) (p : Z) : M Z :=
  res <- match find_var vars n with Some var => gv_set var p | None => ret 1 end ;;
  error <- PyErr_Occurred ;;
  (if (res =? 1) && bool_decide (error = None) then PyErr_SetString AttributeError (unknown_variable n) else ret tt) ;;;
  ret res.

Definition SwigVarLink_repr : M Z := new_object (OStr (chars "<Swig global variables>")).

(** [joined = PyUnicode_Concat(str, tail)], with both released. *)
Definition append_text (str : Z) (text : list Z) : M Z :=
  tail <- new_object (OStr text) ;;
  joined <- SwigObject.PyUnicode_Concat str tail ;;
  Py_DECREF str ;;; Py_DECREF tail ;;; ret joined.

Fixpoint append_vars (str : Z) (vars : list swig_globalvar) : M Z :=
  match vars with
  | [] => ret str
  | [var] => append_text str (gv_name var)
  | var :: vars' => str <- append_text str (gv_name var) ;; str <- append_text str (chars ", ") ;; append_vars str vars'
  end.

Definition SwigVarLink_str (vars : list swig_globalvar) : M Z :=
  str <- new_object (OStr (chars "(")) ;; str <- append_vars str vars ;; append_text str (chars ")").

(** The list is freed; the object itself is not. *)
Fixpoint SwigVarLink_dealloc (vars : list swig_globalvar) : M unit :=
  match vars with
  | [] => ret tt
  | var :: n => free (gv_name_block var) ;;; free (gv_block var) ;;; SwigVarLink_dealloc n
  end.

Definition SWIG_globals (Swig_Globals_global : Z) (vs : varlinks) : M (Z * varlinks) :=
  if Swig_Globals_global =? 0 then SWIG_Python_newvarlink vs else ret (Swig_Globals_global, vs).

(** ** Octal and hexadecimal text of pointers *)

(** The digits of a number that is not negative, last first. *)
Fixpoint digits (fuel : nat) (base n : Z) : list Z :=
  match fuel with
  | O => []
  | S fuel' => hex (n mod base) :: if n / base =? 0 then [] else digits fuel' base (n / base)
  end.
Definition number_text (base n : Z) : list Z := reverse (digits (S (Z.to_nat (Z.log2 n))) base n).

(** [PyUnicode_Format] of the one argument of the tuple, by ["%o"] or ["%x"]. *)
Definition SwigPyObject_format (fmt : list Z) (base v : Z) : M Z :=
  args <- new_object (OTuple [0]) ;;
  val <- SwigObject.SwigPyObject_long v ;;
  store_object args (OTuple [val]) ;;; modify (add_ref val (-1)) ;;;
  ofmt <- new_object (OStr fmt) ;;
  n <- object_at val ;;
  res <- match n with OInt n => new_object (OStr (number_text base n)) | _ => stuck BadObject end ;;
  Py_DECREF ofmt ;;; Py_DECREF args ;;; ret res.

Definition SwigPyObject_oct : Z -> M Z := SwigPyObject_format (chars "%o") 8.
Definition SwigPyObject_hex : Z -> M Z := SwigPyObject_format (chars "%x") 16.

(** ** Dynamic casts *)

Section DynamicCast.
(** [ty->dcast] of a type, when it has one: the type found, 0 when null, and the
    pointer it leaves. *)
Context (dcast : Z -> option (Z -> Z * Z)).

(** The [while] loop; [None] when the fuel does not suffice. *)
Fixpoint dynamic_cast_loop (fuel : nat) (ty lastty ptr : Z) : option (Z * Z) :=
  match fuel with
  | O => None
  | S fuel' =>
      if ty =? 0 then Some (lastty, ptr)
      else match dcast ty with
           | None => Some (lastty, ptr)
           | Some f => let '(ty', ptr') := f ptr in
                       dynamic_cast_loop fuel' ty' (if ty' =? 0 then lastty else ty') ptr'
           end
  end.

Definition SWIG_TypeDynamicCast (fuel : nat) (ty ptr : Z) : option (Z * Z) :=
  if ty =? 0 then Some (ty, ptr)
  else match dcast ty with None => Some (ty, ptr) | Some _ => dynamic_cast_loop fuel ty ty ptr end.

(** Down a hierarchy the loop ends, at a type without a further cast or at the
    last one before a null. *)
Lemma dynamic_cast_ends (depth : Z -> nat) :
  (forall ty f ptr, dcast ty = Some f -> fst (f ptr) <> 0 -> (depth (fst (f ptr)) < depth ty)%nat) ->
  forall fuel ty lastty ptr, (S (depth ty) < fuel)%nat -> (ty <> 0 -> lastty = ty) ->
  exists ty' ptr', dynamic_cast_loop fuel ty lastty ptr = Some (ty', ptr') /\ (lastty <> 0 -> ty' <> 0).
Proof.
  intros Hd. induction fuel as [|fuel IH]; intros ty lastty ptr Hf Hl; [lia|]. cbn [dynamic_cast_loop].
  destruct (ty =? 0) eqn:E0; zbool; [by eexists _, _|]. destruct (dcast ty) as [f|] eqn:Ed; [|by eexists _, _].
  pose proof (Hd ty f ptr Ed) as Hlt. destruct (f ptr) as [ty' ptr']. cbn [fst] in Hlt.
  destruct (ty' =? 0) eqn:E1; zbool.
  - subst ty'. destruct fuel as [|fuel]; [lia|]. cbn. by eexists _, _.
  - destruct (IH ty' ty' ptr') as (t & p & E & Ht); [specialize (Hlt E1); lia|done|]. exists t, p. split; [done|].
    intros _. by apply Ht.
Qed.
End DynamicCast.

(** ** Lemmas *)

(** *** Packed values *)

Lemma alloc_run bytes w : exists w1, alloc bytes w = (Ret (w_brk w), w1)
  /\ w_blocks w1 = <[w_brk w := length bytes]> (w_blocks w) /\ w_mem w1 = store_bytes (w_mem w) (w_brk w) bytes
  /\ w_gil w1 = w_gil w /\ w_heap w1 = w_heap w /\ w_refs w1 = w_refs w /\ w_err w1 = w_err w
  /\ w_brk w1 = w_brk w + Z.of_nat (length bytes) + 1.
Proof. eexists. split; [reflexivity|]. by repeat split. Qed.

Section Life.
Context `{TypeEnv}.

(** A value goes into an object and comes back out of it, byte by byte, with its
    type; a request for another size is refused without a write; and with the
    object its block is freed. *)
Lemma packed_life ptr n ty dst ps w bytes : w_gil w = true -> fresh_ok w -> 0 < w_brk w ->
  w_blocks w !! w_brk w = None -> ps !! w_fresh w = None ->
  load ptr n w = (Ret bytes, w) -> length bytes = n -> mapped w dst n ->
  (forall i, 0 <= i < Z.of_nat n -> ~ w_brk w <= dst + i < w_brk w + Z.of_nat n) ->
  exists obj ps1 w1, SwigPyPacked_New ptr n ty ps w = (Ret (obj, ps1), w1)
    /\ (forall m ty', m <> n -> SWIG_Python_ConvertPacked obj dst m ty' ps1 w1 = (Ret SWIG_ERROR, w1))
    /\ exists w2, SWIG_Python_ConvertPacked obj dst n (Some ty) ps1 w1 = (Ret SWIG_OK, w2)
        /\ load dst n w2 = (Ret bytes, w2)
        /\ exists w3, SwigPyPacked_dealloc obj ps1 w2 = (Ret ps, w3) /\ w_blocks w3 = w_blocks w.
Proof.
  intros Hg Hf Hb Hnb Hps Hld Hlen Hdst Hap.
  destruct (new_object_run OOther w Hg Hf) as (w0 & E0 & Hz & Hg0 & Hf0 & He0 & Hm0 & _).
  assert (Hw0 : w0 = set_fresh (w_fresh w + 1) (add_ref (w_fresh w) 1 (set_heap (<[w_fresh w := OOther]> (w_heap w)) w)))
    by (rewrite (new_object_eq w Hg) in E0; congruence).
  unfold SwigPyPacked_New. rewrite (bind_eq _ _ _ _ _ E0).
  assert (Hl0 : load ptr n w0 = (Ret bytes, w0)).
  { unfold load in *. rewrite Hm0. destruct (mapM _ _); [|done]. by injection Hld as ->. }
  rewrite (bind_eq _ _ _ _ _ Hl0). destruct (alloc_run bytes w0) as (w1 & E1 & Hb1 & Hm1 & Hg1 & Hh1 & _).
  assert (Ek : w_brk w0 = w_brk w) by (by rewrite Hw0). assert (Eb : w_blocks w0 = w_blocks w) by (by rewrite Hw0).
  rewrite Ek in *. rewrite (bind_eq _ _ _ _ _ E1). set (obj := w_fresh w) in *. set (pk := w_brk w) in *.
  eexists obj, _, w1. split; [reflexivity|].
  assert (Hck : SwigPyPacked_Check obj (<[obj := mk_packed pk ty n]> ps) = Some (mk_packed pk ty n)) by apply lookup_insert_eq.
  unfold SWIG_Python_ConvertPacked, SwigPyPacked_UnpackData, SwigPyPacked_dealloc. rewrite Hck. cbn [pk_size pk_pack pk_ty]. split.
  { intros m ty' Hm. rewrite (proj2 (Nat.eqb_neq n m)) by congruence. done. }
  rewrite Nat.eqb_refl. cbn [negb].
  assert (Hsz : forall a, w_mem w1 !! a = if decide (pk <= a < pk + Z.of_nat n) then bytes !! Z.to_nat (a - pk) else w_mem w !! a).
  { intros a. rewrite Hm1, store_bytes_lookup, Hlen, Hm0. done. }
  assert (Hmp : mapped w1 pk (length bytes)).
  { intros i Hi. rewrite Hsz, decide_True by lia. apply lookup_lt_is_Some_2. lia. }
  assert (Hl1 : load pk n w1 = (Ret bytes, w1)).
  { destruct (load_mapped w1 pk (length bytes) Hmp) as (bs & Hbl & El & Hbi). rewrite Hlen in *. rewrite El. do 2 f_equal.
    apply list_eq_same_length with n; [lia|lia|]. intros i x y Hi Hx Hy. rewrite (Hbi i) in Hx by lia.
    rewrite Hsz, decide_True in Hx by lia. replace (Z.to_nat (pk + Z.of_nat i - pk)) with i in Hx by lia. congruence. }
  assert (Hmd : mapped w1 dst (length bytes)).
  { intros i Hi. rewrite Hsz, decide_False by (apply (Hap (Z.of_nat i)); lia). apply Hdst. lia. }
  pose proof (store_mapped w1 dst bytes Hmd) as Es. set (w2 := set_mem (store_bytes (w_mem w1) dst bytes) w1) in *.
  exists w2. rewrite bind_assoc, (bind_eq _ _ _ _ _ Hl1), bind_assoc, (bind_eq _ _ _ _ _ Es).
  rewrite (bind_eq _ _ _ _ _ (eq_refl : ret (Some ty) w2 = _)). rewrite Nat.eqb_refl. split; [done|]. split.
  - assert (Hmd2 : mapped w2 dst n).
    { intros i Hi. cbn. rewrite store_bytes_lookup, decide_True by lia. apply lookup_lt_is_Some_2. lia. }
    destruct (load_mapped w2 dst n Hmd2) as (bs & Hbl & El & Hbi). rewrite El. do 2 f_equal.
    apply list_eq_same_length with n; [lia|lia|]. intros i x y Hi Hx Hy. rewrite (Hbi i) in Hx by lia. cbn in Hx.
    rewrite store_bytes_lookup, decide_True in Hx by lia. replace (Z.to_nat (dst + Z.of_nat i - dst)) with i in Hx by lia. congruence.
  - assert (Hlive : w_blocks w2 !! pk = Some n) by (cbn; rewrite Hb1, Hlen; apply lookup_insert_eq).
    rewrite (bind_eq _ _ _ _ _ (Api.free_live w2 pk n ltac:(lia) Hlive)). set (w3 := set_mem _ _).
    assert (Hg3 : w_gil w3 = true) by (change (w_gil w1 = true); by rewrite Hg1).
    rewrite (bind_eq _ _ _ _ _ (free_object_eq w3 Hg3 obj)). eexists. split; [unfold ret; do 2 f_equal|].
    + by rewrite delete_insert_id.
    + cbn. by rewrite Hb1, Eb, delete_insert_id.
Qed.

(** *** Function pointers *)

Lemma strstr_prefix sub t : strstr (sub ++ t) sub = Some (sub ++ t).
Proof.
  assert (E : bool_decide (sub = take (length sub) (sub ++ t)) = true)
    by (apply bool_decide_eq_true; by rewrite take_app_length).
  destruct (sub ++ t); cbn [strstr]; by rewrite E.
Qed.

(** The first occurrence stays the first when the text after it changes. *)
Lemma strstr_split s sub c : strstr s sub = Some c -> exists pre c', s = pre ++ c /\ c = sub ++ c'
  /\ forall t, strstr (pre ++ sub ++ t) sub = Some (sub ++ t).
Proof.
  revert c; induction s as [|x s IH]; intros c; cbn [strstr].
  - case_bool_decide as Hb; [|done]. intros [= <-]. exists [], []. rewrite take_nil in Hb. subst sub. split; [done|].
    split; [done|]. intros t. exact (strstr_prefix [] t).
  - case_bool_decide as Hb.
    + intros [= <-]. exists [], (drop (length sub) (x :: s)). split; [done|].
      split; [rewrite Hb at 1; by rewrite take_drop|]. intros t. exact (strstr_prefix sub t).
    + intros Hc. destruct (IH c Hc) as (pre & c' & -> & -> & Ht). exists (x :: pre), c'. split; [done|]. split; [done|].
      intros t. cbn [app strstr]. rewrite bool_decide_false; [apply Ht|].
      assert (E : forall u, take (length sub) (x :: pre ++ sub ++ u) = take (length sub) (x :: pre ++ sub)).
      { intros u. change (x :: pre ++ sub ++ u) with ((x :: pre) ++ sub ++ u). rewrite app_assoc, take_app_le; [done|].
        rewrite length_app. lia. }
      by rewrite E in *.
Qed.

(** What [SWIG_Python_FixMethods] writes for a callback,
    [SWIG_Python_ConvertFunctionPtr] reads: the pointer comes back. *)
Lemma function_pointer_roundtrip implicit cfun const_table m doc c ci cis arr rest e obj w :
  ml_doc m = Some doc -> strstr doc swig_ptr_mark = Some c ->
  filter (fun ci => const_named (drop 10 c) ci = true) const_table = ci :: cis ->
  k_pointer ci = true -> 0 < k_pvalue ci < 2 ^ 64 -> no_nul (te_name (k_ptype ci)) ->
  te_cast (k_ptype ci) = Some (arr :: rest) -> named arr (te_name (k_ptype ci)) 0 = Some true ->
  arr !! O = Some e -> ci_converter e = None ->
  cfun obj = Some (ml_doc (fix_method const_table m)) ->
  SWIG_Python_ConvertFunctionPtr implicit cfun obj (k_ptype ci) w = (Ret (SWIG_OK, k_pvalue ci), w).
Proof.
  intros Hd Hc Hf Hp Hv Hn Ht Hnm He Hcv Hfun. unfold fix_method in Hfun. rewrite Hd, Hc, Hf, Hp in Hfun.
  rewrite (proj2 (Z.eqb_neq _ _)) in Hfun by lia. cbn [negb orb ml_doc] in Hfun. cbv zeta in Hfun.
  set (name := te_name (k_ptype ci)) in *. set (lptr := Z.of_nat (length name) + 2 * sizeof_voidp + 2) in *.
  destruct (strstr_split doc swig_ptr_mark c Hc) as (pre & c' & Hdoc & _ & Hs).
  assert (Hpre : take (length doc - length c) doc = pre).
  { rewrite Hdoc, length_app. replace (length pre + length c - length c)%nat with (length pre) by lia. apply take_app_length. }
  pose proof (pack_void_ptr_roundtrip (k_pvalue ci) name lptr (le_bytes 8 0) ltac:(lia) Hn eq_refl) as R.
  destruct (SWIG_PackVoidPtr (k_pvalue ci) name lptr) as [text ok]. destruct R as (_ & Hok & Hu).
  assert (ok = true) by (apply Hok; unfold lptr, sizeof_voidp; lia). destruct (Hu H0) as [E Ev]. cbn [fst] in Hfun.
  unfold SWIG_Python_ConvertFunctionPtr. rewrite Hfun. cbn [mbind option_bind]. rewrite Hpre, Hs. cbv beta iota zeta.
  change (drop 10 (swig_ptr_mark ++ cstr text)) with (cstr text). fold name. rewrite E, Ht.
  assert (Etc : SWIG_TypeCheck name (Some (arr :: rest)) = Some (Some (O, O))) by (cbn; by rewrite Hnm). rewrite Etc.
  cbn [mbind option_bind lookup list_lookup]. rewrite He. unfold SWIG_TypeCast. rewrite Hcv. cbn [fst]. by rewrite Ev.
Qed.
End Life.

(** *** The comparison of packed values *)

(** Two objects with the same value, no byte of which is null and after which
    nothing is mapped: the comparison reads on past the end of the blocks. *)
Lemma strncmp_same bs : forall p q n w, no_nul bs -> bytes_ok bs ->
  (forall i b, bs !! i = Some b -> w_mem w !! (p + Z.of_nat i) = Some b /\ w_mem w !! (q + Z.of_nat i) = Some b) ->
  w_mem w !! (p + Z.of_nat (length bs)) = None -> (length bs < n)%nat ->
  strncmp_at p q n w = (Stuck Unmapped, w).
Proof.
  induction bs as [|b bs IH]; intros p q [|n] w Hn Hb Hm Hend Hl; cbn [length] in *; try lia; cbn [strncmp_at].
  - apply bind_stuck. unfold load. cbn. rewrite !Z.add_0_r in *. by rewrite Hend.
  - destruct (Hm O b eq_refl) as [Hp Hq]. rewrite Z.add_0_r in Hp, Hq.
    assert (Ep : load p 1 w = (Ret [b], w)) by (unfold load; cbn; by rewrite Z.add_0_r, Hp).
    assert (Eq : load q 1 w = (Ret [b], w)) by (unfold load; cbn; by rewrite Z.add_0_r, Hq).
    rewrite (bind_eq _ _ _ _ _ Ep), (bind_eq _ _ _ _ _ Eq). cbv zeta. rewrite Z.eqb_refl. cbn [negb].
    inversion Hn as [|? ? Hb0 Hn']; subst. inversion Hb as [|? ? Hbb Hb']; subst.
    replace (le_value [b]) with b by (cbn; lia). rewrite (proj2 (Z.eqb_neq b 0) Hb0). apply IH; try done; [| |lia].
    + intros i x Hi. destruct (Hm (S i) x Hi) as [H1 H2]. split; [rewrite <- H1|rewrite <- H2]; f_equal; lia.
    + rewrite <- Hend. f_equal. lia.
Qed.

Lemma packed_compare_overreads v x bs w : pk_size v = pk_size x -> length bs = pk_size v -> bs <> [] ->
  no_nul bs -> bytes_ok bs ->
  (forall i b, bs !! i = Some b -> w_mem w !! (pk_pack v + Z.of_nat i) = Some b /\ w_mem w !! (pk_pack x + Z.of_nat i) = Some b) ->
  w_mem w !! (pk_pack v + Z.of_nat (length bs)) = None ->
  SwigPyPacked_compare v x w = (Stuck Unmapped, w).
Proof.
  intros Hs Hl Hne Hn Hb Hm Hend. unfold SwigPyPacked_compare. rewrite <- Hs, Nat.ltb_irrefl. cbn [negb Z.eqb].
  apply (strncmp_same bs); try done. destruct bs; [done|]. cbn in *. lia.
Qed.

(** *** Text of pointers *)

(** The number a text of digits stands for, last digit first. *)
Fixpoint number_value (base : Z) (ds : list Z) : Z :=
  match ds with
  | [] => 0
  | d :: ds' => default 0 (lo_nibble d) + base * number_value base ds'
  end.

Lemma lo_nibble_hex d : 0 <= d < 16 -> lo_nibble (hex d) = Some d.
Proof.
  intros Hd. assert (G : forallb (fun k => bool_decide (lo_nibble (hex (Z.of_nat k)) = Some (Z.of_nat k))) (seq 0 16) = true) by reflexivity.
  rewrite forallb_forall in G. specialize (G (Z.to_nat d)). rewrite Z2Nat.id in G by lia.
  apply bool_decide_eq_true in G; [done|]. apply in_seq. lia.
Qed.

(** The text is the number in that base. *)
Lemma number_text_value base n : 2 <= base <= 16 -> 0 <= n -> number_value base (reverse (number_text base n)) = n.
Proof.
  intros Hb Hn. unfold number_text. rewrite reverse_involutive.
  assert (G : forall fuel n, 0 <= n -> Z.log2 n < Z.of_nat fuel -> number_value base (digits fuel base n) = n).
  { induction fuel as [|fuel IH]; intros m Hm Hf; [pose proof (Z.log2_nonneg m); lia|]. cbn [digits number_value].
    pose proof (Z.mod_pos_bound m base ltac:(lia)). rewrite lo_nibble_hex by lia. cbn [default].
    pose proof (Z.div_mod m base ltac:(lia)) as Hdm. pose proof (Z.div_pos m base Hm ltac:(lia)) as Hq.
    destruct (m / base =? 0) eqn:E; zbool; cbn [number_value]; [unfold id; lia|].
    assert (Hl : Z.log2 (m / base) + 1 <= Z.log2 m).
    { rewrite Z.add_1_r, <- Z.log2_double by lia. apply Z.log2_le_mono. nia. }
    rewrite IH; [unfold id; lia|lia|lia]. }
  apply G; [lia|]. pose proof (Z.log2_nonneg n). lia.
Qed.

(** *** Linked variables *)

(** The variable found is the first of that name, which is the one added last. *)
Lemma getattr_found vars n v w : w_gil w = true -> find_var vars n = Some v ->
  SwigVarLink_getattr vars n w
  = (res <- gv_get v ;; error <- PyErr_Occurred ;;
     (if (res =? 0) && bool_decide (error = None) then PyErr_SetString AttributeError (unknown_variable n) else ret tt) ;;; ret res) w.
Proof. intros Hg Hf. unfold SwigVarLink_getattr. by rewrite Hf. Qed.

Lemma find_var_added vars n v : find_var (v :: vars) n = if decide (gv_name v = n) then Some v else find_var vars n.
Proof.
  unfold find_var. cbn. repeat case_decide; try done.
  - by rewrite strcmp_eq in *.
  - by rewrite strcmp_eq in *.
  - by destruct (list_find _ vars) as [[]|].
Qed.

Lemma getattr_unknown vars n w : w_gil w = true -> w_err w = None -> (forall v, v ∈ vars -> gv_name v <> n) ->
  SwigVarLink_getattr vars n w = (Ret 0, set_err (Some (err_of AttributeError (unknown_variable n))) w)
  /\ forall p, SwigVarLink_setattr vars n p w = (Ret 1, set_err (Some (err_of AttributeError (unknown_variable n))) w).
Proof.
  intros Hg He Hn. assert (Hf : find_var vars n = None).
  { unfold find_var. destruct (list_find _ vars) as [[i v]|] eqn:E; [|done]. apply list_find_Some in E as (Hi & Ev & _).
    apply strcmp_eq in Ev. destruct (Hn v); [by eapply list_elem_of_lookup_2|done]. }
  unfold SwigVarLink_getattr, SwigVarLink_setattr. rewrite Hf.
  assert (Es : forall r : Z, (error <- PyErr_Occurred ;;
    (if bool_decide (error = None) then PyErr_SetString AttributeError (unknown_variable n) else ret tt) ;;; ret r) w
    = (Ret r, set_err (Some (err_of AttributeError (unknown_variable n))) w)).
  { intros r. rewrite (bind_eq _ _ _ _ _ (occurred_eq w Hg)), He, bool_decide_true by done.
    by rewrite (bind_eq _ _ _ _ _ (set_string_eq w Hg _ _)). }
  split; [exact (Es 0)|]. intros p. exact (Es 1).
Qed.

(** Adding a variable takes two blocks, which the end of the object frees. *)
Lemma varlink_freed vars : forall w, NoDup (concat (map (fun v => [gv_name_block v; gv_block v]) vars)) ->
  (forall v, v ∈ vars -> gv_block v <> 0 /\ gv_name_block v <> 0 /\ is_Some (w_blocks w !! gv_block v)
     /\ is_Some (w_blocks w !! gv_name_block v)) ->
  exists w', SwigVarLink_dealloc vars w = (Ret tt, w')
    /\ w_blocks w' = foldr (fun v b => delete (gv_block v) (delete (gv_name_block v) b)) (w_blocks w) vars.
Proof.
  induction vars as [|v vars IH]; intros w Hd Hv; cbn [SwigVarLink_dealloc foldr]; [by exists w|].
  cbn [map concat app] in Hd. apply NoDup_cons in Hd as [Hn1 Hd]. apply NoDup_cons in Hd as [Hn2 Hd].
  destruct (Hv v ltac:(left)) as (Hz1 & Hz2 & [s1 Hs1] & [s2 Hs2]).
  rewrite (bind_eq _ _ _ _ _ (Api.free_live w _ _ Hz2 Hs2)). set (w1 := set_mem _ _).
  assert (Hs1' : w_blocks w1 !! gv_block v = Some s1).
  { cbn. rewrite lookup_delete_ne; [done|]. intros E. apply Hn1. rewrite E. left. }
  rewrite (bind_eq _ _ _ _ _ (Api.free_live w1 _ _ Hz1 Hs1')). set (w2 := set_mem _ (set_blocks (delete (gv_block v) _) _ _)).
  assert (Hin : forall x y, x ∈ vars -> y = gv_block x \/ y = gv_name_block x -> y <> gv_block v /\ y <> gv_name_block v).
  { intros x y Hx Hy. assert (Hc : y ∈ concat (map (fun v => [gv_name_block v; gv_block v]) vars)).
    { apply list_elem_of_In, in_concat. exists [gv_name_block x; gv_block x].
      split; [apply in_map_iff; exists x; by rewrite <- list_elem_of_In|]. cbn. destruct Hy; auto. }
    split; intros ->; [done|]. apply Hn1. by right. }
  destruct (IH w2 Hd) as (w' & E & Hb).
  { intros x Hx. destruct (Hv x ltac:(by right)) as (H1 & H2 & H3 & H4).
    destruct (Hin x (gv_block x) Hx) as [? ?]; [auto|]. destruct (Hin x (gv_name_block x) Hx) as [? ?]; [auto|].
    cbn. rewrite !lookup_delete_ne by congruence. done. }
  exists w'. split; [exact E|]. rewrite Hb. cbn [w_blocks w2 w1 set_mem set_blocks]. clear. 
  induction vars as [|x vars IH]; cbn [foldr]; [done|]. rewrite IH.
  apply map_eq. intros k. rewrite !lookup_delete. repeat case_decide; done.
Qed.
End Packed.
