(* ===== verification/Session.v ===== *)
(** * The session of an API object

    Models the wrappers of ctp_wrap.cpp for the methods of [CThostFtdcMdApi]
    (lines 472182 to 472890) and [CThostFtdcTraderApi] (lines 485757 to 486640)
    that are no requests: the overloaded constructors [CreateFtdc*Api] with
    [SWIG_Python_RaiseOrModifyTypeError], [GetApiVersion], [Release], [Init],
    [Join], [GetTradingDay], [GetFrontInfo], the registrations of addresses,
    users and callback objects, and the topics.  They are instances of three
    templates.  The CTP library is the parameter [CtpEnv] of Api. *)

From S2P Require Import Prelude TypeTable CtpTypes Utf8 World Runtime ClientData SwigObject Conversions Iconv Layout Accessor Director Lifecycle Api.

Module Session.
Import World Utf8 Runtime ClientData SwigObject Conversions Iconv Accessor Director Lifecycle Api.

(** ** Errors of overloaded functions *)

Section Errors.
(** The text of [str(value)]. *)
Context (str_of : Z -> list Z).

Definition SWIG_Python_TypeErrorOccurred (obj : Z) : M bool :=
  if negb (obj =? 0) then ret false
  else
    error <- PyErr_Occurred ;;
    ret match error with Some e => bool_decide (e_kind e = TypeError) | None => false end.

Definition value_text (e : pyerr) : list Z := if e_value e =? 0 then e_msg e else str_of (e_value e).

Definition modified_text (e : pyerr) (message : list Z) : list Z :=
  value_text e ++ [10] ++ chars "Additional information:" ++ [10] ++ message.

Definition SWIG_Python_RaiseOrModifyTypeError (message : list Z) : M unit :=
  occurred <- SWIG_Python_TypeErrorOccurred 0 ;;
  error <- gets w_err ;;
  match occurred, error with
  | true, Some e =>
      PyErr_Fetch ;;;
      newvalue <- new_object (OStr (modified_text e message)) ;;
      Py_XDECREF (e_value e) ;;;
      PyErr_Restore (Some (mk_err (e_kind e) (modified_text e message) (e_type e) newvalue (e_tb e)))
  | _, _ => PyErr_SetString TypeError message
  end.
End Errors.

(** ** The templates *)

(** What a method returns, and what it takes besides the API object. *)
Inductive result_kind := KVoid | KInt | KText.
Inductive param := PText | PPtr (t : string) (ty : nat) | PEnum (t : string).

Definition param_type (a : param) : string :=
  match a with PText => "char *" | PPtr t _ => (t +:+ " *")%string | PEnum t => t end.

(** A virtual method that is no request: the names and the type index its
    wrapper uses, what it takes and what it returns. *)
Record session := mk_session {
  s_class : string; s_method : string; s_this : nat; s_param : option param; s_result : result_kind }.

Definition method_decl (cls method params : string) : string := (cls +:+ "::" +:+ method +:+ "(" +:+ params +:+ ")")%string.

Section Wrappers.
Context (long_w : Z) `{TypeEnv} (implicit : nat -> option (Z -> M Z)) `{CtpEnv} (utf8_buffer : Z -> Z).
Context (str_of : Z -> list Z).

(** [SWIG_AsCharPtrAndSize(obj, &buf, NULL, &alloc)]: the code and [buf]; the
    buffer is that of the string object, or the pointer that is wrapped. *)
Definition char_buffer (pchar_descriptor : option nat) (obj : Z) : M (Z * option Z) :=
  v <- object_at obj ;;
  match v with
  | OStr s => match utf8_encode s with
              | Some _ => ret (SWIG_OK, Some (utf8_buffer obj))
              | None => PyErr_SetString ValueError (chars "surrogates not allowed") ;;; ret (SWIG_TypeError, None)
              end
  | _ =>
      match pchar_descriptor with
      | None => ret (SWIG_TypeError, None)
      | Some d =>
          r <- SWIG_ConvertPtr implicit obj d 0 ;;
          ret (if fst r =? SWIG_OK then (SWIG_OK, Some (snd r)) else (SWIG_TypeError, None))
      end
  end.
Definition as_char_pointer (obj : Z) : M (Z * option Z) := char_buffer SWIG_pchar_descriptor obj.

Definition convert_param (a : param) (obj : Z) : M (Z * option Z) :=
  match a with
  | PText => as_char_pointer obj
  | PPtr _ ty => r <- SWIG_ConvertPtr implicit obj ty 0 ;; ret (fst r, Some (snd r))
  | PEnum _ => SWIG_AsVal_int long_w obj
  end.

(** The object made of the result; [None] is the jump to [fail]. *)
Definition finish (k : result_kind) (r : option Z) : M Z :=
  match r, k with
  | None, _ => ret 0
  | Some _, KVoid => SWIG_Py_Void
  | Some result, KInt => SWIG_From_int result
  | Some result, KText =>
      if result =? 0 then SWIG_FromCharPtr None else s <- c_string result ;; SWIG_FromCharPtr (Some s)
  end.

(** A method without parameters.
    (ctp_wrap.cpp, lines 472489 to 472528.) *)
Definition wrap_self (cls method : string) (ty : nat) (k : result_kind) (args : Z) : M Z :=
  if args =? 0 then ret 0
  else
    c1 <- SWIG_ConvertPtr implicit args ty 0 ;;
    let '(res1, arg1) := c1 in
    if negb (SWIG_IsOK res1) then
      exception_fail (SWIG_ArgError res1) (arg_msg (cls +:+ "_" +:+ method) "1" (cls +:+ " *"))
    else r <- guarded (method_decl cls method "") (call_virtual method arg1 []) ;; finish k r.

(** A method with one parameter.
    (ctp_wrap.cpp, lines 472675 to 472730.) *)
Definition wrap_pair (cls method : string) (ty : nat) (a : param) (k : result_kind) (args : Z) : M Z :=
  let meth := (cls +:+ "_" +:+ method)%string in
  u <- SWIG_Python_UnpackTuple args meth 2 2 ;;
  match u with
  | (_, [obj0; obj1]) =>
      c1 <- SWIG_ConvertPtr implicit obj0 ty 0 ;;
      let '(res1, arg1) := c1 in
      if negb (SWIG_IsOK res1) then exception_fail (SWIG_ArgError res1) (arg_msg meth "1" (cls +:+ " *"))
      else
        c2 <- convert_param a obj1 ;;
        match c2 with
        | (res2, Some arg2) =>
            if negb (SWIG_IsOK res2) then exception_fail (SWIG_ArgError res2) (arg_msg meth "2" (param_type a))
            else r <- guarded (method_decl cls method (param_type a)) (call_virtual method arg1 [arg2]) ;; finish k r
        | (res2, None) => exception_fail (SWIG_ArgError res2) (arg_msg meth "2" (param_type a))
        end
  | _ => ret 0
  end.

(** A static method is called without an object.
    (ctp_wrap.cpp, line 472462.) *)
Definition call_static (method : string) (args : list Z) : M Z :=
  modify (log (EVirtual method 0 args)) ;;; ctp_method method 0 args.

(** ctp_wrap.cpp, lines 472452 to 472486. *)
Definition wrap_version (cls : string) (args : Z) : M Z :=
  u <- SWIG_Python_UnpackTuple args (cls +:+ "_GetApiVersion") 0 0 ;;
  if fst u =? 0 then ret 0
  else r <- guarded (method_decl cls "GetApiVersion" "") (call_static "GetApiVersion" []) ;; finish KText r.

(** *** The overloads of [CreateFtdc*Api] *)

Fixpoint create_params (n : nat) : string :=
  match n with O => "" | S O => "char const *" | S n' => (create_params n' +:+ ",bool const")%string end.

(** The flags from argument [i] on; [None] with the error set. *)
Fixpoint as_flags (meth : string) (i : Z) (objs : list Z) : M (option (list Z)) :=
  match objs with
  | [] => ret (Some [])
  | o :: objs' =>
      r <- SWIG_AsVal_bool o ;;
      match r with
      | (_, Some v) => rest <- as_flags meth (i + 1) objs' ;; ret (cons (if v then 1 else 0) <$> rest)
      | (ecode, None) => exception_fail (SWIG_ArgError ecode) (arg_msg meth (dec i) "bool") ;;; ret None
      end
  end.

Definition create_call (cls method : string) (ty : nat) (nobjs : nat) (args : list Z) : M Z :=
  r <- guarded (method_decl cls method (create_params nobjs)) (call_static method args) ;;
  match r with
  | None => ret 0
  | Some result => SWIG_Python_NewPointerObj result (Some ty) 0
  end.

(** [_wrap_Api_CreateFtdcApi__SWIG_i] for the objects it gets.
    (ctp_wrap.cpp, lines 472182 to 472384.) *)
Definition create_with (cls method : string) (ty : nat) (objs : list Z) : M Z :=
  let meth := (cls +:+ "_" +:+ method)%string in
  match objs with
  | [] => create_call cls method ty 0 []
  | obj1 :: flags =>
      c1 <- as_char_pointer obj1 ;;
      match c1 with
      | (_, Some arg1) =>
          rest <- as_flags meth 2 flags ;;
          match rest with
          | Some vs => create_call cls method ty (length objs) (arg1 :: vs)
          | None => ret 0
          end
      | (res1, None) => exception_fail (SWIG_ArgError res1) (arg_msg meth "1" "char const *")
      end
  end.

(** The tests of the dispatch function, in order.
    (ctp_wrap.cpp, lines 472395 to 472438.) *)
Fixpoint check_flags (objs : list Z) : M bool :=
  match objs with
  | [] => ret true
  | o :: objs' => r <- SWIG_AsVal_bool o ;; if SWIG_IsOK (fst r) then check_flags objs' else ret false
  end.
Definition check_args (objs : list Z) : M bool :=
  match objs with
  | [] => ret true
  | o :: flags => r <- as_char_pointer o ;; if SWIG_IsOK (fst r) then check_flags flags else ret false
  end.

Fixpoint prototypes (cls method : string) (n : nat) : list Z :=
  str_cat ["    "; method_decl cls method (create_params n)]%string ++ [10]
  ++ match n with O => [] | S n' => prototypes cls method n' end.
Definition overload_msg (cls method : string) (max : nat) : list Z :=
  str_cat ["Wrong number or type of arguments for overloaded function '"; cls; "_"; method; "'."]%string ++ [10]
  ++ chars "  Possible C/C++ prototypes are:" ++ [10] ++ prototypes cls method max.

(** The dispatch function.
    (ctp_wrap.cpp, lines 472387 to 472449.) *)
Definition wrap_create (cls method : string) (ty max : nat) (args : Z) : M Z :=
  let fail := SWIG_Python_RaiseOrModifyTypeError str_of (overload_msg cls method max) ;;; ret 0 in
  u <- SWIG_Python_UnpackTuple args (cls +:+ "_" +:+ method) 0 (Z.of_nat max) ;;
  if fst u =? 0 then fail
  else
    let objs := take (Z.to_nat (fst u - 1)) (snd u) in
    ok <- check_args objs ;;
    if ok then create_with cls method ty objs else fail.

Definition wrap_session (s : session) : Z -> M Z :=
  match s_param s with
  | None => wrap_self (s_class s) (s_method s) (s_this s) (s_result s)
  | Some a => wrap_pair (s_class s) (s_method s) (s_this s) a (s_result s)
  end.

(** ** The static methods *)

Definition CThostFtdcMdApi_CreateFtdcMdApi : Z -> M Z := wrap_create "CThostFtdcMdApi" "CreateFtdcMdApi" 143 3.
Definition CThostFtdcMdApi_GetApiVersion : Z -> M Z := wrap_version "CThostFtdcMdApi".
Definition CThostFtdcTraderApi_CreateFtdcTraderApi : Z -> M Z := wrap_create "CThostFtdcTraderApi" "CreateFtdcTraderApi" 439 1.
Definition CThostFtdcTraderApi_GetApiVersion : Z -> M Z := wrap_version "CThostFtdcTraderApi".
End Wrappers.

(** ** The virtual methods *)

Definition CThostFtdcMdApi_Release : session := mk_session "CThostFtdcMdApi" "Release" 143 None KVoid.
Definition CThostFtdcMdApi_Init : session := mk_session "CThostFtdcMdApi" "Init" 143 None KVoid.
Definition CThostFtdcMdApi_Join : session := mk_session "CThostFtdcMdApi" "Join" 143 None KInt.
Definition CThostFtdcMdApi_GetTradingDay : session :=
  mk_session "CThostFtdcMdApi" "GetTradingDay" 143 None KText.
Definition CThostFtdcMdApi_RegisterFront : session :=
  mk_session "CThostFtdcMdApi" "RegisterFront" 143 (Some PText) KVoid.
Definition CThostFtdcMdApi_RegisterNameServer : session :=
  mk_session "CThostFtdcMdApi" "RegisterNameServer" 143 (Some PText) KVoid.
Definition CThostFtdcMdApi_RegisterFensUserInfo : session :=
  mk_session "CThostFtdcMdApi" "RegisterFensUserInfo" 143 (Some (PPtr "CThostFtdcFensUserInfoField" 70)) KVoid.
Definition CThostFtdcMdApi_RegisterSpi : session :=
  mk_session "CThostFtdcMdApi" "RegisterSpi" 143 (Some (PPtr "CThostFtdcMdSpi" 144)) KVoid.
Definition CThostFtdcTraderApi_Release : session := mk_session "CThostFtdcTraderApi" "Release" 439 None KVoid.
Definition CThostFtdcTraderApi_Init : session := mk_session "CThostFtdcTraderApi" "Init" 439 None KVoid.
Definition CThostFtdcTraderApi_Join : session := mk_session "CThostFtdcTraderApi" "Join" 439 None KInt.
Definition CThostFtdcTraderApi_GetTradingDay : session :=
  mk_session "CThostFtdcTraderApi" "GetTradingDay" 439 None KText.
Definition CThostFtdcTraderApi_GetFrontInfo : session :=
  mk_session "CThostFtdcTraderApi" "GetFrontInfo" 439 (Some (PPtr "CThostFtdcFrontInfoField" 75)) KVoid.
Definition CThostFtdcTraderApi_RegisterFront : session :=
  mk_session "CThostFtdcTraderApi" "RegisterFront" 439 (Some PText) KVoid.
Definition CThostFtdcTraderApi_RegisterNameServer : session :=
  mk_session "CThostFtdcTraderApi" "RegisterNameServer" 439 (Some PText) KVoid.
Definition CThostFtdcTraderApi_RegisterFensUserInfo : session :=
  mk_session "CThostFtdcTraderApi" "RegisterFensUserInfo" 439 (Some (PPtr "CThostFtdcFensUserInfoField" 70)) KVoid.
Definition CThostFtdcTraderApi_RegisterSpi : session :=
  mk_session "CThostFtdcTraderApi" "RegisterSpi" 439 (Some (PPtr "CThostFtdcTraderSpi" 443)) KVoid.
Definition CThostFtdcTraderApi_SubscribePrivateTopic : session :=
  mk_session "CThostFtdcTraderApi" "SubscribePrivateTopic" 439 (Some (PEnum "THOST_TE_RESUME_TYPE")) KVoid.
Definition CThostFtdcTraderApi_SubscribePublicTopic : session :=
  mk_session "CThostFtdcTraderApi" "SubscribePublicTopic" 439 (Some (PEnum "THOST_TE_RESUME_TYPE")) KVoid.
Definition CThostFtdcTraderApi_RegisterUserSystemInfo : session :=
  mk_session "CThostFtdcTraderApi" "RegisterUserSystemInfo" 439 (Some (PPtr "CThostFtdcUserSystemInfoField" 469)) KInt.
Definition CThostFtdcTraderApi_SubmitUserSystemInfo : session :=
  mk_session "CThostFtdcTraderApi" "SubmitUserSystemInfo" 439 (Some (PPtr "CThostFtdcUserSystemInfoField" 469)) KInt.

Definition md_sessions : list session :=
  [ CThostFtdcMdApi_Release;
    CThostFtdcMdApi_Init;
    CThostFtdcMdApi_Join;
    CThostFtdcMdApi_GetTradingDay;
    CThostFtdcMdApi_RegisterFront;
    CThostFtdcMdApi_RegisterNameServer;
    CThostFtdcMdApi_RegisterFensUserInfo;
    CThostFtdcMdApi_RegisterSpi ].

Definition trader_sessions : list session :=
  [ CThostFtdcTraderApi_Release;
    CThostFtdcTraderApi_Init;
    CThostFtdcTraderApi_Join;
    CThostFtdcTraderApi_GetTradingDay;
    CThostFtdcTraderApi_GetFrontInfo;
    CThostFtdcTraderApi_RegisterFront;
    CThostFtdcTraderApi_RegisterNameServer;
    CThostFtdcTraderApi_RegisterFensUserInfo;
    CThostFtdcTraderApi_RegisterSpi;
    CThostFtdcTraderApi_SubscribePrivateTopic;
    CThostFtdcTraderApi_SubscribePublicTopic;
    CThostFtdcTraderApi_RegisterUserSystemInfo;
    CThostFtdcTraderApi_SubmitUserSystemInfo ].

(** ** Lemmas *)

Section SessionLemmas.
Context (long_w : Z) (Hlong : 32 <= long_w) `{!TypeEnv, !ExactTypes _}.
Context (implicit : nat -> option (Z -> M Z)) `{!CtpEnv, !CtpLaws _} (utf8_buffer : Z -> Z) (str_of : Z -> list Z).

(** A text argument: the buffer of a string, or null for None. *)
Definition text_arg (w : world) (obj v : Z) : Prop :=
  (encodable w obj /\ v = utf8_buffer obj) \/ (obj = Py_None /\ v = 0 /\ w_heap w !! Py_None = Some ONone).

(** An argument of the right type, and the value the method gets for it. *)
Definition accepts (w : world) (a : param) (obj v : Z) : Prop :=
  match a with
  | PText => text_arg w obj v
  | PPtr _ ty => (ty < te_size)%nat /\ ptr_arg w obj ty v
  | PEnum _ => w_heap w !! obj = Some (OInt v) /\ INT_MIN <= v <= INT_MAX
  end.

Lemma accepts_same w w' a obj v : same w w' -> accepts w a obj v -> accepts w' a obj v.
Proof.
  intros S. destruct a as [|t ty|t]; cbn; unfold text_arg.
  - rewrite (same_heap _ _ S). intros [[He ->]|Hn]; [left|by right]. split; [by eapply encodable_same|done].
  - intros [Ht Hp]. split; [done|by eapply ptr_arg_same].
  - by rewrite (same_heap _ _ S).
Qed.

Lemma as_char_pointer_arg w obj v : w_gil w = true -> text_arg w obj v ->
  as_char_pointer implicit utf8_buffer obj w = (Ret (SWIG_OK, Some v), w).
Proof.
  intros Hg Ht. unfold as_char_pointer. rewrite pchar_descriptor_eq. unfold char_buffer.
  destruct Ht as [[(s & b & Ho & Hb) ->]|(-> & -> & Hn)].
  - by rewrite (bind_eq _ _ _ _ _ (object_at_eq w Hg obj _ Ho)), Hb.
  - by rewrite (bind_eq _ _ _ _ _ (object_at_eq w Hg Py_None _ Hn)).
Qed.

Lemma convert_accepts w a obj v : w_gil w = true -> w_err w = None -> accepts w a obj v ->
  exists w', convert_param long_w implicit utf8_buffer a obj w = (Ret (SWIG_OK, Some v), w') /\ same w w'.
Proof.
  intros Hg He. destruct a as [|t ty|t]; cbn [accepts convert_param].
  - intros Hs. exists w. split; [by apply as_char_pointer_arg|done].
  - intros [Ht Hp]. destruct (convert_ptr_arg implicit w obj ty v Hg Ht Hp) as (w' & E & S).
    exists w'. split; [|done]. by rewrite (bind_eq _ _ _ _ _ E).
  - intros [Ho Hv]. exists w. split; [|done]. unfold SWIG_AsVal_int.
    rewrite (as_val_narrow long_w Hlong INT_MIN INT_MAX w obj _ Hg He Ho ltac:(done) ltac:(done)).
    unfold int_spec. cbn [as_long]. by rewrite !(proj2 (Z.leb_le _ _)) by lia.
Qed.

(** The text a method returns is null or a C string that is still there. *)
Definition readable (k : result_kind) (r : res Z) (w1 : world) (l : list Z) : Prop :=
  match k, r with
  | KText, Ret n => n <> 0 -> no_nul l /\ exists rest, holds w1 n (l ++ 0 :: rest)
  | _, _ => True
  end.

(** The object the caller gets for the outcome [r] of the library. *)
Definition result_of (k : result_kind) (n : Z) (l : list Z) : pyobj :=
  match k with
  | KVoid => ONone
  | KInt => OInt n
  | KText => if n =? 0 then ONone else OStr (utf8_decode l)
  end.

(** The outcome of a call made with the lock released, as the wrapper reports it. *)
Definition delivered (k : result_kind) (decl : string) (w : world) (r : res Z) (w1 : world) (l : list Z)
    (out : res Z * world) : Prop :=
  exists o w', out = (Ret o, w') /\ w_gil w' = true /\ w_calls w' = w_calls w /\ w_blocks w' = w_blocks w
    /\ match r with
       | Ret n => w_heap w' !! o = Some (result_of k n l) /\ w_err w' = w_err w
                  /\ forall x, refs w' x = refs w x + if decide (o = x) then 1 else 0
       | Throw e => o = 0 /\ w_err w' = caught decl e (w_err w1) /\ is_Some (w_err w')
                    /\ forall x, refs w' x = refs w x
       | Stuck _ => False
       end.

Lemma void_delivered w : w_gil w = true -> w_heap w !! Py_None = Some ONone ->
  exists w', SWIG_Py_Void w = (Ret Py_None, w') /\ w_gil w' = true /\ w_calls w' = w_calls w
    /\ w_blocks w' = w_blocks w /\ w_heap w' !! Py_None = Some ONone /\ w_err w' = w_err w
    /\ forall x, refs w' x = refs w x + if decide (Py_None = x) then 1 else 0.
Proof.
  intros Hg Hn. eexists. split; [exact (py_void_eq w Hg)|]. do 5 (split; [done|]).
  exact (refs_add w Py_None 1).
Qed.

Lemma object_delivered v w : w_gil w = true ->
  exists w', new_object v w = (Ret (w_fresh w), w') /\ w_gil w' = true /\ w_calls w' = w_calls w
    /\ w_blocks w' = w_blocks w /\ w_heap w' !! w_fresh w = Some v /\ w_err w' = w_err w
    /\ forall x, refs w' x = refs w x + if decide (w_fresh w = x) then 1 else 0.
Proof.
  intros Hg. eexists. split; [exact (new_object_eq w Hg v)|]. do 3 (split; [done|]).
  split; [apply lookup_insert_eq|]. split; [done|]. exact (refs_add _ (w_fresh w) 1).
Qed.

(** The object made of a result. *)
Lemma finish_delivers k n w l : w_gil w = true -> w_heap w !! Py_None = Some ONone -> readable k (Ret n) w l ->
  exists o w', finish k (Some n) w = (Ret o, w') /\ w_gil w' = true /\ w_calls w' = w_calls w
    /\ w_blocks w' = w_blocks w /\ w_heap w' !! o = Some (result_of k n l) /\ w_err w' = w_err w
    /\ forall x, refs w' x = refs w x + if decide (o = x) then 1 else 0.
Proof.
  intros Hg Hn Hr. destruct k; cbn [finish result_of].
  - eexists. by apply void_delivered.
  - eexists. by apply object_delivered.
  - destruct (n =? 0) eqn:En; zbool; [eexists; by apply void_delivered|].
    destruct (Hr ltac:(lia)) as (Hl & rest & Hh). eexists.
    rewrite (bind_eq _ _ _ _ _ (c_string_holds w n l rest Hh Hl)).
    unfold SWIG_FromCharPtr, SWIG_FromCharPtrAndSize. rewrite cstr_id by done. by apply object_delivered.
Qed.

Lemma call_static_eq method args w :
  call_static method args w = ctp_method method 0 args (log (EVirtual method 0 args) w).
Proof. done. Qed.

(** The call and the object made of its result. *)
Lemma guarded_delivered k decl m ev w r w1 l : w_gil w = true -> w_heap w !! Py_None = Some ONone ->
  m (set_gil false w) = (r, w1) -> left_ (set_gil false (log ev w)) r w1 -> readable k r w1 l ->
  delivered k decl (log ev w) r w1 l (bind (guarded decl m) (finish k) w).
Proof.
  intros Hg Hn E [L1 L2 L3 L4 L5 Lc L6] Hr. cbn in L2, L3, L5, Lc, L6.
  pose proof (guarded_run decl m w r w1 Hg E) as Eg.
  destruct r as [n|e|u]; [| |done]; rewrite (bind_eq _ _ _ _ _ Eg).
  - destruct (finish_delivers k n (set_gil true w1) l eq_refl) as (o & w' & Ef & F1 & F2 & F3 & F4 & F5 & F6).
    { cbn. by rewrite L2. }
    { destruct k; [done..|]. intros Hz. destruct (Hr Hz) as (Hl & rest & Hh). split; [done|]. by exists rest. }
    exists o, w'. split; [exact Ef|]. split; [done|]. split; [by rewrite F2|]. split; [by rewrite F3|].
    split; [done|]. split; [by rewrite F5|]. intros x. rewrite F6. f_equal. exact (L4 x).
  - exists 0. eexists. split; [by destruct k|]. split; [done|]. split; [exact Lc|]. split; [exact L5|].
    split; [done|]. split; [done|]. split; [|exact L4]. destruct e; done.
Qed.

(** With arguments of the right types the templates reach the call. *)
Lemma self_run w args (cls method : string) ty k p : w_gil w = true -> args <> 0 -> (ty < te_size)%nat ->
  wraps_ptr w args ty p ->
  exists wc, same w wc /\ wrap_self implicit cls method ty k args w
    = bind (guarded (method_decl cls method "") (call_virtual method p [])) (finish k) wc.
Proof.
  intros Hg Ha Hty Hp. unfold wrap_self. rewrite (proj2 (Z.eqb_neq _ _) Ha).
  destruct (convert_wraps implicit w args ty p Hg Hty Hp) as (wc & E & S).
  exists wc. split; [done|]. by rewrite (bind_eq _ _ _ _ _ E).
Qed.

Lemma pair_run w args o0 o1 (cls method : string) ty a k p v : w_gil w = true -> w_err w = None -> args <> 0 ->
  (ty < te_size)%nat -> w_heap w !! args = Some (OTuple [o0; o1]) -> wraps_ptr w o0 ty p -> accepts w a o1 v ->
  exists wc, same w wc /\ wrap_pair long_w implicit utf8_buffer cls method ty a k args w
    = bind (guarded (method_decl cls method (param_type a)) (call_virtual method p [v])) (finish k) wc.
Proof.
  intros Hg He Ha Hty Ht Hp Hv. unfold wrap_pair.
  rewrite (bind_eq _ _ _ _ _ (unpack_exact w args _ _ 2 Hg Ha Ht eq_refl)).
  destruct (convert_wraps implicit w o0 ty p Hg Hty Hp) as (w1 & E1 & S1).
  rewrite (bind_eq _ _ _ _ _ E1). change (SWIG_IsOK SWIG_OK) with true. cbn [negb].
  destruct (convert_accepts w1 a o1 v) as (w2 & E2 & S2);
    [by rewrite (same_gil _ _ S1)|by rewrite (same_err _ _ S1)|by eapply accepts_same|].
  exists w2. split; [by etrans|]. by rewrite (bind_eq _ _ _ _ _ E2).
Qed.

(** The arguments of a session method, and the C++ declaration in its message. *)
Definition session_args (w : world) (s : session) (args o0 : Z) (vs : list Z) : Prop :=
  match s_param s with
  | None => args = o0 /\ vs = []
  | Some a => exists o1 v, w_heap w !! args = Some (OTuple [o0; o1]) /\ accepts w a o1 v /\ vs = [v]
  end.
Definition session_decl (s : session) : string :=
  method_decl (s_class s) (s_method s) (match s_param s with None => "" | Some a => param_type a end).

Lemma session_run s w args o0 p vs : w_gil w = true -> w_err w = None -> args <> 0 ->
  (s_this s < te_size)%nat -> wraps_ptr w o0 (s_this s) p -> session_args w s args o0 vs ->
  exists wc, same w wc /\ wrap_session long_w implicit utf8_buffer s args w
    = bind (guarded (session_decl s) (call_virtual (s_method s) p vs)) (finish (s_result s)) wc.
Proof.
  intros Hg He Ha Hty Hp. unfold session_args, session_decl, wrap_session. destruct (s_param s) as [a|].
  - intros (o1 & v & Ht & Hv & ->). by apply (pair_run w args o0 o1).
  - intros [-> ->]. by apply self_run.
Qed.

(** *** Overloads *)

Lemma unpack_upto w args name items max : w_gil w = true -> args <> 0 ->
  w_heap w !! args = Some (OTuple items) -> (length items <= max)%nat ->
  SWIG_Python_UnpackTuple args name 0 (Z.of_nat max) w
  = (Ret (Z.of_nat (length items) + 1, items ++ replicate (max - length items) 0), w).
Proof.
  intros Hg Ha Ht Hl. unfold SWIG_Python_UnpackTuple. rewrite (proj2 (Z.eqb_neq _ _) Ha).
  rewrite (bind_eq _ _ _ _ _ (object_at_eq w Hg args _ Ht)).
  rewrite (proj2 (Z.ltb_ge _ _)), (proj2 (Z.ltb_ge _ _)) by lia.
  by replace (Z.to_nat _) with (max - length items)%nat by lia.
Qed.

Definition many_msg (meth : string) (max n : nat) : list Z :=
  arity_msg meth (if 0 =? Z.of_nat max then "" else "at most ") (Z.of_nat max) (dec (Z.of_nat n)).
Lemma unpack_many w args name items max : w_gil w = true -> args <> 0 ->
  w_heap w !! args = Some (OTuple items) -> (max < length items)%nat ->
  SWIG_Python_UnpackTuple args name 0 (Z.of_nat max) w
  = (Ret (0, []), set_err (Some (err_of TypeError (many_msg name max (length items)))) w).
Proof.
  intros Hg Ha Ht Hl. unfold SWIG_Python_UnpackTuple. rewrite (proj2 (Z.eqb_neq _ _) Ha).
  rewrite (bind_eq _ _ _ _ _ (object_at_eq w Hg args _ Ht)).
  rewrite (proj2 (Z.ltb_ge _ _)), (proj2 (Z.ltb_lt _ _)) by lia.
  by rewrite (bind_eq _ _ _ _ _ (set_string_eq w Hg _ _)).
Qed.

(** The flags after the text, and the objects one overload accepts. *)
Definition is_flag (w : world) (o : Z) (b : bool) : Prop := w_heap w !! o = Some (OBool b).
Definition flag_value (b : bool) : Z := if b then 1 else 0.
Definition create_args (w : world) (objs vs : list Z) : Prop :=
  match objs with
  | [] => vs = []
  | o :: flags => exists v bs, text_arg w o v /\ Forall2 (is_flag w) flags bs /\ vs = v :: (flag_value <$> bs)
  end.

Lemma as_bool_flag w o b : w_gil w = true -> is_flag w o b -> SWIG_AsVal_bool o w = (Ret (SWIG_OK, Some b), w).
Proof. intros Hg Ho. unfold SWIG_AsVal_bool. by rewrite (bind_eq _ _ _ _ _ (object_at_eq w Hg o _ Ho)). Qed.

Lemma check_flags_ok w flags bs : w_gil w = true -> Forall2 (is_flag w) flags bs -> check_flags flags w = (Ret true, w).
Proof.
  intros Hg Hf. induction Hf as [|o b flags bs Ho Hf IH]; [done|]. cbn [check_flags].
  by rewrite (bind_eq _ _ _ _ _ (as_bool_flag w o b Hg Ho)).
Qed.

Lemma as_flags_ok w meth i flags bs : w_gil w = true -> Forall2 (is_flag w) flags bs ->
  as_flags meth i flags w = (Ret (Some (flag_value <$> bs)), w).
Proof.
  intros Hg Hf. revert i. induction Hf as [|o b flags bs Ho Hf IH]; intros i; [done|]. cbn [as_flags].
  by rewrite (bind_eq _ _ _ _ _ (as_bool_flag w o b Hg Ho)), (bind_eq _ _ _ _ _ (IH (i + 1))).
Qed.

Lemma check_flags_bad w pre bs bad post v : w_gil w = true -> Forall2 (is_flag w) pre bs ->
  w_heap w !! bad = Some v -> (forall b, v <> OBool b) -> check_flags (pre ++ bad :: post) w = (Ret false, w).
Proof.
  intros Hg Hf Hb Hv. induction Hf as [|o b pre bs Ho Hf IH]; cbn [app check_flags].
  - unfold SWIG_AsVal_bool. rewrite bind_assoc, (bind_eq _ _ _ _ _ (object_at_eq w Hg bad _ Hb)).
    destruct v; try done. by destruct (Hv b).
  - by rewrite (bind_eq _ _ _ _ _ (as_bool_flag w o b Hg Ho)).
Qed.

Lemma check_args_ok w objs vs : w_gil w = true -> create_args w objs vs ->
  check_args implicit utf8_buffer objs w = (Ret true, w).
Proof.
  intros Hg. destruct objs as [|o flags]; [done|]. intros (v & bs & Hv & Hf & _). cbn [check_args].
  rewrite (bind_eq _ _ _ _ _ (as_char_pointer_arg w o v Hg Hv)). by apply (check_flags_ok w flags bs).
Qed.

(** The dispatch picks the overload with the number of arguments given. *)
Lemma create_run w args (cls method : string) ty max objs vs : w_gil w = true -> args <> 0 ->
  w_heap w !! args = Some (OTuple objs) -> (length objs <= max)%nat -> create_args w objs vs ->
  wrap_create implicit utf8_buffer str_of cls method ty max args w = create_call cls method ty (length objs) vs w.
Proof.
  intros Hg Ha Ht Hl Hv. unfold wrap_create.
  rewrite (bind_eq _ _ _ _ _ (unpack_upto w args _ objs max Hg Ha Ht Hl)). cbn [fst snd].
  rewrite (proj2 (Z.eqb_neq _ _)) by lia. replace (_ + 1 - 1) with (Z.of_nat (length objs)) by lia.
  rewrite Nat2Z.id, take_app_length. rewrite (bind_eq _ _ _ _ _ (check_args_ok w objs vs Hg Hv)).
  destruct objs as [|o flags]; cbn in Hv; [by subst|]. destruct Hv as (v & bs & Hv & Hf & ->).
  cbn [create_with]. rewrite (bind_eq _ _ _ _ _ (as_char_pointer_arg w o v Hg Hv)).
  by rewrite (bind_eq _ _ _ _ _ (as_flags_ok w _ 2 flags bs Hg Hf)).
Qed.

(** The object made for the API object the library returns. *)
Definition api_object (decl : string) (ty : nat) (w : world) (r : res Z) (w1 : world) (out : res Z * world) : Prop :=
  exists obj w', out = (Ret obj, w') /\ w_gil w' = true /\ w_calls w' = w_calls w
    /\ match r with
       | Ret p => w_err w' = w_err w /\ if p =? 0 then obj = Py_None else
                    exists o, resolves w' obj o /\ w_heap w' !! o = Some (OSwig (mk_swigobj p (Some ty) 0 None))
       | Throw e => obj = 0 /\ w_err w' = caught decl e (w_err w1) /\ is_Some (w_err w')
       | Stuck _ => False
       end.

Lemma create_call_object (cls method : string) ty n vs w r w1 : w_gil w = true -> fresh_ok w ->
  let wc := log (EVirtual method 0 vs) w in
  ctp_method method 0 vs (set_gil false wc) = (r, w1) ->
  api_object (method_decl cls method (create_params n)) ty wc r w1 (create_call cls method ty n vs w).
Proof.
  intros Hg Hf wc E. pose proof (ctp_method_left _ _ _ (set_gil false wc) _ _ eq_refl E) as [L1 L2 L3 L4 L5 Lc L6].
  cbn in L2, L3, Lc, L6. set (decl := method_decl cls method (create_params n)).
  pose proof (guarded_run decl (call_static method vs) w r w1 Hg E) as Eg. unfold create_call. fold decl.
  destruct r as [p|e|u]; [| |done]; rewrite (bind_eq _ _ _ _ _ Eg); cbn beta iota.
  - destruct (p =? 0) eqn:Ep; zbool.
    + subst p. exists Py_None. eexists. split; [exact (py_void_eq (set_gil true w1) eq_refl)|]. by rewrite Z.eqb_refl.
    + destruct (new_pointer_obj_spec (set_gil true w1) p ty 0 eq_refl) as
        (obj & o & w' & En & Hg' & _ & _ & Ho & Hr & He & _ & [_ Hc] & _); [|done|].
      { unfold fresh_ok. cbn. by rewrite L2, L3. }
      exists obj, w'. split; [exact En|]. split; [done|]. split; [by rewrite Hc|]. split; [by rewrite He|].
      rewrite (proj2 (Z.eqb_neq _ _)) by done. by exists o.
  - exists 0. eexists. split; [reflexivity|]. split; [done|]. split; [exact Lc|]. split; [done|]. split; [done|].
    by destruct e.
Qed.

(** *** Errors *)

Lemma raise_type_error w msg : w_gil w = true -> w_err w = None \/ (exists e, w_err w = Some e /\ e_kind e <> TypeError) ->
  SWIG_Python_RaiseOrModifyTypeError str_of msg w = (Ret tt, set_err (Some (err_of TypeError msg)) w).
Proof.
  intros Hg He. unfold SWIG_Python_RaiseOrModifyTypeError.
  assert (E : SWIG_Python_TypeErrorOccurred 0 w = (Ret false, w)).
  { unfold SWIG_Python_TypeErrorOccurred. cbn [negb Z.eqb]. rewrite (bind_eq _ _ _ _ _ (occurred_eq w Hg)).
    destruct He as [-> |(e & -> & Hk)]; [done|]. by rewrite bool_decide_false. }
  rewrite (bind_eq _ _ _ _ _ E), (bind_eq (gets w_err) _ w _ w eq_refl). by rewrite (set_string_eq w Hg).
Qed.

Lemma modify_type_error w m msg : w_gil w = true -> w_err w = Some (err_of TypeError m) ->
  exists w' value, SWIG_Python_RaiseOrModifyTypeError str_of msg w = (Ret tt, w')
    /\ w_err w' = Some (mk_err TypeError (modified_text str_of (err_of TypeError m) msg) (exc_type TypeError) value 0)
    /\ w_heap w' !! value = Some (OStr (modified_text str_of (err_of TypeError m) msg))
    /\ w_gil w' = true /\ w_calls w' = w_calls w /\ w_blocks w' = w_blocks w.
Proof.
  intros Hg He. unfold SWIG_Python_RaiseOrModifyTypeError.
  assert (E : SWIG_Python_TypeErrorOccurred 0 w = (Ret true, w)).
  { unfold SWIG_Python_TypeErrorOccurred. cbn [negb Z.eqb]. rewrite (bind_eq _ _ _ _ _ (occurred_eq w Hg)). by rewrite He. }
  rewrite (bind_eq _ _ _ _ _ E), (bind_eq (gets w_err) _ w _ w eq_refl), He.
  destruct (fetch_frame w Hg) as (f & w1 & Ef & F1 & F2 & F3 & F4 & F5 & F6 & F7 & F8 & F9 & _).
  rewrite (bind_eq _ _ _ _ _ Ef), (bind_eq _ _ _ _ _ (new_object_eq w1 F2 _)).
  set (w2 := set_fresh _ _). rewrite (bind_eq _ _ _ _ _ (xdecref_null w2 F2)).
  set (e' := mk_err _ _ _ _ _).
  destruct (restore_frame (Some e') w2 F2) as (w3 & Er & R1 & R2 & R3 & R4 & R5 & R6 & R7 & R8 & R9 & _).
  exists w3, (w_fresh w1). split; [exact Er|]. split; [exact R1|]. split; [|by rewrite R2, R9, R6, <- F9, <- F6].
  rewrite R3. apply lookup_insert_eq.
Qed.

(** A text that cannot be encoded leaves the error of the codec. *)
Lemma check_args_unencodable w s rest t : w_gil w = true -> w_heap w !! s = Some (OStr t) -> utf8_encode t = None ->
  check_args implicit utf8_buffer (s :: rest) w
  = (Ret false, set_err (Some (err_of ValueError (chars "surrogates not allowed"))) w).
Proof.
  intros Hg Hs Hu. cbn [check_args]. unfold as_char_pointer. rewrite pchar_descriptor_eq. unfold char_buffer.
  rewrite bind_assoc, (bind_eq _ _ _ _ _ (object_at_eq w Hg s _ Hs)), Hu.
  by rewrite bind_assoc, (bind_eq _ _ _ _ _ (set_string_eq w Hg _ _)).
Qed.
End SessionLemmas.

(** ** Properties *)

(** C23. The session methods: a wrapper of a method without parameters, or with
    one text, structure or enumerated value, called with an API object and an
    argument of that type, calls the method once on that object, without the
    lock and with exactly that value (a callback object is passed as the
    address it wraps and gains no reference).  It returns None, a new int or a
    new string with the characters the library returned (None for null), or
    null with the error a C++ exception becomes. *)
Theorem session_contract `{!TypeEnv, !ExactTypes _, !CtpEnv, !CtpLaws _} long_w implicit utf8_buffer
    (s : session) w args o0 p vs :
  32 <= long_w -> w_gil w = true -> w_err w = None -> w_heap w !! Py_None = Some ONone -> args <> 0 ->
  (s_this s < te_size)%nat -> wraps_ptr w o0 (s_this s) p -> p <> 0 -> session_args utf8_buffer w s args o0 vs ->
  exists wc, same (log (EVirtual (s_method s) p vs) w) wc
    /\ forall r w1 l, ctp_method (s_method s) p vs (set_gil false wc) = (r, w1) -> readable (s_result s) r w1 l ->
         delivered (s_result s) (session_decl s) wc r w1 l (wrap_session long_w implicit utf8_buffer s args w).
Proof.
  intros Hlw Hg He Hn Ha Hty Hp Hp0 Hargs.
  destruct (session_run long_w Hlw implicit utf8_buffer s w args o0 p vs) as (wc & S & E); [done..|].
  exists (log (EVirtual (s_method s) p vs) wc). split; [by apply same_log|].
  intros r w1 l Er Hr. rewrite E. apply guarded_delivered; [by rewrite (same_gil _ _ S)|by rewrite (same_heap _ _ S)| | |done].
  - by rewrite call_virtual_eq.
  - by eapply ctp_method_left; [|exact Er].
Qed.

(** An API object, a callback object, texts and flags. *)
Definition sample_session : world :=
  mk_world {[Py_None := ONone; 100 := OSwig (mk_swigobj 4096 (Some 143%nat) 0 None);
             101 := OSwig (mk_swigobj 8192 (Some 144%nat) 1 None); 102 := OTuple [100; 101];
             103 := OStr (chars "flow"); 104 := OBool true; 105 := OTuple [103; 104];
             106 := OInt 1; 107 := OTuple [103; 106]; 108 := OTuple [103; 104; 104; 104]; 109 := OStr [0xd800];
             110 := OTuple [109]]}
    ∅ 200 None true ∅ ∅ 65536 ∅ (-1) [].

Definition sample_api : CtpEnv := {| ctp_method _ _ _ := ret 4096; ctp_indirect _ _ := ret 0 |}.
#[local] Instance sample_api_laws : CtpLaws sample_api.
Proof.
  split; intros; unfold sample_api, ctp_method, ctp_indirect, ret in *; simplify_eq; by constructor.
Qed.

Lemma session_contract_witness :
  exists o w', wrap_session (H := ctp_types (fun _ => 0) (fun _ => true)) (H0 := sample_api) 64
      (fun _ => None) (fun o => 30000 + o) CThostFtdcMdApi_RegisterSpi 102 sample_session = (Ret o, w')
    /\ w_heap w' !! o = Some ONone /\ w_calls w' = [EVirtual "RegisterSpi" 4096 [8192]].
Proof.
  destruct (session_contract (H := ctp_types (fun _ => 0) (fun _ => true)) (H0 := sample_api) 64 (fun _ => None)
    (fun o => 30000 + o) CThostFtdcMdApi_RegisterSpi sample_session 102 100 4096 [8192]) as (wc & S & Hr);
    try reflexivity; try discriminate.
  - apply Nat.ltb_lt. reflexivity.
  - split; [discriminate|]. split; [discriminate|]. eexists 100, _.
    split; [reflexivity|]. do 3 (split; [reflexivity|]). left. reflexivity.
  - exists 101, 8192. split; [reflexivity|]. split; [|reflexivity]. split; [apply Nat.ltb_lt; reflexivity|]. left.
    split; [discriminate|]. split; [discriminate|]. eexists 101, _.
    split; [reflexivity|]. do 3 (split; [reflexivity|]). left. reflexivity.
  - destruct (Hr (Ret 4096) (set_gil false wc) [] eq_refl I) as (o & w' & E & _ & Hc & _ & Ho & _).
    exists o, w'. split; [exact E|]. split; [exact Ho|]. rewrite Hc, (same_calls _ _ S). reflexivity.
Defined.

(** C24. Making an API object: with up to [max] arguments, a text (None for
    null) and then booleans, the dispatch calls the library's static method
    once, with the buffer and the flags given, and wraps the object it returns
    without owning it (None for null); a C++ exception becomes a Python error.  *)
Theorem create_contract `{!TypeEnv, !CtpEnv, !CtpLaws _} implicit utf8_buffer str_of
    w args objs vs (cls method : string) ty max :
  w_gil w = true -> fresh_ok w -> args <> 0 -> w_heap w !! args = Some (OTuple objs) -> (length objs <= max)%nat ->
  create_args utf8_buffer w objs vs ->
  let wc := log (EVirtual method 0 vs) w in
  forall r w1, ctp_method method 0 vs (set_gil false wc) = (r, w1) ->
    api_object (method_decl cls method (create_params (length objs))) ty wc r w1
      (wrap_create implicit utf8_buffer str_of cls method ty max args w).
Proof.
  intros Hg Hf Ha Ht Hl Hv wc r w1 E. rewrite (create_run implicit utf8_buffer str_of w args cls method ty max objs vs) by done.
  by apply create_call_object.
Qed.

Lemma create_contract_witness :
  exists obj w' o, CThostFtdcMdApi_CreateFtdcMdApi (H := ctp_types (fun _ => 0) (fun _ => true)) (H0 := sample_api)
      (fun _ => None) (fun o => 30000 + o) (fun _ => []) 105 sample_session = (Ret obj, w')
    /\ resolves w' obj o /\ w_heap w' !! o = Some (OSwig (mk_swigobj 4096 (Some 143%nat) 0 None)).
Proof.
  destruct (create_contract (H := ctp_types (fun _ => 0) (fun _ => true)) (H0 := sample_api) (fun _ => None)
    (fun o => 30000 + o) (fun _ => []) sample_session 105 [103; 104] [30103; 1] "CThostFtdcMdApi" "CreateFtdcMdApi" 143 3)
    with (r := Ret 4096) (w1 := set_gil false (log (EVirtual "CreateFtdcMdApi" 0 [30103; 1]) sample_session))
    as (obj & w' & E & _ & _ & _ & o & Hr & Ho); try reflexivity; try discriminate.
  - split; [discriminate|]. unfold sample_session. cbn [w_heap w_fresh]. intros x Hx.
    do 11 (rewrite lookup_insert_ne by (unfold Py_None; lia)). apply lookup_singleton_ne. lia.
  - apply Nat.leb_le. reflexivity.
  - exists 30103, [true]. split; [|by repeat constructor]. left. split; [|reflexivity]. by eexists _, _.
  - exists obj, w', o. split; [exact E|]. by split.
Defined.

(** C25. Making an API object, wrong arguments: with too many arguments, a text
    that cannot be encoded or a flag that is no boolean the library is not
    entered and null is returned with a TypeError that lists the prototypes;
    the error of [SWIG_Python_UnpackTuple] is extended with them, any other
    error is replaced. *)
Theorem create_rejects `{!TypeEnv, !CtpEnv} implicit utf8_buffer str_of
    w args objs (cls method : string) ty max :
  w_gil w = true -> w_err w = None -> args <> 0 -> w_heap w !! args = Some (OTuple objs) ->
  let protos := overload_msg cls method max in
  let meth := (cls +:+ "_" +:+ method)%string in
  let wrapper := wrap_create implicit utf8_buffer str_of cls method ty max in
  if (length objs <=? max)%nat then
    (exists s rest, objs = s :: rest /\ exists t, w_heap w !! s = Some (OStr t) /\ utf8_encode t = None)
    \/ (exists s v pre bs bad post u, objs = s :: pre ++ bad :: post /\ text_arg utf8_buffer w s v
         /\ Forall2 (is_flag w) pre bs /\ w_heap w !! bad = Some u /\ forall b, u <> OBool b) ->
    wrapper args w = (Ret 0, set_err (Some (err_of TypeError protos)) w)
  else
    exists w' value, wrapper args w = (Ret 0, w') /\ w_calls w' = w_calls w /\ w_blocks w' = w_blocks w
      /\ w_err w' = Some (mk_err TypeError (modified_text str_of (err_of TypeError (many_msg meth max (length objs))) protos)
                            (exc_type TypeError) value 0).
Proof.
  intros Hg He Ha Ht protos meth wrapper. unfold wrapper, wrap_create. fold meth protos.
  destruct (Nat.leb_spec (length objs) max) as [Hl|Hl].
  - intros Hbad. rewrite (bind_eq _ _ _ _ _ (unpack_upto w args _ objs max Hg Ha Ht Hl)). cbn [fst snd].
    rewrite (proj2 (Z.eqb_neq _ _)) by lia. replace (_ + 1 - 1) with (Z.of_nat (length objs)) by lia.
    rewrite Nat2Z.id, take_app_length.
    destruct Hbad as [(s & rest & -> & t & Hs & Hu)|(s & v & pre & bs & bad & post & u & -> & Hs & Hf & Hb & Hnb)].
    + rewrite (bind_eq _ _ _ _ _ (check_args_unencodable implicit utf8_buffer w s rest t Hg Hs Hu)). cbn beta iota.
      set (w1 := set_err _ w). assert (E : SWIG_Python_RaiseOrModifyTypeError str_of protos w1
        = (Ret tt, set_err (Some (err_of TypeError protos)) w1)).
      { apply raise_type_error; [done|]. right. by eexists. }
      by rewrite (bind_eq _ _ _ _ _ E).
    + cbn [check_args]. rewrite bind_assoc, (bind_eq _ _ _ _ _ (as_char_pointer_arg implicit utf8_buffer w s v Hg Hs)).
      cbn [fst]. change (SWIG_IsOK SWIG_OK) with true. cbn beta iota.
      rewrite (bind_eq _ _ _ _ _ (check_flags_bad w pre bs bad post u Hg Hf Hb Hnb)).
      by rewrite (bind_eq _ _ _ _ _ (raise_type_error str_of w protos Hg (or_introl He))).
  - rewrite (bind_eq _ _ _ _ _ (unpack_many w args _ objs max Hg Ha Ht Hl)). cbn [fst Z.eqb].
    set (w1 := set_err _ w).
    destruct (modify_type_error str_of w1 (many_msg meth max (length objs)) protos Hg eq_refl)
      as (w' & value & E & He' & _ & _ & Hc & Hb).
    exists w', value. by rewrite (bind_eq _ _ _ _ _ E).
Qed.

Lemma create_rejects_witness :
  let create := CThostFtdcMdApi_CreateFtdcMdApi (H := ctp_types (fun _ => 0) (fun _ => true)) (H0 := sample_api)
                  (fun _ => None) (fun o => 30000 + o) (fun _ => []) in
  (forall args, args = 107 \/ args = 110 ->
     create args sample_session
     = (Ret 0, set_err (Some (err_of TypeError (overload_msg "CThostFtdcMdApi" "CreateFtdcMdApi" 3))) sample_session))
  /\ exists w', create 108 sample_session = (Ret 0, w') /\ is_Some (w_err w').
Proof.
  pose proof (fun args objs => create_rejects (H := ctp_types (fun _ => 0) (fun _ => true)) (H0 := sample_api)
    (fun _ => None) (fun o => 30000 + o) (fun _ => []) sample_session args objs "CThostFtdcMdApi" "CreateFtdcMdApi" 143 3
    eq_refl eq_refl) as T.
  split.
  - intros args [-> | ->].
    + apply (T 107 [103; 106] ltac:(discriminate) eq_refl). right. exists 103, 30103, [], [], 106, [], (OInt 1).
      split; [reflexivity|]. split; [left; split; [by eexists _, _|reflexivity]|].
      split; [constructor|]. split; [reflexivity|discriminate].
    + apply (T 110 [109] ltac:(discriminate) eq_refl). left. exists 109, []. split; [reflexivity|].
      exists [0xd800]. split; reflexivity.
  - destruct (T 108 [103; 104; 104; 104] ltac:(discriminate) eq_refl) as (w' & value & E & _ & _ & He).
    exists w'. split; [exact E|]. rewrite He. by eexists.
Defined.

End Session.
