(* ===== verification/OwnerMap.v ===== *)
(** * What a director owns

    Models the memory handler of ctp_wrap.cpp ([GCItem], [GCItem_var] and their
    classes), the map [swig_owner] of [Swig::Director] with the functions that
    acquire and release ownership, its destruction with the director, and the
    map [swig_inner] of the director classes of ctp_wrap.h.  A director keeps
    the map as a value; the blocks it deletes are those of the world.  The
    order in which a [std::map] destroys its elements is left open. *)

From S2P Require Import Prelude World Api.

Module OwnerMap.
Import World.

(** ** Items *)

(** [GCItem_Object], [GCItem_T] and [GCArray_T]. *)
Inductive gcitem := GCItem_Object (own : Z) | GCItem_T (ptr : Z) | GCArray_T (ptr : Z).

Definition get_own (item : gcitem) : Z := match item with GCItem_Object own => own | _ => 0 end.

(** The destructors; [delete] of a null item does nothing. *)
Definition delete_item (item : option gcitem) : M unit :=
  match item with
  | None | Some (GCItem_Object _) => ret tt
  | Some (GCItem_T ptr) | Some (GCArray_T ptr) => free ptr
  end.

(** ** The map *)

Abbreviation owners := (gmap Z gcitem).

(** [swig_owner[vptr] = item]: the entry is made if it is missing, and the item
    it held is deleted after the new one is in place. *)
Definition assign_owner (m : owners) (vptr : Z) (item : gcitem) : M owners :=
  delete_item (m !! vptr) ;;; ret (<[vptr := item]> m).

Definition swig_acquire_ownership_array (m : owners) (vptr : Z) : M owners :=
  if vptr =? 0 then ret m else assign_owner m vptr (GCArray_T vptr).
Definition swig_acquire_ownership (m : owners) (vptr : Z) : M owners :=
  if vptr =? 0 then ret m else assign_owner m vptr (GCItem_T vptr).
Definition swig_acquire_ownership_obj (m : owners) (vptr own : Z) : M owners :=
  if (vptr =? 0) || (own =? 0) then ret m else assign_owner m vptr (GCItem_Object own).

(** The ownership flag and the map; erasing the entry deletes its item. *)
Definition swig_release_ownership (m : owners) (vptr : Z) : M (Z * owners) :=
  if vptr =? 0 then ret (0, m)
  else match m !! vptr with
       | Some item => delete_item (Some item) ;;; ret (get_own item, delete vptr m)
       | None => ret (0, m)
       end.

(** The destructor of the map, for the entries in the order [l]. *)
Fixpoint destroy_owners (l : list (Z * gcitem)) : M unit :=
  match l with
  | [] => ret tt
  | (_, item) :: l' => delete_item (Some item) ;;; destroy_owners l'
  end.

(** ** The flags of protected methods *)

Definition swig_get_inner (inner : gmap string bool) (name : string) : bool := default false (inner !! name).
Definition swig_set_inner (inner : gmap string bool) (name : string) (val : bool) : gmap string bool :=
  <[name := val]> inner.

(** ** Sequences of operations *)

Inductive op := AcquireArray (p : Z) | Acquire (p : Z) | AcquireObj (p own : Z) | Release (p : Z).

Definition step (m : owners) (o : op) : M owners :=
  match o with
  | AcquireArray p => swig_acquire_ownership_array m p
  | Acquire p => swig_acquire_ownership m p
  | AcquireObj p own => swig_acquire_ownership_obj m p own
  | Release p => r <- swig_release_ownership m p ;; ret (snd r)
  end.

Fixpoint steps (m : owners) (ops : list op) : M owners :=
  match ops with
  | [] => ret m
  | o :: ops' => m' <- step m o ;; steps m' ops'
  end.

(** The blocks a director is given to delete, and the pointers it only notes. *)
Definition given (o : op) : list Z := match o with AcquireArray p | Acquire p => [p] | _ => [] end.
Definition noted_ptr (o : op) : list Z := match o with AcquireObj p _ => [p] | _ => [] end.

(** ** Lemmas *)

Lemma get_set_inner inner n v n' :
  swig_get_inner (swig_set_inner inner n v) n' = if decide (n = n') then v else swig_get_inner inner n'.
Proof.
  unfold swig_get_inner, swig_set_inner. case_decide; subst; [by rewrite lookup_insert_eq|by rewrite lookup_insert_ne].
Qed.

(** The pointer an item deletes. *)
Definition deletes (item : gcitem) : option Z :=
  match item with GCItem_Object _ => None | GCItem_T p | GCArray_T p => Some p end.

(** The blocks of [w] without those of [ps]. *)
Definition without (ps : list Z) (w w' : world) : Prop :=
  (forall p, w_blocks w' !! p = if decide (p ∈ ps) then None else w_blocks w !! p)
  /\ w_heap w' = w_heap w /\ w_gil w' = w_gil w /\ w_err w' = w_err w /\ w_dirs w' = w_dirs w.

Lemma without_nil w : without [] w w.
Proof. split; [|done]. intros p. by rewrite decide_False by (by intros ?%elem_of_nil). Qed.

Lemma without_trans ps qs w w1 w2 : without ps w w1 -> without qs w1 w2 -> without (ps ++ qs) w w2.
Proof.
  intros (B1 & H1 & G1 & E1 & D1) (B2 & H2 & G2 & E2 & D2). split; [|repeat split; congruence].
  intros p. rewrite B2, B1. destruct (decide (p ∈ ps)), (decide (p ∈ qs)), (decide (p ∈ ps ++ qs)); try done; set_solver.
Qed.

(** Deleting an item whose block is live. *)
Definition deleted (item : gcitem) : list Z := match deletes item with Some p => [p] | None => [] end.

Lemma delete_item_live item w : (forall p, deletes item = Some p -> p <> 0 /\ is_Some (w_blocks w !! p)) ->
  exists w', delete_item (Some item) w = (Ret tt, w') /\ without (deleted item) w w'.
Proof.
  intros Hl. unfold deleted.
  assert (Hfree : forall p, deletes item = Some p -> exists w', free p w = (Ret tt, w') /\ without [p] w w').
  { intros p Hd. destruct (Hl p Hd) as [Hp [n Hn]]. eexists. split; [by eapply Api.free_live|]. split; [|done].
    intros q. cbn. destruct (decide (q ∈ [p])) as [->%list_elem_of_singleton|Hq]; [apply lookup_delete_eq|].
    apply lookup_delete_ne. set_solver. }
  destruct item as [own|p|p]; cbn [deletes delete_item] in *; [|by apply Hfree..].
  exists w. split; [done|apply without_nil].
Qed.

(** *** The invariant *)

Definition held_of (l : list (Z * gcitem)) : list Z := omap (fun e => deletes (snd e)) l.
Definition held (m : owners) : list Z := held_of (map_to_list m).

Lemma held_of_cons k item l : held_of ((k, item) :: l) = deleted item ++ held_of l.
Proof. unfold held_of, deleted. cbn. by destruct (deletes item). Qed.

Lemma held_insert m k item : m !! k = None -> held (<[k := item]> m) ≡ₚ deleted item ++ held m.
Proof.
  intros Hk. unfold held. rewrite <- (held_of_cons k). apply omap_Permutation. exact (map_to_list_insert (M := gmap Z) m k item Hk).
Qed.

Lemma held_delete m k item : m !! k = Some item -> held m ≡ₚ deleted item ++ held (delete k m).
Proof.
  intros Hk. unfold held. rewrite <- (held_of_cons k). apply omap_Permutation. symmetry. exact (map_to_list_delete (M := gmap Z) m k item Hk).
Qed.

(** What was given is held or deleted, each once; every entry is at its pointer. *)
Record inv (w0 : world) (past notes : list Z) (m : owners) (w : world) : Prop := {
  inv_blocks : exists freed, without freed w0 w /\ held m ++ freed ≡ₚ past;
  inv_keys : forall k item, m !! k = Some item ->
    match deletes item with Some p => p = k /\ p ∈ past | None => k ∈ notes end;
}.

(** Something still held is still live. *)
Lemma without_live freed w0 w m past p : without freed w0 w -> held m ++ freed ≡ₚ past -> NoDup past ->
  p ∈ held m -> is_Some (w_blocks w0 !! p) -> is_Some (w_blocks w !! p).
Proof.
  intros (B & _) Hp Hd Hin Hl. rewrite B, decide_False; [done|].
  rewrite <- Hp in Hd. apply NoDup_app in Hd as (_ & Hd & _). by apply Hd.
Qed.

Lemma elem_held m k item p : m !! k = Some item -> deletes item = Some p -> p ∈ held m.
Proof. intros Hk Hd. rewrite (held_delete m k item Hk). unfold deleted. rewrite Hd. set_solver. Qed.

Section Steps.
Context (w0 : world).
(** The blocks given to the director are live, distinct and never only noted. *)
Definition givable (ps ns : list Z) : Prop :=
  NoDup ps /\ (forall p, p ∈ ps -> p <> 0 /\ is_Some (w_blocks w0 !! p)) /\ forall p, p ∈ ps -> p ∉ ns.

Lemma release_inv past notes m w p : inv w0 past notes m w -> givable past notes ->
  exists own m' w', swig_release_ownership m p w = (Ret (own, m'), w') /\ inv w0 past notes m' w'.
Proof.
  intros [(freed & Hw & Hp) Hk] (Hd & Hl & Hn). unfold swig_release_ownership.
  destruct (p =? 0); [by exists 0, m, w; split; [|split; [exists freed|]]|].
  destruct (m !! p) as [item|] eqn:E; [|by exists 0, m, w; split; [|split; [exists freed|]]].
  destruct (delete_item_live item w) as (w1 & E1 & W1).
  { intros q Hq. pose proof (Hk p item E) as Hi. rewrite Hq in Hi. destruct Hi as [-> Hi].
    split; [by apply Hl|]. apply (without_live freed w0 w m past p Hw Hp Hd); [by eapply elem_held|by apply Hl]. }
  eexists _, _, w1. split; [by rewrite (bind_eq _ _ _ _ _ E1)|]. split.
  - exists (freed ++ deleted item). split; [by eapply without_trans|].
    rewrite <- Hp, (held_delete m p item E). solve_Permutation.
  - intros k i' [_ Hk']%lookup_delete_Some. by apply Hk.
Qed.

(** Giving a block that is new to the director, and noting a pointer. *)
Lemma assign_inv past notes m w p item : inv w0 past notes m w -> p ∉ past ->
  (forall it, m !! p = Some it -> deletes it = None) ->
  (match deletes item with Some q => q = p | None => p ∈ notes end) ->
  exists m' w', assign_owner m p item w = (Ret m', w') /\ inv w0 (deleted item ++ past) notes m' w'.
Proof.
  intros [(freed & Hw & Hp) Hk] Hpast Hold Hi. unfold assign_owner.
  assert (E : delete_item (m !! p) w = (Ret tt, w)).
  { destruct (m !! p) as [it|] eqn:Em; [|done]. pose proof (Hold it eq_refl) as Hit. by destruct it. }
  eexists _, w. split; [by rewrite (bind_eq _ _ _ _ _ E)|]. split.
  - exists freed. split; [done|]. rewrite <- Hp, app_assoc. f_equiv.
    rewrite <- (insert_delete_eq m p item), held_insert by apply lookup_delete_eq. f_equiv.
    destruct (m !! p) as [it|] eqn:Em; [|by rewrite delete_id].
    rewrite (held_delete m p it Em). unfold deleted. by rewrite (Hold it eq_refl).
  - intros k it [[<- <-]|[Hne Hk']]%lookup_insert_Some.
    + unfold deleted. destruct (deletes item) as [q|]; [|done]. subst q. set_solver.
    + specialize (Hk k it Hk'). destruct (deletes it); [|done]. set_solver.
Qed.

Lemma step_inv past ns m w o : inv w0 past ns m w -> givable (given o ++ past) ns -> (forall p, p ∈ noted_ptr o -> p ∈ ns) ->
  exists m' w', step m o w = (Ret m', w') /\ inv w0 (given o ++ past) ns m' w'.
Proof.
  intros Hi Hg Hns.
  assert (Hnew : forall p, p ∉ past -> forall it, m !! p = Some it -> deletes it = None).
  { intros p Hp it Hit. pose proof (inv_keys _ _ _ _ _ Hi p it Hit) as Hk. destruct (deletes it); [|done].
    by destruct Hk as [-> ?]. }
  destruct o as [p|p|p own|p]; cbn [given app step noted_ptr] in *.
  1,2: destruct Hg as ([Hp _]%NoDup_cons & Hl & _);
    unfold swig_acquire_ownership_array, swig_acquire_ownership; rewrite (proj2 (Z.eqb_neq p 0)) by (apply Hl; set_solver).
  - apply (assign_inv past ns m w p (GCArray_T p)); [done|done|by apply Hnew|done].
  - apply (assign_inv past ns m w p (GCItem_T p)); [done|done|by apply Hnew|done].
  - unfold swig_acquire_ownership_obj. destruct ((p =? 0) || (own =? 0)); [by exists m, w|].
    assert (Hp : p ∉ past). { intros Hp. destruct Hg as (_ & _ & Hn). apply (Hn p Hp), Hns. set_solver. }
    apply (assign_inv past ns m w p (GCItem_Object own)); [done|done|by apply Hnew|]. cbn. apply Hns. set_solver.
  - destruct (release_inv past ns m w p Hi Hg) as (own & m' & w' & E & Hi').
    exists m', w'. split; [|done]. by rewrite (bind_eq _ _ _ _ _ E).
Qed.

Lemma steps_inv ops past ns m w : inv w0 past ns m w -> givable ((ops ≫= given) ++ past) ns ->
  (forall p, p ∈ ops ≫= noted_ptr -> p ∈ ns) ->
  exists m' w', steps m ops w = (Ret m', w') /\ exists past', past' ≡ₚ (ops ≫= given) ++ past /\ inv w0 past' ns m' w'.
Proof.
  revert past m w; induction ops as [|o ops IH]; intros past m w Hi Hg Hns; cbn [steps].
  { exists m, w. split; [done|]. by exists past. }
  assert (Hperm : ((o :: ops) ≫= given) ++ past ≡ₚ (ops ≫= given) ++ given o ++ past).
  { cbn. rewrite <- app_assoc. solve_Permutation. }
  assert (Hg' : givable ((ops ≫= given) ++ given o ++ past) ns).
  { destruct Hg as (G1 & G2 & G3). unfold givable. by setoid_rewrite <- Hperm. }
  destruct (step_inv past ns m w o Hi) as (m1 & w1 & E1 & Hi1).
  { destruct Hg' as (G1 & G2 & G3). split; [by apply NoDup_app in G1 as (_ & _ & ?)|]. set_solver. }
  { intros p Hp. apply Hns. cbn. set_solver. }
  destruct (IH (given o ++ past) m1 w1 Hi1 Hg') as (m' & w' & E & past' & Hp' & Hi').
  { intros p Hp. apply Hns. cbn. set_solver. }
  exists m', w'. split; [by rewrite (bind_eq _ _ _ _ _ E1)|]. exists past'. split; [|done]. by rewrite Hp', Hperm.
Qed.

(** The destructor deletes every block that is held, in any order. *)
Lemma destroy_frees l w : NoDup (held_of l) -> (forall p, p ∈ held_of l -> p <> 0 /\ is_Some (w_blocks w !! p)) ->
  exists w', destroy_owners l w = (Ret tt, w') /\ without (held_of l) w w'.
Proof.
  revert w; induction l as [|[k item] l IH]; intros w Hd Hl; cbn [destroy_owners].
  { exists w. split; [done|apply without_nil]. }
  rewrite held_of_cons in *. apply NoDup_app in Hd as (_ & Hd1 & Hd2).
  destruct (delete_item_live item w) as (w1 & E1 & W1).
  { intros p Hp. apply Hl. unfold deleted. rewrite Hp. set_solver. }
  destruct (IH w1 Hd2) as (w' & E & W).
  { intros p Hp. split; [apply Hl; set_solver|]. destruct W1 as (B & _). rewrite B, decide_False by set_solver.
    apply Hl. set_solver. }
  exists w'. split; [by rewrite (bind_eq _ _ _ _ _ E1)|by eapply without_trans].
Qed.
End Steps.

(** ** Properties *)

(** C40. What a director owns: after any sequence of acquisitions and releases,
    in which the blocks given to the director are live, are each given once and
    are not noted as plain objects, destroying the director in any order of
    its entries succeeds; every block given was deleted exactly once, by its
    release or at the end, and no other block was touched. *)
Theorem owners_deleted_once ops w :
  let ps := ops ≫= given in
  NoDup ps -> (forall p, p ∈ ps -> p <> 0 /\ is_Some (w_blocks w !! p)) ->
  (forall p, p ∈ ps -> p ∉ ops ≫= noted_ptr) ->
  exists m w1, steps ∅ ops w = (Ret m, w1)
    /\ forall l, l ≡ₚ map_to_list m -> exists w', destroy_owners l w1 = (Ret tt, w') /\ without ps w w'.
Proof.
  intros ps Hd Hl Hn.
  destruct (steps_inv w ops [] (ops ≫= noted_ptr) ∅ w) as (m & w1 & E & past & Hp & [(freed & Hw & Hf) Hk]).
  { split; [|by intros k item ?%lookup_empty_Some]. exists []. split; [apply without_nil|]. by rewrite app_nil_r. }
  { rewrite app_nil_r. by split. }
  { done. }
  rewrite app_nil_r in Hp. fold ps in Hp. exists m, w1. split; [done|]. intros l Hlm.
  assert (Hheld : held_of l ≡ₚ held m) by by apply omap_Permutation.
  assert (Hall : held_of l ++ freed ≡ₚ ps) by by rewrite Hheld, Hf.
  rewrite <- Hall in Hd. apply NoDup_app in Hd as (Hd1 & Hd2 & _).
  destruct (destroy_frees l w1 Hd1) as (w' & E' & W').
  { intros p Hp'. assert (Hin : p ∈ ps) by (rewrite <- Hall; set_solver). split; [by apply Hl|].
    destruct Hw as (B & _). rewrite B, decide_False by by apply Hd2. by apply Hl. }
  exists w'. split; [done|]. pose proof (without_trans _ _ _ _ _ Hw W') as (B & Hrest). split; [|done].
  intros p. rewrite B. apply decide_ext. rewrite <- Hall. set_solver.
Qed.

(** A world with two blocks. *)
Definition sample_blocks : world := mk_world ∅ ∅ 100 None true ∅ {[4096 := 8%nat; 8192 := 16%nat]} 65536 ∅ (-1) [].

Lemma owners_deleted_once_witness :
  exists m w1 w', steps ∅ [Acquire 4096; AcquireObj 512 1; AcquireArray 8192; Release 4096; Release 512] sample_blocks
      = (Ret m, w1)
    /\ destroy_owners (map_to_list m) w1 = (Ret tt, w') /\ without [4096; 8192] sample_blocks w'.
Proof.
  destruct (owners_deleted_once [Acquire 4096; AcquireObj 512 1; AcquireArray 8192; Release 4096; Release 512]
    sample_blocks) as (m & w1 & E & Hd).
  - apply (bool_decide_unpack _). reflexivity.
  - intros p Hp. cbn in Hp. apply elem_of_cons in Hp as [-> |Hp]; [split; [discriminate|by eexists]|].
    apply list_elem_of_singleton in Hp as ->. split; [discriminate|by eexists].
  - cbn. set_solver.
  - destruct (Hd (map_to_list m) (Permutation_refl _)) as (w' & E' & W). exists m, w1, w'. split; [exact E|]. by split.
Defined.

(** Acquiring a pointer twice deletes it at once and leaves it in the map. *)
Lemma acquire_twice p n w : p <> 0 -> w_blocks w !! p = Some n ->
  exists m w1, steps ∅ [Acquire p; Acquire p] w = (Ret m, w1)
    /\ fst (destroy_owners (map_to_list m) w1) = Stuck BadFree.
Proof.
  intros Hp Hn. pose (m := {[p := GCItem_T p]} : owners).
  assert (Es : forall m0, step m0 (Acquire p) = assign_owner m0 p (GCItem_T p)).
  { intros m0. cbn [step]. unfold swig_acquire_ownership. by rewrite (proj2 (Z.eqb_neq _ _) Hp). }
  assert (E1 : step ∅ (Acquire p) w = (Ret m, w)).
  { rewrite Es. unfold assign_owner. by rewrite lookup_empty. }
  set (w1 := set_mem (unmap (w_mem w) p n) (set_blocks (delete p (w_blocks w)) (w_brk w) w)).
  assert (E2 : step m (Acquire p) w = (Ret m, w1)).
  { rewrite Es. unfold assign_owner, m. rewrite lookup_singleton_eq. cbn [delete_item].
    rewrite (bind_eq _ _ _ _ _ (Api.free_live w p n Hp Hn)). by rewrite insert_singleton_eq. }
  exists m, w1. split; [cbn [steps]; by rewrite (bind_eq _ _ _ _ _ E1), (bind_eq _ _ _ _ _ E2)|].
  unfold m. rewrite map_to_list_singleton. cbn [destroy_owners delete_item].
  by rewrite (bind_stuck _ _ _ _ _ (Api.free_dead w1 p Hp (lookup_delete_eq _ _))).
Qed.

End OwnerMap.
