(* ===== verification/Upcalls.v ===== *)
(** * Calls of callback methods from Python

    Models the wrappers [_wrap_CThostFtdcMdSpi_On*] and
    [_wrap_CThostFtdcTraderSpi_On*] of ctp_wrap.cpp (lines 471077 to 485619),
    168 instances of one template with the parameters of the callback.  A
    Python override that calls the method of its base class arrives here with
    the object the director belongs to; the wrapper then calls the method of the
    CTP class itself, which does nothing, instead of the virtual method, which
    would call the override again. *)

From S2P Require Import Prelude TypeTable CtpTypes World Runtime Conversions Iconv Layout Accessor Director Callbacks Api.

Module Upcalls.
Import World Runtime Conversions Accessor Director Callbacks Api.

(** The names of the parameter types in messages. *)
Definition type_text (p : param nat) : string :=
  match p with
  | PPtr ty => match CtpTypes.swigt !! ty with Some q => snd q | None => "" end
  | PInt => "int"
  | PBool => "bool"
  end.

Fixpoint commas (l : list string) : string :=
  match l with [] => "" | [t] => t | t :: l' => (t +:+ "," +:+ commas l')%string end.

Definition callback_decl (cb : callback) : string :=
  (cb_class cb +:+ "::" +:+ cb_name cb +:+ "(" +:+ commas (map type_text (cb_params cb)) +:+ ")")%string.

Section Wrappers.
Context (long_w : Z) `{TypeEnv} (implicit : nat -> option (Z -> M Z)) `{PyEnv}.

Definition convert_arg (p : param nat) (obj : Z) : M (Z * option Z) :=
  match p with
  | PPtr ty => r <- SWIG_ConvertPtr implicit obj ty 0 ;; ret (fst r, Some (snd r))
  | PInt => SWIG_AsVal_int long_w obj
  | PBool => r <- SWIG_AsVal_bool obj ;; ret (fst r, (fun b : bool => if b then 1 else 0) <$> snd r)
  end.

(** The arguments from number [i] on; [None] with the error set. *)
Fixpoint convert_args (meth : string) (i : Z) (ps : list (param nat)) (objs : list Z) : M (option (list Z)) :=
  match ps, objs with
  | p :: ps', obj :: objs' =>
      c <- convert_arg p obj ;;
      let fail := exception_fail (SWIG_ArgError (fst c)) (arg_msg meth (dec i) (type_text p)) ;;; ret None in
      match c with
      | (res, Some v) => if SWIG_IsOK res then rest <- convert_args meth (i + 1) ps' objs' ;; ret (cons v <$> rest)
                         else fail
      | (_, None) => fail
      end
  | _, _ => ret (Some [])
  end.

(** The call: [SWIG_DIRECTOR_CAST] finds the director.  The methods of the CTP
    classes are empty; an object that is no director is one of theirs, and the
    virtual method of a director is its callback. *)
Definition spi_call (cb : callback) (obj0 arg1 : Z) (vals : list Z) : M unit :=
  dirs <- gets w_dirs ;;
  match dirs !! arg1 with
  | Some d => if d_self d =? obj0 then ret tt else invoke cb arg1 vals
  | None => if arg1 =? 0 then stuck Unmapped else ret tt
  end.

(** The objects of the call: one argument is passed as it is. *)
Definition spi_objects (meth : string) (n : nat) (args : Z) : M (option (list Z)) :=
  match n with
  | O => ret (if args =? 0 then None else Some [args])
  | S _ => u <- SWIG_Python_UnpackTuple args meth (Z.of_nat n + 1) (Z.of_nat n + 1) ;;
           ret (if fst u =? 0 then None else Some (snd u))
  end.

(** The template.
    (ctp_wrap.cpp, lines 471253 to 471335, for [OnRspUserLogin].) *)
Definition wrap_spi (ty : nat) (cb : callback) (args : Z) : M Z :=
  let meth := (cb_class cb +:+ "_" +:+ cb_name cb)%string in
  u <- spi_objects meth (length (cb_params cb)) args ;;
  match u with
  | Some (obj0 :: objs) =>
      c1 <- SWIG_ConvertPtr implicit obj0 ty 0 ;;
      let '(res1, arg1) := c1 in
      if negb (SWIG_IsOK res1) then exception_fail (SWIG_ArgError res1) (arg_msg meth "1" (cb_class cb +:+ " *"))
      else
        vals <- convert_args meth 2 (cb_params cb) objs ;;
        match vals with
        | None => ret 0
        | Some vals =>
            r <- catch (spi_call cb obj0 arg1 vals ;;; ret (Some tt)) (on_exception (callback_decl cb)) ;;
            match r with
            | None => ret 0
            | Some _ => SWIG_Py_Void
            end
        end
  | _ => ret 0
  end.
End Wrappers.

(** The [SWIGTYPE] index of the class of a callback. *)
Definition spi_type (s : spi) : nat := match s with Md => 144 | Trader => 443 end.

Lemma spi_type_named s : fst <$> CtpTypes.swigt !! spi_type s = Some ("_p_" +:+ spi_name s)%string.
Proof. destruct s; vm_compute; reflexivity. Qed.

(** ** Lemmas *)

Lemma same_add_ref o n w w' : same w w' -> same (add_ref o n w) (add_ref o n w').
Proof. intros S. constructor; try apply S. intros x. by rewrite !refs_add, (same_refs _ _ S). Qed.

Lemma fresh_ok_same w w' : same w w' -> fresh_ok w -> fresh_ok w'.
Proof. intros S. unfold fresh_ok. by rewrite (same_heap _ _ S), (same_fresh _ _ S). Qed.

Section Lemmas.
Context (long_w : Z) (Hlong : 32 <= long_w) `{!TypeEnv, !ExactTypes _}.
Context (implicit : nat -> option (Z -> M Z)) `{!PyEnv, !PyLaws _}.

(** Objects of the declared types, and the values passed for them. *)
Definition value_arg (w : world) (p : param nat) (obj v : Z) : Prop :=
  match p with
  | PPtr ty => (ty < te_size)%nat /\ ptr_arg w obj ty v
  | PInt => w_heap w !! obj = Some (OInt v) /\ INT_MIN <= v <= INT_MAX
  | PBool => exists b : bool, w_heap w !! obj = Some (OBool b) /\ v = if b then 1 else 0
  end.
Fixpoint value_args (w : world) (ps : list (param nat)) (objs vals : list Z) : Prop :=
  match ps, objs, vals with
  | [], [], [] => True
  | p :: ps', o :: objs', v :: vals' => value_arg w p o v /\ value_args w ps' objs' vals'
  | _, _, _ => False
  end.

Lemma value_arg_same w w' p obj v : same w w' -> value_arg w p obj v -> value_arg w' p obj v.
Proof.
  intros S. destruct p as [ty| |]; cbn; rewrite ?(same_heap _ _ S); try done.
  intros [Ht Hp]. split; [done|by eapply ptr_arg_same].
Qed.

Lemma value_args_same w w' ps objs vals : same w w' -> value_args w ps objs vals -> value_args w' ps objs vals.
Proof.
  intros S. revert objs vals; induction ps as [|p ps IH]; intros [|o objs] [|v vals]; cbn; try done.
  intros [Hv Hr]. split; [by eapply value_arg_same|by apply IH].
Qed.

Lemma value_args_length w ps objs vals : value_args w ps objs vals -> length objs = length ps.
Proof.
  revert objs vals; induction ps as [|p ps IH]; intros [|o objs] [|v vals]; cbn; try done.
  intros [_ Hr]. f_equal. by eapply IH.
Qed.

Lemma convert_arg_value w p obj v : w_gil w = true -> w_err w = None -> value_arg w p obj v ->
  exists w', convert_arg long_w implicit p obj w = (Ret (SWIG_OK, Some v), w') /\ same w w'.
Proof.
  intros Hg He. destruct p as [ty| |]; cbn [value_arg convert_arg].
  - intros [Ht Hp]. destruct (convert_ptr_arg implicit w obj ty v Hg Ht Hp) as (w' & E & S).
    exists w'. split; [|done]. by rewrite (bind_eq _ _ _ _ _ E).
  - intros [Ho Hv]. exists w. split; [|done]. unfold SWIG_AsVal_int.
    rewrite (as_val_narrow long_w Hlong INT_MIN INT_MAX w obj _ Hg He Ho ltac:(done) ltac:(done)).
    unfold int_spec. cbn [as_long]. by rewrite !(proj2 (Z.leb_le _ _)) by lia.
  - intros (b & Ho & ->). exists w. split; [|done]. unfold SWIG_AsVal_bool.
    by rewrite bind_assoc, (bind_eq _ _ _ _ _ (object_at_eq w Hg obj _ Ho)).
Qed.

Lemma convert_args_values meth ps objs vals i w : w_gil w = true -> w_err w = None -> value_args w ps objs vals ->
  exists w', convert_args long_w implicit meth i ps objs w = (Ret (Some vals), w') /\ same w w'.
Proof.
  revert objs vals i w; induction ps as [|p ps IH]; intros [|o objs] [|v vals] i w Hg He; cbn [value_args]; try done.
  { intros _. by exists w. }
  intros [Hv Hr]. cbn [convert_args]. destruct (convert_arg_value w p o v Hg He Hv) as (w1 & E1 & S1).
  destruct (IH objs vals (i + 1) w1) as (w2 & E2 & S2);
    [by rewrite (same_gil _ _ S1)|by rewrite (same_err _ _ S1)|by eapply value_args_same|].
  exists w2. split; [|by etrans]. rewrite (bind_eq _ _ _ _ _ E1). change (SWIG_IsOK SWIG_OK) with true. cbn beta iota zeta.
  by rewrite (bind_eq _ _ _ _ _ E2).
Qed.

(** How the objects are passed. *)
Definition passed (w : world) (cb : callback) (args obj0 : Z) (objs : list Z) : Prop :=
  if cb_params cb is [] then args = obj0 else w_heap w !! args = Some (OTuple (obj0 :: objs)).

Lemma spi_objects_passed meth w cb args obj0 objs : w_gil w = true -> args <> 0 ->
  length objs = length (cb_params cb) -> passed w cb args obj0 objs ->
  spi_objects meth (length (cb_params cb)) args w = (Ret (Some (obj0 :: objs)), w).
Proof.
  intros Hg Ha Hl. unfold passed. destruct (cb_params cb) as [|p ps].
  - intros ->. apply nil_length_inv in Hl as ->. cbn [spi_objects length]. by rewrite (proj2 (Z.eqb_neq _ _) Ha).
  - intros Ht. unfold spi_objects. cbn [length] in *.
    rewrite (bind_eq _ _ _ _ _ (unpack_exact w args meth _ (Z.of_nat (S (length ps)) + 1) Hg Ha Ht ltac:(cbn [length]; lia))).
    cbn [fst snd]. by rewrite (proj2 (Z.eqb_neq _ _)) by lia.
Qed.

(** With arguments of the right types the wrapper reaches the call. *)
Lemma wrap_spi_run w ty cb args obj0 objs vals p : w_gil w = true -> w_err w = None -> args <> 0 -> (ty < te_size)%nat ->
  passed w cb args obj0 objs -> wraps_ptr w obj0 ty p -> value_args w (cb_params cb) objs vals ->
  exists wc, same w wc /\ wrap_spi long_w implicit ty cb args w
    = bind (catch (bind (spi_call cb obj0 p vals) (fun _ => ret (Some tt))) (on_exception (callback_decl cb)))
        (fun r => match r with None => ret 0 | Some _ => SWIG_Py_Void end) wc.
Proof.
  intros Hg He Ha Hty Hpass Hp Hv. unfold wrap_spi.
  rewrite (bind_eq _ _ _ _ _ (spi_objects_passed _ w cb args obj0 objs Hg Ha (value_args_length _ _ _ _ Hv) Hpass)).
  destruct (convert_wraps implicit w obj0 ty p Hg Hty Hp) as (w1 & E1 & S1).
  rewrite (bind_eq _ _ _ _ _ E1). change (SWIG_IsOK SWIG_OK) with true. cbn [negb].
  destruct (convert_args_values (cb_class cb +:+ "_" +:+ cb_name cb) (cb_params cb) objs vals 2 w1) as (w2 & E2 & S2);
    [by rewrite (same_gil _ _ S1)|by rewrite (same_err _ _ S1)|by eapply value_args_same|].
  exists w2. split; [by etrans|]. by rewrite (bind_eq _ _ _ _ _ E2).
Qed.

(** What is left when the call returned: None with a new reference. *)
Lemma spi_returns cb obj0 p vals wc w1 : spi_call cb obj0 p vals wc = (Ret tt, w1) -> w_gil w1 = true ->
  bind (catch (bind (spi_call cb obj0 p vals) (fun _ => ret (Some tt))) (on_exception (callback_decl cb)))
    (fun r => match r with None => ret 0 | Some _ => SWIG_Py_Void end) wc = (Ret Py_None, add_ref Py_None 1 w1).
Proof.
  intros E Hg.
  assert (Ec : catch (bind (spi_call cb obj0 p vals) (fun _ => ret (Some tt))) (on_exception (callback_decl cb)) wc
               = (Ret (Some tt), w1)) by (unfold catch; by rewrite (bind_eq _ _ _ _ _ E)).
  rewrite (bind_eq _ _ _ _ _ Ec). by apply py_void_eq.
Qed.
End Lemmas.

(** ** Properties *)

(** C14. Calling the base method: called with a callback object and arguments of
    the declared types, the wrapper does nothing and returns None when the
    object is no director or is the very object the director belongs to, so
    that an override that calls its base method does not come back to itself;
    called through another object for the same director it runs the Python
    method once, with these arguments, and returns None when that returns. *)
Theorem upcall_contract `{!TypeEnv, !ExactTypes _, !PyEnv, !PyLaws _} long_w implicit
    w ty cb args obj0 objs vals p :
  32 <= long_w -> w_gil w = true -> w_err w = None -> fresh_ok w -> args <> 0 -> (ty < te_size)%nat ->
  passed w cb args obj0 objs -> wraps_ptr w obj0 ty p -> p <> 0 -> value_args w (cb_params cb) objs vals ->
  let wrapper := wrap_spi long_w implicit ty cb in
  match w_dirs w !! p with
  | Some d =>
      if d_self d =? obj0 then exists w', wrapper args w = (Ret Py_None, w') /\ same (add_ref Py_None 1 w) w'
      else d_self d <> 0 ->
        exists pyargs wc, let c := CallMethod (d_self d) (chars (cb_name cb)) pyargs in
          Forall2 (arg_object wc) (zip_with as_arg (cb_params cb) vals) pyargs /\ w_gil wc = true /\ fresh_ok wc
          /\ forall q wq, py_run c wc = (q, wq) -> q <> 0 ->
             exists w', wrapper args w = (Ret Py_None, w') /\ w_gil w' = true /\ w_err w' = None
               /\ w_calls w' = w_calls w ++ [EPy c]
               /\ forall x, refs w' x = refs w x + if decide (Py_None = x) then 1 else 0
  | None => exists w', wrapper args w = (Ret Py_None, w') /\ same (add_ref Py_None 1 w) w'
  end.
Proof.
  intros Hl Hg He Hf Ha Hty Hpass Hp Hp0 Hv wrapper.
  destruct (wrap_spi_run long_w Hl implicit w ty cb args obj0 objs vals p) as (wc & S & E); try done.
  assert (Hgc : w_gil wc = true) by by rewrite (same_gil _ _ S).
  assert (Ed : spi_call cb obj0 p vals wc = match w_dirs w !! p with
    | Some d => if d_self d =? obj0 then ret tt else invoke cb p vals
    | None => if p =? 0 then stuck Unmapped else ret tt end wc).
  { unfold spi_call. rewrite (bind_eq (gets w_dirs) _ wc _ wc eq_refl). by rewrite (same_dirs _ _ S). }
  assert (Hquiet : spi_call cb obj0 p vals wc = (Ret tt, wc) ->
    exists w', wrapper args w = (Ret Py_None, w') /\ same (add_ref Py_None 1 w) w').
  { intros Eq. eexists. split; [unfold wrapper; rewrite E; by apply spi_returns|by apply same_add_ref]. }
  destruct (w_dirs w !! p) as [d|] eqn:Hd.
  - destruct (d_self d =? obj0); [by apply Hquiet|]. intros Hself.
    destruct (director_run (cb_class cb) (cb_name cb) p (zip_with as_arg (cb_params cb) vals) wc d)
      as (pyargs & w2 & H1 & H2 & H3 & _ & Hf2 & Hc2 & _ & Hrun);
      [by eapply fresh_ok_same|by rewrite (same_err _ _ S)|by rewrite (same_dirs _ _ S)|done|].
    exists pyargs, w2. do 3 (split; [done|]). intros q wq Eq Hq.
    pose proof (py_returns _ _ _ _ H2 H3 Hf2 Eq) as [Q1 Q2 _ _ _ Q6]. rewrite (proj2 (Z.eqb_neq _ _) Hq) in Q2.
    destruct (Hrun q wq Eq (Ret tt) wq) as (w' & E' & D1 & D2 & _ & D3 & D4);
      [by rewrite (proj2 (Z.eqb_neq _ _) Hq)|done|done|].
    assert (Hg' : w_gil w' = true) by by rewrite D1.
    exists (add_ref Py_None 1 w'). split; [unfold wrapper; rewrite E; apply spi_returns; [by rewrite Ed|done]|].
    split; [done|]. split; [cbn; by rewrite D2|]. split; [cbn; by rewrite D3, Q6, Hc2, (same_calls _ _ S)|].
    intros x. rewrite refs_add, D4, (same_refs _ _ S). lia.
  - apply Hquiet. rewrite Ed. by rewrite (proj2 (Z.eqb_neq _ _) Hp0).
Qed.

(** A director at 4096 for the object 300, called through 300 and through its [this]. *)
Definition sample_upcall : world :=
  mk_world {[300 := OInst (Some 301); 301 := OSwig (mk_swigobj 4096 (Some 144%nat) 1 None); 302 := OInt 7;
             303 := OTuple [300; 302]; 304 := OTuple [301; 302]]}
    ∅ 1000 None true ∅ ∅ 8192 {[4096 := mk_director 300 false]} (-1) [].

Lemma upcall_contract_witness :
  let wrapper := wrap_spi (H := ctp_types (fun _ => 0) (fun _ => true)) (H0 := sample_interp) 64 (fun _ => None)
                   (spi_type Md) CThostFtdcMdSpi_OnHeartBeatWarning in
  (exists w', wrapper 303 sample_upcall = (Ret Py_None, w') /\ w_calls w' = [])
  /\ exists w' c, wrapper 304 sample_upcall = (Ret Py_None, w') /\ w_calls w' = [EPy c].
Proof.
  assert (Hf : fresh_ok sample_upcall).
  { split; [discriminate|]. unfold sample_upcall. cbn [w_heap w_fresh]. intros o Ho.
    do 4 (rewrite lookup_insert_ne by lia). apply lookup_singleton_ne. lia. }
  assert (Hw : forall obj, obj = 300 \/ obj = 301 -> wraps_ptr sample_upcall obj (spi_type Md) 4096).
  { intros obj [-> | ->]; (split; [discriminate|]); (split; [discriminate|]); eexists 301, _;
      (split; [reflexivity|]); do 3 (split; [reflexivity|]); [right|left]; repeat split; discriminate. }
  pose proof (fun args obj => upcall_contract (H := ctp_types (fun _ => 0) (fun _ => true)) (H0 := sample_interp)
    (PyLaws0 := sample_interp_laws) 64 (fun _ => None)
    sample_upcall (spi_type Md) CThostFtdcMdSpi_OnHeartBeatWarning args obj [302] [7] 4096 ltac:(discriminate) eq_refl eq_refl
    Hf) as T.
  split.
  - destruct (T 303 300) as (w' & E & S); [discriminate|apply Nat.ltb_lt; reflexivity|reflexivity|by apply Hw; left|discriminate| |].
    + split; [split; [reflexivity|split; discriminate]|exact I].
    + exists w'. split; [exact E|]. exact (same_calls _ _ S).
  - destruct (T 304 301) as (pyargs & wc & _ & _ & [Hfree _] & Hrun);
      [discriminate|apply Nat.ltb_lt; reflexivity|reflexivity|by apply Hw; right|discriminate| |discriminate|].
    + split; [split; [reflexivity|split; discriminate]|exact I].
    + unfold first_free in Hfree. destruct (Hrun _ _ eq_refl) as (w' & E & _ & _ & Hc & _).
      * intros E0. cbn in E0. lia.
      * eexists w', _. split; [exact E|exact Hc].
Defined.

End Upcalls.
