(* ===== verification/Requests.v ===== *)
(** * The requests of the ctp module

    Every wrapper of a request of [CThostFtdcMdApi] and [CThostFtdcTraderApi] in
    ctp_wrap.cpp as an instance of the template [wrap_api_request], the four
    subscriptions as instances of [wrap_subscribe], and the virtual methods the
    headers ThostFtdcMdApi.h and ThostFtdcTraderApi.h declare, in the order of
    their vtable. *)

From S2P Require Import Prelude CtpTypes World Runtime Api Session.

Module Requests.
Import World Runtime Api Session.
Local Open Scope string_scope.
Local Open Scope list_scope.
Local Open Scope nat_scope.

(** The names in the messages and the [SWIGTYPE] indices of a request wrapper. *)
Record request := mk_request {
  rq_class : string; rq_method : string; rq_field : string; rq_api_ty : nat; rq_field_ty : nat }.

Definition wrap_of (long_w : Z) `{TypeEnv} (implicit : nat -> option (Z -> M Z)) `{CtpEnv}
    (r : request) : Z -> M Z :=
  wrap_api_request long_w implicit (rq_class r) (rq_method r) (rq_field r) (rq_api_ty r) (rq_field_ty r).

(** ** The wrappers *)

Definition CThostFtdcMdApi_ReqUserLogin : request :=
  mk_request "CThostFtdcMdApi" "ReqUserLogin" "CThostFtdcReqUserLoginField" 143 338.
Definition CThostFtdcMdApi_ReqUserLogout : request :=
  mk_request "CThostFtdcMdApi" "ReqUserLogout" "CThostFtdcUserLogoutField" 143 464.
Definition CThostFtdcMdApi_ReqQryMulticastInstrument : request :=
  mk_request "CThostFtdcMdApi" "ReqQryMulticastInstrument" "CThostFtdcQryMulticastInstrumentField" 143 246.
Definition CThostFtdcTraderApi_ReqAuthenticate : request :=
  mk_request "CThostFtdcTraderApi" "ReqAuthenticate" "CThostFtdcReqAuthenticateField" 439 324.
Definition CThostFtdcTraderApi_ReqUserLogin : request :=
  mk_request "CThostFtdcTraderApi" "ReqUserLogin" "CThostFtdcReqUserLoginField" 439 338.
Definition CThostFtdcTraderApi_ReqUserLogout : request :=
  mk_request "CThostFtdcTraderApi" "ReqUserLogout" "CThostFtdcUserLogoutField" 439 464.
Definition CThostFtdcTraderApi_ReqUserPasswordUpdate : request :=
  mk_request "CThostFtdcTraderApi" "ReqUserPasswordUpdate" "CThostFtdcUserPasswordUpdateField" 439 465.
Definition CThostFtdcTraderApi_ReqTradingAccountPasswordUpdate : request :=
  mk_request "CThostFtdcTraderApi" "ReqTradingAccountPasswordUpdate" "CThostFtdcTradingAccountPasswordUpdateField" 439 446.
Definition CThostFtdcTraderApi_ReqUserAuthMethod : request :=
  mk_request "CThostFtdcTraderApi" "ReqUserAuthMethod" "CThostFtdcReqUserAuthMethodField" 439 337.
Definition CThostFtdcTraderApi_ReqGenUserCaptcha : request :=
  mk_request "CThostFtdcTraderApi" "ReqGenUserCaptcha" "CThostFtdcReqGenUserCaptchaField" 439 329.
Definition CThostFtdcTraderApi_ReqGenUserText : request :=
  mk_request "CThostFtdcTraderApi" "ReqGenUserText" "CThostFtdcReqGenUserTextField" 439 330.
Definition CThostFtdcTraderApi_ReqUserLoginWithCaptcha : request :=
  mk_request "CThostFtdcTraderApi" "ReqUserLoginWithCaptcha" "CThostFtdcReqUserLoginWithCaptchaField" 439 340.
Definition CThostFtdcTraderApi_ReqUserLoginWithText : request :=
  mk_request "CThostFtdcTraderApi" "ReqUserLoginWithText" "CThostFtdcReqUserLoginWithTextField" 439 342.
Definition CThostFtdcTraderApi_ReqUserLoginWithOTP : request :=
  mk_request "CThostFtdcTraderApi" "ReqUserLoginWithOTP" "CThostFtdcReqUserLoginWithOTPField" 439 341.
Definition CThostFtdcTraderApi_ReqOrderInsert : request :=
  mk_request "CThostFtdcTraderApi" "ReqOrderInsert" "CThostFtdcInputOrderField" 439 89.
Definition CThostFtdcTraderApi_ReqParkedOrderInsert : request :=
  mk_request "CThostFtdcTraderApi" "ReqParkedOrderInsert" "CThostFtdcParkedOrderField" 439 164.
Definition CThostFtdcTraderApi_ReqParkedOrderAction : request :=
  mk_request "CThostFtdcTraderApi" "ReqParkedOrderAction" "CThostFtdcParkedOrderActionField" 439 163.
Definition CThostFtdcTraderApi_ReqOrderAction : request :=
  mk_request "CThostFtdcTraderApi" "ReqOrderAction" "CThostFtdcInputOrderActionField" 439 88.
Definition CThostFtdcTraderApi_ReqQryMaxOrderVolume : request :=
  mk_request "CThostFtdcTraderApi" "ReqQryMaxOrderVolume" "CThostFtdcQryMaxOrderVolumeField" 439 244.
Definition CThostFtdcTraderApi_ReqSettlementInfoConfirm : request :=
  mk_request "CThostFtdcTraderApi" "ReqSettlementInfoConfirm" "CThostFtdcSettlementInfoConfirmField" 439 376.
Definition CThostFtdcTraderApi_ReqRemoveParkedOrder : request :=
  mk_request "CThostFtdcTraderApi" "ReqRemoveParkedOrder" "CThostFtdcRemoveParkedOrderField" 439 322.
Definition CThostFtdcTraderApi_ReqRemoveParkedOrderAction : request :=
  mk_request "CThostFtdcTraderApi" "ReqRemoveParkedOrderAction" "CThostFtdcRemoveParkedOrderActionField" 439 321.
Definition CThostFtdcTraderApi_ReqExecOrderInsert : request :=
  mk_request "CThostFtdcTraderApi" "ReqExecOrderInsert" "CThostFtdcInputExecOrderField" 439 84.
Definition CThostFtdcTraderApi_ReqExecOrderAction : request :=
  mk_request "CThostFtdcTraderApi" "ReqExecOrderAction" "CThostFtdcInputExecOrderActionField" 439 83.
Definition CThostFtdcTraderApi_ReqForQuoteInsert : request :=
  mk_request "CThostFtdcTraderApi" "ReqForQuoteInsert" "CThostFtdcInputForQuoteField" 439 85.
Definition CThostFtdcTraderApi_ReqQuoteInsert : request :=
  mk_request "CThostFtdcTraderApi" "ReqQuoteInsert" "CThostFtdcInputQuoteField" 439 91.
Definition CThostFtdcTraderApi_ReqQuoteAction : request :=
  mk_request "CThostFtdcTraderApi" "ReqQuoteAction" "CThostFtdcInputQuoteActionField" 439 90.
Definition CThostFtdcTraderApi_ReqBatchOrderAction : request :=
  mk_request "CThostFtdcTraderApi" "ReqBatchOrderAction" "CThostFtdcInputBatchOrderActionField" 439 81.
Definition CThostFtdcTraderApi_ReqOptionSelfCloseInsert : request :=
  mk_request "CThostFtdcTraderApi" "ReqOptionSelfCloseInsert" "CThostFtdcInputOptionSelfCloseField" 439 87.
Definition CThostFtdcTraderApi_ReqOptionSelfCloseAction : request :=
  mk_request "CThostFtdcTraderApi" "ReqOptionSelfCloseAction" "CThostFtdcInputOptionSelfCloseActionField" 439 86.
Definition CThostFtdcTraderApi_ReqCombActionInsert : request :=
  mk_request "CThostFtdcTraderApi" "ReqCombActionInsert" "CThostFtdcInputCombActionField" 439 82.
Definition CThostFtdcTraderApi_ReqQryOrder : request :=
  mk_request "CThostFtdcTraderApi" "ReqQryOrder" "CThostFtdcQryOrderField" 439 254.
Definition CThostFtdcTraderApi_ReqQryTrade : request :=
  mk_request "CThostFtdcTraderApi" "ReqQryTrade" "CThostFtdcQryTradeField" 439 296.
Definition CThostFtdcTraderApi_ReqQryInvestorPosition : request :=
  mk_request "CThostFtdcTraderApi" "ReqQryInvestorPosition" "CThostFtdcQryInvestorPositionField" 439 232.
Definition CThostFtdcTraderApi_ReqQryTradingAccount : request :=
  mk_request "CThostFtdcTraderApi" "ReqQryTradingAccount" "CThostFtdcQryTradingAccountField" 439 300.
Definition CThostFtdcTraderApi_ReqQryInvestor : request :=
  mk_request "CThostFtdcTraderApi" "ReqQryInvestor" "CThostFtdcQryInvestorField" 439 226.
Definition CThostFtdcTraderApi_ReqQryTradingCode : request :=
  mk_request "CThostFtdcTraderApi" "ReqQryTradingCode" "CThostFtdcQryTradingCodeField" 439 301.
Definition CThostFtdcTraderApi_ReqQryInstrumentMarginRate : request :=
  mk_request "CThostFtdcTraderApi" "ReqQryInstrumentMarginRate" "CThostFtdcQryInstrumentMarginRateField" 439 219.
Definition CThostFtdcTraderApi_ReqQryInstrumentCommissionRate : request :=
  mk_request "CThostFtdcTraderApi" "ReqQryInstrumentCommissionRate" "CThostFtdcQryInstrumentCommissionRateField" 439 217.
Definition CThostFtdcTraderApi_ReqQryExchange : request :=
  mk_request "CThostFtdcTraderApi" "ReqQryExchange" "CThostFtdcQryExchangeField" 439 200.
Definition CThostFtdcTraderApi_ReqQryProduct : request :=
  mk_request "CThostFtdcTraderApi" "ReqQryProduct" "CThostFtdcQryProductField" 439 259.
Definition CThostFtdcTraderApi_ReqQryInstrument : request :=
  mk_request "CThostFtdcTraderApi" "ReqQryInstrument" "CThostFtdcQryInstrumentField" 439 218.
Definition CThostFtdcTraderApi_ReqQryDepthMarketData : request :=
  mk_request "CThostFtdcTraderApi" "ReqQryDepthMarketData" "CThostFtdcQryDepthMarketDataField" 439 191.
Definition CThostFtdcTraderApi_ReqQryTraderOffer : request :=
  mk_request "CThostFtdcTraderApi" "ReqQryTraderOffer" "CThostFtdcQryTraderOfferField" 439 299.
Definition CThostFtdcTraderApi_ReqQrySettlementInfo : request :=
  mk_request "CThostFtdcTraderApi" "ReqQrySettlementInfo" "CThostFtdcQrySettlementInfoField" 439 287.
Definition CThostFtdcTraderApi_ReqQryTransferBank : request :=
  mk_request "CThostFtdcTraderApi" "ReqQryTransferBank" "CThostFtdcQryTransferBankField" 439 303.
Definition CThostFtdcTraderApi_ReqQryInvestorPositionDetail : request :=
  mk_request "CThostFtdcTraderApi" "ReqQryInvestorPositionDetail" "CThostFtdcQryInvestorPositionDetailField" 439 231.
Definition CThostFtdcTraderApi_ReqQryNotice : request :=
  mk_request "CThostFtdcTraderApi" "ReqQryNotice" "CThostFtdcQryNoticeField" 439 247.
Definition CThostFtdcTraderApi_ReqQrySettlementInfoConfirm : request :=
  mk_request "CThostFtdcTraderApi" "ReqQrySettlementInfoConfirm" "CThostFtdcQrySettlementInfoConfirmField" 439 286.
Definition CThostFtdcTraderApi_ReqQryInvestorPositionCombineDetail : request :=
  mk_request "CThostFtdcTraderApi" "ReqQryInvestorPositionCombineDetail" "CThostFtdcQryInvestorPositionCombineDetailField" 439 230.
Definition CThostFtdcTraderApi_ReqQryCFMMCTradingAccountKey : request :=
  mk_request "CThostFtdcTraderApi" "ReqQryCFMMCTradingAccountKey" "CThostFtdcQryCFMMCTradingAccountKeyField" 439 182.
Definition CThostFtdcTraderApi_ReqQryEWarrantOffset : request :=
  mk_request "CThostFtdcTraderApi" "ReqQryEWarrantOffset" "CThostFtdcQryEWarrantOffsetField" 439 192.
Definition CThostFtdcTraderApi_ReqQryInvestorProductGroupMargin : request :=
  mk_request "CThostFtdcTraderApi" "ReqQryInvestorProductGroupMargin" "CThostFtdcQryInvestorProductGroupMarginField" 439 236.
Definition CThostFtdcTraderApi_ReqQryExchangeMarginRate : request :=
  mk_request "CThostFtdcTraderApi" "ReqQryExchangeMarginRate" "CThostFtdcQryExchangeMarginRateField" 439 203.
Definition CThostFtdcTraderApi_ReqQryExchangeMarginRateAdjust : request :=
  mk_request "CThostFtdcTraderApi" "ReqQryExchangeMarginRateAdjust" "CThostFtdcQryExchangeMarginRateAdjustField" 439 202.
Definition CThostFtdcTraderApi_ReqQryExchangeRate : request :=
  mk_request "CThostFtdcTraderApi" "ReqQryExchangeRate" "CThostFtdcQryExchangeRateField" 439 208.
Definition CThostFtdcTraderApi_ReqQrySecAgentACIDMap : request :=
  mk_request "CThostFtdcTraderApi" "ReqQrySecAgentACIDMap" "CThostFtdcQrySecAgentACIDMapField" 439 283.
Definition CThostFtdcTraderApi_ReqQryProductExchRate : request :=
  mk_request "CThostFtdcTraderApi" "ReqQryProductExchRate" "CThostFtdcQryProductExchRateField" 439 258.
Definition CThostFtdcTraderApi_ReqQryProductGroup : request :=
  mk_request "CThostFtdcTraderApi" "ReqQryProductGroup" "CThostFtdcQryProductGroupField" 439 260.
Definition CThostFtdcTraderApi_ReqQryMMInstrumentCommissionRate : request :=
  mk_request "CThostFtdcTraderApi" "ReqQryMMInstrumentCommissionRate" "CThostFtdcQryMMInstrumentCommissionRateField" 439 241.
Definition CThostFtdcTraderApi_ReqQryMMOptionInstrCommRate : request :=
  mk_request "CThostFtdcTraderApi" "ReqQryMMOptionInstrCommRate" "CThostFtdcQryMMOptionInstrCommRateField" 439 242.
Definition CThostFtdcTraderApi_ReqQryInstrumentOrderCommRate : request :=
  mk_request "CThostFtdcTraderApi" "ReqQryInstrumentOrderCommRate" "CThostFtdcQryInstrumentOrderCommRateField" 439 220.
Definition CThostFtdcTraderApi_ReqQrySecAgentTradingAccount : request :=
  mk_request "CThostFtdcTraderApi" "ReqQrySecAgentTradingAccount" "CThostFtdcQryTradingAccountField" 439 300.
Definition CThostFtdcTraderApi_ReqQrySecAgentCheckMode : request :=
  mk_request "CThostFtdcTraderApi" "ReqQrySecAgentCheckMode" "CThostFtdcQrySecAgentCheckModeField" 439 284.
Definition CThostFtdcTraderApi_ReqQrySecAgentTradeInfo : request :=
  mk_request "CThostFtdcTraderApi" "ReqQrySecAgentTradeInfo" "CThostFtdcQrySecAgentTradeInfoField" 439 285.
Definition CThostFtdcTraderApi_ReqQryOptionInstrTradeCost : request :=
  mk_request "CThostFtdcTraderApi" "ReqQryOptionInstrTradeCost" "CThostFtdcQryOptionInstrTradeCostField" 439 249.
Definition CThostFtdcTraderApi_ReqQryOptionInstrCommRate : request :=
  mk_request "CThostFtdcTraderApi" "ReqQryOptionInstrCommRate" "CThostFtdcQryOptionInstrCommRateField" 439 248.
Definition CThostFtdcTraderApi_ReqQryExecOrder : request :=
  mk_request "CThostFtdcTraderApi" "ReqQryExecOrder" "CThostFtdcQryExecOrderField" 439 211.
Definition CThostFtdcTraderApi_ReqQryForQuote : request :=
  mk_request "CThostFtdcTraderApi" "ReqQryForQuote" "CThostFtdcQryForQuoteField" 439 212.
Definition CThostFtdcTraderApi_ReqQryQuote : request :=
  mk_request "CThostFtdcTraderApi" "ReqQryQuote" "CThostFtdcQryQuoteField" 439 262.
Definition CThostFtdcTraderApi_ReqQryOptionSelfClose : request :=
  mk_request "CThostFtdcTraderApi" "ReqQryOptionSelfClose" "CThostFtdcQryOptionSelfCloseField" 439 252.
Definition CThostFtdcTraderApi_ReqQryInvestUnit : request :=
  mk_request "CThostFtdcTraderApi" "ReqQryInvestUnit" "CThostFtdcQryInvestUnitField" 439 223.
Definition CThostFtdcTraderApi_ReqQryCombInstrumentGuard : request :=
  mk_request "CThostFtdcTraderApi" "ReqQryCombInstrumentGuard" "CThostFtdcQryCombInstrumentGuardField" 439 185.
Definition CThostFtdcTraderApi_ReqQryCombAction : request :=
  mk_request "CThostFtdcTraderApi" "ReqQryCombAction" "CThostFtdcQryCombActionField" 439 184.
Definition CThostFtdcTraderApi_ReqQryTransferSerial : request :=
  mk_request "CThostFtdcTraderApi" "ReqQryTransferSerial" "CThostFtdcQryTransferSerialField" 439 304.
Definition CThostFtdcTraderApi_ReqQryAccountregister : request :=
  mk_request "CThostFtdcTraderApi" "ReqQryAccountregister" "CThostFtdcQryAccountregisterField" 439 171.
Definition CThostFtdcTraderApi_ReqQryContractBank : request :=
  mk_request "CThostFtdcTraderApi" "ReqQryContractBank" "CThostFtdcQryContractBankField" 439 189.
Definition CThostFtdcTraderApi_ReqQryParkedOrder : request :=
  mk_request "CThostFtdcTraderApi" "ReqQryParkedOrder" "CThostFtdcQryParkedOrderField" 439 256.
Definition CThostFtdcTraderApi_ReqQryParkedOrderAction : request :=
  mk_request "CThostFtdcTraderApi" "ReqQryParkedOrderAction" "CThostFtdcQryParkedOrderActionField" 439 255.
Definition CThostFtdcTraderApi_ReqQryTradingNotice : request :=
  mk_request "CThostFtdcTraderApi" "ReqQryTradingNotice" "CThostFtdcQryTradingNoticeField" 439 302.
Definition CThostFtdcTraderApi_ReqQryBrokerTradingParams : request :=
  mk_request "CThostFtdcTraderApi" "ReqQryBrokerTradingParams" "CThostFtdcQryBrokerTradingParamsField" 439 176.
Definition CThostFtdcTraderApi_ReqQryBrokerTradingAlgos : request :=
  mk_request "CThostFtdcTraderApi" "ReqQryBrokerTradingAlgos" "CThostFtdcQryBrokerTradingAlgosField" 439 175.
Definition CThostFtdcTraderApi_ReqQueryCFMMCTradingAccountToken : request :=
  mk_request "CThostFtdcTraderApi" "ReqQueryCFMMCTradingAccountToken" "CThostFtdcQueryCFMMCTradingAccountTokenField" 439 308.
Definition CThostFtdcTraderApi_ReqFromBankToFutureByFuture : request :=
  mk_request "CThostFtdcTraderApi" "ReqFromBankToFutureByFuture" "CThostFtdcReqTransferField" 439 336.
Definition CThostFtdcTraderApi_ReqFromFutureToBankByFuture : request :=
  mk_request "CThostFtdcTraderApi" "ReqFromFutureToBankByFuture" "CThostFtdcReqTransferField" 439 336.
Definition CThostFtdcTraderApi_ReqQueryBankAccountMoneyByFuture : request :=
  mk_request "CThostFtdcTraderApi" "ReqQueryBankAccountMoneyByFuture" "CThostFtdcReqQueryAccountField" 439 332.
Definition CThostFtdcTraderApi_ReqQryClassifiedInstrument : request :=
  mk_request "CThostFtdcTraderApi" "ReqQryClassifiedInstrument" "CThostFtdcQryClassifiedInstrumentField" 439 183.
Definition CThostFtdcTraderApi_ReqQryCombPromotionParam : request :=
  mk_request "CThostFtdcTraderApi" "ReqQryCombPromotionParam" "CThostFtdcQryCombPromotionParamField" 439 186.
Definition CThostFtdcTraderApi_ReqQryRiskSettleInvstPosition : request :=
  mk_request "CThostFtdcTraderApi" "ReqQryRiskSettleInvstPosition" "CThostFtdcQryRiskSettleInvstPositionField" 439 272.
Definition CThostFtdcTraderApi_ReqQryRiskSettleProductStatus : request :=
  mk_request "CThostFtdcTraderApi" "ReqQryRiskSettleProductStatus" "CThostFtdcQryRiskSettleProductStatusField" 439 273.
Definition CThostFtdcTraderApi_ReqQrySPBMFutureParameter : request :=
  mk_request "CThostFtdcTraderApi" "ReqQrySPBMFutureParameter" "CThostFtdcQrySPBMFutureParameterField" 439 275.
Definition CThostFtdcTraderApi_ReqQrySPBMOptionParameter : request :=
  mk_request "CThostFtdcTraderApi" "ReqQrySPBMOptionParameter" "CThostFtdcQrySPBMOptionParameterField" 439 279.
Definition CThostFtdcTraderApi_ReqQrySPBMIntraParameter : request :=
  mk_request "CThostFtdcTraderApi" "ReqQrySPBMIntraParameter" "CThostFtdcQrySPBMIntraParameterField" 439 277.
Definition CThostFtdcTraderApi_ReqQrySPBMInterParameter : request :=
  mk_request "CThostFtdcTraderApi" "ReqQrySPBMInterParameter" "CThostFtdcQrySPBMInterParameterField" 439 276.
Definition CThostFtdcTraderApi_ReqQrySPBMPortfDefinition : request :=
  mk_request "CThostFtdcTraderApi" "ReqQrySPBMPortfDefinition" "CThostFtdcQrySPBMPortfDefinitionField" 439 280.
Definition CThostFtdcTraderApi_ReqQrySPBMInvestorPortfDef : request :=
  mk_request "CThostFtdcTraderApi" "ReqQrySPBMInvestorPortfDef" "CThostFtdcQrySPBMInvestorPortfDefField" 439 278.
Definition CThostFtdcTraderApi_ReqQryInvestorPortfMarginRatio : request :=
  mk_request "CThostFtdcTraderApi" "ReqQryInvestorPortfMarginRatio" "CThostFtdcQryInvestorPortfMarginRatioField" 439 228.
Definition CThostFtdcTraderApi_ReqQryInvestorProdSPBMDetail : request :=
  mk_request "CThostFtdcTraderApi" "ReqQryInvestorProdSPBMDetail" "CThostFtdcQryInvestorProdSPBMDetailField" 439 235.
Definition CThostFtdcTraderApi_ReqQryInvestorCommoditySPMMMargin : request :=
  mk_request "CThostFtdcTraderApi" "ReqQryInvestorCommoditySPMMMargin" "CThostFtdcQryInvestorCommoditySPMMMarginField" 439 225.
Definition CThostFtdcTraderApi_ReqQryInvestorCommodityGroupSPMMMargin : request :=
  mk_request "CThostFtdcTraderApi" "ReqQryInvestorCommodityGroupSPMMMargin" "CThostFtdcQryInvestorCommodityGroupSPMMMarginField" 439 224.
Definition CThostFtdcTraderApi_ReqQrySPMMInstParam : request :=
  mk_request "CThostFtdcTraderApi" "ReqQrySPMMInstParam" "CThostFtdcQrySPMMInstParamField" 439 281.
Definition CThostFtdcTraderApi_ReqQrySPMMProductParam : request :=
  mk_request "CThostFtdcTraderApi" "ReqQrySPMMProductParam" "CThostFtdcQrySPMMProductParamField" 439 282.
Definition CThostFtdcTraderApi_ReqQrySPBMAddOnInterParameter : request :=
  mk_request "CThostFtdcTraderApi" "ReqQrySPBMAddOnInterParameter" "CThostFtdcQrySPBMAddOnInterParameterField" 439 274.
Definition CThostFtdcTraderApi_ReqQryRCAMSCombProductInfo : request :=
  mk_request "CThostFtdcTraderApi" "ReqQryRCAMSCombProductInfo" "CThostFtdcQryRCAMSCombProductInfoField" 439 263.
Definition CThostFtdcTraderApi_ReqQryRCAMSInstrParameter : request :=
  mk_request "CThostFtdcTraderApi" "ReqQryRCAMSInstrParameter" "CThostFtdcQryRCAMSInstrParameterField" 439 264.
Definition CThostFtdcTraderApi_ReqQryRCAMSIntraParameter : request :=
  mk_request "CThostFtdcTraderApi" "ReqQryRCAMSIntraParameter" "CThostFtdcQryRCAMSIntraParameterField" 439 266.
Definition CThostFtdcTraderApi_ReqQryRCAMSInterParameter : request :=
  mk_request "CThostFtdcTraderApi" "ReqQryRCAMSInterParameter" "CThostFtdcQryRCAMSInterParameterField" 439 265.
Definition CThostFtdcTraderApi_ReqQryRCAMSShortOptAdjustParam : request :=
  mk_request "CThostFtdcTraderApi" "ReqQryRCAMSShortOptAdjustParam" "CThostFtdcQryRCAMSShortOptAdjustParamField" 439 268.
Definition CThostFtdcTraderApi_ReqQryRCAMSInvestorCombPosition : request :=
  mk_request "CThostFtdcTraderApi" "ReqQryRCAMSInvestorCombPosition" "CThostFtdcQryRCAMSInvestorCombPositionField" 439 267.
Definition CThostFtdcTraderApi_ReqQryInvestorProdRCAMSMargin : request :=
  mk_request "CThostFtdcTraderApi" "ReqQryInvestorProdRCAMSMargin" "CThostFtdcQryInvestorProdRCAMSMarginField" 439 233.
Definition CThostFtdcTraderApi_ReqQryRULEInstrParameter : request :=
  mk_request "CThostFtdcTraderApi" "ReqQryRULEInstrParameter" "CThostFtdcQryRULEInstrParameterField" 439 269.
Definition CThostFtdcTraderApi_ReqQryRULEIntraParameter : request :=
  mk_request "CThostFtdcTraderApi" "ReqQryRULEIntraParameter" "CThostFtdcQryRULEIntraParameterField" 439 271.
Definition CThostFtdcTraderApi_ReqQryRULEInterParameter : request :=
  mk_request "CThostFtdcTraderApi" "ReqQryRULEInterParameter" "CThostFtdcQryRULEInterParameterField" 439 270.
Definition CThostFtdcTraderApi_ReqQryInvestorProdRULEMargin : request :=
  mk_request "CThostFtdcTraderApi" "ReqQryInvestorProdRULEMargin" "CThostFtdcQryInvestorProdRULEMarginField" 439 234.
Definition CThostFtdcTraderApi_ReqQryInvestorPortfSetting : request :=
  mk_request "CThostFtdcTraderApi" "ReqQryInvestorPortfSetting" "CThostFtdcQryInvestorPortfSettingField" 439 229.

Definition md_requests : list request :=
  [ CThostFtdcMdApi_ReqUserLogin;
    CThostFtdcMdApi_ReqUserLogout;
    CThostFtdcMdApi_ReqQryMulticastInstrument ].

Definition trader_requests : list request :=
  [ CThostFtdcTraderApi_ReqAuthenticate;
    CThostFtdcTraderApi_ReqUserLogin;
    CThostFtdcTraderApi_ReqUserLogout;
    CThostFtdcTraderApi_ReqUserPasswordUpdate;
    CThostFtdcTraderApi_ReqTradingAccountPasswordUpdate;
    CThostFtdcTraderApi_ReqUserAuthMethod;
    CThostFtdcTraderApi_ReqGenUserCaptcha;
    CThostFtdcTraderApi_ReqGenUserText;
    CThostFtdcTraderApi_ReqUserLoginWithCaptcha;
    CThostFtdcTraderApi_ReqUserLoginWithText;
    CThostFtdcTraderApi_ReqUserLoginWithOTP;
    CThostFtdcTraderApi_ReqOrderInsert;
    CThostFtdcTraderApi_ReqParkedOrderInsert;
    CThostFtdcTraderApi_ReqParkedOrderAction;
    CThostFtdcTraderApi_ReqOrderAction;
    CThostFtdcTraderApi_ReqQryMaxOrderVolume;
    CThostFtdcTraderApi_ReqSettlementInfoConfirm;
    CThostFtdcTraderApi_ReqRemoveParkedOrder;
    CThostFtdcTraderApi_ReqRemoveParkedOrderAction;
    CThostFtdcTraderApi_ReqExecOrderInsert;
    CThostFtdcTraderApi_ReqExecOrderAction;
    CThostFtdcTraderApi_ReqForQuoteInsert;
    CThostFtdcTraderApi_ReqQuoteInsert;
    CThostFtdcTraderApi_ReqQuoteAction;
    CThostFtdcTraderApi_ReqBatchOrderAction;
    CThostFtdcTraderApi_ReqOptionSelfCloseInsert;
    CThostFtdcTraderApi_ReqOptionSelfCloseAction;
    CThostFtdcTraderApi_ReqCombActionInsert;
    CThostFtdcTraderApi_ReqQryOrder;
    CThostFtdcTraderApi_ReqQryTrade;
    CThostFtdcTraderApi_ReqQryInvestorPosition;
    CThostFtdcTraderApi_ReqQryTradingAccount;
    CThostFtdcTraderApi_ReqQryInvestor;
    CThostFtdcTraderApi_ReqQryTradingCode;
    CThostFtdcTraderApi_ReqQryInstrumentMarginRate;
    CThostFtdcTraderApi_ReqQryInstrumentCommissionRate;
    CThostFtdcTraderApi_ReqQryExchange;
    CThostFtdcTraderApi_ReqQryProduct;
    CThostFtdcTraderApi_ReqQryInstrument;
    CThostFtdcTraderApi_ReqQryDepthMarketData;
    CThostFtdcTraderApi_ReqQryTraderOffer;
    CThostFtdcTraderApi_ReqQrySettlementInfo;
    CThostFtdcTraderApi_ReqQryTransferBank;
    CThostFtdcTraderApi_ReqQryInvestorPositionDetail;
    CThostFtdcTraderApi_ReqQryNotice;
    CThostFtdcTraderApi_ReqQrySettlementInfoConfirm;
    CThostFtdcTraderApi_ReqQryInvestorPositionCombineDetail;
    CThostFtdcTraderApi_ReqQryCFMMCTradingAccountKey;
    CThostFtdcTraderApi_ReqQryEWarrantOffset;
    CThostFtdcTraderApi_ReqQryInvestorProductGroupMargin;
    CThostFtdcTraderApi_ReqQryExchangeMarginRate;
    CThostFtdcTraderApi_ReqQryExchangeMarginRateAdjust;
    CThostFtdcTraderApi_ReqQryExchangeRate;
    CThostFtdcTraderApi_ReqQrySecAgentACIDMap;
    CThostFtdcTraderApi_ReqQryProductExchRate;
    CThostFtdcTraderApi_ReqQryProductGroup;
    CThostFtdcTraderApi_ReqQryMMInstrumentCommissionRate;
    CThostFtdcTraderApi_ReqQryMMOptionInstrCommRate;
    CThostFtdcTraderApi_ReqQryInstrumentOrderCommRate;
    CThostFtdcTraderApi_ReqQrySecAgentTradingAccount;
    CThostFtdcTraderApi_ReqQrySecAgentCheckMode;
    CThostFtdcTraderApi_ReqQrySecAgentTradeInfo;
    CThostFtdcTraderApi_ReqQryOptionInstrTradeCost;
    CThostFtdcTraderApi_ReqQryOptionInstrCommRate;
    CThostFtdcTraderApi_ReqQryExecOrder;
    CThostFtdcTraderApi_ReqQryForQuote;
    CThostFtdcTraderApi_ReqQryQuote;
    CThostFtdcTraderApi_ReqQryOptionSelfClose;
    CThostFtdcTraderApi_ReqQryInvestUnit;
    CThostFtdcTraderApi_ReqQryCombInstrumentGuard;
    CThostFtdcTraderApi_ReqQryCombAction;
    CThostFtdcTraderApi_ReqQryTransferSerial;
    CThostFtdcTraderApi_ReqQryAccountregister;
    CThostFtdcTraderApi_ReqQryContractBank;
    CThostFtdcTraderApi_ReqQryParkedOrder;
    CThostFtdcTraderApi_ReqQryParkedOrderAction;
    CThostFtdcTraderApi_ReqQryTradingNotice;
    CThostFtdcTraderApi_ReqQryBrokerTradingParams;
    CThostFtdcTraderApi_ReqQryBrokerTradingAlgos;
    CThostFtdcTraderApi_ReqQueryCFMMCTradingAccountToken;
    CThostFtdcTraderApi_ReqFromBankToFutureByFuture;
    CThostFtdcTraderApi_ReqFromFutureToBankByFuture;
    CThostFtdcTraderApi_ReqQueryBankAccountMoneyByFuture;
    CThostFtdcTraderApi_ReqQryClassifiedInstrument;
    CThostFtdcTraderApi_ReqQryCombPromotionParam;
    CThostFtdcTraderApi_ReqQryRiskSettleInvstPosition;
    CThostFtdcTraderApi_ReqQryRiskSettleProductStatus;
    CThostFtdcTraderApi_ReqQrySPBMFutureParameter;
    CThostFtdcTraderApi_ReqQrySPBMOptionParameter;
    CThostFtdcTraderApi_ReqQrySPBMIntraParameter;
    CThostFtdcTraderApi_ReqQrySPBMInterParameter;
    CThostFtdcTraderApi_ReqQrySPBMPortfDefinition;
    CThostFtdcTraderApi_ReqQrySPBMInvestorPortfDef;
    CThostFtdcTraderApi_ReqQryInvestorPortfMarginRatio;
    CThostFtdcTraderApi_ReqQryInvestorProdSPBMDetail;
    CThostFtdcTraderApi_ReqQryInvestorCommoditySPMMMargin;
    CThostFtdcTraderApi_ReqQryInvestorCommodityGroupSPMMMargin;
    CThostFtdcTraderApi_ReqQrySPMMInstParam;
    CThostFtdcTraderApi_ReqQrySPMMProductParam;
    CThostFtdcTraderApi_ReqQrySPBMAddOnInterParameter;
    CThostFtdcTraderApi_ReqQryRCAMSCombProductInfo;
    CThostFtdcTraderApi_ReqQryRCAMSInstrParameter;
    CThostFtdcTraderApi_ReqQryRCAMSIntraParameter;
    CThostFtdcTraderApi_ReqQryRCAMSInterParameter;
    CThostFtdcTraderApi_ReqQryRCAMSShortOptAdjustParam;
    CThostFtdcTraderApi_ReqQryRCAMSInvestorCombPosition;
    CThostFtdcTraderApi_ReqQryInvestorProdRCAMSMargin;
    CThostFtdcTraderApi_ReqQryRULEInstrParameter;
    CThostFtdcTraderApi_ReqQryRULEIntraParameter;
    CThostFtdcTraderApi_ReqQryRULEInterParameter;
    CThostFtdcTraderApi_ReqQryInvestorProdRULEMargin;
    CThostFtdcTraderApi_ReqQryInvestorPortfSetting ].

(** A subscription wrapper: its class and method. *)
Definition wrap_subscription `{TypeEnv} (implicit : nat -> option (Z -> M Z)) `{CtpEnv} (utf8_buffer : Z -> Z)
    (s : string * string) : Z -> M Z :=
  wrap_subscribe implicit utf8_buffer (fst s) (snd s) 143.

Definition CThostFtdcMdApi_SubscribeMarketData : string * string := ("CThostFtdcMdApi", "SubscribeMarketData").
Definition CThostFtdcMdApi_UnSubscribeMarketData : string * string := ("CThostFtdcMdApi", "UnSubscribeMarketData").
Definition CThostFtdcMdApi_SubscribeForQuoteRsp : string * string := ("CThostFtdcMdApi", "SubscribeForQuoteRsp").
Definition CThostFtdcMdApi_UnSubscribeForQuoteRsp : string * string := ("CThostFtdcMdApi", "UnSubscribeForQuoteRsp").
Definition md_subscriptions : list (string * string) :=
  [ CThostFtdcMdApi_SubscribeMarketData;
    CThostFtdcMdApi_UnSubscribeMarketData;
    CThostFtdcMdApi_SubscribeForQuoteRsp;
    CThostFtdcMdApi_UnSubscribeForQuoteRsp ].

(** ** The declarations *)

Inductive cparam := CPtr (t : string) | CInt | CChars | CCharsArray | CEnum (t : string).
Inductive cresult := RVoid | RInt | RChars.

Definition CThostFtdcMdApi_virtuals : list (cresult * string * list cparam) :=
  [ (RVoid, "Release", []);
    (RVoid, "Init", []);
    (RInt, "Join", []);
    (RChars, "GetTradingDay", []);
    (RVoid, "RegisterFront", [CChars]);
    (RVoid, "RegisterNameServer", [CChars]);
    (RVoid, "RegisterFensUserInfo", [CPtr "CThostFtdcFensUserInfoField"]);
    (RVoid, "RegisterSpi", [CPtr "CThostFtdcMdSpi"]);
    (RInt, "SubscribeMarketData", [CCharsArray; CInt]);
    (RInt, "UnSubscribeMarketData", [CCharsArray; CInt]);
    (RInt, "SubscribeForQuoteRsp", [CCharsArray; CInt]);
    (RInt, "UnSubscribeForQuoteRsp", [CCharsArray; CInt]);
    (RInt, "ReqUserLogin", [CPtr "CThostFtdcReqUserLoginField"; CInt]);
    (RInt, "ReqUserLogout", [CPtr "CThostFtdcUserLogoutField"; CInt]);
    (RInt, "ReqQryMulticastInstrument", [CPtr "CThostFtdcQryMulticastInstrumentField"; CInt]) ].

Definition CThostFtdcTraderApi_virtuals : list (cresult * string * list cparam) :=
  [ (RVoid, "Release", []);
    (RVoid, "Init", []);
    (RInt, "Join", []);
    (RChars, "GetTradingDay", []);
    (RVoid, "GetFrontInfo", [CPtr "CThostFtdcFrontInfoField"]);
    (RVoid, "RegisterFront", [CChars]);
    (RVoid, "RegisterNameServer", [CChars]);
    (RVoid, "RegisterFensUserInfo", [CPtr "CThostFtdcFensUserInfoField"]);
    (RVoid, "RegisterSpi", [CPtr "CThostFtdcTraderSpi"]);
    (RVoid, "SubscribePrivateTopic", [CEnum "THOST_TE_RESUME_TYPE"]);
    (RVoid, "SubscribePublicTopic", [CEnum "THOST_TE_RESUME_TYPE"]);
    (RInt, "ReqAuthenticate", [CPtr "CThostFtdcReqAuthenticateField"; CInt]);
    (RInt, "RegisterUserSystemInfo", [CPtr "CThostFtdcUserSystemInfoField"]);
    (RInt, "SubmitUserSystemInfo", [CPtr "CThostFtdcUserSystemInfoField"]);
    (RInt, "ReqUserLogin", [CPtr "CThostFtdcReqUserLoginField"; CInt]);
    (RInt, "ReqUserLogout", [CPtr "CThostFtdcUserLogoutField"; CInt]);
    (RInt, "ReqUserPasswordUpdate", [CPtr "CThostFtdcUserPasswordUpdateField"; CInt]);
    (RInt, "ReqTradingAccountPasswordUpdate", [CPtr "CThostFtdcTradingAccountPasswordUpdateField"; CInt]);
    (RInt, "ReqUserAuthMethod", [CPtr "CThostFtdcReqUserAuthMethodField"; CInt]);
    (RInt, "ReqGenUserCaptcha", [CPtr "CThostFtdcReqGenUserCaptchaField"; CInt]);
    (RInt, "ReqGenUserText", [CPtr "CThostFtdcReqGenUserTextField"; CInt]);
    (RInt, "ReqUserLoginWithCaptcha", [CPtr "CThostFtdcReqUserLoginWithCaptchaField"; CInt]);
    (RInt, "ReqUserLoginWithText", [CPtr "CThostFtdcReqUserLoginWithTextField"; CInt]);
    (RInt, "ReqUserLoginWithOTP", [CPtr "CThostFtdcReqUserLoginWithOTPField"; CInt]);
    (RInt, "ReqOrderInsert", [CPtr "CThostFtdcInputOrderField"; CInt]);
    (RInt, "ReqParkedOrderInsert", [CPtr "CThostFtdcParkedOrderField"; CInt]);
    (RInt, "ReqParkedOrderAction", [CPtr "CThostFtdcParkedOrderActionField"; CInt]);
    (RInt, "ReqOrderAction", [CPtr "CThostFtdcInputOrderActionField"; CInt]);
    (RInt, "ReqQryMaxOrderVolume", [CPtr "CThostFtdcQryMaxOrderVolumeField"; CInt]);
    (RInt, "ReqSettlementInfoConfirm", [CPtr "CThostFtdcSettlementInfoConfirmField"; CInt]);
    (RInt, "ReqRemoveParkedOrder", [CPtr "CThostFtdcRemoveParkedOrderField"; CInt]);
    (RInt, "ReqRemoveParkedOrderAction", [CPtr "CThostFtdcRemoveParkedOrderActionField"; CInt]);
    (RInt, "ReqExecOrderInsert", [CPtr "CThostFtdcInputExecOrderField"; CInt]);
    (RInt, "ReqExecOrderAction", [CPtr "CThostFtdcInputExecOrderActionField"; CInt]);
    (RInt, "ReqForQuoteInsert", [CPtr "CThostFtdcInputForQuoteField"; CInt]);
    (RInt, "ReqQuoteInsert", [CPtr "CThostFtdcInputQuoteField"; CInt]);
    (RInt, "ReqQuoteAction", [CPtr "CThostFtdcInputQuoteActionField"; CInt]);
    (RInt, "ReqBatchOrderAction", [CPtr "CThostFtdcInputBatchOrderActionField"; CInt]);
    (RInt, "ReqOptionSelfCloseInsert", [CPtr "CThostFtdcInputOptionSelfCloseField"; CInt]);
    (RInt, "ReqOptionSelfCloseAction", [CPtr "CThostFtdcInputOptionSelfCloseActionField"; CInt]);
    (RInt, "ReqCombActionInsert", [CPtr "CThostFtdcInputCombActionField"; CInt]);
    (RInt, "ReqQryOrder", [CPtr "CThostFtdcQryOrderField"; CInt]);
    (RInt, "ReqQryTrade", [CPtr "CThostFtdcQryTradeField"; CInt]);
    (RInt, "ReqQryInvestorPosition", [CPtr "CThostFtdcQryInvestorPositionField"; CInt]);
    (RInt, "ReqQryTradingAccount", [CPtr "CThostFtdcQryTradingAccountField"; CInt]);
    (RInt, "ReqQryInvestor", [CPtr "CThostFtdcQryInvestorField"; CInt]);
    (RInt, "ReqQryTradingCode", [CPtr "CThostFtdcQryTradingCodeField"; CInt]);
    (RInt, "ReqQryInstrumentMarginRate", [CPtr "CThostFtdcQryInstrumentMarginRateField"; CInt]);
    (RInt, "ReqQryInstrumentCommissionRate", [CPtr "CThostFtdcQryInstrumentCommissionRateField"; CInt]);
    (RInt, "ReqQryExchange", [CPtr "CThostFtdcQryExchangeField"; CInt]);
    (RInt, "ReqQryProduct", [CPtr "CThostFtdcQryProductField"; CInt]);
    (RInt, "ReqQryInstrument", [CPtr "CThostFtdcQryInstrumentField"; CInt]);
    (RInt, "ReqQryDepthMarketData", [CPtr "CThostFtdcQryDepthMarketDataField"; CInt]);
    (RInt, "ReqQryTraderOffer", [CPtr "CThostFtdcQryTraderOfferField"; CInt]);
    (RInt, "ReqQrySettlementInfo", [CPtr "CThostFtdcQrySettlementInfoField"; CInt]);
    (RInt, "ReqQryTransferBank", [CPtr "CThostFtdcQryTransferBankField"; CInt]);
    (RInt, "ReqQryInvestorPositionDetail", [CPtr "CThostFtdcQryInvestorPositionDetailField"; CInt]);
    (RInt, "ReqQryNotice", [CPtr "CThostFtdcQryNoticeField"; CInt]);
    (RInt, "ReqQrySettlementInfoConfirm", [CPtr "CThostFtdcQrySettlementInfoConfirmField"; CInt]);
    (RInt, "ReqQryInvestorPositionCombineDetail", [CPtr "CThostFtdcQryInvestorPositionCombineDetailField"; CInt]);
    (RInt, "ReqQryCFMMCTradingAccountKey", [CPtr "CThostFtdcQryCFMMCTradingAccountKeyField"; CInt]);
    (RInt, "ReqQryEWarrantOffset", [CPtr "CThostFtdcQryEWarrantOffsetField"; CInt]);
    (RInt, "ReqQryInvestorProductGroupMargin", [CPtr "CThostFtdcQryInvestorProductGroupMarginField"; CInt]);
    (RInt, "ReqQryExchangeMarginRate", [CPtr "CThostFtdcQryExchangeMarginRateField"; CInt]);
    (RInt, "ReqQryExchangeMarginRateAdjust", [CPtr "CThostFtdcQryExchangeMarginRateAdjustField"; CInt]);
    (RInt, "ReqQryExchangeRate", [CPtr "CThostFtdcQryExchangeRateField"; CInt]);
    (RInt, "ReqQrySecAgentACIDMap", [CPtr "CThostFtdcQrySecAgentACIDMapField"; CInt]);
    (RInt, "ReqQryProductExchRate", [CPtr "CThostFtdcQryProductExchRateField"; CInt]);
    (RInt, "ReqQryProductGroup", [CPtr "CThostFtdcQryProductGroupField"; CInt]);
    (RInt, "ReqQryMMInstrumentCommissionRate", [CPtr "CThostFtdcQryMMInstrumentCommissionRateField"; CInt]);
    (RInt, "ReqQryMMOptionInstrCommRate", [CPtr "CThostFtdcQryMMOptionInstrCommRateField"; CInt]);
    (RInt, "ReqQryInstrumentOrderCommRate", [CPtr "CThostFtdcQryInstrumentOrderCommRateField"; CInt]);
    (RInt, "ReqQrySecAgentTradingAccount", [CPtr "CThostFtdcQryTradingAccountField"; CInt]);
    (RInt, "ReqQrySecAgentCheckMode", [CPtr "CThostFtdcQrySecAgentCheckModeField"; CInt]);
    (RInt, "ReqQrySecAgentTradeInfo", [CPtr "CThostFtdcQrySecAgentTradeInfoField"; CInt]);
    (RInt, "ReqQryOptionInstrTradeCost", [CPtr "CThostFtdcQryOptionInstrTradeCostField"; CInt]);
    (RInt, "ReqQryOptionInstrCommRate", [CPtr "CThostFtdcQryOptionInstrCommRateField"; CInt]);
    (RInt, "ReqQryExecOrder", [CPtr "CThostFtdcQryExecOrderField"; CInt]);
    (RInt, "ReqQryForQuote", [CPtr "CThostFtdcQryForQuoteField"; CInt]);
    (RInt, "ReqQryQuote", [CPtr "CThostFtdcQryQuoteField"; CInt]);
    (RInt, "ReqQryOptionSelfClose", [CPtr "CThostFtdcQryOptionSelfCloseField"; CInt]);
    (RInt, "ReqQryInvestUnit", [CPtr "CThostFtdcQryInvestUnitField"; CInt]);
    (RInt, "ReqQryCombInstrumentGuard", [CPtr "CThostFtdcQryCombInstrumentGuardField"; CInt]);
    (RInt, "ReqQryCombAction", [CPtr "CThostFtdcQryCombActionField"; CInt]);
    (RInt, "ReqQryTransferSerial", [CPtr "CThostFtdcQryTransferSerialField"; CInt]);
    (RInt, "ReqQryAccountregister", [CPtr "CThostFtdcQryAccountregisterField"; CInt]);
    (RInt, "ReqQryContractBank", [CPtr "CThostFtdcQryContractBankField"; CInt]);
    (RInt, "ReqQryParkedOrder", [CPtr "CThostFtdcQryParkedOrderField"; CInt]);
    (RInt, "ReqQryParkedOrderAction", [CPtr "CThostFtdcQryParkedOrderActionField"; CInt]);
    (RInt, "ReqQryTradingNotice", [CPtr "CThostFtdcQryTradingNoticeField"; CInt]);
    (RInt, "ReqQryBrokerTradingParams", [CPtr "CThostFtdcQryBrokerTradingParamsField"; CInt]);
    (RInt, "ReqQryBrokerTradingAlgos", [CPtr "CThostFtdcQryBrokerTradingAlgosField"; CInt]);
    (RInt, "ReqQueryCFMMCTradingAccountToken", [CPtr "CThostFtdcQueryCFMMCTradingAccountTokenField"; CInt]);
    (RInt, "ReqFromBankToFutureByFuture", [CPtr "CThostFtdcReqTransferField"; CInt]);
    (RInt, "ReqFromFutureToBankByFuture", [CPtr "CThostFtdcReqTransferField"; CInt]);
    (RInt, "ReqQueryBankAccountMoneyByFuture", [CPtr "CThostFtdcReqQueryAccountField"; CInt]);
    (RInt, "ReqQryClassifiedInstrument", [CPtr "CThostFtdcQryClassifiedInstrumentField"; CInt]);
    (RInt, "ReqQryCombPromotionParam", [CPtr "CThostFtdcQryCombPromotionParamField"; CInt]);
    (RInt, "ReqQryRiskSettleInvstPosition", [CPtr "CThostFtdcQryRiskSettleInvstPositionField"; CInt]);
    (RInt, "ReqQryRiskSettleProductStatus", [CPtr "CThostFtdcQryRiskSettleProductStatusField"; CInt]);
    (RInt, "ReqQrySPBMFutureParameter", [CPtr "CThostFtdcQrySPBMFutureParameterField"; CInt]);
    (RInt, "ReqQrySPBMOptionParameter", [CPtr "CThostFtdcQrySPBMOptionParameterField"; CInt]);
    (RInt, "ReqQrySPBMIntraParameter", [CPtr "CThostFtdcQrySPBMIntraParameterField"; CInt]);
    (RInt, "ReqQrySPBMInterParameter", [CPtr "CThostFtdcQrySPBMInterParameterField"; CInt]);
    (RInt, "ReqQrySPBMPortfDefinition", [CPtr "CThostFtdcQrySPBMPortfDefinitionField"; CInt]);
    (RInt, "ReqQrySPBMInvestorPortfDef", [CPtr "CThostFtdcQrySPBMInvestorPortfDefField"; CInt]);
    (RInt, "ReqQryInvestorPortfMarginRatio", [CPtr "CThostFtdcQryInvestorPortfMarginRatioField"; CInt]);
    (RInt, "ReqQryInvestorProdSPBMDetail", [CPtr "CThostFtdcQryInvestorProdSPBMDetailField"; CInt]);
    (RInt, "ReqQryInvestorCommoditySPMMMargin", [CPtr "CThostFtdcQryInvestorCommoditySPMMMarginField"; CInt]);
    (RInt, "ReqQryInvestorCommodityGroupSPMMMargin", [CPtr "CThostFtdcQryInvestorCommodityGroupSPMMMarginField"; CInt]);
    (RInt, "ReqQrySPMMInstParam", [CPtr "CThostFtdcQrySPMMInstParamField"; CInt]);
    (RInt, "ReqQrySPMMProductParam", [CPtr "CThostFtdcQrySPMMProductParamField"; CInt]);
    (RInt, "ReqQrySPBMAddOnInterParameter", [CPtr "CThostFtdcQrySPBMAddOnInterParameterField"; CInt]);
    (RInt, "ReqQryRCAMSCombProductInfo", [CPtr "CThostFtdcQryRCAMSCombProductInfoField"; CInt]);
    (RInt, "ReqQryRCAMSInstrParameter", [CPtr "CThostFtdcQryRCAMSInstrParameterField"; CInt]);
    (RInt, "ReqQryRCAMSIntraParameter", [CPtr "CThostFtdcQryRCAMSIntraParameterField"; CInt]);
    (RInt, "ReqQryRCAMSInterParameter", [CPtr "CThostFtdcQryRCAMSInterParameterField"; CInt]);
    (RInt, "ReqQryRCAMSShortOptAdjustParam", [CPtr "CThostFtdcQryRCAMSShortOptAdjustParamField"; CInt]);
    (RInt, "ReqQryRCAMSInvestorCombPosition", [CPtr "CThostFtdcQryRCAMSInvestorCombPositionField"; CInt]);
    (RInt, "ReqQryInvestorProdRCAMSMargin", [CPtr "CThostFtdcQryInvestorProdRCAMSMarginField"; CInt]);
    (RInt, "ReqQryRULEInstrParameter", [CPtr "CThostFtdcQryRULEInstrParameterField"; CInt]);
    (RInt, "ReqQryRULEIntraParameter", [CPtr "CThostFtdcQryRULEIntraParameterField"; CInt]);
    (RInt, "ReqQryRULEInterParameter", [CPtr "CThostFtdcQryRULEInterParameterField"; CInt]);
    (RInt, "ReqQryInvestorProdRULEMargin", [CPtr "CThostFtdcQryInvestorProdRULEMarginField"; CInt]);
    (RInt, "ReqQryInvestorPortfSetting", [CPtr "CThostFtdcQryInvestorPortfSettingField"; CInt]) ].

(** ** The tables agree *)

Inductive api := Md | Trader.

Definition api_name (a : api) : string := match a with Md => "CThostFtdcMdApi" | Trader => "CThostFtdcTraderApi" end.
Definition requests_of (a : api) : list request := match a with Md => md_requests | Trader => trader_requests end.
Definition virtuals_of (a : api) : list (cresult * string * list cparam) :=
  match a with Md => CThostFtdcMdApi_virtuals | Trader => CThostFtdcTraderApi_virtuals end.
Definition subscriptions_of (a : api) : list (string * string) :=
  match a with Md => md_subscriptions | Trader => [] end.

(** The virtual methods that take a structure and a request number, and those
    that take an array of names and its length. *)
Definition takes_request (d : cresult * string * list cparam) : bool :=
  match d with (RInt, _, [CPtr _; CInt]) => true | _ => false end.
Definition takes_names (d : cresult * string * list cparam) : bool :=
  match d with (RInt, _, [CCharsArray; CInt]) => true | _ => false end.

Definition sessions_of (a : api) : list session := match a with Md => md_sessions | Trader => trader_sessions end.

(** The declaration of a session method. *)
Definition session_virtual (s : session) : cresult * string * list cparam :=
  (match s_result s with KVoid => RVoid | KInt => RInt | KText => RChars end, s_method s,
   match s_param s with
   | None => []
   | Some PText => [CChars]
   | Some (PPtr t _) => [CPtr t]
   | Some (PEnum t) => [CEnum t]
   end).

(** The mangled name of a type index. *)
Definition mangled (ty : nat) : option string := fst <$> CtpTypes.swigt !! ty.

(** The structure a session method takes, and the index of the type its wrapper checks for. *)
Definition param_struct (s : session) : option string := match s_param s with Some (PPtr t _) => Some t | _ => None end.
Definition param_index (s : session) : option nat := match s_param s with Some (PPtr _ ty) => Some ty | _ => None end.

(** ** Properties *)

(** C29. Method tables: for either API class the wrapped requests are exactly
    the virtual methods the header declares with a structure and a request
    number, in the same order; each wrapper checks its first argument for the
    API class and its second for the declared structure.  The same holds of the
    subscriptions and, for the remaining virtual methods, of the session
    methods, so that every virtual method has its wrapper.  Slot 14 of the
    trader vtable, which the audited login calls, is [ReqUserLogin]. *)
Theorem requests_match a :
  map (fun r => (RInt, rq_method r, [CPtr (rq_field r); CInt])) (requests_of a)
    = List.filter takes_request (virtuals_of a)
  /\ map (fun r => (rq_class r, mangled (rq_api_ty r), mangled (rq_field_ty r))) (requests_of a)
     = map (fun r => (api_name a, Some ("_p_" +:+ api_name a), Some ("_p_" +:+ rq_field r))) (requests_of a)
  /\ map (fun s => (RInt, snd s, [CCharsArray; CInt])) (subscriptions_of a)
     = List.filter takes_names (virtuals_of a)
  /\ map session_virtual (sessions_of a)
     = List.filter (fun d => negb (takes_request d || takes_names d)) (virtuals_of a)
  /\ map (fun s => (s_class s, mangled (s_this s), mangled <$> param_index s)) (sessions_of a)
     = map (fun s => (api_name a, Some ("_p_" +:+ api_name a), (fun t => Some ("_p_" +:+ t)) <$> param_struct s)) (sessions_of a)
  /\ virtuals_of Trader !! Z.to_nat kReqUserLoginVtableSlot
     = Some (RInt, "ReqUserLogin", [CPtr "CThostFtdcReqUserLoginField"; CInt]).
Proof. destruct a; repeat split; vm_compute; reflexivity. Qed.

End Requests.
