(* ===== verification/Exchange.v ===== *)
(** * Records that cross the module

    The composition of the structures, their accessors, the requests and the
    callbacks, against an abstract view of a structure: a record, the bytes of
    each of its fields.  A client of the module makes a structure, assigns to
    its fields and passes it to a request ([class_new], [wrap_set],
    [wrap_of]); the library passes structures to callbacks, whose Python methods
    read the fields of the wrapper they are given ([director_method],
    [wrap_get]).  Between two calls the interpreter runs Python code of its
    own. *)

From S2P Require Import Prelude TypeTable CtpTypes World Runtime Conversions Iconv Layout Accessor Structs1 Wraps1 CtpStructs Director Classes Ownership Api Requests.

Module Exchange.
Import World Runtime Conversions Iconv Layout Accessor CtpStructs Classes Api Requests.
Local Open Scope string_scope.
Local Open Scope list_scope.
Local Open Scope Z_scope.

(** ** The abstract view *)

(** The bytes of each field, in the order of the declaration. *)
Abbreviation record := (list (list Z)).

(** The record of a structure whose bytes are all zero. *)
Definition blank (s : struct) : record := map (fun f => replicate (Z.to_nat (sizeof (snd f))) 0) s.

(** An assignment a client makes: the field, the value, and what the setter did. *)
Record assignment := mk_assignment { as_field : nat; as_value : pyobj; as_result : res Z }.

(** What the assignment does with its value, by the declared type of the field. *)
Definition outcome (s : struct) (a : assignment) : option (list Z) :=
  f ← s !! as_field a; snd (value_spec (snd f) (as_value a)).

(** An accepted value replaces the field; a refused one changes nothing. *)
Definition assign (s : struct) (r : record) (a : assignment) : record :=
  match outcome s a with Some b => <[as_field a := b]> r | None => r end.

(** The setter returns None for an accepted value and null for a refused one. *)
Definition answered (s : struct) (a : assignment) : Prop :=
  as_result a = Ret match outcome s a with Some _ => Py_None | None => 0 end.

(** ** The structure in memory *)

Record represents (w : world) (p : Z) (s : struct) (r : record) : Prop := mk_represents {
  rp_mapped : mapped w p (Z.to_nat (struct_size s));
  rp_length : length r = length s;
  rp_bytes : forall j f k o b, fields s !! j = Some (f, k, o) -> r !! j = Some b ->
    Z.of_nat (length b) = sizeof k /\ holds w (p + o) b }.

(** What Python code between two calls may do: anything, as long as it keeps
    the wrapper [obj] of the structure at [p], which has [n] bytes, and ends
    with the lock and without an error. *)
Record python (obj : Z) (ty : nat) (p n : Z) (w w' : world) : Prop := mk_python {
  py_gil : w_gil w' = true;
  py_err : w_err w' = None;
  py_obj : wraps_ptr w' obj ty p;
  py_mem : forall a, p <= a < p + n -> w_mem w' !! a = w_mem w !! a }.

(** *** Lemmas on records *)

Lemma fields_struct s j f k : s !! j = Some (f, k) -> exists o, fields s !! j = Some (f, k, o).
Proof.
  unfold fields. generalize 0. revert j. induction s as [|[g t] s IH]; intros [|j] at_ Hj; [done..| |]; simpl in *.
  - injection Hj as -> ->. destruct (place s _). by eexists.
  - destruct (IH j (round_up at_ (alignof t) + sizeof t) Hj) as [o Ho]. destruct (place s _) as [l e]. by exists o.
Qed.

Lemma represents_blank w p s : (forall i, (i < Z.to_nat (struct_size s))%nat -> w_mem w !! (p + Z.of_nat i) = Some 0) ->
  represents w p s (blank s).
Proof.
  intros Hz. split.
  - intros i Hi. by rewrite Hz.
  - unfold blank. by rewrite length_map.
  - intros j f k o b Hf Hb. destruct (layout_sound s j f k o Hf) as (Hs & Ho & He & _).
    unfold blank in Hb. rewrite list_lookup_fmap, Hs in Hb. cbn in Hb. injection Hb as <-.
    pose proof (sizeof_nonneg k). rewrite length_replicate. split; [lia|].
    intros i c Hi. apply lookup_replicate in Hi as [-> Hi].
    replace (p + o + Z.of_nat i) with (p + Z.of_nat (Z.to_nat (o + Z.of_nat i))) by lia. apply Hz. lia.
Qed.

(** The record depends only on the bytes of the structure. *)
Lemma represents_mem w w' p s r : (forall a, p <= a < p + struct_size s -> w_mem w' !! a = w_mem w !! a) ->
  represents w p s r -> represents w' p s r.
Proof.
  intros Hm [R1 R2 R3]. split; [|done|].
  - intros i Hi. rewrite Hm by lia. by apply R1.
  - intros j f k o b Hf Hb. destruct (R3 j f k o b Hf Hb) as [Hl Hh]. split; [done|].
    destruct (layout_sound s j f k o Hf) as (_ & Ho & He & _).
    intros i c Hi. apply lookup_lt_Some in Hi as Hlt. rewrite Hm by lia. by apply Hh.
Qed.

(** Writing one field. *)
Lemma represents_store w w' p s r j f k o b : represents w p s r -> fields s !! j = Some (f, k, o) ->
  Z.of_nat (length b) = sizeof k -> w_mem w' = store_bytes (w_mem w) (p + o) b -> represents w' p s (<[j := b]> r).
Proof.
  intros [R1 R2 R3] Hf Hb Hm. destruct (layout_sound s j f k o Hf) as (Hs & _ & _ & _ & Hdisj). split.
  - intros i Hi. rewrite Hm, store_bytes_lookup. case_decide; [|by apply R1].
    apply lookup_lt_is_Some_2. lia.
  - by rewrite length_insert.
  - intros j' f' k' o' b' Hf' Hb'. destruct (decide (j = j')) as [<-|Hne].
    + rewrite Hf in Hf'. injection Hf' as <- <- <-. apply lookup_lt_Some in Hs as Hlt.
      rewrite list_lookup_insert_eq in Hb' by lia. injection Hb' as <-. split; [done|].
      intros i c Hi. rewrite Hm. by apply (holds_store w).
    + rewrite list_lookup_insert_ne in Hb' by done. destruct (R3 j' f' k' o' b' Hf' Hb') as [Hl Hh]. split; [done|].
      eapply holds_store_other; [reflexivity|reflexivity|exact Hm| |exact Hh].
      destruct (Hdisj j' f' k' o' Hf' Hne); lia.
Qed.

(** ** The tables agree *)

Lemma classes_structs : map (fun c => (cl_name c, cl_struct c)) ctp_classes = ctp_structs.
Proof. reflexivity. Qed.

Lemma classes_wrappers : map (fun c => (cl_name c, cl_new c)) ctp_classes
  = map (fun p => (fst p, wr_type (snd p))) ctp_wrappers.
Proof. reflexivity. Qed.

(** The type indices of a request are those of its API class and its structure. *)
Definition request_ok (a : api) (r : request) : bool :=
  bool_decide (mangled (rq_api_ty r) = Some ("_p_" +:+ api_name a))
  && bool_decide (mangled (rq_field_ty r) = Some ("_p_" +:+ rq_field r)).

Lemma requests_ok a : forallb (request_ok a) (requests_of a) = true.
Proof. destruct a; vm_compute; reflexivity. Qed.

#[local] Opaque ctp_structs ctp_wrappers ctp_classes CtpTypes.swigt.

(** A class with its wrapper: the same name, type and structure. *)
Lemma class_wrapper i c name wr : ctp_classes !! i = Some c -> ctp_wrappers !! i = Some (name, wr) ->
  cl_name c = name /\ cl_new c = wr_type wr /\ ctp_structs !! i = Some (name, cl_struct c).
Proof.
  intros Hc Hw.
  assert (E : map (fun p => (fst p, wr_type (snd p))) ctp_wrappers !! i = Some (name, wr_type wr))
    by by rewrite list_lookup_fmap, Hw.
  rewrite <- classes_wrappers, list_lookup_fmap, Hc in E. cbn in E. injection E as <- Ht.
  split; [done|]. split; [done|]. rewrite <- classes_structs, list_lookup_fmap, Hc. done.
Qed.

Lemma mangled_inj ty ty' n : mangled ty = Some n -> mangled ty' = Some n -> ty = ty'.
Proof.
  unfold mangled. intros H1 H2. eapply (NoDup_lookup (map fst CtpTypes.swigt)); [apply CtpTypes.swigt_nodup| |];
    by rewrite list_lookup_fmap.
Qed.

(** A request for the structures of a class checks for the type of that class. *)
Lemma request_types a rq c : rq ∈ requests_of a -> c ∈ ctp_classes -> rq_field rq = cl_name c ->
  rq_field_ty rq = cl_new c /\ (rq_api_ty rq < length CtpTypes.swigt)%nat /\ (cl_new c < length CtpTypes.swigt)%nat.
Proof.
  intros Hr Hc Hn. pose proof (requests_ok a) as Hok. rewrite forallb_forall in Hok.
  specialize (Hok rq (proj1 (list_elem_of_In _ _) Hr)). unfold request_ok in Hok.
  rewrite andb_true_iff, !bool_decide_eq_true in Hok. destruct Hok as [Ha Hf].
  destruct (class_types c Hc) as (_ & _ & Hlt & (str & Ht) & _). split; [|split; [|done]].
  - eapply mangled_inj; [exact Hf|]. unfold mangled. rewrite Ht, Hn. done.
  - unfold mangled in Ha. destruct (CtpTypes.swigt !! rq_api_ty rq) as [q|] eqn:E; [|done]. by eapply lookup_lt_Some.
Qed.

(** ** Filling a structure *)

Section Filling.
Context (addr : string -> Z) (registered : nat -> bool).
#[local] Instance exchange_types : TypeEnv := ctp_types addr registered.
#[local] Instance exchange_exact : ExactTypes exchange_types := ctp_exact addr registered.
Context (long_w : Z) (implicit : nat -> option (Z -> M Z)).
(** The structure: its name, accessors and declaration; its wrapper and its address. *)
Context (name : string) (wr : wrapper) (s : struct) (obj p : Z).

(** A run of Python code that assigns to fields of the structure, one call of a
    setter after the other. *)
Inductive filling : list assignment -> world -> world -> Prop :=
| filling_nil w : filling [] w w
| filling_set j f k g f' k' o args obj1 v meth tname res l w w1 w2 w3 :
    python obj (wr_type wr) p (struct_size s) w w1 ->
    wr_rows wr !! j = Some (f, k, g) -> fields s !! j = Some (f', k', o) ->
    args <> 0 -> w_heap w1 !! args = Some (OTuple [obj; obj1]) ->
    w_heap w1 !! obj1 = Some v -> obj1 <> 0 -> obj1 <> Py_None -> plain v ->
    wrap_set long_w implicit meth name tname (wr_type wr) k o args w1 = (res, w2) ->
    filling l w2 w3 -> filling (mk_assignment j v res :: l) w w3.

Context (i : nat) (n : string).
Hypothesis Hlong : 32 <= long_w.
Hypothesis Hwr : ctp_wrappers !! i = Some (name, wr).
Hypothesis Hs : ctp_structs !! i = Some (n, s).
Hypothesis Hp : 0 < p.

(** One call of a setter is one assignment to the record. *)
Lemma set_refines j f k g f' k' o args obj1 v meth tname res w w1 w2 r :
  represents w p s r -> python obj (wr_type wr) p (struct_size s) w w1 ->
  wr_rows wr !! j = Some (f, k, g) -> fields s !! j = Some (f', k', o) ->
  args <> 0 -> w_heap w1 !! args = Some (OTuple [obj; obj1]) ->
  w_heap w1 !! obj1 = Some v -> obj1 <> 0 -> obj1 <> Py_None -> plain v ->
  wrap_set long_w implicit meth name tname (wr_type wr) k o args w1 = (res, w2) ->
  let a := mk_assignment j v res in answered s a /\ represents w2 p s (assign s r a).
Proof.
  intros HR [Hg He Hobj Hmem] Hrow Hf Ha Ht Hv Hz Hn Hpl E a.
  destruct (row_is_field i name wr n s j f k g f' k' o Hwr Hs Hrow Hf) as (-> & -> & -> & Hty).
  destruct (layout_sound s j f k o Hf) as (Hsj & Ho & Hend & _).
  pose proof (represents_mem w w1 p s r Hmem HR) as HR1. pose proof (row_sized i name wr j f k _ Hwr Hrow) as Hk.
  destruct (wrap_set_plain (H := exchange_types) long_w Hlong implicit w1 args obj obj1 meth name tname (wr_type wr) k o p v)
    as (w' & _ & _ & Hspec); try done; [lia| |].
  { intros m Hlt. replace (p + o + Z.of_nat m) with (p + Z.of_nat (Z.to_nat (o + Z.of_nat m))) by lia.
    apply (rp_mapped _ _ _ _ HR1). lia. }
  assert (Hout : outcome s a = snd (value_spec k v)) by (unfold outcome; cbn; by rewrite Hsj).
  unfold answered, assign. rewrite Hout. cbn [as_result as_field a].
  destruct (value_spec_cases k v Hk) as [(b & Ev & Hl)|(code & Ev & _)]; rewrite Ev in *; cbn [snd];
    destruct Hspec as (E' & Hm' & _); rewrite E' in E; injection E as <- <-; (split; [done|]).
  - by eapply represents_store.
  - eapply represents_mem; [|exact HR1]. intros x _. by rewrite Hm'.
Qed.

Lemma filling_refines l w w' r : filling l w w' -> represents w p s r ->
  Forall (answered s) l /\ represents w' p s (foldl (assign s) r l).
Proof.
  intros HF. revert r. induction HF as [w|j f k g f' k' o args obj1 v meth tname res l w w1 w2 w3 Hpy Hrow Hf Ha Ht Hv Hz Hn Hpl E HF IH];
    intros r HR; [by split|].
  destruct (set_refines j f k g f' k' o args obj1 v meth tname res w w1 w2 r HR Hpy Hrow Hf Ha Ht Hv Hz Hn Hpl E) as [A1 R1].
  destruct (IH _ R1) as [A2 R2]. split; [by constructor|done].
Qed.
End Filling.

(** ** Reading a structure *)

(** The wrapper a callback makes for a pointer. *)
Lemma arg_wraps w p ty obj : p <> 0 -> Director.arg_object w (Director.APtr p ty) obj -> wraps_ptr w obj ty p.
Proof.
  intros Hp Ha. cbn in Ha. rewrite (proj2 (Z.eqb_neq _ _) Hp) in Ha. destruct Ha as (Hz & Hn & t & Ht & Ho).
  do 2 (split; [done|]). eexists t, _. by split_and!.
Qed.

(** A getter gives what the record holds. *)
Lemma get_reads `{!IconvEnv} addr registered implicit warn w p s r obj i name wr n j f k g f' k' o v b meth :
  ctp_wrappers !! i = Some (name, wr) -> ctp_structs !! i = Some (n, s) -> 0 < p -> iconv_open_result <> -1 ->
  w_gil w = true -> wraps_ptr w obj (wr_type wr) p -> represents w p s r ->
  wr_rows wr !! j = Some (f, k, g) -> fields s !! j = Some (f', k', o) -> r !! j = Some b -> field_value k b = Some v ->
  gives (wrap_get (H := ctp_types addr registered) implicit warn meth name f (wr_type wr) g o obj) w v.
Proof.
  intros Hwr Hs Hp Hi Hg Hobj HR Hrow Hf Hb Hval.
  destruct (row_is_field i name wr n s j f k g f' k' o Hwr Hs Hrow Hf) as (-> & -> & -> & Hty).
  destruct (layout_sound s j f k o Hf) as (_ & Ho & _). destruct (rp_bytes _ _ _ _ HR j f k o b Hf Hb) as [Hl Hh].
  eapply (wrap_get_value (H := ctp_types addr registered) _ _ w obj meth name f (wr_type wr) k o p); try done. lia.
Qed.

#[local] Transparent ctp_structs ctp_wrappers ctp_classes CtpTypes.swigt.

(** A client with an API object, a request number and a user name. *)
Definition sample_desk : world :=
  mk_world {[100 := OSwig (mk_swigobj 4096 (Some SWIGTYPE_p_CThostFtdcTraderApi) 0 None); 102 := OInt 7;
             103 := OStr (chars "080095")]} ∅ 300 None true ∅ ∅ 65536 ∅ (-1) [].
Definition place_at (o : Z) (v : pyobj) (w : world) : world := set_heap (<[o := v]> (w_heap w)) w.

Abbreviation sample_types := (ctp_types (fun _ => 0) (fun _ => true)).
Abbreviation sample_python := (python 300 338 65536 (struct_size Structs1.CThostFtdcReqUserLoginField)).
Abbreviation sample_script := (filling (fun _ => 0) (fun _ => true) 64 (fun _ => None) "CThostFtdcReqUserLoginField"
  Wraps1.wrap_CThostFtdcReqUserLoginField Structs1.CThostFtdcReqUserLoginField 300 65536).

Lemma sample_desk_fresh : fresh_ok sample_desk.
Proof.
  split; [discriminate|]. intros o Ho. change (300 <= o) in Ho. unfold sample_desk, w_heap.
  rewrite !lookup_insert_ne by lia. rewrite lookup_singleton_ne by lia. done.
Qed.

Lemma sample_user : encodes (TChars 16) (OStr (chars "080095")) (chars "080095" ++ replicate 10 0).
Proof.
  apply (enc_text (chars "080095") 16).
  - repeat constructor; discriminate.
  - repeat constructor; discriminate.
  - split; [apply Nat.ltb_lt; reflexivity|apply Nat.leb_le; reflexivity].
Qed.

Definition sample_wrapper : pyobj := OSwig (mk_swigobj 65536 (Some 338%nat) SWIG_POINTER_OWN None).

Lemma sample_kept w o v : o <> 300 -> w_heap w !! 300 = Some sample_wrapper -> wraps_ptr (place_at o v w) 300 338 65536.
Proof.
  intros Ho Hw. split; [discriminate|]. split; [discriminate|]. exists 300. eexists. cbn.
  rewrite lookup_insert_ne by done. split; [exact Hw|]. do 3 (split; [reflexivity|]). by left.
Qed.

(** The client names the user of the structure it has made. *)
Lemma sample_fill w1 : class_new (H := sample_types) class_CThostFtdcReqUserLoginField 0 sample_desk = (Ret 300, w1) ->
  exists res w2, sample_script [mk_assignment 2 (OStr (chars "080095")) res] w1 w2
    /\ sample_python w2 (place_at 302 (OTuple [100; 300; 102]) w2)
    /\ (forall x, x < 300 -> w_heap w2 !! x = w_heap sample_desk !! x).
Proof.
  intros E1. destruct (Ownership.class_new_run (fun _ => 0) (fun _ => true) class_CThostFtdcReqUserLoginField sample_desk
    eq_refl sample_desk_fresh eq_refl) as (w1' & E1' & C1 & _ & _ & Hm & Hh & He & _).
  pose proof (eq_trans (eq_sym E1') E1) as E0. injection E0 as <-. change (w_heap w1' = <[300 := sample_wrapper]> (w_heap sample_desk)) in Hh.
  assert (H300 : w_heap w1' !! 300 = Some sample_wrapper) by (rewrite Hh; apply lookup_insert_eq).
  destruct (wrap_set_ok (H := sample_types) 64 ltac:(lia) (fun _ => None) (place_at 301 (OTuple [300; 103]) w1')
    301 300 103 "CThostFtdcReqUserLoginField_UserID_set" "CThostFtdcReqUserLoginField" "char [16]" 338 (TChars 16) 20 65536
    (OStr (chars "080095")) (chars "080095" ++ replicate 10 0)) as (w2 & E2 & _ & Hh2 & Hg2 & He2 & _).
  - exact (Ownership.ch_gil _ _ _ _ C1).
  - exact He.
  - discriminate.
  - apply Nat.ltb_lt. vm_compute. reflexivity.
  - apply lookup_insert_eq.
  - by apply sample_kept.
  - discriminate.
  - cbn. by rewrite lookup_insert_ne, Hh, lookup_insert_ne.
  - exact sample_user.
  - intros i Hi. cbn. rewrite Hm, store_bytes_lookup, length_replicate. change (w_brk sample_desk) with 65536.
    change (Ownership.class_size class_CThostFtdcReqUserLoginField) with 264%nat. cbn in Hi.
    rewrite decide_True by lia. apply lookup_lt_is_Some_2. rewrite length_replicate. lia.
  - exists (Ret Py_None), w2. split_and!.
    + eapply (filling_set _ _ _ _ _ _ _ _ _ 2 "UserID" (TChars 16) GString "UserID" (TChars 16) 20 301 103 _
        "CThostFtdcReqUserLoginField_UserID_set" "char [16]" _ [] _ (place_at 301 (OTuple [300; 103]) w1') w2);
        [split|..]; try reflexivity.
      * exact (Ownership.ch_gil _ _ _ _ C1).
      * exact He.
      * by apply sample_kept.
      * discriminate.
      * apply lookup_insert_eq.
      * cbn. by rewrite lookup_insert_ne, Hh, lookup_insert_ne.
      * discriminate.
      * discriminate.
      * by eexists.
      * exact E2.
      * constructor.
    + split; [exact Hg2|exact He2| |reflexivity]. apply sample_kept; [discriminate|]. rewrite Hh2. cbn.
      by rewrite lookup_insert_ne.
    + intros x Hx. rewrite Hh2. cbn. rewrite Hh, !lookup_insert_ne by lia. reflexivity.
Qed.

#[local] Opaque ctp_structs ctp_wrappers ctp_classes CtpTypes.swigt.

(** ** Properties *)

(** C1. A request carries the record its client filled in: for every class of
    structures the constructor returns a wrapper of a new structure.  Let the
    client run any Python code that keeps it and assign to its fields, any
    number of times, in any order, any ints, booleans, floats and texts that have
    a UTF-8 form, and then pass it to any request of either API that takes this
    structure.  The library is called once, without the lock, with the address
    of the structure, whose bytes are then, field by field, those of the last
    value each field accepted, or zero; every setter has returned None for an
    accepted value and null for a refused one; and the outcome of the library is
    reported to the client. *)
Theorem request_carries_record `{!CtpEnv, !CtpLaws _} addr registered long_w implicit a rq i c name wr w :
  let E := ctp_types addr registered in let p := w_brk w in let s := cl_struct c in
  32 <= long_w -> ctp_classes !! i = Some c -> ctp_wrappers !! i = Some (name, wr) ->
  rq ∈ requests_of a -> rq_field rq = name -> w_gil w = true -> fresh_ok w -> 0 < w_brk w ->
  exists obj w1, class_new (H := E) c 0 w = (Ret obj, w1) /\ wraps_ptr w1 obj (wr_type wr) p
    /\ forall l w2 w3 args o0 o2 q z,
       filling addr registered long_w implicit name wr s obj p l w1 w2 ->
       python obj (wr_type wr) p (struct_size s) w2 w3 -> args <> 0 ->
       w_heap w3 !! args = Some (OTuple [o0; obj; o2]) -> wraps_ptr w3 o0 (rq_api_ty rq) q -> q <> 0 ->
       w_heap w3 !! o2 = Some (OInt z) -> INT_MIN <= z <= INT_MAX ->
       exists wc, Forall (answered s) l /\ represents wc p s (foldl (assign s) (blank s) l)
         /\ same (log (EVirtual (rq_method rq) q [p; z]) w3) wc
         /\ forall res w4, ctp_method (rq_method rq) q [p; z] (set_gil false wc) = (res, w4) ->
            reported (request_decl (rq_class rq) (rq_method rq) (rq_field rq)) wc res w4
              (wrap_of (H := E) long_w implicit rq args w3).
Proof.
  intros E p s Hl Hc Hw Hrq Hn Hg Hf Hb. destruct (class_wrapper i c name wr Hc Hw) as (Hname & Hty & Hst).
  destruct (request_types a rq c Hrq (list_elem_of_lookup_2 _ _ _ Hc)) as (Hft & Hat & Hct); [congruence|].
  destruct (Ownership.class_new_run addr registered c w Hg Hf Hb) as (w1 & E1 & _ & _ & _ & Hm1 & Hh1 & _).
  destruct (Ownership.fresh_addr w Hf) as [Hz Hnone]. exists (w_fresh w), w1. split; [exact E1|]. split.
  { split; [done|]. split; [done|]. eexists (w_fresh w), _. rewrite Hh1, lookup_insert_eq. split; [done|].
    split; [done|]. split; [by rewrite <- Hty|]. split; [done|by left]. }
  intros l w2 w3 args o0 o2 q z HF HP Ha Ht H0 Hq H2 Hz2.
  assert (HB : represents w1 p s (blank s)).
  { apply represents_blank. intros m Hm. rewrite Hm1, store_bytes_lookup, length_replicate.
    unfold Ownership.class_size. fold s. fold p. rewrite decide_True by lia. apply lookup_replicate_2. lia. }
  destruct (filling_refines addr registered long_w implicit name wr s (w_fresh w) p i name Hl Hw Hst Hb l w1 w2
    (blank s) HF HB) as [HA HR].
  destruct HP as [Hg3 He3 Ho3 Hm3]. rewrite <- Hty in Ho3.
  edestruct (api_request_reported (H := E) long_w implicit w3 args o0 (w_fresh w) o2 (rq_class rq) (rq_method rq)
    (rq_field rq) (rq_api_ty rq) (rq_field_ty rq) q p z) as (wc & Hsame & Hrep); try done.
  { by rewrite Hft. }
  { rewrite Hft. by left. }
  exists wc. split; [done|]. split; [|by split].
  eapply represents_mem; [|eapply represents_mem; [exact Hm3|exact HR]].
  intros x _. by rewrite (same_mem _ _ Hsame).
Qed.

#[local] Transparent ctp_structs ctp_wrappers ctp_classes CtpTypes.swigt.

Lemma request_carries_record_witness :
  exists w1 w2 w3 res o w', class_new (H := sample_types) class_CThostFtdcReqUserLoginField 0 sample_desk = (Ret 300, w1)
    /\ sample_script [mk_assignment 2 (OStr (chars "080095")) res] w1 w2
    /\ Forall (answered Structs1.CThostFtdcReqUserLoginField) [mk_assignment 2 (OStr (chars "080095")) res]
    /\ wrap_of (H := sample_types) (H0 := sample_ctp) 64 (fun _ => None) CThostFtdcTraderApi_ReqUserLogin 302 w3 = (Ret o, w')
    /\ w_heap w' !! o = Some (OInt 0).
Proof.
  destruct (request_carries_record (H := sample_ctp) (CtpLaws0 := sample_ctp_laws) (fun _ => 0) (fun _ => true) 64
    (fun _ => None) Trader CThostFtdcTraderApi_ReqUserLogin 1 class_CThostFtdcReqUserLoginField
    "CThostFtdcReqUserLoginField" Wraps1.wrap_CThostFtdcReqUserLoginField sample_desk)
    as (obj & w1 & E1 & _ & Hreq).
  - discriminate.
  - reflexivity.
  - reflexivity.
  - right. left.
  - reflexivity.
  - reflexivity.
  - exact sample_desk_fresh.
  - reflexivity.
  - assert (obj = 300) as ->.
    { destruct (Ownership.class_new_run (fun _ => 0) (fun _ => true) class_CThostFtdcReqUserLoginField sample_desk
        eq_refl sample_desk_fresh eq_refl) as (w1' & E1' & _). pose proof (eq_trans (eq_sym E1') E1) as E0. by injection E0 as <-. }
    destruct (sample_fill w1 E1) as (res & w2 & HF & HP & Hh).
    destruct (Hreq _ w2 (place_at 302 (OTuple [100; 300; 102]) w2) 302 100 102 4096 7 HF HP) as (wc & HA & _ & _ & Hrep).
    + discriminate.
    + apply lookup_insert_eq.
    + split; [discriminate|]. split; [discriminate|]. eexists 100, _. cbn [place_at set_heap w_heap].
      rewrite lookup_insert_ne, Hh by done. split; [reflexivity|]. do 3 (split; [reflexivity|]). left. reflexivity.
    + discriminate.
    + cbn [place_at set_heap w_heap]. rewrite lookup_insert_ne, Hh by done. reflexivity.
    + split; discriminate.
    + destruct (Hrep (Ret 0) (set_gil false wc) eq_refl) as (o & w' & E & _ & _ & _ & Ho & _).
      exists w1, w2, (place_at 302 (OTuple [100; 300; 102]) w2), res, o, w'. split_and!; done.
Defined.

#[local] Opaque ctp_structs ctp_wrappers ctp_classes CtpTypes.swigt.

(** C2. A callback presents the record the library passes: when the library
    calls a callback with a pointer to a structure, the Python method of that
    name is called, once, with a wrapper for it, and whenever that method reads
    a field, while the structure is as the library passed it, the getter gives
    the value of its bytes: an int or short of that value, the same double, one
    character, or the text up to its terminator converted from GBK, when it has
    a terminator and the conversion succeeds.  When the method returns, the
    callback returns with no error and the references it owned before. *)
Theorem callback_presents_record `{!Director.PyEnv, !Director.PyLaws _, !IconvEnv} addr registered
    implicit warn cls method this args w d m i name wr n s p r :
  let E := ctp_types addr registered in
  fresh_ok w -> w_err w = None -> w_dirs w !! this = Some d -> d_self d <> 0 -> iconv_open_result <> -1 ->
  ctp_wrappers !! i = Some (name, wr) -> ctp_structs !! i = Some (n, s) ->
  args !! m = Some (Director.APtr p (wr_type wr)) -> 0 < p -> represents w p s r ->
  exists objs obj wc, let call := CallMethod (d_self d) (chars method) objs in
    objs !! m = Some obj /\ w_calls wc = w_calls w ++ [EPy call] /\ fresh_ok wc
    /\ python obj (wr_type wr) p (struct_size s) w wc
    /\ (forall w1 j f k g f' k' o v b meth, python obj (wr_type wr) p (struct_size s) wc w1 ->
          wr_rows wr !! j = Some (f, k, g) -> fields s !! j = Some (f', k', o) -> r !! j = Some b -> field_value k b = Some v ->
          gives (wrap_get (H := E) implicit warn meth name f (wr_type wr) g o obj) w1 v)
    /\ forall q wq, Director.py_run call wc = (q, wq) -> q <> 0 ->
       exists w', Director.director_method (H := E) cls method this args w = (Ret tt, w') /\ w_gil w' = w_gil w
         /\ w_err w' = None /\ forall x, refs w' x = refs w x.
Proof.
  intros E Hf He Hd Hself Hi Hw Hs Harg Hp HR.
  destruct (Director.director_run (H := E) cls method this args w d Hf He Hd Hself)
    as (objs & wc & K1 & K2 & K3 & _ & Hfc & Hc & Hm & Hrun).
  destruct (Forall2_lookup_l _ _ _ _ _ K1 Harg) as (obj & Hobj & Ho). apply arg_wraps in Ho; [|lia].
  exists objs, obj, wc. do 3 (split; [done|]). split; [by split; [done..|rewrite Hm]|]. split.
  - intros w1 j f k g f' k' o v b meth [Pg Pe Po Pm] Hrow Hfl Hb Hval.
    eapply (get_reads addr registered); try done.
    eapply represents_mem; [exact Pm|]. eapply represents_mem; [|exact HR]. intros x _. by rewrite Hm.
  - intros q wq Eq Hq. pose proof (Director.py_returns _ _ _ _ K2 K3 Hfc Eq) as [Q1 Q2 _ _ _ Q6].
    rewrite (proj2 (Z.eqb_neq _ _) Hq) in Q2.
    destruct (Hrun q wq Eq (Ret tt) wq) as (w' & E' & D1 & D2 & _ & _ & D4);
      [by rewrite (proj2 (Z.eqb_neq _ _) Hq)|done|done|].
    exists w'. split; [done|]. split; [done|]. split; [by rewrite D2|]. intros x. rewrite D4. lia.
Qed.

#[local] Transparent ctp_structs ctp_wrappers ctp_classes CtpTypes.swigt.

(** A callback whose argument is a sequence number, 77 of series 5. *)
Definition sample_news : world :=
  set_mem (store_bytes (store_bytes (store_bytes ∅ 16384 (replicate 8 0)) 16384 (le_bytes 2 5)) 16388 (le_bytes 4 77))
    Director.sample_callback_world.

Lemma sample_news_record :
  represents sample_news 16384 Structs1.CThostFtdcDisseminationField [le_bytes 2 5; le_bytes 4 77].
Proof.
  set (w0 := set_mem (store_bytes ∅ 16384 (replicate 8 0)) Director.sample_callback_world).
  set (w1 := set_mem (store_bytes (w_mem w0) 16384 (le_bytes 2 5)) w0).
  apply (represents_store w1 _ 16384 _ [le_bytes 2 5; replicate 4 0] 1 "SequenceNo" TInt 4); [|done|done|done].
  apply (represents_store w0 w1 16384 _ [replicate 2 0; replicate 4 0] 0 "SequenceSeries" TShort 0); [|done|done|done].
  apply represents_blank. intros i Hi. change (i < 8)%nat in Hi. cbn [w0 w_mem set_mem].
  rewrite store_bytes_lookup, length_replicate, decide_True by lia. apply lookup_replicate_2. lia.
Qed.

Lemma callback_presents_record_witness :
  exists obj wc w', gives (wrap_get (H := sample_types) (H0 := sample_identity) (fun _ => None) (fun _ => ret 0)
      "CThostFtdcDisseminationField_SequenceNo_get" "CThostFtdcDisseminationField" "SequenceNo" 41 GInt 4 obj) wc (OInt 77)
    /\ Director.director_method (H := sample_types) (H0 := Director.sample_interp) "CThostFtdcMdSpi" "OnRspUserLogin" 4096
         [Director.APtr 16384 41; Director.APtr 0 200; Director.AInt 7; Director.ABool true] sample_news = (Ret tt, w').
Proof.
  destruct (callback_presents_record (H := Director.sample_interp) (H0 := Director.sample_interp_laws)
    (H1 := sample_identity) (fun _ => 0) (fun _ => true) (fun _ => None) (fun _ => ret 0)
    "CThostFtdcMdSpi" "OnRspUserLogin" 4096
    [Director.APtr 16384 41; Director.APtr 0 200; Director.AInt 7; Director.ABool true] sample_news
    Director.sample_director 0 0 "CThostFtdcDisseminationField" Wraps1.wrap_CThostFtdcDisseminationField
    "CThostFtdcDisseminationField" Structs1.CThostFtdcDisseminationField 16384 [le_bytes 2 5; le_bytes 4 77])
    as (objs & obj & wc & _ & _ & [Hfree _] & HP & Hget & Hrun).
  - exact Director.sample_fresh.
  - reflexivity.
  - reflexivity.
  - discriminate.
  - discriminate.
  - reflexivity.
  - reflexivity.
  - reflexivity.
  - reflexivity.
  - exact sample_news_record.
  - unfold first_free in Hfree. destruct (Hrun _ _ eq_refl) as (w' & E' & _).
    { intros Hq. cbn in Hq. lia. }
    exists obj, wc, w'. split; [|exact E'].
    eapply (Hget wc 1%nat "SequenceNo" TInt GInt "SequenceNo" TInt 4 (OInt 77) (le_bytes 4 77)).
    + destruct HP as [P1 P2 P3 P4]. by split.
    + reflexivity.
    + reflexivity.
    + reflexivity.
    + reflexivity.
Defined.

End Exchange.
